(* ===== verification/_CoqProject ===== *)
-Q . S2P
Prelude.v
PyStr.v
PyFloat.v
PyTime.v
Json.v
Sha256.v
PyRegex.v
PyIO.v
PyPath.v
JsonText.v
PyValue.v
PyUuid.v
Configuration.v
FounderAuthority.v
Verification.v
IdentityKey.v
PyUrl.v
Isolation.v
Authority.v
EvalDomain.v
EffectControl.v
Graders.v
Aggregate.v
Qualification.v
SuiteManifest.v
SuitePackage.v
PyUnicode.v
JsonBytes.v
JsonParts.v
HostFiles.v
HostLogic.v
HostStates.v
HostRules.v
EffectJournal.v
HostDemo.v
HoldoutStore.v
TargetFingerprint.v
WorkspaceEffects.v
EffectProofs.v
WorkspacePlans.v
WorkspaceProofs.v
WorkspaceOrder.v
ChannelEffects.v
ChannelOrder.v
ChannelProofs.v
ChannelHistory.v
DispatchRows.v
KernelStore.v
Approvals.v
DispatchShadow.v
DispatchReplay.v
DispatchHistory.v
Lease.v
DurableInbox.v
HandoffLedger.v
HandoffProofs.v
