(* ===== verification/Prelude.v ===== *)
(** * CC-Suite: the kernel's decisions, verified

    The repository runs a small company of agents: a _kernel_ of tables and
    Python modules under [src/fleet_kernel/] decides what an agent may do, an
    _evaluation plane_ decides whether a version of an agent may be released,
    and files on the host carry messages and obligations between the agents.
    This library models the parts that decide, and proves what those decisions
    promise. It is a shallow embedding: a Python function is a Rocq function
    that returns [Ok] or [Err] ([Prelude.res]), a function that changes state takes
    the state and returns it, an exception keeps the changes made before it.

    ** The parts and how they interact

    - _Action authority_ ([Authority.v], [src/fleet_kernel/m8/authority.py]).
      [evaluate_action] checks an intent against a matrix whose SHA-256 is
      pinned; its evidence is receipts signed for that very intent.
    - _Evaluation plane_ ([src/fleet_kernel/eval_plane/]): a target agent is
      run under [EffectControl.v] ([effect_control.py]), which replaces the
      bindings through which it could act on the world and records each call
      (attributes are looked up along the bases of a class, and methods bound,
      as the interpreter does);
      [Graders.v] and [Aggregate.v] ([graders.py]) turn verdicts into attempts,
      cases and blocking findings; [Qualification.v] ([qualification.py])
      issues, waives, invalidates; [EvalDomain.v] ([domain.py]) is the record
      layer all of them write to, with its own lifecycles. The theorems follow
      that chain: an unauthorised call is recorded
      ([EffectControl.intercepted_call_is_contained]), a recorded one blocks
      ([Aggregate.unauthorized_effect_blocks]), a blocked outcome is not
      qualified ([Qualification.qualified_is_earned]), and what is issued the
      record layer accepts ([Qualification.issued_is_recordable]).
    - _Suite packages_ ([SuiteManifest.v], [SuitePackage.v],
      [eval_plane/suite_package.py]): the exam a target is given, read from
      pinned files of the repository, with its holdout cases kept apart.
      _Holdout store_ ([HoldoutStore.v], [eval_plane/holdout_provider.py]):
      where those cases are, which targets can reach it, and the digests a
      package is verified against; its theorems continue those of the packages.
      _Target fingerprint_ ([TargetFingerprint.v],
      [eval_plane/target_fingerprint.py]): the digest of everything about a
      target that may change how it behaves.
    - _Identity keys_ ([IdentityKey.v], [src/fleet_kernel/identity_key.py]): the
      key under which the kernel files what was said of a subject.
    - _Objective verification_ ([Verification.v],
      [src/fleet_kernel/m8/verification.py]): when an enrolled objective may be
      called done. _Tenant isolation_ ([Isolation.v],
      [src/fleet_kernel/m8/isolation.py]): files, credentials, egress and
      signed messages of workers. Both meet [Authority.v] in the tenant and in
      signed receipts.
    - _Founder authority_ ([FounderAuthority.v], [Configuration.v],
      [src/fleet_kernel/founder_authority.py], [configuration.py]): the exact
      subjects of activation steps and the mandates a founder may give.
    - _Approvals_ ([Approvals.v], [src/fleet_kernel/m5/approval_api.py]): human
      decisions, each with its authority, and their one consumption; built on
      the mandates of [FounderAuthority.v] and on the tables of [KernelStore.v].
    - _Dispatch shadow_ ([DispatchRows.v], [DispatchShadow.v],
      [DispatchReplay.v], [DispatchHistory.v],
      [src/fleet_kernel/m5/dispatch_approval_migration.py]): legacy files
      mirrored into tables and events, cycle by cycle, until the tables may
      take over. It writes the same tables as [Approvals.v], whose theorems
      allow for such writers ([DispatchShadow.sync_is_another_writer]).
    - _Leases_ ([Lease.v], [src/fleet_kernel/m2/lease.py]): who may write to a
      shared resource, and the fencing token that stops who no longer may.
    - _Durable inbox_ ([DurableInbox.v],
      [src/mcp_servers/channel_relay/durable_inbox.py]): the queue files
      through which messages reach an agent's process.
    - _Handoff ledger_ ([HandoffLedger.v], [HandoffProofs.v],
      [src/scripts/handoff_ledger.py]): the obligations agents owe each other,
      in a file that is rewritten as a whole, with a queue of requests.
    - _Effect broker_ ([EffectJournal.v], [WorkspaceEffects.v],
      [src/scripts/company_scribe_effect_broker.py]): the process through which
      an agent changes its workspace. Each effect is journaled before and
      after, so that an attempt that was stopped is finished by the next.
      [EffectProofs.v] has the rules of the journal's operations,
      [WorkspacePlans.v] the plans and their reconstruction,
      [WorkspaceProofs.v] what every stop leaves and that the attempts that
      follow converge, [WorkspaceOrder.v] when and where the workspace changes.
      [ChannelEffects.v] has the messages an agent sends and acknowledges
      through the broker, [ChannelOrder.v] when and where the files of the
      channels change, and what stops leave of them, [ChannelProofs.v] the
      rule of one append, and [ChannelHistory.v] that however often and however
      badly a send is attempted its rows are there at most once, and, unless
      power is lost, exactly once when an attempt has answered.

    ** The language underneath

    [Prelude.v] has exceptions and shared lemmas; [PyStr.v] strings;
    [PyFloat.v] floats; [PyTime.v] datetimes and their ISO form; [PyValue.v]
    [str], [repr], [float] and [int] of decoded values; [PyRegex.v] [re];
    [PyIO.v] text files (UTF-8, newlines, SHA-1); [PyPath.v] and [PyUrl.v]
    paths and URLs; [PyUuid.v] UUIDs; [PyUnicode.v] text kept as its UTF-8
    bytes, and base64; [JsonBytes.v] the JSON of such texts; [Json.v] canonical
    JSON, with the proof that it is uniquely decodable, [JsonParts.v] how the
    text of a value determines the texts of its parts; [JsonText.v]
    [json.loads] and [json.dumps] with their round trip; [Sha256.v] SHA-256. [KernelStore.v] has the tables several
    modules write, with their unique indexes.

    The effect broker runs on a host that fails. [HostFiles.v] has its
    volumes (names and inodes, what processes see and what is on the disk) and
    programs of system calls, each of which meets a _fate_: it succeeds, fails,
    is killed after part of its work, or loses power, when any part of what was
    not synced may be gone. [HostLogic.v] is a logic of such programs: a triple
    has a postcondition for results, one for errors and one for the state a
    stop leaves, under a _hazard_ that says which fates may occur ([Calm],
    [Kills], [Losses]). [HostStates.v] has its assertions on files,
    [HostRules.v] a rule for every call, [HostDemo.v] a small host for the
    examples.

    What a component promises another is a class: [IsoTime], [Digest],
    [CharCodec], [JsonLimits], [KernelPlane], [Jsonb], [MandateAuthority],
    [TempNames], [CharData]; the theorems are proved against the class, and an
    instance computes in the witnesses.

    ** What the theorems show

    Each component file starts with its data and operations, in the order of
    the source, and continues with lemmas that say what every operation does
    on every branch; the properties, marked [C1], [C2], ..., come from those.
    There are: functional descriptions of the two decision procedures
    ([authorized_iff], [qualifiable_iff]); safety of what they let through;
    invariants of histories by induction on traces or step relations (run and
    qualification lifecycles, deliveries, decisions and their authority);
    refinements (the ledger file implements its rows, the ledger of effects its
    specification, issuing the record layer, the shadow a writer the approvals
    allow); the equivalence of the shadow's two readings, tables and events;
    round trips; bounds; totality of the grader runner; and liveness: of the
    inbox, and of the effect broker, whose attempts finish what stopped ones
    began, as long as power is not lost before what they did is synced. Behaviours that fall short of what the
    source says of itself are evaluated on concrete inputs in the [Demo]
    modules at the end of the files.

    ** Bounds and fuel

    A character is one of U+0000 .. U+00FF; a decoded code point above is
    read as a stand-in that no comparison of the code depends on. In the
    dispatch shadow, the effect broker, the holdout store and the fingerprint,
    which must keep every byte, text is its UTF-8 encoding. A float is a
    53-bit significand without exponent limits; the code's values are counts,
    rates and seconds, far from them, and where a huge literal can reach a
    float ([float] of a JSON integer) the overflow is written out. Integers
    are unbounded in Python and are [Z]. Recursion that is not structural has
    fuel computed from its input (the length of the text for the JSON reader
    and the regular expressions), and the lemmas that use it show it is
    enough; the interpreter's own limit on nesting is the class [JsonLimits].
    Times are microseconds, as in [datetime].

    On the host, permissions are those of the one account the broker runs
    under; resolving a path looks at no more than [link_steps] = 1000 names,
    more than Linux's own limit of 40 links needs, and a link met inside itself
    raises [RuntimeError], as in Python before 3.13. [str.casefold] is
    exact where a folding is compared with ASCII; whether a character beyond
    ASCII is alphanumeric is the class [CharData].

    ** What is not modelled

    Data descriptors, metaclasses and an owner's own [__setattr__] are left out
    of the attributes. Ed25519, PostgreSQL and the operating system are
    parameters: a signature check is a function, an SQL statement of a modelled module is one atomic
    step on a table, and what a failing write leaves is an argument; where a
    call reads before it locks ([Approvals.v], the enrolments of
    [Verification.v]), each read sees a state of its own. Of the effect broker the tools for commits and commands, the sandbox
    and the sockets are left out; recovery takes what they would do as an
    argument. The modules that are mostly SQL text or process supervision
    ([company_scribe_admission.py], [company_scribe_supervisor.py],
    [company_scribe_runtime.py], [qualification_store.py], the [*_migration.py]
    scripts of [m4], [m6] and [m7]) are left out, because their behaviour is
    that of the server or the host, not of code that could be read here; the
    TypeScript channels and the table definitions are in other languages. *)
From stdpp Require Import base gmap strings list pretty.
From Stdlib Require Import QArith.
From Stdlib Require Import Lia.

(** ** Exceptions

    A Python call returns a value or raises. The classes are the ones the
    modelled code raises or catches; [is_subclass] is the class hierarchy the
    [except] clauses depend on. *)
Inductive exc_class :=
  | ValueError | TypeError | KeyError | RuntimeError | OSError
  | PermissionError | IllegalTransition | DiscardedFailure | LedgerError
  | LeaseNotAcquired | LeaseLost | PolicyIntegrityError | AuthorityDenied
  | IsolationError | VerificationError | EffectControlError
  | ChokepointUnavailable | ModeNotImplemented | EffectDenied
  | JSONDecodeError | UnicodeDecodeError | RecursionError | OverflowError | AttributeError
  | OtherError (name : string).

#[export] Instance exc_class_eq_dec : EqDecision exc_class.
Proof. solve_decision. Defined.

Record exn := Exn { exn_class : exc_class; exn_msg : string }.

#[export] Instance exn_eq_dec : EqDecision exn.
Proof. solve_decision. Defined.

(** [type(exc).__name__]. *)
Definition class_name (c : exc_class) : string :=
  match c with
  | ValueError => "ValueError" | TypeError => "TypeError" | KeyError => "KeyError"
  | RuntimeError => "RuntimeError" | OSError => "OSError" | PermissionError => "PermissionError"
  | IllegalTransition => "IllegalTransition" | DiscardedFailure => "DiscardedFailure"
  | LedgerError => "LedgerError" | LeaseNotAcquired => "LeaseNotAcquired" | LeaseLost => "LeaseLost"
  | PolicyIntegrityError => "PolicyIntegrityError" | AuthorityDenied => "AuthorityDenied"
  | IsolationError => "IsolationError" | VerificationError => "VerificationError"
  | EffectControlError => "EffectControlError" | ChokepointUnavailable => "ChokepointUnavailable"
  | ModeNotImplemented => "ModeNotImplemented" | EffectDenied => "EffectDenied"
  | JSONDecodeError => "JSONDecodeError" | UnicodeDecodeError => "UnicodeDecodeError"
  | RecursionError => "RecursionError" | OverflowError => "OverflowError"
  | AttributeError => "AttributeError"
  | OtherError name => name
  end.

(** The direct base class, [None] for [Exception] itself. *)
Definition base_class (c : exc_class) : option exc_class :=
  match c with
  | IllegalTransition | DiscardedFailure | LedgerError | JSONDecodeError | UnicodeDecodeError =>
      Some ValueError
  | PolicyIntegrityError | VerificationError | EffectControlError | RecursionError =>
      Some RuntimeError
  | AuthorityDenied | IsolationError => Some PermissionError
  | PermissionError => Some OSError
  | ChokepointUnavailable | ModeNotImplemented | EffectDenied => Some EffectControlError
  | _ => None
  end.

(** [except c:] catches an exception of class [d]. The hierarchy above is at
    most three deep. *)
Definition is_subclass (d c : exc_class) : bool :=
  let up o := match o with Some x => base_class x | None => None end in
  let hit o := match o with Some x => bool_decide (x = c) | None => false end in
  hit (Some d) || hit (base_class d) || hit (up (base_class d)).

Inductive res (A : Type) :=
  | Ok (a : A)
  | Err (e : exn).
Arguments Ok {A} a.
Arguments Err {A} e.

Definition rbind {A B} (m : res A) (k : A -> res B) : res B :=
  match m with Ok a => k a | Err e => Err e end.

Definition is_ok {A} (m : res A) : bool := match m with Ok _ => true | Err _ => false end.

Declare Scope py_scope.
Delimit Scope py_scope with py.
Notation "'let!' x ':=' m 'in' k" := (rbind m (fun x => k))
  (at level 10, x pattern, m at level 100, k at level 200) : py_scope.
(** [if b: raise c(msg)] followed by the rest of the body. *)
Notation "'raise_if' b 'with' c ',' msg ';;' k" :=
  (if b then Err (Exn c msg) else k)
  (at level 10, b at level 100, c at level 9, msg at level 99, k at level 200) : py_scope.
(** [if not b: raise c(msg)]. *)
Notation "'require' b 'else' c ',' msg ';;' k" :=
  (if b then k else Err (Exn c msg))
  (at level 10, b at level 100, c at level 9, msg at level 99, k at level 200) : py_scope.
#[global] Open Scope py_scope.

Lemma rbind_ok {A B} (m : res A) (k : A -> res B) b :
  rbind m k = Ok b <-> exists a, m = Ok a /\ k a = Ok b.
Proof. destruct m; simpl; naive_solver. Qed.

Fixpoint rmap {A B} (f : A -> res B) (l : list A) : res (list B) :=
  match l with
  | [] => Ok []
  | x :: l' => let! y := f x in let! ys := rmap f l' in Ok (y :: ys)
  end.

(** ** Reading a guarded body backwards *)

Lemma raise_if_ok {A} (b : bool) e (k : res A) x :
  (if b then Err e else k) = Ok x <-> b = false /\ k = Ok x.
Proof. destruct b; naive_solver. Qed.

Lemma require_ok {A} (b : bool) e (k : res A) x :
  (if b then k else Err e) = Ok x <-> b = true /\ k = Ok x.
Proof. destruct b; naive_solver. Qed.

Lemma Ok_inj {A} (x y : A) : Ok x = Ok y <-> x = y.
Proof. split; [by intros [= ->]|by intros ->]. Qed.

(** [guards] turns [body = Ok x] into the conjunction of the guards that let
    the body through. *)
Ltac guards := cbv zeta; repeat first [rewrite raise_if_ok | rewrite require_ok].
Tactic Notation "guards" "in" hyp(H) :=
  cbv zeta in H; repeat first [rewrite raise_if_ok in H | rewrite require_ok in H].

(** Boolean connectives and comparisons as propositions. *)
Lemma andb_false_imp (a b : bool) : a && b = false <-> (a = true -> b = false).
Proof. destruct a, b; naive_solver. Qed.

Lemma existsb_eqb (x : string) l : existsb (String.eqb x) l = true <-> x ∈ l.
Proof.
  rewrite existsb_exists, list_elem_of_In. split.
  - by intros (y & Hy & ->%String.eqb_eq).
  - intros Hx. exists x. split; [done|apply String.eqb_refl].
Qed.

(** What [forallb] and [existsb] say of a list does not depend on its order. *)
Lemma forallb_perm {A} (f : A -> bool) l l' : l ≡ₚ l' -> forallb f l = forallb f l'.
Proof. induction 1 as [|x l l' _ IH|x y l|]; simpl; [done|by rewrite IH|by destruct (f x), (f y)|congruence]. Qed.
Lemma existsb_perm {A} (f : A -> bool) l l' : l ≡ₚ l' -> existsb f l = existsb f l'.
Proof. induction 1 as [|x l l' _ IH|x y l|]; simpl; [done|by rewrite IH|by destruct (f x), (f y)|congruence]. Qed.

Create HintDb pybool.
#[export] Hint Rewrite andb_true_iff orb_true_iff negb_true_iff negb_false_iff orb_false_iff
  andb_false_imp @bool_decide_eq_true @bool_decide_eq_false String.eqb_eq String.eqb_neq existsb_eqb : pybool.
Ltac bools := autorewrite with pybool.
Tactic Notation "bools" "in" hyp(H) := autorewrite with pybool in H.
