(* ===== verification/PyStr.v ===== *)
(** * Python strings

    A Python [str] is modelled as a [string] whose characters are the code
    points U+0000 .. U+00FF (one [ascii] each). [isspace], [lower] and
    [isdigit] are the Unicode tables restricted to that range. *)
From S2P Require Import Prelude.
From stdpp Require Import base gmap strings list pretty.
From Stdlib Require Import Lia NArith ZArith DecimalString.

Definition code (c : Ascii.ascii) : N := Ascii.N_of_ascii c.
Definition chars (s : string) : list Ascii.ascii := String.list_ascii_of_string s.
Definition of_chars (l : list Ascii.ascii) : string := String.string_of_list_ascii l.

(** [str.isspace] on one character. *)
Definition isspace (c : Ascii.ascii) : bool :=
  let n := code c in
  ((9 <=? n) && (n <=? 13) || (28 <=? n) && (n <=? 32) || (n =? 133) || (n =? 160))%N.

Fixpoint lstrip_l (l : list Ascii.ascii) : list Ascii.ascii :=
  match l with c :: r => if isspace c then lstrip_l r else l | [] => [] end.
Definition rstrip_l (l : list Ascii.ascii) : list Ascii.ascii := rev (lstrip_l (rev l)).
Definition strip (s : string) : string := of_chars (rstrip_l (lstrip_l (chars s))).

(** [str.lower]. *)
Definition lower_c (c : Ascii.ascii) : Ascii.ascii :=
  let n := code c in
  if ((65 <=? n) && (n <=? 90) || (192 <=? n) && (n <=? 222) && negb (n =? 215))%N
  then Ascii.ascii_of_N (n + 32) else c.
Definition lower (s : string) : string := of_chars (map lower_c (chars s)).

(** [str.isdigit]: non-empty, and every character a digit (superscript 1, 2
    and 3 are digits for Python). *)
Definition isdigit_c (c : Ascii.ascii) : bool :=
  let n := code c in
  ((48 <=? n) && (n <=? 57) || (n =? 178) || (n =? 179) || (n =? 185))%N.
Definition isdigit (s : string) : bool :=
  match chars s with [] => false | l => forallb isdigit_c l end.

(** Truth value of a [str], and [value and value.strip()] as a bool. *)
Definition truthy (s : string) : bool := match s with EmptyString => false | _ => true end.
Definition nonblank (s : string) : bool := existsb (fun c => negb (isspace c)) (chars s).
Definition str_or (s d : string) : string := if truthy s then s else d.

Definition startswith (s pre : string) : bool := String.prefix pre s.
Definition endswith (s suf : string) : bool :=
  let n := String.length s in let k := String.length suf in
  (k <=? n)%nat && (of_chars (drop (n - k) (chars s)) =? suf)%string.
Definition contains (pat s : string) : bool :=
  match String.index 0 pat s with Some _ => true | None => false end.

(** U+00A7. *)
Definition section_sign : string := of_chars [Ascii.ascii_of_N 167].
(** The em dash U+2014 of some messages is outside the range of the model;
    this ASCII stand-in is used for it. *)
Definition emdash : string := "--".
Definition newline : Ascii.ascii := Ascii.ascii_of_N 10.

(** [str.split(sep)] for a one-character separator, and [sep.join]. *)
Fixpoint split_l (sep : Ascii.ascii) (l : list Ascii.ascii) : list (list Ascii.ascii) :=
  match l with
  | [] => [[]]
  | c :: r =>
      match split_l sep r with
      | w :: ws => if Ascii.eqb c sep then [] :: w :: ws else (c :: w) :: ws
      | [] => [[c]]
      end
  end.
Definition split_on (sep : Ascii.ascii) (s : string) : list string :=
  map of_chars (split_l sep (chars s)).
Fixpoint join (sep : string) (l : list string) : string :=
  match l with
  | [] => ""
  | [x] => x
  | x :: r => x +:+ sep +:+ join sep r
  end.

(** [str(n)] of an int. *)
Definition str_Z (n : Z) : string := DecimalString.NilEmpty.string_of_int (Z.to_int n).
Definition str_nat (n : nat) : string := str_Z (Z.of_nat n).

(** Lower-case hexadecimal digits, [re.fullmatch("[0-9a-f]{64}", s)], and the
    looser [re.match("^[0-9a-f]{64}$", s)], whose [$] also matches before one
    final newline. *)
Definition hex_c (c : Ascii.ascii) : bool :=
  let n := code c in ((48 <=? n) && (n <=? 57) || (97 <=? n) && (n <=? 102))%N.
Definition hex64 (s : string) : bool :=
  (List.length (chars s) =? 64)%nat && forallb hex_c (chars s).
Definition hex64_dollar (s : string) : bool :=
  hex64 s ||
  match rev (chars s) with
  | c :: r => Ascii.eqb c newline && hex64 (of_chars (rev r))
  | [] => false
  end.

(** [repr] of a [str]. *)
Definition hexdigit (n : N) : Ascii.ascii :=
  Ascii.ascii_of_N (if (n <? 10)%N then 48 + n else 87 + n)%N.
Definition quote1 : Ascii.ascii := Ascii.ascii_of_N 39.
Definition quote2 : Ascii.ascii := Ascii.ascii_of_N 34.
Definition backslash : Ascii.ascii := Ascii.ascii_of_N 92.
Definition repr_c (q c : Ascii.ascii) : list Ascii.ascii :=
  let n := code c in
  if Ascii.eqb c q || Ascii.eqb c backslash then [backslash; c]
  else if (n =? 10)%N then [backslash; Ascii.ascii_of_N 110]
  else if (n =? 13)%N then [backslash; Ascii.ascii_of_N 114]
  else if (n =? 9)%N then [backslash; Ascii.ascii_of_N 116]
  else if ((n <? 32) || (127 <=? n) && (n <=? 160) || (n =? 173))%N
       then [backslash; Ascii.ascii_of_N 120; hexdigit (n / 16)%N; hexdigit (n mod 16)%N]
  else [c].
Definition repr (s : string) : string :=
  let l := chars s in
  let q := if existsb (Ascii.eqb quote1) l && negb (existsb (Ascii.eqb quote2) l)
           then quote2 else quote1 in
  of_chars (q :: flat_map (repr_c q) l ++ [q]).

(** ** Lemmas *)

(** [repr] of a list, given those of its items. *)
Definition list_repr (l : list string) : string := "[" +:+ join ", " l +:+ "]".

Lemma chars_of_chars l : chars (of_chars l) = l.
Proof. apply String.list_ascii_of_string_of_list_ascii. Qed.

Lemma of_chars_chars s : of_chars (chars s) = s.
Proof. apply String.string_of_list_ascii_of_string. Qed.

Lemma chars_inj s t : chars s = chars t -> s = t.
Proof. intros H. rewrite <- (of_chars_chars s), <- (of_chars_chars t). by rewrite H. Qed.

Lemma chars_app s t : chars (s +:+ t) = chars s ++ chars t.
Proof. induction s as [|c s IH]; simpl; [done|]. by rewrite IH. Qed.

Lemma of_chars_app l k : of_chars (l ++ k) = of_chars l +:+ of_chars k.
Proof. apply chars_inj. by rewrite chars_app, !chars_of_chars. Qed.

Lemma truthy_nil s : truthy s = false <-> s = "".
Proof. destruct s; simpl; naive_solver. Qed.

Lemma nonblank_app s t : nonblank (s +:+ t) = nonblank s || nonblank t.
Proof. unfold nonblank. by rewrite chars_app, existsb_app. Qed.

Lemma nonblank_truthy s : nonblank s = true -> truthy s = true.
Proof. destruct s; done. Qed.

Lemma lstrip_l_nil l : lstrip_l l = [] <-> forallb isspace l = true.
Proof. induction l as [|c l IH]; simpl; [done|]. destruct (isspace c); simpl; naive_solver. Qed.

Lemma forallb_lstrip l : forallb isspace (lstrip_l l) = forallb isspace l.
Proof. induction l as [|c l IH]; simpl; [done|]. destruct (isspace c) eqn:E; simpl; [done|]. by rewrite E. Qed.

Lemma forallb_rev {A} (f : A -> bool) l : forallb f (rev l) = forallb f l.
Proof.
  induction l as [|c l IH]; simpl; [done|].
  rewrite forallb_app, IH; simpl. rewrite andb_true_r. apply andb_comm.
Qed.

Lemma forallb_negb_existsb {A} (f : A -> bool) l :
  existsb (fun c => negb (f c)) l = negb (forallb f l).
Proof. induction l as [|c l IH]; simpl; [done|]. rewrite IH. by destruct (f c). Qed.

(** The two spellings of the emptiness test agree: [nonblank] is
    [bool(value and value.strip())] and [bool(value.strip())]. *)
Lemma truthy_strip s : truthy (strip s) = nonblank s.
Proof.
  unfold nonblank, strip. rewrite forallb_negb_existsb.
  rewrite <- forallb_lstrip. set (l := lstrip_l (chars s)).
  unfold rstrip_l. rewrite <- (forallb_rev isspace l).
  destruct (lstrip_l (rev l)) as [|c r] eqn:E; simpl.
  - apply lstrip_l_nil in E. by rewrite E.
  - destruct (forallb isspace (rev l)) eqn:F.
    + apply lstrip_l_nil in F. congruence.
    + destruct (rev r ++ [c]) eqn:G; [by destruct (rev r)|done].
Qed.

Lemma hex64_nonblank s : hex64 s = true -> nonblank s = true.
Proof.
  unfold hex64, nonblank. intros [Hl Hh]%andb_true_iff.
  destruct (chars s) as [|c l]; [done|]. simpl in *.
  apply andb_true_iff in Hh as [Hc _]. apply orb_true_iff. left.
  unfold hex_c, isspace in *.
  destruct (N.leb_spec 48 (code c)), (N.leb_spec (code c) 57),
    (N.leb_spec 97 (code c)), (N.leb_spec (code c) 102); try done;
  repeat match goal with |- context [N.leb ?a ?b] => destruct (N.leb_spec a b)
    | |- context [N.eqb ?a ?b] => destruct (N.eqb_spec a b) end; simpl; lia || done.
Qed.

Lemma hex64_match s : hex64 s = true -> hex64_dollar s = true.
Proof. unfold hex64_dollar. by intros ->. Qed.
