(* ===== verification/PyFloat.v ===== *)
(** * Python floats

    A finite Python [float] is the rational it denotes, in lowest terms. [fl]
    is IEEE round-to-nearest-even to a 53-bit significand (without the
    exponent limits: no value the modelled code computes is near them), so
    [truediv] is the correctly rounded [int / int] and [float_repr] is the
    shortest decimal that reads back as the same float. *)
From S2P Require Import Prelude PyStr.
From stdpp Require Import base strings list.
From Stdlib Require Import ZArith QArith Qreduction Lia DecimalString.

Local Open Scope Z_scope.

(** Round the rational [num / den] to an integer, ties to even. *)
Definition round_half_even (num den : Z) : Z :=
  let q := num / den in
  let r := num mod den in
  if 2 * r <? den then q
  else if den <? 2 * r then q + 1
  else if Z.even q then q else q + 1.

(** [num * 2^s / den] rounded, for any sign of [s]. *)
Definition scaled (num den s : Z) : Z :=
  if 0 <=? s then round_half_even (num * 2 ^ s) den
  else round_half_even num (den * 2 ^ (- s)).

Definition floor_scaled (num den s : Z) : Z :=
  if 0 <=? s then num * 2 ^ s / den else num / (den * 2 ^ (- s)).

(** [m * 2^(-s)] as a rational. *)
Definition unscale (m s : Z) : Q :=
  Qred (if 0 <=? s then m # Z.to_pos (2 ^ s) else (m * 2 ^ (- s)) # 1).

Definition fl_shift (num den : Z) : Z :=
  let s0 := 53 - (Z.log2 num - Z.log2 den) in
  if floor_scaled num den s0 <? 2 ^ 53 then s0 else s0 - 1.

Definition fl_pos (num den : Z) : Q :=
  let s := fl_shift num den in unscale (scaled num den s) s.

Definition fl (q : Q) : Q :=
  match Qnum q with
  | Z0 => 0%Q
  | Zpos n => fl_pos (Zpos n) (Zpos (Qden q))
  | Zneg n => Qopp (fl_pos (Zpos n) (Zpos (Qden q)))
  end.

(** [a / b] on ints. *)
Definition truediv (a : Z) (b : positive) : Q := fl (a # b).

Definition Qltb (a b : Q) : bool := negb (Qle_bool b a).

(** ** [repr] of a float *)

Definition pow10 (e : Z) : Q := if 0 <=? e then (10 ^ e) # 1 else 1 # Z.to_pos (10 ^ (- e)).
Definition exp10 (q : Q) : Z :=
  let est := (Z.log2 (Qnum q) - Z.log2 (Zpos (Qden q))) * 30103 / 100000 in
  match List.find (fun e => Qle_bool (pow10 e) q && Qltb q (pow10 (e + 1)))
          [est - 2; est - 1; est; est + 1; est + 2] with
  | Some e => e
  | None => est
  end.
(** The [n]-digit decimal nearest to [q]: digits and decimal exponent. *)
Definition decimal_n (q : Q) (n : Z) : Z * Z :=
  let e := exp10 q in
  let k := e - n + 1 in
  let x := (q / pow10 k)%Q in
  let d := round_half_even (Qnum x) (Zpos (Qden x)) in
  if d =? 10 ^ n then (10 ^ (n - 1), e + 1) else (d, e).
Definition decimal_value (d n e : Z) : Q := (inject_Z d * pow10 (e - n + 1))%Q.
Definition shortest (q : Q) : Z * Z * Z :=
  match List.find (fun n => let '(d, e) := decimal_n q n in Qeq_bool (fl (decimal_value d n e)) q)
          [1;2;3;4;5;6;7;8;9;10;11;12;13;14;15;16] with
  | Some n => (decimal_n q n, n)
  | None => (decimal_n q 17, 17)
  end.

Definition zeros (n : Z) : string := of_chars (repeat (Ascii.ascii_of_N 48) (Z.to_nat n)).
Definition take_s (n : Z) (s : string) : string := of_chars (take (Z.to_nat n) (chars s)).
Definition drop_s (n : Z) (s : string) : string := of_chars (drop (Z.to_nat n) (chars s)).
Definition pad2 (s : string) : string := if (List.length (chars s) <? 2)%nat then "0" +:+ s else s.

Definition float_repr_pos (q : Q) : string :=
  let '(d, e, n) := shortest q in
  let ds := str_Z d in
  if (e <? -4) || (16 <=? e) then
    take_s 1 ds +:+ (if n =? 1 then "" else "." +:+ drop_s 1 ds)
      +:+ "e" +:+ (if e <? 0 then "-" else "+") +:+ pad2 (str_Z (Z.abs e))
  else if e <? 0 then "0." +:+ zeros (- e - 1) +:+ ds
  else if n <=? e + 1 then ds +:+ zeros (e + 1 - n) +:+ ".0"
  else take_s (e + 1) ds +:+ "." +:+ drop_s (e + 1) ds.

Definition float_repr (q : Q) : string :=
  match Qnum q with
  | Z0 => "0.0"
  | Zpos _ => float_repr_pos q
  | Zneg _ => "-" +:+ float_repr_pos (Qopp q)
  end.

(** [f"{q:.3f}"]. *)
Definition fixed3 (q : Q) : string :=
  let n := round_half_even (Z.abs (Qnum q) * 1000) (Zpos (Qden q)) in
  let frac := str_Z (1000 + n mod 1000) in
  (if Qltb q 0 then "-" else "") +:+ str_Z (n / 1000) +:+ "." +:+ drop_s 1 frac.

Example float_repr_samples :
  map float_repr [fl (1#3); fl (1#10); 1%Q; fl (2#3); 2#1; fl (123456789#1000); (10^16)#1; fl (1#100000)]
  = ["0.3333333333333333"; "0.1"; "1.0"; "0.6666666666666666"; "2.0"; "123456.789"; "1e+16"; "1e-05"].
Proof. vm_compute. reflexivity. Qed.

(** ** Rounding lemmas *)

Lemma round_half_even_le num den k :
  0 < den -> num <= k * den -> round_half_even num den <= k.
Proof.
  intros Hd Hn. unfold round_half_even.
  pose proof (Z.div_mod num den ltac:(lia)) as E.
  pose proof (Z.mod_pos_bound num den Hd) as B.
  set (q := num / den) in *. set (r := num mod den) in *.
  assert (q <= k) by nia.
  assert (q = k -> r = 0) by nia.
  destruct (Z.ltb_spec (2 * r) den); [lia|].
  assert (q < k) by (destruct (Z.eq_dec q k); [lia|lia]).
  destruct (Z.ltb_spec den (2 * r)); [lia|]. destruct (Z.even q); lia.
Qed.

Lemma round_half_even_exact k den : 0 < den -> round_half_even (k * den) den = k.
Proof.
  intros Hd. unfold round_half_even.
  rewrite Z.div_mul by lia. rewrite Z.mod_mul by lia.
  destruct (Z.ltb_spec (2 * 0) den); lia.
Qed.

Lemma round_half_even_nonneg num den :
  0 < den -> 0 <= num -> 0 <= round_half_even num den.
Proof.
  intros Hd Hn. unfold round_half_even.
  pose proof (Z.div_pos num den Hn Hd).
  repeat match goal with |- context [if ?b then _ else _] => destruct b end; lia.
Qed.

Lemma unscale_lt1 m s : 0 <= s -> m < 2 ^ s -> (unscale m s < 1)%Q.
Proof.
  intros Hs Hm. unfold unscale. destruct (Z.leb_spec 0 s); [|lia].
  rewrite Qred_correct. unfold Qlt. simpl.
  rewrite Z2Pos.id by (apply Z.pow_pos_nonneg; lia). lia.
Qed.

Lemma unscale_one s : 0 <= s -> (unscale (2 ^ s) s == 1)%Q.
Proof.
  intros Hs. unfold unscale. destruct (Z.leb_spec 0 s); [|lia].
  rewrite Qred_correct. unfold Qeq. simpl.
  rewrite Z2Pos.id by (apply Z.pow_pos_nonneg; lia). lia.
Qed.

Lemma unscale_nonneg m s : 0 <= m -> (0 <= unscale m s)%Q.
Proof.
  intros Hm. unfold unscale. rewrite Qred_correct.
  destruct (Z.leb_spec 0 s); unfold Qle; cbn [Qnum Qden]; [lia|].
  pose proof (Z.pow_nonneg 2 (- s) ltac:(lia)). nia.
Qed.

Lemma scaled_nonneg num den s : 0 < den -> 0 <= num -> 0 <= scaled num den s.
Proof.
  intros. unfold scaled. destruct (Z.leb_spec 0 s).
  - pose proof (Z.pow_nonneg 2 s ltac:(lia)). apply round_half_even_nonneg; nia.
  - pose proof (Z.pow_pos_nonneg 2 (- s) ltac:(lia) ltac:(lia)).
    apply round_half_even_nonneg; nia.
Qed.

Lemma truediv_nonneg a b : 0 <= a -> (0 <= truediv a b)%Q.
Proof.
  intros Ha. unfold truediv, fl. simpl. destruct a; [done| |lia].
  apply unscale_nonneg, scaled_nonneg; lia.
Qed.

(** A fraction with fewer than [b] parts of at most [2^53] is below one even
    after rounding. *)
Lemma truediv_lt1 a b : 0 <= a -> a < Zpos b -> Zpos b <= 2 ^ 53 -> (truediv a b < 1)%Q.
Proof.
  intros Ha Hab Hb. unfold truediv, fl. cbn [Qnum Qden].
  destruct a as [|a|]; [done| |lia].
  unfold fl_pos. set (s := fl_shift _ _).
  assert (Hlog : Z.log2 (Zpos a) <= Z.log2 (Zpos b)) by (apply Z.log2_le_mono; lia).
  assert (Hs : 53 <= s).
  { subst s. unfold fl_shift. set (s0 := 53 - _).
    destruct (Z.ltb_spec (floor_scaled (Zpos a) (Zpos b) s0) (2 ^ 53)) as [|Hge]; [lia|].
    destruct (Z.eq_dec (Z.log2 (Zpos a)) (Z.log2 (Zpos b))) as [He|]; [|lia].
    exfalso. replace s0 with 53 in Hge by lia. unfold floor_scaled in Hge. simpl in Hge.
    assert (Zpos a * 2 ^ 53 / Zpos b < 2 ^ 53) by (apply Z.div_lt_upper_bound; lia). lia. }
  assert (2 ^ 53 <= 2 ^ s) by (apply Z.pow_le_mono_r; lia).
  apply unscale_lt1; [lia|].
  unfold scaled. destruct (Z.leb_spec 0 s); [|lia].
  enough (round_half_even (Zpos a * 2 ^ s) (Zpos b) <= 2 ^ s - 1) by lia.
  apply round_half_even_le; [lia|]. nia.
Qed.

Lemma truediv_same b : (truediv (Zpos b) b == 1)%Q.
Proof.
  unfold truediv, fl. cbn [Qnum Qden]. unfold fl_pos.
  assert (Hs : fl_shift (Zpos b) (Zpos b) = 52).
  { unfold fl_shift. rewrite Z.sub_diag. simpl (53 - 0).
    unfold floor_scaled. simpl (0 <=? 53).
    rewrite (Z.mul_comm (Zpos b)), Z.div_mul by lia. done. }
  rewrite Hs. unfold scaled. simpl (0 <=? 52).
  rewrite (Z.mul_comm (Zpos b)), round_half_even_exact by lia.
  apply unscale_one. lia.
Qed.

Lemma Qltb_lt a b : Qltb a b = true <-> (a < b)%Q.
Proof.
  unfold Qltb. rewrite negb_true_iff. split.
  - intros H. apply Qnot_le_lt. intros L. apply Qle_bool_iff in L. congruence.
  - intros H. apply not_true_iff_false. rewrite Qle_bool_iff. by apply Qlt_not_le.
Qed.

Lemma Qltb_ge a b : Qltb a b = false <-> (b <= a)%Q.
Proof. unfold Qltb. rewrite negb_false_iff. apply Qle_bool_iff. Qed.

(** A positive rate does not round to zero. *)
Lemma round_half_even_ge num den k : 0 < den -> k * den <= num -> k <= round_half_even num den.
Proof.
  intros Hd Hn. unfold round_half_even. assert (k <= num / den) by (apply Z.div_le_lower_bound; lia).
  repeat match goal with |- context [if ?b then _ else _] => destruct b end; lia.
Qed.

Lemma unscale_pos m s : 0 <= s -> 0 < m -> (0 < unscale m s)%Q.
Proof.
  intros Hs Hm. unfold unscale. rewrite Qred_correct. destruct (Z.leb_spec 0 s); [|lia].
  unfold Qlt. cbn [Qnum Qden]. lia.
Qed.

Lemma truediv_pos a b : 0 < a -> a <= Zpos b -> (0 < truediv a b)%Q.
Proof.
  intros Ha Hab. unfold truediv, fl. cbn [Qnum Qden]. destruct a as [|a|]; [lia| |lia].
  unfold fl_pos. set (s := fl_shift _ _).
  assert (Hlog : Z.log2 (Zpos a) <= Z.log2 (Zpos b)) by (apply Z.log2_le_mono; lia).
  assert (Hs : 52 - Z.log2 (Zpos a) + Z.log2 (Zpos b) <= s)
    by (subst s; unfold fl_shift; destruct (_ <? _); lia).
  apply unscale_pos; [lia|]. unfold scaled. destruct (Z.leb_spec 0 s); [|lia].
  enough (1 <= round_half_even (Zpos a * 2 ^ s) (Zpos b)) by lia. apply round_half_even_ge; [lia|].
  destruct (Z.log2_spec (Zpos a) ltac:(lia)) as [La _].
  destruct (Z.log2_spec (Zpos b) ltac:(lia)) as [_ Lb].
  assert (2 ^ Z.succ (Z.log2 (Zpos b)) <= 2 ^ (Z.log2 (Zpos a) + s)) as P
    by (apply Z.pow_le_mono_r; lia).
  rewrite Z.pow_add_r in P by (try apply Z.log2_nonneg; lia).
  pose proof (Z.pow_pos_nonneg 2 s ltac:(lia) ltac:(lia)). nia.
Qed.
