(* ===== verification/PyTime.v ===== *)
(** * Python datetimes

    A [datetime] is its wall-clock reading in microseconds since
    0001-01-01T00:00:00 and its UTC offset in minutes, [None] for a naive one.
    [IsoTime] is what the code relies on of [isoformat] / [fromisoformat]: the
    second reads back what the first prints (it may accept more);
    [iso_time] is the instance that prints and reads
    [YYYY-MM-DDTHH:MM:SS[.ffffff][+HH:MM]]. *)
From S2P Require Import Prelude PyStr.
From stdpp Require Import base strings list.
From Stdlib Require Import ZArith Lia NArith.

Local Open Scope Z_scope.

Record datetime := DT { dt_wall : Z; dt_off : option Z }.

#[export] Instance datetime_eq_dec : EqDecision datetime.
Proof. solve_decision. Defined.

Definition aware (d : datetime) : bool := match dt_off d with Some _ => true | None => false end.
Definition minute_us : Z := 60 * 1000000.
(** Microseconds on the UTC time line (of the wall reading, when naive). *)
Definition instant (d : datetime) : Z :=
  match dt_off d with Some o => dt_wall d - o * minute_us | None => dt_wall d end.

(** [a < b], [a <= b] raise [TypeError] when only one side is aware. *)
Definition dt_cmp (f : Z -> Z -> bool) (a b : datetime) : res bool :=
  if Bool.eqb (aware a) (aware b) then Ok (f (instant a) (instant b))
  else Err (Exn TypeError "can't compare offset-naive and offset-aware datetimes").
Definition dt_lt := dt_cmp Z.ltb.
Definition dt_le := dt_cmp Z.leb.

(** [d + timedelta(microseconds=us)] and [d.astimezone(timezone.utc)]. *)
Definition dt_add (d : datetime) (us : Z) : datetime := DT (dt_wall d + us) (dt_off d).
Definition to_utc (d : datetime) : datetime := DT (instant d) (Some 0).

(** The years 1 .. 9999 and offsets strictly within a day. *)
Definition day_us : Z := 86400000000.
Definition max_wall : Z := 3652059 * day_us.
Definition dt_valid (d : datetime) : Prop :=
  0 <= dt_wall d < max_wall /\
  match dt_off d with Some o => -1440 < o < 1440 | None => True end.

Class IsoTime := {
  isoformat : datetime -> string;
  fromisoformat : string -> option datetime;
  from_isoformat d : dt_valid d -> fromisoformat (isoformat d) = Some d;
}.

(** ** The civil calendar *)

Definition is_leap (y : Z) : bool :=
  (y mod 4 =? 0) && (negb (y mod 100 =? 0) || (y mod 400 =? 0)).
Definition year_len (y : Z) : Z := if is_leap y then 366 else 365.
Definition days_before_year (y : Z) : Z :=
  365 * (y - 1) + (y - 1) / 4 - (y - 1) / 100 + (y - 1) / 400.
Definition month_lens (y : Z) : list Z :=
  [31; (if is_leap y then 29 else 28); 31; 30; 31; 30; 31; 31; 30; 31; 30; 31].

Fixpoint split_year (fuel : nat) (y n : Z) : Z * Z :=
  match fuel with
  | O => (y, n)
  | S f => if n <? year_len y then (y, n) else split_year f (y + 1) (n - year_len y)
  end.
Fixpoint split_month (lens : list Z) (m n : Z) : Z * Z :=
  match lens with
  | [] => (m, n)
  | l :: r => if n <? l then (m, n) else split_month r (m + 1) (n - l)
  end.
Definition civil (days : Z) : Z * Z * Z :=
  let '(y, n) := split_year (Z.to_nat 9999) 1 days in
  let '(m, d) := split_month (month_lens y) 1 n in (y, m, d + 1).
Definition days_of (y m d : Z) : Z :=
  days_before_year y + foldr Z.add 0 (take (Z.to_nat (m - 1)) (month_lens y)) + (d - 1).

(** ** Fixed-width decimals *)

Definition digit_c (n : Z) : Ascii.ascii := Ascii.ascii_of_N (Z.to_N (48 + n)).
Fixpoint digits (k : nat) (n : Z) : list Ascii.ascii :=
  match k with O => [] | S k' => digits k' (n / 10) ++ [digit_c (n mod 10)] end.
Definition undigit (c : Ascii.ascii) : option Z :=
  if ((48 <=? code c) && (code c <=? 57))%N then Some (Z.of_N (code c) - 48) else None.
Fixpoint read_digits (k : nat) (acc : Z) (l : list Ascii.ascii) : option (Z * list Ascii.ascii) :=
  match k with
  | O => Some (acc, l)
  | S k' =>
      match l with
      | c :: r => match undigit c with
                  | Some v => read_digits k' (10 * acc + v) r
                  | None => None
                  end
      | [] => None
      end
  end.
Definition read_char (n : N) (l : list Ascii.ascii) : option (list Ascii.ascii) :=
  match l with c :: r => if (code c =? n)%N then Some r else None | [] => None end.

Definition c_dash : Ascii.ascii := Ascii.ascii_of_N 45.
Definition c_colon : Ascii.ascii := Ascii.ascii_of_N 58.
Definition c_T : Ascii.ascii := Ascii.ascii_of_N 84.
Definition c_dot : Ascii.ascii := Ascii.ascii_of_N 46.
Definition c_plus : Ascii.ascii := Ascii.ascii_of_N 43.

Definition iso_off (o : option Z) : list Ascii.ascii :=
  match o with
  | None => []
  | Some o => (if 0 <=? o then c_plus else c_dash)
      :: digits 2 (Z.abs o / 60) ++ c_colon :: digits 2 (Z.abs o mod 60)
  end.
Definition iso_l (d : datetime) : list Ascii.ascii :=
  let days := dt_wall d / day_us in
  let us := dt_wall d mod day_us in
  let '(y, m, dd) := civil days in
  digits 4 y ++ c_dash :: digits 2 m ++ c_dash :: digits 2 dd ++ c_T ::
  digits 2 (us / 3600000000) ++ c_colon :: digits 2 (us / 60000000 mod 60) ++ c_colon ::
  digits 2 (us / 1000000 mod 60) ++
  (if us mod 1000000 =? 0 then [] else c_dot :: digits 6 (us mod 1000000)) ++ iso_off (dt_off d).

Definition read_off (l : list Ascii.ascii) : option (option Z) :=
  match l with
  | [] => Some None
  | c :: r =>
      if (code c =? 90)%N then (if bool_decide (r = []) then Some (Some 0) else None)
      else
      match read_digits 2 0 r with
      | Some (h, r1) =>
          match read_char 58 r1 with
          | Some r2 =>
              match read_digits 2 0 r2 with
              | Some (mm, []) =>
                  if (code c =? 43)%N then Some (Some (60 * h + mm))
                  else if (code c =? 45)%N then Some (Some (- (60 * h + mm))) else None
              | _ => None
              end
          | None => None
          end
      | None => None
      end
  end.
Definition read_frac (l : list Ascii.ascii) : option (Z * list Ascii.ascii) :=
  match read_char 46 l with Some r => read_digits 6 0 r | None => Some (0, l) end.

Definition obind {A B} (o : option A) (k : A -> option B) : option B :=
  match o with Some a => k a | None => None end.
Definition read_iso (l : list Ascii.ascii) : option datetime :=
  obind (read_digits 4 0 l) (fun '(y, l) => obind (read_char 45 l) (fun l =>
  obind (read_digits 2 0 l) (fun '(m, l) => obind (read_char 45 l) (fun l =>
  obind (read_digits 2 0 l) (fun '(d, l) => obind (read_char 84 l) (fun l =>
  obind (read_digits 2 0 l) (fun '(h, l) => obind (read_char 58 l) (fun l =>
  obind (read_digits 2 0 l) (fun '(mi, l) => obind (read_char 58 l) (fun l =>
  obind (read_digits 2 0 l) (fun '(s, l) => obind (read_frac l) (fun '(us, l) =>
  obind (read_off l) (fun off =>
    if ((1 <=? y) && (1 <=? m) && (m <=? 12) && (1 <=? d) &&
       (d <=? nth (Z.to_nat (m - 1)) (month_lens y) 0) &&
       (h <=? 23) && (mi <=? 59) && (s <=? 59) &&
       match off with Some o => (-1440 <? o) && (o <? 1440) | None => true end)
    then Some (DT (days_of y m d * day_us + h * 3600000000 + mi * 60000000 + s * 1000000 + us) off)
    else None))))))))))))).

Example iso_sample :
  of_chars (iso_l (DT (738766 * day_us + 45296000123) (Some (-330)))) = "2023-09-04T12:34:56.000123-05:30".
Proof. vm_compute. reflexivity. Qed.

Example iso_read_sample :
  read_iso (chars "2023-09-04T12:34:56.000123-05:30") = Some (DT (738766 * day_us + 45296000123) (Some (-330))).
Proof. vm_compute. reflexivity. Qed.

(** ** The instance: reading inverts printing *)

Lemma div_pred k y : 0 < k -> y / k = (y - 1) / k + (if y mod k =? 0 then 1 else 0).
Proof.
  intros Hk. destruct (Z.eqb_spec (y mod k) 0) as [E|E];
    Z.to_euclidean_division_equations; nia.
Qed.

Lemma days_before_succ y : days_before_year (y + 1) = days_before_year y + year_len y.
Proof.
  unfold days_before_year, year_len, is_leap. replace (y + 1 - 1) with y by lia.
  rewrite (div_pred 4 y), (div_pred 100 y), (div_pred 400 y) by lia.
  assert (y mod 100 = 0 -> y mod 4 = 0) by (Z.to_euclidean_division_equations; lia).
  assert (y mod 400 = 0 -> y mod 100 = 0) by (Z.to_euclidean_division_equations; lia).
  destruct (Z.eqb_spec (y mod 4) 0), (Z.eqb_spec (y mod 100) 0), (Z.eqb_spec (y mod 400) 0);
    simpl; lia.
Qed.

Lemma year_len_pos y : 365 <= year_len y <= 366.
Proof. unfold year_len. destruct (is_leap y); lia. Qed.

Lemma split_year_spec f y n :
  0 <= n < days_before_year (y + Z.of_nat f) - days_before_year y ->
  let '(y', n') := split_year f y n in
  y <= y' < y + Z.of_nat f /\ days_before_year y' + n' = days_before_year y + n /\ 0 <= n' < year_len y'.
Proof.
  revert y n. induction f as [|f IH]; intros y n Hn.
  - replace (y + Z.of_nat 0) with y in Hn by lia. lia.
  - simpl. destruct (Z.ltb_spec n (year_len y)) as [|Hge]; [lia|].
    specialize (IH (y + 1) (n - year_len y)).
    replace (y + 1 + Z.of_nat f) with (y + Z.of_nat (S f)) in IH by lia.
    rewrite days_before_succ in IH.
    destruct (split_year f (y + 1) (n - year_len y)) as [y' n'].
    destruct IH as (A & B & C); lia.
Qed.

Lemma split_month_spec lens m n :
  0 <= n < foldr Z.add 0 lens ->
  let '(m', d) := split_month lens m n in
  exists i, m' = m + Z.of_nat i /\ (i < length lens)%nat /\
    n = foldr Z.add 0 (take i lens) + d /\ 0 <= d < nth i lens 0.
Proof.
  revert m n. induction lens as [|l lens IH]; intros m n Hn; simpl in *; [lia|].
  destruct (Z.ltb_spec n l) as [|Hge].
  - exists 0%nat. simpl. lia.
  - specialize (IH (m + 1) (n - l) ltac:(lia)).
    destruct (split_month lens (m + 1) (n - l)) as [m' d].
    destruct IH as (i & A & B & C & D). exists (S i). simpl. lia.
Qed.

Lemma month_lens_sum y : foldr Z.add 0 (month_lens y) = year_len y.
Proof. unfold month_lens, year_len. by destruct (is_leap y). Qed.

Lemma civil_days_of n :
  0 <= n < 3652059 ->
  let '(y, m, d) := civil n in
  days_of y m d = n /\ 1 <= y <= 9999 /\ 1 <= m <= 12 /\ 1 <= d <= nth (Z.to_nat (m - 1)) (month_lens y) 0.
Proof.
  intros Hn. unfold civil.
  pose proof (split_year_spec (Z.to_nat 9999) 1 n) as H. rewrite Z2Nat.id in H by lia.
  change (days_before_year (1 + 9999)) with 3652059 in H.
  change (days_before_year 1) with 0 in H.
  destruct (split_year (Z.to_nat 9999) 1 n) as [y n']. destruct H as (A & B & C); [lia|].
  pose proof (split_month_spec (month_lens y) 1 n') as H. rewrite month_lens_sum in H.
  destruct (split_month (month_lens y) 1 n') as [m d].
  destruct H as (i & -> & Hi & Hd & Hr); [lia|]. simpl in Hi.
  unfold days_of. replace (Z.to_nat (1 + Z.of_nat i - 1)) with i by lia. lia.
Qed.

Lemma digit_c_code n : 0 <= n < 10 -> code (digit_c n) = Z.to_N (48 + n).
Proof. intros H. unfold code, digit_c. apply Ascii.N_ascii_embedding. lia. Qed.

Lemma undigit_digit n : 0 <= n < 10 -> undigit (digit_c n) = Some n.
Proof.
  intros H. unfold undigit. rewrite digit_c_code by done.
  destruct (N.leb_spec 48 (Z.to_N (48 + n))); [|lia].
  destruct (N.leb_spec (Z.to_N (48 + n)) 57); [|lia]. simpl. f_equal. lia.
Qed.

Lemma read_digits_snoc k acc l1 v r x :
  read_digits k acc (l1 ++ digit_c v :: r) = Some (x, digit_c v :: r) ->
  0 <= v < 10 -> read_digits (S k) acc (l1 ++ digit_c v :: r) = Some (10 * x + v, r).
Proof.
  revert acc l1. induction k as [|k IH]; intros acc l1 H Hv.
  - simpl in H. injection H as -> H.
    assert (l1 = []) as ->.
    { destruct l1; [done|]. apply (f_equal length) in H. rewrite length_app in H. simpl in H. lia. }
    simpl. by rewrite undigit_digit.
  - destruct l1 as [|c l1]; simpl in H |- *.
    + rewrite undigit_digit in H by done. exfalso.
      assert (G : forall k a l y s, read_digits k a l = Some (y, s) -> (length s <= length l)%nat).
      { clear. induction k; simpl; intros a l y s H; [by injection H as _ ->|].
        destruct l as [|c l]; [done|]. destruct (undigit c); [|done]. apply IHk in H. simpl. lia. }
      apply G in H. simpl in H. lia.
    + destruct (undigit c) as [w|]; [|done]. specialize (IH _ _ H Hv). by rewrite <- IH.
Qed.

Lemma read_digits_digits k n r :
  0 <= n < 10 ^ Z.of_nat k -> read_digits k 0 (digits k n ++ r) = Some (n, r).
Proof.
  revert n r. induction k as [|k IH]; intros n r Hn; simpl digits.
  - simpl in *. by replace n with 0 by lia.
  - replace (10 ^ Z.of_nat (S k)) with (10 * 10 ^ Z.of_nat k) in Hn
      by (rewrite Nat2Z.inj_succ, Z.pow_succ_r by lia; lia).
    rewrite <- app_assoc. cbn [app]. rewrite (read_digits_snoc k 0 _ _ _ (n / 10)).
    + f_equal. f_equal. Z.to_euclidean_division_equations; lia.
    + apply IH. split; [apply Z.div_pos; lia|]. apply Z.div_lt_upper_bound; lia.
    + apply Z.mod_pos_bound. lia.
Qed.

Lemma read_char_hit c l : read_char (code c) (c :: l) = Some l.
Proof. simpl. by rewrite N.eqb_refl. Qed.

Lemma read_off_iso o :
  match o with Some o => -1440 < o < 1440 | None => True end ->
  read_off (iso_off o) = Some o.
Proof.
  destruct o as [o|]; [|done]. intros Ho. unfold iso_off, read_off.
  set (c := if 0 <=? o then c_plus else c_dash).
  replace ((code c =? 90)%N) with false by (subst c; by destruct (0 <=? o)).
  rewrite read_digits_digits by (simpl; split; [apply Z.div_pos|apply Z.div_lt_upper_bound]; lia).
  change 58%N with (code c_colon). rewrite read_char_hit.
  rewrite <- (app_nil_r (digits 2 (Z.abs o mod 60))).
  pose proof (Z.mod_pos_bound (Z.abs o) 60 ltac:(lia)).
  rewrite read_digits_digits by (simpl; lia).
  pose proof (Z.div_mod (Z.abs o) 60 ltac:(lia)).
  subst c. destruct (Z.leb_spec 0 o); simpl; do 2 f_equal; lia.
Qed.

Lemma read_frac_iso us o :
  0 <= us < 1000000 ->
  read_frac ((if us =? 0 then [] else c_dot :: digits 6 us) ++ iso_off o) = Some (us, iso_off o).
Proof.
  intros Hus. unfold read_frac. destruct (Z.eqb_spec us 0) as [->|].
  - simpl. destruct o as [o|]; [|done]. unfold iso_off. by destruct (0 <=? o).
  - change ((c_dot :: digits 6 us) ++ iso_off o) with (c_dot :: (digits 6 us ++ iso_off o)).
    change 46%N with (code c_dot). rewrite read_char_hit.
    apply read_digits_digits. change (10 ^ Z.of_nat 6) with 1000000. lia.
Qed.

Lemma read_iso_l d : dt_valid d -> read_iso (iso_l d) = Some d.
Proof.
  destruct d as [w o]. intros [Hw Ho]. simpl in *. unfold iso_l. simpl dt_wall. simpl dt_off.
  assert (Hd : 0 <= w / day_us < 3652059).
  { split; [apply Z.div_pos; unfold day_us; lia|].
    apply Z.div_lt_upper_bound; unfold max_wall, day_us in *; lia. }
  pose proof (Z.mod_pos_bound w day_us ltac:(unfold day_us; lia)) as Hus.
  pose proof (Z.div_mod w day_us ltac:(unfold day_us; lia)) as Hdm.
  set (us := w mod day_us) in *. unfold day_us in Hus.
  pose proof (civil_days_of _ Hd) as HC. destruct (civil (w / day_us)) as [[y m] dd].
  destruct HC as (HD & Hy & Hm & Hdd).
  assert (Hl : nth (Z.to_nat (m - 1)) (month_lens y) 0 <= 31).
  { unfold month_lens. destruct (Z.to_nat (m - 1)) as [|[|[|[|[|[|[|[|[|[|[|[|]]]]]]]]]]]];
      simpl; try lia; [destruct (is_leap y); lia | destruct n; lia]. }
  assert (Hh : 0 <= us / 3600000000 <= 23) by (Z.to_euclidean_division_equations; lia).
  assert (Hmi : 0 <= us / 60000000 mod 60 <= 59) by (Z.to_euclidean_division_equations; lia).
  assert (Hs : 0 <= us / 1000000 mod 60 <= 59) by (Z.to_euclidean_division_equations; lia).
  assert (Hf : 0 <= us mod 1000000 < 1000000) by (apply Z.mod_pos_bound; lia).
  unfold read_iso, obind.
  rewrite read_digits_digits by (simpl; lia). change 45%N with (code c_dash). rewrite read_char_hit.
  rewrite read_digits_digits by (simpl; lia). rewrite read_char_hit.
  rewrite read_digits_digits by (simpl; lia). change 84%N with (code c_T). rewrite read_char_hit.
  rewrite read_digits_digits by (simpl; lia). change 58%N with (code c_colon). rewrite read_char_hit.
  rewrite read_digits_digits by (simpl; lia). rewrite read_char_hit.
  rewrite read_digits_digits by (simpl; lia).
  rewrite read_frac_iso, read_off_iso by done.
  assert (Hoff : match o with Some o => (-1440 <? o) && (o <? 1440) | None => true end = true).
  { destruct o; [|done]. apply andb_true_iff. lia. }
  rewrite Hoff.
  repeat match goal with |- context [?a <=? ?b] => replace (a <=? b) with true by lia end.
  simpl. do 2 f_equal. rewrite HD.
  assert (us = us / 3600000000 * 3600000000 + us / 60000000 mod 60 * 60000000
            + us / 1000000 mod 60 * 1000000 + us mod 1000000)
    by (clear; Z.to_euclidean_division_equations; lia).
  unfold day_us in *. lia.
Qed.

#[export] Instance iso_time : IsoTime.
Proof.
  refine {| isoformat := fun d => of_chars (iso_l d); fromisoformat := fun s => read_iso (chars s) |}.
  intros d Hd. rewrite chars_of_chars. by apply read_iso_l.
Defined.

Lemma isoformat_inj `{IsoTime} a b :
  dt_valid a -> dt_valid b -> isoformat a = isoformat b -> a = b.
Proof.
  intros Ha Hb E. pose proof (from_isoformat a Ha) as P. rewrite E, from_isoformat in P by done.
  congruence.
Qed.

Lemma dt_lt_utc a b : aware a = true -> aware b = true -> dt_lt a b = Ok (instant a <? instant b).
Proof. unfold dt_lt, dt_cmp. by intros -> ->. Qed.

Lemma dt_le_utc a b : aware a = true -> aware b = true -> dt_le a b = Ok (instant a <=? instant b).
Proof. unfold dt_le, dt_cmp. by intros -> ->. Qed.

(** ** Dates

    A [date] is its day number. [IsoDate] is what the code relies on of
    [date.fromisoformat]; the instance reads the calendar form [YYYY-MM-DD]. *)
Definition date_iso (n : Z) : string :=
  of_chars (take 10 (iso_l (DT (n * day_us) None))).

Class IsoDate := {
  date_fromisoformat : string -> option Z;
  date_from_iso n : 0 <= n * day_us < max_wall -> date_fromisoformat (date_iso n) = Some n;
}.

Definition read_date (s : string) : option Z :=
  match read_iso (chars s ++ chars "T00:00:00") with
  | Some d => match dt_off d with None => Some (dt_wall d / day_us) | Some _ => None end
  | None => None
  end.

Lemma digits_length k n : List.length (digits k n) = k.
Proof. revert n. induction k as [|k IH]; intros n; simpl; [done|]. rewrite length_app, IH. simpl. lia. Qed.

Lemma iso_midnight n :
  0 <= n -> iso_l (DT (n * day_us) None) = chars (date_iso n) ++ chars "T00:00:00".
Proof.
  intros Hn. unfold date_iso. rewrite chars_of_chars. unfold iso_l. simpl dt_wall. simpl dt_off.
  rewrite Z.div_mul, Z.mod_mul by done. destruct (civil n) as [[y m] d].
  set (D := digits 4 y ++ c_dash :: digits 2 m ++ c_dash :: digits 2 d).
  match goal with |- ?l = _ => assert (E : l = D ++ chars "T00:00:00") end.
  { unfold D. rewrite <- app_assoc. reflexivity. }
  rewrite E, take_app_length'; [done|]. unfold D. rewrite length_app. cbn [List.length].
  rewrite length_app. cbn [List.length]. by rewrite !digits_length.
Qed.

#[export] Instance iso_date : IsoDate.
Proof.
  refine {| date_fromisoformat := read_date |}. intros n Hn. unfold read_date.
  rewrite <- iso_midnight by (unfold day_us in *; lia). rewrite read_iso_l by (split; [done|constructor]).
  simpl. by rewrite Z.div_mul by done.
Defined.

Example date_samples : map date_fromisoformat ["2026-03-01"; "2026-02-29"; "2026-3-1"; ""] = [Some 739675; None; None; None].
Proof. vm_compute. reflexivity. Qed.
