(* ===== verification/Json.v ===== *)
(** * Canonical JSON

    The [json.dumps(..., sort_keys=True, separators=(",", ":"))] encodings the
    code hashes and signs. Two character encodings are used: the default
    [ensure_ascii=True], and [ensure_ascii=False] followed by [.encode("utf-8")].
    A [CharCodec] is what the printer needs of either, and what makes the
    encoding uniquely decodable. *)
From S2P Require Import Prelude PyStr PyFloat.
From stdpp Require Import base strings list.
From Stdlib Require Import ZArith QArith Lia NArith DecimalString DecimalZ.

Notation chr := Ascii.ascii_of_N.

Class CharCodec := {
  enc : Ascii.ascii -> list Ascii.ascii;
  dec : list Ascii.ascii -> option (Ascii.ascii * list Ascii.ascii);
  dec_enc c rest : dec (enc c ++ rest) = Some (c, rest);
  dec_quote rest : dec (quote2 :: rest) = None;
}.

(** The JSON escape of one character: [ascii] is [ensure_ascii]. *)
Definition json_escape (ascii : bool) (c : Ascii.ascii) : list Ascii.ascii :=
  let n := code c in
  if (n =? 34)%N then [backslash; quote2]
  else if (n =? 92)%N then [backslash; backslash]
  else if (n =? 10)%N then [backslash; chr 110]
  else if (n =? 13)%N then [backslash; chr 114]
  else if (n =? 9)%N then [backslash; chr 116]
  else if (n =? 8)%N then [backslash; chr 98]
  else if (n =? 12)%N then [backslash; chr 102]
  else if ((n <? 32) || ascii && (127 <=? n))%N
       then [backslash; chr 117; chr 48; chr 48; hexdigit (n / 16)%N; hexdigit (n mod 16)%N]
  else [c].

(** UTF-8 of a code point below U+0100. *)
Definition utf8 (c : Ascii.ascii) : list Ascii.ascii :=
  let n := code c in
  if (n <? 128)%N then [c] else [chr (192 + n / 64)%N; chr (128 + n mod 64)%N].

Definition encode_utf8 (s : string) : string := of_chars (flat_map utf8 (chars s)).

Definition unhex (c : Ascii.ascii) : N :=
  let n := code c in if (n <? 58)%N then (n - 48)%N else (n - 87)%N.

Definition json_unescape (utf8 : bool) (l : list Ascii.ascii)
    : option (Ascii.ascii * list Ascii.ascii) :=
  match l with
  | [] => None
  | c :: r =>
      if (code c =? 34)%N then None
      else if (code c =? 92)%N then
        match r with
        | d :: r' =>
            let n := code d in
            if (n =? 110)%N then Some (chr 10, r')
            else if (n =? 114)%N then Some (chr 13, r')
            else if (n =? 116)%N then Some (chr 9, r')
            else if (n =? 98)%N then Some (chr 8, r')
            else if (n =? 102)%N then Some (chr 12, r')
            else if (n =? 117)%N then
              match r' with
              | _ :: _ :: h :: l' :: r'' => Some (chr (16 * unhex h + unhex l')%N, r'')
              | _ => None
              end
            else Some (d, r')
        | [] => None
        end
      else if utf8 && (128 <=? code c)%N then
        match r with
        | d :: r' => Some (chr (64 * (code c - 192) + (code d - 128))%N, r')
        | [] => None
        end
      else Some (c, r)
  end.

#[export] Instance ascii_codec : CharCodec.
Proof.
  refine {| enc := json_escape true; dec := json_unescape false |}.
  - intros [[] [] [] [] [] [] [] []] rest; reflexivity.
  - done.
Defined.

Definition utf8_codec : CharCodec.
Proof.
  refine {| enc := fun c => flat_map utf8 (json_escape false c); dec := json_unescape true |}.
  - intros [[] [] [] [] [] [] [] []] rest; reflexivity.
  - done.
Defined.

(** ** Values and printing *)

(** [json.loads] and [json.dumps] also know the three non-finite floats. *)
Inductive nonfinite := NaN | PosInf | NegInf.

Inductive json :=
  | JNull
  | JBool (b : bool)
  | JInt (z : Z)
  | JFloat (q : Q)
  | JNonFinite (x : nonfinite)
  | JStr (s : string)
  | JArr (l : list json)
  | JObj (kvs : list (string * json)).

Section json_ind.
  Variable P : json -> Prop.
  Hypothesis (Hnull : P JNull) (Hbool : forall b, P (JBool b)) (Hint : forall z, P (JInt z))
    (Hfloat : forall q, P (JFloat q)) (Hnf : forall x, P (JNonFinite x)) (Hstr : forall s, P (JStr s))
    (Harr : forall l, Forall P l -> P (JArr l))
    (Hobj : forall kvs, Forall (fun kv => P kv.2) kvs -> P (JObj kvs)).
Fixpoint json_rect_all (j : json) : P j :=
    match j with
    | JNull => Hnull | JBool b => Hbool b | JInt z => Hint z
    | JFloat q => Hfloat q | JNonFinite x => Hnf x | JStr s => Hstr s
    | JArr l => Harr l ((fix go l := match l return Forall P l with
        | [] => @List.Forall_nil _ P
        | x :: r => @List.Forall_cons _ P x r (json_rect_all x) (go r) end) l)
    | JObj kvs => Hobj kvs ((fix go l := match l return Forall (fun kv => P kv.2) l with
        | [] => @List.Forall_nil _ _
        | x :: r => @List.Forall_cons _ (fun kv => P kv.2) x r (json_rect_all x.2) (go r) end) kvs)
    end.
End json_ind.

(** Code-point order on keys, and the insertion sort [sort_keys] amounts to. *)
Fixpoint key_leb (a b : list Ascii.ascii) : bool :=
  match a, b with
  | [], _ => true
  | _ :: _, [] => false
  | x :: a', y :: b' => if Ascii.eqb x y then key_leb a' b' else (code x <? code y)%N
  end.
Fixpoint insert_key {A} (k : string) (v : A) (l : list (string * A)) : list (string * A) :=
  match l with
  | [] => [(k, v)]
  | (k', v') :: r =>
      if key_leb (chars k) (chars k') then (k, v) :: l else (k', v') :: insert_key k v r
  end.
Fixpoint sort_pairs {A} (l : list (string * A)) : list (string * A) :=
  match l with [] => [] | (k, v) :: r => insert_key k v (sort_pairs r) end.
(** [sorted] of strings, [a - b], and the [repr] of a list of strings. *)
Definition sort_strs (l : list string) : list string := map fst (sort_pairs (map (fun k => (k, tt)) l)).
Definition without (a b : list string) : list string :=
  List.filter (fun x => negb (existsb (String.eqb x) b)) a.
Definition strs_repr (l : list string) : string := list_repr (map repr l).

Fixpoint sort_keys (j : json) : json :=
  match j with
  | JArr l => JArr (map sort_keys l)
  | JObj kvs => JObj (sort_pairs (map (fun kv => (kv.1, sort_keys kv.2)) kvs))
  | _ => j
  end.

Section print.
  Context `{C : CharCodec}.

Definition str_body (l : list Ascii.ascii) : list Ascii.ascii := flat_map enc l ++ [quote2].
Definition str_lit (s : string) : list Ascii.ascii := quote2 :: str_body (chars s).
Definition comma_tail (l : list (list Ascii.ascii)) : list Ascii.ascii :=
  flat_map (fun y => chr 44 :: y) l.
Definition commas (l : list (list Ascii.ascii)) : list Ascii.ascii :=
  match l with [] => [] | x :: r => x ++ comma_tail r end.

Fixpoint raw (j : json) : list Ascii.ascii :=
  match j with
  | JNull => chars "null"
  | JBool true => chars "true"
  | JBool false => chars "false"
  | JInt z => chars (str_Z z)
  | JFloat q => chars (float_repr q)
  | JNonFinite NaN => chars "NaN"
  | JNonFinite PosInf => chars "Infinity"
  | JNonFinite NegInf => chars "-Infinity"
  | JStr s => str_lit s
  | JArr l => chr 91 :: commas (map raw l) ++ [chr 93]
  | JObj kvs => chr 123 :: commas (map (fun kv => str_lit kv.1 ++ chr 58 :: raw kv.2) kvs) ++ [chr 125]
  end.

(** [json.dumps(j, sort_keys=True, separators=(",", ":"))]. *)
Definition dumps (j : json) : string := of_chars (raw (sort_keys j)).
End print.

Example dumps_sample :
  dumps (JObj [("b", JArr [JInt (-12); JNull; JBool true]); ("a", JStr "x")])
  = of_chars (chr 123 :: str_lit "a" ++ chr 58 :: str_lit "x" ++ chr 44 :: str_lit "b"
      ++ chars ":[-12,null,true]}").
Proof. vm_compute. reflexivity. Qed.

(** ** Unique decodability

    Floats are excluded: their text is not parsed back here. *)
Fixpoint float_free (j : json) : bool :=
  match j with
  | JFloat _ | JNonFinite _ => false
  | JArr l => forallb float_free l
  | JObj kvs => forallb (fun kv => float_free kv.2) kvs
  | _ => true
  end.

Definition numchar (c : Ascii.ascii) : bool :=
  ((48 <=? code c) && (code c <=? 57) || (code c =? 45))%N.
(** What may follow a value: not a character of a number. *)
Definition stop (r : list Ascii.ascii) : bool :=
  match r with c :: _ => negb (numchar c) | [] => true end.

Lemma uint_numchars u : forallb numchar (chars (NilEmpty.string_of_uint u)) = true.
Proof. induction u; simpl; auto. Qed.

Lemma str_Z_numchars z : forallb numchar (chars (str_Z z)) = true.
Proof. unfold str_Z, NilEmpty.string_of_int. destruct (Z.to_int z); simpl; apply uint_numchars. Qed.

Lemma str_Z_inj z1 z2 : str_Z z1 = str_Z z2 -> z1 = z2.
Proof.
  unfold str_Z. intros H. apply (f_equal NilEmpty.int_of_string) in H.
  rewrite !NilEmpty.isi in H. injection H. apply DecimalZ.to_int_inj.
Qed.

(** Reading off the longest run of number characters. *)
Fixpoint num_span (l : list Ascii.ascii) : list Ascii.ascii * list Ascii.ascii :=
  match l with
  | c :: r => if numchar c then let '(a, b) := num_span r in (c :: a, b) else ([], l)
  | [] => ([], [])
  end.

Lemma num_span_app l r : forallb numchar l = true -> stop r = true -> num_span (l ++ r) = (l, r).
Proof.
  intros Hl Hr. induction l as [|c l IH]; simpl in *.
  - destruct r as [|c r]; simpl in *; [done|]. by apply negb_true_iff in Hr as ->.
  - apply andb_true_iff in Hl as [-> Hl]. by rewrite IH.
Qed.

Lemma int_unique z1 z2 r1 r2 :
  stop r1 = true -> stop r2 = true ->
  chars (str_Z z1) ++ r1 = chars (str_Z z2) ++ r2 -> z1 = z2 /\ r1 = r2.
Proof.
  intros S1 S2 H. apply (f_equal num_span) in H.
  rewrite !num_span_app in H by (done || apply str_Z_numchars).
  injection H as H ->. split; [|done]. by apply str_Z_inj, chars_inj.
Qed.

Section decode.
  Context `{C : CharCodec}.

Lemma str_body_unique l1 l2 r1 r2 :
  str_body l1 ++ r1 = str_body l2 ++ r2 -> l1 = l2 /\ r1 = r2.
Proof.
  unfold str_body. revert l2. induction l1 as [|c l1 IH]; intros [|d l2] H; simpl in H.
  - by injection H.
  - exfalso. apply (f_equal dec) in H. rewrite <- !app_assoc, dec_enc in H.
    by rewrite dec_quote in H.
  - exfalso. apply (f_equal dec) in H. rewrite <- !app_assoc, dec_enc in H.
    by rewrite dec_quote in H.
  - rewrite <- !(app_assoc (enc _)) in H.
    pose proof (f_equal dec H) as E. rewrite !dec_enc in E. injection E as -> E.
    destruct (IH l2 E) as [-> ->]. done.
Qed.

Lemma str_lit_unique s1 s2 r1 r2 :
  str_lit s1 ++ r1 = str_lit s2 ++ r2 -> s1 = s2 /\ r1 = r2.
Proof.
  unfold str_lit. simpl. intros H. injection H as H.
  apply str_body_unique in H as [H ->]. split; [by apply chars_inj|done].
Qed.

(** A printer [f] of the elements that satisfy [D] is uniquely decodable at
    [x], before a stopping character. *)
Definition unique {A} (D : A -> bool) (f : A -> list Ascii.ascii) (x : A) : Prop :=
  forall y r1 r2, D y = true -> stop r1 = true -> stop r2 = true ->
    f x ++ r1 = f y ++ r2 -> x = y /\ r1 = r2.

Lemma comma_tail_stop {A} (f : A -> list Ascii.ascii) close l r :
  numchar close = false -> stop (comma_tail (map f l) ++ close :: r) = true.
Proof. intros Hn. destruct l; simpl; [by rewrite Hn|done]. Qed.

Lemma comma_tail_unique {A} D (f : A -> list Ascii.ascii) (close : Ascii.ascii) l1 l2 r1 r2 :
  numchar close = false -> close <> chr 44 ->
  Forall (unique D f) l1 -> forallb D l2 = true ->
  comma_tail (map f l1) ++ close :: r1 = comma_tail (map f l2) ++ close :: r2 ->
  l1 = l2 /\ r1 = r2.
Proof.
  intros Hn Hc HF. revert l2. induction HF as [|x l1 Hx HF IH]; intros [|y l2] HD H; simpl in H, HD.
  - by injection H.
  - exfalso. injection H. done.
  - exfalso. injection H. done.
  - injection H as H. rewrite <- !(app_assoc (f _)) in H. apply andb_true_iff in HD as [HD1 HD2].
    apply Hx in H as [-> H]; auto using comma_tail_stop.
    apply IH in H as [-> ->]; done.
Qed.

Lemma commas_unique {A} D (f : A -> list Ascii.ascii) (close : Ascii.ascii) l1 l2 r1 r2 :
  numchar close = false -> close <> chr 44 ->
  (forall x r t, D x = true -> f x ++ r <> close :: t) ->
  Forall (unique D f) l1 -> forallb D l1 = true -> forallb D l2 = true ->
  commas (map f l1) ++ close :: r1 = commas (map f l2) ++ close :: r2 ->
  l1 = l2 /\ r1 = r2.
Proof.
  intros Hn Hc Hf HF HD' HD H. destruct l1 as [|x l1], l2 as [|y l2]; simpl in H, HD, HD'.
  - by injection H.
  - exfalso. rewrite <- app_assoc in H. apply andb_true_iff in HD as [HD _].
    by apply (Hf y _ _ HD (eq_sym H)).
  - exfalso. rewrite <- app_assoc in H. apply andb_true_iff in HD' as [HD' _].
    by apply (Hf x _ _ HD' H).
  - rewrite <- !(app_assoc (f _)) in H. apply andb_true_iff in HD as [HD1 HD2].
    inversion_clear HF as [|? ? Hx HF'].
    apply Hx in H as [-> H]; auto using comma_tail_stop.
    eapply comma_tail_unique in H as [-> ->]; eauto.
Qed.

(** The first character of a value tells its constructor. *)
Definition head_class (c : Ascii.ascii) : N :=
  if numchar c then 0%N else code c.
Definition class_of (j : json) : N :=
  match j with
  | JNull => 110 | JBool true => 116 | JBool false => 102 | JInt _ => 0 | JFloat _ | JNonFinite _ => 1
  | JStr _ => 34 | JArr _ => 91 | JObj _ => 123
  end%N.

Lemma raw_head j : float_free j = true -> exists c t, raw j = c :: t /\ head_class c = class_of j.
Proof.
  destruct j as [|[]|z|q|x|s|l|kvs]; simpl; intros H; try done; eauto.
  pose proof (str_Z_numchars z) as N.
  destruct (chars (str_Z z)) as [|c t] eqn:E.
  - exfalso. assert (Hz : str_Z z = "") by (by apply chars_inj).
    unfold str_Z in Hz. destruct z as [|p|p]; [done| |done].
    pose proof (DecimalPos.Unsigned.to_uint_nonnil p) as Hn. simpl in Hz.
    by destruct (Pos.to_uint p).
  - exists c, t. simpl in N. apply andb_true_iff in N as [N _]. unfold head_class. by rewrite N.
Qed.

Lemma raw_class j1 j2 r1 r2 :
  float_free j1 = true -> float_free j2 = true ->
  raw j1 ++ r1 = raw j2 ++ r2 -> class_of j1 = class_of j2.
Proof.
  intros H1 H2 H. destruct (raw_head j1 H1) as (c1 & t1 & E1 & <-).
  destruct (raw_head j2 H2) as (c2 & t2 & E2 & <-).
  rewrite E1, E2 in H. by injection H as -> _.
Qed.

Lemma raw_not_close j r t close :
  float_free j = true -> (close = chr 93 \/ close = chr 125) -> raw j ++ r <> close :: t.
Proof.
  intros Hj Hc H. destruct (raw_head j Hj) as (c & u & E & K). rewrite E in H.
  injection H as -> _. destruct Hc as [-> | ->], j as [|[]|?|?|?|?|?|?]; done.
Qed.

Definition raw_pair (kv : string * json) : list Ascii.ascii := str_lit kv.1 ++ chr 58 :: raw kv.2.
Definition pair_free (kv : string * json) : bool := float_free kv.2.

Lemma raw_pair_unique kv : unique float_free raw kv.2 -> unique pair_free raw_pair kv.
Proof.
  intros Hv [k2 v2] r1 r2 D S1 S2 H. destruct kv as [k v]. unfold raw_pair in H. simpl in *.
  rewrite <- !app_assoc in H. apply str_lit_unique in H as [-> H]. simpl in H.
  injection H as H. apply Hv in H as [-> ->]; auto.
Qed.

Lemma raw_unique j : float_free j = true -> unique float_free raw j.
Proof.
  induction j as [|b|z|q|x|s|l IH|kvs IH] using json_rect_all; intros Hj j2 r1 r2 H2 S1 S2 H;
    pose proof (raw_class _ _ _ _ Hj H2 H) as HC.
  - destruct j2 as [|[]|?|?|?|?|?|?]; try discriminate. by injection H.
  - destruct j2 as [|b2|?|?|?|?|?|?]; try (destruct b; discriminate).
    destruct b, b2; try discriminate; by injection H.
  - destruct j2 as [|[]|?|?|?|?|?|?]; try discriminate. simpl in H.
    apply int_unique in H as [-> ->]; auto.
  - discriminate.
  - discriminate.
  - destruct j2 as [|[]|?|?|?|?|?|?]; try discriminate. simpl raw in H.
    apply str_lit_unique in H as [-> ->]; auto.
  - destruct j2 as [|[]|?|?|?|?|l2|?]; try discriminate. simpl in Hj, H2, H.
    injection H as H. rewrite <- !app_assoc in H. simpl in H.
    eapply (commas_unique float_free) in H as [-> ->]; auto using raw_not_close.
    clear -IH Hj. induction IH as [|x l Hx _ IHl]; simpl in Hj; [constructor|].
    apply andb_true_iff in Hj as [??]. constructor; auto.
  - destruct j2 as [|[]|?|?|?|?|?|kvs2]; try discriminate. simpl in Hj, H2, H.
    injection H as H. rewrite <- !app_assoc in H. simpl in H.
    eapply (commas_unique pair_free raw_pair) in H as [-> ->]; auto.
    clear -IH Hj. induction IH as [|x l Hx _ IHl]; simpl in Hj; [constructor|].
    apply andb_true_iff in Hj as [??]. constructor; auto using raw_pair_unique.
Qed.

(** Two values with the same canonical text are equal up to key order. *)
Lemma dumps_inj j1 j2 :
  float_free (sort_keys j1) = true -> float_free (sort_keys j2) = true ->
  dumps j1 = dumps j2 -> sort_keys j1 = sort_keys j2.
Proof.
  intros H1 H2 H. unfold dumps in H. apply (f_equal chars) in H. rewrite !chars_of_chars in H.
  apply (raw_unique _ H1 _ [] []); auto. by rewrite !app_nil_r.
Qed.
End decode.

(** A flat object of strings, numbers and nulls under fixed keys determines
    its values. *)
Lemma sort_pairs_map_inj {A B} (f : A -> B) (l1 l2 : list (string * A)) :
  (forall x y, f x = f y -> x = y) ->
  sort_pairs (map (fun kv => (kv.1, f kv.2)) l1) = sort_pairs (map (fun kv => (kv.1, f kv.2)) l2) ->
  sort_pairs l1 = sort_pairs l2.
Proof.
  intros Hf. set (g := fun kv : string * A => (kv.1, f kv.2)).
  assert (Hi : forall k v l, insert_key k (f v) (map g l) = map g (insert_key k v l)).
  { intros k v l. induction l as [|[k' v'] l IH]; simpl; [done|].
    destruct (key_leb _ _); simpl; [done|]. by rewrite IH. }
  assert (Hs : forall l, sort_pairs (map g l) = map g (sort_pairs l)).
  { intros l. induction l as [|[k v] l IH]; simpl; [done|]. by rewrite IH, Hi. }
  rewrite !Hs. revert l2. generalize (sort_pairs l1) as m1. intros m1 l2.
  generalize (sort_pairs l2) as m2. clear -Hf.
  induction m1 as [|[k v] m1 IH]; intros [|[k2 v2] m2] H; simpl in H; try done.
  injection H as -> Hv H. apply Hf in Hv as ->. f_equal. by apply IH.
Qed.

(** An object whose keys are fixed and whose values are strings, integers,
    booleans or nulls is determined by its canonical text. *)
Lemma insert_key_fst {A} k (v v' : A) l l' :
  l.*1 = l'.*1 -> (insert_key k v l).*1 = (insert_key k v' l').*1.
Proof.
  revert l'. induction l as [|[a x] l IH]; intros [|[a' x'] l'] E; simpl in E; try done.
  injection E as -> E. simpl. destruct (key_leb _ _); simpl; f_equal; [by f_equal|by apply IH].
Qed.

Lemma sort_pairs_fst {A} (l l' : list (string * A)) :
  l.*1 = l'.*1 -> (sort_pairs l).*1 = (sort_pairs l').*1.
Proof.
  revert l'. induction l as [|[a x] l IH]; intros [|[a' x'] l'] E; simpl in E; try done.
  injection E as -> E. simpl. apply insert_key_fst. auto.
Qed.

Lemma insert_key_inj {A} k (v v' : A) l l' :
  l.*1 = l'.*1 -> insert_key k v l = insert_key k v' l' -> v = v' /\ l = l'.
Proof.
  revert l'. induction l as [|[a x] l IH]; intros [|[a' x'] l'] E H; simpl in E, H; try done.
  - by injection H.
  - injection E as -> E. destruct (key_leb _ _); [by injection H as -> -> ->|].
    injection H as -> H. by destruct (IH _ E H) as [-> ->].
Qed.

Lemma sort_pairs_inj {A} (l l' : list (string * A)) :
  l.*1 = l'.*1 -> sort_pairs l = sort_pairs l' -> l = l'.
Proof.
  revert l'. induction l as [|[a x] l IH]; intros [|[a' x'] l'] E H; simpl in E, H; try done.
  injection E as -> E. apply insert_key_inj in H as [-> H]; [|by apply sort_pairs_fst].
  by rewrite (IH _ E H).
Qed.

Definition scalar (j : json) : bool :=
  match j with JNull | JBool _ | JInt _ | JStr _ => true | _ => false end.

Lemma forallb_insert_key {A} (f : A -> bool) k v (l : list (string * A)) :
  forallb (fun kv => f kv.2) (insert_key k v l) = f v && forallb (fun kv => f kv.2) l.
Proof.
  induction l as [|[a x] l IH]; simpl; [done|]. destruct (key_leb _ _); simpl; [done|].
  rewrite IH. by destruct (f v), (f x).
Qed.

Lemma forallb_sort_pairs {A} (f : A -> bool) (l : list (string * A)) :
  forallb (fun kv => f kv.2) (sort_pairs l) = forallb (fun kv => f kv.2) l.
Proof.
  induction l as [|[a x] l IH]; simpl; [done|]. by rewrite forallb_insert_key, IH.
Qed.

Lemma sort_scalars (kvs : list (string * json)) :
  forallb (fun kv => scalar kv.2) kvs = true -> map (fun kv => (kv.1, sort_keys kv.2)) kvs = kvs.
Proof.
  induction kvs as [|[k v] l IH]; simpl; [done|]. intros [Hv Hl]%andb_true_iff. rewrite IH by done.
  by destruct v.
Qed.

Lemma dumps_fields_inj `{CharCodec} (kvs kvs' : list (string * json)) :
  kvs.*1 = kvs'.*1 -> forallb (fun kv => scalar kv.2) kvs = true ->
  forallb (fun kv => scalar kv.2) kvs' = true ->
  dumps (JObj kvs) = dumps (JObj kvs') -> kvs = kvs'.
Proof.
  intros K S S' E.
  assert (F : forall l, forallb (fun kv => scalar kv.2) l = true -> float_free (sort_keys (JObj l)) = true).
  { intros l Hl. cbn [sort_keys float_free]. rewrite sort_scalars by done.
    rewrite (forallb_sort_pairs float_free). rewrite forallb_forall in Hl |- *.
    intros [k v] Hin. specialize (Hl _ Hin). by destruct v. }
  apply dumps_inj in E; [|by apply F..]. cbn [sort_keys] in E. rewrite !sort_scalars in E by done.
  injection E as E. by apply sort_pairs_inj.
Qed.

(** ** The order of keys *)

Lemma code_inj a b : code a = code b -> a = b.
Proof. intros E. apply (f_equal Ascii.ascii_of_N) in E. unfold code in E. by rewrite !Ascii.ascii_N_embedding in E. Qed.

Lemma key_leb_total a b : key_leb a b = true \/ key_leb b a = true.
Proof.
  revert b. induction a as [|x a IH]; intros [|y b]; simpl; auto.
  rewrite (Ascii.eqb_sym y x). destruct (Ascii.eqb_spec x y) as [->|N]; [apply IH|].
  rewrite !N.ltb_lt. assert (code x <> code y) by (intros E; by apply code_inj in E). lia.
Qed.

Lemma key_leb_antisym a b : key_leb a b = true -> key_leb b a = true -> a = b.
Proof.
  revert b. induction a as [|x a IH]; intros [|y b]; simpl; try done.
  rewrite (Ascii.eqb_sym y x). destruct (Ascii.eqb_spec x y) as [->|N].
  - intros ? ?. f_equal. auto.
  - rewrite !N.ltb_lt. lia.
Qed.

Lemma key_leb_trans a b c : key_leb a b = true -> key_leb b c = true -> key_leb a c = true.
Proof.
  revert b c. induction a as [|x a IH]; intros [|y b] [|z c]; simpl; try done.
  destruct (Ascii.eqb_spec x y) as [->|N1].
  - destruct (Ascii.eqb_spec y z) as [->|N2]; [apply IH|done].
  - destruct (Ascii.eqb_spec y z) as [->|N2]; [by destruct (Ascii.eqb_spec x z)|].
    rewrite !N.ltb_lt. intros L1 L2. destruct (Ascii.eqb_spec x z) as [->|]; [lia|apply N.ltb_lt; lia].
Qed.

Lemma insert_key_comm {A} k v k' (v' : A) l :
  k <> k' -> insert_key k v (insert_key k' v' l) = insert_key k' v' (insert_key k v l).
Proof.
  intros Nk. assert (Hx : forall a b : string, key_leb (chars a) (chars b) = false ->
    key_leb (chars b) (chars a) = true).
  { intros a b E. destruct (key_leb_total (chars a) (chars b)); congruence. }
  assert (Ha : key_leb (chars k) (chars k') = negb (key_leb (chars k') (chars k))).
  { destruct (key_leb (chars k) (chars k')) eqn:E1, (key_leb (chars k') (chars k)) eqn:E2; try done.
    - exfalso. apply Nk, chars_inj. by apply key_leb_antisym.
    - apply Hx in E1. congruence. }
  induction l as [|[a x] l IH]; simpl.
  - rewrite Ha. by destruct (key_leb (chars k') (chars k)).
  - destruct (key_leb (chars k') (chars a)) eqn:E1, (key_leb (chars k) (chars a)) eqn:E2; simpl;
      rewrite ?E1, ?E2, ?Ha; try done.
    + by destruct (key_leb (chars k') (chars k)) eqn:E3; simpl; rewrite ?E1, ?E2.
    + destruct (key_leb (chars k') (chars k)) eqn:E3; simpl; rewrite ?E2; [done|].
      assert (key_leb (chars k) (chars a) = true); [|congruence].
      apply (key_leb_trans _ (chars k')); [|done]. by apply Hx.
    + destruct (key_leb (chars k') (chars k)) eqn:E3; simpl; rewrite ?E1; [|done].
      assert (key_leb (chars k') (chars a) = true); [|congruence].
      by apply (key_leb_trans _ (chars k)).
    + by rewrite IH.
Qed.

Lemma sort_pairs_perm {A} (l l' : list (string * A)) :
  l ≡ₚ l' -> NoDup l.*1 -> sort_pairs l = sort_pairs l'.
Proof.
  induction 1 as [|[k v] l l' P IH|[k v] [k' v'] l|l1 l2 l3 P1 IH1 P2 IH2]; simpl; intros N; try done.
  - apply NoDup_cons in N as [_ N]. by rewrite IH.
  - apply NoDup_cons in N as [N _]. apply insert_key_comm. intros ->. apply N. left.
  - rewrite IH1 by done. apply IH2. by rewrite <- P1.
Qed.

Lemma float_free_sort j : float_free j = true -> float_free (sort_keys j) = true.
Proof.
  induction j as [| | | | | |l IH|kvs IH] using json_rect_all; try done; cbn [sort_keys float_free].
  - rewrite !forallb_forall, Forall_forall in *. intros Hall j (x & <- & Hx)%in_map_iff.
    apply IH; [by apply list_elem_of_In|auto].
  - rewrite (forallb_sort_pairs float_free), !forallb_forall. rewrite Forall_forall in IH.
    intros Hall j (x & <- & Hx)%in_map_iff. cbn. apply IH; [by apply list_elem_of_In|by apply Hall].
Qed.

(** Sorting is idempotent. *)
Lemma sort_pairs_map {A B} (f : A -> B) (l : list (string * A)) :
  sort_pairs (map (fun kv => (kv.1, f kv.2)) l) = map (fun kv => (kv.1, f kv.2)) (sort_pairs l).
Proof.
  assert (Hi : forall k v l, insert_key k (f v) (map (fun kv => (kv.1, f kv.2)) l)
                             = map (fun kv => (kv.1, f kv.2)) (insert_key k v l)).
  { intros k v m. induction m as [|[k' v'] m IH]; simpl; [done|]. destruct (key_leb _ _); simpl; [done|]. by rewrite IH. }
  induction l as [|[k v] l IH]; simpl; [done|]. by rewrite IH, Hi.
Qed.

Fixpoint sorted_keys {A} (l : list (string * A)) : bool :=
  match l with
  | (k, _) :: ((k', _) :: _) as r => key_leb (chars k) (chars k') && sorted_keys r
  | _ => true
  end.

Lemma insert_sorted {A} k (v : A) l : sorted_keys l = true -> sorted_keys (insert_key k v l) = true.
Proof.
  induction l as [|[a x] l IH]; [done|]. intros Hs. cbn [insert_key].
  destruct (key_leb (chars k) (chars a)) eqn:E; [by cbn [sorted_keys]; rewrite E|].
  assert (Ha : key_leb (chars a) (chars k) = true) by (destruct (key_leb_total (chars a) (chars k)); congruence).
  destruct l as [|[b y] l]; [by simpl; rewrite Ha|]. cbn [sorted_keys] in Hs.
  apply andb_true_iff in Hs as [Hab Hs]. specialize (IH Hs). cbn [insert_key] in IH |- *.
  destruct (key_leb (chars k) (chars b)); cbn [sorted_keys] in IH |- *; [by rewrite Ha|by rewrite Hab].
Qed.

Lemma sort_pairs_sorted {A} (l : list (string * A)) : sorted_keys (sort_pairs l) = true.
Proof. induction l as [|[k v] l IH]; [done|]. by apply insert_sorted. Qed.

Lemma sorted_sort_pairs {A} (l : list (string * A)) : sorted_keys l = true -> sort_pairs l = l.
Proof.
  induction l as [|[k v] l IH]; [done|]. intros Hs. cbn [sort_pairs].
  destruct l as [|[k' v'] l]; [done|]. cbn [sorted_keys] in Hs. apply andb_true_iff in Hs as [Hk Hs].
  rewrite IH by done. cbn [insert_key]. by rewrite Hk.
Qed.

Lemma sort_keys_idem j : sort_keys (sort_keys j) = sort_keys j.
Proof.
  induction j as [| | | | | |l IH|kvs IH] using json_rect_all; try done; cbn [sort_keys]; f_equal.
  - rewrite map_map. apply map_ext_in. intros x Hx. rewrite Forall_forall in IH. apply IH. by apply list_elem_of_In.
  - rewrite <- (sort_pairs_map sort_keys), sorted_sort_pairs, map_map by apply sort_pairs_sorted.
    f_equal. apply map_ext_in. intros [k v] Hx. simpl. f_equal.
    rewrite Forall_forall in IH. by apply (IH (k, v)), list_elem_of_In.
Qed.

Lemma all_sort_keys (f : json -> bool) :
  (forall l, f (JArr l) = forallb f l) -> (forall kvs, f (JObj kvs) = forallb (fun kv => f kv.2) kvs) ->
  forall j, f (sort_keys j) = f j.
Proof.
  intros HA HO j. induction j as [| | | | | |l IH|kvs IH] using json_rect_all; try done; cbn [sort_keys].
  - rewrite !HA. induction IH as [|x l E _ IHl]; [done|]. simpl. by rewrite E, IHl.
  - rewrite !HO, (forallb_sort_pairs f). induction IH as [|x l E _ IHl]; [done|]. simpl. by rewrite E, IHl.
Qed.

Lemma sort_strs_nil l : sort_strs l = [] <-> l = [].
Proof.
  unfold sort_strs. destruct l as [|x l]; [done|]. simpl. split; [|done].
  assert (N : forall k m, insert_key k tt m <> []).
  { intros k [|[a u] m]; [done|]. simpl. by destruct (key_leb _ _). }
  intros E. apply map_eq_nil in E. by apply N in E.
Qed.

Lemma without_nil a b : without a b = [] <-> a ⊆ b.
Proof.
  unfold without. induction a as [|x a IH]; simpl; [split; [intros _; by apply list_subseteq_nil|done]|].
  destruct (existsb (String.eqb x) b) eqn:E; simpl.
  - apply existsb_eqb in E. rewrite IH. split; [intros S y [->|Hy]%elem_of_cons; auto|].
    intros S y Hy. apply S. by right.
  - split; [done|]. intros S. exfalso. apply not_true_iff_false in E. apply E, existsb_eqb, S. left.
Qed.
