(* ===== verification/Sha256.v ===== *)
(** * SHA-256

    [hashlib.sha256(data).hexdigest()] on bytes (FIPS 180-4), on 32-bit words
    kept as [N] with their wrap-around written out. [Digest] is the interface
    the other components use: any function whose output is 64 lower-case
    hexadecimal digits; [sha256_digest] is the instance that ships. *)
From S2P Require Import Prelude PyStr.
From stdpp Require Import base strings list.
From Stdlib Require Import NArith Lia.

Local Open Scope N_scope.

Definition mask32 : N := 4294967295.
Definition w32 (x : N) : N := N.land x mask32.
Definition add32 (x y : N) : N := w32 (x + y).
Definition rotr (n x : N) : N := N.lor (N.shiftr x n) (w32 (N.shiftl x (32 - n))).
Definition not32 (x : N) : N := N.lxor x mask32.
Definition ch (x y z : N) : N := N.lxor (N.land x y) (N.land (not32 x) z).
Definition maj (x y z : N) : N := N.lxor (N.lxor (N.land x y) (N.land x z)) (N.land y z).
Definition bsig0 (x : N) : N := N.lxor (N.lxor (rotr 2 x) (rotr 13 x)) (rotr 22 x).
Definition bsig1 (x : N) : N := N.lxor (N.lxor (rotr 6 x) (rotr 11 x)) (rotr 25 x).
Definition ssig0 (x : N) : N := N.lxor (N.lxor (rotr 7 x) (rotr 18 x)) (N.shiftr x 3).
Definition ssig1 (x : N) : N := N.lxor (N.lxor (rotr 17 x) (rotr 19 x)) (N.shiftr x 10).

Definition k256 : list N := [
  1116352408;1899447441;3049323471;3921009573;961987163;1508970993;2453635748;2870763221;
  3624381080;310598401;607225278;1426881987;1925078388;2162078206;2614888103;3248222580;
  3835390401;4022224774;264347078;604807628;770255983;1249150122;1555081692;1996064986;
  2554220882;2821834349;2952996808;3210313671;3336571891;3584528711;113926993;338241895;
  666307205;773529912;1294757372;1396182291;1695183700;1986661051;2177026350;2456956037;
  2730485921;2820302411;3259730800;3345764771;3516065817;3600352804;4094571909;275423344;
  430227734;506948616;659060556;883997877;958139571;1322822218;1537002063;1747873779;
  1955562222;2024104815;2227730452;2361852424;2428436474;2756734187;3204031479;3329325298].

(** The message schedule, latest word first. *)
Fixpoint schedule (n : nat) (ws : list N) : list N :=
  match n with
  | O => rev ws
  | S n' =>
      schedule n' (add32 (add32 (ssig1 (nth 1 ws 0)) (nth 6 ws 0))
                         (add32 (ssig0 (nth 14 ws 0)) (nth 15 ws 0)) :: ws)
  end.

Record hstate := HState { ha : N; hb : N; hc : N; hd : N; he : N; hf : N; hg : N; hh : N }.

Definition hround (s : hstate) (kw : N * N) : hstate :=
  let t1 := add32 (add32 (hh s) (bsig1 (he s)))
                  (add32 (ch (he s) (hf s) (hg s)) (add32 kw.1 kw.2)) in
  let t2 := add32 (bsig0 (ha s)) (maj (ha s) (hb s) (hc s)) in
  HState (add32 t1 t2) (ha s) (hb s) (hc s) (add32 (hd s) t1) (he s) (hf s) (hg s).

Definition compress (s : hstate) (block : list N) : hstate :=
  let r := fold_left hround (combine k256 (schedule 48 (rev block))) s in
  HState (add32 (ha s) (ha r)) (add32 (hb s) (hb r)) (add32 (hc s) (hc r)) (add32 (hd s) (hd r))
         (add32 (he s) (he r)) (add32 (hf s) (hf r)) (add32 (hg s) (hg r)) (add32 (hh s) (hh r)).

Fixpoint be_words (bs : list N) : list N :=
  match bs with
  | a :: b :: c :: d :: r =>
      N.lor (N.lor (N.shiftl a 24) (N.shiftl b 16)) (N.lor (N.shiftl c 8) d) :: be_words r
  | _ => []
  end.
Fixpoint blocks (n : nat) (ws : list N) : list (list N) :=
  match n with O => [] | S n' => take 16 ws :: blocks n' (drop 16 ws) end.

Definition be64 (n : N) : list N :=
  map (fun i => N.land (N.shiftr n (8 * i)) 255) [7;6;5;4;3;2;1;0].
Definition pad (bs : list N) : list N :=
  let l := N.of_nat (length bs) in
  bs ++ [128] ++ repeat 0 (N.to_nat ((119 - l mod 64) mod 64)) ++ be64 (8 * l).

Definition h256 : hstate :=
  HState 1779033703 3144134277 1013904242 2773480762 1359893119 2600822924 528734635 1541459225.

Definition hex32 (w : N) : list Ascii.ascii :=
  map (fun i => hexdigit (N.land (N.shiftr w (4 * i)) 15)) [7;6;5;4;3;2;1;0].
Definition sha256_hex (s : string) : string :=
  let ws := be_words (pad (map code (chars s))) in
  let r := fold_left compress (blocks (length ws / 16) ws) h256 in
  of_chars (hex32 (ha r) ++ hex32 (hb r) ++ hex32 (hc r) ++ hex32 (hd r)
            ++ hex32 (he r) ++ hex32 (hf r) ++ hex32 (hg r) ++ hex32 (hh r)).

(** The FIPS test vectors for zero, one and two blocks. *)
Example sha256_empty :
  sha256_hex "" = "e3b0c44298fc1c149afbf4c8996fb92427ae41e4649b934ca495991b7852b855".
Proof. vm_compute. reflexivity. Qed.

Example sha256_abc :
  sha256_hex "abc" = "ba7816bf8f01cfea414140de5dae2223b00361a396177a9cb410ff61f20015ad".
Proof. vm_compute. reflexivity. Qed.

Example sha256_two_blocks :
  sha256_hex "abcdbcdecdefdefgefghfghighijhijkijkljklmklmnlmnomnopnopq"
  = "248d6a61d20638b8e5c026930c3e6039a33ce45964ff2167f6ecedd419db06c1".
Proof. vm_compute. reflexivity. Qed.

(** ** The digest interface *)

Class Digest := {
  digest : string -> string;
  digest_hex64 s : hex64 (digest s) = true;
}.

Lemma hexdigit_hex n : n < 16 -> hex_c (hexdigit n) = true.
Proof.
  intros H. unfold hexdigit, hex_c, code.
  destruct (N.ltb_spec n 10); rewrite Ascii.N_ascii_embedding by lia;
    repeat match goal with |- context [N.leb ?a ?b] => destruct (N.leb_spec a b) end;
    simpl; lia || done.
Qed.

Lemma hex32_hex w : forallb hex_c (hex32 w) = true.
Proof.
  unfold hex32. rewrite forallb_forall. intros c [i [<- _]]%in_map_iff.
  apply hexdigit_hex. change 15 with (N.ones 4). rewrite N.land_ones.
  apply N.mod_lt. done.
Qed.

#[export] Instance sha256_digest : Digest.
Proof.
  refine {| digest := sha256_hex |}. intros s. unfold sha256_hex, hex64.
  set (r := fold_left _ _ _). clearbody r. rewrite chars_of_chars. apply andb_true_iff. split.
  - rewrite !length_app. done.
  - rewrite !forallb_app, !hex32_hex. done.
Defined.

(** [a] and [b] are an actual collision of the digest: the only escape a
    binding theorem allows, and it names the two inputs. *)
Definition collides `{Digest} (a b : string) : Prop := a <> b /\ digest a = digest b.

Lemma digest_inj `{Digest} a b : digest a = digest b -> a = b \/ collides a b.
Proof. intros E. destruct (decide (a = b)) as [|N]; [by left|by right]. Qed.
