(* ===== verification/PyRegex.v ===== *)
(** * Regular expressions

    The part of Python's [re] that the modelled code uses, as a backtracking
    matcher: greedy repetition, ordered alternation, word boundaries and
    case-insensitive matching. Characters are those of [PyStr]. *)
From S2P Require Import Prelude PyStr.
From stdpp Require Import base strings list.
From Stdlib Require Import Lia NArith.

Notation char := Ascii.ascii.

(** A set of characters: ranges of code points, [\s], or a complement. *)
Inductive cset :=
  | CRanges (rs : list (N * N))
  | CSpace
  | CNot (c : cset).

Fixpoint cset_mem (c : cset) (n : N) (x : char) : bool :=
  match c with
  | CRanges rs => existsb (fun '(lo, hi) => (lo <=? n) && (n <=? hi))%N rs
  | CSpace => isspace x
  | CNot c => negb (cset_mem c n x)
  end.

(** [\w]: the alphanumeric code points below U+0100, and the underscore. *)
Definition word_c (x : char) : bool :=
  let n := code x in
  existsb (fun '(lo, hi) => (lo <=? n) && (n <=? hi))%N
    [(48, 57); (65, 90); (95, 95); (97, 122); (170, 170); (178, 179); (181, 181); (185, 186);
     (188, 190); (192, 214); (216, 246); (248, 255)]%N.

Inductive re :=
  | RSet (c : cset)
  | REps
  | RCat (a b : re)
  | RAlt (a b : re)
  | RRep (min : nat) (max : option nat) (r : re)   (* greedy r{min,max} *)
  | RBound                                         (* \b *)
  | RStart                                         (* ^ *)
  | REnd                                           (* $ *)
  | RNotBefore (c : cset)                          (* (?<![...]) *)
  | RNotAfter (c : cset).                          (* (?![...]) *)

(** Case-insensitive membership: some case variant of the character is in the
    set. *)
Definition upper_c (x : char) : char :=
  let n := code x in
  if ((97 <=? n) && (n <=? 122) || (224 <=? n) && (n <=? 254) && negb (n =? 247))%N
  then Ascii.ascii_of_N (n - 32) else x.
Definition set_mem (icase : bool) (c : cset) (x : char) : bool :=
  let mem y := cset_mem c (code y) y in
  mem x || icase && (mem (lower_c x) || mem (upper_c x)).

Definition at_boundary (prev : option char) (s : list char) : bool :=
  let before := match prev with Some c => word_c c | None => false end in
  let after := match s with c :: _ => word_c c | [] => false end in
  xorb before after.

(** [$]: at the end, or before one final newline. *)
Definition at_end (s : list char) : bool :=
  match s with [] => true | [c] => Ascii.eqb c newline | _ => false end.

(** [run r prev s k]: match [r] at the start of [s], [prev] being the character
    before, and continue with [k]; the first continuation that succeeds wins.
    A repetition's further rounds must consume, so the length of [s] bounds
    their number. *)
Section run.
  Context (icase : bool) {A : Type}.
Definition cont : Type := option char -> list char -> option A.

Fixpoint rep (body : option char -> list char -> cont -> option A) (fuel min : nat)
    (max : option nat) (prev : option char) (s : list char) (k : cont) : option A :=
  let stop := match min with O => k prev s | S _ => None end in
  match fuel, max with
  | O, _ | _, Some O => stop
  | S fuel', _ =>
      match body prev s (fun prev' s' =>
              if (List.length s' <? List.length s)%nat
              then rep body fuel' (Nat.pred min) (option_map Nat.pred max) prev' s' k
              else None) with
      | Some a => Some a
      | None => stop
      end
  end.

Fixpoint run (r : re) (prev : option char) (s : list char) (k : cont) : option A :=
  match r with
  | RSet c => match s with x :: s' => if set_mem icase c x then k (Some x) s' else None | [] => None end
  | REps => k prev s
  | RCat a b => run a prev s (fun prev' s' => run b prev' s' k)
  | RAlt a b => match run a prev s k with Some x => Some x | None => run b prev s k end
  | RRep min max r => rep (run r) (S (List.length s)) min max prev s k
  | RBound => if at_boundary prev s then k prev s else None
  | RStart => match prev with None => k prev s | Some _ => None end
  | REnd => if at_end s then k prev s else None
  | RNotBefore c =>
      match prev with Some x => if set_mem icase c x then None else k prev s | None => k prev s end
  | RNotAfter c => match s with x :: _ => if set_mem icase c x then None else k prev s | [] => k prev s end
  end.
End run.

(** A match at the start of [s]: what follows it. *)
Definition match_here (icase : bool) (r : re) (prev : option char) (s : list char)
    : option (option char * list char) :=
  run icase r prev s (fun p s' => Some (p, s')).

(** [pattern.search(s)] as a truth value. *)
Fixpoint search_from (icase : bool) (r : re) (prev : option char) (s : list char) : bool :=
  match match_here icase r prev s with
  | Some _ => true
  | None => match s with [] => false | c :: s' => search_from icase r (Some c) s' end
  end.
Definition re_search (icase : bool) (r : re) (s : string) : bool := search_from icase r None (chars s).

(** [pattern.fullmatch(s)] as a truth value. *)
Definition re_fullmatch (icase : bool) (r : re) (s : string) : bool :=
  match run icase r None (chars s) (fun _ s' => match s' with [] => Some tt | _ => None end) with
  | Some _ => true
  | None => false
  end.

(** [pattern.sub(repl, s)] for a pattern that matches no empty string. *)
Fixpoint sub_from (icase : bool) (r : re) (repl : list char) (fuel : nat) (prev : option char)
    (s : list char) : list char :=
  match fuel, s with
  | O, _ | _, [] => s
  | S f, c :: s' =>
      match match_here icase r prev s with
      | Some (prev', rest) =>
          if (List.length rest <? List.length s)%nat then repl ++ sub_from icase r repl f prev' rest
          else c :: sub_from icase r repl f (Some c) s'
      | None => c :: sub_from icase r repl f (Some c) s'
      end
  end.
Definition re_sub (icase : bool) (r : re) (repl s : string) : string :=
  of_chars (sub_from icase r (chars repl) (List.length (chars s)) None (chars s)).

(** ** Building patterns *)

Definition rng (a b : string) : N * N :=
  match a, b with String x _, String y _ => (code x, code y) | _, _ => (1, 0)%N end.
(** The characters of [s], as a set. *)
Definition one_of (s : string) : list (N * N) := map (fun c => (code c, code c)) (chars s).
Definition digits09 : list (N * N) := [rng "0" "9"].
Definition alpha : list (N * N) := [rng "A" "Z"; rng "a" "z"].
Definition alnum : list (N * N) := digits09 ++ alpha.
Definition rset (rs : list (N * N)) : re := RSet (CRanges rs).
Definition cats (l : list re) : re := foldr RCat REps l.
Definition lit (s : string) : re := cats (map (fun c => rset [(code c, code c)]) (chars s)).
Definition alts (l : list re) : re :=
  match l with [] => REps | x :: r => fold_left RAlt r x end.
Definition opt (r : re) : re := RRep 0 (Some 1%nat) r.
Definition many (r : re) : re := RRep 0 None r.
Definition many1 (r : re) : re := RRep 1 None r.
Definition at_least (n : nat) (r : re) : re := RRep n None r.
Definition exactly (n : nat) (r : re) : re := RRep n (Some n) r.

Example re_sub_sample :
  re_sub true (cats [RBound; lit "token"; many (RSet CSpace); rset (one_of ":="); many1 (RSet (CNot CSpace))])
    "X" "a Token =abc token:d mytoken:e" = "a X X mytoken:e".
Proof. vm_compute. reflexivity. Qed.

(** ** What a match consumes *)

Section consumed.
  Context (icase : bool) (P : char -> bool).

(** Every set of the pattern holds only characters of [P]. *)
Fixpoint only (r : re) : Prop :=
  match r with
  | RSet c => forall x, set_mem icase c x = true -> P x = true
  | RCat a b | RAlt a b => only a /\ only b
  | RRep _ _ r => only r
  | _ => True
  end.

Definition reads {A} (body : option char -> list char -> cont -> option A) : Prop :=
  forall prev s k a, body prev s k = Some a ->
  exists pre s' prev', s = pre ++ s' /\ forallb P pre = true /\ k prev' s' = Some a.

Lemma rep_reads {A} (body : option char -> list char -> cont -> option A) fuel min max :
  reads body -> reads (rep body fuel min max).
Proof.
  intros B. revert min max. induction fuel as [|fuel IH]; intros min max prev s k a; cbn [rep].
  - destruct min; [|done]. intros E. by exists [], s, prev.
  - assert (forall o : option A, o = match min with O => k prev s | S _ => None end -> o = Some a ->
      exists pre s' prev', s = pre ++ s' /\ forallb P pre = true /\ k prev' s' = Some a) as Stop.
    { intros o -> E. destruct min; [|done]. by exists [], s, prev. }
    destruct max as [[|n]|]; [by apply (Stop _ eq_refl)| |].
    all: destruct (body prev s _) as [x|] eqn:E; [|by apply (Stop _ eq_refl)].
    all: intros [= ->]; apply B in E as (pre & s' & prev' & -> & F & E).
    all: destruct (_ <? _)%nat; [|done]; apply IH in E as (pre' & s'' & prev'' & -> & F' & E).
    all: exists (pre ++ pre'), s'', prev''; by rewrite app_assoc, forallb_app, F, F'.
Qed.

Lemma run_reads {A} r : only r -> reads (run (A := A) icase r).
Proof.
  induction r as [c| |a IHa b IHb|a IHa b IHb|min max r IH| | | |c|c]; cbn [only run]; intros O prev s k x.
  - destruct s as [|y s]; [done|]. destruct (set_mem icase c y) eqn:M; [|done]. intros E. exists [y], s, (Some y).
    cbn. by rewrite (O y M).
  - intros E. by exists [], s, prev.
  - intros E. apply (IHa (proj1 O)) in E as (pre & s' & prev' & -> & F & E). apply (IHb (proj2 O)) in E as (pre' & s'' & prev'' & -> & F' & E).
    exists (pre ++ pre'), s'', prev''. by rewrite app_assoc, forallb_app, F, F'.
  - destruct (run icase a prev s k) as [y|] eqn:Ea.
    + intros [= ->]. by apply (IHa (proj1 O)) in Ea.
    + by apply (IHb (proj2 O)).
  - apply rep_reads. by apply IH.
  - destruct (at_boundary prev s); [|done]. intros E. by exists [], s, prev.
  - destruct prev; [done|]. intros E. by exists [], s, None.
  - destruct (at_end s); [|done]. intros E. by exists [], s, prev.
  - assert (k prev s = Some x -> exists pre s' prev', s = pre ++ s' /\ forallb P pre = true /\ k prev' s' = Some x) as D
      by (intros E; by exists [], s, prev).
    destruct prev as [y|]; [|done]. by destruct (set_mem icase c y).
  - assert (k prev s = Some x -> exists pre s' prev', s = pre ++ s' /\ forallb P pre = true /\ k prev' s' = Some x) as D
      by (intros E; by exists [], s, prev).
    destruct s as [|y s]; [done|]. by destruct (set_mem icase c y).
Qed.

Lemma fullmatch_chars r s : only r -> re_fullmatch icase r s = true -> forallb P (chars s) = true.
Proof.
  intros O. unfold re_fullmatch. destruct (run icase r None (chars s) _) as [u|] eqn:E; [|done]. intros _.
  apply (run_reads r O) in E as (pre & [|y s'] & prev' & -> & F & E); [|done]. by rewrite app_nil_r.
Qed.
End consumed.
