(* ===== verification/PyIO.v ===== *)
(** * Text files

    What reading and writing a text file does to its bytes: strict UTF-8
    decoding, universal newlines ([Path.read_text] opens in text mode with
    [newline=None]), UTF-8 encoding, and the two ways the code splits a text
    into lines. A decoded code point above U+00FF is outside the characters of
    the model and is read as the stand-in U+00BF. *)
From S2P Require Import Prelude PyStr Sha256 Json.
From stdpp Require Import base strings list.
From Stdlib Require Import NArith Lia.

Notation text := (list Ascii.ascii).
Notation bytes := (list Ascii.ascii).

Definition stand_in : Ascii.ascii := chr 191.
Definition code_point (n : N) : Ascii.ascii := if (n <? 256)%N then chr n else stand_in.

(** A continuation byte in the given range. *)
Definition within (lo hi : N) (c : Ascii.ascii) : bool := ((lo <=? code c) && (code c <=? hi))%N.
Definition low6 (c : Ascii.ascii) : N := (code c - 128)%N.

Fixpoint utf8_decode (l : bytes) : option text :=
  match l with
  | [] => Some []
  | b :: r =>
      let n := code b in
      if (n <? 128)%N then cons b <$> utf8_decode r
      else match r with
      | [] => None
      | c1 :: r1 =>
          if within 194 223 b then
            if within 128 191 c1
            then cons (code_point ((n - 192) * 64 + low6 c1)) <$> utf8_decode r1 else None
          else match r1 with
          | [] => None
          | c2 :: r2 =>
              if within 224 239 b then
                let lo := if (n =? 224)%N then 160%N else 128%N in
                let hi := if (n =? 237)%N then 159%N else 191%N in
                if within lo hi c1 && within 128 191 c2 then cons stand_in <$> utf8_decode r2
                else None
              else match r2 with
              | [] => None
              | c3 :: r3 =>
                  let lo := if (n =? 240)%N then 144%N else 128%N in
                  let hi := if (n =? 244)%N then 143%N else 191%N in
                  if within 240 244 b && within lo hi c1 && within 128 191 c2 && within 128 191 c3
                  then cons stand_in <$> utf8_decode r3 else None
              end
          end
      end
  end.

Definition utf8_encode (t : text) : bytes := flat_map utf8 t.

Definition lf : Ascii.ascii := chr 10.
Definition cr : Ascii.ascii := chr 13.
(** ["\r\n"] and ["\r"] become ["\n"]. *)
Fixpoint universal_newlines (l : text) : text :=
  match l with
  | [] => []
  | c :: r =>
      if Ascii.eqb c cr then
        lf :: match r with
              | d :: r' => if Ascii.eqb d lf then universal_newlines r' else universal_newlines r
              | [] => []
              end
      else c :: universal_newlines r
  end.

(** [path.read_text(encoding="utf-8")] of an existing file. *)
Definition read_text (b : bytes) : res text :=
  match utf8_decode b with
  | Some t => Ok (universal_newlines t)
  | None => Err (Exn UnicodeDecodeError "'utf-8' codec can't decode bytes")
  end.

(** [raw.rfind("\n")]. *)
Fixpoint rfind_lf (l : text) : option nat :=
  match l with
  | [] => None
  | c :: r =>
      match rfind_lf r with
      | Some i => Some (S i)
      | None => if Ascii.eqb c lf then Some 0%nat else None
      end
  end.
Definition ends_with_lf (l : text) : bool :=
  match last l with Some c => Ascii.eqb c lf | None => false end.
Definition blank (l : text) : bool := forallb isspace l.

(** [str.splitlines()]: besides line feeds and carriage returns it breaks at
    U+000B, U+000C, U+001C .. U+001E and U+0085 (and at two code points above
    the range of the model). *)
Definition linebreak (c : Ascii.ascii) : bool :=
  let n := code c in ((10 <=? n) && (n <=? 13) || (28 <=? n) && (n <=? 30) || (n =? 133))%N.
Fixpoint splitlines_go (cur : text) (l : text) : list text :=
  match l with
  | [] => match cur with [] => [] | _ => [rev cur] end
  | c :: r =>
      if linebreak c then
        rev cur :: match r with
                   | d :: r' => if Ascii.eqb c cr && Ascii.eqb d lf then splitlines_go [] r'
                                else splitlines_go [] r
                   | [] => splitlines_go [] r
                   end
      else splitlines_go (c :: cur) r
  end.
Definition splitlines (l : text) : list text := splitlines_go [] l.

(** [lst[n:]] for any integer [n]. *)
Definition slice_from {A} (n : Z) (l : list A) : list A :=
  drop (Z.to_nat (if (n <? 0)%Z then Z.max 0 (Z.of_nat (List.length l) + n) else n)) l.

(** ** SHA-1 (FIPS 180-4), for content anchors *)

Local Open Scope N_scope.

Definition rotl (n x : N) : N := rotr (32 - n) x.
Fixpoint sha1_schedule (n : nat) (ws : list N) : list N :=
  match n with
  | O => rev ws
  | S n' =>
      sha1_schedule n' (rotl 1 (N.lxor (N.lxor (nth 2 ws 0) (nth 7 ws 0))
                                       (N.lxor (nth 13 ws 0) (nth 15 ws 0))) :: ws)
  end.
Record h1state := H1 { h1a : N; h1b : N; h1c : N; h1d : N; h1e : N }.
Definition sha1_f (t : nat) (x y z : N) : N :=
  if (t <? 20)%nat then ch x y z
  else if (t <? 40)%nat then N.lxor (N.lxor x y) z
  else if (t <? 60)%nat then maj x y z else N.lxor (N.lxor x y) z.
Definition sha1_k (t : nat) : N :=
  if (t <? 20)%nat then 1518500249 else if (t <? 40)%nat then 1859775393
  else if (t <? 60)%nat then 2400959708 else 3395469782.
Definition sha1_round (s : h1state) (tw : nat * N) : h1state :=
  let t := tw.1 in
  H1 (add32 (add32 (rotl 5 (h1a s)) (sha1_f t (h1b s) (h1c s) (h1d s)))
            (add32 (h1e s) (add32 (sha1_k t) tw.2)))
     (h1a s) (rotl 30 (h1b s)) (h1c s) (h1d s).
Definition sha1_compress (s : h1state) (block : list N) : h1state :=
  let r := fold_left sha1_round (combine (List.seq 0 80) (sha1_schedule 64 (rev block))) s in
  H1 (add32 (h1a s) (h1a r)) (add32 (h1b s) (h1b r)) (add32 (h1c s) (h1c r))
     (add32 (h1d s) (h1d r)) (add32 (h1e s) (h1e r)).
Definition h160 : h1state := H1 1732584193 4023233417 2562383102 271733878 3285377520.
Definition sha1_hex (b : bytes) : text :=
  let ws := be_words (pad (map code b)) in
  let r := fold_left sha1_compress (blocks (List.length ws / 16) ws) h160 in
  hex32 (h1a r) ++ hex32 (h1b r) ++ hex32 (h1c r) ++ hex32 (h1d r) ++ hex32 (h1e r).

Example sha1_abc :
  of_chars (sha1_hex (chars "abc")) = "a9993e364706816aba3e25717850c26c9cd0d89d".
Proof. vm_compute. reflexivity. Qed.

Example sha1_two_blocks :
  of_chars (sha1_hex (chars "abcdbcdecdefdefgefghfghighijhijkijkljklmklmnlmnomnopnopq"))
  = "84983e441c3bd26ebaae4aa1f95129e5e54670f1".
Proof. vm_compute. reflexivity. Qed.

Local Close Scope N_scope.

(** ** Complete lines

    Both readers of append-only files share one guard: only the part up to the
    last line feed is split, and blank lines are dropped. *)

Definition safe_part (raw : text) : text :=
  if ends_with_lf raw then raw
  else match rfind_lf raw with Some i => take (S i) raw | None => [] end.
Definition nonblank_lines (t : text) : list text :=
  List.filter (fun l => negb (blank l)) (split_l newline t).
Definition complete_lines (raw : text) : list text := nonblank_lines (safe_part raw).

(** What an append can still change: the text after the last line feed. *)
Definition torn (raw : text) : text := drop (List.length (safe_part raw)) raw.

Definition closed_text (t : text) : Prop := t = [] \/ exists t', t = t' ++ [lf].

Lemma rfind_lf_app a b :
  rfind_lf (a ++ b) = match rfind_lf b with
                      | Some i => Some (List.length a + i)%nat
                      | None => rfind_lf a
                      end.
Proof.
  induction a as [|c a IH]; simpl; [by destruct (rfind_lf b)|].
  rewrite IH. by destruct (rfind_lf b).
Qed.

Lemma ends_with_lf_snoc l c : ends_with_lf (l ++ [c]) = Ascii.eqb c lf.
Proof. unfold ends_with_lf. by rewrite last_snoc. Qed.

(** Both branches of the guard cut after the last line feed. *)
Lemma safe_part_rfind raw :
  safe_part raw = match rfind_lf raw with Some i => take (S i) raw | None => [] end.
Proof.
  unfold safe_part. destruct (ends_with_lf raw) eqn:E; [|done].
  destruct raw as [|c l _] using rev_ind; [done|].
  rewrite ends_with_lf_snoc in E. rewrite rfind_lf_app. simpl. rewrite E.
  rewrite Nat.add_0_r, take_ge; [done|]. rewrite length_app. simpl. lia.
Qed.

Lemma safe_part_prefix raw : raw = safe_part raw ++ torn raw.
Proof.
  unfold torn. rewrite safe_part_rfind. destruct (rfind_lf raw) as [i|]; [|done].
  rewrite length_take. destruct (Nat.le_ge_cases (S i) (List.length raw)).
  - rewrite Nat.min_l by done. symmetry. apply take_drop.
  - rewrite Nat.min_r, take_ge by done. by rewrite drop_all, app_nil_r.
Qed.

Lemma rfind_lf_none l : rfind_lf l = None -> lf ∉ l.
Proof.
  induction l as [|c l IH]; simpl; intros H; [by intros ?%elem_of_nil|].
  destruct (rfind_lf l); [done|]. destruct (Ascii.eqb_spec c lf); [done|].
  intros [?|?]%elem_of_cons; [done|]. by apply IH.
Qed.

Lemma rfind_lf_some l i :
  rfind_lf l = Some i -> exists l1 l2, l = l1 ++ lf :: l2 /\ List.length l1 = i /\ lf ∉ l2.
Proof.
  revert i. induction l as [|c l IH]; simpl; intros i H; [done|].
  destruct (rfind_lf l) as [j|] eqn:E.
  - injection H as <-. destruct (IH j eq_refl) as (l1 & l2 & -> & <- & N).
    exists (c :: l1), l2. auto.
  - destruct (Ascii.eqb_spec c lf) as [->|]; [|done]. injection H as <-.
    exists [], l. auto using rfind_lf_none.
Qed.

Lemma safe_part_closed raw : closed_text (safe_part raw).
Proof.
  rewrite safe_part_rfind. destruct (rfind_lf raw) as [i|] eqn:E; [|by left].
  apply rfind_lf_some in E as (l1 & l2 & -> & <- & _). right. exists l1.
  rewrite cons_middle, app_assoc, take_app_length'; [done|]. rewrite length_app. simpl. lia.
Qed.

Lemma safe_part_app s t : closed_text s -> safe_part (s ++ t) = s ++ safe_part t.
Proof.
  intros [->|[s' ->]]; [done|]. rewrite !safe_part_rfind, rfind_lf_app.
  destruct (rfind_lf t) as [i|].
  - rewrite take_app_ge by lia. f_equal. f_equal. lia.
  - rewrite rfind_lf_app. simpl. rewrite app_nil_r, take_app_length'; [done|].
    rewrite length_app. simpl. lia.
Qed.

Lemma split_l_not_nil sep l : split_l sep l <> [].
Proof. destruct l; simpl; [done|]. destruct (split_l sep l); [done|]. by destruct (Ascii.eqb _ _). Qed.

Lemma split_l_app sep s t : split_l sep (s ++ sep :: t) = split_l sep s ++ split_l sep t.
Proof.
  induction s as [|c s IH]; simpl.
  - destruct (split_l sep t) eqn:E; [by apply split_l_not_nil in E|]. by rewrite Ascii.eqb_refl.
  - rewrite IH. destruct (split_l sep s) as [|w ws] eqn:E; [by apply split_l_not_nil in E|].
    simpl. by destruct (Ascii.eqb c sep).
Qed.

Lemma nonblank_lines_app s t :
  closed_text s -> nonblank_lines (s ++ t) = nonblank_lines s ++ nonblank_lines t.
Proof.
  intros [->|[s' ->]]; [done|]. unfold nonblank_lines.
  rewrite <- app_assoc. simpl. rewrite !(split_l_app newline s'), !List.filter_app. simpl.
  by rewrite app_nil_r.
Qed.

(** An append never changes the complete lines that are already there. *)
Lemma complete_lines_app a b :
  complete_lines (a ++ b) = complete_lines a ++ complete_lines (torn a ++ b).
Proof.
  unfold complete_lines. pose proof (safe_part_closed a) as C.
  rewrite <- (nonblank_lines_app _ _ C), <- (safe_part_app _ _ C).
  by rewrite app_assoc, <- safe_part_prefix.
Qed.

(** *** Decoding appended bytes *)

Lemma utf8_decode_app a b t :
  utf8_decode a = Some t -> utf8_decode (a ++ b) = app t <$> utf8_decode b.
Proof.
  revert t. induction a as [a IH] using (induction_ltof1 _ (@List.length _)). unfold ltof in IH.
  intros t. destruct a as [|c0 r0]; simpl.
  { intros [= <-]. by destruct (utf8_decode b). }
  assert (step : forall c r, (List.length r < List.length (c0 :: r0))%nat ->
    cons c <$> utf8_decode r = Some t -> cons c <$> utf8_decode (r ++ b) = app t <$> utf8_decode b).
  { intros c r L E. destruct (utf8_decode r) as [t'|] eqn:E'; [|done]. injection E as <-.
    rewrite (IH r L t' E'). by destruct (utf8_decode b). }
  destruct (code c0 <? 128)%N; [apply step; simpl; lia|].
  destruct r0 as [|c1 r1]; simpl; [done|].
  destruct (within 194 223 c0).
  { destruct (within 128 191 c1); [apply step; simpl; lia|done]. }
  destruct r1 as [|c2 r2]; simpl; [done|].
  destruct (within 224 239 c0).
  { destruct (_ && _); [apply step; simpl; lia|done]. }
  destruct r2 as [|c3 r3]; simpl; [done|].
  destruct (_ && _); [apply step; simpl; lia|done].
Qed.

Lemma utf8_encode_decode t r t' :
  utf8_decode r = Some t' -> utf8_decode (utf8_encode t ++ r) = Some (t ++ t').
Proof.
  intros H. induction t as [|c t IH]; [done|]. unfold utf8_encode in *. simpl.
  rewrite <- app_assoc. destruct c as [[] [] [] [] [] [] [] []]; simpl; by rewrite IH.
Qed.

(** [universal_newlines] works from left to right: a carriage return at the end
    of what was there may swallow a line feed of what is appended, nothing
    else. *)
Lemma universal_newlines_app a b :
  exists b', universal_newlines (a ++ b) = universal_newlines a ++ universal_newlines b'.
Proof.
  induction a as [a IH] using (induction_ltof1 _ (@List.length _)). unfold ltof in IH.
  destruct a as [|c [|d r]].
  - by exists b.
  - destruct (Ascii.eqb c cr) eqn:E; simpl; rewrite E; [|by exists b].
    destruct b as [|e b]; [by exists []|]. destruct (Ascii.eqb e lf); [by exists b|by exists (e :: b)].
  - destruct (IH (d :: r)) as [b1 E1]; [simpl; lia|]. destruct (IH r) as [b2 E2]; [simpl; lia|].
    simpl in *. destruct (Ascii.eqb c cr); [destruct (Ascii.eqb d lf)|].
    + exists b2. by rewrite E2.
    + exists b1. by rewrite E1.
    + exists b1. by rewrite E1.
Qed.

(** What a reader sees of a file that was only appended to. *)
Lemma read_text_append a b ta tab :
  read_text a = Ok ta -> read_text (a ++ b) = Ok tab ->
  complete_lines ta `prefix_of` complete_lines tab.
Proof.
  unfold read_text. destruct (utf8_decode a) as [ua|] eqn:E; [|done]. intros [= <-].
  rewrite (utf8_decode_app _ _ _ E). destruct (utf8_decode b) as [ub|]; [|done]. simpl.
  intros [= <-]. destruct (universal_newlines_app ua ub) as [b' ->].
  rewrite complete_lines_app. by eexists.
Qed.
