(* ===== verification/PyPath.v ===== *)
(** * Paths (pathlib, the pure part)

    A POSIX path is a string; [parts] are what lies between its slashes, empty
    pieces and ["."] dropped, ["/"] first when it is absolute. *)
From S2P Require Import Prelude PyStr Json PyIO.
From stdpp Require Import base gmap strings list.

Definition path_parts (s : string) : list string :=
  List.filter (fun p => negb (p =? "")%string && negb (p =? ".")%string) (split_on (chr 47) s).

(** [PurePosixPath(s).is_absolute()], and [".." in PurePosixPath(s).parts]. *)
Definition is_absolute (s : string) : bool := startswith s "/".
Definition has_dotdot (s : string) : bool := existsb (String.eqb "..") (path_parts s).

(** The root: exactly two leading slashes are kept. *)
Definition path_root (s : string) : string :=
  if startswith s "//" && negb (startswith s "///") then "//" else if startswith s "/" then "/" else of_chars [].

(** [str(PurePosixPath(s))]. *)
Definition posix (s : string) : string :=
  match path_root s +:+ PyStr.join "/" (path_parts s) with EmptyString => "." | p => p end.

(** What reading a path finds. *)
Inductive file_read := Bytes (raw : string) | Missing | Unreadable.

Example posix_samples : map posix ["a//b/./c"; "/a/"; "//x"; "///x"; "."] = ["a/b/c"; "/a"; "//x"; "/x"; "."].
Proof. vm_compute. reflexivity. Qed.

(** ** Parts and their text *)

Notation slash := (chr 47).
(** What a part can be. *)
Definition part_ok (p : string) : Prop := p <> "" /\ p <> "." /\ slash ∉ chars p.

Lemma split_l_alone sep l : sep ∉ l -> split_l sep l = [l].
Proof.
  induction l as [|c l IH]; [done|]. intros [N1 N2]%not_elem_of_cons. simpl. rewrite IH by done.
  destruct (Ascii.eqb_spec c sep) as [->|]; done.
Qed.
Lemma split_l_parts sep l p : p ∈ split_l sep l -> sep ∉ p /\ forall c, c ∈ p -> c ∈ l.
Proof.
  revert p. induction l as [|c l IH]; intros p; simpl.
  - intros ->%list_elem_of_singleton. split; [apply not_elem_of_nil|done].
  - destruct (split_l sep l) as [|q r] eqn:E; [by apply split_l_not_nil in E|].
    destruct (Ascii.eqb_spec c sep) as [->|Ne].
    + intros [->|Hp]%elem_of_cons; [split; [apply not_elem_of_nil|by intros ? ?%elem_of_nil]|].
      destruct (IH p Hp) as [N S]. split; [done|]. intros x Hx. right. by apply S.
    + intros [->|Hp]%elem_of_cons.
      * destruct (IH q) as [N S]; [left|]. split; [by intros [->|]%elem_of_cons|].
        intros x [->|Hx]%elem_of_cons; [left|right; by apply S].
      * destruct (IH p) as [N S]; [by right|]. split; [done|]. intros x Hx. right. by apply S.
Qed.

Lemma path_parts_ok s p : p ∈ path_parts s -> part_ok p /\ forall c, c ∈ chars p -> c ∈ chars s.
Proof.
  unfold path_parts, split_on. intros Hp%list_elem_of_In%filter_In. destruct Hp as [Hp [E1%negb_true_iff E2%negb_true_iff]%andb_true_iff].
  apply in_map_iff in Hp as (l & <- & Hl%list_elem_of_In). destruct (split_l_parts _ _ _ Hl) as [N S].
  rewrite chars_of_chars. split; [|done]. split; [by apply String.eqb_neq|]. split; [by apply String.eqb_neq|].
  by rewrite chars_of_chars.
Qed.

Lemma chars_join_cons p q l : chars (PyStr.join "/" (p :: q :: l)) = chars p ++ slash :: chars (PyStr.join "/" (q :: l)).
Proof. cbn [PyStr.join]. by rewrite !chars_app. Qed.

Lemma path_parts_join l : l <> [] -> Forall part_ok l -> path_parts (PyStr.join "/" l) = l.
Proof.
  intros Hl Hp. assert (split_on slash (PyStr.join "/" l) = l) as E.
  { unfold split_on. induction Hp as [|p l (N1 & N2 & Ns) Hp IH]; [done|]. destruct l as [|q l].
    - cbn [PyStr.join]. rewrite split_l_alone by done. cbn [map]. by rewrite of_chars_chars.
    - rewrite chars_join_cons, split_l_app, split_l_alone by done. cbn [app map]. by rewrite of_chars_chars, IH. }
  unfold path_parts. rewrite E. clear E Hl. induction Hp as [|p l (N1 & N2 & _) _ IH]; [done|].
  cbn [List.filter]. apply String.eqb_neq in N1 as ->. apply String.eqb_neq in N2 as ->. cbn [negb andb]. by rewrite IH.
Qed.

Lemma join_relative l : Forall part_ok l -> is_absolute (PyStr.join "/" l) = false.
Proof.
  intros Hp. assert (forall s, chars s = [] \/ (exists c r, chars s = c :: r /\ c <> slash) -> is_absolute s = false) as A.
  { intros [|c s] [E|(x & r & E & N)]; try done. injection E as -> _. unfold is_absolute, startswith.
    change ((if Ascii.ascii_dec slash x then String.prefix "" s else false) = false).
    destruct (Ascii.ascii_dec slash x) as [<-|]; [by destruct N|done]. }
  apply A. destruct Hp as [|p l (N1 & N2 & Ns) _]; [by left|]. right.
  assert (exists c r, chars p = c :: r) as (c & r & E).
  { destruct (chars p) as [|c r] eqn:E; [|by eauto]. destruct N1. rewrite <- (of_chars_chars p), E. done. }
  rewrite E in Ns. apply not_elem_of_cons in Ns as [Ns _]. destruct l as [|q l].
  - cbn [PyStr.join]. exists c, r. by split.
  - rewrite chars_join_cons, E. eexists c, _. by split.
Qed.

Lemma join_chars l c : c ∈ chars (PyStr.join "/" l) -> c = slash \/ exists p, p ∈ l /\ c ∈ chars p.
Proof.
  induction l as [|p [|q l] IH]; [by intros ?%elem_of_nil| |].
  - cbn [PyStr.join]. intros Hc. right. exists p. split; [left|done].
  - rewrite chars_join_cons. intros [Hc|[->|Hc]%elem_of_cons]%elem_of_app; [right|by left|].
    + exists p. split; [left|done].
    + destruct (IH Hc) as [|(x & Hx & Hc')]; [by left|]. right. exists x. split; [by right|done].
Qed.
