(* ===== verification/JsonText.v ===== *)
(** * json.loads and json.dumps

    The reader and the default writer of the [json] module: the scanner of
    CPython (strict strings, numbers as the grammar has them, the three
    non-finite constants, a later duplicate key overriding an earlier one) and
    [dumps] with its default separators [", "] and [": "]. Two limits of the
    interpreter are part of the behaviour: an integer literal of more than
    4300 digits raises [ValueError], and nesting deeper than [max_depth]
    raises [RecursionError]; neither is a [JSONDecodeError]. *)
From S2P Require Import Prelude PyStr PyFloat Json PyIO.
From stdpp Require Import base strings list.
From Stdlib Require Import ZArith QArith Qabs NArith Lia DecimalString DecimalZ.

(** ** Dictionaries in insertion order *)

Section dict.
  Context {A : Type}.
  Implicit Types d : list (string * A).

Fixpoint dict_get (k : string) d : option A :=
  match d with
  | [] => None
  | (k', v) :: r => if String.eqb k k' then Some v else dict_get k r
  end.
Fixpoint dict_put (k : string) (v : A) d : list (string * A) :=
  match d with
  | [] => [(k, v)]
  | (k', v') :: r => if String.eqb k k' then (k', v) :: r else (k', v') :: dict_put k v r
  end.

Lemma dict_get_put k k' v d :
  dict_get k (dict_put k' v d) = if String.eqb k k' then Some v else dict_get k d.
Proof.
  induction d as [|[k1 v1] d IH]; simpl; [done|].
  destruct (String.eqb_spec k' k1) as [->|N1]; simpl.
  - by destruct (String.eqb k k1).
  - destruct (String.eqb_spec k k1) as [->|N2]; [|done].
    destruct (String.eqb_spec k1 k'); congruence.
Qed.

Lemma dict_put_fresh k v d : k ∉ d.*1 -> dict_put k v d = d ++ [(k, v)].
Proof.
  induction d as [|[k1 v1] d IH]; simpl; [done|]. intros [N1 N2]%not_elem_of_cons.
  destruct (String.eqb_spec k k1); [done|]. by rewrite IH.
Qed.
End dict.

(** ** Reading *)

Definition max_str_digits : nat := 4300.

(** [float(literal)] for a decimal significand [m * 10^e]: correctly rounded,
    with the exponent limits of a double. *)
Definition double_of (q : Q) : json :=
  if Qltb (Qabs q) (1 # Z.to_pos (2 ^ 1022)) then
    let n := round_half_even (Z.abs (Qnum q) * 2 ^ 1074) (Zpos (Qden q)) in
    JFloat (Qred ((Z.sgn (Qnum q) * n) # Z.to_pos (2 ^ 1074)))
  else
    let f := fl q in
    if Qle_bool (2 ^ 1024 # 1) (Qabs f)
    then JNonFinite (if (Qnum q <? 0)%Z then NegInf else PosInf) else JFloat f.

Definition json_ws (c : Ascii.ascii) : bool :=
  let n := code c in ((n =? 32) || (n =? 9) || (n =? 10) || (n =? 13))%N.
Fixpoint skip_ws (l : text) : text :=
  match l with c :: r => if json_ws c then skip_ws r else l | [] => [] end.

Definition decode_error {A} (msg : string) : res A := Err (Exn JSONDecodeError msg).

Definition hexval (c : Ascii.ascii) : option N :=
  if within 48 57 c then Some (code c - 48)%N
  else if within 97 102 c then Some (code c - 87)%N
  else if within 65 70 c then Some (code c - 55)%N else None.
Definition hex4 (a b c d : Ascii.ascii) : option N :=
  match hexval a, hexval b, hexval c, hexval d with
  | Some w, Some x, Some y, Some z => Some (((w * 16 + x) * 16 + y) * 16 + z)%N
  | _, _, _, _ => None
  end.

Definition push (c : Ascii.ascii) (m : res (text * text)) : res (text * text) :=
  let! (s, rest) := m in Ok (c :: s, rest).

(** [scanstring] after the opening quote, in strict mode: the characters of
    the literal and what follows the closing quote. *)
Fixpoint scan_string (l : text) : res (text * text) :=
  match l with
  | [] => decode_error "Unterminated string starting at"
  | c :: r =>
      if (code c =? 34)%N then Ok ([], r)
      else if (code c <? 32)%N then decode_error "Invalid control character at"
      else if negb (code c =? 92)%N then push c (scan_string r)
      else match r with
      | [] => decode_error "Unterminated string starting at"
      | e :: r' =>
          let n := code e in
          if ((n =? 34) || (n =? 92) || (n =? 47))%N then push e (scan_string r')
          else if (n =? 98)%N then push (chr 8) (scan_string r')
          else if (n =? 102)%N then push (chr 12) (scan_string r')
          else if (n =? 110)%N then push (chr 10) (scan_string r')
          else if (n =? 114)%N then push (chr 13) (scan_string r')
          else if (n =? 116)%N then push (chr 9) (scan_string r')
          else if (n =? 117)%N then
            match r' with
            | a :: b :: c' :: d :: r'' =>
                match hex4 a b c' d with
                | None => decode_error "Invalid \uXXXX escape"
                | Some u =>
                    if ((55296 <=? u) && (u <=? 56319))%N then
                      match r'' with
                      | s1 :: s2 :: a' :: b' :: c'' :: d' :: r3 =>
                          if ((code s1 =? 92) && (code s2 =? 117))%N then
                            match hex4 a' b' c'' d' with
                            | None => decode_error "Invalid \uXXXX escape"
                            | Some u2 =>
                                if ((56320 <=? u2) && (u2 <=? 57343))%N
                                then push stand_in (scan_string r3)
                                else push stand_in (scan_string r'')
                            end
                          else push stand_in (scan_string r'')
                      | _ => push stand_in (scan_string r'')
                      end
                    else push (code_point u) (scan_string r'')
                end
            | _ => decode_error "Invalid \uXXXX escape"
            end
          else decode_error "Invalid \escape"
      end
  end.

(** The longest run of ASCII digits. *)
Fixpoint digits_span (l : text) : text * text :=
  match l with
  | c :: r => if within 48 57 c then let '(a, b) := digits_span r in (c :: a, b) else ([], l)
  | [] => ([], [])
  end.
Definition digits_value (ds : text) : Z :=
  fold_left (fun n c => (n * 10 + Z.of_N (code c - 48))%Z) ds 0%Z.

Definition int_literal (neg : bool) (ds : text) : res json :=
  raise_if (max_str_digits <? List.length ds)%nat
    with ValueError, "Exceeds the limit (4300 digits) for integer string conversion";;
  Ok (JInt (if neg then - digits_value ds else digits_value ds)%Z).

Definition float_literal (neg : bool) (ds frac : text) (exp : Z) : json :=
  let m := digits_value (ds ++ frac) in
  let q := (inject_Z (if neg then - m else m) * pow10 (exp - Z.of_nat (List.length frac)))%Q in
  double_of (Qred q).

(** An exponent part, taken only when it has digits. *)
Definition scan_exp (l : text) : option (Z * text) :=
  match l with
  | e :: r =>
      if ((code e =? 101) || (code e =? 69))%N then
        let '(neg, r') := match r with
                          | s :: r' => if (code s =? 45)%N then (true, r')
                                       else if (code s =? 43)%N then (false, r') else (false, r)
                          | [] => (false, r)
                          end in
        match digits_span r' with
        | ([], _) => None
        | (ds, rest) => Some ((if neg then - digits_value ds else digits_value ds)%Z, rest)
        end
      else None
  | [] => None
  end.
Definition scan_frac (l : text) : option (text * text) :=
  match l with
  | d :: r =>
      if (code d =? 46)%N then match digits_span r with ([], _) => None | p => Some p end else None
  | [] => None
  end.

Definition expecting {A} : res A := decode_error "Expecting value".

(** [_match_number] after an optional sign. *)
Definition scan_number (neg : bool) (l : text) : res (json * text) :=
  let int_part := match l with
                  | c :: r => if (code c =? 48)%N then ([c], r) else digits_span l
                  | [] => ([], [])
                  end in
  match int_part with
  | ([], _) => expecting
  | (ds, rest) =>
      match scan_frac rest, scan_exp match scan_frac rest with Some (_, r) => r | None => rest end with
      | None, None => let! v := int_literal neg ds in Ok (v, rest)
      | frac, exp =>
          let f := match frac with Some (f, _) => f | None => [] end in
          let rest1 := match frac with Some (_, r) => r | None => rest end in
          let '(e, rest2) := match exp with Some p => p | None => (0%Z, rest1) end in
          Ok (float_literal neg ds f e, rest2)
      end
  end.

(** A literal keyword. *)
Fixpoint keyword (k l : text) : option text :=
  match k, l with
  | [], _ => Some l
  | a :: k', b :: l' => if Ascii.eqb a b then keyword k' l' else None
  | _ :: _, [] => None
  end.
Definition literal (k : string) (v : json) (l : text) : option (json * text) :=
  match keyword (chars k) l with Some r => Some (v, r) | None => None end.

Section containers.
  (** [scan_once] for the values inside. *)
  Context (value : text -> res (json * text)).

(** The rest of an array, at a value; every round consumes a character. *)
Fixpoint scan_elements (fuel : nat) (acc : list json) (l : text) : res (json * text) :=
  match fuel with
  | O => expecting
  | S fuel' =>
      let! (v, r) := value l in
      match skip_ws r with
      | c :: r' =>
          if (code c =? 93)%N then Ok (JArr (rev (v :: acc)), r')
          else if (code c =? 44)%N then scan_elements fuel' (v :: acc) (skip_ws r')
          else decode_error "Expecting ',' delimiter"
      | [] => decode_error "Expecting ',' delimiter"
      end
  end.
Definition scan_array (l : text) : res (json * text) :=
  match skip_ws l with
  | c :: r => if (code c =? 93)%N then Ok (JArr [], r)
              else scan_elements (S (List.length l)) [] (c :: r)
  | [] => expecting
  end.

(** The rest of an object, at a key. *)
Fixpoint scan_members (fuel : nat) (acc : list (string * json)) (l : text) : res (json * text) :=
  match fuel, l with
  | O, _ | _, [] => decode_error "Expecting property name enclosed in double quotes"
  | S fuel', q :: r =>
      if negb (code q =? 34)%N
      then decode_error "Expecting property name enclosed in double quotes"
      else
        let! (k, r1) := scan_string r in
        match skip_ws r1 with
        | c :: r2 =>
            if negb (code c =? 58)%N then decode_error "Expecting ':' delimiter"
            else
              let! (v, r3) := value (skip_ws r2) in
              let acc' := dict_put (of_chars k) v acc in
              match skip_ws r3 with
              | d :: r4 =>
                  if (code d =? 125)%N then Ok (JObj acc', r4)
                  else if (code d =? 44)%N then scan_members fuel' acc' (skip_ws r4)
                  else decode_error "Expecting ',' delimiter"
              | [] => decode_error "Expecting ',' delimiter"
              end
        | [] => decode_error "Expecting ':' delimiter"
        end
  end.
Definition scan_object (l : text) : res (json * text) :=
  match skip_ws l with
  | c :: r => if (code c =? 125)%N then Ok (JObj [], r)
              else scan_members (S (List.length l)) [] (c :: r)
  | [] => decode_error "Expecting property name enclosed in double quotes"
  end.
End containers.

Definition or_expecting {A} (o : option A) : res A :=
  match o with Some a => Ok a | None => expecting end.

(** [scan_once]; [depth] is the nesting still allowed. *)
Fixpoint scan_value (depth : nat) (l : text) : res (json * text) :=
  match l with
  | [] => expecting
  | c :: r =>
      let n := code c in
      if (n =? 34)%N then let! (s, r') := scan_string r in Ok (JStr (of_chars s), r')
      else if (n =? 123)%N then
        match depth with
        | O => Err (Exn RecursionError "maximum recursion depth exceeded while decoding a JSON object")
        | S d => scan_object (scan_value d) r
        end
      else if (n =? 91)%N then
        match depth with
        | O => Err (Exn RecursionError "maximum recursion depth exceeded while decoding a JSON array")
        | S d => scan_array (scan_value d) r
        end
      else if (n =? 110)%N then or_expecting (literal "null" JNull l)
      else if (n =? 116)%N then or_expecting (literal "true" (JBool true) l)
      else if (n =? 102)%N then or_expecting (literal "false" (JBool false) l)
      else if (n =? 78)%N then or_expecting (literal "NaN" (JNonFinite NaN) l)
      else if (n =? 73)%N then or_expecting (literal "Infinity" (JNonFinite PosInf) l)
      else if (n =? 45)%N then
        match literal "Infinity" (JNonFinite NegInf) r with
        | Some p => Ok p
        | None => scan_number true r
        end
      else scan_number false l
  end.

(** The interpreter's recursion limit, as the nesting [loads] accepts. *)
Class JsonLimits := { max_depth : nat; max_depth_pos : (1 <= max_depth)%nat }.

(** [json.loads(s)]. *)
Definition loads `{JsonLimits} (s : text) : res json :=
  let! (v, r) := scan_value max_depth (skip_ws s) in
  match skip_ws r with
  | [] => Ok v
  | _ => decode_error "Extra data"
  end.

(** CPython's default of 1000, less the frames below the call. *)
#[export] Instance cpython_limits : JsonLimits.
Proof. refine {| max_depth := 990 |}. apply Nat.leb_le. reflexivity. Defined.

(** ** Writing *)

(** A blank follows the separators, or not. *)
Definition gap (wide : bool) : text := if wide then [chr 32] else [].

Section show.
  (** [ensure_ascii], and the separators [", "] and [": "] or their bare forms. *)
  Context (wide ascii : bool).

Definition show_str (s : string) : text := quote2 :: flat_map (json_escape ascii) (chars s) ++ [quote2].
Definition sep_tail (l : list text) : text := flat_map (fun y => chr 44 :: gap wide ++ y) l.
Definition separated (l : list text) : text :=
  match l with [] => [] | x :: r => x ++ sep_tail r end.

Fixpoint show_with (j : json) : text :=
  match j with
  | JNull => chars "null"
  | JBool true => chars "true"
  | JBool false => chars "false"
  | JInt z => chars (str_Z z)
  | JFloat q => chars (float_repr q)
  | JNonFinite NaN => chars "NaN"
  | JNonFinite PosInf => chars "Infinity"
  | JNonFinite NegInf => chars "-Infinity"
  | JStr s => show_str s
  | JArr l => chr 91 :: separated (map show_with l) ++ [chr 93]
  | JObj kvs =>
      chr 123 :: separated (map (fun kv => show_str kv.1 ++ chr 58 :: gap wide ++ show_with kv.2) kvs)
        ++ [chr 125]
  end.
End show.
Notation show := (show_with true).
(** [separators=(",", ":")]. *)
Notation compact := (show_with false).

Example loads_shows :
  let j := JObj [("a", JArr [JInt (-12); JNull; JStr "x"]); ("b", JBool true)] in
  loads (show true j) = Ok j /\ of_chars (show true (JArr [JInt 1; JInt 2])) = "[1, 2]".
Proof. split; reflexivity. Qed.

Example loads_numbers :
  map (fun s => loads (chars s)) ["1.5e1"; "1e400"; "-0"; "01"; " [1 , 2] "; "1e"; "{" ]
  = [Ok (JFloat 15); Ok (JNonFinite PosInf); Ok (JInt 0); decode_error "Extra data";
     Ok (JArr [JInt 1; JInt 2]); decode_error "Extra data";
     decode_error "Expecting property name enclosed in double quotes"].
Proof. vm_compute. reflexivity. Qed.

(** ** Reading what was written

    Floats aside (their text is not proved to read back here), with integers
    the interpreter can read and keys that occur once, as in any dict. *)

Fixpoint plain (j : json) : bool :=
  match j with
  | JFloat _ | JNonFinite _ => false
  | JInt z => (List.length (chars (str_Z (Z.abs z))) <=? max_str_digits)%nat
  | JArr l => forallb plain l
  | JObj kvs => bool_decide (NoDup kvs.*1) && forallb (fun kv => plain kv.2) kvs
  | _ => true
  end.
Fixpoint nesting (j : json) : nat :=
  match j with
  | JArr l => S (max_list (map nesting l))
  | JObj kvs => S (max_list (map (fun kv => nesting kv.2) kvs))
  | _ => 0
  end.

(** Printing an integer of more than 4300 digits raises. *)
Fixpoint ints_ok (j : json) : bool :=
  match j with
  | JInt z => (List.length (chars (str_Z (Z.abs z))) <=? max_str_digits)%nat
  | JArr l => forallb ints_ok l
  | JObj kvs => forallb (fun kv => ints_ok kv.2) kvs
  | _ => true
  end.

(** What may follow a value for the scanner to stop there. *)
Definition stops (r : text) : bool :=
  match r with
  | c :: _ => negb (within 48 57 c || (code c =? 46) || (code c =? 101) || (code c =? 69))%N
  | [] => true
  end.

Lemma scan_escape a c r : scan_string (json_escape a c ++ r) = push c (scan_string r).
Proof. destruct a, c as [[] [] [] [] [] [] [] []]; reflexivity. Qed.

Lemma scan_show_str a l r :
  scan_string (flat_map (json_escape a) l ++ quote2 :: r) = Ok (l, r).
Proof.
  induction l as [|c l IH]; [done|]. simpl flat_map.
  rewrite <- app_assoc, scan_escape, IH. done.
Qed.

Lemma digits_span_app ds r :
  forallb (within 48 57) ds = true -> stops r = true -> digits_span (ds ++ r) = (ds, r).
Proof.
  intros Hd Hr. induction ds as [|c ds IH]; simpl in *.
  - destruct r as [|c r]; [done|]. simpl in Hr. bools in Hr. simpl. by destruct Hr as [[[-> _] _] _].
  - apply andb_true_iff in Hd as [-> Hd]. by rewrite IH.
Qed.

Lemma uint_digits u : forallb (within 48 57) (chars (NilEmpty.string_of_uint u)) = true.
Proof. induction u; simpl; auto. Qed.

Lemma digits_value_acc u acc :
  fold_left (fun n c => (n * 10 + Z.of_N (code c - 48))%Z) (chars (NilEmpty.string_of_uint u)) (Zpos acc)
  = Zpos (Pos.of_uint_acc u acc).
Proof.
  revert acc. induction u; intros acc; simpl; try done;
    rewrite <- IHu; f_equal; simpl; lia.
Qed.

Lemma digits_value_pos p :
  digits_value (chars (NilEmpty.string_of_uint (Pos.to_uint p))) = Zpos p.
Proof.
  assert (H : forall u, digits_value (chars (NilEmpty.string_of_uint u)) = Z.of_N (Pos.of_uint u)).
  { unfold digits_value. induction u; simpl; auto; apply digits_value_acc. }
  rewrite H, DecimalPos.Unsigned.of_to. done.
Qed.

(** The first digit of a positive number is not zero. *)
Lemma pos_head p :
  exists c t, chars (NilEmpty.string_of_uint (Pos.to_uint p)) = c :: t /\
    (code c =? 48)%N = false /\ within 48 57 c = true.
Proof.
  pose proof (DecimalPos.Unsigned.to_uint_nonnil p) as Hn.
  assert (Hz : forall u, Pos.to_uint p <> Decimal.D0 u).
  { intros u E. pose proof (DecimalPos.Unsigned.to_of (Pos.to_uint p)) as H.
    rewrite DecimalPos.Unsigned.of_to in H. simpl in H.
    pose proof (DecimalPos.Unsigned.to_uint_nonzero p) as Z.
    rewrite E in H, Z. unfold Decimal.unorm in H. simpl in H.
    destruct (Decimal.nzhead u) eqn:N; try discriminate.
    - by rewrite H in Z.
    - by apply DecimalFacts.nzhead_nonzero in N. }
  destruct (Pos.to_uint p) eqn:E; simpl; try done; try (by eexists _, _).
  by destruct (Hz u).
Qed.

Lemma stops_frac r : stops r = true -> scan_frac r = None /\ scan_exp r = None.
Proof.
  destruct r as [|c r]; [done|]. simpl. bools. by intros [[[_ ->] ->] ->].
Qed.

Lemma scan_number_pos neg p r :
  (List.length (chars (NilEmpty.string_of_uint (Pos.to_uint p))) <= max_str_digits)%nat ->
  stops r = true ->
  scan_number neg (chars (NilEmpty.string_of_uint (Pos.to_uint p)) ++ r)
  = Ok (JInt (if neg then Zneg p else Zpos p), r).
Proof.
  intros Hlen Hr. pose proof (uint_digits (Pos.to_uint p)) as Hd.
  pose proof (digits_span_app _ r Hd Hr) as Hs. pose proof (digits_value_pos p) as Hv.
  destruct (pos_head p) as (c & t & E & Hc & _). rewrite E in *.
  unfold scan_number. cbv zeta. cbn [app] in *. rewrite Hc, Hs. destruct (stops_frac r Hr) as [-> ->].
  unfold int_literal. apply Nat.ltb_ge in Hlen as ->. simpl. rewrite Hv. by destruct neg.
Qed.

Lemma scan_negative d l :
  scan_value d (chr 45 :: l) = match literal "Infinity" (JNonFinite NegInf) l with
                               | Some p => Ok p
                               | None => scan_number true l
                               end.
Proof. by destruct d. Qed.

Lemma scan_int d z r :
  (List.length (chars (str_Z (Z.abs z))) <= max_str_digits)%nat -> stops r = true ->
  scan_value d (chars (str_Z z) ++ r) = Ok (JInt z, r).
Proof.
  intros Hlen Hr. destruct z as [|p|p].
  - destruct (stops_frac r Hr) as [E1 E2]. destruct d; simpl; unfold scan_number; simpl;
      rewrite E1, E2; done.
  - unfold str_Z in *. simpl in *. destruct (pos_head p) as (c & t & E & Hc & Hw).
    pose proof (scan_number_pos false p r Hlen Hr) as H. rewrite E in *. simpl app.
    simpl app in H. unfold within in Hw. apply andb_true_iff in Hw as [L1%N.leb_le L2%N.leb_le].
    assert (Hne : forall k, (k < 48 \/ 57 < k)%N -> (code c =? k)%N = false)
      by (intros k ?; apply N.eqb_neq; lia).
    destruct d; simpl; rewrite !Hne by lia; exact H.
  - change (chars (str_Z (Zneg p)) ++ r)
      with (chr 45 :: (chars (NilEmpty.string_of_uint (Pos.to_uint p)) ++ r)).
    change (List.length (chars (NilEmpty.string_of_uint (Pos.to_uint p))) <= max_str_digits)%nat in Hlen.
    rewrite scan_negative, (scan_number_pos true) by (lia || done).
    unfold literal. destruct (pos_head p) as (c & t & -> & _ & Hw). unfold within in Hw.
    apply andb_true_iff in Hw as [_ L%N.leb_le].
    change (keyword (chars "Infinity") ((c :: t) ++ r))
      with (if Ascii.eqb (chr 73) c then keyword (chars "nfinity") (t ++ r) else None).
    destruct (Ascii.eqb_spec (chr 73) c) as [<-|]; [by vm_compute in L|done].
Qed.

Lemma skip_ws_stop c r : json_ws c = false -> skip_ws (c :: r) = c :: r.
Proof. simpl. by intros ->. Qed.

(** Every value starts with a character that is neither white space nor a
    closing bracket. *)
Lemma show_head w a j r :
  plain j = true ->
  exists c t, show_with w a j ++ r = c :: t /\ json_ws c = false /\ (code c =? 93)%N = false.
Proof.
  destruct j as [|[]|z|q|x|s|l|kvs]; simpl; intros H; try done; try (by eexists _, _).
  destruct z as [|p|p]; unfold str_Z; simpl; [by eexists _, _| |by eexists _, _].
  destruct (pos_head p) as (c & t & -> & _ & Hw). exists c, (t ++ r). split; [done|].
  unfold within in Hw. apply andb_true_iff in Hw as [L1%N.leb_le L2%N.leb_le].
  unfold json_ws. bools. repeat split; apply N.eqb_neq; lia.
Qed.

Lemma skip_gap w r : skip_ws (gap w ++ r) = skip_ws r.
Proof. by destruct w. Qed.

Lemma skip_ws_show w a j r : plain j = true -> skip_ws (show_with w a j ++ r) = show_with w a j ++ r.
Proof. intros H. destruct (show_head w a j r H) as (c & t & -> & Hc & _). by apply skip_ws_stop. Qed.

(** The scanner of values [v] reads back what [show] prints of [j]. *)
Definition reads (w a : bool) (v : text -> res (json * text)) (j : json) : Prop :=
  plain j = true /\ forall r, stops r = true -> v (show_with w a j ++ r) = Ok (j, r).

Lemma sep_tail_stops w (l : list text) close r :
  stops [close] = true -> stops (sep_tail w l ++ close :: r) = true.
Proof. by destruct l. Qed.

Lemma sep_tail_cons w x l : sep_tail w (x :: l) = chr 44 :: gap w ++ x ++ sep_tail w l.
Proof. unfold sep_tail. cbn [flat_map app]. by rewrite <- app_assoc. Qed.

Lemma scan_elements_show w a v l acc x fuel r :
  Forall (reads w a v) (x :: l) -> (List.length l < fuel)%nat ->
  scan_elements v fuel acc (show_with w a x ++ sep_tail w (map (show_with w a) l) ++ chr 93 :: r)
  = Ok (JArr (rev acc ++ x :: l), r).
Proof.
  revert acc x fuel. induction l as [|y l IH]; intros acc x fuel HF Hfuel;
    inversion_clear HF as [|? ? [_ Hx] HF']; (destruct fuel as [|fuel]; [simpl in Hfuel; lia|]);
    cbn [scan_elements]; rewrite Hx by (by apply sep_tail_stops).
  - done.
  - assert (Hy : plain y = true) by (by inversion_clear HF' as [|? ? [Py _] _]).
    cbn [map]. rewrite sep_tail_cons. cbn [app rbind]. rewrite skip_ws_stop by done.
    change (code (chr 44) =? 93)%N with false. change (code (chr 44) =? 44)%N with true. cbv iota.
    rewrite <- !app_assoc, skip_gap, skip_ws_show by done. rewrite IH; [|done|simpl in Hfuel; lia].
    simpl. by rewrite <- app_assoc.
Qed.

Lemma sep_tail_length w {A} (f : A -> text) l : (List.length l <= List.length (sep_tail w (map f l)))%nat.
Proof. induction l; simpl; [done|]. rewrite length_app. lia. Qed.

Lemma scan_array_show w a v l r :
  Forall (reads w a v) l ->
  scan_array v (separated w (map (show_with w a) l) ++ chr 93 :: r) = Ok (JArr l, r).
Proof.
  intros HF. destruct l as [|x l]; [done|]. cbn [map separated]. unfold scan_array.
  rewrite <- app_assoc.
  set (tl := sep_tail w (map (show_with w a) l) ++ chr 93 :: r).
  assert (Px : plain x = true) by (by inversion_clear HF as [|? ? [Px _] _]).
  destruct (show_head w a x tl Px) as (c & t & E & Hc & Hb).
  rewrite E, skip_ws_stop, Hb, <- E by done. unfold tl.
  rewrite (scan_elements_show w a v l [] x); [done..|].
  rewrite !length_app. simpl. pose proof (sep_tail_length w (show_with w a) l). lia.
Qed.

Definition member (w a : bool) (kv : string * json) : text :=
  show_str a kv.1 ++ chr 58 :: gap w ++ show_with w a kv.2.

Lemma scan_members_show w a v kvs acc k x fuel r :
  Forall (fun kv => reads w a v kv.2) ((k, x) :: kvs) ->
  NoDup (acc.*1 ++ k :: kvs.*1) -> (List.length kvs < fuel)%nat ->
  scan_members v fuel acc (member w a (k, x) ++ sep_tail w (map (member w a) kvs) ++ chr 125 :: r)
  = Ok (JObj (acc ++ (k, x) :: kvs), r).
Proof.
  revert acc k x fuel. induction kvs as [|[k' y] kvs IH]; intros acc k x fuel HF HN Hfuel;
    inversion_clear HF as [|? ? [Px Hx] HF']; (destruct fuel as [|fuel]; [simpl in Hfuel; lia|]);
    unfold member at 1, show_str; cbn [scan_members fst snd app];
    change (negb (code quote2 =? 34)%N) with false; cbv iota;
    rewrite <- !app_assoc; cbn [app]; rewrite scan_show_str; cbn [rbind];
    rewrite skip_ws_stop by done; change (negb (code (chr 58) =? 58)%N) with false; cbv iota;
    rewrite <- ?app_assoc, skip_gap, skip_ws_show by done; cbn [snd] in Hx; rewrite Hx by (by apply sep_tail_stops);
    cbn [rbind]; rewrite of_chars_chars, dict_put_fresh
      by (apply NoDup_app in HN as (_ & HN & _); intros Hin; apply (HN k Hin); left).
  - done.
  - cbn [map]. rewrite sep_tail_cons. cbn [app]. rewrite skip_ws_stop by done.
    change (code (chr 44) =? 125)%N with false. change (code (chr 44) =? 44)%N with true. cbv iota.
    rewrite <- !app_assoc, skip_gap. change (skip_ws (member w a (k', y) ++ ?t)) with (member w a (k', y) ++ t).
    rewrite IH; [|done| |simpl in Hfuel; lia].
    + by rewrite <- app_assoc.
    + rewrite fmap_app, <- app_assoc. done.
Qed.

Lemma scan_object_show w a v kvs r :
  Forall (fun kv => reads w a v kv.2) kvs -> NoDup kvs.*1 ->
  scan_object v (separated w (map (member w a) kvs) ++ chr 125 :: r) = Ok (JObj kvs, r).
Proof.
  intros HF HN. destruct kvs as [|[k x] kvs]; [done|]. cbn [map separated]. unfold scan_object.
  rewrite <- app_assoc.
  set (tl := sep_tail w (map (member w a) kvs) ++ chr 125 :: r).
  change (skip_ws (member w a (k, x) ++ tl)) with (member w a (k, x) ++ tl).
  assert (E : exists t, member w a (k, x) ++ tl = quote2 :: t) by (by eexists).
  destruct E as [t E]. rewrite E. change (code quote2 =? 125)%N with false. cbv iota.
  rewrite <- E. unfold tl. rewrite (scan_members_show w a v kvs [] k x); [done..|].
  rewrite !length_app. pose proof (sep_tail_length w (member w a) kvs). lia.
Qed.

Lemma max_list_le n l x : (max_list l <= n)%nat -> x ∈ l -> (x <= n)%nat.
Proof.
  induction l as [|y l IH]; simpl; intros L H; [by inversion H|].
  apply elem_of_cons in H as [->|H]; [lia|]. apply IH; [lia|done].
Qed.

Lemma scan_value_show w a j d r :
  plain j = true -> (nesting j <= d)%nat -> stops r = true ->
  scan_value d (show_with w a j ++ r) = Ok (j, r).
Proof.
  revert d r. induction j as [|b|z|q|x|s|l IH|kvs IH] using json_rect_all;
    intros d r Hp Hn Hr; try done.
  - by destruct d.
  - by destruct b, d.
  - apply scan_int; [by apply Nat.leb_le in Hp|done].
  - assert (E : scan_value d (show_with w a (JStr s) ++ r)
      = let! (s, r') := scan_string (flat_map (json_escape a) (chars s) ++ quote2 :: r) in
        Ok (JStr (of_chars s), r')).
    { simpl. unfold show_str. rewrite <- app_assoc. by destruct d. }
    rewrite E, scan_show_str. simpl. by rewrite of_chars_chars.
  - simpl in Hp, Hn. destruct d as [|d]; [lia|].
    change (scan_value (S d) (show_with w a (JArr l) ++ r))
      with (scan_array (scan_value d) ((separated w (map (show_with w a) l) ++ [chr 93]) ++ r)).
    rewrite <- app_assoc. apply scan_array_show. rewrite forallb_forall in Hp.
    rewrite Forall_forall in *. intros y Hy. apply list_elem_of_In in Hy as Hin.
    split; [by apply Hp|]. intros r' Hr'. apply IH; auto.
    apply (max_list_le d (map nesting l)); [lia|]. by apply list_elem_of_fmap_2.
  - simpl in Hp, Hn. destruct d as [|d]; [lia|]. apply andb_true_iff in Hp as [HN Hp].
    apply bool_decide_eq_true in HN.
    change (scan_value (S d) (show_with w a (JObj kvs) ++ r))
      with (scan_object (scan_value d) ((separated w (map (member w a) kvs) ++ [chr 125]) ++ r)).
    rewrite <- app_assoc. apply scan_object_show; [|done]. rewrite forallb_forall in Hp.
    rewrite Forall_forall in *. intros y Hy. apply list_elem_of_In in Hy as Hin.
    split; [by apply Hp|]. intros r' Hr'. apply IH; auto.
    apply (max_list_le d (map (fun kv => nesting kv.2) kvs)); [lia|].
    by apply (list_elem_of_fmap_2 (fun kv => nesting kv.2)).
Qed.

(** [json.loads(json.dumps(j))]. *)
Lemma loads_show `{JsonLimits} w a j :
  plain j = true -> (nesting j <= max_depth)%nat -> loads (show_with w a j) = Ok j.
Proof.
  intros Hp Hn. unfold loads. rewrite <- (app_nil_r (show_with w a j)), skip_ws_show by done.
  by rewrite scan_value_show.
Qed.

(** ** Shape of the text *)

(** No control character: what is written is one line, and reading it back in
    text mode changes nothing. *)
Definition graphic (c : Ascii.ascii) : bool := (32 <=? code c)%N.

Lemma escape_graphic a c : forallb graphic (json_escape a c) = true.
Proof. destruct a, c as [[] [] [] [] [] [] [] []]; reflexivity. Qed.

Lemma show_str_graphic a s : forallb graphic (show_str a s) = true.
Proof.
  unfold show_str. simpl. rewrite forallb_app. apply andb_true_iff. split; [|done].
  induction (chars s) as [|c l IH]; simpl; [done|]. by rewrite forallb_app, escape_graphic.
Qed.

Lemma digits_graphic l : forallb (within 48 57) l = true -> forallb graphic l = true.
Proof.
  rewrite !forallb_forall. intros H c Hc. specialize (H c Hc). unfold within, graphic in *.
  apply andb_true_iff in H as [L%N.leb_le _]. apply N.leb_le. lia.
Qed.

Lemma separated_graphic w l : Forall (fun t => forallb graphic t = true) l -> forallb graphic (separated w l) = true.
Proof.
  intros [|x r Hx Hr]; simpl; [done|]. rewrite forallb_app, Hx. simpl.
  induction Hr as [|y r Hy _ IH]; simpl; [done|]. rewrite !forallb_app, Hy. by destruct w.
Qed.

Lemma show_graphic w a j : plain j = true -> forallb graphic (show_with w a j) = true.
Proof.
  induction j as [|b|z|q|x|s|l IH|kvs IH] using json_rect_all; intros Hp; simpl in Hp; try done.
  - by destruct b.
  - simpl. unfold str_Z, NilEmpty.string_of_int.
    destruct (Z.to_int z); [|simpl]; apply digits_graphic, uint_digits.
  - apply show_str_graphic.
  - simpl. rewrite forallb_app. apply andb_true_iff. split; [|done]. apply separated_graphic.
    rewrite forallb_forall in Hp. apply Forall_fmap, Forall_forall. intros y Hy.
    rewrite Forall_forall in IH. apply IH; [done|]. by apply Hp, list_elem_of_In.
  - apply andb_true_iff in Hp as [_ Hp].
    simpl. rewrite forallb_app. apply andb_true_iff. split; [|done]. apply separated_graphic.
    rewrite forallb_forall in Hp. apply Forall_fmap, Forall_forall. intros y Hy. unfold compose. cbv beta.
    change (forallb graphic (member w a y) = true). unfold member.
    rewrite forallb_app, show_str_graphic. simpl. rewrite forallb_app. apply andb_true_iff. split; [by destruct w|]. rewrite Forall_forall in IH. apply IH; [done|].
    by apply Hp, list_elem_of_In.
Qed.

Definition no_cr (t : text) : bool := forallb (fun c => negb (Ascii.eqb c cr)) t.

Lemma universal_newlines_no_cr t : no_cr t = true -> universal_newlines t = t.
Proof.
  induction t as [|c t IH]; simpl; [done|]. intros [Hc%negb_true_iff Ht]%andb_true_iff.
  by rewrite Hc, IH.
Qed.

Lemma graphic_no_cr t : forallb graphic t = true -> no_cr t = true.
Proof.
  unfold no_cr. rewrite !forallb_forall. intros H c Hc. specialize (H c Hc).
  destruct (Ascii.eqb_spec c cr) as [->|]; done.
Qed.

(** Writing [t] and reading the file back. *)
Lemma read_written_no_cr t : no_cr t = true -> read_text (utf8_encode t) = Ok t.
Proof.
  intros Ht. unfold read_text. pose proof (utf8_encode_decode t [] [] eq_refl) as E.
  rewrite !app_nil_r in E. rewrite E. by rewrite universal_newlines_no_cr.
Qed.

Lemma read_written t : forallb graphic t = true -> read_text (utf8_encode t) = Ok t.
Proof. intros Ht. by apply read_written_no_cr, graphic_no_cr. Qed.

(** A number of [k] digits. *)
Lemma digits_value_lower ds acc :
  (1 <= acc -> acc * 10 ^ Z.of_nat (List.length ds) <=
    fold_left (fun n c => n * 10 + Z.of_N (code c - 48)) ds acc)%Z.
Proof.
  revert acc. induction ds as [|c ds IH]; intros acc Ha; cbn [fold_left List.length]; [lia|].
  etransitivity; [|apply IH; lia]. rewrite Nat2Z.inj_succ, Z.pow_succ_r by lia. nia.
Qed.

Lemma str_Z_length z k :
  (Z.abs z < 10 ^ Z.of_nat k)%Z -> (List.length (chars (str_Z z)) <= S (S k))%nat.
Proof.
  intros Hz. assert (Hp : forall p, (Zpos p < 10 ^ Z.of_nat k)%Z ->
    (List.length (chars (NilEmpty.string_of_uint (Pos.to_uint p))) <= S k)%nat).
  { intros p Hb. rewrite <- digits_value_pos in Hb.
    pose proof (uint_digits (Pos.to_uint p)) as Hd.
    destruct (pos_head p) as (c & t & E & Hc & Hw). rewrite E in *. unfold digits_value in Hb.
    cbn [fold_left] in Hb. apply N.eqb_neq in Hc. unfold within in Hw.
    apply andb_true_iff in Hw as [L%N.leb_le _].
    pose proof (digits_value_lower t (0 * 10 + Z.of_N (code c - 48))) as Hl.
    assert (1 <= 0 * 10 + Z.of_N (code c - 48))%Z as H1 by lia. specialize (Hl H1).
    destruct (Nat.le_gt_cases (List.length (c :: t)) (S k)) as [|G]; [done|exfalso].
    simpl in G. assert (10 ^ Z.of_nat k <= 10 ^ Z.of_nat (List.length t))%Z
      by (apply Z.pow_le_mono_r; lia). nia. }
  destruct z as [|p|p]; [simpl; lia| |]; unfold str_Z; simpl in *.
  - etransitivity; [by apply Hp|lia].
  - apply le_n_S. by apply Hp.
Qed.

Lemma plain_int z : (Z.abs z < 2 ^ 63)%Z -> plain (JInt z) = true.
Proof.
  intros Hz. apply Nat.leb_le. etransitivity; [apply (str_Z_length (Z.abs z) 20)|].
  - rewrite Z.abs_eq by lia. etransitivity; [exact Hz|]. reflexivity.
  - apply Nat.leb_le. reflexivity.
Qed.

(** ** json.loads of bytes

    The encoding is guessed from the first bytes ([json.detect_encoding]) and
    decoded with [surrogatepass]; a surrogate is read as the stand-in. *)
Inductive encoding := Utf8 | Utf8Sig | Utf16 (big : bool) | Utf16Bom | Utf32 (big : bool) | Utf32Bom.

Definition nul (c : Ascii.ascii) : bool := (code c =? 0)%N.
Definition starts (codes : list N) (b : bytes) : bool :=
  bool_decide (codes = take (List.length codes) (map code b)).

Definition detect_encoding (b : bytes) : encoding :=
  if starts [0;0;254;255]%N b || starts [255;254;0;0]%N b then Utf32Bom
  else if starts [254;255]%N b || starts [255;254]%N b then Utf16Bom
  else if starts [239;187;191]%N b then Utf8Sig
  else match b with
  | b0 :: b1 :: b2 :: b3 :: _ =>
      if nul b0 then if nul b1 then Utf32 true else Utf16 true
      else if nul b1 then if nul b2 && nul b3 then Utf32 false else Utf16 false
      else Utf8
  | [b0; b1] => if nul b0 then Utf16 true else if nul b1 then Utf16 false else Utf8
  | _ => Utf8
  end.

(** A lead byte 0xED occurs nowhere else in UTF-8, so an encoded surrogate can
    be replaced before decoding. *)
Fixpoint pass_surrogates (b : bytes) : bytes :=
  match b with
  | c :: (d :: e :: r) as t =>
      if (code c =? 237)%N && within 160 191 d && within 128 191 e
      then chr 194 :: chr 191 :: pass_surrogates r else c :: pass_surrogates t
  | c :: r => c :: pass_surrogates r
  | [] => []
  end.

Definition unit16 (big : bool) (x y : Ascii.ascii) : N :=
  if big then (code x * 256 + code y)%N else (code y * 256 + code x)%N.
Definition between (lo hi n : N) : bool := ((lo <=? n) && (n <=? hi))%N.
Fixpoint utf16_decode (big : bool) (b : bytes) : option text :=
  match b with
  | [] => Some []
  | x :: y :: r =>
      match r with
      | x' :: y' :: r' =>
          if between 55296 56319 (unit16 big x y) && between 56320 57343 (unit16 big x' y')
          then cons stand_in <$> utf16_decode big r'
          else cons (code_point (unit16 big x y)) <$> utf16_decode big r
      | _ => cons (code_point (unit16 big x y)) <$> utf16_decode big r
      end
  | _ => None
  end.
Fixpoint utf32_decode (big : bool) (b : bytes) : option text :=
  match b with
  | [] => Some []
  | w :: x :: y :: z :: r =>
      let n := if big then (unit16 true w x * 65536 + unit16 true y z)%N
               else (unit16 false y z * 65536 + unit16 false w x)%N in
      if (n <? 1114112)%N then cons (code_point n) <$> utf32_decode big r else None
  | _ => None
  end.

Definition decode_bytes (b : bytes) : option text :=
  match detect_encoding b with
  | Utf8 => utf8_decode (pass_surrogates b)
  | Utf8Sig => utf8_decode (pass_surrogates (drop 3 b))
  | Utf16 big => utf16_decode big b
  | Utf16Bom => utf16_decode (starts [254;255]%N b) (drop 2 b)
  | Utf32 big => utf32_decode big b
  | Utf32Bom => utf32_decode (starts [0;0;254;255]%N b) (drop 4 b)
  end.

Definition loads_bytes `{JsonLimits} (b : bytes) : res json :=
  match decode_bytes b with
  | Some t => loads t
  | None => Err (Exn UnicodeDecodeError "codec can't decode bytes")
  end.

Example loads_bytes_encodings :
  map loads_bytes [chars "[1]"; flat_map (fun c => [c; chr 0]) (chars "[1]");
                   map chr [239;187;191;91;49;93]%N; map chr [254;255;0;91;0;49;0;93]%N]
  = repeat (Ok (JArr [JInt 1])) 4.
Proof. vm_compute. reflexivity. Qed.

(** What [json.dumps(..., allow_nan=False)] prints. *)
Fixpoint finite (j : json) : bool :=
  match j with
  | JNonFinite _ => false
  | JArr l => forallb finite l
  | JObj kvs => forallb (fun kv => finite kv.2) kvs
  | _ => true
  end.

(** Seven-bit text is read as it is. *)
Definition seven_bit (t : text) : bool := forallb (fun c => (0 <? code c) && (code c <? 128))%N t.

Lemma decode_seven_bit t : seven_bit t = true -> decode_bytes t = Some t.
Proof.
  intros H. unfold decode_bytes.
  assert (D : utf8_decode (pass_surrogates t) = Some t).
  { induction t as [|c t IH]; [done|].
    cbn [seven_bit forallb] in H. apply andb_true_iff in H as [Hc Ht].
    apply andb_true_iff in Hc as [_ Hc]. apply N.ltb_lt in Hc. specialize (IH Ht).
    assert (E : pass_surrogates (c :: t) = c :: pass_surrogates t).
    { destruct t as [|d [|e r]]; [done..|]. cbn [pass_surrogates].
      destruct (N.eqb_spec (code c) 237); [lia|]. done. }
    rewrite E. cbn [utf8_decode]. destruct (N.ltb_spec (code c) 128); [|lia]. by rewrite IH. }
  assert (E : detect_encoding t = Utf8); [|by rewrite E].
  assert (lead : forall n k, t = n :: k -> (0 < code n < 128)%N /\ seven_bit k = true).
  { intros n k ->. cbn [seven_bit forallb] in H. apply andb_true_iff in H as [Hc ?].
    apply andb_true_iff in Hc as [?%N.ltb_lt ?%N.ltb_lt]. done. }
  unfold detect_encoding, starts.
  destruct t as [|a k]; [done|]. destruct (lead _ _ eq_refl) as [Ha Hk].
  cbn [map take List.length].
  do 5 (rewrite bool_decide_false by (intros [=]; lia)).
  cbn [orb]. destruct k as [|b k]; [done|].
  cbn [seven_bit forallb] in Hk. apply andb_true_iff in Hk as [Hb _].
  apply andb_true_iff in Hb as [Hb _]. apply N.ltb_lt in Hb. unfold nul.
  destruct (N.eqb_spec (code a) 0), (N.eqb_spec (code b) 0); try lia.
  by destruct k as [|? [|? ?]].
Qed.
