(* ===== verification/PyValue.v ===== *)
(** * Conversions of decoded JSON values

    [str()], [repr()], [float()] and [int()] of the values [json.loads]
    returns, and [timedelta(seconds=...)]. *)
From S2P Require Import Prelude PyStr PyFloat PyTime Json PyIO JsonText.
From stdpp Require Import base strings list.
From Stdlib Require Import ZArith QArith Qabs NArith Lia Lqa.

Local Open Scope Z_scope.

(** ** str and repr *)

Definition nonfinite_repr (x : nonfinite) : string :=
  match x with NaN => "nan" | PosInf => "inf" | NegInf => "-inf" end.

Fixpoint py_repr (j : json) : string :=
  match j with
  | JNull => "None"
  | JBool b => if b then "True" else "False"
  | JInt z => str_Z z
  | JFloat q => float_repr q
  | JNonFinite x => nonfinite_repr x
  | JStr s => repr s
  | JArr l => "[" +:+ PyStr.join ", " (map py_repr l) +:+ "]"
  | JObj d => "{" +:+ PyStr.join ", " (map (fun kv => repr kv.1 +:+ ": " +:+ py_repr kv.2) d) +:+ "}"
  end.
Definition py_str (j : json) : string := match j with JStr s => s | _ => py_repr j end.

(** Truth value, and [v or default]. *)
Definition py_bool (j : json) : bool :=
  match j with
  | JNull => false
  | JBool b => b
  | JInt z => negb (z =? 0)
  | JFloat q => negb (Qeq_bool q 0)
  | JNonFinite _ => true
  | JStr s => truthy s
  | JArr l => match l with [] => false | _ => true end
  | JObj d => match d with [] => false | _ => true end
  end.
Definition py_or (o : option json) (default : json) : json :=
  match o with Some v => if py_bool v then v else default | None => default end.

(** ** Numbers *)

(** A float, finite or not. *)
Inductive pyfloat := Fin (q : Q) | NonFin (x : nonfinite).
Definition float_of_json (j : json) : pyfloat :=
  match j with JFloat q => Fin q | JNonFinite x => NonFin x | _ => Fin 0 end.

(** Digits with single underscores between them. *)
Fixpoint us_digits (l : text) : text * text :=
  match l with
  | c :: r =>
      if within 48 57 c then
        let next := match r with
                    | u :: r' =>
                        if (code u =? 95)%N then
                          match r' with
                          | d :: _ => if within 48 57 d then us_digits r' else ([], r)
                          | [] => ([], r)
                          end
                        else us_digits r
                    | [] => ([], [])
                    end in
        (c :: next.1, next.2)
      else ([], l)
  | [] => ([], [])
  end.
Definition sign_of (l : text) : bool * text :=
  match l with
  | c :: r => if (code c =? 45)%N then (true, r) else if (code c =? 43)%N then (false, r) else (false, l)
  | [] => (false, [])
  end.

(** [float(s)]. *)
Definition float_of_str (s : string) : option pyfloat :=
  let '(neg, l) := sign_of (chars (strip s)) in
  let word := of_chars (map lower_c l) in
  if String.eqb word "inf" || String.eqb word "infinity"
  then Some (NonFin (if neg then NegInf else PosInf))
  else if String.eqb word "nan" then Some (NonFin NaN)
  else
    let '(ds, r1) := us_digits l in
    let '(frac, r2) := match r1 with
                       | c :: r => if (code c =? 46)%N then us_digits r else ([], r1)
                       | [] => ([], [])
                       end in
    match ds ++ frac with
    | [] => None
    | _ =>
        match r2 with
        | [] => Some (float_of_json (float_literal neg ds frac 0))
        | e :: r3 =>
            if ((code e =? 101) || (code e =? 69))%N then
              let '(eneg, r4) := sign_of r3 in
              match us_digits r4 with
              | ((_ :: _) as es, []) =>
                  Some (float_of_json (float_literal neg ds frac
                          (if eneg then - digits_value es else digits_value es)))
              | _ => None
              end
            else None
        end
    end.

(** [a == b] of decoded values: numbers by value, whatever their type; objects
    whatever the order of their keys. *)
Definition number (j : json) : option Q :=
  match j with
  | JBool b => Some (if b then 1 else 0)%Q
  | JInt z => Some (inject_Z z)
  | JFloat q => Some q
  | _ => None
  end.
Fixpoint py_eq (a b : json) : bool :=
  match a, b with
  | JNull, JNull => true
  | JStr s, JStr t => (s =? t)%string
  | JArr l, JArr m =>
      (fix go l m := match l, m with
         | [], [] => true
         | x :: l', y :: m' => py_eq x y && go l' m'
         | _, _ => false
         end) l m
  | JObj l, JObj m =>
      (List.length l =? List.length m)%nat
      && forallb (fun kv => match dict_get kv.1 m with Some v => py_eq kv.2 v | None => false end) l
  | JNonFinite PosInf, JNonFinite PosInf | JNonFinite NegInf, JNonFinite NegInf => true
  | _, _ => match number a, number b with Some p, Some q => Qeq_bool p q | _, _ => false end
  end.

(** [float(v)]. *)
Definition py_float (j : json) : res pyfloat :=
  match j with
  | JBool b => Ok (Fin (if b then 1 else 0))
  | JInt z =>
      let f := fl (z # 1) in
      raise_if Qle_bool (2 ^ 1024 # 1) (Qabs f)
        with OverflowError, "int too large to convert to float";;
      Ok (Fin f)
  | JFloat q => Ok (Fin q)
  | JNonFinite x => Ok (NonFin x)
  | JStr s => match float_of_str s with
              | Some f => Ok f
              | None => Err (Exn ValueError ("could not convert string to float: " +:+ repr s))
              end
  | _ => Err (Exn TypeError "float() argument must be a string or a real number")
  end.

(** [int(v)]. *)
Definition py_int (j : json) : res Z :=
  match j with
  | JBool b => Ok (if b then 1 else 0)
  | JInt z => Ok z
  | JFloat q => Ok (Z.quot (Qnum q) (Zpos (Qden q)))
  | JNonFinite NaN => Err (Exn ValueError "cannot convert float NaN to integer")
  | JNonFinite _ => Err (Exn OverflowError "cannot convert float infinity to integer")
  | JStr s =>
      let '(neg, l) := sign_of (chars (strip s)) in
      match us_digits l with
      | ((_ :: _) as ds, []) =>
          raise_if (max_str_digits <? List.length ds)%nat
            with ValueError, "Exceeds the limit (4300 digits) for integer string conversion";;
          Ok (if neg then - digits_value ds else digits_value ds)
      | _ => Err (Exn ValueError ("invalid literal for int() with base 10: " +:+ repr s))
      end
  | _ => Err (Exn TypeError "int() argument must be a string, a bytes-like object or a real number")
  end.

Example py_float_samples :
  map (fun s => float_of_str s) ["3600"; " 1e3 "; "-.5"; "1_0"; "x"; "_1"; "Infinity"; "1e"]
  = [Some (Fin 3600); Some (Fin 1000); Some (Fin (-1 # 2)); Some (Fin 10); None; None;
     Some (NonFin PosInf); None].
Proof. vm_compute. reflexivity. Qed.

(** ** timedelta

    [timedelta(seconds=q)] in microseconds: the whole seconds exactly, the
    fraction as a float product rounded half to even. *)
Definition seconds_us (q : Q) : Z :=
  let whole := Qnum q / Zpos (Qden q) in
  let f := fl ((q - inject_Z whole) * 1000000) in
  whole * 1000000 + round_half_even (Qnum f) (Zpos (Qden f)).

(** [opened + timedelta(microseconds=us)] and [astimezone(utc)] raise
    [OverflowError] outside the years 1 .. 9999. *)
Definition in_range (w : Z) : bool := (0 <=? w) && (w <? max_wall).
Definition dt_plus (d : datetime) (us : Z) : res datetime :=
  require in_range (dt_wall d + us) else OverflowError, "date value out of range";;
  Ok (dt_add d us).
Definition dt_to_utc (d : datetime) : res datetime :=
  require in_range (instant d) else OverflowError, "date value out of range";;
  Ok (to_utc d).

(** *** Bounds *)

Lemma unscale_le m s k : 0 <= s -> m <= k * 2 ^ s -> (unscale m s <= inject_Z k)%Q.
Proof.
  intros Hs Hm. unfold unscale. destruct (Z.leb_spec 0 s); [|lia].
  rewrite Qred_correct. unfold Qle. simpl.
  rewrite Z2Pos.id by (apply Z.pow_pos_nonneg; lia). lia.
Qed.

(** Rounding to a double does not cross an integer bound below [2^53]. *)
Lemma fl_le q k : (0 <= q)%Q -> (q <= inject_Z k)%Q -> k < 2 ^ 52 -> (fl q <= inject_Z k)%Q.
Proof.
  intros H0 Hq Hk. unfold fl. destruct q as [[|n|n] d]; cbn [Qnum Qden] in *.
  - unfold Qle in *. simpl in *. lia.
  - unfold Qle in Hq. cbn [Qnum Qden inject_Z] in Hq.
    unfold fl_pos. set (s := fl_shift _ _).
    assert (Hlog : Z.log2 (Zpos n) <= 52 + Z.log2 (Zpos d)).
    { transitivity (Z.log2 (2 ^ 52 * Zpos d)); [apply Z.log2_le_mono; nia|].
      rewrite Z.mul_comm, Z.log2_mul_pow2; lia. }
    assert (Hs : 0 <= s) by (subst s; unfold fl_shift; destruct (_ <? _); lia).
    apply unscale_le; [done|]. unfold scaled. destruct (Z.leb_spec 0 s); [|lia].
    apply round_half_even_le; [lia|]. pose proof (Z.pow_pos_nonneg 2 s ltac:(lia) Hs). nia.
  - exfalso. unfold Qle in H0. simpl in H0. lia.
Qed.

Lemma fl_nonneg q : (0 <= q)%Q -> (0 <= fl q)%Q.
Proof.
  intros H. unfold fl. destruct q as [[|n|n] d]; cbn [Qnum Qden]; [done| |].
  - apply unscale_nonneg, scaled_nonneg; lia.
  - exfalso. unfold Qle in H. simpl in H. lia.
Qed.

Lemma seconds_us_bounds q lo hi :
  0 <= lo -> (inject_Z lo <= q)%Q -> (q <= inject_Z hi)%Q ->
  lo * 1000000 <= seconds_us q <= hi * 1000000.
Proof.
  intros Hlo H1 H2. unfold seconds_us. set (w := Qnum q / Zpos (Qden q)).
  assert (Hw : (inject_Z w <= q)%Q).
  { unfold Qle. simpl. pose proof (Z.mul_div_le (Qnum q) (Zpos (Qden q)) ltac:(lia)). lia. }
  assert (Hw1 : (q < inject_Z (w + 1))%Q).
  { unfold Qlt. simpl. pose proof (Z.mul_succ_div_gt (Qnum q) (Zpos (Qden q)) ltac:(lia)). lia. }
  set (x := ((q - inject_Z w) * 1000000)%Q).
  assert (X0 : (0 <= x)%Q) by (unfold x; apply Qmult_le_0_compat; [lra|done]).
  assert (X1 : (x <= inject_Z 1000000)%Q).
  { unfold x. rewrite inject_Z_plus in Hw1. change (inject_Z 1) with 1%Q in Hw1.
    change (inject_Z 1000000) with 1000000%Q. lra. }
  pose proof (fl_nonneg x X0) as F0. pose proof (fl_le x 1000000 X0 X1 ltac:(done)) as F1.
  set (f := fl x) in *.
  assert (R0 : 0 <= round_half_even (Qnum f) (Zpos (Qden f))).
  { apply round_half_even_nonneg; [lia|]. unfold Qle in F0. simpl in F0. lia. }
  assert (R1 : round_half_even (Qnum f) (Zpos (Qden f)) <= 1000000).
  { apply round_half_even_le; [lia|]. unfold Qle in F1. simpl in F1. lia. }
  assert (Hlw : lo < w + 1) by (rewrite Zlt_Qlt; lra).
  assert (Hwh : w <= hi) by (rewrite Zle_Qle; lra).
  split; [lia|]. destruct (Z.eq_dec w hi) as [->|]; [|lia].
  assert (E : x == 0) by (unfold x; assert (q == inject_Z hi) as -> by lra; lra).
  assert (f <= inject_Z 0)%Q as F2.
  { apply fl_le; [done| |done]. rewrite E. by apply Qle_refl. }
  assert (round_half_even (Qnum f) (Zpos (Qden f)) <= 0); [|lia].
  apply round_half_even_le; [lia|]. unfold Qle in F2. simpl in F2. lia.
Qed.
