(* ===== verification/PyUuid.v ===== *)
(** * UUIDs and signatures

    A [uuid.UUID] is its 128-bit integer; [str] prints it, [uuid5] hashes a
    name into one (RFC 9562, over the SHA-1 of [PyIO]). [Ed25519] is what the
    code relies on of [cryptography]'s keys. *)
From S2P Require Import Prelude PyStr Sha256 Json PyIO.
From stdpp Require Import base gmap strings list.
From Stdlib Require Import NArith Lia.

Local Open Scope N_scope.

Notation uuid := N (only parsing).

Definition uuid_ok (u : uuid) : Prop := u < 2 ^ 128.

(** [k] hexadecimal digits, the most significant first. *)
Fixpoint hex_digits (k : nat) (n : N) : text :=
  match k with
  | O => []
  | S k' => hex_digits k' (N.shiftr n 4) ++ [hexdigit (N.land n 15)]
  end.

Definition uuid_str (u : uuid) : string :=
  let h := hex_digits 32 u in
  of_chars (take 8 h ++ chr 45 :: take 4 (drop 8 h) ++ chr 45 :: take 4 (drop 12 h)
    ++ chr 45 :: take 4 (drop 16 h) ++ chr 45 :: drop 20 h).

(** The 16 bytes of a UUID, most significant first. *)
Definition uuid_bytes (u : uuid) : bytes :=
  map (fun i => chr (N.land (N.shiftr u (8 * i)) 255)) [15;14;13;12;11;10;9;8;7;6;5;4;3;2;1;0].

Definition hex_value (l : text) : N :=
  fold_left (fun acc c => acc * 16 + (if code c <? 58 then code c - 48 else code c - 87)) l 0.

(** [uuid5] of a name given by its UTF-8 encoding, and of a text. *)
Definition uuid5_bytes (namespace : uuid) (name : string) : uuid :=
  let n := hex_value (take 32 (sha1_hex (uuid_bytes namespace ++ chars name))) in
  let variant := N.lor (N.ldiff n (N.shiftl 49152 48)) (N.shiftl 32768 48) in
  N.lor (N.ldiff variant (N.shiftl 61440 64)) (N.shiftl 5 76).

Definition uuid5 (namespace : uuid) (name : string) : uuid := uuid5_bytes namespace (encode_utf8 name).

(** [uuid.uuid5(uuid.NAMESPACE_DNS, "python.org")], from the documentation. *)
Example uuid5_python_org :
  uuid_str (uuid5 143098242404177361603877621312831893704 "python.org")
  = "886313e1-3b8a-5372-9b90-0c9aee199e5d".
Proof. vm_compute. reflexivity. Qed.

Lemma hexdigit_inj a b : a < 16 -> b < 16 -> hexdigit a = hexdigit b -> a = b.
Proof.
  intros Ha Hb E. unfold hexdigit in E. apply (f_equal Ascii.N_of_ascii) in E.
  destruct (N.ltb_spec a 10), (N.ltb_spec b 10); rewrite !Ascii.N_ascii_embedding in E; lia.
Qed.

Lemma hex_digits_length k n : List.length (hex_digits k n) = k.
Proof. revert n. induction k as [|k IH]; intros n; simpl; [done|]. rewrite length_app, IH. simpl. lia. Qed.

Lemma land15 n : N.land n 15 = n mod 16.
Proof. change 15 with (N.ones 4). by rewrite N.land_ones. Qed.

Lemma hex_digits_inj k a b : a < 16 ^ N.of_nat k -> b < 16 ^ N.of_nat k ->
  hex_digits k a = hex_digits k b -> a = b.
Proof.
  revert a b. induction k as [|k IH]; intros a b Ha Hb E; [simpl in *; lia|].
  cbn [hex_digits] in E. apply app_inj_2 in E as [E1 E2]; [|done].
  rewrite Nat2N.inj_succ, N.pow_succ_r' in Ha, Hb.
  assert (D : forall x, x < 16 * 16 ^ N.of_nat k -> N.shiftr x 4 < 16 ^ N.of_nat k).
  { intros x Hx. rewrite N.shiftr_div_pow2. apply N.Div0.div_lt_upper_bound. done. }
  apply IH in E1; [|auto..]. injection E2 as E2.
  rewrite !land15 in E2. apply hexdigit_inj in E2; [|apply N.mod_lt; done..].
  rewrite !N.shiftr_div_pow2 in E1. change (2 ^ 4) with 16 in E1.
  rewrite (N.div_mod' a 16), (N.div_mod' b 16). by rewrite E1, E2.
Qed.

Lemma uuid_str_inj a b : uuid_ok a -> uuid_ok b -> uuid_str a = uuid_str b -> a = b.
Proof.
  intros Ha Hb E. apply (f_equal chars) in E. unfold uuid_str in E. rewrite !chars_of_chars in E.
  apply (hex_digits_inj 32); [done..|].
  pose proof (hex_digits_length 32 a) as La. pose proof (hex_digits_length 32 b) as Lb.
  revert E La Lb. generalize (hex_digits 32 a) (hex_digits 32 b). intros x y E Lx Ly.
  do 33 (destruct x as [|? x]; try (simpl in Lx; lia)).
  do 33 (destruct y as [|? y]; try (simpl in Ly; lia)).
  simpl in E. by injection E as -> -> -> -> -> -> -> -> -> -> -> -> -> -> -> -> -> -> -> -> -> -> -> -> -> -> -> -> -> -> -> ->.
Qed.

(** ** Parsing

    [uuid.UUID(s)]: ["urn:"], ["uuid:"], braces at the ends and hyphens are
    dropped, and the 32 characters left go through [int(_, 16)], which allows
    spaces around, a sign, a [0x] prefix and single underscores. *)
Fixpoint strip_prefix (p l : text) : option text :=
  match p, l with
  | [], _ => Some l
  | x :: p', y :: l' => if Ascii.eqb x y then strip_prefix p' l' else None
  | _, [] => None
  end.
(** [l.replace(p, r)]; [p] is not empty. *)
Fixpoint replace_l (fuel : nat) (p r l : text) : text :=
  match fuel, l with
  | S k, c :: l' => match strip_prefix p l with Some rest => r ++ replace_l k p r rest | None => c :: replace_l k p r l' end
  | _, _ => l
  end.
Definition replace (p r s : string) : string :=
  of_chars (replace_l (String.length s) (chars p) (chars r) (chars s)).

Definition drop_while (f : Ascii.ascii -> bool) : text -> text :=
  fix go l := match l with x :: r => if f x then go r else l | [] => [] end.
Definition brace (c : Ascii.ascii) : bool := (code c =? 123) || (code c =? 125).
Definition hex_digit (c : Ascii.ascii) : option N :=
  let n := code c in
  if (48 <=? n) && (n <=? 57) then Some (n - 48)
  else if (97 <=? n) && (n <=? 102) then Some (n - 87)
  else if (65 <=? n) && (n <=? 70) then Some (n - 55) else None.
(** Digits after a digit: each is a digit, or an underscore and a digit. *)
Fixpoint hex_tail (acc : N) (l : text) : option N :=
  match l with
  | [] => Some acc
  | c :: r =>
      match hex_digit c, r with
      | Some d, _ => hex_tail (acc * 16 + d) r
      | None, d :: r' => if code c =? 95 then match hex_digit d with Some v => hex_tail (acc * 16 + v) r' | None => None end else None
      | None, [] => None
      end
  end.
Definition hex_number (l : text) : option N :=
  match l with c :: r => match hex_digit c with Some d => hex_tail d r | None => None end | [] => None end.
Definition int16 (l : text) : option N :=
  let l := chars (strip (of_chars l)) in
  let '(neg, l) := match l with c :: r => if code c =? 45 then (true, r) else if code c =? 43 then (false, r) else (false, l) | [] => (false, l) end in
  let l := match l with
    | z :: x :: r => if (code z =? 48) && ((code x =? 120) || (code x =? 88))
                     then match r with u :: r' => if code u =? 95 then r' else r | [] => r end else l
    | _ => l end in
  match hex_number l with
  | Some n => if neg && negb (n =? 0) then None else Some n
  | None => None
  end.
Definition uuid_parse (s : string) : option uuid :=
  let l := chars (replace "uuid:" (of_chars []) (replace "urn:" (of_chars []) s)) in
  let l := rev (drop_while brace (rev (drop_while brace l))) in
  let l := List.filter (fun c => negb (code c =? 45)) l in
  if (List.length l =? 32)%nat then int16 l else None.

Example uuid_parse_samples :
  map (fun s => uuid_str <$> uuid_parse s)
    ["886313e1-3b8a-5372-9b90-0c9aee199e5d"; "urn:uuid:{886313E13B8A53729B900C9AEE199E5D}";
     "0x00000000000000000000000000000a"; "886313e1"; "0000000000000000000000000000__0f"]
  = [Some "886313e1-3b8a-5372-9b90-0c9aee199e5d"; Some "886313e1-3b8a-5372-9b90-0c9aee199e5d";
     Some "00000000-0000-0000-0000-00000000000a"; None; None].
Proof. vm_compute. reflexivity. Qed.

(** ** Signatures *)

Class Ed25519 := {
  PrivateKey : Type;
  PublicKey : Type;
  sign : PrivateKey -> string -> string;
  public_key : PrivateKey -> PublicKey;
  verify_signature : PublicKey -> string -> string -> bool;
  verify_sign k m : verify_signature (public_key k) (sign k m) m = true;
}.

(** An instance to compute with: the key is appended to the message. *)
Definition toy_signatures : Ed25519.
Proof.
  refine {| PrivateKey := string; PublicKey := string; sign := fun k m => m +:+ k;
            public_key := id; verify_signature := fun k s m => bool_decide (s = m +:+ k) |}.
  intros k m. by apply bool_decide_eq_true.
Defined.
