(* ===== verification/Configuration.v ===== *)
(** * Deployment configuration (fleet_kernel/configuration.py)

    Who the installation is: two identifiers of the environment and a file of
    authority bindings. Nothing is bundled; a binding that is absent is [None]. *)
From S2P Require Import Prelude PyStr Json PyRegex PyIO PyPath JsonText PyValue.
From stdpp Require Import base gmap strings list.
From Stdlib Require Import NArith ZArith.

(* src: fleet_kernel/configuration.py ConfigurationError *)
Definition ConfigurationError : exc_class := OtherError "ConfigurationError".

Definition IDENTIFIER : re :=
  cats [rset alnum; RRep 0 (Some 127%nat) (rset (alnum ++ one_of "._-"))].

(** [os.environ.get(name, '')] is an argument. *)
(* src: fleet_kernel/configuration.py _identity *)
Definition identity_ (name value : string) : res string :=
  require re_fullmatch false IDENTIFIER value
    else ConfigurationError, (name +:+ " must be explicitly set to an identifier") ;;
  Ok value.

(** The environment, and the bindings as the cached [_bindings] has them. *)
Record configuration := {
  cf_company : string;
  cf_scribe : string;
  cf_bindings : list (string * string);
}.

(* src: fleet_kernel/configuration.py company_id *)
Definition company_id (c : configuration) : res string := identity_ "CC_SUITE_COMPANY_ID" (cf_company c).
(* src: fleet_kernel/configuration.py scribe_deployment_id *)
Definition scribe_deployment_id (c : configuration) : res string :=
  identity_ "CC_SUITE_SCRIBE_DEPLOYMENT_ID" (cf_scribe c).

Definition nonempty_entries (kvs : list (string * json)) : option (list (string * string)) :=
  foldr (fun kv acc => match kv.2, acc with
    | JStr s, Some r => if truthy s then Some ((kv.1, s) :: r) else None
    | _, _ => None end) (Some []) kvs.

(** [configured] is the variable that names the file, [symlink] whether the
    path is a symbolic link, [read] what reading it gives. *)
(* src: fleet_kernel/configuration.py _bindings *)
Definition bindings_ `{JsonLimits} (configured : string) (symlink : bool) (read : res text)
    : res (list (string * string)) :=
  if negb (truthy configured) then Ok [] else
  raise_if negb (is_absolute configured) || symlink
    with ConfigurationError, "Authority bindings must name an absolute non-symlink file" ;;
  let! t := read in
  let! value := loads t in
  match value with
  | JObj kvs =>
      match nonempty_entries kvs with
      | Some l => Ok l
      | None => Err (Exn ConfigurationError "Authority bindings must be a nonempty-string mapping")
      end
  | _ => Err (Exn ConfigurationError "Authority bindings must be a nonempty-string mapping")
  end.

(* src: fleet_kernel/configuration.py deployment_binding *)
Definition deployment_binding (c : configuration) (name : string) : option string :=
  dict_get name (cf_bindings c).
(* src: fleet_kernel/configuration.py authority_issuer *)
Definition authority_issuer (c : configuration) : option string := deployment_binding c "AUTHORITY_ISSUER".

(** [None] or a string as a decoded value, to compare with one. *)
Definition opt_json (o : option string) : json := match o with Some s => JStr s | None => JNull end.

Lemma identity_ok name value s : identity_ name value = Ok s -> s = value.
Proof. unfold identity_. by intros [_ [= ->]]%require_ok. Qed.
