(* ===== verification/FounderAuthority.v ===== *)
(** * Founder authority (fleet_kernel/founder_authority.py)

    A mandate is the durable authority for one closed sequence of activation
    steps; each effect under it has its own exact subject, and the subject's
    digest is what is approved. Arguments are decoded values ([json]); an
    object that went through [_canonical_mapping] is a list of entries sorted
    by key. The deployment's own constants are a [configuration]. *)
From S2P Require Import Prelude PyStr PyFloat PyTime Json Sha256 PyRegex PyIO PyPath JsonText PyValue PyUuid Configuration.
From stdpp Require Import base gmap strings list.
From Stdlib Require Import ZArith QArith NArith Lia.

Local Open Scope Z_scope.

Notation dict := (list (string * json)).

(* src: fleet_kernel/founder_authority.py FounderAuthorityError *)
Definition FounderAuthorityError : exc_class := OtherError "FounderAuthorityError".
Definition refuse {A} (msg : string) : res A := Err (Exn FounderAuthorityError msg).

(** ** Vocabulary *)

(* src: fleet_kernel/founder_authority.py _SHA256 *)
Definition SHA256 : string -> bool := hex64.
(* src: fleet_kernel/founder_authority.py _GIT_SHA *)
Definition GIT_SHA (s : string) : bool := (List.length (chars s) =? 40)%nat && forallb hex_c (chars s).
(* src: fleet_kernel/founder_authority.py _MANDATE_ID *)
Definition MANDATE_ID_PATTERN : re := cats [lit "activation-mandate-"; many1 (rset (alnum ++ one_of "._-"))].
(* src: fleet_kernel/founder_authority.py MANDATE_SCHEMA *)
Definition MANDATE_SCHEMA : string := "mise.activation-mandate.v1".
(* src: fleet_kernel/founder_authority.py SUBJECT_SCHEMA *)
Definition SUBJECT_SCHEMA : string := "mise.founder-activation-step-subject.v1".
(* src: fleet_kernel/founder_authority.py PHASE4_MANDATE_SCHEMA *)
Definition PHASE4_MANDATE_SCHEMA : string := "mise.cc-suite-activation-mandate.v1".
(* src: fleet_kernel/founder_authority.py UTILITY_MANDATE_SCHEMA *)
Definition UTILITY_MANDATE_SCHEMA : string := "mise.utility-activation-mandate.v1".
(* src: fleet_kernel/founder_authority.py PHASE4_MANDATE_KEYS *)
Definition PHASE4_MANDATE_KEYS : list string := [
  "schema"; "mandate_id"; "status"; "issuer"; "source_kind"; "quoted_instruction"; "recorded_at";
  "governing_canon"; "executable_plan"; "company_id"; "host_kind"; "preserved_live_subject";
  "ordered_roles"; "ordered_scope"; "constraints"; "requires_additional_founder_go_within_scope";
  "terminal_condition"; "rollback_policy"; "receipt_requirements"].
(* src: fleet_kernel/founder_authority.py PHASE4_COMPANY_ROLE_TYPES *)
Definition PHASE4_COMPANY_ROLE_TYPES : list string := [
  "cos"; "ccto"; "ccpo"; "ccde"; "ccro"; "ccfo"; "ccmo"; "cclo"; "ccgo"; "ccco"].
(* src: fleet_kernel/founder_authority.py MANDATE_KEYS *)
Definition MANDATE_KEYS : list string := [
  "schema"; "mandate_id"; "status"; "issuer"; "source_kind"; "quoted_instruction"; "recorded_at";
  "governing_canon"; "executable_plan"; "ordered_scope"; "constraints";
  "requires_additional_founder_go_within_scope"; "terminal_condition"].
(* src: fleet_kernel/founder_authority.py MANDATE_ORDERED_SCOPE *)
Definition MANDATE_ORDERED_SCOPE : list string := [
  "finish_review_package_and_install_exact_kernel_release";
  "remove_and_verify_absent_mini_nopasswd_rule_after_last_privileged_operation";
  "earn_three_consecutive_real_shadow_mondays";
  "run_one_fenced_supervised_live_workflow";
  "transfer_exact_mini_authority_pointer";
  "verify_mini_canary_real_workflow_and_reconciliation";
  "admit_exactly_one_macbook_scribe_after_mini_activation";
  "verify_scribe_singleton_persistence_and_first_workflow";
  "verify_mini_and_scribe_restart_recovery_rollback_and_terminal_receipts"].
(* src: fleet_kernel/founder_authority.py MANDATE_CONSTRAINTS *)
Definition MANDATE_CONSTRAINTS : list string := [
  "no_gatef_evidence";
  "mini_kernel_before_macbook_scribe";
  "exact_technical_subject_and_receipt_per_step";
  "one_effect_path";
  "one_writable_scribe";
  "company_and_restaurant_fleet_data_isolation";
  "operator_approval_remains_required_where_the_workflow_requires_it";
  "nopasswd_must_be_absent_before_shadow_credit";
  "phase_4_remaining_cc_suite_migration_is_out_of_scope";
  "no_scope_expansion_beyond_ordered_scope"].
(* src: fleet_kernel/founder_authority.py MANDATE_TERMINAL_CONDITION *)
Definition MANDATE_TERMINAL_CONDITION : json := JObj [
  ("when", JStr ("all_ordered_scope_steps_have_verified_completion_receipts_and_final_"
                 +:+ "combined_recovery_receipt_is_verified"));
  ("terminal_status", JStr "completed");
  ("authorization_valid_after_terminal", JBool false);
  ("deterministic_recovery_contract", JObj [
    ("survives_terminal", JBool true);
    ("requires_additional_founder_go", JBool false);
    ("scope", JStr ("same_exact_release_same_hosts_same_deployments_same_authority_"
                    +:+ "root_monotonic_recovery_epochs_only"));
    ("forbids", JStr ("new_release_new_host_new_deployment_scope_expansion_or_new_"
                      +:+ "effect_authority"))])].

(* src: fleet_kernel/founder_authority.py ActivationStep *)
Inductive ActivationStep :=
  | FINAL_RELEASE_INSTALL | PRIVILEGE_CLEANUP | SHADOW_MONDAY_1 | SHADOW_MONDAY_2 | SHADOW_MONDAY_3
  | SUPERVISED_LIVE_UPLOAD | MINI_CUTOVER | MINI_VERIFICATION | SCRIBE_ADMISSION | SCRIBE_VERIFICATION.
#[export] Instance ActivationStep_eq_dec : EqDecision ActivationStep. Proof. solve_decision. Defined.

Definition step_value (s : ActivationStep) : string :=
  match s with
  | FINAL_RELEASE_INSTALL => "final-release-install"
  | PRIVILEGE_CLEANUP => "privilege-cleanup"
  | SHADOW_MONDAY_1 => "shadow-monday-1"
  | SHADOW_MONDAY_2 => "shadow-monday-2"
  | SHADOW_MONDAY_3 => "shadow-monday-3"
  | SUPERVISED_LIVE_UPLOAD => "supervised-live-upload"
  | MINI_CUTOVER => "mini-cutover"
  | MINI_VERIFICATION => "mini-verification"
  | SCRIBE_ADMISSION => "scribe-admission"
  | SCRIBE_VERIFICATION => "scribe-verification"
  end.
Definition ALL_STEPS : list ActivationStep := [
  FINAL_RELEASE_INSTALL; PRIVILEGE_CLEANUP; SHADOW_MONDAY_1; SHADOW_MONDAY_2; SHADOW_MONDAY_3;
  SUPERVISED_LIVE_UPLOAD; MINI_CUTOVER; MINI_VERIFICATION; SCRIBE_ADMISSION; SCRIBE_VERIFICATION].
(** [ActivationStep(value)]. *)
Definition step_of (value : string) : option ActivationStep :=
  List.find (fun s => (step_value s =? value)%string) ALL_STEPS.

(* src: fleet_kernel/founder_authority.py ActivationOutcome *)
Inductive ActivationOutcome := INSTALL | PREPARE | APPROVE | DELIVER | VERIFY.

(* src: fleet_kernel/founder_authority.py STEP_OUTCOMES *)
Definition STEP_OUTCOMES (s : ActivationStep) : ActivationOutcome :=
  match s with
  | FINAL_RELEASE_INSTALL | PRIVILEGE_CLEANUP => INSTALL
  | SHADOW_MONDAY_1 | SHADOW_MONDAY_2 | SHADOW_MONDAY_3 => PREPARE
  | SUPERVISED_LIVE_UPLOAD => DELIVER
  | MINI_CUTOVER => APPROVE
  | MINI_VERIFICATION => VERIFY
  | SCRIBE_ADMISSION => INSTALL
  | SCRIBE_VERIFICATION => VERIFY
  end.

(** [key] is the step's value. *)
(* src: fleet_kernel/founder_authority.py step_outcome *)
Definition step_outcome (key : string) : res ActivationOutcome :=
  match step_of key with
  | Some s => Ok (STEP_OUTCOMES s)
  | None => refuse ("activation step has no registered outcome: " +:+ key)
  end.

(* src: fleet_kernel/founder_authority.py MANDATE_SEQUENCE *)
Definition MANDATE_SEQUENCE : list ActivationStep := [
  FINAL_RELEASE_INSTALL; PRIVILEGE_CLEANUP; SUPERVISED_LIVE_UPLOAD; MINI_CUTOVER; MINI_VERIFICATION;
  SCRIBE_ADMISSION; SCRIBE_VERIFICATION].

(** ** Readers *)

(* src: fleet_kernel/founder_authority.py _required *)
Definition required_ (value : json) (field : string) : res string :=
  match value with
  | JStr v =>
      let text := strip v in
      raise_if negb (truthy text) || negb (text =? v)%string || existsb (fun c => (code c <? 32)%N) (chars text)
        with FounderAuthorityError, (field +:+ " is not canonical") ;;
      Ok text
  | _ => refuse (field +:+ " is required")
  end.

(* src: fleet_kernel/founder_authority.py _digest *)
Definition digest_ (value : json) (field : string) (pattern : string -> bool) : res string :=
  let! text := required_ value field in
  require pattern text else FounderAuthorityError, (field +:+ " is not an exact digest") ;;
  Ok text.

(* src: fleet_kernel/founder_authority.py _uuid *)
Definition uuid_ (value : json) (field : string) : res string :=
  match uuid_parse (py_str value) with
  | Some u => Ok (uuid_str u)
  | None => refuse (field +:+ " is not a UUID")
  end.

(** [except (TypeError, ValueError)]. *)
Definition bad_value (e : exn) : bool := is_subclass (exn_class e) ValueError || is_subclass (exn_class e) TypeError.

(* src: fleet_kernel/founder_authority.py _positive *)
Definition positive_ (value : json) (field : string) : res Z :=
  match py_int value with
  | Err e => if bad_value e then refuse (field +:+ " is not an integer") else Err e
  | Ok result =>
      raise_if result <=? 0 with FounderAuthorityError, (field +:+ " must be positive") ;;
      Ok result
  end.

(* src: fleet_kernel/founder_authority.py _timestamp *)
Definition timestamp_ `{IsoTime} (value : json) (field : string) : res string :=
  let! text := required_ value field in
  match fromisoformat (replace "Z" "+00:00" text) with
  | None => refuse (field +:+ " is not an ISO timestamp")
  | Some parsed =>
      require aware parsed else FounderAuthorityError, (field +:+ " must be timezone-aware") ;;
      let! u := dt_to_utc parsed in
      Ok (replace "+00:00" "Z" (isoformat u))
  end.

(** [json.loads(json.dumps(value, sort_keys=True, ...))] of a decoded value is
    that value with its keys sorted. *)
(* src: fleet_kernel/founder_authority.py _canonical_mapping *)
Definition canonical_mapping (value : json) (field : string) : res dict :=
  match value with
  | JObj ((_ :: _) as kvs) =>
      require finite value && ints_ok value
        else FounderAuthorityError, (field +:+ " is not canonical JSON") ;;
      match sort_keys (JObj kvs) with JObj d => Ok d | _ => Ok kvs end
  | _ => refuse (field +:+ " must be a non-empty object")
  end.

(* src: fleet_kernel/founder_authority.py _closed *)
Definition closed_ (value : json) (field : string) (keys : list string) : res dict :=
  let! result := canonical_mapping value field in
  let missing := sort_strs (without keys result.*1) in
  let extra := sort_strs (without result.*1 keys) in
  raise_if negb (bool_decide (missing = [])) || negb (bool_decide (extra = []))
    with FounderAuthorityError, (field +:+ " has wrong keys (missing=" +:+ strs_repr missing
      +:+ ", extra=" +:+ strs_repr extra +:+ ")") ;;
  Ok result.

(** [d[key]], for a key known to be there, and [d.get(key)]. *)
Definition at_ (d : dict) (key : string) : json := match dict_get key d with Some v => v | None => JNull end.

(** [for field in fields: check(d[field], prefix + field)]. *)
Definition all_fields {A} (check : json -> string -> res A) (d : dict) (prefix : string) (fields : list string) : res unit :=
  (fix go l := match l with [] => Ok tt | f :: r => let! _ := check (at_ d f) (prefix +:+ f) in go r end) fields.
Definition digests (d : dict) (fields : list string) : res unit :=
  all_fields (fun v f => digest_ v f SHA256) d "" fields.

(** [json.loads(raw)] with the decoding errors turned into [msg]. *)
Definition loads_or_refuse `{JsonLimits} (raw msg : string) : res json :=
  match loads_bytes (chars raw) with
  | Err e => if is_subclass (exn_class e) UnicodeDecodeError || is_subclass (exn_class e) JSONDecodeError
             then refuse msg else Err e
  | Ok j => Ok j
  end.
Definition strs (l : list string) : json := JArr (map JStr l).
Definition is_str (j : json) (s : string) : bool := py_eq j (JStr s).
Definition is_false (j : json) : bool := match j with JBool false => true | _ => false end.
Definition is_true (j : json) : bool := match j with JBool true => true | _ => false end.

(** ** Mandates *)

(** What the three classes hold; [artifact] as [_closed] returned it. *)
(* src: fleet_kernel/founder_authority.py FounderActivationMandate *)
Record Mandate := {
  md_mandate_id : string;
  md_artifact : dict;
  md_artifact_sha256 : string;
  md_artifact_bytes : string;
}.

(* src: fleet_kernel/founder_authority.py FounderActivationMandate.authority_ref *)
Definition authority_ref (m : Mandate) : string := "founder://activation-mandate/" +:+ md_mandate_id m.

Section mandates.
  Context `{Digest} `{IsoTime} `{JsonLimits}.
  Variable cfg : configuration.

Definition pin (name : string) : option string := deployment_binding cfg name.

(** The conditions of [FounderActivationMandate.__post_init__]. *)
(* src: fleet_kernel/founder_authority.py FounderActivationMandate.__post_init__@17-35 *)
Definition mandate_is_exact (mandate_id : string) (artifact : dict) (raw_artifact artifact_sha256 : json)
    (raw_sha256 : string) : bool :=
  let get := at_ artifact in
  is_str (get "schema") MANDATE_SCHEMA
  && bool_decide (Some mandate_id = pin "MANDATE_ID")
  && py_eq (get "mandate_id") (opt_json (pin "MANDATE_ID"))
  && is_str (get "status") "active"
  && py_eq (get "issuer") (opt_json (authority_issuer cfg))
  && is_str (get "source_kind") "direct_founder_instruction"
  && py_eq (get "quoted_instruction") (opt_json (pin "MANDATE_QUOTED_INSTRUCTION"))
  && py_eq (get "recorded_at") (opt_json (pin "MANDATE_RECORDED_AT"))
  && py_eq (get "governing_canon") (opt_json (pin "MANDATE_GOVERNING_CANON"))
  && py_eq (get "executable_plan") (opt_json (pin "MANDATE_EXECUTABLE_PLAN"))
  && py_eq (get "ordered_scope") (strs MANDATE_ORDERED_SCOPE)
  && py_eq (get "constraints") (strs MANDATE_CONSTRAINTS)
  && is_false (get "requires_additional_founder_go_within_scope")
  && py_eq (get "terminal_condition") MANDATE_TERMINAL_CONDITION
  && py_eq raw_artifact (JObj artifact)
  && bool_decide (Some raw_sha256 = pin "MANDATE_ARTIFACT_SHA256")
  && py_eq artifact_sha256 (opt_json (pin "MANDATE_ARTIFACT_SHA256")).

(** [artifact_bytes] is [None] for an object that is not [bytes]. *)
(* src: fleet_kernel/founder_authority.py FounderActivationMandate.__post_init__ *)
Definition FounderActivationMandate (mandate_id artifact artifact_sha256 : json) (artifact_bytes : option string)
    : res Mandate :=
  let! mandate_id := required_ mandate_id "mandate_id" in
  require re_fullmatch false MANDATE_ID_PATTERN mandate_id
    else FounderAuthorityError, "mandate_id is invalid" ;;
  let! artifact := closed_ artifact "mandate artifact" MANDATE_KEYS in
  match artifact_bytes with
  | None => refuse "mandate artifact bytes are required"
  | Some raw =>
      let! raw_artifact := loads_or_refuse raw "mandate artifact bytes are not valid JSON" in
      require mandate_is_exact mandate_id artifact raw_artifact artifact_sha256 (digest raw)
        else FounderAuthorityError, "founder activation mandate scope or provenance is not exact" ;;
      let! _ := timestamp_ (at_ artifact "recorded_at") "recorded_at" in
      let! sha := digest_ artifact_sha256 "mandate artifact SHA-256" SHA256 in
      Ok {| md_mandate_id := mandate_id; md_artifact := artifact; md_artifact_sha256 := sha;
            md_artifact_bytes := raw |}
  end.

(** [from_bytes] of the three classes, [build] the constructor. *)
Definition from_bytes_with (build : json -> json -> json -> option string -> res Mandate) (name : string) (raw : string)
    : res Mandate :=
  let! artifact := loads_or_refuse raw (name +:+ " artifact is not valid JSON") in
  match artifact with
  | JObj kvs =>
      build (JStr match dict_get "mandate_id" kvs with Some v => py_str v | None => of_chars [] end)
        artifact (JStr (digest raw)) (Some raw)
  | _ => refuse (name +:+ " artifact must be an object")
  end.

(* src: fleet_kernel/founder_authority.py FounderActivationMandate.from_bytes *)
Definition mandate_from_bytes (raw : string) : res Mandate := from_bytes_with FounderActivationMandate "mandate" raw.

(** *** Phase 4 *)

(** The loop over [ordered_roles]. *)
(* src: fleet_kernel/founder_authority.py Phase4FounderActivationMandate.__post_init__@77-109 *)
Fixpoint check_roles (index : Z) (roles deployments workers : list string) (items : list json) : res unit :=
  match items with
  | [] => Ok tt
  | item :: rest =>
      let! role := closed_ item ("ordered_roles[" +:+ str_Z index +:+ "]") ["role_type"; "deployment_id"; "worker_id"] in
      let! role_type := required_ (at_ role "role_type") "role_type" in
      let! deployment_id := required_ (at_ role "deployment_id") "deployment_id" in
      let! worker_id := uuid_ (at_ role "worker_id") "worker_id" in
      require existsb (String.eqb role_type) PHASE4_COMPANY_ROLE_TYPES
        else FounderAuthorityError, "ordered_roles contains a non-Phase-4 role" ;;
      raise_if existsb (String.eqb role_type) roles || existsb (String.eqb deployment_id) deployments
               || existsb (String.eqb worker_id) workers
        with FounderAuthorityError, "ordered_roles reuses a role, deployment, or worker" ;;
      check_roles (index + 1) (role_type :: roles) (deployment_id :: deployments) (worker_id :: workers) rest
  end.

(** [not isinstance(item, str) or not item.strip()], and no two equal. *)
Definition unique_strings (j : json) : bool :=
  match j with
  | JArr ((_ :: _) as l) =>
      forallb (fun i => match i with JStr s => nonblank s | _ => false end) l && bool_decide (NoDup (map py_str l))
  | _ => false
  end.

Fixpoint check_string_arrays (artifact : dict) (fields : list string) : res unit :=
  match fields with
  | [] => Ok tt
  | f :: rest =>
      require unique_strings (at_ artifact f)
        else FounderAuthorityError, (f +:+ " must be a non-empty unique string array") ;;
      check_string_arrays artifact rest
  end.

(* src: fleet_kernel/founder_authority.py Phase4FounderActivationMandate.__post_init__@22-36 *)
Definition check_provenance (schema mandate_id : string) (artifact : dict) (message : string) : res unit :=
  let get := at_ artifact in
  require is_str (get "schema") schema && is_str (get "mandate_id") mandate_id && is_str (get "status") "active"
          && py_eq (get "issuer") (opt_json (authority_issuer cfg))
          && is_str (get "source_kind") "direct_founder_instruction"
    else FounderAuthorityError, message ;;
  let! company := company_id cfg in
  require is_str (get "company_id") company && is_str (get "host_kind") "macbook"
    else FounderAuthorityError, message ;;
  Ok tt.

Definition is_bool (j : json) : bool := match j with JBool _ => true | _ => false end.

(* src: fleet_kernel/founder_authority.py Phase4FounderActivationMandate.__post_init__@37-72 *)
Definition check_subjects (artifact : dict) : res unit :=
  let! _ := required_ (at_ artifact "quoted_instruction") "quoted_instruction" in
  let! _ := timestamp_ (at_ artifact "recorded_at") "recorded_at" in
  let! governing := closed_ (at_ artifact "governing_canon") "governing_canon" ["path"; "sha256"] in
  let! _ := required_ (at_ governing "path") "governing_canon.path" in
  let! _ := digest_ (at_ governing "sha256") "governing_canon.sha256" SHA256 in
  let! plan := closed_ (at_ artifact "executable_plan") "executable_plan" ["path"; "commit_sha"; "tree_sha"] in
  let! _ := required_ (at_ plan "path") "executable_plan.path" in
  let! _ := digest_ (at_ plan "commit_sha") "executable_plan.commit_sha" GIT_SHA in
  let! _ := digest_ (at_ plan "tree_sha") "executable_plan.tree_sha" GIT_SHA in
  let! preserved := closed_ (at_ artifact "preserved_live_subject") "preserved_live_subject"
    ["deployment_id"; "package_sha256"; "admission_epoch"; "process_id"; "preservation_rule"] in
  let! scribe := scribe_deployment_id cfg in
  require is_str (at_ preserved "deployment_id") scribe
    else FounderAuthorityError, "Phase-4 mandate must preserve the configured Scribe deployment" ;;
  let! _ := digest_ (at_ preserved "package_sha256") "preserved_live_subject.package_sha256" SHA256 in
  let! _ := positive_ (at_ preserved "admission_epoch") "preserved_live_subject.admission_epoch" in
  let! pid := positive_ (at_ preserved "process_id") "preserved_live_subject.process_id" in
  raise_if pid <=? 1 with FounderAuthorityError, "preserved_live_subject.process_id is invalid" ;;
  let! _ := required_ (at_ preserved "preservation_rule") "preserved_live_subject.preservation_rule" in
  Ok tt.

(* src: fleet_kernel/founder_authority.py Phase4FounderActivationMandate.__post_init__@122-155 *)
Definition check_terminal (artifact : dict) : res unit :=
  let! terminal := closed_ (at_ artifact "terminal_condition") "terminal_condition"
    ["completion_rule"; "terminal_status"; "authorization_valid_after_terminal"; "recovery_only_contract"] in
  let! _ := required_ (at_ terminal "completion_rule") "terminal_condition.completion_rule" in
  require is_str (at_ terminal "terminal_status") "completed"
    else FounderAuthorityError, "Phase-4 terminal status must be completed" ;;
  require is_false (at_ terminal "authorization_valid_after_terminal")
    else FounderAuthorityError, "Phase-4 authority must terminate at completion" ;;
  let! recovery := closed_ (at_ terminal "recovery_only_contract") "terminal_condition.recovery_only_contract"
    ["same_role"; "same_deployment"; "same_release"; "same_host"; "same_authority_root"; "monotonic_epochs_only"] in
  require forallb (fun kv => is_true kv.2) recovery
    else FounderAuthorityError, "Phase-4 recovery-only contract must preserve every equality axis" ;;
  let! rollback := closed_ (at_ artifact "rollback_policy") "rollback_policy"
    ["per_role_target"; "fence_order"; "proof_required"] in
  all_fields required_ rollback "rollback_policy." rollback.*1.

(* src: fleet_kernel/founder_authority.py Phase4FounderActivationMandate.__post_init__ *)
Definition Phase4FounderActivationMandate (mandate_id artifact artifact_sha256 : json) (artifact_bytes : option string)
    : res Mandate :=
  let! mandate_id := required_ mandate_id "mandate_id" in
  require re_fullmatch false MANDATE_ID_PATTERN mandate_id
    else FounderAuthorityError, "Phase-4 mandate_id is invalid" ;;
  let! artifact := closed_ artifact "Phase-4 mandate artifact" PHASE4_MANDATE_KEYS in
  match artifact_bytes with
  | None => refuse "Phase-4 mandate artifact bytes are required"
  | Some raw =>
      let! raw_artifact := loads_or_refuse raw "Phase-4 mandate artifact bytes are not valid JSON" in
      require py_eq raw_artifact (JObj artifact) && is_str artifact_sha256 (digest raw)
        else FounderAuthorityError, "Phase-4 mandate artifact bytes or digest are not exact" ;;
      let! _ := check_provenance PHASE4_MANDATE_SCHEMA mandate_id artifact
                  "Phase-4 mandate identity or provenance is not exact" in
      require is_bool (at_ artifact "requires_additional_founder_go_within_scope")
        else FounderAuthorityError, "Phase-4 mandate identity or provenance is not exact" ;;
      let! _ := check_subjects artifact in
      match at_ artifact "ordered_roles" with
      | JArr ((_ :: _) as items) =>
          let! _ := check_roles 0 [] [] [] items in
          let! _ := check_string_arrays artifact ["ordered_scope"; "constraints"; "receipt_requirements"] in
          let! _ := check_terminal artifact in
          let! sha := digest_ artifact_sha256 "Phase-4 mandate artifact SHA-256" SHA256 in
          Ok {| md_mandate_id := mandate_id; md_artifact := artifact; md_artifact_sha256 := sha;
                md_artifact_bytes := raw |}
      | _ => refuse "ordered_roles must be a non-empty array"
      end
  end.

(* src: fleet_kernel/founder_authority.py Phase4FounderActivationMandate.require_recordable *)
Definition phase4_require_recordable (self : Mandate) : res unit :=
  match pin "PHASE4_MANDATE_ID", pin "PHASE4_MANDATE_ARTIFACT_SHA256" with
  | Some id, Some sha =>
      require (md_mandate_id self =? id)%string && (md_artifact_sha256 self =? sha)%string
        else FounderAuthorityError, "Phase-4 activation mandate does not match the pinned artifact" ;;
      Ok tt
  | _, _ => refuse "Phase-4 activation mandate identity is UNSET"
  end.

(* src: fleet_kernel/founder_authority.py Phase4FounderActivationMandate.from_bytes *)
Definition phase4_from_bytes (raw : string) : res Mandate :=
  from_bytes_with Phase4FounderActivationMandate "Phase-4 mandate" raw.

(** *** Utility *)

(* src: fleet_kernel/founder_authority.py UtilityFounderActivationMandate.__post_init__ *)
Definition UtilityFounderActivationMandate (mandate_id artifact artifact_sha256 : json) (artifact_bytes : option string)
    : res Mandate :=
  let! mandate_id := required_ mandate_id "mandate_id" in
  require bool_decide (Some mandate_id = pin "UTILITY_MANDATE_ID")
    else FounderAuthorityError, "Utility mandate_id is invalid" ;;
  let! artifact := closed_ artifact "Utility mandate artifact" PHASE4_MANDATE_KEYS in
  match artifact_bytes with
  | None => refuse "Utility mandate artifact bytes are required"
  | Some raw =>
      let! raw_artifact := loads_or_refuse raw "Utility mandate artifact bytes are not valid JSON" in
      require py_eq raw_artifact (JObj artifact) && is_str artifact_sha256 (digest raw)
        else FounderAuthorityError, "Utility mandate artifact bytes or digest are not exact" ;;
      let! _ := check_provenance UTILITY_MANDATE_SCHEMA mandate_id artifact
                  "Utility mandate identity or provenance is not exact" in
      match at_ artifact "ordered_roles" with
      | JArr [item] =>
          let! role := closed_ item "ordered_roles[0]" ["role_type"; "deployment_id"; "worker_id"] in
          require is_str (at_ role "role_type") "utility"
                  && py_eq (at_ role "deployment_id") (opt_json (pin "UTILITY_DEPLOYMENT_ID"))
                  && bool_decide (Some (py_str (at_ role "worker_id")) = pin "UTILITY_WORKER_ID")
            else FounderAuthorityError, "Utility mandate role/deployment/worker is not exact" ;;
          let! sha := digest_ artifact_sha256 "Utility mandate artifact SHA-256" SHA256 in
          Ok {| md_mandate_id := mandate_id; md_artifact := artifact; md_artifact_sha256 := sha;
                md_artifact_bytes := raw |}
      | _ => refuse "Utility mandate must name exactly one role"
      end
  end.

(* src: fleet_kernel/founder_authority.py UtilityFounderActivationMandate.require_recordable *)
Definition utility_require_recordable (self : Mandate) : res unit :=
  require bool_decide (Some (md_mandate_id self) = pin "UTILITY_MANDATE_ID")
          && bool_decide (Some (md_artifact_sha256 self) = pin "UTILITY_MANDATE_ARTIFACT_SHA256")
    else FounderAuthorityError, "Utility activation mandate does not match the pinned artifact" ;;
  Ok tt.

(* src: fleet_kernel/founder_authority.py UtilityFounderActivationMandate.from_bytes *)
Definition utility_from_bytes (raw : string) : res Mandate :=
  from_bytes_with UtilityFounderActivationMandate "Utility mandate" raw.

(** *** From a path *)

Definition read_path (fs : string -> file_read) (path : string) : res string :=
  match fs path with Bytes raw => Ok raw | _ => Err (Exn OSError path) end.

(* src: fleet_kernel/founder_authority.py FounderActivationMandate.from_path *)
Definition mandate_from_path (fs : string -> file_read) (path : string) : res Mandate :=
  let! raw := read_path fs path in mandate_from_bytes raw.

(* src: fleet_kernel/founder_authority.py Phase4FounderActivationMandate.from_path *)
Definition phase4_from_path (fs : string -> file_read) (path : string) : res Mandate :=
  raise_if negb (is_absolute path) || has_dotdot path
    with FounderAuthorityError, "Phase-4 mandate path must be absolute and traversal-free" ;;
  let! raw := read_path fs (posix path) in phase4_from_bytes raw.

(* src: fleet_kernel/founder_authority.py UtilityFounderActivationMandate.from_path *)
Definition utility_from_path (fs : string -> file_read) (path : string) : res Mandate :=
  raise_if negb (is_absolute path) || has_dotdot path
    with FounderAuthorityError, "Utility mandate path must be absolute and traversal-free" ;;
  let! raw := read_path fs (posix path) in utility_from_bytes raw.

(* src: fleet_kernel/founder_authority.py load_company_role_mandate *)
Definition load_company_role_mandate (fs : string -> file_read) (path role_type : string) : res Mandate :=
  if (role_type =? "utility")%string then utility_from_path fs path else phase4_from_path fs path.

(** [issued_at]; [local] is [astimezone] of a naive datetime. *)
(* src: fleet_kernel/founder_authority.py FounderActivationMandate.issued_at *)
Definition issued_at (local : datetime -> res datetime) (m : Mandate) : res datetime :=
  match fromisoformat (replace "Z" "+00:00" (py_str (at_ (md_artifact m) "recorded_at"))) with
  | Some d => if aware d then dt_to_utc d else local d
  | None => Err (Exn ValueError "Invalid isoformat string")
  end.
End mandates.

(** ** Step subjects *)

(* src: fleet_kernel/founder_authority.py _STABLE_RUNTIME_BINDING_KEYS *)
Definition STABLE_RUNTIME_BINDING_KEYS : list string :=
  ["approval_id"; "runtime_host_identity_sha256"; "runtime_executable_sha256"].
(* src: fleet_kernel/founder_authority.py _COMMON_BINDING_KEYS *)
Definition COMMON_BINDING_KEYS : list string := STABLE_RUNTIME_BINDING_KEYS ++ ["runtime_boot_id_sha256"].
(* src: fleet_kernel/founder_authority.py _STEP_BINDING_KEYS *)
Definition STEP_BINDING_KEYS (s : ActivationStep) : list string :=
  match s with
  | FINAL_RELEASE_INSTALL => COMMON_BINDING_KEYS
      ++ ["review_receipt_sha256"; "installation_root_sha256"; "installer_plan_sha256"]
  | PRIVILEGE_CLEANUP => COMMON_BINDING_KEYS
      ++ ["sudoers_rule_sha256"; "cleanup_plan_sha256"; "absence_probe_plan_sha256"]
  | SHADOW_MONDAY_1 | SHADOW_MONDAY_2 | SHADOW_MONDAY_3 => COMMON_BINDING_KEYS
      ++ ["shadow_ordinal"; "service_date"; "shadow_input_sha256"; "shadow_plan_sha256"; "fence_mode"]
  | SUPERVISED_LIVE_UPLOAD => COMMON_BINDING_KEYS
      ++ ["operator_approval_id"; "objective_id"; "run_id"; "attempt_id"; "idempotency_key";
          "effect_payload_sha256"; "prepared_output_sha256"; "legacy_authority_sha256"; "mode"]
  | MINI_CUTOVER => STABLE_RUNTIME_BINDING_KEYS
      ++ ["migration_id"; "legacy_disable_receipt_sha256"; "host_attestation_sha256"; "authority_root_sha256";
          "cutover_pointer_before_sha256"; "cutover_pointer_after_sha256"]
  | MINI_VERIFICATION => COMMON_BINDING_KEYS
      ++ ["migration_id"; "canary_receipt_sha256"; "real_workflow_receipt_sha256"; "reconciliation_receipt_sha256";
          "restart_receipt_sha256"; "rollback_receipt_sha256"; "final_transition_receipt_sha256"]
  | SCRIBE_ADMISSION => COMMON_BINDING_KEYS
      ++ ["admission_id"; "deployment_id"; "worker_id"; "worker_session_id"; "agent_release_sha256"; "task_id";
          "claude_session_id"; "process_id"; "process_start_fingerprint_sha256"; "admission_epoch";
          "lease_expires_at"; "runtime_executable_path"; "runtime_lock_path"; "authority_mode";
          "authority_root_admission_id"; "prior_admission_id"; "recovery_intent_id";
          "prior_rollback_receipt_sha256"; "restart_intent_sha256"]
  | SCRIBE_VERIFICATION => COMMON_BINDING_KEYS
      ++ ["admission_id"; "deployment_id"; "worker_id"; "admission_epoch"; "admission_receipt_sha256";
          "singleton_probe_sha256"; "persistence_probe_sha256"; "restart_probe_sha256"; "receipts_manifest_sha256"]
  end.

Definition state_of (l : list (string * string)) : dict := map (fun kv => (kv.1, JStr kv.2)) l.

(* src: fleet_kernel/founder_authority.py _PRE_STATES *)
Definition PRE_STATES (s : ActivationStep) : dict := state_of match s with
  | FINAL_RELEASE_INSTALL => [("release_state", "reviewed-held"); ("effect_state", "not-started")]
  | PRIVILEGE_CLEANUP => [("prior_step", "final-release-install"); ("nopasswd_rule", "present")]
  | SHADOW_MONDAY_1 => [("prior_step", "privilege-cleanup"); ("effect_state", "fenced")]
  | SHADOW_MONDAY_2 => [("prior_step", "shadow-monday-1"); ("effect_state", "fenced")]
  | SHADOW_MONDAY_3 => [("prior_step", "shadow-monday-2"); ("effect_state", "fenced")]
  | SUPERVISED_LIVE_UPLOAD =>
      [("prior_step", "privilege-cleanup"); ("upload_effect", "not-started"); ("submit_effect", "fenced")]
  | MINI_CUTOVER => [("prior_step", "supervised-live-upload"); ("restaurant_fleet_authority", "legacy-runtime");
      ("mini_kernel_authority", "installed-held")]
  | MINI_VERIFICATION => [("prior_step", "mini-cutover"); ("restaurant_fleet_authority", "mini-kernel");
      ("verification_state", "unverified")]
  | SCRIBE_ADMISSION => [("company_fleet", "active"); ("scribe_authority", "absent")]
  | SCRIBE_VERIFICATION => [("prior_step", "scribe-admission"); ("scribe_authority", "live");
      ("verification_state", "unverified")]
  end.

(** [scribe] is the deployment id read when the module is imported. *)
(* src: fleet_kernel/founder_authority.py _POST_STATES *)
Definition POST_STATES (scribe : string) (s : ActivationStep) : dict := state_of match s with
  | FINAL_RELEASE_INSTALL => [("release_state", "installed-held"); ("effect_state", "completed")]
  | PRIVILEGE_CLEANUP => [("step_state", "completed"); ("nopasswd_rule", "absent")]
  | SHADOW_MONDAY_1 | SHADOW_MONDAY_2 | SHADOW_MONDAY_3 => [("step_state", "completed"); ("external_effect", "none")]
  | SUPERVISED_LIVE_UPLOAD => [("step_state", "completed-never-submit"); ("external_effect", "upload-completed");
      ("submission_effect", "none")]
  | MINI_CUTOVER => [("restaurant_fleet_authority", "mini-kernel"); ("legacy_runtime", "disabled")]
  | MINI_VERIFICATION => [("restaurant_fleet_authority", "mini-kernel"); ("canary", "passed");
      ("real_workflow", "reconciled"); ("reconciliation", "passed"); ("restart", "passed"); ("rollback", "passed");
      ("recutover", "passed"); ("final_route", "kernel")]
  | SCRIBE_ADMISSION => [("company_fleet", "active"); ("scribe_authority", "live"); ("deployment_id", scribe)]
  | SCRIBE_VERIFICATION => [("scribe_authority", "live"); ("singleton", "verified"); ("persistence", "verified");
      ("restart", "passed"); ("receipts", "verified")]
  end.

(* src: fleet_kernel/founder_authority.py _STEP_ROLES *)
Definition STEP_ROLES (s : ActivationStep) : string :=
  match s with
  | SUPERVISED_LIVE_UPLOAD => "browser_navigator"
  | SCRIBE_ADMISSION | SCRIBE_VERIFICATION => "scribe"
  | _ => "ccto"
  end.

(* src: fleet_kernel/founder_authority.py ActivationStepSubject *)
Record ActivationStepSubject := {
  as_mandate_id : string;
  as_step : ActivationStep;
  as_tenant_id : string;
  as_role : string;
  as_release_commit_sha : string;
  as_release_tree_sha : string;
  as_release_digest_sha256 : string;
  as_package_id : uuid;
  as_package_sha256 : string;
  as_attempt_key : string;
  as_pre_state : dict;
  as_post_state : dict;
  as_activation_binding : dict;
}.

(** The arguments of the constructor: a step is a member or its value, a
    package id a UUID or something [str] makes one of. *)
Record subject_args := {
  sa_mandate_id : json;
  sa_step : ActivationStep + json;
  sa_tenant_id : json;
  sa_role : json;
  sa_release_commit_sha : json;
  sa_release_tree_sha : json;
  sa_release_digest_sha256 : json;
  sa_package_id : uuid + json;
  sa_package_sha256 : json;
  sa_attempt_key : json;
  sa_pre_state : json;
  sa_post_state : json;
  sa_activation_binding : json;
}.

Section subjects.
  Context `{Digest} `{IsoTime} `{IsoDate}.
  Variable cfg : configuration.

(** [date.weekday()] of a day number: day 0, 0001-01-01, was a Monday. *)
Definition weekday (day : Z) : Z := day mod 7.

Definition safe_absolute (value : json) (field : string) : res unit :=
  let! path := required_ value field in
  raise_if negb (is_absolute path) || has_dotdot path
    with FounderAuthorityError, (field +:+ " is unsafe") ;;
  Ok tt.

Definition shadow_ordinal (s : ActivationStep) : Z :=
  match s with SHADOW_MONDAY_2 => 2 | SHADOW_MONDAY_3 => 3 | _ => 1 end.

(* src: fleet_kernel/founder_authority.py ActivationStepSubject._validate_binding@20-43 *)
Definition validate_shadow (step : ActivationStep) (binding : dict) : res unit :=
  let! ordinal := positive_ (at_ binding "shadow_ordinal") "shadow_ordinal" in
  raise_if negb (ordinal =? shadow_ordinal step)
    with FounderAuthorityError, "shadow ordinal does not match its mandate step" ;;
  let! text := required_ (at_ binding "service_date") "service_date" in
  match date_fromisoformat text with
  | None => refuse "service_date is invalid"
  | Some service_date =>
      raise_if negb (weekday service_date =? 0)
        with FounderAuthorityError, "shadow service_date must be a real Monday" ;;
      let! _ := digests binding ["shadow_input_sha256"; "shadow_plan_sha256"] in
      require is_str (at_ binding "fence_mode") "shadow-no-effect"
        else FounderAuthorityError, "shadow step must remain no-effect" ;;
      Ok tt
  end.

(* src: fleet_kernel/founder_authority.py ActivationStepSubject._validate_binding@44-56 *)
Definition validate_upload (binding : dict) : res unit :=
  let! _ := all_fields uuid_ binding "" ["operator_approval_id"; "objective_id"; "run_id"] in
  let! _ := required_ (at_ binding "attempt_id") "attempt_id" in
  let! key := required_ (at_ binding "idempotency_key") "idempotency_key" in
  raise_if (List.length (chars key) <? 16)%nat
    with FounderAuthorityError, "upload idempotency_key is too short" ;;
  let! _ := digests binding ["effect_payload_sha256"; "prepared_output_sha256"; "legacy_authority_sha256"] in
  require is_str (at_ binding "mode") "never-submit"
    else FounderAuthorityError, "supervised upload mandate is never-submit only" ;;
  Ok tt.

(* src: fleet_kernel/founder_authority.py ActivationStepSubject._validate_binding@57-69 *)
Definition validate_cutover (binding : dict) : res unit :=
  let! _ := uuid_ (at_ binding "migration_id") "migration_id" in
  let! _ := digests binding ["legacy_disable_receipt_sha256"; "host_attestation_sha256"; "authority_root_sha256";
                             "cutover_pointer_before_sha256"; "cutover_pointer_after_sha256"] in
  raise_if py_eq (at_ binding "cutover_pointer_before_sha256") (at_ binding "cutover_pointer_after_sha256")
    with FounderAuthorityError, "Mini cutover pointer would not change" ;;
  Ok tt.

Definition recovery_fields : list string :=
  ["prior_admission_id"; "recovery_intent_id"; "prior_rollback_receipt_sha256"; "restart_intent_sha256"].
Definition is_null (j : json) : bool := match j with JNull => true | _ => false end.

(* src: fleet_kernel/founder_authority.py ActivationStepSubject._validate_binding@79-142 *)
Definition validate_admission (binding : dict) : res unit :=
  let get := at_ binding in
  let! _ := all_fields uuid_ binding "" ["admission_id"; "worker_id"; "worker_session_id"] in
  let! scribe := scribe_deployment_id cfg in
  require is_str (get "deployment_id") scribe
    else FounderAuthorityError, "only the configured Scribe deployment may be admitted" ;;
  let! _ := digests binding ["agent_release_sha256"] in
  let! _ := required_ (get "task_id") "task_id" in
  let! _ := required_ (get "claude_session_id") "claude_session_id" in
  let! pid := positive_ (get "process_id") "process_id" in
  raise_if pid <=? 1 with FounderAuthorityError, "Scribe process_id is invalid" ;;
  let! _ := digests binding ["process_start_fingerprint_sha256"] in
  let! _ := positive_ (get "admission_epoch") "admission_epoch" in
  let! _ := timestamp_ (get "lease_expires_at") "lease_expires_at" in
  let! _ := safe_absolute (get "runtime_executable_path") "runtime_executable_path" in
  let! _ := safe_absolute (get "runtime_lock_path") "runtime_lock_path" in
  let! root := uuid_ (get "authority_root_admission_id") "authority_root_admission_id" in
  let! admission := uuid_ (get "admission_id") "admission_id" in
  if is_str (get "authority_mode") "initial-local-activation" then
    raise_if negb (root =? admission)%string || existsb (fun f => negb (is_null (get f))) recovery_fields
      with FounderAuthorityError, "initial Scribe admission has recovery authority residue" ;;
    Ok tt
  else if is_str (get "authority_mode") "standing-mandate-recovery" then
    raise_if (root =? admission)%string
      with FounderAuthorityError, "recovered Scribe admission cannot be its authority root" ;;
    let! _ := uuid_ (get "prior_admission_id") "prior_admission_id" in
    let! _ := uuid_ (get "recovery_intent_id") "recovery_intent_id" in
    digests binding ["prior_rollback_receipt_sha256"; "restart_intent_sha256"]
  else refuse "Scribe admission authority_mode is invalid".

(* src: fleet_kernel/founder_authority.py ActivationStepSubject._validate_binding@143-154 *)
Definition validate_verification (binding : dict) : res unit :=
  let! _ := uuid_ (at_ binding "admission_id") "admission_id" in
  let! _ := uuid_ (at_ binding "worker_id") "worker_id" in
  let! scribe := scribe_deployment_id cfg in
  require is_str (at_ binding "deployment_id") scribe
    else FounderAuthorityError, "only the configured Scribe deployment may be verified" ;;
  let! _ := positive_ (at_ binding "admission_epoch") "admission_epoch" in
  digests binding ["admission_receipt_sha256"; "singleton_probe_sha256"; "persistence_probe_sha256";
                   "restart_probe_sha256"; "receipts_manifest_sha256"].

(* src: fleet_kernel/founder_authority.py ActivationStepSubject._validate_binding *)
Definition validate_binding (step : ActivationStep) (binding : dict) : res unit :=
  let! _ := uuid_ (at_ binding "approval_id") "approval_id" in
  let! _ := digests binding ["runtime_host_identity_sha256"; "runtime_executable_sha256"] in
  let! _ := match step with MINI_CUTOVER => Ok tt | _ => digests binding ["runtime_boot_id_sha256"] end in
  match step with
  | FINAL_RELEASE_INSTALL =>
      digests binding ["review_receipt_sha256"; "installation_root_sha256"; "installer_plan_sha256"]
  | PRIVILEGE_CLEANUP => digests binding ["sudoers_rule_sha256"; "cleanup_plan_sha256"; "absence_probe_plan_sha256"]
  | SHADOW_MONDAY_1 | SHADOW_MONDAY_2 | SHADOW_MONDAY_3 => validate_shadow step binding
  | SUPERVISED_LIVE_UPLOAD => validate_upload binding
  | MINI_CUTOVER => validate_cutover binding
  | MINI_VERIFICATION =>
      let! _ := uuid_ (at_ binding "migration_id") "migration_id" in
      digests binding ["canary_receipt_sha256"; "real_workflow_receipt_sha256"; "reconciliation_receipt_sha256";
                       "restart_receipt_sha256"; "rollback_receipt_sha256"; "final_transition_receipt_sha256"]
  | SCRIBE_ADMISSION => validate_admission binding
  | SCRIBE_VERIFICATION => validate_verification binding
  end.

Definition step_arg (s : ActivationStep + json) : res ActivationStep :=
  match s with
  | inl s => Ok s
  | inr j =>
      match (match j with JStr v => step_of v | _ => None end) with
      | Some s => Ok s
      | None => refuse "activation step is invalid"
      end
  end.
Definition package_arg (p : uuid + json) : res uuid :=
  match p with
  | inl u => Ok u
  | inr j => match uuid_parse (py_str j) with Some u => Ok u | None => refuse "package_id is invalid" end
  end.

(* src: fleet_kernel/founder_authority.py ActivationStepSubject.__post_init__ *)
Definition ActivationStepSubject_post_init (a : subject_args) : res ActivationStepSubject :=
  let! mandate_id := required_ (sa_mandate_id a) "mandate_id" in
  require re_fullmatch false MANDATE_ID_PATTERN mandate_id
    else FounderAuthorityError, "subject mandate_id is invalid" ;;
  let! step := step_arg (sa_step a) in
  let! tenant := required_ (sa_tenant_id a) "tenant_id" in
  require is_str (sa_role a) (STEP_ROLES step)
    else FounderAuthorityError, (step_value step +:+ " requires role " +:+ STEP_ROLES step) ;;
  let! commit := digest_ (sa_release_commit_sha a) "release_commit_sha" GIT_SHA in
  let! tree := digest_ (sa_release_tree_sha a) "release_tree_sha" GIT_SHA in
  let! release := digest_ (sa_release_digest_sha256 a) "release_digest_sha256" SHA256 in
  let! package_id := package_arg (sa_package_id a) in
  let! package_sha := digest_ (sa_package_sha256 a) "package_sha256" SHA256 in
  let! attempt := required_ (sa_attempt_key a) "attempt_key" in
  raise_if (List.length (chars attempt) <? 16)%nat
    with FounderAuthorityError, "attempt_key must be stable and at least 16 bytes" ;;
  let! pre := canonical_mapping (sa_pre_state a) "pre_state" in
  let! post := canonical_mapping (sa_post_state a) "post_state" in
  require py_eq (JObj pre) (JObj (PRE_STATES step)) && py_eq (JObj post) (JObj (POST_STATES (cf_scribe cfg) step))
    else FounderAuthorityError, (step_value step +:+ " pre/post state is incomplete or non-canonical") ;;
  let! binding := closed_ (sa_activation_binding a) "activation_binding" (STEP_BINDING_KEYS step) in
  let! _ := validate_binding step binding in
  Ok {| as_mandate_id := mandate_id; as_step := step; as_tenant_id := tenant; as_role := STEP_ROLES step;
        as_release_commit_sha := commit; as_release_tree_sha := tree; as_release_digest_sha256 := release;
        as_package_id := package_id; as_package_sha256 := package_sha; as_attempt_key := attempt;
        as_pre_state := pre; as_post_state := post; as_activation_binding := binding |}.

(* src: fleet_kernel/founder_authority.py ActivationStepSubject.exact *)
Definition exact_ (mandate_id : json) (step : ActivationStep) (tenant_id release_commit_sha release_tree_sha
    release_digest_sha256 : json) (package_id : uuid) (package_sha256 attempt_key activation_binding : json)
    : res ActivationStepSubject :=
  ActivationStepSubject_post_init {|
    sa_mandate_id := mandate_id; sa_step := inl step; sa_tenant_id := tenant_id; sa_role := JStr (STEP_ROLES step);
    sa_release_commit_sha := release_commit_sha; sa_release_tree_sha := release_tree_sha;
    sa_release_digest_sha256 := release_digest_sha256; sa_package_id := inl package_id;
    sa_package_sha256 := package_sha256; sa_attempt_key := attempt_key;
    sa_pre_state := JObj (PRE_STATES step); sa_post_state := JObj (POST_STATES (cf_scribe cfg) step);
    sa_activation_binding := activation_binding |}.

(* src: fleet_kernel/founder_authority.py ActivationStepSubject.canonical_payload *)
Definition canonical_payload (s : ActivationStepSubject) : json := JObj [
  ("schema", JStr SUBJECT_SCHEMA);
  ("mandate_id", JStr (as_mandate_id s));
  ("step", JStr (step_value (as_step s)));
  ("attempt_key", JStr (as_attempt_key s));
  ("tenant_id", JStr (as_tenant_id s));
  ("role", JStr (as_role s));
  ("release", JObj [("commit_sha", JStr (as_release_commit_sha s)); ("tree_sha", JStr (as_release_tree_sha s));
                    ("digest_sha256", JStr (as_release_digest_sha256 s))]);
  ("package", JObj [("id", JStr (uuid_str (as_package_id s))); ("sha256", JStr (as_package_sha256 s))]);
  ("pre_state", JObj (as_pre_state s));
  ("post_state", JObj (as_post_state s));
  ("activation_binding", JObj (as_activation_binding s))].

(** [_canonical_bytes] is the canonical text in UTF-8. *)
(* src: fleet_kernel/founder_authority.py ActivationStepSubject.sha256 *)
Definition subject_sha256 (s : ActivationStepSubject) : string := digest (dumps (C := utf8_codec) (canonical_payload s)).

(* src: fleet_kernel/founder_authority.py ActivationStepSubject.subject_ref *)
Definition subject_ref (s : ActivationStepSubject) : string :=
  "founder://activation-step/" +:+ as_mandate_id s +:+ "/" +:+ step_value (as_step s) +:+ "/" +:+ subject_sha256 s.

(* src: fleet_kernel/founder_authority.py ActivationStepSubject.approval_id *)
Definition subject_approval_id (s : ActivationStepSubject) : res uuid :=
  match uuid_parse (py_str (at_ (as_activation_binding s) "approval_id")) with
  | Some u => Ok u
  | None => Err (Exn ValueError "badly formed hexadecimal UUID string")
  end.
End subjects.

(** ** What the readers let through *)

Lemma required_ok v f s : required_ v f = Ok s -> v = JStr s.
Proof.
  unfold required_. destruct v; try done. cbv zeta. intros [G [= <-]]%raise_if_ok.
  apply orb_false_iff in G as [[_ G]%orb_false_iff _]. apply negb_false_iff, String.eqb_eq in G. by rewrite G.
Qed.

Lemma required_again s f v g : required_ v g = Ok s -> required_ (JStr s) f = Ok s.
Proof.
  intros E. pose proof (required_ok _ _ _ E) as ->. revert E. unfold required_. cbv zeta.
  rewrite !raise_if_ok. naive_solver.
Qed.

Lemma digest_ok v f p s : digest_ v f p = Ok s -> v = JStr s /\ p s = true.
Proof. unfold digest_. rewrite rbind_ok. intros (t & E & [? [= ->]]%require_ok). by apply required_ok in E. Qed.

Lemma digest_again v f p s g : digest_ v f p = Ok s -> digest_ (JStr s) g p = Ok s.
Proof.
  unfold digest_. rewrite !rbind_ok. intros (t & E & [? [= ->]]%require_ok).
  exists s. split; [by eapply required_again|]. by apply require_ok.
Qed.

Lemma is_str_ok j s : is_str j s = true <-> j = JStr s.
Proof.
  unfold is_str. split; [|intros ->; apply String.eqb_refl].
  destruct j as [| | | |x| | |]; try done; [by destruct x|]. by intros ->%String.eqb_eq.
Qed.

Lemma py_eq_str v s : py_eq v (JStr s) = true -> v = JStr s.
Proof. apply is_str_ok. Qed.

Lemma py_eq_opt v o : py_eq v (opt_json o) = true -> v = opt_json o.
Proof. destruct o as [s|]; [apply py_eq_str|]. destruct v as [| | | |x| | |]; try done. by destruct x. Qed.

(** Canonical entries: sorted at every depth, finite, with short integers. *)
Definition canonical (d : dict) : Prop :=
  d <> [] /\ sort_keys (JObj d) = JObj d /\ finite (JObj d) = true /\ ints_ok (JObj d) = true.

Lemma canonical_mapping_ok v f d : canonical_mapping v f = Ok d ->
  canonical d /\ sort_keys v = JObj d /\ exists kvs, v = JObj kvs /\ d.*1 ≡ₚ kvs.*1.
Proof.
  unfold canonical_mapping. destruct v as [| | | | | | |[|x kvs]]; try done. rewrite require_ok.
  intros [[Hf Hi]%andb_true_iff E]. set (v := JObj (x :: kvs)) in *.
  assert (ES : sort_keys v = JObj d) by (revert E; unfold v; cbn [sort_keys]; by intros [= <-]).
  assert (P : d.*1 ≡ₚ (x :: kvs).*1).
  { assert (ED : d = sort_pairs (map (fun kv => (kv.1, sort_keys kv.2)) (x :: kvs))).
    { revert ES. unfold v. cbn [sort_keys]. congruence. }
    rewrite ED. clear ED.
    assert (G : forall (l : dict), (sort_pairs l).*1 ≡ₚ l.*1).
    { assert (GI : forall k (j : json) l, (insert_key k j l).*1 ≡ₚ k :: l.*1).
      { intros k j l. induction l as [|[a y] l IH]; simpl; [done|]. destruct (key_leb _ _); simpl; [done|].
        rewrite IH. constructor. }
      induction l as [|[k j] l IH]; simpl; [done|]. by rewrite GI, IH. }
    rewrite G. simpl. by rewrite map_map. }
  split; [|eauto]. split; [|split; [|split]].
  - intros ->. apply Permutation_length in P. done.
  - by rewrite <- ES, sort_keys_idem.
  - rewrite <- ES, (all_sort_keys finite) by done. done.
  - rewrite <- ES, (all_sort_keys ints_ok) by done. done.
Qed.

Lemma canonical_again d f : canonical d -> canonical_mapping (JObj d) f = Ok d.
Proof.
  intros (N & S & Hf & Hi). unfold canonical_mapping. destruct d as [|x d]; [done|].
  rewrite Hf, Hi. cbn [andb]. by rewrite S.
Qed.

Lemma closed_ok v f keys d : closed_ v f keys = Ok d -> canonical d /\ d.*1 ⊆ keys /\ keys ⊆ d.*1.
Proof.
  unfold closed_. rewrite rbind_ok. intros (r & [C _]%canonical_mapping_ok & E). cbv zeta in E.
  apply raise_if_ok in E as [G [= ->]]. apply orb_false_iff in G as [G1 G2].
  apply negb_false_iff, bool_decide_eq_true, sort_strs_nil, without_nil in G1, G2. done.
Qed.

Lemma closed_again v f keys d g : closed_ v f keys = Ok d -> closed_ (JObj d) g keys = Ok d.
Proof.
  intros E. pose proof (closed_ok _ _ _ _ E) as (C & S1 & S2). unfold closed_.
  rewrite (canonical_again d g C). cbn [rbind]. cbv zeta.
  apply without_nil, sort_strs_nil in S1, S2. by rewrite S1, S2.
Qed.

(** *** States *)

Lemma dict_get_in (d : dict) k v : dict_get k d = Some v -> (k, v) ∈ d.
Proof.
  induction d as [|[a x] d IH]; simpl; [done|]. destruct (String.eqb_spec k a) as [->|]; [intros [= ->]; left|].
  intros E. right. auto.
Qed.

Lemma state_finite l : finite (JObj (state_of l)) = true /\ ints_ok (JObj (state_of l)) = true.
Proof. unfold state_of. split; cbn [finite ints_ok]; induction l as [|[k v] l IH]; simpl; done. Qed.

Lemma state_mapping (t : dict) f d : t <> [] -> (exists l, t = state_of l) -> sort_keys (JObj t) = JObj d ->
  canonical_mapping (JObj t) f = Ok d.
Proof.
  intros N [l Hl] E. destruct (state_finite l) as [Hf Hi]. rewrite <- Hl in Hf, Hi.
  unfold canonical_mapping. rewrite Hf, Hi. cbn [andb]. destruct t as [|x t]; [done|]. by rewrite E.
Qed.

(** An object with distinct keys that equals a table of strings is that table. *)
Lemma state_exact d l : canonical d -> NoDup d.*1 -> py_eq (JObj d) (JObj (state_of l)) = true ->
  sort_keys (JObj (state_of l)) = JObj d.
Proof.
  intros (_ & S & _ & _) ND E. cbn [py_eq] in E. apply andb_true_iff in E as [EL EA].
  apply Nat.eqb_eq in EL. rewrite forallb_forall in EA.
  assert (Sub : d ⊆ state_of l).
  { intros [k v] Hin. specialize (EA (k, v) ltac:(by apply list_elem_of_In)). cbn [fst snd] in EA.
    destruct (dict_get k (state_of l)) as [w|] eqn:G; [|done]. apply dict_get_in in G.
    assert (exists t, w = JStr t) as [t ->].
    { apply list_elem_of_In, in_map_iff in G as (kv & [= _ <-] & _). eauto. }
    by apply py_eq_str in EA as ->. }
  assert (P : d ≡ₚ state_of l).
  { apply submseteq_length_Permutation; [|lia]. apply NoDup_submseteq; [|done]. by eapply NoDup_fmap_1. }
  rewrite <- S. cbn [sort_keys]. f_equal. apply sort_pairs_perm.
  - by rewrite <- P.
  - rewrite map_map. cbn [fst]. by rewrite <- P.
Qed.

Lemma pre_not_nil step : PRE_STATES step <> [] /\ forall scribe, POST_STATES scribe step <> [].
Proof. by destruct step. Qed.
Lemma pre_state_of step : (exists l, PRE_STATES step = state_of l) /\ forall scribe, exists l, POST_STATES scribe step = state_of l.
Proof. unfold PRE_STATES, POST_STATES. eauto. Qed.

Lemma state_float_free l j d : JObj d = j -> py_eq (JObj d) (JObj (state_of l)) = true -> float_free j = true.
Proof.
  intros <- E. cbn [py_eq] in E. apply andb_true_iff in E as [_ EA]. cbn [float_free].
  rewrite forallb_forall in EA |- *. intros [k v] Hin. specialize (EA _ Hin). cbn [fst snd] in *.
  destruct (dict_get k (state_of l)) as [w|] eqn:G; [|done]. apply dict_get_in, list_elem_of_In, in_map_iff in G as (kv & [= _ <-] & _).
  by apply py_eq_str in EA as ->.
Qed.

(** *** A constructed subject *)

Section subject_facts.
  Context `{Digest} `{IsoTime} `{IsoDate}.
  Variable cfg : configuration.
  Implicit Types (s : ActivationStepSubject) (a : subject_args).

(** The arguments are dictionaries: no key twice. *)
Definition keys_of (j : json) : list string := match j with JObj kvs => kvs.*1 | _ => [] end.
Definition distinct_keys a : Prop := NoDup (keys_of (sa_pre_state a)) /\ NoDup (keys_of (sa_post_state a)).

(** What [__post_init__] leaves of a subject. *)
Record subject_exact s : Prop := {
  se_mandate : required_ (JStr (as_mandate_id s)) "mandate_id" = Ok (as_mandate_id s)
               /\ re_fullmatch false MANDATE_ID_PATTERN (as_mandate_id s) = true;
  se_tenant : required_ (JStr (as_tenant_id s)) "tenant_id" = Ok (as_tenant_id s);
  se_role : as_role s = STEP_ROLES (as_step s);
  se_commit : digest_ (JStr (as_release_commit_sha s)) "release_commit_sha" GIT_SHA = Ok (as_release_commit_sha s);
  se_tree : digest_ (JStr (as_release_tree_sha s)) "release_tree_sha" GIT_SHA = Ok (as_release_tree_sha s);
  se_release : digest_ (JStr (as_release_digest_sha256 s)) "release_digest_sha256" SHA256
               = Ok (as_release_digest_sha256 s);
  se_package : digest_ (JStr (as_package_sha256 s)) "package_sha256" SHA256 = Ok (as_package_sha256 s);
  se_attempt : required_ (JStr (as_attempt_key s)) "attempt_key" = Ok (as_attempt_key s)
               /\ (16 <= List.length (chars (as_attempt_key s)))%nat;
  se_pre : sort_keys (JObj (PRE_STATES (as_step s))) = JObj (as_pre_state s);
  se_post : sort_keys (JObj (POST_STATES (cf_scribe cfg) (as_step s))) = JObj (as_post_state s);
  se_states : py_eq (JObj (as_pre_state s)) (JObj (PRE_STATES (as_step s))) = true
              /\ py_eq (JObj (as_post_state s)) (JObj (POST_STATES (cf_scribe cfg) (as_step s))) = true;
  se_binding : closed_ (JObj (as_activation_binding s)) "activation_binding" (STEP_BINDING_KEYS (as_step s))
               = Ok (as_activation_binding s);
  se_valid : validate_binding cfg (as_step s) (as_activation_binding s) = Ok tt;
}.

Lemma constructed_exact a s : distinct_keys a -> ActivationStepSubject_post_init cfg a = Ok s -> subject_exact s.
Proof.
  intros [NP NQ] E. unfold ActivationStepSubject_post_init in E.
  apply rbind_ok in E as (m & Em & E). apply require_ok in E as [Pm E].
  apply rbind_ok in E as (step & _ & E). apply rbind_ok in E as (t & Et & E). apply require_ok in E as [_ E].
  apply rbind_ok in E as (c & Ec & E). apply rbind_ok in E as (tr & Etr & E). apply rbind_ok in E as (r & Er & E).
  apply rbind_ok in E as (p & _ & E). apply rbind_ok in E as (ps & Eps & E). apply rbind_ok in E as (k & Ek & E).
  apply raise_if_ok in E as [Lk E]. apply rbind_ok in E as (pre & Epre & E). apply rbind_ok in E as (post & Epost & E).
  apply require_ok in E as [Est E]. apply andb_true_iff in Est as [E1 E2].
  apply rbind_ok in E as (b & Eb & E). apply rbind_ok in E as ([] & Ev & [= <-]).
  apply Nat.ltb_ge in Lk.
  apply canonical_mapping_ok in Epre as (C1 & _ & kvs1 & K1 & P1), Epost as (C2 & _ & kvs2 & K2 & P2).
  rewrite K1 in NP. rewrite K2 in NQ.
  constructor; simpl; eauto using required_again, digest_again, closed_again.
  - apply state_exact; [done| |exact E1]. by rewrite P1.
  - apply state_exact; [done| |exact E2]. by rewrite P2.
Qed.

(** C? A subject is its own canonical form: rebuilding it from its fields with
    [exact], which supplies role and states itself, gives it back; so no
    construction yields a subject in another role or between other states. *)
Theorem subject_is_canonical a s :
  distinct_keys a -> ActivationStepSubject_post_init cfg a = Ok s ->
  exact_ cfg (JStr (as_mandate_id s)) (as_step s) (JStr (as_tenant_id s)) (JStr (as_release_commit_sha s))
    (JStr (as_release_tree_sha s)) (JStr (as_release_digest_sha256 s)) (as_package_id s)
    (JStr (as_package_sha256 s)) (JStr (as_attempt_key s)) (JObj (as_activation_binding s)) = Ok s.
Proof.
  intros D [[E1 P1] E2 E3 E4 E5 E6 E7 [E8 L8] E9 E10 [S1 S2] E11 E12]%(constructed_exact _ _ D).
  destruct (pre_not_nil (as_step s)) as [N1 N2].
  unfold exact_, ActivationStepSubject_post_init. cbn [sa_mandate_id sa_step sa_tenant_id sa_role
    sa_release_commit_sha sa_release_tree_sha sa_release_digest_sha256 sa_package_id sa_package_sha256
    sa_attempt_key sa_pre_state sa_post_state sa_activation_binding step_arg package_arg rbind].
  rewrite E1. cbn [rbind]. rewrite P1, E2. cbn [rbind].
  rewrite (proj2 (is_str_ok (JStr (STEP_ROLES (as_step s))) _) eq_refl), E4. cbn [rbind]. rewrite E5. cbn [rbind].
  rewrite E6. cbn [rbind]. rewrite E7. cbn [rbind]. rewrite E8. cbn [rbind].
  rewrite (proj2 (Nat.ltb_ge _ _) L8).
  destruct (pre_state_of (as_step s)) as [M1 M2].
  rewrite (state_mapping _ _ _ N1 M1 E9). cbn [rbind]. rewrite (state_mapping _ _ _ (N2 _) (M2 _) E10). cbn [rbind].
  rewrite S1, S2. cbn [andb]. rewrite E11. cbn [rbind]. rewrite E12. cbn [rbind]. rewrite <- E3. by destruct s.
Qed.

Lemma step_value_inj x y : step_value x = step_value y -> x = y.
Proof. by destruct x, y. Qed.

Lemma binding_sorted s : subject_exact s -> sort_keys (JObj (as_activation_binding s)) = JObj (as_activation_binding s).
Proof. intros X. by apply se_binding, closed_ok in X as [(_ & ? & _) _]. Qed.

Lemma payload_float_free s : subject_exact s -> float_free (JObj (as_activation_binding s)) = true ->
  float_free (sort_keys (canonical_payload s)) = true.
Proof.
  intros X F. apply float_free_sort. unfold canonical_payload. cbn [float_free forallb snd andb].
  pose proof (se_states s X) as [S1 S2]. unfold PRE_STATES in S1. unfold POST_STATES in S2.
  pose proof (state_float_free _ _ _ eq_refl S1) as F1. pose proof (state_float_free _ _ _ eq_refl S2) as F2.
  cbn [float_free] in F, F1, F2. by rewrite F1, F2, F.
Qed.

(** The entries of the sorted payload, at the positions the keys sort to. *)
Lemma payload_sorted s : subject_exact s ->
  sort_keys (canonical_payload s) = JObj [
    ("activation_binding", JObj (as_activation_binding s)); ("attempt_key", JStr (as_attempt_key s));
    ("mandate_id", JStr (as_mandate_id s));
    ("package", JObj [("id", JStr (uuid_str (as_package_id s))); ("sha256", JStr (as_package_sha256 s))]);
    ("post_state", JObj (as_post_state s)); ("pre_state", JObj (as_pre_state s));
    ("release", JObj [("commit_sha", JStr (as_release_commit_sha s));
                      ("digest_sha256", JStr (as_release_digest_sha256 s)); ("tree_sha", JStr (as_release_tree_sha s))]);
    ("role", JStr (as_role s)); ("schema", JStr SUBJECT_SCHEMA); ("step", JStr (step_value (as_step s)));
    ("tenant_id", JStr (as_tenant_id s))].
Proof.
  intros X. pose proof (binding_sorted s X) as B.
  assert (P' : sort_keys (JObj (as_pre_state s)) = JObj (as_pre_state s)) by (rewrite <- (se_pre s X); apply sort_keys_idem).
  assert (Q' : sort_keys (JObj (as_post_state s)) = JObj (as_post_state s)) by (rewrite <- (se_post s X); apply sort_keys_idem).
  unfold canonical_payload.
  remember (JObj (as_activation_binding s)) as jb. remember (JObj (as_pre_state s)) as jp.
  remember (JObj (as_post_state s)) as jq. clear Heqjb Heqjp Heqjq. generalize (uuid_str (as_package_id s)). intros u.
  cbn [sort_keys map fst snd]. rewrite B, P', Q'. reflexivity.
Qed.

(** C? The digest that is approved stands for one subject: two constructed
    subjects with the same [sha256] agree in mandate, step, tenant, release,
    package, attempt and every entry of the binding, unless the two canonical
    texts collide. (A float in the binding is excluded: its text is not read back.) *)
Theorem subject_digest_is_the_subject a a' s s' :
  distinct_keys a -> distinct_keys a' ->
  ActivationStepSubject_post_init cfg a = Ok s -> ActivationStepSubject_post_init cfg a' = Ok s' ->
  float_free (JObj (as_activation_binding s)) = true -> float_free (JObj (as_activation_binding s')) = true ->
  uuid_ok (as_package_id s) -> uuid_ok (as_package_id s') ->
  subject_sha256 s = subject_sha256 s' ->
  s = s' \/ collides (dumps (C := utf8_codec) (canonical_payload s)) (dumps (C := utf8_codec) (canonical_payload s')).
Proof.
  intros D D' C%(constructed_exact _ _ D) C'%(constructed_exact _ _ D') F F' U U' E.
  apply digest_inj in E as [E|E]; [left|by right].
  apply dumps_inj in E; [|by apply payload_float_free..].
  rewrite (payload_sorted s C), (payload_sorted s' C') in E.
  destruct s as [m st t ro c tr rd pi ps k pre post b], s' as [m' st' t' ro' c' tr' rd' pi' ps' k' pre' post' b'].
  cbn [as_mandate_id as_step as_tenant_id as_role as_release_commit_sha as_release_tree_sha as_release_digest_sha256
       as_package_id as_package_sha256 as_attempt_key as_pre_state as_post_state as_activation_binding] in *.
  pose proof (uuid_str_inj pi pi' U U') as HU. revert E HU. generalize (uuid_str pi) (uuid_str pi'). intros u u' E HU.
  pose proof (step_value_inj st st') as HS. revert E HS. generalize (step_value st) (step_value st'). intros v v' E HS.
  injection E as -> -> -> Eu -> -> -> -> -> -> -> Ev ->. by rewrite (HU Eu), (HS Ev).
Qed.

Lemma all_fields_ok {A} (check : json -> string -> res A) d prefix fields u :
  all_fields check d prefix fields = Ok u -> forall f, f ∈ fields -> exists x, check (at_ d f) (prefix +:+ f) = Ok x.
Proof.
  unfold all_fields. induction fields as [|g fields IH]; intros E f Hf; [by apply elem_of_nil in Hf|].
  apply rbind_ok in E as (x & Ex & E). apply elem_of_cons in Hf as [->|Hf]; eauto.
Qed.

(** A field that is a SHA-256 in hexadecimal. *)
Definition hex_field (d : dict) (f : string) : Prop := exists t, at_ d f = JStr t /\ hex64 t = true.
Lemma digests_ok d fields u : digests d fields = Ok u -> forall f, f ∈ fields -> hex_field d f.
Proof.
  intros E f Hf. destruct (all_fields_ok _ _ _ _ _ E f Hf) as [t [? ?]%digest_ok]. by exists t.
Qed.

Lemma positive_ok v f z : positive_ v f = Ok z -> py_int v = Ok z /\ 0 < z.
Proof.
  unfold positive_. destruct (py_int v) as [x|e]; [|by destruct (bad_value e)].
  intros [G [= ->]]%raise_if_ok. apply Z.leb_gt in G. done.
Qed.

(** What the binding of each step commits to. *)
Definition step_bound (step : ActivationStep) (b : dict) : Prop :=
  match step with
  | SHADOW_MONDAY_1 | SHADOW_MONDAY_2 | SHADOW_MONDAY_3 =>
      at_ b "fence_mode" = JStr "shadow-no-effect"
      /\ py_int (at_ b "shadow_ordinal") = Ok (shadow_ordinal step)
      /\ exists text day, at_ b "service_date" = JStr text /\ date_fromisoformat text = Some day /\ weekday day = 0
  | SUPERVISED_LIVE_UPLOAD => at_ b "mode" = JStr "never-submit"
  | MINI_CUTOVER =>
      hex_field b "cutover_pointer_before_sha256" /\ hex_field b "cutover_pointer_after_sha256"
      /\ at_ b "cutover_pointer_before_sha256" <> at_ b "cutover_pointer_after_sha256"
  | SCRIBE_ADMISSION =>
      at_ b "deployment_id" = JStr (cf_scribe cfg)
      /\ (exists pid, py_int (at_ b "process_id") = Ok pid /\ 1 < pid)
      /\ exists root admission,
           uuid_parse (py_str (at_ b "authority_root_admission_id")) = Some root
           /\ uuid_parse (py_str (at_ b "admission_id")) = Some admission
           /\ ((at_ b "authority_mode" = JStr "initial-local-activation" /\ uuid_str root = uuid_str admission
                /\ forall f, f ∈ recovery_fields -> at_ b f = JNull)
               \/ (at_ b "authority_mode" = JStr "standing-mandate-recovery" /\ root <> admission
                   /\ hex_field b "prior_rollback_receipt_sha256" /\ hex_field b "restart_intent_sha256"))
  | SCRIBE_VERIFICATION => at_ b "deployment_id" = JStr (cf_scribe cfg)
  | _ => True
  end.

Lemma uuid_ok_parse v f t : uuid_ v f = Ok t -> exists u, uuid_parse (py_str v) = Some u /\ t = uuid_str u.
Proof. unfold uuid_. destruct (uuid_parse _) as [u|]; [|done]. intros [= <-]. eauto. Qed.

Lemma scribe_is t : scribe_deployment_id cfg = Ok t -> t = cf_scribe cfg.
Proof. apply identity_ok. Qed.

Lemma shadow_bound step b u : validate_shadow step b = Ok u ->
  at_ b "fence_mode" = JStr "shadow-no-effect" /\ py_int (at_ b "shadow_ordinal") = Ok (shadow_ordinal step)
  /\ exists text day, at_ b "service_date" = JStr text /\ date_fromisoformat text = Some day /\ weekday day = 0.
Proof.
  unfold validate_shadow. intros E. apply rbind_ok in E as (z & [Ez _]%positive_ok & E).
  apply raise_if_ok in E as [G E]. apply negb_false_iff, Z.eqb_eq in G as ->.
  apply rbind_ok in E as (t & Et%required_ok & E). destruct (date_fromisoformat t) as [day|] eqn:Ed; [|done].
  apply raise_if_ok in E as [W E]. apply negb_false_iff, Z.eqb_eq in W.
  apply rbind_ok in E as (? & _ & E). apply require_ok in E as [Ef%is_str_ok _]. eauto 7.
Qed.

Lemma admission_bound b u : validate_admission cfg b = Ok u -> step_bound SCRIBE_ADMISSION b.
Proof.
  unfold validate_admission. cbv zeta. intros E. apply rbind_ok in E as (? & _ & E).
  apply rbind_ok in E as (sc & ->%scribe_is & E). apply require_ok in E as [Ed%is_str_ok E].
  apply rbind_ok in E as (? & _ & E). apply rbind_ok in E as (? & _ & E). apply rbind_ok in E as (? & _ & E).
  apply rbind_ok in E as (pid & [Ep _]%positive_ok & E). apply raise_if_ok in E as [Lp%Z.leb_gt E].
  do 5 (apply rbind_ok in E as (? & _ & E)).
  apply rbind_ok in E as (rs & (root & Er & ->)%uuid_ok_parse & E).
  apply rbind_ok in E as (ad & (adm & Ea & ->)%uuid_ok_parse & E).
  split; [done|]. split; [by exists pid|]. exists root, adm. split; [done|]. split; [done|].
  destruct (is_str _ "initial-local-activation") eqn:M1; [left|].
  - apply is_str_ok in M1. apply raise_if_ok in E as [G _]. apply orb_false_iff in G as [G1 G2].
    apply negb_false_iff, String.eqb_eq in G1. split; [done|]. split; [done|]. intros f Hf.
    apply not_true_iff_false in G2. destruct (at_ b f) eqn:Hn; try done; exfalso; apply G2, existsb_exists;
      exists f; rewrite Hn; (split; [by apply list_elem_of_In|done]).
  - destruct (is_str _ "standing-mandate-recovery") eqn:M2; [|done]. right. apply is_str_ok in M2.
    apply raise_if_ok in E as [G E]. apply String.eqb_neq in G.
    apply rbind_ok in E as (? & _ & E). apply rbind_ok in E as (? & _ & E).
    pose proof (digests_ok _ _ _ E) as X. split; [done|]. split; [by intros ->|].
    split; apply X; set_solver.
Qed.

Lemma validated_step step b u : validate_binding cfg step b = Ok u ->
  (exists i, uuid_parse (py_str (at_ b "approval_id")) = Some i) /\ step_bound step b.
Proof.
  unfold validate_binding. intros E. apply rbind_ok in E as (ap & (i & Ei & _)%uuid_ok_parse & E).
  split; [by exists i|]. apply rbind_ok in E as (? & _ & E). apply rbind_ok in E as (? & _ & E).
  destruct step; try exact I; try (by apply shadow_bound in E).
  - unfold validate_upload in E. do 2 (apply rbind_ok in E as (? & _ & E)). apply rbind_ok in E as (? & _ & E).
    apply raise_if_ok in E as [_ E]. apply rbind_ok in E as (? & _ & E). by apply require_ok in E as [?%is_str_ok _].
  - unfold validate_cutover in E. apply rbind_ok in E as (? & _ & E). apply rbind_ok in E as (? & X & E).
    pose proof (digests_ok _ _ _ X) as Y. apply raise_if_ok in E as [G _].
    destruct (Y "cutover_pointer_before_sha256" ltac:(set_solver)) as (t & T & Ht).
    split; [by exists t|]. split; [apply Y; set_solver|]. intros Q. rewrite <- Q, T in G. cbn in G.
    by rewrite String.eqb_refl in G.
  - by apply admission_bound in E.
  - unfold validate_verification in E. do 2 (apply rbind_ok in E as (? & _ & E)).
    apply rbind_ok in E as (sc & ->%scribe_is & E). by apply require_ok in E as [?%is_str_ok _].
Qed.

(** C20: A step subject stays inside its step: it runs in the step's role, its
    approval id is a UUID, and its binding keeps the step's limit (a shadow run
    without effect on the right Monday, an upload that never submits, a cutover
    that moves the pointer, the configured Scribe only, and an admission that is
    either the first, with no trace of recovery, or a recovery of another one). *)
Theorem step_subject_is_bounded a s :
  ActivationStepSubject_post_init cfg a = Ok s ->
  as_role s = STEP_ROLES (as_step s)
  /\ (exists id, subject_approval_id s = Ok id)
  /\ (as_activation_binding s).*1 ⊆ STEP_BINDING_KEYS (as_step s)
  /\ STEP_BINDING_KEYS (as_step s) ⊆ (as_activation_binding s).*1
  /\ step_bound (as_step s) (as_activation_binding s).
Proof.
  intros E. unfold ActivationStepSubject_post_init in E.
  repeat match type of E with
  | rbind _ _ = Ok _ => let x := fresh "x" in let X := fresh "X" in apply rbind_ok in E as (x & X & E)
  | (if _ then _ else Err _) = Ok _ => apply require_ok in E as [_ E]
  | (if _ then Err _ else _) = Ok _ => apply raise_if_ok in E as [_ E]
  end.
  injection E as <-. cbn [as_role as_step as_activation_binding].
  match goal with V : validate_binding _ _ _ = _ |- _ => apply validated_step in V as ([i Hi] & B) end.
  match goal with V : closed_ _ _ _ = _ |- _ => apply closed_ok in V as (_ & K1 & K2) end.
  split; [done|]. split; [|done]. unfold subject_approval_id. cbn [as_activation_binding]. rewrite Hi. eauto.
Qed.
End subject_facts.

(** ** What a mandate is *)

Section mandate_facts.
  Context `{Digest} `{IsoTime} `{JsonLimits}.
  Variable cfg : configuration.

(** The artifact is what the bytes say, and the digest theirs. *)
Definition artifact_exact (m : Mandate) : Prop :=
  md_artifact_sha256 m = digest (md_artifact_bytes m)
  /\ exists j, loads_bytes (chars (md_artifact_bytes m)) = Ok j /\ py_eq j (JObj (md_artifact m)) = true.

Lemma loads_or_refuse_ok raw msg j : loads_or_refuse raw msg = Ok j -> loads_bytes (chars raw) = Ok j.
Proof. unfold loads_or_refuse. destruct (loads_bytes _) as [x|e]; [done|]. by destruct (_ || _). Qed.

Lemma provenance_ok schema id artifact msg u : check_provenance cfg schema id artifact msg = Ok u ->
  at_ artifact "schema" = JStr schema /\ at_ artifact "mandate_id" = JStr id /\ at_ artifact "status" = JStr "active"
  /\ at_ artifact "issuer" = opt_json (authority_issuer cfg)
  /\ at_ artifact "company_id" = JStr (cf_company cfg) /\ at_ artifact "host_kind" = JStr "macbook".
Proof.
  unfold check_provenance. cbv zeta. intros E. apply require_ok in E as [G E].
  rewrite !andb_true_iff in G. destruct G as [[[[G1 G2] G3] G4] _].
  apply rbind_ok in E as (c & ->%identity_ok & E). apply require_ok in E as [[G5 G6]%andb_true_iff _].
  apply is_str_ok in G1, G2, G3, G5, G6. apply py_eq_opt in G4. done.
Qed.

(** One item of [ordered_roles], read. *)
Definition role_item (item : json) (x : string * string * string) : Prop :=
  exists d, (exists f, closed_ item f ["role_type"; "deployment_id"; "worker_id"] = Ok d)
    /\ at_ d "role_type" = JStr x.1.1 /\ at_ d "deployment_id" = JStr x.1.2
    /\ exists u, uuid_parse (py_str (at_ d "worker_id")) = Some u /\ x.2 = uuid_str u.

Lemma check_roles_ok i rs ds ws items u : check_roles i rs ds ws items = Ok u ->
  exists l : list (string * string * string), Forall2 role_item items l
    /\ (forall x, x ∈ l -> x.1.1 ∈ PHASE4_COMPANY_ROLE_TYPES)
    /\ NoDup (map (fun x => x.1.1) l) /\ NoDup (map (fun x => x.1.2) l) /\ NoDup (map snd l)
    /\ forall x, x ∈ l -> x.1.1 ∉ rs /\ x.1.2 ∉ ds /\ x.2 ∉ ws.
Proof.
  revert i rs ds ws. induction items as [|item items IH]; intros i rs ds ws E; cbn [check_roles] in E.
  - exists []. split; [constructor|]. split; [by intros x ?%elem_of_nil|].
    do 3 (split; [constructor|]). by intros x ?%elem_of_nil.
  - apply rbind_ok in E as (d & Ed & E). apply rbind_ok in E as (r & Er%required_ok & E).
    apply rbind_ok in E as (dep & Edep%required_ok & E).
    apply rbind_ok in E as (w & Ew & E). apply require_ok in E as [Hr E]. apply raise_if_ok in E as [G E].
    apply IH in E as (l & HF & HR & N1 & N2 & N3 & HN). apply existsb_eqb in Hr.
    assert (G' : r ∉ rs /\ dep ∉ ds /\ w ∉ ws).
    { rewrite <- !existsb_eqb. by apply orb_false_iff in G as [[-> ->]%orb_false_iff ->]. }
    assert (Ew' : exists v, uuid_parse (py_str (at_ d "worker_id")) = Some v /\ w = uuid_str v).
    { unfold uuid_ in Ew. destruct (uuid_parse _) as [v|]; [|done]. injection Ew as <-. eauto. }
    exists ((r, dep, w) :: l). split; [constructor; [exists d; eauto 6|done]|].
    split; [intros x [->|Hx]%elem_of_cons; auto|].
    assert (F : forall x, x ∈ l -> x.1.1 <> r /\ x.1.2 <> dep /\ x.2 <> w).
    { intros x Hx. destruct (HN x Hx) as (A & B & C). split_and!; intros <-; [apply A|apply B|apply C]; left. }
    split; [|split; [|split]]; simpl.
    1-3: constructor; [|done]; intros (x & <- & Hx)%list_elem_of_In%in_map_iff;
      destruct (F x) as (? & ? & ?); [by apply list_elem_of_In|done].
    intros x [->|Hx]%elem_of_cons; [done|]. destruct (HN x Hx) as (A & B & C).
    split_and!; intros D; [apply A|apply B|apply C]; by right.
Qed.

(** Inside canonical entries every value is canonical. *)
Lemma at_sorted d k : canonical d -> sort_keys (at_ d k) = at_ d k.
Proof.
  intros (_ & S & _). unfold at_. destruct (dict_get k d) as [v|] eqn:G; [|done].
  apply dict_get_in in G. cbn [sort_keys] in S. injection S as S. rewrite <- S in G.
  rewrite (sort_pairs_map sort_keys) in G. apply list_elem_of_In, in_map_iff in G as ([k' v'] & [= _ <-] & _).
  apply sort_keys_idem.
Qed.

Lemma closed_at d k f keys e : canonical d -> closed_ (at_ d k) f keys = Ok e -> at_ d k = JObj e.
Proof.
  intros C E. rewrite <- (at_sorted d k C). unfold closed_ in E. apply rbind_ok in E as (r & (_ & S & _)%canonical_mapping_ok & E).
  cbv zeta in E. by apply raise_if_ok in E as [_ [= ->]].
Qed.

Lemma subjects_ok artifact u : canonical artifact -> check_subjects cfg artifact = Ok u ->
  exists d pid, at_ artifact "preserved_live_subject" = JObj d /\ at_ d "deployment_id" = JStr (cf_scribe cfg)
    /\ py_int (at_ d "process_id") = Ok pid /\ 1 < pid.
Proof.
  intros C E. unfold check_subjects in E. do 9 (apply rbind_ok in E as (? & _ & E)).
  apply rbind_ok in E as (d & Ed & E). apply rbind_ok in E as (sc & ->%identity_ok & E).
  apply require_ok in E as [Es%is_str_ok E]. do 2 (apply rbind_ok in E as (? & _ & E)).
  apply rbind_ok in E as (pid & [Ep _]%positive_ok & E). apply raise_if_ok in E as [L%Z.leb_gt _].
  exists d, pid. split; [by eapply closed_at|done].
Qed.

Lemma is_false_ok j : is_false j = true -> j = JBool false.
Proof. by destruct j as [|[]| | | | | |]. Qed.

Lemma terminal_ok artifact u : canonical artifact -> check_terminal artifact = Ok u ->
  exists t r, at_ artifact "terminal_condition" = JObj t /\ at_ t "terminal_status" = JStr "completed"
    /\ at_ t "authorization_valid_after_terminal" = JBool false
    /\ at_ t "recovery_only_contract" = JObj r /\ Forall (fun kv => kv.2 = JBool true) r.
Proof.
  intros C E. unfold check_terminal in E. apply rbind_ok in E as (t & Et & E).
  pose proof (closed_ok _ _ _ _ Et) as (Ct & _). apply rbind_ok in E as (? & _ & E).
  apply require_ok in E as [E1%is_str_ok E]. apply require_ok in E as [E2%is_false_ok E].
  apply rbind_ok in E as (r & Er & E). apply require_ok in E as [E3 _].
  exists t, r. split; [by eapply closed_at|]. split; [done|]. split; [done|].
  split; [by eapply closed_at|]. apply Forall_forall. rewrite forallb_forall in E3. intros [k v] Hkv.
  specialize (E3 (k, v) ltac:(by apply list_elem_of_In)). simpl in *. by destruct v as [|[]| | | | | |].
Qed.

(** A Phase-4 mandate that constructs is bounded: its artifact is what its
    bytes say, of this company and preserving the configured Scribe; it names
    Phase-4 roles only, each role, deployment and worker once; and its authority
    ends at completion, recovery keeping every equality axis. *)
Theorem phase4_mandate_is_bounded mandate_id artifact sha raw m :
  Phase4FounderActivationMandate cfg mandate_id artifact sha raw = Ok m ->
  artifact_exact m
  /\ at_ (md_artifact m) "mandate_id" = JStr (md_mandate_id m)
  /\ at_ (md_artifact m) "company_id" = JStr (cf_company cfg)
  /\ (exists items l, at_ (md_artifact m) "ordered_roles" = JArr items /\ items <> [] /\ Forall2 role_item items l
       /\ (forall x, x ∈ l -> x.1.1 ∈ PHASE4_COMPANY_ROLE_TYPES)
       /\ NoDup (map (fun x => x.1.1) l) /\ NoDup (map (fun x => x.1.2) l) /\ NoDup (map snd l))
  /\ (exists d pid, at_ (md_artifact m) "preserved_live_subject" = JObj d
       /\ at_ d "deployment_id" = JStr (cf_scribe cfg) /\ py_int (at_ d "process_id") = Ok pid /\ 1 < pid)
  /\ exists t r, at_ (md_artifact m) "terminal_condition" = JObj t /\ at_ t "terminal_status" = JStr "completed"
       /\ at_ t "authorization_valid_after_terminal" = JBool false
       /\ at_ t "recovery_only_contract" = JObj r /\ Forall (fun kv => kv.2 = JBool true) r.
Proof.
  unfold Phase4FounderActivationMandate. intros E. apply rbind_ok in E as (id & _ & E).
  apply require_ok in E as [_ E]. apply rbind_ok in E as (a & (C & _)%closed_ok & E).
  destruct raw as [raw|]; [|done]. apply rbind_ok in E as (j & Ej%loads_or_refuse_ok & E).
  apply require_ok in E as [[Q1 Q2%is_str_ok]%andb_true_iff E].
  apply rbind_ok in E as (? & (_ & Hid & _ & _ & Hc & _)%provenance_ok & E).
  apply require_ok in E as [_ E]. apply rbind_ok in E as (? & HS%(subjects_ok _ _ C) & E).
  destruct (at_ a "ordered_roles") as [| | | | | |[|i items]|] eqn:Hr; try done.
  apply rbind_ok in E as (? & (l & HF & HR & N1 & N2 & N3 & _)%check_roles_ok & E).
  apply rbind_ok in E as (? & _ & E). apply rbind_ok in E as (? & HT%(terminal_ok _ _ C) & E).
  apply rbind_ok in E as (s & [Es _]%digest_ok & [= <-]). cbn [md_artifact md_mandate_id].
  split; [split; [cbn; congruence|eauto]|]. split; [done|]. split; [done|].
  split; [|done]. exists (i :: items), l. done.
Qed.

(** Only the pinned artifact is recorded: a Phase-4 mandate that passes
    [require_recordable] has the pinned id and its bytes hash to the pinned
    digest, so two of them have the same bytes or collide under SHA-256; and
    while the deployment binds nothing, no mandate of the first or the Utility
    class constructs and no Phase-4 mandate is recordable. *)
Theorem recordable_mandate_is_pinned :
  (forall mandate_id artifact sha raw m u,
     Phase4FounderActivationMandate cfg mandate_id artifact sha raw = Ok m ->
     phase4_require_recordable cfg m = Ok u ->
     deployment_binding cfg "PHASE4_MANDATE_ID" = Some (md_mandate_id m)
     /\ deployment_binding cfg "PHASE4_MANDATE_ARTIFACT_SHA256" = Some (digest (md_artifact_bytes m)))
  /\ (forall mandate_id artifact sha raw m u mandate_id' artifact' sha' raw' m' u',
     Phase4FounderActivationMandate cfg mandate_id artifact sha raw = Ok m ->
     Phase4FounderActivationMandate cfg mandate_id' artifact' sha' raw' = Ok m' ->
     phase4_require_recordable cfg m = Ok u -> phase4_require_recordable cfg m' = Ok u' ->
     md_artifact_bytes m = md_artifact_bytes m' \/ collides (md_artifact_bytes m) (md_artifact_bytes m'))
  /\ (cf_bindings cfg = [] ->
     (forall a b c d, is_ok (FounderActivationMandate cfg a b c d) = false)
     /\ (forall a b c d, is_ok (UtilityFounderActivationMandate cfg a b c d) = false)
     /\ forall m, phase4_require_recordable cfg m = refuse "Phase-4 activation mandate identity is UNSET").
Proof.
  assert (P : forall mandate_id artifact sha raw m u,
     Phase4FounderActivationMandate cfg mandate_id artifact sha raw = Ok m ->
     phase4_require_recordable cfg m = Ok u ->
     deployment_binding cfg "PHASE4_MANDATE_ID" = Some (md_mandate_id m)
     /\ deployment_binding cfg "PHASE4_MANDATE_ARTIFACT_SHA256" = Some (digest (md_artifact_bytes m))).
  { intros ????? u E R. apply phase4_mandate_is_bounded in E as ([D _] & _). rewrite <- D.
    unfold phase4_require_recordable, pin in R.
    destruct (deployment_binding _ "PHASE4_MANDATE_ID"), (deployment_binding _ "PHASE4_MANDATE_ARTIFACT_SHA256"); try done.
    by apply require_ok in R as [[->%String.eqb_eq ->%String.eqb_eq]%andb_true_iff _]. }
  split; [exact P|]. split.
  - intros mi a sh r m u mi' a' sh' r' m' u' E E' R R'. apply digest_inj.
    destruct (P _ _ _ _ _ _ E R) as [_ A], (P _ _ _ _ _ _ E' R') as [_ B]. congruence.
  - intros N. assert (U : forall n, deployment_binding cfg n = None) by (intros n; unfold deployment_binding; by rewrite N).
    split; [|split].
    + intros a b c d. unfold FounderActivationMandate. destruct (required_ _ _); [|done]. cbn [rbind].
      destruct (re_fullmatch _ _ _); [|done]. destruct (closed_ _ _ _); [|done]. cbn [rbind].
      destruct d as [raw|]; [|done]. destruct (loads_or_refuse _ _); [|done]. cbn [rbind].
      unfold mandate_is_exact, pin. rewrite U. cbv zeta.
      rewrite (bool_decide_false (Some _ = None)) by done. by rewrite andb_false_r.
    + intros a b c d. unfold UtilityFounderActivationMandate, pin. rewrite U.
      destruct (required_ _ _); [|done]. cbn [rbind]. by rewrite bool_decide_false.
    + intros m. unfold phase4_require_recordable, pin. by rewrite !U.
Qed.
End mandate_facts.

(** ** Concrete authority *)
Module FounderDemo.
Definition hex (s : string) : string := sha256_hex s.
Definition git (s : string) : string := take_s 40 (sha256_hex s).
Definition worker : string := "886313e1-3b8a-5372-9b90-0c9aee199e5d".

Definition upload_binding (mode : string) : json := JObj [
  ("approval_id", JStr worker); ("runtime_host_identity_sha256", JStr (hex "host"));
  ("runtime_executable_sha256", JStr (hex "exe")); ("runtime_boot_id_sha256", JStr (hex "boot"));
  ("operator_approval_id", JStr worker); ("objective_id", JStr worker); ("run_id", JStr worker);
  ("attempt_id", JStr "attempt-1"); ("idempotency_key", JStr "upload-2026-08-03-a");
  ("effect_payload_sha256", JStr (hex "effect")); ("prepared_output_sha256", JStr (hex "output"));
  ("legacy_authority_sha256", JStr (hex "legacy")); ("mode", JStr mode)].

(** [extra] bindings besides the pins of the mandate with these bytes. *)
Definition config (raw : string) (extra : list (string * string)) : configuration := {|
  cf_company := "demo-company"; cf_scribe := "demo-scribe";
  cf_bindings := [("PHASE4_MANDATE_ID", "activation-mandate-demo");
                  ("PHASE4_MANDATE_ARTIFACT_SHA256", digest raw)] ++ extra |}.
Definition cfg0 : configuration := config "none" [].

Definition args (mode : string) : subject_args := {|
  sa_mandate_id := JStr "activation-mandate-demo"; sa_step := inr (JStr "supervised-live-upload");
  sa_tenant_id := JStr "tenant-1"; sa_role := JStr "browser_navigator";
  sa_release_commit_sha := JStr (git "commit"); sa_release_tree_sha := JStr (git "tree");
  sa_release_digest_sha256 := JStr (hex "release"); sa_package_id := inr (JStr worker);
  sa_package_sha256 := JStr (hex "package"); sa_attempt_key := JStr "upload-attempt-0001";
  sa_pre_state := JObj (PRE_STATES SUPERVISED_LIVE_UPLOAD);
  sa_post_state := JObj (POST_STATES "demo-scribe" SUPERVISED_LIVE_UPLOAD);
  sa_activation_binding := upload_binding mode |}.

Example submitting_upload_is_refused :
  ActivationStepSubject_post_init cfg0 (args "submit") = refuse "supervised upload mandate is never-submit only".
Proof. vm_compute. reflexivity. Qed.

(** A count is whatever [int()] takes: text, a float, a boolean. *)
Example counts_are_not_exact :
  map (fun j => positive_ j "process_id") [JStr " 12 "; JFloat (25 # 2); JBool true] = [Ok 12; Ok 12; Ok 1].
Proof. vm_compute. reflexivity. Qed.

Definition artifact (issuer : json) (worker2 : string) : json := JObj [
  ("schema", JStr PHASE4_MANDATE_SCHEMA); ("mandate_id", JStr "activation-mandate-demo"); ("status", JStr "active");
  ("issuer", issuer); ("source_kind", JStr "direct_founder_instruction"); ("quoted_instruction", JStr "go");
  ("recorded_at", JStr "2026-08-01T10:00:00Z");
  ("governing_canon", JObj [("path", JStr "docs/canon.md"); ("sha256", JStr (hex "canon"))]);
  ("executable_plan", JObj [("path", JStr "docs/plan.md"); ("commit_sha", JStr (git "c")); ("tree_sha", JStr (git "t"))]);
  ("company_id", JStr "demo-company"); ("host_kind", JStr "macbook");
  ("preserved_live_subject", JObj [("deployment_id", JStr "demo-scribe"); ("package_sha256", JStr (hex "p"));
     ("admission_epoch", JInt 3); ("process_id", JInt 4242); ("preservation_rule", JStr "keep")]);
  ("ordered_roles", JArr [
     JObj [("role_type", JStr "cos"); ("deployment_id", JStr "d1"); ("worker_id", JStr worker)];
     JObj [("role_type", JStr "ccto"); ("deployment_id", JStr "d2"); ("worker_id", JStr worker2)]]);
  ("ordered_scope", JArr [JStr "a"]); ("constraints", JArr [JStr "b"]); ("receipt_requirements", JArr [JStr "c"]);
  ("requires_additional_founder_go_within_scope", JBool true);
  ("terminal_condition", JObj [("completion_rule", JStr "all"); ("terminal_status", JStr "completed");
     ("authorization_valid_after_terminal", JBool false);
     ("recovery_only_contract", JObj (map (fun k => (k, JBool true))
        ["same_role"; "same_deployment"; "same_release"; "same_host"; "same_authority_root"; "monotonic_epochs_only"]))]);
  ("rollback_policy", JObj [("per_role_target", JStr "x"); ("fence_order", JStr "y"); ("proof_required", JStr "z")])].
Definition bytes_of (j : json) : string := dumps (C := utf8_codec) j.
Definition worker_b : string := "886313e1-3b8a-5372-9b90-0c9aee199e5e".
Definition raw : string := bytes_of (artifact (JStr "founder") worker_b).
Definition cfg1 : configuration := config raw [("AUTHORITY_ISSUER", "founder")].

(** One worker under two spellings is one worker. *)
Example repeated_worker_is_refused :
  phase4_from_bytes cfg1 (bytes_of (artifact (JStr "founder") "{886313E1-3B8A-5372-9B90-0C9AEE199E5D}"))
  = refuse "ordered_roles reuses a role, deployment, or worker".
Proof. vm_compute. reflexivity. Qed.

(** An issuer that is not configured is matched by [null]. *)
Example absent_issuer_is_null : is_ok (phase4_from_bytes (config raw []) (bytes_of (artifact JNull worker_b))) = true.
Proof. vm_compute. reflexivity. Qed.

Definition construct (c : configuration) (id art : json) (bytes : string) : res Mandate :=
  Phase4FounderActivationMandate c id art (JStr (digest bytes)) (Some bytes).
Notation demo_mandate := (construct cfg1 (JStr "activation-mandate-demo") (artifact (JStr "founder") worker_b) raw).
Definition recordable (r : res Mandate) : bool :=
  match r with Ok m => is_ok (phase4_require_recordable cfg1 m) | Err _ => false end.
Lemma demo_recordable : recordable demo_mandate = true.
Proof. vm_compute. reflexivity. Qed.
Lemma construct_unfold c id art bytes r : construct c id art bytes = r ->
  Phase4FounderActivationMandate c id art (JStr (digest bytes)) (Some bytes) = r.
Proof. done. Qed.

Definition construct_subject (c : configuration) (a : subject_args) : res ActivationStepSubject :=
  ActivationStepSubject_post_init c a.
Notation demo_subject := (construct_subject cfg0 (args "never-submit")).
Definition good_subject (r : res ActivationStepSubject) : bool :=
  match r with
  | Ok s => float_free (JObj (as_activation_binding s)) && (as_package_id s <? 2 ^ 128)%N
  | Err _ => false
  end.
Lemma demo_subject_good : good_subject demo_subject = true.
Proof. vm_compute. reflexivity. Qed.
Lemma args_distinct mode : distinct_keys (args mode).
Proof. by split; apply (bool_decide_unpack _); vm_compute. Qed.
(** The same subject, given a member and a braced package id. *)
Definition respelled (a : subject_args) : subject_args := {|
  sa_step := inl SUPERVISED_LIVE_UPLOAD; sa_package_id := inr (JStr ("{" +:+ worker +:+ "}"));
  sa_mandate_id := sa_mandate_id a; sa_tenant_id := sa_tenant_id a; sa_role := sa_role a;
  sa_release_commit_sha := sa_release_commit_sha a; sa_release_tree_sha := sa_release_tree_sha a; sa_release_digest_sha256 := sa_release_digest_sha256 a;
  sa_package_sha256 := sa_package_sha256 a; sa_attempt_key := sa_attempt_key a; sa_pre_state := sa_pre_state a;
  sa_post_state := sa_post_state a; sa_activation_binding := sa_activation_binding a |}.
Notation demo_respelled := (construct_subject cfg0 (respelled (args "never-submit"))).
Lemma respelled_good : good_subject demo_respelled = true.
Proof. vm_compute. reflexivity. Qed.
Definition sha_of_subject (r : res ActivationStepSubject) : string := match r with Ok s => subject_sha256 s | Err _ => "" end.
Lemma same_sha : sha_of_subject demo_subject = sha_of_subject demo_respelled.
Proof. vm_compute. reflexivity. Qed.

Lemma subject_unfold c a r : construct_subject c a = r -> ActivationStepSubject_post_init c a = r.
Proof. done. Qed.
End FounderDemo.

Import FounderDemo.

Lemma phase4_mandate_is_bounded_witness : exists m, demo_mandate = Ok m
  /\ at_ (md_artifact m) "company_id" = JStr "demo-company" /\ artifact_exact m.
Proof.
  pose proof demo_recordable as R. destruct demo_mandate as [m|e] eqn:E; [|discriminate R].
  exists m. split; [reflexivity|].
  destruct (phase4_mandate_is_bounded _ _ _ _ _ _ (construct_unfold _ _ _ _ _ E)) as (A & _ & B & _). split; [exact B|exact A].
Defined.

Lemma recordable_mandate_is_pinned_witness : exists m, demo_mandate = Ok m
  /\ deployment_binding cfg1 "PHASE4_MANDATE_ARTIFACT_SHA256" = Some (digest (md_artifact_bytes m)).
Proof.
  pose proof demo_recordable as R. destruct demo_mandate as [m|e] eqn:E; [|discriminate R].
  exists m. split; [reflexivity|]. unfold recordable in R.
  destruct (phase4_require_recordable cfg1 m) as [u|] eqn:Eu; [|discriminate R].
  destruct (recordable_mandate_is_pinned cfg1) as (P & _ & _).
  exact (proj2 (P _ _ _ _ _ _ (construct_unfold _ _ _ _ _ E) Eu)).
Defined.

Lemma subject_is_canonical_witness : exists s, demo_subject = Ok s /\
  exact_ cfg0 (JStr (as_mandate_id s)) (as_step s) (JStr (as_tenant_id s)) (JStr (as_release_commit_sha s))
    (JStr (as_release_tree_sha s)) (JStr (as_release_digest_sha256 s)) (as_package_id s)
    (JStr (as_package_sha256 s)) (JStr (as_attempt_key s)) (JObj (as_activation_binding s)) = Ok s.
Proof.
  pose proof demo_subject_good as R. destruct demo_subject as [s|e] eqn:E; [|discriminate R].
  exists s. split; [reflexivity|]. exact (subject_is_canonical _ _ _ (args_distinct _) (subject_unfold _ _ _ E)).
Defined.

Lemma step_subject_is_bounded_witness : exists s, demo_subject = Ok s /\ as_role s = STEP_ROLES (as_step s)
  /\ step_bound cfg0 (as_step s) (as_activation_binding s).
Proof.
  pose proof demo_subject_good as R. destruct demo_subject as [s|e] eqn:E; [|discriminate R].
  exists s. split; [reflexivity|].
  destruct (step_subject_is_bounded _ _ _ (subject_unfold _ _ _ E)) as (A & _ & _ & _ & B). split; [exact A|exact B].
Defined.

Lemma subject_digest_is_the_subject_witness : exists s s', demo_subject = Ok s /\ demo_respelled = Ok s'
  /\ (s = s' \/ collides (dumps (C := utf8_codec) (canonical_payload s)) (dumps (C := utf8_codec) (canonical_payload s'))).
Proof.
  pose proof demo_subject_good as R. pose proof respelled_good as R'. pose proof same_sha as S.
  destruct demo_subject as [s|e] eqn:E; [|discriminate R]. destruct demo_respelled as [s'|e'] eqn:E'; [|discriminate R'].
  exists s, s'. split; [reflexivity|]. split; [reflexivity|].
  apply andb_true_iff in R as [F U%N.ltb_lt], R' as [F' U'%N.ltb_lt].
  exact (subject_digest_is_the_subject _ _ _ _ _ (args_distinct "never-submit") (args_distinct "never-submit")
           (subject_unfold _ _ _ E) (subject_unfold _ _ _ E') F F' U U' S).
Defined.
