(* ===== verification/Verification.v ===== *)
(** * Objective verification (fleet_kernel/m8/verification.py)

    Signed attestations and who is trusted to sign them; the obligations that
    an enrolled objective must satisfy before it can be done, with the two
    triggers of ddl/009_m8_verification_observability.sql that enforce them;
    the pinned manifest of failure families; verifier calibration. A database
    operation returns the new tables, or raises and leaves them as they were.
    Transactions run under READ COMMITTED: an operation is one step where the rows
    it decides on are locked, and two where they are not, as the objective is that
    an enrolment reads. No row is ever deleted. Row-level security is not
    modelled: the connection sees the rows of every tenant. *)
From S2P Require Import Prelude PyStr PyFloat PyTime Json Sha256 PyIO JsonText PyValue PyUuid.
From stdpp Require Import base gmap strings list.
From Stdlib Require Import ZArith QArith Qabs NArith Lia Lqa.

Local Open Scope Z_scope.

Definition CheckViolation : exc_class := OtherError "CheckViolation".
Definition UniqueViolation : exc_class := OtherError "UniqueViolation".
Definition ForeignKeyViolation : exc_class := OtherError "ForeignKeyViolation".

(* src: fleet_kernel/m8/verification.py _ID_NAMESPACE *)
Definition ID_NAMESPACE : uuid := 327064737652981200661980983520817992087%N.

(* src: fleet_kernel/m8/verification.py VerificationAttestation *)
Record VerificationAttestation := {
  attestation_id : uuid;
  tenant_id : string;
  objective_id : uuid;
  obligation_id : uuid;
  verifier_identity : string;
  verifier_family : string;
  subject_family : string;
  verdict : string;
  evidence_ref : string;
  evidence_sha256 : string;
  issued_at : datetime;
  signature : string;
  subject_ref : option string;
  subject_sha256 : option string;
  evidence_byte_length : option Z;
}.

Definition jopt {A} (f : A -> json) (o : option A) : json :=
  match o with Some a => f a | None => JNull end.

Section verification.
  Context `{Digest} `{IsoTime} `{Ed25519} `{JsonLimits}.
  (** [astimezone] reads a naive datetime in the system's zone. *)
  Variable localtime : datetime -> datetime.

Definition as_utc (d : datetime) : res datetime := dt_to_utc (if aware d then d else localtime d).

Definition attestation_fields (a : VerificationAttestation) (utc : datetime)
    : list (string * json) := [
  ("attestation_id", JStr (uuid_str (attestation_id a)));
  ("tenant_id", JStr (tenant_id a));
  ("objective_id", JStr (uuid_str (objective_id a)));
  ("obligation_id", JStr (uuid_str (obligation_id a)));
  ("verifier_identity", JStr (verifier_identity a));
  ("verifier_family", JStr (verifier_family a));
  ("subject_family", JStr (subject_family a));
  ("verdict", JStr (verdict a));
  ("evidence_ref", JStr (evidence_ref a));
  ("evidence_sha256", JStr (evidence_sha256 a));
  ("issued_at", JStr (isoformat utc));
  ("subject_ref", jopt JStr (subject_ref a));
  ("subject_sha256", jopt JStr (subject_sha256 a));
  ("evidence_byte_length", jopt JInt (evidence_byte_length a))].

(* src: fleet_kernel/m8/verification.py _attestation_payload *)
Definition attestation_payload (a : VerificationAttestation) : res string :=
  let! utc := as_utc (issued_at a) in
  Ok (dumps (JObj (attestation_fields a utc))).

Definition with_signature (s : string) (a : VerificationAttestation) : VerificationAttestation := {|
  attestation_id := attestation_id a; tenant_id := tenant_id a; objective_id := objective_id a;
  obligation_id := obligation_id a; verifier_identity := verifier_identity a;
  verifier_family := verifier_family a; subject_family := subject_family a; verdict := verdict a;
  evidence_ref := evidence_ref a; evidence_sha256 := evidence_sha256 a; issued_at := issued_at a;
  signature := s; subject_ref := subject_ref a; subject_sha256 := subject_sha256 a;
  evidence_byte_length := evidence_byte_length a |}.

(** [new_id] is what [uuid.uuid4()] returns. *)
(* src: fleet_kernel/m8/verification.py sign_attestation *)
Definition sign_attestation (private_key : PrivateKey) (new_id : uuid) (tenant : string)
    (objective obligation : uuid) (identity family subject reference evidence : string)
    (issued : datetime) (outcome : string) (subj_ref subj_sha : option string)
    : res VerificationAttestation :=
  raise_if xorb (bool_decide (subj_ref = None)) (bool_decide (subj_sha = None))
    with VerificationError, "verification subject binding is incomplete" ;;
  let unsigned := {|
    attestation_id := new_id; tenant_id := tenant; objective_id := objective;
    obligation_id := obligation; verifier_identity := identity; verifier_family := family;
    subject_family := subject; verdict := outcome; evidence_ref := reference;
    evidence_sha256 := digest evidence; issued_at := issued; signature := "";
    subject_ref := subj_ref; subject_sha256 := subj_sha;
    evidence_byte_length := match subj_ref with
      | Some _ => Some (Z.of_nat (String.length evidence)) | None => None end |} in
  let! payload := attestation_payload unsigned in
  Ok (with_signature (sign private_key payload) unsigned).

(** ** Trust *)

(* src: fleet_kernel/m8/verification.py TrustedVerifier *)
Record TrustedVerifier := { tv_identity : string; tv_family : string; tv_key : PublicKey }.

(** [artifact_loader k ref] is the answer of the [k]-th call: what is loaded
    may change between two calls. *)
Definition artifact_loader := nat -> string -> res string.

(** [except (KeyError, OSError)], re-raised as [VerificationError(msg)]. *)
Definition unavailable {A} (classes : list exc_class) (msg : string) (m : res A) : res A :=
  match m with
  | Err e => if existsb (is_subclass (exn_class e)) classes then Err (Exn VerificationError msg) else Err e
  | ok => ok
  end.

Definition hours24 : Z := 24 * 3600 * 1000000.

(** The last check of [verify]: a subject binding is all there or not at all. *)
(* src: fleet_kernel/m8/verification.py VerificationTrust.verify@31-48 *)
Definition subject_binding_ok (a : VerificationAttestation) (artifact : string) : bool :=
  match subject_ref a, subject_sha256 a, evidence_byte_length a with
  | None, None, None => true
  | Some r, Some sha, Some n => truthy r && hex64 sha && (n =? Z.of_nat (String.length artifact))
  | _, _, _ => false
  end.

(* src: fleet_kernel/m8/verification.py VerificationTrust.verify *)
Definition verify (verifiers : gmap string TrustedVerifier) (now : datetime)
    (a : VerificationAttestation) (loader : string -> res string) : res unit :=
  let untrusted := Err (Exn VerificationError "verification identity/family is untrusted") in
  match verifiers !! verifier_identity a with
  | None => untrusted
  | Some verifier =>
  if negb (tv_family verifier =? verifier_family a)%string then untrusted else
  raise_if negb (truthy (tenant_id a)) || negb (truthy (evidence_ref a))
           || (verifier_family a =? subject_family a)%string || negb (verdict a =? "pass")%string
    with VerificationError, "verification is absent, non-PASS, or non-independent" ;;
  let stale := Err (Exn VerificationError "verification attestation is stale or future-dated") in
  if negb (aware (issued_at a)) || negb (aware now) then stale else
  let! oldest := dt_plus now (- hours24) in
  if negb ((instant oldest <=? instant (issued_at a)) && (instant (issued_at a) <=? instant now))
  then stale else
  let! payload := attestation_payload a in
  require verify_signature (tv_key verifier) (signature a) payload
    else VerificationError, "verification attestation signature is invalid" ;;
  let! artifact := unavailable [KeyError; OSError] "verification evidence is unavailable"
                     (loader (evidence_ref a)) in
  require (digest artifact =? evidence_sha256 a)%string
    else VerificationError, "verification evidence digest mismatch" ;;
  require subject_binding_ok a artifact
    else VerificationError, "verification subject binding is invalid" ;;
  Ok tt
  end.

(** ** The tables

    [kernel_payroll_review_manifests] is filled elsewhere; only the columns
    that [satisfy_obligation] reads are kept. *)
Record objective := Objective { ob_tenant : string; ob_state : string }.
Record policy := Policy { po_tenant : string; po_family : string }.
Record obligation := Obligation {
  ol_tenant : string; ol_objective : uuid; ol_kind : string; ol_family : string; ol_state : string }.
Record manifest := Manifest {
  mf_tenant : string; mf_objective : uuid; mf_attempt : Z; mf_sha256 : string }.
Record db := Db {
  objectives : gmap uuid objective;
  policies : gmap uuid policy;
  obligations : gmap uuid obligation;
  attestations : gmap uuid VerificationAttestation;
  manifests : list manifest;
}.

(** [btrim(s) <> '']: blanks only. *)
Definition unblank (s : string) : bool := existsb (fun c => negb (code c =? 32)%N) (chars s).
Definition satisfied (l : obligation) : bool := (ol_state l =? "satisfied")%string.

Definition obligations_of (d : db) (tenant : string) (o : uuid) : list (uuid * obligation) :=
  List.filter (fun '(_, l) => (ol_tenant l =? tenant)%string && (ol_objective l =? o)%N)
    (map_to_list (obligations d)).

(** The [EXISTS] of both triggers: a PASS attestation of the obligation. *)
Definition attested (d : db) (i : uuid) (l : obligation) : bool :=
  existsb (fun '(_, a) => (obligation_id a =? i)%N && (tenant_id a =? ol_tenant l)%string
      && (objective_id a =? ol_objective l)%N && (verdict a =? "pass")%string)
    (map_to_list (attestations d)).

(** [kernel_guard_verified_completion]. *)
Definition completion_allowed (d : db) (o : uuid) (tenant : string) : bool :=
  match policies d !! o with
  | Some p =>
      negb (po_tenant p =? tenant)%string ||
      let ls := obligations_of d tenant o in
      match ls with [] => false | _ => forallb (fun '(i, l) => satisfied l && attested d i l) ls end
  | None => true
  end.

(** [UPDATE objectives SET state=s WHERE id=o], through the trigger. *)
Definition set_objective_state (d : db) (o : uuid) (s : string) : res db :=
  match objectives d !! o with
  | None => Ok d
  | Some ob =>
      raise_if (s =? "done")%string && negb (ob_state ob =? "done")%string
               && negb (completion_allowed d o (ob_tenant ob))
        with CheckViolation, "objective completion refused: verification obligations unsatisfied" ;;
      Ok (Db (<[o := Objective (ob_tenant ob) s]> (objectives d)) (policies d) (obligations d)
             (attestations d) (manifests d))
  end.

(** ** Operations *)

Definition unit_sep : string := of_chars [chr 31].
Definition has_sep (s : string) : bool := contains unit_sep s.

Definition obligation_uuid (tenant : string) (o : uuid) (kind : string) : uuid :=
  uuid5 ID_NAMESPACE (tenant +:+ unit_sep +:+ uuid_str o +:+ unit_sep +:+ kind).

(** [INSERT ... ON CONFLICT DO NOTHING] into the two tables: check constraints
    come before the conflict, the foreign key after it. *)
(* src: fleet_kernel/m8/verification.py enroll_objective@23-28 *)
Definition insert_policy (d : db) (o : uuid) (p : policy) : res db :=
  require unblank (po_family p) else CheckViolation, "kernel_objective_verification_policy" ;;
  match policies d !! o with
  | Some _ => Ok d
  | None =>
      require bool_decide (is_Some (objectives d !! o))
        else ForeignKeyViolation, "kernel_objective_verification_policy" ;;
      Ok (Db (objectives d) (<[o := p]> (policies d)) (obligations d) (attestations d) (manifests d))
  end.

(** [SELECT ... WHERE tenant_id AND objective_id AND obligation_kind]. *)
Definition find_kind (d : db) (tenant : string) (o : uuid) (kind : string) : option (uuid * obligation) :=
  List.find (fun '(_, l) => (ol_kind l =? kind)%string) (obligations_of d tenant o).

(* src: fleet_kernel/m8/verification.py enroll_objective@38-43 *)
Definition insert_obligation (d : db) (i : uuid) (l : obligation) : res db :=
  require unblank (ol_kind l) && unblank (ol_family l)
    else CheckViolation, "kernel_verification_obligations" ;;
  match obligations d !! i, find_kind d (ol_tenant l) (ol_objective l) (ol_kind l) with
  | None, None =>
      require bool_decide (is_Some (objectives d !! ol_objective l))
        else ForeignKeyViolation, "kernel_verification_obligations" ;;
      Ok (Db (objectives d) (policies d) (<[i := l]> (obligations d)) (attestations d) (manifests d))
  | _, _ => Ok d
  end.

(* src: fleet_kernel/m8/verification.py enroll_objective@35-50 *)
Definition enroll_one (tenant : string) (o : uuid) (d : db) (kf : string * string) : res db :=
  let '(kind, family) := kf in
  raise_if negb (truthy kind) || negb (truthy family) || has_sep kind || has_sep family
    with ValueError, "obligation kind/family must be non-empty" ;;
  let! d' := insert_obligation d (obligation_uuid tenant o kind)
               (Obligation tenant o kind family "open") in
  match find_kind d' tenant o kind with
  | Some (_, row) =>
      require (ol_family row =? family)%string
        else VerificationError, "verification obligation collision" ;;
      Ok d'
  | None => Err (Exn VerificationError "verification obligation collision")
  end.

Fixpoint enroll_all (tenant : string) (o : uuid) (d : db) (kinds : list (string * string)) : res db :=
  match kinds with
  | [] => Ok d
  | kf :: rest => let! d' := enroll_one tenant o d kf in enroll_all tenant o d' rest
  end.

(** An enrolment that is under way; [e_kinds] are the items of the mapping
    [obligations], in order. *)
Record enrolment := Enrolment {
  e_tenant : string; e_objective : uuid; e_family : string; e_kinds : list (string * string) }.

(** The arguments are checked, and the objective as the [SELECT] finds it. *)
(* src: fleet_kernel/m8/verification.py enroll_objective@4-22 *)
Definition enroll_select (d : db) (e : enrolment) : res unit :=
  raise_if negb (truthy (e_tenant e)) || negb (truthy (e_family e)) || bool_decide (e_kinds e = [])
           || has_sep (e_tenant e) || has_sep (e_family e)
    with ValueError, "verification enrollment requires tenant, subject family, and obligations" ;;
  let mismatch := Err (Exn VerificationError "objective enrollment tenant/state mismatch") in
  match objectives d !! e_objective e with
  | None => mismatch
  | Some ob => if negb (ob_tenant ob =? e_tenant e)%string || (ob_state ob =? "done")%string then mismatch else Ok tt
  end.

(** The rows are inserted into the tables there are then. *)
(* src: fleet_kernel/m8/verification.py enroll_objective@23-50 *)
Definition enroll_insert (d : db) (e : enrolment) : res db :=
  let o := e_objective e in
  let! d1 := insert_policy d o (Policy (e_tenant e) (e_family e)) in
  require match policies d1 !! o with
          | Some p => (po_tenant p =? e_tenant e)%string && (po_family p =? e_family e)%string
          | None => false end
    else VerificationError, "objective verification policy collision" ;;
  enroll_all (e_tenant e) o d1 (e_kinds e).

(** The [SELECT] does not lock the objective: the tables are [d] when it runs and
    [d'] when the rows are inserted. The keys inserted stay locked until the
    transaction commits. *)
(* src: fleet_kernel/m8/verification.py enroll_objective *)
Definition enroll_objective (d d' : db) (tenant : string) (o : uuid) (family : string)
    (kinds : list (string * string)) : res (list (string * uuid) * db) :=
  let e := Enrolment tenant o family kinds in
  let! _ := enroll_select d e in
  let ids := map (fun '(kind, _) => (kind, obligation_uuid tenant o kind)) kinds in
  let! d2 := enroll_insert d' e in
  Ok (ids, d2).

(** [issued_at] is a [TIMESTAMPTZ]: the table keeps the instant. *)
Definition stored (a : VerificationAttestation) : VerificationAttestation := {|
  attestation_id := attestation_id a; tenant_id := tenant_id a; objective_id := objective_id a;
  obligation_id := obligation_id a; verifier_identity := verifier_identity a;
  verifier_family := verifier_family a; subject_family := subject_family a; verdict := verdict a;
  evidence_ref := evidence_ref a; evidence_sha256 := evidence_sha256 a;
  issued_at := to_utc (issued_at a);
  signature := signature a; subject_ref := subject_ref a; subject_sha256 := subject_sha256 a;
  evidence_byte_length := evidence_byte_length a |}.

(* src: fleet_kernel/m8/verification.py satisfy_obligation@50-66 *)
Definition insert_attestation (d : db) (a : VerificationAttestation) : res db :=
  require (verdict a =? "pass")%string && hex64 (evidence_sha256 a) && unblank (verifier_identity a)
          && unblank (evidence_ref a) && negb (verifier_family a =? subject_family a)%string
    else CheckViolation, "kernel_verification_attestations" ;;
  raise_if bool_decide (is_Some (attestations d !! attestation_id a))
           || existsb (fun '(_, b) => (obligation_id b =? obligation_id a)%N)
                (map_to_list (attestations d))
    with UniqueViolation, "kernel_verification_attestations" ;;
  require match obligations d !! obligation_id a with
          | Some l => (ol_tenant l =? tenant_id a)%string && (ol_objective l =? objective_id a)%N
          | None => false end
    else ForeignKeyViolation, "kernel_verification_attestations" ;;
  Ok (Db (objectives d) (policies d) (obligations d)
         (<[attestation_id a := stored a]> (attestations d)) (manifests d)).

(** [UPDATE kernel_verification_obligations SET state='satisfied' WHERE id=i],
    through [kernel_guard_obligation_satisfaction]. *)
(* src: fleet_kernel/m8/verification.py satisfy_obligation@67-70 *)
Definition mark_satisfied (d : db) (i : uuid) : res db :=
  match obligations d !! i with
  | None => Ok d
  | Some l =>
      raise_if negb (satisfied l) && negb (attested d i l)
        with CheckViolation, "verification obligation satisfaction requires PASS attestation" ;;
      Ok (Db (objectives d) (policies d)
             (<[i := Obligation (ol_tenant l) (ol_objective l) (ol_kind l) (ol_family l) "satisfied"]>
                (obligations d))
             (attestations d) (manifests d))
  end.

Definition after_last_colon (s : string) : string :=
  List.last (split_on (chr 58) s) "".

(** The manifest the obligation's kind refers to, if any. *)
(* src: fleet_kernel/m8/verification.py satisfy_obligation@22-32 *)
Definition payroll_manifest (d : db) (a : VerificationAttestation) (kind : string) : option manifest :=
  List.find (fun m => (mf_tenant m =? tenant_id a)%string && (mf_objective m =? objective_id a)%N
      && (kind =? "independent_review:attempt:" +:+ str_Z (mf_attempt m))%string) (manifests d).

(* src: fleet_kernel/m8/verification.py satisfy_obligation@33-49 *)
Definition payroll_binding_ok (a : VerificationAttestation) (kind : string) (m : manifest) : bool :=
  bool_decide (subject_ref a = Some ("kernel-domain-review://" +:+ tenant_id a +:+ "/"
      +:+ uuid_str (objective_id a) +:+ "/attempt/" +:+ after_last_colon kind
      +:+ "/" +:+ mf_sha256 m))
  && bool_decide (subject_sha256 a = Some (mf_sha256 m))
  && negb (bool_decide (evidence_byte_length a = None)).

(* src: fleet_kernel/m8/verification.py satisfy_obligation *)
Definition satisfy_obligation (verifiers : gmap string TrustedVerifier) (now : datetime) (d : db)
    (a : VerificationAttestation) (loader : string -> res string) : res db :=
  let! _ := verify verifiers now a loader in
  let refused := Err (Exn VerificationError "attestation does not satisfy the open obligation") in
  match obligations d !! obligation_id a with
  | None => refused
  | Some l =>
  match policies d !! ol_objective l with
  | None => refused
  | Some p =>
  if negb (ol_tenant l =? tenant_id a)%string || negb (ol_objective l =? objective_id a)%N
     || negb (ol_family l =? verifier_family a)%string
     || negb (po_family p =? subject_family a)%string || negb (ol_state l =? "open")%string
  then refused else
  require match payroll_manifest d a (ol_kind l) with
          | Some m => payroll_binding_ok a (ol_kind l) m | None => true end
    else VerificationError, "payroll verification subject binding is required" ;;
  let! d1 := insert_attestation d a in
  mark_satisfied d1 (obligation_id a)
  end
  end.

(* src: fleet_kernel/m8/verification.py complete_verified_objective *)
Definition complete_verified_objective (d : db) (tenant : string) (o : uuid) : res db :=
  let absent :=
    Err (Exn VerificationError "objective completion target is absent or already done") in
  match objectives d !! o with
  | Some ob =>
      if (ob_tenant ob =? tenant)%string && negb (ob_state ob =? "done")%string
      then set_objective_state d o "done" else absent
  | None => absent
  end.

(** ** Conveyances *)

(** [a == b] of decoded JSON objects whose keys are distinct, [b]'s values
    being strings. *)
Definition same_strings (j : json) (b : list (string * string)) : bool :=
  match j with
  | JObj kvs =>
      (List.length kvs =? List.length b)%nat &&
      forallb (fun '(k, v) => match dict_get k kvs with
        | Some (JStr s) => (s =? v)%string | _ => false end) b
  | _ => false
  end.

(* src: fleet_kernel/m8/verification.py require_verified_conveyance *)
Definition require_verified_conveyance (verifiers : gmap string TrustedVerifier) (now : datetime)
    (disposition : string) (attestation : option VerificationAttestation)
    (loader : artifact_loader) : res unit :=
  require (disposition =? "accept")%string || (disposition =? "refuse")%string
    else ValueError, "conveyance disposition must be accept or refuse" ;;
  match attestation with
  | None => Err (Exn VerificationError ("unverified " +:+ disposition +:+ " conveyance refused"))
  | Some a =>
      let! _ := verify verifiers now a (loader 0%nat) in
      let! payload :=
        unavailable [KeyError; OSError; UnicodeDecodeError; JSONDecodeError]
          "conveyance verification artifact is invalid"
          (let! artifact := loader 1%nat (evidence_ref a) in loads_bytes (chars artifact)) in
      require same_strings payload [("disposition", disposition);
                ("objective_id", uuid_str (objective_id a)); ("verification", "pass")]
        else VerificationError, "verification artifact is bound to another conveyance" ;;
      Ok tt
  end.
End verification.

(** ** Failure families *)

(* src: fleet_kernel/m8/verification.py FailureFamily *)
Record FailureFamily := {
  ff_name : string; ff_actual_node : string; ff_mutation_node : string; ff_origin_ref : string }.

(* src: fleet_kernel/m8/verification.py FAMILIES *)
Definition FAMILIES : list FailureFamily := [
  {| ff_name := "duplicate_delivery";
     ff_actual_node := "tests/test_tier1_kernel_m8_verification_observability.py::test_duplicate_delivery_real_kernel";
     ff_mutation_node := "tests/test_tier1_kernel_m8_verification_observability.py::test_duplicate_delivery_missing_stable_key_mutation";
     ff_origin_ref := "D4:duplicate-delivery" |};
  {| ff_name := "crash_restart";
     ff_actual_node := "tests/test_tier1_kernel_m2_proving_spike.py::TestF_M2_1_CommittedEffectCrashResumeExactlyOnce::test_crash_before_the_shared_commit_never_produces_a_double_debit";
     ff_mutation_node := "tests/test_tier1_kernel_m2_proving_spike.py::TestF_M2_1_CommittedEffectCrashResumeExactlyOnce::test_mutation_reverting_to_the_old_step_decorator_reproduces_the_double_debit";
     ff_origin_ref := "D4:F-M2-1-real-process-crash" |};
  {| ff_name := "network_partition";
     ff_actual_node := "tests/test_tier1_kernel_m8_verification_observability.py::test_network_partition_real_socket_kill";
     ff_mutation_node := "tests/test_tier1_kernel_m8_verification_observability.py::test_network_partition_commit_boundary_mutation";
     ff_origin_ref := "D4:socket-kill" |};
  {| ff_name := "credential_revocation";
     ff_actual_node := "tests/test_tier1_kernel_m8_verification_observability.py::test_credential_revocation_real_database";
     ff_mutation_node := "tests/test_tier1_kernel_m8_verification_observability.py::test_credential_revocation_privileged_credential_mutation";
     ff_origin_ref := "D5:credential-revoke-reissue" |};
  {| ff_name := "timeout_stale_owner";
     ff_actual_node := "tests/test_tier1_kernel_m2_proving_spike.py::TestFencingStaleOwnerRefused::test_stale_owner_write_refused_after_transfer";
     ff_mutation_node := "tests/test_tier1_kernel_m2_proving_spike.py::TestFencingStaleOwnerRefused::test_mutation_an_unguarded_write_would_corrupt";
     ff_origin_ref := "D4:stale-owner-resumes" |};
  {| ff_name := "historical_failure";
     ff_actual_node := "tests/test_tier1_oil173_frozen_owner_gate.py::test_dead_marker_pid_plus_stale_init_is_frozen";
     ff_mutation_node := "tests/test_tier1_kernel_m3_f1_golden_transcript.py::TestRealCheckedInCycle::test_manifest_exact_timestamp_refuses_nearest_row_substitution";
     ff_origin_ref := "F1-real-cycle+OIL-224" |}].

(* src: fleet_kernel/m8/verification.py EXPECTED_FAMILIES *)
Definition EXPECTED_FAMILIES : list string := [
  "duplicate_delivery"; "crash_restart"; "network_partition";
  "credential_revocation"; "timeout_stale_owner"; "historical_failure"].

(* src: fleet_kernel/m8/verification.py EXPECTED_FAMILY_MANIFEST_SHA256 *)
Definition EXPECTED_FAMILY_MANIFEST_SHA256 : string :=
  "0565248225020db3e5f16d88e3ff0dcedc27980a486beefe2697d0eb340afdbf".

Section families.
  Context `{Digest}.

(* src: fleet_kernel/m8/verification.py family_manifest_sha256 *)
Definition family_manifest_sha256 (families : list FailureFamily) : string :=
  digest (dumps (JArr (map (fun f => JObj [
    ("name", JStr (ff_name f)); ("actual_node", JStr (ff_actual_node f));
    ("mutation_node", JStr (ff_mutation_node f)); ("origin_ref", JStr (ff_origin_ref f))]) families))).

Definition subset (a b : list string) : bool := forallb (fun x => existsb (String.eqb x) b) a.

(** The module's constants are the argument of the shipped call. *)
(* src: fleet_kernel/m8/verification.py assert_family_manifest *)
Definition assert_family_manifest (families : list FailureFamily) : res unit :=
  let names := map ff_name families in
  raise_if negb (subset names EXPECTED_FAMILIES && subset EXPECTED_FAMILIES names)
           || negb (List.length names =? List.length EXPECTED_FAMILIES)%nat
    with VerificationError, "nightly failure-family manifest is incomplete" ;;
  require (family_manifest_sha256 families =? EXPECTED_FAMILY_MANIFEST_SHA256)%string
    else VerificationError, "nightly failure-family manifest digest is not pinned" ;;
  let nodes := flat_map (fun f => [ff_actual_node f; ff_mutation_node f]) families in
  raise_if negb (bool_decide (NoDup nodes)) || existsb (fun n => negb (startswith n "tests/")) nodes
    with VerificationError, "nightly failure families require distinct executable nodes" ;;
  Ok tt.
End families.

(** ** Calibration *)

(* src: fleet_kernel/m8/verification.py CalibrationCase *)
Record CalibrationCase := {
  case_id : string; defective : bool; verifier_passed : bool;
  source_ref : string; source_sha256 : string }.

(* src: fleet_kernel/m8/verification.py CalibrationReport *)
Record CalibrationReport := {
  measured_at : string; corpus_size : Z; false_accepts : Z; false_rejects : Z;
  false_accept_rate : Q; false_reject_rate : Q; corpus_sha256 : string }.

(* src: fleet_kernel/m8/verification.py CalibrationReport.to_json *)
Definition to_json (r : CalibrationReport) : string :=
  dumps (JObj [
    ("measured_at", JStr (measured_at r)); ("corpus_size", JInt (corpus_size r));
    ("false_accepts", JInt (false_accepts r)); ("false_rejects", JInt (false_rejects r));
    ("false_accept_rate", JFloat (false_accept_rate r));
    ("false_reject_rate", JFloat (false_reject_rate r));
    ("corpus_sha256", JStr (corpus_sha256 r))]).

Definition count {A} (f : A -> bool) (l : list A) : Z := Z.of_nat (List.length (List.filter f l)).

(** [a / b] of two counts. *)
Definition rate (a b : Z) : res Q :=
  if b =? 0 then Err (Exn (OtherError "ZeroDivisionError") "division by zero")
  else Ok (truediv a (Z.to_pos b)).

(* src: fleet_kernel/m8/verification.py calibrate_verifier *)
Definition calibrate_verifier `{Digest} `{IsoTime} (cases : list CalibrationCase) (at_ : datetime)
    : res CalibrationReport :=
  raise_if bool_decide (List.length cases = 0%nat) || negb (aware at_)
           || negb (existsb defective cases) || negb (existsb (fun c => negb (defective c)) cases)
           || existsb (fun c => negb (truthy (case_id c)) || negb (truthy (source_ref c))
                || negb (hex64 (source_sha256 c))) cases
    with VerificationError, "calibration requires a timestamped mixed seeded corpus" ;;
  let size := Z.of_nat (List.length cases) in
  let bad := count defective cases in
  let clean := size - bad in
  let fa := count (fun c => defective c && verifier_passed c) cases in
  let fr := count (fun c => negb (defective c) && negb (verifier_passed c)) cases in
  let raw := dumps (JArr (map (fun c => JObj [
    ("case_id", JStr (case_id c)); ("defective", JBool (defective c));
    ("verifier_passed", JBool (verifier_passed c)); ("source_ref", JStr (source_ref c));
    ("source_sha256", JStr (source_sha256 c))]) cases)) in
  let! far := rate fa bad in
  let! frr := rate fr clean in
  Ok {| measured_at := isoformat at_; corpus_size := size; false_accepts := fa; false_rejects := fr;
        false_accept_rate := far; false_reject_rate := frr; corpus_sha256 := digest raw |}.

(** ** What the checks establish *)

Lemma negb_if {A} (b : bool) (x y : A) : (if negb b then x else y) = if b then y else x.
Proof. by destruct b. Qed.

Section proofs.
  Context `{Digest} `{IsoTime} `{Ed25519} `{JsonLimits}.
  Variable (localtime : datetime -> datetime) (verifiers : gmap string TrustedVerifier).

(** What [verify] has checked of an attestation it accepts. *)
Record trusted (now : datetime) (a : VerificationAttestation) (loader : string -> res string)
    (v : TrustedVerifier) (payload artifact : string) : Prop := {
  tr_verifier : verifiers !! verifier_identity a = Some v;
  tr_family : tv_family v = verifier_family a;
  tr_named : tenant_id a <> "" /\ evidence_ref a <> "";
  tr_independent : verifier_family a <> subject_family a;
  tr_verdict : verdict a = "pass";
  tr_aware : aware (issued_at a) = true /\ aware now = true;
  tr_fresh : instant now - hours24 <= instant (issued_at a) <= instant now;
  tr_payload : attestation_payload localtime a = Ok payload;
  tr_signature : verify_signature (tv_key v) (signature a) payload = true;
  tr_artifact : loader (evidence_ref a) = Ok artifact;
  tr_evidence : digest artifact = evidence_sha256 a;
  tr_subject : subject_binding_ok a artifact = true;
}.

Lemma dt_plus_ok d us d' : dt_plus d us = Ok d' -> d' = dt_add d us.
Proof. unfold dt_plus. destruct (in_range _); [by intros [= <-]|done]. Qed.

Lemma instant_add d us : instant (dt_add d us) = instant d + us.
Proof. unfold instant, dt_add. simpl. destruct (dt_off d); lia. Qed.

Lemma unavailable_ok {A} cs msg (m : res A) x : unavailable cs msg m = Ok x -> m = Ok x.
Proof. destruct m as [|e]; simpl; [done|]. by destruct (existsb _ _). Qed.

Lemma verify_ok now a loader :
  verify localtime verifiers now a loader = Ok tt <->
  (exists v payload artifact, trusted now a loader v payload artifact) /\
  is_ok (dt_plus now (- hours24)) = true.
Proof.
  unfold verify. split.
  - destruct (verifiers !! verifier_identity a) as [v|] eqn:Ev; [|done].
    rewrite !negb_if. destruct (String.eqb_spec (tv_family v) (verifier_family a)) as [Ef|]; [|done].
    intros [Hg E]%raise_if_ok. rewrite !orb_false_iff, !negb_false_iff in Hg.
    destruct Hg as [[[Ht Hr] Hi] Hv]. destruct (aware (issued_at a)) eqn:Ai; [|done].
    destruct (aware now) eqn:An; [|done]. cbn [negb orb] in E.
    destruct (dt_plus now (- hours24)) as [oldest|] eqn:Eo; [|done]. cbn [rbind] in E.
    apply dt_plus_ok in Eo as ->. rewrite instant_add, negb_if in E.
    destruct (_ && _) eqn:Ew; [|done]. apply andb_true_iff in Ew as [?%Z.leb_le ?%Z.leb_le].
    destruct (attestation_payload localtime a) as [payload|] eqn:Ep; [|done]. cbn [rbind] in E.
    apply require_ok in E as [Es E]. apply rbind_ok in E as (artifact & Ea%unavailable_ok & E).
    apply require_ok in E as [Ed E]. apply require_ok in E as [Eb _].
    split; [|done]. exists v, payload, artifact. constructor; try done.
    + split; intros X; rewrite X in *; done.
    + by apply String.eqb_neq.
    + by apply String.eqb_eq.
    + by apply String.eqb_eq.
  - intros [(v & payload & artifact & T) Hd]. destruct T as [Tv Tf [Tt Tr] Ti Tp [Ta Tn] Tw Ty Ts Tl Te Tb].
    rewrite Tv, Tf, String.eqb_refl. cbn [negb].
    rewrite Tp, (proj2 (String.eqb_neq _ _) Ti).
    destruct (tenant_id a); [done|]. destruct (evidence_ref a) eqn:Er; [done|]. cbn [truthy negb orb].
    rewrite Ta, Tn. cbn [negb orb]. destruct (dt_plus now (- hours24)) as [oldest|] eqn:Eo; [|done].
    cbn [rbind]. apply dt_plus_ok in Eo as ->. rewrite instant_add.
    rewrite (proj2 (Z.leb_le _ _)), (proj2 (Z.leb_le _ _)) by lia. cbn [andb negb].
    rewrite Ty. cbn [rbind]. rewrite Ts. rewrite Tl. cbn [unavailable rbind].
    by rewrite Te, !String.eqb_refl, Tb.
Qed.

(** ** Signatures bind *)

(** What the signature covers: everything but itself, [issued_at] up to its
    zone. *)
Definition covered (a : VerificationAttestation) :=
  (attestation_id a, tenant_id a, objective_id a, obligation_id a, verifier_identity a,
   verifier_family a, subject_family a, verdict a, evidence_ref a, evidence_sha256 a,
   instant (issued_at a), (subject_ref a, subject_sha256 a, evidence_byte_length a)).

Definition ids_ok (a : VerificationAttestation) : Prop :=
  uuid_ok (attestation_id a) /\ uuid_ok (objective_id a) /\ uuid_ok (obligation_id a).

Lemma jopt_str_inj (a b : option string) : jopt JStr a = jopt JStr b -> a = b.
Proof. destruct a, b; simpl; congruence. Qed.
Lemma jopt_int_inj (a b : option Z) : jopt JInt a = jopt JInt b -> a = b.
Proof. destruct a, b; simpl; congruence. Qed.

Lemma utc_valid d u : dt_to_utc d = Ok u -> dt_valid u /\ dt_wall u = instant d.
Proof.
  unfold dt_to_utc, in_range. intros [Hr [= <-]]%require_ok. unfold dt_valid, to_utc. simpl. lia.
Qed.

Lemma fields_inj a b u w :
  dumps (JObj (attestation_fields a u)) = dumps (JObj (attestation_fields b w)) ->
  attestation_fields a u = attestation_fields b w.
Proof.
  apply dumps_fields_inj; unfold attestation_fields; [done|..];
    [destruct (subject_ref a), (subject_sha256 a), (evidence_byte_length a)
    |destruct (subject_ref b), (subject_sha256 b), (evidence_byte_length b)]; reflexivity.
Qed.

Lemma as_utc_instant a u :
  as_utc localtime (issued_at a) = Ok u -> aware (issued_at a) = true ->
  dt_valid u /\ dt_wall u = instant (issued_at a) /\ dt_off u = Some 0.
Proof.
  unfold as_utc. intros E Ha. rewrite Ha in E. pose proof (utc_valid _ _ E) as [V W].
  split_and!; [done..|]. unfold dt_to_utc in E. apply require_ok in E as [_ [= <-]]. done.
Qed.

(** A signature cannot be moved to another statement: two attestations with
    the same signed payload agree on every field, up to the zone in which
    [issued_at] is written. *)
Theorem signature_binds_attestation a b payload :
  attestation_payload localtime a = Ok payload -> attestation_payload localtime b = Ok payload ->
  ids_ok a -> ids_ok b -> aware (issued_at a) = true -> aware (issued_at b) = true ->
  covered a = covered b.
Proof.
  unfold attestation_payload. intros Ea Eb (A1 & A2 & A3) (B1 & B2 & B3) Wa Wb.
  apply rbind_ok in Ea as (u & Ua & [= Pa]). apply rbind_ok in Eb as (w & Uw & [= Pb]).
  rewrite <- Pb in Pa. apply fields_inj in Pa. unfold attestation_fields in Pa.
  pose proof uuid_str_inj as J. revert J Pa. generalize uuid_str. intros show J Pa.
  injection Pa as I1 I2 I3 I4 I5 I6 I7 I8 I9 I10 I11 I12 I13 I14.
  apply as_utc_instant in Ua as (Vu & Wu & _); [|done].
  apply as_utc_instant in Uw as (Vw & Ww & _); [|done].
  apply isoformat_inj in I11; [|done..]. apply J in I1, I3, I4; [|done..].
  apply jopt_str_inj in I12, I13. apply jopt_int_inj in I14.
  unfold covered. congruence.
Qed.

Lemma signed_fields k i t o b vi vf sf er ev ti vd sr ss a :
  sign_attestation localtime k i t o b vi vf sf er ev ti vd sr ss = Ok a ->
  exists payload, attestation_payload localtime a = Ok payload /\ signature a = sign k payload /\
    verifier_identity a = vi /\ verifier_family a = vf /\ subject_family a = sf /\ tenant_id a = t /\
    evidence_ref a = er /\ evidence_sha256 a = digest ev /\ issued_at a = ti /\ verdict a = vd /\
    subject_ref a = sr /\ subject_sha256 a = ss /\ (sr = None <-> ss = None) /\
    evidence_byte_length a =
      match sr with Some _ => Some (Z.of_nat (String.length ev)) | None => None end.
Proof.
  unfold sign_attestation. intros [Hx E]%raise_if_ok. apply rbind_ok in E as (p & Ep & [= <-]).
  exists p. split; [exact Ep|]. repeat (split; [reflexivity|]). split; [|reflexivity].
  by destruct sr, ss.
Qed.

(** What a registered key signs as a PASS over evidence, within the last 24
    hours and for a subject of another family, [verify] accepts wherever the
    evidence can be loaded unchanged. *)
Theorem signed_attestation_verifies k i t o b v vf sf er ev ti sr ss now loader a :
  sign_attestation localtime k i t o b (tv_identity v) vf sf er ev ti "pass" sr ss = Ok a ->
  verifiers !! tv_identity v = Some v -> tv_family v = vf -> tv_key v = public_key k ->
  t <> "" -> er <> "" -> vf <> sf -> (forall r, sr = Some r -> r <> "") ->
  (forall x, ss = Some x -> hex64 x = true) ->
  aware ti = true -> aware now = true -> dt_wall now >= hours24 ->
  dt_wall now < max_wall ->
  instant now - hours24 <= instant ti <= instant now -> loader er = Ok ev ->
  verify localtime verifiers now a loader = Ok tt.
Proof.
  intros S Hv Hf Hk Ht Hr Hi Hsr Hss Ai An Lo Hi' Hw Hl. apply verify_ok.
  apply signed_fields in S
    as (p & Ep & Es & Evi & Evf & Esf & Et & Eer & Eev & Eis & Evd & Esr & Ess & Hn & Ebl).
  split.
  - exists v, p, ev. constructor; rewrite ?Evi, ?Evf, ?Esf, ?Et, ?Eer, ?Eev, ?Eis, ?Evd; try done.
    + rewrite Es, Hk. apply verify_sign.
    + unfold subject_binding_ok. rewrite Esr, Ess, Ebl. destruct sr as [r|], ss as [x|]; try done.
      * rewrite Z.eqb_refl, (Hss x) by done. specialize (Hsr r eq_refl). by destruct r.
      * discriminate (proj2 Hn eq_refl).
      * discriminate (proj1 Hn eq_refl).
  - unfold dt_plus, in_range.
    rewrite (proj2 (Z.leb_le _ _)), (proj2 (Z.ltb_lt _ _)); [done|unfold hours24 in *; lia..].
Qed.
End proofs.

(** ** Histories

    Objectives and manifests are created, and objective states changed, by the
    rest of the kernel too; every change of state goes through the trigger. *)
Definition empty_db : db := Db ∅ ∅ ∅ ∅ [].
Definition is_done (d : db) (o : uuid) : bool :=
  match objectives d !! o with Some ob => (ob_state ob =? "done")%string | None => false end.

(** The tables, the enrolments under way, and for the statements the obligations
    and the policies that came when their objective was done already. *)
Record kernel := Kernel { k_db : db; k_open : list enrolment; k_late : gset uuid; k_late_policies : gset uuid }.
Definition with_db (k : kernel) (d : db) : kernel := Kernel d (k_open k) (k_late k) (k_late_policies k).
(** The keys that are new, if the objective was done. *)
Definition late {A} (d : db) (o : uuid) (before after : gmap uuid A) : gset uuid :=
  if is_done d o then dom after ∖ dom before else ∅.
Definition empty_kernel : kernel := Kernel empty_db [] ∅ ∅.

Section history.
  Context `{Digest} `{IsoTime} `{Ed25519} `{JsonLimits}.
  Variable (localtime : datetime -> datetime) (verifiers : gmap string TrustedVerifier).

Inductive step (k : kernel) : kernel -> Prop :=
  | step_create o ob : let d := k_db k in
      objectives d !! o = None ->
      step k (with_db k (Db (<[o := ob]> (objectives d)) (policies d) (obligations d) (attestations d) (manifests d)))
  | step_manifest m : let d := k_db k in
      step k (with_db k (Db (objectives d) (policies d) (obligations d) (attestations d) (m :: manifests d)))
  | step_state o s d' : set_objective_state (k_db k) o s = Ok d' -> step k (with_db k d')
  | step_enroll_begins e : enroll_select (k_db k) e = Ok tt ->
      step k (Kernel (k_db k) (e :: k_open k) (k_late k) (k_late_policies k))
  | step_enroll_commits l1 e l2 d' : let d := k_db k in
      k_open k = l1 ++ e :: l2 -> enroll_insert d e = Ok d' ->
      step k (Kernel d' (l1 ++ l2) (k_late k ∪ late d (e_objective e) (obligations d) (obligations d'))
                (k_late_policies k ∪ late d (e_objective e) (policies d) (policies d')))
  | step_enroll_raises l1 e l2 :
      k_open k = l1 ++ e :: l2 -> step k (Kernel (k_db k) (l1 ++ l2) (k_late k) (k_late_policies k))
  | step_satisfy now a loader d' :
      satisfy_obligation localtime verifiers now (k_db k) a loader = Ok d' -> step k (with_db k d')
  | step_complete t o d' : complete_verified_objective (k_db k) t o = Ok d' -> step k (with_db k d').

(** An attestation that [verify] accepted at some time, as its row, for the
    obligation [l] stored under [i], whose objective has policy [p]. *)
Definition attests (d : db) (i : uuid) (l : obligation) (p : policy) : Prop :=
  exists a now loader,
    attestations d !! attestation_id a = Some (stored a) /\
    verify localtime verifiers now a loader = Ok tt /\
    obligation_id a = i /\ tenant_id a = ol_tenant l /\ objective_id a = ol_objective l /\
    verifier_family a = ol_family l /\ subject_family a = po_family p.

(** [lo] and [lp] are the late obligations and policies. *)
Record good (lo lp : gset uuid) (d : db) : Prop := {
  g_policy o p : policies d !! o = Some p ->
    exists ob, objectives d !! o = Some ob /\ ob_tenant ob = po_tenant p;
  g_obligation i l : obligations d !! i = Some l ->
    exists p, policies d !! ol_objective l = Some p /\ po_tenant p = ol_tenant l /\
      (ol_state l = "open" \/ ol_state l = "satisfied" /\ attests d i l p);
  g_done o ob p : objectives d !! o = Some ob -> ob_state ob = "done" -> policies d !! o = Some p ->
    (o ∉ lp -> exists i l, obligations d !! i = Some l /\ ol_objective l = o) /\
    forall i l, obligations d !! i = Some l -> ol_objective l = o -> i ∉ lo -> ol_state l = "satisfied";
}.

Lemma elem_obligations_of d t o i l :
  (i, l) ∈ obligations_of d t o <->
  obligations d !! i = Some l /\ ol_tenant l = t /\ ol_objective l = o.
Proof.
  unfold obligations_of. rewrite list_elem_of_In, filter_In, <- list_elem_of_In, elem_of_map_to_list.
  by rewrite andb_true_iff, String.eqb_eq, N.eqb_eq.
Qed.

Lemma completion_allowed_spec d o t p :
  policies d !! o = Some p -> po_tenant p = t -> completion_allowed d o t = true ->
  (exists i l, obligations d !! i = Some l /\ ol_tenant l = t /\ ol_objective l = o) /\
  forall i l, obligations d !! i = Some l -> ol_tenant l = t -> ol_objective l = o -> satisfied l = true.
Proof.
  unfold completion_allowed. intros -> <- E. rewrite String.eqb_refl in E. cbn [negb orb] in E.
  destruct (obligations_of d (po_tenant p) o) as [|[i l] ls] eqn:El; [done|]. split.
  - exists i, l. apply elem_obligations_of. rewrite El. left.
  - intros i' l' Hl Ht Ho. rewrite forallb_forall in E.
    assert (Hin : (i', l') ∈ (i, l) :: ls) by (rewrite <- El; by apply elem_obligations_of).
    apply list_elem_of_In, E in Hin. by apply andb_true_iff in Hin as [-> _].
Qed.

Lemma good_empty : good ∅ ∅ empty_db.
Proof. by split. Qed.
Lemma good_more lo lp lo' lp' d : good lo lp d -> lo ⊆ lo' -> lp ⊆ lp' -> good lo' lp' d.
Proof.
  intros [G1 G2 G3] So Sp. split; [done..|]. intros o ob p Eo Ed Ep. destruct (G3 o ob p Eo Ed Ep) as [Hx Ha].
  split; [intros N; apply Hx; set_solver|]. intros i l El Ho N. apply (Ha i l El Ho). set_solver.
Qed.

Section late_sets.
  Context (lo lp : gset uuid).

Lemma attests_mono d d' i l l' p :
  attests d i l p -> (forall k a, attestations d !! k = Some a -> attestations d' !! k = Some a) ->
  ol_tenant l' = ol_tenant l -> ol_objective l' = ol_objective l -> ol_family l' = ol_family l ->
  attests d' i l' p.
Proof.
  intros (a & now & ld & ? & ? & ? & ? & ? & ? & ?) M E1 E2 E3. exists a, now, ld. split_and!; auto; congruence.
Qed.

(** *** Changes of an objective *)

Lemma good_objectives d o ob :
  good lo lp d ->
  (forall ob0, objectives d !! o = Some ob0 -> ob_tenant ob = ob_tenant ob0) ->
  (forall p, policies d !! o = Some p -> objectives d !! o <> None) ->
  (ob_state ob = "done" -> forall p, policies d !! o = Some p ->
    (o ∉ lp -> exists i l, obligations d !! i = Some l /\ ol_objective l = o) /\
    forall i l, obligations d !! i = Some l -> ol_objective l = o -> i ∉ lo -> ol_state l = "satisfied") ->
  good lo lp (Db (<[o := ob]> (objectives d)) (policies d) (obligations d) (attestations d) (manifests d)).
Proof.
  intros [G1 G2 G3] Ht Hp Hd. split; cbn.
  - intros o' p E. destruct (decide (o' = o)) as [->|Ne].
    + exists ob. rewrite lookup_insert_eq. split; [done|].
      destruct (G1 _ _ E) as (ob0 & E0 & <-). auto.
    + rewrite lookup_insert_ne by done. by apply G1.
  - exact G2.
  - intros o' ob' p E Hs Ep. destruct (decide (o' = o)) as [->|Ne].
    + rewrite lookup_insert_eq in E. injection E as <-. eauto.
    + rewrite lookup_insert_ne in E by done. eauto.
Qed.

Lemma good_state d o s d' : good lo lp d -> set_objective_state d o s = Ok d' -> good lo lp d'.
Proof.
  intros G E. pose proof G as [G1 G2 G3]. unfold set_objective_state in E.
  destruct (objectives d !! o) as [ob|] eqn:Eo; [|by injection E as <-].
  apply raise_if_ok in E as [Hc [= <-]]. apply good_objectives; [done| |by rewrite Eo|]; cbn.
  - intros ob0. rewrite Eo. by intros [= ->].
  - intros -> p Ep. rewrite String.eqb_refl in Hc. cbn [andb] in Hc.
    destruct (String.eqb_spec (ob_state ob) "done") as [Es|_]; [by eapply G3|].
    cbn [negb andb] in Hc. apply negb_false_iff in Hc.
    destruct (G1 _ _ Ep) as (ob0 & E0 & Et). rewrite Eo in E0. injection E0 as <-.
    destruct (completion_allowed_spec _ _ _ _ Ep (eq_sym Et) Hc) as [(i & l & Hl & _ & Ho) Hall].
    split; [by exists i, l|]. intros i' l' Hl' Ho' _.
    destruct (G2 _ _ Hl') as (p' & Ep' & Ht' & _). rewrite Ho', Ep in Ep'. injection Ep' as <-.
    apply String.eqb_eq, (Hall i' l'); congruence.
Qed.

(** *** Enrolment *)

Lemma insert_policy_spec d o p d' :
  insert_policy d o p = Ok d' ->
  d' = d \/ policies d !! o = None /\
    d' = Db (objectives d) (<[o := p]> (policies d)) (obligations d) (attestations d) (manifests d).
Proof.
  unfold insert_policy. intros [_ E]%require_ok. destruct (policies d !! o) eqn:Eo.
  - left. by injection E.
  - right. apply require_ok in E as [_ [= <-]]. done.
Qed.

Lemma insert_obligation_spec d i l d' :
  insert_obligation d i l = Ok d' ->
  d' = d \/ obligations d !! i = None /\
    d' = Db (objectives d) (policies d) (<[i := l]> (obligations d)) (attestations d) (manifests d).
Proof.
  unfold insert_obligation. intros [_ E]%require_ok.
  destruct (obligations d !! i) eqn:Ei; [left; by injection E|].
  destruct (find_kind _ _ _ _); [left; by injection E|].
  right. apply require_ok in E as [_ [= <-]]. done.
Qed.

Lemma good_insert_obligation d i l ob p :
  good lo lp d -> obligations d !! i = None -> ol_state l = "open" ->
  objectives d !! ol_objective l = Some ob -> (ob_state ob = "done" -> i ∈ lo) ->
  policies d !! ol_objective l = Some p -> po_tenant p = ol_tenant l ->
  good lo lp (Db (objectives d) (policies d) (<[i := l]> (obligations d)) (attestations d) (manifests d)).
Proof.
  intros [G1 G2 G3] Hi Hs Eo Nd Ep Et. split; cbn; [exact G1|..].
  - intros i' l' E. destruct (decide (i' = i)) as [->|Ne].
    + rewrite lookup_insert_eq in E. injection E as <-. exists p. auto.
    + rewrite lookup_insert_ne in E by done. exact (G2 _ _ E).
  - intros o' ob' p' E' Hd Ep'. destruct (G3 _ _ _ E' Hd Ep') as [Hex Hall].
    split.
    + intros N. destruct (Hex N) as (i0 & l0 & H0' & Ho). exists i0, l0. rewrite lookup_insert_ne by congruence. done.
    + intros i' l' E Ho' N. destruct (decide (i' = i)) as [->|Ne].
      * rewrite lookup_insert_eq in E. injection E as <-. destruct N. apply Nd. congruence.
      * rewrite lookup_insert_ne in E by done. eauto.
Qed.

Lemma enroll_one_spec t o d kf d' :
  enroll_one t o d kf = Ok d' ->
  d' = d \/ exists i, obligations d !! i = None /\
    d' = Db (objectives d) (policies d) (<[i := Obligation t o kf.1 kf.2 "open"]> (obligations d))
            (attestations d) (manifests d).
Proof.
  destruct kf as [k f]. unfold enroll_one. intros [_ E]%raise_if_ok.
  apply rbind_ok in E as (d1 & E1 & E). assert (d' = d1) as ->.
  { destruct (find_kind _ _ _ _) as [[? ?]|]; [|done]. by apply require_ok in E as [_ [= <-]]. }
  apply insert_obligation_spec in E1 as [->|[Hi ->]]; [by left|right]. eauto.
Qed.

Lemma enroll_all_keeps t o ks d d' : enroll_all t o d ks = Ok d' ->
  objectives d' = objectives d /\ policies d' = policies d /\ dom (obligations d) ⊆ dom (obligations d').
Proof.
  revert d. induction ks as [|kf ks IH]; cbn; intros d E; [by injection E as <-|].
  apply rbind_ok in E as (d1 & E1 & (E2 & E3 & E4)%IH).
  apply enroll_one_spec in E1 as [->|(i & Hi & ->)]; [done|]. cbn in *. set_solver.
Qed.

Lemma good_enroll_all t o ks d d' ob p :
  good lo lp d -> objectives d !! o = Some ob ->
  (ob_state ob = "done" -> dom (obligations d') ∖ dom (obligations d) ⊆ lo) ->
  policies d !! o = Some p -> po_tenant p = t -> enroll_all t o d ks = Ok d' -> good lo lp d'.
Proof.
  intros G Eo Nd Ep Et. revert d G Eo Nd Ep. induction ks as [|kf ks IH]; cbn; intros d G Eo Nd Ep E.
  - by injection E as <-.
  - apply rbind_ok in E as (d1 & E1 & E). pose proof (enroll_all_keeps _ _ _ _ _ E) as (_ & _ & S).
    apply enroll_one_spec in E1 as [->|(i & Hi & ->)]; [by eapply IH|]. apply not_elem_of_dom in Hi as Hi'.
    cbn in S. eapply IH; [| | | |exact E]; [|done| |done].
    + eapply good_insert_obligation; [done..| |done|done]. intros Hd%Nd. set_solver.
    + intros Hd%Nd. cbn. set_solver.
Qed.

Lemma good_insert_policy d o p ob :
  good lo lp d -> policies d !! o = None -> objectives d !! o = Some ob -> ob_tenant ob = po_tenant p ->
  (ob_state ob = "done" -> o ∈ lp) ->
  (forall i l, obligations d !! i = Some l -> ol_objective l <> o) ->
  good lo lp (Db (objectives d) (<[o := p]> (policies d)) (obligations d) (attestations d) (manifests d)).
Proof.
  intros [G1 G2 G3] Hn Eo Et Nd No. split; cbn.
  - intros o' p' E. destruct (decide (o' = o)) as [->|Ne].
    + rewrite lookup_insert_eq in E. injection E as <-. eauto.
    + rewrite lookup_insert_ne in E by done. eauto.
  - intros i l E. destruct (G2 _ _ E) as (p' & Ep' & Hx). exists p'.
    rewrite lookup_insert_ne by congruence. done.
  - intros o' ob' p' E' Hd Ep'. destruct (decide (o' = o)) as [->|Ne].
    + split; [intros []; apply Nd; congruence|]. intros i l El Ho. by destruct (No i l El).
    + rewrite lookup_insert_ne in Ep' by congruence. eauto.
Qed.
End late_sets.

(** The policy of an objective comes before its obligations. *)
Lemma no_obligation lo lp d o i l : good lo lp d -> policies d !! o = None -> obligations d !! i = Some l -> ol_objective l <> o.
Proof. intros G Hn E Ho. destruct (g_obligation _ _ _ G _ _ E) as (p & Ep & _). congruence. Qed.

(** An enrolment under way is of an objective of its tenant. *)
Definition begun (d : db) (e : enrolment) : Prop :=
  exists ob, objectives d !! e_objective e = Some ob /\ ob_tenant ob = e_tenant e.

Lemma select_begun d e : enroll_select d e = Ok tt -> begun d e /\ is_done d (e_objective e) = false.
Proof.
  unfold enroll_select, begun, is_done. intros [_ E]%raise_if_ok. destruct (objectives d !! e_objective e) as [ob|]; [|done].
  destruct (_ || _) eqn:Hg; [done|]. apply orb_false_iff in Hg as [Ht%negb_false_iff%String.eqb_eq Hs].
  split; [by exists ob|exact Hs].
Qed.

Lemma good_enroll lo lp d e d' :
  good lo lp d -> begun d e -> enroll_insert d e = Ok d' ->
  good (lo ∪ late d (e_objective e) (obligations d) (obligations d'))
       (lp ∪ late d (e_objective e) (policies d) (policies d')) d' /\ objectives d' = objectives d.
Proof.
  intros G (ob & Eo & Ht) E. unfold enroll_insert in E.
  apply rbind_ok in E as (d1 & E1 & E). apply require_ok in E as [Hp E].
  destruct (policies d1 !! e_objective e) as [p|] eqn:Ep; [|done].
  apply andb_true_iff in Hp as [Hp%String.eqb_eq _]. pose proof (enroll_all_keeps _ _ _ _ _ E) as (Ko & Kp & _).
  set (lo' := lo ∪ _). set (lp' := lp ∪ _).
  assert (good lo' lp' d) as G' by (apply (good_more lo lp); [done|apply union_subseteq_l..]).
  assert (late d (e_objective e) (obligations d) (obligations d') ⊆ lo') as So by apply union_subseteq_r.
  assert (late d (e_objective e) (policies d) (policies d') ⊆ lp') as Sp by apply union_subseteq_r.
  assert (ob_state ob = "done" -> is_done d (e_objective e) = true) as Hd.
  { unfold is_done. rewrite Eo. by intros ->. }
  unfold late in So, Sp.
  apply insert_policy_spec in E1 as [->|[Hn ->]]; cbn in *.
  - split; [|done]. eapply good_enroll_all; [exact G'|exact Eo| |exact Ep|done|exact E].
    intros X%Hd. by rewrite X in So.
  - split; [|done]. rewrite lookup_insert_eq in Ep. injection Ep as <-.
    eapply good_enroll_all; [| | | | |exact E]; [|exact Eo| |apply lookup_insert_eq|done].
    + eapply good_insert_policy; [done|done|exact Eo|done| |intros i l; by eapply no_obligation].
      intros X%Hd. rewrite X, Kp in Sp. apply Sp. apply elem_of_difference. split; [set_solver|]. by apply not_elem_of_dom.
    + intros X%Hd. by rewrite X in So.
Qed.

(** *** Satisfying an obligation *)

Lemma insert_attestation_spec d a d' :
  insert_attestation d a = Ok d' ->
  attestations d !! attestation_id a = None /\
  d' = Db (objectives d) (policies d) (obligations d)
          (<[attestation_id a := stored a]> (attestations d)) (manifests d).
Proof.
  unfold insert_attestation. intros [_ E]%require_ok. apply raise_if_ok in E as [Hu E].
  apply require_ok in E as [_ [= <-]]. split; [|done].
  apply orb_false_iff in Hu as [Hu%bool_decide_eq_false _]. by apply eq_None_not_Some.
Qed.

Lemma good_attestations lo lp d k a :
  good lo lp d -> attestations d !! k = None ->
  good lo lp (Db (objectives d) (policies d) (obligations d) (<[k := a]> (attestations d)) (manifests d)).
Proof.
  intros [G1 G2 G3] Hk. split; cbn; [done| |done].
  intros i l E. destruct (G2 _ _ E) as (p & Ep & Et & Hs). exists p. split_and!; [done..|].
  destruct Hs as [?|[? Ha]]; [by left|right]. split; [done|].
  eapply attests_mono; [exact Ha| |done..]. cbn. intros k' a' Hk'. rewrite lookup_insert_ne; congruence.
Qed.

Lemma good_satisfy lo lp now d a loader d' :
  good lo lp d -> satisfy_obligation localtime verifiers now d a loader = Ok d' ->
  good lo lp d' /\ objectives d' = objectives d.
Proof.
  intros G. unfold satisfy_obligation. intros ([] & Hv & E)%rbind_ok.
  destruct (obligations d !! obligation_id a) as [l|] eqn:El; [|done].
  destruct (policies d !! ol_objective l) as [p|] eqn:Ep; [|done].
  destruct (_ || _) eqn:Hg; [done|].
  rewrite !orb_false_iff, !negb_false_iff, !String.eqb_eq, N.eqb_eq in Hg.
  destruct Hg as [[[[Ht Ho] Hf] Hsf] Hs]. apply require_ok in E as [_ E].
  apply rbind_ok in E as (d1 & (Hn & ->)%insert_attestation_spec & E).
  set (d1 := Db _ _ _ _ _) in E.
  pose proof (good_attestations lo lp d (attestation_id a) (stored a) G Hn) as [G1 G2 G3]. fold d1 in G1, G2, G3.
  unfold mark_satisfied in E. change (obligations d1) with (obligations d) in E. rewrite El in E.
  apply raise_if_ok in E as [_ [= <-]]. split; [|done]. split; cbn; [exact G1|..].
  - intros i l' E. destruct (decide (i = obligation_id a)) as [->|Ne].
    + rewrite lookup_insert_eq in E. injection E as <-. cbn. exists p.
      destruct (G2 _ _ El) as (p' & Ep' & Et' & _). cbn in Ep'. rewrite Ep in Ep'. injection Ep' as <-.
      split_and!; [done..|]. right. split; [done|]. exists a, now, loader. cbn.
      rewrite lookup_insert_eq. split_and!; congruence.
    + rewrite lookup_insert_ne in E by done. destruct (G2 _ _ E) as (p' & ? & ? & Hx). exists p'. auto.
  - intros o ob p' Eo Hd Ep'. destruct (G3 _ _ _ Eo Hd Ep') as [Hex Hall]. cbn in Hex, Hall.
    split.
    + intros N. destruct (Hex N) as (i0 & l0 & E0 & Ho0). destruct (decide (i0 = obligation_id a)) as [->|Ne].
      * exists (obligation_id a). eexists. rewrite lookup_insert_eq. split; [done|]. cbn. congruence.
      * exists i0, l0. by rewrite lookup_insert_ne.
    + intros i l' E Ho' N. destruct (decide (i = obligation_id a)) as [->|Ne].
      * rewrite lookup_insert_eq in E. by injection E as <-.
      * rewrite lookup_insert_ne in E by done. eauto.
Qed.

Definition sound (k : kernel) : Prop :=
  good (k_late k) (k_late_policies k) (k_db k) /\ Forall (begun (k_db k)) (k_open k).

(** An objective keeps its tenant. *)
Lemma begun_kept d d' l :
  (forall o ob, objectives d !! o = Some ob -> exists ob', objectives d' !! o = Some ob' /\ ob_tenant ob' = ob_tenant ob) ->
  Forall (begun d) l -> Forall (begun d') l.
Proof. intros K F. eapply Forall_impl; [exact F|]. intros e (ob & Eo & Et). destruct (K _ _ Eo) as (ob' & Eo' & E). exists ob'. by rewrite E. Qed.

Lemma state_keeps d o s d' : set_objective_state d o s = Ok d' ->
  forall o' ob, objectives d !! o' = Some ob -> exists ob', objectives d' !! o' = Some ob' /\ ob_tenant ob' = ob_tenant ob.
Proof.
  unfold set_objective_state. destruct (objectives d !! o) as [ob0|] eqn:Eo; [|intros [= <-]; by eauto].
  intros [_ [= <-]]%raise_if_ok o' ob Eo'. cbn. destruct (decide (o' = o)) as [->|Ne].
  - rewrite lookup_insert_eq. rewrite Eo in Eo'. injection Eo' as <-. by eexists.
  - rewrite lookup_insert_ne by done. by eauto.
Qed.

Lemma sound_state k o s d' : sound k -> set_objective_state (k_db k) o s = Ok d' -> sound (with_db k d').
Proof. intros [G B] E. split; [by eapply good_state|]. eapply begun_kept; [by eapply state_keeps|done]. Qed.

Lemma sound_step k k' : sound k -> step k k' -> sound k'.
Proof.
  intros [G B] S. destruct S as [o ob d Hn|m d|o s d' E|e E|l1 e l2 d' d El E|l1 e l2 El|now a loader d' E|t o d' E].
  - split; cbn.
    + apply good_objectives; [done|unfold d in *; congruence| |].
      * intros p Ep. destruct (g_policy _ _ _ G _ _ Ep) as (? & ? & _). unfold d in *. congruence.
      * intros _ p Ep. destruct (g_policy _ _ _ G _ _ Ep) as (? & ? & _). unfold d in *. congruence.
    + eapply begun_kept; [|exact B]. intros o' ob' Eo'. cbn. rewrite lookup_insert_ne by (unfold d in *; congruence). by eauto.
  - split; [by destruct G|]. eapply begun_kept; [|exact B]. by eauto.
  - by eapply sound_state.
  - split; [done|]. constructor; [by apply select_begun|done].
  - rewrite El in B. apply Forall_app in B as [B1 [Be B2]%Forall_cons].
    destruct (good_enroll _ _ _ _ _ G Be E) as [G' Eo]. split; [exact G'|]. cbn.
    eapply (begun_kept (k_db k)); [rewrite Eo; by eauto|by apply Forall_app].
  - rewrite El in B. apply Forall_app in B as [B1 [_ B2]%Forall_cons]. split; [done|]. by apply Forall_app.
  - destruct (good_satisfy _ _ _ _ _ _ _ G E) as [G' Eo]. split; [exact G'|]. cbn.
    eapply (begun_kept (k_db k)); [rewrite Eo; by eauto|done].
  - unfold complete_verified_objective in E. destruct (objectives _ !! o); [|done].
    destruct (_ && _); [|done]. by eapply sound_state.
Qed.

Lemma sound_reachable k : rtc step empty_kernel k -> sound k.
Proof.
  intros R. assert (G : sound empty_kernel) by (split; [apply good_empty|constructor]). revert G.
  induction R as [|x y z S R IH]; eauto using sound_step.
Qed.

(** C16: An enrolled objective is done only when it has been verified, whatever
    the rest of the kernel did to its state: it has obligations, and each is
    satisfied by a stored attestation that [verify] accepted, signed with the
    key of a registered verifier of the family the obligation requires, which
    is not the subject's, over evidence whose digest is the one recorded. That is
    so of what was enrolled before the objective was done: an enrolment reads the
    objective without locking it, so one that read it before and commits after
    leaves late obligations, which may stay open
    ([VerificationDemo.late_enrolment_is_unverified]). *)
Theorem done_objective_is_verified k o ob p :
  rtc step empty_kernel k -> let d := k_db k in
  objectives d !! o = Some ob -> ob_state ob = "done" -> policies d !! o = Some p ->
  (o ∉ k_late_policies k -> exists i l, obligations d !! i = Some l /\ ol_objective l = o) /\
  forall i l, obligations d !! i = Some l -> ol_objective l = o -> i ∉ k_late k ->
    exists a v payload artifact,
      attestations d !! attestation_id a = Some (stored a) /\ obligation_id a = i /\
      objective_id a = o /\ verdict a = "pass" /\
      verifiers !! verifier_identity a = Some v /\ tv_family v = ol_family l /\
      tv_family v <> po_family p /\
      attestation_payload localtime a = Ok payload /\
      verify_signature (tv_key v) (signature a) payload = true /\ digest artifact = evidence_sha256 a.
Proof.
  cbv zeta. intros R Eo Hd Ep. pose proof (sound_reachable _ R) as [[G1 G2 G3] _].
  destruct (G3 _ _ _ Eo Hd Ep) as [Hex Hall]. split; [done|]. intros i l El Ho Hl.
  destruct (G2 _ _ El) as (p' & Ep' & _ & Hs). rewrite Ho, Ep in Ep'. injection Ep' as <-.
  pose proof (Hall _ _ El Ho Hl) as Hsat. destruct Hs as [Hs|[_ Ha]]; [by rewrite Hs in Hsat|].
  destruct Ha as (a & now & loader & E1 & Hv & E2 & E3 & E4 & E5 & E6).
  apply verify_ok in Hv as [(v & payload & artifact & T) _]. exists a, v, payload, artifact.
  destruct T. split_and!; congruence.
Qed.
End history.

(** ** Calibration: what the report says *)

Lemma count_zero {A} (f : A -> bool) l : count f l = 0 <-> forall x, x ∈ l -> f x = false.
Proof.
  unfold count. split.
  - intros E x Hx. destruct (f x) eqn:Ef; [|done].
    assert (Hin : In x (List.filter f l)) by (apply filter_In; by rewrite <- list_elem_of_In).
    destruct (List.filter f l); [done|simpl in E; lia].
  - intros Hall. destruct (List.filter f l) as [|x r] eqn:E; [done|].
    assert (Hin : In x (List.filter f l)) by (rewrite E; by left).
    apply filter_In in Hin as [Hin Hf]. rewrite <- list_elem_of_In in Hin. rewrite Hall in Hf; done.
Qed.

Lemma count_le {A} (f g : A -> bool) l : (forall x, f x = true -> g x = true) -> 0 <= count f l <= count g l.
Proof.
  intros Hfg. unfold count. induction l as [|x l IH]; [done|]. simpl.
  destruct (f x) eqn:Ef; [rewrite (Hfg _ Ef); simpl; lia|]. destruct (g x); simpl; lia.
Qed.

Lemma count_split {A} (f : A -> bool) l :
  Z.of_nat (List.length l) - count f l = count (fun x => negb (f x)) l.
Proof. unfold count. induction l as [|x l IH]; [done|]. simpl. destruct (f x); simpl; lia. Qed.

Lemma rate_spec a b q :
  0 <= a <= b -> rate a b = Ok q -> (0 <= q <= 1)%Q /\ ((q == 0)%Q <-> a = 0).
Proof.
  intros Hab. unfold rate. destruct (Z.eqb_spec b 0); [done|]. intros [= <-]. split; [split|].
  - apply truediv_nonneg. lia.
  - unfold truediv. apply (fl_le _ 1); [unfold Qle; simpl; lia| |lia].
    unfold Qle. simpl. rewrite Z2Pos.id by lia. lia.
  - split; [|by intros ->]. intros E. destruct (Z.eq_dec a 0); [done|].
    pose proof (truediv_pos a (Z.to_pos b) ltac:(lia)) as P. rewrite Z2Pos.id in P by lia.
    specialize (P ltac:(lia)). rewrite E in P. by apply Qlt_irrefl in P.
Qed.

Section calibration.
  Context `{Digest} `{IsoTime}.

(** A calibration report's rates lie between 0 and 1, and both are zero
    exactly when the verifier passed every clean case and no defective one:
    no corpus is so large that an error rounds away. *)
Theorem calibration_finds_every_error cases at_ r :
  calibrate_verifier cases at_ = Ok r ->
  (0 <= false_accept_rate r <= 1)%Q /\ (0 <= false_reject_rate r <= 1)%Q /\
  ((false_accept_rate r == 0 /\ false_reject_rate r == 0)%Q <->
   forall c, c ∈ cases -> verifier_passed c = negb (defective c)).
Proof.
  unfold calibrate_verifier. intros [_ E]%raise_if_ok. rewrite count_split in E.
  apply rbind_ok in E as (fa & Efa & E). apply rbind_ok in E as (fr & Efr & [= <-]).
  cbn [false_accept_rate false_reject_rate].
  apply rate_spec in Efa as [Ba Za]; [|apply count_le; by intros x [? _]%andb_true_iff].
  apply rate_spec in Efr as [Br Zr]; [|apply count_le; by intros x [? _]%andb_true_iff].
  split; [done|]. split; [done|]. rewrite Za, Zr, !count_zero. split.
  - intros [H1 H2] c Hc. specialize (H1 c Hc). specialize (H2 c Hc). destruct (defective c), (verifier_passed c); done.
  - intros Hall. split; intros c Hc; rewrite (Hall c Hc); by destruct (defective c).
Qed.
End calibration.

Section conveyance.
  Context `{Digest} `{IsoTime} `{Ed25519} `{JsonLimits}.
  Variable (localtime : datetime -> datetime) (verifiers : gmap string TrustedVerifier).

(** When the evidence does not change between the two loads, a conveyance
    goes through only if a verified attestation's evidence, the bytes whose
    digest was signed, is a JSON object of three entries naming this
    disposition and this objective as passed. *)
Theorem conveyance_is_verified now disposition attestation loader :
  (forall ref, loader 0%nat ref = loader 1%nat ref) ->
  require_verified_conveyance localtime verifiers now disposition attestation loader = Ok tt ->
  exists a v payload artifact kvs,
    attestation = Some a /\ trusted localtime verifiers now a (loader 0%nat) v payload artifact /\
    loads_bytes (chars artifact) = Ok (JObj kvs) /\ List.length kvs = 3%nat /\
    dict_get "disposition" kvs = Some (JStr disposition) /\
    dict_get "objective_id" kvs = Some (JStr (uuid_str (objective_id a))) /\
    dict_get "verification" kvs = Some (JStr "pass").
Proof.
  intros Hst. unfold require_verified_conveyance. intros [_ E]%require_ok.
  destruct attestation as [a|]; [|done].
  apply rbind_ok in E as ([] & Hv & E). apply verify_ok in Hv as [(v & payload & artifact & T) _].
  apply rbind_ok in E as (j & Ej%unavailable_ok & E). apply rbind_ok in Ej as (art & Ea & Ej).
  rewrite <- Hst, (tr_artifact _ _ _ _ _ _ _ _ T) in Ea. injection Ea as <-.
  apply require_ok in E as [Es _]. unfold same_strings in Es.
  destruct j as [| | | | | | |kvs]; try done. apply andb_true_iff in Es as [El%Nat.eqb_eq Es].
  exists a, v, payload, artifact, kvs. cbn [forallb] in Es.
  apply andb_true_iff in Es as [E1 Es]. apply andb_true_iff in Es as [E2 Es].
  apply andb_true_iff in Es as [E3 _].
  repeat match goal with Hx : match dict_get ?k kvs with _ => _ end = true |- _ =>
    let Ek := fresh "Ek" in destruct (dict_get k kvs) as [[]|] eqn:Ek; try done;
    apply String.eqb_eq in Hx as -> end.
  done.
Qed.
End conveyance.

(** ** Evaluations *)
Module VerificationDemo.
Definition signatures : Ed25519 := toy_signatures.
#[local] Existing Instance signatures.

Definition utc_now : datetime := DT (700000 * day_us) (Some 0).
Definition reviewer : TrustedVerifier :=
  {| tv_identity := "reviewer-1"; tv_family := "gpt"; tv_key := ("k1" : PublicKey) |}.
Definition trusted_verifiers : gmap string TrustedVerifier := {["reviewer-1" := reviewer]}.
Definition obj : uuid := 7%N.
Definition review : uuid := Eval vm_compute in obligation_uuid "t" obj "review".
Definition evidence : string := of_chars (show true (JObj [
  ("disposition", JStr "refuse"); ("objective_id", JStr (uuid_str obj)); ("verification", JStr "pass")])).
Definition attestation : VerificationAttestation := Eval vm_compute in
  match sign_attestation id ("k1" : PrivateKey) 99%N "t" obj review "reviewer-1" "gpt" "claude" "ref" evidence
          utc_now "pass" None None with
  | Ok a => a
  | Err _ => {| attestation_id := 0; tenant_id := ""; objective_id := 0; obligation_id := 0;
                verifier_identity := ""; verifier_family := ""; subject_family := ""; verdict := "";
                evidence_ref := ""; evidence_sha256 := ""; issued_at := utc_now; signature := "";
                subject_ref := None; subject_sha256 := None; evidence_byte_length := None |}
  end.
Definition load (ref : string) : res string :=
  if (ref =? "ref")%string then Ok evidence else Err (Exn KeyError ref).

Definition created : db := Db {[obj := Objective "t" "running"]} ∅ ∅ ∅ [].
Definition enrolled : db :=
  Db (objectives created) {[obj := Policy "t" "claude"]}
     {[review := Obligation "t" obj "review" "gpt" "open"]} ∅ [].
Definition satisfied_ : db :=
  Db (objectives created) (policies enrolled)
     {[review := Obligation "t" obj "review" "gpt" "satisfied"]} {[99%N := stored attestation]} [].
Definition done_ : db :=
  Db {[obj := Objective "t" "done"]} (policies enrolled) (obligations satisfied_)
     (attestations satisfied_) [].

Definition demo_enrolment : enrolment := Enrolment "t" obj "claude" [("review", "gpt")].
Definition at_rest (d : db) : kernel := Kernel d [] ∅ ∅.

Lemma enrolment_commits : step id trusted_verifiers (Kernel created [demo_enrolment] ∅ ∅) (at_rest enrolled).
Proof.
  assert (enroll_insert created demo_enrolment = Ok enrolled) as E by (vm_compute; reflexivity).
  pose proof (step_enroll_commits id trusted_verifiers (Kernel created [demo_enrolment] ∅ ∅) [] demo_enrolment [] enrolled eq_refl E) as S.
  unfold late in S. cbn in S. change (is_done _ _) with false in S. cbn in S. exact S.
Qed.
Notation steps := (rtc (step id trusted_verifiers)).
Lemma demo_begun : steps empty_kernel (Kernel created [demo_enrolment] ∅ ∅).
Proof.
  apply (rtc_l _ _ (at_rest created)); [by apply (step_create _ _ empty_kernel obj (Objective "t" "running"))|].
  apply rtc_once. apply (step_enroll_begins _ _ (at_rest created) demo_enrolment). vm_compute. reflexivity.
Qed.
Lemma demo_completion : steps empty_kernel (at_rest done_).
Proof.
  etransitivity; [exact demo_begun|].
  apply (rtc_l _ _ (at_rest enrolled)); [exact enrolment_commits|].
  apply (rtc_l _ _ (at_rest satisfied_)); [apply (step_satisfy _ _ (at_rest enrolled) utc_now attestation load);
    vm_compute; reflexivity|].
  apply rtc_once. apply (step_complete _ _ (at_rest satisfied_) "t" obj). vm_compute. reflexivity.
Qed.

(** The objective is completed, unguarded as yet, after the enrolment has read it
    and before it commits: enrolled and done, with its obligation open. *)
Example late_enrolment_is_unverified : exists k,
  steps empty_kernel k /\ is_done (k_db k) obj = true /\
  policies (k_db k) !! obj = Some (Policy "t" "claude") /\
  obligations (k_db k) !! review = Some (Obligation "t" obj "review" "gpt" "open").
Proof.
  set (completed := Db {[obj := Objective "t" "done"]} ∅ ∅ ∅ []).
  set (d' := Db (objectives completed) (policies enrolled) (obligations enrolled) ∅ []).
  eexists. split; [etransitivity; [exact demo_begun|]|].
  - apply (rtc_l _ _ (Kernel completed [demo_enrolment] ∅ ∅)).
    { apply (step_complete _ _ (Kernel created [demo_enrolment] ∅ ∅) "t" obj). vm_compute. reflexivity. }
    apply rtc_once. apply (step_enroll_commits _ _ (Kernel completed [demo_enrolment] ∅ ∅) [] demo_enrolment [] d'); [done|].
    vm_compute. reflexivity.
  - done.
Qed.

(** Before the review, the same completion is refused by the trigger, and so is
    any other statement that sets the state. *)
Example unverified_completion_is_refused :
  complete_verified_objective enrolled "t" obj
    = Err (Exn CheckViolation "objective completion refused: verification obligations unsatisfied") /\
  is_ok (set_objective_state enrolled obj "done") = false.
Proof. vm_compute. done. Qed.

(** The second load is not checked against the signed digest: an artifact
    store that changes its answer conveys what the reviewer refused. *)
Definition swapped (k : nat) (ref : string) : res string :=
  match k with
  | O => load ref
  | _ => Ok (of_chars (show true (JObj [("disposition", JStr "accept");
           ("objective_id", JStr (uuid_str obj)); ("verification", JStr "pass")])))
  end.
Example swapped_artifact_is_conveyed :
  require_verified_conveyance id trusted_verifiers utc_now "accept" (Some attestation) swapped = Ok tt /\
  require_verified_conveyance id trusted_verifiers utc_now "accept" (Some attestation) (fun _ => load)
    = Err (Exn VerificationError "verification artifact is bound to another conveyance").
Proof. vm_compute. done. Qed.

Definition corpus : list CalibrationCase :=
  let c d p := {| case_id := "c"; defective := d; verifier_passed := p; source_ref := "r";
                  source_sha256 := of_chars (repeat (chr 48) 64) |} in
  [c true false; c true true; c true false; c false true].
Definition report : CalibrationReport := Eval vm_compute in
  match calibrate_verifier corpus utc_now with
  | Ok r => r
  | Err _ => {| measured_at := ""; corpus_size := 0; false_accepts := 0; false_rejects := 0;
                false_accept_rate := 0; false_reject_rate := 0; corpus_sha256 := "" |}
  end.
Example report_json :
  take 60 (chars (to_json report)) = take 60 (chars (dumps (JObj [
    ("corpus_sha256", JStr (corpus_sha256 report))]))) /\
  float_repr (false_accept_rate report) = "0.3333333333333333" /\ false_reject_rate report = 0%Q.
Proof. vm_compute. done. Qed.

Example shipped_families : @assert_family_manifest sha256_digest FAMILIES = Ok tt.
Proof. vm_compute. reflexivity. Qed.
End VerificationDemo.

(** ** Witnesses *)

Lemma signature_binds_attestation_witness :
  let a := VerificationDemo.attestation in covered a = covered (stored a).
Proof.
  cbv zeta.
  destruct (attestation_payload id VerificationDemo.attestation) as [p|] eqn:E; [|vm_compute in E; discriminate].
  apply (signature_binds_attestation id _ _ p); [exact E|revert E; vm_compute; done|..];
    try (vm_compute; split_and!; reflexivity); reflexivity.
Defined.

Lemma signed_attestation_verifies_witness :
  @verify _ _ VerificationDemo.signatures id VerificationDemo.trusted_verifiers VerificationDemo.utc_now
    VerificationDemo.attestation VerificationDemo.load = Ok tt.
Proof.
  refine (@signed_attestation_verifies _ _ VerificationDemo.signatures id VerificationDemo.trusted_verifiers
    "k1" 99%N "t" VerificationDemo.obj VerificationDemo.review VerificationDemo.reviewer "gpt" "claude" "ref"
    VerificationDemo.evidence VerificationDemo.utc_now None None VerificationDemo.utc_now
    VerificationDemo.load VerificationDemo.attestation _ _ _ _ _ _ _ _ _ _ _ _ _ _ _);
    try done; try (vm_compute; reflexivity); vm_compute; intros; split; discriminate.
Defined.

Lemma done_objective_is_verified_witness :
  exists a, attestations VerificationDemo.done_ !! attestation_id a = Some (stored a) /\ verdict a = "pass".
Proof.
  destruct (done_objective_is_verified id VerificationDemo.trusted_verifiers (VerificationDemo.at_rest VerificationDemo.done_)
    VerificationDemo.obj (Objective "t" "done") (Policy "t" "claude") VerificationDemo.demo_completion)
    as [_ Hall]; [reflexivity..|].
  destruct (Hall VerificationDemo.review (Obligation "t" VerificationDemo.obj "review" "gpt" "satisfied"))
    as (a & _ & _ & _ & Ha & _ & _ & Hv & _); [reflexivity..|apply not_elem_of_empty|]. by exists a.
Defined.

Lemma calibration_finds_every_error_witness :
  (0 <= false_accept_rate VerificationDemo.report <= 1)%Q.
Proof.
  refine (proj1 (calibration_finds_every_error VerificationDemo.corpus VerificationDemo.utc_now _ _)).
  vm_compute. reflexivity.
Defined.

Lemma conveyance_is_verified_witness :
  exists a, Some VerificationDemo.attestation = Some a /\ objective_id a = VerificationDemo.obj.
Proof.
  destruct (@conveyance_is_verified _ _ VerificationDemo.signatures _ id VerificationDemo.trusted_verifiers
    VerificationDemo.utc_now "refuse" (Some VerificationDemo.attestation)
    (fun _ => VerificationDemo.load)) as (a & _ & _ & _ & _ & Ha & _);
    [done|vm_compute; reflexivity|]. exists a. split; [done|]. by injection Ha as <-.
Defined.
