(* ===== verification/IdentityKey.v ===== *)
(** * Identity keys (fleet_kernel/identity_key.py)

    A key is the SHA-256 of the canonical JSON of a registered subject's
    content. The content is whatever Python value the caller has, so the model
    has a type of values that includes what the code refuses. The
    interpreter's recursion limit is not modelled. *)
From S2P Require Import Prelude PyStr PyFloat PyTime Json Sha256 PyRegex PyIO JsonText.
From stdpp Require Import base gmap strings list sorting.
From Stdlib Require Import ZArith NArith Lia.

Local Open Scope Z_scope.

Definition IdentityKeyError : exc_class := OtherError "IdentityKeyError".

(** A value of a Mapping's key: a [str], or something else with this [repr]. *)
Inductive pykey := KStr (s : string) | KOther (repr : string).

(** [VTime] is an instance of one of [_BANNED_TYPES], [VOther] of a class the
    scan does not know; both carry [type(value).__name__]. *)
(* src: fleet_kernel/identity_key.py _BANNED_TYPES *)
Inductive pyval :=
  | VNone | VBool (b : bool) | VInt (z : Z) | VStr (s : string) | VFloat
  | VTime (type_name : string) | VOther (type_name : string)
  | VList (l : list pyval) | VTuple (l : list pyval)
  | VMap (kvs : list (pykey * pyval)).

(* src: fleet_kernel/identity_key.py _BANNED_NAME_PATTERN *)
Definition BANNED_NAME_PATTERN : re :=
  alts [lit "observed_at"; lit "occurred_at"; lit "recorded_at"; lit "created_at"; lit "updated_at";
    lit "decided_at"; lit "consumed_at"; lit "issued_at"; lit "expires_at"; lit "heartbeat";
    lit "timestamp"; cats [lit "_at"; REnd]; cats [RStart; lit "at"; REnd];
    lit "session"; lit "process"; cats [lit "pid"; RBound]; lit "census"; lit "boottime";
    lit "boot_time"; lit "uptime"; lit "hostname"; lit "host_path"; lit "abs_path"; lit "tmp_path";
    lit "request_id_header"; lit "trace"; lit "span"; lit "release_commit"; lit "release_tree";
    lit "release_sha"; lit "reviewed_release"; lit "runtime_tree"; lit "release_binding";
    lit "migration_commit"; lit "candidate_commit"; lit "prosrc"; lit "source_sha";
    lit "contract_sha"; lit "stop_reason"; lit "usage"; lit "model_version"].

Definition banned_name (key : string) : bool := re_search true BANNED_NAME_PATTERN key.

(* src: fleet_kernel/identity_key.py SUBJECT_CONTRACTS *)
Definition SUBJECT_CONTRACTS : list (string * list string) := [
  ("m9-live-route-authority/v2", [
    "tenant_id"; "required_route"; "resolved_route"; "authority_plane"; "activation_program_id";
    "activation_mandate_id"; "package_id"; "package_sha256"; "dispatch_phase";
    "controller_boundary"]);
  ("m9-held-live-checkpoint/v1", [
    "tenant_id"; "parent_payroll_run_id"; "terminal_kind"; "successor_request_sha256"])].

(* src: fleet_kernel/identity_key.py _refuse *)
Definition refuse {A} (path reason : string) : res A :=
  Err (Exn IdentityKeyError ("identity key refused at " +:+ repr path +:+ ": " +:+ reason)).

(* src: fleet_kernel/identity_key.py _scan *)
Fixpoint scan (v : pyval) (path : string) : res json :=
  let items := fix items (i : Z) (l : list pyval) : res (list json) :=
    match l with
    | [] => Ok []
    | x :: r =>
        let! j := scan x (path +:+ "[" +:+ str_Z i +:+ "]") in
        let! js := items (i + 1) r in Ok (j :: js)
    end in
  let entries := fix entries (kvs : list (pykey * pyval)) : res (list (string * json)) :=
    match kvs with
    | [] => Ok []
    | (KOther _, _) :: _ => refuse path "non-string mapping key"
    | (KStr key, x) :: r =>
        if banned_name key then refuse (path +:+ "." +:+ key) "banned volatile field-name class"
        else let! j := scan x (path +:+ "." +:+ key) in
             let! out := entries r in Ok ((key, j) :: out)
    end in
  match v with
  | VTime name => refuse path ("banned volatile type " +:+ name)
  | VFloat => refuse path "float values are banned (use integral cents/strings)"
  | VMap kvs => let! out := entries kvs in Ok (JObj out)
  | VList l | VTuple l => let! out := items 0 l in Ok (JArr out)
  | VNone => Ok JNull
  | VBool b => Ok (JBool b)
  | VInt z => Ok (JInt z)
  | VStr s => Ok (JStr s)
  | VOther name => refuse path ("unsupported value type " +:+ name)
  end.

Definition key_repr (k : pykey) : string := match k with KStr s => repr s | KOther r => r end.
Definition key_is (f : string) (k : pykey) : bool := match k with KStr s => (f =? s)%string | KOther _ => false end.

(** [f in content] and [content[f]]. *)
Definition field_of (f : string) (content : list (pykey * pyval)) : option pyval :=
  snd <$> List.find (fun kv => key_is f kv.1) content.

Definition missing_fields (contract : list string) (content : list (pykey * pyval)) : list string :=
  List.filter (fun f => negb (existsb (fun kv => key_is f kv.1) content)) contract.
Definition extra_fields (contract : list string) (content : list (pykey * pyval)) : list pykey :=
  List.filter (fun k => negb (existsb (fun f => key_is f k) contract)) (map fst content).

(** The dict comprehension over the contract; [KeyError] cannot happen once
    nothing is missing. *)
Fixpoint clean (contract : list string) (content : list (pykey * pyval)) : res (list (string * json)) :=
  match contract with
  | [] => Ok []
  | f :: r =>
      match field_of f content with
      | None => Err (Exn KeyError (repr f))
      | Some v => let! j := scan v f in let! js := clean r content in Ok ((f, j) :: js)
      end
  end.

Definition key_payload (subject_type : string) (cleaned : list (string * json)) : json :=
  JObj [("schema_id", JStr ("mise.identity-key/" +:+ subject_type)); ("content", JObj cleaned)].

(** [json.dumps(..., ensure_ascii=False).encode("utf-8")]. *)
Definition canonical (j : json) : string := @dumps utf8_codec j.

(* src: fleet_kernel/identity_key.py identity_key *)
Definition identity_key `{Digest} (subject_type : string) (content : list (pykey * pyval)) : res string :=
  match dict_get subject_type SUBJECT_CONTRACTS with
  | None => Err (Exn IdentityKeyError
      ("unregistered identity subject " +:+ repr subject_type +:+ " " +:+ emdash
       +:+ " register its content-field contract in fleet_kernel.identity_key"))
  | Some contract =>
      let missing := missing_fields contract content in
      let extra := extra_fields contract content in
      raise_if negb (bool_decide (missing = [])) || negb (bool_decide (List.length extra = 0%nat))
        with IdentityKeyError, ("subject " +:+ repr subject_type
          +:+ " content fields differ from the registered contract (missing="
          +:+ list_repr (map repr missing) +:+ ", extra=" +:+ list_repr (map key_repr extra) +:+ ")") ;;
      let! cleaned := clean contract content in
      let payload := key_payload subject_type cleaned in
      require ints_ok payload
        else ValueError, "Exceeds the limit (4300 digits) for integer string conversion" ;;
      Ok (digest (canonical payload))
  end.

(** [now] is [datetime.now(timezone.utc)]. *)
(* src: fleet_kernel/identity_key.py provenance_envelope *)
Definition provenance_envelope `{IsoTime} (now : datetime) (fields : list (string * pyval))
    : list (string * pyval) :=
  dict_put "schema_id" (VStr "mise.identity-provenance/v1")
    (dict_put "provenance_recorded_at" (VStr (isoformat now)) fields).

(** ** Order of keys

    [key_leb] is a total order, so sorting the entries of a dict does not
    depend on the order they are in. *)
(** ** What the scan lets through *)

Section pyval_ind.
  Variable P : pyval -> Prop.
  Hypothesis (Hnone : P VNone) (Hbool : forall b, P (VBool b)) (Hint : forall z, P (VInt z))
    (Hstr : forall s, P (VStr s)) (Hfloat : P VFloat) (Htime : forall n, P (VTime n))
    (Hother : forall n, P (VOther n))
    (Hlist : forall l, Forall P l -> P (VList l)) (Htuple : forall l, Forall P l -> P (VTuple l))
    (Hmap : forall kvs, Forall (fun kv => P kv.2) kvs -> P (VMap kvs)).
Fixpoint pyval_ind_all (v : pyval) : P v :=
  let each := fix go l : Forall P l := match l return Forall P l with
    | [] => @List.Forall_nil _ P
    | x :: r => @List.Forall_cons _ P x r (pyval_ind_all x) (go r) end in
  match v with
  | VNone => Hnone | VBool b => Hbool b | VInt z => Hint z | VStr s => Hstr s | VFloat => Hfloat
  | VTime n => Htime n | VOther n => Hother n
  | VList l => Hlist l (each l)
  | VTuple l => Htuple l (each l)
  | VMap kvs => Hmap kvs ((fix go l := match l return Forall (fun kv => P kv.2) l with
      | [] => @List.Forall_nil _ _
      | x :: r => @List.Forall_cons _ (fun kv => P kv.2) x r (pyval_ind_all x.2) (go r) end) kvs)
  end.
End pyval_ind.

Definition key_ok (k : pykey) : bool := match k with KStr s => negb (banned_name s) | KOther _ => false end.

(** Content: no float, no clock reading, no unknown object, and under every
    Mapping only string keys outside the banned classes, at any depth. *)
Fixpoint pure (v : pyval) : bool :=
  match v with
  | VNone | VBool _ | VInt _ | VStr _ => true
  | VFloat | VTime _ | VOther _ => false
  | VList l | VTuple l => forallb pure l
  | VMap kvs => forallb (fun kv => key_ok kv.1 && pure kv.2) kvs
  end.

Definition key_str (k : pykey) : string := match k with KStr s => s | KOther r => r end.
Fixpoint to_json (v : pyval) : json :=
  match v with
  | VBool b => JBool b
  | VInt z => JInt z
  | VStr s => JStr s
  | VList l | VTuple l => JArr (map to_json l)
  | VMap kvs => JObj (map (fun kv => (key_str kv.1, to_json kv.2)) kvs)
  | _ => JNull
  end.

(** The scan of a sequence, from the index [i]. *)
Definition scan_from (path : string) : Z -> list pyval -> res (list json) :=
  fix items (i : Z) (l : list pyval) : res (list json) :=
    match l with
    | [] => Ok []
    | x :: r =>
        let! j := scan x (path +:+ "[" +:+ str_Z i +:+ "]") in
        let! js := items (i + 1) r in Ok (j :: js)
    end.

Lemma scan_items l path j :
  Forall (fun v => forall path j, scan v path = Ok j <-> pure v = true /\ j = to_json v) l ->
  (let! out := scan_from path 0 l in Ok (JArr out)) = Ok j <->
  forallb pure l = true /\ j = JArr (map to_json l).
Proof.
  intros IH. assert (Hi : forall i js, scan_from path i l = Ok js <->
    forallb pure l = true /\ js = map to_json l).
  { induction IH as [|x r Hx _ IHr]; intros i js; cbn [forallb map]; cbn.
    - split; [by intros [= <-]|by intros [_ ->]].
    - rewrite rbind_ok. setoid_rewrite Hx. setoid_rewrite rbind_ok. setoid_rewrite IHr.
      rewrite andb_true_iff.
      split; [by intros (? & [? ->] & ? & [? ->] & [= <-])|intros [[? ?] ->]; eauto 10]. }
  rewrite rbind_ok. setoid_rewrite Hi.
  split; [by intros (? & [? ->] & [= <-])|intros [? ->]; eauto].
Qed.

Lemma scan_spec v path j : scan v path = Ok j <-> pure v = true /\ j = to_json v.
Proof.
  revert path j. induction v as [|b|z|s| |n|n|l IH|l IH|kvs IH] using pyval_ind_all; intros path j;
    try (simpl; split; [by intros [= <-]|by intros [_ ->]]);
    try (simpl; unfold refuse; split; [by intros [=]|by intros [? _]]).
  1-2: exact (scan_items l path j IH).
  cbn [scan pure to_json]. rewrite rbind_ok.
  match goal with |- (exists a, ?entries kvs = Ok a /\ _) <-> _ =>
    assert (Hi : forall js, entries kvs = Ok js <->
      forallb (fun kv => key_ok kv.1 && pure kv.2) kvs = true /\
      js = map (fun kv => (key_str kv.1, to_json kv.2)) kvs) end.
  { clear j. induction IH as [|[[k|k] x] r Hx _ IHr]; intros js; cbn [forallb map fst snd key_ok key_str].
    - split; [by intros [= <-]|by intros [_ ->]].
    - cbn [snd] in Hx. destruct (banned_name k); cbn [negb andb]; [split; [done|by intros [? _]]|].
      rewrite rbind_ok. setoid_rewrite Hx. setoid_rewrite rbind_ok. setoid_rewrite IHr.
      rewrite andb_true_iff.
      split; [by intros (? & [? ->] & ? & [? ->] & [= <-])|intros [[? ?] ->]; eauto 10].
    - split; [done|by intros [? _]]. }
  setoid_rewrite Hi. split; [by intros (? & [? ->] & [= <-])|intros [? ->]; eauto].
Qed.

(** ** Keys *)

Lemma field_of_some f c v : field_of f c = Some v -> KStr f ∈ c.*1.
Proof.
  unfold field_of. rewrite fmap_Some. intros (kv & E & ->). apply List.find_some in E as [Hin Hk].
  destruct kv as [[s|s] x]; [|done]. apply String.eqb_eq in Hk as ->.
  apply list_elem_of_fmap. exists (KStr s, x). split; [done|]. by apply list_elem_of_In.
Qed.

Lemma field_of_none f c : field_of f c = None <-> existsb (fun kv => key_is f kv.1) c = false.
Proof.
  unfold field_of. induction c as [|[k v] c IH]; simpl; [done|]. by destruct (key_is f k).
Qed.

Lemma filter_none {A} (f : A -> bool) l : List.filter f l = [] <-> forall x, x ∈ l -> f x = false.
Proof.
  split.
  - intros E x Hx. destruct (f x) eqn:Ef; [|done].
    assert (Hin : In x (List.filter f l)) by (apply filter_In; by rewrite <- list_elem_of_In).
    by rewrite E in Hin.
  - intros Hall. destruct (List.filter f l) as [|x r] eqn:E; [done|].
    assert (Hin : In x (List.filter f l)) by (rewrite E; by left).
    apply filter_In in Hin as [Hin Hf]. rewrite <- list_elem_of_In in Hin. by rewrite Hall in Hf.
Qed.

Lemma missing_nil contract c :
  missing_fields contract c = [] <-> forall f, f ∈ contract -> exists v, field_of f c = Some v.
Proof.
  unfold missing_fields. rewrite filter_none. split; intros Hall f Hf; specialize (Hall f Hf).
  - apply negb_false_iff in Hall. destruct (field_of f c) as [v|] eqn:E; [by exists v|].
    apply field_of_none in E. congruence.
  - destruct Hall as [v E]. apply negb_false_iff. destruct (existsb _ c) eqn:Ex; [done|].
    apply field_of_none in Ex. congruence.
Qed.

Lemma extra_nil contract (c : list (pykey * pyval)) :
  List.length (extra_fields contract c) = 0%nat <->
  forall k, k ∈ c.*1 -> exists f, f ∈ contract /\ k = KStr f.
Proof.
  rewrite length_zero_iff_nil. unfold extra_fields. rewrite filter_none.
  split; intros Hall k Hk; specialize (Hall k Hk).
  - apply negb_false_iff, existsb_exists in Hall as (f & Hf & Hk'). exists f.
    rewrite list_elem_of_In. split; [done|]. destruct k; [|done]. simpl in Hk'. by apply String.eqb_eq in Hk' as ->.
  - destruct Hall as (f & Hf & ->). apply negb_false_iff, existsb_exists. exists f.
    rewrite <- list_elem_of_In. split; [done|]. apply String.eqb_refl.
Qed.

Definition cleaned_field (c : list (pykey * pyval)) (f : string) (fj : string * json) : Prop :=
  fj.1 = f /\ exists v, field_of f c = Some v /\ pure v = true /\ fj.2 = to_json v.

Lemma clean_ok contract c cl : clean contract c = Ok cl <-> Forall2 (cleaned_field c) contract cl.
Proof.
  revert cl. induction contract as [|f r IH]; intros cl; cbn [clean].
  - split; [by intros [= <-]|by inversion 1].
  - destruct (field_of f c) as [v|] eqn:E.
    + rewrite rbind_ok. setoid_rewrite scan_spec. setoid_rewrite rbind_ok. setoid_rewrite IH. split.
      * intros (j & [Hp ->] & js & Hjs & [= <-]). constructor; [|done]. split; [done|]. by exists v.
      * inversion 1 as [|? [f' j] ? ? (Hf & v' & E' & Hp & Hj)]; subst. simpl in *. subst.
        rewrite E in E'. injection E' as <-. exists (to_json v). split; [done|]. by eexists.
    + split; [done|]. inversion 1 as [|? ? ? ? (_ & v & E' & _)]; congruence.
Qed.

(** What [identity_key] returns, and when. *)
Lemma identity_key_ok `{Digest} t c k :
  identity_key t c = Ok k <->
  exists contract cl, dict_get t SUBJECT_CONTRACTS = Some contract /\
    (forall k, k ∈ c.*1 -> exists f, f ∈ contract /\ k = KStr f) /\
    clean contract c = Ok cl /\ ints_ok (key_payload t cl) = true /\
    k = digest (canonical (key_payload t cl)).
Proof.
  unfold identity_key. destruct (dict_get t SUBJECT_CONTRACTS) as [contract|] eqn:Ec.
  2: { split; [done|]. by intros (? & ? & ? & _). }
  rewrite raise_if_ok, rbind_ok, orb_false_iff, !negb_false_iff, !bool_decide_eq_true, missing_nil, extra_nil.
  setoid_rewrite require_ok. split.
  - intros ([Hm Hx] & cl & Hcl & Hi & [= <-]). by exists contract, cl.
  - intros (contract' & cl & [= <-] & Hx & Hcl & Hi & ->). split; [split; [|done]|by exists cl].
    intros f Hf. apply clean_ok in Hcl. apply list_elem_of_lookup in Hf as [i Hi'].
    destruct (Forall2_lookup_l _ _ _ _ _ Hcl Hi') as (? & _ & _ & v & Hv & _). eauto.
Qed.

Lemma to_json_float_free v : float_free (to_json v) = true.
Proof.
  induction v as [|b|z|s| |n|n|l IH|l IH|kvs IH] using pyval_ind_all; try done; cbn [to_json float_free].
  1-2: by rewrite forallb_forall; intros j (x & <- & Hx%list_elem_of_In)%in_map_iff;
       rewrite Forall_forall in IH; apply IH.
  rewrite forallb_forall. intros j (x & <- & Hx%list_elem_of_In)%in_map_iff.
  rewrite Forall_forall in IH. by apply (IH x).
Qed.

Lemma payload_inj c c' t t' contract contract' cl cl' :
  clean contract c = Ok cl -> clean contract' c' = Ok cl' ->
  canonical (key_payload t cl) = canonical (key_payload t' cl') ->
  t = t' /\ sort_pairs (map (fun kv => (kv.1, sort_keys kv.2)) cl)
            = sort_pairs (map (fun kv => (kv.1, sort_keys kv.2)) cl').
Proof.
  intros Hc Hc' E.
  assert (Hff : forall t contract c cl, clean contract c = Ok cl ->
    float_free (sort_keys (key_payload t cl)) = true).
  { clear. intros t contract c cl Hc. apply float_free_sort. unfold key_payload.
    cbn [float_free forallb snd andb]. rewrite andb_true_r, forallb_forall.
    intros kv Hkv%list_elem_of_In. apply clean_ok in Hc.
    apply list_elem_of_lookup in Hkv as [i Hi].
    destruct (Forall2_lookup_r _ _ _ _ _ Hc Hi) as (f & _ & _ & v & _ & _ & ->). apply to_json_float_free. }
  apply dumps_inj in E; [|by eapply Hff..]. unfold key_payload in E. cbn in E. injection E as E1 E2.
  split; [|done]. by repeat (injection E2 as E2).
Qed.

(** A key is built exactly for content: the subject is registered, the
    fields are the registered ones and no others, and every value is built from
    strings, integers, booleans, nulls, sequences and string-keyed mappings,
    none of whose keys, at any depth, belongs to a banned class (integers
    within the interpreter's printing limit). *)
Theorem identity_key_accepts_iff `{Digest} t c :
  is_ok (identity_key t c) = true <->
  exists contract, dict_get t SUBJECT_CONTRACTS = Some contract /\
    (forall k, k ∈ c.*1 -> exists f, f ∈ contract /\ k = KStr f) /\
    forall f, f ∈ contract ->
      exists v, field_of f c = Some v /\ pure v = true /\ ints_ok (to_json v) = true.
Proof.
  assert (Hi : forall cl, ints_ok (key_payload t cl) = forallb (fun kv => ints_ok kv.2) cl).
  { intros cl. cbn. by rewrite andb_true_r. }
  split.
  - destruct (identity_key t c) as [k|] eqn:E; [|done]. intros _.
    apply identity_key_ok in E as (contract & cl & Ec & Hx & Hcl & Hints & _).
    exists contract. split; [done|]. split; [done|]. intros f Hf.
    apply clean_ok in Hcl. apply list_elem_of_lookup in Hf as [i Hl].
    destruct (Forall2_lookup_l _ _ _ _ _ Hcl Hl) as (fj & Hl' & _ & v & Hv & Hp & Hj).
    exists v. split; [done|]. split; [done|]. rewrite Hi, forallb_forall in Hints.
    rewrite <- Hj. apply Hints. apply list_elem_of_In, list_elem_of_lookup. by exists i.
  - intros (contract & Ec & Hx & Hall).
    assert (Hcl : exists cl, clean contract c = Ok cl /\ forallb (fun kv => ints_ok kv.2) cl = true).
    { clear Ec Hx. induction contract as [|f r IH]; [by exists []|].
      destruct (Hall f) as (v & Hv & Hp & Hz); [left|].
      destruct IH as (cl & Hcl & Hok); [intros g Hg; apply Hall; by right|].
      exists ((f, to_json v) :: cl). cbn [clean]. rewrite Hv.
      rewrite (proj2 (scan_spec v f (to_json v))) by done. cbn [rbind]. rewrite Hcl. cbn.
      by rewrite Hz, Hok. }
    destruct Hcl as (cl & Hcl & Hok).
    assert (E : identity_key t c = Ok (digest (canonical (key_payload t cl)))).
    { apply identity_key_ok. exists contract, cl. by rewrite Hi. }
    by rewrite E.
Qed.

(** C19: A key determines its subject: two builds that yield the same key are of
    the same subject type and agree on every field, up to the order of mapping
    entries, unless their canonical texts are a SHA-256 collision. *)
Theorem identity_key_determines_content `{Digest} t c t' c' k :
  identity_key t c = Ok k -> identity_key t' c' = Ok k ->
  exists contract contract' cl cl',
    clean contract c = Ok cl /\ clean contract' c' = Ok cl' /\
    (collides (canonical (key_payload t cl)) (canonical (key_payload t' cl')) \/
     t = t' /\ forall f v, field_of f c = Some v ->
       exists v', field_of f c' = Some v' /\ sort_keys (to_json v) = sort_keys (to_json v')).
Proof.
  intros E E'. apply identity_key_ok in E as (contract & cl & Ec & Hx & Hcl & _ & ->).
  apply identity_key_ok in E' as (contract' & cl' & Ec' & Hx' & Hcl' & _ & E).
  exists contract, contract', cl, cl'. split; [done|]. split; [done|].
  apply digest_inj in E as [E|]; [right|by left].
  destruct (payload_inj _ _ _ _ _ _ _ _ Hcl Hcl' E) as [<- Es]. split; [done|].
  rewrite Ec in Ec'. injection Ec' as <-. apply clean_ok in Hcl, Hcl'.
  assert (K : forall c cl, Forall2 (cleaned_field c) contract cl -> cl.*1 = contract).
  { clear. induction 1 as [|f fj r l [Hf _] _ IH]; [done|]. cbn. by rewrite Hf, IH. }
  apply sort_pairs_inj in Es.
  2: { rewrite <- !list_fmap_compose. change (cl.*1 = cl'.*1). by rewrite (K _ _ Hcl), (K _ _ Hcl'). }
  intros f v Hf. destruct (Hx (KStr f)) as (g & Hg & [= <-]); [by eapply field_of_some|].
  apply list_elem_of_lookup in Hg as [i Hi].
  destruct (Forall2_lookup_l _ _ _ _ _ Hcl Hi) as (fj & Hl & _ & w & Hw & _ & Hj).
  destruct (Forall2_lookup_l _ _ _ _ _ Hcl' Hi) as (fj' & Hl' & _ & w' & Hw' & _ & Hj').
  rewrite Hf in Hw. injection Hw as <-. exists w'. split; [done|].
  apply (f_equal (lookup i)) in Es. rewrite !list_lookup_fmap, Hl, Hl' in Es. cbn in Es.
  injection Es as _ Es. by rewrite <- Hj, <- Hj'.
Qed.

(** ** The same content

    How a value may differ between two computations of an unchanged subject:
    the order in which a mapping was filled, and lists for tuples. *)
Inductive same : pyval -> pyval -> Prop :=
  | same_refl v : same v v
  | same_trans u v w : same u v -> same v w -> same u w
  | same_tuple l : same (VTuple l) (VList l)
  | same_list l : same (VList l) (VTuple l)
  | same_item l1 x y l2 : same x y -> same (VList (l1 ++ x :: l2)) (VList (l1 ++ y :: l2))
  | same_order kvs kvs' : NoDup kvs.*1 -> kvs ≡ₚ kvs' -> same (VMap kvs) (VMap kvs')
  | same_entry l1 k x y l2 : same x y -> same (VMap (l1 ++ (k, x) :: l2)) (VMap (l1 ++ (k, y) :: l2)).

Lemma pure_keys kvs :
  pure (VMap kvs) = true -> NoDup kvs.*1 -> NoDup (map (fun kv => key_str kv.1) kvs).
Proof.
  intros Hp. cbn in Hp. induction kvs as [|[k v] kvs IH]; cbn in *; [by intros; constructor|].
  apply andb_true_iff in Hp as [[Hk _]%andb_true_iff Hp]. intros [Nk N]%NoDup_cons.
  apply NoDup_cons. split; [|by apply IH]. intros (kv & E & Hin)%list_elem_of_fmap. apply Nk.
  apply list_elem_of_fmap. exists kv. split; [|done]. destruct kv as [k' v']. cbn in *.
  rewrite forallb_forall in Hp. apply list_elem_of_In in Hin. specialize (Hp _ Hin). cbn in Hp.
  apply andb_true_iff in Hp as [Hk' _]. destruct k, k'; try done. cbn in E. by subst.
Qed.

Lemma same_scan v v' : same v v' ->
  pure v = pure v' /\ (pure v = true ->
    sort_keys (to_json v) = sort_keys (to_json v') /\ ints_ok (to_json v) = ints_ok (to_json v')).
Proof.
  induction 1 as [v|u v w S1 [P1 J1] S2 [P2 J2]|l|l|l1 x y l2 S [P J]|kvs kvs' N P|l1 k x y l2 S [P J]];
    try (split; [reflexivity|by intros _]).
  - split; [congruence|]. intros Hp. destruct (J1 Hp) as [-> ->]. apply J2. congruence.
  - cbn [pure to_json sort_keys ints_ok]. rewrite !map_app, !forallb_app. cbn. rewrite P. split; [done|].
    intros Hx. rewrite !andb_true_iff in Hx. destruct Hx as (_ & Hx & _). rewrite P in J. destruct (J Hx) as [Es Ei].
    by rewrite Es, Ei.
  - cbn [pure to_json sort_keys ints_ok]. rewrite (forallb_perm _ _ _ P). split; [done|]. intros Hp. split.
    + f_equal. apply sort_pairs_perm; [by rewrite P|].
      rewrite <- !list_fmap_compose. apply (pure_keys kvs); [|done]. cbn. by rewrite (forallb_perm _ _ _ P).
    + apply forallb_perm. by rewrite P.
  - cbn [pure to_json sort_keys ints_ok]. rewrite !map_app, !forallb_app. cbn. rewrite P. split; [done|].
    intros Hx. rewrite !andb_true_iff in Hx. destruct Hx as (_ & (_ & Hx) & _). rewrite P in J.
    destruct (J Hx) as [Es Ei]. by rewrite Es, Ei.
Qed.

(** Two computations of an unchanged subject yield the same key: the order in
    which the content and the mappings inside it were filled, and lists for
    tuples, do not matter. *)
Theorem identity_key_is_stable `{Digest} t c c' k :
  c.*1 ≡ₚ c'.*1 ->
  (forall f v v', field_of f c = Some v -> field_of f c' = Some v' -> same v v') ->
  identity_key t c = Ok k -> identity_key t c' = Ok k.
Proof.
  intros P S E. apply identity_key_ok in E as (contract & cl & Ec & Hx & Hcl & Hi & ->).
  assert (Hf : forall f v, field_of f c = Some v -> exists v', field_of f c' = Some v' /\ same v v').
  { intros f v E. destruct (field_of f c') as [v'|] eqn:E'; [by eauto|].
    apply field_of_some in E. rewrite P in E. apply field_of_none in E'.
    apply list_elem_of_fmap in E as (kv & Ek & Hin).
    assert (X : existsb (fun kv => key_is f kv.1) c' = true); [|congruence].
    apply existsb_exists. exists kv. split; [by apply list_elem_of_In|]. rewrite <- Ek. apply String.eqb_refl. }
  assert (Hcl' : exists cl', Forall2 (cleaned_field c') contract cl' /\
    map (fun kv => (kv.1, sort_keys kv.2)) cl = map (fun kv => (kv.1, sort_keys kv.2)) cl' /\
    forallb (fun kv => ints_ok kv.2) cl = forallb (fun kv => ints_ok kv.2) cl').
  { apply clean_ok in Hcl. clear Hx Hi Ec.
    induction Hcl as [|f [f' j] r cl (Ef & v & Hv & Hp & Hj) _ (cl' & IH & Em & Ei)]; cbn in *.
    - by exists [].
    - destruct (Hf _ _ Hv) as (v' & Hv' & Sv). apply same_scan in Sv as [Pv Jv].
      destruct (Jv Hp) as [Es Eii]. exists ((f, to_json v') :: cl'). split; [|subst; cbn; split; congruence].
      constructor; [|done]. split; [done|]. exists v'. split_and!; [done|congruence|done]. }
  destruct Hcl' as (cl' & Hcl' & Em & Ei).
  apply identity_key_ok. exists contract, cl'. split; [done|].
  split; [intros k Hk; apply Hx; by rewrite P|]. split; [by apply clean_ok|].
  assert (Hk : sort_keys (key_payload t cl') = sort_keys (key_payload t cl)).
  { unfold key_payload. cbn [sort_keys map fst snd]. by rewrite Em. }
  split; [|unfold canonical, dumps; by rewrite Hk].
  cbn in Hi |- *. rewrite andb_true_r in *. congruence.
Qed.

(** Provenance cannot be keyed: an envelope anywhere inside a value is refused. *)
Lemma envelope_is_refused `{IsoTime} now fields :
  pure (VMap (map (fun kv => (KStr kv.1, kv.2)) (provenance_envelope now fields))) = false.
Proof.
  assert (Hin : forall k v (d : list (string * pyval)), dict_get k d = Some v -> In (k, v) d).
  { intros k v d. induction d as [|[k' v'] d IH]; simpl; [done|].
    destruct (String.eqb_spec k k') as [->|]; [intros [= ->]; by left|auto]. }
  apply not_true_is_false. cbn [pure]. rewrite forallb_forall. intros Hall.
  assert (Hb : key_ok (KStr "provenance_recorded_at") = false) by (vm_compute; reflexivity).
  assert (Hg : dict_get "provenance_recorded_at" (provenance_envelope now fields)
             = Some (VStr (isoformat now))).
  { unfold provenance_envelope. by rewrite !dict_get_put. }
  apply Hin in Hg. specialize (Hall (KStr "provenance_recorded_at", VStr (isoformat now))).
  cbn [fst snd] in Hall. rewrite Hb in Hall. cbn in Hall. discriminate Hall.
  apply in_map_iff. by eexists (_, _).
Qed.

(** ** Evaluations *)
Module IdentityDemo.
Definition entry (k v : string) : pykey * pyval := (KStr k, VStr v).
Definition checkpoint : list (pykey * pyval) := [
  entry "tenant_id" "t"; entry "parent_payroll_run_id" "run-1";
  (KStr "terminal_kind", VMap [entry "a" "1"; (KStr "b", VTuple [VInt 2; VBool true])]);
  entry "successor_request_sha256" "ab"].
(** The same checkpoint, filled in another order, with a list for the tuple. *)
Definition refilled : list (pykey * pyval) := [
  entry "parent_payroll_run_id" "run-1";
  (KStr "terminal_kind", VMap [(KStr "b", VList [VInt 2; VBool true]); entry "a" "1"]);
  entry "tenant_id" "t"; entry "successor_request_sha256" "ab"].
Definition subject : string := "m9-held-live-checkpoint/v1".
Definition key : string := Eval vm_compute in
  match identity_key subject checkpoint with Ok k => k | Err _ => "" end.

Example same_key : identity_key subject checkpoint = Ok key /\ identity_key subject refilled = Ok key.
Proof. vm_compute. done. Qed.

Lemma kinds_same v v' :
  field_of "terminal_kind" checkpoint = Some v -> field_of "terminal_kind" refilled = Some v' -> same v v'.
Proof.
  intros [= <-] [= <-].
  apply (same_trans _ (VMap [entry "a" "1"; (KStr "b", VList [VInt 2; VBool true])])).
  - apply (same_entry [entry "a" "1"] (KStr "b") _ _ []). apply same_tuple.
  - apply same_order; [repeat (constructor; [by set_solver|]); constructor|apply perm_swap].
Qed.

Lemma fields_same f v v' :
  field_of f checkpoint = Some v -> field_of f refilled = Some v' -> same v v'.
Proof.
  intros E E'. pose proof (field_of_some _ _ _ E) as Hin. cbn in Hin. set_unfold.
  destruct Hin as [[= ->]|[[= ->]|[[= ->]|[[= ->]|[]]]]];
    try (injection E as <-; injection E' as <-; apply same_refl).
  by apply kinds_same.
Qed.

(** Refused: a float, a volatile name inside a value, a field too many. *)
Example refusals :
  map (fun x => identity_key subject (x :: drop 1 checkpoint))
    [(KStr "tenant_id", VFloat); (KStr "tenant_id", VMap [entry "Started_AT" "x"])]
  = [Err (Exn IdentityKeyError "identity key refused at 'tenant_id': float values are banned (use integral cents/strings)");
     Err (Exn IdentityKeyError "identity key refused at 'tenant_id.Started_AT': banned volatile field-name class")] /\
  identity_key subject (checkpoint ++ [entry "pid" "1"])
  = Err (Exn IdentityKeyError ("subject 'm9-held-live-checkpoint/v1' content fields differ from the "
      +:+ "registered contract (missing=[], extra=['pid'])")).
Proof. vm_compute. done. Qed.

(** No registered field belongs to a banned class. *)
Example contracts_are_clean :
  forallb (fun c => forallb (fun f => negb (banned_name f)) c.2) SUBJECT_CONTRACTS = true.
Proof. vm_compute. reflexivity. Qed.
End IdentityDemo.

(** ** Witnesses *)

Lemma identity_key_determines_content_witness :
  exists contract cl, clean contract IdentityDemo.refilled = Ok cl.
Proof.
  destruct (identity_key_determines_content IdentityDemo.subject IdentityDemo.checkpoint
    IdentityDemo.subject IdentityDemo.refilled IdentityDemo.key) as (_ & contract & _ & cl & _ & Hcl & _);
    [apply IdentityDemo.same_key..|]. by exists contract, cl.
Defined.

Lemma identity_key_is_stable_witness :
  identity_key IdentityDemo.subject IdentityDemo.refilled = Ok IdentityDemo.key.
Proof.
  refine (identity_key_is_stable IdentityDemo.subject IdentityDemo.checkpoint IdentityDemo.refilled
    IdentityDemo.key _ IdentityDemo.fields_same (proj1 IdentityDemo.same_key)).
  cbn.
  set (a := KStr "tenant_id"). set (b := KStr "parent_payroll_run_id"). set (c := KStr "terminal_kind").
  etransitivity; [apply perm_swap|]. apply perm_skip, perm_swap.
Defined.
