(* ===== verification/PyUrl.v ===== *)
(** * urllib.parse.urlsplit

    What [urlsplit] and the attributes of its result do with a URL. The
    validation of a bracketed host ([ipaddress.ip_address]) is a parameter. *)
From S2P Require Import Prelude PyStr PyFloat Json PyIO JsonText PyValue.
From stdpp Require Import base strings list.
From Stdlib Require Import ZArith NArith Lia.

Local Open Scope Z_scope.

(** [s.partition(c)], [s.rpartition(c)]: before, whether found, after. *)
Fixpoint partition_l (c : Ascii.ascii) (l : text) : text * bool * text :=
  match l with
  | [] => ([], false, [])
  | x :: r => if Ascii.eqb x c then ([], true, r)
              else let '(a, f, b) := partition_l c r in (x :: a, f, b)
  end.
Definition rpartition_l (c : Ascii.ascii) (l : text) : text * bool * text :=
  let '(a, f, b) := partition_l c (rev l) in
  if f then (rev b, true, rev a) else ([], false, l).

(** The characters up to the first that satisfies [p], and the rest. *)
Fixpoint break (p : Ascii.ascii -> bool) (l : text) : text * text :=
  match l with
  | [] => ([], [])
  | c :: r => if p c then ([], l) else let '(a, b) := break p r in (c :: a, b)
  end.

Definition is_c (n : N) (c : Ascii.ascii) : bool := (code c =? n)%N.
Definition ascii_alpha (c : Ascii.ascii) : bool := within 65 90 c || within 97 122 c.
Definition scheme_char (c : Ascii.ascii) : bool :=
  ascii_alpha c || within 48 57 c || is_c 43 c || is_c 45 c || is_c 46 c.

Record SplitResult := { sr_scheme : text; sr_netloc : text; sr_path : text }.

(** Leading controls and spaces are stripped, tabs and line breaks removed. *)
Definition sanitize (l : text) : text :=
  List.filter (fun c => negb (is_c 9 c || is_c 10 c || is_c 13 c))
    (snd (break (fun c => (32 <? code c)%N) l)).

Definition split_scheme (l : text) : text * text :=
  let '(before, found, after) := partition_l (chr 58) l in
  match before with
  | c :: _ => if found && ascii_alpha c && forallb scheme_char before
              then (map lower_c before, after) else ([], l)
  | [] => ([], l)
  end.

Section urlsplit.
  Variable bracketed_host_ok : text -> bool.

(** [_check_bracketed_netloc]. *)
Definition bracketed_ok (netloc : text) : bool :=
  let hostport := (rpartition_l (chr 64) netloc).2 in
  let '(before, opened, inside) := partition_l (chr 91) hostport in
  if opened then
    match before with
    | _ :: _ => false
    | [] => let '(host, _, port) := partition_l (chr 93) inside in
            match port with
            | c :: _ => is_c 58 c && bracketed_host_ok host
            | [] => bracketed_host_ok host
            end
    end
  else bracketed_host_ok (partition_l (chr 58) hostport).1.1.

Definition has (n : N) (l : text) : bool := existsb (is_c n) l.

(** [urlsplit(url)]; query and fragment, which nobody reads, stay in the path. *)
Definition urlsplit (url : string) : res SplitResult :=
  let '(scheme, rest) := split_scheme (sanitize (chars url)) in
  match rest with
  | a :: b :: r =>
      if is_c 47 a && is_c 47 b then
        let '(netloc, path) := break (fun c => is_c 47 c || is_c 63 c || is_c 35 c) r in
        raise_if xorb (has 91 netloc) (has 93 netloc) || (has 91 netloc && negb (bracketed_ok netloc))
          with ValueError, "Invalid IPv6 URL" ;;
        Ok {| sr_scheme := scheme; sr_netloc := netloc; sr_path := path |}
      else Ok {| sr_scheme := scheme; sr_netloc := []; sr_path := rest |}
  | _ => Ok {| sr_scheme := scheme; sr_netloc := []; sr_path := rest |}
  end.
End urlsplit.

(** [.username], [.password]. *)
Definition userinfo (r : SplitResult) : option text * option text :=
  let '(info, found, _) := rpartition_l (chr 64) (sr_netloc r) in
  if found then
    let '(user, has_pw, pw) := partition_l (chr 58) info in
    (Some user, if has_pw then Some pw else None)
  else (None, None).

Definition hostinfo (r : SplitResult) : text * option text :=
  let hp := (rpartition_l (chr 64) (sr_netloc r)).2 in
  let '(_, opened, inside) := partition_l (chr 91) hp in
  let '(host, port) :=
    if opened then let '(h, _, p) := partition_l (chr 93) inside in (h, (partition_l (chr 58) p).2)
    else let '(h, _, p) := partition_l (chr 58) hp in (h, p) in
  (host, match port with [] => None | _ => Some port end).

(** [.hostname]: lower case, but for an IPv6 zone. *)
Definition hostname (r : SplitResult) : option text :=
  match (hostinfo r).1 with
  | [] => None
  | h => let '(name, found, zone) := partition_l (chr 37) h in
         Some (map lower_c name ++ (if found then chr 37 :: zone else []))
  end.

(** [.port]. *)
Definition port (r : SplitResult) : res (option Z) :=
  match (hostinfo r).2 with
  | None => Ok None
  | Some p =>
      require forallb (within 48 57) p
        else ValueError, ("Port could not be cast to integer value as " +:+ repr (of_chars p)) ;;
      raise_if (max_str_digits <? List.length p)%nat
        with ValueError, "Exceeds the limit (4300 digits) for integer string conversion" ;;
      raise_if (65535 <? digits_value p) with ValueError, "Port out of range 0-65535" ;;
      Ok (Some (digits_value p))
  end.

Example urlsplit_samples :
  map (fun u => match urlsplit (fun _ => true) u with
        | Ok r => Some (of_chars (sr_scheme r), of_chars (sr_netloc r), option_map of_chars (hostname r), port r)
        | Err _ => None end)
    ["https://API.example.com:443/x?y"; " http://u:p@h#f"; "https://h:x"; "mailto:a@b"; "https://[::1"]
  = [Some ("https", "API.example.com:443", Some "api.example.com", Ok (Some 443));
     Some ("http", "u:p@h", Some "h", Ok None);
     Some ("https", "h:x", Some "h", Err (Exn ValueError "Port could not be cast to integer value as 'x'"));
     Some ("mailto", "", None, Ok None); None].
Proof. vm_compute. reflexivity. Qed.

(** Without userinfo and brackets the host is the netloc up to the colon. *)
Lemma partition_none c l : forallb (fun x => negb (Ascii.eqb x c)) l = true -> partition_l c l = (l, false, []).
Proof.
  induction l as [|x l IH]; cbn; [done|]. intros [Hx Hl]%andb_true_iff.
  rewrite IH by done. by destruct (Ascii.eqb x c).
Qed.
