(* ===== verification/Isolation.v ===== *)
(** * Tenant isolation (fleet_kernel/m8/isolation.py)

    What a worker may open, which credentials and hosts it may reach, which
    messages it may believe, and what may be shared between tenants. The file
    system is a snapshot of inodes; the sequence store, the only state the
    module writes, is a map of files. *)
From S2P Require Import Prelude PyStr PyFloat PyTime Json Sha256 PyRegex PyIO JsonText PyValue PyUuid PyUrl.
From stdpp Require Import base gmap strings list.
From Stdlib Require Import ZArith NArith Lia DecimalString.

Local Open Scope Z_scope.

(** [except c as exc: raise IsolationError(msg) from exc]: the module's own
    [IsolationError] is an [OSError] too. *)
Definition or_isolation {A} (classes : list exc_class) (msg : string) (m : res A) : res A :=
  match m with
  | Err e => if existsb (is_subclass (exn_class e)) classes then Err (Exn IsolationError msg) else Err e
  | ok => ok
  end.

(** ** Worker files *)

(* src: fleet_kernel/m8/isolation.py WorkerIdentity *)
Record WorkerIdentity := { wi_tenant : string; wi_worker : string; wi_uid : Z; wi_gid : Z }.

(** Inodes; a directory maps names to inodes. [permitted] below is the
    kernel's access check on an inode. *)
Inductive node :=
  | Dir (uid gid mode : Z) (entries : gmap string nat)
  | Reg (uid : Z) (content : bytes)
  | Symlink
  | Special (uid : Z).
Notation fs := (gmap nat node).
Definition os_error {A} (msg : string) : res A := Err (Exn OSError msg).

(** A [Path]: whether it is absolute, and its parts. *)
Record path := { p_absolute : bool; p_parts : list string }.

Definition mode_0700 : Z := 448.
Definition mode_0600 : Z := 384.

Section files.
  Variables (euid egid : Z) (permitted : nat -> bool) (f : fs).

(** [root] is the inode the identity's root path names, [None] when it names
    nothing. *)
(* src: fleet_kernel/m8/isolation.py verify_worker_identity *)
Definition verify_worker_identity (root : option nat) (w : WorkerIdentity) : res unit :=
  raise_if negb (truthy (wi_tenant w)) || negb (truthy (wi_worker w))
    with IsolationError, "worker tenant and identity are required" ;;
  raise_if negb (euid =? wi_uid w) || negb (egid =? wi_gid w)
    with IsolationError, "process UID/GID does not match immutable worker identity" ;;
  match root ≫= fun n => f !! n with
  | None => os_error "No such file or directory"
  | Some (Dir uid gid mode _) =>
      require (uid =? wi_uid w) && (gid =? wi_gid w) && (mode =? mode_0700)
        else IsolationError, "tenant worker root must be owned by the worker and mode 0700" ;;
      Ok tt
  | Some _ => Err (Exn IsolationError "tenant worker root must be owned by the worker and mode 0700")
  end.

(** [os.open(path, flags | O_NOFOLLOW)] of an inode, [O_DIRECTORY] or not. *)
Definition open_inode (directory : bool) (n : nat) : res nat :=
  match f !! n with
  | None => os_error "No such file or directory"
  | Some Symlink => os_error "Too many levels of symbolic links"
  | Some (Dir _ _ _ _) => require permitted n else OSError, "Permission denied" ;; Ok n
  | Some _ =>
      raise_if directory with OSError, "Not a directory" ;;
      require permitted n else OSError, "Permission denied" ;; Ok n
  end.

(** [os.open(part, flags, dir_fd=current)]. *)
Definition open_at (directory : bool) (current : nat) (part : string) : res nat :=
  match f !! current with
  | Some (Dir _ _ _ entries) =>
      match entries !! part with
      | Some n => open_inode directory n
      | None => os_error "No such file or directory"
      end
  | _ => os_error "Not a directory"
  end.

(** The loop over [relative_path.parts]: the inode behind [current_fd]. *)
(* src: fleet_kernel/m8/isolation.py open_worker_file@8-16 *)
Fixpoint walk (current : nat) (parts : list string) : res nat :=
  match parts with
  | [] => Ok current
  | [part] => open_at false current part
  | part :: rest => let! next := open_at true current part in walk next rest
  end.

(* src: fleet_kernel/m8/isolation.py open_worker_file *)
Definition open_worker_file (root : option nat) (w : WorkerIdentity) (relative : path) : res bytes :=
  let! _ := verify_worker_identity root w in
  raise_if p_absolute relative || existsb (String.eqb "..") (p_parts relative)
           || bool_decide (p_parts relative = [])
    with IsolationError, "worker path escapes tenant root" ;;
  match root with
  | None => os_error "No such file or directory"
  | Some r =>
      let! root_fd := open_inode true r in
      or_isolation [OSError] "OS refused tenant worker file access"
        (let! n := walk root_fd (p_parts relative) in
         match f !! n with
         | Some (Reg uid content) =>
             require (uid =? wi_uid w)
               else IsolationError, "worker file is not an identity-owned regular file" ;;
             Ok content
         | _ => Err (Exn IsolationError "worker file is not an identity-owned regular file")
         end)
  end.
End files.

(** ** Credentials and egress *)

(* src: fleet_kernel/m8/isolation.py CredentialGrant *)
Record CredentialGrant := {
  cg_tenant : string; cg_capability : string; cg_secret_ref : string; cg_expires_at : datetime }.

(* src: fleet_kernel/m8/isolation.py CredentialBroker.checkout *)
Definition checkout (grants : gmap (string * string) CredentialGrant) (w : WorkerIdentity)
    (tenant capability : string) (now : datetime) : res CredentialGrant :=
  require (wi_tenant w =? tenant)%string
    else IsolationError, "credential checkout tenant mismatch" ;;
  match grants !! (tenant, capability) with
  | None => Err (Exn IsolationError "credential capability is not granted")
  | Some grant =>
      let expired := Err (Exn IsolationError "credential grant is expired or clock is invalid") in
      if negb (aware now) then expired else
      let! over := dt_le (cg_expires_at grant) now in
      if over : bool then expired else
      require startswith (cg_secret_ref grant) "secret://"
        else IsolationError, "credential grant must be an opaque secret-manager reference" ;;
      Ok grant
  end.

(** [s.rstrip(".")]. *)
Definition rstrip_dots (l : text) : text := rev (break (fun c => negb (is_c 46 c)) (rev l)).2.

Definition present (o : option text) : bool := match o with Some (_ :: _) => true | _ => false end.

(* src: fleet_kernel/m8/isolation.py EgressPolicy.require *)
Definition require_egress (bracketed_host_ok : text -> bool) (allowed : gmap string (list string))
    (capability url : string) : res string :=
  let! parsed := urlsplit bracketed_host_ok url in
  let refused := Err (Exn IsolationError "egress requires credential-free HTTPS on port 443") in
  if negb (bool_decide (sr_scheme parsed = chars "https")) || present (userinfo parsed).1
     || present (userinfo parsed).2 then refused else
  let! p := port parsed in
  match hostname parsed with
  | None => refused
  | Some h =>
      if negb (bool_decide (p = None \/ p = Some 443)) then refused else
      let host := of_chars (map lower_c (rstrip_dots h)) in
      require existsb (String.eqb host) (default [] (allowed !! capability))
        else IsolationError, "default-deny egress refused destination" ;;
      Ok host
  end.

(** ** Signed messages *)

(* src: fleet_kernel/m8/isolation.py SignedMessage *)
Record SignedMessage := {
  sm_tenant : string; sm_sender : string; sm_recipient : string; sm_id : string; sm_sequence : Z;
  sm_issued_at : string; sm_payload_sha256 : string; sm_signature : string }.

(* src: fleet_kernel/m8/isolation.py _message_payload *)
Definition message_payload (m : SignedMessage) : string :=
  dumps (JObj [
    ("tenant_id", JStr (sm_tenant m)); ("sender", JStr (sm_sender m));
    ("recipient", JStr (sm_recipient m)); ("message_id", JStr (sm_id m));
    ("sequence", JInt (sm_sequence m)); ("issued_at", JStr (sm_issued_at m));
    ("payload_sha256", JStr (sm_payload_sha256 m))]).

(** A file of the sequence store's directory. *)
Inductive seq_file :=
  | SeqReg (uid mode : Z) (content : bytes)
  | SeqLink
  | SeqOther.
Notation seq_store := (gmap string seq_file).

(** What goes wrong while the new state is written: nothing, an error up to and
    including [os.replace], or an error while the directory is synced. *)
Inductive fault := NoFault | BeforeReplace (e : exn) | AfterReplace (e : exn).

Definition safe_file (euid : Z) (x : seq_file) : bool :=
  match x with SeqReg uid mode _ => (mode =? mode_0600) && (uid =? euid) | _ => false end.

(** What the store's root path is before the store is opened. *)
Inductive root_meta := RootAbsent | RootDir (uid mode : Z) | RootLink (to_directory : bool) | RootOther.

(** [mkdir(exist_ok=True)], [chmod(0o700)] (which only the owner or root may
    do), then the check. *)
(* src: fleet_kernel/m8/isolation.py DurableSequenceStore.__init__ *)
Definition open_sequence_store (euid : Z) (r : root_meta) : res root_meta :=
  let refused := Err (Exn IsolationError "message sequence root must be private mode 0700") in
  match r with
  | RootAbsent => Ok (RootDir euid mode_0700)
  | RootDir uid _ =>
      raise_if negb (uid =? euid) && negb (euid =? 0) with PermissionError, "Operation not permitted" ;;
      if uid =? euid then Ok (RootDir uid mode_0700) else refused
  | RootLink true => refused
  | RootLink false | RootOther => os_error "File exists"
  end.

Section messages.
  Context `{Digest} `{IsoTime} `{Ed25519}.
  Variable euid : Z.

(** [new_id] is [str(uuid.uuid4())]. *)
(* src: fleet_kernel/m8/isolation.py sign_message *)
Definition sign_message (private_key : PrivateKey) (new_id tenant sender recipient : string)
    (sequence : Z) (payload : string) (issued now : datetime) (given : bool) : res SignedMessage :=
  raise_if negb (truthy tenant) || negb (truthy sender) || negb (truthy recipient) || (sequence <? 1)
    with ValueError, "signed-message identity and positive sequence are required" ;;
  let timestamp := if given then issued else now in
  require aware timestamp else ValueError, "signed-message issued_at must be timezone-aware" ;;
  let message signature := {|
    sm_tenant := tenant; sm_sender := sender; sm_recipient := recipient; sm_id := new_id;
    sm_sequence := sequence; sm_issued_at := isoformat timestamp;
    sm_payload_sha256 := digest payload; sm_signature := signature |} in
  Ok (message (sign private_key (message_payload (message "")))).

Definition store_identity (tenant sender : string) : string :=
  digest (encode_utf8 (tenant +:+ of_chars [chr 31] +:+ sender)).

(** The last sequence on record. *)
(* src: fleet_kernel/m8/isolation.py DurableSequenceStore.advance@14-30 *)
Definition last_sequence (s : seq_store) (name : string) : res Z :=
  let invalid := or_isolation [OSError; UnicodeDecodeError; ValueError] "message sequence state is invalid" in
  match s !! name with
  | None => Ok 0
  | Some SeqLink => os_error "Too many levels of symbolic links"
  | Some (SeqReg _ _ content as x) =>
      invalid (
        require safe_file euid x else IsolationError, "message sequence state is unsafe" ;;
        match utf8_decode (take 128 content) with
        | Some t => py_int (JStr (of_chars t))
        | None => Err (Exn UnicodeDecodeError "'utf-8' codec can't decode bytes")
        end)
  | Some SeqOther => invalid (Err (Exn IsolationError "message sequence state is unsafe"))
  end.

(** Under the lock: the new state goes to a temporary file that replaces the old. *)
(* src: fleet_kernel/m8/isolation.py DurableSequenceStore.advance@31-51 *)
Definition advance_locked (s : seq_store) (state : string) (sequence : Z) (io : fault)
    : res bool * seq_store :=
  match last_sequence s state with
  | Err e => (Err e, s)
  | Ok last =>
      if sequence <=? last then (Ok false, s) else
      if (max_str_digits <? List.length (chars (str_Z (Z.abs sequence))))%nat
      then (Err (Exn ValueError "Exceeds the limit (4300 digits) for integer string conversion"), s)
      else
      let written := <[state := SeqReg euid mode_0600 (chars (str_Z sequence) ++ [lf])]> s in
      match io with
      | BeforeReplace e => (Err e, s)
      | AfterReplace e => (Err e, written)
      | NoFault => (Ok true, written)
      end
  end.

(* src: fleet_kernel/m8/isolation.py DurableSequenceStore.advance *)
Definition advance (s : seq_store) (tenant sender : string) (sequence : Z) (io : fault)
    : res bool * seq_store :=
  let identity := store_identity tenant sender in
  let lock := identity +:+ ".lock" in
  let state := identity +:+ ".seq" in
  match s !! lock with
  | Some SeqLink => (os_error "Too many levels of symbolic links", s)
  | Some SeqOther => (os_error "Is a directory", s)
  | Some x =>
      if safe_file euid x then advance_locked s state sequence io
      else (Err (Exn IsolationError "message sequence lock is unsafe"), s)
  | None => advance_locked (<[lock := SeqReg euid mode_0600 []]> s) state sequence io
  end.

Definition seconds30 : Z := 30 * 1000000.

(** The checks of [verify] before the sequence is advanced. [now] is
    [datetime.now(timezone.utc)], [max_age] in microseconds. *)
(* src: fleet_kernel/m8/isolation.py MessageVerifier.verify@4-25 *)
Definition check_message (keys : gmap (string * string) PublicKey) (max_age : Z) (now : datetime)
    (m : SignedMessage) (tenant recipient payload : string) : res unit :=
  require (sm_tenant m =? tenant)%string && (sm_recipient m =? recipient)%string
    else IsolationError, "signed-message tenant or recipient mismatch" ;;
  match keys !! (tenant, sm_sender m) with
  | None => Err (Exn IsolationError "signed-message worker key is unavailable")
  | Some key =>
  require (digest payload =? sm_payload_sha256 m)%string
    else IsolationError, "signed-message payload digest mismatch" ;;
  match fromisoformat (sm_issued_at m) with
  | None => Err (Exn IsolationError "signed-message issued_at is invalid")
  | Some issued =>
  raise_if negb (aware issued) || (instant now + seconds30 <? instant issued)
           || (max_age <? instant now - instant issued)
    with IsolationError, "signed-message is stale or from the future" ;;
  require verify_signature key (sm_signature m) (message_payload m)
    else IsolationError, "signed-message signature is invalid" ;;
  Ok tt
  end
  end.

(* src: fleet_kernel/m8/isolation.py MessageVerifier.verify *)
Definition verify_message (keys : gmap (string * string) PublicKey) (max_age : Z) (now : datetime)
    (s : seq_store) (m : SignedMessage) (tenant recipient payload : string) (io : fault)
    : res unit * seq_store :=
  match check_message keys max_age now m tenant recipient payload with
  | Err e => (Err e, s)
  | Ok _ =>
      let '(advanced, s') := advance s (sm_tenant m) (sm_sender m) (sm_sequence m) io in
      (match advanced with
       | Ok true => Ok tt
       | Ok false => Err (Exn IsolationError "signed-message sequence replay refused")
       | Err e => Err e
       end, s')
  end.
End messages.

(** ** Shared learning *)

(** [\s] of a bytes pattern. *)
Definition bspace : list (N * N) := [(9, 13); (32, 32)]%N.

(* src: fleet_kernel/m8/isolation.py _SECRET_PATTERN *)
Definition SECRET_PATTERN : re :=
  alts [lit "sk-ant-";
    cats [lit "akia"; exactly 16 (rset (digits09 ++ [rng "a" "z"]))];
    cats [lit "-----begin "; opt (alts [lit "rsa "; lit "ec "; lit "openssh "]); lit "private key-----"];
    cats [lit "bearer"; many1 (rset bspace); many1 (rset (rng "a" "z" :: digits09 ++ one_of "._~+/=-"))];
    cats [alts [cats [lit "api"; opt (rset (one_of "_-")); lit "key"]; lit "token"; lit "password"; lit "secret"];
      many (rset bspace); rset (one_of ":="); many (rset bspace); many1 (RSet (CNot (CRanges bspace)))]].

(* src: fleet_kernel/m8/isolation.py _ENCODED_SECRET *)
Definition ENCODED_SECRET : re :=
  let edge := CRanges (alnum ++ one_of "+/=") in
  cats [RNotBefore edge;
    alts [at_least 40 (rset (rng "A" "F" :: rng "a" "f" :: digits09));
      cats [at_least 40 (rset (alnum ++ one_of "+/")); RRep 0 (Some 2%nat) (rset (one_of "="))]];
    RNotAfter edge].

(** [bytes.lower]: ASCII letters only. *)
Definition lower_b (c : Ascii.ascii) : Ascii.ascii := if within 65 90 c then lower_c c else c.

Fixpoint is_infix (pat l : bytes) : bool :=
  bool_decide (pat = take (List.length pat) l) || match l with [] => false | _ :: r => is_infix pat r end.

(** [literal.strip().lower().encode()]. *)
Definition encoded_literal (literal : string) : bytes := chars (encode_utf8 (lower (strip literal))).

(* src: fleet_kernel/m8/isolation.py assert_shared_learning_safe *)
Definition assert_shared_learning_safe (data : string) (tenant_literals : list string) : res unit :=
  let lowered := map lower_b (chars data) in
  raise_if existsb (fun literal => let encoded := encoded_literal literal in
             negb (bool_decide (encoded = [])) && is_infix encoded lowered) tenant_literals
    with IsolationError, "shared-learning artifact contains a tenant literal" ;;
  raise_if re_search true SECRET_PATTERN data || re_search false ENCODED_SECRET data
    with IsolationError, "shared-learning artifact contains credential-shaped data" ;;
  Ok tt.

Lemma or_isolation_ok {A} cs msg (m : res A) x : or_isolation cs msg m = Ok x -> m = Ok x.
Proof. destruct m as [|e]; unfold or_isolation; [done|]. by destruct (existsb _ cs). Qed.

(** ** Opening beneath the root *)

Section opening.
  Variables (euid egid : Z) (permitted : nat -> bool) (f : fs).

(** [n] is reached from [current] by names alone: every step is an entry of a
    real directory, and no inode on the way is a symbolic link. *)
Inductive beneath (current : nat) : list string -> nat -> Prop :=
  | beneath_here : f !! current <> Some Symlink -> beneath current [] current
  | beneath_entry part rest uid gid mode entries next n :
      f !! current = Some (Dir uid gid mode entries) -> entries !! part = Some next ->
      beneath next rest n -> beneath current (part :: rest) n.

Lemma open_inode_ok directory n m :
  open_inode permitted f directory n = Ok m ->
  m = n /\ f !! n <> Some Symlink /\ is_Some (f !! n) /\ permitted n = true /\
  (directory = true -> exists uid gid mode entries, f !! n = Some (Dir uid gid mode entries)).
Proof.
  unfold open_inode. destruct (f !! n) as [[uid gid mode entries|uid c| |uid]|] eqn:E; try done.
  - intros [Hp [= <-]]%require_ok. split_and!; eauto; done.
  - intros [Hd [Hp [= <-]]%require_ok]%raise_if_ok. split_and!; eauto; congruence.
  - intros [Hd [Hp [= <-]]%require_ok]%raise_if_ok. split_and!; eauto; congruence.
Qed.

Lemma open_at_ok directory current part m :
  open_at permitted f directory current part = Ok m ->
  (exists uid gid mode entries, f !! current = Some (Dir uid gid mode entries) /\ entries !! part = Some m) /\
  f !! m <> Some Symlink /\ is_Some (f !! m) /\ permitted m = true.
Proof.
  unfold open_at. destruct (f !! current) as [[uid gid mode entries| | |]|] eqn:E; try done.
  destruct (entries !! part) as [n|] eqn:En; [|done].
  intros (-> & ? & ? & ? & _)%open_inode_ok. split_and!; eauto 8.
Qed.

Lemma walk_ok current parts n :
  parts <> [] -> walk permitted f current parts = Ok n ->
  beneath current parts n /\ permitted n = true.
Proof.
  revert current. induction parts as [|part rest IH]; intros current Hne E; [done|].
  destruct rest as [|part' rest].
  - apply open_at_ok in E as ((uid & gid & mode & entries & Ed & En) & Hs & _ & Hp).
    split; [|done]. by eapply beneath_entry, beneath_here.
  - cbn [walk] in E. apply rbind_ok in E as (next & E1 & E).
    apply open_at_ok in E1 as ((uid & gid & mode & entries & Ed & En) & _ & _ & _).
    apply IH in E as [Hb Hp]; [|done]. split; [|done]. by eapply beneath_entry.
Qed.

(** C18: A worker reads only beneath its own root: what [open_worker_file] returns
    is the content of a regular file that the worker owns, reached from a
    mode-0700 directory that it owns by the names of the relative path,
    through real directories and no symbolic link, none of the names being
    "..", and the process runs as that worker. *)
Theorem worker_files_are_contained root w relative content :
  open_worker_file euid egid permitted f root w relative = Ok content ->
  euid = wi_uid w /\ egid = wi_gid w /\ wi_tenant w <> "" /\
  ".." ∉ p_parts relative /\ p_absolute relative = false /\
  exists r entries n, root = Some r /\ f !! r = Some (Dir (wi_uid w) (wi_gid w) mode_0700 entries) /\
    beneath r (p_parts relative) n /\ permitted n = true /\ f !! n = Some (Reg (wi_uid w) content).
Proof.
  unfold open_worker_file. intros ([] & Hv & [Hg E]%raise_if_ok)%rbind_ok.
  unfold verify_worker_identity in Hv. apply raise_if_ok in Hv as [Hn Hv].
  apply raise_if_ok in Hv as [Hid Hv]. autorewrite with pybool in Hn, Hid, Hg.
  destruct Hn as [Ht _], Hid as [Hu%Z.eqb_eq Hgid%Z.eqb_eq], Hg as [[Ha Hdd] Hne].
  destruct root as [r|]; [|done]. cbn in Hv.
  destruct (f !! r) as [[uid gid mode entries| | |]|] eqn:Er; try done.
  apply require_ok in Hv as [Hm _]. autorewrite with pybool in Hm.
  destruct Hm as [[->%Z.eqb_eq ->%Z.eqb_eq] ->%Z.eqb_eq].
  apply rbind_ok in E as (r' & (-> & _)%open_inode_ok & E).
  apply or_isolation_ok in E. apply rbind_ok in E as (n & [Hb Hp]%walk_ok & E); [|done].
  destruct (f !! n) as [[|uid c'| |]|] eqn:En; try done.
  apply require_ok in E as [->%Z.eqb_eq [= ->]].
  split_and!; try done.
  - intros X. by rewrite X in Ht.
  - intros X%existsb_eqb. congruence.
  - by exists r, entries, n.
Qed.
End opening.

(** ** The stored sequence reads back *)

Lemma digit_props c : within 48 57 c = true ->
  isspace c = false /\ (code c =? 95)%N = false /\ (code c =? 45)%N = false /\ (code c =? 43)%N = false /\
  (code c <? 128)%N = true.
Proof.
  destruct c as [[] [] [] [] [] [] [] []]; intros Hc; (discriminate Hc || by vm_compute).
Qed.

Lemma us_digits_all ds : forallb (within 48 57) ds = true -> us_digits ds = (ds, []).
Proof.
  induction ds as [|c r IH]; [done|]. cbn [forallb us_digits]. intros [Hc Hr]%andb_true_iff.
  rewrite Hc. destruct r as [|u r']; [done|]. specialize (IH Hr).
  cbn [forallb] in Hr. apply andb_true_iff in Hr as [Hu _].
  apply digit_props in Hu as (_ & -> & _). by rewrite IH.
Qed.

Lemma lstrip_digit c l : within 48 57 c = true -> lstrip_l (c :: l) = c :: l.
Proof. intros Hc. cbn. by apply digit_props in Hc as [-> _]. Qed.

Lemma strip_digits ds tail :
  forallb (within 48 57) ds = true -> ds <> [] -> forallb isspace tail = true ->
  strip (of_chars (ds ++ tail)) = of_chars ds.
Proof.
  intros Hd Hn Ht. unfold strip. rewrite chars_of_chars. f_equal.
  destruct ds as [|c r]; [done|]. cbn [app].
  assert (Hc : within 48 57 c = true) by (by apply andb_true_iff in Hd as [? _]).
  rewrite lstrip_digit by done. unfold rstrip_l. change (c :: r ++ tail) with ((c :: r) ++ tail).
  rewrite rev_app_distr.
  assert (Hs : forall l m, forallb isspace l = true -> lstrip_l (l ++ m) = lstrip_l m).
  { induction l as [|x l IH]; intros m; cbn; [done|]. intros [-> ?]%andb_true_iff. auto. }
  rewrite Hs by (by rewrite forallb_rev). rewrite <- (forallb_rev (within 48 57)) in Hd.
  destruct (rev (c :: r)) as [|d r'] eqn:E.
  { apply (f_equal (@List.length _)) in E. rewrite length_rev in E. discriminate E. }
  apply andb_true_iff in Hd as [Hd _]. rewrite lstrip_digit by done.
  rewrite <- E. apply rev_involutive.
Qed.

Lemma py_int_digits ds tail :
  forallb (within 48 57) ds = true -> ds <> [] -> forallb isspace tail = true ->
  (List.length ds <= max_str_digits)%nat ->
  py_int (JStr (of_chars (ds ++ tail))) = Ok (digits_value ds).
Proof.
  intros Hd Hn Ht Hl. cbn [py_int]. rewrite strip_digits by done. rewrite chars_of_chars.
  destruct ds as [|c r]; [done|].
  assert (Hc : within 48 57 c = true) by (by apply andb_true_iff in Hd as [? _]).
  unfold sign_of. apply digit_props in Hc as (_ & _ & -> & -> & _).
  rewrite us_digits_all by done. cbn [fst snd].
  destruct (Nat.ltb_spec max_str_digits (List.length (c :: r))); [lia|done].
Qed.

Lemma utf8_decode_ascii l : forallb (fun c => (code c <? 128)%N) l = true -> utf8_decode l = Some l.
Proof.
  induction l as [|c l IH]; cbn [forallb utf8_decode]; [done|].
  intros [Hc Hl]%andb_true_iff. by rewrite Hc, IH.
Qed.

Definition sequence_limit : Z := 10 ^ 126.

Lemma str_Z_pos p : chars (str_Z (Zpos p)) = chars (NilEmpty.string_of_uint (Pos.to_uint p)).
Proof. done. Qed.

Section replay.
  Context `{Digest} `{IsoTime} `{Ed25519}.
  Variable euid : Z.

Definition state_file (n : Z) : seq_file := SeqReg euid mode_0600 (chars (str_Z n) ++ [lf]).

Lemma last_sequence_reads s name n :
  s !! name = Some (state_file n) -> 0 < n < sequence_limit -> last_sequence euid s name = Ok n.
Proof.
  intros E Hn. unfold last_sequence. rewrite E. unfold state_file.
  assert (Hl : (List.length (chars (str_Z n)) <= 128)%nat).
  { apply (str_Z_length n 126). rewrite Z.abs_eq by lia. apply Hn. }
  destruct n as [|p|p]; [lia| |lia]. rewrite str_Z_pos in *.
  set (ds := chars (NilEmpty.string_of_uint (Pos.to_uint p))) in *.
  assert (Hd : forallb (within 48 57) ds = true) by apply uint_digits.
  assert (Hne : ds <> []) by (destruct (pos_head p) as (c & t & Ep & _); subst ds; by rewrite Ep).
  assert (Ht : exists tail, take 128 (ds ++ [lf]) = ds ++ tail /\ forallb isspace tail = true /\
    forallb (fun c => (code c <? 128)%N) tail = true).
  { destruct (Nat.eq_dec (List.length ds) 128) as [E128|N128].
    - exists []. rewrite take_app_length' by done. by rewrite app_nil_r.
    - exists [lf]. rewrite take_ge; [done|]. rewrite length_app. cbn. lia. }
  destruct Ht as (tail & -> & Ht & Hta).
  assert (Ha : forallb (fun c => (code c <? 128)%N) (ds ++ tail) = true).
  { rewrite forallb_app, andb_true_iff. split.
    - rewrite forallb_forall in Hd |- *. intros c Hc. apply Hd in Hc. by apply digit_props in Hc as (_ & _ & _ & _ & ->).
    - done. }
  cbn [safe_file]. rewrite !Z.eqb_refl. cbn [andb or_isolation].
  rewrite utf8_decode_ascii by done. rewrite py_int_digits; [|done..|unfold max_str_digits; lia].
  subst ds. by rewrite digits_value_pos.
Qed.

(** [advance] either answers [true] and records the sequence, which was above
    the last one, or answers otherwise and records the sequence or nothing. *)
Definition advanced (s : seq_store) (state : string) (n : Z) (r : res bool) (s' : seq_store) : Prop :=
  s' !! state = s !! state /\ r <> Ok true \/
  (exists last, last_sequence euid s state = Ok last /\ last < n) /\ s' !! state = Some (state_file n).

Lemma advance_locked_spec s state n io r s' :
  advance_locked euid s state n io = (r, s') ->
  (forall name, name <> state -> s' !! name = s !! name) /\ advanced s state n r s'.
Proof.
  unfold advance_locked, advanced. destruct (last_sequence euid s state) as [last|e].
  2: { intros [= <- <-]. split; [done|by left]. }
  destruct (Z.leb_spec n last); [intros [= <- <-]; split; [done|by left]|].
  destruct (_ <? _)%nat; [intros [= <- <-]; split; [done|by left]|].
  destruct io; intros [= <- <-]; (split; [intros; by rewrite ?lookup_insert_ne by congruence|]);
    [right|by left|right]; rewrite lookup_insert_eq; eauto.
Qed.

Lemma advance_spec s tenant sender n io r s' :
  let state := store_identity tenant sender +:+ ".seq" in
  advance euid s tenant sender n io = (r, s') ->
  (forall name, name <> state -> name <> store_identity tenant sender +:+ ".lock" -> s' !! name = s !! name) /\
  advanced s state n r s'.
Proof.
  intros state. unfold advance. fold state. set (lock := store_identity tenant sender +:+ ".lock").
  assert (Nls : lock <> state).
  { intros X. apply (f_equal chars) in X. unfold lock, state in X. rewrite !chars_app in X.
    by apply app_inv_head in X. }
  destruct (s !! lock) as [[uid mode c| |]|]; try (intros [= <- <-]; split; [done|by left]).
  - destruct (safe_file _ _); [|intros [= <- <-]; split; [done|by left]].
    intros [Hk Ha]%advance_locked_spec. auto.
  - intros [Hk Ha]%advance_locked_spec. split.
    + intros name N1 N2. by rewrite Hk, lookup_insert_ne by done.
    + unfold advanced, last_sequence in *. by rewrite lookup_insert_ne in Ha by done.
Qed.

(** ** Histories of a store

    Any number of verifiers share the store; each call has its own clock,
    expectations and write faults, and any message, forged or captured. *)
Record mailbox := Mailbox { mb_store : seq_store; mb_accepted : list SignedMessage }.

Section history.
  Variables (keys : gmap (string * string) PublicKey) (max_age : Z).

Inductive receive (b : mailbox) : mailbox -> Prop :=
  | receive_call now m tenant recipient payload io r s' :
      sm_sequence m < sequence_limit ->
      verify_message euid keys max_age now (mb_store b) m tenant recipient payload io = (r, s') ->
      receive b (Mailbox s' (match r with Ok _ => mb_accepted b ++ [m] | Err _ => mb_accepted b end)).

Definition state_name (m : SignedMessage) : string := store_identity (sm_tenant m) (sm_sender m) +:+ ".seq".
Definition signed (m : SignedMessage) : Prop :=
  exists key, keys !! (sm_tenant m, sm_sender m) = Some key /\
    verify_signature key (sm_signature m) (message_payload m) = true.

Record ordered (b : mailbox) : Prop := {
  o_files t q : mb_store b !! (store_identity t q +:+ ".seq") = None \/
    exists n, 0 < n < sequence_limit /\
      mb_store b !! (store_identity t q +:+ ".seq") = Some (state_file n);
  o_covered m : m ∈ mb_accepted b -> signed m /\
    exists n, sm_sequence m <= n /\ mb_store b !! state_name m = Some (state_file n);
  o_sorted i j m m' : mb_accepted b !! i = Some m -> mb_accepted b !! j = Some m' -> (i < j)%nat ->
    state_name m = state_name m' -> sm_sequence m < sm_sequence m';
}.

Lemma state_not_lock t q t' q' : store_identity t q +:+ ".seq" <> store_identity t' q' +:+ ".lock".
Proof.
  intros X. apply (f_equal (fun s => rev (chars s))) in X. rewrite !chars_app, !rev_app_distr in X.
  cbn in X. discriminate X.
Qed.

Lemma state_file_inj n k : state_file n = state_file k -> n = k.
Proof. intros [= E]. apply app_inj_2 in E as [E%chars_inj _]; [|done]. by apply str_Z_inj. Qed.

Lemma check_message_signed now m tenant recipient payload :
  check_message keys max_age now m tenant recipient payload = Ok tt -> signed m.
Proof.
  unfold check_message. intros [Ht E]%require_ok. apply andb_true_iff in Ht as [<-%String.eqb_eq _].
  destruct (keys !! _) as [key|] eqn:Ek; [|done]. apply require_ok in E as [_ E].
  destruct (fromisoformat _); [|done]. apply raise_if_ok in E as [_ E]. apply require_ok in E as [Hs _].
  by exists key.
Qed.

Lemma ordered_receive b b' : ordered b -> receive b b' -> ordered b'.
Proof.
  intros [O1 O2 O3] [now m tenant recipient payload io r s' Hlim E]. unfold verify_message in E.
  destruct (check_message _ _ _ _ _ _ _) as [[]|] eqn:Ec; [|by injection E as <- <-; split].
  apply check_message_signed in Ec.
  destruct (advance _ _ _ _ _ _) as [a s1] eqn:Ea. injection E as <- <-.
  apply advance_spec in Ea as [Hk Ha]. fold (state_name m) in Hk, Ha.
  assert (Hother : forall t q, store_identity t q +:+ ".seq" <> state_name m ->
    s1 !! (store_identity t q +:+ ".seq") = mb_store b !! (store_identity t q +:+ ".seq")).
  { intros t q Hne. apply Hk; [done|apply state_not_lock]. }
  destruct Ha as [[Hs Hr]|[(last & Hl & Hlt) Hs]].
  - (* nothing recorded: nothing accepted *)
    assert (Hsame : forall t q, s1 !! (store_identity t q +:+ ".seq") = mb_store b !! (store_identity t q +:+ ".seq")).
    { intros t q. destruct (decide (store_identity t q +:+ ".seq" = state_name m)) as [->|]; [done|auto]. }
    enough (ordered (Mailbox s1 (mb_accepted b))) by (by destruct a as [[]|]).
    split; cbn; [|unfold state_name|done].
    + intros t q. rewrite Hsame. apply O1.
    + intros m0 Hm0. rewrite Hsame. by apply O2.
  - assert (Hbound : forall m0, m0 ∈ mb_accepted b -> state_name m0 = state_name m ->
      sm_sequence m0 < sm_sequence m).
    { intros m0 Hm0 Hn. destruct (O2 m0 Hm0) as (_ & n & Hle & Hf). rewrite Hn in Hf.
      destruct (O1 (sm_tenant m) (sm_sender m)) as [Ho|(n' & Hn' & Ho)]; fold (state_name m) in Ho;
        rewrite Hf in Ho; [done|]. apply (inj Some), state_file_inj in Ho as <-.
      rewrite (last_sequence_reads _ _ n Hf Hn') in Hl. injection Hl as <-. lia. }
    assert (Hpos : 0 < sm_sequence m).
    { destruct (O1 (sm_tenant m) (sm_sender m)) as [Ho|(n' & Hn' & Ho)]; fold (state_name m) in Ho.
      - unfold last_sequence in Hl. rewrite Ho in Hl. injection Hl as <-. done.
      - rewrite (last_sequence_reads _ _ n' Ho Hn') in Hl. injection Hl as <-. lia. }
    assert (Hcov : forall m0, m0 ∈ mb_accepted b -> exists n, sm_sequence m0 <= n /\
      s1 !! state_name m0 = Some (state_file n)).
    { intros m0 Hm0. destruct (decide (state_name m0 = state_name m)) as [Hn|Hn].
      - exists (sm_sequence m). rewrite Hn. split; [specialize (Hbound m0 Hm0 Hn); lia|done].
      - destruct (O2 m0 Hm0) as (_ & n & Hle & Hf). exists n. split; [done|].
        unfold state_name in *. by rewrite Hother. }
    split; cbn.
    + intros t q. destruct (decide (store_identity t q +:+ ".seq" = state_name m)) as [->|].
      * right. exists (sm_sequence m). done.
      * rewrite Hother by done. apply O1.
    + intros m0 Hm0. destruct a as [[]|]; try (split; [by apply O2|by apply Hcov]).
      apply elem_of_app in Hm0 as [Hm0|Hm0]; [split; [by apply O2|by apply Hcov]|].
      apply list_elem_of_singleton in Hm0 as ->.
      split; [done|]. exists (sm_sequence m). done.
    + intros i j m1 m2 E1 E2 Hij Hn. destruct a as [[]|]; try (by eapply O3).
      apply lookup_app_Some in E2 as [E2|[Hj E2]].
      * rewrite lookup_app_l in E1; [by eapply O3|]. apply lookup_lt_Some in E2. lia.
      * assert (Hl1 : (i < List.length (mb_accepted b))%nat).
        { apply lookup_lt_Some in E2. cbn in E2. lia. }
        apply list_lookup_singleton_Some in E2 as [_ <-]. rewrite lookup_app_l in E1 by done.
        apply Hbound; [by eapply list_elem_of_lookup_2|done].
Qed.

(** C17: No message is believed twice: along any calls, by any verifiers sharing a
    store, with any write faults, the messages accepted from one sender of one
    tenant carry strictly increasing sequences, each signed with the key
    registered for that sender (sequences below [10^126]; the store reads back
    only 128 bytes). *)
Theorem messages_are_not_replayed b i j m m' :
  rtc receive (Mailbox ∅ []) b ->
  mb_accepted b !! i = Some m -> mb_accepted b !! j = Some m' -> (i < j)%nat ->
  sm_tenant m = sm_tenant m' -> sm_sender m = sm_sender m' ->
  sm_sequence m < sm_sequence m' /\ signed m /\ signed m'.
Proof.
  intros R E E' Hij Ht Hq.
  assert (O : ordered b).
  { assert (O0 : ordered (Mailbox ∅ [])).
    { split; cbn; [by left|by intros ? ?%not_elem_of_nil|done]. }
    revert O0. clear -R. induction R as [|x y z S R IH]; eauto using ordered_receive. }
  split; [|split; eapply (o_covered _ O), list_elem_of_lookup_2; eauto].
  eapply (o_sorted _ O); eauto. unfold state_name. by rewrite Ht, Hq.
Qed.
End history.
End replay.

(** ** Shared learning *)

Lemma is_infix_app pat a c : is_infix pat (a ++ pat ++ c) = true.
Proof.
  induction a as [|x a IH].
  - cbn [app]. destruct (pat ++ c) eqn:E; cbn [is_infix]; rewrite <- E;
      rewrite take_app_length, bool_decide_true; done.
  - cbn [app is_infix]. by rewrite IH, orb_true_r.
Qed.

Definition ascii_text (l : text) : bool := forallb (fun c => (code c <? 128)%N) l.

Lemma lower_b_ascii c : (code c <? 128)%N = true -> lower_c c = lower_b c.
Proof. destruct c as [[] [] [] [] [] [] [] []]; vm_compute; done. Qed.

Lemma utf8_ascii c : (code c <? 128)%N = true -> utf8 (lower_b c) = [lower_b c].
Proof. destruct c as [[] [] [] [] [] [] [] []]; vm_compute; done. Qed.

Lemma encoded_literal_ascii literal :
  ascii_text (chars (strip literal)) = true ->
  encoded_literal literal = map lower_b (chars (strip literal)).
Proof.
  unfold encoded_literal, encode_utf8, lower. rewrite !chars_of_chars.
  generalize (chars (strip literal)). induction l as [|c l IH]; [done|].
  cbn [ascii_text forallb map flat_map]. intros [Hc Hl]%andb_true_iff.
  by rewrite lower_b_ascii, utf8_ascii, (IH Hl).
Qed.

(** An ASCII tenant literal is refused wherever it occurs in the artifact, in
    any spelling of its letters. *)
Theorem ascii_literals_are_screened literals literal before spelled after :
  literal ∈ literals -> strip literal <> "" -> ascii_text (chars (strip literal)) = true ->
  map lower_b (chars spelled) = map lower_b (chars (strip literal)) ->
  assert_shared_learning_safe (before +:+ spelled +:+ after) literals
    = Err (Exn IsolationError "shared-learning artifact contains a tenant literal").
Proof.
  intros Hin Hne Ha Hs. unfold assert_shared_learning_safe.
  match goal with |- (if ?b then _ else _) = _ => assert (Hb : b = true); [|by rewrite Hb] end.
  apply existsb_exists. exists literal. split; [by apply list_elem_of_In|].
  rewrite encoded_literal_ascii by done. rewrite andb_true_iff. split.
  - rewrite negb_true_iff, bool_decide_eq_false. intros E. apply Hne, chars_inj.
    destruct (chars (strip literal)); done.
  - rewrite !chars_app, !map_app, Hs. apply is_infix_app.
Qed.

(** ** Evaluations *)
Module IsolationDemo.
#[local] Existing Instance toy_signatures.

Definition keys : gmap (string * string) PublicKey := {[("t", "worker") := ("k" : PublicKey)]}.
Definition now : datetime := DT (700000 * day_us) (Some 0).
Definition minutes5 : Z := 300 * 1000000.
Definition message (sequence : Z) : SignedMessage :=
  match sign_message ("k" : PrivateKey) "id" "t" "worker" "kernel" sequence "hello" now now true with
  | Ok m => m
  | Err _ => {| sm_tenant := ""; sm_sender := ""; sm_recipient := ""; sm_id := ""; sm_sequence := 0;
                sm_issued_at := ""; sm_payload_sha256 := ""; sm_signature := "" |}
  end.
Definition deliver (s : seq_store) (m : SignedMessage) : res unit * seq_store :=
  verify_message 1000 keys minutes5 now s m "t" "kernel" "hello" NoFault.
Definition replay : exn := Exn IsolationError "signed-message sequence replay refused".

Definition m1 : SignedMessage := Eval vm_compute in message 1.
Definition m7 : SignedMessage := Eval vm_compute in message 7.
Definition after1 : seq_store := (deliver ∅ m1).2.
Definition after7 : seq_store := (deliver after1 m7).2.
Example deliveries :
  ((deliver ∅ m1).1, (deliver after1 m7).1, (deliver after7 m1).1, (deliver after7 m7).1)
  = (Ok tt, Ok tt, Err replay, Err replay).
Proof. vm_compute. reflexivity. Qed.

Lemma accepted b m : (deliver (mb_store b) m).1 = Ok tt -> sm_sequence m < sequence_limit ->
  receive 1000 keys minutes5 b (Mailbox (deliver (mb_store b) m).2 (mb_accepted b ++ [m])).
Proof.
  intros E Hl.
  apply (receive_call 1000 keys minutes5 b now m "t" "kernel" "hello" NoFault (Ok tt) _ Hl).
  unfold deliver in *. rewrite <- E. apply surjective_pairing.
Qed.

Lemma demo_deliveries : rtc (receive 1000 keys minutes5) (Mailbox ∅ []) (Mailbox after7 [m1; m7]).
Proof.
  apply (rtc_l _ _ (Mailbox after1 [m1]));
    [apply (accepted (Mailbox ∅ [])); vm_compute; reflexivity|].
  apply (rtc_l _ _ (Mailbox after7 [m1; m7])); [|apply rtc_refl].
  apply (accepted (Mailbox after1 [m1])); vm_compute; reflexivity.
Qed.

(** The state is read back from 128 bytes: a sequence of more digits is read as
    a smaller number, and the same signed message is accepted again. *)
Definition huge : SignedMessage := message (10 ^ 130).
Example huge_sequence_is_replayed :
  (deliver ∅ huge).1 = Ok tt /\ (deliver (deliver ∅ huge).2 huge).1 = Ok tt.
Proof. vm_compute. repeat split. Qed.

(** [bytes.lower] leaves the bytes of an upper-case accented letter alone, the
    literal was lowered as text: the tenant's own spelling gets through. *)
Definition accented : string := "CAF" +:+ of_chars [chr 201].
Example accented_literal_is_shared :
  assert_shared_learning_safe (encode_utf8 accented) [accented] = Ok tt /\
  is_ok (assert_shared_learning_safe (encode_utf8 (lower accented)) [accented]) = false.
Proof. vm_compute. repeat split. Qed.

Example screens :
  map (fun d => is_ok (assert_shared_learning_safe d ["Acme Corp"]))
    ["retry with backoff"; "for ACME corp only"; "Password: x"; "Bearer abc"; "sha 0123456789abcdef0123456789abcdef01234567"]
  = [true; false; false; false; false].
Proof. vm_compute. repeat split. Qed.

Definition worker : WorkerIdentity := {| wi_tenant := "t"; wi_worker := "w"; wi_uid := 1000; wi_gid := 1000 |}.
Definition files : fs := {[
  0%nat := Dir 1000 1000 mode_0700 {["data" := 1%nat; "link" := 3%nat]};
  1%nat := Dir 1000 1000 mode_0700 {["a.txt" := 2%nat; "theirs" := 4%nat]};
  2%nat := Reg 1000 (chars "content"); 3%nat := Symlink; 4%nat := Reg 2000 (chars "other")]}.
Definition open (parts : list string) : res bytes :=
  open_worker_file 1000 1000 (fun _ => true) files (Some 0%nat) worker {| p_absolute := false; p_parts := parts |}.
Definition os_refused : res bytes := Err (Exn IsolationError "OS refused tenant worker file access").
(** The module's own refusals inside the [try] are [OSError]s and lose their
    message. *)
Example opens :
  map open [["data"; "a.txt"]; ["data"; "theirs"]; ["link"; "a.txt"]; ["data"]; [".."; "x"]; ["none"]]
  = [Ok (chars "content"); os_refused; os_refused; os_refused;
     Err (Exn IsolationError "worker path escapes tenant root"); os_refused].
Proof. vm_compute. repeat split. Qed.

Definition hosts : gmap string (list string) := {["mail" := ["api.example.com"]]}.
Example egress :
  map (fun u => require_egress (fun _ => true) hosts "mail" u)
    ["https://API.Example.com./v1"; "https://api.example.com:8443/"; "http://api.example.com/";
     "https://u@api.example.com/"; "https://evil.com/api.example.com"]
  = [Ok "api.example.com";
     Err (Exn IsolationError "egress requires credential-free HTTPS on port 443");
     Err (Exn IsolationError "egress requires credential-free HTTPS on port 443");
     Err (Exn IsolationError "egress requires credential-free HTTPS on port 443");
     Err (Exn IsolationError "default-deny egress refused destination")].
Proof. vm_compute. repeat split. Qed.

Definition grants : gmap (string * string) CredentialGrant := {[("t", "mail") :=
  {| cg_tenant := "t"; cg_capability := "mail"; cg_secret_ref := "secret://mail"; cg_expires_at := dt_add now 1 |}]}.
Example checkouts :
  map is_ok [checkout grants worker "t" "mail" now; checkout grants worker "u" "mail" now;
             checkout grants worker "t" "sms" now; checkout grants worker "t" "mail" (dt_add now 1)]
  = [true; false; false; false].
Proof. vm_compute. repeat split. Qed.
End IsolationDemo.

(** ** Witnesses *)

Lemma worker_files_are_contained_witness :
  exists r entries n, Some 0%nat = Some r /\
    IsolationDemo.files !! r = Some (Dir 1000 1000 mode_0700 entries) /\
    beneath IsolationDemo.files r ["data"; "a.txt"] n /\ true = true /\
    IsolationDemo.files !! n = Some (Reg 1000 (chars "content")).
Proof.
  refine (proj2 (proj2 (proj2 (proj2 (proj2
    (worker_files_are_contained 1000 1000 (fun _ => true) IsolationDemo.files (Some 0%nat) IsolationDemo.worker
      {| p_absolute := false; p_parts := ["data"; "a.txt"] |} (chars "content") _)))))).
  vm_compute. reflexivity.
Defined.

Lemma messages_are_not_replayed_witness : sm_sequence IsolationDemo.m1 < sm_sequence IsolationDemo.m7.
Proof.
  refine (proj1 (@messages_are_not_replayed _ _ toy_signatures 1000 IsolationDemo.keys IsolationDemo.minutes5 _
    0%nat 1%nat _ _ IsolationDemo.demo_deliveries _ _ _ _ _)); try reflexivity. lia.
Defined.

Lemma ascii_literals_are_screened_witness :
  is_ok (assert_shared_learning_safe ("for " +:+ "ACME" +:+ " only") [" Acme "]) = false.
Proof.
  rewrite (ascii_literals_are_screened [" Acme "] " Acme " "for " "ACME" " only"); [done|left|..];
    try (vm_compute; done).
Defined.
