(* ===== verification/Authority.v ===== *)
(** * Action authority ([fleet_kernel/m8/authority.py])

    The deterministic gate in front of every consequential action: the
    action-class matrix with its pinned digest, the evidence receipts and
    their trust rules, the registered checks, [evaluate_action] and
    [require_action]. Ed25519 ([cryptography]) is the parameter [verify_sig]. *)
From S2P Require Import Prelude PyStr PyFloat PyTime Json Sha256.
From stdpp Require Import base gmap strings list.
From Stdlib Require Import ZArith Lia.

Local Open Scope Z_scope.

(* src: fleet_kernel/m8/authority.py ActionClass *)
Inductive ActionClass :=
  | READ_TENANT_DATA | DRAFT_COMPUTE | WRITE_TENANT_STATE | EXTERNAL_READ
  | NOTIFY_CUSTOMER | MONEY_ARTIFACT | UPLOAD_CUSTOMER_SYSTEM | SUBMIT_IRREVERSIBLE
  | CREDENTIAL_CHANGE | PROD_CHANGE | POLICY_CHANGE | KILL_RESPAWN | SPEND_CHANGE
  | CROSS_TENANT.

#[export] Instance ActionClass_eq_dec : EqDecision ActionClass.
Proof. solve_decision. Defined.

(* src: fleet_kernel/m8/authority.py ActionClass *)
Definition action_value (a : ActionClass) : string :=
  match a with
  | READ_TENANT_DATA => "read_tenant_data" | DRAFT_COMPUTE => "draft_compute"
  | WRITE_TENANT_STATE => "write_tenant_state" | EXTERNAL_READ => "external_read"
  | NOTIFY_CUSTOMER => "notify_customer" | MONEY_ARTIFACT => "money_artifact"
  | UPLOAD_CUSTOMER_SYSTEM => "upload_customer_system"
  | SUBMIT_IRREVERSIBLE => "submit_irreversible" | CREDENTIAL_CHANGE => "credential_change"
  | PROD_CHANGE => "prod_change" | POLICY_CHANGE => "policy_change"
  | KILL_RESPAWN => "kill_respawn" | SPEND_CHANGE => "spend_change"
  | CROSS_TENANT => "cross_tenant"
  end.

(* src: fleet_kernel/m8/authority.py ConsequenceTier *)
Inductive ConsequenceTier := LOW | MEDIUM | HIGH | EXCEPTIONAL | FORBIDDEN.

#[export] Instance ConsequenceTier_eq_dec : EqDecision ConsequenceTier.
Proof. solve_decision. Defined.

(* src: fleet_kernel/m8/authority.py ConsequenceTier *)
Definition tier_value (t : ConsequenceTier) : string :=
  match t with
  | LOW => "low" | MEDIUM => "medium" | HIGH => "high"
  | EXCEPTIONAL => "exceptional" | FORBIDDEN => "forbidden"
  end.

(* src: fleet_kernel/m8/authority.py EvidenceReceipt *)
Record EvidenceReceipt := {
  er_check_id : string;
  er_intent_sha256 : string;
  er_verdict : string;
  er_reason : string;
  er_artifact_ref : string;
  er_artifact_sha256 : string;
  er_issuer : string;
  er_issued_at : string;
  er_expires_at : string;
  er_signature : string;
}.

(* src: fleet_kernel/m8/authority.py GateRequest *)
Record GateRequest := {
  gr_action : ActionClass;
  gr_actor_tenant_id : string;
  gr_request_tenant_id : string;
  gr_actor_role : string;
  gr_actor_family : string;
  gr_target : string;
  gr_objective_id : string;
  gr_worker_identity : string;
  gr_idempotency_key : string;
  gr_why_ref : string;
  gr_evidence : list EvidenceReceipt;
}.

(* src: fleet_kernel/m8/authority.py GateDecision *)
Record GateDecision := {
  gd_allowed : bool;
  gd_action : ActionClass;
  gd_tier : ConsequenceTier;
  gd_reason : string;
  gd_checked : list string;
  gd_decision_sha256 : string;
  gd_escalate_to_scribe : bool;
}.

(* src: fleet_kernel/m8/authority.py ScribeEscalation *)
Record ScribeEscalation := {
  se_decision_sha256 : string;
  se_objective_id : string;
  se_durable_ref : string;
}.

(* src: fleet_kernel/m8/authority.py _INDEPENDENT_CHECKS *)
Definition INDEPENDENT_CHECKS : list string := ["independent_verify"; "cmcv"; "review_3_plus_3"].

(** ** The check registry *)

(* src: fleet_kernel/m8/authority.py Check *)
Definition Check : Type := GateRequest -> gmap string EvidenceReceipt -> bool * string.

(* src: fleet_kernel/m8/authority.py _evidence *)
Definition evidence_check (check_id failure : string) : Check := fun _ receipts =>
  match receipts !! check_id with
  | None => (false, failure)
  | Some receipt =>
      if negb (er_verdict receipt =? "pass")%string
      then (false, str_or (er_reason receipt) failure)
      else (true, failure)
  end.

(* src: fleet_kernel/m8/authority.py _tenant_match *)
Definition tenant_match : Check := fun request _ =>
  (truthy (gr_actor_tenant_id request)
     && (gr_actor_tenant_id request =? gr_request_tenant_id request)%string,
   "actor tenant does not match requested tenant").

(* src: fleet_kernel/m8/authority.py _idempotency *)
Definition idempotency : Check := fun request _ =>
  (truthy (gr_idempotency_key request)
     && (16 <=? length (chars (gr_idempotency_key request)))%nat,
   "stable idempotency key is missing").

(* src: fleet_kernel/m8/authority.py _role *)
Definition role_check (allowed : list string) (reason : string) : Check := fun request _ =>
  (existsb (String.eqb (gr_actor_role request)) allowed, reason).

(* src: fleet_kernel/m8/authority.py _tenant_zero *)
Definition tenant_zero : Check := fun request _ =>
  ((gr_actor_tenant_id request =? gr_request_tenant_id request)%string
     && (gr_request_tenant_id request =? "tenant-zero")%string,
   "exceptional fleet action requires tenant-zero identity").

(* src: fleet_kernel/m8/authority.py _why *)
Definition why : Check := fun request _ =>
  (startswith (gr_why_ref request) "docs/brain/", "compiled policy WHY link is missing").

(* src: fleet_kernel/m8/authority.py _classifier *)
Definition classifier : Check := fun _ receipts =>
  match receipts !! "classifier" with
  | None => (false, "typed external-classifier receipt is missing")
  | Some receipt =>
      if (er_verdict receipt =? "hold")%string
      then (false, str_or (er_reason receipt) "external classifier returned HOLD")
      else if negb (er_verdict receipt =? "pass")%string
      then (false, "external classifier did not PASS")
      else (true, "external classifier did not PASS")
  end.

(* src: fleet_kernel/m8/authority.py _forbidden *)
Definition forbidden : Check := fun _ _ =>
  (false, "the kernel has no authority path for this action class").

(* src: fleet_kernel/m8/authority.py _CHECKS *)
Definition CHECKS : list (string * Check) := [
  ("tenant_match", tenant_match);
  ("storage_jail", evidence_check "storage_jail" "tenant storage jail did not pass");
  ("role_scope", evidence_check "role_scope" "role scope did not pass");
  ("spend", evidence_check "spend" "spend ceiling did not pass");
  ("lease", evidence_check "lease" "active ownership lease is missing");
  ("idempotency", idempotency);
  ("tool_permission", evidence_check "tool_permission" "tool permission is missing");
  ("credential_scope", evidence_check "credential_scope" "credential scope did not pass");
  ("source_truth", evidence_check "source_truth" "source-of-truth check is missing");
  ("notify_role", role_check ["notify_leg"] "customer send requires notify_leg");
  ("approval", evidence_check "approval" "approval is missing");
  ("content", evidence_check "content" "content gate did not pass");
  ("rate_limit", evidence_check "rate_limit" "rate limit did not pass");
  ("independent_verify",
    evidence_check "independent_verify" "independent verification did not pass");
  ("money_role", role_check ["domain_engine"] "money artifact requires domain_engine");
  ("quarantine", evidence_check "quarantine" "quarantine classification is incomplete");
  ("r7_basis", evidence_check "r7_basis" "external ground-truth basis is missing");
  ("penny_reconcile", evidence_check "penny_reconcile" "penny reconciliation did not pass");
  ("browser_role", role_check ["browser_executor"] "upload requires browser_executor");
  ("mode_declared", evidence_check "mode_declared" "dry-run/live mode is missing");
  ("deny_layers", evidence_check "deny_layers" "browser deny layers did not pass");
  ("evidence_gate", evidence_check "evidence_gate" "evidence gate did not pass");
  ("per_run_go", evidence_check "per_run_go" "founder/customer per-run GO is missing");
  ("cmcv", evidence_check "cmcv" "CMCV review is not CLEAN");
  ("tenant_zero", tenant_zero);
  ("maintenance_role",
    role_check ["kernel_maintenance"] "credential change requires maintenance");
  ("founder_auth", evidence_check "founder_auth" "founder authorization is missing");
  ("secret_manager", evidence_check "secret_manager" "secret-manager write is missing");
  ("rotation", evidence_check "rotation" "credential rotation record is missing");
  ("prod_role", role_check ["ccto"; "ccde"] "prod change requires ccto or ccde");
  ("rollback", evidence_check "rollback" "rollback is not proven");
  ("ci", evidence_check "ci" "required CI is not green");
  ("review_3_plus_3", evidence_check "review_3_plus_3" "3+3 review is incomplete");
  ("compiled_controls",
    evidence_check "compiled_controls" "compiled-control production gate did not pass");
  ("policy_role", role_check ["scribe"; "ccto"] "policy change requires scribe or ccto");
  ("version_bump", evidence_check "version_bump" "policy version was not bumped");
  ("why", why);
  ("kill_role", role_check ["scribe"; "cos"] "kill or respawn requires scribe or cos");
  ("lease_consent",
    evidence_check "lease_consent" "lease holder neither consented nor expired");
  ("classifier", classifier);
  ("founder_role", role_check ["founder"] "spend change is founder-only");
  ("hmac_arm", evidence_check "hmac_arm" "HMAC arm ceremony is invalid");
  ("attestation", evidence_check "attestation" "attestation record is missing");
  ("forbidden", forbidden)].

Definition check_named (id : string) : option Check :=
  snd <$> List.find (fun kv => String.eqb kv.1 id) CHECKS.

(** ** The matrix *)

(* src: fleet_kernel/m8/authority.py _MATRIX *)
Definition MATRIX : list (ActionClass * (ConsequenceTier * list string)) := [
  (READ_TENANT_DATA, (LOW, ["tenant_match"; "storage_jail"]));
  (DRAFT_COMPUTE, (LOW, ["tenant_match"; "role_scope"; "spend"]));
  (WRITE_TENANT_STATE, (MEDIUM, ["tenant_match"; "role_scope"; "spend"; "lease"; "idempotency"]));
  (EXTERNAL_READ, (MEDIUM, ["tenant_match"; "role_scope"; "tool_permission"; "credential_scope"; "source_truth"]));
  (NOTIFY_CUSTOMER, (HIGH, ["tenant_match"; "notify_role"; "approval"; "content"; "rate_limit"; "independent_verify"]));
  (MONEY_ARTIFACT, (HIGH, ["tenant_match"; "money_role"; "quarantine"; "r7_basis"; "penny_reconcile"; "independent_verify"]));
  (UPLOAD_CUSTOMER_SYSTEM, (HIGH, ["tenant_match"; "browser_role"; "mode_declared"; "deny_layers"; "evidence_gate"; "per_run_go"; "cmcv"]));
  (SUBMIT_IRREVERSIBLE, (FORBIDDEN, ["forbidden"]));
  (CREDENTIAL_CHANGE, (EXCEPTIONAL, ["tenant_zero"; "maintenance_role"; "founder_auth"; "secret_manager"; "rotation"; "independent_verify"]));
  (PROD_CHANGE, (EXCEPTIONAL, ["tenant_zero"; "prod_role"; "founder_auth"; "rollback"; "ci"; "review_3_plus_3"; "compiled_controls"]));
  (POLICY_CHANGE, (EXCEPTIONAL, ["tenant_zero"; "policy_role"; "founder_auth"; "version_bump"; "why"; "independent_verify"]));
  (KILL_RESPAWN, (HIGH, ["tenant_zero"; "kill_role"; "lease_consent"; "classifier"]));
  (SPEND_CHANGE, (EXCEPTIONAL, ["tenant_zero"; "founder_role"; "hmac_arm"; "attestation"]));
  (CROSS_TENANT, (FORBIDDEN, ["forbidden"]))].

(** [_MATRIX[a]]; [None] is a [KeyError]. *)
Definition matrix_entry (a : ActionClass) : option (ConsequenceTier * list string) :=
  snd <$> List.find (fun kv => bool_decide (kv.1 = a)) MATRIX.

(* src: fleet_kernel/m8/authority.py EXPECTED_ACTIONS *)
Definition EXPECTED_ACTIONS : list ActionClass := [
  READ_TENANT_DATA; DRAFT_COMPUTE; WRITE_TENANT_STATE; EXTERNAL_READ; NOTIFY_CUSTOMER;
  MONEY_ARTIFACT; UPLOAD_CUSTOMER_SYSTEM; SUBMIT_IRREVERSIBLE; CREDENTIAL_CHANGE;
  PROD_CHANGE; POLICY_CHANGE; KILL_RESPAWN; SPEND_CHANGE; CROSS_TENANT].

(* src: fleet_kernel/m8/authority.py EXPECTED_CHECKS *)
Definition EXPECTED_CHECKS : list string := [
  "approval"; "attestation"; "browser_role"; "ci"; "classifier"; "cmcv";
  "compiled_controls"; "content"; "credential_scope"; "deny_layers"; "evidence_gate";
  "forbidden"; "founder_auth"; "founder_role"; "hmac_arm"; "idempotency";
  "independent_verify"; "kill_role"; "lease"; "lease_consent"; "maintenance_role"; "mode_declared";
  "money_role"; "notify_role"; "penny_reconcile"; "per_run_go"; "policy_role";
  "prod_role"; "quarantine"; "r7_basis"; "rate_limit"; "review_3_plus_3"; "role_scope";
  "rollback"; "rotation"; "secret_manager"; "source_truth"; "spend"; "storage_jail";
  "tenant_match"; "tenant_zero"; "tool_permission"; "version_bump"; "why"].

(* src: fleet_kernel/m8/authority.py EXPECTED_MATRIX_SHA256 *)
Definition EXPECTED_MATRIX_SHA256 : string :=
  "1e7323ef2c5cecd661ed03d575c3b494518e985c6e4fa127f750badf32844c7b".

Definition matrix_payload : string :=
  dumps (JObj (map (fun '(action, (tier, checks)) =>
    (action_value action,
     JObj [("tier", JStr (tier_value tier)); ("checks", JArr (map JStr checks))])) MATRIX)).

(* src: fleet_kernel/m8/authority.py matrix_sha256 *)
Definition matrix_sha256 `{Digest} : string := digest matrix_payload.

Definition same_set (a b : list string) : bool :=
  forallb (fun c => existsb (String.eqb c) b) a && forallb (fun c => existsb (String.eqb c) a) b.

(* src: fleet_kernel/m8/authority.py assert_policy_integrity *)
Definition assert_policy_integrity `{Digest} : res unit :=
  require same_set (map (action_value ∘ fst) MATRIX) (map action_value EXPECTED_ACTIONS)
    else PolicyIntegrityError, "action-authority matrix action set is incomplete" ;;
  require (matrix_sha256 =? EXPECTED_MATRIX_SHA256)%string
    else PolicyIntegrityError, "action-authority matrix digest is not the pinned policy" ;;
  require same_set (map fst CHECKS) EXPECTED_CHECKS
    else PolicyIntegrityError, "action-authority check registry is not the pinned set" ;;
  Ok tt.

(** The shipped action matrix and check registry are the pinned policy:
    the canonical JSON of the table
    hashes to the digest written in the source. *)
Theorem shipped_policy_is_pinned :
  @assert_policy_integrity sha256_digest = Ok tt.
Proof. vm_compute. reflexivity. Qed.

(** ** Receipts and trust *)

Definition intent_fields (request : GateRequest) : list (string * json) := [
  ("action", JStr (action_value (gr_action request)));
  ("actor_tenant_id", JStr (gr_actor_tenant_id request));
  ("request_tenant_id", JStr (gr_request_tenant_id request));
  ("actor_role", JStr (gr_actor_role request));
  ("actor_family", JStr (gr_actor_family request));
  ("target", JStr (gr_target request));
  ("objective_id", JStr (gr_objective_id request));
  ("worker_identity", JStr (gr_worker_identity request));
  ("idempotency_key", JStr (gr_idempotency_key request));
  ("why_ref", JStr (gr_why_ref request))].

Definition intent_payload (request : GateRequest) : string := dumps (JObj (intent_fields request)).

(* src: fleet_kernel/m8/authority.py intent_sha256 *)
Definition intent_sha256 `{Digest} (request : GateRequest) : string :=
  digest (intent_payload request).

(* src: fleet_kernel/m8/authority.py _receipt_payload *)
Definition receipt_payload (receipt : EvidenceReceipt) : string :=
  dumps (JObj [
    ("check_id", JStr (er_check_id receipt));
    ("intent_sha256", JStr (er_intent_sha256 receipt));
    ("verdict", JStr (er_verdict receipt));
    ("reason", JStr (er_reason receipt));
    ("artifact_ref", JStr (er_artifact_ref receipt));
    ("artifact_sha256", JStr (er_artifact_sha256 receipt));
    ("issuer", JStr (er_issuer receipt));
    ("issued_at", JStr (er_issued_at receipt));
    ("expires_at", JStr (er_expires_at receipt))]).

Section trust.
  Context `{Digest} `{IsoTime}.
  (** Ed25519 keys, [private_key.sign], [private_key.public_key()] and
      [public_key.verify], which raises on a bad signature. *)
  Variables (SK PK : Type) (sign : SK -> string -> string) (public_key : SK -> PK)
    (verify_sig : PK -> string -> string -> bool).

(* src: fleet_kernel/m8/authority.py sign_evidence *)
Definition sign_evidence (private_key : SK) (request : GateRequest)
    (check_id issuer artifact_ref artifact_sha256 : string) (issued_at expires_at : datetime)
    (verdict reason : string) : EvidenceReceipt :=
  let receipt signature := {|
    er_check_id := check_id; er_intent_sha256 := intent_sha256 request; er_verdict := verdict;
    er_reason := reason; er_artifact_ref := artifact_ref; er_artifact_sha256 := artifact_sha256;
    er_issuer := issuer; er_issued_at := isoformat issued_at;
    er_expires_at := isoformat expires_at; er_signature := signature |} in
  receipt (sign private_key (receipt_payload (receipt ""))).

(* src: fleet_kernel/m8/authority.py TrustedEvidenceIssuer *)
Record TrustedEvidenceIssuer := {
  ti_issuer : string;
  ti_family : string;
  ti_public_key : PK;
  ti_allowed_checks : list string;
}.

(** One iteration of the loop of [verified_receipts]. *)
Definition verify_receipt (issuers : gmap string TrustedEvidenceIssuer) (request : GateRequest)
    (now : datetime) (verified : gmap string EvidenceReceipt) (receipt : EvidenceReceipt)
    : res (gmap string EvidenceReceipt) :=
  raise_if bool_decide (is_Some (verified !! er_check_id receipt))
    with PolicyIntegrityError, ("duplicate authority evidence: " +:+ er_check_id receipt) ;;
  match issuers !! er_issuer receipt with
  | None => Err (Exn PolicyIntegrityError "authority evidence issuer/check scope is untrusted")
  | Some issuer =>
  require existsb (String.eqb (er_check_id receipt)) (ti_allowed_checks issuer)
    else PolicyIntegrityError, "authority evidence issuer/check scope is untrusted" ;;
  require (er_intent_sha256 receipt =? intent_sha256 request)%string
    else PolicyIntegrityError, "authority evidence is bound to another action intent" ;;
  require hex64 (er_artifact_sha256 receipt) && truthy (er_artifact_ref receipt)
    else PolicyIntegrityError, "authority evidence artifact binding is invalid" ;;
  match fromisoformat (er_issued_at receipt), fromisoformat (er_expires_at receipt) with
  | Some issued, Some expires =>
      require aware issued && aware expires
              && (instant issued <=? instant now) && (instant now <=? instant expires)
              && (instant issued <? instant expires)
        else PolicyIntegrityError, "authority evidence is not currently valid" ;;
      raise_if existsb (String.eqb (er_check_id receipt)) INDEPENDENT_CHECKS
               && (ti_family issuer =? gr_actor_family request)%string
        with PolicyIntegrityError, "independent evidence came from actor model family" ;;
      require verify_sig (ti_public_key issuer) (er_signature receipt) (receipt_payload receipt)
        else PolicyIntegrityError, "authority evidence signature is invalid" ;;
      Ok (<[er_check_id receipt := receipt]> verified)
  | _, _ => Err (Exn PolicyIntegrityError "authority evidence timestamp is invalid")
  end
  end.

Fixpoint verify_all (issuers : gmap string TrustedEvidenceIssuer) (request : GateRequest)
    (now : datetime) (verified : gmap string EvidenceReceipt) (evidence : list EvidenceReceipt)
    : res (gmap string EvidenceReceipt) :=
  match evidence with
  | [] => Ok verified
  | receipt :: rest =>
      let! verified' := verify_receipt issuers request now verified receipt in
      verify_all issuers request now verified' rest
  end.

(** [now] is [datetime.now(timezone.utc)]. *)
(* src: fleet_kernel/m8/authority.py EvidenceTrust.verified_receipts *)
Definition verified_receipts (issuers : gmap string TrustedEvidenceIssuer) (now : datetime)
    (request : GateRequest) : res (gmap string EvidenceReceipt) :=
  verify_all issuers request now ∅ (gr_evidence request).

(** ** The gate *)

(** Tuples of strings compare lexicographically. *)
Fixpoint tuple_leb (a b : list string) : bool :=
  match a, b with
  | [], _ => true
  | _ :: _, [] => false
  | x :: a', y :: b' => if String.eqb x y then tuple_leb a' b' else key_leb (chars x) (chars y)
  end.
Fixpoint insert_tuple (x : list string) (l : list (list string)) : list (list string) :=
  match l with [] => [x] | y :: r => if tuple_leb x y then x :: l else y :: insert_tuple x r end.

(* src: fleet_kernel/m8/authority.py _decision_digest *)
Definition decision_digest (request : GateRequest) (checked : list string) (reason : string)
    : string :=
  let bindings := foldr insert_tuple []
    (map (fun item => [er_check_id item; er_issuer item; er_artifact_sha256 item; er_verdict item])
      (gr_evidence request)) in
  digest (dumps (JObj [
    ("intent", JStr (intent_sha256 request));
    ("evidence", JArr (map (fun t => JArr (map JStr t)) bindings));
    ("checked", JArr (map JStr checked));
    ("reason", JStr reason)])).

(** The [for check_id in check_ids] loop: the checks run so far, then either
    the failure that stopped it or [None]. *)
Fixpoint run_checks (request : GateRequest) (receipts : gmap string EvidenceReceipt)
    (checked ids : list string) : res (list string * option string) :=
  match ids with
  | [] => Ok (checked, None)
  | id :: rest =>
      match check_named id with
      | None => Err (Exn KeyError (repr id))
      | Some check =>
          let '(passed, failure) := check request receipts in
          if passed then run_checks request receipts (checked ++ [id]) rest
          else Ok (checked ++ [id], Some failure)
      end
  end.

(* src: fleet_kernel/m8/authority.py evaluate_action *)
Definition evaluate_action (issuers : gmap string TrustedEvidenceIssuer) (now : datetime)
    (request : GateRequest) : res GateDecision :=
  let! _ := assert_policy_integrity in
  let! receipts := verified_receipts issuers now request in
  let classifier_hold :=
    match receipts !! "classifier" with
    | Some c => (er_verdict c =? "hold")%string
    | None => false
    end in
  match matrix_entry (gr_action request) with
  | None => Err (Exn KeyError (action_value (gr_action request)))
  | Some (tier, check_ids) =>
      let! (checked, failed) := run_checks request receipts [] check_ids in
      match failed with
      | Some failure => Ok {|
          gd_allowed := false; gd_action := gr_action request; gd_tier := tier;
          gd_reason := failure; gd_checked := checked;
          gd_decision_sha256 := decision_digest request checked failure;
          gd_escalate_to_scribe := classifier_hold |}
      | None => Ok {|
          gd_allowed := true; gd_action := gr_action request; gd_tier := tier;
          gd_reason := "authorized"; gd_checked := checked;
          gd_decision_sha256 := decision_digest request checked "authorized";
          gd_escalate_to_scribe := false |}
      end
  end.

(** [scribe_escalator] returns [None] when what it returns is not a
    [ScribeEscalation]; either callback may raise. *)
(* src: fleet_kernel/m8/authority.py require_action *)
Definition require_action (issuers : gmap string TrustedEvidenceIssuer) (now : datetime)
    (scribe_escalator : GateRequest -> GateDecision -> res (option ScribeEscalation))
    (scribe_verifier : ScribeEscalation -> res bool) (request : GateRequest) : res GateDecision :=
  let! decision := evaluate_action issuers now request in
  if gd_allowed decision then Ok decision else
  let! _ :=
    if gd_escalate_to_scribe decision then
      let refused :=
        Err (Exn PolicyIntegrityError
          "classifier HOLD did not produce a bound durable Scribe escalation") in
      let! escalation := scribe_escalator request decision in
      match escalation with
      | None => refused
      | Some e =>
          if negb (se_decision_sha256 e =? gd_decision_sha256 decision)%string
             || negb (se_objective_id e =? gr_objective_id request)%string
             || negb (startswith (se_durable_ref e) "scribe://")
          then refused
          else let! ok := scribe_verifier e in if negb ok then refused else Ok tt
      end
    else Ok tt in
  Err (Exn AuthorityDenied ("kernel authority refused " +:+ action_value (gd_action decision)
         +:+ ": " +:+ gd_reason decision)).

(** ** Helper lemmas *)

(** [id] is registered and its check passes. *)
Definition passes (request : GateRequest) (receipts : gmap string EvidenceReceipt) (id : string)
  : Prop := exists check, check_named id = Some check /\ (check request receipts).1 = true.

(** What [verified_receipts] establishes of every receipt it returns. *)
Record trusted_receipt (issuers : gmap string TrustedEvidenceIssuer) (now : datetime)
    (request : GateRequest) (rc : EvidenceReceipt) (issuer : TrustedEvidenceIssuer) : Prop := {
  tr_issuer : issuers !! er_issuer rc = Some issuer;
  tr_scope : er_check_id rc ∈ ti_allowed_checks issuer;
  tr_intent : er_intent_sha256 rc = intent_sha256 request;
  tr_artifact : hex64 (er_artifact_sha256 rc) = true /\ er_artifact_ref rc <> "";
  tr_window : exists issued expires,
    fromisoformat (er_issued_at rc) = Some issued /\ fromisoformat (er_expires_at rc) = Some expires /\
    aware issued = true /\ aware expires = true /\
    instant issued <= instant now <= instant expires /\ instant issued < instant expires;
  tr_independent :
    er_check_id rc ∈ INDEPENDENT_CHECKS -> ti_family issuer <> gr_actor_family request;
  tr_signature : verify_sig (ti_public_key issuer) (er_signature rc) (receipt_payload rc) = true;
}.

Lemma verify_receipt_ok issuers request now m rc m' :
  verify_receipt issuers request now m rc = Ok m' ->
  m !! er_check_id rc = None /\ m' = <[er_check_id rc := rc]> m /\
  exists issuer, trusted_receipt issuers now request rc issuer.
Proof.
  unfold verify_receipt. intros E.
  case_bool_decide as Hnew; [done|]. rewrite <- eq_None_not_Some in Hnew.
  destruct (issuers !! er_issuer rc) as [issuer|] eqn:Hi; [|done].
  destruct (existsb _ (ti_allowed_checks issuer)) eqn:Hs; [|done].
  destruct (String.eqb_spec (er_intent_sha256 rc) (intent_sha256 request)) as [Hn|]; [|done].
  destruct (hex64 (er_artifact_sha256 rc) && truthy (er_artifact_ref rc)) eqn:Ha; [|done].
  destruct (fromisoformat (er_issued_at rc)) as [ti|] eqn:Fi; [|done].
  destruct (fromisoformat (er_expires_at rc)) as [te|] eqn:Fe; [|done].
  destruct (aware ti && aware te && (instant ti <=? instant now) && (instant now <=? instant te)
            && (instant ti <? instant te)) eqn:Hw; [|done].
  destruct (existsb (String.eqb (er_check_id rc)) INDEPENDENT_CHECKS
            && (ti_family issuer =? gr_actor_family request)%string) eqn:Hind; [done|].
  destruct (verify_sig _ _ _) eqn:Hsig; [|done].
  injection E as <-. split_and!; [done..|]. exists issuer.
  apply existsb_exists in Hs as (x & Hx & <-%String.eqb_eq).
  rewrite !andb_true_iff in Ha. rewrite !andb_true_iff in Hw. split; try done.
  - by apply list_elem_of_In.
  - split; [tauto|]. intros Hz. rewrite Hz in Ha. by destruct Ha.
  - exists ti, te. destruct Hw as ((((Hw1 & Hw2) & Hw3%Z.leb_le) & Hw4%Z.leb_le) & Hw5%Z.ltb_lt).
    split_and!; auto.
  - intros Hin%list_elem_of_In Heq. apply andb_false_iff in Hind as [Hf|Hf].
    + rewrite <- not_true_iff_false in Hf. apply Hf, existsb_exists.
      eexists; split; [done|]. apply String.eqb_refl.
    + by apply String.eqb_neq in Hf.
Qed.

(** The verified map holds exactly the request's receipts under their check
    ids, and every one is trusted. *)
Lemma verify_all_ok issuers request now m evidence m' :
  verify_all issuers request now m evidence = Ok m' ->
  (forall id rc, m' !! id = Some rc <-> m !! id = Some rc \/ (rc ∈ evidence /\ er_check_id rc = id)) /\
  Forall (fun rc => exists issuer, trusted_receipt issuers now request rc issuer) evidence.
Proof.
  revert m. induction evidence as [|rc rest IH]; intros m E; simpl in E.
  - injection E as <-. split; [|constructor]. intros. set_solver.
  - apply rbind_ok in E as (m1 & E1 & E2). apply verify_receipt_ok in E1 as (Hn & -> & HT).
    apply IH in E2 as [IH1 IH2]. split; [|by constructor]. intros id r. rewrite IH1.
    rewrite lookup_insert. case_decide; set_solver.
Qed.

Lemma verified_receipts_ok issuers now request m :
  verified_receipts issuers now request = Ok m ->
  forall id rc, m !! id = Some rc ->
    rc ∈ gr_evidence request /\ er_check_id rc = id /\
    exists issuer, trusted_receipt issuers now request rc issuer.
Proof.
  intros [H1 H2]%verify_all_ok id rc Hrc. apply H1 in Hrc as [Hrc|[Hin Hid]]; [set_solver|].
  rewrite Forall_forall in H2. auto.
Qed.

Lemma run_checks_none request receipts checked ids c :
  run_checks request receipts checked ids = Ok (c, None) <->
  c = checked ++ ids /\ Forall (passes request receipts) ids.
Proof.
  revert checked. induction ids as [|id ids IH]; intros checked; simpl.
  - rewrite app_nil_r. split; [by intros [= ->]|by intros [-> _]].
  - rewrite Forall_cons. unfold passes at 1. destruct (check_named id) as [ck|].
    2: { split; [done|]. by intros (_ & (k & ? & _) & _). }
    destruct (ck request receipts) as [[] failure] eqn:E.
    + rewrite IH, <- (assoc_L (++)). simpl. split; [intros [-> ?]|intros (-> & _ & ?)].
      * split_and!; [done| |done]. exists ck. by rewrite E.
      * done.
    + split; [done|]. intros (_ & (k & [= <-] & Hk) & _). by rewrite E in Hk.
Qed.

Lemma run_checks_some request receipts checked ids c failure :
  run_checks request receipts checked ids = Ok (c, Some failure) ->
  exists pre id post check, ids = pre ++ id :: post /\ c = checked ++ pre ++ [id] /\
    Forall (passes request receipts) pre /\
    check_named id = Some check /\ check request receipts = (false, failure).
Proof.
  revert checked. induction ids as [|id ids IH]; intros checked; simpl; [done|].
  destruct (check_named id) as [ck|] eqn:Hck; [|done].
  destruct (ck request receipts) as [[] f] eqn:E.
  - intros (pre & id' & post & ck' & -> & -> & HF & Hk)%IH.
    exists (id :: pre), id', post, ck'. rewrite <- (assoc_L (++)).
    split_and!; [done|done| |tauto|tauto]. constructor; [|done]. exists ck. by rewrite E.
  - intros [= <- <-]. exists [], id, ids, ck. auto.
Qed.

Lemma matrix_total a : exists tier ids, matrix_entry a = Some (tier, ids).
Proof. destruct a; vm_compute; eauto. Qed.

Lemma matrix_checks_registered a tier ids :
  matrix_entry a = Some (tier, ids) -> Forall (fun id => is_Some (check_named id)) ids.
Proof. destruct a; intros [= <- <-]; repeat constructor; eexists; reflexivity. Qed.

Lemma run_checks_total request receipts checked ids :
  Forall (fun id => is_Some (check_named id)) ids ->
  exists c f, run_checks request receipts checked ids = Ok (c, f).
Proof.
  intros HF. revert checked. induction HF as [|id ids [ck Hck] _ IH]; intros checked; simpl; [eauto|].
  rewrite Hck. destruct (ck request receipts) as [[] f]; eauto.
Qed.

(** The decision is the one the verified receipts and the matrix row give. *)
Lemma evaluate_action_inv issuers now request d :
  evaluate_action issuers now request = Ok d ->
  exists receipts tier ids checked failed,
    verified_receipts issuers now request = Ok receipts /\
    matrix_entry (gr_action request) = Some (tier, ids) /\
    run_checks request receipts [] ids = Ok (checked, failed) /\
    gd_allowed d = (match failed with None => true | Some _ => false end) /\
    gd_tier d = tier /\ gd_checked d = checked /\
    gd_reason d = match failed with None => "authorized" | Some f => f end.
Proof.
  intros ([] & _ & (receipts & HR & E)%rbind_ok)%rbind_ok.
  destruct (matrix_entry (gr_action request)) as [[tier ids]|] eqn:HM; [|done].
  apply rbind_ok in E as ([checked failed] & HC & E).
  exists receipts, tier, ids, checked, failed. destruct failed; injection E as <-; auto 10.
Qed.

Lemma allowed_inv issuers now request d :
  evaluate_action issuers now request = Ok d -> gd_allowed d = true ->
  exists receipts tier ids,
    verified_receipts issuers now request = Ok receipts /\
    matrix_entry (gr_action request) = Some (tier, ids) /\
    gd_tier d = tier /\ gd_checked d = ids /\
    Forall (passes request receipts) ids.
Proof.
  intros (receipts & tier & ids & c & f & HR & HM & HC & HA & HT & Hch & _)%evaluate_action_inv Hal.
  destruct f; [congruence|]. apply run_checks_none in HC as [-> HF]. simpl in *. eauto 10.
Qed.

(** The checks whose [_CHECKS] entry looks at the request alone; every other
    one reads the verified receipts. *)
Definition REQUEST_CHECKS : list string := [
  "tenant_match"; "idempotency"; "notify_role"; "money_role"; "browser_role"; "tenant_zero";
  "maintenance_role"; "prod_role"; "policy_role"; "why"; "kill_role"; "founder_role"; "forbidden"].

Lemma check_named_in id ck : check_named id = Some ck -> (id, ck) ∈ CHECKS.
Proof.
  unfold check_named. intros ([k c] & [Hin Heq]%find_some & ->)%fmap_Some.
  apply String.eqb_eq in Heq. simpl in *. subst k. by apply list_elem_of_In.
Qed.

Lemma evidence_check_pass id f request receipts :
  (evidence_check id f request receipts).1 = true ->
  exists rc, receipts !! id = Some rc /\ er_verdict rc = "pass".
Proof.
  unfold evidence_check. destruct (receipts !! id) as [rc|]; [|done].
  destruct (String.eqb_spec (er_verdict rc) "pass"); simpl; [eauto|done].
Qed.

Lemma classifier_pass request receipts :
  (classifier request receipts).1 = true ->
  exists rc, receipts !! "classifier" = Some rc /\ er_verdict rc = "pass".
Proof.
  unfold classifier. destruct (receipts !! "classifier") as [rc|]; [|done].
  destruct (_ =? "hold")%string; [done|].
  destruct (String.eqb_spec (er_verdict rc) "pass"); simpl; [eauto|done].
Qed.

(** A check that is not decided by the request alone passes on a receipt
    filed under its own id with the verdict "pass". *)
Lemma receipt_check_pass request receipts id :
  passes request receipts id -> id ∉ REQUEST_CHECKS ->
  exists rc, receipts !! id = Some rc /\ er_verdict rc = "pass".
Proof.
  intros (ck & Hck%check_named_in & Hp) Hn.
  repeat (apply elem_of_cons in Hck as [[= -> ->]|Hck];
    [first [exact (evidence_check_pass _ _ request _ Hp) | exact (classifier_pass request _ Hp)
           | exfalso; apply Hn; apply list_elem_of_In; simpl; tauto]|]).
  set_solver.
Qed.

Lemma matrix_tenant a tier ids request receipts :
  matrix_entry a = Some (tier, ids) -> Forall (passes request receipts) ids ->
  tier <> FORBIDDEN /\
  gr_actor_tenant_id request = gr_request_tenant_id request /\
  gr_actor_tenant_id request <> "" /\
  (tier = EXCEPTIONAL -> gr_actor_tenant_id request = "tenant-zero").
Proof.
  assert (HT : passes request receipts "tenant_match" ->
    gr_actor_tenant_id request = gr_request_tenant_id request /\ gr_actor_tenant_id request <> "").
  { intros (ck & [= <-] & Hp). simpl in Hp. apply andb_true_iff in Hp as [H1 H2%String.eqb_eq].
    split; [done|]. intros E. by rewrite E in H1. }
  assert (HZ : passes request receipts "tenant_zero" ->
    gr_actor_tenant_id request = gr_request_tenant_id request /\
    gr_actor_tenant_id request = "tenant-zero").
  { intros (ck & [= <-] & Hp). unfold tenant_zero, fst in Hp.
    apply andb_true_iff in Hp as [H1%String.eqb_eq H2%String.eqb_eq]. rewrite H1. by split. }
  assert (HF : ~ passes request receipts "forbidden") by (intros (ck & [= <-] & Hp); done).
  destruct a; intros [= <- <-] HA; inversion HA as [|? ? P1 P2]; subst;
    first [by destruct (HF P1) | destruct (HT P1) | destruct (HZ P1) as [? E]];
    split_and!; try done; try (intros; congruence); rewrite E; done.
Qed.

Lemma intent_payload_inj r1 r2 :
  intent_payload r1 = intent_payload r2 -> intent_fields r1 = intent_fields r2.
Proof.
  intros E%dumps_inj; [|reflexivity..]. cbv in E |- *. injection E. intros. congruence.
Qed.

(** ** Properties *)

(** C1: An action is authorized exactly when the policy is intact, every receipt of
    the request is trusted for this intent now, and every check of the
    action's matrix row passes on those receipts. *)
Theorem authorized_iff issuers now request :
  (exists d, evaluate_action issuers now request = Ok d /\ gd_allowed d = true) <->
  assert_policy_integrity = Ok tt /\
  exists receipts tier ids,
    verified_receipts issuers now request = Ok receipts /\
    matrix_entry (gr_action request) = Some (tier, ids) /\
    Forall (passes request receipts) ids.
Proof.
  split.
  - intros (d & E & Hal). split.
    + by apply rbind_ok in E as ([] & E & _).
    + destruct (allowed_inv _ _ _ _ E Hal) as (r & t & ids & ? & ? & _ & _ & ?). by exists r, t, ids.
  - intros (HP & r & t & ids & HR & HM & HF). unfold evaluate_action.
    rewrite HP. simpl. rewrite HR. simpl. rewrite HM.
    destruct (run_checks_none request r [] ids ids) as [_ HC]. rewrite HC by done. simpl. eauto.
Qed.

(** No authorization crosses a tenant: an allowed action is never of a
    forbidden class, names one non-empty tenant on both sides, and an
    exceptional one runs as tenant zero. *)
Theorem allowed_stays_in_tenant issuers now request d
    (HE : evaluate_action issuers now request = Ok d) (HA : gd_allowed d = true) :
  gd_tier d <> FORBIDDEN /\
  gr_action request <> SUBMIT_IRREVERSIBLE /\ gr_action request <> CROSS_TENANT /\
  gr_actor_tenant_id request = gr_request_tenant_id request /\
  gr_actor_tenant_id request <> "" /\
  (gd_tier d = EXCEPTIONAL -> gr_actor_tenant_id request = "tenant-zero").
Proof.
  destruct (allowed_inv _ _ _ _ HE HA) as (r & t & ids & _ & HM & <- & _ & HF).
  destruct (matrix_tenant _ _ _ _ _ HM HF) as (HT & ? & ? & ?).
  split_and!; auto; intros E; apply HT; rewrite E in HM; by injection HM.
Qed.

(** C2: Every receipt-backed check of an allowed decision rests on a receipt of
    the request that a trusted issuer signed for this very intent, within its
    validity window, with verdict "pass"; for an independence check that
    issuer is of another model family than the actor. *)
Theorem allowed_is_evidence_backed issuers now request d id
    (HE : evaluate_action issuers now request = Ok d) (HA : gd_allowed d = true)
    (Hid : id ∈ gd_checked d) (Hrc : id ∉ REQUEST_CHECKS) :
  exists rc issuer, rc ∈ gr_evidence request /\ er_check_id rc = id /\ er_verdict rc = "pass" /\
    trusted_receipt issuers now request rc issuer.
Proof.
  destruct (allowed_inv _ _ _ _ HE HA) as (r & t & ids & HR & _ & _ & Hc & HF).
  rewrite Hc in Hid. rewrite Forall_forall in HF.
  destruct (receipt_check_pass _ _ _ (HF _ Hid) Hrc) as (rc & Hl & Hv).
  destruct (verified_receipts_ok _ _ _ _ HR _ _ Hl) as (? & ? & issuer & ?). eauto 10.
Qed.

(** A receipt cannot be replayed for another intent: if it is accepted for two
    requests, they agree on every intent field, or their two canonical intent
    payloads are a SHA-256 collision. *)
Theorem receipt_binds_intent issuers1 issuers2 now1 now2 r1 r2 m1 m2 rc
    (H1 : verified_receipts issuers1 now1 r1 = Ok m1) (I1 : rc ∈ gr_evidence r1)
    (H2 : verified_receipts issuers2 now2 r2 = Ok m2) (I2 : rc ∈ gr_evidence r2) :
  intent_fields r1 = intent_fields r2 \/ collides (intent_payload r1) (intent_payload r2).
Proof.
  apply verify_all_ok in H1 as [_ F1]. apply verify_all_ok in H2 as [_ F2].
  rewrite Forall_forall in F1, F2.
  destruct (F1 _ I1) as [i1 T1], (F2 _ I2) as [i2 T2].
  pose proof (tr_intent _ _ _ _ _ T1) as E1. pose proof (tr_intent _ _ _ _ _ T2) as E2.
  destruct (digest_inj (intent_payload r1) (intent_payload r2)) as [E|C].
  - unfold intent_sha256 in *. congruence.
  - left. by apply intent_payload_inj.
  - by right.
Qed.

(** A refusal names the first failing check of the matrix row: the checks
    before it passed, the ones after it were not run, and the reason is the
    failing check's own. *)
Theorem denial_is_first_failure issuers now request d
    (HE : evaluate_action issuers now request = Ok d) (HA : gd_allowed d = false) :
  exists receipts ids pre id post check,
    verified_receipts issuers now request = Ok receipts /\
    matrix_entry (gr_action request) = Some (gd_tier d, ids) /\
    ids = pre ++ id :: post /\ gd_checked d = pre ++ [id] /\
    Forall (passes request receipts) pre /\
    check_named id = Some check /\ check request receipts = (false, gd_reason d).
Proof.
  destruct (evaluate_action_inv _ _ _ _ HE)
    as (r & t & ids & c & [f|] & HR & HM & HC & HA' & <- & <- & Hrs); [|congruence].
  apply run_checks_some in HC as (pre & id & post & ck & ? & ? & ? & ? & ?).
  exists r, ids, pre, id, post, ck. rewrite Hrs. auto 10.
Qed.

(** [evaluate_action] raises nothing but [PolicyIntegrityError]: the matrix
    and the registry are total on the action classes, so the table lookups
    cannot raise [KeyError]. *)
Theorem evaluate_action_errors issuers now request e
    (HE : evaluate_action issuers now request = Err e) :
  exn_class e = PolicyIntegrityError.
Proof.
  assert (HV : forall m ev e, verify_all issuers request now m ev = Err e ->
                              exn_class e = PolicyIntegrityError).
  { intros m ev. revert m. induction ev as [|rc ev IH]; intros m e'; simpl; [done|].
    destruct (verify_receipt issuers request now m rc) as [m1|e1] eqn:E1; simpl; [apply IH|].
    intros [= ->]. revert E1. unfold verify_receipt. case_bool_decide; [by intros [= <-]|].
    repeat (case_match; try (by intros [= <-])). }
  unfold evaluate_action in HE. destruct assert_policy_integrity as [[]|e0] eqn:HP; simpl in HE.
  2: { injection HE as <-. revert HP. unfold assert_policy_integrity.
       repeat (case_match; try (by intros [= <-])). }
  destruct (verified_receipts issuers now request) as [m|e1] eqn:HR; simpl in HE.
  2: { injection HE as <-. by apply HV in HR. }
  destruct (matrix_total (gr_action request)) as (t & ids & HM). rewrite HM in HE.
  destruct (run_checks_total request m [] ids) as (c & f & HC).
  { by apply matrix_checks_registered in HM. }
  rewrite HC in HE. by destruct f.
Qed.

(** The escalation repeats the decision's digest and objective, under a
    durable reference. *)
Definition bound_escalation (request : GateRequest) (d : GateDecision) (e : ScribeEscalation) : bool :=
  ((se_decision_sha256 e =? gd_decision_sha256 d) && (se_objective_id e =? gr_objective_id request)
   && startswith (se_durable_ref e) "scribe://")%string.

(** [require_action] returns only allowed decisions; a denial without a
    classifier HOLD is an [AuthorityDenied]; one with it is an
    [AuthorityDenied] exactly when the escalator answered with an escalation
    bound to this decision that the verifier confirmed, and a
    [PolicyIntegrityError] otherwise. *)
Theorem require_action_escalates issuers now escalator verifier request d
    (HE : evaluate_action issuers now request = Ok d) :
  let result := require_action issuers now escalator verifier request in
  (forall d', result = Ok d' <-> d' = d /\ gd_allowed d = true) /\
  (gd_allowed d = false ->
   (gd_escalate_to_scribe d = false -> exists msg, result = Err (Exn AuthorityDenied msg)) /\
   (gd_escalate_to_scribe d = true ->
    (escalator request d = Ok None -> exists msg, result = Err (Exn PolicyIntegrityError msg)) /\
    (forall e ok, escalator request d = Ok (Some e) -> verifier e = Ok ok ->
       exists msg, result = Err (Exn
         (if bound_escalation request d e && ok then AuthorityDenied else PolicyIntegrityError) msg)))).
Proof.
  unfold require_action. rewrite HE. simpl. split.
  - intros d'. destruct (gd_allowed d); [naive_solver|]. split; [|naive_solver].
    by destruct (if gd_escalate_to_scribe d then _ else _).
  - intros ->. split; [intros ->; simpl; eauto|]. intros ->. split.
    + intros ->. simpl. eauto.
    + intros e ok -> Hv. simpl. unfold bound_escalation. rewrite Hv.
      destruct (_ =? _)%string, (_ =? _)%string, (startswith _ _), ok; simpl; eauto.
Qed.


(** What [sign_evidence] signs, [verified_receipts] accepts: a receipt signed
    with a registered issuer's key, for a check in its scope, with a valid
    artifact binding and the current instant within its window, is filed under
    its check id. *)
Theorem signed_evidence_verifies issuers request now m sk trusted
    check_id issuer ref sha issued expires verdict reason
    (Hsig : forall k msg, verify_sig (public_key k) (sign k msg) msg = true)
    (Hi : issuers !! issuer = Some trusted) (Hk : ti_public_key trusted = public_key sk)
    (Hc : check_id ∈ ti_allowed_checks trusted) (Hnew : m !! check_id = None)
    (Ha : hex64 sha = true) (Hr : ref <> "")
    (Hv1 : dt_valid issued) (Hv2 : dt_valid expires)
    (Haw : aware issued = true /\ aware expires = true)
    (Hw : instant issued <= instant now <= instant expires /\ instant issued < instant expires)
    (Hind : check_id ∈ INDEPENDENT_CHECKS -> ti_family trusted <> gr_actor_family request) :
  let rc := sign_evidence sk request check_id issuer ref sha issued expires verdict reason in
  verify_receipt issuers request now m rc = Ok (<[check_id := rc]> m).
Proof.
  intros rc. unfold verify_receipt. simpl er_check_id. simpl er_issuer.
  rewrite Hnew, bool_decide_eq_false_2 by (intros [? ?]; done). rewrite Hi.
  assert (Hex : existsb (String.eqb check_id) (ti_allowed_checks trusted) = true).
  { apply existsb_exists. exists check_id. rewrite <- list_elem_of_In. split; [done|apply String.eqb_refl]. }
  rewrite Hex. simpl er_intent_sha256. rewrite String.eqb_refl.
  simpl er_artifact_sha256. simpl er_artifact_ref. rewrite Ha.
  destruct ref as [|? ?]; [done|]. simpl er_issued_at. simpl er_expires_at.
  rewrite !from_isoformat by done. destruct Haw as [-> ->].
  destruct Hw as [[?%Z.leb_le ?%Z.leb_le] ?%Z.ltb_lt]. simpl truthy.
  repeat match goal with H : (_ <=? _) = true |- _ => rewrite H; clear H
    | H : (_ <? _) = true |- _ => rewrite H; clear H end. cbn [andb].
  assert (Hno : existsb (String.eqb check_id) INDEPENDENT_CHECKS
                && (ti_family trusted =? gr_actor_family request)%string = false).
  { apply not_true_iff_false. intros [(x & Hx & <-%String.eqb_eq)%existsb_exists Hf%String.eqb_eq]%andb_true_iff.
    apply Hind; [by apply list_elem_of_In|done]. }
  rewrite Hno, Hk. subst rc. unfold sign_evidence. simpl er_signature.
  unfold receipt_payload. simpl. by rewrite Hsig.
Qed.

End trust.

(** ** Witnesses

    A customer notification with its four receipts, under a transparent
    signature scheme. *)
Module Demo.

Definition sign (k m : string) : string := k +:+ ":" +:+ m.
Definition public_key (k : string) : string := k.
Definition verify_sig (k s m : string) : bool := (s =? k +:+ ":" +:+ m)%string.

Lemma sign_correct k m : verify_sig (public_key k) (sign k m) m = true.
Proof. apply String.eqb_refl. Qed.

Definition now : datetime := DT (100 * day_us) (Some 0).
Definition sha : string := "aaaaaaaaaaaaaaaaaaaaaaaaaaaaaaaaaaaaaaaaaaaaaaaaaaaaaaaaaaaaaaaa".

Definition request (action : ActionClass) (ev : list EvidenceReceipt) : GateRequest := {|
  gr_action := action; gr_actor_tenant_id := "acme"; gr_request_tenant_id := "acme";
  gr_actor_role := "notify_leg"; gr_actor_family := "claude"; gr_target := "mail";
  gr_objective_id := "obj-1"; gr_worker_identity := "w1"; gr_idempotency_key := "0123456789abcdef";
  gr_why_ref := ""; gr_evidence := ev |}.

Definition receipt (action : ActionClass) (id verdict : string) : EvidenceReceipt :=
  sign_evidence string sign "key" (request action []) id "ci" "ref" sha
    now (dt_add now day_us) verdict "".

Definition issuers : gmap string (TrustedEvidenceIssuer string) :=
  {[ "ci" := {| ti_issuer := "ci"; ti_family := "codex"; ti_public_key := "key";
       ti_allowed_checks := ["approval"; "content"; "rate_limit"; "independent_verify"] |} ]}.

Definition notify (rate : string) : GateRequest :=
  request NOTIFY_CUSTOMER (map (fun '(id, v) => receipt NOTIFY_CUSTOMER id v)
    [("approval", "pass"); ("content", "pass"); ("rate_limit", rate); ("independent_verify", "pass")]).

Definition allowed_decision : GateDecision := {|
  gd_allowed := true; gd_action := NOTIFY_CUSTOMER; gd_tier := HIGH; gd_reason := "authorized";
  gd_checked := ["tenant_match"; "notify_role"; "approval"; "content"; "rate_limit"; "independent_verify"];
  gd_decision_sha256 := "316aff858e192782705e578723181b950260b1ae22e8033375c0cf748eb4f881";
  gd_escalate_to_scribe := false |}.

Definition denied_decision : GateDecision := {|
  gd_allowed := false; gd_action := NOTIFY_CUSTOMER; gd_tier := HIGH;
  gd_reason := "rate limit did not pass";
  gd_checked := ["tenant_match"; "notify_role"; "approval"; "content"; "rate_limit"];
  gd_decision_sha256 := "02fe49d1b470b214596a53a4c9dd608fa22e9fed8dcd798ade52431690d6b883";
  gd_escalate_to_scribe := false |}.

Lemma allowed_run :
  evaluate_action string verify_sig issuers now (notify "pass") = Ok allowed_decision.
Proof. vm_compute. reflexivity. Qed.

Lemma denied_run :
  evaluate_action string verify_sig issuers now (notify "fail") = Ok denied_decision.
Proof. vm_compute. reflexivity. Qed.

End Demo.

Lemma allowed_stays_in_tenant_witness :
  gr_actor_tenant_id (Demo.notify "pass") <> "".
Proof.
  exact (proj1 (proj2 (proj2 (proj2 (proj2
    (allowed_stays_in_tenant _ Demo.verify_sig Demo.issuers Demo.now (Demo.notify "pass")
      Demo.allowed_decision Demo.allowed_run eq_refl)))))).
Defined.

Lemma allowed_is_evidence_backed_witness :
  exists rc, rc ∈ gr_evidence (Demo.notify "pass") /\ er_verdict rc = "pass".
Proof.
  destruct (allowed_is_evidence_backed _ Demo.verify_sig Demo.issuers Demo.now (Demo.notify "pass")
    Demo.allowed_decision "independent_verify" Demo.allowed_run eq_refl) as (rc & _ & Hin & _ & Hv & _).
  - apply list_elem_of_In. simpl. tauto.
  - intros Hin%list_elem_of_In. revert Hin. simpl. intuition discriminate.
  - eauto.
Defined.

Lemma receipt_binds_intent_witness :
  intent_fields (Demo.notify "pass") = intent_fields (Demo.notify "pass") \/
  collides (intent_payload (Demo.notify "pass")) (intent_payload (Demo.notify "pass")).
Proof.
  destruct (allowed_inv _ Demo.verify_sig _ _ _ _ Demo.allowed_run eq_refl) as (m & _ & _ & E & _).
  refine (receipt_binds_intent _ Demo.verify_sig Demo.issuers Demo.issuers Demo.now Demo.now
    (Demo.notify "pass") (Demo.notify "pass") m m (Demo.receipt NOTIFY_CUSTOMER "approval" "pass")
    E _ E _); left.
Defined.

Lemma denial_is_first_failure_witness :
  exists pre id, gd_checked Demo.denied_decision = pre ++ [id].
Proof.
  destruct (denial_is_first_failure _ Demo.verify_sig Demo.issuers Demo.now (Demo.notify "fail")
    Demo.denied_decision Demo.denied_run eq_refl) as (_ & _ & pre & id & _ & _ & _ & _ & _ & Hc & _).
  eauto.
Defined.

Lemma evaluate_action_errors_witness :
  exn_class (Exn PolicyIntegrityError "authority evidence issuer/check scope is untrusted")
  = PolicyIntegrityError.
Proof.
  apply (evaluate_action_errors _ Demo.verify_sig ∅ Demo.now (Demo.notify "pass")).
  vm_compute. reflexivity.
Defined.

Lemma require_action_escalates_witness :
  exists msg, require_action string Demo.verify_sig Demo.issuers Demo.now
    (fun _ _ => Ok None) (fun _ => Ok true) (Demo.notify "fail") = Err (Exn AuthorityDenied msg).
Proof.
  exact (proj1 (proj2 (require_action_escalates _ Demo.verify_sig Demo.issuers Demo.now
    (fun _ _ => Ok None) (fun _ => Ok true) (Demo.notify "fail")
    Demo.denied_decision Demo.denied_run) eq_refl) eq_refl).
Defined.

Lemma signed_evidence_verifies_witness :
  is_ok (verify_receipt string Demo.verify_sig Demo.issuers (Demo.notify "pass") Demo.now ∅
    (Demo.receipt NOTIFY_CUSTOMER "approval" "pass")) = true.
Proof.
  pose proof (signed_evidence_verifies string string Demo.sign Demo.public_key Demo.verify_sig
    Demo.issuers (Demo.notify "pass") Demo.now ∅ "key"
    {| ti_issuer := "ci"; ti_family := "codex"; ti_public_key := "key";
       ti_allowed_checks := ["approval"; "content"; "rate_limit"; "independent_verify"] |}
    "approval" "ci" "ref" Demo.sha Demo.now (dt_add Demo.now day_us) "pass" "") as P.
  cbv zeta in P. unfold Demo.receipt.
  change (sign_evidence string Demo.sign "key" (Demo.request NOTIFY_CUSTOMER []))
    with (sign_evidence string Demo.sign "key" (Demo.notify "pass")).
  rewrite P; clear P; [vm_compute; reflexivity|apply Demo.sign_correct|..].
  1-2,4-5: vm_compute; reflexivity.
  - apply list_elem_of_In. simpl. tauto.
  - done.
  - vm_compute. intuition discriminate.
  - vm_compute. intuition discriminate.
  - vm_compute. auto.
  - vm_compute. intuition discriminate.
  - intros Hin%list_elem_of_In. revert Hin. vm_compute. intuition discriminate.
Defined.
