(* ===== verification/EvalDomain.v ===== *)
(** * Evaluation domain records ([fleet_kernel/eval_plane/domain.py])

    The state vocabularies and lifecycles of evaluation runs and
    qualifications, and the validating constructors of attempts, grader
    results and waivers. A method that mutates [self] and returns it is a
    function to the new record; when it raises, the record is unchanged. *)
From S2P Require Import Prelude PyStr PyTime Json.
From stdpp Require Import base gmap strings list.
From Stdlib Require Import ZArith Lia.

Local Open Scope Z_scope.

(** ** Vocabularies *)

(* src: fleet_kernel/eval_plane/domain.py EvalRunState *)
Inductive EvalRunState :=
  | RunCREATED | RunTARGET_FROZEN | RunREADY | RunRUNNING | RunGRADING
  | RunREVIEW_REQUIRED | RunCOMPLETED | RunCANCELLED | RunERROR | RunBLOCKED.

(* src: fleet_kernel/eval_plane/domain.py ExecutionMode *)
Inductive ExecutionMode := DENY_EFFECTS | SIMULATED | TEST_ACCOUNT | SHADOW | SUPERVISED_LIVE.

(* src: fleet_kernel/eval_plane/domain.py ResultState *)
Inductive ResultState := PASS | FAIL | ERROR | INCONCLUSIVE.

(* src: fleet_kernel/eval_plane/domain.py GraderKind *)
Inductive GraderKind := STRUCTURAL | TRAJECTORY | OUTCOME | SEMANTIC | HUMAN.

(* src: fleet_kernel/eval_plane/domain.py Criticality *)
Inductive Criticality := CRITICAL | NONCRITICAL | ADVISORY.

(* src: fleet_kernel/eval_plane/domain.py QualificationState *)
Inductive QualificationState :=
  | QPENDING | QADVISORY_QUALIFIED | QQUALIFIED | QREJECTED | QSTALE | QEXPIRED | QWAIVED | QERROR.

(* src: fleet_kernel/eval_plane/domain.py GateMode *)
Inductive GateMode := GateADVISORY | GateWARNING | GateBLOCKING.

(* src: fleet_kernel/eval_plane/domain.py InconclusivePolicy *)
Inductive InconclusivePolicy := IncBLOCK | IncREVIEW.

#[export] Instance EvalRunState_eq_dec : EqDecision EvalRunState.
Proof. solve_decision. Defined.
#[export] Instance ExecutionMode_eq_dec : EqDecision ExecutionMode.
Proof. solve_decision. Defined.
#[export] Instance ResultState_eq_dec : EqDecision ResultState.
Proof. solve_decision. Defined.
#[export] Instance GraderKind_eq_dec : EqDecision GraderKind.
Proof. solve_decision. Defined.
#[export] Instance Criticality_eq_dec : EqDecision Criticality.
Proof. solve_decision. Defined.
#[export] Instance QualificationState_eq_dec : EqDecision QualificationState.
Proof. solve_decision. Defined.
#[export] Instance GateMode_eq_dec : EqDecision GateMode.
Proof. solve_decision. Defined.
#[export] Instance InconclusivePolicy_eq_dec : EqDecision InconclusivePolicy.
Proof. solve_decision. Defined.

(* src: fleet_kernel/eval_plane/domain.py EvalRunState *)
Definition run_state_value (s : EvalRunState) : string :=
  match s with
  | RunCREATED => "created" | RunTARGET_FROZEN => "target_frozen" | RunREADY => "ready"
  | RunRUNNING => "running" | RunGRADING => "grading"
  | RunREVIEW_REQUIRED => "review_required" | RunCOMPLETED => "completed"
  | RunCANCELLED => "cancelled" | RunERROR => "error" | RunBLOCKED => "blocked"
  end.

(* src: fleet_kernel/eval_plane/domain.py ResultState *)
Definition result_value (r : ResultState) : string :=
  match r with PASS => "pass" | FAIL => "fail" | ERROR => "error" | INCONCLUSIVE => "inconclusive" end.

(* src: fleet_kernel/eval_plane/domain.py GraderKind *)
Definition kind_value (k : GraderKind) : string :=
  match k with
  | STRUCTURAL => "structural" | TRAJECTORY => "trajectory" | OUTCOME => "outcome"
  | SEMANTIC => "semantic" | HUMAN => "human"
  end.

(* src: fleet_kernel/eval_plane/domain.py Criticality *)
Definition criticality_value (c : Criticality) : string :=
  match c with CRITICAL => "critical" | NONCRITICAL => "noncritical" | ADVISORY => "advisory" end.

(* src: fleet_kernel/eval_plane/domain.py QualificationState *)
Definition qual_state_value (s : QualificationState) : string :=
  match s with
  | QPENDING => "pending" | QADVISORY_QUALIFIED => "advisory_qualified" | QQUALIFIED => "qualified"
  | QREJECTED => "rejected" | QSTALE => "stale" | QEXPIRED => "expired" | QWAIVED => "waived"
  | QERROR => "error"
  end.

(* src: fleet_kernel/eval_plane/domain.py GateMode *)
Definition gate_mode_value (g : GateMode) : string :=
  match g with GateADVISORY => "advisory" | GateWARNING => "warning" | GateBLOCKING => "blocking" end.

(* src: fleet_kernel/eval_plane/domain.py InconclusivePolicy *)
Definition inconclusive_policy_value (p : InconclusivePolicy) : string :=
  match p with IncBLOCK => "block" | IncREVIEW => "review" end.

(** ** Transition tables *)

(* src: fleet_kernel/eval_plane/domain.py RUN_TERMINAL_STATES *)
Definition RUN_TERMINAL_STATES : list EvalRunState := [RunCOMPLETED; RunCANCELLED; RunERROR].

(* src: fleet_kernel/eval_plane/domain.py QUALIFYING_STATES *)
Definition QUALIFYING_STATES : list QualificationState := [QQUALIFIED; QADVISORY_QUALIFIED].

(* src: fleet_kernel/eval_plane/domain.py QUALIFICATION_TERMINAL_STATES *)
Definition QUALIFICATION_TERMINAL_STATES : list QualificationState := [QSTALE; QEXPIRED; QERROR].

(* src: fleet_kernel/eval_plane/domain.py _RUN_ABORTS *)
Definition RUN_ABORTS : list EvalRunState := [RunCANCELLED; RunERROR].

(* src: fleet_kernel/eval_plane/domain.py RUN_TRANSITIONS *)
Definition RUN_TRANSITIONS (s : EvalRunState) : list EvalRunState :=
  match s with
  | RunCREATED => [RunTARGET_FROZEN; RunBLOCKED] ++ RUN_ABORTS
  | RunTARGET_FROZEN => [RunREADY; RunBLOCKED] ++ RUN_ABORTS
  | RunREADY => [RunRUNNING; RunBLOCKED] ++ RUN_ABORTS
  | RunRUNNING => [RunGRADING; RunBLOCKED] ++ RUN_ABORTS
  | RunGRADING => [RunREVIEW_REQUIRED; RunCOMPLETED; RunBLOCKED] ++ RUN_ABORTS
  | RunREVIEW_REQUIRED => [RunCOMPLETED; RunBLOCKED] ++ RUN_ABORTS
  | RunBLOCKED => [RunREADY] ++ RUN_ABORTS
  | RunCOMPLETED | RunCANCELLED | RunERROR => []
  end.

(* src: fleet_kernel/eval_plane/domain.py QUALIFICATION_TRANSITIONS *)
Definition QUALIFICATION_TRANSITIONS (s : QualificationState) : list QualificationState :=
  match s with
  | QPENDING => [QQUALIFIED; QADVISORY_QUALIFIED; QREJECTED; QERROR]
  | QQUALIFIED => [QSTALE; QEXPIRED]
  | QADVISORY_QUALIFIED => [QSTALE; QEXPIRED]
  | QREJECTED => [QWAIVED; QSTALE]
  | QWAIVED => [QSTALE; QEXPIRED]
  | QSTALE | QEXPIRED | QERROR => []
  end.

(* src: fleet_kernel/eval_plane/domain.py _require_tenant *)
Definition require_tenant (tenant_id : string) : res unit :=
  require truthy (strip tenant_id) else ValueError, "tenant_id is required and may not be blank" ;;
  Ok tt.

(* src: fleet_kernel/eval_plane/domain.py assert_run_transition *)
Definition assert_run_transition (current target : EvalRunState) : res unit :=
  if bool_decide (current = target) then Ok tt else
  require bool_decide (target ∈ RUN_TRANSITIONS current)
    else IllegalTransition, ("illegal eval run transition " +:+ run_state_value current
                             +:+ " -> " +:+ run_state_value target) ;;
  Ok tt.

(* src: fleet_kernel/eval_plane/domain.py assert_qualification_transition *)
Definition assert_qualification_transition (current target : QualificationState) : res unit :=
  if bool_decide (current = target) then Ok tt else
  require bool_decide (target ∈ QUALIFICATION_TRANSITIONS current)
    else IllegalTransition, ("illegal qualification transition " +:+ qual_state_value current
                             +:+ " -> " +:+ qual_state_value target) ;;
  Ok tt.

(** ** Records *)

Definition uuid : Type := N.

(* src: fleet_kernel/schemas.py _KernelRow *)
Record KernelRow := {
  row_tenant_id : string;
  row_id : uuid;
  row_schema_version : Z;
}.

(* src: fleet_kernel/eval_plane/domain.py EvalRun *)
Record EvalRun := {
  run_row : KernelRow;
  run_suite_id : string;
  run_suite_version : string;
  run_suite_manifest_sha256 : string;
  run_target_fingerprint : string;
  run_environment : string;
  run_execution_mode : ExecutionMode;
  run_state : EvalRunState;
  run_actor_identity : string;
  run_actor_family : string;
  run_attempt_policy : json;
  run_recovered_from_run_id : option uuid;
  run_spend_microusd : Z;
  run_latency_ms : Z;
  run_provider_error_count : Z;
  run_tool_error_count : Z;
  run_evidence_ref : string;
  run_evidence_sha256 : option string;
  run_created_at : datetime;
  run_started_at : option datetime;
  run_heartbeat_at : option datetime;
  run_ended_at : option datetime;
}.

(* src: fleet_kernel/eval_plane/domain.py EvalRun.__post_init__ *)
Definition EvalRun_post_init (self : EvalRun) : res EvalRun :=
  let! _ := require_tenant (row_tenant_id (run_row self)) in Ok self.

(** The three assignments of [transition], the other fields untouched. *)
Definition EvalRun_set (r : EvalRun) (s : EvalRunState) (started ended : option datetime) : EvalRun := {|
  run_row := run_row r; run_suite_id := run_suite_id r; run_suite_version := run_suite_version r;
  run_suite_manifest_sha256 := run_suite_manifest_sha256 r;
  run_target_fingerprint := run_target_fingerprint r; run_environment := run_environment r;
  run_execution_mode := run_execution_mode r; run_state := s;
  run_actor_identity := run_actor_identity r; run_actor_family := run_actor_family r;
  run_attempt_policy := run_attempt_policy r;
  run_recovered_from_run_id := run_recovered_from_run_id r;
  run_spend_microusd := run_spend_microusd r; run_latency_ms := run_latency_ms r;
  run_provider_error_count := run_provider_error_count r;
  run_tool_error_count := run_tool_error_count r; run_evidence_ref := run_evidence_ref r;
  run_evidence_sha256 := run_evidence_sha256 r; run_created_at := run_created_at r;
  run_started_at := started; run_heartbeat_at := run_heartbeat_at r; run_ended_at := ended |}.

(** [now] is what [_now()] reads; [at] is the optional argument. *)
(* src: fleet_kernel/eval_plane/domain.py EvalRun.transition *)
Definition EvalRun_transition (now : datetime) (self : EvalRun) (target : EvalRunState)
    (at_ : option datetime) : res EvalRun :=
  let! _ := assert_run_transition (run_state self) target in
  let moment := default now at_ in
  Ok (EvalRun_set self target
        (if bool_decide (target = RunRUNNING) && bool_decide (run_started_at self = None)
         then Some moment else run_started_at self)
        (if bool_decide (target ∈ RUN_TERMINAL_STATES) then Some moment else run_ended_at self)).

(* src: fleet_kernel/eval_plane/domain.py EvalCaseAttempt *)
Record EvalCaseAttempt := {
  att_row : KernelRow;
  att_run_id : uuid;
  att_case_id : string;
  att_case_version : string;
  att_case_manifest_sha256 : string;
  att_attempt_number : Z;
  att_sampling_config : json;
  att_input_sha256 : string;
  att_fixture_sha256 : string;
  att_trajectory_ref : string;
  att_trajectory_sha256 : string;
  att_final_output_ref : string;
  att_forbidden_effect_attempts : Z;
  att_result : ResultState;
  att_counted_in_aggregate : bool;
  att_exclusion_reason : string;
  att_retry_of_attempt_id : option uuid;
  att_cost_microusd : Z;
  att_latency_ms : Z;
  att_started_at : datetime;
  att_ended_at : datetime;
  att_recorded_at : datetime;
}.

(* src: fleet_kernel/eval_plane/domain.py EvalCaseAttempt.validate *)
Definition EvalCaseAttempt_validate (self : EvalCaseAttempt) : res EvalCaseAttempt :=
  let! _ := require_tenant (row_tenant_id (att_row self)) in
  raise_if att_attempt_number self <? 1 with ValueError, "attempt_number starts at 1" ;;
  raise_if (1 <? att_attempt_number self) && bool_decide (att_retry_of_attempt_id self = None)
    with ValueError, "a retry attempt must name its predecessor" ;;
  if negb (att_counted_in_aggregate self) then
    require bool_decide (att_result self = ERROR)
      else DiscardedFailure, ("a " +:+ result_value (att_result self)
                              +:+ " attempt cannot be excluded from the aggregate") ;;
    require truthy (strip (att_exclusion_reason self))
      else DiscardedFailure, "an excluded ERROR attempt must state its reason" ;;
    Ok self
  else
    raise_if truthy (strip (att_exclusion_reason self))
      with ValueError, "a counted attempt cannot carry an exclusion reason" ;;
    Ok self.

(** The value of an untyped timestamp field: a [datetime], or an object of
    another type, of which the code reads the type's name. *)
Inductive stamp := StampTime (d : datetime) | StampOther (type_name : string).
Definition is_datetime (s : stamp) : bool := match s with StampTime _ => true | StampOther _ => false end.
Definition stamp_type (s : stamp) : string := match s with StampTime _ => "datetime" | StampOther n => n end.

(* src: fleet_kernel/eval_plane/domain.py GraderResult *)
Record GraderResult := {
  dgr_row : KernelRow;
  dgr_attempt_id : uuid;
  dgr_grader_id : string;
  dgr_grader_version : string;
  dgr_grader_kind : GraderKind;
  dgr_grader_family : string;
  dgr_subject_family : string;
  dgr_result : ResultState;
  dgr_criticality : Criticality;
  dgr_reason : string;
  dgr_evidence_ref : string;
  dgr_evidence_sha256 : option string;
  dgr_error_detail : string;
  dgr_judge_model_id : string;
  dgr_rubric_id : string;
  dgr_rubric_version : string;
  dgr_rubric_sha256 : option string;
  dgr_adjudicator_identity : string;
  dgr_adjudicator_family : string;
  dgr_adjudicated_at : option stamp;
  dgr_graded_at : datetime;
}.

Definition truthy_opt (o : option string) : bool := match o with Some s => truthy s | None => false end.

(* src: fleet_kernel/eval_plane/domain.py GraderResult.validate *)
Definition GraderResult_validate (self : GraderResult) : res GraderResult :=
  let! _ := require_tenant (row_tenant_id (dgr_row self)) in
  raise_if truthy (dgr_grader_family self) && (dgr_grader_family self =? dgr_subject_family self)%string
           && negb (bool_decide (dgr_grader_kind self = SEMANTIC))
    with ValueError, "grader family must differ from subject family" ;;
  raise_if truthy (dgr_adjudicator_identity self)
           && (dgr_adjudicator_family self =? dgr_subject_family self)%string
    with ValueError, "adjudicator family must differ from subject family" ;;
  raise_if bool_decide (dgr_grader_kind self = SEMANTIC)
           && negb (truthy (strip (dgr_judge_model_id self)) && truthy (strip (dgr_rubric_id self))
                    && truthy (strip (dgr_rubric_version self)) && truthy_opt (dgr_rubric_sha256 self))
    with ValueError, "a semantic grade requires judge model and versioned rubric identity" ;;
  raise_if bool_decide (dgr_grader_kind self = SEMANTIC)
           && negb (bool_decide (dgr_criticality self = ADVISORY))
    with ValueError, ("semantic grading stays advisory until EP-610 calibration lands ("
                      +:+ section_sign +:+ "4.2)") ;;
  raise_if bool_decide (dgr_result self = ERROR) && negb (truthy (strip (dgr_error_detail self)))
    with ValueError, "an ERROR grade requires error detail" ;;
  let bad_type := match dgr_adjudicated_at self with Some s => negb (is_datetime s) | None => false end in
  raise_if bad_type
    with ValueError, ("adjudicated_at must be a datetime, not "
                      +:+ match dgr_adjudicated_at self with Some s => stamp_type s | None => "" end) ;;
  let adjudicator_named := truthy (strip (dgr_adjudicator_identity self)) in
  raise_if adjudicator_named && bool_decide (dgr_adjudicated_at self = None)
    with ValueError, "an adjudicator identity requires adjudicated_at" ;;
  raise_if negb adjudicator_named && negb (bool_decide (dgr_adjudicated_at self = None))
    with ValueError, "adjudicated_at requires a named adjudicator_identity" ;;
  require truthy (strip (dgr_reason self)) else ValueError, "a grade requires a human-readable reason" ;;
  let graded := bool_decide (dgr_result self = PASS) || bool_decide (dgr_result self = FAIL) in
  let has_ref := truthy (strip (dgr_evidence_ref self)) in
  let has_digest := match dgr_evidence_sha256 self with Some _ => true | None => false end in
  raise_if graded && negb (has_ref && has_digest)
    with ValueError, "a PASS or FAIL requires a sha256-bound evidence reference; ERROR and INCONCLUSIVE carry error_detail and reason instead" ;;
  require Bool.eqb has_ref has_digest
    else ValueError, "evidence must be wholly absent or wholly hash-bound, never a reference without a digest" ;;
  raise_if match dgr_evidence_sha256 self with Some d => negb (hex64 d) | None => false end
    with ValueError, "evidence_sha256 must be a 64-character sha256 hex digest" ;;
  Ok self.

(* src: fleet_kernel/eval_plane/domain.py EvalQualification *)
Record EvalQualification := {
  q_row : KernelRow;
  q_run_id : uuid;
  q_suite_id : string;
  q_suite_version : string;
  q_target_fingerprint : string;
  q_state : QualificationState;
  q_gate_mode : GateMode;
  q_inconclusive_policy : InconclusivePolicy;
  q_case_results : json;
  q_aggregate_metrics : json;
  q_critical_failure_count : Z;
  q_error_count : Z;
  q_inconclusive_count : Z;
  q_forbidden_effect_count : Z;
  q_baseline_qualification_id : option uuid;
  q_reviewer_identity : string;
  q_reviewer_family : string;
  q_subject_family : string;
  q_receipt_ref : string;
  q_receipt_sha256 : option string;
  q_snapshot_sha256 : string;
  q_expires_at : option datetime;
  q_invalidated_at : option datetime;
  q_invalidation_reason : string;
  q_created_at : datetime;
  q_decided_at : option datetime;
}.

(* src: fleet_kernel/eval_plane/domain.py EvalQualification.__post_init__ *)
Definition EvalQualification_post_init (self : EvalQualification) : res EvalQualification :=
  let! _ := require_tenant (row_tenant_id (q_row self)) in Ok self.

(** The assignments of [transition], the other fields untouched. *)
Definition EvalQualification_set (q : EvalQualification) (s : QualificationState)
    (invalidated : option datetime) (why : string) (decided : option datetime) : EvalQualification := {|
  q_row := q_row q; q_run_id := q_run_id q; q_suite_id := q_suite_id q;
  q_suite_version := q_suite_version q; q_target_fingerprint := q_target_fingerprint q;
  q_state := s; q_gate_mode := q_gate_mode q; q_inconclusive_policy := q_inconclusive_policy q;
  q_case_results := q_case_results q; q_aggregate_metrics := q_aggregate_metrics q;
  q_critical_failure_count := q_critical_failure_count q; q_error_count := q_error_count q;
  q_inconclusive_count := q_inconclusive_count q;
  q_forbidden_effect_count := q_forbidden_effect_count q;
  q_baseline_qualification_id := q_baseline_qualification_id q;
  q_reviewer_identity := q_reviewer_identity q; q_reviewer_family := q_reviewer_family q;
  q_subject_family := q_subject_family q; q_receipt_ref := q_receipt_ref q;
  q_receipt_sha256 := q_receipt_sha256 q; q_snapshot_sha256 := q_snapshot_sha256 q;
  q_expires_at := q_expires_at q; q_invalidated_at := invalidated; q_invalidation_reason := why;
  q_created_at := q_created_at q; q_decided_at := decided |}.

Definition nonzero (n : Z) : bool := negb (n =? 0).

(* src: fleet_kernel/eval_plane/domain.py EvalQualification.transition *)
Definition EvalQualification_transition (now : datetime) (self : EvalQualification)
    (target : QualificationState) (at_ : option datetime) (reason : string) : res EvalQualification :=
  let! _ := assert_qualification_transition (q_state self) target in
  let moment := default now at_ in
  let! _ :=
    if bool_decide (target ∈ QUALIFYING_STATES) then
      raise_if nonzero (q_critical_failure_count self) || nonzero (q_error_count self)
               || nonzero (q_forbidden_effect_count self)
        with IllegalTransition, "qualification refused: critical failure, error, or forbidden effect on record" ;;
      raise_if nonzero (q_inconclusive_count self)
               && negb (bool_decide (q_inconclusive_policy self = IncREVIEW)
                        && truthy (q_reviewer_identity self))
        with IllegalTransition, "qualification refused: unresolved inconclusive case" ;;
      raise_if bool_decide (target = QQUALIFIED) && bool_decide (q_gate_mode self = GateADVISORY)
        with IllegalTransition, "an advisory gate cannot produce a QUALIFIED verdict" ;;
      Ok tt
    else Ok tt in
  let! (invalidated, why) :=
    if bool_decide (target = QSTALE) || bool_decide (target = QEXPIRED) then
      require truthy (strip reason) else ValueError, "invalidation requires a recorded reason" ;;
      Ok (Some moment, reason)
    else Ok (q_invalidated_at self, q_invalidation_reason self) in
  Ok (EvalQualification_set self target invalidated why
        (if bool_decide (target = QPENDING) then q_decided_at self else Some moment)).

(* src: fleet_kernel/eval_plane/domain.py EvalWaiver *)
Record EvalWaiver := {
  w_row : KernelRow;
  w_qualification_id : uuid;
  w_target_fingerprint : string;
  w_failed_suite_id : string;
  w_failed_case_id : string;
  w_failed_grader_id : string;
  w_founder_approval_id : uuid;
  w_approver_identity : string;
  w_rationale : string;
  w_evidence_ref : string;
  w_evidence_sha256 : string;
  w_expires_at : option datetime;
  w_release_bound_to : string;
  w_created_at : datetime;
}.

(* src: fleet_kernel/eval_plane/domain.py EvalWaiver.validate *)
Definition EvalWaiver_validate (self : EvalWaiver) : res EvalWaiver :=
  let! _ := require_tenant (row_tenant_id (w_row self)) in
  require truthy (w_failed_suite_id self) && truthy (w_failed_case_id self)
          && truthy (w_failed_grader_id self)
    else ValueError, "a waiver names exactly one failed suite/case/grader requirement" ;;
  require truthy (strip (w_approver_identity self)) && truthy (strip (w_rationale self))
          && truthy (strip (w_evidence_ref self))
    else ValueError, "a waiver requires a named approver, rationale, and evidence" ;;
  raise_if bool_decide (w_expires_at self = None) && negb (truthy (strip (w_release_bound_to self)))
    with ValueError, "a waiver must be time-limited or release-limited" ;;
  Ok self.

(* src: fleet_kernel/eval_plane/domain.py assert_no_discarded_failures *)
Fixpoint assert_no_discarded_failures (attempts : list EvalCaseAttempt) : res unit :=
  match attempts with
  | [] => Ok tt
  | a :: rest => let! _ := EvalCaseAttempt_validate a in assert_no_discarded_failures rest
  end.

(** ** Lifecycle of a run *)

(** One successful [transition] of a run, at any moment. *)
Inductive run_step : EvalRun -> EvalRun -> Prop :=
  | run_step_intro now r target at_ r' :
      EvalRun_transition now r target at_ = Ok r' -> run_step r r'.

(** [run_trace r0 states r]: [r] is reached from [r0] through [states], [r0]'s
    first and [r]'s last. *)
Inductive run_trace (r0 : EvalRun) : list EvalRunState -> EvalRun -> Prop :=
  | run_trace_start : run_trace r0 [run_state r0] r0
  | run_trace_step states r r' :
      run_trace r0 states r -> run_step r r' -> run_trace r0 (states ++ [run_state r']) r'.

(** A run as [EvalRun(...)] makes it with the default state. *)
Definition fresh_run (r : EvalRun) : Prop :=
  run_state r = RunCREATED /\ run_started_at r = None /\ run_ended_at r = None.

(** What a run may rely on in each state. *)
Record run_inv (r : EvalRun) : Prop := {
  inv_started : run_state r ∈ [RunRUNNING; RunGRADING; RunREVIEW_REQUIRED; RunCOMPLETED] ->
                is_Some (run_started_at r);
  inv_ended : is_Some (run_ended_at r) <-> run_state r ∈ RUN_TERMINAL_STATES;
}.

Lemma run_step_inv r r' : run_step r r' ->
  (run_state r' = run_state r \/ run_state r' ∈ RUN_TRANSITIONS (run_state r)) /\
  r' = EvalRun_set r (run_state r') (run_started_at r') (run_ended_at r') /\
  (is_Some (run_started_at r) -> run_started_at r' = run_started_at r) /\
  (run_state r' = RunRUNNING -> is_Some (run_started_at r')) /\
  (if decide (run_state r' ∈ RUN_TERMINAL_STATES) then is_Some (run_ended_at r')
   else run_ended_at r' = run_ended_at r).
Proof.
  intros [now r0 target at_ r1 E]. unfold EvalRun_transition, assert_run_transition in E.
  case_bool_decide as Heq.
  2: case_bool_decide as Hin; [|done].
  all: simpl in E; injection E as <-; simpl; split_and!; auto.
  all: repeat case_bool_decide; simpl; try case_decide; try done; eauto; try (by intros [? ?]; congruence).
  all: intros; apply not_eq_None_Some; naive_solver.
Qed.

Lemma terminal_no_transition s : s ∈ RUN_TERMINAL_STATES -> RUN_TRANSITIONS s = [].
Proof. destruct s; simpl; intros H%list_elem_of_In; simpl in H; naive_solver. Qed.

Lemma run_inv_step r r' : run_inv r -> run_step r r' -> run_inv r'.
Proof.
  intros [IS IE] H. apply run_step_inv in H as (Hs & _ & Hst & Hrun & He). split.
  - intros Hin. destruct (decide (run_state r' = RunRUNNING)) as [Hr|Hr]; [auto|].
    assert (is_Some (run_started_at r)) as HS; [|by rewrite (Hst HS)].
    apply IS. destruct Hs as [<-|Hs]; [done|].
    destruct (run_state r), (run_state r'); simpl in *; set_solver.
  - case_decide as Ht; [tauto|]. rewrite He, IE. split; [|done].
    intros Ht'. destruct Hs as [Hs|Hs]; [by rewrite Hs|].
    rewrite terminal_no_transition in Hs by done. set_solver.
Qed.

(** The states a run has certainly been through when it is in [s]. *)
Definition milestones (s : EvalRunState) : list EvalRunState :=
  match s with
  | RunREADY => [RunREADY]
  | RunRUNNING => [RunREADY; RunRUNNING]
  | RunGRADING | RunREVIEW_REQUIRED => [RunREADY; RunRUNNING; RunGRADING]
  | RunCOMPLETED => [RunREADY; RunRUNNING; RunGRADING; RunCOMPLETED]
  | _ => []
  end.

Lemma milestones_step s s' :
  s' = s \/ s' ∈ RUN_TRANSITIONS s -> milestones s' `sublist_of` milestones s ++ [s'].
Proof.
  intros [->|H]; [by apply sublist_inserts_r|].
  destruct s, s'; simpl in *; first [by (repeat constructor) | exfalso; set_solver
    | apply sublist_nil_l].
Qed.

Lemma trace_milestones r0 states r :
  run_state r0 = RunCREATED -> run_trace r0 states r -> milestones (run_state r) `sublist_of` states.
Proof.
  intros H0 H. induction H as [|states r r' _ IH Hs].
  - rewrite H0. apply sublist_nil_l.
  - apply run_step_inv in Hs as [Hs _]. etrans; [by apply milestones_step|].
    by apply sublist_app.
Qed.

(** C9: From a created run, every sequence of transitions keeps the run well
    formed: a run that reached RUNNING has a start time (never rewritten), it
    has an end time exactly in a terminal state, every other field is the
    created run's, and a terminal state is never left. *)
Theorem run_lifecycle r0 states r (H0 : fresh_run r0) (HT : run_trace r0 states r) :
  run_inv r /\
  r = EvalRun_set r0 (run_state r) (run_started_at r) (run_ended_at r) /\
  forall r', run_step r r' ->
    (is_Some (run_started_at r) -> run_started_at r' = run_started_at r) /\
    (run_state r ∈ RUN_TERMINAL_STATES -> run_state r' = run_state r).
Proof.
  split_and!.
  - destruct H0 as (S0 & A0 & E0). induction HT as [|states r r' _ IH Hs]; [|by eapply run_inv_step].
    split; rewrite S0; rewrite ?E0; [set_solver|]. split; [by intros [? ?]|set_solver].
  - induction HT as [|states r r' _ IH Hs]; [by destruct r0|].
    apply run_step_inv in Hs as (_ & -> & _). simpl. rewrite IH. done.
  - intros r' (Hs & _ & Hst & _)%run_step_inv. split; [done|]. intros Ht.
    rewrite terminal_no_transition in Hs by done. set_solver.
Qed.

(** A run completes only by being made ready, running and being graded, in
    that order. *)
Theorem completed_was_graded r0 states r
    (H0 : fresh_run r0) (HT : run_trace r0 states r) (HC : run_state r = RunCOMPLETED) :
  [RunREADY; RunRUNNING; RunGRADING; RunCOMPLETED] `sublist_of` states.
Proof.
  destruct H0 as [S0 _]. pose proof (trace_milestones _ _ _ S0 HT) as H. by rewrite HC in H.
Qed.

(** ** Lifecycle of a qualification *)

Inductive qual_step : EvalQualification -> EvalQualification -> Prop :=
  | qual_step_intro now q target at_ reason q' :
      EvalQualification_transition now q target at_ reason = Ok q' -> qual_step q q'.

Inductive qual_trace (q0 : EvalQualification) : list QualificationState -> EvalQualification -> Prop :=
  | qual_trace_start : qual_trace q0 [q_state q0] q0
  | qual_trace_step states q q' :
      qual_trace q0 states q -> qual_step q q' -> qual_trace q0 (states ++ [q_state q']) q'.

Definition fresh_qualification (q : EvalQualification) : Prop :=
  q_state q = QPENDING /\ q_invalidated_at q = None /\ q_decided_at q = None.

(** The counters support a qualifying verdict. *)
Record supported (q : EvalQualification) (s : QualificationState) : Prop := {
  sup_critical : q_critical_failure_count q = 0;
  sup_error : q_error_count q = 0;
  sup_forbidden : q_forbidden_effect_count q = 0;
  sup_inconclusive : q_inconclusive_count q = 0 \/
    (q_inconclusive_policy q = IncREVIEW /\ q_reviewer_identity q <> "");
  sup_gate : s = QQUALIFIED -> q_gate_mode q <> GateADVISORY;
}.

Record qual_inv (q : EvalQualification) : Prop := {
  qinv_supported : q_state q ∈ QUALIFYING_STATES -> supported q (q_state q);
  qinv_invalidated : q_state q = QSTALE \/ q_state q = QEXPIRED ->
    is_Some (q_invalidated_at q) /\ nonblank (q_invalidation_reason q) = true;
  qinv_decided : is_Some (q_decided_at q) <-> q_state q <> QPENDING;
}.

Lemma nonzero_false n : nonzero n = false <-> n = 0.
Proof. unfold nonzero. rewrite negb_false_iff. apply Z.eqb_eq. Qed.

Lemma qual_step_inv q q' : qual_step q q' ->
  (q_state q' = q_state q \/ q_state q' ∈ QUALIFICATION_TRANSITIONS (q_state q)) /\
  q' = EvalQualification_set q (q_state q') (q_invalidated_at q') (q_invalidation_reason q') (q_decided_at q') /\
  (q_state q' ∈ QUALIFYING_STATES -> supported q (q_state q')) /\
  (q_state q' = QSTALE \/ q_state q' = QEXPIRED ->
     is_Some (q_invalidated_at q') /\ nonblank (q_invalidation_reason q') = true) /\
  (if decide (q_state q' = QPENDING) then q_decided_at q' = q_decided_at q
   else is_Some (q_decided_at q')).
Proof.
  intros [now q0 target at_ reason q1 E]. unfold EvalQualification_transition in E.
  apply rbind_ok in E as ([] & Ht & ([] & Hq & ([inv why] & Hi & E)%rbind_ok)%rbind_ok).
  injection E as <-. simpl. split_and!.
  - clear Hq Hi. unfold assert_qualification_transition in Ht. case_bool_decide; [auto|].
    case_bool_decide; [auto|done].
  - done.
  - intros Hin. rewrite bool_decide_eq_true_2 in Hq by done.
    destruct (nonzero _ || _ || _) eqn:N; [done|].
    apply orb_false_iff in N as [[N1 N2]%orb_false_iff N3]. rewrite nonzero_false in N1, N2, N3.
    destruct (nonzero (q_inconclusive_count q0) && _) eqn:I; [done|].
    split; auto.
    + apply andb_false_iff in I as [I%nonzero_false|I]; [auto|right].
      apply negb_false_iff, andb_true_iff in I as [I1%bool_decide_eq_true I2].
      split; [done|]. intros Hz. by rewrite Hz in I2.
    + intros ->. intros Hg. by rewrite Hg in Hq.
  - intros Hs. destruct (bool_decide (target = QSTALE) || bool_decide (target = QEXPIRED)) eqn:Hb.
    + rewrite truthy_strip in Hi. destruct (nonblank reason) eqn:Hn; [|done].
      injection Hi as <- <-. by split; [eexists|].
    + exfalso. apply orb_false_iff in Hb as [?%bool_decide_eq_false ?%bool_decide_eq_false]. tauto.
  - clear Hq Hi. case_bool_decide; case_decide; try done; eauto.
Qed.

Lemma qual_inv_step q q' : qual_inv q -> qual_step q q' -> qual_inv q'.
Proof.
  intros [_ _ ID] (Hs & Hset & Hsup & Hinv & Hdec)%qual_step_inv. split; [|done|].
  - intros Hin. destruct (Hsup Hin) as [? ? ? ? ?]. rewrite Hset. by split.
  - case_decide as Hp; [|tauto]. rewrite Hdec, ID. split; [|done].
    intros Hq. exfalso. destruct Hs as [Hs|Hs]; [congruence|]. rewrite Hp in Hs.
    destruct (q_state q); simpl in Hs; set_solver.
Qed.

(** A qualifying verdict always rests on its counters: from a pending
    record, whatever the sequence of transitions, a QUALIFIED or
    ADVISORY_QUALIFIED record has no critical failure, error or forbidden
    effect, its inconclusive cases were reviewed, and an advisory gate never
    yields QUALIFIED; STALE and EXPIRED records carry their reason; every
    other field is the pending record's. *)
Theorem qualification_lifecycle q0 states q
    (H0 : fresh_qualification q0) (HT : qual_trace q0 states q) :
  qual_inv q /\
  q = EvalQualification_set q0 (q_state q) (q_invalidated_at q) (q_invalidation_reason q) (q_decided_at q).
Proof.
  split.
  - destruct H0 as (S0 & I0 & D0). induction HT as [|states q q' _ IH Hs]; [|by eapply qual_inv_step].
    split; rewrite ?S0, ?D0; [set_solver|naive_solver|]. split; [by intros [? ?]|done].
  - induction HT as [|states q q' _ IH Hs]; [by destruct q0|].
    apply qual_step_inv in Hs as (_ & -> & _). simpl. by rewrite IH.
Qed.

Lemma qual_trace_last q0 states q : qual_trace q0 states q -> q_state q ∈ states.
Proof. destruct 1; set_solver. Qed.

(** A waiver excuses a rejection and nothing else: a WAIVED record was
    REJECTED first, a rejected or waived record never becomes qualified, and
    the terminal states are never left. *)
Theorem waived_was_rejected q0 states q
    (H0 : fresh_qualification q0) (HT : qual_trace q0 states q) :
  (q_state q = QWAIVED -> [QREJECTED; QWAIVED] `sublist_of` states) /\
  (QREJECTED ∈ states -> q_state q ∈ [QREJECTED; QWAIVED; QSTALE; QEXPIRED]) /\
  (forall s, s ∈ states -> s ∈ QUALIFICATION_TERMINAL_STATES -> q_state q = s).
Proof.
  destruct H0 as [S0 _]. induction HT as [|states q q' Hq IH Hs].
  - rewrite S0. split_and!; [done|set_solver|set_solver].
  - apply qual_step_inv in Hs as [Hs _]. destruct IH as (IH1 & IH2 & IH3). split_and!.
    + intros E. rewrite E in *. destruct Hs as [Hs|Hs].
      * apply sublist_inserts_r. auto.
      * assert (q_state q = QREJECTED) as Hr by (destruct (q_state q); simpl in *; set_solver).
        clear IH2 IH3. change [QREJECTED; QWAIVED] with ([QREJECTED] ++ [QWAIVED]).
        apply sublist_app; [|done]. apply singleton_sublist_l.
        rewrite <- Hr. by eapply qual_trace_last.
    + intros [Hin|Hin]%elem_of_app.
      * specialize (IH2 Hin). destruct Hs as [->|Hs]; [done|].
        destruct (q_state q); simpl in *; set_solver.
      * set_solver.
    + intros s [Hin|Hin]%elem_of_app Ht; [|set_solver].
      specialize (IH3 s Hin Ht). rewrite IH3 in Hs. destruct s; simpl in *; set_solver.
Qed.

(** ** Validating constructors *)

(** No failed attempt is discarded: a list of attempts passes
    [assert_no_discarded_failures] exactly when each is numbered from 1, names
    its predecessor if it is a retry, and is either counted without an
    exclusion reason or an ERROR excluded with one. *)
Theorem no_discarded_failures attempts :
  assert_no_discarded_failures attempts = Ok tt <->
  Forall (fun a =>
    nonblank (row_tenant_id (att_row a)) = true /\ 1 <= att_attempt_number a /\
    (1 < att_attempt_number a -> is_Some (att_retry_of_attempt_id a)) /\
    if att_counted_in_aggregate a then nonblank (att_exclusion_reason a) = false
    else att_result a = ERROR /\ nonblank (att_exclusion_reason a) = true) attempts.
Proof.
  induction attempts as [|a attempts IH]; [by split|]. rewrite Forall_cons, <- IH. simpl.
  unfold EvalCaseAttempt_validate, require_tenant. rewrite !truthy_strip.
  destruct (nonblank (row_tenant_id _)); simpl; [|naive_solver].
  destruct (Z.ltb_spec (att_attempt_number a) 1); simpl; [split; [done|lia]|].
  destruct (Z.ltb_spec 1 (att_attempt_number a)), (att_retry_of_attempt_id a); simpl;
    destruct (att_counted_in_aggregate a), (nonblank (att_exclusion_reason a)); simpl;
    try case_bool_decide; simpl; split; try done; intros; destruct_and?;
    split_and?; auto; try lia; try done; try (exfalso; eapply is_Some_None; auto; fail); eauto.
Qed.

(** What [GraderResult.validate] demands, rule by rule. *)
Record valid_grade (g : GraderResult) : Prop := {
  vg_tenant : nonblank (row_tenant_id (dgr_row g)) = true;
  vg_independent : dgr_grader_family g <> "" -> dgr_grader_kind g <> SEMANTIC ->
    dgr_grader_family g <> dgr_subject_family g;
  vg_adjudicator : dgr_adjudicator_identity g <> "" ->
    dgr_adjudicator_family g <> dgr_subject_family g;
  vg_semantic : dgr_grader_kind g = SEMANTIC ->
    nonblank (dgr_judge_model_id g) = true /\ nonblank (dgr_rubric_id g) = true /\
    nonblank (dgr_rubric_version g) = true /\ truthy_opt (dgr_rubric_sha256 g) = true /\
    dgr_criticality g = ADVISORY;
  vg_error : dgr_result g = ERROR -> nonblank (dgr_error_detail g) = true;
  vg_adjudicated : match dgr_adjudicated_at g with
    | None => nonblank (dgr_adjudicator_identity g) = false
    | Some s => is_datetime s = true /\ nonblank (dgr_adjudicator_identity g) = true
    end;
  vg_reason : nonblank (dgr_reason g) = true;
  vg_graded : dgr_result g = PASS \/ dgr_result g = FAIL -> is_Some (dgr_evidence_sha256 g);
  vg_evidence : match dgr_evidence_sha256 g with
    | None => nonblank (dgr_evidence_ref g) = false
    | Some d => nonblank (dgr_evidence_ref g) = true /\ hex64 d = true
    end;
}.

Lemma require_tenant_ok {A} t (k : res A) x :
  (let! _ := require_tenant t in k) = Ok x <-> nonblank t = true /\ k = Ok x.
Proof. unfold require_tenant. rewrite truthy_strip. destruct (nonblank t); naive_solver. Qed.

Lemma truthy_ne s : truthy s = true <-> s <> "".
Proof. destruct s; naive_solver. Qed.

(** [validate] accepts exactly the valid grades. *)
Lemma GraderResult_validate_ok g : GraderResult_validate g = Ok g <-> valid_grade g.
Proof.
  unfold GraderResult_validate. rewrite require_tenant_ok. guards. rewrite !truthy_strip.
  bools. rewrite !truthy_ne. split.
  - intros (HT & HI & HJ & HS1 & HS2 & HE & HB & HA1 & HA2 & HR & HG & HEv & HD & _).
    split; try done; try tauto.
    + destruct (dgr_adjudicated_at g) as [st|]; destruct (nonblank (dgr_adjudicator_identity g));
        simpl in *; bools in HB; try done; [by specialize (HA2 eq_refl)|by destruct (HA1 eq_refl)].
    + destruct (dgr_evidence_sha256 g); naive_solver.
    + destruct (dgr_evidence_sha256 g), (nonblank (dgr_evidence_ref g)); simpl in *; bools in HD; naive_solver.
  - intros [? HI ? HS ? HA ? HG HE]. split_and!; try done; try tauto.
    + intros [? ?]. destruct (decide (dgr_grader_kind g = SEMANTIC)); [done|]. naive_solver.
    + destruct (dgr_adjudicated_at g); [|done]. destruct HA as [-> _]. done.
    + intros Hn. destruct (dgr_adjudicated_at g); [done|congruence].
    + intros Hn. destruct (dgr_adjudicated_at g); [|done]. destruct HA. congruence.
    + intros Hg. destruct (HG Hg) as [d Hd]. rewrite Hd in *. tauto.
    + destruct (dgr_evidence_sha256 g); [by destruct HE as [-> _]|by rewrite HE].
    + destruct (dgr_evidence_sha256 g); [|done]. by destruct HE as [_ ->].
Qed.

(** ** Witnesses *)

Module DomainDemo.

Definition t0 : datetime := DT 0 (Some 0).
Definition row : KernelRow := {| row_tenant_id := "acme"; row_id := 1%N; row_schema_version := 1 |}.

Definition run0 : EvalRun := {|
  run_row := row; run_suite_id := "s"; run_suite_version := "1"; run_suite_manifest_sha256 := "";
  run_target_fingerprint := "fp"; run_environment := "ci"; run_execution_mode := DENY_EFFECTS;
  run_state := RunCREATED; run_actor_identity := "a"; run_actor_family := "claude";
  run_attempt_policy := JObj []; run_recovered_from_run_id := None; run_spend_microusd := 0;
  run_latency_ms := 0; run_provider_error_count := 0; run_tool_error_count := 0;
  run_evidence_ref := ""; run_evidence_sha256 := None; run_created_at := t0;
  run_started_at := None; run_heartbeat_at := None; run_ended_at := None |}.

Definition qual0 : EvalQualification := {|
  q_row := row; q_run_id := 2%N; q_suite_id := "s"; q_suite_version := "1";
  q_target_fingerprint := "fp"; q_state := QPENDING; q_gate_mode := GateBLOCKING;
  q_inconclusive_policy := IncBLOCK; q_case_results := JObj []; q_aggregate_metrics := JObj [];
  q_critical_failure_count := 1; q_error_count := 0; q_inconclusive_count := 0;
  q_forbidden_effect_count := 0; q_baseline_qualification_id := None; q_reviewer_identity := "";
  q_reviewer_family := ""; q_subject_family := "claude"; q_receipt_ref := "";
  q_receipt_sha256 := None; q_snapshot_sha256 := ""; q_expires_at := None;
  q_invalidated_at := None; q_invalidation_reason := ""; q_created_at := t0; q_decided_at := None |}.

Definition walk (targets : list EvalRunState) : EvalRun :=
  fold_left (fun r s => match EvalRun_transition t0 r s None with Ok r' => r' | Err _ => r end)
    targets run0.

Definition qwalk (targets : list QualificationState) : EvalQualification :=
  fold_left (fun q s => match EvalQualification_transition t0 q s None "why" with Ok q' => q' | Err _ => q end)
    targets qual0.

Ltac extend s := apply (run_step_intro t0 _ s None); vm_compute; reflexivity.
Ltac qextend s := apply (qual_step_intro t0 _ s None "why"); vm_compute; reflexivity.

(** A run that skips TARGET_FROZEN: BLOCKED resumes at READY. *)
Definition path : list EvalRunState :=
  [RunBLOCKED; RunREADY; RunRUNNING; RunGRADING; RunCOMPLETED].

Lemma completed_trace : run_trace run0 (RunCREATED :: path) (walk path).
Proof.
  apply (run_trace_step _ [RunCREATED; RunBLOCKED; RunREADY; RunRUNNING; RunGRADING]
    (walk (take 4 path)) (walk path)); [|extend RunCOMPLETED].
  apply (run_trace_step _ [RunCREATED; RunBLOCKED; RunREADY; RunRUNNING]
    (walk (take 3 path)) (walk (take 4 path))); [|extend RunGRADING].
  apply (run_trace_step _ [RunCREATED; RunBLOCKED; RunREADY]
    (walk (take 2 path)) (walk (take 3 path))); [|extend RunRUNNING].
  apply (run_trace_step _ [RunCREATED; RunBLOCKED]
    (walk (take 1 path)) (walk (take 2 path))); [|extend RunREADY].
  apply (run_trace_step _ [RunCREATED] run0 (walk (take 1 path))); [|extend RunBLOCKED].
  apply (run_trace_start run0).
Qed.

Lemma waived_trace : qual_trace qual0 [QPENDING; QREJECTED; QWAIVED] (qwalk [QREJECTED; QWAIVED]).
Proof.
  apply (qual_trace_step _ [QPENDING; QREJECTED] (qwalk [QREJECTED]) (qwalk [QREJECTED; QWAIVED])); [|qextend QWAIVED].
  apply (qual_trace_step _ [QPENDING] qual0 (qwalk [QREJECTED])); [|qextend QREJECTED].
  apply (qual_trace_start qual0).
Qed.

End DomainDemo.

Lemma run_lifecycle_witness : run_inv (DomainDemo.walk DomainDemo.path).
Proof.
  refine (proj1 (run_lifecycle DomainDemo.run0 _ _ _ DomainDemo.completed_trace)).
  repeat split.
Defined.

Lemma completed_was_graded_witness :
  [RunREADY; RunRUNNING; RunGRADING; RunCOMPLETED] `sublist_of` (RunCREATED :: DomainDemo.path).
Proof.
  refine (completed_was_graded DomainDemo.run0 _ _ _ DomainDemo.completed_trace _).
  - repeat split.
  - reflexivity.
Defined.

Lemma qualification_lifecycle_witness : qual_inv (DomainDemo.qwalk [QREJECTED; QWAIVED]).
Proof.
  refine (proj1 (qualification_lifecycle DomainDemo.qual0 _ _ _ DomainDemo.waived_trace)).
  repeat split.
Defined.

Lemma waived_was_rejected_witness : [QREJECTED; QWAIVED] `sublist_of` [QPENDING; QREJECTED; QWAIVED].
Proof.
  refine (proj1 (waived_was_rejected DomainDemo.qual0 _ _ _ DomainDemo.waived_trace) _).
  - repeat split.
  - reflexivity.
Defined.
