(* ===== verification/Graders.v ===== *)
(** * Graders ([fleet_kernel/eval_plane/graders.py], first part)

    The in-process grader verdict and its validation, the bridge to the
    persisted row of [EvalDomain], the grader classes, and the fail-closed
    [run_grader]. A grader is untrusted: [run_grader] sees its attributes and
    its [grade] method through [attribute] and [outcome] below, which allow any
    of them to raise, and exceptions whose own rendering raises. *)
From S2P Require Import Prelude PyStr PyTime Json Sha256 EvalDomain.
From stdpp Require Import base gmap strings list.
From Stdlib Require Import ZArith Lia.

Local Open Scope Z_scope.

(* src: fleet_kernel/eval_plane/graders.py DETERMINISTIC_KINDS *)
Definition DETERMINISTIC_KINDS : list GraderKind := [STRUCTURAL; TRAJECTORY; OUTCOME].

(* src: fleet_kernel/eval_plane/graders.py DETERMINISTIC_FAMILY *)
Definition DETERMINISTIC_FAMILY : string := "deterministic".

(* src: fleet_kernel/eval_plane/graders.py _MODEL_FAMILY_PREFIXES *)
Definition MODEL_FAMILY_PREFIXES : list (string * string) := [
  ("claude", "anthropic"); ("gpt", "openai"); ("o1", "openai"); ("o3", "openai");
  ("o4", "openai"); ("gemini", "google")].

(* src: fleet_kernel/eval_plane/graders.py model_family *)
Definition model_family (model_id : string) : string :=
  let lowered := lower model_id in
  match List.find (fun pf => startswith lowered pf.1) MODEL_FAMILY_PREFIXES with
  | Some pf => pf.2
  | None => lowered
  end.

(* src: fleet_kernel/eval_plane/graders.py requirement_ref *)
Definition requirement_ref (suite_id case_id grader_id : string) : string :=
  suite_id +:+ "::" +:+ case_id +:+ "::" +:+ grader_id.

(** ** Verdicts *)

(* src: fleet_kernel/eval_plane/graders.py GraderResult *)
Record GraderResult := {
  gr_grader_id : string;
  gr_grader_version : string;
  gr_kind : GraderKind;
  gr_state : ResultState;
  gr_reason : string;
  gr_criticality : Criticality;
  gr_evidence_ref : string;
  gr_evidence_sha256 : string;
  gr_error_detail : string;
  gr_grader_family : string;
  gr_judge_model_id : string;
  gr_rubric_id : string;
  gr_rubric_version : string;
  gr_rubric_sha256 : string;
  gr_adjudicator_identity : string;
  gr_adjudicator_family : string;
  gr_adjudicated_at : option stamp;
}.

(** [_nonblank] is [PyStr.nonblank] ([truthy_strip]). The constructor's
    arguments [kind], [state] and [criticality] are typed here, so the three
    [isinstance] tests on them hold. *)
(* src: fleet_kernel/eval_plane/graders.py GraderResult.__post_init__ *)
Definition GraderResult_post_init (self : GraderResult) : res GraderResult :=
  require nonblank (gr_grader_id self) && nonblank (gr_grader_version self)
    else ValueError, "grader result requires a non-blank id and version" ;;
  require nonblank (gr_reason self)
    else ValueError, "grader result requires a human-readable reason" ;;
  require nonblank (gr_grader_family self)
    else ValueError, "grader result requires a non-blank grader family" ;;
  raise_if bool_decide (gr_state self = ERROR) && negb (nonblank (gr_error_detail self))
    with ValueError, "ERROR requires error_detail naming the infrastructure fault" ;;
  raise_if negb (bool_decide (gr_state self = ERROR)) && nonblank (gr_error_detail self)
    with ValueError, "error_detail is only meaningful on ERROR" ;;
  let has_ref := nonblank (gr_evidence_ref self) in
  let has_digest := nonblank (gr_evidence_sha256 self) in
  raise_if has_digest && negb (hex64_dollar (gr_evidence_sha256 self))
    with ValueError, "evidence_sha256 must be a 64-character sha256 hex digest" ;;
  require Bool.eqb has_ref has_digest
    else ValueError, "evidence must be wholly absent or wholly hash-bound: a reference without a digest is unverifiable, and a digest without a reference points at nothing" ;;
  raise_if (bool_decide (gr_state self = PASS) || bool_decide (gr_state self = FAIL)) && negb has_ref
    with ValueError, ("a " +:+ result_value (gr_state self)
      +:+ " grade requires a machine-readable evidence reference bound to a sha256 digest") ;;
  raise_if bool_decide (gr_kind self = SEMANTIC) && negb (bool_decide (gr_criticality self = ADVISORY))
    with ValueError, ("semantic grading stays advisory until EP-610 calibration lands ("
                      +:+ section_sign +:+ "4.2)") ;;
  raise_if bool_decide (gr_kind self = SEMANTIC)
           && negb (nonblank (gr_judge_model_id self) && nonblank (gr_rubric_id self)
                    && nonblank (gr_rubric_version self) && nonblank (gr_rubric_sha256 self))
    with ValueError, "a semantic verdict requires a pinned judge model and versioned rubric" ;;
  raise_if bool_decide (gr_kind self = HUMAN)
           && negb (bool_decide (gr_state self = INCONCLUSIVE) || bool_decide (gr_state self = ERROR))
           && negb (nonblank (gr_adjudicator_identity self))
    with ValueError, "an adjudicated human review requires a named adjudicator" ;;
  let bad_type := match gr_adjudicated_at self with Some s => negb (is_datetime s) | None => false end in
  raise_if bad_type
    with ValueError, ("adjudicated_at must be a datetime, not "
                      +:+ match gr_adjudicated_at self with Some s => stamp_type s | None => "" end) ;;
  raise_if nonblank (gr_adjudicator_identity self) && bool_decide (gr_adjudicated_at self = None)
    with ValueError, ("an adjudicator identity requires the adjudication timestamp (adjudicated_at) "
      +:+ emdash +:+ " a recorded adjudication that names no time is itself incomplete evidence") ;;
  raise_if negb (nonblank (gr_adjudicator_identity self))
           && negb (bool_decide (gr_adjudicated_at self = None))
    with ValueError, "adjudicated_at requires a named adjudicator_identity" ;;
  Ok self.

(* src: fleet_kernel/eval_plane/graders.py GraderResult.blocking_eligible *)
Definition blocking_eligible (self : GraderResult) : bool :=
  negb (bool_decide (gr_criticality self = ADVISORY)).

(** [adjudicated_at.isoformat()] raises on a value that is not a datetime;
    [GraderResult_post_init] excludes those. *)
(* src: fleet_kernel/eval_plane/graders.py GraderResult.to_dict *)
Definition GraderResult_to_dict `{IsoTime} (self : GraderResult) : res json :=
  let! at_ := match gr_adjudicated_at self with
              | None => Ok JNull
              | Some (StampTime d) => Ok (JStr (isoformat d))
              | Some (StampOther n) => Err (Exn (OtherError "AttributeError") n)
              end in
  Ok (JObj [
    ("grader_id", JStr (gr_grader_id self)); ("grader_version", JStr (gr_grader_version self));
    ("kind", JStr (kind_value (gr_kind self))); ("state", JStr (result_value (gr_state self)));
    ("reason", JStr (gr_reason self)); ("criticality", JStr (criticality_value (gr_criticality self)));
    ("evidence_ref", JStr (gr_evidence_ref self)); ("evidence_sha256", JStr (gr_evidence_sha256 self));
    ("error_detail", JStr (gr_error_detail self));
    ("grader_family", JStr (gr_grader_family self)); ("judge_model_id", JStr (gr_judge_model_id self));
    ("rubric_id", JStr (gr_rubric_id self)); ("rubric_version", JStr (gr_rubric_version self));
    ("rubric_sha256", JStr (gr_rubric_sha256 self));
    ("adjudicator_identity", JStr (gr_adjudicator_identity self));
    ("adjudicated_at", at_);
    ("blocking_eligible", JBool (blocking_eligible self))]).

Definition or_None (s : string) : option string := if truthy s then Some s else None.

(** [new_id] and [now] are the defaults of the row's [id] and [graded_at]. *)
(* src: fleet_kernel/eval_plane/graders.py to_domain_result *)
Definition to_domain_result (result : GraderResult) (tenant_id : string) (attempt_id : uuid)
    (subject_family : string) (new_id : uuid) (now : datetime) : res EvalDomain.GraderResult :=
  require nonblank tenant_id else ValueError, "persisting a grader result requires its tenant scope" ;;
  GraderResult_validate {|
    dgr_row := {| row_tenant_id := tenant_id; row_id := new_id; row_schema_version := 1 |};
    dgr_attempt_id := attempt_id;
    dgr_grader_id := gr_grader_id result;
    dgr_grader_version := gr_grader_version result;
    dgr_grader_kind := gr_kind result;
    dgr_grader_family := gr_grader_family result;
    dgr_subject_family := subject_family;
    dgr_result := gr_state result;
    dgr_criticality := gr_criticality result;
    dgr_reason := gr_reason result;
    dgr_evidence_ref := gr_evidence_ref result;
    dgr_evidence_sha256 := or_None (gr_evidence_sha256 result);
    dgr_error_detail := gr_error_detail result;
    dgr_judge_model_id := gr_judge_model_id result;
    dgr_rubric_id := gr_rubric_id result;
    dgr_rubric_version := gr_rubric_version result;
    dgr_rubric_sha256 := or_None (gr_rubric_sha256 result);
    dgr_adjudicator_identity := gr_adjudicator_identity result;
    dgr_adjudicator_family := gr_adjudicator_family result;
    dgr_adjudicated_at := gr_adjudicated_at result;
    dgr_graded_at := now |}.

(** ** Grader classes *)

(** A grader as its constructor leaves it. *)
(* src: fleet_kernel/eval_plane/graders.py Grader *)
Record GraderBase := {
  gb_grader_id : string;
  gb_grader_version : string;
  gb_kind : GraderKind;
  gb_criticality : Criticality;
  gb_grader_family : string;
}.

(** The class attribute [kind] and [criticality] are typed. *)
(* src: fleet_kernel/eval_plane/graders.py Grader.__init__ *)
Definition Grader_init (kind : GraderKind) (grader_id grader_version : string)
    (criticality : Criticality) (grader_family : string) : res GraderBase :=
  require nonblank grader_id && nonblank grader_version
    else ValueError, "a grader requires a non-blank id and version" ;;
  require nonblank grader_family else ValueError, "a grader requires a non-blank family" ;;
  Ok {| gb_grader_id := grader_id; gb_grader_version := grader_version; gb_kind := kind;
        gb_criticality := criticality; gb_grader_family := grader_family |}.

(* src: fleet_kernel/eval_plane/graders.py Grader._result *)
Definition Grader_result (self : GraderBase) (state : ResultState) (reason evidence_ref
    evidence_sha256 error_detail judge_model_id rubric_id rubric_version rubric_sha256
    adjudicator_identity adjudicator_family : string) (adjudicated_at : option stamp)
    : res GraderResult :=
  GraderResult_post_init {|
    gr_grader_id := gb_grader_id self; gr_grader_version := gb_grader_version self;
    gr_kind := gb_kind self; gr_state := state; gr_reason := reason;
    gr_criticality := gb_criticality self; gr_evidence_ref := evidence_ref;
    gr_evidence_sha256 := evidence_sha256; gr_error_detail := error_detail;
    gr_grader_family := gb_grader_family self; gr_judge_model_id := judge_model_id;
    gr_rubric_id := rubric_id; gr_rubric_version := rubric_version;
    gr_rubric_sha256 := rubric_sha256; gr_adjudicator_identity := adjudicator_identity;
    gr_adjudicator_family := adjudicator_family; gr_adjudicated_at := adjudicated_at |}.

(* src: fleet_kernel/eval_plane/graders.py SemanticGrader *)
Record SemanticGrader := {
  sg_base : GraderBase;
  sg_judge_model_id : string;
  sg_rubric_id : string;
  sg_rubric_version : string;
  sg_rubric_sha256 : string;
}.

(* src: fleet_kernel/eval_plane/graders.py SemanticGrader.__init__ *)
Definition SemanticGrader_init (grader_id grader_version judge_model_id rubric_id rubric_version
    rubric_sha256 grader_family : string) : res SemanticGrader :=
  require nonblank judge_model_id && nonblank rubric_id && nonblank rubric_version
          && nonblank rubric_sha256
    else ValueError, "a semantic grader requires a pinned judge model and a versioned rubric" ;;
  let! base := Grader_init SEMANTIC grader_id grader_version ADVISORY
                 (str_or grader_family (model_family judge_model_id)) in
  Ok {| sg_base := base; sg_judge_model_id := judge_model_id; sg_rubric_id := rubric_id;
        sg_rubric_version := rubric_version; sg_rubric_sha256 := rubric_sha256 |}.

(** [judged] is what the abstract [judge] returns. *)
(* src: fleet_kernel/eval_plane/graders.py SemanticGrader.grade *)
Definition SemanticGrader_grade (self : SemanticGrader)
    (judged : res (ResultState * string * string * string)) : res GraderResult :=
  let! (state, reason, evidence_ref, evidence_sha256) := judged in
  Grader_result (sg_base self) state reason evidence_ref evidence_sha256 ""
    (sg_judge_model_id self) (sg_rubric_id self) (sg_rubric_version self) (sg_rubric_sha256 self)
    "" "" None.

(** A recorded adjudication: [None] is an absent key; the values that the code
    passes through [str] are strings. *)
Record Adjudication := {
  adj_state : option string;
  adj_reason : option string;
  adj_evidence_ref : option string;
  adj_evidence_sha256 : option string;
  adj_adjudicator_identity : option string;
  adj_adjudicator_family : option string;
  adj_adjudicated_at : option stamp;
}.

(** [ResultState(value)]. *)
Definition result_of_value (v : string) : option ResultState :=
  List.find (fun r => (result_value r =? v)%string) [PASS; FAIL; ERROR; INCONCLUSIVE].

(* src: fleet_kernel/eval_plane/graders.py HumanReviewGrader.grade *)
Definition HumanReviewGrader_grade (self : GraderBase) (adjudications : gmap string Adjudication)
    (case_id : string) : res GraderResult :=
  let result state reason ref sha detail ident family at_ :=
    Grader_result self state reason ref sha detail "" "" "" "" ident family at_ in
  match adjudications !! case_id with
  | None =>
      result INCONCLUSIVE ("no human adjudication recorded for case " +:+ repr case_id)
        "" "" "" "" "" None
  | Some record =>
      let adjudicator_identity := default "" (adj_adjudicator_identity record) in
      let adjudicated_at := adj_adjudicated_at record in
      if truthy adjudicator_identity && bool_decide (adjudicated_at = None) then
        result ERROR ("adjudication for case " +:+ repr case_id +:+ " names adjudicator "
                      +:+ repr adjudicator_identity +:+ " but records no adjudicated_at")
          "" "" "human adjudication record is missing adjudicated_at" "" "" None
      else
        match adj_state record with
        | None => Err (Exn KeyError "'state'")
        | Some value =>
            match result_of_value value with
            | None => Err (Exn ValueError (repr value +:+ " is not a valid ResultState"))
            | Some state =>
                match adj_reason record with
                | None => Err (Exn KeyError "'reason'")
                | Some reason =>
                    result state reason (default "" (adj_evidence_ref record))
                      (default "" (adj_evidence_sha256 record)) "" adjudicator_identity
                      (default "" (adj_adjudicator_family record)) adjudicated_at
                end
            end
        end
  end.

(** ** Untrusted objects *)

(** An exception object: its type's name, and its [str], which either is a
    text or raises another exception. *)
Inductive pyexc :=
  | ExcText (type_name text : string)
  | ExcRaises (type_name : string) (on_str : pyexc).

Inductive outcome (A : Type) := Val (a : A) | Raise (e : pyexc).
Arguments Val {A} a.
Arguments Raise {A} e.

Definition exc_type (e : pyexc) : string := match e with ExcText t _ | ExcRaises t _ => t end.
(** [f"{type(exc).__name__}: {exc}"]. *)
Definition show_exc (e : pyexc) : outcome string :=
  match e with ExcText t m => Val (t +:+ ": " +:+ m) | ExcRaises _ i => Raise i end.

Definition obind {A B} (m : outcome A) (k : A -> outcome B) : outcome B :=
  match m with Val a => k a | Raise e => Raise e end.
(** [try: m except Exception as exc: h exc]. *)
Definition catch {A} (m : outcome A) (h : pyexc -> outcome A) : outcome A :=
  match m with Val a => Val a | Raise e => h e end.
Notation "'do' x '<-' m ';;' k" := (obind m (fun x => k))
  (at level 10, x pattern, m at level 99, k at level 200) : py_scope.

(** What [isinstance] can find an object to be. *)
Inductive typed := IsKind (k : GraderKind) | IsCriticality (c : Criticality)
  | IsVerdict (r : GraderResult) | IsOther.

(** An object, as far as [run_grader] looks at it: its class, its truth value,
    its [str], its [repr] and its type's name, each of which may raise. *)
Record pyobj := {
  o_class : outcome typed;
  o_bool : outcome bool;
  o_str : outcome string;
  o_repr : outcome string;
  o_type_name : outcome string;
}.

(** [getattr(grader, name, default)]: a value, no such attribute (which
    includes any [AttributeError]), or another exception. *)
Inductive attribute := AttrValue (v : pyobj) | AttrMissing | AttrRaises (e : pyexc).

Record grader := {
  g_grader_id : attribute;
  g_grader_version : attribute;
  g_grader_family : attribute;
  g_kind : attribute;
  g_criticality : attribute;
  g_judge_model_id : attribute;
  g_rubric_id : attribute;
  g_rubric_version : attribute;
  g_rubric_sha256 : attribute;
  g_grade : outcome pyobj;
}.

(** ** [run_grader] *)

(** [_attr]: the faults recorded so far, and [None] for the default. *)
(* src: fleet_kernel/eval_plane/graders.py run_grader@19-26 *)
Definition attr_ (name : string) (a : attribute) (faults : list string)
    : outcome (list string * option pyobj) :=
  match a with
  | AttrValue v => Val (faults, Some v)
  | AttrMissing => Val (faults, None)
  | AttrRaises e =>
      do shown <- show_exc e ;;
      Val (faults ++ ["grader." +:+ name +:+ " is unreadable: " +:+ shown], None)
  end.

(** [_text]: [str(_attr(name, "") or default)]. A fault that [_attr] recorded
    stays recorded when the rest of the expression raises. *)
(* src: fleet_kernel/eval_plane/graders.py run_grader@28-33 *)
Definition text_ (name : string) (a : attribute) (dflt : string) (faults : list string)
    : outcome (list string * string) :=
  let handler (faults : list string) (e : pyexc) :=
    do shown <- show_exc e ;;
    Val (faults ++ ["grader." +:+ name +:+ " is unprintable: " +:+ shown], dflt) in
  match attr_ name a faults with
  | Raise e => handler faults e
  | Val (faults', None) => Val (faults', dflt)
  | Val (faults', Some v) =>
      catch (do b <- o_bool v ;; if b then do s <- o_str v ;; Val (faults', s) else Val (faults', dflt))
        (handler faults')
  end.

(** [repr(value)], [None] being the default [_attr] was given. *)
Definition repr_attr (v : option pyobj) : outcome string :=
  match v with None => Val "None" | Some v => o_repr v end.
Definition class_attr (v : option pyobj) : outcome typed :=
  match v with None => Val IsOther | Some v => o_class v end.

(* src: fleet_kernel/eval_plane/graders.py run_grader@39-44 *)
Definition kind_ (a : attribute) (faults : list string) : outcome (list string * GraderKind) :=
  do (faults, v) <- attr_ "kind" a faults ;;
  do cls <- class_attr v ;;
  match cls with
  | IsKind k => Val (faults, k)
  | _ => do shown <- repr_attr v ;;
         Val (faults ++ ["grader.kind is not a GraderKind (" +:+ shown +:+ "); graded as "
                         +:+ kind_value STRUCTURAL], STRUCTURAL)
  end.

(* src: fleet_kernel/eval_plane/graders.py run_grader@45-54 *)
Definition criticality_ (kind : GraderKind) (a : attribute) (faults : list string)
    : outcome (list string * Criticality) :=
  do (faults, v) <- attr_ "criticality" a faults ;;
  do cls <- class_attr v ;;
  do (faults, c) <- match cls with
    | IsCriticality c => Val (faults, c)
    | _ => do shown <- repr_attr v ;;
           Val (faults ++ ["grader.criticality is not a Criticality (" +:+ shown +:+ "); graded as "
                           +:+ criticality_value CRITICAL], CRITICAL)
    end ;;
  Val (faults, if bool_decide (kind = SEMANTIC) then ADVISORY else c).

(** The literal verdict of the last resort. *)
(* src: fleet_kernel/eval_plane/graders.py run_grader@73-86 *)
Definition last_resort (detail : string) (e : exn) : GraderResult := {|
  gr_grader_id := "unknown-grader"; gr_grader_version := "unknown"; gr_kind := STRUCTURAL;
  gr_state := ERROR; gr_reason := "grader did not produce a verdict"; gr_criticality := CRITICAL;
  gr_evidence_ref := ""; gr_evidence_sha256 := "";
  gr_error_detail := detail +:+ " [fallback verdict rebuilt after ValueError: " +:+ exn_msg e +:+ "]";
  gr_grader_family := DETERMINISTIC_FAMILY; gr_judge_model_id := ""; gr_rubric_id := "";
  gr_rubric_version := ""; gr_rubric_sha256 := ""; gr_adjudicator_identity := "";
  gr_adjudicator_family := ""; gr_adjudicated_at := None |}.

(** [_error]. The constructor only raises [ValueError]s with a plain text. *)
(* src: fleet_kernel/eval_plane/graders.py run_grader@56-72 *)
Definition error_ (g : grader) (grader_id grader_version family : string) (kind : GraderKind)
    (criticality : Criticality) (faults : list string) (detail : string) : outcome GraderResult :=
  let semantic_text name a dflt faults :=
    if bool_decide (kind = SEMANTIC) then text_ name a dflt faults else Val (faults, "") in
  do (faults, judge) <- semantic_text "judge_model_id" (g_judge_model_id g) "unknown-judge" faults ;;
  do (faults, rubric) <- semantic_text "rubric_id" (g_rubric_id g) "unknown-rubric" faults ;;
  do (faults, rubric_version) <- semantic_text "rubric_version" (g_rubric_version g) "unknown" faults ;;
  do (faults, rubric_sha) <- semantic_text "rubric_sha256" (g_rubric_sha256 g) "unknown-rubric-sha" faults ;;
  let detail := match faults with
    | [] => detail
    | _ => detail +:+ " [grader metadata invalid: " +:+ PyStr.join "; " faults +:+ "]"
    end in
  Val match GraderResult_post_init {|
        gr_grader_id := grader_id; gr_grader_version := grader_version; gr_kind := kind;
        gr_state := ERROR; gr_reason := "grader " +:+ grader_id +:+ " did not produce a verdict";
        gr_criticality := criticality; gr_evidence_ref := ""; gr_evidence_sha256 := "";
        gr_error_detail := detail; gr_grader_family := family; gr_judge_model_id := judge;
        gr_rubric_id := rubric; gr_rubric_version := rubric_version; gr_rubric_sha256 := rubric_sha;
        gr_adjudicator_identity := ""; gr_adjudicator_family := ""; gr_adjudicated_at := None |} with
      | Ok r => r
      | Err e => last_resort detail e
      end.

(* src: fleet_kernel/eval_plane/graders.py run_grader@88-96 *)
Definition describe_ (build : outcome string) (fallback : string) : string :=
  match build with
  | Val s => s
  | Raise e => fallback +:+ " (fault detail unrenderable: " +:+ exc_type e +:+ ")"
  end.

(* src: fleet_kernel/eval_plane/graders.py run_grader *)
Definition run_grader (g : grader) : outcome GraderResult :=
  do (faults, grader_id) <- text_ "grader_id" (g_grader_id g) "unknown-grader" [] ;;
  do (faults, grader_version) <- text_ "grader_version" (g_grader_version g) "unknown" faults ;;
  do (faults, family) <- text_ "grader_family" (g_grader_family g) DETERMINISTIC_FAMILY faults ;;
  do (faults, kind) <- kind_ (g_kind g) faults ;;
  do (faults, criticality) <- criticality_ kind (g_criticality g) faults ;;
  let error := error_ g grader_id grader_version family kind criticality faults in
  match g_grade g with
  | Raise e => error (describe_ (do s <- show_exc e ;; Val ("grader raised an exception: " +:+ s))
                        "grader raised an exception")
  | Val result =>
      match o_class result with
      | Raise e => error (describe_ (do s <- show_exc e ;;
                            Val ("grader returned an uninspectable result (" +:+ s +:+ ")"))
                            "grader returned an uninspectable result")
      | Val (IsVerdict r) => Val r
      | Val _ => error (describe_ (do n <- o_type_name result ;;
                          Val ("grader returned " +:+ n +:+ ", not a GraderResult"))
                          "grader returned something that is not a GraderResult")
      end
  end.

(* src: fleet_kernel/eval_plane/graders.py run_graders *)
Fixpoint run_graders (gs : list grader) : outcome (list GraderResult) :=
  match gs with
  | [] => Val []
  | g :: rest => do r <- run_grader g ;; do rs <- run_graders rest ;; Val (r :: rs)
  end.

(** ** What a constructed verdict satisfies *)

Record valid_result (r : GraderResult) : Prop := {
  vr_id : nonblank (gr_grader_id r) = true /\ nonblank (gr_grader_version r) = true;
  vr_reason : nonblank (gr_reason r) = true;
  vr_family : nonblank (gr_grader_family r) = true;
  vr_error : nonblank (gr_error_detail r) = true <-> gr_state r = ERROR;
  vr_digest : nonblank (gr_evidence_sha256 r) = true -> hex64_dollar (gr_evidence_sha256 r) = true;
  vr_evidence : nonblank (gr_evidence_ref r) = nonblank (gr_evidence_sha256 r);
  vr_graded : gr_state r = PASS \/ gr_state r = FAIL -> nonblank (gr_evidence_ref r) = true;
  vr_semantic : gr_kind r = SEMANTIC ->
    gr_criticality r = ADVISORY /\ nonblank (gr_judge_model_id r) = true /\
    nonblank (gr_rubric_id r) = true /\ nonblank (gr_rubric_version r) = true /\
    nonblank (gr_rubric_sha256 r) = true;
  vr_human : gr_kind r = HUMAN -> gr_state r = PASS \/ gr_state r = FAIL ->
    nonblank (gr_adjudicator_identity r) = true;
  vr_adjudicated : match gr_adjudicated_at r with
    | None => nonblank (gr_adjudicator_identity r) = false
    | Some s => is_datetime s = true /\ nonblank (gr_adjudicator_identity r) = true
    end;
}.

Lemma post_init_ok r r' : GraderResult_post_init r = Ok r' <-> r' = r /\ valid_result r.
Proof.
  unfold GraderResult_post_init. guards. rewrite Ok_inj. bools. rewrite eqb_true_iff. split.
  - intros (HI & HR & HF & HE1 & HE2 & HD & HEv & HG & HS1 & HS2 & HH & HB & HA1 & HA2 & <-).
    split; [done|]. split; try tauto.
    + split; [|auto]. intros Hn. destruct (gr_state r); try done; by rewrite HE2 in Hn.
    + intros Hk Hs. destruct Hs as [Hs|Hs]; apply HH; split_and!; congruence.
    + destruct (gr_adjudicated_at r) as [s|]; bools in HB.
      * split; [done|]. destruct (nonblank (gr_adjudicator_identity r)); [done|]. by specialize (HA2 eq_refl).
      * destruct (nonblank (gr_adjudicator_identity r)); [|done]. by destruct (HA1 eq_refl).
  - intros (-> & [HI HR HF HE HD HEv HG HS HH HA]). split_and!; try tauto.
    + intros Hs. destruct (nonblank (gr_error_detail r)); tauto.
    + intros (Hk & Hs). apply HH; [done|]. destruct (gr_state r); tauto.
    + destruct (gr_adjudicated_at r) as [s|]; [|done]. destruct HA as [-> _]. done.
    + intros Hn. destruct (gr_adjudicated_at r); [done|congruence].
    + intros Hn. destruct (gr_adjudicated_at r); [|done]. destruct HA. congruence.
Qed.

(** The bridge to the persisted row loses nothing else: a constructed verdict
    is recordable for a subject exactly when its grader (unless semantic) and
    its adjudicator are of other families than the subject, and its digest is
    empty or 64 hex digits with nothing after them. *)
Theorem bridge_accepts_iff r r0 tenant attempt subject id now
    (Hr : GraderResult_post_init r = Ok r0) (Ht : nonblank tenant = true) :
  is_ok (to_domain_result r tenant attempt subject id now) = true <->
  (gr_kind r <> SEMANTIC -> gr_grader_family r <> subject) /\
  (gr_adjudicator_identity r <> "" -> gr_adjudicator_family r <> subject) /\
  (gr_evidence_sha256 r = "" \/ hex64 (gr_evidence_sha256 r) = true).
Proof.
  apply post_init_ok in Hr as [_ [HI HR HF HE HD HEv HG HS HH HA]].
  unfold to_domain_result. rewrite Ht.
  match goal with |- is_ok (GraderResult_validate ?row) = _ <-> _ => set (g := row) end.
  assert (is_ok (GraderResult_validate g) = true <-> valid_grade g) as ->.
  { rewrite <- GraderResult_validate_ok. split; [|by intros ->].
    destruct (GraderResult_validate g) as [g'|] eqn:E; [|done]. intros _. f_equal.
    unfold GraderResult_validate in E. rewrite require_tenant_ok in E. guards in E.
    destruct_and! E. naive_solver. }
  assert (Hsha : forall s, or_None s = if truthy s then Some s else None) by done.
  split.
  - intros [_ VI VJ _ _ _ _ _ VE]. simpl in *. split_and!; [|done|].
    + intros Hk. apply VI; [|done]. intros E. by rewrite E in HF.
    + rewrite Hsha in VE. destruct (gr_evidence_sha256 r); [by left|right; by destruct VE].
  - intros (C1 & C2 & C3). split; simpl; auto.
    + intros Hk. destruct (HS Hk) as (? & ? & ? & ? & Hx). split_and!; auto.
      rewrite Hsha. apply nonblank_truthy in Hx. rewrite Hx. done.
    + tauto.
    + intros Hs. specialize (HG Hs). rewrite HEv in HG. apply nonblank_truthy in HG.
      rewrite Hsha, HG. done.
    + rewrite Hsha. destruct C3 as [E|Hx]; [by rewrite HEv, E|].
      pose proof (hex64_nonblank _ Hx) as Hn. rewrite (nonblank_truthy _ Hn), HEv. done.
Qed.

(** ** [run_grader] is fail-closed *)

Lemma obind_val {A B} (m : outcome A) (k : A -> outcome B) b :
  obind m k = Val b <-> exists a, m = Val a /\ k a = Val b.
Proof. destruct m; simpl; naive_solver. Qed.

Lemma last_resort_valid detail e : valid_result (last_resort detail e).
Proof.
  split; simpl; try done; try (by intros [? | ?]).
  split; [done|]. intros _. rewrite !nonblank_app. simpl. by rewrite orb_true_r.
Qed.

Lemma error_val g id version family kind crit faults detail r :
  error_ g id version family kind crit faults detail = Val r -> gr_state r = ERROR /\ valid_result r.
Proof.
  unfold error_. cbv zeta.
  intros ([f1 ?] & _ & ([f2 ?] & _ & ([f3 ?] & _ & ([f4 ?] & _ & E)%obind_val)%obind_val)%obind_val)%obind_val.
  injection E as <-. destruct (GraderResult_post_init _) as [r|e] eqn:P.
  - apply post_init_ok in P as [-> HV]. done.
  - split; [done|apply last_resort_valid].
Qed.

(** The grader's [grade] returned this very verdict. *)
Definition graded_as (g : grader) (r : GraderResult) : Prop :=
  exists o, g_grade g = Val o /\ o_class o = Val (IsVerdict r).

(** C5: No grader failure is a silent pass: what [run_grader] returns is either
    the verdict the grader itself constructed, or, when there is none, a
    well-formed ERROR. *)
Theorem run_grader_fail_closed g r (H : run_grader g = Val r) :
  graded_as g r \/ (~ (exists r0, graded_as g r0) /\ gr_state r = ERROR /\ valid_result r).
Proof.
  unfold run_grader in H.
  apply obind_val in H as ([f1 id] & _ & H). apply obind_val in H as ([f2 ver] & _ & H).
  apply obind_val in H as ([f3 fam] & _ & H). apply obind_val in H as ([f4 kind] & _ & H).
  apply obind_val in H as ([f5 crit] & _ & H). cbv zeta in H. unfold graded_as.
  destruct (g_grade g) as [o|e].
  2: { right. split; [naive_solver|]. by eapply error_val. }
  destruct (o_class o) as [[k|c|v|]|e] eqn:Ho.
  3: { left. injection H as <-. eauto. }
  all: right; split; [intros (r0 & o' & [= <-] & E); congruence|]; by eapply error_val.
Qed.

(** *** Totality *)

Definition printable (e : pyexc) : Prop := exists s, show_exc e = Val s.

(** The reads of a text attribute raise, at worst, exceptions that can be
    printed, or exceptions whose failure to print can be printed. *)
Definition text_safe (a : attribute) : Prop :=
  match a with
  | AttrMissing => True
  | AttrRaises (ExcText _ _) => True
  | AttrRaises (ExcRaises _ i) => printable i
  | AttrValue v => (forall e, o_bool v = Raise e -> printable e) /\ (forall e, o_str v = Raise e -> printable e)
  end.

(** The reads of a typed attribute raise, at worst, printable exceptions, and
    a value can be inspected and represented. *)
Definition typed_safe (a : attribute) : Prop :=
  match a with
  | AttrMissing => True
  | AttrRaises e => printable e
  | AttrValue v => (exists c, o_class v = Val c) /\ (exists s, o_repr v = Val s)
  end.

Lemma text_total name a dflt faults : text_safe a -> exists p, text_ name a dflt faults = Val p.
Proof.
  unfold text_safe, text_. destruct a as [v| |[t m|t i]]; simpl; eauto.
  - intros [HB HS]. destruct (o_bool v) as [[]|e] eqn:B; simpl; eauto.
    + destruct (o_str v) as [s|e] eqn:E; simpl; [eauto|].
      destruct (HS e eq_refl) as [x ->]. simpl. eauto.
    + destruct (HB e eq_refl) as [x ->]. simpl. eauto.
  - intros [x ->]. simpl. eauto.
Qed.

Lemma kind_total a faults : typed_safe a -> exists p, kind_ a faults = Val p.
Proof.
  unfold kind_. destruct a as [v| |e]; simpl; eauto.
  - intros [[c ->] [s ->]]. destruct c; simpl; eauto.
  - intros [s ->]. simpl. eauto.
Qed.

Lemma criticality_total k a faults : typed_safe a -> exists p, criticality_ k a faults = Val p.
Proof.
  unfold criticality_. destruct a as [v| |e]; simpl; eauto.
  - intros [[c ->] [s ->]]. destruct c; simpl; eauto.
  - intros [s ->]. simpl. eauto.
Qed.

(** The metadata of a grader is readable in the sense of [text_safe] and
    [typed_safe]; its [grade] is not restricted. *)
Record readable (g : grader) : Prop := {
  rd_text : Forall text_safe [g_grader_id g; g_grader_version g; g_grader_family g;
    g_judge_model_id g; g_rubric_id g; g_rubric_version g; g_rubric_sha256 g];
  rd_typed : Forall typed_safe [g_kind g; g_criticality g];
}.

Ltac step_val H := let p := fresh "p" in let E := fresh "E" in
  destruct H as [[?faults ?p] E]; [done|]; rewrite E; cbn [obind]; clear E.

Lemma error_total g id version family kind crit faults detail :
  readable g -> exists r, error_ g id version family kind crit faults detail = Val r.
Proof.
  intros [HT _]. repeat rewrite Forall_cons in HT. destruct HT as (_ & _ & _ & H4 & H5 & H6 & H7 & _).
  unfold error_. cbv zeta. case_bool_decide; [|cbn [obind]; eauto].
  step_val (text_total "judge_model_id" (g_judge_model_id g) "unknown-judge" faults).
  step_val (text_total "rubric_id" (g_rubric_id g) "unknown-rubric" faults0).
  step_val (text_total "rubric_version" (g_rubric_version g) "unknown" faults1).
  step_val (text_total "rubric_sha256" (g_rubric_sha256 g) "unknown-rubric-sha" faults2).
  eauto.
Qed.

(** C6: With readable metadata [run_grader] always returns a verdict, however the
    grader's [grade] fails: it raises, returns something that is not a verdict,
    or something that cannot even be inspected or named. *)
Theorem run_grader_total g (H : readable g) : exists r, run_grader g = Val r.
Proof.
  assert (HE := fun id v f k c fs d => error_total g id v f k c fs d H). destruct H as [HT HY]. repeat rewrite Forall_cons in HT.
  repeat rewrite Forall_cons in HY. destruct HT as (H1 & H2 & H3 & ?), HY as (K1 & K2 & _).
  unfold run_grader.
  step_val (text_total "grader_id" (g_grader_id g) "unknown-grader" []).
  step_val (text_total "grader_version" (g_grader_version g) "unknown" faults).
  step_val (text_total "grader_family" (g_grader_family g) DETERMINISTIC_FAMILY faults0).
  step_val (kind_total (g_kind g) faults1).
  step_val (criticality_total p2 (g_criticality g) faults2).
  cbv zeta.
  destruct (g_grade g) as [o|e]; [|apply HE].
  destruct (o_class o) as [[k|c|v|]|e]; try apply HE. eauto.
Qed.

Lemma result_of_value_ok v s : result_of_value v = Some s -> result_value s = v.
Proof. unfold result_of_value. intros [_ H]%find_some. by apply String.eqb_eq. Qed.

(** A human verdict is an adjudicated one: a human-review grader returns PASS
    or FAIL only for a case whose recorded adjudication states that result, is
    sha256-bound, and names an adjudicator and a time; an unrecorded case is
    INCONCLUSIVE. *)
Theorem human_verdict_is_adjudicated self adjudications case_id r
    (HK : gb_kind self = HUMAN) (H : HumanReviewGrader_grade self adjudications case_id = Ok r) :
  (adjudications !! case_id = None -> gr_state r = INCONCLUSIVE) /\
  (gr_state r = PASS \/ gr_state r = FAIL ->
   exists record ident d, adjudications !! case_id = Some record /\
     adj_state record = Some (result_value (gr_state r)) /\
     nonblank (default "" (adj_evidence_ref record)) = true /\
     adj_adjudicator_identity record = Some ident /\ nonblank ident = true /\
     adj_adjudicated_at record = Some (StampTime d)).
Proof.
  unfold HumanReviewGrader_grade in H. split.
  - intros E. rewrite E in H. by apply post_init_ok in H as [-> _].
  - intros Hs. destruct (adjudications !! case_id) as [record|].
    2: { apply post_init_ok in H as [-> _]. simpl in Hs. naive_solver. }
    exists record. destruct (truthy _ && _).
    { apply post_init_ok in H as [-> _]. simpl in Hs. naive_solver. }
    destruct (adj_state record) as [v|]; [|done].
    destruct (result_of_value v) as [s|] eqn:Hv; [|done]. apply result_of_value_ok in Hv as <-.
    destruct (adj_reason record) as [why|]; [|done].
    apply post_init_ok in H as [-> [_ _ _ _ _ _ HG _ HH HA]]. simpl in *.
    specialize (HG Hs). specialize (HH HK Hs).
    destruct (adj_adjudicator_identity record) as [ident|]; [|done]. simpl in HH.
    destruct (adj_adjudicated_at record) as [[d|n]|]; simpl in HA; [|naive_solver|congruence].
    by exists ident, d.
Qed.

(** ** Witnesses and counterexamples *)

Module GraderDemo.

Definition sha : string := "aaaaaaaaaaaaaaaaaaaaaaaaaaaaaaaaaaaaaaaaaaaaaaaaaaaaaaaaaaaaaaaa".

Definition verdict (digest : string) : GraderResult := {|
  gr_grader_id := "g"; gr_grader_version := "1"; gr_kind := STRUCTURAL; gr_state := PASS;
  gr_reason := "ok"; gr_criticality := CRITICAL; gr_evidence_ref := "ref";
  gr_evidence_sha256 := digest; gr_error_detail := ""; gr_grader_family := "deterministic";
  gr_judge_model_id := ""; gr_rubric_id := ""; gr_rubric_version := ""; gr_rubric_sha256 := "";
  gr_adjudicator_identity := ""; gr_adjudicator_family := ""; gr_adjudicated_at := None |}.

Definition str_obj (s : string) : pyobj := {|
  o_class := Val IsOther; o_bool := Val (truthy s); o_str := Val s; o_repr := Val (repr s);
  o_type_name := Val "str" |}.
Definition typed_obj (c : typed) : pyobj := {|
  o_class := Val c; o_bool := Val true; o_str := Val "?"; o_repr := Val "?"; o_type_name := Val "?" |}.

Definition grader_with (criticality : attribute) (grade : outcome pyobj) : grader := {|
  g_grader_id := AttrValue (str_obj "g"); g_grader_version := AttrValue (str_obj "1");
  g_grader_family := AttrMissing; g_kind := AttrValue (typed_obj (IsKind STRUCTURAL));
  g_criticality := criticality; g_judge_model_id := AttrMissing; g_rubric_id := AttrMissing;
  g_rubric_version := AttrMissing; g_rubric_sha256 := AttrMissing; g_grade := grade |}.

(** A [grade] that raises an exception whose [str] raises. *)
Definition raising : grader :=
  grader_with (AttrValue (str_obj "high")) (Raise (ExcRaises "Bad" (ExcText "RuntimeError" "no str"))).

Lemma raising_readable : readable raising.
Proof. split; repeat constructor; simpl; try done; eexists; reflexivity. Qed.

(** A [criticality] property that raises such an exception. *)
Definition hostile : grader :=
  grader_with (AttrRaises (ExcRaises "Bad" (ExcText "RuntimeError" "no str")))
    (Val (typed_obj (IsVerdict (verdict sha)))).

Definition human : GraderBase := {|
  gb_grader_id := "h"; gb_grader_version := "1"; gb_kind := HUMAN; gb_criticality := CRITICAL;
  gb_grader_family := "human" |}.
Definition record : Adjudication := {|
  adj_state := Some "pass"; adj_reason := Some "ok"; adj_evidence_ref := Some "ref";
  adj_evidence_sha256 := Some sha; adj_adjudicator_identity := Some "alice";
  adj_adjudicator_family := None; adj_adjudicated_at := Some (StampTime (DT 0 (Some 0))) |}.
Definition human_result : GraderResult :=
  match HumanReviewGrader_grade human {[ "c1" := record ]} "c1" with Ok r => r | Err _ => verdict sha end.

Lemma human_run : HumanReviewGrader_grade human {[ "c1" := record ]} "c1" = Ok human_result.
Proof. vm_compute. reflexivity. Qed.

End GraderDemo.

(** [run_grader] is not total: metadata whose reading raises an exception that
    cannot be printed escapes [_attr], although [grade] returns a valid PASS
    and the docstring extends totality to the metadata. *)
Theorem run_grader_not_total :
  graded_as GraderDemo.hostile (GraderDemo.verdict GraderDemo.sha) /\
  run_grader GraderDemo.hostile = Raise (ExcText "RuntimeError" "no str").
Proof. split; [eexists; split; reflexivity|reflexivity]. Qed.

(** The two layers disagree on a digest that ends in a newline: [re.match]
    with [$] constructs the verdict, [fullmatch] refuses to persist it. *)
Theorem newline_digest_not_recordable :
  let r := GraderDemo.verdict (GraderDemo.sha +:+ of_chars [newline]) in
  GraderResult_post_init r = Ok r /\
  exists e, to_domain_result r "acme" 1%N "anthropic" 2%N (DT 0 (Some 0)) = Err e.
Proof. split; [reflexivity|]. eexists. vm_compute. reflexivity. Qed.

Lemma bridge_accepts_iff_witness :
  is_ok (to_domain_result (GraderDemo.verdict GraderDemo.sha) "acme" 1%N "anthropic" 2%N
    (DT 0 (Some 0))) = true.
Proof.
  apply (bridge_accepts_iff _ (GraderDemo.verdict GraderDemo.sha)); [reflexivity|reflexivity|].
  split_and!; [done|done|right; reflexivity].
Defined.

Lemma run_grader_fail_closed_witness :
  exists r, run_grader GraderDemo.raising = Val r /\ gr_state r = ERROR.
Proof.
  destruct (run_grader GraderDemo.raising) as [r|] eqn:E; [|vm_compute in E; discriminate].
  exists r. split; [done|].
  destruct (run_grader_fail_closed _ _ E) as [(o & Ho & _)|(_ & Hs & _)]; [discriminate|done].
Defined.

Lemma run_grader_total_witness : exists r, run_grader GraderDemo.raising = Val r.
Proof. apply (run_grader_total GraderDemo.raising), GraderDemo.raising_readable. Defined.

Lemma human_verdict_is_adjudicated_witness :
  exists record ident d, ({[ "c1" := GraderDemo.record ]} : gmap string Adjudication) !! "c1" = Some record /\
    adj_adjudicator_identity record = Some ident /\ adj_adjudicated_at record = Some (StampTime d).
Proof.
  destruct (proj2 (human_verdict_is_adjudicated GraderDemo.human {[ "c1" := GraderDemo.record ]} "c1"
    GraderDemo.human_result eq_refl GraderDemo.human_run)) as (rec & i & d & ? & _ & _ & ? & _ & ?).
  - left. vm_compute. reflexivity.
  - eauto 10.
Defined.
