(* ===== verification/Qualification.v ===== *)
(** * Qualification ([fleet_kernel/eval_plane/qualification.py])

    From an aggregate outcome to a release-facing qualification: waivers,
    baseline comparison, the derived state, the content-bound receipt, the
    bridge to the persisted record of [EvalDomain], and staleness. *)
From S2P Require Import Prelude PyStr PyFloat PyTime Json Sha256 EvalDomain EffectControl Graders Aggregate.
From stdpp Require Import base gmap strings list.
From Stdlib Require Import ZArith QArith Lia.

Local Open Scope Z_scope.

(* src: fleet_kernel/eval_plane/qualification.py ISSUABLE_STATES *)
Definition ISSUABLE_STATES : list QualificationState := QUALIFICATION_TRANSITIONS QPENDING ++ [QPENDING].

(* src: fleet_kernel/eval_plane/qualification.py _require_fingerprint *)
Definition require_fingerprint (value label : string) : res unit :=
  require hex64_dollar value
    else ValueError, (label +:+ " must be a 64-character lowercase sha256 hex digest") ;;
  Ok tt.

(** The argument is a [datetime]. *)
(* src: fleet_kernel/eval_plane/qualification.py _require_aware *)
Definition require_aware (value : datetime) (label : string) : res unit :=
  require aware value else ValueError, (label +:+ " must be a timezone-aware datetime") ;;
  Ok tt.

(* src: fleet_kernel/eval_plane/qualification.py ExamIdentity *)
Record ExamIdentity := {
  ex_suite_id : string;
  ex_suite_version : string;
  ex_grader_versions : list (string * string);
  ex_rubric_versions : list (string * string);
  ex_thresholds : list (string * json);
  ex_attempt_policy_digest : string;
}.

(* src: fleet_kernel/eval_plane/qualification.py ExamIdentity.__post_init__ *)
Definition ExamIdentity_post_init (self : ExamIdentity) : res ExamIdentity :=
  require nonblank (ex_suite_id self) && nonblank (ex_suite_version self)
    else ValueError, "exam identity requires a non-blank suite id and version" ;;
  Ok self.

Definition str_obj (d : list (string * string)) : json := JObj (map (fun kv => (kv.1, JStr kv.2)) d).

Definition exam_payload (self : ExamIdentity) : json :=
  JObj [("suite_id", JStr (ex_suite_id self)); ("suite_version", JStr (ex_suite_version self));
        ("grader_versions", str_obj (ex_grader_versions self));
        ("rubric_versions", str_obj (ex_rubric_versions self));
        ("thresholds", JObj (ex_thresholds self));
        ("attempt_policy_digest", JStr (ex_attempt_policy_digest self))].

(* src: fleet_kernel/eval_plane/qualification.py ExamIdentity.digest *)
Definition exam_digest `{Digest} (self : ExamIdentity) : string := sha256_hex (exam_payload self).

(* src: fleet_kernel/eval_plane/qualification.py ExamIdentity.to_dict *)
Definition ExamIdentity_to_dict `{Digest} (self : ExamIdentity) : json :=
  JObj [("suite_id", JStr (ex_suite_id self)); ("suite_version", JStr (ex_suite_version self));
        ("grader_versions", str_obj (ex_grader_versions self));
        ("rubric_versions", str_obj (ex_rubric_versions self));
        ("thresholds", JObj (ex_thresholds self));
        ("attempt_policy_digest", JStr (ex_attempt_policy_digest self));
        ("exam_digest", JStr (exam_digest self))].

(** ** Waivers *)

(* src: fleet_kernel/eval_plane/qualification.py waiver_requirement_ref *)
Definition waiver_requirement_ref (waiver : EvalWaiver) : string :=
  requirement_ref (w_failed_suite_id waiver) (w_failed_case_id waiver) (w_failed_grader_id waiver).

(* src: fleet_kernel/eval_plane/qualification.py AppliedWaiver *)
Record AppliedWaiver := { aw_waiver : EvalWaiver; aw_finding : BlockingFinding }.

(* src: fleet_kernel/eval_plane/qualification.py RejectedWaiver *)
Record RejectedWaiver := { rw_waiver : EvalWaiver; rw_reason : string }.

(* src: fleet_kernel/eval_plane/qualification.py WaiverApplication *)
Record WaiverApplication := {
  wa_remaining : list BlockingFinding;
  wa_applied : list AppliedWaiver;
  wa_rejected : list RejectedWaiver;
}.

Section qualification.
  Context `{Digest} `{IsoTime}.
  (** [str(uuid)]. *)
  Variable uuid_str : uuid -> string.

(** [astimezone] of a naive datetime reads the local zone; the waivers'
    times are aware. *)
Definition utc_iso (d : datetime) : string := isoformat (to_utc d).

(* src: fleet_kernel/eval_plane/qualification.py AppliedWaiver.to_dict *)
Definition AppliedWaiver_to_dict (self : AppliedWaiver) : json :=
  let w := aw_waiver self in
  JObj [("waiver_id", JStr (uuid_str (row_id (w_row w))));
        ("requirement_ref", JStr (waiver_requirement_ref w));
        ("approver_identity", JStr (w_approver_identity w));
        ("founder_approval_id", JStr (uuid_str (w_founder_approval_id w)));
        ("rationale", JStr (w_rationale w)); ("evidence_ref", JStr (w_evidence_ref w));
        ("expires_at", match w_expires_at w with Some d => JStr (utc_iso d) | None => JNull end);
        ("release_bound_to", JStr (w_release_bound_to w));
        ("finding", BlockingFinding_to_dict (aw_finding self))].

(* src: fleet_kernel/eval_plane/qualification.py RejectedWaiver.to_dict *)
Definition RejectedWaiver_to_dict (self : RejectedWaiver) : json :=
  let w := rw_waiver self in
  JObj [("waiver_id", JStr (uuid_str (row_id (w_row w))));
        ("requirement_ref", JStr (waiver_requirement_ref w));
        ("approver_identity", JStr (w_approver_identity w)); ("reason", JStr (rw_reason self))].

(** [""] when the waiver is in force. *)
(* src: fleet_kernel/eval_plane/qualification.py _waiver_inactive_reason *)
Definition waiver_inactive_reason (waiver : EvalWaiver) (now : datetime) (release_id : string)
    : res string :=
  match w_expires_at waiver with
  | Some expires =>
      let! expired := dt_le expires now in
      Ok (if expired : bool then "expired at " +:+ utc_iso expires else "")
  | None =>
      Ok (if negb (nonblank release_id)
          then "release-bound to " +:+ repr (w_release_bound_to waiver)
               +:+ " but this qualification names no release"
          else if negb (w_release_bound_to waiver =? release_id)%string
          then "release-bound to " +:+ repr (w_release_bound_to waiver)
               +:+ ", not the release under qualification (" +:+ repr release_id +:+ ")"
          else "")
  end.

(** [rejection_reasons.setdefault(id, why)]. *)
Definition setdefault (reasons : gmap uuid string) (id : uuid) (why : string) : gmap uuid string :=
  match reasons !! id with Some _ => reasons | None => <[id := why]> reasons end.

(** The inner loop: the first waiver that covers the finding, if any. *)
(* src: fleet_kernel/eval_plane/qualification.py apply_waivers@25-46 *)
Fixpoint find_waiver (finding : BlockingFinding) (waivers : list EvalWaiver) (target_fingerprint : string)
    (now : datetime) (release_id : string) (reasons : gmap uuid string)
    : res (option EvalWaiver * gmap uuid string) :=
  match waivers with
  | [] => Ok (None, reasons)
  | waiver :: rest =>
      let continue reasons := find_waiver finding rest target_fingerprint now release_id reasons in
      let id := row_id (w_row waiver) in
      if negb (waiver_requirement_ref waiver =? bf_requirement_ref finding)%string then continue reasons
      else if negb (w_target_fingerprint waiver =? target_fingerprint)%string then
        continue (setdefault reasons id ("bound to target " +:+ repr (w_target_fingerprint waiver)
          +:+ " but this qualification is for " +:+ repr target_fingerprint))
      else
        let! inactive := waiver_inactive_reason waiver now release_id in
        if truthy inactive then continue (setdefault reasons id inactive)
        else if bf_authority_forbidden finding then
          continue (setdefault reasons id ("requirement " +:+ repr (bf_requirement_ref finding)
            +:+ " is forbidden by the runtime authority system " +:+ emdash
            +:+ " a waiver cannot authorize it"))
        else Ok (Some waiver, reasons)
  end.

Record wstate := {
  ws_remaining : list BlockingFinding;
  ws_applied : list AppliedWaiver;
  ws_used : list uuid;
  ws_reasons : gmap uuid string;
}.

Fixpoint waiver_loop (findings : list BlockingFinding) (waivers : list EvalWaiver)
    (target_fingerprint : string) (now : datetime) (release_id : string) (s : wstate) : res wstate :=
  match findings with
  | [] => Ok s
  | finding :: rest =>
      let! (matched, reasons) :=
        find_waiver finding waivers target_fingerprint now release_id (ws_reasons s) in
      waiver_loop rest waivers target_fingerprint now release_id
        match matched with
        | None => {| ws_remaining := ws_remaining s ++ [finding]; ws_applied := ws_applied s;
                     ws_used := ws_used s; ws_reasons := reasons |}
        | Some w => {| ws_remaining := ws_remaining s;
                       ws_applied := ws_applied s ++ [{| aw_waiver := w; aw_finding := finding |}];
                       ws_used := row_id (w_row w) :: ws_used s; ws_reasons := reasons |}
        end
  end.

(** [{waiver.id: waiver for waiver in waivers}], in insertion order. *)
Fixpoint by_id (waivers : list EvalWaiver) (acc : list (uuid * EvalWaiver)) : list (uuid * EvalWaiver) :=
  match waivers with
  | [] => acc
  | w :: rest =>
      let id := row_id (w_row w) in
      by_id rest (if existsb (fun kv => N.eqb kv.1 id) acc
                  then map (fun kv => if N.eqb kv.1 id then (id, w) else kv) acc
                  else acc ++ [(id, w)])
  end.

(* src: fleet_kernel/eval_plane/qualification.py apply_waivers *)
Definition apply_waivers (findings : list BlockingFinding) (waivers : list EvalWaiver)
    (target_fingerprint : string) (now : datetime) (release_id : string) : res WaiverApplication :=
  let! _ := require_fingerprint target_fingerprint "target_fingerprint" in
  let! _ := require_aware now "now" in
  let! s := waiver_loop findings waivers target_fingerprint now release_id
              {| ws_remaining := []; ws_applied := []; ws_used := []; ws_reasons := ∅ |} in
  let unused := List.filter (fun kv => negb (existsb (N.eqb kv.1) (ws_used s))) (by_id waivers []) in
  Ok {| wa_remaining := ws_remaining s; wa_applied := ws_applied s;
        wa_rejected := map (fun '(id, w) => {| rw_waiver := w;
          rw_reason := default ("no blocking finding matched requirement "
                                +:+ repr (waiver_requirement_ref w)) (ws_reasons s !! id) |}) unused |}.

(** ** The qualification *)

(** A baseline comparison: [material_regression] beside the JSON of the whole. *)
Record comparison := { cmp_json : json; cmp_material_regression : bool }.

(* src: fleet_kernel/eval_plane/qualification.py Qualification *)
Record Qualification := {
  ql_qualification_id : string;
  ql_target_fingerprint : string;
  ql_exam : ExamIdentity;
  ql_exam_digest : string;
  ql_aggregate : AggregateOutcome;
  ql_gate_mode : GateMode;
  ql_state : QualificationState;
  ql_reviewer_identity : string;
  ql_reviewer_family : string;
  ql_subject_family : string;
  ql_issued_at : datetime;
  ql_expires_at : datetime;
  ql_release_id : string;
  ql_remaining_findings : list BlockingFinding;
  ql_applied_waivers : list AppliedWaiver;
  ql_rejected_waivers : list RejectedWaiver;
  ql_baseline_comparison : comparison;
  ql_receipt_sha256 : string;
}.

(* src: fleet_kernel/eval_plane/qualification.py Qualification.__post_init__ *)
Definition Qualification_post_init (self : Qualification) : res Qualification :=
  require nonblank (ql_qualification_id self) else ValueError, "qualification requires an id" ;;
  let! _ := require_fingerprint (ql_target_fingerprint self) "target_fingerprint" in
  let! _ := require_fingerprint (ql_exam_digest self) "exam_digest" in
  require nonblank (ql_reviewer_identity self) && nonblank (ql_reviewer_family self)
          && nonblank (ql_subject_family self)
    else ValueError, "qualification requires a named reviewer, reviewer family, and subject family" ;;
  raise_if (ql_reviewer_family self =? ql_subject_family self)%string
    with ValueError, ("reviewer family " +:+ repr (ql_reviewer_family self)
      +:+ " equals the subject family " +:+ emdash
      +:+ " a same-family review is not independent verification") ;;
  let! _ := require_aware (ql_issued_at self) "issued_at" in
  let! _ := require_aware (ql_expires_at self) "expires_at" in
  let! late := dt_le (ql_expires_at self) (ql_issued_at self) in
  raise_if late with ValueError, "a qualification must expire after it is issued" ;;
  Ok self.

(* src: fleet_kernel/eval_plane/qualification.py compare_to_baseline *)
Definition compare_to_baseline (current : AggregateOutcome) (current_exam_digest : string)
    (baseline : option Qualification) : comparison :=
  let no_lists := [("regressions", JArr []); ("improvements", JArr []); ("material_regression", JBool false)] in
  match baseline with
  | None => {| cmp_material_regression := false;
      cmp_json := JObj ([("comparable", JBool false); ("reason", JStr "no qualified baseline")] ++ no_lists) |}
  | Some b =>
      if negb (ql_exam_digest b =? current_exam_digest)%string then
        {| cmp_material_regression := false;
           cmp_json := JObj ([("comparable", JBool false);
             ("reason", JStr "baseline was qualified under a different exam version");
             ("baseline_qualification_id", JStr (ql_qualification_id b));
             ("baseline_exam_digest", JStr (ql_exam_digest b))] ++ no_lists) |}
      else
        let judged := omap (fun case =>
          before ← outcome_case_state (ql_aggregate b) (cr_case_id case);
          Some (case, before, case_state case)) (ao_case_results current) in
        let entry '(case, before, after) extra :=
          JObj ([("case_id", JStr (cr_case_id case)); ("baseline_state", JStr (result_value before));
                 ("current_state", JStr (result_value after))] ++ extra) in
        let regressions := List.filter (fun '(_, before, after) =>
          bool_decide (before = PASS) && negb (bool_decide (after = PASS))) judged in
        let improvements := List.filter (fun '(_, before, after) =>
          negb (bool_decide (before = PASS)) && bool_decide (after = PASS)) judged in
        {| cmp_material_regression := negb (is_nil regressions);
           cmp_json := JObj [("comparable", JBool true);
             ("baseline_qualification_id", JStr (ql_qualification_id b));
             ("regressions", JArr (map (fun r =>
                 entry r [("criticality", JStr (criticality_value (cr_criticality r.1.1)))]) regressions));
             ("improvements", JArr (map (fun r => entry r []) improvements));
             ("material_regression", JBool (negb (is_nil regressions)))] |}
  end.

(* src: fleet_kernel/eval_plane/qualification.py _qualifying_refusal *)
Definition qualifying_refusal (c : counters) (inconclusive_policy : InconclusivePolicy)
    (reviewer_identity : string) : string :=
  if nonzero (cn_critical_failure_count c) || nonzero (cn_error_count c)
     || nonzero (cn_forbidden_effect_count c)
  then "critical failure, error, or forbidden effect on record"
  else if nonzero (cn_inconclusive_count c)
          && negb (bool_decide (inconclusive_policy = IncREVIEW) && nonblank reviewer_identity)
  then "unresolved inconclusive case"
  else "".

(* src: fleet_kernel/eval_plane/qualification.py Qualification.qualifying_refusal *)
Definition Qualification_refusal (self : Qualification) : string :=
  qualifying_refusal (outcome_counters (ql_aggregate self))
    (pol_inconclusive_policy (ao_policy (ql_aggregate self))) (ql_reviewer_identity self).

(* src: fleet_kernel/eval_plane/qualification.py Qualification.would_block_under_enforcement *)
Definition would_block_under_enforcement (self : Qualification) : bool :=
  negb (is_nil (ql_remaining_findings self)) || negb (is_nil (ql_applied_waivers self))
  || truthy (Qualification_refusal self).

(* src: fleet_kernel/eval_plane/qualification.py Qualification.receipt_payload *)
Definition receipt_payload (self : Qualification) : res json :=
  let! agg := AggregateOutcome_to_dict (ql_aggregate self) in
  Ok (JObj [
    ("qualification_id", JStr (ql_qualification_id self));
    ("target_fingerprint", JStr (ql_target_fingerprint self));
    ("exam", ExamIdentity_to_dict (ql_exam self)); ("exam_digest", JStr (ql_exam_digest self));
    ("aggregate", agg); ("gate_mode", JStr (gate_mode_value (ql_gate_mode self)));
    ("state", JStr (qual_state_value (ql_state self)));
    ("reviewer_identity", JStr (ql_reviewer_identity self));
    ("reviewer_family", JStr (ql_reviewer_family self));
    ("subject_family", JStr (ql_subject_family self)); ("release_id", JStr (ql_release_id self));
    ("issued_at", JStr (utc_iso (ql_issued_at self))); ("expires_at", JStr (utc_iso (ql_expires_at self)));
    ("remaining_findings", JArr (map BlockingFinding_to_dict (ql_remaining_findings self)));
    ("applied_waivers", JArr (map AppliedWaiver_to_dict (ql_applied_waivers self)));
    ("rejected_waivers", JArr (map RejectedWaiver_to_dict (ql_rejected_waivers self)));
    ("baseline_comparison", cmp_json (ql_baseline_comparison self));
    ("would_block_under_enforcement", JBool (would_block_under_enforcement self));
    ("qualifying_refusal", JStr (Qualification_refusal self));
    ("blocking_counters", counters_json (outcome_counters (ql_aggregate self)))]).

(* src: fleet_kernel/eval_plane/qualification.py Qualification.compute_receipt *)
Definition compute_receipt (self : Qualification) : res string :=
  let! payload := receipt_payload self in Ok (sha256_hex payload).

(* src: fleet_kernel/eval_plane/qualification.py _derive_state *)
Definition derive_state (gate_mode : GateMode) (c : counters) (inconclusive_policy : InconclusivePolicy)
    (reviewer_identity : string) (remaining : list BlockingFinding) (applied_waivers : list AppliedWaiver)
    (requires_human_review human_review_completed material_regression regression_acknowledged : bool)
    : QualificationState :=
  if negb (is_nil remaining) && bool_decide (gate_mode = GateBLOCKING) then QREJECTED
  else if negb (is_nil applied_waivers) then QREJECTED
  else if requires_human_review && negb human_review_completed then QPENDING
  else if material_regression && negb regression_acknowledged
          && (bool_decide (gate_mode = GateWARNING) || bool_decide (gate_mode = GateBLOCKING)) then QREJECTED
  else if truthy (qualifying_refusal c inconclusive_policy reviewer_identity) then QREJECTED
  else if bool_decide (gate_mode = GateBLOCKING) then QQUALIFIED else QADVISORY_QUALIFIED.

(** [replace(self, state=..., receipt_sha256=...)]. *)
Definition replace_state (q : Qualification) (s : QualificationState) (receipt : string) : Qualification := {|
  ql_qualification_id := ql_qualification_id q; ql_target_fingerprint := ql_target_fingerprint q;
  ql_exam := ql_exam q; ql_exam_digest := ql_exam_digest q; ql_aggregate := ql_aggregate q;
  ql_gate_mode := ql_gate_mode q; ql_state := s; ql_reviewer_identity := ql_reviewer_identity q;
  ql_reviewer_family := ql_reviewer_family q; ql_subject_family := ql_subject_family q;
  ql_issued_at := ql_issued_at q; ql_expires_at := ql_expires_at q; ql_release_id := ql_release_id q;
  ql_remaining_findings := ql_remaining_findings q; ql_applied_waivers := ql_applied_waivers q;
  ql_rejected_waivers := ql_rejected_waivers q; ql_baseline_comparison := ql_baseline_comparison q;
  ql_receipt_sha256 := receipt |}.

(* src: fleet_kernel/eval_plane/qualification.py issue_qualification *)
Definition issue_qualification (qualification_id target_fingerprint : string) (exam : ExamIdentity)
    (outcome : AggregateOutcome) (gate_mode : GateMode)
    (reviewer_identity reviewer_family subject_family : string) (issued_at expires_at : datetime)
    (waivers : list EvalWaiver) (baseline : option Qualification) (release_id : string)
    (human_review_completed regression_acknowledged : bool) : res Qualification :=
  let digest_ := exam_digest exam in
  let! application := apply_waivers (ao_findings outcome) waivers target_fingerprint issued_at release_id in
  let comparison := compare_to_baseline outcome digest_ baseline in
  let state := derive_state gate_mode (outcome_counters outcome)
    (pol_inconclusive_policy (ao_policy outcome)) reviewer_identity (wa_remaining application)
    (wa_applied application) (ao_requires_human_review outcome) human_review_completed
    (cmp_material_regression comparison) regression_acknowledged in
  let! qualification := Qualification_post_init {|
    ql_qualification_id := qualification_id; ql_target_fingerprint := target_fingerprint; ql_exam := exam;
    ql_exam_digest := digest_; ql_aggregate := outcome; ql_gate_mode := gate_mode; ql_state := state;
    ql_reviewer_identity := reviewer_identity; ql_reviewer_family := reviewer_family;
    ql_subject_family := subject_family; ql_issued_at := issued_at; ql_expires_at := expires_at;
    ql_release_id := release_id; ql_remaining_findings := wa_remaining application;
    ql_applied_waivers := wa_applied application; ql_rejected_waivers := wa_rejected application;
    ql_baseline_comparison := comparison; ql_receipt_sha256 := "" |} in
  let! receipt := compute_receipt qualification in
  Qualification_post_init (replace_state qualification state receipt).

(* src: fleet_kernel/eval_plane/qualification.py apply_waiver_to_rejected_qualification *)
Definition apply_waiver_to_rejected_qualification (qualification : Qualification) : res Qualification :=
  require bool_decide (ql_state qualification = QREJECTED)
    else ValueError, ("a waiver applies to a REJECTED qualification, not "
                      +:+ qual_state_value (ql_state qualification)) ;;
  raise_if is_nil (ql_applied_waivers qualification)
    with ValueError, "waiving a qualification requires at least one applied waiver" ;;
  require is_nil (ql_remaining_findings qualification)
    else ValueError, ("unwaived findings remain " +:+ emdash
      +:+ " every blocking finding must be covered before the qualification can move to WAIVED") ;;
  let! waived := Qualification_post_init
    (replace_state qualification QWAIVED (ql_receipt_sha256 qualification)) in
  let! receipt := compute_receipt waived in
  Qualification_post_init (replace_state waived QWAIVED receipt).

(** [new_id] and [now] are the defaults of the row's [id] and of a transition's
    clock. *)
(* src: fleet_kernel/eval_plane/qualification.py to_domain_qualification *)
Definition to_domain_qualification (qualification : Qualification) (tenant_id : string) (run_id : uuid)
    (snapshot_sha256 receipt_ref : string) (baseline_qualification_id : option uuid)
    (new_id : uuid) (now : datetime) : res EvalQualification :=
  require nonblank tenant_id else ValueError, "persisting a qualification requires its tenant scope" ;;
  let! _ := require_fingerprint snapshot_sha256 "snapshot_sha256" in
  let outcome := ql_aggregate qualification in
  let! cases := rmap (fun c => let! j := CaseResult_to_dict c in Ok (cr_case_id c, j)) (ao_case_results outcome) in
  let c := outcome_counters outcome in
  let! row := EvalQualification_post_init {|
    q_row := {| row_tenant_id := tenant_id; row_id := new_id; row_schema_version := 1 |};
    q_run_id := run_id; q_suite_id := ao_suite_id outcome; q_suite_version := ao_suite_version outcome;
    q_target_fingerprint := ql_target_fingerprint qualification; q_state := QPENDING;
    q_gate_mode := ql_gate_mode qualification;
    q_inconclusive_policy := pol_inconclusive_policy (ao_policy outcome);
    q_case_results := JObj (fold_left (fun d kv => dict_set kv.1 kv.2 d) cases []);
    q_aggregate_metrics := ao_metrics outcome;
    q_critical_failure_count := cn_critical_failure_count c; q_error_count := cn_error_count c;
    q_inconclusive_count := cn_inconclusive_count c;
    q_forbidden_effect_count := cn_forbidden_effect_count c;
    q_baseline_qualification_id := baseline_qualification_id;
    q_reviewer_identity := ql_reviewer_identity qualification;
    q_reviewer_family := ql_reviewer_family qualification;
    q_subject_family := ql_subject_family qualification; q_receipt_ref := receipt_ref;
    q_receipt_sha256 := or_None (ql_receipt_sha256 qualification); q_snapshot_sha256 := snapshot_sha256;
    q_expires_at := Some (ql_expires_at qualification); q_invalidated_at := None;
    q_invalidation_reason := ""; q_created_at := ql_issued_at qualification; q_decided_at := None |} in
  let! row :=
    if bool_decide (ql_state qualification = QWAIVED)
    then EvalQualification_transition now row QREJECTED (Some (ql_issued_at qualification)) ""
    else Ok row in
  if negb (bool_decide (ql_state qualification = QPENDING))
  then EvalQualification_transition now row (ql_state qualification) (Some (ql_issued_at qualification)) ""
  else Ok row.

(* src: fleet_kernel/eval_plane/qualification.py evaluate_staleness *)
Definition evaluate_staleness (qualification : Qualification) (current_target_fingerprint : string)
    (current_exam : ExamIdentity) (now : datetime) : res QualificationState :=
  let! _ := require_fingerprint current_target_fingerprint "current_target_fingerprint" in
  let! _ := require_aware now "now" in
  if negb (current_target_fingerprint =? ql_target_fingerprint qualification)%string then Ok QSTALE
  else if negb (exam_digest current_exam =? ql_exam_digest qualification)%string then Ok QSTALE
  else
    let! expired := dt_le (ql_expires_at qualification) now in
    Ok (if expired : bool then QEXPIRED else ql_state qualification).

(** ** Waivers clear only what they cover *)

(** [w] covers [f]: it names exactly this requirement and target, is in force,
    and [f] is not beyond waivers. *)
Definition covers (target now : _) (release : string) (w : EvalWaiver) (f : BlockingFinding) : Prop :=
  waiver_requirement_ref w = bf_requirement_ref f /\ w_target_fingerprint w = target /\
  waiver_inactive_reason w now release = Ok "" /\ bf_authority_forbidden f = false.

Lemma find_waiver_ok f waivers target now release reasons m reasons' :
  find_waiver f waivers target now release reasons = Ok (m, reasons') ->
  match m with
  | Some w => w ∈ waivers /\ covers target now release w f
  | None => forall w, w ∈ waivers -> ~ covers target now release w f
  end.
Proof.
  revert reasons. induction waivers as [|w ws IH]; intros reasons E; simpl in E.
  { injection E as <- _. set_solver. }
  assert (Hskip : ~ covers target now release w f ->
    forall rs, find_waiver f ws target now release rs = Ok (m, reasons') ->
    match m with
    | Some w' => w' ∈ w :: ws /\ covers target now release w' f
    | None => forall w', w' ∈ w :: ws -> ~ covers target now release w' f
    end).
  { intros Hn rs E'. apply IH in E'. destruct m as [w'|]; [set_solver|].
    intros w' [->|Hw]%elem_of_cons; [done|auto]. }
  unfold covers in Hskip at 1.
  destruct (String.eqb_spec (waiver_requirement_ref w) (bf_requirement_ref f)) as [E1|E1]; simpl in E.
  2: { apply (Hskip ltac:(tauto) _ E). }
  destruct (String.eqb_spec (w_target_fingerprint w) target) as [E2|E2]; simpl in E.
  2: { apply (Hskip ltac:(tauto) _ E). }
  apply rbind_ok in E as (inactive & Ei & E).
  destruct inactive as [|c s]; simpl in E.
  2: { apply (Hskip ltac:(rewrite Ei; naive_solver) _ E). }
  destruct (bf_authority_forbidden f) eqn:Ef.
  { apply (Hskip ltac:(naive_solver) _ E). }
  injection E as <- <-. split; [set_solver|]. unfold covers. tauto.
Qed.

(** What the loop has done with the findings seen so far. *)
Record waived_so_far (waivers : list EvalWaiver) (target : string) (now : datetime) (release : string)
    (seen : list BlockingFinding) (s : wstate) : Prop := {
  wv_split : ws_remaining s ++ map aw_finding (ws_applied s) ≡ₚ seen;
  wv_order : ws_remaining s `sublist_of` seen;
  wv_remaining : Forall (fun f => forall w, w ∈ waivers -> ~ covers target now release w f) (ws_remaining s);
  wv_applied : Forall (fun a => aw_waiver a ∈ waivers /\ covers target now release (aw_waiver a) (aw_finding a))
                 (ws_applied s);
  wv_used : forall id, id ∈ ws_used s <-> exists a, a ∈ ws_applied s /\ row_id (w_row (aw_waiver a)) = id;
}.

Lemma waiver_loop_ok waivers target now release findings seen s s' :
  waiver_loop findings waivers target now release s = Ok s' ->
  waived_so_far waivers target now release seen s ->
  waived_so_far waivers target now release (seen ++ findings) s'.
Proof.
  revert seen s. induction findings as [|f fs IH]; intros seen s E HI; simpl in E.
  { injection E as <-. by rewrite app_nil_r. }
  apply rbind_ok in E as ([m reasons] & Ef & E). apply find_waiver_ok in Ef.
  replace (seen ++ f :: fs) with ((seen ++ [f]) ++ fs) by (by rewrite <- (assoc_L (++))).
  eapply IH; [exact E|]. destruct HI as [HS HO HR HA HU].
  destruct m as [w|]; split; simpl; auto.
  - rewrite map_app, (assoc_L (++)), HS. done.
  - by apply sublist_inserts_r.
  - apply Forall_app. split; [done|]. by constructor.
  - intros id. rewrite elem_of_cons, HU. setoid_rewrite elem_of_app. setoid_rewrite list_elem_of_singleton.
    split; [intros [->|(a & ? & ?)]; eauto|]. intros (a & [Ha| ->] & <-); eauto.
  - rewrite <- (assoc_L (++)), (Permutation_app_comm [f]), (assoc_L (++)), HS. done.
  - by apply sublist_app.
  - apply Forall_app. split; [done|]. by constructor.
Qed.

Lemma apply_waivers_inv findings waivers target now release wa :
  apply_waivers findings waivers target now release = Ok wa ->
  hex64_dollar target = true /\ aware now = true /\ exists s,
    waived_so_far waivers target now release findings s /\
    wa_remaining wa = ws_remaining s /\ wa_applied wa = ws_applied s /\
    map rw_waiver (wa_rejected wa) =
      map snd (List.filter (fun kv => negb (existsb (N.eqb kv.1) (ws_used s))) (by_id waivers [])).
Proof.
  unfold apply_waivers, require_fingerprint, require_aware.
  destruct (hex64_dollar target); [|done]. destruct (aware now); [|done]. simpl.
  intros (s & Hs & [= <-])%rbind_ok. split_and!; [done..|]. exists s. split_and!; [|done..|].
  - eapply (waiver_loop_ok _ _ _ _ _ []) in Hs; [exact Hs|]. split; simpl; auto.
    intros id. split; [set_solver|]. intros (a & Ha & _). set_solver.
  - simpl. rewrite map_map. apply map_ext. by intros [id w].
Qed.

Lemma by_id_ids waivers acc kv :
  kv ∈ by_id waivers acc -> kv ∈ acc \/ exists w, w ∈ waivers /\ kv = (row_id (w_row w), w).
Proof.
  revert acc. induction waivers as [|w ws IH]; intros acc H1; simpl in H1; [auto|].
  apply IH in H1 as [Hk|(w' & Hw' & ->)]; [|right; exists w'; set_solver].
  revert Hk. case_match; intros Hk.
  - apply list_elem_of_In, in_map_iff in Hk as (kv' & <- & Hk%list_elem_of_In).
    destruct (N.eqb _ _); [right; exists w; set_solver|auto].
  - apply elem_of_app in Hk as [Hk|Hk%list_elem_of_singleton]; [auto|]. right. exists w. set_solver.
Qed.

(** Waivers clear exactly what they cover: the findings split, none lost, into
    the remaining ones (in order, none covered by any waiver) and those each
    covered by its applied waiver, which names that requirement and target and
    is in force; an authority-forbidden finding always remains; and a waiver
    reported as rejected was applied to nothing. *)
Theorem waivers_clear_only_covered findings waivers target now release wa
    (HW : apply_waivers findings waivers target now release = Ok wa) :
  wa_remaining wa ++ map aw_finding (wa_applied wa) ≡ₚ findings /\
  wa_remaining wa `sublist_of` findings /\
  (forall f, f ∈ wa_remaining wa -> forall w, w ∈ waivers -> ~ covers target now release w f) /\
  (forall a, a ∈ wa_applied wa -> aw_waiver a ∈ waivers /\ covers target now release (aw_waiver a) (aw_finding a)) /\
  (forall f, f ∈ findings -> bf_authority_forbidden f = true -> f ∈ wa_remaining wa) /\
  (forall r a, r ∈ wa_rejected wa -> a ∈ wa_applied wa ->
     row_id (w_row (rw_waiver r)) <> row_id (w_row (aw_waiver a))).
Proof.
  apply apply_waivers_inv in HW as (_ & _ & s & [HS HO HR HA HU] & -> & -> & HJ).
  rewrite Forall_forall in HR. rewrite Forall_forall in HA. split_and!; auto.
  - intros f Hf Hforb. rewrite <- HS in Hf. apply elem_of_app in Hf as [Hf|Hf]; [done|].
    apply list_elem_of_In, in_map_iff in Hf as (a & <- & Ha%list_elem_of_In).
    destruct (HA a Ha) as (_ & _ & _ & _ & Hn). congruence.
  - intros r a Hr Ha E.
    assert (rw_waiver r ∈ map rw_waiver (wa_rejected wa)) as Hin.
    { apply list_elem_of_In, in_map, list_elem_of_In. done. }
    rewrite HJ in Hin. apply list_elem_of_In, in_map_iff in Hin as ([id w] & Ew & Hf).
    apply filter_In in Hf as [Hk Hn]. simpl in *. subst w.
    apply list_elem_of_In, by_id_ids in Hk as [Hk|(w & _ & [= -> <-])]; [set_solver|].
    apply negb_true_iff, not_true_iff_false in Hn. apply Hn, existsb_exists.
    eexists. split; [|apply N.eqb_refl]. apply list_elem_of_In, HU. eauto.
Qed.

(** ** Issued states *)

Lemma refusal_spec c pol reviewer :
  qualifying_refusal c pol reviewer = "" <->
  cn_critical_failure_count c = 0 /\ cn_error_count c = 0 /\ cn_forbidden_effect_count c = 0 /\
  (cn_inconclusive_count c <> 0 -> pol = IncREVIEW /\ nonblank reviewer = true).
Proof.
  unfold qualifying_refusal.
  destruct (nonzero (cn_critical_failure_count c)) eqn:N1; simpl;
    [split; [done|]; intros (E & _); by rewrite E in N1|].
  destruct (nonzero (cn_error_count c)) eqn:N2; simpl;
    [split; [done|]; intros (_ & E & _); by rewrite E in N2|].
  destruct (nonzero (cn_forbidden_effect_count c)) eqn:N3; simpl;
    [split; [done|]; intros (_ & _ & E & _); by rewrite E in N3|].
  rewrite nonzero_false in N1, N2, N3.
  destruct (nonzero (cn_inconclusive_count c)) eqn:N4; simpl.
  - destruct (bool_decide (pol = IncREVIEW)) eqn:B, (nonblank reviewer); simpl;
      rewrite ?bool_decide_eq_true, ?bool_decide_eq_false in B; split; try done; try tauto;
      intros (_ & _ & _ & HI); destruct HI as [? ?]; try done; intros E; by rewrite E in N4.
  - rewrite nonzero_false in N4. tauto.
Qed.

Lemma truthy_false s : truthy s = false <-> s = "".
Proof. apply truthy_nil. Qed.

(** What each derived state rests on. *)
Lemma derive_state_spec gate c pol reviewer remaining applied review done_ regress ack s :
  derive_state gate c pol reviewer remaining applied review done_ regress ack = s ->
  s ∈ [QREJECTED; QPENDING; QQUALIFIED; QADVISORY_QUALIFIED] /\
  (s = QQUALIFIED \/ s = QADVISORY_QUALIFIED ->
    qualifying_refusal c pol reviewer = "" /\ applied = [] /\ (review = true -> done_ = true) /\
    (s = QQUALIFIED <-> gate = GateBLOCKING) /\ (gate = GateBLOCKING -> remaining = []) /\
    (regress = true -> ack = true \/ gate = GateADVISORY)).
Proof.
  unfold derive_state. intros <-.
  destruct (negb (is_nil remaining) && bool_decide (gate = GateBLOCKING)) eqn:B1.
  { split; [set_solver|by intros [?|?]]. }
  destruct (negb (is_nil applied)) eqn:B2; [split; [set_solver|by intros [?|?]]|].
  destruct (review && negb done_) eqn:B3; [split; [set_solver|by intros [?|?]]|].
  destruct (regress && negb ack && _) eqn:B4; [split; [set_solver|by intros [?|?]]|].
  destruct (truthy _) eqn:B5; [split; [set_solver|by intros [?|?]]|].
  rewrite truthy_false in B5. rewrite negb_false_iff, is_nil_spec in B2.
  split; [apply list_elem_of_In; destruct (bool_decide (gate = GateBLOCKING)); simpl; auto|]. intros _. split_and!; auto.
  - intros ->. by destruct done_.
  - destruct (decide (gate = GateBLOCKING)) as [Hg|Hg];
      [rewrite (bool_decide_eq_true_2 _ Hg)|rewrite (bool_decide_eq_false_2 _ Hg)]; by split.
  - intros ->. rewrite bool_decide_eq_true_2, andb_true_r, negb_false_iff, is_nil_spec in B1 by done. done.
  - intros ->. destruct ack; [by left|right]. by destruct gate.
Qed.

Lemma post_init_id q q' : Qualification_post_init q = Ok q' -> q' = q /\ nonblank (ql_reviewer_identity q) = true /\
  ql_reviewer_family q <> ql_subject_family q /\ aware (ql_issued_at q) = true /\ aware (ql_expires_at q) = true /\
  instant (ql_issued_at q) < instant (ql_expires_at q).
Proof.
  unfold Qualification_post_init, require_fingerprint, require_aware.
  destruct (nonblank (ql_qualification_id q)); [|done].
  destruct (hex64_dollar (ql_target_fingerprint q)); [|done].
  destruct (hex64_dollar (ql_exam_digest q)); [|done]. simpl.
  destruct (nonblank (ql_reviewer_identity q)); [|done].
  destruct (nonblank (ql_reviewer_family q)), (nonblank (ql_subject_family q)); try done. simpl.
  destruct (String.eqb_spec (ql_reviewer_family q) (ql_subject_family q)); [done|].
  destruct (aware (ql_issued_at q)) eqn:A1; [|done]. destruct (aware (ql_expires_at q)) eqn:A2; [|done]. simpl.
  rewrite dt_le_utc by done. simpl. destruct (Z.leb_spec (instant (ql_expires_at q)) (instant (ql_issued_at q))); [done|].
  intros [= <-]. split_and!; done.
Qed.

Lemma issue_inv id target exam o gate rid rfam sfam issued expires waivers baseline release hr ack q :
  issue_qualification id target exam o gate rid rfam sfam issued expires waivers baseline release hr ack = Ok q ->
  exists wa, apply_waivers (ao_findings o) waivers target issued release = Ok wa /\
    ql_remaining_findings q = wa_remaining wa /\ ql_applied_waivers q = wa_applied wa /\
    ql_aggregate q = o /\ ql_gate_mode q = gate /\ ql_exam_digest q = exam_digest exam /\
    ql_target_fingerprint q = target /\ ql_reviewer_identity q = rid /\
    ql_state q = derive_state gate (outcome_counters o) (pol_inconclusive_policy (ao_policy o)) rid
      (wa_remaining wa) (wa_applied wa) (ao_requires_human_review o) hr
      (cmp_material_regression (compare_to_baseline o (exam_digest exam) baseline)) ack /\
    Qualification_post_init q = Ok q /\ compute_receipt q = Ok (ql_receipt_sha256 q).
Proof.
  unfold issue_qualification. cbv zeta. intros (wa & HW & E)%rbind_ok. exists wa.
  apply rbind_ok in E as (q0 & P0 & E). pose proof (post_init_id _ _ P0) as [-> _].
  apply rbind_ok in E as (receipt & HC & P1). pose proof (post_init_id _ _ P1) as [-> _].
  split_and!; done.
Qed.

(** C7: A QUALIFIED verdict is earned: it is issued only under a blocking gate, by
    a reviewer of another family than the subject, for an outcome with no
    finding at all and no waiver, with its human review completed if one was
    required and no unacknowledged regression. *)
Theorem qualified_is_earned id target exam o gate rid rfam sfam issued expires waivers baseline release hr ack q
    (HI : issue_qualification id target exam o gate rid rfam sfam issued expires waivers baseline release hr ack = Ok q)
    (HQ : ql_state q = QQUALIFIED) :
  gate = GateBLOCKING /\ qualifiable o = true /\ ql_applied_waivers q = [] /\
  ql_reviewer_family q <> ql_subject_family q /\
  (ao_requires_human_review o = true -> hr = true) /\
  (cmp_material_regression (compare_to_baseline o (exam_digest exam) baseline) = true -> ack = true) /\
  would_block_under_enforcement q = false.
Proof.
  apply issue_inv in HI as (wa & HW & Hr & Ha & Ho & Hg & _ & _ & Hid & HS & HP & _).
  pose proof (post_init_id _ _ HP) as (_ & _ & Hfam & _).
  rewrite HQ in HS. symmetry in HS. apply derive_state_spec in HS as [_ HS].
  destruct (HS (or_introl eq_refl)) as (HR & Happ & Hrev & Hgate & Hrem & Hreg).
  assert (gate = GateBLOCKING) as Hb by (by apply Hgate). specialize (Hrem Hb).
  apply waivers_clear_only_covered in HW as (HPm & _). rewrite Happ, Hrem in HPm. simpl in HPm.
  apply Permutation_nil_l in HPm.
  split_and!; [done|by unfold qualifiable; rewrite <- HPm|by rewrite Ha|done|done| |].
  - intros E. destruct (Hreg E) as [|Hadv]; [done|congruence].
  - unfold would_block_under_enforcement, Qualification_refusal. rewrite Hr, Ha, Hrem, Happ, Ho, Hid, HR. done.
Qed.

Lemma rmap_snd {A B C} (f : A -> res B) (g : A -> C) l ys :
  rmap f l = Ok ys -> exists zs, rmap (fun x => let! y := f x in Ok (g x, y)) l = Ok zs.
Proof.
  revert ys. induction l as [|x l IH]; intros ys; simpl; [eauto|].
  intros (y & -> & (ys' & Hl & _)%rbind_ok)%rbind_ok. destruct (IH _ Hl) as [zs Hz].
  simpl. rewrite Hz. simpl. eauto.
Qed.

Lemma receipt_cases q r : compute_receipt q = Ok r ->
  exists js, rmap CaseResult_to_dict (ao_case_results (ql_aggregate q)) = Ok js.
Proof.
  unfold compute_receipt, receipt_payload, AggregateOutcome_to_dict.
  intros (p & (agg & (cs & Hc & _)%rbind_ok & _)%rbind_ok & _)%rbind_ok. eauto.
Qed.

(** The states that [to_domain_qualification] can walk to, with what their
    last transition asks of the record. *)
Definition recordable_state (q : Qualification) : Prop :=
  ql_state q ∈ [QREJECTED; QPENDING; QWAIVED] \/
  (ql_state q ∈ QUALIFYING_STATES /\ Qualification_refusal q = "" /\
   (ql_state q = QQUALIFIED -> ql_gate_mode q = GateBLOCKING)).

Lemma to_domain_ok q tenant run snap ref base id now r :
  nonblank tenant = true -> hex64_dollar snap = true -> compute_receipt q = Ok r ->
  nonblank (ql_reviewer_identity q) = true -> recordable_state q ->
  exists row, to_domain_qualification q tenant run snap ref base id now = Ok row /\ q_state row = ql_state q.
Proof.
  intros Ht Hs [js Hj]%receipt_cases Hrev HR. unfold to_domain_qualification, require_fingerprint.
  unfold recordable_state, Qualification_refusal in HR. cbv zeta.
  set (c := outcome_counters (ql_aggregate q)) in *. clearbody c.
  rewrite Ht, Hs. simpl. destruct (rmap_snd _ (fun c => cr_case_id c) _ _ Hj) as [zs Hz]. rewrite Hz.
  simpl. unfold EvalQualification_post_init, require_tenant. simpl.
  rewrite truthy_strip, Ht. simpl.
  destruct HR as [HR|(HQ & HRf & HG)].
  - apply list_elem_of_In in HR. simpl in HR.
    destruct HR as [HR|[HR|[HR|[]]]]; rewrite <- HR; simpl; eexists; split; reflexivity.
  - apply refusal_spec in HRf as (C1 & C2 & C3 & C4).
    assert (Hrid : truthy (ql_reviewer_identity q) = true) by (by apply nonblank_truthy).
    assert (HI : nonzero (cn_inconclusive_count c) &&
      negb (bool_decide (pol_inconclusive_policy (ao_policy (ql_aggregate q)) = IncREVIEW)
            && truthy (ql_reviewer_identity q)) = false).
    { destruct (nonzero (cn_inconclusive_count c)) eqn:N; [|done]. simpl.
      destruct C4 as [-> _]; [intros E; by rewrite E in N|]. by rewrite Hrid. }
    unfold EvalQualification_transition. simpl.
    apply list_elem_of_In in HQ. destruct HQ as [HQ|[HQ|[]]]; rewrite <- HQ; simpl;
      rewrite C1, C2, C3, HI; simpl.
    + rewrite HG by done. simpl. eexists; split; reflexivity.
    + eexists; split; reflexivity.
Qed.

(** C8: Every issued qualification can be persisted: whatever state issuance
    derives is issuable, the record layer's own transitions accept it from
    PENDING without raising, and the receipt is the digest of the issued
    record; the same holds after a waived rejection, and only an entirely
    waived rejection becomes WAIVED. *)
Theorem issued_is_recordable id target exam o gate rid rfam sfam issued expires waivers baseline release hr ack q
    (HI : issue_qualification id target exam o gate rid rfam sfam issued expires waivers baseline release hr ack = Ok q)
    tenant run snap ref base rowid now
    (Ht : nonblank tenant = true) (Hs : hex64_dollar snap = true) :
  ql_state q ∈ ISSUABLE_STATES /\ compute_receipt q = Ok (ql_receipt_sha256 q) /\
  (exists row, to_domain_qualification q tenant run snap ref base rowid now = Ok row /\ q_state row = ql_state q) /\
  forall w, apply_waiver_to_rejected_qualification q = Ok w ->
    ql_state q = QREJECTED /\ ql_remaining_findings q = [] /\ ql_applied_waivers q <> [] /\
    ql_state w = QWAIVED /\ compute_receipt w = Ok (ql_receipt_sha256 w) /\
    exists row, to_domain_qualification w tenant run snap ref base rowid now = Ok row /\ q_state row = QWAIVED.
Proof.
  apply issue_inv in HI as (wa & HW & Hr & Ha & Ho & Hg & _ & _ & Hid & HS & HP & HC).
  pose proof (post_init_id _ _ HP) as (_ & Hrid & _).
  symmetry in HS. apply derive_state_spec in HS as [Hst HS].
  assert (HR : recordable_state q).
  { unfold recordable_state. apply list_elem_of_In in Hst.
    destruct Hst as [E|[E|[E|[E|[]]]]]; rewrite <- E in *; [left; set_solver..|right|right].
    - destruct (HS (or_introl eq_refl)) as (HF & _ & _ & HG & _).
      split; [set_solver|]. unfold Qualification_refusal. rewrite Ho, Hid, Hg. split; [done|tauto].
    - destruct (HS (or_intror eq_refl)) as (HF & _ & _ & HG & _).
      split; [set_solver|]. unfold Qualification_refusal. by rewrite Ho, Hid. }
  split_and!; [set_solver|done|by eapply to_domain_ok|].
  intros w. unfold apply_waiver_to_rejected_qualification. guards. rewrite bool_decide_eq_true, is_nil_spec.
  intros (HJ & HN & HZ & (w0 & [-> _]%post_init_id & (receipt & HC2 & [-> _]%post_init_id)%rbind_ok)%rbind_ok).
  split_and!; try done.
  - intros E. by rewrite E in HN.
  - apply (to_domain_ok (replace_state (replace_state q QWAIVED (ql_receipt_sha256 q)) QWAIVED receipt)
      tenant run snap ref base rowid now receipt); auto. left. simpl. set_solver.
Qed.

(** Staleness only invalidates: for aware times, a qualification keeps its
    state exactly while the target's fingerprint and the exam's digest are the
    ones it was issued under and it has not expired; a changed target or exam
    is STALE, and otherwise an elapsed one is EXPIRED. *)
Theorem staleness_only_invalidates q fingerprint exam now
    (Hf : hex64_dollar fingerprint = true) (Ha : aware now = true) (He : aware (ql_expires_at q) = true) :
  evaluate_staleness q fingerprint exam now = Ok
    (if decide (fingerprint = ql_target_fingerprint q /\ exam_digest exam = ql_exam_digest q)
     then if instant (ql_expires_at q) <=? instant now then QEXPIRED else ql_state q
     else QSTALE).
Proof.
  unfold evaluate_staleness, require_fingerprint, require_aware. rewrite Hf, Ha, dt_le_utc by done. simpl.
  destruct (String.eqb_spec fingerprint (ql_target_fingerprint q)); simpl;
    [|rewrite decide_False by tauto; done].
  destruct (String.eqb_spec (exam_digest exam) (ql_exam_digest q)); simpl;
    [rewrite decide_True by done; by destruct (_ <=? _)|rewrite decide_False by tauto; done].
Qed.

End qualification.

(** ** Witnesses *)

Module QualDemo.

Definition uuid_str (n : uuid) : string := str_Z (Z.of_N n).
Definition sha : string := GraderDemo.sha.
Definition t0 : datetime := DT (100 * day_us) (Some 0).
Definition t1 : datetime := dt_add t0 day_us.

Definition exam : ExamIdentity := {|
  ex_suite_id := "s"; ex_suite_version := "1"; ex_grader_versions := [("g", "1")];
  ex_rubric_versions := []; ex_thresholds := []; ex_attempt_policy_digest := "" |}.

(** The outcome of [AggregateDemo] under a policy whose gate is advisory. *)
Definition outcome : AggregateOutcome := {|
  ao_suite_id := "s"; ao_suite_version := "1"; ao_subject_family := "anthropic";
  ao_case_results := AggregateDemo.cases; ao_findings := []; ao_requires_human_review := false;
  ao_metrics := JObj []; ao_policy := {| pol_gate_mode := GateADVISORY;
    pol_inconclusive_policy := IncBLOCK; pol_noncritical_pass_threshold := 1%Q |} |}.

Definition issued : Qualification := {|
  ql_qualification_id := "q1"; ql_target_fingerprint := sha; ql_exam := exam;
  ql_exam_digest := exam_digest exam; ql_aggregate := outcome; ql_gate_mode := GateBLOCKING;
  ql_state := QQUALIFIED; ql_reviewer_identity := "rev"; ql_reviewer_family := "openai";
  ql_subject_family := "anthropic"; ql_issued_at := t0; ql_expires_at := t1; ql_release_id := "";
  ql_remaining_findings := []; ql_applied_waivers := []; ql_rejected_waivers := [];
  ql_baseline_comparison := compare_to_baseline outcome (exam_digest exam) None;
  ql_receipt_sha256 := "" |}.

Definition receipt : string :=
  match compute_receipt uuid_str issued with Ok r => r | Err _ => "" end.

Lemma issue_run :
  issue_qualification uuid_str "q1" sha exam outcome GateBLOCKING "rev" "openai" "anthropic" t0 t1
    [] None "" false false = Ok (replace_state issued QQUALIFIED receipt).
Proof. vm_compute. reflexivity. Qed.

Definition finding : BlockingFinding := {|
  bf_rule := R1_CRITICAL_DETERMINISTIC_FAILURE; bf_requirement_ref := "s::c1::*"; bf_reason := "failed";
  bf_authority_forbidden := false |}.
Definition waiver : EvalWaiver := {|
  w_row := {| row_tenant_id := "acme"; row_id := 5%N; row_schema_version := 1 |};
  w_qualification_id := 6%N; w_target_fingerprint := sha; w_failed_suite_id := "s";
  w_failed_case_id := "c1"; w_failed_grader_id := "*"; w_founder_approval_id := 7%N;
  w_approver_identity := "founder"; w_rationale := "known"; w_evidence_ref := "ref";
  w_evidence_sha256 := sha; w_expires_at := Some t1; w_release_bound_to := ""; w_created_at := t0 |}.

Definition application : WaiverApplication := {|
  wa_remaining := []; wa_applied := [{| aw_waiver := waiver; aw_finding := finding |}]; wa_rejected := [] |}.

Lemma apply_run : apply_waivers [finding] [waiver] sha t0 "" = Ok application.
Proof. vm_compute. reflexivity. Qed.

End QualDemo.

(** The gate mode of a qualification is not the one its outcome was aggregated
    under: a QUALIFIED verdict comes out of a suite whose policy is advisory. *)
Theorem gate_mode_is_not_the_policys :
  pol_gate_mode (ao_policy QualDemo.outcome) = GateADVISORY /\
  exists q, issue_qualification QualDemo.uuid_str "q1" QualDemo.sha QualDemo.exam QualDemo.outcome
    GateBLOCKING "rev" "openai" "anthropic" QualDemo.t0 QualDemo.t1 [] None "" false false = Ok q /\
    ql_state q = QQUALIFIED.
Proof. split; [done|]. eexists. split; [exact QualDemo.issue_run|done]. Qed.

Lemma waivers_clear_only_covered_witness :
  covers QualDemo.sha QualDemo.t0 "" QualDemo.waiver QualDemo.finding.
Proof.
  refine (proj2 (proj1 (proj2 (proj2 (proj2 (waivers_clear_only_covered _ _ _ _ _ _ QualDemo.apply_run))))
    {| aw_waiver := QualDemo.waiver; aw_finding := QualDemo.finding |} _)).
  left.
Defined.

Lemma qualified_is_earned_witness : qualifiable QualDemo.outcome = true.
Proof.
  exact (proj1 (proj2 (qualified_is_earned _ _ _ _ _ _ _ _ _ _ _ _ _ _ _ _ _ QualDemo.issue_run eq_refl))).
Defined.

Lemma issued_is_recordable_witness :
  exists row, to_domain_qualification (replace_state QualDemo.issued QQUALIFIED QualDemo.receipt)
    "acme" 1%N QualDemo.sha "" None 2%N QualDemo.t0 = Ok row /\ q_state row = QQUALIFIED.
Proof.
  exact (proj1 (proj2 (proj2 (issued_is_recordable _ _ _ _ _ _ _ _ _ _ _ _ _ _ _ _ _ QualDemo.issue_run
    "acme" 1%N QualDemo.sha "" None 2%N QualDemo.t0 eq_refl eq_refl)))).
Defined.

Lemma staleness_only_invalidates_witness :
  evaluate_staleness (replace_state QualDemo.issued QQUALIFIED QualDemo.receipt)
    (PyStr.of_chars (Ascii.ascii_of_N 98 :: drop 1 (chars QualDemo.sha))) QualDemo.exam QualDemo.t0 = Ok QSTALE.
Proof.
  rewrite staleness_only_invalidates; [|reflexivity..].
  rewrite decide_False; [reflexivity|]. intros [E _]. discriminate.
Defined.
