(* ===== verification/SuiteManifest.v ===== *)
(** * Suite and case manifests (fleet_kernel/eval_plane/suite_package.py, parsing)

    What a decoded JSON manifest must look like: the field readers, the
    references, attempt policies, expected behaviour, grader assignments,
    skill-selection targets, cases, thresholds and suites, each as a record
    with the function that parses it. An object is its entries in order, keys
    distinct, as [json.loads] makes it; a date is its day number. *)
From S2P Require Import Prelude PyStr PyFloat PyTime Json Sha256 PyRegex PyIO PyPath JsonText PyValue EvalDomain.
From stdpp Require Import base gmap strings list.
From Stdlib Require Import ZArith QArith NArith Lia.

Local Open Scope Z_scope.

Definition EvalPackageError : exc_class := OtherError "EvalPackageError".
Definition bad {A} (msg : string) : res A := Err (Exn EvalPackageError msg).
Notation dict := (list (string * json)).

(** ** Patterns *)

Definition word_tail : re := many (rset (rng "a" "z" :: digits09 ++ one_of "_")).
Definition word1 : re := many1 (rset (rng "a" "z" :: digits09 ++ one_of "_")).
Definition lower_alnum : re := rset (rng "a" "z" :: digits09).

(* src: fleet_kernel/eval_plane/suite_package.py SUITE_ID_PATTERN *)
Definition SUITE_ID_PATTERN : re := cats [lower_alnum; word_tail; many (cats [lit "."; word1])].
(* src: fleet_kernel/eval_plane/suite_package.py CAPABILITY_PATTERN *)
Definition CAPABILITY_PATTERN : re := SUITE_ID_PATTERN.
(* src: fleet_kernel/eval_plane/suite_package.py TENANT_PATTERN *)
Definition TENANT_PATTERN : re :=
  cats [lower_alnum; many (rset (rng "a" "z" :: digits09 ++ one_of "_-"))].
(* src: fleet_kernel/eval_plane/holdout_provider.py CASE_ID_PATTERN *)
Definition CASE_ID_PATTERN : re :=
  cats [lower_alnum; word_tail; many (cats [rset (one_of ".-"); word1])].
(* src: fleet_kernel/eval_plane/suite_package.py SHA256_PATTERN *)
Definition SHA256_PATTERN : re := exactly 64 (rset (rng "a" "f" :: digits09)).
(* src: fleet_kernel/eval_plane/holdout_provider.py HOLDOUT_SCHEME *)
Definition HOLDOUT_SCHEME : string := "holdout://".
(* src: fleet_kernel/eval_plane/suite_package.py SKILL_SELECTION_CAPABILITY_PREFIX *)
Definition SKILL_SELECTION_CAPABILITY_PREFIX : string := "skill_selection".
(* src: fleet_kernel/eval_plane/suite_package.py _MAX_TEXT *)
Definition MAX_TEXT : nat := 4096.
(* src: fleet_kernel/eval_plane/suite_package.py _MAX_ATTEMPTS *)
Definition MAX_ATTEMPTS : Z := 25.

(** ** Vocabularies *)

(* src: fleet_kernel/eval_plane/suite_package.py OwningScope *)
Inductive OwningScope := ScopeCOMPANY_FLEET | ScopeSHARED_RESTAURANT_FLEET | ScopeINTEGRATION | ScopeWORKFLOW | ScopeTENANT.
(* src: fleet_kernel/eval_plane/suite_package.py RiskClass *)
Inductive RiskClass := RiskLOW | RiskMODERATE | RiskHIGH | RiskCRITICAL.
(* src: fleet_kernel/eval_plane/suite_package.py CaseSourceType *)
Inductive CaseSourceType :=
  | SrcINCIDENT | SrcACCEPTED_SUCCESS | SrcSYNTHETIC | SrcGOLDEN_FIXTURE | SrcHOLDOUT | SrcMUTATION
  | SrcPRODUCTION_SAMPLE.
(* src: fleet_kernel/eval_plane/suite_package.py Visibility *)
Inductive Visibility := VisDEVELOPMENT | VisHOLDOUT.
(* src: fleet_kernel/eval_plane/suite_package.py PrivacyClass *)
Inductive PrivacyClass := PrivSYNTHETIC | PrivDEIDENTIFIED | PrivTENANT_PRIVATE.
(* src: fleet_kernel/eval_plane/suite_package.py LifecycleState *)
Inductive LifecycleState := LifeDRAFT | LifeACTIVE | LifeDEPRECATED | LifeRETIRED.
(* src: fleet_kernel/eval_plane/suite_package.py AggregateRule *)
Inductive AggregateRule := ALL_ATTEMPTS_PASS | MAJORITY_ATTEMPTS_PASS | ANY_ATTEMPT_PASSES.
(* src: fleet_kernel/eval_plane/suite_package.py CriticalFailureRule *)
Inductive CriticalFailureRule := SINGLE_OCCURRENCE_FAILS | MAJORITY_OCCURRENCE_FAILS.

#[export] Instance OwningScope_eq_dec : EqDecision OwningScope. Proof. solve_decision. Defined.
#[export] Instance RiskClass_eq_dec : EqDecision RiskClass. Proof. solve_decision. Defined.
#[export] Instance CaseSourceType_eq_dec : EqDecision CaseSourceType. Proof. solve_decision. Defined.
#[export] Instance Visibility_eq_dec : EqDecision Visibility. Proof. solve_decision. Defined.
#[export] Instance PrivacyClass_eq_dec : EqDecision PrivacyClass. Proof. solve_decision. Defined.
#[export] Instance LifecycleState_eq_dec : EqDecision LifecycleState. Proof. solve_decision. Defined.
#[export] Instance AggregateRule_eq_dec : EqDecision AggregateRule. Proof. solve_decision. Defined.
#[export] Instance CriticalFailureRule_eq_dec : EqDecision CriticalFailureRule. Proof. solve_decision. Defined.

(** A member with its value, in the order of the class. *)
Notation vocabulary E := (list (string * E)).
Definition OwningScopes : vocabulary OwningScope := [
  ("company_fleet", ScopeCOMPANY_FLEET); ("shared_restaurant_fleet", ScopeSHARED_RESTAURANT_FLEET);
  ("integration", ScopeINTEGRATION); ("workflow", ScopeWORKFLOW); ("tenant", ScopeTENANT)].
Definition RiskClasses : vocabulary RiskClass := [
  ("low", RiskLOW); ("moderate", RiskMODERATE); ("high", RiskHIGH); ("critical", RiskCRITICAL)].
Definition CaseSourceTypes : vocabulary CaseSourceType := [
  ("incident", SrcINCIDENT); ("accepted_success", SrcACCEPTED_SUCCESS); ("synthetic", SrcSYNTHETIC);
  ("golden_fixture", SrcGOLDEN_FIXTURE); ("holdout", SrcHOLDOUT); ("mutation", SrcMUTATION);
  ("production_sample", SrcPRODUCTION_SAMPLE)].
Definition Visibilities : vocabulary Visibility := [("development", VisDEVELOPMENT); ("holdout", VisHOLDOUT)].
Definition PrivacyClasses : vocabulary PrivacyClass := [
  ("synthetic", PrivSYNTHETIC); ("deidentified", PrivDEIDENTIFIED); ("tenant_private", PrivTENANT_PRIVATE)].
Definition LifecycleStates : vocabulary LifecycleState := [
  ("draft", LifeDRAFT); ("active", LifeACTIVE); ("deprecated", LifeDEPRECATED); ("retired", LifeRETIRED)].
Definition AggregateRules : vocabulary AggregateRule := [
  ("all_attempts_pass", ALL_ATTEMPTS_PASS); ("majority_attempts_pass", MAJORITY_ATTEMPTS_PASS);
  ("any_attempt_passes", ANY_ATTEMPT_PASSES)].
Definition CriticalFailureRules : vocabulary CriticalFailureRule := [
  ("single_occurrence_fails", SINGLE_OCCURRENCE_FAILS); ("majority_occurrence_fails", MAJORITY_OCCURRENCE_FAILS)].
(** [member.value]. *)
Definition member_value {E} `{EqDecision E} (members : vocabulary E) (e : E) : string :=
  match List.find (fun m => bool_decide (m.2 = e)) members with Some m => m.1 | None => "" end.
Definition valued {E} (value : E -> string) (members : list E) : vocabulary E :=
  map (fun e => (value e, e)) members.
Definition GraderTypes : vocabulary GraderKind :=
  valued kind_value [STRUCTURAL; TRAJECTORY; OUTCOME; SEMANTIC; HUMAN].
Definition Criticalities : vocabulary Criticality := valued criticality_value [CRITICAL; NONCRITICAL; ADVISORY].
Definition GateIntents : vocabulary GateMode := valued gate_mode_value [GateADVISORY; GateWARNING; GateBLOCKING].
Definition InconclusivePolicies : vocabulary InconclusivePolicy := valued inconclusive_policy_value [IncBLOCK; IncREVIEW].

(* src: fleet_kernel/eval_plane/suite_package.py _RETIRED_STATES *)
Definition RETIRED_STATES : list LifecycleState := [LifeDEPRECATED; LifeRETIRED].
(* src: fleet_kernel/eval_plane/suite_package.py _ATTEMPT_FLOOR *)
Definition ATTEMPT_FLOOR (r : RiskClass) : Z :=
  match r with RiskLOW => 1 | RiskMODERATE => 3 | RiskHIGH | RiskCRITICAL => 5 end.

(** ** Field readers *)

(* src: fleet_kernel/eval_plane/suite_package.py _fields *)
Definition fields_ (payload : json) (required optional : list string) (where_ : string) : res dict :=
  match payload with
  | JObj kvs =>
      let unknown := sort_strs (without kvs.*1 (required ++ optional)) in
      let missing := sort_strs (without required kvs.*1) in
      raise_if negb (bool_decide (unknown = []))
        with EvalPackageError, (where_ +:+ " has unknown keys: " +:+ strs_repr unknown) ;;
      raise_if negb (bool_decide (missing = []))
        with EvalPackageError, (where_ +:+ " is missing required keys: " +:+ strs_repr missing) ;;
      Ok kvs
  | _ => bad (where_ +:+ " must be a JSON object")
  end.

(* src: fleet_kernel/eval_plane/suite_package.py _text *)
Definition text_ (payload : dict) (key where_ : string) (pattern : option re) : res string :=
  let invalid := bad (where_ +:+ "." +:+ key +:+ " must be a non-empty string") in
  match dict_get key payload with
  | Some (JStr value) =>
      if negb (nonblank value) || (MAX_TEXT <? String.length value)%nat then invalid else
      let value := strip value in
      raise_if existsb (fun c => (code c <? 32)%N) (chars value)
        with EvalPackageError, (where_ +:+ "." +:+ key +:+ " contains control characters") ;;
      require match pattern with Some p => re_fullmatch false p value | None => true end
        else EvalPackageError,
          (where_ +:+ "." +:+ key +:+ " is not a well-formed identifier: " +:+ repr value) ;;
      Ok value
  | _ => invalid
  end.

(** [payload.get(key) is None]. *)
Definition absent (payload : dict) (key : string) : bool :=
  match dict_get key payload with None | Some JNull => true | _ => false end.

(* src: fleet_kernel/eval_plane/suite_package.py _optional_text *)
Definition optional_text (payload : dict) (key where_ : string) (pattern : option re) : res (option string) :=
  if absent payload key then Ok None
  else let! s := text_ payload key where_ pattern in Ok (Some s).

(* src: fleet_kernel/eval_plane/suite_package.py _integer *)
Definition integer_ (payload : dict) (key where_ : string) (minimum maximum : Z) : res Z :=
  let invalid := bad (where_ +:+ "." +:+ key +:+ " must be an integer in ["
    +:+ str_Z minimum +:+ ", " +:+ str_Z maximum +:+ "]") in
  match dict_get key payload with
  | Some (JInt z) => if (minimum <=? z) && (z <=? maximum) then Ok z else invalid
  | _ => invalid
  end.

(* src: fleet_kernel/eval_plane/suite_package.py _ratio *)
Definition ratio_ (payload : dict) (key where_ : string) : res Q :=
  let invalid := bad (where_ +:+ "." +:+ key +:+ " must be a number in [0.0, 1.0]") in
  match dict_get key payload with
  | Some (JInt z) => if (0 <=? z) && (z <=? 1) then Ok (z # 1)%Q else invalid
  | Some (JFloat q) => if Qle_bool 0 q && Qle_bool q 1 then Ok q else invalid
  | _ => invalid
  end.

(** [payload.get(key, default)]. *)
Definition get_or (payload : dict) (key : string) (default : json) : json :=
  match dict_get key payload with Some v => v | None => default end.

Definition all_strs (ok : string -> bool) (l : list json) : option (list string) :=
  foldr (fun j acc => match j, acc with
    | JStr s, Some r => if ok s then Some (s :: r) else None
    | _, _ => None end) (Some []) l.

(* src: fleet_kernel/eval_plane/suite_package.py _string_tuple *)
Definition string_tuple (payload : dict) (key where_ : string) : res (list string) :=
  let invalid := bad (where_ +:+ "." +:+ key +:+ " must be a list of non-empty strings") in
  match get_or payload key (JArr []) with
  | JArr l =>
      match all_strs (fun s => nonblank s && (String.length s <=? MAX_TEXT)%nat) l with
      | Some strs =>
          let items := map strip strs in
          require bool_decide (NoDup items)
            else EvalPackageError, (where_ +:+ "." +:+ key +:+ " contains duplicate entries") ;;
          Ok items
      | None => invalid
      end
  | _ => invalid
  end.

Definition str_entries (kvs : dict) : option (list (string * string)) :=
  foldr (fun kv acc => match kv.2, acc with
    | JStr s, Some r => if nonblank kv.1 && nonblank s then Some ((kv.1, s) :: r) else None
    | _, _ => None end) (Some []) kvs.

(* src: fleet_kernel/eval_plane/suite_package.py _string_map *)
Definition string_map (payload : dict) (key where_ : string) : res (list (string * string)) :=
  let invalid := bad (where_ +:+ "." +:+ key +:+ " must be an object of non-empty string values") in
  match get_or payload key (JObj []) with
  | JObj kvs => match str_entries kvs with Some l => Ok (sort_pairs l) | None => invalid end
  | _ => invalid
  end.

(* src: fleet_kernel/eval_plane/suite_package.py _object_map *)
Definition object_map (payload : dict) (key where_ : string) : res dict :=
  match get_or payload key (JObj []) with
  | JObj kvs =>
      require finite (JObj kvs) && ints_ok (JObj kvs)
        else EvalPackageError, (where_ +:+ "." +:+ key +:+ " must be canonically serializable") ;;
      Ok (sort_pairs kvs)
  | _ => bad (where_ +:+ "." +:+ key +:+ " must be an object with string keys")
  end.

(* src: fleet_kernel/eval_plane/suite_package.py _enum *)
Definition enum_ {E} (members : vocabulary E) (payload : dict) (key where_ : string) : res E :=
  let value := get_or payload key JNull in
  match (match value with JStr s => dict_get s members | _ => None end) with
  | Some e => Ok e
  | None => bad (where_ +:+ "." +:+ key +:+ " must be one of " +:+ strs_repr (sort_strs members.*1)
              +:+ ", got " +:+ py_repr value)
  end.

(* src: fleet_kernel/eval_plane/suite_package.py _date *)
Definition date_ `{IsoDate} (payload : dict) (key where_ : string) : res Z :=
  match dict_get key payload with
  | Some (JStr value) =>
      match date_fromisoformat value with
      | Some d => Ok d
      | None => bad (where_ +:+ "." +:+ key +:+ " is not an ISO date: " +:+ repr value)
      end
  | _ => bad (where_ +:+ "." +:+ key +:+ " must be an ISO date string")
  end.

(** [(parse(item, where=f"{where}[{index}]") for index, item in enumerate(l))]. *)
Fixpoint parse_each {A} (parse : json -> string -> res A) (where_ : string) (index : Z) (l : list json)
    : res (list A) :=
  match l with
  | [] => Ok []
  | item :: rest =>
      let! x := parse item (where_ +:+ "[" +:+ str_Z index +:+ "]") in
      let! xs := parse_each parse where_ (index + 1) rest in Ok (x :: xs)
  end.

(** ** References *)

(* src: fleet_kernel/eval_plane/suite_package.py ManifestReference *)
Record ManifestReference := Reference { ref : string; ref_sha256 : string }.
#[export] Instance ManifestReference_eq_dec : EqDecision ManifestReference. Proof. solve_decision. Defined.

(* src: fleet_kernel/eval_plane/suite_package.py ManifestReference.is_holdout *)
Definition ref_is_holdout (r : ManifestReference) : bool := startswith (ref r) HOLDOUT_SCHEME.

(** [s.partition("/")] of what follows the scheme. *)
Fixpoint cut (c : Ascii.ascii) (l : text) : text * option text :=
  match l with
  | [] => ([], None)
  | x :: r => if Ascii.eqb x c then ([], Some r) else let '(a, b) := cut c r in (x :: a, b)
  end.
Definition after_scheme (s : string) : text := drop (String.length HOLDOUT_SCHEME) (chars s).
Definition bundle_of (s : string) : string := of_chars (cut (chr 47) (after_scheme s)).1.

(** A relative POSIX path in normal form. *)
Definition normalized (s : string) : bool :=
  negb (startswith s "/") && (s =? posix s)%string
  && negb (existsb (fun c => (code c =? 92)%N) (chars s)) && negb (existsb (String.eqb "..") (path_parts s)).

(* src: fleet_kernel/eval_plane/suite_package.py ManifestReference.parse *)
Definition parse_reference (payload : json) (where_ : string) : res ManifestReference :=
  let! fields := fields_ payload ["ref"; "sha256"] [] where_ in
  let! r := text_ fields "ref" where_ None in
  let! sha256 := text_ fields "sha256" where_ (Some SHA256_PATTERN) in
  let! _ :=
    if startswith r HOLDOUT_SCHEME then
      let '(case_id, part) := cut (chr 47) (after_scheme r) in
      require re_fullmatch false CASE_ID_PATTERN (of_chars case_id)
              && match part with Some (_ :: _) => true | _ => false end
        else EvalPackageError, (where_ +:+ ".ref must look like " +:+ HOLDOUT_SCHEME
               +:+ "<case_id>/<part>, got " +:+ repr r) ;;
      Ok tt
    else
      require normalized r
        else EvalPackageError, (where_ +:+ ".ref must be a normalized repository-relative path, got "
               +:+ repr r) ;;
      Ok tt in
  Ok (Reference r sha256).

(* src: fleet_kernel/eval_plane/suite_package.py _reference_list *)
Definition reference_list (fields : dict) (key where_ : string) : res (list ManifestReference) :=
  match get_or fields key (JArr []) with
  | JArr l => parse_each parse_reference (where_ +:+ "." +:+ key) 0 l
  | _ => bad (where_ +:+ "." +:+ key +:+ " must be a list")
  end.

(** ** Attempt policies *)

(* src: fleet_kernel/eval_plane/suite_package.py AttemptPolicy *)
Record ManifestAttemptPolicy := {
  mp_attempts : Z;
  mp_sampling : dict;
  mp_seed : option Z;
  mp_infra_retry_limit : Z;
  mp_aggregate_rule : AggregateRule;
  mp_critical_failure_rule : CriticalFailureRule;
}.

(* src: fleet_kernel/eval_plane/suite_package.py AttemptPolicy.parse *)
Definition parse_attempt_policy (payload : json) (where_ : string) : res ManifestAttemptPolicy :=
  let! fields := fields_ payload
    ["attempts"; "infra_retry_limit"; "aggregate_rule"; "critical_failure_rule"]
    ["sampling"; "seed"] where_ in
  let! seed := match dict_get "seed" fields with
    | None | Some JNull => Ok None
    | Some (JInt z) => Ok (Some z)
    | Some _ => bad (where_ +:+ ".seed must be an integer or null")
    end in
  let! attempts := integer_ fields "attempts" where_ 1 MAX_ATTEMPTS in
  let! sampling := object_map fields "sampling" where_ in
  let! retries := integer_ fields "infra_retry_limit" where_ 0 10 in
  let! rule := enum_ AggregateRules fields "aggregate_rule" where_ in
  let! critical := enum_ CriticalFailureRules fields "critical_failure_rule" where_ in
  Ok {| mp_attempts := attempts; mp_sampling := sampling; mp_seed := seed;
        mp_infra_retry_limit := retries; mp_aggregate_rule := rule;
        mp_critical_failure_rule := critical |}.

(** ** Expected behaviour and graders *)

(* src: fleet_kernel/eval_plane/suite_package.py ExpectedBehavior *)
Record ExpectedBehavior := {
  must : list string; must_not : list string; may : list string;
  acceptable_outcomes : list string; escalation_conditions : list string;
  forbidden_effects : list string;
}.

(* src: fleet_kernel/eval_plane/suite_package.py ExpectedBehavior.is_empty *)
Definition expected_is_empty (e : ExpectedBehavior) : bool :=
  forallb (fun l : list string => bool_decide (l = []))
    [must e; must_not e; may e; acceptable_outcomes e; escalation_conditions e; forbidden_effects e].

(* src: fleet_kernel/eval_plane/suite_package.py ExpectedBehavior.parse *)
Definition parse_expected (payload : json) (where_ : string) : res ExpectedBehavior :=
  let! fields := fields_ payload []
    ["must"; "must_not"; "may"; "acceptable_outcomes"; "escalation_conditions"; "forbidden_effects"]
    where_ in
  let! a := string_tuple fields "must" where_ in
  let! b := string_tuple fields "must_not" where_ in
  let! c := string_tuple fields "may" where_ in
  let! d := string_tuple fields "acceptable_outcomes" where_ in
  let! e := string_tuple fields "escalation_conditions" where_ in
  let! f := string_tuple fields "forbidden_effects" where_ in
  Ok {| must := a; must_not := b; may := c; acceptable_outcomes := d; escalation_conditions := e;
        forbidden_effects := f |}.

(* src: fleet_kernel/eval_plane/suite_package.py GraderAssignment *)
Record GraderAssignment := {
  ga_grader_id : string; ga_grader_version : Z; ga_grader_type : GraderKind;
  ga_manifest : ManifestReference; ga_criticality : Criticality;
}.

Definition versioned (id : string) (version : Z) : string := id +:+ ".v" +:+ str_Z version.

(* src: fleet_kernel/eval_plane/suite_package.py GraderAssignment.qualified_id *)
Definition grader_qualified_id (g : GraderAssignment) : string :=
  versioned (ga_grader_id g) (ga_grader_version g).

(* src: fleet_kernel/eval_plane/suite_package.py GraderAssignment.parse *)
Definition parse_grader (payload : json) (where_ : string) : res GraderAssignment :=
  let! fields := fields_ payload
    ["grader_id"; "grader_version"; "grader_type"; "manifest"; "criticality"] [] where_ in
  let! kind := enum_ GraderTypes fields "grader_type" where_ in
  let! criticality := enum_ Criticalities fields "criticality" where_ in
  raise_if bool_decide (kind = SEMANTIC) && negb (bool_decide (criticality = ADVISORY))
    with EvalPackageError, (where_ +:+ ": a semantic grader assignment must be criticality=advisory (got "
      +:+ repr (criticality_value criticality) +:+ ") " +:+ emdash
      +:+ " semantic grading stays advisory until EP-610 calibration lands (directive "
      +:+ section_sign +:+ "4.2)") ;;
  let! id := text_ fields "grader_id" where_ (Some CAPABILITY_PATTERN) in
  let! version := integer_ fields "grader_version" where_ 1 9999 in
  let! manifest := parse_reference (get_or fields "manifest" JNull) (where_ +:+ ".manifest") in
  Ok {| ga_grader_id := id; ga_grader_version := version; ga_grader_type := kind;
        ga_manifest := manifest; ga_criticality := criticality |}.

(** ** Skill-selection targets *)

(* src: fleet_kernel/eval_plane/suite_package.py SkillSelectionTarget *)
Record SkillSelectionTarget := {
  st_skill_descriptions : list (string * string);
  st_tool_descriptions : list (string * string);
  st_host_instructions : list ManifestReference;
  st_available_tools : list string;
  st_model_configuration : dict;
  st_harness_version : string;
}.

(** [_canonical_json_bytes] and [_digest]. *)
(* src: fleet_kernel/eval_plane/suite_package.py _digest *)
Definition digest_of `{Digest} (value : json) : string := digest (@dumps utf8_codec value).

Definition str_obj (l : list (string * string)) : json := JObj (map (fun kv => (kv.1, JStr kv.2)) l).

(* src: fleet_kernel/eval_plane/suite_package.py SkillSelectionTarget.content_sha256 *)
Definition target_content_sha256 `{Digest} (t : SkillSelectionTarget) : string :=
  digest_of (JObj [
    ("skill_descriptions", str_obj (st_skill_descriptions t));
    ("tool_descriptions", str_obj (st_tool_descriptions t));
    ("host_instructions", JArr (map (fun r =>
       JObj [("ref", JStr (ref r)); ("sha256", JStr (ref_sha256 r))]) (st_host_instructions t)));
    ("available_tools", JArr (map JStr (st_available_tools t)));
    ("model_configuration", JObj (st_model_configuration t));
    ("harness_version", JStr (st_harness_version t))]).

(* src: fleet_kernel/eval_plane/suite_package.py SkillSelectionTarget.parse *)
Definition parse_skill_target (payload : json) (where_ : string) : res SkillSelectionTarget :=
  let! fields := fields_ payload
    ["skill_descriptions"; "tool_descriptions"; "host_instructions"; "available_tools";
     "model_configuration"; "harness_version"] [] where_ in
  let! skills := string_map fields "skill_descriptions" where_ in
  let! tools := string_map fields "tool_descriptions" where_ in
  let! instructions := match get_or fields "host_instructions" JNull with
    | JArr l => parse_each parse_reference (where_ +:+ ".host_instructions") 0 l
    | _ => bad (where_ +:+ ".host_instructions must be a list")
    end in
  let! available := string_tuple fields "available_tools" where_ in
  let! model := object_map fields "model_configuration" where_ in
  let empty := map fst (List.filter snd [
    ("skill_descriptions", bool_decide (skills = [])); ("tool_descriptions", bool_decide (tools = []));
    ("host_instructions", bool_decide (instructions = [])); ("available_tools", bool_decide (available = []));
    ("model_configuration", bool_decide (List.length model = 0%nat))]) in
  raise_if negb (bool_decide (empty = []))
    with EvalPackageError, (where_ +:+ " must declare every " +:+ section_sign +:+ "7(C) input; empty: "
      +:+ strs_repr (sort_strs empty)) ;;
  let! harness := text_ fields "harness_version" where_ None in
  Ok {| st_skill_descriptions := skills; st_tool_descriptions := tools;
        st_host_instructions := instructions; st_available_tools := available;
        st_model_configuration := model; st_harness_version := harness |}.

(** ** Cases *)

(* src: fleet_kernel/eval_plane/suite_package.py EvalCaseDefinition *)
Record EvalCaseDefinition := {
  cd_case_id : string;
  cd_case_version : Z;
  cd_suite_id : string;
  cd_source_type : CaseSourceType;
  cd_visibility : Visibility;
  cd_source_evidence : list string;
  cd_input_fixture : option ManifestReference;
  cd_environment_fixtures : list ManifestReference;
  cd_policy_fixtures : list ManifestReference;
  cd_expected : ExpectedBehavior;
  cd_graders : list GraderAssignment;
  cd_criticality : Criticality;
  cd_risk_class : RiskClass;
  cd_tenant_scope : option string;
  cd_privacy_class : PrivacyClass;
  cd_attempt_policy : ManifestAttemptPolicy;
  cd_skill_selection_target : option SkillSelectionTarget;
  cd_holdout_bundle_sha256 : option string;
  cd_owner : string;
  cd_created_at : Z;
  cd_last_reviewed_at : Z;
  cd_lifecycle_state : LifecycleState;
  cd_supersedes : list string;
  cd_superseded_by : option string;
  cd_manifest_sha256 : string;
}.

(* src: fleet_kernel/eval_plane/suite_package.py EvalCaseDefinition.qualified_id *)
Definition case_qualified_id (c : EvalCaseDefinition) : string := versioned (cd_case_id c) (cd_case_version c).

(* src: fleet_kernel/eval_plane/suite_package.py EvalCaseDefinition.is_holdout *)
Definition case_is_holdout (c : EvalCaseDefinition) : bool := bool_decide (cd_visibility c = VisHOLDOUT).

(* src: fleet_kernel/eval_plane/suite_package.py EvalCaseDefinition.all_references *)
Definition all_references (c : EvalCaseDefinition) : list ManifestReference :=
  match cd_input_fixture c with Some r => [r] | None => [] end
  ++ cd_environment_fixtures c ++ cd_policy_fixtures c ++ map ga_manifest (cd_graders c)
  ++ match cd_skill_selection_target c with Some t => st_host_instructions t | None => [] end.

(** [None if fields.get(key) is None else parse(fields[key], where=f"{where}.{key}")]. *)
Definition optional_ {A} (parse : json -> string -> res A) (fields : dict) (key where_ : string) : res (option A) :=
  if absent fields key then Ok None
  else let! x := parse (get_or fields key JNull) (where_ +:+ "." +:+ key) in Ok (Some x).

Section manifests.
  Context `{IsoDate}.

(* src: fleet_kernel/eval_plane/suite_package.py EvalCaseDefinition.parse *)
Definition parse_case (payload : json) (where_ manifest_sha256 : string) : res EvalCaseDefinition :=
  let! fields := fields_ payload
    ["case_id"; "case_version"; "suite_id"; "source_type"; "visibility"; "graders"; "criticality";
     "risk_class"; "privacy_class"; "attempt_policy"; "owner"; "created_at"; "last_reviewed_at";
     "lifecycle_state"]
    ["source_evidence"; "input_fixture"; "environment_fixtures"; "policy_fixtures"; "expected";
     "tenant_scope"; "skill_selection_target"; "holdout_bundle_sha256"; "supersedes"; "superseded_by"]
    where_ in
  let! graders := match get_or fields "graders" JNull with
    | JArr ((_ :: _) as l) => parse_each parse_grader (where_ +:+ ".graders") 0 l
    | _ => bad (where_ +:+ ".graders must be a non-empty list")
    end in
  require bool_decide (NoDup (map grader_qualified_id graders))
    else EvalPackageError, (where_ +:+ ".graders assigns the same grader version twice") ;;
  let! input_fixture := optional_ parse_reference fields "input_fixture" where_ in
  let! created_at := date_ fields "created_at" where_ in
  let! last_reviewed_at := date_ fields "last_reviewed_at" where_ in
  raise_if last_reviewed_at <? created_at
    with EvalPackageError, (where_ +:+ ".last_reviewed_at precedes created_at") ;;
  let! holdout_sha := optional_text fields "holdout_bundle_sha256" where_ (Some SHA256_PATTERN) in
  let! skill_target := optional_ parse_skill_target fields "skill_selection_target" where_ in
  let! case_id := text_ fields "case_id" where_ (Some CASE_ID_PATTERN) in
  let! case_version := integer_ fields "case_version" where_ 1 9999 in
  let! suite_id := text_ fields "suite_id" where_ (Some SUITE_ID_PATTERN) in
  let! source_type := enum_ CaseSourceTypes fields "source_type" where_ in
  let! visibility := enum_ Visibilities fields "visibility" where_ in
  let! source_evidence := string_tuple fields "source_evidence" where_ in
  let! environment := reference_list fields "environment_fixtures" where_ in
  let! policy := reference_list fields "policy_fixtures" where_ in
  let! expected := parse_expected (get_or fields "expected" (JObj [])) (where_ +:+ ".expected") in
  let! criticality := enum_ Criticalities fields "criticality" where_ in
  let! risk_class := enum_ RiskClasses fields "risk_class" where_ in
  let! tenant_scope := optional_text fields "tenant_scope" where_ (Some TENANT_PATTERN) in
  let! privacy_class := enum_ PrivacyClasses fields "privacy_class" where_ in
  let! attempt_policy := parse_attempt_policy (get_or fields "attempt_policy" JNull) (where_ +:+ ".attempt_policy") in
  let! owner := text_ fields "owner" where_ None in
  let! lifecycle_state := enum_ LifecycleStates fields "lifecycle_state" where_ in
  let! supersedes := string_tuple fields "supersedes" where_ in
  let! superseded_by := optional_text fields "superseded_by" where_ (Some CASE_ID_PATTERN) in
  Ok {| cd_case_id := case_id; cd_case_version := case_version; cd_suite_id := suite_id;
        cd_source_type := source_type; cd_visibility := visibility; cd_source_evidence := source_evidence;
        cd_input_fixture := input_fixture; cd_environment_fixtures := environment;
        cd_policy_fixtures := policy; cd_expected := expected; cd_graders := graders;
        cd_criticality := criticality; cd_risk_class := risk_class; cd_tenant_scope := tenant_scope;
        cd_privacy_class := privacy_class; cd_attempt_policy := attempt_policy;
        cd_skill_selection_target := skill_target; cd_holdout_bundle_sha256 := holdout_sha;
        cd_owner := owner; cd_created_at := created_at; cd_last_reviewed_at := last_reviewed_at;
        cd_lifecycle_state := lifecycle_state; cd_supersedes := supersedes;
        cd_superseded_by := superseded_by; cd_manifest_sha256 := manifest_sha256 |}.

(** ** Suites *)

(* src: fleet_kernel/eval_plane/suite_package.py QualificationThresholds *)
Record QualificationThresholds := {
  min_case_pass_rate : Q; max_critical_failures : Z; max_error_rate : Q }.

(* src: fleet_kernel/eval_plane/suite_package.py QualificationThresholds.parse *)
Definition parse_thresholds (payload : json) (where_ : string) : res QualificationThresholds :=
  let! fields := fields_ payload ["min_case_pass_rate"; "max_critical_failures"; "max_error_rate"] [] where_ in
  let! failures := integer_ fields "max_critical_failures" where_ 0 9999 in
  let! errors := ratio_ fields "max_error_rate" where_ in
  let unsatisfiable := map fst (List.filter snd [
    ("max_critical_failures", negb (failures =? 0)); ("max_error_rate", negb (Qeq_bool errors 0))]) in
  raise_if negb (bool_decide (unsatisfiable = []))
    with EvalPackageError, (where_ +:+ ": " +:+ strs_repr (sort_strs unsatisfiable) +:+ " must be 0 " +:+ emdash
      +:+ " aggregation blocks on the first critical failure (R1) and the first unresolved required error "
      +:+ "(R2), and no qualifying state may carry either on record, so any other "
      +:+ "budget is a threshold nothing beneath this manifest can honor") ;;
  let! rate := ratio_ fields "min_case_pass_rate" where_ in
  Ok {| min_case_pass_rate := rate; max_critical_failures := failures; max_error_rate := errors |}.

(* src: fleet_kernel/eval_plane/suite_package.py EvalSuiteDefinition *)
Record EvalSuiteDefinition := {
  sd_suite_id : string;
  sd_suite_version : Z;
  sd_owning_scope : OwningScope;
  sd_capability_under_test : string;
  sd_risk_class : RiskClass;
  sd_case_manifests : list ManifestReference;
  sd_grader_manifests : list ManifestReference;
  sd_attempt_policy : ManifestAttemptPolicy;
  sd_gate_intent : GateMode;
  sd_inconclusive_policy : InconclusivePolicy;
  sd_qualification_thresholds : QualificationThresholds;
  sd_dependencies : list string;
  sd_tenant_scope : option string;
  sd_privacy_class : PrivacyClass;
  sd_owner : string;
  sd_created_at : Z;
  sd_last_reviewed_at : Z;
  sd_lifecycle_state : LifecycleState;
  sd_manifest_sha256 : string;
}.

(* src: fleet_kernel/eval_plane/suite_package.py EvalSuiteDefinition.qualified_id *)
Definition suite_qualified_id (s : EvalSuiteDefinition) : string := versioned (sd_suite_id s) (sd_suite_version s).

(* src: fleet_kernel/eval_plane/suite_package.py EvalSuiteDefinition.is_skill_selection *)
Definition is_skill_selection (s : EvalSuiteDefinition) : bool :=
  startswith (sd_capability_under_test s) SKILL_SELECTION_CAPABILITY_PREFIX.

(* src: fleet_kernel/eval_plane/suite_package.py EvalSuiteDefinition.parse *)
Definition parse_suite (payload : json) (where_ manifest_sha256 : string) : res EvalSuiteDefinition :=
  let! fields := fields_ payload
    ["suite_id"; "suite_version"; "owning_scope"; "capability_under_test"; "risk_class";
     "case_manifests"; "grader_manifests"; "attempt_policy"; "gate_intent"; "qualification_thresholds";
     "privacy_class"; "owner"; "created_at"; "last_reviewed_at"; "lifecycle_state"]
    ["dependencies"; "tenant_scope"; "inconclusive_policy"] where_ in
  let! case_manifests := reference_list fields "case_manifests" where_ in
  raise_if bool_decide (case_manifests = [])
    with EvalPackageError, (where_ +:+ ".case_manifests must not be empty") ;;
  require bool_decide (NoDup (map ref case_manifests))
    else EvalPackageError, (where_ +:+ ".case_manifests references the same file twice") ;;
  raise_if existsb ref_is_holdout case_manifests
    with EvalPackageError, (where_ +:+ ".case_manifests must be repository files; a holdout case still "
      +:+ "declares its identity and policy in-repo") ;;
  let! grader_manifests := reference_list fields "grader_manifests" where_ in
  raise_if existsb ref_is_holdout grader_manifests
    with EvalPackageError, (where_ +:+ ".grader_manifests must list only in-repo graders; holdout grader "
      +:+ "logic is served by the HoldoutProvider and never enumerated here") ;;
  let! created_at := date_ fields "created_at" where_ in
  let! last_reviewed_at := date_ fields "last_reviewed_at" where_ in
  raise_if last_reviewed_at <? created_at
    with EvalPackageError, (where_ +:+ ".last_reviewed_at precedes created_at") ;;
  let! suite_id := text_ fields "suite_id" where_ (Some SUITE_ID_PATTERN) in
  let! suite_version := integer_ fields "suite_version" where_ 1 9999 in
  let! owning_scope := enum_ OwningScopes fields "owning_scope" where_ in
  let! capability := text_ fields "capability_under_test" where_ (Some CAPABILITY_PATTERN) in
  let! risk_class := enum_ RiskClasses fields "risk_class" where_ in
  let! attempt_policy := parse_attempt_policy (get_or fields "attempt_policy" JNull) (where_ +:+ ".attempt_policy") in
  let! gate_intent := enum_ GateIntents fields "gate_intent" where_ in
  let! inconclusive :=
    if absent fields "inconclusive_policy" then Ok IncBLOCK
    else enum_ InconclusivePolicies fields "inconclusive_policy" where_ in
  let! thresholds := parse_thresholds (get_or fields "qualification_thresholds" JNull)
                       (where_ +:+ ".qualification_thresholds") in
  let! dependencies := string_tuple fields "dependencies" where_ in
  let! tenant_scope := optional_text fields "tenant_scope" where_ (Some TENANT_PATTERN) in
  let! privacy_class := enum_ PrivacyClasses fields "privacy_class" where_ in
  let! owner := text_ fields "owner" where_ None in
  let! lifecycle_state := enum_ LifecycleStates fields "lifecycle_state" where_ in
  raise_if negb (Bool.eqb (bool_decide (owning_scope = ScopeTENANT)) (negb (bool_decide (tenant_scope = None))))
    with EvalPackageError, (where_ +:+ ": tenant-scoped suites declare tenant_scope and only those may") ;;
  Ok {| sd_suite_id := suite_id; sd_suite_version := suite_version; sd_owning_scope := owning_scope;
        sd_capability_under_test := capability; sd_risk_class := risk_class;
        sd_case_manifests := case_manifests; sd_grader_manifests := grader_manifests;
        sd_attempt_policy := attempt_policy; sd_gate_intent := gate_intent;
        sd_inconclusive_policy := inconclusive; sd_qualification_thresholds := thresholds;
        sd_dependencies := dependencies; sd_tenant_scope := tenant_scope;
        sd_privacy_class := privacy_class; sd_owner := owner; sd_created_at := created_at;
        sd_last_reviewed_at := last_reviewed_at; sd_lifecycle_state := lifecycle_state;
        sd_manifest_sha256 := manifest_sha256 |}.
End manifests.

(** ** What parsing guarantees *)

(** [H : body = Ok x] for a body of binds and guards: every bound value gets a
    name and every guard its equation. *)
Ltac unwind H := repeat match type of H with
  | rbind ?m _ = Ok _ => let E := fresh "E" in destruct m eqn:E; cbn [rbind] in H; [|discriminate H]
  | (if ?b then Err _ else _) = Ok _ => let E := fresh "G" in destruct b eqn:E; [discriminate H|]
  | (if ?b then _ else Err _) = Ok _ => let E := fresh "G" in destruct b eqn:E; [|discriminate H]
  | (let _ := _ in _) = Ok _ => cbv zeta in H
  end.

Lemma integer_bounds payload key w lo hi z : integer_ payload key w lo hi = Ok z -> lo <= z <= hi.
Proof.
  unfold integer_. destruct (dict_get _ _) as [[]|]; try done.
  destruct (_ && _) eqn:G; [|done]. intros [= ->]. lia.
Qed.

Lemma attempt_policy_bounds payload w p :
  parse_attempt_policy payload w = Ok p -> 1 <= mp_attempts p <= 25 /\ 0 <= mp_infra_retry_limit p <= 10.
Proof.
  intros E. unfold parse_attempt_policy in E. unwind E. injection E as <-.
  split; eapply integer_bounds; eassumption.
Qed.

Lemma parse_case_policy `{IsoDate} payload w sha c :
  parse_case payload w sha = Ok c ->
  cd_manifest_sha256 c = sha /\ exists j w', parse_attempt_policy j w' = Ok (cd_attempt_policy c).
Proof.
  intros E. unfold parse_case in E. unwind E. injection E as <-. split; [done|]. eauto.
Qed.

Lemma parse_suite_sha `{IsoDate} payload w sha s : parse_suite payload w sha = Ok s -> sd_manifest_sha256 s = sha.
Proof. intros E. unfold parse_suite in E. unwind E. by injection E as <-. Qed.

Lemma parse_suite_manifests_in_repo `{IsoDate} payload w sha s :
  parse_suite payload w sha = Ok s ->
  existsb ref_is_holdout (sd_case_manifests s) = false /\ existsb ref_is_holdout (sd_grader_manifests s) = false.
Proof. intros E. unfold parse_suite in E. unwind E. injection E as <-. done. Qed.
