(* ===== verification/SuitePackage.v ===== *)
(** * Suite packages (fleet_kernel/eval_plane/suite_package.py, packages)

    From parsed manifests ([SuiteManifest]) to a validated package and a
    registry: the policies handed to the graders, the package lints, loading
    with every reference pinned by its digest, and the registry of suites. The
    repository is a function from paths to what a read of them finds;
    it does not change while a package is loaded. *)
From S2P Require Import Prelude PyStr PyFloat PyTime Json Sha256 PyIO PyPath JsonText PyValue EvalDomain Graders Aggregate SuiteManifest.
From stdpp Require Import base gmap strings list.
From Stdlib Require Import ZArith QArith NArith Lia.

Local Open Scope Z_scope.

(** ** What the graders are given *)

Section conversions.
  Context `{Digest}.

(* src: fleet_kernel/eval_plane/suite_package.py AttemptPolicy.to_grader_attempt_policy *)
Definition to_grader_attempt_policy (p : ManifestAttemptPolicy) (criticality : Criticality)
    : res AttemptPolicy :=
  raise_if bool_decide (criticality = CRITICAL)
           && negb (bool_decide (mp_aggregate_rule p = ALL_ATTEMPTS_PASS))
    with EvalPackageError, ("a critical case cannot aggregate on " +:+ repr (member_value AggregateRules (mp_aggregate_rule p))
      +:+ "; only 'all_attempts_pass' has a grader-layer equivalent that cannot average a critical failure away") ;;
  let attempts := Z.to_pos (mp_attempts p) in
  let '(rule, min_pass_rate) :=
    match mp_aggregate_rule p with
    | ALL_ATTEMPTS_PASS => (ALL_MUST_PASS, None)
    | MAJORITY_ATTEMPTS_PASS => (THRESHOLD, Some (truediv (mp_attempts p / 2 + 1) attempts))
    | ANY_ATTEMPT_PASSES => (THRESHOLD, Some (truediv 1 attempts))
    end in
  AttemptPolicy_post_init {|
    ap_attempts := mp_attempts p; ap_aggregate_rule := rule; ap_min_pass_rate := min_pass_rate;
    ap_sampling_config_digest :=
      digest_of (JObj [("sampling", JObj (mp_sampling p));
                       ("seed", match mp_seed p with Some z => JInt z | None => JNull end)]);
    ap_infrastructure_retry_limit := mp_infra_retry_limit p |}.
End conversions.

(* src: fleet_kernel/eval_plane/suite_package.py EvalSuiteDefinition.to_suite_policy *)
Definition to_suite_policy (s : EvalSuiteDefinition) : SuitePolicy := {|
  pol_gate_mode := sd_gate_intent s; pol_inconclusive_policy := sd_inconclusive_policy s;
  pol_noncritical_pass_threshold := min_case_pass_rate (sd_qualification_thresholds s) |}.

(** ** Lints *)

Definition repr_or_None (o : option string) : string := match o with Some x => repr x | None => "None" end.
Definition refs_repr (l : list ManifestReference) : string := strs_repr (map ref l).

(* src: fleet_kernel/eval_plane/suite_package.py _validate_holdout_containment *)
Definition validate_holdout_containment (c : EvalCaseDefinition) (where_ : string) : res unit :=
  raise_if bool_decide (cd_source_type c = SrcHOLDOUT) && negb (case_is_holdout c)
    with EvalPackageError, (where_ +:+ " has source_type 'holdout' but visibility is development") ;;
  if negb (case_is_holdout c) then
    let leaking := List.filter ref_is_holdout (all_references c) in
    raise_if negb (bool_decide (leaking = []))
      with EvalPackageError, (where_ +:+ " is a development case and may not use holdout references: "
        +:+ refs_repr leaking) ;;
    raise_if negb (bool_decide (cd_holdout_bundle_sha256 c = None))
      with EvalPackageError, (where_ +:+ " is a development case and declares a holdout bundle") ;;
    Ok tt
  else
    raise_if bool_decide (cd_holdout_bundle_sha256 c = None)
      with EvalPackageError, (where_ +:+ " is a holdout and must declare holdout_bundle_sha256") ;;
    require expected_is_empty (cd_expected c)
      else EvalPackageError, (where_ +:+ " is a holdout: expected behavior is the answer key and must live in the "
        +:+ "holdout bundle, not in the target-readable package") ;;
    raise_if negb (bool_decide (cd_source_evidence c = []))
      with EvalPackageError, (where_ +:+ " is a holdout: source evidence describes the exam and must not be in-repo") ;;
    raise_if match cd_skill_selection_target c with Some _ => true | None => false end
      with EvalPackageError, (where_ +:+ " is a holdout: the evaluated skill-selection target is bundle-served") ;;
    raise_if bool_decide (cd_input_fixture c = None)
      with EvalPackageError, (where_ +:+ " is a holdout and must declare a holdout input fixture") ;;
    let in_repo := List.filter (fun r => negb (ref_is_holdout r)) (all_references c) in
    raise_if negb (bool_decide (in_repo = []))
      with EvalPackageError, (where_ +:+ " is a holdout: every fixture and grader must be served by the "
        +:+ "HoldoutProvider, but these resolve inside the repository: " +:+ refs_repr in_repo) ;;
    let mismatched :=
      List.filter (fun r => negb (bool_decide (Some (ref_sha256 r) = cd_holdout_bundle_sha256 c))) (all_references c) in
    raise_if negb (bool_decide (mismatched = []))
      with EvalPackageError, (where_ +:+ " holdout references must be bound to holdout_bundle_sha256: "
        +:+ refs_repr mismatched) ;;
    let foreign := List.filter (fun r => negb (bundle_of (ref r) =? cd_case_id c)%string) (all_references c) in
    raise_if negb (bool_decide (foreign = []))
      with EvalPackageError, (where_ +:+ " may only reference its own holdout bundle, not: " +:+ refs_repr foreign) ;;
    Ok tt.

(* src: fleet_kernel/eval_plane/suite_package.py _validate_case_policy *)
Definition validate_case_policy (c : EvalCaseDefinition) (s : EvalSuiteDefinition) (where_ : string) : res unit :=
  raise_if negb (cd_suite_id c =? sd_suite_id s)%string
    with EvalPackageError, (where_ +:+ " declares suite_id " +:+ repr (cd_suite_id c) +:+ " but sits in "
      +:+ repr (sd_suite_id s)) ;;
  raise_if mp_attempts (cd_attempt_policy c) <? ATTEMPT_FLOOR (cd_risk_class c)
    with EvalPackageError, (where_ +:+ ": risk class " +:+ member_value RiskClasses (cd_risk_class c) +:+ " requires at least "
      +:+ str_Z (ATTEMPT_FLOOR (cd_risk_class c)) +:+ " retained attempts, got "
      +:+ str_Z (mp_attempts (cd_attempt_policy c))) ;;
  raise_if bool_decide (cd_criticality c = CRITICAL)
           && negb (bool_decide (mp_critical_failure_rule (cd_attempt_policy c) = SINGLE_OCCURRENCE_FAILS))
    with EvalPackageError, (where_ +:+ ": a critical case must fail the target on a single occurrence") ;;
  raise_if bool_decide (cd_criticality c = CRITICAL)
           && negb (bool_decide (mp_aggregate_rule (cd_attempt_policy c) = ALL_ATTEMPTS_PASS))
    with EvalPackageError, (where_ +:+ ": a critical case must aggregate on all_attempts_pass, not "
      +:+ member_value AggregateRules (mp_aggregate_rule (cd_attempt_policy c)) +:+ " " +:+ emdash
      +:+ " a majority or any-pass rule would let passing attempts average away a critical failure, which "
      +:+ "graders.CaseResult refuses at grading time and which must not be authorable here either") ;;
  let private := bool_decide (cd_privacy_class c = PrivTENANT_PRIVATE) in
  raise_if negb (Bool.eqb private (negb (bool_decide (cd_tenant_scope c = None))))
    with EvalPackageError, (where_ +:+ ": tenant-private cases declare tenant_scope and only those may") ;;
  raise_if private && negb (bool_decide (sd_owning_scope s = ScopeTENANT))
    with EvalPackageError, (where_ +:+ ": a tenant-private case cannot live in a "
      +:+ member_value OwningScopes (sd_owning_scope s)
      +:+ " suite, which would let a shared suite enumerate tenant-private cases") ;;
  raise_if private && negb (bool_decide (cd_tenant_scope c = sd_tenant_scope s))
    with EvalPackageError, (where_ +:+ ": tenant " +:+ repr_or_None (cd_tenant_scope c) +:+ " does not match suite tenant "
      +:+ repr_or_None (sd_tenant_scope s)) ;;
  raise_if is_skill_selection s && bool_decide (cd_lifecycle_state c = LifeACTIVE)
           && negb (case_is_holdout c)
           && match cd_skill_selection_target c with None => true | Some _ => false end
    with EvalPackageError, (where_ +:+ ": a skill-selection case must record the evaluated target manifest "
      +:+ "(skill descriptions, tool descriptions, host instructions, available tools, "
      +:+ "model configuration, harness version)") ;;
  Ok tt.

Definition case_key (c : EvalCaseDefinition) : string * Z := (cd_case_id c, cd_case_version c).
Definition retired (c : EvalCaseDefinition) : bool := existsb (fun x => bool_decide (cd_lifecycle_state c = x)) RETIRED_STATES.

(** [for item in l: check(item)]. *)
Fixpoint each {A} (check : A -> res unit) (l : list A) : res unit :=
  match l with [] => Ok tt | x :: r => let! _ := check x in each check r end.

(** The distinct case ids, in order of first occurrence: the keys of [by_id]. *)
Fixpoint first_occurrences (l : list string) : list string :=
  match l with
  | [] => []
  | x :: r => x :: List.filter (fun y => negb (y =? x)%string) (first_occurrences r)
  end.

(** The first loop of [_validate_lineage]. *)
(* src: fleet_kernel/eval_plane/suite_package.py _validate_lineage@1-8 *)
Fixpoint declared_once (seen : list (string * Z)) (cases : list EvalCaseDefinition) : res unit :=
  match cases with
  | [] => Ok tt
  | c :: rest =>
      raise_if bool_decide (case_key c ∈ seen)
        with EvalPackageError, ("case " +:+ case_qualified_id c +:+ " is declared twice in one suite") ;;
      declared_once (case_key c :: seen) rest
  end.

(* src: fleet_kernel/eval_plane/suite_package.py _validate_lineage *)
Definition validate_lineage (cases : list EvalCaseDefinition) : res unit :=
  let! _ := declared_once [] cases in
  let known := map cd_case_id cases in
  let knows id := existsb (String.eqb id) known in
  each (fun case_id =>
    let versions := List.filter (fun c => (cd_case_id c =? case_id)%string) cases in
    let live := List.filter (fun c => negb (retired c)) versions in
    raise_if (1 <? List.length live)%nat
      with EvalPackageError, ("case " +:+ case_id +:+ " has " +:+ str_nat (List.length live)
        +:+ " non-retired versions; exactly one may be live") ;;
    each (fun c =>
      raise_if retired c && bool_decide (cd_superseded_by c = None)
        with EvalPackageError, ("case " +:+ case_qualified_id c +:+ " is "
          +:+ member_value LifecycleStates (cd_lifecycle_state c) +:+ " and must name the case that superseded it") ;;
      raise_if match cd_superseded_by c with Some id => negb (knows id) | None => false end
        with EvalPackageError, ("case " +:+ case_qualified_id c +:+ " is superseded by unknown case "
          +:+ repr_or_None (cd_superseded_by c)) ;;
      let unknown := List.filter (fun id => negb (knows id)) (cd_supersedes c) in
      raise_if negb (bool_decide (unknown = []))
        with EvalPackageError, ("case " +:+ case_qualified_id c +:+ " supersedes unknown cases: " +:+ strs_repr unknown) ;;
      Ok tt) versions) (first_occurrences known).

(** [{item.ref: item.sha256 for item in suite.grader_manifests}]: a later entry wins. *)
Definition declared_graders (s : EvalSuiteDefinition) : list (string * string) :=
  fold_left (fun d r => dict_put (ref r) (ref_sha256 r) d) (sd_grader_manifests s) [].

(* src: fleet_kernel/eval_plane/suite_package.py _validate_grader_coverage *)
Definition validate_grader_coverage (s : EvalSuiteDefinition) (cases : list EvalCaseDefinition) : res unit :=
  each (fun c => if case_is_holdout c then Ok tt else
    each (fun g =>
      match dict_get (ref (ga_manifest g)) (declared_graders s) with
      | None => bad ("case " +:+ case_qualified_id c +:+ " uses grader manifest " +:+ ref (ga_manifest g)
                  +:+ " that suite " +:+ suite_qualified_id s +:+ " does not declare")
      | Some expected =>
          require (expected =? ref_sha256 (ga_manifest g))%string
            else EvalPackageError, ("case " +:+ case_qualified_id c +:+ " pins grader " +:+ ref (ga_manifest g)
              +:+ " at a different hash than suite " +:+ suite_qualified_id s) ;;
          Ok tt
      end) (cd_graders c)) cases.

Section loading.
  Context `{Digest} `{IsoDate} `{JsonLimits}.
  Variable fs : string -> file_read.
  (** A path other than ["."] and ["/"]. *)
  Variable repo_root : string.

(* src: fleet_kernel/eval_plane/suite_package.py ManifestReference.resolve *)
Definition resolve (r : ManifestReference) : res string :=
  raise_if ref_is_holdout r
    with EvalPackageError, ("holdout reference " +:+ ref r +:+ " has no repository path") ;;
  Ok (repo_root +:+ "/" +:+ ref r).

(* src: fleet_kernel/eval_plane/suite_package.py _validate_referenced_files *)
Definition validate_referenced_files (references : list (string * ManifestReference)) : res unit :=
  each (fun '(where_, r) => if ref_is_holdout r then Ok tt else
    let! path := resolve r in
    match fs path with
    | Missing => bad (where_ +:+ " references " +:+ ref r +:+ ", which does not exist under " +:+ repo_root)
    | Unreadable => bad (where_ +:+ " references unreadable file " +:+ ref r)
    | Bytes raw =>
        require (digest raw =? ref_sha256 r)%string
          else EvalPackageError, (where_ +:+ " pins " +:+ ref r +:+ " at " +:+ ref_sha256 r
            +:+ " but the file hashes to " +:+ digest raw) ;;
        Ok tt
    end) references.

(** The abstract provider: both methods may raise. *)
(* src: fleet_kernel/eval_plane/holdout_provider.py HoldoutProvider *)
Record HoldoutProvider := { has_case : string -> res bool; bundle_digest : string -> res string }.

(* src: fleet_kernel/eval_plane/suite_package.py validate_package *)
Definition validate_package (s : EvalSuiteDefinition) (cases : list EvalCaseDefinition)
    (provider : option HoldoutProvider) : res bool :=
  let! _ := validate_lineage cases in
  let! _ := each (fun c =>
    let where_ := "case " +:+ case_qualified_id c in
    let! _ := validate_case_policy c s where_ in
    validate_holdout_containment c where_) cases in
  let! _ := validate_grader_coverage s cases in
  raise_if bool_decide (sd_gate_intent s = GateBLOCKING)
           && negb (existsb (fun c => bool_decide (cd_criticality c = CRITICAL)
                                      && bool_decide (cd_lifecycle_state c = LifeACTIVE)) cases)
    with EvalPackageError, ("suite " +:+ suite_qualified_id s +:+ " is blocking but declares no active critical case") ;;
  let! _ := validate_referenced_files (
    map (fun r => ("suite " +:+ suite_qualified_id s, r)) (sd_grader_manifests s)
    ++ flat_map (fun c => map (fun r => ("case " +:+ case_qualified_id c, r)) (all_references c)) cases) in
  let holdouts := List.filter case_is_holdout cases in
  match holdouts, provider with
  | [], _ => Ok true
  | _, None => Ok false
  | _, Some p =>
      let! _ := each (fun c =>
        let! present := has_case p (cd_case_id c) in
        require present
          else EvalPackageError, ("case " +:+ case_qualified_id c +:+ " is a holdout but no bundle is provisioned") ;;
        let! d := bundle_digest p (cd_case_id c) in
        require bool_decide (Some d = cd_holdout_bundle_sha256 c)
          else EvalPackageError, ("case " +:+ case_qualified_id c +:+ " pins holdout bundle " +:+ default "None" (cd_holdout_bundle_sha256 c)
            +:+ " but the provisioned bundle hashes to " +:+ d) ;;
        Ok tt) holdouts in
      Ok true
  end.

(** ** Loading *)

(* src: fleet_kernel/eval_plane/suite_package.py EvalSuitePackage *)
Record EvalSuitePackage := {
  pk_suite : EvalSuiteDefinition;
  pk_cases : list EvalCaseDefinition;
  pk_package_sha256 : string;
  pk_holdout_binding_verified : bool;
}.

(* src: fleet_kernel/eval_plane/suite_package.py EvalSuitePackage.holdout_cases *)
Definition holdout_cases (p : EvalSuitePackage) : list EvalCaseDefinition := List.filter case_is_holdout (pk_cases p).

(* src: fleet_kernel/eval_plane/suite_package.py EvalSuitePackage.case *)
Definition package_case (p : EvalSuitePackage) (case_id : string) : res EvalCaseDefinition :=
  match List.find (fun c => (cd_case_id c =? case_id)%string) (pk_cases p) with
  | Some c => Ok c
  | None => bad ("case " +:+ case_id +:+ " is not part of " +:+ suite_qualified_id (pk_suite p))
  end.

(** Only a decoding error is turned into an [EvalPackageError]; [loads] may
    raise other [ValueError]s. *)
(* src: fleet_kernel/eval_plane/suite_package.py _read_manifest *)
Definition read_manifest (path where_ : string) : res (json * string) :=
  match fs path with
  | Missing => bad (where_ +:+ " references missing file " +:+ path)
  | Unreadable => bad (where_ +:+ " references unreadable file " +:+ path)
  | Bytes raw =>
      let non_json := bad (where_ +:+ " references non-JSON file " +:+ path) in
      match utf8_decode (chars raw) with
      | None => non_json
      | Some t =>
          match loads t with
          | Ok payload => Ok (payload, digest raw)
          | Err e => if is_subclass (exn_class e) JSONDecodeError then non_json else Err e
          end
      end
  end.

(** The loop over [suite.case_manifests]. *)
(* src: fleet_kernel/eval_plane/suite_package.py load_suite_package@14-29 *)
Fixpoint load_cases (s : EvalSuiteDefinition) (refs : list ManifestReference) : res (list EvalCaseDefinition) :=
  match refs with
  | [] => Ok []
  | r :: rest =>
      require endswith (ref r) ".case.json"
        else EvalPackageError, ("case manifests must end in .case.json: " +:+ ref r) ;;
      let! path := resolve r in
      let where_ := "suite " +:+ suite_qualified_id s +:+ " case_manifest " +:+ ref r in
      let! (payload, sha) := read_manifest path where_ in
      require (sha =? ref_sha256 r)%string
        else EvalPackageError, (where_ +:+ " is pinned at " +:+ ref_sha256 r +:+ " but hashes to " +:+ sha) ;;
      let! c := parse_case payload where_ sha in
      let! cs := load_cases s rest in Ok (c :: cs)
  end.

(** [sorted] of the case triples. *)
Definition triple_leb (a b : string * Z * string) : bool :=
  let '(i, v, h) := a in let '(i', v', h') := b in
  if negb (i =? i')%string then key_leb (chars i) (chars i')
  else if negb (v =? v') then v <? v' else key_leb (chars h) (chars h').
Fixpoint insert_triple (x : string * Z * string) (l : list (string * Z * string)) : list (string * Z * string) :=
  match l with [] => [x] | y :: r => if triple_leb x y then x :: l else y :: insert_triple x r end.
Definition case_triple (c : EvalCaseDefinition) : string * Z * string :=
  (cd_case_id c, cd_case_version c, cd_manifest_sha256 c).
Definition case_triples (cases : list EvalCaseDefinition) : list (string * Z * string) :=
  foldr insert_triple [] (map case_triple cases).

Definition package_payload (s : EvalSuiteDefinition) (cases : list EvalCaseDefinition) : json :=
  JObj [("suite", JStr (suite_qualified_id s)); ("suite_sha256", JStr (sd_manifest_sha256 s));
        ("cases", JArr (map (fun '(i, v, h) => JArr [JStr i; JInt v; JStr h]) (case_triples cases)))].

(** [name] is the file's name, [path] the path it is read from. *)
(* src: fleet_kernel/eval_plane/suite_package.py load_suite_package *)
Definition load_suite_package (name path : string) (provider : option HoldoutProvider) : res EvalSuitePackage :=
  require endswith name ".suite.json"
    else EvalPackageError, ("suite manifests must end in .suite.json: " +:+ path) ;;
  let! (payload, sha) := read_manifest path "suite manifest" in
  let! s := parse_suite payload ("suite " +:+ name) sha in
  let! cases := load_cases s (sd_case_manifests s) in
  let! verified := validate_package s cases provider in
  Ok {| pk_suite := s; pk_cases := cases; pk_package_sha256 := digest_of (package_payload s cases);
        pk_holdout_binding_verified := verified |}.

(** ** The registry *)

(* src: fleet_kernel/eval_plane/suite_package.py EvalSuiteRegistry *)
Definition EvalSuiteRegistry := list EvalSuitePackage.

(* src: fleet_kernel/eval_plane/suite_package.py EvalSuiteRegistry.package *)
Definition registry_package (r : EvalSuiteRegistry) (qualified : string) : res EvalSuitePackage :=
  match List.find (fun p => (suite_qualified_id (pk_suite p) =? qualified)%string) r with
  | Some p => Ok p
  | None => bad ("no suite " +:+ qualified +:+ " in registry")
  end.

(** [case_owners] and [case_hashes], with [setdefault]. *)
Record owners := { case_owners : gmap string string; case_hashes : gmap (string * Z) string }.

(* src: fleet_kernel/eval_plane/suite_package.py load_suite_registry@20-31 *)
Fixpoint claim_cases (qualified : string) (o : owners) (cases : list EvalCaseDefinition) : res owners :=
  match cases with
  | [] => Ok o
  | c :: rest =>
      let owner := default qualified (case_owners o !! cd_case_id c) in
      require (owner =? qualified)%string
        else EvalPackageError, ("case " +:+ cd_case_id c +:+ " is claimed by both " +:+ owner +:+ " and " +:+ qualified) ;;
      let known := default (cd_manifest_sha256 c) (case_hashes o !! case_key c) in
      require (known =? cd_manifest_sha256 c)%string
        else EvalPackageError, ("case " +:+ case_qualified_id c +:+ " has contradictory definitions across the registry") ;;
      claim_cases qualified {| case_owners := <[cd_case_id c := owner]> (case_owners o);
                               case_hashes := <[case_key c := known]> (case_hashes o) |} rest
  end.

(** [files] are the suite files found under the root, sorted: name and path. *)
(* src: fleet_kernel/eval_plane/suite_package.py load_suite_registry@12-32 *)
Fixpoint load_suites (provider : option HoldoutProvider) (seen : list string) (o : owners)
    (files : list (string * string)) : res EvalSuiteRegistry :=
  match files with
  | [] => Ok []
  | (name, path) :: rest =>
      let! package := load_suite_package name path provider in
      let qualified := suite_qualified_id (pk_suite package) in
      raise_if existsb (String.eqb qualified) seen
        with EvalPackageError, ("suite " +:+ qualified +:+ " is declared more than once") ;;
      let! o' := claim_cases qualified o (pk_cases package) in
      let! packages := load_suites provider (qualified :: seen) o' rest in
      Ok (package :: packages)
  end.

(* src: fleet_kernel/eval_plane/suite_package.py load_suite_registry *)
Definition load_suite_registry (provider : option HoldoutProvider) (files : list (string * string))
    : res EvalSuiteRegistry :=
  load_suites provider [] {| case_owners := ∅; case_hashes := ∅ |} files.
End loading.

(** ** Reading the lints backwards *)

Lemma each_ok {A} (check : A -> res unit) l : each check l = Ok tt <-> Forall (fun x => check x = Ok tt) l.
Proof.
  induction l as [|x l IH]; simpl; [by split; [constructor|]|].
  rewrite Forall_cons, <- IH. destruct (check x) as [[]|] eqn:E; simpl; naive_solver.
Qed.

Lemma each_ok_tt {A} (check : A -> res unit) l u : each check l = Ok u -> Forall (fun x => check x = Ok tt) l.
Proof. destruct u. apply each_ok. Qed.

Lemma filter_nil_forall {A} (f : A -> bool) l : List.filter f l = [] <-> forall x, x ∈ l -> f x = false.
Proof.
  induction l as [|x l IH]; simpl; [by split; [intros _ x ?%elem_of_nil|]|]. destruct (f x) eqn:E.
  - split; [done|]. intros H. rewrite H in E by left. done.
  - rewrite IH. setoid_rewrite elem_of_cons. naive_solver.
Qed.

Lemma declared_once_nodup seen cases :
  declared_once seen cases = Ok tt -> NoDup (map case_key cases) /\ forall c, c ∈ cases -> case_key c ∉ seen.
Proof.
  revert seen. induction cases as [|c cases IH]; intros seen; simpl; [by split; [constructor|set_solver]|].
  rewrite raise_if_ok. intros [G H]. apply bool_decide_eq_false in G.
  apply IH in H as [ND HS]. split.
  - constructor; [|done]. intros Hin. apply list_elem_of_In, in_map_iff in Hin as (d & Hd & Hin).
    apply (HS d); [by apply list_elem_of_In|]. rewrite Hd. left.
  - intros d [->|Hd]%elem_of_cons; [done|]. specialize (HS d Hd). set_solver.
Qed.

Lemma elem_of_first_occurrences x l : x ∈ first_occurrences l <-> x ∈ l.
Proof.
  induction l as [|y l IH]; simpl; [done|]. rewrite !elem_of_cons, !list_elem_of_In, filter_In, <- list_elem_of_In, IH.
  destruct (String.eqb_spec x y); simpl; rewrite ?list_elem_of_In; naive_solver.
Qed.

(** What [validate_holdout_containment] leaves of a case. *)
Definition contained (c : EvalCaseDefinition) : Prop :=
  if case_is_holdout c then
    cd_expected c = {| must := []; must_not := []; may := []; acceptable_outcomes := [];
                       escalation_conditions := []; forbidden_effects := [] |}
    /\ cd_source_evidence c = [] /\ cd_skill_selection_target c = None /\ cd_input_fixture c <> None
    /\ (exists sha, cd_holdout_bundle_sha256 c = Some sha
         /\ forall r, r ∈ all_references c ->
              ref_is_holdout r = true /\ ref_sha256 r = sha /\ bundle_of (ref r) = cd_case_id c)
  else
    cd_source_type c <> SrcHOLDOUT /\ cd_holdout_bundle_sha256 c = None
    /\ forall r, r ∈ all_references c -> ref_is_holdout r = false.

Lemma expected_empty e : expected_is_empty e = true ->
  e = {| must := []; must_not := []; may := []; acceptable_outcomes := [];
         escalation_conditions := []; forbidden_effects := [] |}.
Proof.
  destruct e. unfold expected_is_empty. simpl. rewrite !andb_true_iff, !bool_decide_eq_true.
  intros (-> & -> & -> & -> & -> & -> & _). done.
Qed.

Lemma containment_ok c w : validate_holdout_containment c w = Ok tt -> contained c.
Proof.
  unfold validate_holdout_containment, contained. destruct (case_is_holdout c) eqn:V; cbn [negb]; cbv zeta;
    repeat first [rewrite raise_if_ok | rewrite require_ok]; bools.
  - intros (_ & Hsha & Hexp & Hev & Ht & Hfix & Hin & Hmis & Hfor & _).
    destruct (cd_holdout_bundle_sha256 c) as [sha|]; [|done].
    split; [by apply expected_empty|]. split; [done|].
    split; [by destruct (cd_skill_selection_target c)|]. split; [done|]. exists sha. split; [done|].
    rewrite filter_nil_forall in Hin, Hmis, Hfor. intros r Hr.
    specialize (Hin r Hr). specialize (Hmis r Hr). specialize (Hfor r Hr).
    apply negb_false_iff in Hin, Hmis, Hfor. apply bool_decide_eq_true in Hmis.
    apply String.eqb_eq in Hfor. by injection Hmis.
  - intros (Hsrc & Hleak & Hb & _). rewrite filter_nil_forall in Hleak. naive_solver.
Qed.

(** What [_validate_case_policy] leaves of a case in its suite. *)
Definition policed (s : EvalSuiteDefinition) (c : EvalCaseDefinition) : Prop :=
  cd_suite_id c = sd_suite_id s
  /\ ATTEMPT_FLOOR (cd_risk_class c) <= mp_attempts (cd_attempt_policy c)
  /\ (cd_criticality c = CRITICAL ->
        mp_critical_failure_rule (cd_attempt_policy c) = SINGLE_OCCURRENCE_FAILS
        /\ mp_aggregate_rule (cd_attempt_policy c) = ALL_ATTEMPTS_PASS)
  /\ (cd_privacy_class c = PrivTENANT_PRIVATE <-> cd_tenant_scope c <> None)
  /\ (cd_privacy_class c = PrivTENANT_PRIVATE ->
        sd_owning_scope s = ScopeTENANT /\ cd_tenant_scope c = sd_tenant_scope s)
  /\ (is_skill_selection s = true -> cd_lifecycle_state c = LifeACTIVE -> case_is_holdout c = false ->
        cd_skill_selection_target c <> None).

Lemma case_policy_ok c s w : validate_case_policy c s w = Ok tt -> policed s c.
Proof.
  unfold validate_case_policy, policed. cbv zeta.
  repeat first [rewrite raise_if_ok | rewrite require_ok]. bools. rewrite Z.ltb_ge.
  intros (Hs & Hf & Hc & Ha & Hp & Ho & Ht & Hk & _).
  split; [done|]. split; [done|]. split; [naive_solver|]. split; [|split; [naive_solver|]].
  - revert Hp. destruct (cd_tenant_scope c); repeat case_bool_decide; simpl; naive_solver.
  - intros K L V. specialize (Hk (conj (conj K L) V)). by destruct (cd_skill_selection_target c).
Qed.

(** What [_validate_lineage] leaves of the cases of a suite. *)
Definition lineage (cases : list EvalCaseDefinition) : Prop :=
  NoDup (map case_key cases)
  /\ (forall c d, c ∈ cases -> d ∈ cases -> cd_case_id c = cd_case_id d ->
        retired c = false -> retired d = false -> c = d)
  /\ (forall c, c ∈ cases ->
        (retired c = true -> cd_superseded_by c <> None)
        /\ (forall id, cd_superseded_by c = Some id \/ id ∈ cd_supersedes c ->
              exists d, d ∈ cases /\ cd_case_id d = id)).

Lemma short_list_eq {A} (l : list A) x y : (List.length l <= 1)%nat -> x ∈ l -> y ∈ l -> x = y.
Proof. destruct l as [|a [|b l]]; simpl; [set_solver| |lia]. by intros _ ->%list_elem_of_singleton ->%list_elem_of_singleton. Qed.

Lemma nodup_map_inj {A B} (f : A -> B) (l : list A) :
  NoDup (map f l) -> forall x y, x ∈ l -> y ∈ l -> f x = f y -> x = y.
Proof.
  intros ND x y [i Hi]%list_elem_of_lookup [j Hj]%list_elem_of_lookup E.
  assert (i = j) as <-; [|congruence]. eapply NoDup_lookup; [exact ND| |];
    rewrite list_lookup_fmap; [by rewrite Hi|rewrite Hj; simpl; by rewrite E].
Qed.

Lemma all_or {A} (P : A -> Prop) (Q : Prop) (l : list A) : (forall x, x ∈ l -> P x \/ Q) -> (forall x, x ∈ l -> P x) \/ Q.
Proof.
  induction l as [|x l IH]; intros Hl; [left; by intros x ?%elem_of_nil|].
  destruct (Hl x) as [Hx|]; [by left| |by right].
  destruct IH as [G|]; [intros y Hy; apply Hl; by right| |by right].
  left. intros y [->|Hy]%elem_of_cons; auto.
Qed.

Lemma elem_of_filter_l {A} (f : A -> bool) x l : x ∈ List.filter f l <-> x ∈ l /\ f x = true.
Proof. by rewrite !list_elem_of_In, filter_In. Qed.

Lemma elem_of_map_l {A B} (f : A -> B) y l : y ∈ map f l <-> exists x, x ∈ l /\ f x = y.
Proof. rewrite list_elem_of_In, in_map_iff. setoid_rewrite list_elem_of_In. naive_solver. Qed.

Lemma lineage_ok cases : validate_lineage cases = Ok tt -> lineage cases.
Proof.
  unfold validate_lineage. rewrite rbind_ok. intros ([] & [ND _]%declared_once_nodup & H%each_ok).
  rewrite Forall_forall in H. cbv zeta in H.
  assert (L : forall c, c ∈ cases ->
    (List.length (List.filter (fun c => negb (retired c))
       (List.filter (fun d => (cd_case_id d =? cd_case_id c)%string) cases)) <= 1)%nat
    /\ (retired c && bool_decide (cd_superseded_by c = None) = false)
    /\ (match cd_superseded_by c with Some id => negb (existsb (String.eqb id) (map cd_case_id cases)) | None => false end) = false
    /\ List.filter (fun id => negb (existsb (String.eqb id) (map cd_case_id cases))) (cd_supersedes c) = []).
  { intros c Hc. specialize (H (cd_case_id c)). rewrite elem_of_first_occurrences, elem_of_map_l in H.
    specialize (H (ex_intro _ c (conj Hc eq_refl))). apply raise_if_ok in H as [Hn H].
    split; [apply Nat.ltb_ge in Hn; exact Hn|]. apply each_ok in H. rewrite Forall_forall in H.
    specialize (H c). rewrite elem_of_filter_l, String.eqb_refl in H. specialize (H (conj Hc eq_refl)).
    apply raise_if_ok in H as [? H]. apply raise_if_ok in H as [? H]. apply raise_if_ok in H as [G _].
    apply negb_false_iff, bool_decide_eq_true in G. done. }
  clear H. split; [done|]. split.
  - intros c d Hc Hd Heq Rc Rd. destruct (L d Hd) as [Hlen _].
    eapply short_list_eq; [exact Hlen| |]; rewrite !elem_of_filter_l, ?Heq, ?Rc, ?Rd, String.eqb_refl; done.
  - intros c Hc. destruct (L c Hc) as (_ & Hr & Hs & Ha). split.
    + intros R N. rewrite R, N in Hr. done.
    + intros id [E|E]; [rewrite E in Hs; apply negb_false_iff in Hs|].
      * apply existsb_eqb, elem_of_map_l in Hs as (d & ? & ?). eauto.
      * rewrite filter_nil_forall in Ha. specialize (Ha id E). apply negb_false_iff, existsb_eqb, elem_of_map_l in Ha as (d & ? & ?).
        eauto.
Qed.

(** ** What a loaded package is *)

Section loaded.
  Context `{Digest} `{IsoDate} `{JsonLimits}.
  Implicit Types (fs : string -> file_read) (p : EvalSuitePackage) (s : EvalSuiteDefinition).

(** The references whose files [validate_package] hashes. *)
Definition package_references p : list ManifestReference :=
  sd_grader_manifests (pk_suite p) ++ flat_map all_references (pk_cases p).

Definition bytes_at fs (path : string) : list string := match fs path with Bytes raw => [raw] | _ => [] end.

(** The texts hashed for a package: its payload, its manifests, its files. *)
Definition hashed fs (repo_root path : string) p : list string :=
  dumps (C := utf8_codec) (package_payload (pk_suite p) (pk_cases p)) :: bytes_at fs path
  ++ flat_map (fun r => bytes_at fs (repo_root +:+ "/" +:+ ref r))
       (sd_case_manifests (pk_suite p) ++ package_references p).

(** What [repo_root / r] holds when [r] is pinned. *)
Definition pinned fs (repo_root : string) (r : ManifestReference) (raw : string) : Prop :=
  fs (repo_root +:+ "/" +:+ ref r) = Bytes raw /\ digest raw = ref_sha256 r.

Lemma read_manifest_ok fs path w j sha :
  read_manifest fs path w = Ok (j, sha) ->
  exists raw t, fs path = Bytes raw /\ utf8_decode (chars raw) = Some t /\ loads t = Ok j /\ sha = digest raw.
Proof.
  unfold read_manifest. destruct (fs path) as [raw| |]; try done. cbv zeta.
  destruct (utf8_decode _) as [t|] eqn:Et; [|done]. destruct (loads t) as [j'|e] eqn:El; [|by destruct (is_subclass _ _)].
  intros [= -> <-]. eauto 6.
Qed.

Lemma resolve_ok repo_root r path :
  resolve repo_root r = Ok path -> ref_is_holdout r = false /\ path = repo_root +:+ "/" +:+ ref r.
Proof. unfold resolve. rewrite raise_if_ok. naive_solver. Qed.

Definition case_where s (r : ManifestReference) : string :=
  "suite " +:+ suite_qualified_id s +:+ " case_manifest " +:+ ref r.

Lemma load_cases_ok fs repo_root s refs cases :
  load_cases fs repo_root s refs = Ok cases ->
  Forall2 (fun r c => exists raw t j, pinned fs repo_root r raw /\ utf8_decode (chars raw) = Some t
                        /\ loads t = Ok j /\ parse_case j (case_where s r) (ref_sha256 r) = Ok c) refs cases.
Proof.
  revert cases. induction refs as [|r refs IH]; intros cases E; simpl in E; [by injection E as <-|].
  apply require_ok in E as [_ E]. apply rbind_ok in E as (path & [_ ->]%resolve_ok & E). cbv zeta in E.
  apply rbind_ok in E as ([j sha] & (raw & t & F & D & L & ->)%read_manifest_ok & E).
  apply require_ok in E as [S%String.eqb_eq E]. apply rbind_ok in E as (c & P & E).
  apply rbind_ok in E as (cs & Hcs & [= <-]). constructor; [|by apply IH].
  exists raw, t, j. rewrite <- S. split; [by split|]. by split_and!.
Qed.

Lemma referenced_files_ok fs repo_root refs u :
  validate_referenced_files fs repo_root refs = Ok u ->
  forall w r, (w, r) ∈ refs -> ref_is_holdout r = false -> exists raw, pinned fs repo_root r raw.
Proof.
  intros E%each_ok_tt w r Hin Hr. rewrite Forall_forall in E. specialize (E _ Hin). simpl in E.
  rewrite Hr in E. apply rbind_ok in E as (path & [_ ->]%resolve_ok & E).
  destruct (fs _) as [raw| |] eqn:F; try done. apply require_ok in E as [S%String.eqb_eq _]. by exists raw.
Qed.

(** Every holdout's bundle is the one the provider serves. *)
Definition bound (provider : option HoldoutProvider) (cases : list EvalCaseDefinition) : Prop :=
  forall c, c ∈ cases -> case_is_holdout c = true -> exists hp sha,
    provider = Some hp /\ has_case hp (cd_case_id c) = Ok true
    /\ bundle_digest hp (cd_case_id c) = Ok sha /\ cd_holdout_bundle_sha256 c = Some sha.

(** Every branch of [validate_package] that returns. *)
Lemma validate_package_ok fs repo_root s cases provider b :
  validate_package fs repo_root s cases provider = Ok b ->
  lineage cases
  /\ (forall c, c ∈ cases -> policed s c /\ contained c)
  /\ (sd_gate_intent s = GateBLOCKING ->
        exists c, c ∈ cases /\ cd_criticality c = CRITICAL /\ cd_lifecycle_state c = LifeACTIVE)
  /\ (forall r, r ∈ sd_grader_manifests s ++ flat_map all_references cases -> ref_is_holdout r = false ->
        exists raw, pinned fs repo_root r raw)
  /\ (b = true -> bound provider cases).
Proof.
  intros E. unfold validate_package in E. apply rbind_ok in E as ([] & HL%lineage_ok & E).
  apply rbind_ok in E as (u & Hc%each_ok_tt & E). apply rbind_ok in E as (u2 & _ & E).
  apply raise_if_ok in E as [HB E]. apply rbind_ok in E as (u3 & HR & E). cbv zeta in *.
  split; [done|]. split; [|split; [|split]].
  - intros c Hin. rewrite Forall_forall in Hc. specialize (Hc c Hin). simpl in Hc.
    apply rbind_ok in Hc as ([] & ?%case_policy_ok & ?%containment_ok). done.
  - intros G. rewrite bool_decide_true in HB by done. simpl in HB. apply negb_false_iff, existsb_exists in HB as (c & Hin & G2).
    revert G2. bools. rewrite <- list_elem_of_In in Hin. naive_solver.
  - intros r Hr Hh. apply elem_of_app in Hr as [Hr|Hr].
    + eapply (referenced_files_ok _ _ _ _ HR); [|done]. apply elem_of_app. left. apply elem_of_map_l. eauto.
    + apply list_elem_of_In, in_flat_map in Hr as (c & Hc' & Hr').
      eapply (referenced_files_ok _ _ _ _ HR); [|done]. apply elem_of_app. right.
      apply list_elem_of_In, in_flat_map. exists c. split; [done|]. apply in_map_iff. eauto.
  - intros -> c Hin V. assert (Hf : c ∈ List.filter case_is_holdout cases) by by rewrite elem_of_filter_l.
    destruct (List.filter case_is_holdout cases) as [|x l]; [by apply elem_of_nil in Hf|].
    destruct provider as [hp|]; [|done]. apply rbind_ok in E as (u4 & HP%each_ok_tt & _).
    rewrite Forall_forall in HP. specialize (HP c Hf). simpl in HP.
    apply rbind_ok in HP as (present & Hp & HP). apply require_ok in HP as [-> HP].
    apply rbind_ok in HP as (d & Hd & HP). apply require_ok in HP as [Hs%bool_decide_eq_true _]. eauto 7.
Qed.

(** Everything a successful load establishes. *)
Lemma load_ok fs repo_root name path provider p :
  load_suite_package fs repo_root name path provider = Ok p ->
  (exists raw t j, fs path = Bytes raw /\ utf8_decode (chars raw) = Some t /\ loads t = Ok j
     /\ parse_suite j ("suite " +:+ name) (digest raw) = Ok (pk_suite p))
  /\ load_cases fs repo_root (pk_suite p) (sd_case_manifests (pk_suite p)) = Ok (pk_cases p)
  /\ validate_package fs repo_root (pk_suite p) (pk_cases p) provider = Ok (pk_holdout_binding_verified p)
  /\ pk_package_sha256 p = digest_of (package_payload (pk_suite p) (pk_cases p)).
Proof.
  intros E. unfold load_suite_package in E. apply require_ok in E as [_ E].
  apply rbind_ok in E as ([j sha] & (raw & t & F & D & L & ->)%read_manifest_ok & E).
  apply rbind_ok in E as (s & Hs & E). apply rbind_ok in E as (cs & Hcs & E).
  apply rbind_ok in E as (b & Hb & [= <-]). simpl. eauto 10.
Qed.

(** C12: A package that loads leaks no exam: what the target can read of a
    holdout case says neither what is expected nor where it came from, every
    reference of it leads to its own bundle under the digest the case pins,
    and the other cases touch no bundle; if the load says the binding was
    verified, the provider serves each of those digests. *)
Theorem holdouts_are_contained fs repo_root name path provider p :
  load_suite_package fs repo_root name path provider = Ok p ->
  (forall c, c ∈ pk_cases p -> contained c)
  /\ (forall r, r ∈ sd_case_manifests (pk_suite p) ++ sd_grader_manifests (pk_suite p) -> ref_is_holdout r = false)
  /\ (pk_holdout_binding_verified p = true -> bound provider (pk_cases p)).
Proof.
  intros ((raw & t & j & _ & _ & _ & P) & _ & V & _)%load_ok.
  apply validate_package_ok in V as (_ & HC & _ & _ & HB).
  apply parse_suite_manifests_in_repo in P as [P1 P2].
  split; [|split; [|done]]; [naive_solver|]. intros r Hr. apply not_true_iff_false. intros T.
  apply elem_of_app in Hr as [Hr|Hr]; [revert P1|revert P2]; apply not_false_iff_true, existsb_exists;
    exists r; by rewrite <- list_elem_of_In.
Qed.

Lemma hashed_case fs repo_root path p r raw :
  r ∈ sd_case_manifests (pk_suite p) ++ package_references p -> pinned fs repo_root r raw ->
  raw ∈ hashed fs repo_root path p.
Proof.
  intros Hr [F _]. unfold hashed. right. apply elem_of_app. right.
  apply list_elem_of_In, in_flat_map. exists r. split; [by apply list_elem_of_In|].
  unfold bytes_at. rewrite F. by left.
Qed.

(** Two hashed texts that collide, one of either package. *)
Definition clash (texts texts' : list string) : Prop := exists a b, a ∈ texts /\ b ∈ texts' /\ collides a b.

Lemma digest_agree texts texts' a b :
  a ∈ texts -> b ∈ texts' -> digest a = digest b -> a = b \/ clash texts texts'.
Proof. intros Ha Hb [->|N]%digest_inj; [by left|]. right. by exists a, b. Qed.

Lemma payload_suite_sha s cases s' cases' :
  dumps (C := utf8_codec) (package_payload s cases) = dumps (C := utf8_codec) (package_payload s' cases') ->
  sd_manifest_sha256 s = sd_manifest_sha256 s'.
Proof.
  assert (F : forall s cases, float_free (sort_keys (package_payload s cases)) = true).
  { intros s0 cases0. unfold package_payload. simpl. rewrite andb_true_r, forallb_forall.
    intros x (y & <- & Hy)%in_map_iff. apply in_map_iff in Hy as ([[i v] h] & <- & _). done. }
  intros E%dumps_inj; [|by apply F..]. unfold package_payload in E. simpl in E. by injection E.
Qed.

Lemma cases_agree fs fs' root root' s refs cases cases' texts texts' :
  load_cases fs root s refs = Ok cases -> load_cases fs' root' s refs = Ok cases' ->
  (forall r raw, r ∈ refs -> pinned fs root r raw -> raw ∈ texts) ->
  (forall r raw, r ∈ refs -> pinned fs' root' r raw -> raw ∈ texts') ->
  cases = cases' \/ clash texts texts'.
Proof.
  intros L1%load_cases_ok L2%load_cases_ok. revert cases' L2.
  induction L1 as [|r c refs cases A1 L1 IH]; intros cases' L2 T1 T2; inversion L2 as [|? c' ? cs' A2 L2']; subst; [by left|].
  destruct A1 as (raw & t & j & P1 & D1 & J1 & E1), A2 as (raw' & t' & j' & P2 & D2 & J2 & E2).
  destruct (digest_agree texts texts' raw raw') as [->|N]; [by eapply T1; [left|]|by eapply T2; [left|]| | |by right].
  { by rewrite (proj2 P1), (proj2 P2). }
  rewrite D1 in D2. injection D2 as <-. rewrite J1 in J2. injection J2 as <-. rewrite E1 in E2. injection E2 as <-.
  destruct (IH cs' L2') as [->|N]; [| |by left|by right]; intros ????; [eapply T1|eapply T2]; try done; by right.
Qed.

(** C13: The package digest stands for the whole exam: two loads of a suite
    file, from any two repositories, with the same [package_sha256] are of the
    same suite and cases, and every file they pin has the same bytes, unless
    two of the texts hashed for them collide. *)
Theorem package_digest_is_the_exam fs fs' root root' name path path' prov prov' p p' :
  load_suite_package fs root name path prov = Ok p ->
  load_suite_package fs' root' name path' prov' = Ok p' ->
  pk_package_sha256 p = pk_package_sha256 p' ->
  (pk_suite p = pk_suite p' /\ pk_cases p = pk_cases p'
   /\ forall r, r ∈ package_references p -> ref_is_holdout r = false ->
        exists raw, pinned fs root r raw /\ pinned fs' root' r raw)
  \/ clash (hashed fs root path p) (hashed fs' root' path' p').
Proof.
  intros L1%load_ok L2%load_ok ES.
  destruct L1 as ((raw & t & j & F1 & D1 & J1 & S1) & C1 & V1 & HS1), L2 as ((raw' & t' & j' & F2 & D2 & J2 & S2) & C2 & V2 & HS2).
  rewrite HS1, HS2 in ES.
  destruct (digest_agree (hashed fs root path p) (hashed fs' root' path' p') _ _ (list_elem_of_here _ _) (list_elem_of_here _ _) ES)
    as [E%payload_suite_sha|]; [|by right].
  rewrite (parse_suite_sha _ _ _ _ S1), (parse_suite_sha _ _ _ _ S2) in E.
  destruct (digest_agree (hashed fs root path p) (hashed fs' root' path' p') raw raw') as [->|]; [| |done| |by right].
  { right. apply elem_of_app. left. unfold bytes_at. rewrite F1. by left. }
  { right. apply elem_of_app. left. unfold bytes_at. rewrite F2. by left. }
  rewrite D1 in D2. injection D2 as <-. rewrite J1 in J2. injection J2 as <-. rewrite S1 in S2. injection S2 as ES2.
  pose proof C2 as C2'. rewrite <- ES2 in C2'.
  destruct (cases_agree _ _ _ _ _ _ _ _ (hashed fs root path p) (hashed fs' root' path' p') C1 C2') as [EC|]; [| | |by right].
  { intros r x Hr. apply hashed_case. apply elem_of_app. by left. }
  { intros r x Hr. apply hashed_case. apply elem_of_app. left. by rewrite <- ES2. }
  apply validate_package_ok in V1 as (_ & _ & _ & R1 & _), V2 as (_ & _ & _ & R2 & _).
  rewrite <- ES2, <- EC in R2.
  destruct (all_or (fun r => ref_is_holdout r = false -> exists raw, pinned fs root r raw /\ pinned fs' root' r raw)
              (clash (hashed fs root path p) (hashed fs' root' path' p')) (package_references p)) as [G|]; [|by left|by right].
  intros r Hr. destruct (ref_is_holdout r) eqn:Hh; [by left|].
  destruct (R1 r Hr Hh) as [x Hx], (R2 r Hr Hh) as [y Hy].
  assert (Hr' : r ∈ package_references p') by (unfold package_references; by rewrite <- ES2, <- EC).
  destruct (digest_agree (hashed fs root path p) (hashed fs' root' path' p') x y) as [<-|]; [| | |left; eauto|by right].
  - eapply hashed_case; [|done]. apply elem_of_app. by right.
  - eapply hashed_case; [|done]. apply elem_of_app. by right.
  - by rewrite (proj2 Hx), (proj2 Hy).
Qed.

(** What a suite author writes, as a count over the attempts. *)
Definition declared_verdict (rule : AggregateRule) (c : CaseResult) : bool :=
  match rule with
  | ALL_ATTEMPTS_PASS => is_nil (failed_attempts c)
  | MAJORITY_ATTEMPTS_PASS => (List.length (cr_attempts c) <? 2 * List.length (attempts_in PASS c))%nat
  | ANY_ATTEMPT_PASSES => (1 <=? List.length (attempts_in PASS c))%nat
  end.

(** The rate of [k] passes in [n] attempts reaches the one computed for the
    declared rule exactly when [k] does, through the float divisions. *)
Definition min_rate (rule : AggregateRule) (n : nat) : Q :=
  truediv (if bool_decide (rule = MAJORITY_ATTEMPTS_PASS) then Z.of_nat n / 2 + 1 else 1) (Pos.of_nat n).
Definition rate_exact (rule : AggregateRule) (n k : nat) : bool :=
  let q := min_rate rule n in
  Qltb 0 q && Qle_bool q 1 && negb (Qeq_bool q 0)
  && Bool.eqb (Qle_bool q (truediv (Z.of_nat k) (Pos.of_nat n)))
       (if bool_decide (rule = MAJORITY_ATTEMPTS_PASS) then (n <? 2 * k)%nat else (1 <=? k)%nat).

Lemma rates_exact rule n k : (1 <= n <= 25)%nat -> (k <= n)%nat -> rate_exact rule n k = true.
Proof.
  intros Hn Hk.
  assert (A : forallb (fun r => forallb (fun n => forallb (rate_exact r n) (seq 0 (S n))) (seq 1 25))
                [ALL_ATTEMPTS_PASS; MAJORITY_ATTEMPTS_PASS; ANY_ATTEMPT_PASSES] = true) by by vm_compute.
  rewrite forallb_forall in A. specialize (A rule). rewrite forallb_forall in A.
  specialize (A ltac:(by destruct rule; simpl; auto) n ltac:(apply in_seq; lia)). rewrite forallb_forall in A.
  apply A, in_seq. lia.
Qed.

Lemma grader_policy_ok n rule rate dg retries : 1 <= n -> 0 <= retries ->
  match rule, rate with
  | ALL_MUST_PASS, None => true
  | THRESHOLD, Some q => Qltb 0 q && Qle_bool q 1
  | _, _ => false
  end = true ->
  let gp := {| ap_attempts := n; ap_aggregate_rule := rule; ap_min_pass_rate := rate;
               ap_sampling_config_digest := dg; ap_infrastructure_retry_limit := retries |} in
  AttemptPolicy_post_init gp = Ok gp.
Proof.
  intros Hn Hr Hq. unfold AttemptPolicy_post_init. simpl.
  destruct (Z.ltb_spec n 1); [lia|]. destruct (Z.ltb_spec retries 0); [lia|].
  destruct rule, rate; try done. by rewrite Hq.
Qed.

Lemma threshold_exact rule n c :
  (1 <= n <= 25)%nat -> List.length (cr_attempts c) = n ->
  ap_aggregate_rule (cr_policy c) = THRESHOLD -> ap_min_pass_rate (cr_policy c) = Some (min_rate rule n) ->
  meets_threshold c = if bool_decide (rule = MAJORITY_ATTEMPTS_PASS)
    then (List.length (cr_attempts c) <? 2 * List.length (attempts_in PASS c))%nat
    else (1 <=? List.length (attempts_in PASS c))%nat.
Proof.
  intros Hn Hl HT Hq. unfold meets_threshold, pass_rate. rewrite HT, Hq, Hl.
  pose proof (rates_exact rule n (List.length (attempts_in PASS c)) Hn) as X.
  unfold rate_exact in X. cbv zeta in X.
  rewrite !andb_true_iff, negb_true_iff in X. destruct X as [[_ Hz] Hk].
  { rewrite <- Hl. apply filter_length_le. }
  rewrite Hz. by apply Bool.eqb_prop in Hk.
Qed.

Lemma min_rate_ok rule n : (1 <= n <= 25)%nat -> Qltb 0 (min_rate rule n) && Qle_bool (min_rate rule n) 1 = true.
Proof.
  intros Hn. pose proof (rates_exact rule n 0 Hn ltac:(lia)) as X. unfold rate_exact in X. cbv zeta in X.
  rewrite !andb_true_iff in X. apply andb_true_iff. tauto.
Qed.

(** C14: The rates put in place of a declared rule say what the author wrote: a
    policy read from a manifest converts for every case that may carry it, into a
    policy the grader layer accepts for the same number of attempts, under
    which a case of that many attempts meets its threshold exactly when
    no attempt failed, more than half passed, or one did. *)
Theorem declared_rule_is_graded payload w mp criticality :
  parse_attempt_policy payload w = Ok mp ->
  (criticality = CRITICAL -> mp_aggregate_rule mp = ALL_ATTEMPTS_PASS) ->
  exists gp, to_grader_attempt_policy mp criticality = Ok gp
    /\ AttemptPolicy_post_init gp = Ok gp
    /\ ap_attempts gp = mp_attempts mp /\ ap_infrastructure_retry_limit gp = mp_infra_retry_limit mp
    /\ (criticality = CRITICAL -> ap_aggregate_rule gp = ALL_MUST_PASS)
    /\ forall c, cr_policy c = gp -> retained_attempts c = mp_attempts mp ->
         meets_threshold c = declared_verdict (mp_aggregate_rule mp) c.
Proof.
  intros [[N1 N2] [R1 _]]%attempt_policy_bounds HC. destruct (Z_of_nat_complete (mp_attempts mp)) as [m Em]; [lia|].
  assert (Hm : (1 <= m <= 25)%nat) by lia. rewrite Em in *. clear N1 N2.
  assert (HX : bool_decide (criticality = CRITICAL) && negb (bool_decide (mp_aggregate_rule mp = ALL_ATTEMPTS_PASS)) = false).
  { bools. done. }
  unfold to_grader_attempt_policy. rewrite HX, Em. clear HX. set (dg := digest_of _). clearbody dg. cbv zeta.
  assert (Hp : Z.to_pos (Z.of_nat m) = Pos.of_nat m) by lia. rewrite Hp.
  assert (HR : forall rule, rule <> ALL_ATTEMPTS_PASS -> mp_aggregate_rule mp = rule -> exists gp,
    AttemptPolicy_post_init {| ap_attempts := Z.of_nat m; ap_aggregate_rule := THRESHOLD;
      ap_min_pass_rate := Some (min_rate rule m); ap_sampling_config_digest := dg;
      ap_infrastructure_retry_limit := mp_infra_retry_limit mp |} = Ok gp
    /\ AttemptPolicy_post_init gp = Ok gp /\ ap_attempts gp = Z.of_nat m
    /\ ap_infrastructure_retry_limit gp = mp_infra_retry_limit mp
    /\ (criticality = CRITICAL -> ap_aggregate_rule gp = ALL_MUST_PASS)
    /\ forall c, cr_policy c = gp -> retained_attempts c = Z.of_nat m -> meets_threshold c = declared_verdict rule c).
  { intros rule NA Hrule. eexists. split; [apply grader_policy_ok; [lia|lia|by apply min_rate_ok]|].
    split; [apply grader_policy_ok; [lia|lia|by apply min_rate_ok]|]. simpl. split; [done|]. split; [done|].
    split; [intros Hc; by rewrite (HC Hc) in Hrule; congruence|]. unfold retained_attempts. intros c Hc Hl.
    rewrite (threshold_exact rule m c); [by destruct rule|done|lia|by rewrite Hc|by rewrite Hc]. }
  destruct (mp_aggregate_rule mp) eqn:Hr; [|by apply (HR MAJORITY_ATTEMPTS_PASS)|by apply (HR ANY_ATTEMPT_PASSES)].
  eexists. split; [by apply grader_policy_ok; [lia|lia|]|]. split; [by apply grader_policy_ok; [lia|lia|]|].
  simpl. split; [done|]. split; [done|]. split; [done|]. intros c Hc _. unfold meets_threshold. by rewrite Hc.
Qed.

(** A loaded case keeps to the suite's policy: it belongs to the suite,
    declares between its risk floor and 25 attempts, is critical only with the rules that
    cannot average a failure away, is tenant-private only in that tenant's
    suite; of the versions of a case at most one is live, a retired one names
    a successor, and whoever it names is in the package. A blocking suite has
    an active critical case. *)
Theorem loaded_cases_are_policed fs repo_root name path provider p :
  load_suite_package fs repo_root name path provider = Ok p ->
  lineage (pk_cases p)
  /\ (forall c, c ∈ pk_cases p -> policed (pk_suite p) c /\ mp_attempts (cd_attempt_policy c) <= 25)
  /\ (sd_gate_intent (pk_suite p) = GateBLOCKING ->
        exists c, c ∈ pk_cases p /\ cd_criticality c = CRITICAL /\ cd_lifecycle_state c = LifeACTIVE).
Proof.
  intros (_ & C & V & _)%load_ok. apply validate_package_ok in V as (HL & HC & HB & _).
  split; [done|]. split; [|done]. intros c Hc. split; [by apply HC|].
  apply load_cases_ok in C. apply list_elem_of_lookup in Hc as [i Hi].
  destruct (Forall2_lookup_r _ _ _ _ _ C Hi) as (r & _ & raw & t & j & _ & _ & _ & P).
  apply parse_case_policy in P as (_ & j' & w' & [? _]%attempt_policy_bounds). lia.
Qed.

(** *** The registry *)

Definition owns (o : owners) (qualified : string) p : Prop :=
  forall c, c ∈ pk_cases p -> case_owners o !! cd_case_id c = Some qualified.

Lemma claim_cases_ok qualified o cases o' :
  claim_cases qualified o cases = Ok o' ->
  case_owners o ⊆ case_owners o' /\ forall c, c ∈ cases -> case_owners o' !! cd_case_id c = Some qualified.
Proof.
  revert o. induction cases as [|c cases IH]; intros o E; simpl in E.
  - injection E as <-. split; [done|]. by intros c ?%elem_of_nil.
  - cbv zeta in E. apply require_ok in E as [Q%String.eqb_eq E]. apply require_ok in E as [_ E].
    apply IH in E as [Hsub Hc]. simpl in Hsub. rewrite Q in Hsub. split.
    + etransitivity; [|exact Hsub]. destruct (case_owners o !! cd_case_id c) as [x|] eqn:Ho.
      * simpl in Q. subst x. by rewrite insert_id.
      * by apply insert_subseteq.
    + intros d [->|Hd]%elem_of_cons; [|by apply Hc].
      eapply lookup_weaken; [|exact Hsub]. by rewrite lookup_insert_eq.
Qed.

Lemma load_suites_ok fs repo_root provider seen o files r :
  load_suites fs repo_root provider seen o files = Ok r ->
  Forall2 (fun f p => load_suite_package fs repo_root f.1 f.2 provider = Ok p) files r
  /\ (forall p, p ∈ r -> suite_qualified_id (pk_suite p) ∉ seen)
  /\ NoDup (map (fun p => suite_qualified_id (pk_suite p)) r)
  /\ exists o', case_owners o ⊆ case_owners o' /\ forall p, p ∈ r -> owns o' (suite_qualified_id (pk_suite p)) p.
Proof.
  revert seen o r. induction files as [|[name path] files IH]; intros seen o r E; simpl in E.
  - injection E as <-. split; [constructor|]. split; [by intros p ?%elem_of_nil|]. split; [constructor|].
    exists o. split; [done|]. by intros p ?%elem_of_nil.
  - apply rbind_ok in E as (p & Lp & E). cbv zeta in E. apply raise_if_ok in E as [S E].
    apply rbind_ok in E as (o1 & [Hsub Hown]%claim_cases_ok & E). apply rbind_ok in E as (r' & E & [= <-]).
    apply IH in E as (HF & HS & ND & o' & Hsub' & Hown').
    assert (S' : suite_qualified_id (pk_suite p) ∉ seen) by (rewrite <- existsb_eqb; by rewrite S).
    split; [by constructor|]. split.
    { intros q [->|Hq]%elem_of_cons; [done|]. specialize (HS q Hq). set_solver. }
    split.
    { constructor; [|done]. intros (q & Hq & Eq)%elem_of_map_l. specialize (HS q Hq). set_solver. }
    exists o'. split; [by etransitivity|]. intros q [->|Hq]%elem_of_cons; [|by apply Hown'].
    intros c Hc. eapply lookup_weaken; [by apply Hown|done].
Qed.

(** A loaded registry names each suite once and gives every case id one
    owner: each file loaded to its package, looking a suite up by its name
    returns the package of that name, and two packages that hold a case of the
    same id are the same one, in which id and version determine the case. *)
Theorem registry_is_coherent fs repo_root provider files r :
  load_suite_registry fs repo_root provider files = Ok r ->
  Forall2 (fun f p => load_suite_package fs repo_root f.1 f.2 provider = Ok p) files r
  /\ (forall p, p ∈ r -> registry_package r (suite_qualified_id (pk_suite p)) = Ok p)
  /\ (forall p q c d, p ∈ r -> q ∈ r -> c ∈ pk_cases p -> d ∈ pk_cases q -> cd_case_id c = cd_case_id d ->
        p = q /\ (cd_case_version c = cd_case_version d -> c = d)).
Proof.
  intros (HF & _ & ND & o' & _ & HO)%load_suites_ok. split; [done|].
  assert (U : forall p q, p ∈ r -> q ∈ r ->
    suite_qualified_id (pk_suite p) = suite_qualified_id (pk_suite q) -> p = q).
  { intros p q Hp Hq. by apply (nodup_map_inj _ _ ND). }
  split.
  - intros p Hp. unfold registry_package. destruct (List.find _ r) as [q|] eqn:Hf.
    + apply find_some in Hf as [Hq%list_elem_of_In E%String.eqb_eq]. f_equal. by apply U.
    + exfalso. eapply find_none in Hf; [|by apply list_elem_of_In]. simpl in Hf. by rewrite String.eqb_refl in Hf.
  - intros p q c d Hp Hq Hc Hd E. assert (p = q) as <-.
    { apply U; [done|done|]. pose proof (HO p Hp c Hc) as A. pose proof (HO q Hq d Hd) as B.
      rewrite E in A. congruence. }
    split; [done|]. intros Ev. apply list_elem_of_lookup in Hp as [i Hi].
    destruct (Forall2_lookup_r _ _ _ _ _ HF Hi) as (f & _ & (_ & _ & V & _)%load_ok).
    apply validate_package_ok in V as ([NK _] & _). apply (nodup_map_inj _ _ NK); [done|done|].
    unfold case_key. by rewrite E, Ev.
Qed.
End loaded.

(** ** A concrete package

    A blocking suite of two cases, one of them a holdout, in a repository of
    four files. *)
Module SuiteDemo.
#[local] Instance limits : JsonLimits. Proof. refine {| max_depth := 50 |}. lia. Defined.

Definition json_bytes (j : json) : string := dumps (C := utf8_codec) j.
Definition reference (r sha : string) : json := JObj [("ref", JStr r); ("sha256", JStr sha)].
Definition grader_source : string := "def grade(context): return 1".
Definition grader_ref : json := reference "graders/safety.py" (digest grader_source).
Definition policy_json (rule : string) : json := JObj [
  ("attempts", JInt 3); ("infra_retry_limit", JInt 1); ("aggregate_rule", JStr rule);
  ("critical_failure_rule", JStr "single_occurrence_fails"); ("seed", JInt 7)].
Definition grader_json (manifest : json) : json := JObj [
  ("grader_id", JStr "safety.outcome"); ("grader_version", JInt 1); ("grader_type", JStr "outcome");
  ("manifest", manifest); ("criticality", JStr "critical")].
Definition case_fields (id visibility : string) (manifest : json) : list (string * json) := [
  ("case_id", JStr id); ("case_version", JInt 1); ("suite_id", JStr "sales.routing");
  ("source_type", JStr "synthetic"); ("visibility", JStr visibility); ("graders", JArr [grader_json manifest]);
  ("criticality", JStr "critical"); ("risk_class", JStr "moderate"); ("privacy_class", JStr "synthetic");
  ("attempt_policy", policy_json "all_attempts_pass"); ("owner", JStr "evals");
  ("created_at", JStr "2026-08-01"); ("last_reviewed_at", JStr "2026-08-02"); ("lifecycle_state", JStr "active")].
Definition exam : json := JObj [("expected", JObj [("must", JArr [JStr "escalate"])]); ("fixture", JObj []); ("graders", JObj [])].
Definition bundle_sha : string := digest (json_bytes exam).
Definition open_case : json := JObj (case_fields "routing.basic" "development" grader_ref
  ++ [("expected", JObj [("must", JArr [JStr "answer"])])]).
Definition holdout_case (extra : list (string * json)) : json :=
  JObj (case_fields "routing.hidden" "holdout" (reference "holdout://routing.hidden/graders" bundle_sha)
    ++ [("holdout_bundle_sha256", JStr bundle_sha);
        ("input_fixture", reference "holdout://routing.hidden/fixture" bundle_sha)] ++ extra).
Definition suite_json (extra : list (string * json)) : json := JObj [
  ("suite_id", JStr "sales.routing"); ("suite_version", JInt 2); ("owning_scope", JStr "company_fleet");
  ("capability_under_test", JStr "routing"); ("risk_class", JStr "high");
  ("case_manifests", JArr [reference "cases/basic.case.json" (digest (json_bytes open_case));
                           reference "cases/hidden.case.json" (digest (json_bytes (holdout_case extra)))]);
  ("grader_manifests", JArr [grader_ref]); ("attempt_policy", policy_json "all_attempts_pass");
  ("gate_intent", JStr "blocking");
  ("qualification_thresholds", JObj [("min_case_pass_rate", JInt 1); ("max_critical_failures", JInt 0);
                                     ("max_error_rate", JInt 0)]);
  ("privacy_class", JStr "synthetic"); ("owner", JStr "evals");
  ("created_at", JStr "2026-08-01"); ("last_reviewed_at", JStr "2026-08-02"); ("lifecycle_state", JStr "active")].

(** The repository checked out at [root]. *)
Definition files (root : string) (extra : list (string * json)) (path : string) : file_read :=
  if (path =? root +:+ "/routing.suite.json")%string then Bytes (json_bytes (suite_json extra))
  else if (path =? root +:+ "/cases/basic.case.json")%string then Bytes (json_bytes open_case)
  else if (path =? root +:+ "/cases/hidden.case.json")%string then Bytes (json_bytes (holdout_case extra))
  else if (path =? root +:+ "/graders/safety.py")%string then Bytes grader_source
  else Missing.
Definition provider : HoldoutProvider := {|
  has_case := fun id => Ok (id =? "routing.hidden")%string; bundle_digest := fun _ => Ok bundle_sha |}.
Definition load (root : string) (extra : list (string * json)) : res EvalSuitePackage :=
  load_suite_package (files root extra) root "routing.suite.json" (root +:+ "/routing.suite.json") (Some provider).

Definition message {A} (r : res A) : string := match r with Ok _ => "" | Err e => exn_msg e end.

(** An answer key beside the holdout is refused. *)
Example leaked_answers_are_refused :
  message (load "/repo" [("expected", JObj [("must", JArr [JStr "escalate"])])])
  = "case routing.hidden.v1 is a holdout: expected behavior is the answer key and must live in the "
    +:+ "holdout bundle, not in the target-readable package".
Proof. vm_compute. reflexivity. Qed.

(** A majority of four attempts is three. *)
Example majority_of_four : min_rate MAJORITY_ATTEMPTS_PASS 4 = (3 # 4)%Q.
Proof. vm_compute. reflexivity. Qed.

Definition loaded_as (sha : string) (r : res EvalSuitePackage) : bool :=
  match r with Ok p => pk_holdout_binding_verified p && (pk_package_sha256 p =? sha)%string | Err _ => false end.
Definition sha_of (r : res EvalSuitePackage) : string := match r with Ok p => pk_package_sha256 p | Err _ => "" end.

Lemma loaded_as_ok sha r : loaded_as sha r = true ->
  exists p, r = Ok p /\ pk_holdout_binding_verified p = true /\ pk_package_sha256 p = sha.
Proof. destruct r as [p|]; [|done]. intros [? ?%String.eqb_eq]%andb_true_iff. eauto. Qed.

Lemma load_unfold root extra r : load root extra = r ->
  load_suite_package (files root extra) root "routing.suite.json" (root +:+ "/routing.suite.json") (Some provider) = r.
Proof. done. Qed.

Lemma loads_at_a : loaded_as (sha_of (load "/a" [])) (load "/a" []) = true.
Proof. vm_compute. reflexivity. Qed.
Lemma loads_at_b : loaded_as (sha_of (load "/a" [])) (load "/b" []) = true.
Proof. vm_compute. reflexivity. Qed.

Definition majority : ManifestAttemptPolicy := {|
  mp_attempts := 3; mp_sampling := []; mp_seed := Some 7; mp_infra_retry_limit := 1;
  mp_aggregate_rule := MAJORITY_ATTEMPTS_PASS; mp_critical_failure_rule := SINGLE_OCCURRENCE_FAILS |}.

(** The same suite twice is refused; once, it makes a registry. *)
Definition registry (l : list string) : res EvalSuiteRegistry :=
  load_suite_registry (files "/a" []) "/a" (Some provider) (map (fun f => (f, "/a/routing.suite.json")) l).
Example twice_is_refused :
  message (registry ["routing.suite.json"; "again.suite.json"]) = "suite sales.routing.v2 is declared more than once".
Proof. vm_compute. reflexivity. Qed.

Lemma registry_unfold l r : registry l = r ->
  load_suite_registry (files "/a" []) "/a" (Some provider) (map (fun f => (f, "/a/routing.suite.json")) l) = r.
Proof. done. Qed.

Lemma registers : is_ok (registry ["routing.suite.json"]) = true.
Proof. vm_compute. reflexivity. Qed.

End SuiteDemo.

Import SuiteDemo.

Lemma holdouts_are_contained_witness : exists p, load "/a" [] = Ok p
  /\ (forall c, c ∈ pk_cases p -> contained c) /\ bound (Some provider) (pk_cases p).
Proof.
  destruct (loaded_as_ok _ _ loads_at_a) as (p & E & V & _). exists p. split; [exact E|].
  destruct (holdouts_are_contained _ _ _ _ _ _ (load_unfold _ _ _ E)) as (A & _ & B). split; [exact A|exact (B V)].
Defined.

Lemma package_digest_is_the_exam_witness : exists p p', load "/a" [] = Ok p /\ load "/b" [] = Ok p'
  /\ ((pk_suite p = pk_suite p' /\ pk_cases p = pk_cases p'
        /\ forall r, r ∈ package_references p -> ref_is_holdout r = false ->
             exists raw, pinned (files "/a" []) "/a" r raw /\ pinned (files "/b" []) "/b" r raw)
      \/ clash (hashed (files "/a" []) "/a" "/a/routing.suite.json" p) (hashed (files "/b" []) "/b" "/b/routing.suite.json" p')).
Proof.
  destruct (loaded_as_ok _ _ loads_at_a) as (p & E & _ & S). destruct (loaded_as_ok _ _ loads_at_b) as (p' & E' & _ & S').
  exists p, p'. split; [exact E|]. split; [exact E'|].
  exact (package_digest_is_the_exam _ _ _ _ _ _ _ _ _ _ _ (load_unfold _ _ _ E) (load_unfold _ _ _ E') (eq_trans S (eq_sym S'))).
Defined.

Lemma declared_rule_is_graded_witness : exists gp, to_grader_attempt_policy majority NONCRITICAL = Ok gp
  /\ forall c, cr_policy c = gp -> retained_attempts c = 3 -> meets_threshold c = declared_verdict MAJORITY_ATTEMPTS_PASS c.
Proof.
  destruct (declared_rule_is_graded (policy_json "majority_attempts_pass") "case" majority NONCRITICAL) as (gp & A & _ & _ & _ & _ & B).
  - reflexivity.
  - discriminate.
  - exists gp. split; [exact A|exact B].
Defined.

Lemma loaded_cases_are_policed_witness : exists p, load "/a" [] = Ok p /\ lineage (pk_cases p)
  /\ forall c, c ∈ pk_cases p -> policed (pk_suite p) c /\ mp_attempts (cd_attempt_policy c) <= 25.
Proof.
  destruct (loaded_as_ok _ _ loads_at_a) as (p & E & _). exists p. split; [exact E|].
  destruct (loaded_cases_are_policed _ _ _ _ _ _ (load_unfold _ _ _ E)) as (A & B & _). split; [exact A|exact B].
Defined.

Lemma registry_is_coherent_witness : exists r, registry ["routing.suite.json"] = Ok r
  /\ forall p, p ∈ r -> registry_package r (suite_qualified_id (pk_suite p)) = Ok p.
Proof.
  pose proof registers as R. destruct (registry ["routing.suite.json"]) as [r|] eqn:E; [|discriminate R].
  exists r. split; [reflexivity|]. destruct (registry_is_coherent _ _ _ _ _ (registry_unfold _ _ E)) as (_ & A & _). exact A.
Defined.
