(* ===== verification/PyUnicode.v ===== *)
(** * Text beyond U+00FF

    Where the code tells values apart by text that may hold any character, a
    [str] is represented by its UTF-8 encoding, a lone surrogate (which JSON
    escapes can spell and no file can) by the three bytes the same scheme
    gives it. Two strings are equal exactly when their encodings are. Here are
    the code points of such a string, the blank test, [.encode("utf-8")],
    [json.loads] of a line and [base64]. *)
From S2P Require Import Prelude PyStr Sha256 Json PyIO JsonText.
From stdpp Require Import base strings list.
From Stdlib Require Import NArith Lia.

Local Open Scope N_scope.

Notation UnicodeEncodeError := (OtherError "UnicodeEncodeError").

(** ** Code points *)

(** The code points of a UTF-8 text; [surrogates] lets the encodings of
    U+D800 .. U+DFFF through, which strict decoding refuses. *)
Fixpoint points (surrogates : bool) (l : bytes) : option (list N) :=
  match l with
  | [] => Some []
  | b :: r =>
      let n := code b in
      if n <? 128 then cons n <$> points surrogates r
      else match r with
      | [] => None
      | c1 :: r1 =>
          if within 194 223 b then
            if within 128 191 c1 then cons ((n - 192) * 64 + low6 c1) <$> points surrogates r1 else None
          else match r1 with
          | [] => None
          | c2 :: r2 =>
              if within 224 239 b then
                let lo := if n =? 224 then 160 else 128 in
                let hi := if (n =? 237) && negb surrogates then 159 else 191 in
                if within lo hi c1 && within 128 191 c2
                then cons (((n - 224) * 64 + low6 c1) * 64 + low6 c2) <$> points surrogates r2 else None
              else match r2 with
              | [] => None
              | c3 :: r3 =>
                  let lo := if n =? 240 then 144 else 128 in
                  let hi := if n =? 244 then 143 else 191 in
                  if within 240 244 b && within lo hi c1 && within 128 191 c2 && within 128 191 c3
                  then cons ((((n - 240) * 64 + low6 c1) * 64 + low6 c2) * 64 + low6 c3) <$> points surrogates r3
                  else None
              end
          end
      end
  end.

(** UTF-8 of one code point. *)
Definition utf8_of (n : N) : bytes :=
  if n <? 128 then [chr n]
  else if n <? 2048 then [chr (192 + n / 64); chr (128 + n mod 64)]
  else if n <? 65536 then [chr (224 + n / 4096); chr (128 + n / 64 mod 64); chr (128 + n mod 64)]
  else [chr (240 + n / 262144); chr (128 + n / 4096 mod 64); chr (128 + n / 64 mod 64); chr (128 + n mod 64)].

(** [bytes.decode("utf-8", errors="strict")] succeeds; [str.encode("utf-8")]. *)
Definition decodable (l : bytes) : bool := match points false l with Some _ => true | None => false end.
Definition encode_str (s : string) : res string :=
  require decodable (chars s) else UnicodeEncodeError, "'utf-8' codec can't encode character: surrogates not allowed" ;;
  Ok s.

(** [str.isspace] of one character. *)
Definition space_point (n : N) : bool :=
  (9 <=? n) && (n <=? 13) || (28 <=? n) && (n <=? 32) || (n =? 133) || (n =? 160) || (n =? 5760)
  || (8192 <=? n) && (n <=? 8202) || (n =? 8232) || (n =? 8233) || (n =? 8239) || (n =? 8287) || (n =? 12288).
(** [bool(s.strip())]. *)
Definition nonblank_u (s : string) : bool :=
  match points true (chars s) with
  | Some l => existsb (fun n => negb (space_point n)) l
  | None => true
  end.

(** ** json.loads *)

(** The escapes of U+0080 and above, and of surrogate pairs, replaced by the
    characters they stand for. Outside a literal both spellings are refused. *)
Fixpoint raw_escapes (l : bytes) : bytes :=
  match l with
  | [] => []
  | c :: r =>
      if negb (code c =? 92) then c :: raw_escapes r
      else match r with
      | [] => [c]
      | e :: r' =>
          if negb (code e =? 117) then c :: e :: raw_escapes r'
          else match r' with
          | h1 :: h2 :: h3 :: h4 :: r'' =>
              match hex4 h1 h2 h3 h4 with
              | None => c :: e :: raw_escapes r'
              | Some u =>
                  if u <? 128 then c :: e :: h1 :: h2 :: h3 :: h4 :: raw_escapes r''
                  else if (55296 <=? u) && (u <=? 56319) then
                    match r'' with
                    | s1 :: s2 :: k1 :: k2 :: k3 :: k4 :: r3 =>
                        match hex4 k1 k2 k3 k4 with
                        | Some v =>
                            if (code s1 =? 92) && (code s2 =? 117) && (56320 <=? v) && (v <=? 57343)
                            then utf8_of (65536 + (u - 55296) * 1024 + (v - 56320)) ++ raw_escapes r3
                            else utf8_of u ++ raw_escapes r''
                        | None => utf8_of u ++ raw_escapes r''
                        end
                    | _ => utf8_of u ++ raw_escapes r''
                    end
                  else utf8_of u ++ raw_escapes r''
              end
          | _ => c :: e :: raw_escapes r'
          end
      end
  end.

Definition loads_u `{JsonLimits} (line : bytes) : res json := loads (raw_escapes line).

(** [json.dumps(..., ensure_ascii=False)] leaves every character from U+0080
    on as it is, so its encoding leaves the bytes. *)
Definition bytes_codec : CharCodec.
Proof.
  refine {| enc := json_escape false; dec := json_unescape false |}.
  - intros [[] [] [] [] [] [] [] []] rest; reflexivity.
  - done.
Defined.

(** [json.dumps(j, ensure_ascii=False, separators=(",", ":")).encode()]. *)
Definition dump_bytes (j : json) : res string := encode_str (of_chars (raw (C := bytes_codec) j)).

(** An accented letter, an astral character and a lone surrogate, spelled both ways. *)
Example escapes_are_characters :
  raw_escapes (chars "\u00e9 \ud83d\ude00 \ud83d \\u00e9 \u0041")
  = map chr [195; 169; 32; 240; 159; 152; 128; 32; 237; 160; 189; 32] ++ chars "\\u00e9 \u0041"
  /\ points true (map chr [195; 169; 240; 159; 152; 128; 237; 160; 189]) = Some [233; 128512; 55357]
  /\ decodable (map chr [237; 160; 189]) = false.
Proof. vm_compute. repeat split; reflexivity. Qed.

(** ** base64 *)

Definition b64_digit (n : N) : Ascii.ascii :=
  if n <? 26 then chr (65 + n) else if n <? 52 then chr (71 + n) else if n <? 62 then chr (n - 4)
  else if n =? 62 then chr 43 else chr 47.
Definition b64_value (c : Ascii.ascii) : option N :=
  let n := code c in
  if within 65 90 c then Some (n - 65) else if within 97 122 c then Some (n - 71)
  else if within 48 57 c then Some (n + 4) else if n =? 43 then Some 62 else if n =? 47 then Some 63 else None.
Definition pad : Ascii.ascii := chr 61.

Fixpoint b64encode (l : bytes) : text :=
  match l with
  | [] => []
  | [a] => [b64_digit (code a / 4); b64_digit (code a mod 4 * 16); pad; pad]
  | [a; b] => [b64_digit (code a / 4); b64_digit (code a mod 4 * 16 + code b / 16);
               b64_digit (code b mod 16 * 4); pad]
  | a :: b :: c :: r =>
      b64_digit (code a / 4) :: b64_digit (code a mod 4 * 16 + code b / 16)
      :: b64_digit (code b mod 16 * 4 + code c / 64) :: b64_digit (code c mod 64) :: b64encode r
  end.

(** [base64.b64decode(..., validate=True)]: groups of four digits, the last
    one possibly padded; the bits a padded digit does not use are ignored. *)
Fixpoint b64decode (l : text) : option bytes :=
  match l with
  | [] => Some []
  | a :: b :: c :: d :: r =>
      match b64_value a, b64_value b with
      | Some x, Some y =>
          let first := chr (x * 4 + y / 16) in
          match b64_value c with
          | Some z =>
              let second := chr (y mod 16 * 16 + z / 4) in
              match b64_value d with
              | Some w => (fun t => first :: second :: chr (z mod 4 * 64 + w) :: t) <$> b64decode r
              | None => if Ascii.eqb d pad && match r with [] => true | _ => false end
                        then Some [first; second] else None
              end
          | None => if Ascii.eqb c pad && Ascii.eqb d pad && match r with [] => true | _ => false end
                    then Some [first] else None
          end
      | _, _ => None
      end
  | _ => None
  end.

Lemma b64_value_digit n : n < 64 -> b64_value (b64_digit n) = Some n.
Proof.
  intros H.
  assert (forallb (fun n => bool_decide (b64_value (b64_digit n) = Some n)) (map N.of_nat (seq 0 64)) = true) as F
    by (vm_compute; reflexivity).
  rewrite forallb_forall in F. apply (bool_decide_eq_true_1 _), F. apply in_map_iff. exists (N.to_nat n).
  split; [apply N2Nat.id|]. apply in_seq. lia.
Qed.

Lemma code_lt c : code c < 256.
Proof. apply Ascii.N_ascii_bounded. Qed.
Lemma chr_code c : chr (code c) = c.
Proof. apply Ascii.ascii_N_embedding. Qed.

Lemma b64_values a b c :
  a < 256 -> b < 256 -> c < 256 ->
  a / 4 < 64 /\ a mod 4 * 16 < 64 /\ a mod 4 * 16 + b / 16 < 64 /\ b mod 16 * 4 < 64 /\ b mod 16 * 4 + c / 64 < 64
  /\ c mod 64 < 64
  /\ a / 4 * 4 + a mod 4 * 16 / 16 = a
  /\ a / 4 * 4 + (a mod 4 * 16 + b / 16) / 16 = a
  /\ (a mod 4 * 16 + b / 16) mod 16 * 16 + b mod 16 * 4 / 4 = b
  /\ (a mod 4 * 16 + b / 16) mod 16 * 16 + (b mod 16 * 4 + c / 64) / 4 = b
  /\ (b mod 16 * 4 + c / 64) mod 4 * 64 + c mod 64 = c.
Proof.
  intros Ha Hb Hc.
  pose proof (N.mod_upper_bound a 4 ltac:(lia)). pose proof (N.mod_upper_bound b 16 ltac:(lia)).
  pose proof (N.mod_upper_bound c 64 ltac:(lia)).
  pose proof (N.div_mod a 4 ltac:(lia)). pose proof (N.div_mod b 16 ltac:(lia)). pose proof (N.div_mod c 64 ltac:(lia)).
  pose proof (N.Div0.div_lt_upper_bound a 4 64 ltac:(lia)). pose proof (N.Div0.div_lt_upper_bound b 16 16 ltac:(lia)).
  pose proof (N.Div0.div_lt_upper_bound c 64 4 ltac:(lia)).
  rewrite !N.div_mul by lia.
  assert (forall x y k, y < k -> k <> 0 -> (x * k + y) / k = x /\ (x * k + y) mod k = y) as Q.
  { intros x y k Hy Hk. split; [symmetry; apply (N.div_unique _ _ _ y)|symmetry; apply (N.mod_unique _ _ x)]; lia. }
  destruct (Q (a mod 4) (b / 16) 16 ltac:(lia) ltac:(lia)) as [-> ->].
  destruct (Q (b mod 16) (c / 64) 4 ltac:(lia) ltac:(lia)) as [-> ->]. repeat split; lia.
Qed.

Lemma b64_roundtrip l : b64decode (b64encode l) = Some l.
Proof.
  assert (forall k l, (List.length l <= k)%nat -> b64decode (b64encode l) = Some l) as Hk; [|by eapply Hk].
  clear l. induction k as [|k IH]; intros l Hl; [by destruct l; simpl in Hl; [|lia]|].
  destruct l as [|a [|b [|c r]]]; [done| | |].
  - destruct (b64_values (code a) 0 0 (code_lt a) ltac:(lia) ltac:(lia)) as (H1 & H2 & _ & _ & _ & _ & E & _).
    cbn [b64encode b64decode]. rewrite !b64_value_digit by done. cbv zeta.
    change (b64_value pad) with (@None N). cbn [Ascii.eqb andb]. rewrite E, chr_code. done.
  - destruct (b64_values (code a) (code b) 0 (code_lt a) (code_lt b) ltac:(lia))
      as (H1 & _ & H3 & H4 & _ & _ & _ & E1 & E2 & _).
    cbn [b64encode b64decode]. rewrite !b64_value_digit by done. cbv zeta.
    change (b64_value pad) with (@None N). rewrite E1, E2, !chr_code. done.
  - destruct (b64_values (code a) (code b) (code c) (code_lt a) (code_lt b) (code_lt c))
      as (H1 & _ & H3 & _ & H5 & H6 & _ & E1 & _ & E2 & E3).
    cbn [b64encode b64decode]. rewrite !b64_value_digit by done. cbv zeta.
    rewrite E1, E2, E3, !chr_code, IH; [done|]. simpl in Hl. lia.
Qed.
