(* ===== verification/JsonBytes.v ===== *)
(** * Canonical JSON as bytes

    [json.dumps(..., sort_keys=True, separators=(",", ":"), ensure_ascii=False)]
    in UTF-8 and [json.loads] of such bytes, for text that may hold any
    character ([PyUnicode]); what is written reads back with its keys sorted. *)
From S2P Require Import Prelude PyStr Json Sha256 PyIO JsonText PyValue PyUnicode.
From stdpp Require Import base strings list.
From Stdlib Require Import NArith Lia Permutation DecimalString.

(** ** Decoded objects *)

Notation dict := (list (string * json)).
(** [value.get(key)]. *)
Definition get (d : dict) (key : string) : json := default JNull (dict_get key d).
(** [set(value) == keys]. *)
Definition same_keys (d : dict) (keys : list string) : bool :=
  forallb (fun k => existsb (String.eqb k) keys) d.*1 && forallb (fun k => existsb (String.eqb k) d.*1) keys.

Lemma dict_get_perm {A} (k : string) (d d' : list (string * A)) : NoDup d.*1 -> Permutation d d' -> dict_get k d = dict_get k d'.
Proof.
  intros N P. induction P as [|[a v] l l' P IH|[a v] [b w] l|l m n P1 IH1 P2 IH2]; simpl in *; [done| | |].
  - apply NoDup_cons in N as [_ N]. by rewrite IH.
  - apply NoDup_cons in N as [N _]. destruct (String.eqb_spec k b) as [Eb|], (String.eqb_spec k a) as [Ea|]; try done.
    exfalso. apply N. rewrite <- Ea, Eb. by left.
  - rewrite IH1, IH2; [done| |done]. by rewrite <- P1.
Qed.

Lemma dict_get_map {A B} (k : string) (d : list (string * A)) (f : A -> B) :
  dict_get k (map (fun kv => (kv.1, f kv.2)) d) = f <$> dict_get k d.
Proof. induction d as [|[k' v] d IH]; [done|]. cbn. by destruct (k =? k')%string. Qed.

Lemma get_perm k (d d' : dict) : NoDup d.*1 -> Permutation d d' -> get d' k = get d k.
Proof. intros N P. unfold get. by rewrite (dict_get_perm k _ _ N P). Qed.

Lemma same_keys_perm (d d' : dict) keys : Permutation d d' -> same_keys d' keys = same_keys d keys.
Proof.
  intros P. unfold same_keys. pose proof (Permutation_map fst P) as Pk. f_equal; [by apply eq_sym, forallb_perm|].
  induction keys as [|k keys IH]; simpl; [done|]. by rewrite IH, (existsb_perm _ _ _ Pk).
Qed.

(** ** Writing *)

(** [json.dumps(value, sort_keys=True, separators=(",", ":"),
    ensure_ascii=False, allow_nan=False).encode("utf-8")]. *)
Definition canonical_bytes (value : json) : res bytes :=
  require finite value else ValueError, "Out of range float values are not JSON compliant" ;;
  require ints_ok value else ValueError, "Exceeds the limit (4300 digits) for integer string conversion" ;;
  let! s := dump_bytes (sort_keys value) in Ok (chars s).

(** ** Reading *)

(** The code points of bytes in the encoding [json.loads] detects. *)
Fixpoint utf16_points (big : bool) (b : bytes) : option (list N) :=
  match b with
  | [] => Some []
  | x :: y :: r =>
      let u := unit16 big x y in
      match r with
      | x' :: y' :: r' =>
          let v := unit16 big x' y' in
          if JsonText.between 55296 56319 u && JsonText.between 56320 57343 v
          then cons (65536 + (u - 55296) * 1024 + (v - 56320))%N <$> utf16_points big r'
          else cons u <$> utf16_points big r
      | _ => cons u <$> utf16_points big r
      end
  | _ => None
  end.
Fixpoint utf32_points (big : bool) (b : bytes) : option (list N) :=
  match b with
  | [] => Some []
  | w :: x :: y :: z :: r =>
      let n := if big then (unit16 true w x * 65536 + unit16 true y z)%N
               else (unit16 false y z * 65536 + unit16 false w x)%N in
      if (n <? 1114112)%N then cons n <$> utf32_points big r else None
  | _ => None
  end.

(** [b.decode(detect_encoding(b), "surrogatepass")], as UTF-8. *)
Definition decoded (b : bytes) : option bytes :=
  let utf8 (b : bytes) := match points true b with Some _ => Some b | None => None end in
  let of_points (o : option (list N)) := (fun l => flat_map utf8_of l) <$> o in
  match detect_encoding b with
  | Utf8 => utf8 b
  | Utf8Sig => utf8 (drop 3 b)
  | Utf16 big => of_points (utf16_points big b)
  | Utf16Bom => of_points (utf16_points (starts [254;255]%N b) (drop 2 b))
  | Utf32 big => of_points (utf32_points big b)
  | Utf32Bom => of_points (utf32_points (starts [0;0;254;255]%N b) (drop 4 b))
  end.

(** [json.loads(b)] of bytes. *)
Definition loads_raw `{JsonLimits} (b : bytes) : res json :=
  match decoded b with
  | Some t => loads_u t
  | None => Err (Exn UnicodeDecodeError "codec can't decode bytes")
  end.

Example loads_raw_encodings :
  map loads_raw [chars "[1]"; flat_map (fun c => [c; chr 0]) (chars "[1]");
                 map chr [239;187;191;91;49;93]%N; map chr [254;255;0;91;0;49;0;93]%N]
  = repeat (Ok (JArr [JInt 1])) 4.
Proof. vm_compute. reflexivity. Qed.

(** ** Reading what was written *)

Lemma raw_compact j : raw (C := bytes_codec) j = compact false j.
Proof. reflexivity. Qed.

(** Text whose escapes [raw_escapes] leaves. *)
Definition kept (t : bytes) : Prop := forall r, raw_escapes (t ++ r) = t ++ raw_escapes r.

Lemma kept_app t u : kept t -> kept u -> kept (t ++ u).
Proof. intros Ht Hu r. by rewrite <- !app_assoc, Ht, Hu. Qed.
Lemma kept_nil : kept [].
Proof. done. Qed.
Lemma kept_char c : (code c =? 92)%N = false -> kept [c].
Proof. intros E r. cbn [app raw_escapes]. by rewrite E. Qed.
Lemma kept_cons c t : (code c =? 92)%N = false -> kept t -> kept (c :: t).
Proof. intros E Ht. apply (kept_app [c]); [by apply kept_char|done]. Qed.
Lemma kept_plain t : forallb (fun c => negb (code c =? 92)%N) t = true -> kept t.
Proof.
  induction t as [|c t IH]; [done|]. cbn [forallb]. intros [Hc Ht]%andb_true_iff. apply kept_cons; [|by apply IH].
  by apply negb_true_iff.
Qed.
Lemma kept_escape c : kept (json_escape false c).
Proof. intros r. destruct c as [[] [] [] [] [] [] [] []]; reflexivity. Qed.

Lemma kept_str s : kept (show_str false s).
Proof.
  unfold show_str. apply kept_cons; [done|]. apply kept_app; [|by apply kept_char].
  induction (chars s) as [|c l IH]; [done|]. cbn [flat_map]. apply kept_app; [apply kept_escape|done].
Qed.

Lemma kept_separated l : Forall kept l -> kept (separated false l).
Proof.
  intros [|x r Hx Hr]; [done|]. cbn [separated]. apply kept_app; [done|].
  induction Hr as [|y r Hy _ IH]; [done|]. rewrite sep_tail_cons. apply kept_cons; [done|]. cbn [gap app].
  by apply kept_app.
Qed.

Lemma kept_digits t : forallb (within 48 57) t = true -> kept t.
Proof.
  intros H. apply kept_plain. rewrite forallb_forall in *. intros c Hc. specialize (H c Hc). unfold within in H.
  apply andb_true_iff in H as [_ L%N.leb_le]. apply negb_true_iff, N.eqb_neq. lia.
Qed.

Lemma kept_show j : plain j = true -> kept (compact false j).
Proof.
  induction j as [|b|z|q|x|s|l IH|kvs IH] using json_rect_all; intros Hp; simpl in Hp; try done.
  - destruct b; by apply kept_plain.
  - cbn [show_with]. unfold str_Z, NilEmpty.string_of_int.
    destruct (Z.to_int z); [|apply kept_cons; [done|]]; apply kept_digits, uint_digits.
  - apply kept_str.
  - cbn [show_with]. apply kept_cons; [done|]. apply kept_app; [|by apply kept_char]. apply kept_separated, Forall_fmap.
    rewrite forallb_forall in Hp. rewrite Forall_forall in *. intros y Hy. apply IH; [done|]. by apply Hp, list_elem_of_In.
  - apply andb_true_iff in Hp as [_ Hp]. rewrite forallb_forall in Hp. rewrite Forall_forall in IH.
    cbn [show_with]. apply kept_cons; [done|]. apply kept_app; [|by apply kept_char].
    apply kept_separated, Forall_fmap, Forall_forall. intros y Hy. unfold compose. cbv beta.
    apply kept_app; [apply kept_str|]. apply kept_cons; [done|]. cbn [gap app]. apply IH; [done|].
    by apply Hp, list_elem_of_In.
Qed.

(** A value followed by white space. *)
Lemma loads_u_compact `{JsonLimits} j ws :
  plain j = true -> (nesting j <= max_depth)%nat -> skip_ws ws = [] -> stops ws = true -> raw_escapes ws = ws ->
  loads_u (compact false j ++ ws) = Ok j.
Proof.
  intros Hp Hn Hw Hs He. unfold loads_u. rewrite (kept_show j Hp), He. unfold loads.
  rewrite skip_ws_show by done. rewrite scan_value_show by done. cbn [rbind]. by rewrite Hw.
Qed.

Lemma detect_ascii a b r : (0 < code a < 128)%N -> (0 < code b < 128)%N -> detect_encoding (a :: b :: r) = Utf8.
Proof.
  intros Ha Hb. unfold detect_encoding, starts. cbn [map take List.length].
  do 5 (rewrite bool_decide_false by (intros [=]; lia)). cbn [orb]. unfold nul.
  destruct (N.eqb_spec (code a) 0), (N.eqb_spec (code b) 0); try lia. by destruct r as [|? [|? ?]].
Qed.

Lemma points_strict l x : points false l = Some x -> points true l = Some x.
Proof.
  revert l x. assert (forall n l x, (List.length l <= n)%nat -> points false l = Some x -> points true l = Some x) as G.
  2:{ intros l x. by apply (G (List.length l)). }
  induction n as [|n IH]; intros l x L; [by destruct l; [|simpl in L; lia]|].
  destruct l as [|b r]; [done|]. simpl in L. cbn [points]. cbv zeta.
  assert (forall (f : list N -> list N) k x, (List.length k <= n)%nat -> f <$> points false k = Some x -> f <$> points true k = Some x) as F.
  { intros f k y Lk (z & Ez & ->)%fmap_Some. by rewrite (IH _ _ Lk Ez). }
  destruct (code b <? 128)%N; [by apply F; lia|]. destruct r as [|c1 r1]; [done|]. simpl in L.
  destruct (within 194%N 223%N b). { destruct (within 128 191 c1); [by apply F; lia|done]. }
  destruct r1 as [|c2 r2]; [done|]. simpl in L. destruct (within 224 239 b).
  { rewrite andb_true_r, andb_false_r. destruct (within _ _ c1 && within 128 191 c2) eqn:E; [|done].
    intros Ex. assert (within (if (code b =? 224)%N then 160 else 128) 191 c1 && within 128 191 c2 = true) as ->.
    { apply andb_true_iff in E as [E1 ->]. rewrite andb_true_r. unfold within in *. apply andb_true_iff in E1 as [-> E1].
      cbn [andb]. apply N.leb_le in E1. apply N.leb_le. destruct (code b =? 237)%N; lia. }
    apply F; [lia|exact Ex]. }
  destruct r2 as [|c3 r3]; [done|]. simpl in L. destruct (_ && _ && _ && _); [by apply F; lia|done].
Qed.

Lemma points_app s b c x :
  points s b = Some x -> points s (b ++ c) = (fun y => x ++ y) <$> points s c.
Proof.
  revert b x. assert (forall n b x, (List.length b <= n)%nat -> points s b = Some x -> points s (b ++ c) = (fun y => x ++ y) <$> points s c) as G.
  2:{ intros b x. by apply (G (List.length b)). }
  induction n as [|n IH]; intros b x L.
  { destruct b; [|simpl in L; lia]. intros [= <-]. cbn [app]. by destruct (points s c). }
  destruct b as [|b0 r]; [intros [= <-]; cbn [app]; by destruct (points s c)|]. simpl in L. cbn [app points]. cbv zeta.
  assert (forall p k y, (List.length k <= n)%nat -> cons p <$> points s k = Some y ->
            cons p <$> points s (k ++ c) = (fun z => y ++ z) <$> points s c) as F.
  { intros p k y Lk (z & Ez & ->)%fmap_Some. rewrite (IH _ _ Lk Ez). by destruct (points s c). }
  destruct (code b0 <? 128)%N; [by apply F; lia|]. destruct r as [|c1 r1]; [done|]. simpl in L. cbn [app].
  destruct (within 194 223 b0). { destruct (within 128 191 c1); [by apply F; lia|done]. }
  destruct r1 as [|c2 r2]; [done|]. simpl in L. cbn [app]. destruct (within 224 239 b0).
  { destruct (within _ _ c1 && within 128 191 c2); [by apply F; lia|done]. }
  destruct r2 as [|c3 r3]; [done|]. simpl in L. cbn [app]. destruct (_ && _ && _ && _); [by apply F; lia|done].
Qed.

(** ** Sorting keys *)

Lemma insert_key_perm {A} k (v : A) l : insert_key k v l ≡ₚ (k, v) :: l.
Proof.
  induction l as [|[k' v'] l IH]; simpl; [done|]. destruct (key_leb _ _); [done|]. rewrite IH. apply perm_swap.
Qed.
Lemma sort_pairs_permutation {A} (l : list (string * A)) : sort_pairs l ≡ₚ l.
Proof. induction l as [|[k v] l IH]; simpl; [done|]. by rewrite insert_key_perm, IH. Qed.

Lemma sorted_fields kvs :
  exists d, sort_keys (JObj kvs) = JObj d /\ d ≡ₚ map (fun kv => (kv.1, sort_keys kv.2)) kvs.
Proof. eexists. split; [done|]. apply sort_pairs_permutation. Qed.

Lemma plain_sort j : plain j = true -> plain (sort_keys j) = true.
Proof.
  induction j as [| | | | | |l IH|kvs IH] using json_rect_all; try done; cbn [sort_keys plain].
  - rewrite !forallb_forall, Forall_forall in *. intros Hall j (x & <- & Hx)%in_map_iff.
    apply IH; [by apply list_elem_of_In|auto].
  - intros [HN%bool_decide_eq_true Hp]%andb_true_iff. pose proof (sort_pairs_permutation (map (fun kv => (kv.1, sort_keys kv.2)) kvs)) as P.
    apply andb_true_iff. split.
    + apply bool_decide_eq_true. rewrite P. by rewrite <- list_fmap_compose.
    + rewrite (forallb_perm _ _ _ P), forallb_forall in *. rewrite Forall_forall in IH.
      intros kv (x & <- & Hx)%in_map_iff. simpl. apply IH; [by apply list_elem_of_In|auto].
Qed.

Lemma max_list_perm l l' : l ≡ₚ l' -> max_list l = max_list l'.
Proof. induction 1; simpl; lia. Qed.

Lemma nesting_sort j : nesting (sort_keys j) = nesting j.
Proof.
  induction j as [| | | | | |l IH|kvs IH] using json_rect_all; try done; cbn [sort_keys nesting]; f_equal.
  - f_equal. rewrite map_map. apply map_ext_in. intros x Hx. rewrite Forall_forall in IH. by apply IH, list_elem_of_In.
  - rewrite (max_list_perm _ (map (fun kv => nesting kv.2) (map (fun kv => (kv.1, sort_keys kv.2)) kvs)))
      by (apply Permutation_map, sort_pairs_permutation).
    f_equal. rewrite map_map. apply map_ext_in. intros x Hx. rewrite Forall_forall in IH. by apply IH, list_elem_of_In.
Qed.

Lemma canonical_bytes_encodable j b : canonical_bytes j = Ok b -> decodable b = true /\ b = compact false (sort_keys j).
Proof.
  unfold canonical_bytes, dump_bytes, encode_str. rewrite raw_compact. generalize (compact false (sort_keys j)). intros t E.
  guards in E. destruct E as (_ & _ & E). apply rbind_ok in E as (s & E & [= <-]). guards in E. destruct E as [D [= <-]].
  by rewrite chars_of_chars in *.
Qed.

(** An object read back from its canonical bytes, a newline after them or not. *)
Lemma loads_canonical `{JsonLimits} kvs b ws :
  canonical_bytes (JObj kvs) = Ok b -> plain (JObj kvs) = true -> (nesting (JObj kvs) <= max_depth)%nat ->
  ws = [] \/ ws = [lf] -> loads_raw (b ++ ws) = Ok (sort_keys (JObj kvs)).
Proof.
  intros [D ->]%canonical_bytes_encodable Hp Hn Hws. unfold loads_raw. assert (decoded (compact false (sort_keys (JObj kvs)) ++ ws) = Some (compact false (sort_keys (JObj kvs)) ++ ws)) as ->.
  { unfold decoded. assert (detect_encoding (compact false (sort_keys (JObj kvs)) ++ ws) = Utf8) as ->.
    { destruct (sorted_fields kvs) as (d & -> & _). cbn [show_with]. destruct d as [|[k v] d].
      - cbn [map separated app]. by apply detect_ascii.
      - cbn [map separated]. unfold show_str. cbn [app]. by apply detect_ascii. }
    unfold decodable in D. destruct (points false _) as [x|] eqn:P; [|done]. apply points_strict in P.
    rewrite (points_app _ _ _ _ P). by destruct Hws as [->| ->]. }
  apply loads_u_compact; [by apply plain_sort|by rewrite nesting_sort|by destruct Hws as [->| ->]..].
Qed.
