(* ===== verification/JsonParts.v ===== *)
(** * What a canonical text says of its parts

    Two values with one canonical text have parts with one canonical text: a
    number is known by its spelling, everything else by what it is. This holds
    of floats too, which [Json.dumps_inj] leaves out. *)
From S2P Require Import Prelude PyStr PyFloat Json JsonText JsonBytes.
From stdpp Require Import base strings list.
From Stdlib Require Import ZArith QArith NArith Lia Permutation DecimalString.

(** The characters of a number or a keyword. *)
Definition lexchar (c : Ascii.ascii) : bool :=
  ((48 <=? code c) && (code c <=? 57) || (65 <=? code c) && (code c <=? 90) || (97 <=? code c) && (code c <=? 122)
   || (code c =? 43) || (code c =? 45) || (code c =? 46))%N.
Definition lexed (l : list Ascii.ascii) : bool := forallb lexchar l.
(** What may follow a value. *)
Definition ends (r : list Ascii.ascii) : bool := match r with c :: _ => negb (lexchar c) | [] => true end.

Lemma lexed_app a b : lexed (a ++ b) = lexed a && lexed b.
Proof. apply forallb_app. Qed.
Lemma lexed_chars a b : lexed (chars (a +:+ b)) = lexed (chars a) && lexed (chars b).
Proof. by rewrite chars_app, lexed_app. Qed.
Lemma lexed_take n l : lexed l = true -> lexed (take n l) = true.
Proof. intros H. rewrite <- (take_drop n l), lexed_app in H. by apply andb_true_iff in H as [? _]. Qed.
Lemma lexed_drop n l : lexed l = true -> lexed (drop n l) = true.
Proof. intros H. rewrite <- (take_drop n l), lexed_app in H. by apply andb_true_iff in H as [_ ?]. Qed.

Lemma str_Z_lexed z : lexed (chars (str_Z z)) = true.
Proof.
  pose proof (str_Z_numchars z) as H. unfold lexed. rewrite forallb_forall in *. intros c Hc. specialize (H c Hc).
  unfold numchar in H. unfold lexchar. apply orb_true_iff in H as [-> | ->]; [done|]. by rewrite !orb_true_r.
Qed.
Lemma repeat_lexed n : lexed (repeat (Ascii.ascii_of_N 48) n) = true.
Proof. by induction n. Qed.

Lemma float_repr_pos_lexed q : lexed (chars (float_repr_pos q)) = true.
Proof.
  unfold float_repr_pos. destruct (shortest q) as [[d e] n]. set (ds := str_Z d). pose proof (str_Z_lexed d : lexed (chars ds) = true) as D.
  assert (forall n, lexed (chars (take_s n ds)) = true) as T by (intros k; unfold take_s; rewrite chars_of_chars; by apply lexed_take).
  assert (forall n, lexed (chars (drop_s n ds)) = true) as R by (intros k; unfold drop_s; rewrite chars_of_chars; by apply lexed_drop).
  assert (forall z, lexed (chars (pad2 (str_Z z))) = true) as P.
  { intros z. unfold pad2. destruct (_ <? _)%nat; [rewrite lexed_chars|]; by rewrite ?str_Z_lexed. }
  assert (forall k, lexed (chars (zeros k)) = true) as Z by (intros k; unfold zeros; rewrite chars_of_chars; apply repeat_lexed).
  destruct (_ || _); [|destruct (e <? 0)%Z; [|destruct (_ <=? _)%Z]]; rewrite !lexed_chars, ?T, ?R, ?P, ?Z, ?D; try done.
  destruct (n =? 1)%Z; [|rewrite lexed_chars, R]; by destruct (e <? 0)%Z.
Qed.
Lemma float_repr_lexed q : lexed (chars (float_repr q)) = true.
Proof. unfold float_repr. destruct (Qnum q); [done|apply float_repr_pos_lexed|]. by rewrite lexed_chars, float_repr_pos_lexed. Qed.

Lemma append_not_nil a b : chars b <> [] -> chars (a +:+ b) <> [].
Proof. rewrite chars_app. intros N [_ E]%app_eq_nil. done. Qed.
Lemma float_repr_not_nil q : chars (float_repr q) <> [].
Proof.
  unfold float_repr. assert (forall q, chars (float_repr_pos q) <> []) as P.
  { intros p. unfold float_repr_pos. destruct (shortest p) as [[d e] n]. destruct (_ || _); [|destruct (e <? 0)%Z; [|destruct (_ <=? _)%Z]].
    - by do 2 apply append_not_nil.
    - done.
    - by do 2 apply append_not_nil.
    - by apply append_not_nil. }
  destruct (Qnum q); [done|apply P|]. by apply append_not_nil.
Qed.
Lemma str_Z_not_nil z : chars (str_Z z) <> [].
Proof.
  intros E. assert (str_Z z = "") as E' by (by apply chars_inj). unfold str_Z in E'. destruct z as [|p|p]; [done| |done].
  pose proof (DecimalPos.Unsigned.to_uint_nonnil p) as N. simpl in E'. by destruct (Pos.to_uint p).
Qed.

(** Reading off the longest run of such characters. *)
Fixpoint lex_span (l : list Ascii.ascii) : list Ascii.ascii * list Ascii.ascii :=
  match l with
  | c :: r => if lexchar c then let '(a, b) := lex_span r in (c :: a, b) else ([], l)
  | [] => ([], [])
  end.
Lemma lex_span_app l r : lexed l = true -> ends r = true -> lex_span (l ++ r) = (l, r).
Proof.
  intros Hl Hr. induction l as [|c l IH]; simpl in *.
  - destruct r as [|c r]; simpl in *; [done|]. by apply negb_true_iff in Hr as ->.
  - apply andb_true_iff in Hl as [-> Hl]. by rewrite IH.
Qed.

Section texts.
  Context `{C : CharCodec}.

Definition atom (j : json) : bool := match j with JStr _ | JArr _ | JObj _ => false | _ => true end.
Lemma atom_text j : atom j = true -> lexed (raw j) = true /\ raw j <> [].
Proof.
  destruct j as [|[]|z|q|[]|s|l|kvs]; intros A; try done; cbn [raw].
  - split; [apply str_Z_lexed|apply str_Z_not_nil].
  - split; [apply float_repr_lexed|apply float_repr_not_nil].
Qed.

(** A printer whose texts are told apart from what follows. *)
Definition told {A} (f : A -> list Ascii.ascii) (x : A) : Prop :=
  forall y r1 r2, ends r1 = true -> ends r2 = true -> f x ++ r1 = f y ++ r2 -> f x = f y /\ r1 = r2.

Lemma tail_ends {A} (f : A -> list Ascii.ascii) close l r :
  lexchar close = false -> ends (comma_tail (map f l) ++ close :: r) = true.
Proof. intros Hn. destruct l; simpl; [by rewrite Hn|done]. Qed.

Lemma tail_told {A} (f : A -> list Ascii.ascii) close l1 l2 r1 r2 :
  lexchar close = false -> close <> chr 44 -> Forall (told f) l1 ->
  comma_tail (map f l1) ++ close :: r1 = comma_tail (map f l2) ++ close :: r2 -> map f l1 = map f l2 /\ r1 = r2.
Proof.
  intros Hn Hc HF. revert l2. induction HF as [|x l1 Hx HF IH]; intros [|y l2] E; simpl in E.
  - by injection E.
  - exfalso. injection E. done.
  - exfalso. injection E. done.
  - injection E as E. rewrite <- !(app_assoc (f _)) in E. apply Hx in E as [E1 E]; [|by apply tail_ends..].
    apply IH in E as [E2 ->]. simpl. by rewrite E1, E2.
Qed.

Lemma commas_told {A} (f : A -> list Ascii.ascii) close l1 l2 r1 r2 :
  lexchar close = false -> close <> chr 44 -> (forall x r t, f x ++ r <> close :: t) -> Forall (told f) l1 ->
  commas (map f l1) ++ close :: r1 = commas (map f l2) ++ close :: r2 -> map f l1 = map f l2 /\ r1 = r2.
Proof.
  intros Hn Hc Hf HF E. destruct l1 as [|x l1], l2 as [|y l2]; simpl in E.
  - by injection E.
  - exfalso. rewrite <- app_assoc in E. by apply (Hf y _ _ (eq_sym E)).
  - exfalso. rewrite <- app_assoc in E. by apply (Hf x _ _ E).
  - rewrite <- !app_assoc in E. inversion_clear HF as [|? ? Hx HF']. apply Hx in E as [E1 E]; [|by apply tail_ends..].
    eapply tail_told in E as [E2 ->]; [|done..]. simpl. by rewrite E1, E2.
Qed.

(** The first character. *)
Lemma raw_first j : exists c t, raw j = c :: t /\ (if atom j then lexchar c = true else c = match j with JStr _ => quote2 | JArr _ => chr 91 | _ => chr 123 end).
Proof.
  destruct (atom j) eqn:A.
  - destruct (atom_text j A) as [L N]. destruct (raw j) as [|c t] eqn:E; [done|]. exists c, t. split; [done|].
    by apply andb_true_iff in L as [? _].
  - destruct j; try done; by eexists _, _.
Qed.

Lemma raw_open j r t close : close = chr 93 \/ close = chr 125 -> raw j ++ r <> close :: t.
Proof.
  intros Hc E. destruct (raw_first j) as (c & u & Er & K). rewrite Er in E. injection E as -> _.
  destruct (atom j) eqn:A; [by destruct Hc as [-> | ->]|]. destruct j; try done; by destruct Hc as [-> | ->].
Qed.

Lemma raw_pair_told k v : told raw v -> told raw_pair (k, v).
Proof.
  intros Hv [k2 v2] r1 r2 S1 S2 E. unfold raw_pair in *. cbn [fst snd] in *. rewrite <- !app_assoc in E.
  apply str_lit_unique in E as [-> E]. injection E as E. apply Hv in E as [-> ->]; done.
Qed.

(** A value's text is told apart from what follows it. *)
Lemma raw_told j : told raw j.
Proof.
  induction j as [|b|z|q|x|s|l IH|kvs IH] using json_rect_all; intros j2 r1 r2 S1 S2 E;
    destruct (raw_first j2) as (c2 & t2 & E2 & K2).
  1-5: match type of E with raw ?j ++ _ = _ => destruct (raw_first j) as (c1 & t1 & E1 & K1) end; cbn [atom] in K1;
    destruct (atom j2) eqn:A2;
    [ match type of E with raw ?j ++ _ = _ => destruct (atom_text j eq_refl) as [L1 _] end;
      destruct (atom_text j2 A2) as [L2 _]; apply (f_equal lex_span) in E; rewrite !lex_span_app in E by done; by injection E
    | exfalso; rewrite E1, E2 in E; injection E as -> _; by destruct j2; subst ].
  - destruct j2; cbn [atom] in K2; try (rewrite E2 in E; injection E as <- _; done).
    apply str_lit_unique in E as [-> ->]. done.
  - destruct j2 as [| | | | | |l2|]; cbn [atom] in K2; try (rewrite E2 in E; injection E as <- _; done).
    cbn [raw] in *. injection E as E. rewrite <- !app_assoc in E. simpl in E.
    apply commas_told in E as [-> ->]; [done|done|done| |done]. intros x r t. apply raw_open. by left.
  - destruct j2 as [| | | | | | |kvs2]; cbn [atom] in K2; try (rewrite E2 in E; injection E as <- _; done).
    assert (forall l, raw (JObj l) = chr 123 :: commas (map raw_pair l) ++ [chr 125]) as O by done.
    rewrite !O in *. injection E as E. rewrite <- !app_assoc in E. cbn [app] in E.
    apply commas_told in E as [-> ->]; [done|done|done| |].
    + intros [k v] r t F. unfold raw_pair in F. simpl in F. by injection F as F _.
    + clear -IH. induction IH as [|[k v] l Hv _ IHl]; constructor; [by apply raw_pair_told|done].
Qed.
End texts.

(** ** Parts of equal texts *)

Section parts.
  Context `{C : CharCodec}.

Lemma raw_obj (kvs : list (string * json)) : raw (JObj kvs) = chr 123 :: commas (map raw_pair kvs) ++ [chr 125].
Proof. done. Qed.
Lemma raw_obj_inj (l l' : list (string * json)) : raw (JObj l) = raw (JObj l') -> map raw_pair l = map raw_pair l'.
Proof.
  rewrite !raw_obj. intros E. injection E as E. apply commas_told in E as [E _]; [done|done|done| |].
  - intros [k v] r t F. unfold raw_pair in F. simpl in F. by injection F as F _.
  - apply Forall_forall. intros [k v] _. apply raw_pair_told, raw_told.
Qed.
Lemma raw_pair_inj k v k' v' : raw_pair (k, v) = raw_pair (k', v') -> k = k' /\ raw v = raw v'.
Proof.
  unfold raw_pair. cbn [fst snd]. intros E. apply str_lit_unique in E as [-> E]. by injection E.
Qed.
Lemma raw_pairs_inj (l l' : list (string * json)) : map raw_pair l = map raw_pair l' ->
  map (fun kv => (kv.1, raw kv.2)) l = map (fun kv => (kv.1, raw kv.2)) l'.
Proof.
  revert l'. induction l as [|[k v] l IH]; intros [|[k' v'] l'] E; try done. cbn [map] in *. apply (inj2 cons) in E as [E1 E2].
  apply raw_pair_inj in E1 as [-> E1]. cbn [fst snd]. rewrite E1. f_equal. by apply IH.
Qed.

Definition text_of (j : json) : list Ascii.ascii := raw (sort_keys j).
Lemma dumps_text j j' : dumps j = dumps j' <-> text_of j = text_of j'.
Proof. unfold dumps, text_of. split; [intros E; by apply (f_equal chars) in E; rewrite !chars_of_chars in E|by intros ->]. Qed.

(** The keys of two objects of one text, and the texts under each key. *)
Lemma object_parts (a b : list (string * json)) : text_of (JObj a) = text_of (JObj b) ->
  sort_pairs (map (fun kv => (kv.1, text_of kv.2)) a) = sort_pairs (map (fun kv => (kv.1, text_of kv.2)) b).
Proof.
  unfold text_of. cbn [sort_keys]. intros E%raw_obj_inj%raw_pairs_inj. rewrite <- !sort_pairs_map in E.
  by rewrite !map_map in E.
Qed.
Lemma object_field (a b : list (string * json)) : text_of (JObj a) = text_of (JObj b) -> NoDup a.*1 -> NoDup b.*1 ->
  forall k, text_of <$> dict_get k a = text_of <$> dict_get k b.
Proof.
  intros E%object_parts Na Nb k. rewrite <- !dict_get_map.
  assert (forall l : list (string * json), NoDup l.*1 -> dict_get k (map (fun kv => (kv.1, text_of kv.2)) l)
            = dict_get k (sort_pairs (map (fun kv => (kv.1, text_of kv.2)) l))) as S; [|by rewrite !S, E].
  intros l Nl. apply dict_get_perm; [by rewrite <- list_fmap_compose|]. symmetry. apply sort_pairs_permutation.
Qed.
Lemma array_parts (a b : list json) : text_of (JArr a) = text_of (JArr b) -> map text_of a = map text_of b.
Proof.
  unfold text_of. cbn [sort_keys raw]. intros E. injection E as E. apply commas_told in E as [E _]; [by rewrite !map_map in E|done|done| |].
  - intros x r t. apply raw_open. by left.
  - apply Forall_forall. intros x _. apply raw_told.
Qed.
Lemma string_part s s' : text_of (JStr s) = text_of (JStr s') -> s = s'.
Proof.
  unfold text_of. cbn [sort_keys raw]. intros E. pose proof (str_lit_unique s s' [] []) as U. rewrite !app_nil_r in U. by destruct (U E).
Qed.

(** ** When two objects have one text *)

Lemma raw_obj_ext (l l' : list (string * json)) :
  map (fun kv => (kv.1, raw kv.2)) l = map (fun kv => (kv.1, raw kv.2)) l' -> raw (JObj l) = raw (JObj l').
Proof.
  intros E. rewrite !raw_obj. do 3 f_equal. revert l' E. induction l as [|[k v] l IH]; intros [|[k' v'] l'] E; try done.
  cbn [map fst snd] in *. injection E as -> Ev E. rewrite (IH _ E). unfold raw_pair. cbn [fst snd]. by rewrite Ev.
Qed.
Lemma array_text (a b : list json) : text_of (JArr a) = text_of (JArr b) <-> map text_of a = map text_of b.
Proof.
  split; [apply array_parts|]. unfold text_of. intros E. cbn [sort_keys raw]. by rewrite !map_map, E.
Qed.

Lemma dict_get_elem {A} (l : list (string * A)) k v : NoDup l.*1 -> (k, v) ∈ l <-> dict_get k l = Some v.
Proof.
  induction l as [|[k' v'] l IH]; [by split; [intros ?%elem_of_nil|]|]. intros [Nk N]%NoDup_cons. cbn [dict_get].
  rewrite elem_of_cons, (IH N). destruct (String.eqb_spec k k') as [->|Ne].
  - split; [intros [[= ->]|E]; [done|]|intros [= ->]; by left]. destruct Nk. apply list_elem_of_fmap. exists (k', v). split; [done|]. by apply IH.
  - split; [intros [[= ? ?]|E]; [done|done]|by right].
Qed.
Lemma same_lookups_perm {A} (l l' : list (string * A)) : NoDup l.*1 -> NoDup l'.*1 ->
  (forall k, dict_get k l = dict_get k l') -> l ≡ₚ l'.
Proof.
  intros N N' E. apply list.NoDup_Permutation; [by eapply (NoDup_fmap_1 fst)..|].
  intros [k v]. by rewrite !dict_get_elem, E.
Qed.

Lemma object_text (a b : list (string * json)) : NoDup a.*1 -> NoDup b.*1 ->
  text_of (JObj a) = text_of (JObj b) <-> forall k, text_of <$> dict_get k a = text_of <$> dict_get k b.
Proof.
  intros Na Nb. split; [intros E; by apply object_field|]. intros E. unfold text_of. cbn [sort_keys]. apply raw_obj_ext.
  rewrite <- !sort_pairs_map, !map_map. cbn [fst snd].
  apply (sort_pairs_perm (map (fun kv => (kv.1, text_of kv.2)) a) (map (fun kv => (kv.1, text_of kv.2)) b)).
  - apply same_lookups_perm; [by rewrite <- list_fmap_compose..|]. intros k. by rewrite !dict_get_map.
  - by rewrite <- list_fmap_compose.
Qed.

Lemma same_lookups {A B} (f : A -> B) (a b : list (string * A)) : a.*1 = b.*1 -> NoDup a.*1 ->
  (forall k, f <$> dict_get k a = f <$> dict_get k b) <-> map (fun kv => f kv.2) a = map (fun kv => f kv.2) b.
Proof.
  revert b. induction a as [|[k v] a IH]; intros [|[k' v'] b] E; try done. cbn in E. injection E as <- E.
  intros [Nk N]%NoDup_cons. cbn [map snd dict_get].
  assert (dict_get k a = None /\ dict_get k b = None) as [Ka Kb].
  { assert (forall l : list (string * A), k ∉ l.*1 -> dict_get k l = None) as D.
    { intros l. induction l as [|[k2 v2] l IHl]; [done|]. cbn. intros [N1 N2]%not_elem_of_cons.
      destruct (String.eqb_spec k k2); [done|]. by apply IHl. }
    split; apply D; [done|]. by rewrite <- E. }
  split.
  - intros H. pose proof (H k) as Hk. rewrite !String.eqb_refl in Hk. cbn in Hk. injection Hk as ->.
    assert (forall k0, f <$> dict_get k0 a = f <$> dict_get k0 b) as G.
    { intros q. specialize (H q). destruct (decide (q = k)) as [->|Ne]; [by rewrite Ka, Kb|].
      apply String.eqb_neq in Ne. by rewrite Ne in H. }
    f_equal. by apply (IH b E N).
  - intros H q. injection H as Hv H. destruct (q =? k)%string; [cbn; by rewrite Hv|]. by apply (IH b E N).
Qed.
Lemma record_text (a b : list (string * json)) : a.*1 = b.*1 -> NoDup a.*1 ->
  text_of (JObj a) = text_of (JObj b) <-> map (fun kv => text_of kv.2) a = map (fun kv => text_of kv.2) b.
Proof. intros E N. rewrite object_text; [|done|by rewrite <- E]. by apply same_lookups. Qed.
End parts.
