(* ===== verification/HostFiles.v ===== *)
(** * Files of the host, and what a crash leaves of them

    Names and inodes as the processes see them and as they are on the disk, the
    system calls the effect broker makes, and the programs built from them.
    Before each call the process may be killed, and no [finally] runs; or the
    host may lose power, and what was not synced is kept or lost, name by name
    and inode by inode. A call may also fail with an [OSError], and a write may
    stop half way. Reading fails only as the tree says. *)
From S2P Require Import Prelude PyStr PyIO PyPath.
From stdpp Require Import base gmap strings list.
From Stdlib Require Import ZArith NArith Lia.

Local Open Scope Z_scope.

(** ** Volumes *)

(** An absolute path. *)
Notation path := (list string).

Inductive kind := Reg (data : bytes) | Dir | Link (target : string) | Other.
Record inode := Inode { i_kind : kind; i_mode : Z; i_mine : bool }.
#[export] Instance kind_eq_dec : EqDecision kind.
Proof. solve_decision. Defined.
#[export] Instance inode_eq_dec : EqDecision inode.
Proof. solve_decision. Defined.

Record volume := Volume { v_names : gmap path nat; v_inodes : gmap nat inode }.

(** [os.lstat], and the names of an inode ([st_nlink]). *)
Definition stat (v : volume) (p : path) : option (nat * inode) :=
  match v_names v !! p with
  | Some n => (fun i => (n, i)) <$> v_inodes v !! n
  | None => None
  end.
Definition nlink (v : volume) (n : nat) : nat :=
  List.length (List.filter (fun kv => (kv.2 =? n)%nat) (map_to_list (v_names v))).

Definition parent (p : path) : path := removelast p.
Definition is_dir (v : volume) (p : path) : bool :=
  match stat v p with Some (_, Inode Dir _ _) => true | _ => false end.

(** ** Paths of links *)

(** [root / name] of [pathlib]. *)
Definition joined (root : path) (name : string) : path := if is_absolute name then path_parts name else root ++ path_parts name.

(** [Path.resolve]: symbolic links followed, missing names kept; [fuel] bounds
    the names looked at, and a link met inside itself is a loop. *)
Definition link_loop {A} : res A := Err (Exn RuntimeError "Symlink loop").
Fixpoint realpath (fuel : nat) (v : volume) (busy : list path) (acc : path) (rest : list string) : res path :=
  match fuel, rest with
  | _, [] => Ok acc
  | O, _ => link_loop
  | S f, name :: rest' =>
      if (name =? "..")%string then realpath f v busy (removelast acc) rest' else
      let p := acc ++ [name] in
      match stat v p with
      | Some (_, Inode (Link target) _ _) =>
          if bool_decide (p ∈ busy) then link_loop
          else let! q := realpath f v (p :: busy) (if is_absolute target then [] else acc) (path_parts target) in
               realpath f v busy q rest'
      | _ => realpath f v busy p rest'
      end
  end.
Definition link_steps : nat := 1000.

Definition FileNotFoundError : exc_class := OtherError "FileNotFoundError".
Definition not_found {A} : res A := Err (Exn FileNotFoundError "No such file or directory").
(** [Path.resolve(strict=True)]: every name on the way must be there. *)
Fixpoint realpath_strict (fuel : nat) (v : volume) (busy : list path) (acc : path) (rest : list string) : res path :=
  match fuel, rest with
  | _, [] => Ok acc
  | O, _ => link_loop
  | S f, name :: rest' =>
      if (name =? "..")%string then realpath_strict f v busy (removelast acc) rest' else
      let p := acc ++ [name] in
      match stat v p with
      | None => not_found
      | Some (_, Inode (Link target) _ _) =>
          if bool_decide (p ∈ busy) then link_loop
          else let! q := realpath_strict f v (p :: busy) (if is_absolute target then [] else acc) (path_parts target) in
               realpath_strict f v busy q rest'
      | Some _ => realpath_strict f v busy p rest'
      end
  end.

(** The inode a path leads to, links followed. *)
Definition followed (v : volume) (p : path) : option inode :=
  match realpath_strict link_steps v [] [] p with Ok q => snd <$> stat v q | Err _ => None end.

(** ** The host *)

(** What the broker learns when its authority is checked. *)
Record binding := Binding { b_admission_id : string; b_admission_epoch : Z }.

(** The fate of a system call. All but the first let the first [n] bytes of a
    write through; a loss of power keeps the names and the inodes it says as
    the process saw them, and the others as they were last synced. *)
Inductive fate :=
  | Goes
  | Fails (n : nat)
  | Killed (n : nat)
  | PowerLoss (n : nat) (keep_name : path -> bool) (keep_inode : nat -> bool).

(** The calls that others see, for statements about their order. *)
Inductive call := Checked | Replaced (p : path) | Made (p : path) | Linked (p : path) | Appended (p : path) | Silent.

Record world := World {
  w_now : volume;
  w_disk : volume;
  w_fates : list fate;
  w_checks : nat -> res binding;
  w_trace : list call;
}.

Inductive outcome (A : Type) := Done (a : A) | Raised (e : exn) | Crashed.
Arguments Done {A} a.
Arguments Raised {A} e.
Arguments Crashed {A}.

Definition prog (A : Type) : Type := world -> outcome A * world.
Definition pret {A} (a : A) : prog A := fun w => (Done a, w).
Definition pfail {A} (e : exn) : prog A := fun w => (Raised e, w).
Definition pbind {A B} (m : prog A) (k : A -> prog B) : prog B := fun w =>
  match m w with
  | (Done a, w') => k a w'
  | (Raised e, w') => (Raised e, w')
  | (Crashed, w') => (Crashed, w')
  end.
Definition pof {A} (r : res A) : prog A := match r with Ok a => pret a | Err e => pfail e end.
(** [try: m except classes: h]. *)
Definition pcatch {A} (caught : exn -> bool) (m : prog A) (h : exn -> prog A) : prog A := fun w =>
  match m w with
  | (Raised e, w') => if caught e then h e w' else (Raised e, w')
  | r => r
  end.
(** What the process sees. *)
Definition pnow : prog volume := fun w => (Done (w_now w), w).

Declare Scope prog_scope.
Delimit Scope prog_scope with prog.
Notation "'do!' x ':=' m 'in' k" := (pbind m (fun x => k))
  (at level 10, x pattern, m at level 100, k at level 200) : prog_scope.
#[global] Open Scope prog_scope.

(** ** System calls *)

(** An inode as it is on the disk: a file whose data was never synced is empty. *)
Definition settled (i : option inode) (j : inode) : inode :=
  match i with
  | Some i => i
  | None => Inode (match i_kind j with Reg _ => Reg [] | k => k end) (i_mode j) (i_mine j)
  end.
(** What is left of the volume after a loss of power. *)
Definition survives (keep_name : path -> bool) (keep_inode : nat -> bool) (now disk : volume) : volume :=
  Volume (base.filter (fun kv => keep_name kv.1 = true) (v_names now)
          ∪ base.filter (fun kv => keep_name kv.1 = false) (v_names disk))
    (map_imap (fun n i => Some (if keep_inode n then i else settled (v_inodes disk !! n) i)) (v_inodes now)).

Definition io_error : exn := Exn OSError "Input/output error".

(** The world a stop leaves, when the call had made [v] of what is seen. *)
Definition stopped (f : fate) (v : volume) (w : world) : world :=
  match f with
  | PowerLoss _ kn ki =>
      let v := survives kn ki v (w_disk w) in World v v (List.tail (w_fates w)) (w_checks w) (w_trace w)
  | _ => World v (w_disk w) (List.tail (w_fates w)) (w_checks w) (w_trace w)
  end.

(** A system call: [partial n] is what it did when it failed or was stopped
    after [n] bytes; [run] what it does otherwise. *)
Definition sys {A} (c : call) (partial : nat -> volume -> volume) (run : volume -> volume -> res A * volume * volume) : prog A := fun w =>
  match w_fates w with
  | (Killed n | PowerLoss n _ _) as f :: _ => (Crashed, stopped f (partial n (w_now w)) w)
  | Fails n as f :: _ => (Raised io_error, stopped f (partial n (w_now w)) w)
  | fates =>
      let '(r, now, disk) := run (w_now w) (w_disk w) in
      (match r with Ok a => Done a | Err e => Raised e end,
       World now disk (List.tail fates) (w_checks w) (match r with Ok _ => c :: w_trace w | Err _ => w_trace w end))
  end.
Definition nothing (n : nat) (v : volume) : volume := v.

Definition FileExistsError : exc_class := OtherError "FileExistsError".
Definition IsADirectoryError : exc_class := OtherError "IsADirectoryError".
(** [except OSError]. *)
Definition os_error (e : exn) : bool :=
  bool_decide (exn_class e ∈ [OSError; PermissionError; FileNotFoundError; FileExistsError; IsADirectoryError]).

(** [path.read_bytes()]. *)
Definition read_bytes (v : volume) (p : path) : res bytes :=
  match realpath_strict link_steps v [] [] p with
  | Err e => if bool_decide (exn_class e = FileNotFoundError) then Err e
             else Err (Exn OSError "Too many levels of symbolic links")
  | Ok q =>
      match stat v q with
      | Some (_, Inode (Reg b) mode mine) =>
          require negb mine || Z.testbit mode 8 else PermissionError, "Permission denied" ;; Ok b
      | Some (_, Inode Dir _ _) => Err (Exn IsADirectoryError "Is a directory")
      | Some _ => Err (Exn OSError "Input/output error")
      | None => not_found
      end
  end.

Definition set_inode (v : volume) (n : nat) (i : inode) : volume := Volume (v_names v) (<[n := i]> (v_inodes v)).
Definition set_name (v : volume) (p : path) (n : nat) : volume := Volume (<[p := n]> (v_names v)) (v_inodes v).
Definition drop_name (v : volume) (p : path) : volume := Volume (base.delete p (v_names v)) (v_inodes v).
Definition fresh_inode (now disk : volume) : nat := fresh (dom (v_inodes now) ∪ dom (v_inodes disk)).

(** [os.open] with [O_CREAT | O_EXCL], as [mkstemp] does. *)
Definition create (p : path) (mode : Z) : prog nat := sys Silent nothing (fun now disk =>
  match v_names now !! p with
  | Some _ => (Err (Exn FileExistsError "File exists"), now, disk)
  | None =>
      let n := fresh_inode now disk in
      if is_dir now (parent p) then (Ok n, set_name (set_inode now n (Inode (Reg []) mode true)) p n, disk)
      else (not_found, now, disk)
  end).
Definition chmod (n : nat) (mode : Z) : prog unit := sys Silent nothing (fun now disk =>
  match v_inodes now !! n with
  | Some i => (Ok tt, set_inode now n (Inode (i_kind i) mode (i_mine i)), disk)
  | None => (not_found, now, disk)
  end).

(** A loop of [os.write] at the end of the file: with nothing to write, no call. *)
Definition append_data (v : volume) (n : nat) (b : bytes) : volume :=
  match v_inodes v !! n with
  | Some (Inode (Reg d) mode mine) => set_inode v n (Inode (Reg (d ++ b)) mode mine)
  | _ => v
  end.
Definition write_all (c : call) (n : nat) (b : bytes) : prog unit :=
  match b with
  | [] => pret tt
  | _ => sys c (fun k v => append_data v n (take k b)) (fun now disk => (Ok tt, append_data now n b, disk))
  end.

Definition fsync (n : nat) : prog unit := sys Silent nothing (fun now disk =>
  (Ok tt, now, match v_inodes now !! n with Some i => set_inode disk n i | None => disk end)).
(** The names of one directory. *)
Definition fsync_dir (d : path) : prog unit := sys Silent nothing (fun now disk =>
  (Ok tt, now, Volume (base.filter (fun kv => parent kv.1 = d) (v_names now)
                       ∪ base.filter (fun kv => parent kv.1 <> d) (v_names disk)) (v_inodes disk))).

(** [os.replace]. *)
Definition replace_file (c : call) (src dst : path) : prog unit := sys c nothing (fun now disk =>
  match v_names now !! src with
  | None => (not_found, now, disk)
  | Some n =>
      match stat now dst with
      | Some (_, Inode Dir _ _) => (Err (Exn IsADirectoryError "Is a directory"), now, disk)
      | _ => (Ok tt, set_name (drop_name now src) dst n, disk)
      end
  end).
Definition unlink (p : path) : prog unit := sys Silent nothing (fun now disk =>
  match v_names now !! p with
  | None => (not_found, now, disk)
  | Some _ => (Ok tt, drop_name now p, disk)
  end).
(** [os.link]; [false] when the name is taken. *)
Definition link (c : call) (src dst : path) : prog bool := sys c nothing (fun now disk =>
  match v_names now !! src, v_names now !! dst with
  | None, _ => (not_found, now, disk)
  | Some _, Some _ => (Ok false, now, disk)
  | Some n, None => (Ok true, set_name now dst n, disk)
  end).
(** [os.mkdir]; the directory itself needs no sync. *)
Definition mkdir (c : call) (p : path) (mode : Z) : prog unit := sys c nothing (fun now disk =>
  match v_names now !! p with
  | Some _ => (Err (Exn FileExistsError "File exists"), now, disk)
  | None =>
      let n := fresh_inode now disk in let i := Inode Dir mode true in
      if is_dir now (parent p) then (Ok tt, set_name (set_inode now n i) p n, set_inode disk n i)
      else (not_found, now, disk)
  end).

(** [authority.check()]; its answers come in a sequence. *)
Definition check : prog binding := fun w =>
  match w_fates w with
  | (Killed _ | PowerLoss _ _ _) as f :: _ => (Crashed, stopped f (w_now w) w)
  | fates =>
      let rest := fun n => w_checks w (S n) in
      match w_checks w 0%nat with
      | Ok b => (Done b, World (w_now w) (w_disk w) (List.tail fates) rest (Checked :: w_trace w))
      | Err e => (Raised e, World (w_now w) (w_disk w) (List.tail fates) rest (w_trace w))
      end
  end.

(** [except: ...; raise], and the [finally] that removes a temporary file. *)
Definition on_error {A} (m : prog A) (h : prog unit) : prog A := fun w =>
  match m w with
  | (Raised e, w') => pbind h (fun _ => pfail e) w'
  | r => r
  end.
Definition unlink_quietly (p : path) : prog unit :=
  pcatch (fun e => bool_decide (exn_class e = FileNotFoundError)) (unlink p) (fun _ => pret tt).

(** Where [mkstemp] puts its file: a name nothing has. *)
Class TempNames := {
  temp_name : volume -> path -> string -> string;
  temp_name_new v d prefix : v_names v !! (d ++ [temp_name v d prefix]) = None;
  temp_name_prefix v d prefix : exists suffix, temp_name v d prefix = prefix +:+ suffix;
}.
(** [tempfile.mkstemp(prefix=prefix, dir=d)]: the inode and the path. *)
Definition mkstemp `{TempNames} (prefix : string) (d : path) : prog (nat * path) :=
  do! v := pnow in
  let p := d ++ [temp_name v d prefix] in
  do! n := create p 384 in pret (n, p).


(** How the broker puts a file in place: written aside under a temporary name,
    synced, renamed, and the directory synced; [final] is what comes right
    before the renaming. *)
Definition publish `{TempNames} {A} (c : call) (prefix : string) (target : path) (mode : Z) (data : res bytes) (final : prog A) : prog A :=
  do! (n, temporary) := mkstemp prefix (parent target) in
  do! a := on_error (do! _ := chmod n mode in
                     do! b := pof data in
                     do! _ := write_all Silent n b in
                     do! _ := fsync n in
                     do! a := final in
                     do! _ := replace_file c temporary target in pret a) (unlink_quietly temporary) in
  do! _ := fsync_dir (parent target) in pret a.
