(* ===== verification/HostLogic.v ===== *)
(** * What crashes leave of the files a program works on

    [triple h P m Q E C] is a specification of a program under a hazard: no
    fault at all, faults and kills, or losses of power too. It speaks of the
    pair of what processes see and what is on the disk. [held X p] says that
    whatever happens now, what is found at [p] is in [X] (the possible states
    of a path), and [meets F] that every path [F] names is held: the rules of
    the system calls say how [meets] changes. *)
From S2P Require Import Prelude PyStr PyIO HostFiles.
From stdpp Require Import base gmap strings list.
From Stdlib Require Import ZArith NArith Lia.

Local Open Scope Z_scope.

(** ** Triples *)

Inductive hazard := Calm (b : binding) | Kills | Losses.
(** No fault at all, and the authority always answers [b]. *)
Definition calm (h : hazard) : bool := match h with Calm _ => true | _ => false end.
Definition allows (h : hazard) (f : fate) : bool :=
  match h, f with
  | _, Goes | Losses, _ | Kills, (Fails _ | Killed _) => true
  | _, _ => false
  end.
Definition subject (h : hazard) (w : world) : Prop :=
  Forall (fun f => allows h f = true) (w_fates w) /\ (forall b, h = Calm b -> forall n, w_checks w n = Ok b).

Definition assertion : Type := volume -> volume -> Prop.

Definition triple (h : hazard) {A} (P : assertion) (m : prog A) (Q : A -> assertion) (E : exn -> assertion)
    (C : assertion) : Prop :=
  forall w, subject h w -> P (w_now w) (w_disk w) ->
  let '(o, w') := m w in
  subject h w' /\
  match o with
  | Done a => Q a (w_now w') (w_disk w')
  | Raised e => calm h = false /\ E e (w_now w') (w_disk w')
  | Crashed => calm h = false /\ C (w_now w') (w_disk w')
  end.

(** What holds after a loss of power too. *)
Definition stable (h : hazard) (C : assertion) : Prop :=
  h = Losses -> forall v d kn ki, C v d -> C (survives kn ki v d) (survives kn ki v d).

Section triples.
  Context (h : hazard) {A : Type}.
  Implicit Types (P C : assertion) (E : exn -> assertion) (Q : A -> assertion).

Lemma subject_tail w v d t : subject h w -> subject h (World v d (List.tail (w_fates w)) (w_checks w) t).
Proof. intros [F K]. split; [|done]. simpl. by destruct F. Qed.

Lemma triple_weaken P P' (m : prog A) Q Q' E E' C C' :
  triple h P m Q E C -> (forall v d, P' v d -> P v d) -> (forall a v d, Q a v d -> Q' a v d) ->
  (forall e v d, E e v d -> E' e v d) -> (forall v d, C v d -> C' v d) -> triple h P' m Q' E' C'.
Proof.
  intros T HP HQ HE HC w S Pw. specialize (T w S (HP _ _ Pw)). destruct (m w) as [[a|e|] w']; naive_solver.
Qed.

Lemma triple_pre P P' (m : prog A) Q E C : triple h P m Q E C -> (forall v d, P' v d -> P v d) -> triple h P' m Q E C.
Proof. intros T HP. by eapply triple_weaken. Qed.

Lemma triple_crash P (m : prog A) Q E C C' : triple h P m Q E C -> (forall v d, C v d -> C' v d) -> triple h P m Q E C'.
Proof. intros T HC. by eapply triple_weaken. Qed.

Lemma triple_post P (m : prog A) Q Q' E C : triple h P m Q E C -> (forall a v d, Q a v d -> Q' a v d) -> triple h P m Q' E C.
Proof. intros T HQ. by eapply triple_weaken. Qed.

Lemma triple_errors P (m : prog A) Q E E' C : triple h P m Q E C -> (forall e v d, E e v d -> E' e v d) -> triple h P m Q E' C.
Proof. intros T HE. by eapply triple_weaken. Qed.

Lemma triple_ret P (a : A) Q E C : (forall v d, P v d -> Q a v d) -> triple h P (pret a) Q E C.
Proof. intros X w S Pw. simpl. auto. Qed.
Lemma triple_fail P e Q E C : (forall v d, P v d -> calm h = false /\ E e v d) -> triple h P (@pfail A e) Q E C.
Proof. intros X w S Pw. simpl. split; [done|]. by apply X. Qed.
Lemma triple_of P (r : res A) Q E C :
  (forall v d, P v d -> match r with Ok a => Q a v d | Err e => calm h = false /\ E e v d end) -> triple h P (pof r) Q E C.
Proof. intros X. destruct r; [by apply triple_ret|by apply triple_fail]. Qed.

Lemma triple_bind {B} P (m : prog B) (k : B -> prog A) R Q E C :
  triple h P m R E C -> (forall b, triple h (R b) (k b) Q E C) -> triple h P (pbind m k) Q E C.
Proof.
  intros Tm Tk w S Pw. specialize (Tm w S Pw). unfold pbind. destruct (m w) as [[b|e|] w']; [|done..].
  destruct Tm as [S' Rw]. exact (Tk b w' S' Rw).
Qed.

Lemma triple_known {B} P (b : B) (k : B -> prog A) Q E C : triple h P (k b) Q E C -> triple h P (pbind (pof (Ok b)) k) Q E C.
Proof. exact id. Qed.

Lemma triple_seq {B} P (m : prog B) (k : prog A) (R : assertion) Q E C :
  triple h P m (fun _ => R) E C -> triple h R k Q E C -> triple h P (pbind m (fun _ => k)) Q E C.
Proof. intros Tm Tk. by eapply triple_bind. Qed.

Lemma triple_on_error P (m : prog A) k Q E' E C :
  triple h P m Q E' C -> (forall e, calm h = false -> triple h (E' e) k (fun _ => E e) E C) -> triple h P (on_error m k) Q E C.
Proof.
  intros Tm Tk w S Pw. specialize (Tm w S Pw). unfold on_error. destruct (m w) as [[a|e|] w']; [done| |done].
  destruct Tm as (S' & N & Ew). specialize (Tk e N w' S' Ew). unfold pbind, pfail.
  by destruct (k w') as [[u|e'|] w'']; [destruct Tk as [? ?]; split| |].
Qed.

Lemma triple_catch P caught (m : prog A) k Q E' E C :
  triple h P m Q E' C -> (forall e, calm h = false -> caught e = true -> triple h (E' e) (k e) Q E C) ->
  (forall e v d, caught e = false -> E' e v d -> E e v d) -> triple h P (pcatch caught m k) Q E C.
Proof.
  intros Tm Tk TE w S Pw. specialize (Tm w S Pw). unfold pcatch. destruct (m w) as [[a|e|] w']; [done| |done].
  destruct Tm as (S' & N & Ew). destruct (caught e) eqn:X; [by apply Tk|]. split; [done|]. split; [done|]. by apply TE.
Qed.

Lemma triple_pure (G : Prop) P (m : prog A) Q E C :
  (G -> triple h P m Q E C) -> triple h (fun v d => G /\ P v d) m Q E C.
Proof. intros T w S [HG Pw]. by apply T. Qed.
Lemma triple_ex {X} (P : X -> assertion) (m : prog A) Q E C :
  (forall x, triple h (P x) m Q E C) -> triple h (fun v d => exists x, P x v d) m Q E C.
Proof. intros T w S [x Pw]. by apply (T x). Qed.

(** What processes see is one volume for what follows. *)
Lemma triple_now P (k : volume -> prog A) Q E C :
  (forall u, triple h (fun v d => v = u /\ P v d) (k u) Q E C) -> triple h P (do! v := pnow in k v) Q E C.
Proof. intros T w S Pw. unfold pbind, pnow. by apply T. Qed.

(** A system call. *)
Lemma triple_sys P c partial run Q E C :
  stable h C ->
  (forall v d, P v d -> match run v d with (Ok a, v', d') => Q a v' d' | (Err e, v', d') => calm h = false /\ E e v' d' end) ->
  (calm h = false -> forall v d n, P v d -> E io_error (partial n v) d /\ C (partial n v) d) ->
  triple h P (sys c partial run) Q E C.
Proof.
  intros HC Hr Hp w S Pw. unfold sys.
  assert (let '(r, now, disk) := run (w_now w) (w_disk w) in
          match r with Ok a => Q a now disk | Err e => calm h = false /\ E e now disk end) as R.
  { specialize (Hr _ _ Pw). by destruct (run _ _) as [[[a|e] v'] d]. }
  pose proof (fun v d t => subject_tail w v d t S) as T. destruct S as [F K].
  destruct (w_fates w) as [|[|n|n|n kn ki] fates] eqn:Ew.
  - destruct (run _ _) as [[[a|e] v'] d]; (split; [apply T|done]).
  - destruct (run _ _) as [[[a|e] v'] d]; (split; [apply T|done]).
  - apply Forall_cons in F as [F _]. assert (calm h = false) as N by by destruct h.
    unfold stopped. rewrite Ew. split; [apply T|]. split; [done|]. by apply (Hp N _ _ n).
  - apply Forall_cons in F as [F _]. assert (calm h = false) as N by by destruct h.
    unfold stopped. rewrite Ew. split; [apply T|]. split; [done|]. by apply (Hp N _ _ n).
  - apply Forall_cons in F as [F _]. assert (h = Losses) as L by by destruct h. assert (calm h = false) as N by by rewrite L.
    unfold stopped. rewrite Ew. split; [apply T|]. split; [done|]. apply (HC L). by apply (Hp N _ _ n).
Qed.
End triples.

(** The answer of the authority. *)
Definition answers (h : hazard) (b : binding) : Prop := forall b', h = Calm b' -> b = b'.

Lemma triple_check h P (E : exn -> assertion) C :
  stable h C -> (forall e v d, P v d -> E e v d) -> (forall v d, P v d -> C v d) ->
  triple h P check (fun b v d => answers h b /\ P v d) E C.
Proof.
  intros HC HE HPC w S Pw. unfold check.
  assert (forall fates t, Forall (fun f => allows h f = true) fates ->
            subject h (World (w_now w) (w_disk w) fates (fun n => w_checks w (Datatypes.S n)) t)) as T.
  { intros fates t F. split; [done|]. intros b Eh n. by apply S. }
  pose proof (fun v d t => subject_tail h w v d t S) as T'. destruct S as [F K].
  assert (forall r, w_checks w 0%nat = r -> match r with Ok b => answers h b | Err _ => calm h = false end) as N.
  { intros r <-. destruct (w_checks w 0%nat) as [b|e] eqn:E0.
    - intros b' Eh. specialize (K b' Eh 0%nat). congruence.
    - destruct h as [b| |]; [|done..]. specialize (K b eq_refl 0%nat). congruence. }
  destruct (w_fates w) as [|[|n|n|n kn ki] fates] eqn:Ew.
  1-3: specialize (N _ eq_refl); destruct (w_checks w 0%nat) as [b|e]; (split; [apply T; by destruct F|]); auto.
  - apply Forall_cons in F as [F _]. unfold stopped. rewrite Ew. split; [apply T'|]. split; [by destruct h|by apply HPC].
  - apply Forall_cons in F as [F _]. assert (h = Losses) as L by by destruct h.
    unfold stopped. rewrite Ew. split; [apply T'|]. split; [by destruct h|]. apply (HC L). by apply HPC.
Qed.
