(* ===== verification/HostStates.v ===== *)
(** * Possible states of paths

    [held X p] says that whatever the hazard does, what is found at [p] is in
    [X], under a name no other path shares; [meets F] that each path [F] names
    is held. Here are the rules by which the system calls change [meets], and
    the specification of [publish]: while it runs the path is as before or
    replaced, and once it returns it is replaced for good. *)
From S2P Require Import Prelude PyStr PyIO HostFiles HostLogic.
From stdpp Require Import base gmap strings list.
From Stdlib Require Import ZArith NArith Lia.

Local Open Scope Z_scope.

Definition spec : Type := path -> option (option inode -> Prop).
(** The path of a specification replaced. *)
Definition put (F : spec) (p : path) (X : option inode -> Prop) : spec := fun q => if decide (q = p) then Some X else F q.
(** A path that may come and go. *)
Definition free (F : spec) (p : path) : Prop := forall X, F p = Some X -> ~ X None.

Lemma put_eq F p X : put F p X p = Some X.
Proof. unfold put. by rewrite decide_True. Qed.
Lemma put_ne F p X q : q <> p -> put F p X q = F q.
Proof. intros N. unfold put. by rewrite decide_False. Qed.

(** ** Names of an inode *)

Definition alone (v : volume) (p : path) (n : nat) : Prop := forall q, v_names v !! q = Some n -> q = p.

Lemma nlink_alone v p n : v_names v !! p = Some n -> (nlink v n =? 1)%nat = true <-> alone v p n.
Proof.
  intros Hp. unfold nlink. set (l := List.filter (fun kv => (kv.2 =? n)%nat) (map_to_list (v_names v))).
  assert (forall q m, (q, m) ∈ l <-> m = n /\ v_names v !! q = Some n) as Hl.
  { intros q m. unfold l. rewrite list_elem_of_In, filter_In, <- list_elem_of_In, elem_of_map_to_list. simpl.
    rewrite Nat.eqb_eq. naive_solver. }
  assert (NoDup l) as N.
  { unfold l. pose proof (NoDup_map_to_list (v_names v)) as N. apply NoDup_ListNoDup in N. apply NoDup_ListNoDup.
    by apply List.NoDup_filter. }
  assert ((p, n) ∈ l) as Hin by by apply Hl.
  rewrite Nat.eqb_eq. split.
  - intros E q Hq. assert ((q, n) ∈ l) as Hq' by by apply Hl.
    destruct l as [|x [|y l']]; [by apply elem_of_nil in Hin| |done].
    apply list_elem_of_singleton in Hin as <-. apply list_elem_of_singleton in Hq'. by injection Hq'.
  - intros A. destruct l as [|[q m] [|[q' m'] l']]; [by apply elem_of_nil in Hin|done|]. exfalso.
    assert (v_names v !! q = Some n /\ m = n) as [E1 ->] by (by destruct (proj1 (Hl q m)); [left|]).
    assert (v_names v !! q' = Some n /\ m' = n) as [E2 ->] by (by destruct (proj1 (Hl q' m')); [right; left|]).
    rewrite (A _ E1), (A _ E2) in N. apply NoDup_cons in N as [Hn _]. apply Hn. left.
Qed.

Section states.
  Context (h : hazard).

Definition named (v d : volume) (p : path) (n : nat) : Prop :=
  v_names v !! p = Some n \/ h = Losses /\ v_names d !! p = Some n.
Definition content (v d : volume) (n : nat) (i : inode) : Prop :=
  v_inodes v !! n = Some i \/ h = Losses /\ exists j, v_inodes v !! n = Some j /\ i = settled (v_inodes d !! n) j.
Definition missing (v d : volume) (p : path) : Prop := v_names v !! p = None \/ h = Losses /\ v_names d !! p = None.

Definition held (X : option inode -> Prop) (p : path) : assertion := fun v d =>
  (forall n, named v d p n -> (forall i, content v d n i -> X (Some i)) /\ forall q, named v d q n -> q = p)
  /\ (missing v d p -> X None).

(** Every name has its inode. *)
Definition names_ok : assertion := fun v d => forall p n, named v d p n -> is_Some (v_inodes v !! n).
Definition meets (F : spec) : assertion := fun v d => names_ok v d /\ forall p X, F p = Some X -> held X p v d.

(** A temporary file: not on the disk, and under no other name. *)
Definition temp (p : path) (n : nat) (i : inode) : assertion := fun v d =>
  v_names v !! p = Some n /\ v_inodes v !! n = Some i /\ (forall q, named v d q n -> q = p)
  /\ (h = Losses -> v_names d !! p <> Some n).
Definition temporary (p : path) (n : nat) : assertion := fun v d => exists i, temp p n i v d.

Implicit Types (F : spec) (X Y : option inode -> Prop).

(** A path whose names and whose content can only have become fewer. *)
Lemma held_step X p v d v' d' :
  held X p v d ->
  (forall n, named v' d' p n -> named v d p n) -> (missing v' d' p -> missing v d p) ->
  (forall n i, named v d p n -> content v' d' n i -> content v d n i) ->
  (forall n q, named v d p n -> named v' d' q n -> named v d q n) -> held X p v' d'.
Proof.
  intros [HN HM] Sn Sm Sc Sq. split; [|by auto]. intros n Nn. destruct (HN n (Sn n Nn)) as [Hc Hq].
  split; [|by eauto]. intros i Ci. apply Hc, Sc; auto.
Qed.

Lemma held_mono X Y p v d : held X p v d -> (forall y, X y -> Y y) -> held Y p v d.
Proof. intros [HN HM] XY. split; [|by auto]. intros n Nn. destruct (HN n Nn) as [Hc Hq]. split; auto. Qed.

Lemma meets_weaken F G v d :
  meets F v d -> (forall p Y, G p = Some Y -> exists X, F p = Some X /\ forall y, X y -> Y y) -> meets G v d.
Proof. intros [W M] S. split; [done|]. intros p Y E. destruct (S p Y E) as (X & EX & XY). eapply held_mono; eauto. Qed.

Lemma meets_put F p X Y v d : meets (put F p X) v d -> (forall y, X y -> Y y) -> meets (put F p Y) v d.
Proof.
  intros M S. eapply meets_weaken; [done|]. intros q Z. unfold put. destruct (decide (q = p)); [|by eauto].
  intros [= <-]. by exists X.
Qed.
Lemma meets_put_in F p X Y v d : meets F v d -> F p = Some X -> (forall y, X y -> Y y) -> meets (put F p Y) v d.
Proof.
  intros M E S. eapply meets_weaken; [done|]. intros q Z. unfold put. destruct (decide (q = p)) as [->|]; [|by eauto].
  intros [= <-]. by exists X.
Qed.

(** What processes see at a held path. *)
Lemma held_seen X p v d : held X p v d ->
  match stat v p with Some (n, i) => X (Some i) /\ (forall q, v_names v !! q = Some n -> q = p) | None => True end.
Proof.
  intros [HN _]. unfold stat. destruct (v_names v !! p) as [n|] eqn:E; [|done].
  destruct (HN n (or_introl E)) as [Hc Hq]. destruct (v_inodes v !! n) as [i|] eqn:Ei; simpl; [|done].
  split; [by apply Hc; left|]. intros q Eq. apply Hq. by left.
Qed.

(** What is found at a held path, and that it has no other name. *)
Lemma held_stat X p v d : names_ok v d -> held X p v d ->
  match stat v p with Some (n, i) => X (Some i) /\ (nlink v n =? 1)%nat = true | None => X None end.
Proof.
  intros W M. pose proof (held_seen _ _ _ _ M) as S. destruct M as [_ HM]. unfold stat in *.
  destruct (v_names v !! p) as [n|] eqn:E; [|apply HM; by left]. destruct (W p n (or_introl E)) as [i Ei].
  rewrite Ei in *. cbn in *. destruct S as [S A]. split; [done|]. by apply (nlink_alone v p n).
Qed.

(** Where only what processes see matters, or where it is what is on the disk,
    a path is held at what it is. *)
Lemma held_exact X p v d : h <> Losses \/ v = d -> names_ok v d -> held X p v d -> held (fun y => y = snd <$> stat v p) p v d.
Proof.
  intros Hh W M. assert (forall n, named v d p n -> v_names v !! p = Some n) as Sn by (intros n [E|[L E]]; destruct Hh as [|<-]; done).
  destruct M as [HN HM]. split.
  - intros n Nn. split; [|by apply HN]. intros i Ci. unfold stat. rewrite (Sn n Nn).
    destruct Ci as [->|(L & j & Ej & ->)]; [done|]. destruct Hh as [|<-]; [done|]. by rewrite Ej.
  - intros [E|[L E]]; unfold stat; [by rewrite E|]. destruct Hh as [|<-]; [done|]. by rewrite E.
Qed.

Lemma stable_meets F : stable h (meets F).
Proof.
  intros L v d kn ki [W M]. set (s := survives kn ki v d).
  assert (forall p, v_names s !! p = if kn p then v_names v !! p else v_names d !! p) as Es.
  { intros p. unfold s, survives. simpl. destruct (kn p) eqn:K.
    - destruct (v_names v !! p) as [n|] eqn:E.
      + apply lookup_union_Some_l. by apply map_lookup_filter_Some.
      + apply lookup_union_None. split; apply map_lookup_filter_None; [by left|]. right. intros x _. simpl. by rewrite K.
    - rewrite lookup_union_r; [|apply map_lookup_filter_None; right; intros x _; simpl; by rewrite K].
      destruct (v_names d !! p) as [n|] eqn:E; [by apply map_lookup_filter_Some|]. apply map_lookup_filter_None. by left. }
  assert (forall n j, v_inodes v !! n = Some j -> v_inodes s !! n = Some (if ki n then j else settled (v_inodes d !! n) j)) as Ei.
  { intros n j E. unfold s, survives. simpl. by rewrite map_lookup_imap, E. }
  assert (forall p n, named s s p n -> named v d p n) as Sn.
  { intros p n [E|[_ E]]; rewrite Es in E; destruct (kn p); [by left|by right|by left|by right]. }
  assert (forall n i, is_Some (v_inodes v !! n) -> content s s n i -> content v d n i) as Sc.
  { intros n i [j Ej] Ci. specialize (Ei n j Ej). assert (v_inodes s !! n = Some i) as E.
    { destruct Ci as [Ci|(_ & k & Ek & ->)]; [done|]. by rewrite Ek. }
    rewrite E in Ei. injection Ei as ->. destruct (ki n); [by left|right]. split; [done|]. by exists j. }
  split.
  - intros p n Nn. destruct (W p n (Sn p n Nn)) as [j Ej]. rewrite (Ei n j Ej). by eexists.
  - intros p X E. apply (held_step X p v d); [by apply M|by auto| | |by auto].
    + unfold missing. rewrite Es. destruct (kn p); tauto.
    + intros n i Nn. apply Sc. by eapply W.
Qed.

(** ** Changes of the volume *)

Section changes.
  Context (F : spec) (v d : volume).
  Hypothesis M : meets F v d.

Let W : names_ok v d := proj1 M.

Lemma named_inode p n : named v d p n -> v_inodes v !! n <> None.
Proof. intros N E. destruct (W p n N). congruence. Qed.

(** A name nothing has is not tracked, when it is one that may come and go. *)
Lemma free_untracked p : v_names v !! p = None -> free F p -> F p = None.
Proof.
  intros E Fr. destruct (F p) as [X|] eqn:EX; [|done]. destruct (Fr X EX). apply (proj2 M p X EX). by left.
Qed.

Lemma meets_create p i n :
  v_names v !! p = None -> F p = None -> v_inodes v !! n = None ->
  let v' := set_name (set_inode v n i) p n in meets F v' d /\ temp p n i v' d.
Proof.
  intros Hp HF Hn v'.
  assert (forall q m, named v d q m -> m <> n) as Nn by (intros q m Nq ->; by apply (named_inode _ _ Nq)).
  assert (forall q, q <> p -> v_names v' !! q = v_names v !! q) as En by (intros q Ne; apply lookup_insert_ne; by intros <-).
  assert (forall m, m <> n -> v_inodes v' !! m = v_inodes v !! m) as Ei by (intros m Ne; apply lookup_insert_ne; by intros <-).
  assert (forall q m, named v' d q m -> q <> p -> named v d q m) as Sn.
  { intros q m [E|E] Ne; [left; by rewrite <- En|by right]. }
  assert (v_names v' !! p = Some n) as Ep by apply lookup_insert_eq.
  assert (v_inodes v' !! n = Some i) as Epi by apply lookup_insert_eq.
  assert (forall q, named v' d q n -> q = p) as Q.
  { intros q Nq. destruct (decide (q = p)) as [|Ne]; [done|]. by destruct (Nn q n (Sn q n Nq Ne)). }
  split; [split|].
  - intros q m Nq. destruct (decide (m = n)) as [->|Ne]; [by eexists|]. rewrite (Ei m Ne).
    destruct Nq as [E|E]; [|by apply (W q); right]. destruct (decide (q = p)) as [->|Np]; [congruence|].
    apply (W q). left. by rewrite <- En.
  - intros q X EX. assert (q <> p) as Np by congruence. apply (held_step X q v d); [by apply M|by auto using Sn| | |].
    + unfold missing. by rewrite En.
    + intros m j Nm. unfold content. rewrite (Ei m); [done|]. by eapply Nn.
    + intros m r Nm Nr. destruct (decide (r = p)) as [->|Ne]; [|by apply Sn]. destruct Nr as [E|E]; [|by right].
      destruct (Nn q m Nm). congruence.
  - split; [done|]. split; [done|]. split; [done|]. intros L E. destruct (Nn p n); [by right|done].
Qed.

Section of_temp.
  Context (p : path) (n : nat) (i : inode).
  Hypothesis T : temp p n i v d.
  Hypothesis HF : F p = None.

Lemma tracked_ne q m X : F q = Some X -> named v d q m -> m <> n.
Proof. intros EX Nq ->. destruct T as (_ & _ & Q & _). rewrite (Q q Nq) in EX. congruence. Qed.

Lemma meets_set_inode j : let v' := set_inode v n j in meets F v' d /\ temp p n j v' d.
Proof.
  intros v'. destruct T as (Ep & Ei & Q & U). split; [split|].
  - intros q m Nq. unfold v'. simpl. destruct (decide (m = n)) as [->|Ne]; [rewrite lookup_insert_eq; by eexists|].
    rewrite lookup_insert_ne by done. by apply (W q).
  - intros q X EX. apply (held_step X q v d); [by apply M|done|done| |done]. intros m k Nm. unfold content, v'. simpl.
    rewrite lookup_insert_ne; [done|]. intros <-. by apply (tracked_ne q n X).
  - split; [done|]. split; [apply lookup_insert_eq|]. by split.
Qed.

Lemma meets_fsync : let d' := set_inode d n i in meets F v d' /\ temp p n i v d' /\ v_inodes d' !! n = Some i.
Proof.
  intros d'. split; [|by split; [|apply lookup_insert_eq]]. split; [exact W|].
  intros q X EX. apply (held_step X q v d); [by apply M|done|done| |done]. intros m k Nm. unfold content, d'. simpl.
  rewrite lookup_insert_ne; [done|]. intros <-. by apply (tracked_ne q n X).
Qed.

Lemma meets_drop : meets F (drop_name v p) d.
Proof.
  set (v' := drop_name v p).
  assert (forall q m, named v' d q m -> named v d q m) as Sn.
  { intros q m [E|E]; [left|by right]. unfold v' in E. simpl in E. by apply lookup_delete_Some in E as [_ E]. }
  split; [intros q m Nq; exact (W q m (Sn q m Nq))|].
  intros q X EX. apply (held_step X q v d); [by apply M|by auto| |done|by auto].
  unfold missing, v'. simpl. rewrite lookup_delete_ne; [done|]. intros <-. congruence.
Qed.

(** The file takes its place, for now. *)
Lemma meets_replace dst X :
  F dst = Some X -> (h = Losses -> v_inodes d !! n = Some i) ->
  let v' := set_name (drop_name v p) dst n in
  meets (put F dst (fun y => X y \/ y = Some i)) v' d /\ v_names v' !! dst = Some n /\ v_inodes v' !! n = Some i.
Proof.
  intros EX Sy v'. destruct T as (Ep & Ei & Q & U). assert (p <> dst) as Npd by congruence.
  assert (v_names v' !! dst = Some n) as Ed by apply lookup_insert_eq.
  assert (v_inodes v' !! n = Some i) as Ei' by exact Ei.
  assert (forall q m, named v' d q m -> named v d q m \/ q = dst /\ m = n) as Sn.
  { intros q m [E|E]; [|left; by right]. unfold v' in E. simpl in E. destruct (decide (q = dst)) as [->|Ne].
    - rewrite lookup_insert_eq in E. right. split; [done|congruence].
    - rewrite lookup_insert_ne in E by done. apply lookup_delete_Some in E as [_ E]. left. by left. }
  assert (forall q, named v' d q n -> q = dst) as Qd.
  { intros q Nq. destruct (Sn q n Nq) as [N|[-> _]]; [|done]. apply Q in N as ->. destruct Nq as [E|[L E]]; [|by destruct (U L)].
    unfold v' in E. simpl in E. rewrite lookup_insert_ne, lookup_delete_eq in E; [done|by intros ->]. }
  assert (forall q m r, is_Some (F q) -> named v d q m -> named v' d r m -> named v d r m) as Sq.
  { intros q m r Fq Nq Nr. destruct (Sn r m Nr) as [N|[-> ->]]; [done|]. exfalso.
    destruct Fq as [Y E]. by apply (tracked_ne q n _ E). }
  split; [split|by split].
  - intros q m Nq. destruct (Sn q m Nq) as [N|[_ ->]]; [exact (W q m N)|by eexists].
  - intros q Y. destruct (decide (q = dst)) as [->|Ne].
    + rewrite put_eq. intros [= <-]. destruct (proj2 M dst X EX) as [HN HM]. split.
      * intros m Nm. destruct (Sn dst m Nm) as [N|[_ ->]].
        -- destruct (HN m N) as [Hc Hq]. split; [intros k Ck; left; by apply Hc|]. intros q Nq. apply Hq, (Sq dst m); by eauto.
        -- split; [|done]. intros k [Ck|(L & j & Ej & ->)]; [right; congruence|]. by rewrite (Sy L); right.
      * intros [E|[L E]]; [congruence|]. left. apply HM. by right.
    + rewrite put_ne by done. intros EY. apply (held_step Y q v d); [by apply M| | |done|].
      * intros m Nm. destruct (Sn q m Nm) as [N|[-> _]]; done.
      * unfold missing, v'. simpl. rewrite lookup_insert_ne by (by intros ->). rewrite lookup_delete_ne; [done|]. intros <-. congruence.
      * intros m r. apply Sq. by eexists.
Qed.
End of_temp.

(** The names of a directory reach the disk. *)
Lemma meets_fsync_dir dir :
  let d' := Volume (base.filter (fun kv => parent kv.1 = dir) (v_names v)
                    ∪ base.filter (fun kv => parent kv.1 <> dir) (v_names d)) (v_inodes d) in
  meets F v d' /\ (forall p, parent p = dir -> v_names d' !! p = v_names v !! p).
Proof.
  intros d'. assert (forall q, v_names d' !! q = if decide (parent q = dir) then v_names v !! q else v_names d !! q) as E.
  { intros q. unfold d'. simpl. destruct (decide (parent q = dir)) as [Hq|Hq].
    - destruct (v_names v !! q) as [n|] eqn:En.
      + apply lookup_union_Some_l. by apply map_lookup_filter_Some.
      + apply lookup_union_None. split; apply map_lookup_filter_None; [by left|]. right. intros x _. simpl. tauto.
    - rewrite lookup_union_r; [|apply map_lookup_filter_None; right; intros x _; simpl; tauto].
      destruct (v_names d !! q) as [n|] eqn:En; [by apply map_lookup_filter_Some|]. apply map_lookup_filter_None. by left. }
  assert (forall q m, named v d' q m -> named v d q m) as Sn.
  { intros q m [N|[L N]]; [by left|]. rewrite E in N. destruct (decide _); [by left|by right]. }
  split; [split|].
  - intros q m Nq. exact (W q m (Sn q m Nq)).
  - intros q X EX. apply (held_step X q v d); [by apply M|by auto| |done|by auto].
    intros [N|[L N]]; [by left|]. rewrite E in N. destruct (decide _); [by left|by right].
  - intros p Hp. rewrite E. by rewrite decide_True.
Qed.

(** A path whose name and inode are the same for processes and on the disk. *)
Lemma held_now p n i X :
  F p = Some X -> v_names v !! p = Some n -> v_inodes v !! n = Some i ->
  (h = Losses -> v_names d !! p = Some n) -> (h = Losses -> v_inodes d !! n = Some i) ->
  held (fun y => y = Some i) p v d.
Proof.
  intros EX En Ei Ed Edi. destruct (proj2 M p X EX) as [HN HM]. split.
  - intros m Nm. assert (m = n) as -> by (destruct Nm as [E|[L E]]; [congruence|rewrite Ed in E by done; congruence]).
    destruct (HN n Nm) as [_ Hq]. split; [|done]. intros j [E|(L & k & Ek & ->)]; [congruence|]. by rewrite Edi.
  - intros [E|[L E]]; [congruence|]. rewrite Ed in E; congruence.
Qed.

Lemma meets_held p X : held X p v d -> meets (put F p X) v d.
Proof.
  intros Hp. split; [done|]. intros q Y. unfold put. destruct (decide (q = p)) as [->|]; [by intros [= <-]|]. apply M.
Qed.

(** A directory is made, for now where nothing was. *)
Lemma meets_mkdir p n i X :
  v_names v !! p = None -> F p = Some X -> v_inodes v !! n = None ->
  let v' := set_name (set_inode v n i) p n in let d' := set_inode d n i in
  meets (put F p (fun y => X y \/ y = Some i)) v' d' /\ v_names v' !! p = Some n
  /\ v_inodes v' !! n = Some i /\ v_inodes d' !! n = Some i.
Proof.
  intros Hp EX Hn v' d'.
  assert (forall q m, named v d q m -> m <> n) as Nn by (intros q m Nq ->; by apply (named_inode _ _ Nq)).
  assert (v_names v' !! p = Some n) as Ep by apply lookup_insert_eq.
  assert (v_inodes v' !! n = Some i) as Epi by apply lookup_insert_eq.
  assert (v_inodes d' !! n = Some i) as Edi by apply lookup_insert_eq.
  assert (forall q m, named v' d' q m -> named v d q m \/ q = p /\ m = n) as Sn.
  { intros q m [E|E]; [|left; by right]. unfold v' in E. simpl in E. destruct (decide (q = p)) as [->|Ne].
    - rewrite lookup_insert_eq in E. right. split; [done|congruence].
    - rewrite lookup_insert_ne in E by done. left. by left. }
  assert (forall m k, m <> n -> content v' d' m k -> content v d m k) as Sc.
  { intros m k Ne. unfold content, v', d'. simpl. by rewrite !lookup_insert_ne by done. }
  assert (forall q m r, named v d q m -> named v' d' r m -> named v d r m) as Sq.
  { intros q m r Nq Nr. destruct (Sn r m Nr) as [N|[-> ->]]; [done|]. by destruct (Nn _ _ Nq). }
  split; [split|by split].
  - intros q m Nq. destruct (Sn q m Nq) as [N|[_ ->]]; [|by eexists]. unfold v'. simpl.
    rewrite lookup_insert_ne; [exact (W q m N)|]. intros <-. by apply (Nn _ _ N).
  - intros q Y. destruct (decide (q = p)) as [->|Ne].
    + rewrite put_eq. intros [= <-]. destruct (proj2 M p X EX) as [HN HM]. split.
      * intros m Nm. destruct (Sn p m Nm) as [N|[_ ->]].
        -- destruct (HN m N) as [Hc Hq]. split.
           ++ intros k Ck. left. apply Hc, Sc; [by eapply Nn|done].
           ++ intros q Nq. by apply Hq, (Sq p m).
        -- split.
           ++ intros k [Ck|(L & j & Ej & ->)]; [right; congruence|]. rewrite Edi. by right.
           ++ intros q Nq. destruct (Sn q n Nq) as [N|[-> _]]; [|done]. by destruct (Nn _ _ N).
      * intros _. left. apply HM. by left.
    + rewrite put_ne by done. intros EY. apply (held_step Y q v d); [by apply M| | | |].
      * intros m Nm. destruct (Sn q m Nm) as [N|[-> _]]; done.
      * unfold missing, v'. simpl. by rewrite lookup_insert_ne by (by intros <-).
      * intros m k Nm. apply Sc. by eapply Nn.
      * intros m r. apply Sq.
Qed.
End changes.
End states.
