(* ===== verification/HostRules.v ===== *)
(** * The system calls, by the states of paths

    One rule for each call, from the changes of [HostStates], and from them the
    specification of [publish]: while it runs the path is as it was or
    replaced, and once it has returned it is replaced for good. *)
From S2P Require Import Prelude PyStr PyIO HostFiles HostLogic HostStates.
From stdpp Require Import base gmap strings list.
From Stdlib Require Import ZArith NArith Lia.

Local Open Scope Z_scope.

(** What leaves files alone and returns something of which [G]. *)
Definition transparent (h : hazard) {A} (m : prog A) (G : A -> Prop) : Prop :=
  forall P C : assertion, stable h C -> (forall v d, P v d -> C v d) ->
  triple h P m (fun a v d => G a /\ P v d) (fun _ => P) C.
Lemma transparent_check h : transparent h check (answers h).
Proof. intros P C HC HP. by apply triple_check. Qed.
Lemma transparent_ret h {A} (a : A) : transparent h (pret a) (fun b => b = a).
Proof. intros P C HC HP. by apply triple_ret. Qed.

Lemma parent_snoc (d : path) x : parent (d ++ [x]) = d.
Proof. apply removelast_last. Qed.

Lemma fresh_inode_new now disk : v_inodes now !! fresh_inode now disk = None /\ v_inodes disk !! fresh_inode now disk = None.
Proof.
  unfold fresh_inode. pose proof (is_fresh (dom (v_inodes now) ∪ dom (v_inodes disk))) as Fr.
  rewrite not_elem_of_union, !not_elem_of_dom in Fr. exact Fr.
Qed.

Section rules.
  Context `{TempNames} (h : hazard) (F : spec).

(** Directories the program works in. *)
Definition dir_there (p : path) : Prop := calm h = true -> forall v d, meets h F v d -> is_dir v p = true.
(** Names with a prefix may come and go. *)
Definition temps_free (prefix : string) (p : path) : Prop := forall s, free F (p ++ [prefix +:+ s]).

Definition owned (p : path) (n : nat) (i : inode) : assertion := fun v d => meets h F v d /\ temp h p n i v d.
Definition owned_any (p : path) (n : nat) : assertion := fun v d => meets h F v d /\ temporary h p n v d.

Lemma mkstemp_rule prefix dir :
  temps_free prefix dir -> dir_there dir ->
  triple h (meets h F) (mkstemp prefix dir)
    (fun np v d => F np.2 = None /\ owned np.2 np.1 (Inode (Reg []) 384 true) v d) (fun _ => meets h F) (meets h F).
Proof.
  intros Fr Hd. unfold mkstemp. apply triple_now. intros u. set (p := dir ++ _).
  assert (v_names u !! p = None) as Hp by apply temp_name_new.
  assert (free F p) as Hf by (unfold p; destruct (temp_name_prefix u dir prefix) as [s ->]; apply Fr).
  eapply triple_bind; [|intros n; apply (triple_ret h (fun v d => F p = None /\ owned p n (Inode (Reg []) 384 true) v d)); by intros v d].
  apply triple_sys; [by apply stable_meets| |intros _ v d n [-> M]; by split].
  assert (parent p = dir) as Hpd by apply parent_snoc.
  intros v d [-> M]. rewrite Hp, Hpd. destruct (is_dir u dir) eqn:D.
  - pose proof (free_untracked _ _ _ _ M _ Hp Hf) as HF. split; [done|].
    apply meets_create; [done|done|done|apply fresh_inode_new].
  - split; [|done]. apply not_true_is_false; intros Eh. by rewrite (Hd Eh u d M) in D.
Qed.

Section of_temp.
  Context (p : path) (n : nat) (i : inode).
  Hypothesis HF : F p = None.

Lemma owned_weaken v d : owned p n i v d -> owned_any p n v d.
Proof. intros [M T]. split; [done|]. by exists i. Qed.

Lemma owned_set j v d : owned p n i v d -> owned p n j (set_inode v n j) d.
Proof. intros [M T]. by apply (meets_set_inode _ _ _ _ M p n i T HF j). Qed.

Lemma chmod_rule mode :
  triple h (owned p n i) (chmod n mode) (fun _ => owned p n (Inode (i_kind i) mode (i_mine i)))
    (fun _ => owned_any p n) (meets h F).
Proof.
  apply triple_sys; [by apply stable_meets| |intros _ v d k O; split; [by apply owned_weaken|exact (proj1 O)]].
  intros v d O. destruct (proj2 O) as (_ & -> & _). by apply owned_set.
Qed.

Lemma fsync_rule :
  triple h (owned p n i) (fsync n) (fun _ v d => owned p n i v d /\ v_inodes d !! n = Some i) (fun _ => owned_any p n) (meets h F).
Proof.
  apply triple_sys; [by apply stable_meets| |intros _ v d k O; split; [by apply owned_weaken|exact (proj1 O)]].
  intros v d [M T]. pose proof T as (_ & -> & _). destruct (meets_fsync _ _ _ _ M p n i T HF) as (M' & T' & E). by split.
Qed.

Lemma replace_rule c dst X :
  F dst = Some X -> (calm h = true -> forall j, X (Some j) -> i_kind j <> Dir) ->
  triple h (fun v d => owned p n i v d /\ v_inodes d !! n = Some i) (replace_file c p dst)
    (fun _ v d => meets h (put F dst (fun y => X y \/ y = Some i)) v d
                  /\ v_names v !! dst = Some n /\ v_inodes v !! n = Some i /\ v_inodes d !! n = Some i)
    (fun _ => owned_any p n) (meets h F).
Proof.
  intros EX Hc. apply triple_sys; [by apply stable_meets| |intros _ v d k [O _]; split; [by apply owned_weaken|exact (proj1 O)]].
  intros v d [[M T] Ed]. pose proof T as (-> & _). pose proof (held_seen _ _ _ _ _ (proj2 M dst X EX)) as Hs.
  destruct (meets_replace _ _ _ _ M p n i T HF dst X EX (fun _ => Ed)) as (M' & E1 & E2).
  destruct (stat v dst) as [[m [[] mode mine]]|]; try by split.
  split; [|by split; [|exists i]]. apply not_true_is_false; intros Eh. destruct Hs as [Hs _]. by apply (Hc Eh) in Hs.
Qed.

Lemma unlink_quietly_rule : triple h (owned p n i) (unlink_quietly p) (fun _ => meets h F) (fun _ => meets h F) (meets h F).
Proof.
  unfold unlink_quietly. eapply (triple_catch _ _ _ _ _ _ (fun _ => meets h F)); [|intros; by apply triple_ret|done].
  apply triple_sys; [by apply stable_meets| |intros _ v d k [M _]; by split].
  intros v d [M T]. pose proof T as (-> & _). by eapply meets_drop.
Qed.
End of_temp.

Lemma write_all_rule c p n dt mode mine b :
  F p = None ->
  triple h (owned p n (Inode (Reg dt) mode mine)) (write_all c n b) (fun _ => owned p n (Inode (Reg (dt ++ b)) mode mine))
    (fun _ => owned_any p n) (meets h F).
Proof.
  intros HF. assert (forall v d k, owned p n (Inode (Reg dt) mode mine) v d -> owned p n (Inode (Reg (dt ++ k)) mode mine) (append_data v n k) d) as A.
  { intros v d k O. unfold append_data. destruct (proj2 O) as (_ & E & _). rewrite E. by eapply owned_set. }
  unfold write_all. destruct b as [|x b]; [rewrite app_nil_r; by apply triple_ret|].
  apply triple_sys; [by apply stable_meets|intros v d; apply A|]. intros _ v d k O. specialize (A v d (take k (x :: b)) O).
  split; [by eapply owned_weaken|by destruct A].
Qed.

Lemma fsync_dir_rule dir : triple h (meets h F) (fsync_dir dir) (fun _ => meets h F) (fun _ => meets h F) (meets h F).
Proof.
  apply triple_sys; [by apply stable_meets| |done]. intros v d M. by apply meets_fsync_dir.
Qed.

(** The name of a path reaches the disk, its inode being there already. *)
Lemma settle_rule p n i X :
  F p = Some X ->
  triple h (fun v d => meets h F v d /\ v_names v !! p = Some n /\ v_inodes v !! n = Some i /\ v_inodes d !! n = Some i)
    (fsync_dir (parent p)) (fun _ => meets h (put F p (fun y => y = Some i))) (fun _ => meets h F) (meets h F).
Proof.
  intros EX. apply triple_sys; [by apply stable_meets| |by intros _ v d k [M _]].
  intros v d (M & E & Ei & Ed). destruct (meets_fsync_dir _ _ _ _ M (parent p)) as [M' En].
  apply meets_held; [done|]. by apply (held_now h F _ _ M' p n i X); auto; rewrite En.
Qed.
End rules.

(** ** Publishing *)

Definition published (data : res bytes) (mode : Z) (y : option inode) : Prop :=
  exists b, data = Ok b /\ y = Some (Inode (Reg b) mode true).

Lemma publish_rule `{TempNames} (h : hazard) (F : spec) {A} c prefix target mode data (final : prog A) (G : A -> Prop) X :
  F target = Some X -> temps_free F prefix (parent target) -> dir_there h F (parent target) ->
  transparent h final G -> (calm h = true -> is_ok data = true) -> (calm h = true -> forall j, X (Some j) -> i_kind j <> Dir) ->
  let during := meets h (put F target (fun y => X y \/ published data mode y)) in
  triple h (meets h F) (publish c prefix target mode data final) (fun a v d => G a /\ meets h (put F target (published data mode)) v d)
    (fun _ => during) during.
Proof.
  intros EX Fr Hd Tf Hok Hk during. assert (forall v d, meets h F v d -> during v d) as Old.
  { intros v d M. apply (meets_put_in _ _ _ X); auto. }
  assert (stable h during) as Sd by apply stable_meets.
  unfold publish. eapply triple_bind; [eapply triple_weaken; [by apply mkstemp_rule|done|done|by auto|by auto]|].
  intros [n p]. cbn [fst snd]. apply triple_pure. intros HF. set (owned := owned h F p n).
  set (placed := fun (b : bytes) (v d : volume) => let i := Inode (Reg b) mode true in
    meets h (put F target (fun y => X y \/ y = Some i)) v d
    /\ v_names v !! target = Some n /\ v_inodes v !! n = Some i /\ v_inodes d !! n = Some i).
  eapply (triple_bind h _ _ _ (fun a v d => G a /\ exists b, data = Ok b /\ placed b v d)).
  - apply (triple_on_error h _ _ _ _ (fun _ => owned_any h F p n)).
    2:{ intros e _. eapply triple_weaken; [apply (triple_ex h owned); intros i; by apply unlink_quietly_rule|..]; auto.
        intros v d [M [i T]]. exists i. by split. }
    eapply triple_crash; [|exact Old].
    eapply triple_seq; [by apply chmod_rule|]. eapply (triple_bind h _ _ _ (fun b v d => data = Ok b /\ owned (Inode (Reg []) mode true) v d)).
    { apply triple_of. intros v d O. destruct data as [b|e]; [done|]. split; [apply not_true_is_false; intros Eh; by specialize (Hok Eh)|]. by eapply owned_weaken. }
    intros b. apply triple_pure. intros Eb. eapply triple_seq; [by apply write_all_rule|]. rewrite app_nil_l.
    eapply triple_seq; [by apply fsync_rule|].
    eapply triple_bind.
    { eapply triple_errors; [apply (Tf _ (meets h F)); [apply stable_meets|by intros v d [[M _] _]]|].
      intros _ v d [O _]. by eapply owned_weaken. }
    intros a. apply triple_pure. intros Ga. eapply triple_seq; [by eapply replace_rule|]. apply triple_ret. intros v d P.
    split; [done|]. by exists b.
  - intros a. apply triple_pure. intros Ga. apply triple_ex. intros b. apply triple_pure. intros Eb.
    eapply (triple_bind h _ _ _ (fun _ => meets h (put F target (published data mode)))); [|intros _; by apply triple_ret].
    eapply triple_weaken; [eapply (settle_rule h (put F target _) target n); apply put_eq|done| | |].
    all: cbv beta; intros; unfold during.
    + eapply meets_weaken; [done|]. intros q Y. unfold put. destruct (decide (q = target)); [|by eauto].
      intros [= <-]. eexists. split; [done|]. intros y ->. by exists b.
    + eapply meets_put; [done|]. intros y [Xy| ->]; [by left|right; by exists b].
    + eapply meets_put; [done|]. intros y [Xy| ->]; [by left|right; by exists b].
Qed.
