(* ===== verification/EffectJournal.v ===== *)
(** * The journal of the effect broker (company_scribe_effect_broker.py)

    Each mutation an agent asks for has an effect id. The journal keeps one
    file per id, which says what was asked and how far it got; it is written
    aside and renamed, and read back only when it is a private file of the
    broker. Text may hold any character ([PyUnicode]). *)
From S2P Require Import Prelude PyStr Sha256 Json PyIO JsonText PyValue PyUnicode JsonBytes HostFiles HostLogic HostStates HostRules.
From stdpp Require Import base gmap strings list.
From Stdlib Require Import ZArith NArith Lia Permutation.

Local Open Scope Z_scope.

(** ** Errors *)

Notation CompanyScribeAdmissionError := (OtherError "CompanyScribeAdmissionError").
Definition refuse {A} (msg : string) : res A := Err (Exn CompanyScribeAdmissionError msg).
(** [except classes: raise CompanyScribeAdmissionError(msg)]. *)
Definition refused_as {A} (classes : list exc_class) (msg : string) (m : res A) : res A :=
  match m with
  | Err e => if existsb (fun c => is_subclass (exn_class e) c) classes then refuse msg else Err e
  | Ok a => Ok a
  end.

(* src: scripts/company_scribe_effect_broker.py _MAX_TEXT_BYTES *)
Definition _MAX_TEXT_BYTES : Z := 8 * 1024 * 1024.
(* src: scripts/company_scribe_effect_broker.py _MAX_REQUEST_BYTES *)
Definition _MAX_REQUEST_BYTES : Z := 9 * 1024 * 1024.
(* src: scripts/company_scribe_effect_broker.py _MAX_JOURNAL_BYTES *)
Definition _MAX_JOURNAL_BYTES : Z := 32 * 1024 * 1024.
(* src: scripts/company_scribe_effect_broker.py _JOURNAL_SCHEMA *)
Definition _JOURNAL_SCHEMA : string := "mise.company-scribe-effect-journal.v1".
(* src: scripts/company_scribe_effect_broker.py _MAX_EFFECT_ID *)
Definition _MAX_EFFECT_ID : Z := 200.

Definition blen (b : bytes) : Z := Z.of_nat (List.length b).
Definition is_str (j : json) (s : string) : bool := match j with JStr t => (t =? s)%string | _ => false end.
Definition is_one_of (j : json) (l : list string) : bool := existsb (is_str j) l.

(** ** Effect ids and requests *)

(** [str.isalnum] beyond ASCII; a lone surrogate is no letter. *)
Class CharData := {
  alnum_beyond : N -> bool;
  alnum_surrogate n : (55296 <= n <= 57343)%N -> alnum_beyond n = false;
}.

Section requests.
  Context `{CharData} `{Digest} `{JsonLimits}.

Definition isalnum (n : N) : bool :=
  if (n <? 128)%N
  then ((48 <=? n) && (n <=? 57) || (65 <=? n) && (n <=? 90) || (97 <=? n) && (n <=? 122))%N
  else alnum_beyond n.
(** [char in "._:-"]. *)
Definition id_mark (n : N) : bool := existsb (N.eqb n) [46; 95; 58; 45]%N.

(* src: scripts/company_scribe_effect_broker.py _validate_effect_id *)
Definition validate_effect_id (value : json) : res string :=
  let bad := refuse "every mutation requires one stable effect_id" in
  match value with
  | JStr s =>
      match points true (chars s) with
      | Some (c :: l) =>
          if (Z.of_nat (List.length (c :: l)) <=? _MAX_EFFECT_ID) && isalnum c
             && forallb (fun n => isalnum n || id_mark n) (c :: l)
          then Ok s else bad
      | _ => bad
      end
  | _ => bad
  end.

Definition without_id (d : dict) : dict := List.filter (fun kv => negb (kv.1 =? "effect_id")%string) d.

(* src: scripts/company_scribe_effect_broker.py _effect_request_sha256 *)
Definition effect_request_sha256 (capability operation : string) (arguments : dict) : res string :=
  let! b := canonical_bytes (JObj [("capability", JStr capability); ("operation", JStr operation);
                                   ("arguments", JObj (without_id arguments))]) in
  Ok (digest (of_chars b)).

(* src: scripts/company_scribe_effect_broker.py _closed_request_arguments *)
Definition closed_request_arguments (arguments : dict) (allowed required : list string) (operation : string) : res dict :=
  require forallb (fun k => existsb (String.eqb k) arguments.*1) required
          && forallb (fun k => existsb (String.eqb k) allowed) arguments.*1
    else CompanyScribeAdmissionError, (operation +:+ " contains unknown or missing arguments") ;;
  let! decoded := refused_as [TypeError; ValueError; UnicodeEncodeError; UnicodeDecodeError; JSONDecodeError]
    (operation +:+ " arguments are not closed JSON")
    (let! encoded := canonical_bytes (JObj (without_id arguments)) in
     require blen encoded <=? _MAX_REQUEST_BYTES
       else CompanyScribeAdmissionError, (operation +:+ " arguments exceed the closed request bound") ;;
     loads_raw encoded) in
  match decoded with
  | JObj d => Ok d
  | _ => refuse (operation +:+ " arguments are malformed")
  end.

(** ** Records *)

(* src: scripts/company_scribe_effect_broker.py MutationJournal._stem *)
Definition stem (effect_id : string) : string := digest effect_id.

(** [Path.name]. *)
Definition name_of (p : path) : string := List.last p "".

(** [os.open(path, os.O_RDONLY | os.O_NOFOLLOW | os.O_NONBLOCK)] of what is there. *)
Definition openable (i : inode) : bool :=
  match i_kind i with Link _ => false | _ => negb (i_mine i) || Z.testbit (i_mode i) 8 end.

(* src: scripts/company_scribe_effect_broker.py MutationJournal._read_record *)
Definition read_record (v : volume) (p : path) : res (option dict) :=
  match stat v p with
  | None => Ok None
  | Some (n, i) =>
      require openable i else CompanyScribeAdmissionError, "effect replay journal is unreadable" ;;
      match i_kind i with
      | Reg data =>
          raise_if negb (i_mine i) || negb (nlink v n =? 1)%nat || negb (Z.land (i_mode i) 63 =? 0)
                   || (_MAX_JOURNAL_BYTES <? blen data)
            with CompanyScribeAdmissionError, "effect replay journal record is unsafe" ;;
          let! decoded := refused_as [OSError; UnicodeDecodeError; JSONDecodeError]
            "effect replay journal is unreadable" (loads_raw data) in
          match decoded with
          | JObj d => Ok (Some d)
          | _ => refuse "effect replay journal is malformed"
          end
      | _ => refuse "effect replay journal record is unsafe"
      end
  end.

(** The names in a directory, sorted. *)
Definition children (v : volume) (dir : path) : list string :=
  sort_strs (map name_of (List.filter (fun p => negb (bool_decide (p = [])) && bool_decide (parent p = dir)) (map_to_list (v_names v)).*1)).

Definition STATES : list string := ["prepared"; "running"; "publishing"; "completed"; "failed"].

(** The body of the loop of [records]. *)
(* src: scripts/company_scribe_effect_broker.py MutationJournal.records@2-41 *)
Definition record_named (v : volume) (root : path) (name : string) : res (list dict) :=
  if startswith name "." || endswith name ".lock" then Ok [] else
  require endswith name ".json" else CompanyScribeAdmissionError, "effect replay journal contains an unknown record" ;;
  let s := of_chars (take (String.length name - 5) (chars name)) in
  require hex64 s else CompanyScribeAdmissionError, "effect replay journal record name is malformed" ;;
  let! o := read_record v (root ++ [name]) in
  match o with
  | None => Err (Exn FileNotFoundError "No such file or directory")
  | Some record =>
      let bad := refuse "effect replay journal record identity is malformed" in
      match is_str (get record "schema") _JOURNAL_SCHEMA, get record "effect_id" with
      | true, JStr effect_id =>
          let! effect_id := validate_effect_id (JStr effect_id) in
          match (stem effect_id =? s)%string, get record "request_sha256", get record "operation" with
          | true, JStr request_sha256, JStr _ =>
              if hex64 request_sha256 && is_one_of (get record "state") STATES then Ok [record] else bad
          | _, _, _ => bad
          end
      | _, _ => bad
      end
  end.
(* src: scripts/company_scribe_effect_broker.py MutationJournal.records@0-1 *)
Definition records (v : volume) (root : path) : res (list dict) :=
  let! l := rmap (record_named v root) (children v root) in Ok (List.concat l).

(* src: scripts/company_scribe_effect_broker.py MutationJournal.pending_records *)
Definition pending_records (v : volume) (root : path) : res (list dict) :=
  let! l := records v root in Ok (List.filter (fun r => is_str (get r "state") "prepared") l).

Definition UNRESOLVED : list string := ["prepared"; "running"; "publishing"].
Definition unresolved (r : dict) : bool := is_one_of (get r "state") UNRESOLVED.
Definition nonchannel (r : dict) : bool := negb (is_one_of (get r "operation") ["channel_send"; "channel_reply"]).

(* src: scripts/company_scribe_effect_broker.py _assert_no_unresolved_effects *)
Definition assert_no_unresolved_effects (v : volume) (root : path) : res unit :=
  let! l := records v root in
  match List.filter unresolved l with
  | [] => Ok tt
  | rs => refuse ("effect journal recovery required before broker readiness: "
                  +:+ PyStr.join "," (map (fun r => py_str (get r "operation") +:+ ":" +:+ py_str (get r "effect_id")
                                                    +:+ ":" +:+ py_str (get r "state")) rs))
  end.
(* src: scripts/company_scribe_effect_broker.py _assert_no_other_unresolved_nonchannel *)
Definition assert_no_other_unresolved_nonchannel (v : volume) (root : path) (effect_id : string) : res unit :=
  let! l := records v root in
  match List.filter (fun r => unresolved r && nonchannel r && negb (is_str (get r "effect_id") effect_id)) l with
  | [] => Ok tt
  | _ => refuse "another serialized workspace effect requires recovery"
  end.

(** What the record of an effect already says. *)
(* src: scripts/company_scribe_effect_broker.py _replayed_result *)
Definition replayed_result (record : dict) : res (option dict) :=
  let state := get record "state" in
  if is_str state "completed" then
    match get record "result" with
    | JObj d => Ok (Some d)
    | _ => refuse "completed effect journal lost its result"
    end
  else if is_str state "failed" then
    refuse ("effect replay remains failed closed: "
            +:+ match dict_get "error" record with Some e => py_str e | None => "unknown" end)
  else Ok None.

(** ** Writing *)

Context `{TempNames}.
Variable umask : Z.

(** [dir.mkdir(mode=mode, exist_ok=True)]. *)
Definition mkdir_exist_ok (dir : path) (mode : Z) : prog unit :=
  pcatch os_error (mkdir Silent dir (Z.land mode (Z.lnot umask)))
    (fun e => do! v := pnow in if is_dir v dir then pret tt else pfail e).

(** What is written, its size checked. *)
Definition record_bytes (value : dict) : res bytes :=
  let! b := canonical_bytes (JObj value) in
  let payload := b ++ [lf] in
  require blen payload <=? _MAX_JOURNAL_BYTES
    else CompanyScribeAdmissionError, "effect replay journal record exceeds its readable bound" ;;
  Ok payload.

(* src: scripts/company_scribe_effect_broker.py _atomic_private_json *)
Definition atomic_private_json (p : path) (value : dict) : prog unit :=
  do! _ := mkdir_exist_ok (parent p) 448 in
  publish Silent ("." +:+ name_of p +:+ ".") p 384 (record_bytes value) (pret tt).

(** The journal in [root]. *)
Section journal.
  Variable root : path.

(* src: scripts/company_scribe_effect_broker.py MutationJournal.record_path *)
Definition record_path (effect_id : string) : path := root ++ [stem effect_id +:+ ".json"].
Definition lock_path (effect_id : string) : path := root ++ [stem effect_id +:+ ".lock"].

(** The lock file, made when it is not there, and its mode set. The lock
    itself makes calls follow each other, and a kill releases it. *)
(* src: scripts/company_scribe_effect_broker.py MutationJournal.locked@11-18 *)
Definition open_lock (p : path) : prog unit :=
  do! v := pnow in
  match stat v p with
  | None => do! n := create p (Z.land 384 (Z.lnot umask)) in chmod n 384
  | Some (n, i) =>
      match i_kind i with
      | Link _ => pfail (Exn OSError "Too many levels of symbolic links")
      | Dir => pfail (Exn IsADirectoryError "Is a directory")
      | _ => if i_mine i && (Z.land (i_mode i) 384 =? 384) then chmod n 384
             else pfail (Exn PermissionError "Operation not permitted")
      end
  end.

(** The record under the lock: the one of this very request, or none. *)
(* src: scripts/company_scribe_effect_broker.py MutationJournal.locked@19-35 *)
Definition current_record (v : volume) (effect_id request_sha256 operation : string) : res (option dict) :=
  let! o := read_record v (record_path effect_id) in
  match o with
  | None => Ok None
  | Some record =>
      require is_str (get record "schema") _JOURNAL_SCHEMA && is_str (get record "effect_id") effect_id
              && is_str (get record "request_sha256") request_sha256 && is_str (get record "operation") operation
        else CompanyScribeAdmissionError, "effect_id was already used for a different request" ;;
      Ok (Some record)
  end.

(** [{"schema": ..., "effect_id": ..., ..., **next_record}]. *)
Definition closed_record (effect_id request_sha256 operation : string) (next_record : dict) : dict :=
  [("schema", JStr _JOURNAL_SCHEMA); ("effect_id", JStr effect_id); ("request_sha256", JStr request_sha256);
   ("operation", JStr operation)] ++ next_record.
(* src: scripts/company_scribe_effect_broker.py MutationJournal.locked@37-45 *)
Definition write_record (effect_id request_sha256 operation : string) (next_record : dict) : prog unit :=
  atomic_private_json (record_path effect_id) (closed_record effect_id request_sha256 operation next_record).

(** [with journal.locked(...) as (record, write): body]. *)
(* src: scripts/company_scribe_effect_broker.py MutationJournal.locked@0-10 *)
Definition locked {A} (effect_id request_sha256 operation : string) (body : option dict -> (dict -> prog unit) -> prog A) : prog A :=
  do! effect_id := pof (validate_effect_id (JStr effect_id)) in
  do! _ := open_lock (lock_path effect_id) in
  do! v := pnow in
  do! record := pof (current_record v effect_id request_sha256 operation) in
  body record (write_record effect_id request_sha256 operation).
End journal.
End requests.
