(* ===== verification/HostDemo.v ===== *)
(** * A small host for the examples

    Temporary names, a checksum for the digest, ASCII letters, and a volume
    with a workspace and a journal. *)
From S2P Require Import Prelude PyStr Sha256 Json PyIO JsonText PyUnicode HostFiles HostLogic HostStates EffectJournal.
From stdpp Require Import base gmap strings list.
From Stdlib Require Import ZArith NArith Lia.

Local Open Scope Z_scope.

Definition longest (v : volume) : nat := max_list (map (fun p => String.length (name_of p)) (map_to_list (v_names v)).*1).
Lemma of_chars_length l : String.length (of_chars l) = List.length l.
Proof. induction l; simpl; [done|]. by f_equal. Qed.

(** A temporary name longer than every name there is. *)
#[export] Instance long_temps : TempNames.
Proof.
  refine {| temp_name v d prefix := prefix +:+ of_chars (repeat (chr 120) (S (longest v))) |}.
  - intros v d prefix. destruct (v_names v !! _) as [n|] eqn:E; [|done]. exfalso.
    set (p := d ++ _) in E. assert (String.length (name_of p) <= longest v)%nat as L.
    { eapply (max_list_le _ _ _ (Nat.le_refl _)). apply list_elem_of_fmap. exists p. split; [done|]. apply list_elem_of_fmap.
      exists (p, n). split; [done|]. by apply elem_of_map_to_list. }
    unfold name_of, p in L. rewrite List.last_last in L.
    rewrite <- (of_chars_chars (prefix +:+ _)), of_chars_length, chars_app, length_app, chars_of_chars, repeat_length in L. lia.
  - by eexists.
Defined.

Definition checksum (s : string) : N := fold_left (fun a c => (a * 31 + code c) mod 4294967296)%N (chars s) 7%N.
Definition checksum_digest : Digest.
Proof.
  refine {| digest s := of_chars (flat_map hex32 (repeat (checksum s) 8)) |}.
  intros s. unfold hex64. rewrite chars_of_chars. generalize (checksum s). intros n. apply andb_true_iff. split; cbn [repeat flat_map].
  - rewrite !length_app. done.
  - rewrite !forallb_app, !hex32_hex. done.
Defined.

#[export] Instance ascii_letters : CharData.
Proof. refine {| alnum_beyond _ := false |}. done. Defined.

Definition dir755 : inode := Inode Dir 493 true.
Definition dir700 : inode := Inode Dir 448 true.
Definition host (data : string) : volume :=
  Volume (<[["ws"; "a.txt"] := 3%nat]> (<[["ws"] := 1%nat]> (<[["j"] := 2%nat]> (<[[] := 0%nat]> ∅))))
    (<[3%nat := Inode (Reg (chars data)) 420 true]> (<[1%nat := dir755]> (<[2%nat := dir700]> (<[0%nat := dir755]> ∅)))).
Definition authority : binding := Binding "0f8fad5b-d9cb-469f-a165-70867728950e" 7.
Definition start (v : volume) (fates : list fate) : world := World v v fates (fun _ => Ok authority) [].

(** A file that processes and the disk agree on. *)
Lemma held_same h (X : option inode -> Prop) p v n i :
  v_names v !! p = Some n -> v_inodes v !! n = Some i -> (forall q, v_names v !! q = Some n -> q = p) -> X (Some i) ->
  held h X p v v.
Proof.
  intros E Ei A HX. assert (forall q m, named h v v q m -> v_names v !! q = Some m) as N by by intros q m [?|[_ ?]]. split.
  - intros m Nm%N. assert (m = n) as -> by congruence. split; [|by intros q Nq%N; apply A].
    intros j [Ej|(_ & k & Ek & ->)]; [congruence|]. rewrite Ei in *. injection Ek as <-. done.
  - intros [M|[_ M]]; congruence.
Qed.
Lemma held_missing h (X : option inode -> Prop) p v : v_names v !! p = None -> X None -> held h X p v v.
Proof. intros E HX. split; [|done]. intros n [N|[_ N]]; congruence. Qed.
