(* ===== verification/HoldoutStore.v ===== *)
(** * The holdout store (fleet_kernel/eval_plane/holdout_provider.py)

    The bundles of holdout cases lie outside everything the evaluated target can
    read; a bundle is handed to the grader only once the target's turn is over
    and its confinement was checked against the store. The store is the provider
    suite packages are bound to ([SuitePackage]). Files are those of a host
    ([HostFiles]); its state may differ from call to call. Texts of bundles are
    kept as UTF-8 ([PyUnicode]). *)
From S2P Require Import Prelude PyStr PyTime PyRegex Sha256 Json PyIO PyPath JsonText PyValue PyUnicode JsonBytes HostFiles SuiteManifest SuitePackage.
From stdpp Require Import base gmap strings list.
From Stdlib Require Import ZArith NArith Lia.

Local Open Scope Z_scope.

(** ** Paths *)

(** [pathlib.Path], with at most one leading slash. *)
Record Path := AsPath { p_absolute : bool; p_parts : path }.
#[export] Instance Path_eq_dec : EqDecision Path.
Proof. solve_decision. Defined.

Definition path_of (s : string) : Path := AsPath (is_absolute s) (path_parts s).
Definition absolute (p : path) : Path := AsPath true p.
Definition str_path (p : Path) : string :=
  if p_absolute p then "/" +:+ PyStr.join "/" (p_parts p) else match p_parts p with [] => "." | l => PyStr.join "/" l end.

(** [candidate.is_relative_to(ancestor)]: of the text, no link is followed. *)
Definition is_relative_to (candidate ancestor : Path) : bool :=
  bool_decide (p_absolute candidate = p_absolute ancestor
               /\ take (List.length (p_parts ancestor)) (p_parts candidate) = p_parts ancestor).
(* src: fleet_kernel/eval_plane/holdout_provider.py _is_within *)
Definition is_within (candidate ancestor : Path) : bool :=
  bool_decide (candidate = ancestor) || is_relative_to candidate ancestor.

(** ** Errors and names *)

Notation HoldoutError := (OtherError "HoldoutError").
Notation HoldoutBoundaryError := (OtherError "HoldoutBoundaryError").
Notation HoldoutPrincipalError := (OtherError "HoldoutPrincipalError").
Notation HoldoutNotFoundError := (OtherError "HoldoutNotFoundError").
Notation HoldoutStoreError := (OtherError "HoldoutStoreError").

(* src: fleet_kernel/eval_plane/holdout_provider.py MAX_CASE_ID_LENGTH *)
Definition MAX_CASE_ID_LENGTH : nat := 200.
(* src: fleet_kernel/eval_plane/holdout_provider.py BROKER_SANDBOX_READ_ROOTS *)
Definition BROKER_SANDBOX_READ_ROOTS : list Path :=
  map path_of ["/System"; "/usr"; "/bin"; "/sbin"; "/Library/Apple"; "/opt/homebrew/Cellar"].
(* src: fleet_kernel/eval_plane/holdout_provider.py _BUNDLE_PARTS *)
Definition BUNDLE_PARTS : list string := ["expected"; "graders"; "fixture"].

(* src: fleet_kernel/eval_plane/holdout_provider.py normalize_case_id *)
Definition normalize_case_id (value : string) : res string :=
  let case_id := strip value in
  raise_if negb (truthy case_id) || (MAX_CASE_ID_LENGTH <? List.length (chars case_id))%nat
           || negb (re_fullmatch false CASE_ID_PATTERN case_id)
    with HoldoutError, ("invalid holdout case identifier: " +:+ repr value) ;;
  Ok case_id.

(* src: fleet_kernel/eval_plane/holdout_provider.py holdout_ref *)
Definition holdout_ref (case_id part : string) : res string :=
  require existsb (String.eqb part) BUNDLE_PARTS
    else HoldoutError, ("unknown holdout bundle part: " +:+ repr part) ;;
  let! id := normalize_case_id case_id in
  Ok (HOLDOUT_SCHEME +:+ id +:+ "/" +:+ part).

(* src: fleet_kernel/eval_plane/holdout_provider.py Confinement *)
Inductive Confinement := BROKER_SANDBOX | UNCONFINED | OtherConfinement (its_repr : string).
Definition confinement_repr (c : Confinement) : string :=
  match c with
  | BROKER_SANDBOX => "<Confinement.BROKER_SANDBOX: 'broker_sandbox'>"
  | UNCONFINED => "<Confinement.UNCONFINED: 'unconfined'>"
  | OtherConfinement r => r
  end.

(* src: fleet_kernel/eval_plane/holdout_provider.py TargetPrincipal@11-17 *)
Record TargetPrincipal := Principal {
  t_role_type : string;
  t_os_uid : Z;
  t_confinement : Confinement;
  t_workspace_root : option Path;
  t_readable_roots : list Path;
  t_staging_root : option Path;
}.

(* src: fleet_kernel/eval_plane/holdout_provider.py IsolationReport *)
Record IsolationReport := Report { r_isolated : bool; r_mechanism : string; r_reason : string }.
(* src: fleet_kernel/eval_plane/holdout_provider.py GradingContext *)
Record GradingContext := Grading { g_attempt_id : string; g_target : TargetPrincipal; g_trajectory_sealed : bool }.
(* src: fleet_kernel/eval_plane/holdout_provider.py HoldoutBundle *)
Record HoldoutBundle := Bundle {
  hb_case_id : string; hb_content_sha256 : string; hb_expected : json; hb_graders : json; hb_fixture : json }.
(** A token, or anything else ([None]); [fa_secret] says whether it holds this
    module's secret object. *)
(* src: fleet_kernel/eval_plane/holdout_provider.py FetchAuthorization *)
Record FetchAuthorization := Authorization { fa_case_id : string; fa_attempt_id : string; fa_secret : bool }.

(* src: fleet_kernel/eval_plane/holdout_provider.py _authorization_gate@6-11 *)
Definition mint (case_id attempt_id : string) : FetchAuthorization := Authorization case_id attempt_id true.
(* src: fleet_kernel/eval_plane/holdout_provider.py _authorization_gate@13-20 *)
Definition verify_authorization (authorization : option FetchAuthorization) (case_id : string) : res unit :=
  let refused := Err (Exn HoldoutBoundaryError ("holdout bundle for case " +:+ case_id
    +:+ " was loaded without a fetch authorization: the seal and isolation checks did not run")) in
  match authorization with
  | Some a => if fa_secret a && (fa_case_id a =? case_id)%string then Ok tt else refused
  | None => refused
  end.

Section store.
  Context `{Digest} `{JsonLimits}.
  (** The working directory, and the roots as resolved when the module was imported. *)
  Variables (cwd : path) (read_roots : list Path).

(** [p.resolve()]. *)
Definition resolve_path (v : volume) (p : Path) : res Path :=
  let! q := realpath link_steps v [] (if p_absolute p then [] else cwd) (p_parts p) in Ok (absolute q).

(* src: fleet_kernel/eval_plane/holdout_provider.py _RESOLVED_BROKER_READ_ROOTS *)
Definition resolved_broker_read_roots (v : volume) : res (list Path) := rmap (resolve_path v) BROKER_SANDBOX_READ_ROOTS.

(* src: fleet_kernel/eval_plane/holdout_provider.py _digest *)
Definition holdout_digest (value : json) : res string :=
  let! b := canonical_bytes value in Ok (digest (of_chars b)).

(** ** The target *)

(** [sorted(str(root) for root in _RESOLVED_BROKER_READ_ROOTS if root not in declared)]. *)
Definition omitted (declared : list Path) : list string :=
  sort_strs (map str_path (List.filter (fun r => negb (bool_decide (r ∈ declared))) read_roots)).

(* src: fleet_kernel/eval_plane/holdout_provider.py TargetPrincipal.__post_init__ *)
Definition TargetPrincipal_post_init (self : TargetPrincipal) : res TargetPrincipal :=
  let who := "broker-confined target " +:+ t_role_type self in
  match t_confinement self with
  | UNCONFINED =>
      match t_staging_root self with
      | Some staging => Err (Exn HoldoutPrincipalError ("unconfined target " +:+ t_role_type self
          +:+ " declares a broker staging root " +:+ str_path staging +:+ "; it runs no sandbox"))
      | None => Ok self
      end
  | OtherConfinement r => Err (Exn HoldoutPrincipalError ("unknown target confinement: " +:+ r))
  | BROKER_SANDBOX =>
      let declared := t_readable_roots self in
      raise_if bool_decide (declared = [])
        with HoldoutPrincipalError, (who +:+ " declares no readable roots; "
          +:+ "the sandbox profile grants at least the OS closure and a staging root") ;;
      let missing := omitted declared in
      require bool_decide (missing = [])
        else HoldoutPrincipalError, (who +:+ " omits sandbox-readable OS roots " +:+ strs_repr missing
          +:+ "; isolation cannot be derived from an incomplete grant list") ;;
      match t_staging_root self with
      | None => Err (Exn HoldoutPrincipalError (who +:+ " declares no staging root; the "
          +:+ "sandbox profile grants file-read* AND file-write* on it "
          +:+ "(scripts/company_scribe_effect_broker.py:1708-1709)"))
      | Some staging =>
          raise_if negb (p_absolute staging) || negb (bool_decide (staging ∈ declared))
            with HoldoutPrincipalError, (who +:+ " declares staging root " +:+ str_path staging
              +:+ ", which is not an absolute path among its readable roots") ;;
          raise_if existsb (is_within staging) read_roots
            with HoldoutPrincipalError, (who +:+ " declares staging root " +:+ str_path staging
              +:+ " inside the sandbox OS read closure; a per-job staging root is private") ;;
          Ok self
      end
  end.

(* src: fleet_kernel/eval_plane/holdout_provider.py TargetPrincipal.broker_confined *)
Definition broker_confined (v : volume) (role_type : string) (os_uid : Z) (workspace_root staging_root : Path)
    : res TargetPrincipal :=
  let! staging := resolve_path v staging_root in
  TargetPrincipal_post_init {|
    t_role_type := role_type; t_os_uid := os_uid; t_confinement := BROKER_SANDBOX;
    t_workspace_root := Some workspace_root; t_readable_roots := read_roots ++ [staging];
    t_staging_root := Some staging |}.

(* src: fleet_kernel/eval_plane/holdout_provider.py TargetPrincipal.unconfined *)
Definition unconfined (role_type : string) (os_uid : Z) (workspace_root : option Path) : res TargetPrincipal :=
  TargetPrincipal_post_init {|
    t_role_type := role_type; t_os_uid := os_uid; t_confinement := UNCONFINED;
    t_workspace_root := workspace_root; t_readable_roots := []; t_staging_root := None |}.

(** ** The store *)

(** A store is its resolved root. *)
(* src: fleet_kernel/eval_plane/holdout_provider.py FilesystemHoldoutProvider.__init__ *)
Definition FilesystemHoldoutProvider_init (v : volume) (root repo_root : Path) (broker_job_roots : list Path) : res path :=
  let unreadable := Exn HoldoutStoreError ("holdout store root is unreadable: " +:+ str_path root) in
  let! resolved := match realpath_strict link_steps v [] (if p_absolute root then [] else cwd) (p_parts root) with
                   | Ok q => Ok q
                   | Err e => if os_error e then Err unreadable else Err e
                   end in
  let store := absolute resolved in
  require is_dir v resolved
    else HoldoutStoreError, ("holdout store root is not a directory: " +:+ str_path store) ;;
  let! repo := resolve_path v repo_root in
  raise_if is_within store repo || is_within repo store
    with HoldoutStoreError, ("holdout store " +:+ str_path store +:+ " overlaps the repository worktree "
      +:+ str_path repo +:+ "; any tracked or walkable file is target-readable") ;;
  let! _ := rmap (fun os_root =>
    raise_if is_within store os_root
      with HoldoutStoreError, ("holdout store " +:+ str_path store +:+ " sits under sandbox-readable root " +:+ str_path os_root) ;;
    Ok tt) BROKER_SANDBOX_READ_ROOTS in
  let! _ := rmap (fun job_root =>
    let! job := resolve_path v job_root in
    raise_if is_within store job || is_within job store
      with HoldoutStoreError, ("holdout store " +:+ str_path store +:+ " overlaps broker job root "
        +:+ str_path job +:+ "; the sandbox grants the target file-read* and file-write* on every per-job staging tree beneath it") ;;
    Ok tt) broker_job_roots in
  Ok resolved.

Section provider.
  Variable root : path.

(* src: fleet_kernel/eval_plane/holdout_provider.py FilesystemHoldoutProvider._bundle_path *)
Definition bundle_path (case_id : string) : res path :=
  let! id := normalize_case_id case_id in Ok (joined root (id +:+ ".holdout.json")).

(** [path.read_text(encoding="utf-8")], as the bytes of the text. *)
Definition read_utf8 (v : volume) (p : path) : res bytes :=
  let! b := read_bytes v p in
  require decodable b else UnicodeDecodeError, "'utf-8' codec can't decode bytes" ;;
  Ok (universal_newlines b).

(* src: fleet_kernel/eval_plane/holdout_provider.py FilesystemHoldoutProvider._read_payload *)
Definition read_payload (v : volume) (case_id : string) : res dict :=
  let! p := bundle_path case_id in
  let! raw := match read_utf8 v p with
              | Ok raw => Ok raw
              | Err e =>
                  if bool_decide (exn_class e = FileNotFoundError)
                  then Err (Exn HoldoutNotFoundError ("no holdout bundle provisioned for case " +:+ case_id))
                  else if os_error e
                  then Err (Exn HoldoutStoreError ("holdout bundle for case " +:+ case_id +:+ " is unreadable"))
                  else Err e
              end in
  let! payload := match loads_u raw with
                  | Ok j => Ok j
                  | Err e =>
                      if is_subclass (exn_class e) JSONDecodeError
                      then Err (Exn HoldoutStoreError ("holdout bundle for case " +:+ case_id +:+ " is not valid JSON"))
                      else Err e
                  end in
  let malformed := Err (Exn HoldoutStoreError ("holdout bundle for case " +:+ case_id +:+ " must contain exactly "
    +:+ strs_repr (sort_strs BUNDLE_PARTS))) in
  match payload with
  | JObj d =>
      if same_keys d BUNDLE_PARTS then
        if forallb (fun part => match get d part with JObj _ => true | _ => false end) BUNDLE_PARTS then Ok d
        else Err (Exn HoldoutStoreError ("holdout bundle parts for case " +:+ case_id +:+ " must be objects"))
      else malformed
  | _ => malformed
  end.

(* src: fleet_kernel/eval_plane/holdout_provider.py FilesystemHoldoutProvider.has_case *)
Definition fs_has_case (v : volume) (case_id : string) : res bool :=
  let! p := bundle_path case_id in
  Ok (match followed v p with Some (Inode (Reg _) _ _) => true | _ => false end).

(* src: fleet_kernel/eval_plane/holdout_provider.py FilesystemHoldoutProvider.bundle_digest *)
Definition fs_bundle_digest (v : volume) (case_id : string) : res string :=
  let! id := normalize_case_id case_id in
  let! payload := read_payload v id in
  holdout_digest (JObj payload).

(** What a suite package is checked against, the host being [v]. *)
Definition provider_at (v : volume) : HoldoutProvider :=
  {| has_case := fs_has_case v; bundle_digest := fs_bundle_digest v |}.

(* src: fleet_kernel/eval_plane/holdout_provider.py FilesystemHoldoutProvider.isolation_report *)
Definition isolation_report (v : volume) (target : TargetPrincipal) : res IsolationReport :=
  let store := absolute root in
  let at_root := str_path store in
  raise_if t_os_uid target =? 0
    with HoldoutBoundaryError, ("target " +:+ t_role_type target +:+ " runs as uid 0; root bypasses discretionary "
      +:+ "access control, so no owner or mode on " +:+ at_root +:+ " isolates this store from it") ;;
  let! workspace := match t_workspace_root target with
                    | Some w => let! w := resolve_path v w in Ok (Some w)
                    | None => Ok None
                    end in
  let inside := match workspace with
  | Some w =>
      if is_within store w
      then Some (Report false "workspace_containment"
             ("store " +:+ at_root +:+ " lies inside the target workspace " +:+ str_path w))
      else None
  | None => None
  end in
  match inside with
  | Some report => Ok report
  | None =>
      match t_confinement target with
      | BROKER_SANDBOX =>
          let who := "broker-confined target " +:+ t_role_type target in
          let declared := t_readable_roots target in
          match t_staging_root target with
          | Some staging =>
              require bool_decide (staging ∈ declared)
                else HoldoutStoreError, (who +:+ " declares no staging root among its readable roots; the sandbox grants "
                  +:+ "file-read* and file-write* on that subpath, so isolation cannot be derived") ;;
              let missing := omitted declared in
              require bool_decide (missing = [])
                else HoldoutStoreError, (who +:+ " omits sandbox-readable OS roots " +:+ strs_repr missing
                  +:+ "; isolation cannot be derived from an incomplete grant list") ;;
              match List.find (is_within store) declared with
              | Some readable => Ok (Report false "broker_sandbox_confinement"
                  ("store " +:+ at_root +:+ " lies under sandbox-readable root " +:+ str_path readable))
              | None => Ok (Report true "broker_sandbox_confinement"
                  ("the deny-default sandbox profile grants content access only to the OS "
                   +:+ "closure and the private staging root " +:+ str_path staging
                   +:+ ", neither of which covers " +:+ at_root))
              end
          | None => Err (Exn HoldoutStoreError (who +:+ " declares no staging root among its readable roots; the sandbox grants "
                  +:+ "file-read* and file-write* on that subpath, so isolation cannot be derived"))
          end
      | UNCONFINED => Ok (Report false "unconfined_role_unevaluable"
          ("target " +:+ t_role_type target +:+ " holds raw, unscoped Bash and Read at the "
           +:+ "host OS principal (uid " +:+ str_Z (t_os_uid target) +:+ "); file ownership and mode on "
           +:+ at_root +:+ " do not bound it, so an unconfined role cannot be "
           +:+ "evaluated against a holdout until real per-role ACLs, a separate host, "
           +:+ "or a separate credential exists"))
      | OtherConfinement r => Err (Exn HoldoutStoreError ("unknown target confinement: " +:+ r))
      end
  end.

(* src: fleet_kernel/eval_plane/holdout_provider.py FilesystemHoldoutProvider._load_bundle *)
Definition load_bundle (v : volume) (case_id : string) (authorization : option FetchAuthorization) : res HoldoutBundle :=
  let! _ := verify_authorization authorization case_id in
  let! payload := read_payload v case_id in
  let! sha := holdout_digest (JObj payload) in
  Ok {| hb_case_id := case_id; hb_content_sha256 := sha; hb_expected := get payload "expected";
        hb_graders := get payload "graders"; hb_fixture := get payload "fixture" |}.

(** The host is [v] when the isolation is checked and [v'] when the bundle is read. *)
(* src: fleet_kernel/eval_plane/holdout_provider.py HoldoutProvider.fetch_by_case_id *)
Definition fetch_by_case_id (v v' : volume) (case_id : string) (grading : GradingContext) : res HoldoutBundle :=
  let! normalized := normalize_case_id case_id in
  require g_trajectory_sealed grading
    else HoldoutBoundaryError, ("holdout " +:+ normalized +:+ " requested for attempt " +:+ g_attempt_id grading
      +:+ " before the target trajectory was sealed") ;;
  let! report := isolation_report v (g_target grading) in
  require r_isolated report
    else HoldoutBoundaryError, ("holdout store is reachable by target " +:+ t_role_type (g_target grading)
      +:+ ": " +:+ r_reason report) ;;
  load_bundle v' normalized (Some (mint normalized (g_attempt_id grading))).
End provider.

(* src: fleet_kernel/eval_plane/holdout_provider.py HoldoutBundle.redacted_summary *)
Definition redacted_summary (b : HoldoutBundle) : res json :=
  let part name j := let! d := holdout_digest j in Ok (name, JStr d) in
  let! digests := rmap (fun '(name, j) => part name j)
    [("expected", hb_expected b); ("graders", hb_graders b); ("fixture", hb_fixture b)] in
  Ok (JObj [("case_id", JStr (hb_case_id b)); ("content_sha256", JStr (hb_content_sha256 b)); ("part_digests", JObj digests)]).
End store.

(** ** What the definitions say *)

Lemma is_within_spec c a : is_within c a = true <-> p_absolute c = p_absolute a /\ exists rest, p_parts c = p_parts a ++ rest.
Proof.
  unfold is_within, is_relative_to. rewrite orb_true_iff, !bool_decide_eq_true. split.
  - intros [->|[A E]]; [split; [done|]; exists []; by rewrite app_nil_r|]. split; [done|].
    exists (drop (List.length (p_parts a)) (p_parts c)). rewrite <- E at 1. by rewrite take_drop.
  - intros [A [r E]]. right. split; [done|]. rewrite E. by rewrite take_app_length.
Qed.

(** A file of the store lies below what the store lies below, or is named itself. *)
Lemma file_within store x d :
  is_within (absolute (store ++ [x])) d = true -> is_within (absolute store) d = true \/ d = absolute (store ++ [x]).
Proof.
  rewrite !is_within_spec. intros [A [r E]]. cbn [absolute p_absolute p_parts] in *.
  destruct r as [|y r' _] using rev_ind.
  - right. rewrite app_nil_r in E. destruct d as [a parts]. cbn in *. by subst.
  - left. rewrite app_assoc in E. apply app_inj_2 in E as [E _]; [|done]. split; [done|]. by exists r'.
Qed.

Lemma omitted_nil read_roots declared : omitted read_roots declared = [] -> forall r, r ∈ read_roots -> r ∈ declared.
Proof.
  unfold omitted. intros E r Hr. apply (proj1 (sort_strs_nil _)), map_eq_nil in E. destruct (decide (r ∈ declared)) as [|N]; [done|]. exfalso.
  assert (In r (List.filter (fun r => negb (bool_decide (r ∈ declared))) read_roots)) as I.
  { apply filter_In. rewrite bool_decide_false by done. split; [by apply list_elem_of_In|done]. }
  by rewrite E in I.
Qed.

Lemma rmap_unit_ok {A} (f : A -> res unit) l u : rmap f l = Ok u -> forall a, a ∈ l -> f a = Ok tt.
Proof.
  revert u. induction l as [|x l IH]; intros u; [by intros _ a ?%elem_of_nil|]. cbn [rmap].
  intros ([] & E & (us & El & _)%rbind_ok)%rbind_ok a [->|Ha]%elem_of_cons; [done|]. by eapply IH.
Qed.

Section store_facts.
  Context `{Digest} `{JsonLimits} (cwd : path) (read_roots : list Path).

(** What a directory [d] has to do with the target of an evaluation: the target
    may read below it. *)
Inductive grants (v0 v : volume) (repo_root : Path) (job_roots : list Path) (target : TargetPrincipal) (d : Path) : Prop :=
  | grants_os : d ∈ read_roots -> grants v0 v repo_root job_roots target d
  | grants_declared : d ∈ t_readable_roots target -> grants v0 v repo_root job_roots target d
  | grants_staging : t_staging_root target = Some d -> grants v0 v repo_root job_roots target d
  | grants_workspace w : t_workspace_root target = Some w -> resolve_path cwd v w = Ok d -> grants v0 v repo_root job_roots target d
  | grants_repository : resolve_path cwd v0 repo_root = Ok d -> grants v0 v repo_root job_roots target d
  | grants_job j : j ∈ job_roots -> resolve_path cwd v0 j = Ok d -> grants v0 v repo_root job_roots target d.

Lemma init_ok v root repo_root jobs store :
  FilesystemHoldoutProvider_init cwd v root repo_root jobs = Ok store ->
  (forall d, resolve_path cwd v repo_root = Ok d -> is_within (absolute store) d = false /\ is_within d (absolute store) = false)
  /\ (forall j d, j ∈ jobs -> resolve_path cwd v j = Ok d -> is_within (absolute store) d = false /\ is_within d (absolute store) = false)
  /\ (forall d, d ∈ BROKER_SANDBOX_READ_ROOTS -> is_within (absolute store) d = false) /\ is_dir v store = true.
Proof.
  unfold FilesystemHoldoutProvider_init. intros (s & _ & E)%rbind_ok. guards in E. destruct E as [D E].
  apply rbind_ok in E as (repo & Er & E). guards in E. destruct E as [[R1 R2]%orb_false_iff E].
  apply rbind_ok in E as (u1 & E1 & E). apply rbind_ok in E as (u2 & E2 & [= ->]).
  pose proof (rmap_unit_ok _ _ _ E1) as F1. pose proof (rmap_unit_ok _ _ _ E2) as F2. clear E1 E2.
  split; [intros d Ed; rewrite Er in Ed; by injection Ed as <-|]. split; [|split; [|done]].
  - intros j d Hj Ed. specialize (F2 j Hj). cbn beta in F2. rewrite Ed in F2. cbn [rbind] in F2. guards in F2.
    by destruct F2 as [[? ?]%orb_false_iff _].
  - intros d Hd. specialize (F1 d Hd). cbn beta in F1. guards in F1. by destruct F1 as [? _].
Qed.

Lemma isolated_ok store v target report :
  isolation_report cwd read_roots store v target = Ok report -> r_isolated report = true ->
  t_os_uid target <> 0 /\ t_confinement target = BROKER_SANDBOX
  /\ (forall r, r ∈ read_roots -> r ∈ t_readable_roots target)
  /\ (exists staging, t_staging_root target = Some staging /\ staging ∈ t_readable_roots target)
  /\ (forall d, d ∈ t_readable_roots target -> is_within (absolute store) d = false)
  /\ (forall w d, t_workspace_root target = Some w -> resolve_path cwd v w = Ok d -> is_within (absolute store) d = false).
Proof.
  unfold isolation_report. guards. intros [U E] I. apply Z.eqb_neq in U. apply rbind_ok in E as (ws & Ew & E).
  assert (forall w d, t_workspace_root target = Some w -> resolve_path cwd v w = Ok d -> ws = Some d) as Hw.
  { intros w d Et Ed. rewrite Et, Ed in Ew. by injection Ew. }
  assert (forall d, ws = Some d -> is_within (absolute store) d = false) as Hn.
  { intros d ->. destruct (is_within (absolute store) d); [|done]. injection E as <-. done. }
  assert (match t_confinement target with BROKER_SANDBOX => True | _ => False end) as Hc.
  { destruct ws as [d|]; [rewrite (Hn d eq_refl) in E|]; destruct (t_confinement target); try done; injection E as <-; done. }
  destruct (t_confinement target); try done. split; [done|]. split; [done|].
  assert (match t_staging_root target with
    | Some staging => staging ∈ t_readable_roots target /\ omitted read_roots (t_readable_roots target) = []
        /\ List.find (is_within (absolute store)) (t_readable_roots target) = None
    | None => False end) as Hs.
  { destruct ws as [d|]; [rewrite (Hn d eq_refl) in E|]; destruct (t_staging_root target) as [staging|]; try done; guards in E;
      destruct E as (S%bool_decide_eq_true & M%bool_decide_eq_true & E); destruct (List.find _ _); try (by injection E as <-); done. }
  destruct (t_staging_root target) as [staging|]; [|done]. destruct Hs as (S & M & F).
  split; [by apply omitted_nil|]. split; [by exists staging|]. split.
  - intros d Hd. by apply (find_none _ _ F), list_elem_of_In.
  - intros w d Et Ed. eauto.
Qed.

Lemma load_bundle_ok store v id token b :
  load_bundle store v id (Some token) = Ok b ->
  exists payload, read_payload store v id = Ok payload /\ holdout_digest (JObj payload) = Ok (hb_content_sha256 b)
    /\ hb_case_id b = id /\ hb_expected b = get payload "expected" /\ hb_graders b = get payload "graders"
    /\ hb_fixture b = get payload "fixture".
Proof.
  unfold load_bundle. intros (u & _ & E)%rbind_ok. apply rbind_ok in E as (payload & Ep & E). apply rbind_ok in E as (sha & Es & [= <-]).
  by exists payload.
Qed.

Lemma fetch_ok store v v' case_id g b :
  fetch_by_case_id cwd read_roots store v v' case_id g = Ok b ->
  exists report, normalize_case_id case_id = Ok (hb_case_id b) /\ g_trajectory_sealed g = true
    /\ isolation_report cwd read_roots store v (g_target g) = Ok report /\ r_isolated report = true
    /\ load_bundle store v' (hb_case_id b) (Some (mint (hb_case_id b) (g_attempt_id g))) = Ok b.
Proof.
  unfold fetch_by_case_id. intros (id & Ei & E)%rbind_ok. guards in E. destruct E as [S E].
  apply rbind_ok in E as (report & Er & E). guards in E. destruct E as [I E]. exists report.
  destruct (load_bundle_ok _ _ _ _ _ E) as (payload & _ & _ & -> & _). by rewrite Ei.
Qed.

(** A case id is one name of the store's directory. *)
Definition id_char (c : char) : bool := negb (code c =? 47)%N && negb (isspace c).
Lemma case_id_chars : only false id_char CASE_ID_PATTERN.
Proof. cbn. repeat split; intros [[] [] [] [] [] [] [] []]; vm_compute; done. Qed.

Lemma lstrip_unspaced l : forallb (fun c => negb (isspace c)) l = true -> lstrip_l l = l.
Proof. destruct l as [|c l]; [done|]. cbn. by destruct (isspace c). Qed.
Lemma normalize_ok value id : normalize_case_id value = Ok id -> normalize_case_id id = Ok id /\ forallb id_char (chars id) = true.
Proof.
  unfold normalize_case_id. guards. intros [E [= Ei]]. rewrite Ei in E.
  assert (forallb id_char (chars id) = true) as F.
  { apply orb_false_iff in E as [_ E%negb_false_iff]. by apply (fullmatch_chars _ _ _ _ case_id_chars) in E. }
  assert (strip id = id) as ->; [|by rewrite E].
  assert (forallb (fun c => negb (isspace c)) (chars id) = true) as G.
  { rewrite forallb_forall in *. intros c Hc. by apply F, andb_true_iff in Hc as [_ ?]. }
  unfold strip, rstrip_l. rewrite (lstrip_unspaced _ G), lstrip_unspaced by by rewrite forallb_rev.
  by rewrite rev_involutive, of_chars_chars.
Qed.

Lemma bundle_path_ok store value id file :
  normalize_case_id value = Ok id -> bundle_path store value = Ok file -> file = store ++ [id +:+ ".holdout.json"].
Proof.
  intros N. unfold bundle_path. rewrite N. cbn [rbind]. intros [= <-]. apply normalize_ok in N as [_ N].
  assert (forallb id_char (chars (id +:+ ".holdout.json")) = true) as F.
  { rewrite chars_app, forallb_app, N. reflexivity. }
  set (name := id +:+ ".holdout.json") in *.
  assert (List.length (chars name) >= 13)%nat as L by (unfold name; rewrite chars_app, length_app; cbn; lia).
  assert (slash ∉ chars name) as S.
  { intros Hs%list_elem_of_In. rewrite forallb_forall in F. by specialize (F _ Hs). }
  unfold joined, path_parts, split_on. rewrite (split_l_alone _ _ S). cbn [map List.filter]. rewrite of_chars_chars.
  assert (is_absolute name = false) as ->.
  { clear -S. destruct name as [|c n]; [done|]. change (chars (String c n)) with (c :: chars n) in S.
    apply not_elem_of_cons in S as [S _].
    change ((if Ascii.ascii_dec slash c then String.prefix "" n else false) = false).
    by destruct (Ascii.ascii_dec slash c). }
  destruct (String.eqb_spec name "") as [E|]; [rewrite E in L; cbn in L; lia|].
  destruct (String.eqb_spec name ".") as [E|]; [rewrite E in L; cbn in L; lia|]. done.
Qed.

Lemma read_payload_path store v id payload : read_payload store v id = Ok payload -> exists file, bundle_path store id = Ok file.
Proof. unfold read_payload. intros (file & E & _)%rbind_ok. by exists file. Qed.

(** *** Where a name leads *)

Definition is_link (o : option (nat * inode)) : Prop := exists n t m mine, o = Some (n, Inode (Link t) m mine).

(** Where nothing on the way is a link a path leads to itself. *)
Lemma realpath_straight fuel v busy acc rest q :
  realpath_strict fuel v busy acc rest = Ok q -> ".." ∉ rest ->
  (forall p, p `prefix_of` acc ++ rest -> ~ is_link (stat v p)) -> q = acc ++ rest.
Proof.
  revert acc rest. induction fuel as [|f IH]; intros acc [|x rest]; cbn [realpath_strict]; [intros [= <-]; by rewrite app_nil_r|done|
    intros [= <-]; by rewrite app_nil_r|].
  rewrite not_elem_of_cons. intros E [Nx Nr] L. destruct (String.eqb_spec x "..") as [|_]; [by subst|].
  replace (acc ++ x :: rest) with ((acc ++ [x]) ++ rest) in * by (by rewrite <- app_assoc).
  destruct (stat v (acc ++ [x])) as [[n [[] m mine]]|] eqn:Es; try (by apply IH in E); [|done].
  destruct (L (acc ++ [x])); [by eexists|]. rewrite Es. by repeat eexists.
Qed.
(** No step up is left in what a path leads to. *)
Lemma realpath_no_dots fuel v busy acc rest q : realpath_strict fuel v busy acc rest = Ok q -> ".." ∉ acc -> ".." ∉ q.
Proof.
  revert busy acc rest q. induction fuel as [|f IH]; intros busy acc [|x rest] q; cbn [realpath_strict]; [by intros [= ->]|done|by intros [= ->]|].
  intros E N. assert (".." ∉ removelast acc) as Nr.
  { intros Hd. apply N. destruct acc as [|y l _] using rev_ind; [done|]. rewrite removelast_last in Hd. set_solver. }
  destruct (String.eqb_spec x "..") as [|Hx]; [by apply (IH _ _ _ _ E)|]. assert (".." ∉ acc ++ [x]) as Nx by set_solver.
  destruct (stat v (acc ++ [x])) as [[n [[b| |t|] m mine]]|]; try (by apply (IH _ _ _ _ E)); [|done].
  destruct (bool_decide _); [done|]. apply rbind_ok in E as (q' & E' & E).
  apply (IH _ _ _ _ E). apply (IH _ _ _ _ E'). by destruct (is_absolute t); [apply not_elem_of_nil|].
Qed.
Lemma init_no_dots v root repo_root jobs store :
  FilesystemHoldoutProvider_init cwd v root repo_root jobs = Ok store -> ".." ∉ cwd -> ".." ∉ store.
Proof.
  unfold FilesystemHoldoutProvider_init. intros (s & Es & E)%rbind_ok Nc. guards in E. destruct E as [_ E].
  apply rbind_ok in E as (repo & _ & E). guards in E. destruct E as [_ E].
  apply rbind_ok in E as (_ & _ & E). apply rbind_ok in E as (_ & _ & [= <-]).
  destruct (realpath_strict _ _ _ _ _) as [q|e] eqn:Er; [|by destruct (os_error e)]. injection Es as <-.
  apply (realpath_no_dots _ _ _ _ _ _ Er). by destruct (p_absolute root); [apply not_elem_of_nil|].
Qed.

(** What was read and where. *)
Lemma read_bytes_ok v file raw : read_bytes v file = Ok raw ->
  exists real n mode mine, realpath_strict link_steps v [] [] file = Ok real /\ stat v real = Some (n, Inode (Reg raw) mode mine).
Proof.
  unfold read_bytes. generalize (realpath_strict link_steps v [] [] file). intros [real|e] Hb; [|by destruct (bool_decide _)].
  destruct (stat v real) as [[n [[b| |t|] mode mine]]|] eqn:Es; try discriminate Hb.
  destruct (negb mine || Z.testbit mode 8); [|discriminate Hb]. injection Hb as ->. by exists real, n, mode, mine.
Qed.
Lemma read_utf8_ok v file text : read_utf8 v file = Ok text ->
  exists raw, read_bytes v file = Ok raw /\ decodable raw = true /\ text = universal_newlines raw.
Proof.
  unfold read_utf8. generalize (read_bytes v file). intros [raw|e]; [|discriminate]. cbn [rbind].
  destruct (decodable raw) eqn:D; [|discriminate]. intros [= <-]. by exists raw.
Qed.
Lemma read_payload_ok store v id payload : read_payload store v id = Ok payload ->
  exists file text, bundle_path store id = Ok file /\ read_utf8 v file = Ok text /\ loads_u text = Ok (JObj payload).
Proof.
  unfold read_payload. intros (file & Ef & E)%rbind_ok. apply rbind_ok in E as (text & Et & E). apply rbind_ok in E as (j & Ej & E).
  assert (j = JObj payload) as ->.
  { destruct j; try done. destruct (same_keys _ _); [|done]. destruct (forallb _ _); [by injection E as ->|done]. }
  exists file, text. split; [done|]. split.
  - destruct (read_utf8 v file) as [t|e]; [by injection Et as ->|]. destruct (bool_decide _); [done|]. by destruct (os_error e).
  - destruct (loads_u text) as [t|e]; [by injection Ej as ->|]. by destruct (is_subclass _ _).
Qed.

(** C38: A bundle is handed out only for a sealed trajectory and a target under
    the broker's sandbox that is not root. The store's directory is then below no
    root the target was granted - the roots of the sandbox, those declared for it,
    its staging root (the one it may write), its workspace, and where the store was
    opened the repository and the broker's job roots - and none of them contains
    the name of the bundle, unless it is that very name that is declared. This is
    of the paths as resolved where the code resolves them and as declared where it
    does not. What was handed out is the content of the regular file the case's
    name in the store leads to when it is read, which is the file of that name when
    neither the name nor a directory above it is a link; a link may lead anywhere,
    to a file the target can write ([StoreDemo.linked_bundle_is_fetched]), and a
    declared root that is a link to the store is not recognised
    ([StoreDemo.linked_root_is_certified]). *)
Theorem fetched_bundle_is_out_of_reach v0 root repo_root jobs store v v' case_id g b :
  FilesystemHoldoutProvider_init cwd v0 root repo_root jobs = Ok store -> ".." ∉ cwd ->
  fetch_by_case_id cwd read_roots store v v' case_id g = Ok b ->
  let file := store ++ [hb_case_id b +:+ ".holdout.json"] in
  g_trajectory_sealed g = true /\ t_confinement (g_target g) = BROKER_SANDBOX /\ t_os_uid (g_target g) <> 0
  /\ (forall d, grants v0 v repo_root jobs (g_target g) d ->
        is_within (absolute store) d = false /\ (is_within (absolute file) d = true -> d = absolute file))
  /\ exists real n raw mode mine payload,
       realpath_strict link_steps v' [] [] file = Ok real /\ stat v' real = Some (n, Inode (Reg raw) mode mine)
       /\ ((forall p, p `prefix_of` file -> ~ is_link (stat v' p)) -> real = file)
       /\ decodable raw = true /\ loads_u (universal_newlines raw) = Ok (JObj payload)
       /\ holdout_digest (JObj payload) = Ok (hb_content_sha256 b) /\ hb_expected b = get payload "expected"
       /\ hb_graders b = get payload "graders" /\ hb_fixture b = get payload "fixture".
Proof.
  intros Hi Nc (report & Ni & S & Er & I & L)%fetch_ok file. pose proof (init_no_dots _ _ _ _ _ Hi Nc) as Nd.
  destruct (init_ok _ _ _ _ _ Hi) as (R & J & _ & _).
  destruct (isolated_ok _ _ _ _ Er I) as (U & C & Os & (staging & Es & Hs) & De & Ws).
  destruct (load_bundle_ok _ _ _ _ _ L) as (payload & Ep & Ed & _ & E1 & E2 & E3).
  split; [done|]. split; [done|]. split; [done|]. split.
  - intros d Hd. assert (is_within (absolute store) d = false) as Hn.
    { destruct Hd as [Hd|Hd|Hd|w Hw Hd|Hd|j Hj Hd]; [by apply De, Os|by apply De| |by eapply Ws|by apply R|by eapply J].
      rewrite Es in Hd. injection Hd as <-. by apply De. }
    split; [done|]. intros [Hw|Hw]%file_within; [by rewrite Hn in Hw|done].
  - destruct (read_payload_ok _ _ _ _ Ep) as (f & text & Ef & Et & El).
    destruct (read_utf8_ok _ _ _ Et) as (raw & Eb & D & ->). destruct (read_bytes_ok _ _ _ Eb) as (real & n & mode & mine & Ere & Est).
    assert (f = file) as -> by (eapply bundle_path_ok; [|exact Ef]; by apply normalize_ok in Ni as [Ni _]).
    exists real, n, raw, mode, mine, payload. split; [done|]. split; [done|]. split; [|done].
    intros NL. apply (realpath_straight _ _ _ _ _ _ Ere); [|exact NL]. unfold file. rewrite not_elem_of_app, list_elem_of_singleton.
    split; [done|]. intros E. apply (f_equal chars), (f_equal (@List.length _)) in E. rewrite chars_app, length_app in E. cbn in E. lia.
Qed.

(** What a digest is of: two objects with one digest have the same canonical
    text, unless the two texts collide. *)
Lemma same_digest j j' d : holdout_digest j = Ok d -> holdout_digest j' = Ok d ->
  exists t t', canonical_bytes j = Ok t /\ canonical_bytes j' = Ok t' /\ (t = t' \/ collides (of_chars t) (of_chars t')).
Proof.
  intros (t & Et & [= Ed])%rbind_ok (t' & Et' & [= Ed'])%rbind_ok. exists t, t'. split; [done|]. split; [done|].
  destruct (decide (t = t')) as [|N]; [by left|right]. split; [|congruence].
  intros E. apply N. by rewrite <- (chars_of_chars t), <- (chars_of_chars t'), E.
Qed.

(** C39: The store keeps the promise packages are verified against. When a
    package was loaded with this store as its provider and the binding was
    verified, then whatever bundle is fetched later for one of its holdouts, at
    any state of the host: the bundle there was at the load has the pinned
    digest, and the fetched one has it exactly when it is the same JSON as the
    one at the load, or the two texts collide. *)
Theorem verified_package_names_its_bundles `{IsoDate} fs repo name at_ p v0 store v v' c g b :
  load_suite_package fs repo name at_ (Some (provider_at store v0)) = Ok p ->
  pk_holdout_binding_verified p = true -> c ∈ pk_cases p -> case_is_holdout c = true ->
  fetch_by_case_id cwd read_roots store v v' (cd_case_id c) g = Ok b ->
  exists pinned payload text text',
    read_payload store v0 (hb_case_id b) = Ok pinned /\ read_payload store v' (hb_case_id b) = Ok payload
    /\ hb_expected b = get payload "expected" /\ hb_graders b = get payload "graders" /\ hb_fixture b = get payload "fixture"
    /\ canonical_bytes (JObj pinned) = Ok text /\ cd_holdout_bundle_sha256 c = Some (digest (of_chars text))
    /\ canonical_bytes (JObj payload) = Ok text'
    /\ (cd_holdout_bundle_sha256 c = Some (hb_content_sha256 b) <-> text = text' \/ collides (of_chars text) (of_chars text')).
Proof.
  intros (_ & _ & V & _)%load_ok Bv Hc Hh (report & Ni & _ & _ & _ & L)%fetch_ok.
  apply validate_package_ok in V as (_ & _ & _ & _ & B). specialize (B Bv c Hc Hh).
  destruct B as (hp & d & Ehp & _ & Ed & Pin). assert (hp = provider_at store v0) as -> by congruence.
  destruct (load_bundle_ok _ _ _ _ _ L) as (payload & Ep & Es & _ & E1 & E2 & E3).
  cbn [bundle_digest provider_at] in Ed. unfold fs_bundle_digest in Ed. rewrite Ni in Ed. cbn [rbind] in Ed.
  apply rbind_ok in Ed as (pinned & Eq & Ed). pose proof Ed as (text & Et & [= Hd])%rbind_ok. pose proof Es as (text' & Et' & [= Hs])%rbind_ok.
  exists pinned, payload, text, text'. rewrite Pin, Hd. split; [done|]. split; [done|]. do 5 (split; [done|]). split; [done|].
  split.
  - intros [= E]. rewrite E in Ed. destruct (same_digest _ _ _ Ed Es) as (t & t' & F & F' & S).
    assert (t = text) as -> by congruence. assert (t' = text') as -> by congruence. done.
  - intros [->|[_ E]]; f_equal; congruence.
Qed.
End store_facts.

(** ** A store beside a repository

    The store of the package in [SuiteDemo], on a host where the target works
    in [/jobs/1]. *)
Module StoreDemo.
  Import SuiteDemo.
  #[local] Existing Instance limits.

Definition directory : inode := Inode Dir 493 true.
Definition regular (s : string) : inode := Inode (Reg (chars s)) 384 true.
Definition volume_of (l : list (path * inode)) : volume :=
  Volume (list_to_map (imap (fun n e => (e.1, n)) l)) (list_to_map (imap (fun n e => (n, e.2)) l)).
Definition store : path := ["store"].
Definition host (bundle : inode) (more : list (path * inode)) : volume := volume_of ([
  ([], directory); (["a"], directory); (["jobs"], directory); (["jobs"; "1"], directory); (["store"], directory);
  (["store"; "routing.hidden.holdout.json"], bundle)] ++ more).
Definition at_load : volume := host (regular (json_bytes exam)) [].

Definition roots : list Path := BROKER_SANDBOX_READ_ROOTS.
Definition target (staging : string) (extra : list string) : TargetPrincipal :=
  Principal "sales" 501 BROKER_SANDBOX (Some (path_of "/jobs/1/work")) (roots ++ map path_of (staging :: extra)) (Some (path_of staging)).
Definition grading (staging : string) (extra : list string) : GradingContext := Grading "attempt-1" (target staging extra) true.

Notation fetch v g := (fetch_by_case_id [] roots store v v "routing.hidden" g).

Example import_resolves_the_roots : resolved_broker_read_roots [] at_load = Ok roots.
Proof. vm_compute. reflexivity. Qed.
Example store_opens : FilesystemHoldoutProvider_init [] at_load (path_of "/store") (path_of "/a") [path_of "/jobs"] = Ok store.
Proof. vm_compute. reflexivity. Qed.
Example target_is_complete : is_ok (TargetPrincipal_post_init roots (target "/jobs/1" [])) = true.
Proof. vm_compute. reflexivity. Qed.

(** Only roots that cover the store are refused: the very file of a case may be
    declared readable, or the staging root lie in the store. *)
Example inner_roots_are_certified :
  map (fun t => match isolation_report [] roots store at_load t with Ok r => r_isolated r | Err _ => false end)
    [target "/jobs/1" ["/store/routing.hidden.holdout.json"]; target "/store/jobs" []] = [true; true].
Proof. vm_compute. reflexivity. Qed.

(** The roots declared for a target are compared as they are written: a link to
    the store does not cover it. *)
Example linked_root_is_certified :
  match isolation_report [] roots store (host (regular (json_bytes exam)) [(["link"], Inode (Link "/store") 511 true)])
          (target "/jobs/1" ["/link"]) with Ok r => r_isolated r | Err _ => false end = true.
Proof. vm_compute. reflexivity. Qed.

(** The bundle itself may be a link into what the target can write. *)
Example linked_bundle_is_fetched :
  match fetch (host (Inode (Link "/jobs/1/mine.json") 511 true) [(["jobs"; "1"; "mine.json"], regular (json_bytes exam))])
          (grading "/jobs/1" []) with Ok b => hb_expected b | Err _ => JNull end
  = JObj [("must", JArr [JStr "escalate"])].
Proof. vm_compute. reflexivity. Qed.

(** A bundle that is no UTF-8 is not reported as a fault of the store. *)
Example undecodable_bundle : fetch (host (Inode (Reg [chr 255]) 384 true) []) (grading "/jobs/1" [])
  = Err (Exn UnicodeDecodeError "'utf-8' codec can't decode bytes").
Proof. vm_compute. reflexivity. Qed.

Notation loaded :=
  (load_suite_package (files "/a" []) "/a" "routing.suite.json" "/a/routing.suite.json" (Some (provider_at store at_load))).
Definition holdout_of (p : EvalSuitePackage) : list EvalCaseDefinition :=
  List.filter (fun c => case_is_holdout c && (cd_case_id c =? "routing.hidden")%string) (pk_cases p).
Definition well (r : res EvalSuitePackage) : bool :=
  match r with Ok p => pk_holdout_binding_verified p && negb (bool_decide (List.length (holdout_of p) = 0%nat)) | Err _ => false end.
Lemma loads : well loaded = true.
Proof. vm_compute. reflexivity. Qed.
Lemma well_ok r : well r = true -> exists p c, r = Ok p /\ pk_holdout_binding_verified p = true /\ c ∈ pk_cases p
  /\ case_is_holdout c = true /\ cd_case_id c = "routing.hidden".
Proof.
  destruct r as [p|]; [|done]. intros [V L%negb_true_iff%bool_decide_eq_false]%andb_true_iff.
  destruct (holdout_of p) as [|c l] eqn:E; [done|]. exists p, c. split; [done|]. split; [done|].
  assert (In c (holdout_of p)) as I by (rewrite E; by left). apply filter_In in I as [I [H1 H2%String.eqb_eq]%andb_true_iff].
  split; [by apply list_elem_of_In|done].
Qed.
Lemma fetched : is_ok (fetch at_load (grading "/jobs/1" [])) = true.
Proof. vm_compute. reflexivity. Qed.
End StoreDemo.

Import StoreDemo.
#[local] Existing Instance SuiteDemo.limits.

Lemma fetched_bundle_is_out_of_reach_witness : exists b real, fetch at_load (grading "/jobs/1" []) = Ok b
  /\ (forall d, grants [] roots at_load at_load (path_of "/a") [path_of "/jobs"] (StoreDemo.target "/jobs/1" []) d ->
        is_within (absolute store) d = false)
  /\ realpath_strict link_steps at_load [] [] (store ++ [hb_case_id b +:+ ".holdout.json"]) = Ok real.
Proof.
  pose proof fetched as F. destruct (fetch at_load (grading "/jobs/1" [])) as [b|] eqn:E; [|discriminate F].
  destruct (fetched_bundle_is_out_of_reach _ _ _ _ _ _ _ _ _ _ _ _ store_opens (@not_elem_of_nil _ "..") E)
    as (_ & _ & _ & G & real & _ & _ & _ & _ & _ & P & _).
  exists b, real. split; [reflexivity|]. split; [intros d Hd; exact (proj1 (G d Hd))|exact P].
Defined.

Lemma verified_package_names_its_bundles_witness : exists p c b pinned payload,
  loaded = Ok p /\ c ∈ pk_cases p /\ fetch at_load (grading "/jobs/1" []) = Ok b
  /\ read_payload store at_load (hb_case_id b) = Ok pinned /\ read_payload store at_load (hb_case_id b) = Ok payload
  /\ exists text, canonical_bytes (JObj pinned) = Ok text /\ cd_holdout_bundle_sha256 c = Some (digest (of_chars text)).
Proof.
  destruct (well_ok _ loads) as (p & c & L & V & Hc & Hh & Ei).
  pose proof fetched as F. destruct (fetch at_load (grading "/jobs/1" [])) as [b|] eqn:E; [|discriminate F].
  destruct (verified_package_names_its_bundles _ _ _ _ _ _ _ _ _ _ _ _ _ _ L V Hc Hh (eq_trans (f_equal (fun id => fetch_by_case_id [] roots store at_load at_load id (grading "/jobs/1" [])) Ei) E))
    as (pinned & payload & text & text' & R & R' & _ & _ & _ & T & P & _ & _).
  exists p, c, b, pinned, payload. split; [exact L|]. split; [exact Hc|]. split; [reflexivity|]. split; [exact R|]. split; [exact R'|].
  exists text. split; [exact T|exact P].
Defined.
