(* ===== verification/TargetFingerprint.v ===== *)
(** * The fingerprint of an evaluated target (fleet_kernel/eval_plane/target_fingerprint.py)

    A target is the whole system under evaluation: code, model route with its
    sampling, instructions, skills, tools, tenant policy and runtime. Its
    fingerprint is the digest of a canonical text of all of them. Text is kept
    as UTF-8 ([PyUnicode]). *)
From S2P Require Import Prelude PyStr PyTime Sha256 Json PyIO PyPath JsonText PyValue PyUnicode JsonBytes JsonParts HostFiles HostLogic HostStates EffectJournal HostDemo.
From stdpp Require Import base gmap strings list.
From Stdlib Require Import ZArith NArith Lia Permutation.

Local Open Scope Z_scope.

Notation EvalTargetFingerprintError := (OtherError "EvalTargetFingerprintError").
Definition unfit {A} (msg : string) : res A := Err (Exn EvalTargetFingerprintError msg).

(** ** Fields *)

(** [str.strip] of text that may hold any character. *)
Fixpoint lstrip_points (l : list N) : list N :=
  match l with n :: r => if space_point n then lstrip_points r else l | [] => [] end.
Definition strip_points (l : list N) : list N := rev (lstrip_points (rev (lstrip_points l))).
Definition strip_u (s : string) : string :=
  match points true (chars s) with
  | Some l => of_chars (flat_map utf8_of (strip_points l))
  | None => s
  end.

(* src: fleet_kernel/eval_plane/target_fingerprint.py _text *)
Definition text_ (value : json) (field_name : string) : res string :=
  let text := strip_u (py_str (py_or (Some value) (JStr ""))) in
  raise_if negb (truthy text) || existsb (fun c => (code c <? 32)%N) (chars text)
    with EvalTargetFingerprintError, (field_name +:+ " is missing or invalid") ;;
  Ok text.

(* src: fleet_kernel/eval_plane/target_fingerprint.py _GIT_SHA *)
Definition GIT_SHA (s : string) : bool := (List.length (chars s) =? 40)%nat && forallb hex_c (chars s).
(* src: fleet_kernel/eval_plane/target_fingerprint.py _SHA256 *)
Definition SHA256 : string -> bool := hex64.

(* src: fleet_kernel/eval_plane/target_fingerprint.py _digest *)
Definition digest_ (value : json) (field_name : string) (pattern : string -> bool) : res string :=
  let! text := text_ value field_name in
  require pattern text else EvalTargetFingerprintError, (field_name +:+ " is not an exact digest") ;;
  Ok text.

(* src: fleet_kernel/eval_plane/target_fingerprint.py _optional_digest *)
Definition optional_digest (value : json) (field_name : string) (pattern : string -> bool) : res json :=
  match value with
  | JNull => Ok JNull
  | _ => let! d := digest_ value field_name pattern in Ok (JStr d)
  end.
(** [None if value is None else _text(value, ...)]. *)
Definition optional_text (value : option string) (field_name : string) : res json :=
  match value with
  | None => Ok JNull
  | Some s => let! t := text_ (JStr s) field_name in Ok (JStr t)
  end.

(* src: fleet_kernel/eval_plane/target_fingerprint.py _compact *)
Definition compact_ (payload : dict) : dict :=
  List.filter (fun kv => match kv.2 with JNull => false | _ => true end) payload.

(** [{f(key): g(key, value) for key, value in items}]: a later value replaces
    an earlier one of the same key. *)
Fixpoint comprehend {A B} (f : string * A -> res (string * B)) (items : list (string * A)) (acc : list (string * B))
    : res (list (string * B)) :=
  match items with
  | [] => Ok acc
  | kv :: rest => let! (k, v) := f kv in comprehend f rest (dict_put k v acc)
  end.
(** [dict(sorted(d.items()))], the keys being distinct. *)
Definition sorted_items {A} (d : list (string * A)) : list (string * A) := sort_pairs d.
(** [sorted(payloads, key=lambda p: p[key])]. *)
Definition sorted_by (key : string) (l : list dict) : list dict :=
  map snd (sort_pairs (map (fun d => (py_str (get d key), d)) l)).

Section fingerprint.
  Context `{Digest}.

(** [json.dumps(..., sort_keys=True, separators=(",", ":"), ensure_ascii=False).encode("utf-8")]. *)
(* src: fleet_kernel/identity.py _canonical_json_bytes *)
Definition canonical_json_bytes (value : json) : res bytes :=
  require ints_ok value else ValueError, "Exceeds the limit (4300 digits) for integer string conversion" ;;
  let! s := dump_bytes (sort_keys value) in Ok (chars s).
(* src: fleet_kernel/eval_plane/target_fingerprint.py sha256_bytes *)
Definition sha256_bytes (data : bytes) : string := digest (of_chars data).
(* src: fleet_kernel/eval_plane/target_fingerprint.py sha256_canonical *)
Definition sha256_canonical (value : json) : res string :=
  let! b := canonical_json_bytes value in Ok (sha256_bytes b).

(** ** The parts of a target *)

(** The fields of a code identity may come from a package manifest: any value. *)
(* src: fleet_kernel/eval_plane/target_fingerprint.py CodeIdentity *)
Record CodeIdentity := Code {
  source_commit_sha : json; source_tree_sha : json; kernel_release_sha256 : json;
  package_sha256 : json; agent_release_sha256 : json }.

(* src: fleet_kernel/eval_plane/target_fingerprint.py CodeIdentity.canonical_payload *)
Definition code_payload (self : CodeIdentity) : res dict :=
  let! commit := digest_ (source_commit_sha self) "source_commit_sha" GIT_SHA in
  let! tree := digest_ (source_tree_sha self) "source_tree_sha" GIT_SHA in
  let! kernel := optional_digest (kernel_release_sha256 self) "kernel_release_sha256" SHA256 in
  let! package := optional_digest (package_sha256 self) "package_sha256" SHA256 in
  let! agent := optional_digest (agent_release_sha256 self) "agent_release_sha256" SHA256 in
  Ok (compact_ [("source_commit_sha", JStr commit); ("source_tree_sha", JStr tree); ("kernel_release_sha256", kernel);
                ("package_sha256", package); ("agent_release_sha256", agent)]).

(* src: fleet_kernel/eval_plane/target_fingerprint.py ModelRoute *)
Record ModelRoute := Route { provider : string; model_id : string; sampling : dict; effort_level : option string }.

(* src: fleet_kernel/eval_plane/target_fingerprint.py ModelRoute.canonical_payload *)
Definition model_payload (self : ModelRoute) : res dict :=
  let! sampling := comprehend (fun kv => let! k := text_ (JStr kv.1) "sampling parameter name" in Ok (k, kv.2))
                     (compact_ (sampling self)) [] in
  let! provider := text_ (JStr (provider self)) "model provider" in
  let! model_id := text_ (JStr (model_id self)) "model id" in
  let! effort_level := optional_text (effort_level self) "effort level" in
  Ok (compact_ [("provider", JStr provider); ("model_id", JStr model_id); ("sampling", JObj (sorted_items sampling));
                ("effort_level", effort_level)]).

(* src: fleet_kernel/eval_plane/target_fingerprint.py SkillRecord *)
Record SkillRecord := Skill { s_path : string; s_content_sha256 : string; s_name : option string; s_description : option string }.

(* src: fleet_kernel/eval_plane/target_fingerprint.py SkillRecord.canonical_payload *)
Definition skill_payload (self : SkillRecord) : res dict :=
  let! path := text_ (JStr (s_path self)) "skill path" in
  let! sha := digest_ (JStr (s_content_sha256 self)) "skill content_sha256" SHA256 in
  let! name := optional_text (s_name self) "skill name" in
  let! description := optional_text (s_description self) "skill description" in
  Ok (compact_ [("path", JStr path); ("content_sha256", JStr sha); ("name", name); ("description", description)]).

(* src: fleet_kernel/eval_plane/target_fingerprint.py ToolDefinition *)
Record ToolDefinition := Tool {
  td_name : string; td_description : string; td_input_schema_sha256 : string; td_permission : option string }.

(* src: fleet_kernel/eval_plane/target_fingerprint.py ToolDefinition.canonical_payload *)
Definition tool_payload (self : ToolDefinition) : res dict :=
  let! name := text_ (JStr (td_name self)) "tool name" in
  let! description := text_ (JStr (td_description self)) "tool description" in
  let! sha := digest_ (JStr (td_input_schema_sha256 self)) "tool input_schema_sha256" SHA256 in
  let! permission := optional_text (td_permission self) "tool permission" in
  Ok (compact_ [("name", JStr name); ("description", JStr description); ("input_schema_sha256", JStr sha);
                ("permission", permission)]).

(** [None] or a digest given as text. *)
Definition opt_json (o : option string) : json := match o with Some s => JStr s | None => JNull end.

(* src: fleet_kernel/eval_plane/target_fingerprint.py ToolSurface *)
Record ToolSurface := Surface {
  tools_ : list ToolDefinition; workspace_binding_sha256 : option string; mcp_config_sha256 : option string }.

(** [[payload[key] for payload in payloads]], whose values are texts. *)
Definition column (key : string) (payloads : list dict) : list string := map (fun d => py_str (get d key)) payloads.

(* src: fleet_kernel/eval_plane/target_fingerprint.py ToolSurface.canonical_payload *)
Definition surface_payload (self : ToolSurface) : res dict :=
  let! payloads := rmap tool_payload (tools_ self) in
  require bool_decide (NoDup (column "name" payloads))
    else EvalTargetFingerprintError, "tool surface names must be unique" ;;
  let! workspace := optional_digest (opt_json (workspace_binding_sha256 self)) "workspace_binding_sha256" SHA256 in
  let! mcp := optional_digest (opt_json (mcp_config_sha256 self)) "mcp_config_sha256" SHA256 in
  Ok (compact_ [("tools", JArr (map JObj (sorted_by "name" payloads))); ("workspace_binding_sha256", workspace);
                ("mcp_config_sha256", mcp)]).

(* src: fleet_kernel/eval_plane/target_fingerprint.py TenantPolicySnapshot *)
Record TenantPolicySnapshot := Policy { tp_tenant_id : string; tp_policy_sha256 : string; tp_manifest_sha256 : option string }.

(* src: fleet_kernel/eval_plane/target_fingerprint.py TenantPolicySnapshot.canonical_payload *)
Definition policy_payload (self : TenantPolicySnapshot) : res dict :=
  let! tenant := text_ (JStr (tp_tenant_id self)) "tenant_id" in
  let! policy := digest_ (JStr (tp_policy_sha256 self)) "policy_sha256" SHA256 in
  let! manifest := optional_digest (opt_json (tp_manifest_sha256 self)) "tenant manifest_sha256" SHA256 in
  Ok (compact_ [("tenant_id", JStr tenant); ("policy_sha256", JStr policy); ("manifest_sha256", manifest)]).

(* src: fleet_kernel/eval_plane/target_fingerprint.py RuntimeManifest *)
Record RuntimeManifest := Runtime {
  harness : string; harness_version : string; python_version : string; dependencies : list (string * string) }.

(** An object of texts. *)
Definition texts (d : list (string * string)) : json := JObj (map (fun kv => (kv.1, JStr kv.2)) d).

(* src: fleet_kernel/eval_plane/target_fingerprint.py RuntimeManifest.canonical_payload *)
Definition runtime_payload (self : RuntimeManifest) : res dict :=
  let! dependencies := comprehend (fun kv =>
      let! name := text_ (JStr kv.1) "dependency name" in
      let! version := text_ (JStr kv.2) (kv.1 +:+ " version") in Ok (name, version)) (dependencies self) [] in
  let! harness := text_ (JStr (harness self)) "harness" in
  let! harness_version := text_ (JStr (harness_version self)) "harness_version" in
  let! python_version := text_ (JStr (python_version self)) "python_version" in
  Ok [("harness", JStr harness); ("harness_version", JStr harness_version); ("python_version", JStr python_version);
      ("dependencies", texts (sorted_items dependencies))].

(* src: fleet_kernel/eval_plane/target_fingerprint.py SECTION_7C_REQUIRED_INPUTS *)
Definition SECTION_7C_REQUIRED_INPUTS : list string := ["instructions"; "skills"; "tools"].

(* src: fleet_kernel/eval_plane/target_fingerprint.py BehavioralInputExemption *)
Record BehavioralInputExemption := Exemption { absent_inputs : list string; reason : string; authorized_by : string }.

(** [sorted(set(names) - set(known))]. *)
Fixpoint distinct (l : list string) : list string :=
  match l with x :: r => if existsb (String.eqb x) r then distinct r else x :: distinct r | [] => [] end.
Definition beyond (names known : list string) : list string := sort_strs (distinct (without names known)).

(** The names of [canonical_payload()["absent_inputs"]], and the rest. *)
(* src: fleet_kernel/eval_plane/target_fingerprint.py BehavioralInputExemption.canonical_payload *)
Definition exemption_payload (self : BehavioralInputExemption) : res (list string * dict) :=
  let! names := rmap (fun n => text_ (JStr n) "exempted input name") (absent_inputs self) in
  raise_if bool_decide (names = []) with EvalTargetFingerprintError, "exemption declares no absent input" ;;
  require bool_decide (NoDup names) else EvalTargetFingerprintError, "exemption repeats an absent input" ;;
  let unknown := beyond names SECTION_7C_REQUIRED_INPUTS in
  require bool_decide (unknown = [])
    else EvalTargetFingerprintError, ("exemption names inputs that section 7(C) does not mandate: " +:+ PyStr.join "," unknown) ;;
  let! reason := text_ (JStr (reason self)) "exemption reason" in
  let! authorized_by := text_ (JStr (authorized_by self)) "exemption authorized_by" in
  Ok (sort_strs names,
      [("absent_inputs", JArr (map JStr (sort_strs names))); ("reason", JStr reason); ("authorized_by", JStr authorized_by)]).

(** ** The manifest *)

(* src: fleet_kernel/eval_plane/target_fingerprint.py EVAL_TARGET_MANIFEST_SCHEMA *)
Definition EVAL_TARGET_MANIFEST_SCHEMA : string := "mise.eval-target-manifest.v1".
(* src: fleet_kernel/eval_plane/target_fingerprint.py HASH_EXCLUDED_FIELDS *)
Definition HASH_EXCLUDED_FIELDS : list string := ["generated_at"; "generated_by"; "notes"].
(* src: fleet_kernel/eval_plane/target_fingerprint.py RESOLVER_MANIFEST_NOT_APPLICABLE *)
Definition RESOLVER_MANIFEST_NOT_APPLICABLE : dict := [
  ("status", JStr "not_applicable");
  ("reason", JStr ("No skill resolver, index, or routing registry exists in this repository. "
     +:+ "Skill selection is host-native description matching, so the skill and "
     +:+ "tool descriptions carried in this manifest are the behaviorally relevant "
     +:+ "inputs (Gate A packet section 7(C))."))].

(* src: fleet_kernel/eval_plane/target_fingerprint.py EvalTargetManifest@4-18 *)
Record EvalTargetManifest := Manifest {
  target_id : string; fleet_type : string; role_type : string;
  code_ : CodeIdentity; model : ModelRoute; runtime : RuntimeManifest;
  instructions : list (string * string);
  skills : list SkillRecord;
  surface : ToolSurface;
  tenant_policy : option TenantPolicySnapshot;
  behavioral_input_exemption : option BehavioralInputExemption;
  resolver_manifest : dict;
  generated_at : option datetime; generated_by : option string; notes : option string }.

Definition inputs_present (self : EvalTargetManifest) : list (string * bool) := [
  ("instructions", match instructions self with [] => false | _ => true end);
  ("skills", match skills self with [] => false | _ => true end);
  ("tools", match tools_ (surface self) with [] => false | _ => true end)].

(* src: fleet_kernel/eval_plane/target_fingerprint.py EvalTargetManifest.__post_init__ *)
Definition EvalTargetManifest_post_init (self : EvalTargetManifest) : res EvalTargetManifest :=
  let absent := map fst (List.filter (fun nb => negb nb.2) (inputs_present self)) in
  let! declared := match behavioral_input_exemption self with
                   | None => Ok []
                   | Some e => let! (names, _) := exemption_payload e in Ok names
                   end in
  require bool_decide (beyond absent declared = [])
    else EvalTargetFingerprintError, ("target manifest omits Gate A packet section 7(C) inputs with no declared exemption: "
      +:+ PyStr.join "," (beyond absent declared)) ;;
  require bool_decide (beyond declared absent = [])
    else EvalTargetFingerprintError, ("exemption claims inputs the manifest actually carries: "
      +:+ PyStr.join "," (beyond declared absent)) ;;
  Ok self.

(** [None if part is None else part.canonical_payload()]. *)
Definition optional_payload {A} (payload : A -> res dict) (part : option A) : res json :=
  match part with None => Ok JNull | Some a => let! d := payload a in Ok (JObj d) end.

Context `{IsoTime}.

(* src: fleet_kernel/eval_plane/target_fingerprint.py EvalTargetManifest._record *)
Definition record (self : EvalTargetManifest) : res dict :=
  let! instructions := comprehend (fun kv =>
      let! name := text_ (JStr kv.1) "instruction name" in
      let! d := digest_ (JStr kv.2) ("instruction digest for " +:+ kv.1) SHA256 in Ok (name, d)) (instructions self) [] in
  let! skills := rmap skill_payload (skills self) in
  require bool_decide (NoDup (column "path" skills))
    else EvalTargetFingerprintError, "skill bundle paths must be unique" ;;
  let! target_id := text_ (JStr (target_id self)) "target_id" in
  let! fleet_type := text_ (JStr (fleet_type self)) "fleet_type" in
  let! role_type := text_ (JStr (role_type self)) "role_type" in
  let! code := code_payload (code_ self) in
  let! model := model_payload (model self) in
  let! tools := surface_payload (surface self) in
  let! policy := optional_payload policy_payload (tenant_policy self) in
  let! runtime := runtime_payload (runtime self) in
  let! exemption := optional_payload (fun e => let! (_, d) := exemption_payload e in Ok d) (behavioral_input_exemption self) in
  Ok [("schema", JStr EVAL_TARGET_MANIFEST_SCHEMA);
      ("target_id", JStr target_id); ("fleet_type", JStr fleet_type); ("role_type", JStr role_type);
      ("code", JObj code); ("model", JObj model); ("instructions", texts (sorted_items instructions));
      ("skills", JArr (map JObj (sorted_by "path" skills))); ("resolver_manifest", JObj (resolver_manifest self));
      ("tools", JObj tools); ("tenant_policy", policy); ("runtime", JObj runtime);
      ("behavioral_input_exemption", exemption);
      ("generated_at", match generated_at self with Some t => JStr (isoformat t) | None => JNull end);
      ("generated_by", opt_json (generated_by self)); ("notes", opt_json (notes self))].

(* src: fleet_kernel/eval_plane/target_fingerprint.py EvalTargetManifest.canonical_payload *)
Definition manifest_payload (self : EvalTargetManifest) : res dict :=
  let! r := record self in
  Ok (List.filter (fun kv => negb (existsb (String.eqb kv.1) HASH_EXCLUDED_FIELDS)) r).

(* src: fleet_kernel/eval_plane/target_fingerprint.py EvalTargetManifest.fingerprint_sha256 *)
Definition fingerprint_sha256 (self : EvalTargetManifest) : res string :=
  let! payload := manifest_payload self in sha256_canonical (JObj payload).

(* src: fleet_kernel/eval_plane/target_fingerprint.py EvalTargetManifest.envelope *)
Definition envelope (self : EvalTargetManifest) : res dict :=
  let! r := record self in
  let! d := fingerprint_sha256 self in
  Ok (r ++ [("target_fingerprint_sha256", JStr d)]).

(* src: fleet_kernel/eval_plane/target_fingerprint.py tool_definition *)
Definition tool_definition (name description : string) (input_schema : json) (permission : option string) : res ToolDefinition :=
  let! sha := sha256_canonical input_schema in Ok (Tool name description sha permission).

(* src: fleet_kernel/eval_plane/target_fingerprint.py code_identity_from_package_manifest *)
Definition code_identity_from_package_manifest (manifest : dict) : res CodeIdentity :=
  let missing := sort_strs (without ["source_commit_sha"; "source_tree_sha"; "package_sha256"] manifest.*1) in
  require bool_decide (missing = [])
    else EvalTargetFingerprintError, ("package manifest omits code identity: " +:+ PyStr.join "," missing) ;;
  Ok (Code (get manifest "source_commit_sha") (get manifest "source_tree_sha") (get manifest "kernel_release_sha256")
        (get manifest "package_sha256") (get manifest "agent_release_sha256")).

(** ** Files *)

(** [bytes.decode("utf-8", errors="replace")], as code points. *)
Fixpoint decode_replace (l : bytes) : list N :=
  match l with
  | [] => []
  | b :: r =>
      let n := code b in
      if (n <? 128)%N then n :: decode_replace r
      else if within 194 223 b then
        match r with
        | [] => [65533%N]
        | c1 :: r1 => if within 128 191 c1 then ((n - 192) * 64 + low6 c1)%N :: decode_replace r1 else 65533%N :: decode_replace r
        end
      else if within 224 239 b then
        match r with
        | [] => [65533%N]
        | c1 :: r1 =>
            if within (if (n =? 224)%N then 160 else 128) (if (n =? 237)%N then 159 else 191) c1 then
              match r1 with
              | [] => [65533%N]
              | c2 :: r2 =>
                  if within 128 191 c2 then (((n - 224) * 64 + low6 c1) * 64 + low6 c2)%N :: decode_replace r2
                  else 65533%N :: decode_replace r1
              end
            else 65533%N :: decode_replace r
        end
      else if within 240 244 b then
        match r with
        | [] => [65533%N]
        | c1 :: r1 =>
            if within (if (n =? 240)%N then 144 else 128) (if (n =? 244)%N then 143 else 191) c1 then
              match r1 with
              | [] => [65533%N]
              | c2 :: r2 =>
                  if within 128 191 c2 then
                    match r2 with
                    | [] => [65533%N]
                    | c3 :: r3 =>
                        if within 128 191 c3
                        then ((((n - 240) * 64 + low6 c1) * 64 + low6 c2) * 64 + low6 c3)%N :: decode_replace r3
                        else 65533%N :: decode_replace r2
                    end
                  else 65533%N :: decode_replace r1
              end
            else 65533%N :: decode_replace r
        end
      else 65533%N :: decode_replace r
  end.

Definition utf8_text (l : list N) : string := of_chars (flat_map utf8_of l).
Definition points_of (s : string) : list N := map code (chars s).
(** What follows a prefix, and what follows [\r?\n]. *)
Fixpoint after (prefix l : list N) : option (list N) :=
  match prefix, l with
  | [], _ => Some l
  | x :: p, y :: r => if (x =? y)%N then after p r else None
  | _, [] => None
  end.
Definition after_newline (l : list N) : option (list N) :=
  match after [13; 10]%N l with Some r => Some r | None => after [10]%N l end.
Definition after_rule (l : list N) : option (list N) :=
  match after (points_of "---") l with Some r => after_newline r | None => None end.

(** [(.*?)\r?\n---\r?\n]: the shortest text before a closing rule. *)
Fixpoint until_rule (l : list N) : option (list N) :=
  match match after_newline l with Some r => after_rule r | None => None end with
  | Some _ => Some []
  | None => match l with c :: r => cons c <$> until_rule r | [] => None end
  end.
(* src: fleet_kernel/eval_plane/target_fingerprint.py _FRONTMATTER *)
Definition FRONTMATTER (l : list N) : option (list N) :=
  match after_rule l with Some r => until_rule r | None => None end.

(** [\s*$] in multi-line mode: what is left after the longest such match. *)
Fixpoint line_rest (t : list N) : option (list N) :=
  match t with
  | [] => Some []
  | c :: r =>
      let longer := if space_point c then line_rest r else None in
      match longer with Some x => Some x | None => if (c =? 10)%N then Some t else None end
  end.
(** [(.+?)\s*$]: the text and what is left. *)
Fixpoint lazy_value (l : list N) : option (list N * list N) :=
  match l with
  | [] => None
  | c :: r =>
      if (c =? 10)%N then None else
      match line_rest r with
      | Some rest => Some ([c], rest)
      | None => match lazy_value r with Some (v, rest) => Some (c :: v, rest) | None => None end
      end
  end.
(** [\s*(.+?)\s*$]: when only space is left, it gives back its last character
    that is no newline. *)
Definition spaced_value (l : list N) : option (list N * list N) :=
  match lstrip_points l with
  | [] => match List.filter (fun c => negb (c =? 10)%N) (rev l) with c :: _ => Some ([c], []) | [] => None end
  | rest => lazy_value rest
  end.
(* src: fleet_kernel/eval_plane/target_fingerprint.py _FRONTMATTER_FIELD *)
Definition FRONTMATTER_FIELD (l : list N) : option (string * list N * list N) :=
  let field name := match after (points_of (name +:+ ":")) l with
                    | Some r => (fun '(v, rest) => (name, v, rest)) <$> spaced_value r
                    | None => None
                    end in
  match field "name" with Some m => Some m | None => field "description" end.

(** [finditer]: [start] says whether a line begins here. *)
Fixpoint frontmatter_fields (fuel : nat) (start : bool) (l : list N) : list (string * list N) :=
  match fuel, l with
  | O, _ | _, [] => []
  | S f, c :: r =>
      match (if start then FRONTMATTER_FIELD l else None) with
      | Some (name, v, rest) =>
          let eaten := take (List.length l - List.length rest) l in
          (name, v) :: frontmatter_fields f (List.last eaten 0 =? 10)%N rest
      | None => frontmatter_fields f (c =? 10)%N r
      end
  end.

Fixpoint lstrip_quotes (l : list N) : list N :=
  match l with n :: r => if (n =? 39)%N || (n =? 34)%N then lstrip_quotes r else l | [] => [] end.
Definition strip_quotes (l : list N) : list N := rev (lstrip_quotes (rev (lstrip_quotes l))).

Section files.
  (** The host, and the repository on it. *)
  Variables (v : volume) (repo : path).

(** [(repo / relative).resolve()] when [is_file()]: its bytes. *)
Definition file_bytes (relative : string) : res (option bytes) :=
  let! source := realpath link_steps v [] [] (joined repo relative) in
  match stat v source with
  | Some (_, Inode (Reg b) mode mine) =>
      require negb mine || Z.testbit mode 8 else PermissionError, "Permission denied" ;; Ok (Some b)
  | _ => Ok None
  end.

(* src: fleet_kernel/eval_plane/target_fingerprint.py skill_record *)
Definition skill_record (relative_path : string) : res SkillRecord :=
  let! source := file_bytes relative_path in
  match source with
  | None => unfit ("skill file is absent: " +:+ relative_path)
  | Some raw =>
      let fields := match FRONTMATTER (decode_replace raw) with
                    | Some header =>
                        fold_left (fun acc '(name, v) => dict_put name (utf8_text (strip_quotes (strip_points v))) acc)
                          (frontmatter_fields (List.length header) true header) []
                    | None => []
                    end in
      Ok (Skill (posix relative_path) (sha256_bytes raw) (dict_get "name" fields) (dict_get "description" fields))
  end.

(** [base.rglob("SKILL.md")]: no link to a directory is followed below it. *)
Definition rglob (base : path) (name : string) : list path :=
  List.filter (fun p => bool_decide (take (List.length base) p = base) && bool_decide (List.length base < List.length p)%nat
                        && (List.last p "" =? name)%string) (map_to_list (v_names v)).*1.

(** The names below one root, [relative_to(repo)]. *)
Definition skills_below (root : string) : res (list string) :=
  match realpath link_steps v [] [] (joined repo root) with
  | Err _ => Ok []
  | Ok base =>
      if is_dir v base
      then Ok (map (fun p => PyStr.join "/" (path_parts root ++ drop (List.length base) p)) (rglob base "SKILL.md"))
      else Ok []
  end.
(* src: fleet_kernel/eval_plane/target_fingerprint.py skill_bundle *)
Definition skill_bundle (roots : list string) : res (list SkillRecord) :=
  let! found := rmap skills_below roots in
  let! records := comprehend (fun kv => let! r := skill_record kv.1 in Ok (kv.1, r))
                    (map (fun relative => (relative, tt)) (List.concat found)) [] in
  Ok (map snd (sort_pairs records)).

(* src: fleet_kernel/eval_plane/target_fingerprint.py instruction_digests *)
Definition instruction_digests (paths : list (string * string)) : res (list (string * string)) :=
  comprehend (fun '(name, relative) =>
    let! source := file_bytes relative in
    match source with
    | None => unfit ("instruction file is absent: " +:+ relative)
    | Some raw => Ok (name, sha256_bytes raw)
    end) paths [].
End files.
End fingerprint.

(** ** What a fingerprint depends on

    Fields are compared as the code reads them: surrounding space stripped, and
    of two entries of a mapping whose names strip to the same the later one. *)
Definition keyed {A} (l : list (string * A)) : list (string * A) := fold_left (fun acc kv => dict_put kv.1 kv.2 acc) l [].
Definition value_text (v : json) : string := strip_u (py_str (py_or (Some v) (JStr ""))).
Definition digest_text (v : json) : option string := match v with JNull => None | _ => Some (value_text v) end.

Definition same_entries {A} (l l' : list (string * A)) : Prop := forall k, dict_get k (keyed l) = dict_get k (keyed l').
Definition stripped (l : list (string * string)) : list (string * string) := map (fun kv => (strip_u kv.1, strip_u kv.2)) l.

Definition code_norm (c : CodeIdentity) : string * string * option string * option string * option string :=
  (value_text (source_commit_sha c), value_text (source_tree_sha c), digest_text (kernel_release_sha256 c),
   digest_text (package_sha256 c), digest_text (agent_release_sha256 c)).
Definition skill_norm (s : SkillRecord) : SkillRecord :=
  Skill (strip_u (s_path s)) (strip_u (s_content_sha256 s)) (strip_u <$> s_name s) (strip_u <$> s_description s).
Definition tool_norm (t : ToolDefinition) : ToolDefinition :=
  Tool (strip_u (td_name t)) (strip_u (td_description t)) (strip_u (td_input_schema_sha256 t)) (strip_u <$> td_permission t).
Definition policy_norm (p : TenantPolicySnapshot) : TenantPolicySnapshot :=
  Policy (strip_u (tp_tenant_id p)) (strip_u (tp_policy_sha256 p)) (strip_u <$> tp_manifest_sha256 p).

(** Two values the encoder spells alike; a number is compared by its spelling. *)
Notation json_text := (text_of (C := bytes_codec)).
Definition same_model (m m' : ModelRoute) : Prop :=
  strip_u (provider m) = strip_u (provider m') /\ strip_u (model_id m) = strip_u (model_id m')
  /\ (strip_u <$> effort_level m) = (strip_u <$> effort_level m')
  /\ same_entries (map (fun kv => (strip_u kv.1, json_text kv.2)) (compact_ (sampling m)))
                  (map (fun kv => (strip_u kv.1, json_text kv.2)) (compact_ (sampling m'))).
Definition same_surface (s s' : ToolSurface) : Prop :=
  map tool_norm (tools_ s) ≡ₚ map tool_norm (tools_ s')
  /\ (strip_u <$> workspace_binding_sha256 s) = (strip_u <$> workspace_binding_sha256 s')
  /\ (strip_u <$> mcp_config_sha256 s) = (strip_u <$> mcp_config_sha256 s').
Definition same_runtime (r r' : RuntimeManifest) : Prop :=
  strip_u (harness r) = strip_u (harness r') /\ strip_u (harness_version r) = strip_u (harness_version r')
  /\ strip_u (python_version r) = strip_u (python_version r')
  /\ same_entries (stripped (dependencies r)) (stripped (dependencies r')).
Definition same_exemption (e e' : option BehavioralInputExemption) : Prop :=
  match e, e' with
  | None, None => True
  | Some e, Some e' => map strip_u (absent_inputs e) ≡ₚ map strip_u (absent_inputs e')
      /\ strip_u (reason e) = strip_u (reason e') /\ strip_u (authorized_by e) = strip_u (authorized_by e')
  | _, _ => False
  end.

(** The same system under evaluation: everything but the bookkeeping. *)
Record same_target (m m' : EvalTargetManifest) : Prop := {
  st_ids : strip_u (target_id m) = strip_u (target_id m') /\ strip_u (fleet_type m) = strip_u (fleet_type m')
           /\ strip_u (role_type m) = strip_u (role_type m');
  st_code : code_norm (code_ m) = code_norm (code_ m');
  st_model : same_model (model m) (model m');
  st_instructions : same_entries (stripped (instructions m)) (stripped (instructions m'));
  st_skills : map skill_norm (skills m) ≡ₚ map skill_norm (skills m');
  st_resolver : json_text (JObj (resolver_manifest m)) = json_text (JObj (resolver_manifest m'));
  st_tools : same_surface (surface m) (surface m');
  st_policy : (policy_norm <$> tenant_policy m) = (policy_norm <$> tenant_policy m');
  st_runtime : same_runtime (runtime m) (runtime m');
  st_exemption : same_exemption (behavioral_input_exemption m) (behavioral_input_exemption m');
}.

(** *** Texts *)

Lemma cons_iff {A} (x y : A) l l' : x :: l = y :: l' <-> x = y /\ l = l'.
Proof. split; [by intros [= -> ->]|by intros [-> ->]]. Qed.
Lemma str_text s s' : json_text (JStr s) = json_text (JStr s') <-> s = s'.
Proof. split; [apply string_part|by intros ->]. Qed.
(** The values of records. *)
Definition solid (j : json) : bool := match j with JNull | JStr _ | JArr _ | JObj _ => true | _ => false end.
Lemma null_text j : solid j = true -> json_text JNull = json_text j -> j = JNull.
Proof. by destruct j. Qed.
Lemma opt_text o o' : json_text (opt_json o) = json_text (opt_json o') <-> o = o'.
Proof.
  destruct o as [s|], o' as [s'|]; cbn [opt_json]; [rewrite str_text; naive_solver| | |done];
    (split; [|done]); [intros E; symmetry in E|intros E]; by apply null_text in E.
Qed.

Lemma compact_get k (d : dict) : NoDup d.*1 ->
  dict_get k (compact_ d) = match dict_get k d with Some JNull => None | o => o end.
Proof.
  induction d as [|[k' v] d IH]; [done|]. intros [Nk N]%NoDup_cons. unfold compact_ in *. cbn [List.filter snd dict_get].
  assert (k = k' -> dict_get k d = None) as Kn.
  { intros ->. destruct (dict_get k' d) as [x|] eqn:E; [|done]. apply (dict_get_elem d k' x N) in E. destruct Nk.
    apply list_elem_of_fmap. by exists (k', x). }
  destruct (String.eqb_spec k k') as [E|Ne].
  - destruct v; cbn [dict_get]; rewrite ?IH, ?(Kn E) by done; subst; by rewrite ?String.eqb_refl.
  - apply String.eqb_neq in Ne. destruct v; cbn [dict_get]; rewrite ?Ne; by apply IH.
Qed.
Lemma compact_keys (d : dict) : NoDup d.*1 -> NoDup (compact_ d).*1.
Proof.
  induction d as [|[k v] d IH]; [done|]. intros [Nk N]%NoDup_cons. unfold compact_ in *. cbn [List.filter snd].
  assert (k ∉ (List.filter (fun kv => match kv.2 with JNull => false | _ => true end) d).*1) as K.
  { intros (kv & E & Hk)%list_elem_of_fmap. apply Nk, list_elem_of_fmap. exists kv. split; [done|].
    apply list_elem_of_In, filter_In in Hk as [Hk _]. by apply list_elem_of_In. }
  destruct v; try (apply NoDup_cons; split; [exact K|]); by apply IH.
Qed.
Lemma compact_text (a b : dict) : a.*1 = b.*1 -> NoDup a.*1 ->
  forallb (fun kv => solid kv.2) a = true -> forallb (fun kv => solid kv.2) b = true ->
  json_text (JObj (compact_ a)) = json_text (JObj (compact_ b)) <-> map (fun kv => json_text kv.2) a = map (fun kv => json_text kv.2) b.
Proof.
  intros E N Sa Sb. assert (NoDup b.*1) as N' by by rewrite <- E.
  rewrite object_text by by apply compact_keys. rewrite <- (same_lookups json_text a b E N).
  assert (forall (d : dict) k j, forallb (fun kv => solid kv.2) d = true -> dict_get k d = Some j -> solid j = true) as So.
  { intros d k j. induction d as [|[k' v] d IH]; [done|]. cbn. intros [S1 S2]%andb_true_iff. destruct (k =? k')%string; [by intros [= <-]|by apply IH]. }
  split; intros H k; specialize (H k); rewrite ?compact_get in * by done.
  - destruct (dict_get k a) as [x|] eqn:Ea, (dict_get k b) as [y|] eqn:Eb; try done.
    + apply (So a k x Sa) in Ea. apply (So b k y Sb) in Eb. by destruct x, y.
    + exfalso. assert (k ∈ a.*1) as K by (apply list_elem_of_fmap; exists (k, x); split; [done|]; by apply dict_get_elem).
      rewrite E in K. apply list_elem_of_fmap in K as ([k' y] & -> & K). apply dict_get_elem in K; [|done]. cbn in Eb. congruence.
    + exfalso. assert (k ∈ b.*1) as K by (apply list_elem_of_fmap; exists (k, y); split; [done|]; by apply dict_get_elem).
      rewrite <- E in K. apply list_elem_of_fmap in K as ([k' x] & -> & K). apply dict_get_elem in K; [|done]. cbn in Ea. congruence.
  - destruct (dict_get k a) as [x|] eqn:Ea, (dict_get k b) as [y|] eqn:Eb; try done.
    apply (So a k x Sa) in Ea. apply (So b k y Sb) in Eb. cbn in H. injection H as H.
    destruct x; try done; destruct y; try done; exact (f_equal Some H).
Qed.

(** *** Mappings *)

Lemma dict_put_distinct {A} k (v : A) d : NoDup d.*1 -> NoDup (dict_put k v d).*1 /\ forall x, x ∈ (dict_put k v d).*1 <-> x = k \/ x ∈ d.*1.
Proof.
  induction d as [|[k' v'] d IH]; cbn [dict_put].
  - intros _. split; [apply NoDup_singleton|]. intros x. cbn. rewrite list_elem_of_singleton, elem_of_nil. tauto.
  - intros [Nk N]%NoDup_cons. destruct (IH N) as [IN IE]. destruct (String.eqb_spec k k') as [->|Ne]; cbn.
    + split; [by apply NoDup_cons|]. intros x. rewrite elem_of_cons. tauto.
    + split; [apply NoDup_cons; split; [|done]; rewrite IE; intros [->|]; done|]. intros x. rewrite !elem_of_cons, IE. tauto.
Qed.
Lemma keyed_keys {A} (l : list (string * A)) : NoDup (keyed l).*1.
Proof.
  unfold keyed. assert (forall acc : list (string * A), NoDup acc.*1 -> NoDup (fold_left (fun acc kv => dict_put kv.1 kv.2 acc) l acc).*1) as A1;
    [|apply A1; constructor]. induction l as [|[k v] l IH]; intros acc N; [done|]. cbn. apply IH. by apply dict_put_distinct.
Qed.
Lemma comprehend_ok {A B} (f : string * A -> res (string * B)) g items acc r :
  (forall kv x, f kv = Ok x -> x = g kv) -> comprehend f items acc = Ok r ->
  r = fold_left (fun acc kv => dict_put kv.1 kv.2 acc) (map g items) acc.
Proof.
  intros F. revert acc. induction items as [|kv items IH]; intros acc; cbn [comprehend map fold_left]; [by intros [= ->]|].
  intros ([k v] & E & R)%rbind_ok. apply F in E. apply IH in R. by rewrite <- E.
Qed.
Lemma dict_put_map {A B} (f : A -> B) k v (d : list (string * A)) :
  dict_put k (f v) (map (fun kv => (kv.1, f kv.2)) d) = map (fun kv => (kv.1, f kv.2)) (dict_put k v d).
Proof. induction d as [|[k' v'] d IH]; [done|]. cbn. destruct (k =? k')%string; [done|]. cbn. by rewrite IH. Qed.
Lemma keyed_map {A B} (f : A -> B) (l : list (string * A)) :
  keyed (map (fun kv => (kv.1, f kv.2)) l) = map (fun kv => (kv.1, f kv.2)) (keyed l).
Proof.
  assert (forall acc, fold_left (fun acc kv => dict_put kv.1 kv.2 acc) (map (fun kv => (kv.1, f kv.2)) l) (map (fun kv => (kv.1, f kv.2)) acc)
            = map (fun kv => (kv.1, f kv.2)) (fold_left (fun acc kv => dict_put kv.1 kv.2 acc) l acc)) as E; [|exact (E [])].
  induction l as [|[k v] l IH]; intros acc; [done|]. cbn [map fold_left fst snd]. by rewrite dict_put_map, IH.
Qed.

(** An object whose items were sorted is the object. *)
Lemma sorted_object (a b : dict) : NoDup a.*1 -> NoDup b.*1 ->
  json_text (JObj (sorted_items a)) = json_text (JObj (sorted_items b)) <-> forall k, json_text <$> dict_get k a = json_text <$> dict_get k b.
Proof.
  assert (forall l : dict, NoDup l.*1 -> NoDup (sorted_items l).*1) as S.
  { intros l N. unfold sorted_items. by rewrite sort_pairs_permutation. }
  assert (forall (l : dict) k, NoDup l.*1 -> dict_get k (sorted_items l) = dict_get k l) as G.
  { intros l k N. symmetry. apply dict_get_perm; [done|]. symmetry. apply sort_pairs_permutation. }
  intros Na Nb. rewrite object_text by by apply S. split; intros H k; specialize (H k); by rewrite ?G in * by done.
Qed.
Lemma sorted_texts (a b : list (string * string)) : NoDup a.*1 -> NoDup b.*1 ->
  json_text (texts (sorted_items a)) = json_text (texts (sorted_items b)) <-> forall k, dict_get k a = dict_get k b.
Proof.
  intros Na Nb. unfold texts, sorted_items. rewrite <- !(sort_pairs_map JStr).
  rewrite (sorted_object (map (fun kv => (kv.1, JStr kv.2)) a) (map (fun kv => (kv.1, JStr kv.2)) b)) by by rewrite <- list_fmap_compose.
  split; intros H k; specialize (H k); rewrite !dict_get_map in *; [|by rewrite H].
  destruct (dict_get k a), (dict_get k b); try done.
  cbn [fmap option_fmap option_map] in H. apply (inj Some) in H. by apply string_part in H as ->.
Qed.

(** *** Lists sorted by a column *)

Lemma map_perm_inj {A B} (f : A -> B) l l' : (forall a b, f a = f b -> a = b) -> map f l ≡ₚ map f l' -> l ≡ₚ l'.
Proof.
  intros I P. apply Permutation_map_inv in P as (l3 & E & P). assert (Inj (=) (=) f) as J by exact I.
  apply (inj (fmap f)) in E as ->. by symmetry.
Qed.

(** Records that are told apart by their texts, in the order of a column all of
    whose entries differ. *)
Lemma sorted_column {N} (fields : N -> dict) (key : string) (l l' : list N) :
  (forall a b, json_text (JObj (fields a)) = json_text (JObj (fields b)) <-> a = b) ->
  NoDup (column key (map fields l)) ->
  json_text (JArr (map JObj (sorted_by key (map fields l)))) = json_text (JArr (map JObj (sorted_by key (map fields l')))) <-> l ≡ₚ l'.
Proof.
  intros I U. set (text n := json_text (JObj (fields n))).
  assert (forall m, map json_text (map JObj (sorted_by key (map fields m))) ≡ₚ map text m) as P.
  { intros m. unfold sorted_by. rewrite map_map, sort_pairs_permutation, !map_map. done. }
  rewrite array_text. split.
  - intros E. apply (map_perm_inj text); [intros a b; by apply I|]. by rewrite <- !P, E.
  - intros E. f_equal. f_equal. unfold sorted_by. f_equal. apply sort_pairs_perm; [by rewrite E|].
    assert (forall m : list dict, (map (fun d => (py_str (get d key), d)) m).*1 = column key m) as K; [|by rewrite K].
    intros m. unfold column. induction m as [|d m IH]; [done|]. cbn. by f_equal.
Qed.

(** *** The parts *)

Lemma text_ok v f t : text_ v f = Ok t -> t = value_text v.
Proof. unfold text_. guards. by intros [_ [= <-]]. Qed.
Lemma value_text_str s : value_text (JStr s) = strip_u s.
Proof. unfold value_text, py_or. cbn [py_bool]. by destruct s. Qed.
Lemma digest_field_ok v f p t : digest_ v f p = Ok t -> t = value_text v.
Proof. unfold digest_. intros (x & E%text_ok & R)%rbind_ok. guards in R. by destruct R as [_ [= <-]]. Qed.
Lemma optional_digest_ok v f p j : optional_digest v f p = Ok j -> j = opt_json (digest_text v).
Proof. unfold optional_digest, digest_text. destruct v; [by intros [= <-]|..]; intros (y & ->%digest_field_ok & [= <-])%rbind_ok; done. Qed.
Lemma digest_text_opt o : digest_text (opt_json o) = strip_u <$> o.
Proof. destruct o as [s|]; [|done]. cbn [opt_json digest_text]. by rewrite value_text_str. Qed.
Lemma optional_text_ok o f j : optional_text o f = Ok j -> j = opt_json (strip_u <$> o).
Proof. destruct o as [s|]; cbn; [|by intros [= <-]]. intros (x & ->%text_ok & [= <-])%rbind_ok. by rewrite value_text_str. Qed.
Lemma text_str_ok s f t : text_ (JStr s) f = Ok t -> t = strip_u s.
Proof. intros ->%text_ok. apply value_text_str. Qed.
Lemma digest_str_ok s f p t : digest_ (JStr s) f p = Ok t -> t = strip_u s.
Proof. intros ->%digest_field_ok. apply value_text_str. Qed.

(** [reads] takes a payload apart, field by field. *)
Ltac reads H :=
  repeat match type of H with
  | rbind _ _ = Ok _ => let x := fresh "x" in let E := fresh "E" in apply rbind_ok in H as (x & E & H);
      first [apply text_str_ok in E | apply digest_str_ok in E | apply digest_field_ok in E | apply text_ok in E
            | apply optional_text_ok in E | apply optional_digest_ok in E | idtac]; try subst x
  end.

Definition code_fields (n : string * string * option string * option string * option string) : dict :=
  let '(commit, tree, kernel, package, agent) := n in
  compact_ [("source_commit_sha", JStr commit); ("source_tree_sha", JStr tree); ("kernel_release_sha256", opt_json kernel);
            ("package_sha256", opt_json package); ("agent_release_sha256", opt_json agent)].
Definition skill_fields (s : SkillRecord) : dict :=
  compact_ [("path", JStr (s_path s)); ("content_sha256", JStr (s_content_sha256 s)); ("name", opt_json (s_name s));
            ("description", opt_json (s_description s))].
Definition tool_fields (t : ToolDefinition) : dict :=
  compact_ [("name", JStr (td_name t)); ("description", JStr (td_description t)); ("input_schema_sha256", JStr (td_input_schema_sha256 t));
            ("permission", opt_json (td_permission t))].
Definition policy_fields (p : TenantPolicySnapshot) : dict :=
  compact_ [("tenant_id", JStr (tp_tenant_id p)); ("policy_sha256", JStr (tp_policy_sha256 p)); ("manifest_sha256", opt_json (tp_manifest_sha256 p))].

Lemma code_payload_ok c p : code_payload c = Ok p -> p = code_fields (code_norm c).
Proof. unfold code_payload. intros E. reads E. by injection E as <-. Qed.
Lemma skill_payload_ok s p : skill_payload s = Ok p -> p = skill_fields (skill_norm s).
Proof. unfold skill_payload. intros E. reads E. by injection E as <-. Qed.
Lemma tool_payload_ok t p : tool_payload t = Ok p -> p = tool_fields (tool_norm t).
Proof. unfold tool_payload. intros E. reads E. by injection E as <-. Qed.
Lemma policy_payload_ok t p : policy_payload t = Ok p -> p = policy_fields (policy_norm t).
Proof. unfold policy_payload. intros E. reads E. injection E as <-. by rewrite digest_text_opt. Qed.

Lemma opt_solid o : solid (opt_json o) = true.
Proof. by destruct o. Qed.
(** Records of texts that may be absent. *)
Ltac record_texts :=
  rewrite compact_text; [|done|apply (bool_decide_unpack _); by vm_compute|by cbn [forallb snd solid]; rewrite ?opt_solid..];
  cbn [map snd]; rewrite !cons_iff, ?str_text, ?opt_text.

Lemma code_text c c' : json_text (JObj (code_fields c)) = json_text (JObj (code_fields c')) <-> c = c'.
Proof. destruct c as [[[[a b] c] d] e], c' as [[[[a' b'] c'] d'] e']. cbn [code_fields]. record_texts. naive_solver. Qed.
Lemma skill_text s s' : json_text (JObj (skill_fields s)) = json_text (JObj (skill_fields s')) <-> s = s'.
Proof. unfold skill_fields. record_texts. destruct s, s'; cbn. naive_solver. Qed.
Lemma tool_text s s' : json_text (JObj (tool_fields s)) = json_text (JObj (tool_fields s')) <-> s = s'.
Proof. unfold tool_fields. record_texts. destruct s, s'; cbn. naive_solver. Qed.
Lemma policy_text s s' : json_text (JObj (policy_fields s)) = json_text (JObj (policy_fields s')) <-> s = s'.
Proof. unfold policy_fields. record_texts. destruct s, s'; cbn. naive_solver. Qed.

Definition sampling_norm (m : ModelRoute) : dict := keyed (map (fun kv => (strip_u kv.1, kv.2)) (compact_ (sampling m))).
Lemma model_payload_ok m p : model_payload m = Ok p ->
  p = compact_ [("provider", JStr (strip_u (provider m))); ("model_id", JStr (strip_u (model_id m)));
                ("sampling", JObj (sorted_items (sampling_norm m))); ("effort_level", opt_json (strip_u <$> effort_level m))].
Proof.
  unfold model_payload. intros (s & Es & E)%rbind_ok. reads E. injection E as <-.
  apply (comprehend_ok _ (fun kv => (strip_u kv.1, kv.2))) in Es as ->; [done|].
  intros kv x (k & ->%text_str_ok & [= <-])%rbind_ok. done.
Qed.
Lemma same_entries_text (l l' : dict) (g : string -> string) :
  same_entries (map (fun kv => (g kv.1, json_text kv.2)) l) (map (fun kv => (g kv.1, json_text kv.2)) l')
  <-> forall k, json_text <$> dict_get k (keyed (map (fun kv => (g kv.1, kv.2)) l)) = json_text <$> dict_get k (keyed (map (fun kv => (g kv.1, kv.2)) l')).
Proof.
  unfold same_entries.
  assert (forall l : dict, keyed (map (fun kv => (g kv.1, json_text kv.2)) l)
            = map (fun kv => (kv.1, json_text kv.2)) (keyed (map (fun kv => (g kv.1, kv.2)) l))) as K.
  { intros m. rewrite <- keyed_map, map_map. done. }
  split; intros E k; specialize (E k); by rewrite !K, !dict_get_map in * || rewrite !K, !dict_get_map.
Qed.
Lemma model_text m m' p p' : model_payload m = Ok p -> model_payload m' = Ok p' ->
  json_text (JObj p) = json_text (JObj p') <-> same_model m m'.
Proof.
  intros ->%model_payload_ok ->%model_payload_ok. record_texts. unfold same_model.
  rewrite same_entries_text, sorted_object by apply keyed_keys. naive_solver.
Qed.

Lemma rmap_fields {A} (payload : A -> res dict) (fields : A -> dict) l ps :
  (forall a p, payload a = Ok p -> p = fields a) -> rmap payload l = Ok ps -> ps = map fields l.
Proof.
  intros F. revert ps. induction l as [|a l IH]; intros ps; cbn [rmap map]; [by intros [= <-]|].
  intros (p & ->%F & (q & ->%IH & [= <-])%rbind_ok)%rbind_ok. done.
Qed.

Lemma surface_payload_ok s p : surface_payload s = Ok p ->
  NoDup (column "name" (map tool_fields (map tool_norm (tools_ s))))
  /\ p = compact_ [("tools", JArr (map JObj (sorted_by "name" (map tool_fields (map tool_norm (tools_ s))))));
                   ("workspace_binding_sha256", opt_json (strip_u <$> workspace_binding_sha256 s));
                   ("mcp_config_sha256", opt_json (strip_u <$> mcp_config_sha256 s))].
Proof.
  unfold surface_payload. intros (ps & Ep & E)%rbind_ok.
  apply (rmap_fields _ (fun t => tool_fields (tool_norm t))) in Ep as ->; [|intros a q; apply tool_payload_ok].
  guards in E. destruct E as [U%bool_decide_eq_true E]. reads E. injection E as <-. rewrite !digest_text_opt, map_map. done.
Qed.
Lemma surface_text s s' p p' : surface_payload s = Ok p -> surface_payload s' = Ok p' ->
  json_text (JObj p) = json_text (JObj p') <-> same_surface s s'.
Proof.
  intros [U ->]%surface_payload_ok [_ ->]%surface_payload_ok. record_texts.
  rewrite (sorted_column tool_fields) by (apply tool_text || done). unfold same_surface. naive_solver.
Qed.

Lemma entries_ok (f : string * string -> res (string * string)) l r :
  (forall kv x, f kv = Ok x -> x = (strip_u kv.1, strip_u kv.2)) -> comprehend f l [] = Ok r -> r = keyed (stripped l).
Proof. intros F E. by apply (comprehend_ok _ (fun kv => (strip_u kv.1, strip_u kv.2))) in E. Qed.
Lemma stripped_text l l' :
  json_text (texts (sorted_items (keyed (stripped l)))) = json_text (texts (sorted_items (keyed (stripped l'))))
  <-> same_entries (stripped l) (stripped l').
Proof. apply sorted_texts; apply keyed_keys. Qed.

Lemma runtime_payload_ok r p : runtime_payload r = Ok p ->
  p = [("harness", JStr (strip_u (harness r))); ("harness_version", JStr (strip_u (harness_version r)));
       ("python_version", JStr (strip_u (python_version r))); ("dependencies", texts (sorted_items (keyed (stripped (dependencies r)))))].
Proof.
  unfold runtime_payload. intros (d & Ed & E)%rbind_ok. reads E. injection E as <-.
  apply entries_ok in Ed as ->; [done|]. intros kv x Ex. reads Ex. by injection Ex as <-.
Qed.
(** Records none of whose fields is dropped. *)
Ltac whole_record :=
  rewrite record_text; [|done|apply (bool_decide_unpack _); by vm_compute]; cbn [map snd]; rewrite !cons_iff, ?str_text, ?opt_text.
Lemma runtime_text r r' p p' : runtime_payload r = Ok p -> runtime_payload r' = Ok p' ->
  json_text (JObj p) = json_text (JObj p') <-> same_runtime r r'.
Proof. intros ->%runtime_payload_ok ->%runtime_payload_ok. whole_record. rewrite stripped_text. unfold same_runtime. naive_solver. Qed.

Lemma sort_strs_perm l : sort_strs l ≡ₚ l.
Proof. unfold sort_strs. rewrite sort_pairs_permutation, map_map. by rewrite map_id. Qed.
Lemma sort_strs_text l l' : NoDup l -> json_text (JArr (map JStr (sort_strs l))) = json_text (JArr (map JStr (sort_strs l'))) <-> l ≡ₚ l'.
Proof.
  intros N. rewrite array_text, !map_map. split.
  - intros E. rewrite <- (sort_strs_perm l), <- (sort_strs_perm l'). assert (sort_strs l = sort_strs l') as ->; [|done].
    revert E. generalize (sort_strs l), (sort_strs l'). intros a. induction a as [|x a IH]; intros [|y b] E; try done.
    cbn [map] in E. apply cons_iff in E as [->%str_text E]. f_equal. by apply IH.
  - intros P. f_equal. unfold sort_strs. f_equal. apply sort_pairs_perm; [by rewrite P|]. by rewrite <- list_fmap_compose, list_fmap_id.
Qed.

Lemma exemption_payload_ok e names p : exemption_payload e = Ok (names, p) ->
  NoDup (map strip_u (absent_inputs e)) /\ names = sort_strs (map strip_u (absent_inputs e))
  /\ p = [("absent_inputs", JArr (map JStr (sort_strs (map strip_u (absent_inputs e))))); ("reason", JStr (strip_u (reason e)));
          ("authorized_by", JStr (strip_u (authorized_by e)))].
Proof.
  unfold exemption_payload. intros (ns & En & E)%rbind_ok.
  assert (ns = map strip_u (absent_inputs e)) as ->.
  { clear E. revert ns En. induction (absent_inputs e) as [|a l IH]; intros ns; cbn [rmap map]; [by intros [= <-]|].
    intros (p' & ->%text_str_ok & (q & ->%IH & [= <-])%rbind_ok)%rbind_ok. done. }
  guards in E. destruct E as (_ & U%bool_decide_eq_true & _ & E). reads E. by injection E as <- <-.
Qed.
Lemma exemption_text e e' j j' :
  optional_payload (fun e => let! (_, d) := exemption_payload e in Ok d) e = Ok j ->
  optional_payload (fun e => let! (_, d) := exemption_payload e in Ok d) e' = Ok j' ->
  json_text j = json_text j' <-> same_exemption e e'.
Proof.
  assert (forall e j, optional_payload (fun e => let! (_, d) := exemption_payload e in Ok d) e = Ok j ->
    match e with None => j = JNull | Some x => exists names p, exemption_payload x = Ok (names, p) /\ j = JObj p end) as O.
  { intros [x|] k; cbn [optional_payload]; [|by intros [= <-]]. intros (d & ((names & p) & Ex & [= <-])%rbind_ok & [= <-])%rbind_ok.
    by exists names, p. }
  intros E%O E'%O. destruct e as [e|], e' as [e'|]; cbn [same_exemption].
  - destruct E as (n & p & (U & _ & ->)%exemption_payload_ok & ->), E' as (n' & p' & (U' & _ & ->)%exemption_payload_ok & ->).
    whole_record. rewrite (sort_strs_text _ _ U). naive_solver.
  - destruct E as (n & p & _ & ->). subst j'. split; [|done]. intros E. symmetry in E. by apply null_text in E.
  - destruct E' as (n & p & _ & ->). subst j. split; [|done]. intros E. by apply null_text in E.
  - by subst.
Qed.
Lemma policy_opt_text p p' j j' : optional_payload policy_payload p = Ok j -> optional_payload policy_payload p' = Ok j' ->
  json_text j = json_text j' <-> (policy_norm <$> p) = (policy_norm <$> p').
Proof.
  destruct p as [p|], p' as [p'|]; cbn [optional_payload fmap option_fmap option_map].
  - intros (d & ->%policy_payload_ok & [= <-])%rbind_ok (d' & ->%policy_payload_ok & [= <-])%rbind_ok. rewrite policy_text. split; [congruence|by intros E%(inj Some)].
  - intros (d & _ & [= <-])%rbind_ok [= <-]. split; [|done]. intros E. symmetry in E. by apply null_text in E.
  - intros [= <-] (d & _ & [= <-])%rbind_ok. split; [|done]. intros E. by apply null_text in E.
  - by intros [= <-] [= <-].
Qed.

(** *** Required inputs *)

Lemma distinct_elem (l : list string) x : x ∈ distinct l <-> x ∈ l.
Proof.
  induction l as [|y l IH]; [done|]. cbn [distinct]. rewrite elem_of_cons. destruct (existsb (String.eqb y) l) eqn:E.
  - rewrite IH. split; [by right|]. intros [->|]; [|done]. apply existsb_exists in E as (z & Hz & ->%String.eqb_eq). by apply list_elem_of_In.
  - rewrite elem_of_cons, IH. done.
Qed.
Lemma beyond_nil names known : beyond names known = [] <-> names ⊆ known.
Proof.
  rewrite <- without_nil. unfold beyond, sort_strs. split; intros E; [|by rewrite E].
  apply map_eq_nil in E. assert (distinct (without names known) = []) as D.
  { apply (map_eq_nil (fun k => (k, tt))), Permutation.Permutation_nil. rewrite <- E. apply sort_pairs_permutation. }
  destruct (without names known) as [|x l] eqn:W; [done|]. assert (x ∈ distinct (x :: l)) as H0 by (apply distinct_elem; by left).
  rewrite D in H0. by apply elem_of_nil in H0.
Qed.
Definition declared_gaps (m : EvalTargetManifest) (names : list string) : Prop :=
  match behavioral_input_exemption m with None => names = [] | Some e => exists d, exemption_payload e = Ok (names, d) end.
(** A manifest that is built lacks exactly the inputs it declares absent. *)
Lemma required_inputs_are_covered m m' : EvalTargetManifest_post_init m = Ok m' ->
  m' = m /\ exists names, declared_gaps m names
    /\ forall input, In input (inputs_present m) -> input.2 = false <-> input.1 ∈ names.
Proof.
  unfold EvalTargetManifest_post_init. intros (names & D & R)%rbind_ok.
  guards in R. destruct R as (A%bool_decide_eq_true & B%bool_decide_eq_true & [= <-]). apply beyond_nil in A, B.
  split; [done|]. exists names. split.
  - unfold declared_gaps. destruct (behavioral_input_exemption m) as [e|]; [|by injection D].
    apply rbind_ok in D as ((ns & d) & E & [= <-]). by exists d.
  - assert (forall n, n ∈ map fst (List.filter (fun nb => negb nb.2) (inputs_present m)) <-> In (n, false) (inputs_present m)) as G.
    { intros n. rewrite list_elem_of_In, in_map_iff. split.
      - intros ([k []] & <- & [I F]%filter_In); [done|exact I].
      - intros I. exists (n, false). split; [done|]. by apply filter_In. }
    intros [n b] I. cbn [fst snd]. split.
    + intros ->. apply A, G, I.
    + intros Hn. apply B, G in Hn. unfold inputs_present in *. cbn [In] in *. by repeat destruct Hn as [[= ? ?]|Hn];
        repeat destruct I as [[= ? ?]|I]; subst; try congruence.
Qed.

(** *** The whole *)

Section whole.
  Context {Dg : Digest} {It : IsoTime}.

(** The record a fingerprint is taken of. *)
Lemma manifest_payload_ok m p : manifest_payload m = Ok p ->
  exists md su po ru ex, model_payload (model m) = Ok md /\ surface_payload (surface m) = Ok su
    /\ optional_payload policy_payload (tenant_policy m) = Ok po /\ runtime_payload (runtime m) = Ok ru
    /\ optional_payload (fun e => let! (_, d) := exemption_payload e in Ok d) (behavioral_input_exemption m) = Ok ex
    /\ NoDup (column "path" (map skill_fields (map skill_norm (skills m))))
    /\ p = [("schema", JStr EVAL_TARGET_MANIFEST_SCHEMA);
            ("target_id", JStr (strip_u (target_id m))); ("fleet_type", JStr (strip_u (fleet_type m)));
            ("role_type", JStr (strip_u (role_type m))); ("code", JObj (code_fields (code_norm (code_ m)))); ("model", JObj md);
            ("instructions", texts (sorted_items (keyed (stripped (instructions m)))));
            ("skills", JArr (map JObj (sorted_by "path" (map skill_fields (map skill_norm (skills m))))));
            ("resolver_manifest", JObj (resolver_manifest m)); ("tools", JObj su); ("tenant_policy", po); ("runtime", JObj ru);
            ("behavioral_input_exemption", ex)].
Proof.
  unfold manifest_payload. intros (r & R & [= <-])%rbind_ok. unfold record in R.
  apply rbind_ok in R as (ins & Ei & R). apply entries_ok in Ei as ->; [|by intros kv x Ex; reads Ex; injection Ex as <-].
  apply rbind_ok in R as (sks & Es & R).
  apply (rmap_fields _ (fun s => skill_fields (skill_norm s))) in Es as ->; [|intros a q; apply skill_payload_ok].
  guards in R. destruct R as [U%bool_decide_eq_true R]. reads R. injection R as <-. apply code_payload_ok in E as ->.
  rewrite map_map. eexists _, _, _, _, _. repeat split; try done.
Qed.

Lemma payload_text m m' p p' : manifest_payload m = Ok p -> manifest_payload m' = Ok p' ->
  json_text (JObj p) = json_text (JObj p') <-> same_target m m'.
Proof.
  intros (md & su & po & ru & ex & Em & Es & Ep & Er & Ex & U & ->)%manifest_payload_ok
         (md' & su' & po' & ru' & ex' & Em' & Es' & Ep' & Er' & Ex' & _ & ->)%manifest_payload_ok.
  whole_record. rewrite code_text, (model_text _ _ _ _ Em Em'), stripped_text, (sorted_column skill_fields) by (apply skill_text || done).
  rewrite (surface_text _ _ _ _ Es Es'), (policy_opt_text _ _ _ _ Ep Ep'), (runtime_text _ _ _ _ Er Er'), (exemption_text _ _ _ _ Ex Ex').
  split; [intros H; decompose [and] H; by constructor|]. intros [(? & ? & ?) ? ? ? ? ? ? ? ? ?]. repeat (split; [done|]). done.
Qed.

Lemma sha256_canonical_ok j d : sha256_canonical j = Ok d -> d = digest (of_chars (json_text j)).
Proof.
  unfold sha256_canonical, canonical_json_bytes, dump_bytes, encode_str. intros (b & E & [= <-])%rbind_ok. guards in E.
  destruct E as (_ & E). apply rbind_ok in E as (s & Es & [= <-]). guards in Es. destruct Es as [_ [= <-]].
  unfold sha256_bytes. by rewrite chars_of_chars.
Qed.
(** The text a fingerprint is the digest of. *)
Definition hashed (m : EvalTargetManifest) : string :=
  match manifest_payload m with Ok p => of_chars (json_text (JObj p)) | Err _ => "" end.

(** C40: A fingerprint is the target, up to a collision of the digest. Two
    manifests that have a fingerprint have the same one exactly when they are the
    same system under evaluation - the same target id, fleet and role type, code,
    model route with its sampling, instructions, skills, tools, tenant policy,
    resolver, runtime and exemption, read as the code reads them and whatever the
    order of skills, tools and mappings, of entries whose names strip alike the
    later one - or their texts collide. When, by whom and with which notes the
    manifest was generated never counts. *)
Theorem fingerprint_is_the_target m m' d d' :
  fingerprint_sha256 m = Ok d -> fingerprint_sha256 m' = Ok d' ->
  d = d' <-> same_target m m' \/ collides (hashed m) (hashed m').
Proof.
  intros (p & Ep & ->%sha256_canonical_ok)%rbind_ok (p' & Ep' & ->%sha256_canonical_ok)%rbind_ok.
  unfold hashed. rewrite Ep, Ep', <- (payload_text _ _ _ _ Ep Ep'). split.
  - intros [E|E]%digest_inj; [left|by right]. by rewrite <- (chars_of_chars (json_text _)), E, chars_of_chars.
  - intros [->|[_ E]]; done.
Qed.
End whole.

(** ** A target, told twice *)
Module FingerprintDemo.
  #[local] Existing Instance checksum_digest.

Definition hexes (n : nat) (c : Ascii.ascii) : string := of_chars (repeat c n).
Definition sha (c : Ascii.ascii) : string := hexes 64 c.
Definition code0 : CodeIdentity := Code (JStr (hexes 40 (chr 97))) (JStr (hexes 40 (chr 98))) JNull (JStr (sha (chr 99))) JNull.
Definition route (temperature : json) : ModelRoute :=
  Route "anthropic" " model-x" [("temperature", temperature); ("top_p", JNull); ("seed", JInt 7)] (Some "high").
Definition lookup_ : ToolDefinition := Tool "lookup" "find a row" (sha (chr 100)) None.
Definition send : ToolDefinition := Tool "send" "send a message" (sha (chr 101)) (Some "ask").
Definition routing : SkillRecord := Skill ".claude/skills/routing/SKILL.md" (sha (chr 102)) (Some "routing") (Some "route the task").
Definition init_sales : SkillRecord := Skill ".claude/skills/init-sales/SKILL.md" (sha (chr 48)) (Some "init-sales") None.
Definition runtime0 : RuntimeManifest := Runtime "claude" "1.0" "3.12" [("a", "1"); ("b", "2")].

Definition told_target (m : ModelRoute) (sks : list SkillRecord) (ts : list ToolDefinition) (notes : option string) : EvalTargetManifest :=
  Manifest "sales" "company" "sales" code0 m runtime0 [("role", sha (chr 49))] sks (Surface ts None None) None None
    RESOLVER_MANIFEST_NOT_APPLICABLE None None notes.
Definition first : EvalTargetManifest := told_target (route (JInt 1)) [routing; init_sales] [lookup_; send] None.
(** In another order, with notes. *)
Definition again : EvalTargetManifest := told_target (route (JInt 1)) [init_sales; routing] [send; lookup_] (Some "rebuilt").
Definition hotter : EvalTargetManifest := told_target (route (JFloat (QArith_base.Qmake 1 2))) [routing; init_sales] [lookup_; send] None.

Example manifests_are_complete : map (fun m => is_ok (EvalTargetManifest_post_init m)) [first; again; hotter] = [true; true; true].
Proof. vm_compute. reflexivity. Qed.
Example order_and_notes_do_not_count : fingerprint_sha256 first = fingerprint_sha256 again.
Proof. vm_compute. reflexivity. Qed.
Example sampling_counts :
  match fingerprint_sha256 first, fingerprint_sha256 hotter with Ok d, Ok d' => String.eqb d d' | _, _ => true end = false.
Proof. vm_compute. reflexivity. Qed.

(** Front matter: fields of the header alone, quotes taken off, a later field
    replacing an earlier one. *)
Notation fields_of s :=
  (match FRONTMATTER (points_of s) with
   | Some header => map (fun '(k, v) => (k, utf8_text (strip_quotes (strip_points v)))) (frontmatter_fields (List.length header) true header)
   | None => []
   end).
Definition nl : string := of_chars [chr 10].
Example front_matter : fields_of ("---" +:+ nl +:+ "name: 'routing' " +:+ nl +:+ "  name: no" +:+ nl +:+ "description:" +:+ nl +:+ " route it" +:+ nl +:+ "---" +:+ nl +:+ "name: body")
  = [("name", "routing"); ("description", "route it")].
Proof. vm_compute. reflexivity. Qed.

Lemma told : is_ok (fingerprint_sha256 first) = true /\ is_ok (fingerprint_sha256 again) = true.
Proof. vm_compute. split; reflexivity. Qed.
Lemma same : same_target first again.
Proof. split; try (by repeat split); [exact (perm_swap _ _ [])|split; [exact (perm_swap _ _ [])|done]]. Qed.
End FingerprintDemo.

Import FingerprintDemo.
#[local] Existing Instance checksum_digest.

Lemma fingerprint_is_the_target_witness : exists d, fingerprint_sha256 FingerprintDemo.first = Ok d /\ fingerprint_sha256 again = Ok d.
Proof.
  destruct told as [T T'].
  destruct (fingerprint_sha256 FingerprintDemo.first) as [d|] eqn:E; [|discriminate T].
  destruct (fingerprint_sha256 again) as [d'|] eqn:E'; [|discriminate T'].
  exists d. split; [reflexivity|]. f_equal. symmetry. apply (fingerprint_is_the_target _ _ _ _ E E'). left. exact same.
Defined.
