(* ===== verification/WorkspaceEffects.v ===== *)
(** * Writes of the workspace (company_scribe_effect_broker.py)

    [workspace_write], [workspace_edit] and [workspace_mkdir]: which paths an
    agent may name, what is read before, the plan and the plan rebuilt from the
    journal, the replacement of the file, and recovery at start. *)
From S2P Require Import Prelude PyStr Sha256 Json PyIO PyPath JsonText PyValue PyUnicode JsonBytes HostFiles EffectJournal.
From stdpp Require Import base gmap strings list.
From Stdlib Require Import ZArith NArith Lia.

Local Open Scope Z_scope.

(** ** Paths an agent may name *)

(** [str.casefold], exact where the folding is compared with ASCII: the
    letters beyond ASCII that fold to ASCII ones alone. *)
Definition fold_point (n : N) : list N :=
  (if (65 <=? n) && (n <=? 90) then [n + 32]
   else if n =? 8490 then [107] else if n =? 383 then [115]
   else if (n =? 223) || (n =? 7838) then [115; 115]
   else if n =? 64256 then [102; 102] else if n =? 64257 then [102; 105] else if n =? 64258 then [102; 108]
   else if n =? 64259 then [102; 102; 105] else if n =? 64260 then [102; 102; 108]
   else if (n =? 64261) || (n =? 64262) then [115; 116] else [n])%N.
Definition casefold (s : string) : string :=
  match points true (chars s) with
  | Some l => of_chars (flat_map utf8_of (flat_map fold_point l))
  | None => s
  end.

Definition RUNTIME_NAMES : list string :=
  ["event_queue.jsonl"; "event_queue.processing.jsonl"; "audit_log.jsonl"; "delivery_journal.jsonl"; "poller.heartbeat";
   "relaunch_hook.log"; "slack_post_registry.jsonl"; "shadow_suppress_log.jsonl"; "nudge_watcher_state.json"].
Definition RUNTIME_PREFIXES : list string :=
  ["queue_"; "audit_"; "cursor_"; "poller_cursor_"; "ready_"; "init_pending_"; "transcript_"; "handoff_open_requests.jsonl"].

(* src: scripts/company_scribe_effect_broker.py _protected_channel_runtime_state *)
Definition protected_channel_runtime_state (candidate : list string) : bool :=
  let parts := map casefold candidate in
  match parts with
  | channels :: dir :: _ :: _ =>
      let name := name_of parts in
      (channels =? "channels")%string && existsb (String.eqb dir) ["shared"; "scribe"; "agent"]
      && (existsb (String.eqb name) RUNTIME_NAMES || existsb (startswith name) RUNTIME_PREFIXES || endswith name "_state.json")
  | _ => false
  end.

Definition control (c : Ascii.ascii) : bool := (code c <? 32)%N || (code c =? 127)%N.

(** The parts of the path; [as_posix] is its text. *)
(* src: scripts/company_scribe_effect_broker.py _relative_path *)
Definition relative_path (value : json) (field : string) : res (list string) :=
  match value with
  | JStr s =>
      raise_if negb (truthy s) || existsb control (chars s)
        with CompanyScribeAdmissionError, (field +:+ " must be a relative path") ;;
      let parts := path_parts s in
      raise_if is_absolute s || existsb (String.eqb "..") parts || bool_decide (parts = [])
        with CompanyScribeAdmissionError, (field +:+ " escapes the Company workspace") ;;
      raise_if existsb (fun p => casefold p =? ".git")%string parts
        with CompanyScribeAdmissionError, (field +:+ " targets the protected Git control plane") ;;
      raise_if protected_channel_runtime_state parts
        with CompanyScribeAdmissionError, (field +:+ " targets protected channel runtime state") ;;
      Ok parts
  | _ => refuse (field +:+ " must be a relative path")
  end.
Definition as_posix (parts : list string) : string := PyStr.join "/" parts.

(** The proper prefixes of the path below the root, up to the first that is not there. *)
Fixpoint ancestors_ok (v : volume) (current : path) (parts : list string) : bool :=
  match parts with
  | name :: ((_ :: _) as rest) =>
      let p := current ++ [name] in
      match stat v p with
      | None => true
      | Some (_, Inode Dir _ _) => ancestors_ok v p rest
      | Some _ => false
      end
  | _ => true
  end.

Section workspace.
  Context `{CharData} `{Digest} `{JsonLimits} `{TempNames}.
  (** The workspace, resolved; the journal; the process's umask. *)
  Variables (workspace root : path) (umask : Z).

(** With [must_exist=False]. *)
(* src: scripts/company_scribe_effect_broker.py _workspace_path *)
Definition workspace_path (v : volume) (value : json) (field : string) : res path :=
  let! relative := relative_path value field in
  require bool_decide (is_Some (stat v workspace)) else FileNotFoundError, "No such file or directory" ;;
  let candidate := workspace ++ relative in
  let! resolved := realpath link_steps v [] [] candidate in
  require bool_decide (take (List.length workspace) resolved = workspace)
    else CompanyScribeAdmissionError, (field +:+ " escapes the Company workspace") ;;
  require ancestors_ok v workspace relative
    else CompanyScribeAdmissionError, (field +:+ " contains a non-directory or symlink ancestor") ;;
  Ok candidate.

(** ** What is there *)

Definition mode_within (i : inode) (bits : Z) : bool := i_mine i && (Z.land (i_mode i) bits =? 0).
(** [os.open(..., O_DIRECTORY | O_NOFOLLOW)] of a directory that is then searched. *)
Definition dir_openable (i : inode) : bool :=
  match i_kind i with Dir => negb (i_mine i) || (Z.land (i_mode i) 320 =? 320) | _ => false end.

Inductive walked := Walked | WalkFailed | WalkUnsafe.
(** The directories on the way, opened one after the other. *)
Fixpoint walk (v : volume) (current : path) (parts : list string) : walked :=
  match parts with
  | name :: ((_ :: _) as rest) =>
      let p := current ++ [name] in
      match stat v p with
      | Some (_, i) => if dir_openable i then if mode_within i 18 then walk v p rest else WalkUnsafe else WalkFailed
      | None => WalkFailed
      end
  | _ => Walked
  end.

(* src: scripts/company_scribe_effect_broker.py _read_regular_beneath *)
Definition read_regular_beneath (v : volume) (relative : list string) (maximum : Z) : res (bytes * Z) :=
  raise_if bool_decide (relative = []) || existsb (String.eqb "..") relative
    with CompanyScribeAdmissionError, "command publication path is not an exact relative file" ;;
  let absent := refuse "command publish target is absent, linked, or unsafe" in
  match stat v workspace with
  | Some (_, r) =>
      if negb (dir_openable r) then absent else
      raise_if negb (mode_within r 18) with CompanyScribeAdmissionError, "quarantined command workspace root is unsafe" ;;
      match walk v workspace relative with
      | WalkFailed => absent
      | WalkUnsafe => refuse "command publication contains an unsafe directory"
      | Walked =>
          match stat v (workspace ++ relative) with
          | Some (n, i) =>
              if negb (openable i) then absent else
              match i_kind i with
              | Reg data =>
                  require mode_within i 3602 && (nlink v n =? 1)%nat && (blen data <=? maximum)
                    else CompanyScribeAdmissionError, "command publish target must be one safe regular file" ;;
                  Ok (data, i_mode i)
              | _ => refuse "command publish target must be one safe regular file"
              end
          | None => absent
          end
      end
  | None => absent
  end.

Definition kind_only (kind : string) : dict := [("kind", JStr kind)].
Definition file_state (data : bytes) (mode : Z) : dict :=
  [("kind", JStr "file"); ("sha256", JStr (digest (of_chars data))); ("mode", JInt mode)].

(* src: scripts/company_scribe_effect_broker.py _path_state_beneath *)
Definition path_state_beneath (v : volume) (relative : list string) : dict :=
  match read_regular_beneath v relative _MAX_TEXT_BYTES with
  | Ok (data, mode) => file_state data mode
  | Err _ =>
      match stat v workspace with
      | Some (_, r) =>
          if negb (dir_openable r) then kind_only "unsafe" else
          match walk v workspace relative with
          | Walked =>
              match stat v (workspace ++ relative) with
              | None => kind_only "absent"
              | Some (_, i) =>
                  match mode_within i 3602, i_kind i with
                  | true, Dir => [("kind", JStr "directory"); ("mode", JInt (i_mode i))]
                  | _, _ => kind_only "unsafe"
                  end
              end
          | _ => kind_only "unsafe"
          end
      | None => kind_only "unsafe"
      end
  end.

(** ** Plans *)

(** [str.count] and [str.replace] of a non-empty [old], from left to right. *)
Fixpoint count_in (old : bytes) (skip : nat) (l : bytes) : nat :=
  match l, skip with
  | [], _ => 0
  | _ :: r, S k => count_in old k r
  | _ :: r, O => if bool_decide (take (List.length old) l = old) then S (count_in old (List.length old - 1) r) else count_in old 0 r
  end.
Fixpoint replace_in (old new : bytes) (once : bool) (skip : nat) (l : bytes) : bytes :=
  match l, skip with
  | [], _ => []
  | _ :: r, S k => replace_in old new once k r
  | c :: r, O =>
      if bool_decide (take (List.length old) l = old)
      then if once then new ++ drop (List.length old) l else new ++ replace_in old new once (List.length old - 1) r
      else c :: replace_in old new once 0 r
  end.
(** [original.replace(old, new, -1 if replace_all else 1)], with the check before it. *)
Definition edited (original old new : string) (replace_all : bool) (msg : string) : res string :=
  let count := count_in (chars old) 0 (chars original) in
  raise_if (count =? 0)%nat || negb (count =? 1)%nat && negb replace_all with CompanyScribeAdmissionError, msg ;;
  Ok (of_chars (replace_in (chars old) (chars new) (negb replace_all) 0 (chars original))).

Record Plan := {
  pl_path : path;
  pl_relative_path : string;
  pl_data : bytes;
  pl_sha256 : string;
  pl_mode : Z;
  pl_prestate : dict;
  pl_original_data : option bytes;
}.

Definition get_or (d : dict) (key : string) (default : json) : json :=
  match dict_get key d with Some v => v | None => default end.
(** [isinstance(mode, int)], and its value. *)
Definition int_of (j : json) : option Z := match j with JInt z => Some z | JBool b => Some (Z.b2z b) | _ => None end.

(** The branch of [edit], and the content it makes. *)
(* src: scripts/company_scribe_effect_broker.py _workspace_write_plan@16-48 *)
Definition edit_plan (v : volume) (relative : list string) (arguments : dict) : res (dict * bytes * string) :=
  match get arguments "old_text", get arguments "new_text" with
  | JStr old, JStr new =>
      require truthy old else CompanyScribeAdmissionError, "old_text must be non-empty text" ;;
      let! (original_bytes, original_mode) :=
        match read_regular_beneath v relative _MAX_TEXT_BYTES with
        | Ok (b, m) => if decodable b then Ok (b, m) else refuse "workspace edit target is not readable UTF-8"
        | Err _ => refuse "workspace edit target is not readable UTF-8"
        end in
      match get_or arguments "replace_all" (JBool false) with
      | JBool replace_all =>
          let! content := edited (of_chars original_bytes) old new replace_all
            "workspace edit old_text must match exactly once unless replace_all" in
          Ok (file_state original_bytes original_mode, original_bytes, content)
      | _ => refuse "replace_all must be boolean"
      end
  | JStr old, _ => if truthy old then refuse "new_text must be text" else refuse "old_text must be non-empty text"
  | _, _ => refuse "old_text must be non-empty text"
  end.

(* src: scripts/company_scribe_effect_broker.py _workspace_write_plan *)
Definition workspace_write_plan (v : volume) (arguments : dict) (edit : bool) : res Plan :=
  let! relative := relative_path (get arguments "path") "path" in
  let! target := workspace_path v (JStr (as_posix relative)) "path" in
  require is_dir v (parent target)
    else CompanyScribeAdmissionError, "workspace write parent must already be one real directory" ;;
  let! (prestate, original_data, content_value) :=
    if edit then let! (p, b, c) := edit_plan v relative arguments in Ok (p, Some b, JStr c)
    else Ok (path_state_beneath v relative, None, get arguments "content") in
  match content_value with
  | JStr content =>
      let executable := get_or arguments "executable" (JBool false) in
      require edit || match executable with JBool _ => true | _ => false end
        else CompanyScribeAdmissionError, "executable must be boolean" ;;
      let! data := encode_str content in
      let data := chars data in
      require blen data <=? _MAX_TEXT_BYTES else CompanyScribeAdmissionError, "workspace effect exceeds 8 MiB" ;;
      let kind := get prestate "kind" in
      let! mode :=
        if is_str kind "absent" then Ok (match executable with JBool true => 493 | _ => 420 end)
        else if is_str kind "file" then py_int (get prestate "mode")
        else refuse "workspace write target must be a regular file" in
      Ok {| pl_path := target; pl_relative_path := as_posix relative; pl_data := data;
            pl_sha256 := digest (of_chars data); pl_mode := mode; pl_prestate := prestate; pl_original_data := original_data |}
  | _ => refuse "content must be UTF-8 text"
  end.

(** What the journal may say was there before. *)
(* src: scripts/company_scribe_effect_broker.py _workspace_recovery_plan@26-50 *)
Definition check_prestate (prestate : dict) : res unit :=
  let bad := refuse "prepared workspace effect prestate is malformed" in
  if is_str (get prestate "kind") "absent" then if same_keys prestate ["kind"] then Ok tt else bad
  else if is_str (get prestate "kind") "file" then
    match get prestate "sha256", int_of (get prestate "mode") with
    | JStr d, Some mode =>
        if same_keys prestate ["kind"; "sha256"; "mode"] && hex64 d && (0 <=? mode) && (mode <=? 511) && (Z.land mode 18 =? 0)
        then Ok tt else bad
    | _, _ => bad
    end
  else bad.

(* src: scripts/company_scribe_effect_broker.py _workspace_recovery_plan@53-96 *)
Definition recovered_edit (request_arguments prestate : dict) (original_base64 : json) : res string :=
  let lost := refuse "prepared edit lost its original content" in
  match is_str (get prestate "kind") "file", original_base64 with
  | true, JStr b64 =>
      match b64decode (chars b64) with
      | Some original_data =>
          require decodable original_data else CompanyScribeAdmissionError, "prepared edit original content is malformed" ;;
          require (blen original_data <=? _MAX_TEXT_BYTES) && is_str (get prestate "sha256") (digest (of_chars original_data))
            else CompanyScribeAdmissionError, "prepared edit original content changed identity" ;;
          match get request_arguments "old_text", get request_arguments "new_text",
                get_or request_arguments "replace_all" (JBool false) with
          | JStr old, JStr new, JBool replace_all =>
              require truthy old else CompanyScribeAdmissionError, "prepared edit request is malformed" ;;
              edited (of_chars original_data) old new replace_all "prepared edit no longer proves its requested transform"
          | _, _, _ => refuse "prepared edit request is malformed"
          end
      | None => refuse "prepared edit original content is malformed"
      end
  | _, _ => lost
  end.

(** The plan again, from the request and from what the journal kept; nothing of
    the file itself is read. *)
(* src: scripts/company_scribe_effect_broker.py _workspace_recovery_plan *)
Definition workspace_recovery_plan (v : volume) (request_arguments details : dict) (edit : bool) : res Plan :=
  require same_keys details ["path"; "prestate"; "desired_sha256"; "desired_mode"; "original_base64"; "request_arguments"]
    else CompanyScribeAdmissionError, "prepared workspace effect lost its recovery details" ;;
  let! relative := relative_path (get request_arguments "path") "prepared workspace path" in
  require is_str (get details "path") (as_posix relative)
    else CompanyScribeAdmissionError, "prepared workspace effect path changed identity" ;;
  match get details "prestate" with
  | JObj prestate =>
      let! _ := check_prestate prestate in
      let! (desired_content, expected_mode) :=
        if edit then
          let! c := recovered_edit request_arguments prestate (get details "original_base64") in
          let! m := py_int (get prestate "mode") in Ok (c, m)
        else
          match get details "original_base64", get request_arguments "content", get_or request_arguments "executable" (JBool false) with
          | JNull, JStr c, JBool executable =>
              let! m := if is_str (get prestate "kind") "absent" then Ok (if executable then 493 else 420)
                        else py_int (get prestate "mode") in Ok (c, m)
          | JNull, _, _ => refuse "prepared write request is malformed"
          | _, _, _ => refuse "prepared write has unexpected original content"
          end in
      let! data := encode_str desired_content in
      let data := chars data in
      let desired_sha256 := digest (of_chars data) in
      require (blen data <=? _MAX_TEXT_BYTES) && is_str (get details "desired_sha256") desired_sha256
              && py_eq (get details "desired_mode") (JInt expected_mode)
        else CompanyScribeAdmissionError, "prepared workspace effect desired state changed identity" ;;
      let! target := workspace_path v (JStr (as_posix relative)) "path" in
      Ok {| pl_path := target; pl_relative_path := as_posix relative; pl_data := data; pl_sha256 := desired_sha256;
            pl_mode := expected_mode; pl_prestate := prestate; pl_original_data := None |}
  | _ => refuse "prepared workspace effect prestate is malformed"
  end.

(** ** Effects *)

(** [{..., "admission_id": str(binding.admission_id), "admission_epoch": ...}]. *)
Definition committed (p : Plan) (b : binding) : dict :=
  [("state", JStr "committed"); ("path", JStr (pl_relative_path p)); ("sha256", JStr (pl_sha256 p));
   ("admission_id", JStr (b_admission_id b)); ("admission_epoch", JInt (b_admission_epoch b))].

(** The final check is right before the renaming. *)
(* src: scripts/company_scribe_effect_broker.py _commit_workspace_write *)
Definition commit_workspace_write (p : Plan) : prog dict :=
  do! _ := check in
  do! b := publish (Replaced (pl_path p)) ("." +:+ name_of (pl_path p) +:+ ".") (pl_path p) (pl_mode p) (Ok (pl_data p)) check in
  pret (committed p b).

(* src: scripts/company_scribe_effect_broker.py _atomic_workspace_write *)
Definition atomic_workspace_write (arguments : dict) (edit : bool) : prog dict :=
  do! v := pnow in
  do! p := pof (workspace_write_plan v arguments edit) in commit_workspace_write p.

Definition write_operation (edit : bool) : string := if edit then "workspace_edit" else "workspace_write".
Definition write_allowed (edit : bool) : list string :=
  if edit then ["effect_id"; "path"; "old_text"; "new_text"; "replace_all"] else ["effect_id"; "path"; "content"; "executable"].
Definition write_required (edit : bool) : list string :=
  if edit then ["effect_id"; "path"; "old_text"; "new_text"] else ["effect_id"; "path"; "content"].

(** The state [_path_state_beneath] finds once the plan is carried out. *)
Definition desired_state (p : Plan) : dict :=
  [("kind", JStr "file"); ("sha256", JStr (pl_sha256 p)); ("mode", JInt (pl_mode p))].
(* src: scripts/company_scribe_effect_broker.py _journaled_workspace_write@85-95 *)
Definition write_details (p : Plan) (request_arguments : dict) : dict :=
  [("path", JStr (pl_relative_path p)); ("prestate", JObj (pl_prestate p)); ("desired_sha256", JStr (pl_sha256 p));
   ("desired_mode", JInt (pl_mode p));
   ("original_base64", match pl_original_data p with Some b => JStr (of_chars (b64encode b)) | None => JNull end);
   ("request_arguments", JObj request_arguments)].
Definition prepared (details : dict) : dict := [("state", JStr "prepared"); ("details", JObj details)].
Definition completed (details result : dict) : dict :=
  [("state", JStr "completed"); ("details", JObj details); ("result", JObj result)].

(** [_effect_request_sha256("effect", operation, {"effect_id": ..., **request}) == request_sha256]. *)
Definition same_request (operation effect_id : string) (request : dict) (request_sha256 : string) : res bool :=
  let! d := effect_request_sha256 "effect" operation (("effect_id", JStr effect_id) :: request) in
  Ok (d =? request_sha256)%string.

(** What a record that is not completed makes of the request: the rebuilt plan,
    and whether it has been carried out already. *)
(* src: scripts/company_scribe_effect_broker.py _journaled_workspace_write@36-81 *)
Definition resume_write (v : volume) (record request_arguments : dict) (effect_id request_sha256 : string) (edit : bool)
    : res (dict * Plan * bool) :=
  let lost := refuse "prepared workspace effect lost its recovery details" in
  match get record "details" with
  | JObj details =>
      require py_eq (get details "request_arguments") (JObj request_arguments)
        else CompanyScribeAdmissionError, "prepared workspace effect lost its recovery details" ;;
      let! same := same_request (write_operation edit) effect_id request_arguments request_sha256 in
      require same else CompanyScribeAdmissionError, "prepared workspace effect lost its recovery details" ;;
      let! p := workspace_recovery_plan v request_arguments details edit in
      let current := JObj (path_state_beneath v (path_parts (pl_relative_path p))) in
      if py_eq current (JObj (desired_state p)) then Ok (details, p, true) else
      require py_eq current (get details "prestate")
        else CompanyScribeAdmissionError, "prepared workspace effect conflicts with current state" ;;
      Ok (details, p, false)
  | _ => lost
  end.

(* src: scripts/company_scribe_effect_broker.py _journaled_workspace_write *)
Definition journaled_workspace_write (arguments : dict) (edit : bool) (request_sha256 : string) : prog dict :=
  do! effect_id := pof (validate_effect_id (get arguments "effect_id")) in
  let operation := write_operation edit in
  do! request_arguments := pof (closed_request_arguments arguments (write_allowed edit) (write_required edit) operation) in
  locked umask root effect_id request_sha256 operation (fun record write =>
    let finish details (p : Plan) :=
      do! result := commit_workspace_write p in
      do! _ := write (completed details result) in pret result in
    match record with
    | Some record =>
        do! replay := pof (replayed_result record) in
        match replay with
        | Some result => pret result
        | None =>
            do! v := pnow in
            do! (details, p, is_done) := pof (resume_write v record request_arguments effect_id request_sha256 edit) in
            if (is_done : bool) then
              do! b := check in
              do! _ := write (completed details (committed p b)) in pret (committed p b)
            else finish details p
        end
    | None =>
        do! v := pnow in
        do! p := pof (workspace_write_plan v arguments edit) in
        let details := write_details p request_arguments in
        do! _ := write (prepared details) in finish details p
    end).

(** ** Directories *)

Definition created (relative : string) (b : binding) : dict :=
  [("state", JStr "created"); ("path", JStr relative); ("admission_id", JStr (b_admission_id b));
   ("admission_epoch", JInt (b_admission_epoch b))].
Definition DIRECTORY_755 : dict := [("kind", JStr "directory"); ("mode", JInt 493)].

(* src: scripts/company_scribe_effect_broker.py _make_directory *)
Definition make_directory (arguments : dict) : prog dict :=
  do! relative := pof (relative_path (get arguments "path") "path") in
  do! v := pnow in
  do! target := pof (workspace_path v (JStr (as_posix relative)) "path") in
  let kind := get (path_state_beneath v relative) "kind" in
  if is_str kind "directory" then pret [("state", JStr "present"); ("path", JStr (as_posix relative))] else
  if negb (is_str kind "absent") then pof (refuse "workspace directory target conflicts") else
  do! b := check in
  do! _ := mkdir (Made target) target (Z.land 493 (Z.lnot umask)) in
  do! _ := fsync_dir (parent target) in
  pret (created (as_posix relative) b).

Definition mkdir_details (relative : string) (request_arguments : dict) : dict :=
  [("path", JStr relative); ("prestate", JObj (kind_only "absent")); ("request_arguments", JObj request_arguments)].

(** What an uncompleted record makes of the request: the details and whether
    the directory is there. *)
(* src: scripts/company_scribe_effect_broker.py _journaled_make_directory@27-64 *)
Definition resume_mkdir (v : volume) (record request_arguments : dict) (relative : list string) (effect_id request_sha256 : string)
    : res (dict * bool) :=
  let lost := refuse "prepared directory effect lost its recovery details" in
  match get record "details" with
  | JObj details =>
      require same_keys details ["path"; "prestate"; "request_arguments"] && is_str (get details "path") (as_posix relative)
              && py_eq (get details "request_arguments") (JObj request_arguments)
              && py_eq (get details "prestate") (JObj (kind_only "absent"))
        else CompanyScribeAdmissionError, "prepared directory effect lost its recovery details" ;;
      let! same := same_request "workspace_mkdir" effect_id request_arguments request_sha256 in
      require same else CompanyScribeAdmissionError, "prepared directory effect lost its recovery details" ;;
      let current := path_state_beneath v relative in
      if py_eq (JObj current) (JObj DIRECTORY_755) then Ok (details, true) else
      raise_if is_str (get current "kind") "directory"
        with CompanyScribeAdmissionError, "prepared directory effect has the wrong mode" ;;
      require is_str (get current "kind") "absent"
        else CompanyScribeAdmissionError, "prepared directory effect conflicts with current state" ;;
      Ok (details, false)
  | _ => lost
  end.

(* src: scripts/company_scribe_effect_broker.py _journaled_make_directory *)
Definition journaled_make_directory (arguments : dict) (request_sha256 : string) : prog dict :=
  do! effect_id := pof (validate_effect_id (get arguments "effect_id")) in
  do! request_arguments := pof (closed_request_arguments arguments ["effect_id"; "path"] ["effect_id"; "path"] "workspace_mkdir") in
  do! relative_parts := pof (relative_path (get arguments "path") "path") in
  do! v0 := pnow in
  do! _ := pof (workspace_path v0 (JStr (as_posix relative_parts)) "path") in
  let relative := as_posix relative_parts in
  locked umask root effect_id request_sha256 "workspace_mkdir" (fun record write =>
    let start :=
      do! v := pnow in
      let details := [("path", JStr relative); ("prestate", JObj (path_state_beneath v relative_parts));
                      ("request_arguments", JObj request_arguments)] in
      if negb (py_eq (get details "prestate") (JObj (kind_only "absent")))
      then pof (refuse "workspace directory target conflicts") else
      do! _ := write (prepared details) in
      do! result := make_directory arguments in
      do! _ := write (completed details result) in pret result in
    match record with
    | Some record =>
        do! replay := pof (replayed_result record) in
        match replay with
        | Some result => pret result
        | None =>
            do! v := pnow in
            do! (details, is_done) := pof (resume_mkdir v record request_arguments relative_parts effect_id request_sha256) in
            if (is_done : bool) then
              do! b := check in
              do! _ := write (completed details (created relative b)) in pret (created relative b)
            else start
        end
    | None => start
    end).

(** ** Dispatch *)

(** The workspace tools of [_call_tool] that are modelled here. *)
(* src: scripts/company_scribe_effect_broker.py _call_tool@29-55 *)
Definition call_workspace_tool (name : string) (arguments : dict) : prog dict :=
  do! effect_id := pof (validate_effect_id (get arguments "effect_id")) in
  do! v := pnow in
  do! _ := pof (assert_no_other_unresolved_nonchannel v root effect_id) in
  do! request_sha256 := pof (effect_request_sha256 "effect" name arguments) in
  if (name =? "workspace_write")%string then journaled_workspace_write arguments false request_sha256
  else if (name =? "workspace_edit")%string then journaled_workspace_write arguments true request_sha256
  else if (name =? "workspace_mkdir")%string then journaled_make_directory arguments request_sha256
  else pof (refuse "unknown or unreviewed effect tool").

(** Recovery at start; [other] recovers commits and commands. *)
Section recovery.
  Variable other : dict -> prog unit.

(* src: scripts/company_scribe_effect_broker.py _recover_nonchannel_effects@0-66 *)
Definition recover_nonchannel_effects : prog unit :=
  do! v := pnow in
  do! l := pof (records v root) in
  match List.filter (fun r => unresolved r && nonchannel r) l with
  | [] => pret tt
  | _ :: _ :: _ => pof (refuse "serialized workspace journal contains multiple unresolved effects")
  | [record] =>
      do! effect_id := pof (validate_effect_id (get record "effect_id")) in
      let lost := pof (refuse "unresolved workspace effect lost its recovery request") in
      match get record "request_sha256", get record "operation", get record "details" with
      | JStr request_sha256, JStr operation, JObj details =>
          match get details "request_arguments" with
          | JObj request_arguments =>
              if existsb (String.eqb "effect_id") request_arguments.*1 then lost else
              do! same := pof (same_request operation effect_id request_arguments request_sha256) in
              if negb same then pof (refuse "unresolved workspace effect request identity changed") else
              let arguments := ("effect_id", JStr effect_id) :: request_arguments in
              if is_str (get record "state") "prepared" && ((operation =? "workspace_write")%string || (operation =? "workspace_edit")%string) then
                do! _ := journaled_workspace_write arguments (operation =? "workspace_edit")%string request_sha256 in pret tt
              else if is_str (get record "state") "prepared" && (operation =? "workspace_mkdir")%string then
                do! _ := journaled_make_directory arguments request_sha256 in pret tt
              else other record
          | _ => lost
          end
      | _, _, _ => lost
      end
  end.
End recovery.
End workspace.
