(* ===== verification/EffectProofs.v ===== *)
(** * The journal under crashes

    The rules of the journal's own programs: its lock file, the writing of a
    record, and [locked]; and that a record written is read back. *)
From S2P Require Import Prelude PyStr Sha256 Json PyIO JsonText PyValue PyUnicode JsonBytes HostFiles HostLogic HostStates HostRules EffectJournal.
From stdpp Require Import base gmap strings list.
From Stdlib Require Import ZArith NArith QArith Lia Permutation.

Local Open Scope Z_scope.

(** ** Values read back *)

Lemma plain_obj (d : dict) : plain (JObj d) = bool_decide (NoDup d.*1) && forallb (fun kv => plain kv.2) d.
Proof. done. Qed.
Lemma nesting_obj (d : dict) : nesting (JObj d) = S (max_list (map (fun kv => nesting kv.2) d)).
Proof. done. Qed.
Lemma sort_obj (d : dict) : sort_keys (JObj d) = JObj (sort_pairs (map (fun kv => (kv.1, sort_keys kv.2)) d)).
Proof. done. Qed.

Lemma py_eq_int z : py_eq (JInt z) (JInt z) = true.
Proof. cbn. apply Qeq_bool_iff. apply Qeq_refl. Qed.
Lemma py_eq_ints a b : py_eq (JInt a) (JInt b) = (a =? b)%Z.
Proof. unfold py_eq. cbn. unfold Qeq_bool. cbn. by rewrite !Z.mul_1_r. Qed.

(** A value and the same with its keys sorted are equal to Python. *)
Lemma py_eq_sort j : plain j = true -> py_eq j (sort_keys j) = true.
Proof.
  induction j as [|b|z|q|x|s|l IH|kvs IH] using json_rect_all; intros Hp; try done; cbn [sort_keys].
  - destruct b; reflexivity.
  - apply py_eq_int.
  - cbn. apply String.eqb_refl.
  - cbn [plain py_eq] in *. induction IH as [|j l Hj _ IHl]; [done|]. cbn [map]. cbn [forallb] in Hp.
    apply andb_true_iff in Hp as [Pj Pl]. by rewrite (Hj Pj), IHl.
  - cbn [plain] in Hp. apply andb_true_iff in Hp as [N%bool_decide_eq_true Hp]. cbn [py_eq].
    set (m := map (fun kv => (kv.1, sort_keys kv.2)) kvs). pose proof (sort_pairs_permutation m) as P.
    assert (NoDup m.*1) as Nm by (unfold m; by rewrite <- list_fmap_compose).
    apply andb_true_iff. split; [rewrite P; unfold m; rewrite length_map; by apply Nat.eqb_eq|].
    rewrite forallb_forall in *. intros kv Hkv. rewrite <- (dict_get_perm kv.1 m _ Nm (symmetry P)).
    assert (dict_get kv.1 m = Some (sort_keys kv.2)) as ->.
    { clear P Nm IH Hp. unfold m. induction kvs as [|[k v] kvs IHk]; [done|]. cbn. apply NoDup_cons in N as [Nk N].
      destruct Hkv as [<-|Hkv]; [by rewrite String.eqb_refl|].
      destruct (String.eqb_spec kv.1 k) as [E|]; [|by apply IHk]. exfalso. apply Nk. rewrite <- E.
      apply list_elem_of_fmap. exists kv. split; [done|]. by apply list_elem_of_In. }
    rewrite Forall_forall in IH. apply IH; [by apply list_elem_of_In|by apply Hp].
Qed.

(** Looking a key up in a sorted dict. *)
Lemma get_sorted (d : dict) (k : string) : NoDup d.*1 ->
  exists d', sort_keys (JObj d) = JObj d' /\ NoDup d'.*1 /\ d' ≡ₚ map (fun kv => (kv.1, sort_keys kv.2)) d.
Proof.
  intros N. destruct (sorted_fields d) as (d' & E & P). exists d'. split; [done|]. split; [|done].
  rewrite P. by rewrite <- list_fmap_compose.
Qed.
Lemma dict_get_sort (d d' : dict) (k : string) : NoDup d.*1 -> sort_keys (JObj d) = JObj d' -> dict_get k d' = sort_keys <$> dict_get k d.
Proof.
  intros N E. destruct (get_sorted d k N) as (d'' & E'' & N' & P). rewrite E in E''. injection E'' as <-.
  by rewrite (dict_get_perm k d' _ N' P), dict_get_map.
Qed.
Lemma get_sort (d d' : dict) (k : string) : NoDup d.*1 -> sort_keys (JObj d) = JObj d' -> get d' k = sort_keys (get d k).
Proof. intros N E. unfold get. rewrite (dict_get_sort d d' k N E). by destruct (dict_get k d). Qed.
Lemma same_keys_sort (d d' : dict) keys : sort_keys (JObj d) = JObj d' -> same_keys d' keys = same_keys d keys.
Proof.
  intros E. destruct (sorted_fields d) as (d'' & E'' & P). rewrite E in E''. injection E'' as <-.
  rewrite (same_keys_perm _ _ keys (symmetry P)). unfold same_keys. by rewrite <- list_fmap_compose.
Qed.

(** ** Tracked directories *)

Definition tracks_dir (F : spec) (p : path) : Prop :=
  exists X, F p = Some X /\ forall y, X y -> exists mode mine, y = Some (Inode Dir mode mine).
Lemma tracks_dir_put F p q X : q <> p -> tracks_dir F q -> tracks_dir (put F p X) q.
Proof. intros N (Y & E & HY). exists Y. by rewrite put_ne. Qed.
Lemma tracks_dir_is h F p v d : meets h F v d -> tracks_dir F p -> is_dir v p = true.
Proof.
  intros [W M] (X & E & HX). specialize (M p X E). pose proof (held_seen _ _ _ _ _ M) as S. destruct M as [_ HM].
  unfold is_dir. unfold stat in *. destruct (v_names v !! p) as [n|] eqn:En.
  - destruct (W p n (or_introl En)) as [i Ei]. rewrite Ei in *. cbn [fmap option_fmap option_map] in *. destruct S as [S _].
    destruct (HX _ S) as (mode & mine & [= ->]). done.
  - destruct (HX None) as (mode & mine & ?); [|done]. apply HM. by left.
Qed.
Lemma tracks_dir_there h F p : tracks_dir F p -> dir_there h F p.
Proof. intros T _ v d M. by eapply tracks_dir_is. Qed.

Lemma temps_free_put F p X prefix dir : temps_free F prefix dir -> (forall s, dir ++ [prefix +:+ s] <> p) -> temps_free (put F p X) prefix dir.
Proof. intros T N s Y. rewrite put_ne by apply N. apply T. Qed.

(** A file whose inode has no tracked name changes. *)
Lemma meets_set_untracked h F v d p n j :
  meets h F v d -> v_names v !! p = Some n -> F p = None -> meets h F (set_inode v n j) d.
Proof.
  intros [W M] E HF. split.
  - intros q m Nq. unfold set_inode. simpl. destruct (decide (m = n)) as [->|Ne]; [rewrite lookup_insert_eq; by eexists|].
    rewrite lookup_insert_ne by done. exact (W q m Nq).
  - intros q X EX. apply (held_step h X q v d); [by apply M|done|done| |done]. intros m k Nm. unfold content, set_inode. simpl.
    rewrite lookup_insert_ne; [done|]. intros <-. destruct (proj1 (M q X EX) n Nm) as [_ Hq].
    assert (p = q) as -> by (apply Hq; by left). congruence.
Qed.

Section journal.
  Context `{CharData} `{Digest} `{JsonLimits} `{TempNames} (umask : Z) (h : hazard) (F : spec).

Lemma mkdir_exist_ok_rule dir mode :
  tracks_dir F dir -> triple h (meets h F) (mkdir_exist_ok umask dir mode) (fun _ => meets h F) (fun _ => meets h F) (meets h F).
Proof.
  intros T w S M. pose proof (stable_meets h F) as St. unfold mkdir_exist_ok, pcatch, mkdir, sys.
  assert (forall e, os_error e = true -> forall w', w_now w' = w_now w -> subject h w' -> meets h F (w_now w') (w_disk w') ->
    let '(o, w'') := (if os_error e then (do! v := pnow in if is_dir v dir then pret tt else pfail e) w' else (Raised e, w')) in
    subject h w'' /\ match o with Done _ => meets h F (w_now w'') (w_disk w'') | _ => calm h = false /\ meets h F (w_now w'') (w_disk w'') end) as A.
  { intros e -> w' Ew S' M'. unfold pbind, pnow. rewrite (tracks_dir_is _ _ _ _ _ M' T). by split. }
  pose proof (fun v d t => subject_tail h w v d t S) as Tl. pose proof (tracks_dir_is _ _ _ _ _ M T) as D.
  assert (exists n, v_names (w_now w) !! dir = Some n) as [n En].
  { unfold is_dir, stat in D. destruct (v_names (w_now w) !! dir) as [n|]; [by exists n|done]. }
  assert (os_error (Exn FileExistsError "File exists") = true) as Ofe by by (apply bool_decide_true; do 3 right; left).
  assert (os_error io_error = true) as Oio by by (apply bool_decide_true; left).
  destruct S as [Sf Sk]. rewrite En. destruct (w_fates w) as [|[|k|k|k kn ki] fates] eqn:Ef.
  1-2: by apply (A _ Ofe); [|apply Tl|].
  - cbn [nothing]. unfold stopped. rewrite Ef. apply (A _ Oio); [done|apply Tl|done].
  - apply Forall_cons in Sf as [Sf _]. cbn [nothing]. unfold stopped. rewrite Ef. split; [apply Tl|]. split; [by destruct h|done].
  - apply Forall_cons in Sf as [Sf _]. assert (h = Losses) as L by by destruct h. cbn [nothing]. unfold stopped. rewrite Ef.
    split; [apply Tl|]. split; [by rewrite L|]. by apply (St L).
Qed.

Lemma atomic_private_json_rule p value X :
  F p = Some X -> tracks_dir F (parent p) -> temps_free F ("." +:+ name_of p +:+ ".") (parent p) ->
  (calm h = true -> is_ok (record_bytes value) = true) -> (calm h = true -> forall j, X (Some j) -> i_kind j <> Dir) ->
  let during := meets h (put F p (fun y => X y \/ published (record_bytes value) 384 y)) in
  triple h (meets h F) (atomic_private_json umask p value) (fun _ => meets h (put F p (published (record_bytes value) 384)))
    (fun _ => during) during.
Proof.
  intros EX T Fr Hok Hk during.
  assert (forall v d, meets h F v d -> during v d) as Old by (intros v d M; apply (meets_put_in _ _ _ X); auto).
  apply (triple_seq h _ _ _ (meets h F)).
  - eapply triple_errors; [eapply triple_crash; [by apply mkdir_exist_ok_rule|exact Old]|]. intros e v d; apply Old.
  - eapply triple_post; [apply publish_rule; [done|done|by apply tracks_dir_there|apply transparent_ret|done|done]|].
    by intros _ v d [_ M].
Qed.
End journal.

(** ** The lock *)

Definition lock_ok (v : volume) (p : path) : Prop :=
  match stat v p with
  | Some (_, i) => i_mine i = true /\ Z.land (i_mode i) 384 = 384 /\ match i_kind i with Reg _ | Other => True | _ => False end
  | None => True
  end.

Section locking.
  Context `{CharData} `{Digest} `{JsonLimits} `{TempNames} (umask : Z) (h : hazard) (F : spec).

Lemma open_lock_rule p :
  F p = None -> tracks_dir F (parent p) ->
  triple h (fun v d => meets h F v d /\ (calm h = true -> lock_ok v p)) (open_lock umask p)
    (fun _ => meets h F) (fun _ => meets h F) (meets h F).
Proof.
  intros HF T. apply triple_now. intros u. destruct (stat u p) as [[n i]|] eqn:S.
  - assert (v_names u !! p = Some n) as En.
    { unfold stat in S. destruct (v_names u !! p) as [m|]; [|done]. by destruct (v_inodes u !! m); simplify_eq/=. }
    assert (forall m, triple h (fun v d => v = u /\ meets h F v d /\ (calm h = true -> lock_ok v p)) (chmod n m)
                        (fun _ => meets h F) (fun _ => meets h F) (meets h F)) as Ch.
    { intros m. apply triple_sys; [by apply stable_meets| |by intros _ v d k (-> & M & _)].
      intros v d (-> & M & _). unfold stat in S. rewrite En in S. destruct (v_inodes u !! n) as [j|]; [|done].
      by eapply meets_set_untracked. }
    assert (forall e, (calm h = true -> lock_ok u p -> False) ->
              triple h (fun v d => v = u /\ meets h F v d /\ (calm h = true -> lock_ok v p)) (pfail e)
                (fun _ : unit => meets h F) (fun _ => meets h F) (meets h F)) as Fl.
    { intros e N. apply triple_fail. intros v d (-> & M & Lk). split; [|done]. apply not_true_is_false; intros Eh. by apply (N Eh), Lk. }
    unfold lock_ok in *. rewrite S in Fl. destruct (i_kind i) eqn:K; [|by apply Fl; intros _ (_ & _ & [])..|];
      (destruct (i_mine i && _) eqn:B; [apply Ch|]); apply Fl; intros _ (E1 & E2 & _); by rewrite E1, E2 in B.
  - eapply (triple_bind h _ _ _ (fun n => owned h F p n (Inode (Reg []) (Z.land 384 (Z.lnot umask)) true))).
    + apply triple_sys; [by apply stable_meets| |by intros _ v d k (-> & M & _)]. intros v d (-> & M & _).
      assert (v_names u !! p = None) as En.
      { unfold stat in S. destruct (v_names u !! p) as [m|] eqn:E; [|done]. destruct (proj1 M p m (or_introl E)) as [j Ej].
        by rewrite Ej in S. }
      rewrite En, (tracks_dir_is _ _ _ _ _ M T). apply meets_create; [done|done|done|apply fresh_inode_new].
    + intros n. eapply triple_weaken; [by apply chmod_rule|done| | |done].
      * by intros _ v d [M _].
      * by intros _ v d [M _].
Qed.
End locking.

(** ** Records written and read *)

Section records.
  Context `{CharData} `{Digest} `{JsonLimits} `{TempNames} (h : hazard).

Lemma read_record_absent v d p : names_ok h v d -> held h (fun y => y = None) p v d -> read_record v p = Ok None.
Proof. intros W M. pose proof (held_stat _ _ _ _ _ W M) as S. unfold read_record. by destruct (stat v p) as [[n i]|]; [destruct S|]. Qed.

Lemma record_bytes_ok value b : record_bytes value = Ok b ->
  exists c, canonical_bytes (JObj value) = Ok c /\ b = c ++ [lf] /\ blen b <= _MAX_JOURNAL_BYTES.
Proof.
  unfold record_bytes. intros E. apply rbind_ok in E as (c & Ec & E). guards in E. destruct E as [L [= <-]].
  exists c. split; [done|]. split; [done|]. by apply Z.leb_le.
Qed.

Lemma read_record_stat v p value n b :
  stat v p = Some (n, Inode (Reg b) 384 true) -> (nlink v n =? 1)%nat = true -> record_bytes value = Ok b ->
  plain (JObj value) = true -> (nesting (JObj value) <= max_depth)%nat ->
  exists d', sort_keys (JObj value) = JObj d' /\ read_record v p = Ok (Some d').
Proof.
  intros Es Hl Eb Hp Hn. unfold read_record. rewrite Es. destruct (record_bytes_ok _ _ Eb) as (c & Ec & -> & L).
  cbn [openable i_kind i_mine i_mode]. rewrite Hl. change (negb true || Z.testbit 384 8) with true. cbv iota.
  change (Z.land 384 63 =? 0) with true. cbn [negb orb].
  assert ((_MAX_JOURNAL_BYTES <? blen (c ++ [lf])) = false) as -> by by apply Z.ltb_ge.
  rewrite (loads_canonical value c [lf] Ec Hp Hn) by by right. cbn [refused_as rbind].
  destruct (sorted_fields value) as (d' & Ed & _). exists d'. by rewrite Ed.
Qed.
Lemma read_record_written v d p value :
  names_ok h v d -> held h (published (record_bytes value) 384) p v d ->
  plain (JObj value) = true -> (nesting (JObj value) <= max_depth)%nat ->
  exists d', sort_keys (JObj value) = JObj d' /\ read_record v p = Ok (Some d').
Proof.
  intros W M Hp Hn. pose proof (held_stat _ _ _ _ _ W M) as S.
  destruct (stat v p) as [[n i]|] eqn:Es; [|by destruct S as (b & _ & ?)].
  destruct S as [(b & Eb & [= ->]) Hl]. by apply (read_record_stat v p value n b).
Qed.
End records.

(** ** Names *)

(** A temporary name is longer than the name it is made from. *)
Lemma temp_ne (q : path) s : q = parent q ++ [name_of q] -> parent q ++ [("." +:+ name_of q +:+ ".") +:+ s] <> q.
Proof.
  intros E Eq. rewrite E in Eq at 3. apply app_inj_2 in Eq as [_ Eq]; [|done]. injection Eq as Eq.
  apply (f_equal (fun s => List.length (chars s))) in Eq. rewrite !chars_app, !length_app in Eq. simpl in Eq. lia.
Qed.
Lemma lock_ne_record `{Digest} root effect_id : lock_path root effect_id <> record_path root effect_id.
Proof.
  unfold lock_path, record_path. intros E. apply app_inj_2 in E as [_ E]; [|done]. injection E as E.
  apply (f_equal chars) in E. rewrite !chars_app in E. by apply app_inv_head in E.
Qed.

(** ** The record under the lock *)

Section locked.
  Context `{CharData} `{Digest} `{JsonLimits} `{TempNames} (umask : Z) (h : hazard) (root : path).
  Context (effect_id request_sha256 operation : string).
  Hypothesis Hid : validate_effect_id (JStr effect_id) = Ok effect_id.

Lemma locked_rule {A} (F : spec) (body : option dict -> (dict -> prog unit) -> prog A) Q E C :
  F (lock_path root effect_id) = None -> tracks_dir F root ->
  (forall e v d, meets h F v d -> E e v d) -> (forall v d, meets h F v d -> C v d) ->
  (calm h = true -> forall v d, meets h F v d -> is_ok (current_record root v effect_id request_sha256 operation) = true) ->
  (forall o, triple h (fun v d => meets h F v d /\ current_record root v effect_id request_sha256 operation = Ok o)
               (body o (write_record umask root effect_id request_sha256 operation)) Q E C) ->
  triple h (fun v d => meets h F v d /\ (calm h = true -> lock_ok v (lock_path root effect_id)))
    (locked umask root effect_id request_sha256 operation body) Q E C.
Proof.
  intros HF T HE HC Hok Hb. unfold locked. rewrite Hid. apply triple_known. apply (triple_seq h _ _ _ (meets h F)).
  - eapply triple_errors; [eapply triple_crash; [apply open_lock_rule|exact HC]|apply HE]; [done|]. unfold lock_path. by rewrite parent_snoc.
  - apply triple_now. intros u. eapply (triple_bind h _ _ _ (fun o v d => meets h F v d /\ current_record root v effect_id request_sha256 operation = Ok o)); [|exact Hb].
    apply triple_of. intros v d [-> M]. destruct (current_record root u effect_id request_sha256 operation) as [o|e] eqn:Eo; [done|].
    split; [|by apply HE]. apply not_true_is_false. intros Ec. specialize (Hok Ec u d M). by rewrite Eo in Hok.
Qed.

(** A record of this request that was written is the one found. *)
Lemma current_record_written v d next :
  names_ok h v d -> held h (published (record_bytes (closed_record effect_id request_sha256 operation next)) 384) (record_path root effect_id) v d ->
  plain (JObj (closed_record effect_id request_sha256 operation next)) = true ->
  (nesting (JObj (closed_record effect_id request_sha256 operation next)) <= max_depth)%nat ->
  exists r, current_record root v effect_id request_sha256 operation = Ok (Some r)
    /\ sort_keys (JObj (closed_record effect_id request_sha256 operation next)) = JObj r.
Proof.
  intros W M Hp Hn. destruct (read_record_written h v d _ _ W M Hp Hn) as (r & Er & R). exists r. split; [|done].
  unfold current_record. rewrite R. cbn [rbind].
  assert (NoDup (closed_record effect_id request_sha256 operation next).*1) as N.
  { cbn [plain] in Hp. apply andb_true_iff in Hp as [Hp _]. by apply bool_decide_eq_true in Hp. }
  rewrite !(get_sort _ _ _ N Er). cbn. by rewrite !String.eqb_refl.
Qed.

Lemma current_record_absent v d : names_ok h v d -> held h (fun y => y = None) (record_path root effect_id) v d ->
  current_record root v effect_id request_sha256 operation = Ok None.
Proof. intros W M. unfold current_record. by rewrite (read_record_absent h v d _ W M). Qed.
End locked.
