(* ===== verification/WorkspacePlans.v ===== *)
(** * Plans of the workspace

    What a plan makes of the file it found ([wanted]), and that the plan rebuilt
    from the journal is the plan that was written there. *)
From S2P Require Import Prelude PyStr Sha256 Json PyIO PyPath JsonText PyValue PyUnicode JsonBytes HostFiles HostStates EffectJournal HostDemo WorkspaceEffects EffectProofs.
From stdpp Require Import base gmap strings list.
From Stdlib Require Import ZArith NArith Lia Permutation.

Local Open Scope Z_scope.

(** ** Paths *)

Lemma relative_path_ok value field parts : relative_path value field = Ok parts ->
  exists s, value = JStr s /\ parts = path_parts s /\ parts <> [] /\ existsb control (chars s) = false
    /\ existsb (String.eqb "..") parts = false /\ existsb (fun p => casefold p =? ".git")%string parts = false
    /\ protected_channel_runtime_state parts = false.
Proof.
  destruct value as [| | | | |s| |]; try done. unfold relative_path. guards. intros (E1 & E2 & E3 & E4 & [= <-]).
  apply orb_false_iff in E1 as [_ E1]. apply orb_false_iff in E2 as [E2 En%bool_decide_eq_false]. apply orb_false_iff in E2 as [_ E2].
  by exists s.
Qed.

Lemma parts_ok s : Forall part_ok (path_parts s).
Proof. apply Forall_forall. intros p Hp. by apply (path_parts_ok s). Qed.

(** A path read again from its text. *)
Lemma relative_again value field parts field' :
  relative_path value field = Ok parts -> relative_path (JStr (as_posix parts)) field' = Ok parts.
Proof.
  intros (s & _ & -> & N & Ec & E2 & E3 & E4)%relative_path_ok. unfold relative_path, as_posix.
  rewrite (path_parts_join _ N (parts_ok s)), (join_relative _ (parts_ok s)), E2, E3, E4.
  assert (truthy (PyStr.join "/" (path_parts s)) = true) as ->.
  { destruct (truthy _) eqn:T; [done|]. apply truthy_nil in T. pose proof (path_parts_join _ N (parts_ok s)) as P.
    rewrite T in P. by destruct (path_parts s). }
  assert (existsb control (chars (PyStr.join "/" (path_parts s))) = false) as ->.
  { apply not_true_iff_false. intros (c & Hc & C)%existsb_exists. apply list_elem_of_In, join_chars in Hc as [->|(p & Hp & Hc)]; [done|].
    apply path_parts_ok in Hp as [_ Hp]. apply not_true_iff_false in Ec. apply Ec, existsb_exists. exists c.
    split; [by apply list_elem_of_In, Hp|done]. }
  by rewrite bool_decide_false.
Qed.

(** ** What a plan wants *)

(** The content and the mode of a file, when it is one the broker replaces. *)
Definition file_of (y : option inode) : option (bytes * Z) :=
  match y with Some (Inode (Reg d) mode true) => Some (d, mode) | _ => None end.
Definition replaceable (y : option inode) : Prop :=
  match y with
  | None => True
  | Some i => exists d, i_kind i = Reg d /\ i_mine i = true /\ Z.land (i_mode i) 3602 = 0 /\ blen d <= _MAX_TEXT_BYTES
              /\ Z.testbit (i_mode i) 8 = true
  end.

(** The content and the mode a request asks for, given the file there is. *)
Definition wanted (arguments : dict) (edit : bool) (old : option (bytes * Z)) : option (bytes * Z) :=
  if edit then
    match old, get arguments "old_text", get arguments "new_text", get_or arguments "replace_all" (JBool false) with
    | Some (d, mode), JStr o, JStr n, JBool all =>
        match edited (of_chars d) o n all "" with Ok c => Some (chars c, mode) | Err _ => None end
    | _, _, _, _ => None
    end
  else
    match get arguments "content", get_or arguments "executable" (JBool false) with
    | JStr c, JBool executable => Some (chars c, match old with Some (_, mode) => mode | None => if executable then 493 else 420 end)
    | _, _ => None
    end.

Section plans.
  Context `{CharData} `{Digest} `{JsonLimits} (workspace : path).

Definition state_of (old : option (bytes * Z)) : dict :=
  match old with Some (d, mode) => file_state d mode | None => kind_only "absent" end.

Lemma py_eq_files d m d' m' :
  py_eq (JObj (file_state d m)) (JObj (file_state d' m')) = (digest (of_chars d) =? digest (of_chars d'))%string && (m =? m').
Proof.
  rewrite <- (py_eq_ints m m'). unfold file_state. cbn [py_eq List.length Nat.eqb forallb fst snd dict_get andb].
  change ("kind" =? "kind")%string with true. change ("sha256" =? "kind")%string with false.
  change ("sha256" =? "sha256")%string with true. change ("mode" =? "kind")%string with false.
  change ("mode" =? "sha256")%string with false. change ("mode" =? "mode")%string with true. cbn iota. by rewrite !andb_true_r.
Qed.

Lemma workspace_path_ok v value field target :
  workspace_path workspace v value field = Ok target ->
  exists relative, relative_path value field = Ok relative /\ target = workspace ++ relative.
Proof.
  unfold workspace_path. intros (relative & E & R)%rbind_ok. guards in R. destruct R as [_ R].
  apply rbind_ok in R as (q & _ & R). guards in R. destruct R as (_ & _ & [= <-]). by exists relative.
Qed.

Lemma read_regular_ok v relative maximum data mode :
  read_regular_beneath workspace v relative maximum = Ok (data, mode) ->
  exists n, stat v (workspace ++ relative) = Some (n, Inode (Reg data) mode true) /\ nlink v n = 1%nat
    /\ Z.land mode 3602 = 0 /\ blen data <= maximum /\ Z.testbit mode 8 = true.
Proof.
  unfold read_regular_beneath. guards. intros [_ E]. destruct (stat v workspace) as [[m r]|]; [|done].
  destruct (negb (dir_openable r)); [done|]. guards in E. destruct E as [_ E]. destruct (walk v workspace relative); try done.
  destruct (stat v (workspace ++ relative)) as [[n i]|]; [|done]. destruct (openable i) eqn:O; [|done].
  cbn [negb] in E. destruct i as [[d| | |] im mine]; try done. cbn [i_kind i_mode i_mine] in E. guards in E. destruct E as [E [= <- <-]].
  apply andb_true_iff in E as [E E3]. apply andb_true_iff in E as [E1 E2%Nat.eqb_eq]. unfold mode_within in E1.
  cbn [i_mine i_mode] in E1. apply andb_true_iff in E1 as [-> E1%Z.eqb_eq]. exists n.
  split; [done|]. split; [done|]. split; [done|]. split; [by apply Z.leb_le|exact O].
Qed.

Lemma path_state_cases v relative old :
  old = snd <$> stat v (workspace ++ relative) ->
  is_str (get (path_state_beneath workspace v relative) "kind") "absent" = true /\ old = None
    /\ path_state_beneath workspace v relative = state_of None
  \/ is_str (get (path_state_beneath workspace v relative) "kind") "file" = true /\ replaceable old
     /\ is_Some (file_of old) /\ path_state_beneath workspace v relative = state_of (file_of old)
  \/ path_state_beneath workspace v relative = kind_only "unsafe"
  \/ exists mode, path_state_beneath workspace v relative = [("kind", JStr "directory"); ("mode", JInt mode)].
Proof.
  intros ->. unfold path_state_beneath. destruct (read_regular_beneath _ _ _ _) as [[data mode]|e] eqn:R.
  - destruct (read_regular_ok _ _ _ _ _ R) as (n & -> & _ & Hm & Hl & Hr). right. left. split; [done|]. split; [|split; [by eexists|done]].
    by exists data.
  - destruct (stat v workspace) as [[m r]|]; [|by right; right; left]. destruct (negb _); [by right; right; left|].
    destruct (walk _ _ _); [|by right; right; left..]. destruct (stat v (workspace ++ relative)) as [[n i]|]; [|by left].
    right. right. destruct (mode_within i 3602), (i_kind i); try by left. right. by eexists.
Qed.

(** A plan, by what it wants of the file. *)
Lemma workspace_write_plan_ok v arguments edit p :
  workspace_write_plan workspace v arguments edit = Ok p ->
  exists relative, relative_path (get arguments "path") "path" = Ok relative /\ pl_path p = workspace ++ relative
    /\ pl_relative_path p = as_posix relative /\ pl_sha256 p = digest (of_chars (pl_data p))
    /\ blen (pl_data p) <= _MAX_TEXT_BYTES /\ decodable (pl_data p) = true
    /\ let old := snd <$> stat v (pl_path p) in
       replaceable old /\ (edit = true -> exists d mode o, file_of old = Some (d, mode) /\ decodable d = true
                                      /\ get arguments "old_text" = JStr o /\ truthy o = true)
       /\ wanted arguments edit (file_of old) = Some (pl_data p, pl_mode p) /\ pl_prestate p = state_of (file_of old)
       /\ pl_original_data p = if edit then fst <$> file_of old else None.
Proof.
  unfold workspace_write_plan. intros (relative & Er & R)%rbind_ok. apply rbind_ok in R as (target & Et & R).
  destruct (workspace_path_ok _ _ _ _ Et) as (relative' & Er' & ->). rewrite (relative_again _ _ _ _ Er) in Er'.
  injection Er' as <-. guards in R. destruct R as [_ R]. apply rbind_ok in R as ([[prestate original] cv] & Ec & R).
  destruct cv as [| | | | |content| |]; try done. guards in R. destruct R as [Ex R]. apply rbind_ok in R as (s & Es & R).
  unfold encode_str in Es. guards in Es. destruct Es as [Ed [= <-]]. guards in R. destruct R as [El R].
  apply rbind_ok in R as (mode & Em & [= <-]). exists relative. cbn [pl_path pl_relative_path pl_sha256 pl_data pl_mode pl_prestate pl_original_data].
  split; [done|]. split; [done|]. split; [done|]. split; [done|]. split; [by apply Z.leb_le|]. split; [done|].
  destruct edit.
  - apply rbind_ok in Ec as ([[pre b] c] & Ee & [= <- <- <-]). unfold edit_plan in Ee. unfold wanted.
    destruct (get arguments "old_text") as [| | | | |o| |]; try done.
    destruct (get arguments "new_text") as [| | | | |n| |]; try (by destruct (truthy o)). guards in Ee. destruct Ee as [To Ee].
    apply rbind_ok in Ee as ([ob om] & Eo & Ee). destruct (read_regular_beneath _ _ _ _) as [[ob' om']|] eqn:Rr; [|done].
    destruct (decodable ob') eqn:Dob; [|done]. injection Eo as -> ->.
    destruct (get_or arguments "replace_all" (JBool false)) as [|all| | | | | |]; try done.
    apply rbind_ok in Ee as (c' & Ee & [= <- <- <-]).
    destruct (read_regular_ok _ _ _ _ _ Rr) as (m & -> & _ & Hm & Hl & Hr). cbn. split; [by exists ob|]. split; [by intros _; eexists _, _, _|].
    unfold edited in *. guards in Ee. destruct Ee as [-> [= <-]]. split; [|done]. cbn in Em. injection Em as ->. done.
  - injection Ec as <- <- Ec. unfold wanted. rewrite Ec. destruct (get_or arguments "executable" (JBool false)) as [|ex| | | | | |]; try done.
    destruct (path_state_cases v relative _ eq_refl) as [(K & O & P)|[(K & O & (f & F) & P)|[P|[mode' P]]]].
    + rewrite K in Em. injection Em as <-. rewrite O, P. cbn. by destruct ex.
    + assert (is_str (get (path_state_beneath workspace v relative) "kind") "absent" = false) as Ka by (rewrite P, F; by destruct f).
      rewrite Ka, K in Em. split; [done|]. split; [done|]. split; [|by rewrite P]. rewrite P in Em. rewrite F in *.
      destruct f as [d m]. cbn in Em. by injection Em as ->.
    + by rewrite P in Em.
    + by rewrite P in Em.
Qed.

(** ** The request in the journal *)

Lemma dict_get_without (d : dict) (k : string) : k <> "effect_id" -> dict_get k (without_id d) = dict_get k d.
Proof.
  intros N. induction d as [|[k' v] d IH]; [done|]. unfold without_id. cbn.
  destruct (String.eqb_spec k' "effect_id") as [->|]; cbn [negb].
  - destruct (String.eqb_spec k "effect_id"); [done|]. apply IH.
  - cbn. destruct (k =? k')%string; [done|]. apply IH.
Qed.
Lemma without_id_keys (d : dict) : NoDup d.*1 -> NoDup (without_id d).*1.
Proof.
  intros N. apply NoDup_ListNoDup in N. apply NoDup_ListNoDup. unfold without_id. induction d as [|[k v] d IH]; [done|].
  apply List.NoDup_cons_iff in N as [Nk N]. cbn. destruct (k =? "effect_id")%string; cbn; [by apply IH|].
  apply List.NoDup_cons_iff. split; [|by apply IH]. intros (kv & E & Hk)%in_map_iff. apply filter_In in Hk as [Hk _].
  apply Nk, in_map_iff. by exists kv.
Qed.
Lemma dict_get_member (d : dict) k v : NoDup d.*1 -> (k, v) ∈ d -> dict_get k d = Some v.
Proof.
  induction d as [|[k' v'] d IH]; [by intros _ ?%elem_of_nil|]. intros [Nk N]%NoDup_cons [E|Hd]%elem_of_cons; cbn.
  - injection E as -> ->. by rewrite String.eqb_refl.
  - destruct (String.eqb_spec k k') as [->|]; [|by apply IH]. destruct Nk. apply list_elem_of_fmap. by exists (k', v).
Qed.

Definition flat (j : json) : bool := match j with JStr _ | JBool _ => true | _ => false end.

(** A request of texts and flags is kept with its keys sorted. *)
Lemma closed_request_sorted arguments allowed required operation request :
  NoDup arguments.*1 -> (forall k v, (k, v) ∈ without_id arguments -> flat v = true) -> (1 <= max_depth)%nat ->
  closed_request_arguments arguments allowed required operation = Ok request ->
  plain (JObj (without_id arguments)) = true /\ nesting (JObj (without_id arguments)) = 1%nat
  /\ sort_keys (JObj (without_id arguments)) = JObj request.
Proof.
  intros N Fl Md. unfold closed_request_arguments. guards. intros [_ R]. set (d := without_id arguments) in *.
  assert (plain (JObj d) = true) as P.
  { cbn [plain]. apply andb_true_iff. split; [by apply bool_decide_true, without_id_keys|]. apply forallb_forall.
    intros [k v] Hk%list_elem_of_In. specialize (Fl k v Hk). by destruct v. }
  assert (nesting (JObj d) = 1%nat) as Ne.
  { cbn [nesting]. f_equal. clear -Fl. induction d as [|[k v] d IH]; [done|]. cbn. rewrite IH.
    - assert (flat v = true) by (apply (Fl k); left). by destruct v.
    - intros k' v' Hk. apply (Fl k'). by right. }
  split; [done|]. split; [done|]. apply rbind_ok in R as (j & Rj & R). unfold refused_as in Rj.
  destruct (rbind _ _) as [j'|] eqn:E; [injection Rj as ->|by destruct (existsb _ _)].
  apply rbind_ok in E as (b & Eb & E). guards in E. destruct E as [_ E].
  pose proof (loads_canonical d b [] Eb P) as L. rewrite app_nil_r in L. rewrite L in E by (by rewrite Ne || by left).
  apply Ok_inj in E as <-. destruct (sorted_fields d) as (d' & Ed & _). rewrite Ed in *. by injection R as ->.
Qed.

(** What the keys of a write or an edit hold. *)
Lemma write_request_flat v arguments edit p request :
  NoDup arguments.*1 -> workspace_write_plan workspace v arguments edit = Ok p ->
  closed_request_arguments arguments (write_allowed edit) (write_required edit) (write_operation edit) = Ok request ->
  forall k w, (k, w) ∈ without_id arguments -> flat w = true.
Proof.
  intros N Hp Hc k w Hk. destruct (workspace_write_plan_ok _ _ _ _ Hp) as (rel & Er & _ & _ & _ & _ & _ & Hw).
  destruct Hw as (_ & _ & Hw & _). destruct (relative_path_ok _ _ _ Er) as (s & Es & _).
  unfold closed_request_arguments in Hc. guards in Hc. destruct Hc as [Hc _]. apply andb_true_iff in Hc as [_ Hc].
  assert (k <> "effect_id" /\ (k, w) ∈ arguments) as [Nk Ha].
  { apply list_elem_of_In, filter_In in Hk as [Hk Ne%negb_true_iff]. split; [by apply String.eqb_neq|by apply list_elem_of_In]. }
  assert (k ∈ arguments.*1) as Ka by (apply list_elem_of_fmap; by exists (k, w)).
  pose proof (dict_get_member _ _ _ N Ha) as G. rewrite forallb_forall in Hc. specialize (Hc k (proj1 (list_elem_of_In _ _) Ka)).
  apply existsb_exists in Hc as (k' & Hk' & <-%String.eqb_eq). unfold get, get_or, wanted in *.
  destruct edit; cbn in Hk'; repeat (destruct Hk' as [<-|Hk']; [try done; unfold get, get_or in *; rewrite G in *; cbn in *|]); try done.
  all: try by rewrite Es.
  all: repeat case_match; simplify_eq/=; done.
Qed.

(** ** Recovery *)

Lemma get_request (arguments request : dict) (k : string) :
  NoDup arguments.*1 -> sort_keys (JObj (without_id arguments)) = JObj request -> k <> "effect_id" ->
  dict_get k request = sort_keys <$> dict_get k arguments.
Proof.
  intros N E Nk. rewrite (dict_get_sort _ _ _ (without_id_keys _ N) E). by rewrite dict_get_without.
Qed.

Definition mode_ok (old : option (bytes * Z)) : Prop := match old with Some (_, m) => 0 <= m < 4096 | None => True end.

Lemma safe_mode m : 0 <= m < 4096 -> Z.land m 3602 = 0 -> 0 <= m <= 511 /\ Z.land m 18 = 0.
Proof.
  intros Hm Hl.
  assert (forallb (fun n => implb (Z.land (Z.of_nat n) 3602 =? 0) ((Z.of_nat n <=? 511) && (Z.land (Z.of_nat n) 18 =? 0)))
            (seq 0 4096) = true) as A by (vm_compute; reflexivity).
  rewrite forallb_forall in A. specialize (A (Z.to_nat m)). rewrite Z2Nat.id in A by lia. rewrite Hl in A.
  cbn [Z.eqb implb] in A. assert (In (Z.to_nat m) (seq 0 4096)) as I by (apply in_seq; lia). specialize (A I).
  apply andb_true_iff in A as [A1%Z.leb_le A2%Z.eqb_eq]. lia.
Qed.

Lemma edited_msg original old new all msg msg' c :
  edited original old new all msg = Ok c -> edited original old new all msg' = Ok c.
Proof. unfold edited. guards. intros [-> E]. done. Qed.

Lemma check_state old pre :
  mode_ok old -> match old with Some (_, m) => Z.land m 3602 = 0 | None => True end ->
  sort_keys (JObj (state_of old)) = JObj pre -> check_prestate pre = Ok tt.
Proof.
  destruct old as [[d m]|].
  - cbn [mode_ok]. intros Hm Hl E. destruct (safe_mode m Hm Hl) as [Hr Hw].
    assert (pre = [("kind", JStr "file"); ("mode", JInt m); ("sha256", JStr (digest (of_chars d)))]) as -> by (by injection E).
    unfold check_prestate. cbn. rewrite digest_hex64, Hw. cbn.
    destruct (Z.leb_spec 0 m), (Z.leb_spec m 511); try lia. done.
  - intros _ _ E. assert (pre = [("kind", JStr "absent")]) as -> by (by injection E). done.
Qed.

(** The plan of recovery is the plan that was journaled. *)
Lemma recovery_plan_again v v' arguments edit p request details :
  NoDup arguments.*1 -> (1 <= max_depth)%nat ->
  workspace_write_plan workspace v arguments edit = Ok p -> mode_ok (file_of (snd <$> stat v (pl_path p))) ->
  closed_request_arguments arguments (write_allowed edit) (write_required edit) (write_operation edit) = Ok request ->
  sort_keys (JObj (write_details p request)) = JObj details ->
  workspace_path workspace v' (JStr (pl_relative_path p)) "path" = Ok (pl_path p) ->
  exists pre, sort_keys (JObj (pl_prestate p)) = JObj pre /\ get details "prestate" = JObj pre
    /\ workspace_recovery_plan workspace v' request details edit
       = Ok {| pl_path := pl_path p; pl_relative_path := pl_relative_path p; pl_data := pl_data p; pl_sha256 := pl_sha256 p;
               pl_mode := pl_mode p; pl_prestate := pre; pl_original_data := None |}.
Proof.
  intros N Md Hp Hm Hc Ed Hv. pose proof (write_request_flat _ _ _ _ _ N Hp Hc) as Fl.
  destruct (closed_request_sorted _ _ _ _ _ N Fl Md Hc) as (_ & _ & Er).
  destruct (workspace_write_plan_ok _ _ _ _ Hp) as (rel & Erel & Ep & Erp & Esha & Hlen & Hdec & Hre & Hed & Hw & Epre & Eorig).
  set (old := file_of (snd <$> stat v (pl_path p))) in *.
  assert (match old with Some (_, m) => Z.land m 3602 = 0 | None => True end) as Hl.
  { unfold old. destruct (snd <$> stat v (pl_path p)) as [[[d| | |] m []]|]; try done. by destruct Hre as (? & _ & _ & ? & _ & _). }
  destruct (sorted_fields (pl_prestate p)) as (pre & Epr & _). exists pre. split; [done|].
  assert (NoDup (write_details p request).*1) as Nd by (apply (bool_decide_unpack _); by vm_compute).
  assert (forall k, get details k = sort_keys (get (write_details p request) k)) as Gd by (intros k; by apply get_sort).
  split; [rewrite Gd; exact Epr|].
  assert (forall k, k <> "effect_id" -> dict_get k request = sort_keys <$> dict_get k arguments) as Gr by (intros k; by apply get_request).
  unfold workspace_recovery_plan. rewrite (same_keys_sort _ _ _ Ed). change (same_keys (write_details p request) _) with true. cbv iota.
  destruct (relative_path_ok _ _ _ Erel) as (s & Es & _).
  assert (get request "path" = JStr s) as ->.
  { unfold get in *. rewrite Gr by done. destruct (dict_get "path" arguments); [|done]. cbn in *. by rewrite Es. }
  assert (relative_path (JStr s) "prepared workspace path" = Ok rel) as ->.
  { rewrite <- Es. unfold relative_path in *. rewrite Es in *. revert Erel. guards. tauto. }
  cbn [rbind]. rewrite !Gd. change (get (write_details p request) "path") with (JStr (pl_relative_path p)).
  cbn [sort_keys is_str]. rewrite Erp, String.eqb_refl.
  change (get (write_details p request) "prestate") with (JObj (pl_prestate p)). rewrite Epr, <- Erp, Hv.
  rewrite Epre in Epr. rewrite (check_state old pre Hm Hl Epr). cbn [rbind].
  assert (is_str (get pre "kind") "file" = match old with Some _ => true | None => false end
          /\ is_str (get pre "kind") "absent" = match old with Some _ => false | None => true end
          /\ match old with Some (d, m) => get pre "sha256" = JStr (digest (of_chars d)) /\ get pre "mode" = JInt m | None => True end) as (Kf & Ka & Km).
  { clear -Epr. destruct old as [[d m]|]; injection Epr as <-; done. }
  change (get (write_details p request) "original_base64")
    with (match pl_original_data p with Some b => JStr (of_chars (b64encode b)) | None => JNull end).
  change (get (write_details p request) "desired_sha256") with (JStr (pl_sha256 p)).
  change (get (write_details p request) "desired_mode") with (JInt (pl_mode p)). rewrite Eorig.
  assert (forall k, k <> "effect_id" -> get request k = sort_keys (get arguments k)) as Gq.
  { intros k Nk. unfold get. rewrite Gr by done. by destruct (dict_get k arguments). }
  assert (forall k dflt, k <> "effect_id" -> sort_keys dflt = dflt -> get_or request k dflt = sort_keys (get_or arguments k dflt)) as Go.
  { intros k dflt Nk Sd. unfold get_or. rewrite Gr by done. by destruct (dict_get k arguments). }
  assert (Z.leb (blen (pl_data p)) _MAX_TEXT_BYTES = true) as Hle by by apply Z.leb_le.
  assert (encode_str (of_chars (pl_data p)) = Ok (of_chars (pl_data p))) as He by (unfold encode_str; by rewrite chars_of_chars, Hdec).
  destruct edit.
  - destruct (Hed eq_refl) as (d & m & o' & Eo & Dd & Eo' & To). rewrite Eo in *. destruct Km as [Ks Km].
    cbn [fst fmap option_fmap option_map sort_keys]. unfold recovered_edit. rewrite Kf, chars_of_chars, b64_roundtrip, Dd, Ks.
    unfold wanted in Hw. rewrite !Gq, Go by done.
    destruct (get arguments "old_text") as [| | | | |o| |] eqn:Eold; try done.
    destruct (get arguments "new_text") as [| | | | |n| |]; try done.
    destruct (get_or arguments "replace_all" (JBool false)) as [|all| | | | | |]; try done. cbn [sort_keys is_str].
    destruct (edited (of_chars d) o n all "") as [c|] eqn:Ee; [|done]. injection Hw as Hc1 Hm1.
    assert (blen d <=? _MAX_TEXT_BYTES = true) as ->.
    { destruct (snd <$> stat v (pl_path p)) as [[[d'| | |] m' []]|]; try done. destruct Hre as (d2 & [= ->] & _ & _ & L & _).
      cbn in old. unfold old in Eo. injection Eo as <- _. by apply Z.leb_le. }
    rewrite String.eqb_refl. cbn [andb].
    injection Eo' as ->. rewrite To.
    rewrite (edited_msg _ _ _ _ _ _ _ Ee). cbn [rbind]. rewrite Km. cbn [py_int rbind].
    rewrite <- (of_chars_chars c), Hc1, He. cbn [rbind]. rewrite chars_of_chars, Hle, Esha. cbn [is_str]. rewrite String.eqb_refl, Hm1, py_eq_int.
    cbn [andb rbind]. by rewrite Erp, <- Esha.
  - cbn [sort_keys]. rewrite Gq, Go by done. unfold wanted in Hw. destruct (get arguments "content") as [| | | | |c| |]; try done.
    destruct (get_or arguments "executable" (JBool false)) as [|ex| | | | | |]; try done. cbn [sort_keys]. injection Hw as Hc1 Hm1.
    assert ((if is_str (get pre "kind") "absent" then Ok (if ex then 493 else 420) else py_int (get pre "mode")) = Ok (pl_mode p)) as ->.
    { rewrite Ka. destruct old as [[d m]|]; [|by rewrite Hm1]. destruct Km as [_ ->]. cbn. by rewrite Hm1. }
    cbn [rbind]. rewrite <- (of_chars_chars c), Hc1, He. cbn [rbind]. rewrite chars_of_chars, Hle, Esha. cbn [is_str]. rewrite String.eqb_refl, py_eq_int.
    cbn [andb rbind]. by rewrite Erp, <- Esha.
Qed.

(** C34: What was journaled before a write or an edit is enough to make its plan
    again: read with its keys sorted, in any later state of the host whose
    workspace still leads to the path, it gives the plan of the first attempt -
    path, new content, digest and mode, and the state found before - whatever
    has become of the file since. *)
Theorem recovery_rebuilds_the_plan v v' arguments edit p request details :
  NoDup arguments.*1 -> (1 <= max_depth)%nat ->
  workspace_write_plan workspace v arguments edit = Ok p -> mode_ok (file_of (snd <$> stat v (pl_path p))) ->
  closed_request_arguments arguments (write_allowed edit) (write_required edit) (write_operation edit) = Ok request ->
  sort_keys (JObj (write_details p request)) = JObj details ->
  workspace_path workspace v' (JStr (pl_relative_path p)) "path" = Ok (pl_path p) ->
  exists pre, sort_keys (JObj (pl_prestate p)) = JObj pre /\ get details "prestate" = JObj pre
    /\ workspace_recovery_plan workspace v' request details edit
       = Ok {| pl_path := pl_path p; pl_relative_path := pl_relative_path p; pl_data := pl_data p; pl_sha256 := pl_sha256 p;
               pl_mode := pl_mode p; pl_prestate := pre; pl_original_data := None |}.
Proof. apply recovery_plan_again. Qed.

(** A plan of recovery is for the path of its request. *)
Lemma recovery_plan_path v request details edit q :
  workspace_recovery_plan workspace v request details edit = Ok q ->
  exists relative, relative_path (get request "path") "prepared workspace path" = Ok relative
    /\ pl_relative_path q = as_posix relative /\ pl_path q = workspace ++ relative
    /\ workspace_path workspace v (JStr (pl_relative_path q)) "path" = Ok (pl_path q).
Proof.
  unfold workspace_recovery_plan. guards. intros [_ R]. apply rbind_ok in R as (relative & Er & R). guards in R. destruct R as [_ R].
  destruct (get details "prestate") as [| | | | | | |pre]; try done. apply rbind_ok in R as (u & _ & R).
  apply rbind_ok in R as ([c m] & _ & R). apply rbind_ok in R as (data & _ & R). guards in R. destruct R as [_ R].
  apply rbind_ok in R as (target & Et & [= <-]). exists relative. cbn. split; [done|]. split; [done|]. split; [|done].
  destruct (workspace_path_ok _ _ _ _ Et) as (rel' & Er' & ->). by rewrite (relative_again _ _ _ _ Er) in Er'; injection Er' as <-.
Qed.

(** *** The way to a file *)

(** Every directory on the way is one the broker trusts. *)
Definition way_clear (v : volume) (relative : list string) : Prop :=
  workspace_path workspace v (JStr (as_posix relative)) "path" = Ok (workspace ++ relative)
  /\ match stat v workspace with Some (_, r) => dir_openable r = true /\ mode_within r 18 = true | None => False end
  /\ walk v workspace relative = Walked.

(** What is found at the end of the way, alone under its name. *)
Definition found (v : volume) (relative : list string) (y : option inode) : Prop :=
  match y with
  | Some i => exists n, stat v (workspace ++ relative) = Some (n, i) /\ nlink v n = 1%nat
  | None => stat v (workspace ++ relative) = None
  end.

(** Then the file is read, and its state. *)
Lemma read_again v relative i d :
  relative <> [] -> existsb (String.eqb "..") relative = false -> way_clear v relative ->
  replaceable (Some i) -> i_kind i = Reg d -> found v relative (Some i) ->
  read_regular_beneath workspace v relative _MAX_TEXT_BYTES = Ok (d, i_mode i).
Proof.
  intros Nr Nd (_ & Hr & Hw) (d' & Hk & Hmine & Hm & Hl & Ho) Hd (n & Hs & Hn).
  unfold read_regular_beneath. rewrite Nd, Hw, bool_decide_false by done. cbn [orb].
  destruct (stat v workspace) as [[m r]|]; [|done]. destruct Hr as [-> ->]. cbn [negb]. rewrite Hs.
  destruct i as [k im mine]. cbn [i_kind i_mine i_mode] in *. rewrite Hk in Hd. injection Hd as ->. subst k mine.
  unfold openable, mode_within. cbn [i_kind i_mine i_mode negb orb].
  rewrite Ho. cbn [negb]. rewrite Hm, Hn. cbn [andb Z.eqb Nat.eqb]. by apply Z.leb_le in Hl as ->.
Qed.

Lemma state_again v relative y :
  relative <> [] -> existsb (String.eqb "..") relative = false -> way_clear v relative -> replaceable y -> found v relative y ->
  path_state_beneath workspace v relative = state_of (file_of y).
Proof.
  intros Nr Nd Hc Hy Hf. unfold path_state_beneath. destruct y as [i|].
  - pose proof Hy as (d & Hk & Hm & _). rewrite (read_again v relative i d) by done. destruct i as [k im mine]. cbn in Hk, Hm |- *. by subst.
  - cbn [found] in Hf. destruct (read_regular_beneath _ _ _ _) as [[d m]|] eqn:R.
    + destruct (read_regular_ok _ _ _ _ _ R) as (n & E & _). by rewrite E in Hf.
    + destruct Hc as (_ & Hr & Hw). destruct (stat v workspace) as [[m r]|]; [|done]. destruct Hr as [-> _]. by rewrite Hw, Hf.
Qed.

Lemma write_prestate v arguments p relative :
  workspace_write_plan workspace v arguments false = Ok p -> relative_path (get arguments "path") "path" = Ok relative ->
  pl_prestate p = path_state_beneath workspace v relative.
Proof.
  unfold workspace_write_plan. intros Hp Er. rewrite Er in Hp. cbn [rbind] in Hp. apply rbind_ok in Hp as (t & _ & Hp). guards in Hp.
  destruct Hp as [_ Hp]. cbn [rbind] in Hp. destruct (get arguments "content") as [| | | | |c| |]; try done. guards in Hp.
  destruct Hp as [_ Hp]. apply rbind_ok in Hp as (d & _ & Hp). guards in Hp. destruct Hp as [_ Hp].
  by apply rbind_ok in Hp as (m & _ & [= <-]).
Qed.

(** The plan can be made again where the way is clear and the file the same. *)
Lemma plan_again v0 v arguments edit p relative :
  workspace_write_plan workspace v0 arguments edit = Ok p -> relative_path (get arguments "path") "path" = Ok relative ->
  way_clear v relative -> is_dir v (parent (workspace ++ relative)) = true -> found v relative (snd <$> stat v0 (workspace ++ relative)) ->
  workspace_write_plan workspace v arguments edit = Ok p.
Proof.
  intros Hp Er Hc Hd Hf. destruct (workspace_write_plan_ok _ _ _ _ Hp) as (rel & Er' & Ep & _ & _ & _ & _ & Hr & Hed & _ & Hpre & _).
  rewrite Er in Er'. injection Er' as <-. rewrite Ep in *. destruct (relative_path_ok _ _ _ Er) as (s & _ & _ & Nr & _ & Nd & _).
  assert (edit = false -> pl_prestate p = path_state_beneath workspace v0 relative) as Hps by (intros ->; by apply (write_prestate _ arguments)).
  pose proof Hc as (Hw & _). unfold workspace_write_plan in *. rewrite Er in *. cbn [rbind] in *. rewrite Hw. cbn [rbind]. rewrite Hd.
  apply rbind_ok in Hp as (t & Et & Hp). destruct (workspace_path_ok _ _ _ _ Et) as (rel' & Er' & ->).
  rewrite (relative_again _ _ _ _ Er) in Er'. injection Er' as <-. guards in Hp. destruct Hp as [_ Hp].
  apply rbind_ok in Hp as (x & Ex & Hp). rewrite <- Hp. clear Hp.
  assert ((if edit then let! (q, b, c) := edit_plan workspace v relative arguments in Ok (q, Some b, JStr c)
           else Ok (path_state_beneath workspace v relative, None, get arguments "content")) = Ok x) as ->; [|done].
  rewrite <- Ex. destruct edit.
  - apply rbind_ok in Ex as (y & Ey & _). rewrite Ey. enough (edit_plan workspace v relative arguments = Ok y) as -> by done.
    rewrite <- Ey. unfold edit_plan in *. destruct (get arguments "old_text") as [| | | | |o| |]; try done.
    destruct (get arguments "new_text") as [| | | | |n| |]; try done. guards in Ey. destruct Ey as [-> Ey].
    destruct (read_regular_beneath workspace v0 relative _MAX_TEXT_BYTES) as [[d m]|e] eqn:R; [|by apply rbind_ok in Ey as (? & ? & _)].
    destruct (read_regular_ok _ _ _ _ _ R) as (k & Es & _). rewrite Es in *. cbn [snd fmap option_fmap option_map] in *.
    by rewrite (read_again v relative _ d Nr Nd Hc Hr eq_refl Hf).
  - by rewrite (state_again v relative _ Nr Nd Hc Hr Hf), <- Hpre, Hps.
Qed.
End plans.

Module PlansDemo.
  #[local] Existing Instance checksum_digest.

Definition arguments : dict :=
  [("effect_id", JStr "e-1"); ("path", JStr "a.txt"); ("old_text", JStr "old"); ("new_text", JStr "new")].
Definition before : volume := host "hello old world".
Definition after : volume := host "hello new world".
Definition request : dict := [("new_text", JStr "new"); ("old_text", JStr "old"); ("path", JStr "a.txt")].
Definition plan : Plan := {|
  pl_path := ["ws"; "a.txt"]; pl_relative_path := "a.txt"; pl_data := chars "hello new world";
  pl_sha256 := digest "hello new world"; pl_mode := 420; pl_prestate := file_state (chars "hello old world") 420;
  pl_original_data := Some (chars "hello old world") |}.
Definition details : dict := match sort_keys (JObj (write_details plan request)) with JObj d => d | _ => [] end.
End PlansDemo.

#[local] Existing Instance checksum_digest.

(** The edit was made, and its plan is made again from the journal. *)
Lemma recovery_rebuilds_the_plan_witness :
  exists pre, sort_keys (JObj (pl_prestate PlansDemo.plan)) = JObj pre /\ get PlansDemo.details "prestate" = JObj pre
    /\ workspace_recovery_plan ["ws"] PlansDemo.after PlansDemo.request PlansDemo.details true
       = Ok {| pl_path := ["ws"; "a.txt"]; pl_relative_path := "a.txt"; pl_data := chars "hello new world";
               pl_sha256 := digest "hello new world"; pl_mode := 420; pl_prestate := pre; pl_original_data := None |}.
Proof.
  apply (recovery_rebuilds_the_plan ["ws"] PlansDemo.before PlansDemo.after PlansDemo.arguments true PlansDemo.plan).
  - apply (bool_decide_unpack _). by vm_compute.
  - apply Nat.leb_le. by vm_compute.
  - vm_compute. reflexivity.
  - change (mode_ok (Some (chars "hello old world", 420))). cbn. lia.
  - vm_compute. reflexivity.
  - vm_compute. reflexivity.
  - vm_compute. reflexivity.
Defined.
