(* ===== verification/WorkspaceProofs.v ===== *)
(** * Writes of the workspace under crashes

    A write or an edit is carried out in stages: the record is absent, prepared
    or completed, and the file is the old one or the new one. Whatever stops the
    call, a stage is left from which the same request, made again, goes on; and
    however often it was made, a request made again without a fault completes.
    Power is taken to be lost only in an attempt before which everything had
    reached the disk (the first, or one after a boot or a sync). *)
From S2P Require Import Prelude PyStr Sha256 Json PyIO PyPath JsonText PyValue PyUnicode JsonBytes HostFiles HostLogic HostStates HostRules EffectJournal HostDemo WorkspaceEffects EffectProofs WorkspacePlans.
From stdpp Require Import base gmap strings list.
From Stdlib Require Import ZArith NArith Lia Permutation.

Local Open Scope Z_scope.

Lemma meets_ext h F G v d : (forall q, F q = G q) -> meets h F v d -> meets h G v d.
Proof. intros E M. eapply meets_weaken; [done|]. intros q Y EY. exists Y. by rewrite E. Qed.
Lemma stable_or h P Q : stable h P -> stable h Q -> stable h (fun v d => P v d \/ Q v d).
Proof. intros HP HQ L v d kn ki [Hp|Hq]; [left; by apply (HP L)|right; by apply (HQ L)]. Qed.

Section writes.
  Context `{CharData} `{Digest} `{JsonLimits} `{TempNames} (workspace root : path) (umask : Z) (h : hazard).

  (** The request: its id, its arguments without it, and its digest. *)
  Context (arguments : dict) (edit : bool) (effect_id request_sha256 : string) (request : dict).
  Hypothesis Hid : validate_effect_id (get arguments "effect_id") = Ok effect_id.
  Hypothesis Hreq : closed_request_arguments arguments (write_allowed edit) (write_required edit) (write_operation edit) = Ok request.
  Hypothesis Hkeys : NoDup arguments.*1.
  Hypothesis Hsha : effect_request_sha256 "effect" (write_operation edit) arguments = Ok request_sha256.

  (** The plan made where the request was first made. *)
  Context (v0 : volume) (p : Plan).
  Hypothesis Hplan : workspace_write_plan workspace v0 arguments edit = Ok p.

Definition target : path := pl_path p.
Definition record : path := record_path root effect_id.
Definition old : option inode := snd <$> stat v0 target.
Definition new : option inode := Some (Inode (Reg (pl_data p)) (pl_mode p) true).
Definition details : dict := write_details p request.

  Hypothesis Hmode : mode_ok (file_of old).

Definition written (next : dict) : option inode -> Prop :=
  published (record_bytes (closed_record effect_id request_sha256 (write_operation edit) next)) 384.
(** A record that says the write is done. *)
Definition finished (y : option inode) : Prop := exists b, written (completed details (committed p b)) y.

  (** Other paths, the directories, and the names that may come and go. *)
  Context (F : spec).
Record apart : Prop := {
  ap_root : tracks_dir F root;
  ap_parent : tracks_dir F (parent target);
  ap_root_target : root <> target;
  ap_parents : parent target <> root;
  ap_parent_record : parent target <> record;
  ap_lock : F (lock_path root effect_id) = None;
  ap_record_temps : temps_free F ("." +:+ name_of record +:+ ".") root;
  ap_target_temps : temps_free F ("." +:+ name_of target +:+ ".") (parent target);
}.
  Hypothesis Hap : apart.

(** The record and the file. *)
Definition stage (J T : option inode -> Prop) : assertion := meets h (put (put F record J) target T).
Definition is_old (y : option inode) : Prop := y = old.
Definition is_new (y : option inode) : Prop := y = new.
Definition absent (y : option inode) : Prop := y = None.

(** What a call that was stopped leaves. *)
Definition interrupted : assertion := fun v d =>
  stage (fun y => absent y \/ written (prepared details) y) is_old v d
  \/ stage (written (prepared details)) (fun y => is_old y \/ is_new y) v d
  \/ stage (fun y => written (prepared details) y \/ finished y) is_new v d.
Definition done_with (r : dict) : assertion := fun v d =>
  exists b, answers h b /\ r = committed p b /\ stage (written (completed details r)) is_new v d.

(** *** Names *)

Lemma record_parent : parent record = root.
Proof. apply parent_snoc. Qed.
Lemma target_parts : exists relative, relative_path (get arguments "path") "path" = Ok relative /\ relative <> []
  /\ target = workspace ++ relative /\ pl_relative_path p = as_posix relative.
Proof.
  destruct (workspace_write_plan_ok _ _ _ _ _ Hplan) as (rel & Er & Ep & Erp & _).
  destruct (relative_path_ok _ _ _ Er) as (s & _ & _ & N & _). by exists rel.
Qed.
Lemma target_name : target = parent target ++ [name_of target].
Proof.
  destruct target_parts as (rel & _ & N & -> & _). apply app_removelast_last. by destruct workspace, rel.
Qed.
Lemma record_ne_target : record <> target.
Proof. intros E. apply (ap_parents Hap). by rewrite <- E, record_parent. Qed.
Lemma lock_ne_target : lock_path root effect_id <> target.
Proof. intros E. apply (ap_parents Hap). rewrite <- E. apply parent_snoc. Qed.

Lemma record_name : record = parent record ++ [name_of record].
Proof. rewrite record_parent. unfold name_of, record, record_path. by rewrite List.last_last. Qed.

(** *** The frame of a stage *)

Section stage_frame.
  Context (J T : option inode -> Prop).
Let G : spec := put (put F record J) target T.

Lemma stage_record : G record = Some J.
Proof. unfold G. rewrite put_ne by apply record_ne_target. apply put_eq. Qed.
Lemma stage_target : G target = Some T.
Proof. apply put_eq. Qed.
Lemma stage_lock : G (lock_path root effect_id) = None.
Proof. unfold G. rewrite put_ne by apply lock_ne_target. rewrite put_ne by apply lock_ne_record. apply (ap_lock Hap). Qed.
Lemma stage_root : tracks_dir G root.
Proof.
  apply tracks_dir_put; [apply (ap_root_target Hap)|]. apply tracks_dir_put; [|apply (ap_root Hap)].
  intros E. apply (f_equal (@List.length _)) in E. unfold record, record_path in E. rewrite length_app in E. simpl in E. lia.
Qed.
Lemma stage_parent : tracks_dir G (parent target).
Proof.
  apply tracks_dir_put; [|apply tracks_dir_put; [apply (ap_parent_record Hap)|apply (ap_parent Hap)]].
  intros E. apply (f_equal (@List.length _)) in E. rewrite target_name in E at 2. rewrite length_app in E. simpl in E. lia.
Qed.
Lemma stage_record_temps : temps_free G ("." +:+ name_of record +:+ ".") (parent record).
Proof.
  rewrite record_parent. apply temps_free_put; [apply temps_free_put; [apply (ap_record_temps Hap)|]|].
  - intros s. rewrite <- record_parent at 1. apply temp_ne, record_name.
  - intros s E. apply (ap_parents Hap). rewrite <- E. apply parent_snoc.
Qed.
Lemma stage_target_temps : temps_free G ("." +:+ name_of target +:+ ".") (parent target).
Proof.
  apply temps_free_put; [apply temps_free_put; [apply (ap_target_temps Hap)|]|].
  - intros s E. apply (ap_parents Hap). rewrite <- record_parent, <- E. by rewrite parent_snoc.
  - intros s. apply temp_ne, target_name.
Qed.
End stage_frame.

Lemma stage_mono J J' T T' v d : stage J T v d -> (forall y, J y -> J' y) -> (forall y, T y -> T' y) -> stage J' T' v d.
Proof.
  intros M HJ HT. eapply meets_weaken; [exact M|]. intros q Y. unfold put. destruct (decide (q = target)); [intros [= <-]; by eauto|].
  destruct (decide (q = record)); [intros [= <-]; by eauto|]. eauto.
Qed.
Lemma stage_put_record J J' T v d : meets h (put (put (put F record J) target T) record J') v d -> stage J' T v d.
Proof.
  apply meets_ext. intros q. unfold put. destruct (decide (q = record)) as [->|]; [|done].
  by rewrite decide_False by apply record_ne_target.
Qed.
Lemma stage_put_target J T T' v d : meets h (put (put (put F record J) target T) target T') v d -> stage J T' v d.
Proof. apply meets_ext. intros q. unfold put. by destruct (decide (q = target)). Qed.
Lemma stage_stable J T : stable h (stage J T).
Proof. apply stable_meets. Qed.
Lemma interrupted_stable : stable h interrupted.
Proof. apply stable_or; [apply stage_stable|]. apply stable_or; apply stage_stable. Qed.

(** *** The steps *)

Notation write := (write_record umask root effect_id request_sha256 (write_operation edit)).
Notation bytes_of next := (record_bytes (closed_record effect_id request_sha256 (write_operation edit) next)).

Lemma write_stage J T next :
  (calm h = true -> is_ok (bytes_of next) = true) -> (calm h = true -> forall j, J (Some j) -> i_kind j <> Dir) ->
  let during := stage (fun y => J y \/ written next y) T in
  triple h (stage J T) (write next) (fun _ => stage (written next) T) (fun _ => during) during.
Proof.
  intros Hok Hk during. unfold write_record.
  eapply triple_weaken; [apply (atomic_private_json_rule umask h (put (put F record J) target T) record _ J); [apply stage_record| | |exact Hok|exact Hk]|done|..].
  - rewrite record_parent. apply stage_root.
  - apply stage_record_temps.
  - intros ? v d. apply stage_put_record.
  - intros ? v d. apply stage_put_record.
  - intros v d. apply stage_put_record.
Qed.

Lemma old_file y : is_old y -> forall j, y = Some j -> i_kind j <> Dir.
Proof.
  intros -> j E. destruct (workspace_write_plan_ok _ _ _ _ _ Hplan) as (_ & _ & _ & _ & _ & _ & _ & Hr & _).
  unfold old, target in E. rewrite E in Hr. destruct Hr as (d & Hr & _). by rewrite Hr.
Qed.

Lemma published_new y : published (Ok (pl_data p)) (pl_mode p) y -> is_new y.
Proof. intros (b & [= <-] & ->). done. Qed.

Lemma commit_stage J :
  let during := stage J (fun y => is_old y \/ is_new y) in
  triple h (stage J is_old) (commit_workspace_write p)
    (fun r v d => exists b, answers h b /\ r = committed p b /\ stage J is_new v d) (fun _ => during) during.
Proof.
  intros during. assert (forall v d, stage J is_old v d -> during v d) as Old by (intros v d M; by apply (stage_mono _ _ _ _ _ _ M); auto).
  unfold commit_workspace_write. eapply (triple_bind h _ _ _ (fun _ => stage J is_old)).
  { eapply triple_post; [apply triple_check; [apply stage_stable|intros ?; exact Old|exact Old]|]. by intros b v d [_ M]. }
  intros _. eapply (triple_bind h _ _ _ (fun b v d => answers h b /\ stage J is_new v d)).
  - eapply triple_weaken; [apply (publish_rule h (put (put F record J) target is_old) (Replaced (pl_path p)) _ _ (pl_mode p) _ check (answers h) is_old)|done|..].
    + apply stage_target.
    + apply stage_target_temps.
    + apply tracks_dir_there, stage_parent.
    + apply transparent_check.
    + done.
    + intros _ j Hj. by apply (old_file _ Hj).
    + intros b v d [Hb M]. split; [done|]. apply stage_put_target in M. by apply (stage_mono _ _ _ _ _ _ M); [|apply published_new].
    + intros e v d M. apply stage_put_target in M. apply (stage_mono _ _ _ _ _ _ M); [done|].
      intros y [Hy|Hy]; [by left|right; by apply published_new].
    + intros v d M. apply stage_put_target in M. apply (stage_mono _ _ _ _ _ _ M); [done|].
      intros y [Hy|Hy]; [by left|right; by apply published_new].
  - intros b. apply triple_ret. intros v d [Hb M]. by exists b.
Qed.

(** A record of this write is no directory. *)
Lemma written_file next j : written next (Some j) -> i_kind j <> Dir.
Proof. by intros (b & _ & [= ->]). Qed.

(** Details that are written with the same bytes. *)
Definition alike (dt : dict) : Prop := forall r, bytes_of (completed dt r) = bytes_of (completed details r).
  (** The completed record fits the journal. *)
  Hypothesis Hfits : forall b, h = Calm b -> is_ok (bytes_of (completed details (committed p b))) = true.

Lemma complete_stage dt b :
  alike dt -> answers h b ->
  triple h (stage (written (prepared details)) is_new) (write (completed dt (committed p b)))
    (fun _ => stage (written (completed details (committed p b))) is_new) (fun _ => interrupted) interrupted.
Proof.
  intros Ed Hb. assert (forall y, written (completed dt (committed p b)) y -> written (completed details (committed p b)) y) as Ew.
  { intros y. unfold written. by rewrite Ed. }
  assert (forall v d, stage (fun y => written (prepared details) y \/ written (completed dt (committed p b)) y) is_new v d -> interrupted v d) as I.
  { intros v d M. right. right. apply (stage_mono _ _ _ _ _ _ M); [|done]. intros y [Hy|Hy]; [by left|right]. exists b. by apply Ew. }
  eapply triple_weaken; [apply (write_stage (written (prepared details)) is_new)|done| |intros ?; exact I|exact I].
  - rewrite Ed. intros Hc. destruct h as [b'| |] eqn:Eh; [|done..]. rewrite (Hb b') by done. by apply Hfits.
  - intros _ j. apply written_file.
  - intros ? v d M. by apply (stage_mono _ _ _ _ _ _ M).
Qed.

(** The end of the call, from a prepared record and the old file. *)
Lemma finish_stage dt :
  alike dt ->
  triple h (stage (written (prepared details)) is_old)
    (do! result := commit_workspace_write p in do! _ := write (completed dt result) in pret result)
    done_with (fun _ => interrupted) interrupted.
Proof.
  intros Ed. assert (forall v d, stage (written (prepared details)) (fun y => is_old y \/ is_new y) v d -> interrupted v d) as I by (intros v d M; by right; left).
  eapply triple_bind; [eapply triple_crash; [eapply triple_errors; [apply commit_stage|intros ?; exact I]|exact I]|].
  intros r. apply triple_ex. intros b. apply triple_pure. intros Hb. apply triple_pure. intros ->.
  eapply triple_seq; [by apply complete_stage|]. apply triple_ret. intros v d M. by exists b.
Qed.

(** *** Reading the stage *)

Lemma stage_held_record J T v d : stage J T v d -> names_ok h v d /\ held h J record v d.
Proof. intros [W M]. split; [done|]. apply M, stage_record. Qed.
Lemma stage_found J T v d : stage J T v d -> T (snd <$> stat v target).
Proof.
  intros [W M]. pose proof (held_stat _ _ _ _ _ W (M _ _ (stage_target J T))) as S. by destruct (stat v target) as [[n i]|]; [destruct S|].
Qed.

(** A plan made where the file is the same is the same plan. *)
Lemma same_plan v p' : workspace_write_plan workspace v arguments edit = Ok p' -> snd <$> stat v target = old -> p' = p.
Proof.
  intros E Es. destruct (workspace_write_plan_ok _ _ _ _ _ E) as (r & Er & Ep & Erp & Esha & _ & _ & Ho).
  destruct (workspace_write_plan_ok _ _ _ _ _ Hplan) as (r' & Er' & Ep' & Erp' & Esha' & _ & _ & Ho').
  rewrite Er in Er'. injection Er' as <-. assert (pl_path p' = target) as Et by (unfold target; by rewrite Ep, Ep').
  rewrite Et, Es in Ho. change (snd <$> stat v0 (pl_path p)) with old in Ho'. cbv zeta in Ho, Ho'.
  destruct Ho as (_ & _ & Hw & Hpre & Hor), Ho' as (_ & _ & Hw' & Hpre' & Hor'). rewrite Hw in Hw'. injection Hw' as Ed Em.
  destruct p', p. cbn in *. congruence.
Qed.

(** *** The first attempt *)

Notation call := (journaled_workspace_write workspace root umask arguments edit request_sha256).

Lemma id_again : validate_effect_id (JStr effect_id) = Ok effect_id.
Proof.
  destruct (get arguments "effect_id") as [| | | | |s| |] eqn:E; try done.
  assert (s = effect_id) as <-; [|done]. revert Hid. unfold validate_effect_id. destruct (points true (chars s)) as [[|c l]|]; try done.
  destruct (_ && _ && _); [by intros [= ->]|done].
Qed.

Lemma first_attempt_rule :
  (calm h = true -> forall v d, stage absent is_old v d -> is_ok (workspace_write_plan workspace v arguments edit) = true) ->
  (calm h = true -> is_ok (bytes_of (prepared details)) = true) ->
  triple h (fun v d => stage absent is_old v d /\ (calm h = true -> lock_ok v (lock_path root effect_id))) call
    done_with (fun _ => interrupted) interrupted.
Proof.
  intros Hc1 Hc2. unfold journaled_workspace_write. rewrite Hid. apply triple_known. rewrite Hreq. apply triple_known.
  assert (forall v d, stage absent is_old v d -> interrupted v d) as I.
  { intros v d M. left. apply (stage_mono _ _ _ _ _ _ M); [by left|done]. }
  assert (forall v d, stage absent is_old v d -> current_record root v effect_id request_sha256 (write_operation edit) = Ok None) as Cr.
  { intros v d M. destruct (stage_held_record _ _ _ _ M) as [W Hr]. by apply (current_record_absent h root _ _ _ v d). }
  apply (locked_rule umask h root effect_id request_sha256 _ id_again (put (put F record absent) target is_old));
    [apply stage_lock|apply stage_root|intros ?; exact I|exact I| |].
  - intros _ v d M. by rewrite (Cr v d M).
  - intros o. eapply triple_pre; [apply (triple_pure h (o = None)); intros ->|].
    2:{ intros v d [M E]. split; [rewrite (Cr v d M) in E; by injection E|exact M]. }
    apply triple_now. intros u.
    apply (triple_bind h _ _ _ (fun p' v d => p' = p /\ stage absent is_old v d)).
    { apply triple_of. intros v d [-> M]. destruct (workspace_write_plan workspace u arguments edit) as [p'|e] eqn:Ep.
      - split; [|done]. apply (same_plan u); [done|]. exact (stage_found _ _ _ _ M).
      - split; [|by apply I]. apply not_true_is_false. intros Ec. specialize (Hc1 Ec u d M). by rewrite Ep in Hc1. }
    intros p'. apply triple_pure. intros ->. fold details. eapply triple_seq.
    + eapply triple_crash; [eapply triple_errors; [apply (write_stage absent is_old (prepared details)); [done|by intros ? ? ?]|]|]; [intros ?|]; intros v d M; left; exact M.
    + by apply finish_stage.
Qed.

(** *** The record of a write *)

  Hypothesis Hdepth : (3 <= max_depth)%nat.

Lemma request_sorted :
  plain (JObj request) = true /\ nesting (JObj request) = 1%nat /\ sort_keys (JObj (without_id arguments)) = JObj request.
Proof.
  destruct (closed_request_sorted _ _ _ _ _ Hkeys (write_request_flat _ _ _ _ _ _ Hkeys Hplan Hreq) ltac:(lia) Hreq) as (P & N & E).
  split; [|split; [|done]]; rewrite <- E; [by apply plain_sort|by rewrite nesting_sort].
Qed.

Lemma plan_facts : exists relative,
  relative_path (get arguments "path") "path" = Ok relative /\ relative <> [] /\ existsb (String.eqb "..") relative = false
  /\ path_parts (as_posix relative) = relative /\ target = workspace ++ relative /\ pl_relative_path p = as_posix relative
  /\ pl_sha256 p = digest (of_chars (pl_data p)) /\ 0 <= pl_mode p < 4096 /\ replaceable old /\ replaceable new
  /\ pl_prestate p = state_of (file_of old).
Proof.
  destruct (workspace_write_plan_ok _ _ _ _ _ Hplan) as (rel & Er & Ep & Erp & Esha & Hl & _ & Hr & _ & Hw & Hpre & _).
  change (snd <$> stat v0 (pl_path p)) with old in *. destruct (relative_path_ok _ _ _ Er) as (s & _ & -> & N & _ & Nd & _).
  assert (0 <= pl_mode p < 4096 /\ Z.land (pl_mode p) 3602 = 0 /\ Z.testbit (pl_mode p) 8 = true) as (Hm & Hs & Ho).
  { assert (forall d m, file_of old = Some (d, m) -> 0 <= m < 4096 /\ Z.land m 3602 = 0 /\ Z.testbit m 8 = true) as A.
    { intros d m E. rewrite E in Hmode. split; [done|]. destruct old as [[[d'| | |] m' []]|]; try done. injection E as -> ->.
      destruct Hr as (? & _ & _ & ? & _ & ?). done. }
    revert Hw. unfold wanted. destruct edit; repeat case_match; try done; intros [= _ <-]; by eauto. }
  exists (path_parts s). split; [done|]. split; [done|]. split; [done|]. split; [by apply path_parts_join, parts_ok|].
  do 4 (split; [done|]). split; [done|]. split; [|done]. by exists (pl_data p).
Qed.

Lemma details_plain : plain (JObj details) = true /\ nesting (JObj details) = 2%nat.
Proof.
  destruct request_sorted as (Pr & Nr & _). destruct plan_facts as (_ & _ & _ & _ & _ & _ & _ & _ & Hm & _ & _ & Hpre).
  assert (plain (JObj (pl_prestate p)) = true /\ nesting (JObj (pl_prestate p)) = 1%nat) as [Pp Np].
  { rewrite Hpre. destruct (file_of old) as [[d m]|]; [|done]. cbn [mode_ok] in Hmode. split; [|done].
    unfold state_of, file_state. rewrite plain_obj. apply andb_true_iff. split; [by vm_compute|]. cbn [forallb snd].
    by rewrite (plain_int m) by lia. }
  assert (plain (JInt (pl_mode p)) = true) as Pm by (apply plain_int; lia).
  set (b64 := match pl_original_data p with Some b => JStr (of_chars (b64encode b)) | None => JNull end).
  assert (plain b64 = true /\ nesting b64 = 0%nat) as [Pb Nb] by (unfold b64; by destruct (pl_original_data p)).
  unfold details, write_details. fold b64. split.
  - rewrite plain_obj. apply andb_true_iff. split; [by vm_compute|]. cbn [forallb snd]. by rewrite Pp, Pm, Pb, Pr.
  - rewrite nesting_obj. cbn [map snd]. rewrite Np, Nb, Nr. done.
Qed.

Lemma prepared_plain : let c := closed_record effect_id request_sha256 (write_operation edit) (prepared details) in
  plain (JObj c) = true /\ nesting (JObj c) = 3%nat /\ NoDup c.*1.
Proof.
  intros c. destruct details_plain as [P N]. assert (NoDup c.*1) as Nd by (apply (bool_decide_unpack _); by vm_compute).
  split; [|split; [|done]].
  - rewrite plain_obj, bool_decide_true by done.
    unfold c, closed_record, prepared. cbn [app forallb snd]. by rewrite P.
  - rewrite nesting_obj. unfold c, closed_record, prepared.
    cbn [app map snd]. by rewrite N.
Qed.

(** The digest of the request, from the record. *)
Lemma same_request_again : same_request (write_operation edit) effect_id request request_sha256 = Ok true.
Proof.
  destruct request_sorted as (Pr & _ & Er). unfold same_request.
  assert (without_id (("effect_id", JStr effect_id) :: request) = request) as Ew.
  { unfold without_id. cbn [List.filter fst]. change ("effect_id" =? "effect_id")%string with true. cbn [negb].
    destruct (sorted_fields (without_id arguments)) as (d' & Ed & Pd). rewrite Er in Ed. injection Ed as <-.
    assert (forallb (fun kv => negb (kv.1 =? "effect_id")%string) request = true) as A.
    { rewrite (forallb_perm _ _ _ Pd). apply forallb_forall. intros kv (kv' & <- & Hk)%in_map_iff. by apply filter_In in Hk as [_ Hk]. }
    clear -A. induction request as [|kv l IH]; [done|]. cbn in *. apply andb_true_iff in A as [Ak A]. by rewrite Ak, (IH A). }
  assert (effect_request_sha256 "effect" (write_operation edit) (("effect_id", JStr effect_id) :: request)
          = effect_request_sha256 "effect" (write_operation edit) arguments) as ->; [|by rewrite Hsha; cbn; rewrite String.eqb_refl].
  unfold effect_request_sha256. rewrite Ew. f_equal. unfold canonical_bytes.
  set (wrap := fun d => JObj [("capability", JStr "effect"); ("operation", JStr (write_operation edit)); ("arguments", JObj d)]).
  fold (wrap request) (wrap (without_id arguments)).
  assert (sort_keys (wrap request) = sort_keys (wrap (without_id arguments))) as ->.
  { unfold wrap. rewrite !(sort_obj [_; _; _]). cbn [map snd fst]. by rewrite <- Er, sort_keys_idem. }
  assert (forall d, (forall k v, (k, v) ∈ d -> flat v = true) -> finite (wrap d) = true /\ ints_ok (wrap d) = true) as A.
  { intros d Fl. unfold wrap. cbn [finite ints_ok forallb snd andb]. rewrite !andb_true_r. split; apply forallb_forall;
      intros [k v] Hk%list_elem_of_In; specialize (Fl k v Hk); by destruct v. }
  pose proof (write_request_flat _ _ _ _ _ _ Hkeys Hplan Hreq) as Fl. destruct (A _ Fl) as [-> ->].
  destruct (A request) as [-> ->]; [|done]. intros k v Hk. destruct (sorted_fields (without_id arguments)) as (d' & Ed & Pd).
  rewrite Er in Ed. injection Ed as <-. rewrite Pd in Hk. apply list_elem_of_fmap in Hk as ([k' v'] & [= -> ->] & Hk).
  specialize (Fl _ _ Hk). by destruct v'.
Qed.

(** *** What a prepared record makes of the request *)

  (** The digests tell the two contents apart. *)
  Hypothesis Hcol : forall d m, file_of old = Some (d, m) -> ~ collides (of_chars d) (of_chars (pl_data p)).

Definition recovered (pre : dict) : Plan :=
  {| pl_path := pl_path p; pl_relative_path := pl_relative_path p; pl_data := pl_data p; pl_sha256 := pl_sha256 p;
     pl_mode := pl_mode p; pl_prestate := pre; pl_original_data := None |}.

Lemma desired_is_new : desired_state p = state_of (file_of new).
Proof. destruct plan_facts as (_ & _ & _ & _ & _ & _ & _ & Es & _). unfold desired_state. by rewrite Es. Qed.

(** What is found, compared with the two states. *)
Lemma found_desired relative v :
  target = workspace ++ relative -> is_old (snd <$> stat v target) \/ is_new (snd <$> stat v target) ->
  py_eq (JObj (path_state_beneath workspace v relative)) (JObj (desired_state p)) = true -> is_new (snd <$> stat v target).
Proof.
  intros Et [Ho|Hn] Eq; [|done]. rewrite desired_is_new in Eq.
  destruct (path_state_cases workspace v relative _ eq_refl) as [(_ & _ & P)|[(_ & R & (f & Ef) & P)|[P|[m P]]]];
    rewrite P in Eq; [done| |done..]. rewrite <- Et, Ho in *. rewrite Ef in Eq. destruct f as [d m].
  cbn [new file_of state_of] in Eq. rewrite py_eq_files in Eq. apply andb_true_iff in Eq as [E1%String.eqb_eq ->%Z.eqb_eq].
  apply digest_inj in E1 as [E1|E1]; [|by destruct (Hcol _ _ Ef)]. apply (f_equal chars) in E1. rewrite !chars_of_chars in E1. subst d.
  unfold is_new, new. destruct old as [[[d'| | |] m' []]|]; try done. injection Ef as -> ->. done.
Qed.

Lemma found_old relative v pre :
  target = workspace ++ relative -> is_old (snd <$> stat v target) \/ is_new (snd <$> stat v target) ->
  sort_keys (JObj (state_of (file_of old))) = JObj pre ->
  py_eq (JObj (path_state_beneath workspace v relative)) (JObj (desired_state p)) = false ->
  py_eq (JObj (path_state_beneath workspace v relative)) (JObj pre) = true -> is_old (snd <$> stat v target).
Proof.
  intros Et [Ho|Hn] Epre Ed Eq; [done|]. rewrite desired_is_new in Ed.
  destruct (path_state_cases workspace v relative _ eq_refl) as [(_ & O & P)|[(_ & R & _ & P)|[P|[m P]]]]; rewrite P in Ed, Eq.
  - by rewrite <- Et, Hn in O.
  - rewrite <- Et, Hn in Ed. exfalso. apply not_true_iff_false in Ed. apply Ed.
    cbn [new file_of state_of]. by rewrite py_eq_files, String.eqb_refl, Z.eqb_refl.
  - exfalso. destruct (file_of old) as [[d' m']|]; injection Epre as <-; done.
  - exfalso. destruct (file_of old) as [[d' m']|]; injection Epre as <-; done.
Qed.

(** The way to the target. *)
Definition clear (v : volume) : Prop := way_clear workspace v (path_parts (pl_relative_path p)).

Lemma resume_found v r n :
  sort_keys (JObj (closed_record effect_id request_sha256 (write_operation edit) (prepared details))) = JObj r ->
  is_old (snd <$> stat v target) \/ is_new (snd <$> stat v target) ->
  (forall m i, stat v target = Some (m, i) -> m = n /\ nlink v n = 1%nat) ->
  match resume_write workspace v r request effect_id request_sha256 edit with
  | Ok (dt, q, is_done) =>
      JObj dt = sort_keys (JObj details) /\ (exists pre, q = recovered pre)
      /\ if (is_done : bool) then is_new (snd <$> stat v target) else is_old (snd <$> stat v target)
  | Err _ => ~ clear v
  end.
Proof.
  intros Er Hon Hlink. destruct prepared_plain as (_ & _ & Nd). pose proof (get_sort _ _ "details" Nd Er) as Gd.
  destruct (sorted_fields details) as (dt & Edt & _). change (get (closed_record _ _ _ _) "details") with (JObj details) in Gd.
  unfold resume_write. rewrite Gd, Edt. destruct details_plain as [Pd _].
  assert (NoDup details.*1) as Ndd by (rewrite plain_obj in Pd; apply andb_true_iff in Pd as [Pd _]; by apply bool_decide_eq_true in Pd).
  destruct request_sorted as (Pr & _ & Esr).
  assert (sort_keys (JObj request) = JObj request) as Err by (rewrite <- Esr; apply sort_keys_idem).
  rewrite (get_sort _ _ "request_arguments" Ndd Edt). change (get details "request_arguments") with (JObj request). rewrite Err.
  assert (py_eq (JObj request) (JObj request) = true) as -> by (rewrite <- Err at 2; by apply py_eq_sort).
  rewrite same_request_again. cbn [rbind]. destruct plan_facts as (rel & Erel & Nr & Nd2 & Epp & Et & Erp & Esha & _ & Ro & Rn & Hpre).
  assert (clear v -> workspace_path workspace v (JStr (pl_relative_path p)) "path" = Ok (pl_path p)) as Hclear.
  { unfold clear. rewrite Erp, Epp. fold target. rewrite Et. by intros [C _]. }
  destruct (workspace_recovery_plan workspace v request dt edit) as [q|e] eqn:Eq; cbn [rbind].
  2:{ intros C. destruct (recovery_plan_again workspace v0 v arguments edit p request dt) as (pre & _ & _ & R); try done; [lia|by apply Hclear|].
      by rewrite R in Eq. }
  destruct (recovery_plan_path _ _ _ _ _ _ Eq) as (rel' & Erel' & Erq & Epq & Ewq).
  assert (get request "path" = get arguments "path") as Gp.
  { unfold get. rewrite (get_request arguments) by done. destruct (relative_path_ok _ _ _ Erel) as (s & Es & _). unfold get in Es.
    destruct (dict_get "path" arguments); [|done]. cbn in *. by rewrite Es. }
  assert (rel' = rel) as ->.
  { rewrite Gp in Erel'. destruct (relative_path_ok _ _ _ Erel) as (s & Es & -> & _), (relative_path_ok _ _ _ Erel') as (s' & Es' & -> & _).
    by rewrite Es in Es'; injection Es' as ->. }
  rewrite Erq, <- Erp, Epq in Ewq. rewrite <- Et in Ewq.
  destruct (recovery_plan_again workspace v0 v arguments edit p request dt) as (pre & Epre & Gpre & R); try done; [lia|].
  rewrite R in Eq. injection Eq as <-. fold (recovered pre). change (pl_relative_path (recovered pre)) with (pl_relative_path p).
  change (desired_state (recovered pre)) with (desired_state p). rewrite Erp, Epp.
  assert (sort_keys (JObj dt) = JObj dt) as Edd by (rewrite <- Edt; apply sort_keys_idem).
  destruct (py_eq _ (JObj (desired_state p))) eqn:Ed.
  { split; [done|]. split; [by exists pre|]. by apply (found_desired rel). }
  rewrite Gpre. rewrite Hpre in Epre. destruct (py_eq _ (JObj pre)) eqn:Eo.
  { split; [done|]. split; [by exists pre|]. by apply (found_old rel v pre). }
  unfold clear. rewrite Erp, Epp. intros C.
  assert (forall y, snd <$> stat v target = y -> replaceable y -> path_state_beneath workspace v rel = state_of (file_of y)) as St.
  { intros y Ey Ry. apply (state_again workspace v rel y); [done..|]. unfold found. rewrite <- Et. destruct (stat v target) as [[m i]|] eqn:Es; subst y; cbn; [|done].
    destruct (Hlink m i eq_refl) as [-> ?]. by exists n. }
  destruct Hon as [Ho|Hn].
  - rewrite (St _ Ho Ro) in Eo. rewrite <- Epre in Eo. rewrite py_eq_sort in Eo; [done|].
    rewrite Hpre in Pd || idtac. rewrite <- Hpre. clear -Pd. unfold details, write_details in Pd. rewrite plain_obj in Pd.
    apply andb_true_iff in Pd as [_ Pd]. cbn [forallb snd] in Pd. by apply andb_true_iff in Pd as [_ [Pd _]%andb_true_iff].
  - rewrite (St _ Hn Rn), desired_is_new in Ed. cbn [new file_of state_of] in Ed. by rewrite py_eq_files, String.eqb_refl, Z.eqb_refl in Ed.
Qed.

(** *** Another attempt *)

Lemma plain_printable j : plain j = true -> finite j = true /\ ints_ok j = true.
Proof.
  induction j as [| |z| | | |l IH|kvs IH] using json_rect_all; try done.
  - cbn [plain ints_ok finite]. rewrite !forallb_forall, Forall_forall in *. intros Hp. split; intros x Hx; apply IH; auto; by apply list_elem_of_In.
  - cbn [plain ints_ok finite]. intros [_ Hp]%andb_true_iff. rewrite !forallb_forall, Forall_forall in *.
    split; intros x Hx; apply IH; auto; by apply list_elem_of_In.
Qed.

Lemma sorted_alike dt : JObj dt = sort_keys (JObj details) -> alike dt.
Proof.
  intros E r. destruct details_plain as [P _]. assert (plain (JObj dt) = true) as Pd by (rewrite E; by apply plain_sort).
  destruct (plain_printable _ P) as [F1 F2], (plain_printable _ Pd) as [G1 G2]. unfold record_bytes, canonical_bytes. f_equal.
  unfold closed_record, completed. cbn [app finite ints_ok forallb snd] in *. rewrite F1, F2, G1, G2.
  rewrite !sort_obj. cbn [map fst snd]. by rewrite E, sort_keys_idem.
Qed.

Lemma not_replayed r :
  sort_keys (JObj (closed_record effect_id request_sha256 (write_operation edit) (prepared details))) = JObj r -> replayed_result r = Ok None.
Proof.
  intros Er. destruct prepared_plain as (_ & _ & Nd). pose proof (get_sort _ _ "state" Nd Er) as Gs.
  unfold replayed_result. rewrite Gs. done.
Qed.

Lemma retry_rule T :
  (forall y, T y -> is_old y \/ is_new y) -> (forall y, T y -> (forall z, T z -> z = y)) ->
  (calm h = true -> forall v d, stage (written (prepared details)) T v d -> clear v) ->
  triple h (fun v d => stage (written (prepared details)) T v d /\ (calm h = true -> lock_ok v (lock_path root effect_id))) call
    done_with (fun _ => interrupted) interrupted.
Proof.
  intros HT HT1 Hc. unfold journaled_workspace_write. rewrite Hid. apply triple_known. rewrite Hreq. apply triple_known.
  assert (forall v d, stage (written (prepared details)) T v d -> interrupted v d) as I.
  { intros v d M. right. left. by apply (stage_mono _ _ _ _ _ _ M). }
  destruct prepared_plain as (Pp & Np & _).
  assert (forall v d, stage (written (prepared details)) T v d -> exists r,
            current_record root v effect_id request_sha256 (write_operation edit) = Ok (Some r)
            /\ sort_keys (JObj (closed_record effect_id request_sha256 (write_operation edit) (prepared details))) = JObj r) as Cr.
  { intros v d M. destruct (stage_held_record _ _ _ _ M) as [W Hr]. apply (current_record_written h root _ _ _ v d); [done..|]. by rewrite Np. }
  apply (locked_rule umask h root effect_id request_sha256 _ id_again (put (put F record (written (prepared details))) target T));
    [apply stage_lock|apply stage_root|intros ?; exact I|exact I| |].
  { intros _ v d M. by destruct (Cr v d M) as (r & -> & _). }
  intros o.
  eapply triple_pre; [apply (triple_ex h (fun r v d => (o = Some r
    /\ sort_keys (JObj (closed_record effect_id request_sha256 (write_operation edit) (prepared details))) = JObj r)
    /\ stage (written (prepared details)) T v d))|].
  2:{ intros v d [M E]. destruct (Cr v d M) as (r & Er & Es). exists r. rewrite Er in E. by injection E as <-. }
  intros r. apply triple_pure. intros [-> Er]. rewrite (not_replayed r Er). apply triple_known. apply triple_now. intros u.
  eapply (triple_bind h _ _ _ (fun (x : dict * Plan * bool) v d => (JObj x.1.1 = sort_keys (JObj details) /\ exists pre : dict, x.1.2 = recovered pre)
    /\ stage (written (prepared details)) (if (x.2 : bool) then is_new else is_old) v d)).
  - apply triple_of. intros v d [-> M]. pose proof (stage_found _ _ _ _ M) as HTu.
    pose proof (held_stat _ _ _ _ _ (proj1 M) (proj2 M _ _ (stage_target (written (prepared details)) T))) as Hs.
    assert (exists n, forall m i, stat u target = Some (m, i) -> m = n /\ nlink u n = 1%nat) as [n Hn].
    { destruct (stat u target) as [[m i]|]; [|by exists 0%nat]. exists m. intros m' i' [= <- <-].
      destruct Hs as [_ Hs%Nat.eqb_eq]. by split. }
    pose proof (resume_found u r n Er (HT _ HTu) Hn) as Rf.
    destruct (resume_write workspace u r request effect_id request_sha256 edit) as [[[dt q] b]|e].
    + cbn [fst snd]. destruct Rf as (E1 & E2 & E3). split; [done|]. apply (stage_mono _ _ _ _ _ _ M); [done|].
      intros y Hy. rewrite (HT1 _ HTu y Hy). by destruct b.
    + split; [|by apply I]. apply not_true_is_false. intros Ec. by apply Rf, (Hc Ec u d).
  - intros [[dt q] b]. cbn [fst snd]. apply triple_pure. intros [Edt [pre ->]]. apply sorted_alike in Edt as Ea. destruct b.
    + change (committed (recovered pre)) with (committed p).
      eapply (triple_bind h _ _ _ (fun b v d => answers h b /\ stage (written (prepared details)) is_new v d)).
      * apply triple_check; [apply interrupted_stable|intros ?|]; intros v d M; right; left; (apply (stage_mono _ _ _ _ _ _ M); [done|by right]).
      * intros b. apply triple_pure. intros Hb. eapply triple_seq; [by apply complete_stage|]. apply triple_ret. intros v d M. by exists b.
    + exact (finish_stage dt Ea).
Qed.

(** *** A completed write, again *)

Lemma completed_plain b y : written (completed details (committed p b)) y ->
  let c := closed_record effect_id request_sha256 (write_operation edit) (completed details (committed p b)) in
  plain (JObj c) = true /\ nesting (JObj c) = 3%nat /\ NoDup c.*1.
Proof.
  intros (bs & Eb & _) c. destruct details_plain as [P N].
  assert (NoDup c.*1) as Nd by (apply (bool_decide_unpack _); by vm_compute).
  assert (plain (JObj (committed p b)) = true) as Pc.
  { rewrite plain_obj. apply andb_true_iff. split; [by vm_compute|]. apply record_bytes_ok in Eb as (cb & Ec & _).
    unfold canonical_bytes in Ec. guards in Ec. destruct Ec as (_ & Ei & _). change (forallb (fun kv => ints_ok kv.2) c = true) in Ei.
    rewrite forallb_forall in Ei. assert (ints_ok (JInt (b_admission_epoch b)) = true) as Ez.
    { assert (ints_ok (JObj (committed p b)) = true) as Ec by (apply (Ei ("result", JObj (committed p b))); simpl; tauto).
      change (forallb (fun kv => ints_ok kv.2) (committed p b) = true) in Ec. rewrite forallb_forall in Ec.
      apply (Ec ("admission_epoch", JInt (b_admission_epoch b))). simpl. tauto. }
    apply forallb_forall. intros kv Hkv. repeat (destruct Hkv as [<-|Hkv]; [done|]). done. }
  split; [|split; [|done]].
  - rewrite plain_obj, bool_decide_true by done. unfold c, closed_record, completed. cbn [app forallb snd]. by rewrite P, Pc.
  - rewrite nesting_obj. unfold c, closed_record, completed. cbn [app map snd]. by rewrite N.
Qed.

(** The answer to a request that has been carried out. *)
Definition answered (r : dict) : assertion := fun v d =>
  (exists b, sort_keys (JObj r) = sort_keys (JObj (committed p b))) /\ stage finished is_new v d.

Lemma replay_rule b T :
  triple h (fun v d => stage (written (completed details (committed p b))) T v d /\ (calm h = true -> lock_ok v (lock_path root effect_id))) call
    (fun r v d => JObj r = sort_keys (JObj (committed p b)) /\ stage (written (completed details (committed p b))) T v d)
    (fun _ => stage (written (completed details (committed p b))) T) (stage (written (completed details (committed p b))) T).
Proof.
  unfold journaled_workspace_write. rewrite Hid. apply triple_known. rewrite Hreq. apply triple_known.
  set (J := written (completed details (committed p b))).
  assert (forall v d, stage J T v d -> exists r,
            current_record root v effect_id request_sha256 (write_operation edit) = Ok (Some r)
            /\ sort_keys (JObj (closed_record effect_id request_sha256 (write_operation edit) (completed details (committed p b)))) = JObj r
            /\ NoDup (closed_record effect_id request_sha256 (write_operation edit) (completed details (committed p b))).*1) as Cr.
  { intros v d M. destruct (stage_held_record _ _ _ _ M) as [W Hr].
    assert (exists y, J y) as [y Hy].
    { pose proof (held_stat _ _ _ _ _ W Hr) as S. destruct (stat v record) as [[n i]|]; [destruct S|]; by eexists. }
    destruct (completed_plain b y Hy) as (Pp & Np & Nd).
    destruct (current_record_written h root effect_id request_sha256 (write_operation edit) v d _ W Hr Pp) as (r & E1 & E2); [by rewrite Np|].
    by exists r. }
  apply (locked_rule umask h root effect_id request_sha256 _ id_again (put (put F record J) target T));
    [apply stage_lock|apply stage_root|done|done| |].
  { intros _ v d M. by destruct (Cr v d M) as (r & -> & _). }
  intros o. eapply triple_pre; [apply (triple_ex h (fun r v d => (o = Some r
    /\ sort_keys (JObj (closed_record effect_id request_sha256 (write_operation edit) (completed details (committed p b)))) = JObj r
    /\ NoDup (closed_record effect_id request_sha256 (write_operation edit) (completed details (committed p b))).*1)
    /\ stage J T v d))|].
  2:{ intros v d [M E]. destruct (Cr v d M) as (r & Er & Es & Nd). exists r. rewrite Er in E. by injection E as <-. }
  intros r. apply triple_pure. intros (-> & Er & Nd).
  destruct (sorted_fields (committed p b)) as (res & Eres & _).
  assert (replayed_result r = Ok (Some res)) as ->.
  { unfold replayed_result. rewrite (get_sort _ _ "state" Nd Er), (get_sort _ _ "result" Nd Er).
    change (get (closed_record _ _ _ _) "result") with (JObj (committed p b)). rewrite Eres. done. }
  apply triple_known. apply triple_ret. intros v d M. by rewrite Eres.
Qed.

(** *** Any attempt *)

Lemma stage_exact J T v d : h <> Losses \/ v = d -> stage J T v d ->
  exists y z, J y /\ T z /\ stage (fun x => x = y) (fun x => x = z) v d.
Proof.
  intros Hh M. exists (snd <$> stat v record), (snd <$> stat v target). split; [|split].
  - destruct (stage_held_record _ _ _ _ M) as [W Hr]. pose proof (held_stat _ _ _ _ _ W Hr) as S.
    by destruct (stat v record) as [[n i]|]; [destruct S|].
  - exact (stage_found _ _ _ _ M).
  - destruct (stage_held_record _ _ _ _ M) as [W Hr]. apply (held_exact h _ _ _ _ Hh W) in Hr.
    pose proof (proj2 M _ _ (stage_target J T)) as Ht. apply (held_exact h _ _ _ _ Hh W) in Ht.
    apply (stage_put_target _ T). apply meets_held; [|done]. apply (stage_put_record J). apply meets_held; done.
Qed.

Lemma clear_found v d J T : stage J T v d -> clear v ->
  forall relative, target = workspace ++ relative -> path_parts (pl_relative_path p) = relative -> found workspace v relative (snd <$> stat v target).
Proof.
  intros [W M] _ rel Et _. pose proof (held_stat _ _ _ _ _ W (M _ _ (stage_target J T))) as S. unfold found. rewrite <- Et.
  destruct (stat v target) as [[n i]|]; [|done]. exists n. split; [done|]. by apply Nat.eqb_eq, (proj2 S).
Qed.

Lemma clear_plan v d : stage absent is_old v d -> clear v -> workspace_write_plan workspace v arguments edit = Ok p.
Proof.
  intros M C. destruct plan_facts as (rel & Erel & _ & _ & Epp & Et & Erp & _).
  apply (plan_again workspace v0 v arguments edit p rel); [done|done|by unfold clear in C; rewrite Erp, Epp in C| |].
  - rewrite <- Et. eapply tracks_dir_is; [exact M|apply stage_parent].
  - rewrite <- Et. change (snd <$> stat v0 target) with old. rewrite <- (stage_found _ _ _ _ M : snd <$> stat v target = old).
    apply (clear_found v d _ _ M C); [done|]. by rewrite Erp.
Qed.

Lemma attempt_rule :
  (calm h = true -> forall v d, stage (fun _ => True) (fun y => is_old y \/ is_new y) v d -> clear v) ->
  (calm h = true -> is_ok (bytes_of (prepared details)) = true) ->
  triple h (fun v d => interrupted v d /\ (h = Losses -> v = d) /\ (calm h = true -> lock_ok v (lock_path root effect_id))) call
    answered (fun _ => interrupted) interrupted.
Proof.
  intros Hc Hp.
  assert (forall r v d, done_with r v d -> answered r v d) as Da.
  { intros r v d (b & _ & -> & M). split; [by exists b|]. apply (stage_mono _ _ _ _ _ _ M); [|done]. intros y Hy. by exists b. }
  set (G := fun (yz : option inode * option inode) (v d : volume) =>
    ((absent yz.1 \/ written (prepared details) yz.1) /\ is_old yz.2
     \/ written (prepared details) yz.1 /\ (is_old yz.2 \/ is_new yz.2)
     \/ (written (prepared details) yz.1 \/ finished yz.1) /\ is_new yz.2)
    /\ stage (fun x => x = yz.1) (fun x => x = yz.2) v d /\ (calm h = true -> lock_ok v (lock_path root effect_id))).
  eapply triple_pre; [apply (triple_ex h G)|].
  2:{ intros v d (I & L & Lk). assert (h <> Losses \/ v = d) as Hh by (destruct h; [by left..|right; by apply L]).
      destruct I as [M|[M|M]]; destruct (stage_exact _ _ _ _ Hh M) as (y & z & Hy & Hz & M'); exists (y, z);
        (split; [|done]); cbn [fst snd]; tauto. }
  intros [y z]. unfold G. cbn [fst snd]. apply triple_pure. intros Hyz.
  assert (forall T, T z -> (forall x, T x -> is_old x \/ is_new x) -> (forall x x', T x -> T x' -> x = x') -> written (prepared details) y ->
    triple h (fun v d => stage (fun x => x = y) (fun x => x = z) v d /\ (calm h = true -> lock_ok v (lock_path root effect_id))) call
      answered (fun _ => interrupted) interrupted) as Retry.
  { intros T Tz To T1 Hy. eapply triple_post; [eapply triple_pre; [apply (retry_rule T)|]|exact Da]; [done|by eauto| |].
    - intros Ec v d M. apply (Hc Ec v d). apply (stage_mono _ _ _ _ _ _ M); [done|exact To].
    - intros v d [M Lk]. split; [|done]. by apply (stage_mono _ _ _ _ _ _ M); intros ? ->. }
  assert (written (prepared details) y -> is_old z \/ is_new z -> triple h (fun v d => stage (fun x => x = y) (fun x => x = z) v d
    /\ (calm h = true -> lock_ok v (lock_path root effect_id))) call answered (fun _ => interrupted) interrupted) as Retry'.
  { intros Hy [Hz|Hz]; [apply (Retry is_old)|apply (Retry is_new)]; auto; unfold is_old, is_new; congruence. }
  destruct Hyz as [[[Hy|Hy] Hz]|[[Hy Hz]|[[Hy|[b Hy]] Hz]]]; [|by apply Retry'; auto..|].
  - eapply triple_post; [eapply triple_pre; [apply first_attempt_rule; [|done]|]|exact Da].
    + intros Ec v d M. rewrite (clear_plan v d M); [done|]. apply (Hc Ec v d). apply (stage_mono _ _ _ _ _ _ M); [done|]. intros x Hx. by left.
    + intros v d [M Lk]. split; [|done]. by apply (stage_mono _ _ _ _ _ _ M); intros ? ->.
  - eapply triple_weaken; [apply (replay_rule b is_new)|..].
    + intros v d [M Lk]. split; [|done]. by apply (stage_mono _ _ _ _ _ _ M); intros ? ->.
    + intros r v d [Er M]. split; [exists b; by rewrite Er, sort_keys_idem|]. apply (stage_mono _ _ _ _ _ _ M); [|done].
      intros x Hx. by exists b.
    + intros ? v d M. right. right. apply (stage_mono _ _ _ _ _ _ M); [|done]. intros x Hx. right. by exists b.
    + intros v d M. right. right. apply (stage_mono _ _ _ _ _ _ M); [|done]. intros x Hx. right. by exists b.
Qed.

(** C32: The first attempt of a write or an edit, whatever system calls fail,
    wherever it is killed or the host loses power, even with what was not
    synced kept or lost name by name: it leaves the old file or the wanted one,
    never a torn one, and a journal record that says no more than was done (the
    new file may lie under a completed record, if only the answer was lost). If
    it returns, the wanted file and the completed record are on the disk. *)
Theorem stopped_writes_leave_a_stage w :
  calm h = false -> subject h w -> stage absent is_old (w_now w) (w_disk w) ->
  let '(o, w') := call w in
  match o with Done r => done_with r | _ => interrupted end (w_now w') (w_disk w').
Proof.
  intros Ec Sw M.
  assert (forall G : Prop, calm h = true -> G) as No by (intros G E; by rewrite E in Ec).
  pose proof (first_attempt_rule (fun E => No _ E) (fun E => No _ E) w Sw (conj M (fun E => No _ E))) as R.
  destruct (call w) as [[r|e|] w']; [by destruct R as [_ R]|by destruct R as (_ & _ & R)..].
Qed.
End writes.

(** *** Attempts, one after the other *)

(** What is held under a hazard is held under a weaker one, and under any when
    what processes see has reached the disk. *)
Lemma meets_hazard h h' F v d d' : (h' = Losses -> d' = v \/ h = Losses /\ d' = d) -> meets h F v d -> meets h' F v d'.
Proof.
  intros Hh [W M].
  assert (forall q n, named h' v d' q n -> named h v d q n) as Sn by (intros q n [E|[L E]]; [by left|]; destruct (Hh L) as [->|[-> ->]]; [by left|by right]).
  split; [intros q n Nq; exact (W q n (Sn q n Nq))|]. intros q X EX. destruct (M q X EX) as [HN HM]. split.
  - intros n Nn. destruct (HN n (Sn q n Nn)) as [Hc Hq]. split; [|by auto]. intros i [E|(L & j & E & ->)]; apply Hc; [by left|].
    destruct (Hh L) as [->|[-> ->]]; [left; by rewrite E|right]. split; [done|by exists j].
  - intros [E|[L E]]; apply HM; [by left|]. destruct (Hh L) as [->|[-> ->]]; [by left|by right].
Qed.

Section attempts.
  Context `{CharData} `{Digest} `{JsonLimits} `{TempNames} (workspace root : path) (umask : Z).
  Context (arguments : dict) (edit : bool) (effect_id request_sha256 : string) (request : dict).
  Context (v0 : volume) (p : Plan) (F : spec).

Notation call := (journaled_workspace_write workspace root umask arguments edit request_sha256).
Notation interrupted_ := (fun h => interrupted root h edit effect_id request_sha256 request v0 p F).
Notation stage_ := (fun h => stage root h effect_id p F).

(** A request made any number of times, each time until it returns or is stopped
    by errors, by being killed or by a loss of power. Power is lost only while
    nothing of an earlier attempt is left to be synced, but for the first
    attempt ([Losses]); attempts that are killed may follow one another with
    nothing synced in between ([Kills]). *)
Inductive attempted : hazard -> volume -> volume -> Prop :=
  | first_attempt w : subject Losses w ->
      stage_ Losses absent (is_old v0 p) (w_now w) (w_disk w) ->
      attempted Losses (w_now (call w).2) (w_disk (call w).2)
  | any_stage h v d : interrupted_ h v d -> attempted h v d
  | again h w : attempted h (w_now w) (w_disk w) -> subject Kills w ->
      attempted Kills (w_now (call w).2) (w_disk (call w).2)
  | again_after_sync h w : attempted h (w_now w) (w_disk w) -> w_now w = w_disk w -> subject Losses w ->
      attempted Losses (w_now (call w).2) (w_disk (call w).2)
  | synced h v d : attempted h v d -> attempted Losses v v
  | power_lost v d kept_names kept_inodes : attempted Losses v d ->
      attempted Losses (survives kept_names kept_inodes v d) (survives kept_names kept_inodes v d).

Lemma interrupted_hazard h h' v d d' :
  (h' = Losses -> d' = v \/ h = Losses /\ d' = d) -> interrupted_ h v d -> interrupted_ h' v d'.
Proof. intros Hh [M|[M|M]]; [left|right; left|right; right]; by apply (meets_hazard h h' _ v d d'). Qed.

  Hypothesis Hid : validate_effect_id (get arguments "effect_id") = Ok effect_id.
  Hypothesis Hreq : closed_request_arguments arguments (write_allowed edit) (write_required edit) (write_operation edit) = Ok request.
  Hypothesis Hkeys : NoDup arguments.*1.
  Hypothesis Hsha : effect_request_sha256 "effect" (write_operation edit) arguments = Ok request_sha256.
  Hypothesis Hplan : workspace_write_plan workspace v0 arguments edit = Ok p.
  Hypothesis Hmode : mode_ok (file_of (old v0 p)).
  Hypothesis Hap : apart root effect_id p F.
  Hypothesis Hdepth : (3 <= max_depth)%nat.
  Hypothesis Hcol : forall d m, file_of (old v0 p) = Some (d, m) -> ~ collides (of_chars d) (of_chars (pl_data p)).

Notation answered_ := (fun h => answered root h edit effect_id request_sha256 request p F).

(** One attempt, from what the earlier ones left. *)
Lemma one_attempt h w :
  calm h = false -> subject h w -> interrupted_ h (w_now w) (w_disk w) -> (h = Losses -> w_now w = w_disk w) ->
  match call w with (Done r, w') => answered_ h r (w_now w') (w_disk w') | (_, w') => interrupted_ h (w_now w') (w_disk w') end.
Proof.
  intros Ec Sw I L. assert (forall G : Prop, calm h = true -> G) as No by (intros G E; by rewrite E in Ec).
  assert (forall G, (forall b, h = Calm b -> G b : Prop)) as Nb by (intros G b ->; done).
  pose proof (attempt_rule workspace root umask h arguments edit effect_id request_sha256 request Hid Hreq Hkeys Hsha v0 p Hplan Hmode
    F Hap (Nb _) Hdepth Hcol (fun E => No _ E) (fun E => No _ E) w Sw (conj I (conj L (fun E => No _ E)))) as R.
  destruct (call w) as [[r|e|] w']; [by destruct R as [_ R]|by destruct R as (_ & _ & R)..].
Qed.

Lemma answered_interrupted h r v d : answered_ h r v d -> interrupted_ h v d.
Proof.
  intros [_ M]. right. right. eapply (stage_mono _ _ _ _ _ _ _ _ _ _ _ M); [|done]. by right.
Qed.

Lemma one_attempt_stage h w :
  calm h = false -> subject h w -> interrupted_ h (w_now w) (w_disk w) -> (h = Losses -> w_now w = w_disk w) ->
  interrupted_ h (w_now (call w).2) (w_disk (call w).2).
Proof.
  intros Ec Sw I L. pose proof (one_attempt h w Ec Sw I L) as R.
  destruct (call w) as [[r|e|] w']; [|done..]. by eapply answered_interrupted.
Qed.

Lemma attempted_interrupted h v d : attempted h v d -> interrupted_ h v d.
Proof.
  induction 1 as [w Sw M|h v d I|h w _ I Sw|h w _ I E Sw|h v d _ I|v d kn ki _ I].
  - assert (forall G : Prop, calm Losses = true -> G) as No by done.
    pose proof (first_attempt_rule workspace root umask Losses arguments edit effect_id request_sha256 request Hid Hreq v0 p Hplan
      F Hap ltac:(done) (fun E => No _ E) (fun E => No _ E) w Sw (conj M (fun E => No _ E))) as R.
    destruct (call w) as [[r|e|] w']; [|by destruct R as (_ & _ & R)..]. destruct R as (_ & b & _ & -> & R).
    right. right. eapply (stage_mono _ _ _ _ _ _ _ _ _ _ _ R); [|done]. intros y Hy. right. by exists b.
  - done.
  - apply one_attempt_stage; [done|done| |done]. by apply (interrupted_hazard h _ _ (w_disk w)).
  - apply one_attempt_stage; [done|done| |done]. apply (interrupted_hazard h _ _ (w_disk w)); [by left|done].
  - apply (interrupted_hazard h _ _ d); [by left|done].
  - by apply (interrupted_stable root Losses).
Qed.

(** C31: A write or an edit made again and again converges. However often the
    request was made, each attempt ending in an answer, in errors, in a kill or
    in a loss of power, the file is the old one or the wanted one and the record
    says no more than was done; any further attempt answers with the committed
    result, the wanted file in place and the record completed, or leaves such a
    state again; and a further attempt with no fault, to which the authority
    grants, answers (the way to the file clear, the lock a lock, and the records
    within the journal's size). Power is taken to be lost only while everything
    an earlier attempt did has reached the disk, as it has after a boot: an
    attempt that follows a kill completes the record over a renaming that may
    not be synced ([WorkspaceDemo.completed_write_is_lost]). *)
Theorem attempts_converge h v d :
  attempted h v d ->
  interrupted_ h v d /\
  (forall h' w, w_now w = v -> w_disk w = d -> calm h' = false -> subject h' w -> (h' = Losses -> d = v) ->
     match call w with
     | (Done r, w') => answered_ h' r (w_now w') (w_disk w')
     | (_, w') => interrupted_ h' (w_now w') (w_disk w')
     end) /\
  (forall b w, w_now w = v -> w_disk w = d -> subject (Calm b) w -> lock_ok v (lock_path root effect_id) ->
     (forall v d, stage_ (Calm b) (fun _ => True) (fun y => is_old v0 p y \/ is_new p y) v d -> clear workspace p v) ->
     (forall next, next = prepared (details request p) \/ next = completed (details request p) (committed p b) ->
        is_ok (record_bytes (closed_record effect_id request_sha256 (write_operation edit) next)) = true) ->
     exists r w', call w = (Done r, w') /\ answered_ (Calm b) r (w_now w') (w_disk w')).
Proof.
  intros I%attempted_interrupted. split; [done|]. split.
  - intros h' w Ev Ed Ec Sw L. rewrite <- Ev, <- Ed in *. apply one_attempt; [done|done| |by intros ->; rewrite L].
    apply (interrupted_hazard h _ _ (w_disk w)); [|done]. intros ->. left. by apply L.
  - intros b w Ev Ed Sw Lk Hc Hf. rewrite <- Ev, <- Ed in *.
    assert (interrupted_ (Calm b) (w_now w) (w_disk w)) as Ib by by apply (interrupted_hazard h _ _ (w_disk w)).
    pose proof (attempt_rule workspace root umask (Calm b) arguments edit effect_id request_sha256 request Hid Hreq Hkeys Hsha v0 p Hplan Hmode
      F Hap ltac:(intros b' [= <-]; apply Hf; by right) Hdepth Hcol (fun _ => Hc) (fun _ => Hf _ (or_introl eq_refl)) w Sw
      (conj Ib (conj (fun E : Calm b = Losses => ltac:(discriminate E)) (fun _ => Lk)))) as R.
    destruct (call w) as [[r|e|] w']; [|by destruct R as (_ & E & _)..]. exists r, w'. split; [done|]. by destruct R.
Qed.
End attempts.

(** ** Concrete hosts *)

Module WorkspaceDemo.
  #[local] Existing Instance checksum_digest.

Definition arguments : dict :=
  [("effect_id", JStr "e-1"); ("path", JStr "a.txt"); ("old_text", JStr "old"); ("new_text", JStr "new")].
Definition v0 : volume := host "hello old world".
Definition sha : string := match effect_request_sha256 "effect" "workspace_edit" arguments with Ok s => s | Err _ => "" end.
Definition request : dict := List.tail arguments.
Definition sorted_request : dict := [("new_text", JStr "new"); ("old_text", JStr "old"); ("path", JStr "a.txt")].
Definition plan : Plan := {|
  pl_path := ["ws"; "a.txt"]; pl_relative_path := "a.txt"; pl_data := chars "hello new world";
  pl_sha256 := digest "hello new world"; pl_mode := 420; pl_prestate := file_state (chars "hello old world") 420;
  pl_original_data := Some (chars "hello old world") |}.
Definition world0 : world := start v0 [].

(** What is tracked besides the record and the file. *)
Definition F : spec := fun q =>
  if decide (q = ["j"]) then Some (fun y => y = Some dir700) else
  if decide (q = ["ws"]) then Some (fun y => y = Some dir755) else None.

Lemma F_none a b : F [a; b] = None.
Proof. unfold F. by rewrite !decide_False. Qed.

Lemma plan_made : workspace_write_plan ["ws"] v0 arguments true = Ok plan.
Proof. vm_compute. reflexivity. Qed.

Lemma names_v0 q n : v_names v0 !! q = Some n ->
  (q, n) = (["ws"; "a.txt"], 3%nat) \/ (q, n) = (["ws"], 1%nat) \/ (q, n) = (["j"], 2%nat) \/ (q, n) = ([], 0%nat).
Proof.
  unfold v0, host. cbn [v_names]. rewrite !lookup_insert_Some, lookup_empty.
  intros [[<- <-]|[_ [[<- <-]|[_ [[<- <-]|[_ [[<- <-]|[_ E]]]]]]]]; [tauto..|done].
Qed.

Lemma id_ok : validate_effect_id (get arguments "effect_id") = Ok "e-1".
Proof. vm_compute. reflexivity. Qed.
Lemma request_ok : closed_request_arguments arguments (write_allowed true) (write_required true) (write_operation true) = Ok sorted_request.
Proof. vm_compute. reflexivity. Qed.
Lemma keys_ok : NoDup arguments.*1.
Proof. apply (bool_decide_unpack _). by vm_compute. Qed.
Lemma sha_ok : effect_request_sha256 "effect" (write_operation true) arguments = Ok sha.
Proof. vm_compute. reflexivity. Qed.
Lemma mode_420 : mode_ok (file_of (old v0 plan)).
Proof. change (mode_ok (Some (chars "hello old world", 420))). cbn. lia. Qed.
Lemma contents_differ d m : file_of (old v0 plan) = Some (d, m) -> ~ collides (of_chars d) (of_chars (pl_data plan)).
Proof.
  change (file_of (old v0 plan)) with (Some (chars "hello old world", 420)). intros [= <- <-] [_ E]. by vm_compute in E.
Qed.
Lemma depth_ok : (3 <= max_depth)%nat.
Proof. apply Nat.leb_le. by vm_compute. Qed.

Lemma record_two : exists x, record ["j"] "e-1" = ["j"; x].
Proof. by eexists. Qed.

Lemma frame : apart ["j"] "e-1" plan F.
Proof.
  assert (forall prefix dir, dir = ["j"] \/ dir = ["ws"] -> temps_free F prefix dir) as Fr.
  { intros prefix dir [-> | ->] s X; cbn [app]; by rewrite F_none. }
  destruct record_two as [x Ex]. split; [| |done..| |apply F_none|apply Fr; auto|apply Fr; auto].
  - exists (fun y => y = Some dir700). split; [done|]. intros y ->. by eexists _, _.
  - exists (fun y => y = Some dir755). split; [done|]. intros y ->. by eexists _, _.
  - by rewrite Ex.
Qed.

Lemma at_start h : stage ["j"] h "e-1" plan F absent (is_old v0 plan) v0 v0.
Proof.
  split.
  - intros q n [Q|[_ Q]]; apply names_v0 in Q; destruct_or!; injection Q as -> ->; by eexists.
  - intros q X. unfold put. destruct (decide (q = target plan)) as [->|N1].
    { intros [= <-]. apply (held_same h _ _ v0 3%nat (Inode (Reg (chars "hello old world")) 420 true)); [done..| |done].
      intros r R%names_v0. destruct_or!; by injection R. }
    destruct (decide (q = record ["j"] "e-1")) as [->|N2].
    { intros [= <-]. apply held_missing; [|done]. destruct (v_names v0 !! _) as [n|] eqn:E; [|done].
      destruct record_two as [x Ex]. apply names_v0 in E. rewrite Ex in E. destruct_or!; injection E; try done. }
    unfold F. destruct (decide (q = ["j"])) as [->|N3].
    { intros [= <-]. apply (held_same h _ _ v0 2%nat dir700); [done..| |done]. intros r R%names_v0. destruct_or!; by injection R. }
    destruct (decide (q = ["ws"])) as [->|N4]; [|done].
    intros [= <-]. apply (held_same h _ _ v0 1%nat dir755); [done..| |done]. intros r R%names_v0. destruct_or!; by injection R.
Qed.

Lemma way_is_clear h v d :
  stage ["j"] h "e-1" plan F (fun _ => True) (fun y => is_old v0 plan y \/ is_new plan y) v d -> clear ["ws"] plan v.
Proof.
  intros [W M]. assert (exists n, stat v ["ws"] = Some (n, dir755)) as [n Ews].
  { assert (put (put F (record ["j"] "e-1") (fun _ => True)) (target plan) (fun y => is_old v0 plan y \/ is_new plan y) ["ws"]
            = Some (fun y => y = Some dir755)) as E by reflexivity.
    pose proof (held_stat _ _ _ _ _ W (M _ _ E)) as S. destruct (stat v ["ws"]) as [[n i]|]; [|done]. destruct S as [[= ->] _]. by exists n. }
  assert (forall m i, stat v ["ws"; "a.txt"] = Some (m, i) -> exists b, i_kind i = Reg b) as Et.
  { pose proof (held_stat _ _ _ _ _ W (M _ _ (put_eq _ _ _))) as S. change (target plan) with ["ws"; "a.txt"] in S.
    destruct (stat v ["ws"; "a.txt"]) as [[m i]|]; [|done]. intros m' i' [= <- <-]. destruct S as [[S|S] _]; injection S as ->; by eexists. }
  unfold clear. change (path_parts (pl_relative_path plan)) with ["a.txt"]. split; [|split].
  - unfold workspace_path. change (relative_path (JStr (as_posix ["a.txt"])) "path") with (Ok ["a.txt"]). cbn [rbind].
    rewrite Ews, bool_decide_true by by eexists.
    assert (forall A (o : option (nat * inode)) (x : string -> A) y, (forall m i, o = Some (m, i) -> exists b, i_kind i = Reg b) ->
      match o with Some (_, Inode (Link t) _ _) => x t | _ => y end = y) as Nl.
    { intros A o x y Ho. destruct o as [[m [k mo mi]]|]; [|done]. destruct (Ho m _ eq_refl) as [b Eb]. cbn in Eb. by subst k. }
    assert (forall f, realpath (S (S f)) v [] [] ["ws"; "a.txt"] = Ok ["ws"; "a.txt"]) as Er.
    { intros f. cbn [app realpath]. change ("ws" =? "..")%string with false. change ("a.txt" =? "..")%string with false.
      cbv iota. rewrite Ews. cbn [app dir755]. rewrite Nl by exact Et. by destruct f. }
    assert (link_steps = S (S 998)) as -> by reflexivity. cbn [app]. rewrite Er. cbn [rbind]. rewrite bool_decide_true by done. reflexivity.
  - rewrite Ews. by split.
  - reflexivity.
Qed.

Lemma calm_start b : subject (Calm authority) world0 /\ (Calm authority = Calm b -> b = authority).
Proof. split; [split; [by constructor|by intros b' [= <-]]|by intros [= <-]]. Qed.

(** The first attempt with every fate: stopped after [n] calls by a loss of
    power that keeps no unsynced name and no unsynced inode. *)
Definition crashed (n : nat) : world := start v0 (repeat Goes n ++ [PowerLoss 3 (fun _ => false) (fun _ => false)]).
Lemma crashed_subject n : subject Losses (crashed n).
Proof.
  split; [|done]. cbn. apply Forall_app. split; [|by repeat constructor]. apply Forall_forall. intros f Hf%list_elem_of_In%repeat_spec. by subst.
Qed.

(** *** What recovery does not promise *)

Definition edit_file (w : world) : outcome dict * world := journaled_workspace_write ["ws"] ["j"] 18 arguments true sha w.
Definition up_again (w : world) : world := World (w_now w) (w_disk w) [] (w_checks w) (w_trace w).
Definition text_at (v : volume) (p : path) : option string :=
  match stat v p with Some (_, Inode (Reg b) _ _) => Some (of_chars b) | _ => None end.
Definition state_at (v : volume) : json :=
  match current_record ["j"] v "e-1" sha "workspace_edit" with Ok (Some r) => get r "state" | _ => JNull end.

(** Killed between the renaming and the sync of the directory; recovery finds
    the new file and completes the record, but syncs nothing of the workspace: a
    loss of power then brings the old file back under a completed record. *)
Example completed_write_is_lost :
  let w1 := (edit_file (start v0 (repeat Goes 16 ++ [Killed 0]))).2 in
  let w2 := (edit_file (up_again w1)).2 in
  let v := survives (fun _ => false) (fun _ => false) (w_now w2) (w_disk w2) in
  (text_at (w_now w1) ["ws"; "a.txt"], state_at v, text_at v ["ws"; "a.txt"])
  = (Some "hello new world", JStr "completed", Some "hello old world").
Proof. vm_compute. reflexivity. Qed.

(** Attempts in a row: killed between the renaming and the sync, and killed
    again while the record is being replaced. *)
Definition first : world := start v0 (repeat Goes 16 ++ [Killed 0]).
Definition next_try (fates : list fate) (w : world) : world := World (w_now w) (w_disk w) fates (fun _ => Ok authority) [].
Definition second : world := next_try (repeat Goes 6 ++ [Killed 0]) (edit_file first).2.
Definition third : world := next_try [] (edit_file second).2.
Lemma next_now fates w : w_now (next_try fates w) = w_now w.
Proof. reflexivity. Qed.
Lemma next_disk fates w : w_disk (next_try fates w) = w_disk w.
Proof. reflexivity. Qed.
Lemma kills_subject h n v d : calm h = false -> subject h (World v d (repeat Goes n ++ [Killed 0]) (fun _ => Ok authority) []).
Proof.
  intros Ec. split; [|by intros b ->]. cbn. apply Forall_app. split; [|by repeat constructor; destruct h].
  apply Forall_forall. intros f Hf%list_elem_of_In%repeat_spec. subst. by destruct h.
Qed.
Notation tried := (attempted ["ws"] ["j"] 18 arguments true "e-1" sha sorted_request v0 plan F).
Lemma tried_first w : subject Losses w -> w_now w = v0 -> w_disk w = v0 -> tried Losses (w_now (edit_file w).2) (w_disk (edit_file w).2).
Proof. intros Sw En Ed. apply first_attempt; [done|]. rewrite En, Ed. apply at_start. Qed.
Lemma tried_again h w fates : subject Kills (next_try fates w) -> tried h (w_now w) (w_disk w) ->
  tried Kills (w_now (edit_file (next_try fates w)).2) (w_disk (edit_file (next_try fates w)).2).
Proof. intros Sw T. by apply (again _ _ _ _ _ _ _ _ _ _ _ h). Qed.
Lemma third_reached : tried Kills (w_now (edit_file second).2) (w_disk (edit_file second).2).
Proof. apply (tried_again Losses); [by apply kills_subject|]. apply tried_first; [by apply kills_subject|done|done]. Qed.
Lemma third_calm : subject (Calm authority) third.
Proof. split; [by constructor|]. by intros b [= <-]. Qed.

(** Killed after [os.mkdir] under umask 077: the directory has mode 700, and
    every later attempt to recover it is refused. *)
Definition mkdir_arguments : dict := [("effect_id", JStr "e-2"); ("path", JStr "d")].
Definition mkdir_sha : string :=
  match effect_request_sha256 "effect" "workspace_mkdir" mkdir_arguments with Ok s => s | Err _ => "" end.
Example interrupted_mkdir_is_refused :
  let make w := journaled_make_directory ["ws"] ["j"] 63 mkdir_arguments mkdir_sha w in
  (make (up_again (make (start v0 (repeat Goes 12 ++ [Killed 0]))).2)).1
  = Raised (Exn CompanyScribeAdmissionError "prepared directory effect has the wrong mode").
Proof. vm_compute. reflexivity. Qed.
End WorkspaceDemo.

#[local] Existing Instance checksum_digest.

Lemma stopped_writes_leave_a_stage_witness :
  let '(o, w') := journaled_workspace_write ["ws"] ["j"] 18 WorkspaceDemo.arguments true WorkspaceDemo.sha (WorkspaceDemo.crashed 25) in
  match o with
  | Done r => done_with ["j"] Losses true "e-1" WorkspaceDemo.sha WorkspaceDemo.sorted_request WorkspaceDemo.plan WorkspaceDemo.F r
  | _ => interrupted ["j"] Losses true "e-1" WorkspaceDemo.sha WorkspaceDemo.sorted_request WorkspaceDemo.v0 WorkspaceDemo.plan WorkspaceDemo.F
  end (w_now w') (w_disk w').
Proof.
  apply (stopped_writes_leave_a_stage ["ws"] ["j"] 18 Losses _ true "e-1" _ _ WorkspaceDemo.id_ok WorkspaceDemo.request_ok
    WorkspaceDemo.v0 WorkspaceDemo.plan WorkspaceDemo.plan_made WorkspaceDemo.F WorkspaceDemo.frame).
  - intros b E. discriminate E.
  - reflexivity.
  - apply WorkspaceDemo.crashed_subject.
  - apply WorkspaceDemo.at_start.
Defined.

(** The first attempt is killed between the renaming and the sync, the second
    before the record is replaced; the third answers. *)
Lemma attempts_converge_witness :
  exists r w', WorkspaceDemo.edit_file WorkspaceDemo.third = (Done r, w') /\
    answered ["j"] (Calm authority) true "e-1" WorkspaceDemo.sha WorkspaceDemo.sorted_request
      WorkspaceDemo.plan WorkspaceDemo.F r (w_now w') (w_disk w').
Proof.
  destruct (attempts_converge ["ws"] ["j"] 18 WorkspaceDemo.arguments true "e-1" WorkspaceDemo.sha WorkspaceDemo.sorted_request
    WorkspaceDemo.v0 WorkspaceDemo.plan WorkspaceDemo.F WorkspaceDemo.id_ok WorkspaceDemo.request_ok
    WorkspaceDemo.keys_ok WorkspaceDemo.sha_ok WorkspaceDemo.plan_made WorkspaceDemo.mode_420
    WorkspaceDemo.frame WorkspaceDemo.depth_ok WorkspaceDemo.contents_differ Kills _ _ WorkspaceDemo.third_reached)
    as (_ & _ & C).
  apply (C authority WorkspaceDemo.third); [apply WorkspaceDemo.next_now|apply WorkspaceDemo.next_disk|exact WorkspaceDemo.third_calm|vm_compute; repeat split
    |exact (WorkspaceDemo.way_is_clear _)|].
  intros next [-> | ->]; vm_compute; reflexivity.
Defined.
