(* ===== verification/WorkspaceOrder.v ===== *)
(** * When and where the workspace changes

    Whatever is asked of the broker, and whatever fails or stops it, each change
    others can see is at a path of the workspace an agent may name, and comes
    right after the authority was checked. *)
From S2P Require Import Prelude PyStr Sha256 Json PyIO PyPath JsonText PyValue PyUnicode JsonBytes HostFiles EffectJournal HostDemo WorkspaceEffects EffectProofs WorkspacePlans.
From stdpp Require Import base gmap strings list.
From Stdlib Require Import ZArith NArith Lia.

(** ** Traces, the newest call first *)

Section traces.
  Context (allowed : path -> Prop).

Definition changes (c : call) : option path :=
  match c with Replaced p | Made p | Linked p | Appended p => Some p | Checked | Silent => None end.
Inductive orderly : list call -> Prop :=
  | orderly_nil : orderly []
  | orderly_quiet c t : changes c = None -> orderly t -> orderly (c :: t)
  | orderly_change c p t : changes c = Some p -> allowed p -> orderly t -> orderly (c :: Checked :: t).

(** A program that keeps traces orderly. *)
Definition keeps {A} (m : prog A) : Prop := forall w, orderly (w_trace w) -> orderly (w_trace (m w).2).

Lemma keeps_ret {A} (a : A) : keeps (pret a).
Proof. by intros w. Qed.
Lemma keeps_fail {A} e : keeps (@pfail A e).
Proof. by intros w. Qed.
Lemma keeps_now {A} (k : volume -> prog A) : (forall v, keeps (k v)) -> keeps (do! v := pnow in k v).
Proof. intros K w O. by apply K. Qed.
Lemma keeps_bind {A B} (m : prog A) (k : A -> prog B) : keeps m -> (forall a, keeps (k a)) -> keeps (pbind m k).
Proof.
  intros M K w O. specialize (M w O). unfold pbind. destruct (m w) as [[a|e|] w']; [|done..]. by apply K.
Qed.
Lemma keeps_of {A B} (r : res A) (k : A -> prog B) : (forall a, r = Ok a -> keeps (k a)) -> keeps (pbind (pof r) k).
Proof. intros K w O. destruct r as [a|e]; [by apply (K a)|done]. Qed.
Lemma keeps_res {A} (r : res A) : keeps (pof r).
Proof. destruct r; by intros w. Qed.
Lemma keeps_on_error {A} (m : prog A) h : keeps m -> keeps h -> keeps (on_error m h).
Proof.
  intros M K w O. specialize (M w O). unfold on_error. destruct (m w) as [[a|e|] w']; [done| |done].
  by apply (keeps_bind h _ K (fun _ => keeps_fail e)).
Qed.
Lemma keeps_catch {A} caught (m : prog A) k : keeps m -> (forall e, keeps (k e)) -> keeps (pcatch caught m k).
Proof.
  intros M K w O. specialize (M w O). unfold pcatch. destruct (m w) as [[a|e|] w']; [done| |done].
  destruct (caught e); [by apply K|done].
Qed.

Lemma sys_trace {A} c partial (run : volume -> volume -> res A * volume * volume) w :
  let '(o, w') := sys c partial run w in
  w_trace w' = w_trace w \/ w_trace w' = c :: w_trace w.
Proof.
  unfold sys. destruct (w_fates w) as [|[|n|n|n kn ki] f]; try (by left).
  all: destruct (run _ _) as [[[a|e] v] d]; [by right|by left].
Qed.
Lemma keeps_sys {A} c partial (run : volume -> volume -> res A * volume * volume) : changes c = None -> keeps (sys c partial run).
Proof.
  intros E w O. pose proof (sys_trace c partial run w) as T. destruct (sys c partial run w) as [o w']. cbn.
  destruct T as [-> | ->]; [done|by apply orderly_quiet].
Qed.
Lemma keeps_check : keeps check.
Proof.
  intros w O. unfold check. destruct (w_fates w) as [|[|n|n|n kn ki] f]; try done.
  all: destruct (w_checks w 0%nat); [by apply orderly_quiet|done].
Qed.

(** A change right after a check. *)
Lemma keeps_checked {A B} c p partial (run : volume -> volume -> res A * volume * volume) (k : binding -> A -> prog B) :
  changes c = Some p -> allowed p -> (forall b a, keeps (k b a)) ->
  keeps (do! b := check in do! a := sys c partial run in k b a).
Proof.
  intros E Al K w O.
  assert (forall b w', w_trace w' = Checked :: w_trace w -> orderly (w_trace ((do! a := sys c partial run in k b a) w').2)) as N.
  { intros b w' Ew. unfold pbind. pose proof (sys_trace c partial run w') as T. destruct (sys c partial run w') as [o w''].
    assert (orderly (w_trace w'')) as O'.
    { destruct T as [-> | ->]; rewrite Ew; [by apply orderly_quiet|]. by apply (orderly_change c p). }
    destruct o as [a|e|]; [by apply K|done..]. }
  unfold pbind at 1. unfold check. destruct (w_fates w) as [|[|n|n|n kn ki] f]; try done.
  all: destruct (w_checks w 0%nat) as [b|e]; [by apply N|done].
Qed.

Lemma keeps_write_all n b : keeps (write_all Silent n b).
Proof. destruct b; [apply keeps_ret|by apply keeps_sys]. Qed.
Lemma keeps_unlink_quietly p : keeps (unlink_quietly p).
Proof. apply keeps_catch; [by apply keeps_sys|]. intros _. apply keeps_ret. Qed.

(** Putting a file in place: unseen by others, or right after a check. *)
Lemma keeps_publish `{TempNames} {A} c prefix target mode data (final : prog A) :
  (forall temporary, keeps (do! a := final in do! _ := replace_file c temporary target in pret a)) ->
  keeps (publish c prefix target mode data final).
Proof.
  intros K. unfold publish. apply keeps_bind.
  - unfold mkstemp. apply keeps_now. intros v. apply keeps_bind; [by apply keeps_sys|]. intros n. apply keeps_ret.
  - intros [n temporary]. apply keeps_bind.
    + apply keeps_on_error; [|apply keeps_unlink_quietly]. apply keeps_bind; [by apply keeps_sys|]. intros _.
      apply keeps_of. intros b _. apply keeps_bind; [apply keeps_write_all|]. intros _. apply keeps_bind; [by apply keeps_sys|]. intros _. apply K.
    + intros a. apply keeps_bind; [by apply keeps_sys|]. intros _. apply keeps_ret.
Qed.

Section journal.
  Context `{CharData} `{Digest} `{JsonLimits} `{TempNames} (umask : Z) (root : path).

Lemma keeps_write effect_id request operation next : keeps (write_record umask root effect_id request operation next).
Proof.
  unfold write_record, atomic_private_json. apply keeps_bind.
  - unfold mkdir_exist_ok. apply keeps_catch; [by apply keeps_sys|]. intros e. apply keeps_now. intros v. destruct (is_dir v _); [apply keeps_ret|apply keeps_fail].
  - intros _. apply keeps_publish. intros t. apply (keeps_bind (pret tt)); [apply keeps_ret|]. intros a. apply keeps_bind; [by apply keeps_sys|]. intros _. apply keeps_ret.
Qed.
Lemma keeps_locked {A} effect_id request operation (body : option dict -> (dict -> prog unit) -> prog A) :
  (forall o effect_id, keeps (body o (write_record umask root effect_id request operation))) -> keeps (locked umask root effect_id request operation body).
Proof.
  intros K. unfold locked. apply keeps_of. intros id _. apply keeps_bind.
  - unfold open_lock. apply keeps_now. intros v. destruct (stat v _) as [[n i]|].
    + destruct (i_kind i); try apply keeps_fail; (destruct (_ && _); [by apply keeps_sys|apply keeps_fail]).
    + apply keeps_bind; [by apply keeps_sys|]. intros n. by apply keeps_sys.
  - intros _. apply keeps_now. intros v. apply keeps_of. intros o _. apply K.
Qed.
End journal.
End traces.

(** ** The workspace *)

Section workspace.
  Context `{CharData} `{Digest} `{JsonLimits} `{TempNames} (workspace root : path) (umask : Z).

(** A path an agent may change: below the workspace, outside the Git directory
    and the state of the channels. *)
Definition open_to_agents (p : path) : Prop :=
  exists parts, p = workspace ++ parts /\ parts <> [] /\ Forall part_ok parts /\ ".." ∉ parts
    /\ Forall (fun part => casefold part <> ".git") parts /\ protected_channel_runtime_state parts = false.

Lemma relative_open value field parts : relative_path value field = Ok parts -> open_to_agents (workspace ++ parts).
Proof.
  intros (s & _ & -> & N & _ & E2 & E3 & E4)%relative_path_ok. exists (path_parts s). split; [done|]. split; [done|].
  split; [apply parts_ok|]. split; [|split; [|done]].
  - intros Hp. apply not_true_iff_false in E2. apply E2, existsb_exists. exists "..". split; [by apply list_elem_of_In|done].
  - apply Forall_forall. intros q Hq Eq. apply not_true_iff_false in E3. apply E3, existsb_exists. exists q.
    split; [by apply list_elem_of_In|by apply String.eqb_eq].
Qed.
Lemma workspace_path_open v value field p : workspace_path workspace v value field = Ok p -> open_to_agents p.
Proof. intros (rel & Er & ->)%workspace_path_ok. by eapply relative_open. Qed.

Notation keeps := (keeps open_to_agents).

Lemma keeps_commit p : open_to_agents (pl_path p) -> keeps (commit_workspace_write p).
Proof.
  intros Op. unfold commit_workspace_write. apply keeps_bind; [apply keeps_check|]. intros _. apply keeps_bind; [|intros b; apply keeps_ret].
  apply keeps_publish. intros t. apply (keeps_checked _ (Replaced (pl_path p)) (pl_path p)); [done|done|]. intros b a. apply keeps_ret.
Qed.

Lemma keeps_workspace_write arguments edit request : keeps (journaled_workspace_write workspace root umask arguments edit request).
Proof.
  unfold journaled_workspace_write. apply keeps_of. intros eid _. apply keeps_of. intros req _. apply keeps_locked. intros o eid'.
  assert (forall dt p, open_to_agents (pl_path p) -> keeps (do! result := commit_workspace_write p in
            do! _ := write_record umask root eid' request (write_operation edit) (completed dt result) in pret result)) as Fin.
  { intros dt p Op. apply keeps_bind; [by apply keeps_commit|]. intros r. apply keeps_bind; [apply keeps_write|]. intros _. apply keeps_ret. }
  destruct o as [record|].
  - apply keeps_of. intros [result|] _; [apply keeps_ret|]. apply keeps_now. intros v. apply keeps_of. intros [[dt p] b] E. destruct b.
    + apply keeps_bind; [apply keeps_check|]. intros bd. apply keeps_bind; [apply keeps_write|]. intros _. apply keeps_ret.
    + apply Fin. unfold resume_write in E. destruct (get record "details") as [| | | | | | |details]; try done. guards in E. destruct E as [_ E].
      apply rbind_ok in E as (same & _ & E). guards in E. destruct E as [_ E]. apply rbind_ok in E as (q & Eq & E).
      assert (q = p) as <- by (destruct (py_eq _ _); [by injection E|]; by destruct (py_eq _ _); [injection E|]).
      destruct (recovery_plan_path _ _ _ _ _ _ Eq) as (rel & _ & _ & _ & Ew). by eapply workspace_path_open.
  - apply keeps_now. intros v. apply keeps_of. intros p E. apply keeps_bind; [apply keeps_write|]. intros _. apply Fin.
    destruct (workspace_write_plan_ok _ _ _ _ _ E) as (rel & Er & -> & _). by eapply relative_open.
Qed.

Lemma keeps_make_directory arguments : keeps (make_directory workspace umask arguments).
Proof.
  unfold make_directory. apply keeps_of. intros rel _. apply keeps_now. intros v. apply keeps_of. intros p Ep.
  destruct (is_str _ "directory"); [apply keeps_ret|]. destruct (negb _); [apply keeps_res|].
  apply (keeps_checked _ (Made p) p); [done|by eapply workspace_path_open|]. intros b a. apply keeps_bind; [by apply keeps_sys|].
  intros _. apply keeps_ret.
Qed.

Lemma keeps_workspace_mkdir arguments request : keeps (journaled_make_directory workspace root umask arguments request).
Proof.
  unfold journaled_make_directory. apply keeps_of. intros eid _. apply keeps_of. intros req _. apply keeps_of. intros rel _.
  apply keeps_now. intros v0. apply keeps_of. intros _ _. apply keeps_locked. intros o eid'.
  assert (forall m : prog dict, (m = do! v := pnow in
      let details := [("path", JStr (as_posix rel)); ("prestate", JObj (path_state_beneath workspace v rel)); ("request_arguments", JObj req)] in
      if negb (py_eq (get details "prestate") (JObj (kind_only "absent"))) then pof (refuse "workspace directory target conflicts") else
      do! _ := write_record umask root eid' request "workspace_mkdir" (prepared details) in
      do! result := make_directory workspace umask arguments in
      do! _ := write_record umask root eid' request "workspace_mkdir" (completed details result) in pret result) -> keeps m) as Start.
  { intros m ->. apply keeps_now. intros v. cbv zeta. destruct (negb _); [apply keeps_res|]. apply keeps_bind; [apply keeps_write|]. intros _.
    apply keeps_bind; [apply keeps_make_directory|]. intros r. apply keeps_bind; [apply keeps_write|]. intros _. apply keeps_ret. }
  destruct o as [record|]; [|by apply Start].
  apply keeps_of. intros [result|] _; [apply keeps_ret|]. apply keeps_now. intros v. apply keeps_of. intros [dt b] _. destruct b; [|by apply Start].
  apply keeps_bind; [apply keeps_check|]. intros bd. apply keeps_bind; [apply keeps_write|]. intros _. apply keeps_ret.
Qed.

(** C33: Whatever tool is called with whatever arguments, in any state of the
    host, with any faults, kills and answers of the authority: each change
    others can see is at a path below the workspace, outside [.git] and the
    channels' state, and the call right before it was a successful check of the
    authority. *)
Theorem changes_are_checked_and_contained name arguments w :
  orderly open_to_agents (w_trace w) ->
  orderly open_to_agents (w_trace (call_workspace_tool workspace root umask name arguments w).2).
Proof.
  revert w. fold (keeps (call_workspace_tool workspace root umask name arguments)). unfold call_workspace_tool.
  apply keeps_of. intros eid _. apply keeps_now. intros v. apply keeps_of. intros _ _. apply keeps_of. intros request _.
  destruct (name =? "workspace_write")%string; [apply keeps_workspace_write|]. destruct (name =? "workspace_edit")%string; [apply keeps_workspace_write|].
  destruct (name =? "workspace_mkdir")%string; [apply keeps_workspace_mkdir|apply keeps_res].
Qed.

(** So does recovery, when what it leaves to others does. *)
Lemma recovery_is_checked_and_contained other : (forall record, keeps (other record)) -> keeps (recover_nonchannel_effects workspace root umask other).
Proof.
  intros Ko. unfold recover_nonchannel_effects. apply keeps_now. intros v. apply keeps_of. intros l _.
  destruct (List.filter _ l) as [|record [|? ?]]; [apply keeps_ret| |apply keeps_res]. apply keeps_of. intros eid _.
  destruct (get record "request_sha256"); try apply keeps_res. destruct (get record "operation"); try apply keeps_res.
  destruct (get record "details"); try apply keeps_res. destruct (get _ "request_arguments"); try apply keeps_res.
  destruct (existsb _ _); [apply keeps_res|]. apply keeps_of. intros same _. destruct (negb same); [apply keeps_res|].
  destruct (_ && _); [apply keeps_bind; [apply keeps_workspace_write|intros _; apply keeps_ret]|].
  destruct (_ && _); [apply keeps_bind; [apply keeps_workspace_mkdir|intros _; apply keeps_ret]|]. apply Ko.
Qed.
End workspace.

Module OrderDemo.
  #[local] Existing Instance checksum_digest.

Definition arguments : dict :=
  [("effect_id", JStr "e-1"); ("path", JStr "a.txt"); ("old_text", JStr "old"); ("new_text", JStr "new")].
Definition edit : world -> outcome dict * world :=
  call_workspace_tool ["ws"] ["j"] 18 "workspace_edit" arguments.
Definition busy : world := start (host "hello old world") [].

(** The names that change, oldest first. *)
Definition changed (w : world) : list path := rev (omap changes (w_trace w)).
Example edit_changes :
  (match (edit busy).1 with Done _ => true | _ => false end, List.length (changed (edit busy).2),
   existsb (fun p => bool_decide (p = ["ws"; "a.txt"])) (changed (edit busy).2)) = (true, 1%nat, true).
Proof. vm_compute. reflexivity. Qed.
End OrderDemo.

Lemma changes_are_checked_and_contained_witness :
  orderly (open_to_agents ["ws"]) (w_trace (OrderDemo.edit OrderDemo.busy).2).
Proof.
  unfold OrderDemo.edit. apply changes_are_checked_and_contained. apply orderly_nil.
Defined.
