(* ===== verification/ChannelEffects.v ===== *)
(** * Messages through the effect broker (company_scribe_effect_broker.py)

    [channel_send] puts a message in the queue of another role and a line in the
    audit file, [channel_reply] acknowledges a delivered message in the delivery
    journal. Each row is appended once under the identity it carries; what was
    prepared is finished at the next start. *)
From S2P Require Import Prelude PyStr PyTime Sha256 Json PyIO PyPath JsonText PyValue PyUuid PyUnicode JsonBytes HostFiles EffectJournal WorkspaceEffects.
From stdpp Require Import base gmap strings list.
From Stdlib Require Import ZArith NArith Lia.

Local Open Scope Z_scope.

(** ** Names *)

(* src: scripts/company_scribe_effect_broker.py _VALID_CHANNEL_ROLES *)
Definition VALID_CHANNEL_ROLES : list string :=
  ["ccto"; "ccpo"; "ccro"; "ccfo"; "ccmo"; "cclo"; "ccgo"; "ccco"; "ccde"; "cos"; "scribe"; "utility"].
(* src: scripts/company_scribe_effect_broker.py _VALID_CHANNEL_EVENT_TYPES *)
Definition VALID_CHANNEL_EVENT_TYPES : list string := ["agent_direct"; "task_handoff"; "audit_request"; "reply_classification"].
(* src: scripts/company_scribe_effect_broker.py _CHANNEL_SEND_META_RESERVED *)
Definition CHANNEL_SEND_META_RESERVED : list string := ["sender_role"; "target_role"; "sent_at"; "send_id"].

(** [value in frozenset(names)]. *)
Definition in_set (value : json) (names : list string) : res bool :=
  match value with
  | JArr _ => Err (Exn TypeError "unhashable type: 'list'")
  | JObj _ => Err (Exn TypeError "unhashable type: 'dict'")
  | _ => Ok (is_one_of value names)
  end.
Definition subset_of (l m : list string) : bool := forallb (fun k => existsb (String.eqb k) m) l.

(** ** Files of rows *)

Definition torn (data : bytes) : bool :=
  match rev data with [] => false | c :: _ => negb (Ascii.eqb c lf) end.
(** [bytes.splitlines()]. *)
Fixpoint byte_lines_go (cur l : bytes) : list bytes :=
  match l with
  | [] => match cur with [] => [] | _ => [rev cur] end
  | c :: r =>
      if Ascii.eqb c lf then rev cur :: byte_lines_go [] r
      else if Ascii.eqb c cr then
        rev cur :: match r with
                   | d :: r' => if Ascii.eqb d lf then byte_lines_go [] r' else byte_lines_go [] r
                   | [] => []
                   end
      else byte_lines_go (c :: cur) r
  end.
Definition byte_lines (l : bytes) : list bytes := byte_lines_go [] l.

Section channel.
  Context `{CharData} `{Digest} `{JsonLimits} `{TempNames} `{IsoTime}.

(** The rows from line [index] on. *)
Fixpoint rows_from (name : string) (index : Z) (lines : list bytes) : res (list dict) :=
  match lines with
  | [] => Ok []
  | [] :: rest => rows_from name (index + 1) rest
  | raw :: rest =>
      let! value := refused_as [UnicodeDecodeError; JSONDecodeError]
        ("channel journal row " +:+ str_Z index +:+ " is invalid: " +:+ name) (loads_raw raw) in
      match value with
      | JObj d => let! l := rows_from name (index + 1) rest in Ok (d :: l)
      | _ => refuse ("channel journal row " +:+ str_Z index +:+ " is not an object: " +:+ name)
      end
  end.
(* src: scripts/company_scribe_effect_broker.py _read_jsonl *)
Definition read_jsonl (v : volume) (p : path) : res (list dict) :=
  match read_bytes v p with
  | Err e => if bool_decide (exn_class e = FileNotFoundError) then Ok [] else Err e
  | Ok data =>
      raise_if torn data
        with CompanyScribeAdmissionError, ("channel journal has a torn final row: " +:+ name_of p) ;;
      rows_from (name_of p) 1 (byte_lines data)
  end.

(** *** One append *)

(** What tells a row from others; [JNull] for none. *)
Notation identity := (dict -> json).

Definition safe_parent (v : volume) (p : path) : res unit :=
  match stat v (parent p) with
  | None => not_found
  | Some (_, i) =>
      require match i_kind i with Dir => true | _ => false end && i_mine i && (Z.land (i_mode i) 18 =? 0)
        else CompanyScribeAdmissionError, "channel mutation parent is unsafe" ;;
      Ok tt
  end.
Definition row_payload (id_of : identity) (row : dict) : res bytes :=
  raise_if match id_of row with JNull => true | _ => false end
    with CompanyScribeAdmissionError, "channel mutation identity is absent" ;;
  let! payload := canonical_bytes (JObj row) in
  raise_if existsb (Ascii.eqb lf) payload || (_MAX_TEXT_BYTES <? blen payload)
    with CompanyScribeAdmissionError, "channel mutation row is unsafe" ;;
  Ok payload.
(** [os.open(path, os.O_RDWR | os.O_APPEND | os.O_NOFOLLOW)]. *)
Definition open_rows (v : volume) (p : path) : res (option nat) :=
  match stat v p with
  | None => Ok None
  | Some (n, i) =>
      match i_kind i with
      | Link _ => Err (Exn OSError "Too many levels of symbolic links")
      | Dir => Err (Exn IsADirectoryError "Is a directory")
      | _ => require negb (i_mine i) || (Z.land (i_mode i) 384 =? 384) else PermissionError, "Permission denied" ;; Ok (Some n)
      end
  end.
Definition data_of (v : volume) (n : nat) : bytes :=
  match v_inodes v !! n with Some (Inode (Reg d) _ _) => d | _ => [] end.
(** [fstat] of what was opened. *)
Definition safe_rows (v : volume) (n : nat) : bool :=
  match v_inodes v !! n with
  | Some (Inode (Reg _) mode mine) => mine && (nlink v n =? 1)%nat && (Z.land mode 18 =? 0)
  | _ => false
  end.

(** Whether a row of the identity is there; if so it is the same row. *)
(* src: scripts/company_scribe_effect_broker.py _append_jsonl_once@108-126 *)
Fixpoint find_row (id_of : identity) (expected : json) (payload : bytes) (lines : list bytes) : res bool :=
  match lines with
  | [] => Ok false
  | [] :: rest => find_row id_of expected payload rest
  | raw :: rest =>
      let! observed := refused_as [UnicodeDecodeError; JSONDecodeError]
        "channel mutation target contains invalid JSON" (loads_raw raw) in
      match observed with
      | JObj d =>
          if py_eq (id_of d) expected then
            let! b := canonical_bytes (JObj d) in
            require bool_decide (b = payload)
              else CompanyScribeAdmissionError, "channel mutation identity conflicts with existing bytes" ;;
            Ok true
          else find_row id_of expected payload rest
      | _ => refuse "channel mutation target contains a non-object row"
      end
  end.
(* src: scripts/company_scribe_effect_broker.py _append_jsonl_once@98-107 *)
Definition appended_already (id_of : identity) (expected : json) (payload existing : bytes) : res bool :=
  raise_if 64 * 1024 * 1024 <? blen existing with CompanyScribeAdmissionError, "channel journal exceeds 64 MiB" ;;
  raise_if torn existing with CompanyScribeAdmissionError, "channel mutation target has a torn tail" ;;
  find_row id_of expected payload (byte_lines existing).

(** The file made with its first row: written aside, and given its name by a
    link, which finds no file there. [false] when there was one. *)
(* src: scripts/company_scribe_effect_broker.py _append_jsonl_once@30-80 *)
Definition create_rows (p : path) (payload : bytes) : prog bool :=
  do! (n, temporary) := mkstemp ("." +:+ name_of p +:+ ".") (parent p) in
  let expected := payload ++ [lf] in
  do! made := on_error (
      do! _ := chmod n 384 in
      do! _ := write_all Silent n expected in
      do! _ := fsync n in
      do! v := pnow in
      do! _ := pof (require bool_decide (take (List.length expected) (data_of v n) = expected)
                      else CompanyScribeAdmissionError, "channel mutation creation lacks exact read-back receipt" ;; Ok tt) in
      do! _ := check in
      do! made := link (Linked p) temporary p in
      if (made : bool) then
        do! _ := fsync_dir (parent p) in
        do! _ := unlink temporary in pret true
      else pret false) (unlink_quietly temporary) in
  if (made : bool) then do! _ := fsync_dir (parent p) in pret true
  else do! _ := unlink_quietly temporary in pret false.

(** The opened file [n] read under its lock, and the row appended to it when it
    is not there. *)
(* src: scripts/company_scribe_effect_broker.py _append_jsonl_once@87-148 *)
Definition append_row (p : path) (n : nat) (id_of : identity) (expected : json) (payload : bytes) : prog bool :=
  do! v := pnow in
  do! _ := pof (require safe_rows v n else CompanyScribeAdmissionError, "channel mutation target is unsafe" ;; Ok tt) in
  let existing := data_of v n in
  do! there := pof (appended_already id_of expected payload existing) in
  if (there : bool) then pret false else
  do! _ := check in
  do! _ := write_all (Appended p) n (payload ++ [lf]) in
  do! _ := fsync n in
  do! v := pnow in
  do! _ := pof (require bool_decide (take (S (List.length payload)) (drop (List.length existing) (data_of v n)) = payload ++ [lf])
                  else CompanyScribeAdmissionError, "channel mutation append lacks exact read-back receipt" ;; Ok tt) in
  pret true.

(* src: scripts/company_scribe_effect_broker.py _append_jsonl_once@0-29 *)
Definition append_jsonl_once (p : path) (id_of : identity) (row : dict) : prog bool :=
  do! _ := check in
  do! v := pnow in
  do! _ := pof (safe_parent v p) in
  do! payload := pof (row_payload id_of row) in
  do! opened := pof (open_rows v p) in
  match opened with
  | Some n => append_row p n id_of (id_of row) payload
  | None =>
      do! made := create_rows p payload in
      if (made : bool) then pret true else
      do! v := pnow in
      do! opened := pof (open_rows v p) in
      match opened with
      | Some n => append_row p n id_of (id_of row) payload
      | None => pof (refuse "channel mutation target disappeared during exclusive create")
      end
  end.

(** ** Sending *)

Definition send_identity (row : dict) : json := match get row "meta" with JObj m => get m "send_id" | _ => JNull end.
Definition audit_identity (row : dict) : json := get row "send_id".

Definition send_id_of (effect_id : string) : string :=
  "scribe-send-" +:+ of_chars (take 32 (chars (digest effect_id))).
Definition code_points (s : string) : Z :=
  match points true (chars s) with Some l => Z.of_nat (List.length l) | None => 0 end.
(** [json.dumps(value, allow_nan=False)] succeeds. *)
Definition dumpable (value : json) : bool := finite value && ints_ok value.
(** [len(value.encode("utf-8")) > bound]. *)
Definition exceeds (value : string) (bound : Z) : res bool :=
  let! b := encode_str value in Ok (bound <? blen (chars b)).
(** [datetime.now(timezone.utc).isoformat().replace("+00:00", "Z")]. *)
Definition utc_text (now : datetime) : string := replace "+00:00" "Z" (isoformat now).

Definition send_event (event_type : json) (content : string) (meta : dict) (target : json) (send_id sent_at : string) : dict :=
  [("event_type", event_type); ("content", JStr content);
   ("meta", JObj (meta ++ [("sender_role", JStr "scribe"); ("target_role", target); ("sent_at", JStr sent_at);
                           ("send_id", JStr send_id)]))].
Definition send_audit (event_type : json) (content : string) (target : json) (send_id sent_at : string) : dict :=
  [("ts", JStr sent_at); ("send_id", JStr send_id); ("sender", JStr "scribe"); ("target", target);
   ("event_type", event_type); ("content_length", JInt (code_points content));
   ("content_sha1", JStr (of_chars (take 12 (sha1_hex (chars content)))));
   ("content_sha256", JStr (digest content))].

(* src: scripts/company_scribe_effect_broker.py _channel_send_rows *)
Definition channel_send_rows (now : datetime) (effect_id : string) (arguments : dict) : res (string * dict * dict) :=
  require subset_of arguments.*1 ["effect_id"; "target_role"; "content"; "event_type"; "meta"]
    else CompanyScribeAdmissionError, "channel send contains an unknown argument" ;;
  let target := get arguments "target_role" in
  let event_type := default (JStr "audit_request") (dict_get "event_type" arguments) in
  let! known := in_set target VALID_CHANNEL_ROLES in
  require known else CompanyScribeAdmissionError, "channel target role is not reviewed" ;;
  let! known := in_set event_type VALID_CHANNEL_EVENT_TYPES in
  require known else CompanyScribeAdmissionError, "channel event type is not reviewed" ;;
  match get arguments "content", default (JObj []) (dict_get "meta" arguments) with
  | JStr content, meta =>
      raise_if negb (truthy content)
        with CompanyScribeAdmissionError, "channel content must be bounded non-empty text" ;;
      let! long := exceeds content _MAX_TEXT_BYTES in
      raise_if long with CompanyScribeAdmissionError, "channel content must be bounded non-empty text" ;;
      match meta with
      | JObj meta =>
          raise_if existsb (fun k => existsb (String.eqb k) meta.*1) CHANNEL_SEND_META_RESERVED
            with CompanyScribeAdmissionError, "channel metadata cannot set broker-reserved identity fields" ;;
          require dumpable (JObj meta) else CompanyScribeAdmissionError, "channel metadata is not JSON-safe" ;;
          let send_id := send_id_of effect_id in
          let sent_at := utc_text now in
          Ok (send_id, send_event event_type content meta target send_id sent_at,
              send_audit event_type content target send_id sent_at)
      | _ => refuse "channel metadata must be an object"
      end
  | _, _ => refuse "channel content must be bounded non-empty text"
  end.

(* src: scripts/company_scribe_effect_broker.py _valid_utc_timestamp *)
Definition valid_utc_timestamp (value : json) : bool :=
  match value with
  | JStr s =>
      endswith s "Z"
      && match fromisoformat (of_chars (take (String.length s - 1) (chars s)) +:+ "+00:00") with
         | Some d => bool_decide (dt_off d = Some 0)
         | None => false
         end
  | _ => false
  end.

(* src: scripts/company_scribe_effect_broker.py _reconstruct_channel_send_arguments *)
Definition reconstruct_channel_send_arguments (effect_id target content event_type : string) (user_meta : dict)
    (request_sha256 : string) : res dict :=
  let event_type_options := if (event_type =? "audit_request")%string then [false; true] else [true] in
  let meta_options := if bool_decide (user_meta = []) then [false; true] else [true] in
  let candidate (include : bool * bool) : dict :=
    [("effect_id", JStr effect_id); ("target_role", JStr target); ("content", JStr content)]
    ++ (if include.1 then [("event_type", JStr event_type)] else []) ++ (if include.2 then [("meta", JObj user_meta)] else []) in
  let! digests := rmap (fun c => let! d := effect_request_sha256 "channel" "channel_send" c in Ok (c, d))
                    (map candidate (List.concat (map (fun e => map (pair e) meta_options) event_type_options))) in
  match List.filter (fun cd => (cd.2 =? request_sha256)%string) digests with
  | [(c, _)] => Ok c
  | _ => refuse "prepared channel send request identity is malformed"
  end.
(** The parts of a prepared send: its id, target, rows and the request. *)
(* src: scripts/company_scribe_effect_broker.py _validate_prepared_channel_send *)
Definition validate_prepared_channel_send (record : dict) : res (string * string * dict * dict * dict) :=
  let! effect_id := validate_effect_id (get record "effect_id") in
  match get record "request_sha256", get record "details" with
  | JStr request_sha256, JObj details =>
      require same_keys details ["send_id"; "target_role"; "event"; "audit"]
        else CompanyScribeAdmissionError, "prepared channel send recovery details are malformed" ;;
      let rows := refuse "prepared channel send recovery rows are malformed" in
      let send_id := send_id_of effect_id in
      if negb (is_str (get details "send_id") send_id) then rows else
      let! known := in_set (get details "target_role") VALID_CHANNEL_ROLES in
      match known, get details "target_role", get details "event", get details "audit" with
      | true, JStr target, JObj event, JObj audit =>
          if negb (same_keys event ["event_type"; "content"; "meta"]
                   && same_keys audit ["ts"; "send_id"; "sender"; "target"; "event_type"; "content_length"; "content_sha1"; "content_sha256"])
          then rows else
          let malformed := refuse "prepared channel send event is malformed" in
          let! known := in_set (get event "event_type") VALID_CHANNEL_EVENT_TYPES in
          match known, get event "event_type", get event "content" with
          | true, JStr event_type, JStr content =>
              if negb (truthy content) then malformed else
              let! long := exceeds content _MAX_TEXT_BYTES in
              match long, get event "meta" with
              | false, JObj event_meta =>
                  if negb (subset_of CHANNEL_SEND_META_RESERVED event_meta.*1) then malformed else
                  let user_meta := List.filter (fun kv => negb (existsb (String.eqb kv.1) CHANNEL_SEND_META_RESERVED)) event_meta in
                  require dumpable (JObj user_meta)
                    else CompanyScribeAdmissionError, "prepared channel send metadata is malformed" ;;
                  let sent_at := get event_meta "sent_at" in
                  require is_str (get event_meta "sender_role") "scribe" && is_str (get event_meta "target_role") target
                          && is_str (get event_meta "send_id") send_id && valid_utc_timestamp sent_at
                          && py_eq (get audit "ts") sent_at && is_str (get audit "send_id") send_id
                          && is_str (get audit "sender") "scribe" && is_str (get audit "target") target
                          && is_str (get audit "event_type") event_type
                          && py_eq (get audit "content_length") (JInt (code_points content))
                          && is_str (get audit "content_sha1") (of_chars (take 12 (sha1_hex (chars content))))
                          && is_str (get audit "content_sha256") (digest content)
                    else CompanyScribeAdmissionError, "prepared channel send rows changed identity" ;;
                  let! reconstructed := reconstruct_channel_send_arguments effect_id target content event_type user_meta request_sha256 in
                  Ok (send_id, target, event, audit, reconstructed)
              | _, _ => malformed
              end
          | _, _, _ => malformed
          end
      | _, _, _, _ => rows
      end
  | _, _ => refuse "prepared channel send recovery details are malformed"
  end.

Variables (umask : Z) (root : path).

Section send.
  Variable channel_shared_dir : path.
Definition queue_path (target : string) : path := channel_shared_dir ++ ["queue_" +:+ target +:+ ".jsonl"].
Definition audit_path : path := channel_shared_dir ++ ["audit_sends.jsonl"].

Definition send_details (send_id : string) (target : json) (event audit : dict) : dict :=
  [("send_id", JStr send_id); ("target_role", target); ("event", JObj event); ("audit", JObj audit)].
Definition sent (send_id target : string) : dict :=
  [("state", JStr "sent"); ("send_id", JStr send_id); ("target_role", JStr target)].

(** The queue of the other role first, then the audit. *)
(* src: scripts/company_scribe_effect_broker.py _journaled_channel_send@34-53 *)
Definition finish_send (write : dict -> prog unit) (send_id target : string) (event audit details : dict) : prog dict :=
  do! _ := append_jsonl_once (queue_path target) send_identity event in
  do! _ := append_jsonl_once audit_path audit_identity audit in
  do! _ := write (completed details (sent send_id target)) in
  pret (sent send_id target).
(* src: scripts/company_scribe_effect_broker.py _journaled_channel_send@0-33 *)
Definition journaled_channel_send (now : datetime) (arguments : dict) (request_sha256 : string) : prog dict :=
  do! effect_id := pof (validate_effect_id (get arguments "effect_id")) in
  locked umask root effect_id request_sha256 "channel_send" (fun record write =>
    match record with
    | Some record =>
        do! replay := pof (replayed_result record) in
        match replay with
        | Some result => pret result
        | None =>
            do! (send_id, target, event, audit, _) := pof (validate_prepared_channel_send record) in
            let details := match get record "details" with JObj d => d | _ => [] end in
            finish_send write send_id target event audit details
        end
    | None =>
        do! (send_id, event, audit) := pof (channel_send_rows now effect_id arguments) in
        let target := get arguments "target_role" in
        let details := send_details send_id target event audit in
        do! _ := write (prepared details) in
        finish_send write send_id (py_str target) event audit details
    end).
End send.

(** ** Replying *)

(** [{**current, **row}]. *)
Definition merged (current row : dict) : dict := fold_left (fun acc kv => dict_put kv.1 kv.2 acc) row current.
(** A non-empty text. *)
Definition some_text (value : json) : option string :=
  match value with JStr s => if truthy s then Some s else None | _ => None end.
Definition alias_put (name : json) (eid : string) (alias : list (string * string)) : list (string * string) :=
  match some_text name with Some s => dict_put s eid alias | None => alias end.

(** One row of the delivery journal. *)
Definition snapshot_row (st : list (string * dict) * list (string * string)) (row : dict)
    : res (list (string * dict) * list (string * string)) :=
  let '(snapshots, alias) := st in
  match some_text (get row "event_id") with
  | None => Ok st
  | Some eid =>
      if is_str (get row "state") "pending" then
        let alias := match get row "event" with
                     | JObj event => match get event "meta" with
                                     | JObj meta => alias_put (get meta "event_id") eid (alias_put (get meta "send_id") eid alias)
                                     | _ => alias
                                     end
                     | _ => alias
                     end in
        Ok (dict_put eid row snapshots, alias)
      else
        match dict_get eid snapshots with
        | None => refuse "delivery journal transition lacks pending authority"
        | Some current =>
            require py_eq (get row "event_sha256") (get current "event_sha256")
              else CompanyScribeAdmissionError, "delivery journal event fingerprint changed" ;;
            Ok (dict_put eid (merged current row) snapshots, alias)
        end
  end.
Fixpoint snapshot_rows (st : list (string * dict) * list (string * string)) (rows : list dict)
    : res (list (string * dict) * list (string * string)) :=
  match rows with [] => Ok st | row :: rest => let! st := snapshot_row st row in snapshot_rows st rest end.

(* src: scripts/company_scribe_effect_broker.py _delivery_snapshot *)
Definition delivery_snapshot (v : volume) (p : path) (event_id : string) : res (option dict) :=
  let! rows := read_jsonl v p in
  let! (snapshots, alias) := snapshot_rows ([], []) rows in
  match dict_get event_id snapshots with
  | Some d => Ok (Some d)
  | None => Ok match dict_get event_id alias with Some eid => dict_get eid snapshots | None => None end
  end.

Definition reply_identity (row : dict) : json :=
  if is_str (get row "state") "acknowledged" then JArr [get row "event_id"; get row "state"] else JNull.

Definition DELIVERY_TRANSITION : string := "mise.scribe-delivery-transition.v1".
Definition reply_row (event_id : string) (event_sha256 : json) (now : datetime) (verdict : string) : dict :=
  [("schema", JStr DELIVERY_TRANSITION); ("event_id", JStr event_id); ("event_sha256", event_sha256);
   ("state", JStr "acknowledged"); ("transitioned_at", JStr (utc_text now)); ("verdict", JStr verdict)].
Definition acknowledged (kind event_id : string) : dict :=
  [("state", JStr "acknowledged"); ("kind", JStr kind); ("event_id", JStr event_id)].

(** The arguments of a reply. *)
(* src: scripts/company_scribe_effect_broker.py _journaled_channel_reply@9-25 *)
Definition reply_arguments (arguments : dict) : res (string * string) :=
  require same_keys arguments ["effect_id"; "event_id"; "text"]
    else CompanyScribeAdmissionError, "channel reply contains an unknown or missing argument" ;;
  let bad := refuse "channel reply requires non-empty event_id and text" in
  match some_text (get arguments "event_id") with
  | None => bad
  | Some event_id =>
      let! long := exceeds event_id 1024 in
      if (long : bool) then bad else
      match some_text (get arguments "text") with
      | None => bad
      | Some verdict =>
          let! long := exceeds verdict _MAX_TEXT_BYTES in
          if (long : bool) then bad else Ok (event_id, verdict)
      end
  end.

(** What a row that was prepared must say. *)
(* src: scripts/company_scribe_effect_broker.py _journaled_channel_reply@72-100 *)
Definition check_reply_row (effect_id event_id verdict request_sha256 : string) (row : dict) : res unit :=
  let bad := refuse "prepared channel reply recovery row is malformed" in
  if negb (same_keys row ["schema"; "event_id"; "event_sha256"; "state"; "transitioned_at"; "verdict"]
           && is_str (get row "schema") DELIVERY_TRANSITION && is_str (get row "event_id") event_id
           && is_str (get row "state") "acknowledged" && is_str (get row "verdict") verdict
           && match get row "event_sha256" with JStr s => hex64 s | _ => false end
           && valid_utc_timestamp (get row "transitioned_at"))
  then bad else
  let! d := effect_request_sha256 "channel" "channel_reply"
              [("effect_id", JStr effect_id); ("event_id", JStr event_id); ("text", JStr verdict)] in
  if (d =? request_sha256)%string then Ok tt else bad.
(* src: scripts/company_scribe_effect_broker.py _journaled_channel_reply@102-114 *)
Definition check_delivery (current : option dict) (event_id verdict : string) (row : dict) : res dict :=
  let bad := refuse "prepared channel reply no longer matches delivery state" in
  match current with
  | None => bad
  | Some current =>
      if negb (is_str (get current "event_id") event_id && py_eq (get current "event_sha256") (get row "event_sha256")) then bad else
      let! known := in_set (get current "state") ["delivered"; "acknowledged"] in
      if known && negb (is_str (get current "state") "acknowledged" && negb (is_str (get current "verdict") verdict))
      then Ok current else bad
  end.

Section reply.
  Variable channel_state_dir : path.
Definition delivery_path : path := channel_state_dir ++ ["delivery_journal.jsonl"].

(** From the row on: what was prepared now or before. *)
(* src: scripts/company_scribe_effect_broker.py _journaled_channel_reply@115-136 *)
Definition finish_reply (write : dict -> prog unit) (effect_id event_id verdict request_sha256 : string) (details row : dict) : prog dict :=
  do! _ := pof (check_reply_row effect_id event_id verdict request_sha256 row) in
  do! v := pnow in
  do! snapshot := pof (delivery_snapshot v delivery_path event_id) in
  do! current := pof (check_delivery snapshot event_id verdict row) in
  if is_str (get current "state") "acknowledged" then
    do! b := check in
    let result := acknowledged "duplicate" event_id
                  ++ [("admission_id", JStr (b_admission_id b)); ("admission_epoch", JInt (b_admission_epoch b))] in
    do! _ := write (completed details result) in pret result
  else
    do! _ := append_jsonl_once delivery_path reply_identity row in
    let result := acknowledged "acknowledged" event_id in
    do! _ := write (completed details result) in pret result.

(* src: scripts/company_scribe_effect_broker.py _journaled_channel_reply@27-71 *)
Definition journaled_channel_reply (now : datetime) (arguments : dict) (request_sha256 : string) : prog dict :=
  do! effect_id := pof (validate_effect_id (get arguments "effect_id")) in
  do! (event_id, verdict) := pof (reply_arguments arguments) in
  locked umask root effect_id request_sha256 "channel_reply" (fun record write =>
    match record with
    | Some record =>
        do! replay := pof (replayed_result record) in
        match replay with
        | Some result => pret result
        | None =>
            let lost := pof (refuse "prepared channel reply lost its recovery row") in
            match get record "details" with
            | JObj details =>
                match same_keys details ["row"], get details "row" with
                | true, JObj row => finish_reply write effect_id event_id verdict request_sha256 details row
                | _, _ => lost
                end
            | _ => lost
            end
        end
    | None =>
        do! v := pnow in
        do! snapshot := pof (delivery_snapshot v delivery_path event_id) in
        match snapshot with
        | None => pof (refuse "unknown channel event_id")
        | Some snapshot =>
            if is_str (get snapshot "state") "pending" then pof (refuse "channel event has not reached delivered state")
            else if is_str (get snapshot "state") "acknowledged" then
              if negb (is_str (get snapshot "verdict") verdict)
              then pof (refuse "channel acknowledgment conflicts with prior verdict") else
              let result := acknowledged "duplicate" event_id in
              do! _ := write [("state", JStr "completed"); ("result", JObj result)] in pret result
            else
              let row := reply_row event_id (get snapshot "event_sha256") now verdict in
              let details := [("row", JObj row)] in
              do! _ := write (prepared details) in
              finish_reply write effect_id event_id verdict request_sha256 details row
        end
    end).
End reply.

(** ** Calls and recovery *)

Section tools.
  Variables channel_state_dir channel_shared_dir : path.

(* src: scripts/company_scribe_effect_broker.py _call_channel_tool@0-29 *)
Definition call_channel_tool (now : datetime) (name : string) (arguments : json) : prog dict :=
  match arguments with
  | JObj arguments =>
      if negb (existsb (String.eqb name) ["channel_send"; "channel_reply"])
      then pof (refuse "unknown or confused channel capability method") else
      do! _ := pof (validate_effect_id (get arguments "effect_id")) in
      do! request_sha256 := pof (effect_request_sha256 "channel" name arguments) in
      if (name =? "channel_send")%string
      then journaled_channel_send channel_shared_dir now arguments request_sha256
      else journaled_channel_reply channel_state_dir now arguments request_sha256
  | _ => pof (refuse "channel effect arguments must be an object")
  end.

(** The body of the loop over the pending records. *)
(* src: scripts/company_scribe_effect_broker.py _recover_prepared_channel_effects@9-47 *)
Definition recover_channel_effect (now : datetime) (record : dict) : prog unit :=
  let effect_id := py_str (get record "effect_id") in
  let request_sha256 := py_str (get record "request_sha256") in
  if is_str (get record "operation") "channel_send" then
    do! _ := check in
    do! (_, _, _, _, arguments) := pof (validate_prepared_channel_send record) in
    do! _ := journaled_channel_send channel_shared_dir now arguments request_sha256 in pret tt
  else if is_str (get record "operation") "channel_reply" then
    do! _ := check in
    let bad := pof (refuse "prepared channel reply recovery row is malformed") in
    match get record "details" with
    | JObj details =>
        match get details "row" with
        | JObj row =>
            match get row "event_id", get row "verdict" with
            | JStr event_id, JStr verdict =>
                do! _ := journaled_channel_reply channel_state_dir now
                           [("effect_id", JStr effect_id); ("event_id", JStr event_id); ("text", JStr verdict)] request_sha256 in
                pret tt
            | _, _ => bad
            end
        | _ => bad
        end
    | _ => bad
    end
  else pret tt.
Fixpoint each_record (f : dict -> prog unit) (l : list dict) : prog unit :=
  match l with [] => pret tt | r :: rest => do! _ := f r in each_record f rest end.
(* src: scripts/company_scribe_effect_broker.py _recover_prepared_channel_effects@0-8 *)
Definition recover_prepared_channel_effects (now : datetime) : prog unit :=
  do! v := pnow in
  do! l := pof (pending_records v root) in
  each_record (recover_channel_effect now) l.
End tools.
End channel.

(** ** What rows say *)

Lemma in_set_ok value names : in_set value names = Ok true -> exists s, value = JStr s /\ s ∈ names.
Proof.
  assert (forall v, (forall s, v <> JStr s) -> is_one_of v names = false) as N.
  { intros v Hv. unfold is_one_of. apply not_true_iff_false. intros (s & _ & E)%existsb_exists. destruct v; try done. by eapply Hv. }
  destruct value; unfold in_set; try done; intros [= E]; try by rewrite N in E. exists s. split; [done|].
  apply existsb_exists in E as (t & Ht & ->%String.eqb_eq). by apply list_elem_of_In.
Qed.

Section facts.
  Context `{CharData} `{Digest} `{JsonLimits} `{IsoTime}.

Lemma channel_send_rows_ok now effect_id arguments s ev au : channel_send_rows now effect_id arguments = Ok (s, ev, au) ->
  exists target event_type content meta,
    get arguments "target_role" = JStr target /\ target ∈ VALID_CHANNEL_ROLES
    /\ default (JStr "audit_request") (dict_get "event_type" arguments) = JStr event_type /\ event_type ∈ VALID_CHANNEL_EVENT_TYPES
    /\ get arguments "content" = JStr content /\ truthy content = true /\ exceeds content _MAX_TEXT_BYTES = Ok false
    /\ default (JObj []) (dict_get "meta" arguments) = JObj meta
    /\ (forall k, k ∈ CHANNEL_SEND_META_RESERVED -> k ∉ meta.*1) /\ dumpable (JObj meta) = true
    /\ s = send_id_of effect_id /\ ev = send_event (JStr event_type) content meta (JStr target) s (utc_text now)
    /\ au = send_audit (JStr event_type) content (JStr target) s (utc_text now).
Proof.
  unfold channel_send_rows. intros E. guards in E. destruct E as [_ E]. apply rbind_ok in E as (k & Ek & E). guards in E. destruct E as [-> E].
  apply in_set_ok in Ek as (target & Et & Ht). apply rbind_ok in E as (k & Ek & E). guards in E. destruct E as [-> E].
  apply in_set_ok in Ek as (event_type & Ee & He). destruct (get arguments "content") as [| | | | |content| |] eqn:Ec; try done.
  guards in E. destruct E as [Tc%negb_false_iff E]. apply rbind_ok in E as (l & El & E). guards in E. destruct E as [-> E].
  destruct (default (JObj []) (dict_get "meta" arguments)) as [| | | | | | |meta] eqn:Em; try done. guards in E. destruct E as (R & D & E). injection E as <- <- <-.
  rewrite Et, Ee. exists target, event_type, content, meta. repeat (split; [done|]). split; [|by repeat split].
  intros k Hk Hm. apply not_true_iff_false in R. apply R, existsb_exists. exists k. split; [by apply list_elem_of_In|].
  apply existsb_exists. exists k. split; [by apply list_elem_of_In|apply String.eqb_refl].
Qed.

Lemma validate_prepared_ok record s target ev au args : validate_prepared_channel_send record = Ok (s, target, ev, au, args) ->
  exists effect_id details, validate_effect_id (get record "effect_id") = Ok effect_id /\ get record "details" = JObj details
    /\ s = send_id_of effect_id /\ get details "target_role" = JStr target /\ target ∈ VALID_CHANNEL_ROLES
    /\ get details "event" = JObj ev /\ get details "audit" = JObj au.
Proof.
  unfold validate_prepared_channel_send. intros E. apply rbind_ok in E as (eid & Eid & E).
  destruct (get record "request_sha256"); try done. destruct (get record "details") as [| | | | | | |details]; try done.
  guards in E. destruct E as [_ E]. destruct (negb _); [done|]. apply rbind_ok in E as (k & Ek & E). destruct k; [|done].
  apply in_set_ok in Ek as (t & Et & Ht). rewrite Et in E. destruct (get details "event") as [| | | | | | |event] eqn:Ev; try done.
  destruct (get details "audit") as [| | | | | | |audit] eqn:Au; try done. destruct (negb _); [done|].
  apply rbind_ok in E as (k & _ & E). destruct k; [|done]. destruct (get event "event_type"); try done.
  destruct (get event "content"); try done. destruct (negb _); [done|]. apply rbind_ok in E as (l & _ & E). destruct l; [done|].
  destruct (get event "meta"); try done. destruct (negb _); [done|]. guards in E. destruct E as (_ & _ & E).
  apply rbind_ok in E as (r & _ & E). injection E as <- <- <- <- <-. by exists eid, details.
Qed.
End facts.
