(* ===== verification/ChannelOrder.v ===== *)
(** * When and where the channels change

    Whatever is asked of the broker's channel tools, and whatever fails or stops
    them, a file of the channels changes only right after the authority was
    checked: the queue of a reviewed role, the audit or the delivery journal. *)
From S2P Require Import Prelude PyStr PyTime Sha256 Json PyIO JsonText PyValue PyUnicode JsonBytes HostFiles EffectJournal HostDemo WorkspaceEffects WorkspaceOrder ChannelEffects.
From stdpp Require Import base gmap strings list.
From Stdlib Require Import ZArith NArith Lia.

Section channel.
  Context `{CharData} `{Digest} `{JsonLimits} `{TempNames} `{IsoTime} (umask : Z) (root state shared : path).

Definition channel_file (p : path) : Prop :=
  (exists role, role ∈ VALID_CHANNEL_ROLES /\ p = queue_path shared role) \/ p = audit_path shared \/ p = delivery_path state.
Notation keeps := (keeps channel_file).

Lemma keeps_create_rows p payload : channel_file p -> keeps (create_rows p payload).
Proof.
  intros Cp. unfold create_rows. apply keeps_bind.
  { unfold mkstemp. apply keeps_now. intros v. apply keeps_bind; [by apply keeps_sys|]. intros n. apply keeps_ret. }
  intros [n t]. apply keeps_bind.
  - apply keeps_on_error; [|apply keeps_unlink_quietly]. do 3 (apply keeps_bind; [apply keeps_write_all || by apply keeps_sys|]; intros _).
    apply keeps_now. intros v. apply keeps_of. intros _ _. apply (keeps_checked _ (Linked p) p); [done|done|]. intros b [].
    + do 2 (apply keeps_bind; [by apply keeps_sys|]; intros _). apply keeps_ret.
    + apply keeps_ret.
  - intros []; (apply keeps_bind; [apply keeps_unlink_quietly || by apply keeps_sys|]; intros _; apply keeps_ret).
Qed.

Lemma keeps_append_row p n id_of e payload : channel_file p -> keeps (append_row p n id_of e payload).
Proof.
  intros Cp. unfold append_row. apply keeps_now. intros v. apply keeps_of. intros _ _. apply keeps_of. intros [] _; [apply keeps_ret|].
  assert (exists c l, payload ++ [lf] = c :: l) as (c & l & ->) by (destruct payload; by eexists _, _). cbn [write_all].
  apply (keeps_checked _ (Appended p) p); [done|done|]. intros b a. apply keeps_bind; [by apply keeps_sys|]. intros _.
  apply keeps_now. intros u. apply keeps_of. intros _ _. apply keeps_ret.
Qed.

Lemma keeps_append p id_of row : channel_file p -> keeps (append_jsonl_once p id_of row).
Proof.
  intros Cp. unfold append_jsonl_once. apply keeps_bind; [apply keeps_check|]. intros _. apply keeps_now. intros v.
  apply keeps_of. intros _ _. apply keeps_of. intros b _. apply keeps_of. intros [n|] _; [by apply keeps_append_row|].
  apply keeps_bind; [by apply keeps_create_rows|]. intros []; [apply keeps_ret|]. apply keeps_now. intros u.
  apply keeps_of. intros [n|] _; [by apply keeps_append_row|apply keeps_res].
Qed.

Lemma keeps_finish_send write s target ev au details : target ∈ VALID_CHANNEL_ROLES -> (forall d, keeps (write d)) ->
  keeps (finish_send shared write s target ev au details).
Proof.
  intros Ht Kw. unfold finish_send. apply keeps_bind; [apply keeps_append; left; by eexists|]. intros _.
  apply keeps_bind; [apply keeps_append; right; by left|]. intros _. apply keeps_bind; [apply Kw|]. intros _. apply keeps_ret.
Qed.
Lemma keeps_send now arguments request : keeps (journaled_channel_send umask root shared now arguments request).
Proof.
  unfold journaled_channel_send. apply keeps_of. intros eid _. apply keeps_locked. intros [record|] eid'.
  - apply keeps_of. intros [result|] _; [apply keeps_ret|]. apply keeps_of. intros [[[[s t] ev] au] args] E.
    apply validate_prepared_ok in E as (? & ? & _ & _ & _ & _ & Ht & _). apply keeps_finish_send; [done|]. intros d. apply keeps_write.
  - apply keeps_of. intros [[s ev] au] E. apply channel_send_rows_ok in E as (t & ty & c & m & -> & Ht & _).
    apply keeps_bind; [apply keeps_write|]. intros _. apply keeps_finish_send; [done|]. intros d. apply keeps_write.
Qed.

Lemma keeps_finish_reply write eid event verdict request details row : (forall d, keeps (write d)) ->
  keeps (finish_reply state write eid event verdict request details row).
Proof.
  intros Kw. unfold finish_reply. apply keeps_of. intros _ _. apply keeps_now. intros v. apply keeps_of. intros o _. apply keeps_of. intros c _.
  destruct (is_str _ _); (apply keeps_bind; [apply keeps_check || (apply keeps_append; right; by right)|]; intros ?;
    apply keeps_bind; [apply Kw|]; intros _; apply keeps_ret).
Qed.
Lemma keeps_reply now arguments request : keeps (journaled_channel_reply umask root state now arguments request).
Proof.
  unfold journaled_channel_reply. apply keeps_of. intros eid _. apply keeps_of. intros [event verdict] _. apply keeps_locked. intros [record|] eid'.
  - apply keeps_of. intros [result|] _; [apply keeps_ret|]. destruct (get record "details") as [| | | | | | |details]; try apply keeps_res.
    destruct (same_keys _ _); [|apply keeps_res]. destruct (get details "row"); try apply keeps_res. apply keeps_finish_reply. intros d. apply keeps_write.
  - apply keeps_now. intros v. apply keeps_of. intros [snapshot|] _; [|apply keeps_res]. destruct (is_str _ "pending"); [apply keeps_res|].
    destruct (is_str _ "acknowledged").
    + destruct (negb _); [apply keeps_res|]. apply keeps_bind; [apply keeps_write|]. intros _. apply keeps_ret.
    + apply keeps_bind; [apply keeps_write|]. intros _. apply keeps_finish_reply. intros d. apply keeps_write.
Qed.

Lemma keeps_recovery now : keeps (recover_prepared_channel_effects umask root state shared now).
Proof.
  unfold recover_prepared_channel_effects. apply keeps_now. intros v. apply keeps_of. intros l _. clear v.
  induction l as [|record l IH]; [apply keeps_ret|]. cbn [each_record]. apply keeps_bind; [|intros _; exact IH]. unfold recover_channel_effect.
  destruct (is_str _ "channel_send").
  - apply keeps_bind; [apply keeps_check|]. intros _. apply keeps_of. intros [[[[s t] ev] au] args] _.
    apply keeps_bind; [apply keeps_send|]. intros _. apply keeps_ret.
  - destruct (is_str _ "channel_reply"); [|apply keeps_ret]. apply keeps_bind; [apply keeps_check|]. intros _.
    destruct (get record "details") as [| | | | | | |details]; try apply keeps_res. destruct (get details "row") as [| | | | | | |row]; try apply keeps_res.
    destruct (get row "event_id"); try apply keeps_res. destruct (get row "verdict"); try apply keeps_res.
    apply keeps_bind; [apply keeps_reply|]. intros _. apply keeps_ret.
Qed.

(** C35: Whatever channel tool is called with whatever arguments, and whatever
    recovery finds in the journal, in any state of the host, with any faults,
    kills and answers of the authority: each change others can see is an append
    to, or the making of, the queue of a reviewed role, the audit file or the
    delivery journal, and the call right before it was a successful check of the
    authority. *)
Theorem channel_changes_are_checked now name arguments w :
  orderly channel_file (w_trace w) ->
  orderly channel_file (w_trace (call_channel_tool umask root state shared now name arguments w).2)
  /\ orderly channel_file (w_trace (recover_prepared_channel_effects umask root state shared now w).2).
Proof.
  intros O. split; [|by apply keeps_recovery]. revert w O. fold (keeps (call_channel_tool umask root state shared now name arguments)).
  unfold call_channel_tool. destruct arguments; try apply keeps_res. destruct (negb _); [apply keeps_res|].
  apply keeps_of. intros _ _. apply keeps_of. intros request _. destruct (name =? "channel_send")%string; [apply keeps_send|apply keeps_reply].
Qed.
End channel.

(** ** A host with channels *)
Module ChannelDemo.
  #[local] Existing Instance checksum_digest.
#[local] Instance limits : JsonLimits.
Proof. refine {| max_depth := 990 |}. lia. Defined.

Definition rows (l : list dict) : inode :=
  Inode (Reg (flat_map (fun row => match canonical_bytes (JObj row) with Ok b => b ++ [lf] | Err _ => [] end) l)) 384 true.
Definition volume_of (l : list (path * inode)) : volume :=
  Volume (list_to_map (imap (fun n e => (e.1, n)) l)) (list_to_map (imap (fun n e => (n, e.2)) l)).
Definition with_files (l : list (path * inode)) : volume :=
  volume_of ([([], dir755); (["j"], dir700); (["shared"], dir755); (["state"], dir755)] ++ l).
Definition queue : path := ["shared"; "queue_cos.jsonl"].
Definition quiet : volume := with_files [(queue, rows []); (audit_path ["shared"], rows [])].
Definition now : datetime := DT 63000000000000000 (Some 0%Z).
Definition later : datetime := DT 63000000060000000 (Some 0%Z).
Definition up_again (w : world) : world := World (w_now w) (w_disk w) [] (w_checks w) (w_trace w).
Definition size (v : volume) (p : path) : nat :=
  match stat v p with Some (_, Inode (Reg b) _ _) => List.length b | _ => 0%nat end.
Definition answer (o : outcome dict) : json :=
  match o with Done d => get d "state" | Raised e => JStr (exn_msg e) | Crashed => JNull end.

Notation send_args content :=
  [("effect_id", JStr "e-1"); ("target_role", JStr "cos"); ("content", JStr content); ("meta", JObj [("k", JInt 1)])].
Notation tool name args at_ w := (call_channel_tool 18 ["j"] ["state"] ["shared"] at_ name (JObj args) w).
Notation send w := (tool "channel_send" (send_args "hello") now w).
Notation send_later w := (tool "channel_send" (send_args "hello") later w).

(** Sent, and sent again: one row. *)
Example sent_once :
  let w1 := (send (start quiet [])).2 in let '(o, w2) := send_later (up_again w1) in
  (answer o, size (w_now w1) queue, size (w_now w2) queue) = (JStr "sent", 197%nat, 197%nat).
Proof. vm_compute. reflexivity. Qed.

(** Killed at any of its calls, the next attempt, at another time, is answered
    and leaves one row. *)
Example finished_after_any_kill :
  forallb (fun k => let '(o, w2) := send_later (up_again (send (start quiet (repeat Goes k ++ [Killed 0]))).2) in
                    is_str (answer o) "sent" && (size (w_now w2) queue =? 197)%nat) (seq 0 30) = true.
Proof. vm_compute. reflexivity. Qed.

(** Stopped in the middle of the row: the queue keeps a torn tail, and every
    later append to it is refused, recovery too. *)
Example torn_queue_stays_torn :
  let w1 := (send (start quiet (repeat Goes 11 ++ [Killed 7]))).2 in
  (size (w_now w1) queue, answer (send_later (up_again w1)).1) = (7%nat, JStr "channel mutation target has a torn tail").
Proof. vm_compute. reflexivity. Qed.

(** The queue not being there, killed between [os.link] and [os.unlink]: two
    names of one file, which is refused from then on. *)
Example second_name_is_refused :
  let w1 := (send (start (with_files []) (repeat Goes 16 ++ [Killed 0]))).2 in
  (size (w_now w1) queue, answer (send_later (up_again w1)).1) = (197%nat, JStr "channel mutation target is unsafe").
Proof. vm_compute. reflexivity. Qed.

(** Killed before the sync of the row: the next attempt finds the row, does not
    sync it, and completes the record; a loss of power then takes the row. *)
Example completed_send_is_lost :
  let w1 := (send (start quiet (repeat Goes 12 ++ [Killed 0]))).2 in
  let '(o, w2) := send_later (up_again w1) in
  (answer o, size (w_now w1) queue, size (survives (fun _ => false) (fun _ => false) (w_now w2) (w_disk w2)) queue)
  = (JStr "sent", 197%nat, 0%nat).
Proof. vm_compute. reflexivity. Qed.

(** A delivered message, which its sender calls S-1. *)
Definition event : json := JObj [("meta", JObj [("send_id", JStr "S-1")])].
Definition fingerprint : json := JStr (of_chars (repeat (chr 97) 64)).
Definition delivered : volume := with_files [(delivery_path ["state"], rows
  [[("event_id", JStr "E-1"); ("state", JStr "pending"); ("event_sha256", fingerprint); ("event", event)];
   [("event_id", JStr "E-1"); ("state", JStr "delivered"); ("event_sha256", fingerprint)]])].
Notation reply event_id w := (tool "channel_reply" [("effect_id", JStr "e-2"); ("event_id", JStr event_id); ("text", JStr "done")] now w).
Definition unresolved_in (v : volume) : json :=
  match pending_records v ["j"] with Ok l => JArr (map (fun r => get r "operation") l) | Err _ => JNull end.

Example reply_is_acknowledged :
  let '(o, w) := reply "E-1" (start delivered []) in (answer o, unresolved_in (w_now w)) = (JStr "acknowledged", JArr []).
Proof. vm_compute. reflexivity. Qed.

(** Replied to under the sender's id, which the journal resolves: refused after
    the record was prepared, and recovery at the next start is refused too. *)
Example aliased_reply_stays_prepared :
  let '(o, w) := reply "S-1" (start delivered []) in
  (answer o, unresolved_in (w_now w),
   match (recover_prepared_channel_effects 18 ["j"] ["state"] ["shared"] later (up_again w)).1 with Raised e => exn_msg e | _ => "" end)
  = (JStr "prepared channel reply no longer matches delivery state", JArr [JStr "channel_reply"],
     "prepared channel reply no longer matches delivery state").
Proof. vm_compute. reflexivity. Qed.
End ChannelDemo.

Import ChannelDemo.
#[local] Existing Instance checksum_digest.
#[local] Existing Instance ChannelDemo.limits.

Lemma channel_changes_are_checked_witness :
  orderly (channel_file ["state"] ["shared"]) (w_trace (send (start quiet [])).2).
Proof.
  exact (proj1 (channel_changes_are_checked 18 ["j"] ["state"] ["shared"] now "channel_send" (JObj (send_args "hello")) (start quiet [])
    (orderly_nil _))).
Defined.
