(* ===== verification/ChannelProofs.v ===== *)
(** * Messages under crashes

    The lines of a file that rows are appended to, what may be known of such a
    file whatever stops the appends, and the rule of [append_jsonl_once]: at
    most one row of an identity, and, when no power is lost, one when it
    returns. *)
From S2P Require Import Prelude PyStr PyTime Sha256 Json PyIO PyPath JsonText PyValue PyUuid PyUnicode JsonBytes HostFiles HostLogic HostStates HostRules EffectJournal HostDemo WorkspaceEffects EffectProofs ChannelEffects.
From stdpp Require Import base gmap strings list.
From Stdlib Require Import ZArith NArith Lia Permutation.

Local Open Scope Z_scope.

(** ** Lines of bytes *)

Lemma torn_app D l : l <> [] -> torn (D ++ l) = torn l.
Proof.
  intros N. unfold torn. rewrite rev_app_distr. destruct (rev l) as [|c r] eqn:E; [|done].
  apply (f_equal (@rev _)) in E. by rewrite rev_involutive in E.
Qed.
Lemma torn_line b : torn (b ++ [lf]) = false.
Proof. unfold torn. by rewrite rev_app_distr. Qed.
Lemma torn_part b k : existsb (Ascii.eqb lf) b = false -> take k (b ++ [lf]) <> [] -> take k (b ++ [lf]) <> b ++ [lf] ->
  torn (take k (b ++ [lf])) = true.
Proof.
  intros Hb N1 N2. assert (k <= List.length b)%nat as L.
  { destruct (Nat.le_gt_cases k (List.length b)) as [|G]; [done|]. destruct N2. apply take_ge. rewrite length_app. simpl. lia. }
  rewrite take_app_le in * by done. unfold torn. destruct (rev (take k b)) as [|c r] eqn:E.
  - apply (f_equal (@rev _)) in E. by rewrite rev_involutive in E.
  - apply negb_true_iff. destruct (Ascii.eqb c lf) eqn:Ec; [|done]. apply Ascii.eqb_eq in Ec as ->. exfalso.
    assert (In lf b) as I by (rewrite <- (take_drop k b); apply in_or_app; left; apply in_rev; rewrite E; by left).
    apply not_true_iff_false in Hb. apply Hb, existsb_exists. exists lf. by rewrite Ascii.eqb_refl.
Qed.

Lemma torn_cons c D : D <> [] -> torn (c :: D) = torn D.
Proof. apply (torn_app [c]). Qed.
Lemma byte_lines_go_app D l : forall cur, torn D = false -> (D = [] -> cur = []) ->
  byte_lines_go cur (D ++ l) = byte_lines_go cur D ++ byte_lines l.
Proof.
  induction D as [D IH] using (induction_ltof1 _ (@List.length _)). unfold ltof in IH. intros cur T E.
  destruct D as [|c D]; [by rewrite (E eq_refl)|]. clear E.
  assert (D = [] -> c = lf) as Last.
  { intros ->. unfold torn in T. cbn in T. by apply negb_false_iff, Ascii.eqb_eq in T. }
  assert (D <> [] -> torn D = false) as TD by (intros N; by rewrite torn_cons in T).
  assert (torn D = false) as TD' by (destruct D; [done|by apply TD]).
  cbn [app byte_lines_go]. destruct (Ascii.eqb_spec c lf) as [->|Nl].
  - cbn [app]. f_equal. apply IH; [simpl; lia|done|done].
  - destruct D as [|d D]; [by destruct Nl, Last|]. destruct (Ascii.eqb c cr).
    + cbn [app]. f_equal. destruct (Ascii.eqb_spec d lf) as [->|Nd].
      * apply IH; [simpl; lia| |done]. destruct D; [done|]. by rewrite torn_cons in TD'.
      * apply (IH (d :: D)); [simpl; lia|done|done].
    + apply (IH (d :: D)); [simpl; lia|done|done].
Qed.
Lemma byte_lines_app D l : torn D = false -> byte_lines (D ++ l) = byte_lines D ++ byte_lines l.
Proof. intros T. by apply byte_lines_go_app. Qed.

(** A line without breaks. *)
Definition line_like (b : bytes) : Prop := b <> [] /\ existsb (Ascii.eqb lf) b = false /\ existsb (Ascii.eqb cr) b = false.
Lemma byte_lines_one b : line_like b -> byte_lines (b ++ [lf]) = [b].
Proof.
  intros (_ & Nl & Nc). unfold byte_lines. assert (forall cur, byte_lines_go cur (b ++ [lf]) = [rev cur ++ b]) as A; [|by rewrite A].
  induction b as [|c b IH]; intros cur; [by rewrite app_nil_r|]. cbn [existsb] in Nl, Nc.
  apply orb_false_iff in Nl as [N1 Nl], Nc as [N2 Nc]. cbn [app byte_lines_go].
  rewrite Ascii.eqb_sym, N1, Ascii.eqb_sym, N2, (IH Nl Nc). cbn [rev]. by rewrite <- app_assoc.
Qed.

(** ** Rows of an identity *)

Section rows.
  Context `{CharData} `{Digest} `{JsonLimits} (id_of : dict -> json) (e : json) (what : dict -> Prop).

(** The line has this identity, and is such a row. *)
Definition says (b : bytes) : Prop := exists d, loads_raw b = Ok (JObj d) /\ py_eq (id_of d) e = true /\ what d.
(** Whole lines, none of this identity. *)
Definition clean (D : bytes) : Prop := torn D = false /\ find_row id_of e [] (byte_lines D) = Ok false.

Lemma find_row_app b l1 l2 :
  find_row id_of e b (l1 ++ l2) = match find_row id_of e b l1 with Ok false => find_row id_of e b l2 | r => r end.
Proof.
  induction l1 as [|[|c raw] l1 IH]; [done|done|]. cbn [app find_row]. destruct (refused_as _ _ _) as [j|x]; [|done]. cbn [rbind].
  destruct j; try done. destruct (py_eq _ _); [|done]. destruct (canonical_bytes _); [|done]. cbn [rbind]. by destruct (bool_decide _).
Qed.
Lemma find_row_none b b' l : find_row id_of e b l = Ok false -> find_row id_of e b' l = Ok false.
Proof.
  induction l as [|[|c raw] l IH]; [done|done|]. cbn [find_row]. destruct (refused_as _ _ _) as [j|x]; [|done]. cbn [rbind].
  destruct j; try done. destruct (py_eq _ _); [|done]. intros E. exfalso.
  apply rbind_ok in E as (x & _ & E). guards in E. by destruct E.
Qed.
Lemma find_row_says b b' : says b -> b <> [] -> find_row id_of e b' [b] =
  match loads_raw b with
  | Ok (JObj d) => let! c := canonical_bytes (JObj d) in
      require bool_decide (c = b') else CompanyScribeAdmissionError, "channel mutation identity conflicts with existing bytes" ;; Ok true
  | _ => Ok false
  end.
Proof.
  intros (d & Ed & Ee & _) N. destruct b as [|c b]; [done|]. cbn [find_row]. rewrite Ed. cbn [refused_as rbind]. by rewrite Ee.
Qed.

(** What the file with such a line is found to hold: the row, or a conflict. *)
Lemma already_line D b b' : clean D -> line_like b -> says b -> appended_already id_of e b' (D ++ b ++ [lf]) <> Ok false.
Proof.
  intros [T C] Lb Sb E. unfold appended_already in E. guards in E. destruct E as (_ & _ & E).
  rewrite byte_lines_app, byte_lines_one, find_row_app, (find_row_none [] b' _ C), find_row_says in E; [|done|by destruct Lb|done..].
  destruct Sb as (d & Ed & _). rewrite Ed in E. apply rbind_ok in E as (x & _ & E). guards in E. by destruct E.
Qed.
(** At most one row of the identity after [D], or a part of one. *)
Definition once (D : bytes) (m : Z) (y : option inode) : Prop :=
  y = Some (Inode (Reg D) m true)
  \/ exists b k, line_like b /\ says b /\ y = Some (Inode (Reg (D ++ take k (b ++ [lf]))) m true).

(** One row of the identity after [D]. *)
Definition whole (D : bytes) (m : Z) (y : option inode) : Prop :=
  exists b, line_like b /\ says b /\ y = Some (Inode (Reg (D ++ b ++ [lf])) m true).
(** Such states, whatever part of a row is appended when none is found. *)
Definition grows (m : Z) (X : option inode -> Prop) : Prop :=
  forall D b b' k, line_like b -> says b -> X (Some (Inode (Reg D) m true)) -> appended_already id_of e b' D = Ok false ->
    X (Some (Inode (Reg (D ++ take k (b ++ [lf]))) m true)).

Lemma whole_once D m y : whole D m y -> once D m y.
Proof. intros (b & Lb & Sb & ->). right. exists b, (List.length (b ++ [lf])). by rewrite take_ge. Qed.
Lemma whole_grows D m : clean D -> grows m (whole D m).
Proof. intros C D' b b' k _ _ (c & Lc & Sc & [= ->]) A. exfalso. by eapply already_line. Qed.

(** What was found tells what is there. *)
Lemma once_searched D m D' b' made : clean D -> once D m (Some (Inode (Reg D') m true)) -> appended_already id_of e b' D' = Ok made ->
  if made then whole D m (Some (Inode (Reg D') m true)) else D' = D.
Proof.
  intros C [[= ->]|(c & j & Lc & Sc & [= ->])] A.
  - destruct made; [|done]. exfalso. unfold appended_already in A. guards in A. destruct A as (_ & _ & A).
    destruct C as [_ C]. by rewrite (find_row_none _ b' _ C) in A.
  - destruct (decide (take j (c ++ [lf]) = [])) as [E|N1].
    { rewrite E, app_nil_r in *. destruct made; [|done]. exfalso. unfold appended_already in A. guards in A. destruct A as (_ & _ & A).
      destruct C as [_ C]. by rewrite (find_row_none _ b' _ C) in A. }
    destruct (decide (take j (c ++ [lf]) = c ++ [lf])) as [E|N2].
    { rewrite E in *. destruct made; [by exists c|]. exfalso. by eapply already_line. }
    exfalso. unfold appended_already in A. guards in A. destruct A as (_ & A & _). destruct Lc as (? & ? & ?). by rewrite torn_app, torn_part in A.
Qed.
Lemma once_grows D m : clean D -> grows m (once D m).
Proof. intros C D' b b' k Lb Sb O A. rewrite (once_searched _ _ _ _ _ C O A). right. by exists b, k. Qed.

(** What may be known of a file that rows are added to. *)
Record row_state (D : bytes) (m : Z) (X : option inode -> Prop) : Prop := {
  rs_once : forall y, X y -> once D m y;
  rs_whole : forall y, whole D m y -> X y;
  rs_grows : grows m X;
}.
Lemma once_row_state D m : clean D -> row_state D m (once D m).
Proof. intros C. split; [done|apply whole_once|by apply once_grows]. Qed.
Lemma whole_row_state D m : clean D -> row_state D m (whole D m).
Proof. intros C. split; [apply whole_once|done|by apply whole_grows]. Qed.
End rows.

(** ** Files that grow *)

Section growing.
  Context (h : hazard) (F : spec) (v d : volume) (p : path) (n : nat).
  Hypothesis M : meets h F v d.

(** A tracked file changes in place. *)
Lemma meets_append dt m b X Y :
  F p = Some X -> v_names v !! p = Some n -> v_inodes v !! n = Some (Inode (Reg dt) m true) ->
  (forall y, X y -> Y y) -> Y (Some (Inode (Reg (dt ++ b)) m true)) -> meets h (put F p Y) (append_data v n b) d.
Proof.
  intros EX En Ei XY Hy. unfold append_data. rewrite Ei. destruct M as [W Mp]. destruct (Mp p X EX) as [HN HM].
  destruct (HN n (or_introl En)) as [Hc Hq]. set (j := Inode (Reg (dt ++ b)) m true).
  assert (forall k, k <> n -> v_inodes (set_inode v n j) !! k = v_inodes v !! k) as Ne by (intros k Nk; apply lookup_insert_ne; by intros <-).
  assert (v_inodes (set_inode v n j) !! n = Some j) as Eq by apply lookup_insert_eq.
  split.
  - intros q k Nq. destruct (decide (k = n)) as [->|Nk]; [by eexists|]. rewrite (Ne k Nk). exact (W q k Nq).
  - intros q Z. unfold put. destruct (decide (q = p)) as [->|Nq].
    + intros [= <-]. split; [|intros Ms; by apply XY, HM]. intros k Nk. destruct (HN k Nk) as [Hk Hqk]. split; [|exact Hqk].
      destruct (decide (k = n)) as [->|N].
      * intros i [Ci|(L & x & Ex & ->)]; [rewrite Eq in Ci; by injection Ci as <-|]. rewrite Eq in Ex. injection Ex as <-. apply XY, Hc.
        destruct (v_inodes d !! n) as [y|] eqn:Ed; right; (split; [done|]; exists (Inode (Reg dt) m true); by rewrite Ed).
      * intros i Ci. apply XY, Hk. unfold content in *. by rewrite (Ne k N) in Ci.
    + intros EZ. apply (held_step h Z q v d); [by apply Mp|done|done| |done]. intros k i Nk. unfold content.
      rewrite (Ne k); [done|]. intros ->. by apply Nq, Hq.
Qed.

(** Syncing any file. *)
Lemma meets_synced : meets h F v (match v_inodes v !! n with Some i => set_inode d n i | None => d end).
Proof.
  destruct (v_inodes v !! n) as [i|] eqn:Ei; [|exact M]. destruct M as [W Mp]. split; [exact W|]. intros q X EX.
  apply (held_step h X q v d); [by apply Mp|done|done| |done]. intros k j Nk [Cj|(L & x & Ex & ->)]; [by left|].
  unfold set_inode. simpl. destruct (decide (k = n)) as [->|N]; [rewrite lookup_insert_eq; left; simpl; congruence|].
  rewrite lookup_insert_ne by done. right. split; [done|]. by exists x.
Qed.

(** Without losses of power a file is what processes see. *)
Lemma meets_seen X i : h <> Losses -> F p = Some X -> v_names v !! p = Some n -> v_inodes v !! n = Some i ->
  meets h (put F p (fun y => y = Some i)) v d.
Proof.
  intros L EX En Ei. apply meets_held; [done|]. by apply (held_now h F v d M p n i X).
Qed.
End growing.

Lemma triple_try h {A B} (P : assertion) (r : res B) (k : B -> prog A) Q E C :
  (calm h = true -> forall v d, P v d -> is_ok r = true) -> (forall e v d, P v d -> E e v d) ->
  (forall b, r = Ok b -> triple h P (k b) Q E C) -> triple h P (pbind (pof r) k) Q E C.
Proof.
  intros Hc HE Hk. destruct r as [b|e]; [by apply triple_known, Hk|]. apply triple_fail. intros v d Pv. split; [|by apply HE].
  apply not_true_is_false. intros Ec. by specialize (Hc Ec v d Pv).
Qed.
Lemma triple_fact h {A} (G : Prop) (P : assertion) (m : prog A) Q E C :
  (forall v d, P v d -> G) -> (G -> triple h P m Q E C) -> triple h P m Q E C.
Proof. intros HG T. eapply triple_pre; [by apply (triple_pure h G)|]. intros v d Pv. split; [by eapply HG|done]. Qed.

(** What processes see is known. *)
Lemma triple_now_known h {A} u (P : assertion) (k : volume -> prog A) Q E C :
  triple h (fun v d => v = u /\ P v d) (k u) Q E C -> triple h (fun v d => v = u /\ P v d) (do! v := pnow in k v) Q E C.
Proof. intros T w S Pw. unfold pbind, pnow. rewrite (proj1 Pw). by apply T. Qed.

(** A directory of the broker's own that only it may write. *)
Definition safe_dir (F : spec) (p : path) : Prop :=
  exists X, F p = Some X /\ forall y, X y -> exists m, y = Some (Inode Dir m true) /\ Z.land m 18 = 0.

Section appending.
  Context `{CharData} `{Digest} `{JsonLimits} `{TempNames} (h : hazard) (F : spec).
  Context (p : path) (id_of : dict -> json) (row : dict) (m : Z) (X Y : option inode -> Prop).
  Notation file D := (Some (Inode (Reg D) m true)).
  Notation already b D := (appended_already id_of (id_of row) b D).
  Hypothesis EX : F p = Some X.
  Hypothesis Hfile : forall y, X y -> exists D, y = file D.
  Hypothesis Hmode : Z.land m 18 = 0 /\ Z.land m 384 = 384.
  Hypothesis HXY : forall y, X y -> Y y.
  Hypothesis HY : forall D b k, X (file D) -> row_payload id_of row = Ok b -> already b D = Ok false -> Y (file (D ++ take k (b ++ [lf]))).
  Hypothesis Hcalm : calm h = true -> safe_dir F (parent p) /\ is_ok (row_payload id_of row) = true
    /\ forall D b, X (file D) -> row_payload id_of row = Ok b -> is_ok (already b D) = true.

Let during : assertion := meets h (put F p Y).
(** The file after the call; without losses of power, exactly. *)
Definition appended (made : bool) : assertion := fun v d => during v d
  /\ (h <> Losses -> exists D b, X (file D) /\ row_payload id_of row = Ok b /\ already b D = Ok (negb made)
        /\ meets h (put F p (fun y => y = file (if made then D ++ b ++ [lf] else D))) v d).

Lemma during_before v d : meets h F v d -> during v d.
Proof. intros M. by apply (meets_put_in h F p X Y). Qed.

(** What is there when the file is opened. *)
Definition opened (u : volume) (n : nat) (D : bytes) : Prop :=
  v_names u !! p = Some n /\ v_inodes u !! n = Some (Inode (Reg D) m true) /\ alone u p n /\ X (file D).
Lemma opened_meets u d : meets h F u d -> exists n D, opened u n D.
Proof.
  intros [W M]. pose proof (M p X EX) as Hp. pose proof (held_stat h X p u d W Hp) as S. unfold stat in S.
  destruct (v_names u !! p) as [n|] eqn:En.
  - destruct (W p n (or_introl En)) as [i Ei]. rewrite Ei in S. cbn in S. destruct S as [S Hl].
    destruct (Hfile _ S) as [D [= ->]]. exists n, D. split; [done|]. split; [done|]. split; [|done]. by apply nlink_alone.
  - destruct (Hfile _ S) as [D ?]. done.
Qed.

Lemma append_row_rule u n D b : opened u n D -> row_payload id_of row = Ok b ->
  triple h (fun v d => v = u /\ meets h F v d) (append_row p n id_of (id_of row) b) appended (fun _ => during) during.
Proof.
  intros (En & Ei & Al & HD) Eb. assert (stable h during) as St by apply stable_meets.
  assert (forall v d, v = u /\ meets h F v d -> during v d) as Old by (intros v d [_ M]; by apply during_before).
  unfold append_row. apply triple_now_known. assert (data_of u n = D) as ED by (unfold data_of; by rewrite Ei). rewrite ED.
  apply triple_try.
  { intros _ v d _. unfold safe_rows. rewrite Ei. rewrite (proj2 (nlink_alone u p n En) Al), (proj1 Hmode). done. }
  { intros e. exact Old. }
  intros _ _. apply triple_try; [intros Ec v d _; by apply Hcalm|intros e; exact Old|]. intros [] Ea.
  { apply triple_ret. intros v d [-> M]. split; [by apply during_before|]. intros L. exists D, b. split; [done|]. split; [done|]. split; [done|].
    by apply (meets_seen h F u d p n M X). }
  eapply triple_bind.
  { apply (triple_check h (fun v d => v = u /\ meets h F v d)); [exact St|intros e; exact Old|exact Old]. }
  intros c. apply triple_pure. intros _. set (u1 := append_data u n (b ++ [lf])).
  assert (forall k d, meets h F u d -> during (append_data u n (take k (b ++ [lf]))) d) as Part.
  { intros k d M. apply (meets_append h F u d p n M D m _ X Y); auto. }
  assert (forall d, meets h F u d -> during u1 d) as Full.
  { intros d M. specialize (Part (List.length (b ++ [lf])) d M). by rewrite take_ge in Part. }
  assert (v_inodes u1 !! n = Some (Inode (Reg (D ++ b ++ [lf])) m true)) as Ei1.
  { unfold u1, append_data. rewrite Ei. apply lookup_insert_eq. }
  assert (v_names u1 = v_names u) as En1 by (unfold u1, append_data; by rewrite Ei).
  apply (triple_seq h _ _ _ (fun v d => v = u1 /\ during v d)).
  { assert (write_all (Appended p) n (b ++ [lf]) = sys (Appended p) (fun k v => append_data v n (take k (b ++ [lf]))) (fun now disk => (Ok tt, append_data now n (b ++ [lf]), disk))) as ->.
    { unfold write_all. by destruct b. }
    apply triple_sys; [exact St|intros v d [-> M]; split; [done|by apply Full]|intros _ v d k [-> M]; split; by apply Part]. }
  apply (triple_seq h _ _ _ (fun v d => v = u1 /\ during v d)).
  { apply triple_sys; [exact St| |by intros _ v d k [_ M]]. intros v d [-> M]. split; [done|]. by apply meets_synced. }
  apply triple_now_known. assert (data_of u1 n = D ++ b ++ [lf]) as -> by (unfold data_of; by rewrite Ei1).
  rewrite drop_app_length, take_ge by (rewrite length_app; simpl; lia). rewrite bool_decide_true by done. apply triple_known.
  apply triple_ret. intros v d [-> M]. split; [done|]. intros L. exists D, b. split; [done|]. split; [done|]. split; [done|].
  assert (v_names u1 !! p = Some n) as E1 by by rewrite En1.
  pose proof (meets_seen h _ u1 d p n M Y _ L (put_eq F p Y) E1 Ei1) as M1. eapply meets_weaken; [exact M1|].
  intros q Z. unfold put. destruct (decide (q = p)); [|by eauto]. intros [= <-]. by eexists.
Qed.

Lemma append_rule : triple h (meets h F) (append_jsonl_once p id_of row) appended (fun _ => during) during.
Proof.
  assert (stable h during) as St by apply stable_meets.
  assert (forall v d, meets h F v d -> during v d) as Old by apply during_before.
  unfold append_jsonl_once. eapply triple_bind; [apply (triple_check h (meets h F)); [exact St|intros e; exact Old|exact Old]|].
  intros c. apply triple_pure. intros _. apply triple_now. intros u.
  assert (forall v d, v = u /\ meets h F v d -> during v d) as Old' by (intros v d [_ M]; by apply Old).
  apply triple_try; [|intros e; exact Old'|].
  { intros Ec v d [-> M]. destruct (Hcalm Ec) as ((XP & EP & HP) & _). unfold safe_parent.
    pose proof (held_stat h XP _ u d (proj1 M) (proj2 M _ _ EP)) as S. destruct (stat u (parent p)) as [[k i]|].
    - destruct S as [S _]. destruct (HP _ S) as (mo & [= ->] & E). cbn [i_kind i_mine i_mode]. by rewrite E.
    - destruct (HP _ S) as (mo & ? & _). done. }
  intros _ _. apply triple_try; [intros Ec v d _; by apply Hcalm|intros e; exact Old'|]. intros b Eb.
  apply (triple_fact h (exists n D, opened u n D)); [intros v d [-> M]; by eapply opened_meets|]. intros (n & D & O).
  assert (open_rows u p = Ok (Some n)) as ->.
  { destruct O as (En & Ei & _). unfold open_rows, stat. rewrite En, Ei. cbn. by rewrite (proj2 Hmode). }
  apply triple_known. by eapply append_row_rule.
Qed.
End appending.

(** ** Rows written and read *)

Lemma canonical_same j j' : sort_keys j = sort_keys j' -> canonical_bytes j = canonical_bytes j'.
Proof.
  intros E. unfold canonical_bytes. assert (forall j, finite (sort_keys j) = finite j) as Sf by by apply all_sort_keys.
  assert (forall j, ints_ok (sort_keys j) = ints_ok j) as Si by by apply all_sort_keys.
  rewrite <- (Sf j), <- (Sf j'), <- (Si j), <- (Si j'). by rewrite E.
Qed.
Lemma graphic_line b : forallb graphic b = true -> existsb (Ascii.eqb lf) b = false /\ existsb (Ascii.eqb cr) b = false.
Proof.
  intros G. rewrite forallb_forall in G.
  split; apply not_true_iff_false; intros (c & Hc & <-%Ascii.eqb_eq)%existsb_exists; by specialize (G _ Hc).
Qed.

Section plain_rows.
  Context `{CharData} `{Digest} `{JsonLimits}.

Definition readable (row : dict) : Prop := plain (JObj row) = true /\ (nesting (JObj row) <= max_depth)%nat.
Lemma row_payload_ok id_of row b : row_payload id_of row = Ok b -> readable row ->
  canonical_bytes (JObj row) = Ok b /\ line_like b /\ loads_raw b = Ok (sort_keys (JObj row)).
Proof.
  unfold row_payload. intros E [Hp Hn]. guards in E. destruct E as [_ E]. apply rbind_ok in E as (c & Ec & E). guards in E.
  destruct E as [_ [= <-]]. split; [done|]. pose proof (loads_canonical row c [] Ec Hp Hn ltac:(by left)) as L. rewrite app_nil_r in L.
  split; [|done]. destruct (canonical_bytes_encodable _ _ Ec) as [_ ->]. split.
  - destruct (sorted_fields row) as (d & -> & _). done.
  - by apply graphic_line, show_graphic, plain_sort.
Qed.
Lemma sorted_readable row d : readable row -> sort_keys (JObj row) = JObj d -> readable d.
Proof. intros [Hp Hn] E. unfold readable. rewrite <- E, nesting_sort. split; [by apply plain_sort|done]. Qed.

(** The identities of sends and audit lines, with keys sorted. *)
Lemma readable_keys row : readable row -> NoDup row.*1.
Proof. intros [Hp _]. cbn [plain] in Hp. apply andb_true_iff in Hp as [Hp _]. by apply bool_decide_eq_true in Hp. Qed.
Lemma plain_get (d : dict) k j : plain (JObj d) = true -> dict_get k d = Some j -> plain j = true /\ (nesting j < nesting (JObj d))%nat.
Proof.
  rewrite plain_obj, nesting_obj. intros [_ Hp]%andb_true_iff E. assert ((k, j) ∈ d) as I.
  { clear Hp. induction d as [|[k' v] d IH]; [done|]. cbn [dict_get] in E. destruct (String.eqb_spec k k') as [->|]; [injection E as ->; by left|right; by apply IH]. }
  apply list_elem_of_In in I. split; [rewrite forallb_forall in Hp; exact (Hp _ I)|].
  assert (nesting j <= max_list (map (fun kv => nesting kv.2) d))%nat; [|lia].
  apply (max_list_le _ _ _ (Nat.le_refl _)). apply list_elem_of_In, in_map_iff. by exists (k, j).
Qed.
Lemma send_identity_sorted row d s : readable row -> sort_keys (JObj row) = JObj d -> send_identity row = JStr s -> send_identity d = JStr s.
Proof.
  intros R E. pose proof (readable_keys _ R) as N. unfold send_identity. rewrite (get_sort row d _ N E).
  destruct (get row "meta") as [| | | | | | |m] eqn:Em; try done. intros Es. destruct (sorted_fields m) as (m' & Em' & _).
  assert (NoDup m.*1) as Nm.
  { destruct R as [Hp _]. unfold get in Em. destruct (dict_get "meta" row) as [j|] eqn:Ej; [|done]. cbn in Em. subst j.
    destruct (plain_get _ _ _ Hp Ej) as [Pm _]. rewrite plain_obj in Pm. apply andb_true_iff in Pm as [Pm _]. by apply bool_decide_eq_true in Pm. }
  rewrite Em', (get_sort m m' _ Nm Em'), Es. done.
Qed.
Lemma audit_identity_sorted row d s : readable row -> sort_keys (JObj row) = JObj d -> audit_identity row = JStr s -> audit_identity d = JStr s.
Proof. intros R E Es. unfold audit_identity in *. by rewrite (get_sort row d _ (readable_keys _ R) E), Es. Qed.

(** *** Appending such a row *)

Context `{TempNames}.

(** A row of a file that has it at most once; without losses of power it is
    there when the call returns. *)
Lemma append_once_rule h (F : spec) p id_of what row d D m X :
  calm h = false -> F p = Some X -> row_state id_of (id_of row) what D m X ->
  clean id_of (id_of row) D -> Z.land m 18 = 0 /\ Z.land m 384 = 384 ->
  readable row -> sort_keys (JObj row) = JObj d -> py_eq (id_of d) (id_of row) = true -> what d ->
  triple h (meets h F) (append_jsonl_once p id_of row)
    (fun _ v w => meets h F v w /\ (h <> Losses -> meets h (put F p (whole id_of (id_of row) what D m)) v w))
    (fun _ => meets h F) (meets h F).
Proof.
  intros Hh EF [HX _ Gr] C Hm R Es Ee Hw. assert (forall v w, meets h (put F p X) v w -> meets h F v w) as Same.
  { intros v w M. eapply meets_weaken; [exact M|]. intros q Y EY. unfold put. destruct (decide (q = p)) as [->|]; [|by eauto].
    rewrite EF in EY. injection EY as <-. by eexists. }
  assert (forall b, row_payload id_of row = Ok b -> line_like b /\ says id_of (id_of row) what b) as Row.
  { intros b Eb. destruct (row_payload_ok _ _ _ Eb R) as (_ & Lb & Lo). split; [done|]. exists d. by rewrite Lo, Es. }
  eapply triple_weaken; [apply (append_rule h F p id_of row m X X EF)|done|..]; [|done|done| |by rewrite Hh| |intros ?; exact Same|exact Same].
  - intros y Xy. destruct (HX y Xy) as [->|(b & k & _ & _ & ->)]; by eexists.
  - intros D' b k Xy Eb A. destruct (Row b Eb) as [Lb Sb]. by eapply Gr.
  - intros made v w [M Now]. split; [by apply Same|]. intros L. destruct (Now L) as (D' & b & Xy & Eb & A & M').
    pose proof (once_searched _ _ _ _ _ _ _ _ C (HX _ Xy) A) as S. eapply meets_put; [exact M'|]. intros y ->.
    destruct made; cbn [negb] in S; [subst D'|exact S]. destruct (Row b Eb) as [Lb Sb]. by exists b.
Qed.
End plain_rows.
