(* ===== verification/ChannelHistory.v ===== *)
(** * A message attempted again and again

    The same send, attempted at any times, stopped anywhere by errors, kills or
    losses of power: its rows are made anew or taken from the journal, but they
    always carry the one send id, and queue and audit get at most one each; and
    just one, unless power is lost, once an attempt has answered. *)
From S2P Require Import Prelude PyStr PyTime Sha256 Json PyIO PyPath JsonText PyValue PyUuid PyUnicode JsonBytes HostFiles HostLogic HostStates HostRules EffectJournal HostDemo WorkspaceEffects EffectProofs ChannelEffects ChannelOrder ChannelProofs.
From stdpp Require Import base gmap strings list.
From Stdlib Require Import ZArith NArith Lia Permutation.

Local Open Scope Z_scope.

(** ** Sizes *)

Lemma points_length b l ps : points b l = Some ps -> (List.length ps <= List.length l)%nat.
Proof.
  revert ps. induction l as [l IH] using (induction_ltof1 _ (@List.length _)). unfold ltof in IH. intros ps.
  assert (forall r x ps, (List.length r < List.length l)%nat -> cons x <$> points b r = Some ps -> (List.length ps <= S (List.length r))%nat) as Step.
  { intros r x qs L E. apply fmap_Some in E as (q & E & ->). apply IH in E; [|done]. simpl. lia. }
  destruct l as [|c l]; [by intros [= <-]|]. cbn [points].
  repeat case_match; try done; intros E; subst; apply Step in E; simpl in *; lia.
Qed.

Lemma validate_id_again `{CharData} j s : validate_effect_id j = Ok s -> j = JStr s /\ validate_effect_id (JStr s) = Ok s.
Proof.
  destruct j as [| | | | |t| |]; try done. intros E. assert (t = s) as <-; [|done]. revert E. unfold validate_effect_id.
  destruct (points true (chars t)) as [[|c l]|]; try done. destruct (_ && _ && _); [by intros [= ->]|done].
Qed.

Lemma dict_get_fresh {A} k (a b : list (string * A)) : k ∉ a.*1 -> dict_get k (a ++ b) = dict_get k b.
Proof.
  induction a as [|[k' v] a IH]; [done|]. rewrite fmap_cons, not_elem_of_cons. intros [N Na]. cbn [app dict_get].
  destruct (String.eqb_spec k k'); [done|]. by apply IH.
Qed.

(** Records whose sorted forms agree have the same bytes. *)
Lemma record_bytes_same a b : sort_keys (JObj a) = sort_keys (JObj b) -> record_bytes a = record_bytes b.
Proof. intros E. unfold record_bytes. by rewrite (canonical_same _ _ E). Qed.

Section sends.
  Context `{CharData} `{Digest} `{JsonLimits} `{TempNames} `{IsoTime} (umask : Z) (root shared : path).

  (** The request, whose rows could be made once. *)
  Context (arguments : dict) (effect_id request_sha256 : string) (now0 : datetime).
  Hypothesis Hid : validate_effect_id (get arguments "effect_id") = Ok effect_id.
  Hypothesis Hmade : is_ok (channel_send_rows now0 effect_id arguments) = true.
  Hypothesis Hplain : plain (JObj arguments) = true.
  Hypothesis Hdepth : (nesting (JObj arguments) + 3 <= max_depth)%nat.

Definition target : string := py_str (get arguments "target_role").
Definition event_type : json := default (JStr "audit_request") (dict_get "event_type" arguments).
Definition content : string := py_str (get arguments "content").
Definition meta : dict := match default (JObj []) (dict_get "meta" arguments) with JObj m => m | _ => [] end.
Definition send_id : string := send_id_of effect_id.
(** The rows made at a time. *)
Definition event_at (t : string) : dict := send_event event_type content meta (JStr target) send_id t.
Definition audit_at (t : string) : dict := send_audit event_type content (JStr target) send_id t.
Definition details_at (t : string) : dict := send_details send_id (JStr target) (event_at t) (audit_at t).
Definition record : path := record_path root effect_id.
Definition queue : path := queue_path shared target.

Lemma rows_at now s ev au : channel_send_rows now effect_id arguments = Ok (s, ev, au) ->
  s = send_id /\ get arguments "target_role" = JStr target /\ ev = event_at (utc_text now) /\ au = audit_at (utc_text now).
Proof.
  intros (t & ty & c & m & Et & _ & Ey & _ & Ec & _ & _ & Em & _ & _ & -> & -> & ->)%channel_send_rows_ok.
  unfold event_at, audit_at, event_type, target, content, meta. by rewrite Et, Ey, Ec, Em.
Qed.

(** Both rows can be written and read back. *)
Lemma request_facts : (exists ty, event_type = JStr ty) /\ plain (JObj meta) = true /\ (nesting (JObj meta) <= nesting (JObj arguments))%nat
  /\ (forall k, k ∈ CHANNEL_SEND_META_RESERVED -> k ∉ meta.*1) /\ 0 <= code_points content <= _MAX_TEXT_BYTES.
Proof.
  destruct (channel_send_rows now0 effect_id arguments) as [[[s ev] au]|] eqn:E; [|done].
  apply channel_send_rows_ok in E as (t & ty & c & m & Et & _ & Ey & _ & Ec & _ & El & Em & R & _). unfold event_type, content, meta.
  rewrite Ey, Ec, Em. split; [by exists ty|]. assert (plain (JObj m) = true /\ (nesting (JObj m) <= nesting (JObj arguments))%nat) as [Pm Nm].
  { destruct (dict_get "meta" arguments) as [j|] eqn:Ej; cbn in Em; [subst j; destruct (plain_get _ _ _ Hplain Ej); split; [done|lia]|].
    injection Em as <-. split; [done|]. rewrite !nesting_obj. cbn. lia. }
  do 3 (split; [done|]). unfold code_points. cbn [py_str]. unfold exceeds in El. apply rbind_ok in El as (b & Eb & [= El]).
  unfold encode_str in Eb. guards in Eb. destruct Eb as [_ [= <-]]. apply Z.ltb_ge in El. unfold blen in El. unfold _MAX_TEXT_BYTES in *.
  destruct (points true (chars c)) as [l|] eqn:P; [apply points_length in P|]; lia.
Qed.

Lemma event_readable t : plain (JObj (event_at t)) = true /\ (nesting (JObj (event_at t)) <= nesting (JObj arguments) + 1)%nat.
Proof.
  destruct request_facts as ((ty & Ey) & Pm & Nm & R & _).
  set (m' := meta ++ [("sender_role", JStr "scribe"); ("target_role", JStr target); ("sent_at", JStr t); ("send_id", JStr send_id)]).
  assert (plain (JObj m') = true) as P'.
  { rewrite plain_obj in *. apply andb_true_iff in Pm as [Nd%bool_decide_eq_true Pm]. unfold m'. rewrite forallb_app, Pm. apply andb_true_iff. split; [|done].
    apply bool_decide_eq_true. rewrite fmap_app. apply NoDup_app. split; [done|]. split; [|apply (bool_decide_unpack _); by vm_compute].
    intros k Hk Hr. by apply (R k). }
  assert (nesting (JObj m') = nesting (JObj meta)) as N'.
  { rewrite !nesting_obj. f_equal. unfold m'. rewrite map_app. generalize (map (fun kv => nesting kv.2) meta). intros l.
    assert (forall l, max_list (l ++ [0; 0; 0; 0]%nat) = max_list l) as A; [|exact (A l)]. clear. induction l as [|x l IH]; [done|]. cbn. by rewrite IH. }
  unfold event_at, send_event. fold m'. rewrite Ey. split.
  - rewrite plain_obj. apply andb_true_iff. split; [by vm_compute|]. cbn [forallb snd]. rewrite P'. done.
  - rewrite nesting_obj. cbn [map snd]. rewrite N'. revert Nm. generalize (nesting (JObj meta)), (nesting (JObj arguments)). intros n k Nm. cbn. lia.
Qed.
Lemma audit_readable t : plain (JObj (audit_at t)) = true /\ nesting (JObj (audit_at t)) = 1%nat.
Proof.
  destruct request_facts as ((ty & Ey) & _ & _ & _ & Hc). unfold audit_at, send_audit. rewrite Ey.
  assert (plain (JInt (code_points content)) = true) as Pi by (apply plain_int; unfold _MAX_TEXT_BYTES in Hc; lia). split; [|done].
  rewrite plain_obj. apply andb_true_iff. split; [by vm_compute|]. cbn [forallb snd]. by rewrite Pi.
Qed.
Lemma details_readable t : plain (JObj (details_at t)) = true /\ (nesting (JObj (details_at t)) <= nesting (JObj arguments) + 2)%nat.
Proof.
  destruct (event_readable t) as [Pe Ne], (audit_readable t) as [Pa Na]. unfold details_at, send_details. split.
  - rewrite plain_obj. apply andb_true_iff. split; [by vm_compute|]. cbn [forallb snd]. by rewrite Pe, Pa.
  - rewrite nesting_obj. cbn [map snd]. rewrite Na. revert Ne. generalize (nesting (JObj (event_at t))), (nesting (JObj arguments)). intros n k Ne. cbn. lia.
Qed.

(** *** The journal and the files *)

Notation closed next := (closed_record effect_id request_sha256 "channel_send" next).
Definition written (next : dict) : option inode -> Prop := published (record_bytes (closed next)) 384.
(** A record with the rows of some time. *)
Definition to_do (next : dict) : Prop := exists t, next = prepared (details_at t).
Definition all_done (next : dict) : Prop := exists t, next = completed (details_at t) (sent send_id target).
Definition noted (N : dict -> Prop) (y : option inode) : Prop := exists next, N next /\ written next y.
(** No record, or one that says what is to do. *)
Definition not_done (y : option inode) : Prop := y = None \/ noted to_do y.
Definition recorded (y : option inode) : Prop := noted to_do y \/ noted all_done y.
Definition journal (y : option inode) : Prop := y = None \/ recorded y.

(** The rows of the send. *)
Definition is_event (row : dict) : Prop := exists t, sort_keys (JObj (event_at t)) = JObj row.
Definition is_audit (row : dict) : Prop := exists t, sort_keys (JObj (audit_at t)) = JObj row.
Definition event_once := once send_identity (JStr send_id) is_event.
Definition audit_once := once audit_identity (JStr send_id) is_audit.
Definition event_whole := whole send_identity (JStr send_id) is_event.
Definition audit_whole := whole audit_identity (JStr send_id) is_audit.

Lemma sent_plain : plain (JObj (sent send_id target)) = true /\ nesting (JObj (sent send_id target)) = 1%nat.
Proof. done. Qed.
Lemma closed_readable next : to_do next \/ all_done next -> readable (closed next).
Proof.
  destruct sent_plain as [Ps Ns]. intros [[t ->]|[t ->]]; destruct (details_readable t) as [P Nd]; unfold readable, prepared, completed;
    revert Ps Ns P Nd Hdepth; generalize (JObj (sent send_id target)), (JObj (details_at t)), (nesting (JObj arguments)); intros r dt k Ps Ns P Nd Hd.
  - split; [rewrite plain_obj; apply andb_true_iff; split; [by vm_compute|]; unfold closed_record; cbn [app forallb snd]; by rewrite P|].
    rewrite nesting_obj. unfold closed_record. cbn [app map snd]. revert Nd. generalize (nesting dt). intros n Nd. cbn. lia.
  - split; [rewrite plain_obj; apply andb_true_iff; split; [by vm_compute|]; unfold closed_record; cbn [app forallb snd]; by rewrite P, Ps|].
    rewrite nesting_obj. unfold closed_record. cbn [app map snd]. rewrite Ns. revert Nd. generalize (nesting dt). intros n Nd. cbn. lia.
Qed.
(** What such a record says when it is read. *)
Lemma closed_says next r : to_do next \/ all_done next -> sort_keys (JObj (closed next)) = JObj r ->
  get r "effect_id" = JStr effect_id /\ (to_do next -> replayed_result r = Ok None)
  /\ exists t dt, sort_keys (JObj (details_at t)) = JObj dt /\ get r "details" = JObj dt.
Proof.
  intros N E. pose proof (readable_keys _ (closed_readable next N)) as Nk.
  rewrite (get_sort _ _ "effect_id" Nk E), (get_sort _ _ "details" Nk E). split; [by destruct N as [[t ->]|[t ->]]|]. split.
  - intros [t ->]. unfold replayed_result. by rewrite (get_sort _ _ "state" Nk E).
  - destruct N as [[t ->]|[t ->]]; exists t; destruct (sorted_fields (details_at t)) as (dt & Ed & _); exists dt; (split; [done|exact Ed]).
Qed.

(** *** The frame *)

(** Other paths, the directory of the journal, the names that may come and go. *)
Context (h : hazard) (F : spec).
Record apart : Prop := {
  ap_shared : shared <> root;
  ap_root_queue : root <> queue;
  ap_root_audit : root <> audit_path shared;
  ap_root : tracks_dir F root;
  ap_lock : F (lock_path root effect_id) = None;
  ap_temps : temps_free F ("." +:+ name_of record +:+ ".") root;
}.
(** Record, queue and audit. *)
Definition files (J Q A : option inode -> Prop) : spec := put (put (put F queue Q) (audit_path shared) A) record J.
Definition stage (J Q A : option inode -> Prop) : assertion := meets h (files J Q A).

Hypothesis Hap : apart.
Hypothesis Hcalm : calm h = false.

Lemma send_record_parent : parent record = root.
Proof. apply parent_snoc. Qed.
Lemma queue_parent : parent queue = shared.
Proof. apply parent_snoc. Qed.
Lemma audit_parent : parent (audit_path shared) = shared.
Proof. apply parent_snoc. Qed.
Lemma in_shared p q : parent p = shared -> parent q = root -> q <> p.
Proof. intros P Q ->. apply (ap_shared Hap). congruence. Qed.
Lemma queue_ne_audit : queue <> audit_path shared.
Proof. unfold queue, queue_path, audit_path. intros E. apply app_inj_2 in E as [_ E]; [|done]. by injection E. Qed.
Lemma record_ne_root : record <> root.
Proof. intros E. apply (f_equal (@List.length _)) in E. unfold record, record_path in E. rewrite length_app in E. simpl in E. lia. Qed.

Lemma files_record J Q A : files J Q A record = Some J.
Proof. apply put_eq. Qed.
Lemma files_queue J Q A : files J Q A queue = Some Q.
Proof.
  unfold files. rewrite put_ne by (intros E; symmetry in E; revert E; apply in_shared; [apply queue_parent|apply send_record_parent]).
  rewrite put_ne by apply queue_ne_audit. apply put_eq.
Qed.
Lemma files_audit J Q A : files J Q A (audit_path shared) = Some A.
Proof.
  unfold files. rewrite put_ne by (intros E; symmetry in E; revert E; apply in_shared; [apply audit_parent|apply send_record_parent]).
  apply put_eq.
Qed.
Lemma files_lock J Q A : files J Q A (lock_path root effect_id) = None.
Proof.
  assert (parent (lock_path root effect_id) = root) as P by apply parent_snoc. unfold files.
  rewrite put_ne by apply lock_ne_record. rewrite put_ne by (apply in_shared; [apply audit_parent|done]).
  rewrite put_ne by (apply in_shared; [apply queue_parent|done]). apply (ap_lock Hap).
Qed.
Lemma files_root J Q A : tracks_dir (files J Q A) root.
Proof.
  apply tracks_dir_put; [by intros E%eq_sym%record_ne_root|]. apply tracks_dir_put; [apply (ap_root_audit Hap)|].
  apply tracks_dir_put; [apply (ap_root_queue Hap)|apply (ap_root Hap)].
Qed.
Lemma files_temps J Q A : temps_free (files J Q A) ("." +:+ name_of record +:+ ".") root.
Proof.
  assert (forall s, parent (root ++ [s]) = root) as P by (intros s; apply parent_snoc).
  apply temps_free_put; [apply temps_free_put; [apply temps_free_put; [apply (ap_temps Hap)|]|]|]; intros s.
  - apply in_shared; [apply queue_parent|apply P].
  - apply in_shared; [apply audit_parent|apply P].
  - rewrite <- send_record_parent at 1. apply temp_ne. rewrite send_record_parent.
    unfold name_of, record, record_path. by rewrite List.last_last.
Qed.

Lemma stage_weaken (J Q A J' Q' A' : option inode -> Prop) v d : stage J Q A v d ->
  (forall y, J y -> J' y) -> (forall y, Q y -> Q' y) -> (forall y, A y -> A' y) -> stage J' Q' A' v d.
Proof.
  intros M HJ HQ HA. eapply meets_weaken; [exact M|]. intros p Y. unfold files, put.
  destruct (decide (p = record)); [intros [= <-]; by eexists|]. destruct (decide (p = audit_path shared)); [intros [= <-]; by eexists|].
  destruct (decide (p = queue)); [intros [= <-]; by eexists|]. by eauto.
Qed.
Lemma stage_of_record J Q A J' v d : meets h (put (files J Q A) record J') v d -> stage J' Q A v d.
Proof. intros M. eapply meets_weaken; [exact M|]. intros p Y. unfold files, put. destruct (decide (p = record)); by eauto. Qed.
Lemma stage_of_queue J Q A Q' v d : meets h (put (files J Q A) queue Q') v d -> stage J Q' A v d.
Proof.
  intros M. eapply meets_weaken; [exact M|]. intros p Y E. unfold put at 1. destruct (decide (p = queue)) as [->|N].
  - rewrite files_queue in E. by eauto.
  - unfold files, put in *. rewrite (decide_False (P := p = queue)) in * by done. by eauto.
Qed.
Lemma stage_of_audit J Q A A' v d : meets h (put (files J Q A) (audit_path shared) A') v d -> stage J Q A' v d.
Proof.
  intros M. eapply meets_weaken; [exact M|]. intros p Y E. unfold put at 1. destruct (decide (p = audit_path shared)) as [->|N].
  - rewrite files_audit in E. by eauto.
  - unfold files, put in *. rewrite (decide_False (P := p = audit_path shared)) in * by done. by eauto.
Qed.

(** *** Appending and writing *)

(** What the files held before. *)
Context (Dq Da : bytes) (mq ma : Z).
Record grown : Prop := {
  gr_queue : clean send_identity (JStr send_id) Dq;
  gr_audit : clean audit_identity (JStr send_id) Da;
  gr_queue_mode : Z.land mq 18 = 0 /\ Z.land mq 384 = 384;
  gr_audit_mode : Z.land ma 18 = 0 /\ Z.land ma 384 = 384;
}.
Hypothesis Hgr : grown.
Notation queue_state := (row_state send_identity (JStr send_id) is_event Dq mq).
Notation audit_state := (row_state audit_identity (JStr send_id) is_audit Da ma).
(** A row that was made may be lost with the power. *)
Definition kept (X W : option inode -> Prop) : option inode -> Prop := match h with Losses => X | _ => W end.
Lemma kept_is X W : h = Losses /\ kept X W = X \/ h <> Losses /\ kept X W = W.
Proof. unfold kept. destruct h; [right|right|left]; by split. Qed.

Lemma sorted_again (d ev : dict) : sort_keys (JObj d) = JObj ev -> sort_keys (JObj ev) = JObj ev.
Proof. intros E. by rewrite <- E, sort_keys_idem. Qed.

Lemma send_event_rule J Q A t ev : queue_state Q -> ev = event_at t \/ sort_keys (JObj (event_at t)) = JObj ev ->
  triple h (stage J Q A) (append_jsonl_once queue send_identity ev)
    (fun _ => stage J (kept Q (event_whole Dq mq)) A) (fun _ => stage J Q A) (stage J Q A).
Proof.
  intros HQ Ev. destruct (event_readable t) as [P N]. assert (readable (event_at t)) as R by (split; [done|lia]).
  assert (send_identity (event_at t) = JStr send_id) as Ei.
  { unfold event_at, send_event, send_identity. cbn. destruct request_facts as (_ & _ & _ & Rs & _).
    unfold get. rewrite dict_get_fresh; [done|]. apply Rs. by do 3 right; left. }
  destruct (sorted_fields (event_at t)) as (d & Ed & _).
  assert (readable ev /\ send_identity ev = JStr send_id /\ sort_keys (JObj ev) = JObj d) as (Rv & Iv & Es).
  { destruct Ev as [->|E]; [done|]. split; [by eapply sorted_readable|]. split; [by eapply send_identity_sorted|].
    rewrite (sorted_again _ _ E). congruence. }
  eapply triple_post; [apply (append_once_rule h (files J Q A) queue send_identity is_event ev d Dq mq Q Hcalm (files_queue J Q A)); rewrite ?Iv|].
  - done.
  - apply (gr_queue Hgr).
  - apply (gr_queue_mode Hgr).
  - done.
  - done.
  - rewrite (send_identity_sorted ev d send_id Rv Es Iv). cbn. apply String.eqb_refl.
  - by exists t.
  - rewrite Iv. intros a v w [M K]. destruct (kept_is Q (event_whole Dq mq)) as [[_ ->]|[L ->]]; [exact M|by apply (stage_of_queue J Q), K].
Qed.
Lemma send_audit_rule J Q A t au : audit_state A -> au = audit_at t \/ sort_keys (JObj (audit_at t)) = JObj au ->
  triple h (stage J Q A) (append_jsonl_once (audit_path shared) audit_identity au)
    (fun _ => stage J Q (kept A (audit_whole Da ma))) (fun _ => stage J Q A) (stage J Q A).
Proof.
  intros HA Ev. destruct (audit_readable t) as [P N]. assert (readable (audit_at t)) as R by (split; [done|lia]).
  destruct (sorted_fields (audit_at t)) as (d & Ed & _).
  assert (readable au /\ audit_identity au = JStr send_id /\ sort_keys (JObj au) = JObj d) as (Rv & Iv & Es).
  { destruct Ev as [->|E]; [done|]. split; [by eapply sorted_readable|]. split; [by eapply audit_identity_sorted|].
    rewrite (sorted_again _ _ E). congruence. }
  eapply triple_post; [apply (append_once_rule h (files J Q A) _ audit_identity is_audit au d Da ma A Hcalm (files_audit J Q A)); rewrite ?Iv|].
  - done.
  - apply (gr_audit Hgr).
  - apply (gr_audit_mode Hgr).
  - done.
  - done.
  - rewrite (audit_identity_sorted au d send_id Rv Es Iv). cbn. apply String.eqb_refl.
  - by exists t.
  - rewrite Iv. intros a v w [M K]. destruct (kept_is A (audit_whole Da ma)) as [[_ ->]|[L ->]]; [exact M|by apply (stage_of_audit J Q A), K].
Qed.

(** Writing a record, from details as made or as read back. *)
Lemma write_rule J Q A next next' : record_bytes (closed next) = record_bytes (closed next') ->
  triple h (stage J Q A) (write_record umask root effect_id request_sha256 "channel_send" next) (fun _ => stage (written next') Q A)
    (fun _ => stage (fun y => J y \/ written next' y) Q A) (stage (fun y => J y \/ written next' y) Q A).
Proof.
  intros E. eapply triple_weaken; [apply (atomic_private_json_rule umask h (files J Q A) record _ J (files_record J Q A))|done|..];
    rewrite ?send_record_parent, ?Hcalm; try done.
  - apply files_root.
  - apply files_temps.
  - intros a v d M. unfold written. rewrite <- E. by apply stage_of_record in M.
  - intros e v d M. apply stage_of_record in M. unfold written. by rewrite <- E.
  - intros v d M. apply stage_of_record in M. unfold written. by rewrite <- E.
Qed.
Lemma completed_same t dt r : sort_keys (JObj (details_at t)) = JObj dt ->
  record_bytes (closed (completed dt r)) = record_bytes (closed (completed (details_at t) r)).
Proof.
  intros E. apply record_bytes_same. rewrite !sort_obj. f_equal. unfold closed_record, completed. cbn [app map fst snd].
  by rewrite <- E, sort_keys_idem.
Qed.

(** The rows and then the record: done, or stopped before the record is
    written, or while it is. *)
Definition stopped (J Q A : option inode -> Prop) : assertion := fun v d =>
  stage J Q A v d
  \/ stage (fun y => J y \/ noted all_done y) (kept Q (event_whole Dq mq)) (kept A (audit_whole Da ma)) v d.
Lemma finish_rule J Q A t ev au dt : queue_state Q -> audit_state A ->
  ev = event_at t \/ sort_keys (JObj (event_at t)) = JObj ev -> au = audit_at t \/ sort_keys (JObj (audit_at t)) = JObj au ->
  dt = details_at t \/ sort_keys (JObj (details_at t)) = JObj dt ->
  triple h (stage J Q A) (finish_send shared (write_record umask root effect_id request_sha256 "channel_send") send_id target ev au dt)
    (fun _ => stage (noted all_done) (kept Q (event_whole Dq mq)) (kept A (audit_whole Da ma))) (fun _ => stopped J Q A) (stopped J Q A).
Proof.
  intros HQ HA Ev Au Dt. assert (forall y, kept Q (event_whole Dq mq) y -> Q y) as KQ.
  { destruct (kept_is Q (event_whole Dq mq)) as [[_ ->]|[_ ->]]; [done|apply HQ]. }
  assert (record_bytes (closed (completed dt (sent send_id target))) = record_bytes (closed (completed (details_at t) (sent send_id target)))) as E.
  { destruct Dt as [->|E]; [done|by apply completed_same]. }
  assert (forall y, written (completed (details_at t) (sent send_id target)) y -> noted all_done y) as W.
  { intros y Wy. eexists. split; [by exists t|exact Wy]. }
  unfold finish_send. eapply triple_seq.
  { eapply triple_weaken; [by eapply (send_event_rule J Q A t)|done|done|..]; intros; by left. }
  eapply triple_seq.
  { eapply triple_weaken; [by eapply (send_audit_rule J _ A t)|done|done|..].
    - intros e v d M. left. eapply stage_weaken; [exact M|done|exact KQ|done].
    - intros v d M. left. eapply stage_weaken; [exact M|done|exact KQ|done]. }
  eapply triple_seq; [|by apply triple_ret].
  eapply triple_weaken; [by eapply (write_rule J _ _ _ _ E)|done|..].
  - intros a v d M. eapply stage_weaken; [exact M|exact W|done|done].
  - intros e v d M. right. eapply stage_weaken; [exact M| |done|done]. intros y [?|Wy]; [by left|right; by apply W].
  - intros v d M. right. eapply stage_weaken; [exact M| |done|done]. intros y [?|Wy]; [by left|right; by apply W].
Qed.

(** *** One attempt *)

(** What is known before and after an answer: with losses of power, the same. *)
Definition before : option inode -> Prop := match h with Losses => journal | _ => not_done end.
Definition after : option inode -> Prop := match h with Losses => journal | _ => recorded end.
Definition answered : assertion := stage after (kept (event_once Dq mq) (event_whole Dq mq)) (kept (audit_once Da ma) (audit_whole Da ma)).
Definition unanswered : assertion := stage before (event_once Dq mq) (audit_once Da ma).
Definition started : assertion := fun v d => unanswered v d \/ answered v d.

Lemma phase : h = Losses /\ before = journal /\ after = journal /\ answered = unanswered
  \/ h <> Losses /\ before = not_done /\ after = recorded /\ answered = stage recorded (event_whole Dq mq) (audit_whole Da ma).
Proof.
  assert (h = Losses /\ before = journal /\ after = journal \/ h <> Losses /\ before = not_done /\ after = recorded) as P.
  { unfold before, after. destruct h; [right|right|left]; done. }
  unfold answered, unanswered. destruct (kept_is (event_once Dq mq) (event_whole Dq mq)) as [[L ->]|[L ->]],
    (kept_is (audit_once Da ma) (audit_whole Da ma)) as [[L' ->]|[L' ->]]; try done.
  - left. destruct P as [(_ & -> & ->)|[? _]]; done.
  - right. destruct P as [[? _]|(_ & -> & ->)]; done.
Qed.
Lemma before_journal y : before y -> journal y.
Proof. destruct phase as [(_ & -> & _)|(_ & -> & _)]; [done|]. intros [->|N]; [by left|right; by left]. Qed.
Lemma after_journal y : after y -> journal y.
Proof. destruct phase as [(_ & _ & -> & _)|(_ & _ & -> & _)]; [done|by right]. Qed.

(** A record that is found, and one that is not. *)
Lemma record_found J Q A (N : dict -> Prop) v d r :
  (forall i, J (Some i) -> noted N (Some i)) -> (forall next, N next -> to_do next \/ all_done next) -> stage J Q A v d ->
  current_record root v effect_id request_sha256 "channel_send" = Ok (Some r) ->
  (exists n i, v_names v !! record = Some n /\ v_inodes v !! n = Some i /\ J (Some i)) /\ exists next, N next /\ sort_keys (JObj (closed next)) = JObj r.
Proof.
  intros HJ HN [W Mp] E. unfold current_record in E. apply rbind_ok in E as ([r'|] & Er & E); [|done]. guards in E. destruct E as [_ [= ->]].
  pose proof (held_stat _ _ _ _ _ W (Mp _ _ (files_record J Q A))) as S. change (record_path root effect_id) with record in Er.
  destruct (stat v record) as [[n i]|] eqn:Es; [|unfold read_record in Er; by rewrite Es in Er].
  destruct S as [S Hl]. destruct (HJ i S) as (next & Nn & b & Eb & [= ->]). pose proof (closed_readable next (HN _ Nn)) as R. split.
  - unfold stat in Es. destruct (v_names v !! record) as [m|] eqn:En; [|done]. destruct (v_inodes v !! m) as [j|] eqn:Ei; [|done].
    cbn in Es. injection Es as -> ->. by eexists _, _.
  - exists next. split; [done|]. destruct (read_record_stat v record _ n b Es Hl Eb (proj1 R) (proj2 R)) as (d' & Ed & Er'). congruence.
Qed.
Lemma record_missing J Q A v d : stage J Q A v d -> current_record root v effect_id request_sha256 "channel_send" = Ok None -> J None.
Proof.
  intros [W Mp] E. unfold current_record in E. apply rbind_ok in E as ([r|] & Er & E); [by guards in E; destruct E|].
  pose proof (held_stat _ _ _ _ _ W (Mp _ _ (files_record J Q A))) as S. change (record_path root effect_id) with record in Er.
  unfold read_record in Er. destruct (stat v record) as [[n i]|]; [|done]. guards in Er. destruct Er as [_ Er].
  destruct (i_kind i); try done. guards in Er. destruct Er as [_ Er]. apply rbind_ok in Er as ([] & _ & Er); done.
Qed.

(** What is known once the record was found. *)
Definition found (J : option inode -> Prop) (y : option inode) : Prop := J y /\ (h <> Losses -> y <> None).
Lemma found_stage J Q A v d n i : stage J Q A v d -> v_names v !! record = Some n -> v_inodes v !! n = Some i -> J (Some i) -> stage (found J) Q A v d.
Proof.
  intros M En Ei Ji. assert (h = Losses \/ h <> Losses) as [L|L] by (destruct h; [by right..|by left]).
  - eapply stage_weaken; [exact M|by intros y Jy; split|done|done].
  - eapply stage_weaken; [apply (stage_of_record J); exact (meets_seen h _ v d record n M J i L (files_record J Q A) En Ei)| |done|done]. by intros y ->.
Qed.

(** The rest, from what was known. *)
Lemma stopped_in J Q A (S : assertion) v d : stopped J Q A v d ->
  (stage J Q A v d -> S v d) -> (answered v d -> S v d) ->
  (forall y, J y -> after y) -> (forall y, Q y -> event_once Dq mq y) -> (forall y, A y -> audit_once Da ma y) -> S v d.
Proof.
  intros [M|M] HS Hans HJ HQ HA; [by apply HS|]. apply Hans. eapply stage_weaken; [exact M|..].
  - intros y [Jy|D]; [by apply HJ|]. destruct phase as [(_ & _ & -> & _)|(_ & _ & -> & _)]; [right|]; by right.
  - intros y. unfold kept. destruct h; [done|done|apply HQ].
  - intros y. unfold kept. destruct h; [done|done|apply HA].
Qed.

Lemma stopped_done (Q A : option inode -> Prop) v d : stage (noted all_done) (kept Q (event_whole Dq mq)) (kept A (audit_whole Da ma)) v d ->
  (forall y, Q y -> event_once Dq mq y) -> (forall y, A y -> audit_once Da ma y) -> answered v d.
Proof.
  intros M HQ HA. eapply stage_weaken; [exact M|..].
  - intros y D. destruct phase as [(_ & _ & -> & _)|(_ & _ & -> & _)]; [right|]; by right.
  - intros y. unfold kept. destruct h; [done|done|apply HQ].
  - intros y. unfold kept. destruct h; [done|done|apply HA].
Qed.

Lemma triple_or {B} (P P' : assertion) (m : prog B) Q E C : triple h P m Q E C -> triple h P' m Q E C -> triple h (fun v d => P v d \/ P' v d) m Q E C.
Proof. intros T T' w S [Pw|Pw]; [by apply T|by apply T']. Qed.

Notation attempt now := (journaled_channel_send umask root shared now arguments request_sha256).

(** A record found: its answer, or the rest of its work. *)
Lemma resumed J Q A r (N : dict -> Prop) (S : assertion) :
  queue_state Q -> audit_state A -> (forall v d, stage (found J) Q A v d -> S v d) -> (forall v d, answered v d -> S v d) -> (forall y, found J y -> after y) ->
  (forall next, N next -> to_do next \/ all_done next) -> (exists next, N next /\ sort_keys (JObj (closed next)) = JObj r) ->
  ((forall next, N next -> to_do next) \/ forall v d, stage (found J) Q A v d -> answered v d) ->
  triple h (stage (found J) Q A)
    (do! replay := pof (replayed_result r) in
     match replay with
     | Some result => pret result
     | None =>
         do! (send_id, target, event, audit, _) := pof (validate_prepared_channel_send r) in
         let details := match get r "details" with JObj d => d | _ => [] end in
         finish_send shared (write_record umask root effect_id request_sha256 "channel_send") send_id target event audit details
     end)
    (fun _ => answered) (fun _ => S) S.
Proof.
  intros HQ HA HS Hans HJ HN (next & Nn & Es) Hd. destruct (validate_id_again _ _ Hid) as [_ Hid'].
  destruct (closed_says _ _ (HN _ Nn) Es) as (Ge & Gr & t & dt & Et & Gd).
  apply triple_try; [by rewrite Hcalm|by intros e v d; apply HS|]. intros [result|] Er.
  { apply triple_ret. destruct Hd as [Hd|Hd]; [|exact Hd]. rewrite (Gr (Hd _ Nn)) in Er. done. }
  apply triple_try; [by rewrite Hcalm|by intros e v d; apply HS|]. intros [[[[s tg] ev] au] args] Ev. rewrite Gd.
  destruct (validate_prepared_ok _ _ _ _ _ _ Ev) as (eid & dt' & Eid & Gd' & -> & Tg & _ & Gev & Gau).
  rewrite Gd in Gd'. injection Gd' as <-. rewrite Ge, Hid' in Eid. injection Eid as <-. fold send_id.
  assert (NoDup (details_at t).*1) as Nk by (apply (bool_decide_unpack _); by vm_compute).
  rewrite (get_sort _ _ "target_role" Nk Et) in Tg. rewrite (get_sort _ _ "event" Nk Et) in Gev. rewrite (get_sort _ _ "audit" Nk Et) in Gau.
  change (get (details_at t) "target_role") with (JStr target) in Tg. injection Tg as <-.
  assert (forall v d, stopped (found J) Q A v d -> S v d) as St.
  { intros v d M. eapply stopped_in; [exact M|apply HS|apply Hans|exact HJ|apply HQ|apply HA]. }
  eapply triple_weaken; [apply (finish_rule (found J) Q A t); [done|done|right; exact Gev|right; exact Gau|by right]|done|..].
  - intros a v d M. apply (stopped_done Q A); [exact M|apply HQ|apply HA].
  - intros e. exact St.
  - exact St.
Qed.

(** *** No record *)

Lemma written_some next y : written next y -> y <> None.
Proof. by intros (b & _ & ->). Qed.
Lemma missing_unanswered (again : bool) v d :
  stage (if again then after else before) (if again then kept (event_once Dq mq) (event_whole Dq mq) else event_once Dq mq)
    (if again then kept (audit_once Da ma) (audit_whole Da ma) else audit_once Da ma) v d ->
  current_record root v effect_id request_sha256 "channel_send" = Ok None -> unanswered v d /\ (again = true -> answered = unanswered).
Proof.
  destruct again; [|done]. intros M E. pose proof (record_missing _ _ _ _ _ M E) as An.
  destruct phase as [(_ & _ & _ & Ea)|(_ & _ & Ea & _)]; [rewrite <- Ea; split; [exact M|done]|]. rewrite Ea in An. by destruct An as [(x & _ & W)|(x & _ & W)]; apply written_some in W.
Qed.
(** The rows made now, after their record. *)
Lemma made_now now : triple h unanswered
    (do! (send_id, event, audit) := pof (channel_send_rows now effect_id arguments) in
     let target := get arguments "target_role" in
     let details := send_details send_id target event audit in
     do! _ := write_record umask root effect_id request_sha256 "channel_send" (prepared details) in
     finish_send shared (write_record umask root effect_id request_sha256 "channel_send") send_id (py_str target) event audit details)
    (fun _ => answered) (fun _ => started) started.
Proof.
  pose proof (once_row_state _ _ is_event Dq mq (gr_queue Hgr)) as HQ. pose proof (once_row_state _ _ is_audit Da ma (gr_audit Hgr)) as HA.
  apply triple_try; [by rewrite Hcalm|by intros e v d; left|]. intros [[s ev] au] E.
  destruct (rows_at _ _ _ _ E) as (-> & Tg & -> & ->). rewrite Tg. cbn [py_str]. set (t := utc_text now).
  set (J := written (prepared (details_at t))). assert (forall y, J y -> noted to_do y) as HJ by (intros y Jy; eexists; split; [by exists t|exact Jy]).
  assert (forall y, J y -> before y) as Jb.
  { intros y Jy%HJ. destruct phase as [(_ & -> & _)|(_ & -> & _)]; [right; by left|by right]. }
  assert (forall y, J y -> after y) as Ja.
  { intros y Jy%HJ. destruct phase as [(_ & _ & -> & _)|(_ & _ & -> & _)]; [right; by left|by left]. }
  assert (forall v d, stage (fun y => before y \/ J y) (event_once Dq mq) (audit_once Da ma) v d -> started v d) as W.
  { intros v d M. left. eapply stage_weaken; [exact M| |done|done]. intros y [?|?]; [done|by apply Jb]. }
  assert (forall v d, stopped J (event_once Dq mq) (audit_once Da ma) v d -> started v d) as St.
  { intros v d M. eapply stopped_in; [exact M| |by right|exact Ja|done|done]. intros Mj. left. eapply stage_weaken; [exact Mj|exact Jb|done|done]. }
  apply (triple_seq h _ _ _ (stage J (event_once Dq mq) (audit_once Da ma))).
  - eapply triple_weaken; [by eapply (write_rule before _ _ _ (prepared (details_at t)))|done|done|intros e; exact W|exact W].
  - eapply triple_weaken; [eapply (finish_rule J _ _ t); [done|done|by left|by left|by left]|done|..].
    + intros a v d M. by apply (stopped_done (event_once Dq mq) (audit_once Da ma)).
    + intros e. exact St.
    + exact St.
Qed.

(** What a record that is found may be. *)
Lemma found_kind (again : bool) : exists N : dict -> Prop, (forall next, N next -> to_do next \/ all_done next)
  /\ (forall i, (if again then after else before) (Some i) -> noted N (Some i))
  /\ ((forall next, N next -> to_do next) \/ forall v d,
        stage (if again then after else before) (if again then kept (event_once Dq mq) (event_whole Dq mq) else event_once Dq mq)
          (if again then kept (audit_once Da ma) (audit_whole Da ma) else audit_once Da ma) v d -> answered v d).
Proof.
  destruct (decide (again = true)) as [->|Na].
  - exists (fun next => to_do next \/ all_done next). split; [done|]. split; [|by right].
    intros i [?|[(x & ? & ?)|(x & ? & ?)]]%after_journal; [done|exists x; auto..].
  - assert (again = false) as -> by by destruct again. destruct phase as [(_ & Eb & _ & Ea)|(_ & Eb & _)]; rewrite Eb.
    + exists (fun next => to_do next \/ all_done next). split; [done|]. split; [|right; rewrite Ea; unfold unanswered; by rewrite Eb].
      intros i [?|[(x & ? & ?)|(x & ? & ?)]]; [done|exists x; auto..].
    + exists to_do. split; [by left|]. split; [|by left]. by intros i [?|?].
Qed.
Lemma found_after (again : bool) y : found (if again then after else before) y -> after y.
Proof.
  destruct again; [by intros [? _]|]. intros [By Ny]. destruct phase as [(_ & E & -> & _)|(L & E & -> & _)]; rewrite E in By; [done|].
  destruct By as [By|?]; [by destruct (Ny L)|by left].
Qed.

(** *** One attempt, in any state *)

(** Once answered, it stays so. *)
Definition pending (again : bool) : assertion := if again then answered else started.
Lemma attempt_from (again : bool) now :
  triple h (if again then answered else unanswered) (attempt now) (fun _ => answered) (fun _ => pending again) (pending again).
Proof.
  destruct (validate_id_again _ _ Hid) as [_ Hid']. unfold journaled_channel_send. rewrite Hid. apply triple_known.
  set (J := if again then after else before). set (Q := if again then kept (event_once Dq mq) (event_whole Dq mq) else event_once Dq mq).
  set (A := if again then kept (audit_once Da ma) (audit_whole Da ma) else audit_once Da ma).
  assert (forall v d, stage J Q A v d -> pending again v d) as Old by (subst J Q A; destruct again; [done|by left]).
  assert (forall v d, answered v d -> pending again v d) as Ans by (destruct again; [done|by right]).
  assert (queue_state Q) as HQ.
  { subst Q. pose proof (gr_queue Hgr). unfold kept. destruct again, h; by first [apply whole_row_state|apply once_row_state]. }
  assert (audit_state A) as HA.
  { subst A. pose proof (gr_audit Hgr). unfold kept. destruct again, h; by first [apply whole_row_state|apply once_row_state]. }
  apply (triple_pre h (fun v d => stage J Q A v d /\ (calm h = true -> lock_ok v (lock_path root effect_id))));
    [|intros v d M; split; [subst J Q A; by destruct again|by rewrite Hcalm]].
  apply (locked_rule umask h root effect_id request_sha256 "channel_send" Hid' (files J Q A));
    [apply files_lock|apply files_root|intros e; exact Old|exact Old|by rewrite Hcalm|].
  intros [r|].
  - destruct (found_kind again) as (N & HN & HNJ & Hd). fold J in HNJ.
    assert (forall v d, stage (found J) Q A v d -> stage J Q A v d) as Fj.
    { intros v d M. eapply stage_weaken; [exact M|by intros y [? _]|done|done]. }
    apply (triple_fact h (exists next, N next /\ sort_keys (JObj (closed next)) = JObj r)).
    { intros v d [M E]. exact (proj2 (record_found J Q A N v d r HNJ HN M E)). }
    intros Hr. apply (triple_pre h (stage (found J) Q A)); [apply (resumed J Q A r N _ HQ HA); [|exact Ans|apply found_after|done|done|]|].
    + intros v d M. by apply Old, Fj.
    + destruct Hd as [Hd|Hd]; [by left|]. right. intros v d M. apply Hd. subst J Q A. destruct again; by apply Fj.
    + intros v d [M E]. destruct (record_found J Q A N v d r HNJ HN M E) as [(n & i & En & Ei & Ji) _].
      by eapply found_stage.
  - apply (triple_fact h (again = true -> answered = unanswered)); [intros v d [M E]; by apply (missing_unanswered again v d M)|]. intros Same.
    eapply triple_weaken; [apply made_now|intros v d [M E]; by apply (missing_unanswered again v d M)|done|..].
    + intros e v d M. destruct again; [|done]. cbn. unfold started in M. rewrite (Same eq_refl) in *. by destruct M.
    + intros v d M. destruct again; [|done]. cbn. unfold started in M. rewrite (Same eq_refl) in *. by destruct M.
Qed.

Lemma send_attempt_rule now : triple h started (attempt now) (fun _ => answered) (fun _ => started) started.
Proof.
  apply triple_or; [apply (attempt_from false)|]. eapply triple_weaken; [apply (attempt_from true)|done|done|..]; by right.
Qed.
Lemma answered_rule now : triple h answered (attempt now) (fun _ => answered) (fun _ => answered) answered.
Proof. apply (attempt_from true). Qed.
End sends.

(** ** Histories *)

Section histories.
  Context `{CharData} `{Digest} `{JsonLimits} `{TempNames} `{IsoTime} (umask : Z) (root shared : path).

(** The attempts at a send, one after the other; each takes up what the one
    before left, however it ended. *)
Definition attempts (arguments : dict) (request_sha256 : string) (times : list datetime) (w : world) : world :=
  fold_left (fun w now => (journaled_channel_send umask root shared now arguments request_sha256 w).2) times w.

(** Such a row after what was there, whole or torn, or none; and one, whole. *)
Definition at_most_one (what : dict -> Prop) (D D' : bytes) : Prop :=
  D' = D \/ exists line row part, line_like line /\ loads_raw line = Ok (JObj row) /\ what row /\ part `prefix_of` line ++ [lf] /\ D' = D ++ part.
Definition just_one (what : dict -> Prop) (D D' : bytes) : Prop :=
  exists line row, line_like line /\ loads_raw line = Ok (JObj row) /\ what row /\ D' = D ++ line ++ [lf].

(** The message was asked for, and its rows could be made once. *)
Record requested (arguments : dict) (effect_id : string) (now0 : datetime) : Prop := {
  rq_id : validate_effect_id (get arguments "effect_id") = Ok effect_id;
  rq_made : is_ok (channel_send_rows now0 effect_id arguments) = true;
  rq_plain : plain (JObj arguments) = true;
  rq_depth : (nesting (JObj arguments) + 3 <= max_depth)%nat;
}.

Section known.
  Context (h : hazard) (arguments : dict) (effect_id sha : string) (now0 : datetime) (F : spec) (Dq Da : bytes) (mq ma : Z).
  Hypothesis Hrq : requested arguments effect_id now0.
  Hypothesis Hap : apart root shared arguments effect_id F.
  Hypothesis Hgr : grown effect_id Dq Da mq ma.
  Hypothesis Hcalm : calm h = false.
Notation attempt now := (journaled_channel_send umask root shared now arguments sha).
Notation known P w := (P root shared arguments effect_id sha h F Dq Da mq ma (w_now w) (w_disk w)).

Lemma attempt_started now : triple h (started root shared arguments effect_id sha h F Dq Da mq ma) (attempt now)
  (fun _ => answered root shared arguments effect_id sha h F Dq Da mq ma) (fun _ => started root shared arguments effect_id sha h F Dq Da mq ma)
  (started root shared arguments effect_id sha h F Dq Da mq ma).
Proof. destruct Hrq. by eapply send_attempt_rule. Qed.
Lemma attempt_answered now : triple h (answered root shared arguments effect_id sha h F Dq Da mq ma) (attempt now)
  (fun _ => answered root shared arguments effect_id sha h F Dq Da mq ma) (fun _ => answered root shared arguments effect_id sha h F Dq Da mq ma)
  (answered root shared arguments effect_id sha h F Dq Da mq ma).
Proof. destruct Hrq. by eapply answered_rule. Qed.

(** What an attempt keeps, a history keeps. *)
Lemma attempts_hold (P : assertion) times w :
  (forall now, triple h P (attempt now) (fun _ => P) (fun _ => P) P) -> subject h w -> P (w_now w) (w_disk w) ->
  let w' := attempts arguments sha times w in subject h w' /\ P (w_now w') (w_disk w').
Proof.
  intros T. revert w. induction times as [|now times IH]; intros w S Pw; [done|]. unfold attempts. cbn [fold_left].
  specialize (T now w S Pw). destruct (journaled_channel_send _ _ _ _ _ _ _) as [o w']. destruct T as [S' T]. apply IH; [exact S'|].
  by destruct o as [a|e|]; [|destruct T..].
Qed.
Lemma started_holds times w : subject h w -> known started w ->
  let w' := attempts arguments sha times w in subject h w' /\ known started w'.
Proof.
  apply attempts_hold. intros now. eapply triple_post; [apply attempt_started|]. intros a v d M. by right.
Qed.
Lemma answered_holds times w : subject h w -> known answered w ->
  let w' := attempts arguments sha times w in subject h w' /\ known answered w'.
Proof. apply attempts_hold. intros now. apply attempt_answered. Qed.
End known.

(** What is found in a file, from what it is known to be. *)
Lemma once_found h F G id_of e what D m p v d :
  F p = Some G -> (forall y, G y -> once id_of e what D m y) -> meets h F v d ->
  exists n D', stat v p = Some (n, Inode (Reg D') m true) /\ at_most_one what D D'.
Proof.
  intros E HG [W Mp]. pose proof (held_stat _ _ _ _ _ W (Mp _ _ E)) as S. destruct (stat v p) as [[n i]|].
  - destruct S as [[[= ->]|(b & k & Lb & (row & El & _ & Hw) & [= ->])]%HG _]; exists n.
    + exists D. split; [done|by left].
    + eexists. split; [done|]. right. exists b, row, (take k (b ++ [lf])). do 3 (split; [done|]). split; [|done].
      exists (drop k (b ++ [lf])). by rewrite take_drop.
  - by apply HG in S as [?|(b & k & _ & _ & ?)].
Qed.
Lemma whole_found h F id_of e what D m p v d : F p = Some (whole id_of e what D m) -> meets h F v d ->
  exists n D', stat v p = Some (n, Inode (Reg D') m true) /\ just_one what D D'.
Proof.
  intros E [W Mp]. pose proof (held_stat _ _ _ _ _ W (Mp _ _ E)) as S. destruct (stat v p) as [[n i]|].
  - destruct S as [(b & Lb & (row & El & _ & Hw) & [= ->]) _]. eexists _, _. split; [done|]. by exists b, row.
  - by destruct S as (b & _ & _ & ?).
Qed.

(** C36: A message is sent at most once. However often a send is attempted, at
    whatever times, and whatever happens to the attempts - calls that fail,
    kills, losses of power that keep any part of what was not synced - the queue
    of the role holds what it held before and after it at most one row, whole or
    torn, which is the event of this request as made at some time; and so does
    the audit. Both exist before the first attempt and hold no row of this send.
    It needs no answer, and no record: the journal may be lost with
    the power, and the rows made anew at another time. *)
Theorem sends_are_at_most_once arguments effect_id sha now0 F Dq Da mq ma times w :
  requested arguments effect_id now0 -> apart root shared arguments effect_id F -> grown effect_id Dq Da mq ma ->
  unanswered root shared arguments effect_id sha Losses F Dq Da mq ma (w_now w) (w_disk w) ->
  let v := w_now (attempts arguments sha times w) in
  (exists n D, stat v (queue shared arguments) = Some (n, Inode (Reg D) mq true) /\ at_most_one (is_event arguments effect_id) Dq D)
  /\ exists n D, stat v (audit_path shared) = Some (n, Inode (Reg D) ma true) /\ at_most_one (is_audit arguments effect_id) Da D.
Proof.
  intros Rq Ap Gr U v. assert (subject Losses w) as S by (split; [apply Forall_forall; by intros [] _|done]).
  pose proof (started_holds Losses _ _ sha now0 F Dq Da mq ma Rq Ap Gr eq_refl times w S (or_introl U)) as [_ [M|M]];
    (split; (eapply once_found; [by first [apply files_queue|apply files_audit]|done|exact M])).
Qed.

(** C37: A message that was answered as sent is there. When no power is lost - the
    attempts may fail or be killed anywhere - from the moment an attempt at a
    send returns, and whatever attempts at it come before and after, the queue of
    the role holds exactly one row more than before, whole, which is the event of
    this request as made at some time, and so does the audit; also when the
    attempt found the answer in the journal and appended nothing. Before the first
    attempt both exist and hold no row of this send. *)
Theorem answered_sends_are_there arguments effect_id sha now0 F Dq Da mq ma earlier now later w r :
  requested arguments effect_id now0 -> apart root shared arguments effect_id F -> grown effect_id Dq Da mq ma ->
  subject Kills w -> unanswered root shared arguments effect_id sha Kills F Dq Da mq ma (w_now w) (w_disk w) ->
  let '(o, w') := journaled_channel_send umask root shared now arguments sha (attempts arguments sha earlier w) in
  o = Done r ->
  let v := w_now (attempts arguments sha later w') in
  (exists n D, stat v (queue shared arguments) = Some (n, Inode (Reg D) mq true) /\ just_one (is_event arguments effect_id) Dq D)
  /\ exists n D, stat v (audit_path shared) = Some (n, Inode (Reg D) ma true) /\ just_one (is_audit arguments effect_id) Da D.
Proof.
  intros Rq Ap Gr S U. pose proof (started_holds Kills _ _ sha now0 F Dq Da mq ma Rq Ap Gr eq_refl earlier w S (or_introl U)) as [S1 M1].
  pose proof (attempt_started Kills _ _ sha now0 F Dq Da mq ma Rq Ap Gr eq_refl now _ S1 M1) as M2.
  destruct (journaled_channel_send _ _ _ _ _ _ _) as [o w']. destruct M2 as [S2 M2]. intros -> v.
  pose proof (answered_holds Kills _ _ sha now0 F Dq Da mq ma Rq Ap Gr eq_refl later w' S2 M2) as [_ M].
  split; (eapply whole_found; [by first [apply files_queue|apply files_audit]|exact M]).
Qed.
End histories.

(** ** A message on a small host *)

Module HistoryDemo.
  Import ChannelDemo.
  #[local] Existing Instance checksum_digest.
  #[local] Existing Instance ChannelDemo.limits.

Definition asked : dict := send_args "hello".
Definition sha : string := match effect_request_sha256 "channel" "channel_send" asked with Ok s => s | Err _ => "" end.
(** The attempts at the send, at two times, from the quiet volume. *)
Notation history fates := (attempts 18 ["j"] ["shared"] asked sha [now; later; now; later] (start quiet fates)).
Notation lost := (PowerLoss 3 (fun _ => false) (fun _ => false)).

(** What is tracked besides record, queue and audit. *)
Definition F : spec := fun q => if decide (q = ["j"]) then Some (fun y => y = Some dir700) else None.

Lemma record_path_two : exists x, record ["j"] "e-1" = ["j"; x].
Proof. by eexists. Qed.

Lemma names_quiet q n : v_names quiet !! q = Some n ->
  (q, n) = ([], 0%nat) \/ (q, n) = (["j"], 1%nat) \/ (q, n) = (["shared"], 2%nat) \/ (q, n) = (["state"], 3%nat)
  \/ (q, n) = (ChannelDemo.queue, 4%nat) \/ (q, n) = (audit_path ["shared"], 5%nat).
Proof.
  intros E%elem_of_list_to_map_2. change (list_to_map _) with (v_names quiet) in *. cbn in E. set_solver.
Qed.

Lemma framed : apart ["j"] ["shared"] asked "e-1" F.
Proof.
  split; [done..| |done|].
  - exists (fun y => y = Some dir700). split; [done|]. intros y ->. by eexists _, _.
  - by intros s X.
Qed.
Lemma empty_files : grown "e-1" [] [] 384 384.
Proof. by split. Qed.

Lemma at_rest h : unanswered ["j"] ["shared"] asked "e-1" sha h F [] [] 384 384 quiet quiet.
Proof.
  assert (forall q p n, v_names quiet !! q = Some n -> v_names quiet !! p = Some n -> q = p) as One.
  { intros q p n Q%names_quiet P%names_quiet. destruct Q as [Q|[Q|[Q|[Q|[Q|Q]]]]], P as [P|[P|[P|[P|[P|P]]]]]; congruence. }
  split.
  - intros q n [Q|[_ Q]]; apply names_quiet in Q; destruct Q as [Q|[Q|[Q|[Q|[Q|Q]]]]]; injection Q as -> ->; by eexists.
  - destruct record_path_two as [x Ex]. intros q X. unfold files, put, F.
    destruct (decide _) as [->|]; [intros [= <-]|destruct (decide _) as [->|]; [intros [= <-]|
      destruct (decide _) as [->|]; [intros [= <-]|destruct (decide _) as [->|]; [intros [= <-]|done]]]].
    + apply held_missing; [|by unfold before; destruct h; left]. rewrite Ex. destruct (v_names quiet !! ["j"; x]) as [m|] eqn:E; [|done].
      apply names_quiet in E. by destruct E as [E|[E|[E|[E|[E|E]]]]].
    + apply (held_same _ _ _ quiet 5%nat (rows [])); [done..| |by left]. intros r R. by eapply One.
    + apply (held_same _ _ _ quiet 4%nat (rows [])); [done..| |by left]. intros r R. by eapply One.
    + apply (held_same _ _ _ quiet 1%nat dir700); [done..| |done]. intros r R. by eapply One.
Qed.

(** The size of the queue after four attempts, the power lost at a call of the
    first, a later call killed three bytes into its row. *)
Definition size_after (k l : nat) : nat :=
  size (w_now (history (repeat Goes k ++ [lost] ++ repeat Goes l ++ [Killed 3]))) ChannelDemo.queue.

(** One row at the end, or the torn three bytes of one. *)
Example one_row_or_torn :
  map (fun k => map (size_after k) [5; 11; 20]%nat) [8; 12; 20]%nat = [[197; 3; 197]; [197; 197; 197]; [197; 197; 197]]%nat.
Proof. vm_compute. reflexivity. Qed.

(** The row lost with the power is made again. *)
Example made_again :
  let w1 := attempts 18 ["j"] ["shared"] asked sha [now] (start quiet (repeat Goes 12 ++ [lost])) in
  (size (w_now w1) ChannelDemo.queue, size (w_now (attempts 18 ["j"] ["shared"] asked sha [later] w1)) ChannelDemo.queue) = (0%nat, 197%nat).
Proof. vm_compute. reflexivity. Qed.

Lemma asked_ok : requested asked "e-1" now.
Proof. split; [by vm_compute..|]. apply Nat.leb_le. by vm_compute. Qed.
End HistoryDemo.

Import ChannelDemo HistoryDemo.
#[local] Existing Instance checksum_digest.
#[local] Existing Instance ChannelDemo.limits.

Lemma sends_are_at_most_once_witness :
  let v := w_now (attempts 18 ["j"] ["shared"] asked sha [now; later; now; later]
                    (start quiet (repeat Goes 12 ++ [PowerLoss 3 (fun _ => false) (fun _ => false)]))) in
  (exists n D, stat v (queue_path ["shared"] "cos") = Some (n, Inode (Reg D) 384 true) /\ at_most_one (is_event asked "e-1") [] D)
  /\ exists n D, stat v (audit_path ["shared"]) = Some (n, Inode (Reg D) 384 true) /\ at_most_one (is_audit asked "e-1") [] D.
Proof.
  exact (sends_are_at_most_once 18 ["j"] ["shared"] asked "e-1" sha now HistoryDemo.F [] [] 384 384 [now; later; now; later] (start quiet _)
    asked_ok framed empty_files (at_rest Losses)).
Defined.

(** Killed in its calls, then answered, then attempted again. *)
Notation answer_after n := (journaled_channel_send 18 ["j"] ["shared"] later asked sha
  (attempts 18 ["j"] ["shared"] asked sha [now] (start quiet (repeat Goes n ++ [Killed 0])))).
Lemma answered_sends_are_there_witness :
  let '(o, w') := answer_after 12%nat in
  o = Done (sent (send_id "e-1") "cos") /\
  let v := w_now (attempts 18 ["j"] ["shared"] asked sha [now] w') in
  (exists n D, stat v (queue_path ["shared"] "cos") = Some (n, Inode (Reg D) 384 true) /\ just_one (is_event asked "e-1") [] D)
  /\ exists n D, stat v (audit_path ["shared"]) = Some (n, Inode (Reg D) 384 true) /\ just_one (is_audit asked "e-1") [] D.
Proof.
  assert (subject Kills (start quiet (repeat Goes 12 ++ [Killed 0]))) as S.
  { split; [|done]. cbn [w_fates start]. apply Forall_app. split; by repeat constructor. }
  pose proof (answered_sends_are_there 18 ["j"] ["shared"] asked "e-1" sha now HistoryDemo.F [] [] 384 384 [now] later [now] (start quiet (repeat Goes 12 ++ [Killed 0]))
    (sent (send_id "e-1") "cos") asked_ok framed empty_files S (at_rest Kills)) as T.
  assert ((answer_after 12%nat).1 = Done (sent (send_id "e-1") "cos")) as E by (vm_compute; reflexivity).
  destruct (answer_after 12%nat) as [o w']. split; [exact E|exact (T E)].
Defined.
