(* ===== verification/DispatchRows.v ===== *)
(** * Legacy rows (fleet_kernel/m5/dispatch_approval_migration.py, parsing)

    The two JSON Lines surfaces the M5 shadow mirrors, dispatch intents and the
    audit of founder-decision emissions, read into rows that keep every byte
    of their line. A [str] is its UTF-8 encoding ([PyUnicode]); the [repr] of
    an id in one message is exact for ASCII ids. *)
From S2P Require Import Prelude PyStr PyFloat PyTime Json Sha256 PyIO JsonText PyValue PyUuid PyUnicode JsonBytes.
From stdpp Require Import base strings list.
From Stdlib Require Import ZArith NArith Lia.

Local Open Scope Z_scope.

Notation MigrationError := (OtherError "DispatchApprovalMigrationError").
Definition refuse {A} (msg : string) : res A := Err (Exn MigrationError msg).

(* src: fleet_kernel/m5/dispatch_approval_migration.py DISPATCH_TYPES *)
Definition DISPATCH_TYPES : list string := ["oil_dispatch"; "task_handoff"; "fodl"].
(* src: fleet_kernel/m5/dispatch_approval_migration.py DISPATCH_STATUSES *)
Definition DISPATCH_STATUSES : list string := ["pending"; "delivered"; "skipped"; "blocked"; "resolved"; "closed"].
(* src: fleet_kernel/m5/dispatch_approval_migration.py TERMINAL_DISPATCH_STATUSES *)
Definition TERMINAL_DISPATCH_STATUSES : list string := ["delivered"; "skipped"; "resolved"; "closed"].
(* src: fleet_kernel/m5/dispatch_approval_migration.py FODL_EMIT_FIELDS *)
Definition FODL_EMIT_FIELDS : list string := [
  "ts"; "fodl_id"; "originating_agent"; "arbiter_consulted"; "tier"; "edg";
  "time_sensitivity"; "if_no_decision_by"; "title_length"; "problem_statement_length"].

(* src: fleet_kernel/m5/dispatch_approval_migration.py LegacyJsonlRow *)
Record LegacyJsonlRow := {
  jr_source_key : string;
  jr_identity : string;
  jr_ordinal : nat;
  jr_line : string;
  jr_sha256 : string;
  jr_value : dict;
  jr_row_type : string;
  jr_status : string;
}.

(* src: fleet_kernel/m5/dispatch_approval_migration.py LegacyFodlAuditRow *)
Record LegacyFodlAuditRow := {
  fr_source_key : string;
  fr_ordinal : nat;
  fr_line : string;
  fr_sha256 : string;
  fr_value : dict;
  fr_fodl_id : option string;
}.

(** The surface the rows of a binding table spell. *)
(* src: fleet_kernel/m5/dispatch_approval_migration.py _render *)
Definition render (lines : list string) : bytes :=
  match lines with
  | [] => []
  | _ => chars (PyStr.join (of_chars [lf]) lines) ++ [lf]
  end.

Section rows.
  Context `{Digest} `{IsoTime} `{JsonLimits}.

(* src: fleet_kernel/m5/dispatch_approval_migration.py _aware *)
Definition aware_ (value : json) (field : string) : res datetime :=
  match value with
  | JStr s =>
      require nonblank_u s else MigrationError, (field +:+ " must be a non-empty ISO timestamp") ;;
      match fromisoformat (replace "Z" "+00:00" s) with
      | None => refuse (field +:+ " must be an ISO timestamp")
      | Some parsed =>
          require aware parsed else MigrationError, (field +:+ " must be timezone-aware") ;;
          Ok parsed
      end
  | _ => refuse (field +:+ " must be a non-empty ISO timestamp")
  end.

(** One line of a surface. *)
(* src: fleet_kernel/m5/dispatch_approval_migration.py _jsonl@5-22 *)
Definition jsonl_row (surface : string) (ordinal : nat) (raw_line : bytes) : res (nat * string * dict) :=
  let row := (surface +:+ " row " +:+ str_nat (ordinal + 1))%string in
  require decodable raw_line else MigrationError, (surface +:+ " is not UTF-8") ;;
  require nonblank_u (of_chars raw_line) else MigrationError, (row +:+ " is blank") ;;
  match loads_u raw_line with
  | Err e => if bool_decide (exn_class e = JSONDecodeError) then refuse (row +:+ " is invalid JSON") else Err e
  | Ok (JObj value) => Ok (ordinal, of_chars raw_line, value)
  | Ok _ => refuse (row +:+ " is not an object")
  end.

Fixpoint jsonl_rows (surface : string) (ordinal : nat) (lines : list bytes) : res (list (nat * string * dict)) :=
  match lines with
  | [] => Ok []
  | l :: r =>
      let! row := jsonl_row surface ordinal l in
      let! rows := jsonl_rows surface (S ordinal) r in Ok (row :: rows)
  end.

(* src: fleet_kernel/m5/dispatch_approval_migration.py _jsonl *)
Definition jsonl (data : bytes) (surface : string) : res (list (nat * string * dict)) :=
  match data with
  | [] => Ok []
  | _ =>
      require ends_with_lf data else MigrationError, (surface +:+ " has a torn trailing line") ;;
      jsonl_rows surface 0 (split_l lf (removelast data))
  end.

(* src: fleet_kernel/m5/dispatch_approval_migration.py _dispatch_opened *)
Definition dispatch_opened (value : dict) (row_number : option nat) : res datetime :=
  let opened_raw := get value "opened_ts_utc" in
  let legacy_raw := get value "ts" in
  let prefix := match row_number with Some n => "dispatch row " +:+ str_nat n +:+ " " | None => "dispatch " end in
  raise_if negb (py_bool opened_raw) && negb (py_bool legacy_raw)
    with MigrationError, (prefix +:+ "has no opened timestamp") ;;
  let! opened := if py_bool opened_raw then let! d := aware_ opened_raw "opened_ts_utc" in Ok (Some d) else Ok None in
  let! legacy := if py_bool legacy_raw then let! d := aware_ legacy_raw "ts" in Ok (Some d) else Ok None in
  match opened, legacy with
  | Some o, Some l =>
      require instant o =? instant l else MigrationError, (prefix +:+ "opened_ts_utc and ts disagree") ;; Ok o
  | Some d, None | None, Some d => Ok d
  | None, None => refuse (prefix +:+ "has no opened timestamp")
  end.

Definition hashable (j : json) : bool := match j with JArr _ | JObj _ => false | _ => true end.
Definition need_hashable (l : list json) : res unit :=
  require forallb hashable l else TypeError, "unhashable type" ;; Ok tt.

(** The declared type: one value, however often declared. *)
(* src: fleet_kernel/m5/dispatch_approval_migration.py parse_dispatch_bytes@6-11 *)
Definition declared_type (value : dict) (ordinal : nat) : res string :=
  let declared := List.filter py_bool [get value "intent_type"; get value "type"] in
  let! _ := need_hashable declared in
  let bad := refuse ("dispatch row " +:+ str_nat (ordinal + 1) +:+ " has an invalid or conflicting type") in
  match declared with
  | JStr s :: rest =>
      if forallb (py_eq (JStr s)) rest && existsb (String.eqb s) DISPATCH_TYPES then Ok s else bad
  | _ => bad
  end.

Fixpoint check_fields (value : dict) (ordinal : nat) (fields : list string) : res unit :=
  match fields with
  | [] => Ok tt
  | f :: r =>
      match get value f with
      | JStr s =>
          require nonblank_u s
            else MigrationError, ("dispatch row " +:+ str_nat (ordinal + 1) +:+ " field " +:+ f +:+ " is empty") ;;
          check_fields value ordinal r
      | _ => refuse ("dispatch row " +:+ str_nat (ordinal + 1) +:+ " field " +:+ f +:+ " is empty")
      end
  end.

(** The identity a row has without an explicit id. *)
(* src: fleet_kernel/m5/dispatch_approval_migration.py parse_dispatch_bytes@31-34 *)
Definition legacy_identity (row_type : string) (value : dict) : res string :=
  let! text := dump_bytes (JArr [JStr row_type; get value "owner"; get value "subject";
                                 default (JStr "") (dict_get "source_oil" value)]) in
  Ok ("legacy:" +:+ digest text).

(** The dictionaries of the loop. *)
Record seen := Seen {
  sn_occurrences : list (string * nat);
  sn_identity_lines : list (string * string);
  sn_explicit : list string;
}.
Definition seen0 : seen := Seen [] [] [].

(** The checks of a row on its own, up to its explicit id. *)
(* src: fleet_kernel/m5/dispatch_approval_migration.py parse_dispatch_bytes@6-30 *)
Definition dispatch_checks (ordinal : nat) (value : dict) : res (string * string * option string) :=
  let row := ("dispatch row " +:+ str_nat (ordinal + 1))%string in
  let! row_type := declared_type value ordinal in
  let! status := match get value "status" with
                 | JStr s => if existsb (String.eqb s) DISPATCH_STATUSES then Ok s
                             else refuse (row +:+ " status is invalid")
                 | _ => refuse (row +:+ " status is invalid")
                 end in
  let! _ := check_fields value ordinal ["owner"; "subject"; "action"; "expected_artifact"; "deadline_utc"] in
  let! opened := dispatch_opened value (Some (ordinal + 1)%nat) in
  let! deadline := aware_ (get value "deadline_utc") "deadline_utc" in
  raise_if instant deadline <=? instant opened with MigrationError, (row +:+ " deadline is not after open") ;;
  match get value "intent_id" with
  | JNull => Ok (row_type, status, None)
  | JStr s => require nonblank_u s else MigrationError, (row +:+ " intent_id is invalid") ;; Ok (row_type, status, Some s)
  | _ => refuse (row +:+ " intent_id is invalid")
  end.

(* src: fleet_kernel/m5/dispatch_approval_migration.py parse_dispatch_bytes@31-52 *)
Definition dispatch_row (sn : seen) (ordinal : nat) (line : string) (value : dict) : res (LegacyJsonlRow * seen) :=
  let row := ("dispatch row " +:+ str_nat (ordinal + 1))%string in
  let! (row_type, status, explicit) := dispatch_checks ordinal value in
  let! identity := match explicit with Some s => Ok s | None => legacy_identity row_type value end in
  let! explicit_ids :=
    match explicit with
    | Some s =>
        raise_if existsb (String.eqb s) (sn_explicit sn)
          with MigrationError, (row +:+ " duplicates explicit intent_id " +:+ repr s) ;;
        Ok (s :: sn_explicit sn)
    | None =>
        raise_if match dict_get identity (sn_identity_lines sn) with
                 | Some first => negb (first =? line)%string | None => false end
          with MigrationError, (row +:+ " has ambiguous duplicate legacy identity") ;;
        Ok (sn_explicit sn)
    end in
  let identity_lines := match dict_get identity (sn_identity_lines sn) with
                        | Some _ => sn_identity_lines sn
                        | None => dict_put identity line (sn_identity_lines sn) end in
  let occurrence := (default 0%nat (dict_get identity (sn_occurrences sn)) + 1)%nat in
  let source_key := match explicit with
                    | Some s => s | None => identity +:+ "::occurrence:" +:+ str_nat occurrence end in
  Ok ({| jr_source_key := source_key; jr_identity := identity; jr_ordinal := ordinal; jr_line := line;
         jr_sha256 := digest line; jr_value := value; jr_row_type := row_type; jr_status := status |},
      Seen (dict_put identity occurrence (sn_occurrences sn)) identity_lines explicit_ids).

Fixpoint dispatch_rows (sn : seen) (rows : list (nat * string * dict)) : res (list LegacyJsonlRow) :=
  match rows with
  | [] => Ok []
  | (ordinal, line, value) :: r =>
      let! (row, sn) := dispatch_row sn ordinal line value in
      let! rest := dispatch_rows sn r in Ok (row :: rest)
  end.

(* src: fleet_kernel/m5/dispatch_approval_migration.py parse_dispatch_bytes *)
Definition parse_dispatch_bytes (data : bytes) : res (list LegacyJsonlRow) :=
  let! rows := jsonl data "dispatch intents" in dispatch_rows seen0 rows.

(** The exact schema of an emission. *)
(* src: fleet_kernel/m5/dispatch_approval_migration.py parse_fodl_audit_bytes@7-23 *)
Definition check_emit (ordinal : nat) (value : dict) (fodl_id : json) : res string :=
  let row := ("FODL emit row " +:+ str_nat (ordinal + 1))%string in
  require forallb (fun k => existsb (String.eqb k) FODL_EMIT_FIELDS) value.*1
          && forallb (fun k => existsb (String.eqb k) value.*1) FODL_EMIT_FIELDS
    else MigrationError, (row +:+ " schema is not exact") ;;
  match fodl_id with
  | JStr s =>
      require startswith s "FODL-" else MigrationError, (row +:+ " ID is invalid") ;;
      let! _ := aware_ (get value "ts") "FODL emit ts" in
      let! _ := need_hashable [get value "tier"] in
      require existsb (fun t => py_eq (get value "tier") (JStr t)) ["S"; "A"; "B"; "C"]
        else MigrationError, (row +:+ " tier is invalid") ;;
      raise_if match get value "edg" with JBool _ => true | edg => negb (existsb (fun n => py_eq edg (JInt n)) [0; 1; 2; 3; 4]) end
        with MigrationError, (row +:+ " EDG is invalid") ;;
      Ok s
  | _ => refuse (row +:+ " ID is invalid")
  end.

(** [occurrences] and [explicit_fodl_ids] of the loop. *)
(* src: fleet_kernel/m5/dispatch_approval_migration.py parse_fodl_audit_bytes@5-38 *)
Fixpoint fodl_rows (occurrences : list (string * nat)) (explicit : list string) (rows : list (nat * string * dict))
    : res (list LegacyFodlAuditRow) :=
  match rows with
  | [] => Ok []
  | (ordinal, line, value) :: r =>
      let! fodl_id := match get value "fodl_id" with
                      | JNull => Ok None
                      | id => let! s := check_emit ordinal value id in
                              raise_if existsb (String.eqb s) explicit
                                with MigrationError, ("FODL emit row " +:+ str_nat (ordinal + 1)
                                                      +:+ " duplicates explicit ID " +:+ repr s) ;;
                              Ok (Some s)
                      end in
      let identity := match fodl_id with Some s => s | None => "record:" +:+ digest line end in
      let occurrence := (default 0%nat (dict_get identity occurrences) + 1)%nat in
      let source_key := match fodl_id with
                        | Some s => s | None => identity +:+ "::occurrence:" +:+ str_nat occurrence end in
      let! rest := fodl_rows (dict_put identity occurrence occurrences)
                     (match fodl_id with Some s => s :: explicit | None => explicit end) r in
      Ok ({| fr_source_key := source_key; fr_ordinal := ordinal; fr_line := line; fr_sha256 := digest line;
             fr_value := value; fr_fodl_id := fodl_id |} :: rest)
  end.

(* src: fleet_kernel/m5/dispatch_approval_migration.py parse_fodl_audit_bytes *)
Definition parse_fodl_audit_bytes (data : bytes) : res (list LegacyFodlAuditRow) :=
  let! rows := jsonl data "FODL audit" in fodl_rows [] [] rows.
End rows.


(** ** Lemmas *)

Lemma split_l_cons sep l : exists w ws, split_l sep l = w :: ws.
Proof.
  induction l as [|c r (w & ws & E)]; simpl; [by eexists _, _|]. rewrite E. destruct (Ascii.eqb c sep); by eexists _, _.
Qed.

Lemma join_cons sep x y l : PyStr.join sep (x :: y :: l) = x +:+ sep +:+ PyStr.join sep (y :: l).
Proof. done. Qed.

(** Joining what was split at one character. *)
Lemma join_split sep l : chars (PyStr.join (of_chars [sep]) (map of_chars (split_l sep l))) = l.
Proof.
  induction l as [|c r IH]; [done|]. cbn [split_l]. destruct (split_l_cons sep r) as (w & ws & E). rewrite E in *.
  destruct (Ascii.eqb_spec c sep) as [->|Ne].
  - cbn [map] in *. rewrite join_cons. rewrite !chars_app, IH. done.
  - cbn [map] in *. destruct ws as [|w' ws].
    + cbn [map PyStr.join] in *. rewrite chars_of_chars in *. by rewrite IH.
    + cbn [map] in *. rewrite join_cons, !chars_app, !chars_of_chars in *. by rewrite <- IH.
Qed.

Definition one_line (s : string) : Prop := existsb (Ascii.eqb lf) (chars s) = false.

Lemma split_l_free l : Forall one_line (map of_chars (split_l lf l)).
Proof.
  induction l as [|c r IH]; [by repeat constructor|]. cbn [split_l]. destruct (split_l_cons lf r) as (w & ws & E).
  rewrite E in *. cbn [map] in IH. apply Forall_cons in IH as [Hw Hws].
  destruct (Ascii.eqb_spec c lf) as [->|Ne]; cbn [map]; [by repeat constructor|].
  constructor; [|done]. unfold one_line in *. rewrite chars_of_chars in *. cbn [existsb]. rewrite Hw, orb_false_r.
  apply Ascii.eqb_neq. congruence.
Qed.

Lemma split_app_free w r :
  existsb (Ascii.eqb lf) w = false -> split_l lf (w ++ lf :: r) = w :: split_l lf r.
Proof.
  induction w as [|c w IH]; intros F; cbn [existsb app split_l] in *.
  - destruct (split_l_cons lf r) as (a & l & ->). done.
  - apply orb_false_iff in F as [Hc F]. rewrite IH by done.
    destruct (Ascii.eqb_spec c lf) as [->|]; [|done]. by rewrite Ascii.eqb_refl in Hc.
Qed.
Lemma split_free w : existsb (Ascii.eqb lf) w = false -> split_l lf w = [w].
Proof.
  induction w as [|c w IH]; intros F; cbn [existsb split_l] in *; [done|]. apply orb_false_iff in F as [Hc F]. rewrite IH by done.
  destruct (Ascii.eqb_spec c lf) as [->|]; [|done]. by rewrite Ascii.eqb_refl in Hc.
Qed.

Lemma split_join x ls : Forall one_line (x :: ls) -> split_l lf (chars (PyStr.join (of_chars [lf]) (x :: ls))) = map chars (x :: ls).
Proof.
  revert x. induction ls as [|y ls IH]; intros x F; apply Forall_cons in F as [Hx F]; [by apply split_free|].
  rewrite join_cons, !chars_app. change (chars (of_chars [lf])) with [lf]. cbn [app].
  rewrite split_app_free by done. by rewrite IH.
Qed.

(** A surface determines its lines. *)
Lemma render_inj ls ls' : Forall one_line ls -> Forall one_line ls' -> render ls = render ls' -> ls = ls'.
Proof.
  intros F F' E. destruct ls as [|x ls], ls' as [|x' ls']; unfold render in E; [done|by destruct (chars _)..|].
  apply app_inv_tail in E. apply (f_equal (split_l lf)) in E. rewrite !split_join in E by done.
  apply (f_equal (map of_chars)) in E. rewrite !map_map in E.
  rewrite !(map_ext (fun y => of_chars (chars y)) id) in E by (intros; apply of_chars_chars). by rewrite !map_id in E.
Qed.

Lemma removelast_last (l : bytes) : ends_with_lf l = true -> l = removelast l ++ [lf].
Proof.
  unfold ends_with_lf. intros E. destruct (last l) as [c|] eqn:El; [|done]. apply Ascii.eqb_eq in E as ->.
  apply last_Some in El as (l' & ->). by rewrite removelast_app, app_nil_r.
Qed.

Section facts.
  Context `{Digest} `{IsoTime} `{JsonLimits}.

Lemma jsonl_rows_ok surface n lines rows :
  jsonl_rows surface n lines = Ok rows ->
  map (fun r => r.1.2) rows = map of_chars lines /\ map (fun r => r.1.1) rows = seq n (List.length rows).
Proof.
  revert n rows. induction lines as [|l lines IH]; intros n rows E; simpl in E; [by injection E as <-|].
  apply rbind_ok in E as (row & Er & E). apply rbind_ok in E as (rest & Ere & [= <-]).
  destruct (IH _ _ Ere) as [E1 E2]. simpl. rewrite E1, E2.
  assert (row.1 = (n, of_chars l)) as ->; [|done].
  unfold jsonl_row in Er. guards in Er. destruct Er as (_ & _ & Er).
  destruct (loads_u l) as [[]|]; try done; [by injection Er as <-|]. by destruct (bool_decide _).
Qed.

Lemma jsonl_ok data surface rows :
  jsonl data surface = Ok rows ->
  render (map (fun r => r.1.2) rows) = data /\ map (fun r => r.1.1) rows = seq 0 (List.length rows)
  /\ Forall one_line (map (fun r => r.1.2) rows).
Proof.
  unfold jsonl. destruct data as [|c data]; [by intros [= <-]; repeat constructor|]. intros E. guards in E. destruct E as [Hl E].
  apply jsonl_rows_ok in E as [E1 E2]. rewrite E1. split; [|split; [done|apply split_l_free]]. rewrite (removelast_last _ Hl) at 2.
  unfold render. destruct (split_l_cons lf (removelast (c :: data))) as (w & ws & Es).
  rewrite <- (join_split lf (removelast (c :: data))) at 2. rewrite Es. done.
Qed.

Lemma dispatch_row_ok sn n line value row sn' :
  dispatch_row sn n line value = Ok (row, sn') ->
  jr_ordinal row = n /\ jr_line row = line /\ jr_sha256 row = digest line /\ truthy (jr_source_key row) = true
  /\ jr_value row = value
  /\ exists explicit, dispatch_checks n value = Ok (jr_row_type row, jr_status row, explicit).
Proof.
  unfold dispatch_row. intros E. apply rbind_ok in E as ([[ty st] ex] & Ec & E).
  apply rbind_ok in E as (id & Ei & E). apply rbind_ok in E as (ids & _ & E). injection E as <- <-. simpl.
  repeat split; try done; [|by exists ex]. destruct ex as [s|].
  - unfold dispatch_checks in Ec. cbv zeta in Ec.
    repeat (apply rbind_ok in Ec as (? & _ & Ec)). guards in Ec. destruct Ec as [_ Ec].
    destruct (get value "intent_id"); try done. guards in Ec. destruct Ec as [Hn [= _ _ ->]].
    destruct s; [|done]. by vm_compute in Hn.
  - unfold legacy_identity in Ei. apply rbind_ok in Ei as (t & _ & [= <-]). done.
Qed.

Lemma dispatch_rows_ok sn rows rs :
  dispatch_rows sn rows = Ok rs ->
  map (fun r => (jr_ordinal r, jr_line r)) rs = map fst rows
  /\ Forall (fun r => jr_sha256 r = digest (jr_line r) /\ truthy (jr_source_key r) = true
                      /\ jr_row_type r ∈ DISPATCH_TYPES /\ jr_status r ∈ DISPATCH_STATUSES) rs.
Proof.
  revert sn rs. induction rows as [|[[n line] value] rows IH]; intros sn rs E; simpl in E; [by injection E as <-|].
  apply rbind_ok in E as ([row sn'] & Er & E). apply rbind_ok in E as (rest & Ere & [= <-]).
  destruct (dispatch_row_ok _ _ _ _ _ _ Er) as (E1 & E2 & E3 & E4 & E5 & ex & Ec).
  destruct (IH _ _ Ere) as [E6 F]. simpl. rewrite E1, E2, E6. split; [done|]. constructor; [|done].
  rewrite E2. split; [done|]. split; [done|].
  unfold dispatch_checks in Ec. cbv zeta in Ec. apply rbind_ok in Ec as (ty & Ety & Ec).
  apply rbind_ok in Ec as (st & Est & Ec). do 3 apply rbind_ok in Ec as (? & _ & Ec).
  guards in Ec. destruct Ec as [_ Ec].
  assert (ty = jr_row_type row /\ st = jr_status row) as [<- <-].
  { destruct (get value "intent_id"); try done; [by injection Ec as -> -> _|]. guards in Ec. by destruct Ec as [_ [= -> -> _]]. }
  split.
  - unfold declared_type in Ety. apply rbind_ok in Ety as ([] & _ & Ety).
    destruct (List.filter py_bool _) as [|[] ?]; try done.
    destruct (forallb _ _ && existsb _ _) eqn:B; [|done]. injection Ety as <-.
    apply andb_true_iff in B as [_ B]. by apply existsb_eqb.
  - destruct (get value "status") as [| | | | |s| |]; try done.
    destruct (existsb (String.eqb s) DISPATCH_STATUSES) eqn:B; [|done]. injection Est as <-. by apply existsb_eqb.
Qed.

Lemma fodl_rows_ok occ ex rows rs :
  fodl_rows occ ex rows = Ok rs ->
  map (fun r => (fr_ordinal r, fr_line r)) rs = map fst rows
  /\ Forall (fun r => fr_sha256 r = digest (fr_line r) /\ truthy (fr_source_key r) = true) rs.
Proof.
  revert occ ex rs. induction rows as [|[[n line] value] rows IH]; intros occ ex rs E; simpl in E; [by injection E as <-|].
  apply rbind_ok in E as (id & Ei & E). apply rbind_ok in E as (rest & Ere & [= <-]).
  destruct (IH _ _ _ Ere) as [E1 F]. simpl. rewrite E1. split; [done|]. constructor; [|done]. simpl. split; [done|].
  destruct id as [s|]; [|done]. unfold get in Ei.
  assert (startswith s "FODL-" = true) as Hs; [|by destruct s].
  unfold check_emit in Ei. destruct (default JNull _) as [| | | | |t| |] eqn:Eg; try done;
    try (by apply rbind_ok in Ei as (? & Ei & _); cbv zeta in Ei; guards in Ei; destruct Ei).
  apply rbind_ok in Ei as (s' & Ei & Ei'). guards in Ei'. destruct Ei' as [_ [= ->]].
  cbv zeta in Ei. guards in Ei. destruct Ei as (_ & Hs & Ei). do 2 apply rbind_ok in Ei as (? & _ & Ei).
  guards in Ei. by destruct Ei as (_ & _ & [= ->]).
Qed.

(** What the shadow uses of a parsed surface. *)
Lemma parsed_dispatch data rows : parse_dispatch_bytes data = Ok rows ->
  render (map jr_line rows) = data /\ map jr_ordinal rows = seq 0 (List.length rows)
  /\ Forall one_line (map jr_line rows)
  /\ Forall (fun r => jr_sha256 r = digest (jr_line r) /\ truthy (jr_source_key r) = true) rows.
Proof.
  intros (rs & (E1 & E2 & F)%jsonl_ok & (E3 & F')%dispatch_rows_ok)%rbind_ok.
  pose proof (f_equal (map fst) E3) as Ea. pose proof (f_equal (map snd) E3) as Eb. rewrite !map_map in Ea, Eb.
  assert (map jr_line rows = map (fun r => r.1.2) rs) as -> by exact Eb.
  assert (map jr_ordinal rows = map (fun r => r.1.1) rs) as -> by exact Ea. rewrite E2.
  apply (f_equal (@List.length _)) in E3. rewrite !length_map in E3. rewrite E3.
  repeat (split; [done|]). eapply Forall_impl; [exact F'|]. simpl. naive_solver.
Qed.
Lemma parsed_audit data rows : parse_fodl_audit_bytes data = Ok rows ->
  render (map fr_line rows) = data /\ map fr_ordinal rows = seq 0 (List.length rows)
  /\ Forall one_line (map fr_line rows)
  /\ Forall (fun r => fr_sha256 r = digest (fr_line r) /\ truthy (fr_source_key r) = true) rows.
Proof.
  intros (rs & (E1 & E2 & F)%jsonl_ok & (E3 & F')%fodl_rows_ok)%rbind_ok.
  pose proof (f_equal (map fst) E3) as Ea. pose proof (f_equal (map snd) E3) as Eb. rewrite !map_map in Ea, Eb.
  assert (map fr_line rows = map (fun r => r.1.2) rs) as -> by exact Eb.
  assert (map fr_ordinal rows = map (fun r => r.1.1) rs) as -> by exact Ea. rewrite E2.
  apply (f_equal (@List.length _)) in E3. rewrite !length_map in E3. rewrite E3.
  by repeat (split; [done|]).
Qed.

(** Nothing of a surface is lost in its rows: the rows of a surface that
    parses, in their order, spell its very bytes; they are numbered from 0,
    and each carries the digest of its line. *)
Theorem rows_are_the_surface data :
  (forall rows, parse_dispatch_bytes data = Ok rows ->
     render (map jr_line rows) = data /\ map jr_ordinal rows = seq 0 (List.length rows)
     /\ Forall (fun r => jr_sha256 r = digest (jr_line r)) rows)
  /\ (forall rows, parse_fodl_audit_bytes data = Ok rows ->
     render (map fr_line rows) = data /\ map fr_ordinal rows = seq 0 (List.length rows)
     /\ Forall (fun r => fr_sha256 r = digest (fr_line r)) rows).
Proof.
  split; intros rows E; [apply parsed_dispatch in E as (E1 & E2 & _ & F)|apply parsed_audit in E as (E1 & E2 & _ & F)];
    (split; [done|split; [done|]]); (eapply Forall_impl; [exact F|]); by intros r [? _].
Qed.
End facts.

(** ** A demonstration *)

Module RowsDemo.
(** Lines as a writer of the legacy files makes them. *)
Definition line_of (j : json) : string := match dump_bytes j with Ok s => s | Err _ => "" end.
Definition intent (id : json) (ty status subject : string) : json := JObj [
  ("intent_id", id); ("type", JStr ty); ("status", JStr status); ("owner", JStr "ccto"); ("subject", JStr subject);
  ("action", JStr "ship"); ("expected_artifact", JStr "report"); ("opened_ts_utc", JStr "2026-07-01T00:00:00Z");
  ("deadline_utc", JStr "2026-07-02T00:00:00+00:00")].
Definition emission (id : string) : json := JObj [
  ("ts", JStr "2026-07-01T00:00:00Z"); ("fodl_id", JStr id); ("originating_agent", JStr "ccmo");
  ("arbiter_consulted", JBool true); ("tier", JStr "A"); ("edg", JInt 2); ("time_sensitivity", JStr "low");
  ("if_no_decision_by", JNull); ("title_length", JInt 9); ("problem_statement_length", JInt 80)].

(** Two intents without an id share a legacy identity; the third has one. *)
Definition dispatch1 : bytes := render (map line_of
  [intent JNull "task_handoff" "pending" "audit"; intent JNull "task_handoff" "pending" "audit";
   intent (JStr "d-9") "fodl" "pending" "pricing"]).
Definition audit1 : bytes := render (map line_of [emission "FODL-1"; JObj [("note", JStr "opened")]]).

Example occurrences :
  match parse_dispatch_bytes dispatch1 with
  | Ok [a; b; c] => negb (jr_source_key a =? jr_source_key b)%string && (jr_identity a =? jr_identity b)%string
                    && (jr_line a =? jr_line b)%string && (jr_source_key c =? "d-9")%string
  | _ => false
  end = true.
Proof. vm_compute. reflexivity. Qed.

(** The parser's refusals: a torn line, a conflicting type, a deadline that
    is not after the opening, a duplicate id, an emission with another schema. *)
Example refused :
  [ match parse_dispatch_bytes (removelast dispatch1) with Err e => exn_msg e | Ok _ => "" end;
    match parse_dispatch_bytes (render [line_of (JObj [("intent_type", JStr "fodl"); ("type", JStr "task_handoff")])])
      with Err e => exn_msg e | Ok _ => "" end;
    match parse_dispatch_bytes (render (map line_of [intent (JStr "x") "fodl" "pending" "a"; intent (JStr "x") "fodl" "closed" "b"]))
      with Err e => exn_msg e | Ok _ => "" end;
    match parse_fodl_audit_bytes (render [line_of (JObj [("fodl_id", JStr "FODL-1")])])
      with Err e => exn_msg e | Ok _ => "" end ]
  = [ "dispatch intents has a torn trailing line"; "dispatch row 1 has an invalid or conflicting type";
      "dispatch row 2 duplicates explicit intent_id 'x'"; "FODL emit row 1 schema is not exact" ].
Proof. vm_compute. reflexivity. Qed.
End RowsDemo.

Import RowsDemo.

(** Both demonstration surfaces parse. *)
Lemma rows_are_the_surface_witness :
  match parse_dispatch_bytes dispatch1, parse_fodl_audit_bytes audit1 with
  | Ok rows, Ok audits => render (map jr_line rows) = dispatch1 /\ render (map fr_line audits) = audit1
  | _, _ => False
  end.
Proof.
  destruct (parse_dispatch_bytes dispatch1) as [rows|e] eqn:E; [|exfalso; vm_compute in E; discriminate].
  destruct (parse_fodl_audit_bytes audit1) as [audits|e] eqn:E'; [|exfalso; vm_compute in E'; discriminate].
  destruct (rows_are_the_surface dispatch1) as [D _]. destruct (rows_are_the_surface audit1) as [_ A].
  exact (conj (proj1 (D rows E)) (proj1 (A audits E'))).
Defined.
