(* ===== verification/KernelStore.v ===== *)
(** * The kernel's shared tables (fleet_kernel/ddl/001, 002, 003)

    The tables that the M5 modules write through several statements of one
    transaction: [approvals], [event_stream_heads], [events] and
    [kernel_outbox], with their primary keys and unique indexes. A statement
    takes the tables and returns them, or raises what the server raises: a
    [UniqueViolation] carries the name of the constraint, the only part of it
    the code reads. Rows of [events] and [kernel_outbox] are kept in the order
    of their insertion; columns no modelled statement reads are left out. *)
From S2P Require Import Prelude PyStr PyTime Json JsonText PyIO PyUuid.
From stdpp Require Import base gmap strings list.
From Stdlib Require Import ZArith NArith Lia Sorted Permutation.

Local Open Scope Z_scope.

Notation UniqueViolation := (OtherError "UniqueViolation").
Notation DataError := (OtherError "DataError").
Notation NumericValueOutOfRange := (OtherError "NumericValueOutOfRange").

(** ** Values in the database *)

(** What a [TEXT] column takes: the server has no NUL character. *)
Definition storable (s : string) : bool := negb (existsb nul (chars s)).
Definition texts_ok (l : list string) : res unit :=
  require forallb storable l else DataError, "PostgreSQL text fields cannot contain NUL (0x00) bytes" ;; Ok tt.

(** What the code relies on of a [JSONB] column: a value it takes comes back;
    an object of strings, integers, booleans and nulls with its entries, in an
    order of the server's own. Numbers with a fraction or an exponent may come
    back as other numbers, and a NUL character is refused. *)
Class Jsonb := {
  jsonb : json -> option json;
  jsonb_flat kvs j : forallb (fun kv => scalar kv.2) kvs = true -> jsonb (JObj kvs) = Some j ->
    exists kvs', j = JObj kvs' /\ Permutation kvs kvs';
}.
Definition to_jsonb `{Jsonb} (j : json) : res json :=
  match jsonb j with
  | Some v => Ok v
  | None => Err (Exn DataError "unsupported Unicode escape sequence")
  end.

(** A server that keeps every value as it is, NUL characters apart. *)
Fixpoint nul_free (j : json) : bool :=
  match j with
  | JStr s => storable s
  | JArr l => forallb nul_free l
  | JObj kvs => forallb (fun kv => storable kv.1 && nul_free kv.2) kvs
  | _ => true
  end.
Definition keeping_jsonb : Jsonb.
Proof.
  refine {| jsonb := fun j => if nul_free j then Some j else None |}.
  intros kvs j _. destruct (nul_free (JObj kvs)); [|discriminate]. intros [= <-]. by exists kvs.
Defined.

(** ** Tables with unique indexes *)

(** A constraint is its name and when two rows conflict; [on key] compares a
    key that is NULL ([None]) in the rows the index leaves out. *)
Definition constraint (A : Type) : Type := string * (A -> A -> bool).
Definition on {A K} `{EqDecision K} (key : A -> option K) (r r' : A) : bool :=
  match key r with Some k => bool_decide (key r' = Some k) | None => false end.

(** An INSERT; the indexes are tried in the order of their creation. *)
Definition insert_row {A} (cs : list (constraint A)) (row : A) (rows : list A) : res (list A) :=
  match List.find (fun c => existsb (c.2 row) rows) cs with
  | Some c => Err (Exn UniqueViolation c.1)
  | None => Ok (rows ++ [row])
  end.

Record approval := Approval {
  ap_tenant : string;
  ap_objective : uuid;
  ap_requested_by : string;
  ap_decision : string;
  ap_decided_by : option string;
  ap_requested_at : Z;
  ap_decided_at : option Z;
  ap_rationale : string;
}.
#[export] Instance approval_eq_dec : EqDecision approval.
Proof. solve_decision. Defined.

Record event := Event {
  ev_id : uuid;
  ev_tenant : string;
  ev_seq : Z;
  ev_type : string;
  ev_payload : json;
  ev_objective : option uuid;
  ev_run : option uuid;
}.
Record outbox := Outbox {
  ob_id : uuid;
  ob_tenant : string;
  ob_event : option uuid;
  ob_seq : option Z;
  ob_destination : option string;
  ob_adapter : string;
  ob_payload : json;
  ob_key : string;
}.

Definition event_constraints : list (constraint event) := [
  ("events_pkey", on (fun e => Some (ev_id e)));
  ("idx_events_tenant_seq", on (fun e => Some (ev_tenant e, ev_seq e)))].
Definition outbox_constraints : list (constraint outbox) := [
  ("kernel_outbox_pkey", on (fun o => Some (ob_id o)));
  ("kernel_outbox_tenant_id_idempotency_key_key", on (fun o => Some (ob_tenant o, ob_key o)));
  ("idx_kernel_outbox_event", on ob_event);
  ("idx_kernel_outbox_event_destination",
   on (fun o => match ob_seq o, ob_destination o with
                | Some s, Some d => Some (ob_tenant o, s, d) | _, _ => None end))].

(** [st_heads] maps a tenant to [next_seq] and [outbox_start_seq]; a time is
    its instant, as in a [TIMESTAMPTZ]. *)
Record store := Store {
  st_approvals : gmap uuid approval;
  st_heads : gmap string (Z * option Z);
  st_events : list event;
  st_outbox : list outbox;
}.

(** ** Statements *)

Definition int8_max : Z := 2 ^ 63 - 1.

(** The INSERT ... ON CONFLICT DO UPDATE ... RETURNING of both modules. *)
(* src: fleet_kernel/m5/approval_api.py _next_sequence *)
Definition next_sequence (s : store) (tenant : string) : res (Z * store) :=
  match st_heads s !! tenant with
  | None => Ok (1, Store (st_approvals s) (<[tenant := (2, Some 1)]> (st_heads s)) (st_events s) (st_outbox s))
  | Some (n, start) =>
      require n + 1 <=? int8_max else NumericValueOutOfRange, "bigint out of range" ;;
      Ok (n, Store (st_approvals s) (<[tenant := (n + 1, start)]> (st_heads s)) (st_events s) (st_outbox s))
  end.

Definition insert_event `{Jsonb} (s : store) (e : event) : res store :=
  let! payload := to_jsonb (ev_payload e) in
  let! rows := insert_row event_constraints
    (Event (ev_id e) (ev_tenant e) (ev_seq e) (ev_type e) payload (ev_objective e) (ev_run e)) (st_events s) in
  Ok (Store (st_approvals s) (st_heads s) rows (st_outbox s)).

Definition insert_outbox `{Jsonb} (s : store) (o : outbox) : res store :=
  let! _ := texts_ok [ob_adapter o; ob_key o] in
  let! payload := to_jsonb (ob_payload o) in
  let! rows := insert_row outbox_constraints
    (Outbox (ob_id o) (ob_tenant o) (ob_event o) (ob_seq o) (ob_destination o) (ob_adapter o) payload (ob_key o))
    (st_outbox s) in
  Ok (Store (st_approvals s) (st_heads s) (st_events s) rows).

Definition set_approval (s : store) (id : uuid) (a : approval) : store :=
  Store (<[id := a]> (st_approvals s)) (st_heads s) (st_events s) (st_outbox s).

(** [WHERE tenant_id = %s AND id = %s]. *)
Definition approval_of (s : store) (tenant : string) (id : uuid) : option approval :=
  match st_approvals s !! id with
  | Some a => if (ap_tenant a =? tenant)%string then Some a else None
  | None => None
  end.

(** ** Lemmas *)

Lemma insert_row_ok {A} (cs : list (constraint A)) row rows rows' :
  insert_row cs row rows = Ok rows' ->
  rows' = rows ++ [row] /\ forall c r, c ∈ cs -> r ∈ rows -> c.2 row r = false.
Proof.
  unfold insert_row. 
  match goal with |- context [List.find ?f cs] => destruct (List.find f cs) as [c|] eqn:F end; [discriminate|].
  intros [= <-]. split; [done|].
  intros c r Hc Hr. apply list_elem_of_In in Hc. pose proof (List.find_none _ _ F _ Hc) as N. simpl in N.
  destruct (c.2 row r) eqn:E; [|done]. assert (existsb (c.2 row) rows = true) as T; [|congruence].
  apply existsb_exists. exists r. split; [by apply list_elem_of_In|done].
Qed.

Lemma approval_of_Some s t i a :
  approval_of s t i = Some a <-> st_approvals s !! i = Some a /\ ap_tenant a = t.
Proof.
  unfold approval_of. destruct (st_approvals s !! i) as [x|]; [|naive_solver].
  destruct (String.eqb_spec (ap_tenant x) t); naive_solver.
Qed.

Lemma find_app {A} (f : A -> bool) l k :
  List.find f (l ++ k) = match List.find f l with Some x => Some x | None => List.find f k end.
Proof. induction l as [|x l IH]; simpl; [done|]. by destruct (f x). Qed.

(** [unique key rows]: the rows the index keeps have distinct keys. *)
Definition unique {A K} (key : A -> option K) (rows : list A) : Prop := NoDup (omap key rows).

Lemma unique_insert {A K} `{EqDecision K} (cs : list (constraint A)) name (key : A -> option K) row rows rows' :
  insert_row cs row rows = Ok rows' -> (name, on key) ∈ cs -> unique key rows -> unique key rows'.
Proof.
  intros [-> F]%insert_row_ok Hc U. unfold unique. rewrite omap_app. simpl.
  destruct (key row) as [k|] eqn:Ek; [|by rewrite app_nil_r].
  apply NoDup_app. split; [done|]. split; [|apply NoDup_singleton].
  intros k' (r & Hr & Er)%list_elem_of_omap ->%list_elem_of_singleton.
  specialize (F _ r Hc Hr). simpl in F. unfold on in F. rewrite Ek in F.
  by apply bool_decide_eq_false in F.
Qed.

Lemma unique_eq {A K} (key : A -> option K) rows r r' k :
  unique key rows -> r ∈ rows -> r' ∈ rows -> key r = Some k -> key r' = Some k -> r = r'.
Proof.
  unfold unique. induction rows as [|x rows IH]; intros U Hr Hr' E E'; [by apply elem_of_nil in Hr|].
  assert (forall z, z ∈ rows -> key z = Some k -> key x = Some k -> False) as Fresh.
  { intros z Hz Ez Ex. simpl in U. rewrite Ex in U. apply NoDup_cons in U as [N _]. apply N.
    apply list_elem_of_omap. by exists z. }
  apply elem_of_cons in Hr as [->|Hr], Hr' as [->|Hr']; [done| | |].
  - destruct (Fresh r' Hr' E' E).
  - destruct (Fresh r Hr E E').
  - apply IH; try done. simpl in U. destruct (key x); [by apply NoDup_cons in U as [_ U]|done].
Qed.

Definition next_of (s : store) (tenant : string) : Z :=
  match st_heads s !! tenant with Some (n, _) => n | None => 1 end.

Lemma next_sequence_ok s t n s' :
  next_sequence s t = Ok (n, s') ->
  n = next_of s t /\ next_of s' t = n + 1 /\ (forall t', t' <> t -> next_of s' t' = next_of s t')
  /\ st_approvals s' = st_approvals s /\ st_events s' = st_events s /\ st_outbox s' = st_outbox s.
Proof.
  unfold next_sequence, next_of. destruct (st_heads s !! t) as [[m o]|].
  - intros [_ [= <- <-]]%require_ok. simpl. rewrite lookup_insert_eq. repeat split; try done.
    intros t' Ht. by rewrite lookup_insert_ne.
  - intros [= <- <-]. simpl. rewrite lookup_insert_eq. repeat split; try done.
    intros t' Ht. by rewrite lookup_insert_ne.
Qed.

(** ** The stream of a tenant

    Every event of a tenant has a number below the tenant's head, and events
    were appended in the order of their numbers: what the code calls the
    authoritative sequence. *)
Definition of_tenant (t : string) (e : event) : bool := (ev_tenant e =? t)%string.
Definition stream (s : store) (t : string) : list event := List.filter (of_tenant t) (st_events s).
Definition stream_wf (s : store) : Prop := forall t,
  1 <= next_of s t /\ StronglySorted Z.lt (map ev_seq (stream s t))
  /\ Forall (fun e => 1 <= ev_seq e < next_of s t) (stream s t).

Lemma StronglySorted_snoc (l : list Z) x :
  StronglySorted Z.lt l -> Forall (fun y => y < x) l -> StronglySorted Z.lt (l ++ [x]).
Proof.
  induction l as [|y l IH]; intros S F; simpl; [by repeat constructor|].
  apply StronglySorted_inv in S as [S Fy]. apply Forall_cons in F as [Hy F]. constructor; [by apply IH|].
  apply List.Forall_app. split; [done|by constructor].
Qed.

Lemma stream_wf_append s s1 s' t n e :
  stream_wf s -> next_sequence s t = Ok (n, s1) -> ev_tenant e = t -> ev_seq e = n ->
  st_heads s' = st_heads s1 -> st_events s' = st_events s ++ [e] -> stream_wf s'.
Proof.
  intros W N Et En Hh He t'. apply next_sequence_ok in N as (-> & N1 & N2 & _).
  assert (next_of s' t' = next_of s1 t') as -> by (unfold next_of; by rewrite Hh).
  unfold stream. rewrite He, List.filter_app. simpl. unfold of_tenant at 2 4. rewrite Et.
  destruct (W t') as (Hp & S & F). destruct (String.eqb_spec t t') as [<-|Ne].
  - rewrite N1. split; [lia|]. rewrite map_app. split.
    + apply StronglySorted_snoc; [done|]. apply List.Forall_map. eapply Forall_impl; [exact F|]. simpl. lia.
    + apply Forall_app. split; [eapply Forall_impl; [exact F|]; simpl; lia|]. repeat constructor; lia.
  - rewrite app_nil_r, N2 by done. done.
Qed.
