(* ===== verification/Approvals.v ===== *)
(** * Approvals (fleet_kernel/m5/approval_api.py)

    One pending approval is decided once, under an authority that was verified
    for that very request, and an approved one is consumed once, by enqueueing
    one effect. The tables are lists in the order of insertion, over the
    shared [store].

    A call reads in several statements and writes in one transaction. Under
    READ COMMITTED a statement sees some state committed before it; the calls
    below take these states as arguments ([views]). The row of the approval
    and its decision or consumption are read under the advisory lock and the
    row lock that the writers of these rows take, so they are those of the
    state the transaction commits to ([db]). A call that raises leaves [db] as
    it was. What the database computes from its own keys and checks in its
    trigger for a mandated step ([fleet_kernel/ddl/024]) is a class: it may
    refuse, and writes nothing. [record_activation_step_receipt] only calls
    such a function, and is left out. *)
From S2P Require Import Prelude PyStr PyFloat PyTime Json Sha256 PyIO JsonText PyValue PyUuid Configuration FounderAuthority KernelStore.
From stdpp Require Import base gmap strings list relations.
From Stdlib Require Import ZArith NArith Lia Sorted Permutation.

Local Open Scope Z_scope.

(* src: fleet_kernel/m5/dispatch_approval_migration.py DispatchApprovalMigrationError *)
Definition DispatchApprovalMigrationError : exc_class := OtherError "DispatchApprovalMigrationError".
Definition refuse {A} (msg : string) : res A := Err (Exn DispatchApprovalMigrationError msg).

(* src: fleet_kernel/m5/approval_api.py _ID_NAMESPACE *)
Definition ID_NAMESPACE : uuid := 89311440977543799728467585848904887784%N.
(* src: fleet_kernel/m5/approval_api.py DECISIONS *)
Definition DECISIONS : list string := ["approved"; "denied"].
(* src: fleet_kernel/m5/approval_api.py AUTHORITY_KINDS *)
Definition AUTHORITY_KINDS : list string := ["founder_direct"; "signed_conveyance"; "authenticated_operator"].

(* src: fleet_kernel/m5/approval_api.py AuthorityRequest *)
Record AuthorityRequest := {
  rq_tenant_id : string;
  rq_approval_id : uuid;
  rq_decision_key : string;
  rq_decision : string;
  rq_decided_by : string;
  rq_authority_kind : string;
  rq_authority_ref : string;
  rq_rationale : string;
}.
#[export] Instance AuthorityRequest_eq_dec : EqDecision AuthorityRequest.
Proof. solve_decision. Defined.

(** What the verifier returns is any value; only [True] counts. *)
(* src: fleet_kernel/m5/approval_api.py AuthorityVerifier *)
Definition AuthorityVerifier : Type := AuthorityRequest -> res json.

(** The columns of a mandated decision, all NULL or none. *)
Record mandated := {
  mn_mandate_id : string;
  mn_artifact_sha256 : string;
  mn_activation_step : string;
  mn_activation_step_key : string;
  mn_authority_subject_ref : string;
  mn_authority_subject_sha256 : string;
}.
#[export] Instance mandated_eq_dec : EqDecision mandated.
Proof. solve_decision. Defined.

(** A decision is the request it answers, its time, its event and outbox row,
    and the mandate it was taken under. *)
(* src: fleet_kernel/m5/approval_api.py DecisionResult *)
Record DecisionResult := {
  dr_request : AuthorityRequest;
  dr_decided_at : Z;
  dr_event_id : uuid;
  dr_outbox_id : uuid;
  dr_mandate : option mandated;
}.
#[export] Instance DecisionResult_eq_dec : EqDecision DecisionResult.
Proof. solve_decision. Defined.

(* src: fleet_kernel/m5/approval_api.py ConsumptionResult *)
Record ConsumptionResult := {
  cr_tenant_id : string;
  cr_approval_id : uuid;
  cr_consume_key : string;
  cr_consumer : string;
  cr_effect_adapter : string;
  cr_effect_payload : json;
  cr_consumed_at : Z;
  cr_event_id : uuid;
  cr_outbox_id : uuid;
}.

Record mandate_row := {
  mr_mandate_id : string;
  mr_artifact_sha256 : string;
  mr_artifact_bytes : string;
  mr_artifact : json;
  mr_issued_at : Z;
  mr_status : string;
  mr_verified_by : string;
  mr_mac : string;
}.

(** A row of [m5_approval_decisions]: what [_decision_result] reads, and what
    only the database does (subject payload, verifier, MAC). *)
Record decision_row := DecisionRow { d_result : DecisionResult; d_attestation : option (json * string * string) }.

Record m5 := M5 {
  m_store : store;
  m_decisions : list decision_row;
  m_consumptions : list ConsumptionResult;
  m_mandates : list mandate_row;
}.

(** ** Ids, readers *)

(* src: fleet_kernel/m5/approval_api.py _id *)
Definition id_ (parts : list string) : uuid := uuid5 ID_NAMESPACE (PyStr.join (of_chars [chr 31]) parts).

(* src: fleet_kernel/m5/approval_api.py _required *)
Definition required_ (value : json) (field : string) : res string :=
  match value with
  | JStr s => require nonblank s else DispatchApprovalMigrationError, (field +:+ " is required") ;; Ok (strip s)
  | _ => refuse (field +:+ " is required")
  end.

(* src: fleet_kernel/m5/approval_api.py _aware *)
Definition aware_ (now : datetime) (value : option datetime) (field : string) : res datetime :=
  let result := default now value in
  require aware result else DispatchApprovalMigrationError, (field +:+ " must be timezone-aware") ;;
  Ok result.

(** [value in frozenset_of_strings]. *)
Definition member (value : json) (set : list string) : res (option string) :=
  match value with
  | JArr _ => Err (Exn TypeError "unhashable type: 'list'")
  | JObj _ => Err (Exn TypeError "unhashable type: 'dict'")
  | JStr s => Ok (if existsb (String.eqb s) set then Some s else None)
  | _ => Ok None
  end.
Definition member_or (value : json) (set : list string) (msg : string) : res string :=
  let! m := member value set in
  match m with Some s => Ok s | None => refuse msg end.

(** ** Indexes (fleet_kernel/ddl/005 and 024) *)

Definition d_req (r : decision_row) : AuthorityRequest := dr_request (d_result r).
Definition d_mandate (r : decision_row) : option mandated := dr_mandate (d_result r).

Definition decision_constraints : list (constraint decision_row) := [
  ("m5_approval_decisions_pkey", on (fun r => Some (rq_tenant_id (d_req r), rq_approval_id (d_req r))));
  ("m5_approval_decisions_tenant_id_decision_key_key",
   on (fun r => Some (rq_tenant_id (d_req r), rq_decision_key (d_req r))));
  ("m5_approval_decisions_event_id_key", on (fun r => Some (dr_event_id (d_result r))));
  ("m5_approval_decisions_outbox_id_key", on (fun r => Some (dr_outbox_id (d_result r))));
  ("idx_m5_signed_conveyance_consume_once",
   on (fun r => if (rq_authority_kind (d_req r) =? "signed_conveyance")%string
                then Some (rq_tenant_id (d_req r), rq_authority_ref (d_req r)) else None));
  ("idx_m5_mandate_step_attempt_global",
   on (fun r => (fun m => (mn_mandate_id m, mn_activation_step_key m)) <$> d_mandate r));
  ("idx_m5_mandate_subject_global",
   on (fun r => (fun m => (mn_mandate_id m, mn_authority_subject_ref m)) <$> d_mandate r))].

Definition consumption_constraints : list (constraint ConsumptionResult) := [
  ("m5_approval_consumptions_pkey", on (fun c => Some (cr_tenant_id c, cr_approval_id c)));
  ("m5_approval_consumptions_tenant_id_consume_key_key", on (fun c => Some (cr_tenant_id c, cr_consume_key c)));
  ("m5_approval_consumptions_event_id_key", on (fun c => Some (cr_event_id c)));
  ("m5_approval_consumptions_outbox_id_key", on (fun c => Some (cr_outbox_id c)))].

Definition mandate_constraints : list (constraint mandate_row) := [
  ("kernel_founder_activation_mandates_pkey", on (fun r => Some (mr_mandate_id r)));
  ("kernel_founder_activation_mandates_artifact_sha256_key", on (fun r => Some (mr_artifact_sha256 r)))].

(** What the functions and triggers of [ddl/024] answer, from keys and tables
    of their own; a MAC comes with the session's user. *)
Class MandateAuthority := {
  founder_mandate_mac : Mandate -> res (string * string);
  mandated_step_mac : m5 -> DecisionResult -> json -> res (string * string);
  require_mandated_step : m5 -> DecisionResult -> json -> res unit;
  mandate_guard : m5 -> mandate_row -> res unit;
  mandated_guard : m5 -> decision_row -> res unit;
}.

(** The SELECTs of decisions and consumptions. *)
Definition decision_of (db : m5) (tenant : string) (id : uuid) : option DecisionResult :=
  d_result <$> List.find (fun r => (rq_tenant_id (d_req r) =? tenant)%string
                                   && (rq_approval_id (d_req r) =? id)%N) (m_decisions db).
Definition consumption_of (db : m5) (tenant : string) (id : uuid) : option ConsumptionResult :=
  List.find (fun c => (cr_tenant_id c =? tenant)%string && (cr_approval_id c =? id)%N) (m_consumptions db).
Definition mandate_of (db : m5) (id : string) : option mandate_row :=
  List.find (fun r => (mr_mandate_id r =? id)%string) (m_mandates db).

(** [except psycopg.errors.UniqueViolation], by the constraint's name. *)
Definition on_unique {A} (message : string -> string) (m : res A) : res A :=
  match m with
  | Err e => if bool_decide (exn_class e = UniqueViolation) then refuse (message (exn_msg e)) else Err e
  | Ok x => Ok x
  end.
(** A transaction that raises is rolled back. *)
Definition transaction {A} (db : m5) (m : res (A * m5)) : res A * m5 :=
  match m with Ok (x, db') => (Ok x, db') | Err e => (Err e, db) end.

Section calls.
  Context `{Jsonb} `{Digest} `{IsoTime}.

(** ** Appending *)

(* src: fleet_kernel/m5/approval_api.py _append_event_and_outbox *)
Definition append_event_and_outbox (s : store) (tenant_id : string) (approval_id event_id outbox_id : uuid)
    (event_type : string) (event_payload : json) (destination adapter : string) (effect_payload : json)
    (idempotency_key : string) : res store :=
  let! (sequence, s) := next_sequence s tenant_id in
  let! s := match approval_of s tenant_id approval_id with
            | Some a => insert_event s (Event event_id tenant_id sequence event_type event_payload
                                          (Some (ap_objective a)) None)
            | None => Ok s
            end in
  insert_outbox s (Outbox outbox_id tenant_id (Some event_id) (Some sequence) (Some destination) adapter
                     effect_payload idempotency_key).

Definition decided (a : approval) (decision decided_by rationale : string) (at_time : Z) : approval :=
  Approval (ap_tenant a) (ap_objective a) (ap_requested_by a) decision (Some decided_by) (ap_requested_at a)
    (Some at_time) rationale.

Definition insert_decision `{MandateAuthority} (db : m5) (r : decision_row) : res m5 :=
  let! _ := match d_mandate r with None => Ok tt | Some _ => mandated_guard db r end in
  let! rows := insert_row decision_constraints r (m_decisions db) in
  Ok (M5 (m_store db) rows (m_consumptions db) (m_mandates db)).

Definition with_store (db : m5) (s : store) : m5 := M5 s (m_decisions db) (m_consumptions db) (m_mandates db).

(** ** decide_approval *)

Record decide_args := {
  da_tenant_id : json;
  da_approval_id : uuid;
  da_decision_key : json;
  da_decision : json;
  da_decided_by : json;
  da_authority_kind : json;
  da_authority_ref : json;
  da_rationale : json;
  da_authority_verifier : option AuthorityVerifier;
  da_decided_at : option datetime;
}.

(** The validation, up to the request the verifier is asked about. *)
(* src: fleet_kernel/m5/approval_api.py decide_approval@7-21 *)
Definition decide_request (now : datetime) (a : decide_args) : res (AuthorityRequest * AuthorityVerifier * datetime) :=
  let! tenant := required_ (da_tenant_id a) "tenant_id" in
  let! key := required_ (da_decision_key a) "decision_key" in
  let! actor := required_ (da_decided_by a) "decided_by" in
  let! reference := required_ (da_authority_ref a) "authority_ref" in
  let! reason := required_ (da_rationale a) "rationale" in
  let! decision := member_or (da_decision a) DECISIONS "decision must be approved or denied" in
  let! kind := member_or (da_authority_kind a) AUTHORITY_KINDS "authority_kind is invalid" in
  match da_authority_verifier a with
  | None => refuse "authority_verifier is required"
  | Some verifier =>
      let! requested_time := aware_ now (da_decided_at a) "decided_at" in
      Ok ({| rq_tenant_id := tenant; rq_approval_id := da_approval_id a; rq_decision_key := key;
             rq_decision := decision; rq_decided_by := actor; rq_authority_kind := kind;
             rq_authority_ref := reference; rq_rationale := reason |}, verifier, requested_time)
  end.

Definition decision_event_id (r : AuthorityRequest) : uuid :=
  id_ [rq_tenant_id r; uuid_str (rq_approval_id r); "decision"; rq_decision_key r; "event"].
Definition decision_outbox_id (r : AuthorityRequest) : uuid :=
  id_ [rq_tenant_id r; uuid_str (rq_approval_id r); "decision"; rq_decision_key r; "outbox"].

(** The decision a call asks for. *)
Definition requested (r : AuthorityRequest) (time : datetime) (m : option mandated) : DecisionResult :=
  {| dr_request := r; dr_decided_at := instant time; dr_event_id := decision_event_id r;
     dr_outbox_id := decision_outbox_id r; dr_mandate := m |}.

(** Everything compared but tenant, approval and time. *)
Definition compared (d : DecisionResult) :=
  let r := dr_request d in
  (rq_decision_key r, rq_decision r, rq_decided_by r, rq_authority_kind r, rq_authority_ref r, rq_rationale r,
   dr_event_id d, dr_outbox_id d).

(* src: fleet_kernel/m5/approval_api.py _same_decision *)
Definition same_decision (result wanted : DecisionResult) (time_was_explicit : bool) : bool :=
  bool_decide (compared result = compared wanted)
  && (negb time_was_explicit || (dr_decided_at result =? dr_decided_at wanted))
  && bool_decide (dr_mandate result = None).

(* src: fleet_kernel/m5/approval_api.py _same_mandated_decision *)
Definition same_mandated_decision (result wanted : DecisionResult) (time_was_explicit : bool) : bool :=
  bool_decide (compared result = compared wanted) && bool_decide (dr_mandate result = dr_mandate wanted)
  && (negb time_was_explicit || (dr_decided_at result =? dr_decided_at wanted)).

Definition replayed (same : bool) (result : DecisionResult) : res DecisionResult :=
  if same then Ok result else refuse "approval already has a different decision".

(** The replay and existence check before the verifier runs; the two SELECTs
    may see different states. *)
(* src: fleet_kernel/m5/approval_api.py decide_approval@22-49 *)
Definition decide_preflight (v_approval v_decision : m5) (wanted : DecisionResult) (explicit : bool)
    : res (option DecisionResult) :=
  let r := dr_request wanted in
  let! _ := texts_ok [rq_tenant_id r] in
  match approval_of (m_store v_approval) (rq_tenant_id r) (rq_approval_id r) with
  | None => refuse "approval does not exist in tenant"
  | Some a =>
      match decision_of v_decision (rq_tenant_id r) (rq_approval_id r) with
      | Some result => let! x := replayed (same_decision result wanted explicit) result in Ok (Some x)
      | None =>
          require (ap_decision a =? "pending")%string
            else DispatchApprovalMigrationError, "approval decision state lacks an audit record" ;;
          Ok None
      end
  end.

(* src: fleet_kernel/m5/approval_api.py decide_approval@50-55 *)
Definition verify_authority (verifier : AuthorityVerifier) (r : AuthorityRequest) : res unit :=
  match verifier r with
  | Err _ => refuse "human authority verification failed"
  | Ok (JBool true) => Ok tt
  | Ok _ => refuse "human authority was not verified"
  end.

(* src: fleet_kernel/m5/approval_api.py decide_approval@110-115 *)
Definition decision_payload (r : AuthorityRequest) (time : datetime) : json := JObj [
  ("approval_id", JStr (uuid_str (rq_approval_id r))); ("decision_key", JStr (rq_decision_key r));
  ("decision", JStr (rq_decision r)); ("decided_by", JStr (rq_decided_by r));
  ("authority_kind", JStr (rq_authority_kind r)); ("authority_ref", JStr (rq_authority_ref r));
  ("rationale", JStr (rq_rationale r)); ("decided_at", JStr (isoformat time))].

(** The writes: the approval's row, event and outbox row, the decision. *)
(* src: fleet_kernel/m5/approval_api.py decide_approval@105-131 *)
Definition write_decision `{MandateAuthority} (db : m5) (a : approval) (wanted : DecisionResult) (payload : json)
    (attestation : option (json * string * string)) : res m5 :=
  let r := dr_request wanted in
  let! _ := texts_ok [rq_decided_by r; rq_rationale r] in
  let s := set_approval (m_store db) (rq_approval_id r)
             (decided a (rq_decision r) (rq_decided_by r) (rq_rationale r) (dr_decided_at wanted)) in
  let! s := append_event_and_outbox s (rq_tenant_id r) (rq_approval_id r) (dr_event_id wanted) (dr_outbox_id wanted)
              "approval.decided" payload "m5-approval:audit" "m5-approval:audit" payload
              ("m5-approval-decision:" +:+ rq_decision_key r) in
  insert_decision (with_store db s) (DecisionRow wanted attestation).

(** Who already holds the key, the conveyance. *)
Definition key_owned (v : m5) (r : AuthorityRequest) : bool :=
  existsb (fun d => (rq_tenant_id (d_req d) =? rq_tenant_id r)%string
                    && (rq_decision_key (d_req d) =? rq_decision_key r)%string) (m_decisions v).
Definition conveyance_owned (v : m5) (r : AuthorityRequest) : bool :=
  existsb (fun d => (rq_tenant_id (d_req d) =? rq_tenant_id r)%string
                    && (rq_authority_kind (d_req d) =? "signed_conveyance")%string
                    && (rq_authority_ref (d_req d) =? rq_authority_ref r)%string) (m_decisions v).

(* src: fleet_kernel/m5/approval_api.py decide_approval@57-131 *)
Definition decide_txn `{MandateAuthority} (v_key v_authority db : m5) (wanted : DecisionResult) (time : datetime)
    (explicit : bool) : res (DecisionResult * m5) :=
  let r := dr_request wanted in
  match approval_of (m_store db) (rq_tenant_id r) (rq_approval_id r) with
  | None => refuse "approval does not exist in tenant"
  | Some a =>
      match decision_of db (rq_tenant_id r) (rq_approval_id r) with
      | Some result => let! x := replayed (same_decision result wanted explicit) result in Ok (x, db)
      | None =>
          let! _ := texts_ok [rq_decision_key r] in
          raise_if key_owned v_key r
            with DispatchApprovalMigrationError,
                 "decision_key already belongs to another approval (idempotency collision)" ;;
          let! _ := if (rq_authority_kind r =? "signed_conveyance")%string then texts_ok [rq_authority_ref r]
                    else Ok tt in
          raise_if (rq_authority_kind r =? "signed_conveyance")%string && conveyance_owned v_authority r
            with DispatchApprovalMigrationError, "signed conveyance was already consumed by another approval" ;;
          require (ap_decision a =? "pending")%string
            else DispatchApprovalMigrationError, "approval decision state lacks an audit record" ;;
          let! db' := write_decision db a wanted (decision_payload r time) None in
          Ok (wanted, db')
      end
  end.

(* src: fleet_kernel/m5/approval_api.py decide_approval@132-140 *)
Definition decide_collision (constraint : string) : string :=
  if contains "signed_conveyance" constraint then "signed conveyance was already consumed by another approval"
  else if contains "decision_key" constraint
       then "decision_key already belongs to another approval (idempotency collision)"
       else "approval decision transaction hit an idempotency collision".

(** The states the statements outside the locks see. *)
Record views := Views { v_1 : m5; v_2 : m5; v_3 : m5; v_4 : m5 }.

(* src: fleet_kernel/m5/approval_api.py decide_approval *)
Definition decide_approval `{MandateAuthority} (v : views) (db : m5) (now : datetime) (a : decide_args)
    : res DecisionResult * m5 :=
  let explicit := bool_decide (is_Some (da_decided_at a)) in
  transaction db (
    let! (r, verifier, time) := decide_request now a in
    let wanted := requested r time None in
    let! early := decide_preflight (v_1 v) (v_2 v) wanted explicit in
    match early with
    | Some result => Ok (result, db)
    | None =>
        let! _ := verify_authority verifier r in
        on_unique decide_collision (decide_txn (v_3 v) (v_4 v) db wanted time explicit)
    end).

(** ** Standing mandates *)

(** The three classes of mandates; none is a subclass of another. *)
Inductive mandate_class := Founder | Phase4 | Utility.
#[export] Instance mandate_class_eq_dec : EqDecision mandate_class.
Proof. solve_decision. Defined.

Section mandates.
  Context `{JsonLimits} `{MandateAuthority}.
  Variable cfg : configuration.
  (** [astimezone] of a naive datetime, in the host's zone. *)
  Variable local : datetime -> res datetime.

(** The stored mandate differs; [or] stops at the first difference. *)
(* src: fleet_kernel/m5/approval_api.py _persist_founder_activation_mandate@15-21 *)
Definition mandate_differs (existing : mandate_row) (m : Mandate) : res bool :=
  if negb (mr_artifact_sha256 existing =? md_artifact_sha256 m)%string
     || negb (mr_artifact_bytes existing =? md_artifact_bytes m)%string
     || negb (py_eq (mr_artifact existing) (JObj (md_artifact m))) then Ok true
  else let! issued := issued_at local m in
       Ok (negb (mr_issued_at existing =? instant issued) || negb (mr_status existing =? "active")%string).

(* src: fleet_kernel/m5/approval_api.py _persist_founder_activation_mandate *)
Definition persist_founder_activation_mandate (db : m5) (m : Mandate) : res mandate_row * m5 :=
  transaction db (
    match mandate_of db (md_mandate_id m) with
    | Some existing =>
        let! differs := mandate_differs existing m in
        raise_if differs with DispatchApprovalMigrationError, "founder activation mandate already differs" ;;
        Ok (existing, db)
    | None =>
        let! issued := issued_at local m in
        let! (mac, verified_by) := founder_mandate_mac m in
        let! artifact := to_jsonb (JObj (md_artifact m)) in
        let row := {| mr_mandate_id := md_mandate_id m; mr_artifact_sha256 := md_artifact_sha256 m;
                      mr_artifact_bytes := md_artifact_bytes m; mr_artifact := artifact;
                      mr_issued_at := instant issued; mr_status := "active";
                      mr_verified_by := verified_by; mr_mac := mac |} in
        let! _ := mandate_guard db row in
        let! rows := insert_row mandate_constraints row (m_mandates db) in
        Ok (row, M5 (m_store db) (m_decisions db) (m_consumptions db) rows)
    end).

(** [register_founder_activation_mandate] and its two siblings; [class] is the
    class of the object passed. *)
Definition register (expected class : mandate_class) (wrong_class : string) (recordable : Mandate -> res unit)
    (db : m5) (m : Mandate) : res mandate_row * m5 :=
  if negb (bool_decide (class = expected)) then (refuse wrong_class, db)
  else match recordable m with
       | Err e => (Err e, db)
       | Ok _ => persist_founder_activation_mandate db m
       end.
(* src: fleet_kernel/m5/approval_api.py register_founder_activation_mandate *)
Definition register_founder_activation_mandate (db : m5) (class : mandate_class) (m : Mandate) :=
  register Founder class "activation mandate must be a verified FounderActivationMandate" (fun _ => Ok tt) db m.
(* src: fleet_kernel/m5/approval_api.py register_phase4_founder_activation_mandate *)
Definition register_phase4_founder_activation_mandate (db : m5) (class : mandate_class) (m : Mandate) :=
  register Phase4 class "Phase-4 activation mandate must be a verified Phase4FounderActivationMandate"
    (phase4_require_recordable cfg) db m.
(* src: fleet_kernel/m5/approval_api.py register_utility_founder_activation_mandate *)
Definition register_utility_founder_activation_mandate (db : m5) (class : mandate_class) (m : Mandate) :=
  register Utility class "Utility activation mandate must be a verified UtilityFounderActivationMandate"
    (utility_require_recordable cfg) db m.

(** ** decide_mandated_activation_step *)

Definition step_mandate (m : Mandate) (s : ActivationStepSubject) : mandated :=
  {| mn_mandate_id := md_mandate_id m; mn_artifact_sha256 := md_artifact_sha256 m;
     mn_activation_step := step_value (as_step s); mn_activation_step_key := as_attempt_key s;
     mn_authority_subject_ref := subject_ref s; mn_authority_subject_sha256 := subject_sha256 s |}.

(** The decision a step under a mandate asks for. *)
(* src: fleet_kernel/m5/approval_api.py _same_mandated_decision@21-26 *)
Definition mandated_request (m : Mandate) (s : ActivationStepSubject) (approval_id : uuid) (key reason : string)
    (time : datetime) : DecisionResult :=
  requested
    {| rq_tenant_id := as_tenant_id s; rq_approval_id := approval_id; rq_decision_key := key;
       rq_decision := "approved"; rq_decided_by := "founder"; rq_authority_kind := "founder_direct";
       rq_authority_ref := authority_ref m; rq_rationale := reason |} time
    (Some (step_mandate m s)).

(* src: fleet_kernel/m5/approval_api.py decide_mandated_activation_step@40-49 *)
Definition standing (v : m5) (m : Mandate) : bool :=
  match mandate_of v (md_mandate_id m) with
  | None => false
  | Some row =>
      (mr_status row =? "active")%string && (mr_artifact_sha256 row =? md_artifact_sha256 m)%string
      && (mr_artifact_bytes row =? md_artifact_bytes m)%string && py_eq (mr_artifact row) (JObj (md_artifact m))
  end.

(* src: fleet_kernel/m5/approval_api.py decide_mandated_activation_step@120-132 *)
Definition mandated_payload (wanted : DecisionResult) (mn : mandated) (time : datetime) : json :=
  let r := dr_request wanted in JObj [
  ("approval_id", JStr (uuid_str (rq_approval_id r))); ("decision_key", JStr (rq_decision_key r));
  ("decision", JStr "approved"); ("decided_by", JStr "founder"); ("authority_kind", JStr "founder_direct");
  ("authority_ref", JStr (rq_authority_ref r)); ("mandate_id", JStr (mn_mandate_id mn));
  ("mandate_artifact_sha256", JStr (mn_artifact_sha256 mn)); ("activation_step", JStr (mn_activation_step mn));
  ("activation_step_key", JStr (mn_activation_step_key mn));
  ("authority_subject_ref", JStr (mn_authority_subject_ref mn));
  ("authority_subject_sha256", JStr (mn_authority_subject_sha256 mn));
  ("rationale", JStr (rq_rationale r)); ("decided_at", JStr (isoformat time))].

(* src: fleet_kernel/m5/approval_api.py decide_mandated_activation_step@25-66 *)
Definition mandated_preflight (v : views) (m : Mandate) (wanted : DecisionResult) (explicit : bool)
    : res (option DecisionResult) :=
  let r := dr_request wanted in
  require standing (v_3 v) m
    else DispatchApprovalMigrationError, "standing founder activation mandate is absent or changed" ;;
  match approval_of (m_store (v_1 v)) (rq_tenant_id r) (rq_approval_id r) with
  | None => refuse "approval does not exist in tenant"
  | Some a =>
      match decision_of (v_2 v) (rq_tenant_id r) (rq_approval_id r) with
      | Some result => let! x := replayed (same_mandated_decision result wanted explicit) result in Ok (Some x)
      | None =>
          require (ap_decision a =? "pending")%string
            else DispatchApprovalMigrationError, "approval decision state lacks an audit record" ;;
          Ok None
      end
  end.

(* src: fleet_kernel/m5/approval_api.py decide_mandated_activation_step@67-159 *)
Definition mandated_txn (db : m5) (wanted : DecisionResult) (mn : mandated) (subject : json) (time : datetime)
    (explicit : bool) : res (DecisionResult * m5) :=
  let r := dr_request wanted in
  match decision_of db (rq_tenant_id r) (rq_approval_id r) with
  | Some result => let! x := replayed (same_mandated_decision result wanted explicit) result in Ok (x, db)
  | None =>
      match approval_of (m_store db) (rq_tenant_id r) (rq_approval_id r) with
      | Some a =>
          require (ap_decision a =? "pending")%string
            else DispatchApprovalMigrationError, "approval decision state lacks a pending row" ;;
          let! (mac, verified_by) := mandated_step_mac db wanted subject in
          let! payload := to_jsonb subject in
          let! db' := write_decision db a wanted (mandated_payload wanted mn time) (Some (payload, verified_by, mac)) in
          Ok (wanted, db')
      | None => refuse "approval decision state lacks a pending row"
      end
  end.

(* src: fleet_kernel/m5/approval_api.py decide_mandated_activation_step@160-173 *)
Definition mandated_collision (constraint : string) : string :=
  if contains "mandate_step_attempt" constraint then "mandate step attempt already belongs to another approval"
  else if contains "mandate_subject" constraint then "mandate subject already belongs to another approval"
  else if contains "decision_key" constraint
       then "decision_key already belongs to another approval (idempotency collision)"
       else "mandated activation decision hit an idempotency collision".

(* src: fleet_kernel/m5/approval_api.py decide_mandated_activation_step *)
Definition decide_mandated_activation_step (v : views) (db : m5) (now : datetime) (class : mandate_class) (m : Mandate)
    (s : ActivationStepSubject) (decision_key rationale : json) (decided_at : option datetime)
    : res DecisionResult * m5 :=
  let explicit := bool_decide (is_Some decided_at) in
  transaction db (
    require bool_decide (class = Founder) && (as_mandate_id s =? md_mandate_id m)%string
      else DispatchApprovalMigrationError, "mandated activation step lacks its exact standing mandate" ;;
    let! approval_id := subject_approval_id s in
    let! key := required_ decision_key "decision_key" in
    let! reason := required_ rationale "rationale" in
    let! time := aware_ now decided_at "decided_at" in
    let wanted := mandated_request m s approval_id key reason time in
    let! early := mandated_preflight v m wanted explicit in
    match early with
    | Some result => Ok (result, db)
    | None =>
        on_unique mandated_collision (mandated_txn db wanted (step_mandate m s) (canonical_payload s) time explicit)
    end).

(* src: fleet_kernel/m5/approval_api.py require_mandated_activation_step *)
Definition require_mandated_activation_step (v db : m5) (m : Mandate) (s : ActivationStepSubject) : res DecisionResult :=
  require (as_mandate_id s =? md_mandate_id m)%string
    else DispatchApprovalMigrationError, "activation subject mandate changed" ;;
  let! approval_id := subject_approval_id s in
  let wanted := mandated_request m s approval_id "" "" (DT 0 (Some 0)) in
  let! _ := require_mandated_step v wanted (canonical_payload s) in
  match decision_of db (as_tenant_id s) approval_id with
  | None => refuse "mandated activation decision disappeared"
  | Some result => Ok result
  end.
End mandates.

(** ** consume_approval *)

(** [isinstance(effect_payload, Mapping)] is [JObj]; [json.loads] of the
    [json.dumps] with [allow_nan=False] is the value with its keys sorted, and
    fails on a non-finite float and an integer beyond the digit limit. *)
(* src: fleet_kernel/m5/approval_api.py consume_approval@11-20 *)
Definition canonical_effect (effect_payload : json) : res json :=
  match effect_payload with
  | JObj (_ :: _) =>
      require finite effect_payload && ints_ok effect_payload
        else DispatchApprovalMigrationError, "effect_payload must be JSON serializable" ;;
      Ok (sort_keys effect_payload)
  | _ => refuse "effect_payload must be a non-empty object"
  end.

Record consume_args := {
  ca_tenant_id : json;
  ca_approval_id : uuid;
  ca_consume_key : json;
  ca_consumer : json;
  ca_effect_adapter : json;
  ca_effect_payload : json;
  ca_consumed_at : option datetime;
}.

(** The consumption a call asks for. *)
(* src: fleet_kernel/m5/approval_api.py consume_approval@7-23 *)
Definition consume_request (now : datetime) (a : consume_args) : res (ConsumptionResult * datetime) :=
  let! tenant := required_ (ca_tenant_id a) "tenant_id" in
  let! key := required_ (ca_consume_key a) "consume_key" in
  let! actor := required_ (ca_consumer a) "consumer" in
  let! adapter := required_ (ca_effect_adapter a) "effect_adapter" in
  let! canonical := canonical_effect (ca_effect_payload a) in
  let! requested_time := aware_ now (ca_consumed_at a) "consumed_at" in
  Ok ({| cr_tenant_id := tenant; cr_approval_id := ca_approval_id a; cr_consume_key := key; cr_consumer := actor;
         cr_effect_adapter := adapter; cr_effect_payload := canonical; cr_consumed_at := instant requested_time;
         cr_event_id := id_ [tenant; uuid_str (ca_approval_id a); "consume"; key; "event"];
         cr_outbox_id := id_ [tenant; uuid_str (ca_approval_id a); "consume"; key; "outbox"] |}, requested_time).

(* src: fleet_kernel/m5/approval_api.py consume_approval@51-58 *)
Definition same_consumption (result wanted : ConsumptionResult) (explicit : bool) : bool :=
  bool_decide ((cr_consume_key result, cr_consumer result, cr_effect_adapter result, cr_event_id result,
                cr_outbox_id result)
               = (cr_consume_key wanted, cr_consumer wanted, cr_effect_adapter wanted, cr_event_id wanted,
                  cr_outbox_id wanted))
  && py_eq (cr_effect_payload result) (cr_effect_payload wanted)
  && (negb explicit || (cr_consumed_at result =? cr_consumed_at wanted)).

(* src: fleet_kernel/m5/approval_api.py consume_approval@79-84 *)
Definition consumption_payload (c : ConsumptionResult) (time : datetime) : json := JObj [
  ("approval_id", JStr (uuid_str (cr_approval_id c))); ("consume_key", JStr (cr_consume_key c));
  ("consumer", JStr (cr_consumer c)); ("effect_adapter", JStr (cr_effect_adapter c));
  ("effect_payload_sha256", JStr (digest (dumps (cr_effect_payload c)))); ("consumed_at", JStr (isoformat time))].
(* src: fleet_kernel/m5/approval_api.py consume_approval@85-88 *)
Definition effect_of (c : ConsumptionResult) : json := JObj [
  ("approval_id", JStr (uuid_str (cr_approval_id c))); ("consume_key", JStr (cr_consume_key c));
  ("consumer", JStr (cr_consumer c)); ("effect", cr_effect_payload c)].

(* src: fleet_kernel/m5/approval_api.py consume_approval@59-63 *)
Definition consume_key_owned (v : m5) (c : ConsumptionResult) : bool :=
  existsb (fun x => (cr_tenant_id x =? cr_tenant_id c)%string && (cr_consume_key x =? cr_consume_key c)%string)
    (m_consumptions v).

(* src: fleet_kernel/m5/approval_api.py consume_approval@79-103 *)
Definition write_consumption (db : m5) (wanted : ConsumptionResult) (time : datetime) : res m5 :=
  let! s := append_event_and_outbox (m_store db) (cr_tenant_id wanted) (cr_approval_id wanted) (cr_event_id wanted)
              (cr_outbox_id wanted) "approval.consumed" (consumption_payload wanted time) (cr_effect_adapter wanted)
              (cr_effect_adapter wanted) (effect_of wanted) ("m5-approval-consume:" +:+ cr_consume_key wanted) in
  let! _ := texts_ok [cr_consumer wanted] in
  let! payload := to_jsonb (cr_effect_payload wanted) in
  let row := {| cr_tenant_id := cr_tenant_id wanted; cr_approval_id := cr_approval_id wanted;
                cr_consume_key := cr_consume_key wanted; cr_consumer := cr_consumer wanted;
                cr_effect_adapter := cr_effect_adapter wanted; cr_effect_payload := payload;
                cr_consumed_at := cr_consumed_at wanted; cr_event_id := cr_event_id wanted;
                cr_outbox_id := cr_outbox_id wanted |} in
  let! rows := insert_row consumption_constraints row (m_consumptions db) in
  Ok (M5 s (m_decisions db) rows (m_mandates db)).

(* src: fleet_kernel/m5/approval_api.py consume_approval@24-103 *)
Definition consume_txn (v_key db : m5) (wanted : ConsumptionResult) (time : datetime) (explicit : bool)
    : res (ConsumptionResult * m5) :=
  let! _ := texts_ok [cr_tenant_id wanted] in
  match approval_of (m_store db) (cr_tenant_id wanted) (cr_approval_id wanted) with
  | None => refuse "approval does not exist in tenant"
  | Some a =>
      match consumption_of db (cr_tenant_id wanted) (cr_approval_id wanted) with
      | Some result =>
          require same_consumption result wanted explicit
            else DispatchApprovalMigrationError, "approval was already consumed differently" ;;
          Ok (result, db)
      | None =>
          let! _ := texts_ok [cr_consume_key wanted] in
          raise_if consume_key_owned v_key wanted
            with DispatchApprovalMigrationError,
                 "consume_key already belongs to another approval (idempotency collision)" ;;
          require (ap_decision a =? "approved")%string
            else DispatchApprovalMigrationError, "only an approved decision can be consumed" ;;
          require match decision_of db (cr_tenant_id wanted) (cr_approval_id wanted) with
                  | Some d => (rq_decision (dr_request d) =? "approved")%string | None => false end
            else DispatchApprovalMigrationError, "approved decision lacks a verified authority record" ;;
          let! db' := write_consumption db wanted time in
          Ok (wanted, db')
      end
  end.

(* src: fleet_kernel/m5/approval_api.py consume_approval@104-111 *)
Definition consume_collision (constraint : string) : string :=
  if contains "consume_key" constraint
  then "consume_key already belongs to another approval (idempotency collision)"
  else "approval consume transaction hit an idempotency collision".

(** With a [_connection] of the caller's the same body runs inside the
    caller's transaction, which commits it or not. *)
(* src: fleet_kernel/m5/approval_api.py consume_approval *)
Definition consume_approval (v_key db : m5) (now : datetime) (a : consume_args) : res ConsumptionResult * m5 :=
  transaction db (
    let! (wanted, time) := consume_request now a in
    on_unique consume_collision
      (consume_txn v_key db wanted time (bool_decide (is_Some (ca_consumed_at a))))).

(** ** Histories

    Committed states, the newest first. A call may see any of them through its
    unlocked reads and commits on the newest. [verified] is what the verifiers
    stand for: a verifier that says [True] is right. The other writers of the
    kernel never decide: they leave decided approvals alone, add or change
    pending ones, append to the tenants' streams under their own keys, and
    keep the unique indexes. *)
Definition approval_key (key : string) : bool := startswith key "m5-approval-".

Record others_write (db db' : m5) : Prop := {
  ow_decided id a : st_approvals (m_store db) !! id = Some a -> ap_decision a <> "pending" ->
    st_approvals (m_store db') !! id = Some a;
  ow_pending id a : st_approvals (m_store db') !! id = Some a -> ap_decision a <> "pending" ->
    st_approvals (m_store db) !! id = Some a;
  ow_decisions : m_decisions db' = m_decisions db;
  ow_consumptions : m_consumptions db' = m_consumptions db;
  ow_outbox : exists new, st_outbox (m_store db') = st_outbox (m_store db) ++ new
    /\ Forall (fun o => approval_key (ob_key o) = false) new;
  ow_keys : unique (fun o => Some (ob_tenant o, ob_key o)) (st_outbox (m_store db))
    -> unique (fun o => Some (ob_tenant o, ob_key o)) (st_outbox (m_store db'));
  ow_stream : stream_wf (m_store db) -> stream_wf (m_store db');
}.

Definition all_of (h : list m5) (v : views) : Prop := v_1 v ∈ h /\ v_2 v ∈ h /\ v_3 v ∈ h /\ v_4 v ∈ h.
Definition trustworthy (verified : AuthorityRequest -> Prop) (a : decide_args) : Prop :=
  forall v r, da_authority_verifier a = Some v -> v r = Ok (JBool true) -> verified r.

Inductive step `{MandateAuthority} `{JsonLimits} (verified : AuthorityRequest -> Prop) (mandates : Mandate -> Prop)
    : list m5 -> list m5 -> Prop :=
  | step_decide h db v now a r db' :
      all_of (db :: h) v -> trustworthy verified a ->
      decide_approval v db now a = (r, db') -> step verified mandates (db :: h) (db' :: db :: h)
  | step_mandated h db v now class m s key reason time r db' :
      all_of (db :: h) v -> mandates m ->
      decide_mandated_activation_step v db now class m s key reason time = (r, db') ->
      step verified mandates (db :: h) (db' :: db :: h)
  | step_consume h db v_key now a r db' :
      v_key ∈ db :: h -> consume_approval v_key db now a = (r, db') ->
      step verified mandates (db :: h) (db' :: db :: h)
  | step_persist h db local m r db' :
      mandates m -> persist_founder_activation_mandate local db m = (r, db') ->
      step verified mandates (db :: h) (db' :: db :: h)
  | step_others h db db' :
      others_write db db' -> step verified mandates (db :: h) (db' :: db :: h).
End calls.

(** ** What a write does *)

Definition ob_tkey (o : outbox) : option (string * string) := Some (ob_tenant o, ob_key o).

Section facts.
  Context `{Jsonb} `{Digest} `{IsoTime} `{MandateAuthority} `{JsonLimits}.

Lemma append_ok s t aid a ev ob ty pay dst ad eff key s' :
  approval_of s t aid = Some a ->
  append_event_and_outbox s t aid ev ob ty pay dst ad eff key = Ok s' ->
  st_approvals s' = st_approvals s
  /\ (exists o, st_outbox s' = st_outbox s ++ [o] /\ ob_id o = ob /\ ob_tenant o = t /\ ob_event o = Some ev
       /\ ob_adapter o = ad /\ ob_key o = key /\ jsonb eff = Some (ob_payload o))
  /\ (unique ob_tkey (st_outbox s) -> unique ob_tkey (st_outbox s'))
  /\ (stream_wf s -> stream_wf s').
Proof.
  intros Ha. unfold append_event_and_outbox. rewrite rbind_ok. intros ([n s1] & E1 & E).
  pose proof (next_sequence_ok _ _ _ _ E1) as (_ & _ & _ & Ea & Ee & Eo).
  assert (approval_of s1 t aid = Some a) as Ha1 by (unfold approval_of in *; by rewrite Ea).
  rewrite Ha1, rbind_ok in E. destruct E as (s2 & E2 & E3).
  unfold insert_event in E2. apply rbind_ok in E2 as (p & Ep & E2). apply rbind_ok in E2 as (rows & Er & [= <-]).
  unfold insert_outbox in E3. apply rbind_ok in E3 as ([] & _ & E3). apply rbind_ok in E3 as (q & Eq & E3).
  apply rbind_ok in E3 as (out & Eout & [= <-]). simpl in *. unfold to_jsonb in Eq.
  pose proof (insert_row_ok _ _ _ _ Er) as [-> _]. pose proof (insert_row_ok _ _ _ _ Eout) as [Hout _].
  split; [done|]. split; [|split].
  - eexists. rewrite <- Eo. split; [exact Hout|]. simpl. repeat split; try done.
    destruct (jsonb eff); [|done]. by injection Eq as ->.
  - rewrite <- Eo. intros U. eapply unique_insert; [exact Eout| |exact U]. right. left.
  - intros W. apply (stream_wf_append s s1 _ t n (Event ev t n ty p (Some (ap_objective a)) None)); try done.
    simpl. by rewrite Ee.
Qed.

(** What the columns of a decided approval say of its decision. *)
Definition records (a : approval) (d : DecisionResult) : Prop :=
  ap_tenant a = rq_tenant_id (dr_request d) /\ ap_decision a = rq_decision (dr_request d)
  /\ ap_decided_by a = Some (rq_decided_by (dr_request d)) /\ ap_rationale a = rq_rationale (dr_request d)
  /\ ap_decided_at a = Some (dr_decided_at d).

Lemma write_decision_ok db a w payload att db' :
  approval_of (m_store db) (rq_tenant_id (dr_request w)) (rq_approval_id (dr_request w)) = Some a ->
  write_decision db a w payload att = Ok db' ->
  (exists a', st_approvals (m_store db') = <[rq_approval_id (dr_request w) := a']> (st_approvals (m_store db))
     /\ records a' w)
  /\ (exists o, st_outbox (m_store db') = st_outbox (m_store db) ++ [o]
       /\ ob_key o = "m5-approval-decision:" +:+ rq_decision_key (dr_request w))
  /\ (unique ob_tkey (st_outbox (m_store db)) -> unique ob_tkey (st_outbox (m_store db')))
  /\ (stream_wf (m_store db) -> stream_wf (m_store db'))
  /\ insert_row decision_constraints (DecisionRow w att) (m_decisions db) = Ok (m_decisions db')
  /\ m_consumptions db' = m_consumptions db /\ m_mandates db' = m_mandates db.
Proof.
  intros Ha. unfold write_decision. rewrite rbind_ok. intros ([] & _ & E). apply rbind_ok in E as (s & Es & E).
  pose proof Ha as [_ Et]%approval_of_Some.
  match type of Es with append_event_and_outbox (set_approval _ ?i ?x) _ _ _ _ _ _ _ _ _ _ = _ =>
    assert (approval_of (set_approval (m_store db) i x) (rq_tenant_id (dr_request w)) i = Some x) as Ha'
  end.
  { apply approval_of_Some. split; [apply lookup_insert_eq|done]. }
  destruct (append_ok _ _ _ _ _ _ _ _ _ _ _ _ _ Ha' Es) as (Ea & (o & Eo & _ & _ & _ & _ & Ek & _) & U & W).
  unfold insert_decision in E. apply rbind_ok in E as ([] & _ & E). apply rbind_ok in E as (rows & Er & [= <-]).
  simpl in *. split; [|by split; [by exists o|]]. eexists. split; [exact Ea|]. by split.
Qed.

(** ** The invariant *)

Definition same_approval (d : DecisionResult) (tenant : string) (id : uuid) : Prop :=
  rq_tenant_id (dr_request d) = tenant /\ rq_approval_id (dr_request d) = id.

Context (verified : AuthorityRequest -> Prop) (mandates : Mandate -> Prop).

(** What stands behind a decision: a verified request, or a mandate. *)
Definition authorized (d : DecisionResult) : Prop :=
  match dr_mandate d with
  | None => verified (dr_request d)
  | Some mn => rq_decision (dr_request d) = "approved"
      /\ exists m, mandates m /\ mn_mandate_id mn = md_mandate_id m /\ mn_artifact_sha256 mn = md_artifact_sha256 m
           /\ rq_authority_ref (dr_request d) = authority_ref m
  end.

(** The outbox row that carries the effect of a consumption. *)
Definition carries (c : ConsumptionResult) (o : outbox) : Prop :=
  ob_tenant o = cr_tenant_id c /\ ob_id o = cr_outbox_id c /\ ob_event o = Some (cr_event_id c)
  /\ ob_adapter o = cr_effect_adapter c /\ ob_key o = "m5-approval-consume:" +:+ cr_consume_key c
  /\ exists effect, jsonb effect = Some (cr_effect_payload c)
       /\ jsonb (JObj [("approval_id", JStr (uuid_str (cr_approval_id c))); ("consume_key", JStr (cr_consume_key c));
                       ("consumer", JStr (cr_consumer c)); ("effect", effect)]) = Some (ob_payload o).

Definition is_effect (o : outbox) : bool := startswith (ob_key o) "m5-approval-consume:".

Definition d_pkey (r : decision_row) := Some (rq_tenant_id (d_req r), rq_approval_id (d_req r)).
Definition d_conveyance (r : decision_row) :=
  if (rq_authority_kind (d_req r) =? "signed_conveyance")%string
  then Some (rq_tenant_id (d_req r), rq_authority_ref (d_req r)) else None.
Definition d_attempt (r : decision_row) := (fun m => (mn_mandate_id m, mn_activation_step_key m)) <$> d_mandate r.
Definition c_pkey (c : ConsumptionResult) := Some (cr_tenant_id c, cr_approval_id c).
Definition c_key (c : ConsumptionResult) := Some (cr_tenant_id c, cr_consume_key c).

Record wf (db : m5) : Prop := {
  wf_pkey : unique d_pkey (m_decisions db);
  wf_conveyance : unique d_conveyance (m_decisions db);
  wf_attempt : unique d_attempt (m_decisions db);
  wf_decided d : d ∈ m_decisions db -> rq_decision (d_req d) ∈ DECISIONS
    /\ authorized (d_result d)
    /\ exists a, st_approvals (m_store db) !! rq_approval_id (d_req d) = Some a /\ records a (d_result d);
  wf_recorded id a : st_approvals (m_store db) !! id = Some a -> ap_decision a <> "pending" ->
    exists d, d ∈ m_decisions db /\ same_approval (d_result d) (ap_tenant a) id;
  wf_cpkey : unique c_pkey (m_consumptions db);
  wf_approved c : c ∈ m_consumptions db -> exists d, d ∈ m_decisions db
    /\ same_approval (d_result d) (cr_tenant_id c) (cr_approval_id c) /\ rq_decision (d_req d) = "approved";
  wf_effect c : c ∈ m_consumptions db -> exists o, o ∈ st_outbox (m_store db) /\ carries c o;
  wf_outbox o : o ∈ st_outbox (m_store db) -> is_effect o = true -> exists c, c ∈ m_consumptions db /\ carries c o;
  wf_keys : unique ob_tkey (st_outbox (m_store db));
  wf_stream : stream_wf (m_store db);
}.

Lemma decision_key_no_effect k o : ob_key o = "m5-approval-decision:" +:+ k -> is_effect o = false.
Proof. unfold is_effect. by intros ->. Qed.
Lemma other_key_no_effect o : approval_key (ob_key o) = false -> is_effect o = false.
Proof.
  unfold is_effect, approval_key, startswith. intros N. destruct (String.prefix "m5-approval-consume:" (ob_key o)) eqn:E; [|done].
  assert (String.prefix "m5-approval-" (ob_key o) = true) as T; [|congruence]. revert E. generalize (ob_key o).
  intros k E. apply String.prefix_correct. apply String.prefix_correct in E. simpl in E.
  repeat (destruct k as [|? k]; [by simpl in E|]; simpl in E; injection E as -> E; simpl; f_equal).
Qed.

Lemma find_decision db t i d :
  decision_of db t i = Some d -> exists r, r ∈ m_decisions db /\ d_result r = d /\ same_approval d t i.
Proof.
  unfold decision_of. destruct (List.find _ _) as [r|] eqn:F; [|done]. intros [= <-].
  apply List.find_some in F as [Hr [E1%String.eqb_eq E2%N.eqb_eq]%andb_true_iff].
  exists r. split; [by apply list_elem_of_In|]. by split.
Qed.

Lemma decision_none db t i r : decision_of db t i = None -> r ∈ m_decisions db -> ~ same_approval (d_result r) t i.
Proof.
  unfold decision_of. destruct (List.find _ _) eqn:F; [done|]. intros _ Hr [E1 E2].
  apply list_elem_of_In in Hr. pose proof (List.find_none _ _ F _ Hr) as N. simpl in N. unfold d_req in N.
  by rewrite E1, E2, String.eqb_refl, N.eqb_refl in N.
Qed.

Lemma wf_write_decision db a w payload att db' :
  wf db -> approval_of (m_store db) (rq_tenant_id (dr_request w)) (rq_approval_id (dr_request w)) = Some a ->
  ap_decision a = "pending" -> rq_decision (dr_request w) ∈ DECISIONS -> authorized w ->
  write_decision db a w payload att = Ok db' -> wf db'.
Proof.
  intros W Ha Hp Hd Hau E. destruct (write_decision_ok _ _ _ _ _ _ Ha E)
    as ((a' & Ea & Hr) & (o & Eo & Ek) & U & S & I & Ec & _).
  apply approval_of_Some in Ha as [Ha Hat]. pose proof (insert_row_ok _ _ _ _ I) as [Ed _].
  assert (forall r, r ∈ m_decisions db -> rq_approval_id (d_req r) <> rq_approval_id (dr_request w)) as Fresh.
  { intros r Hr' Ei. destruct (wf_decided _ W r Hr') as (Hin & _ & x & Hx & Hx1 & Hx2 & _).
    rewrite Ei, Ha in Hx. injection Hx as <-. rewrite Hp in Hx2. fold (d_req r) in Hx2. rewrite <- Hx2 in Hin.
    by apply list_elem_of_In in Hin; simpl in Hin; naive_solver. }
  split.
  - eapply unique_insert; [exact I| |apply (wf_pkey _ W)]. by left.
  - eapply unique_insert; [exact I| |apply (wf_conveyance _ W)]. do 4 right. by left.
  - eapply unique_insert; [exact I| |apply (wf_attempt _ W)]. do 5 right. by left.
  - intros d. rewrite Ed. intros [Hd'| ->%list_elem_of_singleton]%elem_of_app.
    + destruct (wf_decided _ W d Hd') as (? & ? & x & Hx & Hx'). split; [done|]. split; [done|]. exists x.
      split; [|done]. rewrite Ea, lookup_insert_ne; [done|]. intros E'. by apply (Fresh d Hd').
    + split; [done|]. split; [done|]. exists a'. split; [|done]. rewrite Ea. apply lookup_insert_eq.
  - intros id x. rewrite Ea, Ed. destruct (decide (id = rq_approval_id (dr_request w))) as [->|Ne].
    + rewrite lookup_insert_eq. intros [= <-] _. exists (DecisionRow w att). split; [apply elem_of_app; right; by left|].
      split; [|done]. symmetry. apply Hr.
    + rewrite lookup_insert_ne by done. intros Hx Hn. destruct (wf_recorded _ W id x Hx Hn) as (d & ? & ?).
      exists d. split; [|done]. apply elem_of_app. by left.
  - rewrite Ec. apply (wf_cpkey _ W).
  - intros c. rewrite Ec, Ed. intros Hc. destruct (wf_approved _ W c Hc) as (d & ? & ?). exists d.
    split; [|done]. apply elem_of_app. by left.
  - intros c. rewrite Ec, Eo. intros Hc. destruct (wf_effect _ W c Hc) as (x & ? & ?). exists x.
    split; [|done]. apply elem_of_app. by left.
  - intros x. rewrite Ec, Eo. intros [Hx| ->%list_elem_of_singleton]%elem_of_app Hk; [by apply (wf_outbox _ W)|].
    by rewrite (decision_key_no_effect _ _ Ek) in Hk.
  - apply U, (wf_keys _ W).
  - apply S, (wf_stream _ W).
Qed.

(** ** What a call does: nothing, or one write *)

Lemma on_unique_ok {A} f (m : res A) x : on_unique f m = Ok x <-> m = Ok x.
Proof. destruct m as [y|e]; simpl; [done|]. by destruct (bool_decide _). Qed.

Lemma transaction_cases {A} db (m : res (A * m5)) r db' :
  transaction db m = (r, db') -> (exists e, m = Err e /\ r = Err e /\ db' = db) \/ exists x, m = Ok (x, db') /\ r = Ok x.
Proof. destruct m as [[x d]|e]; intros [= <- <-]; naive_solver. Qed.

Lemma verify_authority_ok verifier q u : verify_authority verifier q = Ok u -> verifier q = Ok (JBool true).
Proof. unfold verify_authority. destruct (verifier q) as [[]|]; try done. by destruct b. Qed.

Lemma member_or_ok v l msg x : member_or v l msg = Ok x -> x ∈ l.
Proof.
  unfold member_or. rewrite rbind_ok. intros (o & E & E'). destruct o as [s|]; [|done]. injection E' as ->.
  destruct v; try done. simpl in E. destruct (existsb (String.eqb s) l) eqn:X; [|done]. injection E as ->.
  by apply existsb_eqb.
Qed.

Lemma decide_request_ok now a q verifier time : decide_request now a = Ok (q, verifier, time) ->
  rq_decision q ∈ DECISIONS /\ da_authority_verifier a = Some verifier /\ aware time = true
  /\ time = default now (da_decided_at a).
Proof.
  unfold decide_request. intros (t & _ & (k & _ & (ac & _ & (rf & _ & (re & _ & (d & Ed & (kd & _ & E)
    %rbind_ok)%rbind_ok)%rbind_ok)%rbind_ok)%rbind_ok)%rbind_ok)%rbind_ok.
  destruct (da_authority_verifier a) as [v|]; [|done]. apply rbind_ok in E as (x & Ex & E). injection E as <- <- <-.
  simpl. unfold aware_ in Ex. guards in Ex. destruct Ex as [Ex [= <-]]. split; [by eapply member_or_ok|done].
Qed.

Lemma decide_cases v db now a r db' : decide_approval v db now a = (r, db') ->
  db' = db \/ exists q verifier time x, decide_request now a = Ok (q, verifier, time)
    /\ verifier q = Ok (JBool true)
    /\ approval_of (m_store db) (rq_tenant_id q) (rq_approval_id q) = Some x /\ ap_decision x = "pending"
    /\ write_decision db x (requested q time None) (decision_payload q time) None = Ok db'.
Proof.
  intros [(e & _ & _ & ->)|(d & E & _)]%transaction_cases; [by left|].
  apply rbind_ok in E as ([[q vf] time] & Eq & E). apply rbind_ok in E as ([early|] & _ & E).
  { injection E as <- <-. by left. }
  apply rbind_ok in E as ([] & Ev & E). apply verify_authority_ok in Ev. apply on_unique_ok in E.
  unfold decide_txn in E. cbn zeta in E. simpl dr_request in E.
  destruct (approval_of (m_store db) (rq_tenant_id q) (rq_approval_id q)) as [x|] eqn:Ex; [|done].
  destruct (decision_of db _ _) as [old|].
  { apply rbind_ok in E as (y & _ & [= <- <-]). by left. }
  apply rbind_ok in E as ([] & _ & E). guards in E. destruct E as [_ E]. apply rbind_ok in E as ([] & _ & E).
  guards in E. destruct E as [_ E]. destruct E as [Ep E]. apply rbind_ok in E as (d' & Ew & [= <- <-]).
  right. exists q, vf, time, x. repeat split; try done. by apply String.eqb_eq.
Qed.

Lemma mandated_cases v db now class m s k re t r db' :
  decide_mandated_activation_step v db now class m s k re t = (r, db') ->
  db' = db \/ exists w time x att, dr_mandate w = Some (step_mandate m s) /\ rq_decision (dr_request w) = "approved"
    /\ rq_authority_ref (dr_request w) = authority_ref m
    /\ approval_of (m_store db) (rq_tenant_id (dr_request w)) (rq_approval_id (dr_request w)) = Some x
    /\ ap_decision x = "pending"
    /\ write_decision db x w (mandated_payload w (step_mandate m s) time) att = Ok db'.
Proof.
  intros [(e & _ & _ & ->)|(d & E & _)]%transaction_cases; [by left|].
  guards in E. destruct E as [_ E]. apply rbind_ok in E as (id & _ & E). apply rbind_ok in E as (key & _ & E).
  apply rbind_ok in E as (reason & _ & E). apply rbind_ok in E as (time & _ & E).
  remember (mandated_request m s id key reason time) as w eqn:Ew.
  apply rbind_ok in E as ([early|] & _ & E).
  { injection E as <- <-. by left. }
  apply on_unique_ok in E. unfold mandated_txn in E. cbn zeta in E.
  destruct (decision_of db _ _) as [old|].
  { apply rbind_ok in E as (y & _ & [= <- <-]). by left. }
  destruct (approval_of (m_store db) _ _) as [x|] eqn:Ex; [|done]. guards in E. destruct E as [Ep E].
  apply rbind_ok in E as ([mac by_] & _ & E). apply rbind_ok in E as (p & _ & E).
  apply rbind_ok in E as (d' & Ed & [= <- <-]).
  right. exists w, time, x. eexists. rewrite Ew in *. repeat split; try done. by apply String.eqb_eq.
Qed.

Lemma consume_cases vk db now a r db' : consume_approval vk db now a = (r, db') ->
  db' = db \/ exists w time x d,
    approval_of (m_store db) (cr_tenant_id w) (cr_approval_id w) = Some x
    /\ consumption_of db (cr_tenant_id w) (cr_approval_id w) = None
    /\ decision_of db (cr_tenant_id w) (cr_approval_id w) = Some d /\ rq_decision (dr_request d) = "approved"
    /\ write_consumption db w time = Ok db'.
Proof.
  intros [(e & _ & _ & ->)|(d & E & _)]%transaction_cases; [by left|].
  apply rbind_ok in E as ([w time] & _ & E). apply on_unique_ok in E. unfold consume_txn in E.
  apply rbind_ok in E as ([] & _ & E).
  destruct (approval_of (m_store db) _ _) as [x|] eqn:Ex; [|done].
  destruct (consumption_of db _ _) as [old|] eqn:Ec.
  { guards in E. destruct E as [_ [= <- <-]]. by left. }
  apply rbind_ok in E as ([] & _ & E). guards in E. destruct E as (_ & _ & Hd & E).
  destruct (decision_of db _ _) as [dd|] eqn:Ed; [|done]. apply String.eqb_eq in Hd.
  apply rbind_ok in E as (d' & Ew & [= <- <-]). right. by exists w, time, x, dd.
Qed.

Lemma persist_cases local db m r db' : persist_founder_activation_mandate local db m = (r, db') ->
  m_store db' = m_store db /\ m_decisions db' = m_decisions db /\ m_consumptions db' = m_consumptions db.
Proof.
  intros [(e & _ & _ & ->)|(d & E & _)]%transaction_cases; [done|].
  destruct (mandate_of db (md_mandate_id m)).
  - apply rbind_ok in E as (b & _ & E). guards in E. by destruct E as [_ [= <- <-]].
  - apply rbind_ok in E as (i & _ & E). apply rbind_ok in E as ([mac by_] & _ & E).
    apply rbind_ok in E as (p & _ & E). apply rbind_ok in E as ([] & _ & E).
    by apply rbind_ok in E as (rows & _ & [= <- <-]).
Qed.

Lemma wf_write_consumption db w time x d db' :
  wf db -> approval_of (m_store db) (cr_tenant_id w) (cr_approval_id w) = Some x ->
  decision_of db (cr_tenant_id w) (cr_approval_id w) = Some d -> rq_decision (dr_request d) = "approved" ->
  write_consumption db w time = Ok db' -> wf db'.
Proof.
  intros W Hx Hd Hap E. unfold write_consumption in E. apply rbind_ok in E as (s & Es & E).
  destruct (append_ok _ _ _ _ _ _ _ _ _ _ _ _ _ Hx Es) as (Ea & (o & Eo & Ho) & U & S).
  apply rbind_ok in E as ([] & _ & E). apply rbind_ok in E as (p & Ep & E). apply rbind_ok in E as (rows & Er & [= <-]).
  pose proof (insert_row_ok _ _ _ _ Er) as [-> _]. apply find_decision in Hd as (r & Hr & <- & Hs).
  unfold to_jsonb in Ep. destruct (jsonb (cr_effect_payload w)) as [p'|] eqn:Ej; [|done]. injection Ep as ->.
  match type of Er with insert_row _ ?row _ = _ => set (row0 := row) in * end.
  assert (carries row0 o) as Hc.
  { destruct Ho as (? & ? & ? & ? & ? & ?). unfold carries. repeat split; try done. by exists (cr_effect_payload w). }
  split; simpl; try (by apply W).
  - by rewrite Ea; apply W.
  - by rewrite Ea; apply W.
  - eapply unique_insert; [exact Er| |apply (wf_cpkey _ W)]. by left.
  - intros c [Hc'| ->%list_elem_of_singleton]%elem_of_app; [by apply W|]. by exists r.
  - intros c. rewrite Eo. intros [Hc'| ->%list_elem_of_singleton]%elem_of_app.
    + destruct (wf_effect _ W c Hc') as (y & ? & ?). exists y. split; [|done]. apply elem_of_app. by left.
    + exists o. split; [apply elem_of_app; right; by left|done].
  - intros y. rewrite Eo. intros [Hy| ->%list_elem_of_singleton]%elem_of_app Hk.
    + destruct (wf_outbox _ W y Hy Hk) as (c & ? & ?). exists c. split; [|done]. apply elem_of_app. by left.
    + exists row0. split; [apply elem_of_app; right; by left|done].
  - apply U, W.
  - apply S, W.
Qed.

Lemma wf_others db db' : wf db -> others_write db db' -> wf db'.
Proof.
  intros W O. destruct (ow_outbox _ _ O) as (new & En & Fn).
  assert (forall d, rq_decision (d_req d) ∈ DECISIONS -> forall a, records a (d_result d) -> ap_decision a <> "pending") as Np.
  { intros d Hd a (_ & -> & _). unfold d_req in Hd. intros Ep. rewrite Ep in Hd.
    apply list_elem_of_In in Hd. simpl in Hd. naive_solver. }
  split; rewrite ?(ow_decisions _ _ O), ?(ow_consumptions _ _ O); try (by apply W).
  - intros d Hd. destruct (wf_decided _ W d Hd) as (Hin & ? & a & Ha & Hr). repeat (split; [done|]).
    exists a. split; [|done]. apply (ow_decided _ _ O); [done|]. by eapply Np.
  - intros id a Ha Hn. apply (wf_recorded _ W); [|done]. by apply (ow_pending _ _ O).
  - intros c Hc. destruct (wf_effect _ W c Hc) as (o & ? & ?). exists o. split; [|done].
    rewrite En. apply elem_of_app. by left.
  - intros o. rewrite En. intros [Ho|Ho]%elem_of_app Hk; [by apply W|].
    rewrite Forall_forall in Fn. specialize (Fn o Ho). by rewrite (other_key_no_effect _ Fn) in Hk.
  - apply (ow_keys _ _ O), W.
  - apply (ow_stream _ _ O), W.
Qed.

Lemma wf_same db db' : m_store db' = m_store db -> m_decisions db' = m_decisions db ->
  m_consumptions db' = m_consumptions db -> wf db -> wf db'.
Proof. intros E1 E2 E3 W. split; rewrite ?E1, ?E2, ?E3; apply W. Qed.

(** Decided approvals, decisions, consumptions and outbox rows stay. *)
Record extends (db db' : m5) : Prop := {
  ex_decisions : exists l, m_decisions db' = m_decisions db ++ l;
  ex_consumptions : exists l, m_consumptions db' = m_consumptions db ++ l;
  ex_outbox : exists l, st_outbox (m_store db') = st_outbox (m_store db) ++ l;
  ex_approvals id a : st_approvals (m_store db) !! id = Some a -> ap_decision a <> "pending" ->
    st_approvals (m_store db') !! id = Some a;
}.
#[local] Instance extends_refl : Reflexive extends.
Proof. split; [by exists []; rewrite app_nil_r..|done]. Qed.
#[local] Instance extends_trans : Transitive extends.
Proof.
  intros a b c [(l1 & D1) (l2 & C1) (l3 & O1) A1] [(k1 & D2) (k2 & C2) (k3 & O2) A2]. split.
  - exists (l1 ++ k1). by rewrite app_assoc, <- D1.
  - exists (l2 ++ k2). by rewrite app_assoc, <- C1.
  - exists (l3 ++ k3). by rewrite app_assoc, <- O1.
  - intros id x Hx Hn. by apply A2; [apply A1|].
Qed.

Lemma extends_write_decision db a w payload att db' :
  approval_of (m_store db) (rq_tenant_id (dr_request w)) (rq_approval_id (dr_request w)) = Some a ->
  ap_decision a = "pending" -> write_decision db a w payload att = Ok db' -> extends db db'.
Proof.
  intros Ha Hp E. destruct (write_decision_ok _ _ _ _ _ _ Ha E)
    as ((a' & Ea & _) & (o & Eo & _) & _ & _ & I & Ec & _).
  apply insert_row_ok in I as [Ed _]. apply approval_of_Some in Ha as [Ha _]. split.
  - by eexists.
  - exists []. by rewrite app_nil_r.
  - by eexists.
  - intros id x Hx Hn. rewrite Ea, lookup_insert_ne; [done|]. intros <-. rewrite Ha in Hx. by injection Hx as <-.
Qed.

Lemma extends_write_consumption db w time x db' :
  approval_of (m_store db) (cr_tenant_id w) (cr_approval_id w) = Some x ->
  write_consumption db w time = Ok db' -> extends db db'.
Proof.
  intros Hx E. unfold write_consumption in E. apply rbind_ok in E as (s & Es & E).
  destruct (append_ok _ _ _ _ _ _ _ _ _ _ _ _ _ Hx Es) as (Ea & (o & Eo & _) & _).
  apply rbind_ok in E as ([] & _ & E). apply rbind_ok in E as (p & _ & E). apply rbind_ok in E as (rows & Er & [= <-]).
  apply insert_row_ok in Er as [-> _]. split; simpl.
  - exists []. by rewrite app_nil_r.
  - by eexists.
  - by eexists.
  - by rewrite Ea.
Qed.

(** ** Reachable histories *)

Definition empty_m5 : m5 := M5 (Store ∅ ∅ [] []) [] [] [].
Definition reachable (h : list m5) : Prop := rtc (step verified mandates) [empty_m5] h.

Lemma step_spec h h' : step verified mandates h h' ->
  exists db h0 db', h = db :: h0 /\ h' = db' :: h /\ (wf db -> wf db') /\ extends db db'.
Proof.
  intros [h0 db v now a r db' _ Tr E|h0 db v now cl m s k re t r db' _ Hm E|h0 db vk now a r db' _ E
         |h0 db local m r db' _ E|h0 db db' O]; exists db, h0, db'; split; try done; split; try done.
  - destruct (decide_cases _ _ _ _ _ _ E) as [->|(q & vf & time & x & Eq & Ev & Ha & Hp & Ew)]; [by split|].
    destruct (decide_request_ok _ _ _ _ _ Eq) as (Hq & Hvf & _).
    split; [|by apply (extends_write_decision _ x (requested q time None) (decision_payload q time) None)].
    intros W. apply (wf_write_decision db x (requested q time None) (decision_payload q time) None); [exact W|exact Ha|exact Hp|exact Hq| |exact Ew]. simpl. by eapply Tr.
  - destruct (mandated_cases _ _ _ _ _ _ _ _ _ _ _ E) as [->|(w & time & x & att & Hw & Hd & Hr & Ha & Hp & Ew)]; [by split|].
    split; [|by eapply extends_write_decision].
    intros W. eapply wf_write_decision; [exact W|exact Ha|exact Hp| | |exact Ew].
    + rewrite Hd. by left.
    + unfold authorized. rewrite Hw. split; [done|]. by exists m.
  - destruct (consume_cases _ _ _ _ _ _ E) as [->|(w & time & x & d & Ha & _ & Hd & Hap & Ew)]; [by split|].
    split; [|by eapply extends_write_consumption]. intros W. by eapply wf_write_consumption.
  - destruct (persist_cases _ _ _ _ _ E) as (E1 & E2 & E3). split; [by apply wf_same|].
    split; rewrite ?E1, ?E2, ?E3; try done; exists []; by rewrite app_nil_r.
  - split; [intros W; by eapply wf_others|]. destruct (ow_outbox _ _ O) as (new & En & _).
    split; rewrite ?(ow_decisions _ _ O), ?(ow_consumptions _ _ O); try (exists []; by rewrite app_nil_r).
    + by exists new.
    + apply (ow_decided _ _ O).
Qed.

Lemma wf_empty : wf empty_m5.
Proof.
  split; unfold unique; simpl; try apply NoDup_nil_2; try (intros ? []%elem_of_nil).
  - intros id a. by rewrite lookup_empty.
  - intros t. unfold next_of, stream. simpl. rewrite lookup_empty. repeat split; try done; constructor.
Qed.

Lemma reachable_wf h : reachable h -> exists db h0, h = db :: h0 /\ wf db.
Proof.
  revert h. apply (rtc_ind_r (fun h => exists db h0, h = db :: h0 /\ wf db) [empty_m5]);
    [exists empty_m5, []; split; [done|apply wf_empty]|].
  intros h1 h2 _ S IH. destruct IH as (db & h0 & -> & W). apply step_spec in S as (db1 & h1' & db' & [= <- <-] & -> & Ww & _).
  exists db', (db :: h0). by split; [|apply Ww].
Qed.

Lemma steps_extend db h h' : rtc (step verified mandates) (db :: h) h' -> exists db' h0, h' = db' :: h0 /\ extends db db'.
Proof.
  revert h'. apply (rtc_ind_r (fun h' => exists db' h0, h' = db' :: h0 /\ extends db db') (db :: h)); [by exists db, h|].
  intros h1 h2 _ S IH. destruct IH as (d & h0 & -> & X). apply step_spec in S as (db1 & h1' & db' & [= <- <-] & -> & _ & X').
  exists db', (d :: h0). split; [done|]. by etransitivity.
Qed.

(** ** Properties *)

(** C21: Every decision has its authority, and no authority is spent twice: in
    every interleaving, whatever states the unlocked reads see, a recorded
    decision was verified for that very request or belongs to a mandate, the
    approval's row says what it says, a decided approval has exactly one
    record, a signed conveyance decides at most one approval of a tenant, and
    a step attempt of a mandate at most one. *)
Theorem decisions_are_authorized db h :
  reachable (db :: h) ->
  (forall d, d ∈ m_decisions db -> authorized (d_result d)
     /\ exists a, st_approvals (m_store db) !! rq_approval_id (d_req d) = Some a /\ records a (d_result d))
  /\ (forall id a, st_approvals (m_store db) !! id = Some a -> ap_decision a <> "pending" ->
        exists d, d ∈ m_decisions db /\ same_approval (d_result d) (ap_tenant a) id
          /\ forall d', d' ∈ m_decisions db -> same_approval (d_result d') (ap_tenant a) id -> d' = d)
  /\ (forall d d', d ∈ m_decisions db -> d' ∈ m_decisions db ->
        rq_authority_kind (d_req d) = "signed_conveyance" -> rq_authority_kind (d_req d') = "signed_conveyance" ->
        rq_tenant_id (d_req d) = rq_tenant_id (d_req d') -> rq_authority_ref (d_req d) = rq_authority_ref (d_req d') ->
        d = d')
  /\ (forall d d' k, d ∈ m_decisions db -> d' ∈ m_decisions db -> d_attempt d = Some k -> d_attempt d' = Some k -> d = d').
Proof.
  intros (db0 & h0 & [= <- <-] & W)%reachable_wf. split; [|split; [|split]].
  - intros d Hd. destruct (wf_decided _ W d Hd) as (_ & A & R). by split.
  - intros id a Ha Hn. destruct (wf_recorded _ W id a Ha Hn) as (d & Hd & E1 & E2). exists d. split; [done|]. split; [done|].
    intros d' Hd' [E3 E4]. apply (unique_eq _ _ _ _ (ap_tenant a, id) (wf_pkey _ W)); try done;
      unfold d_pkey, d_req; congruence.
  - intros d d' Hd Hd' K K' Et Er.
    apply (unique_eq _ _ _ _ (rq_tenant_id (d_req d), rq_authority_ref (d_req d)) (wf_conveyance _ W)); try done;
      unfold d_conveyance; rewrite ?K, ?K'; simpl; congruence.
  - intros d d' k Hd Hd' E E'. by apply (unique_eq _ _ _ _ k (wf_attempt _ W)).
Qed.

(** C22: Every effect is authorized, and there is at most one per approval: an
    outbox row under a consumption key carries the effect of a consumption of
    an approval whose row is approved, by a decision with its authority; and
    no other such row is for this approval. *)
Theorem effects_are_authorized db h o :
  reachable (db :: h) -> o ∈ st_outbox (m_store db) -> is_effect o = true ->
  exists c d a, c ∈ m_consumptions db /\ carries c o
    /\ d ∈ m_decisions db /\ same_approval (d_result d) (cr_tenant_id c) (cr_approval_id c)
    /\ rq_decision (d_req d) = "approved" /\ authorized (d_result d)
    /\ st_approvals (m_store db) !! cr_approval_id c = Some a /\ records a (d_result d)
    /\ forall o' c', o' ∈ st_outbox (m_store db) -> c' ∈ m_consumptions db -> carries c' o' ->
         cr_tenant_id c' = cr_tenant_id c -> cr_approval_id c' = cr_approval_id c -> o' = o.
Proof.
  intros (db0 & h0 & [= <- <-] & W)%reachable_wf Ho Hk.
  destruct (wf_outbox _ W o Ho Hk) as (c & Hc & Hco). destruct (wf_approved _ W c Hc) as (d & Hd & Hs & Hap).
  destruct (wf_decided _ W d Hd) as (_ & Hau & a & Ha & Hr). exists c, d, a.
  destruct Hs as [E1 E2]. unfold d_req in Ha. rewrite E2 in Ha. repeat (split; [done|]).
  intros o' c' Ho' Hc' Hco' Et Ei.
  assert (c' = c) as -> by (apply (unique_eq _ _ _ _ (cr_tenant_id c, cr_approval_id c) (wf_cpkey _ W)); try done;
    unfold c_pkey; congruence).
  destruct Hco as (T & _ & _ & _ & K & _), Hco' as (T' & _ & _ & _ & K' & _).
  apply (unique_eq _ _ _ _ (ob_tenant o, ob_key o) (wf_keys _ W)); try done. unfold ob_tkey. congruence.
Qed.

Lemma recorded_decision db db' d :
  wf db -> d ∈ m_decisions db -> extends db db' ->
  decision_of db' (rq_tenant_id (d_req d)) (rq_approval_id (d_req d)) = Some (d_result d)
  /\ exists a, approval_of (m_store db') (rq_tenant_id (d_req d)) (rq_approval_id (d_req d)) = Some a.
Proof.
  intros W Hd X. destruct (wf_decided _ W d Hd) as (Hin & _ & a & Ha & Ht & Hdec & _). split.
  - unfold decision_of. destruct (ex_decisions _ _ X) as (l & ->). rewrite find_app.
    destruct (List.find _ (m_decisions db)) as [r|] eqn:F.
    + apply List.find_some in F as [Hr [E1%String.eqb_eq E2%N.eqb_eq]%andb_true_iff]. simpl. do 2 f_equal.
      apply list_elem_of_In in Hr.
      apply (unique_eq _ _ _ _ (rq_tenant_id (d_req d), rq_approval_id (d_req d)) (wf_pkey _ W)); try done.
      unfold d_pkey. congruence.
    + apply list_elem_of_In in Hd. pose proof (List.find_none _ _ F _ Hd) as N. simpl in N.
      by rewrite String.eqb_refl, N.eqb_refl in N.
  - exists a. apply approval_of_Some. split; [|done]. apply (ex_approvals _ _ X); [done|]. rewrite Hdec.
    fold (d_req d). intros Ep. rewrite Ep in Hin. by apply list_elem_of_In in Hin; simpl in Hin; naive_solver.
Qed.

Lemma recorded_consumption db db' c :
  wf db -> c ∈ m_consumptions db -> extends db db' ->
  consumption_of db' (cr_tenant_id c) (cr_approval_id c) = Some c
  /\ exists a, approval_of (m_store db') (cr_tenant_id c) (cr_approval_id c) = Some a.
Proof.
  intros W Hc X. split.
  - unfold consumption_of. destruct (ex_consumptions _ _ X) as (l & ->). rewrite find_app.
    destruct (List.find _ (m_consumptions db)) as [r|] eqn:F.
    + apply List.find_some in F as [Hr [E1%String.eqb_eq E2%N.eqb_eq]%andb_true_iff]. f_equal.
      apply list_elem_of_In in Hr.
      apply (unique_eq _ _ _ _ (cr_tenant_id c, cr_approval_id c) (wf_cpkey _ W)); try done. unfold c_pkey. congruence.
    + apply list_elem_of_In in Hc. pose proof (List.find_none _ _ F _ Hc) as N. simpl in N.
      by rewrite String.eqb_refl, N.eqb_refl in N.
  - destruct (wf_approved _ W c Hc) as (d & Hd & [E1 E2] & _).
    destruct (recorded_decision db db' d W Hd X) as [_ (a & Ha)]. exists a. unfold d_req in Ha. by rewrite E1, E2 in Ha.
Qed.

(** C23: Answers are final: once an approval is decided, every later state keeps
    the record, and every later call to decide it, whatever its verifier would
    say, changes nothing and returns the recorded decision when it asks for
    the same and an error otherwise; and likewise once it is consumed. *)
Theorem answers_are_final db h db' h' :
  reachable (db :: h) -> rtc (step verified mandates) (db :: h) (db' :: h') ->
  (forall d, d ∈ m_decisions db -> d ∈ m_decisions db' /\
     forall v now a q verifier time,
       extends db (v_1 v) -> extends db (v_2 v) -> storable (rq_tenant_id (d_req d)) = true ->
       decide_request now a = Ok (q, verifier, time) -> same_approval (d_result d) (rq_tenant_id q) (rq_approval_id q) ->
       decide_approval v db' now a =
         (replayed (same_decision (d_result d) (requested q time None) (bool_decide (is_Some (da_decided_at a))))
            (d_result d), db'))
  /\ (forall c, c ∈ m_consumptions db -> c ∈ m_consumptions db' /\
     forall v now a w time,
       storable (cr_tenant_id c) = true -> consume_request now a = Ok (w, time) ->
       cr_tenant_id w = cr_tenant_id c -> cr_approval_id w = cr_approval_id c ->
       consume_approval v db' now a =
         (if same_consumption c w (bool_decide (is_Some (ca_consumed_at a))) then Ok c
          else refuse "approval was already consumed differently", db')).
Proof.
  intros (db0 & h0 & [= <- <-] & W)%reachable_wf (db1 & h1 & [= <- <-] & X)%steps_extend. split.
  - intros d Hd. split; [destruct (ex_decisions _ _ X) as (l & ->); apply elem_of_app; by left|].
    intros v now a q verifier time X1 X2 Hs Eq [E1 E2].
    destruct (recorded_decision _ _ _ W Hd X1) as [_ (x & Hx)]. destruct (recorded_decision _ _ _ W Hd X2) as [Hd2 _].
    unfold d_req in Hx, Hd2, Hs. rewrite E1, E2 in Hx, Hd2. rewrite E1 in Hs.
    unfold decide_approval. rewrite Eq. cbn [rbind]. unfold decide_preflight, texts_ok. simpl dr_request.
    cbn [forallb]. rewrite Hs. cbn [andb rbind]. rewrite Hx, Hd2. unfold replayed.
    by destruct (same_decision _ _ _).
  - intros c Hc. split; [destruct (ex_consumptions _ _ X) as (l & ->); apply elem_of_app; by left|].
    intros v now a w time Hs Eq E1 E2. destruct (recorded_consumption _ _ _ W Hc X) as [Hc2 (x & Hx)].
    rewrite <- E1, <- E2 in Hc2, Hx. rewrite <- E1 in Hs.
    unfold consume_approval. rewrite Eq. cbn [rbind]. unfold consume_txn, texts_ok. cbn [forallb].
    rewrite Hs. cbn [andb rbind]. rewrite Hx, Hc2. by destruct (same_consumption _ _ _).
Qed.
End facts.

(** ** A concrete history *)
Module ApprovalDemo.
#[export] Instance demo_jsonb : Jsonb := keeping_jsonb.
#[export] Instance no_mandates : MandateAuthority := {|
  founder_mandate_mac _ := Err (Exn (OtherError "RaiseException") "key unavailable");
  mandated_step_mac _ _ _ := Err (Exn (OtherError "RaiseException") "key unavailable");
  require_mandated_step _ _ _ := Err (Exn (OtherError "RaiseException") "refused");
  mandate_guard _ _ := Ok tt;
  mandated_guard _ _ := Ok tt |}.

(** The demonstration's verifier knows the founder only. *)
Definition verified (q : AuthorityRequest) : Prop := rq_decided_by q = "founder".
Definition verifier : AuthorityVerifier := fun q => Ok (JBool (rq_decided_by q =? "founder")%string).

Definition pending_approval : approval :=
  Approval "t1" 7%N "ccto" "pending" None 1000 None "please".
Definition noon : datetime := DT 63800000000000000 (Some 0).
Definition later : datetime := DT 63800000100000000 (Some 0).

Definition decide_call (id : uuid) (key actor kind ref : string) : decide_args := {|
  da_tenant_id := JStr "t1"; da_approval_id := id; da_decision_key := JStr key; da_decision := JStr "approved";
  da_decided_by := JStr actor; da_authority_kind := JStr kind; da_authority_ref := JStr ref;
  da_rationale := JStr "fine"; da_authority_verifier := Some verifier; da_decided_at := None |}.
Definition consume_call (id : uuid) (key adapter : string) : consume_args := {|
  ca_tenant_id := JStr "t1"; ca_approval_id := id; ca_consume_key := JStr key; ca_consumer := JStr "sender";
  ca_effect_adapter := JStr adapter; ca_effect_payload := JObj [("to", JStr "bob"); ("n", JInt 3)];
  ca_consumed_at := None |}.

(** Two pending approvals; the first is decided and consumed. *)
Definition db1 : m5 := M5 (Store {[1%N := pending_approval; 2%N := pending_approval]} ∅ [] []) [] [] [].
Definition views1 : views := Views db1 db1 db1 db1.
Definition decide1 := decide_approval views1 db1 noon (decide_call 1 "k1" "founder" "signed_conveyance" "ref-1").
Definition db2 : m5 := decide1.2.
Definition consume1 := consume_approval db2 db2 later (consume_call 1 "c1" "smtp").
Definition db3 : m5 := consume1.2.

Example decided_and_consumed :
  is_ok decide1.1 && is_ok consume1.1 && existsb is_effect (st_outbox (m_store db3))
  && (List.length (m_decisions db3) =? 1)%nat && (List.length (m_consumptions db3) =? 1)%nat = true.
Proof. vm_compute. reflexivity. Qed.

(** Another actor is not verified; a conveyance is spent; another key is a
    different decision; an unconsumed approval is not consumed undecided. *)
Example approval_refusals :
  [ (decide_approval views1 db1 noon (decide_call 1 "k1" "intern" "founder_direct" "ref-1")).1;
    (decide_approval (Views db3 db3 db3 db3) db3 later (decide_call 2 "k2" "founder" "signed_conveyance" "ref-1")).1;
    (decide_approval (Views db3 db3 db3 db3) db3 later (decide_call 1 "k2" "founder" "signed_conveyance" "ref-1")).1 ]
  = [ refuse "human authority was not verified"; refuse "signed conveyance was already consumed by another approval";
      refuse "approval already has a different decision" ]
  /\ (consume_approval db3 db3 later (consume_call 2 "c2" "smtp")).1 = refuse "only an approved decision can be consumed".
Proof. vm_compute. split; reflexivity. Qed.

(** A second approval decided at the same moment, its checks reading the state
    before the first commit: the index on conveyances stops it. With the first
    one's key instead, the outbox index is hit before the one on keys, so the
    caller is told of an idempotency collision, and not of the key. *)
Example races :
  (decide_approval views1 db2 noon (decide_call 2 "k2" "founder" "signed_conveyance" "ref-1")).1
    = refuse "signed conveyance was already consumed by another approval"
  /\ (decide_approval views1 db2 noon (decide_call 2 "k1" "founder" "founder_direct" "ref-2")).1
    = refuse "approval decision transaction hit an idempotency collision"
  /\ (consume_approval db2 (M5 (m_store db3) (m_decisions db3 ++ [DecisionRow (requested
        {| rq_tenant_id := "t1"; rq_approval_id := 2; rq_decision_key := "k2"; rq_decision := "approved";
           rq_decided_by := "founder"; rq_authority_kind := "founder_direct"; rq_authority_ref := "r";
           rq_rationale := "fine" |} noon None) None]) (m_consumptions db3) []) later (consume_call 2 "c1" "smtp")).1
    = refuse "only an approved decision can be consumed".
Proof. vm_compute. repeat split. Qed.

Definition no_mandate (_ : Mandate) : Prop := False.
Definition history : list m5 := [db3; db2; db1; empty_m5].

Lemma history_reachable : reachable verified no_mandate history.
Proof.
  unfold reachable, history. eapply rtc_l.
  { apply (step_others _ _ [] empty_m5 db1). split; try done.
    - intros id a Ha Hn. exfalso. apply Hn. unfold db1 in Ha. cbn [m_store st_approvals] in Ha.
      rewrite lookup_insert_Some in Ha. destruct Ha as [[_ <-]|[_ Ha]]; [done|].
      apply lookup_singleton_Some in Ha as [_ <-]. done.
    - by exists []. }
  eapply rtc_l.
  { apply (step_decide _ _ [empty_m5] db1 views1 noon
      (decide_call 1 "k1" "founder" "signed_conveyance" "ref-1") decide1.1 db2);
      [| |exact (surjective_pairing decide1)].
    - repeat split; by left.
    - intros v r. cbn. intros [= <-]. unfold verifier, verified. intros [= E]. by apply String.eqb_eq. }
  eapply rtc_l; [|apply rtc_refl].
  apply (step_consume _ _ [db1; empty_m5] db2 db2 later (consume_call 1 "c1" "smtp") consume1.1 db3).
  - by left.
  - exact (surjective_pairing consume1).
Qed.
End ApprovalDemo.
Import ApprovalDemo.

Lemma decisions_are_authorized_witness :
  reachable verified no_mandate [db3; db2; db1; empty_m5]
  /\ exists d, m_decisions db3 = [d] /\ verified (d_req d).
Proof.
  split; [apply history_reachable|].
  destruct (decisions_are_authorized verified no_mandate db3 [db2; db1; empty_m5] history_reachable) as [D _].
  assert ((List.length (m_decisions db3) =? 1)%nat && forallb (fun d => bool_decide (dr_mandate (d_result d) = None)) (m_decisions db3)
    = true) as L by (vm_compute; reflexivity).
  destruct (m_decisions db3) as [|d [|]]; try discriminate L. exists d. split; [reflexivity|].
  destruct (D d) as [A _]; [by left|]. unfold authorized in A. simpl in L. rewrite andb_true_r in L.
  apply bool_decide_eq_true in L. by rewrite L in A.
Defined.

Lemma effects_are_authorized_witness :
  exists o c, o ∈ st_outbox (m_store db3) /\ is_effect o = true /\ c ∈ m_consumptions db3 /\ carries c o.
Proof.
  assert (existsb is_effect (st_outbox (m_store db3)) = true) as E by (vm_compute; reflexivity).
  apply existsb_exists in E as (o & Ho & Hk). apply list_elem_of_In in Ho.
  destruct (effects_are_authorized verified no_mandate db3 [db2; db1; empty_m5] o history_reachable Ho Hk)
    as (c & d & a & Hc & Hco & _).
  exact (ex_intro _ o (ex_intro _ c (conj Ho (conj Hk (conj Hc Hco))))).
Defined.

Lemma answers_are_final_witness :
  exists d, d ∈ m_decisions db3
  /\ decide_approval (Views db3 db3 db3 db3) db3 later (decide_call 1 "k1" "founder" "signed_conveyance" "ref-1")
     = (Ok (d_result d), db3).
Proof.
  assert (match m_decisions db3, decide_request later (decide_call 1 "k1" "founder" "signed_conveyance" "ref-1") with
          | [d], Ok (q, _, t) => storable (rq_tenant_id (d_req d)) && same_decision (d_result d) (requested q t None) false
              && bool_decide (rq_tenant_id (d_req d) = rq_tenant_id q /\ rq_approval_id (d_req d) = rq_approval_id q)
          | _, _ => false end = true) as E by (vm_compute; reflexivity).
  destruct (answers_are_final verified no_mandate db3 [db2; db1; empty_m5] db3 [db2; db1; empty_m5]
    history_reachable (rtc_refl _ _)) as [A _].
  destruct (m_decisions db3) as [|d [|]]; try discriminate E. exists d. split; [by left|].
  destruct (decide_request later _) as [[[q vf] t]|] eqn:Eq; [|discriminate E].
  apply andb_true_iff in E as [[Hs Hsame]%andb_true_iff Hq]. apply bool_decide_eq_true in Hq.
  destruct (A d) as [_ A']; [by left|].
  specialize (A' (Views db3 db3 db3 db3) later _ q vf t (extends_refl db3) (extends_refl db3) Hs Eq Hq).
  refine (eq_trans A' _). unfold replayed. 
  exact (f_equal (fun b : bool => (if b then Ok (d_result d)
    else refuse "approval already has a different decision", db3)) Hsame).
Defined.
