(* ===== verification/DispatchShadow.v ===== *)
(** * The dispatch and approval shadow (fleet_kernel/m5/dispatch_approval_migration.py)

    The legacy files stay authoritative; each cycle mirrors them into tables,
    in one transaction under the tenant's advisory lock, and appends an event
    for whatever changed, so that the files can be rendered from the tables
    and replayed from the events. A sync takes the tables and returns them; one
    that raises is rolled back. Syncs of one tenant are serialized by the lock
    and those of two tenants write different rows, so a sync is one step.
    Tables are maps by their primary key; times are instants, and [now()] of
    an event is left out. *)
From S2P Require Import Prelude PyStr PyFloat PyTime Json Sha256 PyIO JsonText PyValue PyUuid PyUnicode JsonBytes KernelStore Approvals.
From S2P Require Import DispatchRows.
From stdpp Require Import base gmap strings list.
From Stdlib Require Import ZArith NArith Lia Sorted Permutation.

Local Open Scope Z_scope.

(* src: fleet_kernel/m5/dispatch_approval_migration.py _ID_NAMESPACE *)
Definition ID_NAMESPACE : uuid := 119721565236368131758815935546355915236%N.

(** ** Tables *)

Record objective_row := ObjectiveRow {
  or_tenant : string; or_title : string; or_state : string; or_owner : string;
  or_created : Z; or_updated : Z; or_deadline : Z;
}.
Record run_row := RunRow {
  rn_tenant : string; rn_objective : uuid; rn_state : string; rn_worker : string;
  rn_started : option Z; rn_ended : option Z; rn_key : string;
}.
Record dispatch_binding := DispatchBinding {
  db_identity : string; db_objective : uuid; db_run : option uuid; db_approval : option uuid;
  db_ordinal : Z; db_line : string; db_sha256 : string; db_type : string; db_status : string;
  db_present : bool; db_synced : Z;
}.
Record audit_binding := AuditBinding {
  ab_fodl_id : option string; ab_objective : option uuid; ab_approval : option uuid;
  ab_ordinal : Z; ab_line : string; ab_sha256 : string; ab_is_emit : bool; ab_present : bool; ab_synced : Z;
}.
Record document_row := DocumentRow { dc_bytes : string; dc_sha256 : string; dc_synced : Z }.

(** The columns of a snapshot are the fields of [SnapshotResult] and a time. *)
(* src: fleet_kernel/m5/dispatch_approval_migration.py SnapshotResult *)
Record SnapshotResult := Snapshot {
  sr_snapshot_id : uuid;
  sr_tenant_id : string;
  sr_cycle_key : string;
  sr_dispatch_sha256 : string;
  sr_dispatch_render_sha256 : string;
  sr_fodl_audit_sha256 : string;
  sr_fodl_audit_render_sha256 : string;
  sr_fodl_current_sha256 : string;
  sr_dispatch_rows : nat;
  sr_fodl_audit_rows : nat;
  sr_changed_rows : Z;
  sr_verdict : string;
  sr_differences : list string;
}.

Record shadow := Shadow {
  sh_store : store;
  sh_objectives : gmap uuid objective_row;
  sh_runs : gmap uuid run_row;
  sh_dispatch : gmap (string * string) dispatch_binding;
  sh_audit : gmap (string * string) audit_binding;
  sh_documents : gmap string document_row;
  sh_snapshots : list (SnapshotResult * Z);
}.

Definition set_store (s : shadow) (st : store) : shadow :=
  Shadow st (sh_objectives s) (sh_runs s) (sh_dispatch s) (sh_audit s) (sh_documents s) (sh_snapshots s).
Definition set_objectives (s : shadow) m : shadow :=
  Shadow (sh_store s) m (sh_runs s) (sh_dispatch s) (sh_audit s) (sh_documents s) (sh_snapshots s).
Definition set_runs (s : shadow) m : shadow :=
  Shadow (sh_store s) (sh_objectives s) m (sh_dispatch s) (sh_audit s) (sh_documents s) (sh_snapshots s).
Definition set_dispatch (s : shadow) m : shadow :=
  Shadow (sh_store s) (sh_objectives s) (sh_runs s) m (sh_audit s) (sh_documents s) (sh_snapshots s).
Definition set_audit (s : shadow) m : shadow :=
  Shadow (sh_store s) (sh_objectives s) (sh_runs s) (sh_dispatch s) m (sh_documents s) (sh_snapshots s).
Definition set_documents (s : shadow) m : shadow :=
  Shadow (sh_store s) (sh_objectives s) (sh_runs s) (sh_dispatch s) (sh_audit s) m (sh_snapshots s).
Definition set_snapshots (s : shadow) l : shadow :=
  Shadow (sh_store s) (sh_objectives s) (sh_runs s) (sh_dispatch s) (sh_audit s) (sh_documents s) l.

(** Text parameters: encoded by the driver, which has no NUL either. *)
Definition text_params (l : list string) : res unit :=
  let! _ := rmap encode_str l in texts_ok l.

(** ORDER BY, by a total order on the rows' keys. *)
Section order.
  Context {A : Type} (leb : A -> A -> bool).
Fixpoint insert_by (x : A) (l : list A) : list A :=
  match l with
  | [] => [x]
  | y :: r => if leb x y then x :: l else y :: insert_by x r
  end.
Definition order_by (l : list A) : list A := foldr insert_by [] l.
End order.

(** A line of the replayed state, by source key. *)
Notation replayed := (gmap string (Z * string)).

Section sync.
  Context `{Jsonb} `{Digest} `{IsoTime} `{JsonLimits}.

(* src: fleet_kernel/m5/dispatch_approval_migration.py _id *)
Definition id_ (parts : list string) : uuid := uuid5_bytes ID_NAMESPACE (PyStr.join (of_chars [chr 31]) parts).

(* src: fleet_kernel/m5/dispatch_approval_migration.py _event_key *)
Definition event_key (kind : string) (parts : list string) : res string :=
  let! encoded := dump_bytes (JArr (map JStr (kind :: parts))) in
  Ok ("m5-dispatch-approval:" +:+ kind +:+ ":" +:+ digest encoded).

(* src: fleet_kernel/m5/dispatch_approval_migration.py _objective_state *)
Definition objective_state (status : string) : string :=
  if (status =? "blocked")%string then "blocked"
  else if existsb (String.eqb status) TERMINAL_DISPATCH_STATUSES then "done" else "active".

(* src: fleet_kernel/m5/dispatch_approval_migration.py _run_state *)
Definition run_state (status : string) : res string :=
  match dict_get status [("pending", "scheduled"); ("blocked", "failed"); ("delivered", "succeeded");
                         ("skipped", "cancelled"); ("resolved", "succeeded"); ("closed", "succeeded")] with
  | Some x => Ok x
  | None => Err (Exn KeyError (repr status))
  end.

(** ** Events *)

Definition shadow_destination : string := "m5-shadow:dispatch-approval".

(** The event already there is the one to append. *)
(* src: fleet_kernel/m5/dispatch_approval_migration.py _append_event@14-25 *)
Definition same_event (e : event) (o : option outbox) (event_type : string) (payload : json)
    (objective run : option uuid) (outbox_id : uuid) : bool :=
  (ev_type e =? event_type)%string && py_eq (ev_payload e) payload
  && bool_decide (ev_objective e = objective) && bool_decide (ev_run e = run)
  && match o with
     | Some o => (ob_id o =? outbox_id)%N && bool_decide (ob_destination o = Some shadow_destination)
                 && py_eq (ob_payload o) payload
     | None => false
     end.

(* src: fleet_kernel/m5/dispatch_approval_migration.py _append_event *)
Definition append_event (s : store) (tenant event_type : string) (payload : json) (key : string)
    (objective run : option uuid) : res store :=
  let event_id := id_ [tenant; key; "event"] in
  let outbox_id := id_ [tenant; key; "outbox"] in
  match List.find (fun e => (ev_tenant e =? tenant)%string && (ev_id e =? event_id)%N) (st_events s) with
  | Some e =>
      let o := List.find (fun o => (ob_tenant o =? tenant)%string && bool_decide (ob_event o = Some (ev_id e)))
                 (st_outbox s) in
      require same_event e o event_type payload objective run outbox_id
        else MigrationError, "M5 event idempotency collision" ;;
      Ok s
  | None =>
      let! (seq, s) := next_sequence s tenant in
      let! s := insert_event s (Event event_id tenant seq event_type payload objective run) in
      insert_outbox s (Outbox outbox_id tenant (Some event_id) (Some seq) (Some shadow_destination)
                         shadow_destination payload key)
  end.

(** ** Rows *)

(* src: fleet_kernel/m5/dispatch_approval_migration.py _upsert_objective *)
Definition upsert_objective (s : shadow) (id : uuid) (tenant title owner state : string) (opened deadline now : Z)
    : res shadow :=
  let! _ := text_params [title; owner] in
  Ok (match sh_objectives s !! id with
      | None => set_objectives s (<[id := ObjectiveRow tenant title state owner opened now deadline]> (sh_objectives s))
      | Some o =>
          if (or_tenant o =? tenant)%string
          then set_objectives s (<[id := ObjectiveRow tenant title state owner (or_created o) now deadline]> (sh_objectives s))
          else s
      end).

(* src: fleet_kernel/m5/dispatch_approval_migration.py _upsert_pending_approval *)
Definition upsert_pending_approval (st : store) (id : uuid) (tenant : string) (objective : uuid)
    (requested_by : string) (requested_at : Z) (rationale : string) : res store :=
  let! _ := text_params [requested_by; rationale] in
  match st_approvals st !! id with
  | None =>
      Ok (set_approval st id (Approval tenant objective requested_by "pending" None requested_at None rationale))
  | Some a =>
      raise_if negb (ap_decision a =? "pending")%string
               && negb (bool_decide ((ap_tenant a, ap_objective a, ap_requested_by a, ap_requested_at a, ap_rationale a)
                                     = (tenant, objective, requested_by, requested_at, rationale)))
        with MigrationError, "decided approval request bytes changed" ;;
      Ok (if (ap_decision a =? "pending")%string
          then set_approval st id (Approval tenant objective requested_by (ap_decision a) (ap_decided_by a)
                                     requested_at (ap_decided_at a) rationale)
          else st)
  end.

(** The run of a dispatch that is no approval. *)
(* src: fleet_kernel/m5/dispatch_approval_migration.py _sync_dispatch_rows@55-70 *)
Definition upsert_run (s : shadow) (id : uuid) (tenant : string) (objective : uuid) (state worker key : string)
    (started ended : option Z) : res shadow :=
  let! _ := text_params [worker; key] in
  match sh_runs s !! id with
  | None =>
      raise_if existsb (fun kv => (rn_tenant kv.2 =? tenant)%string && (rn_key kv.2 =? key)%string)
                 (map_to_list (sh_runs s))
        with UniqueViolation, "idx_runs_tenant_dispatch_key" ;;
      Ok (set_runs s (<[id := RunRow tenant objective state worker started ended key]> (sh_runs s)))
  | Some r =>
      Ok (if (rn_tenant r =? tenant)%string then
            let ended' := if existsb (String.eqb state) ["scheduled"; "running"] then None
                          else match rn_ended r with Some e => Some e | None => ended end in
            set_runs s (<[id := RunRow tenant (rn_objective r) state worker started ended' (rn_key r)]> (sh_runs s))
          else s)
  end.

Definition opt_str (o : option string) : json := match o with Some s => JStr s | None => JNull end.

(** The payloads of the events. *)
(* src: fleet_kernel/m5/dispatch_approval_migration.py _sync_dispatch_rows@89-94 *)
Definition dispatch_payload (row : LegacyJsonlRow) : json := JObj [
  ("source_key", JStr (jr_source_key row)); ("dispatch_identity", JStr (jr_identity row));
  ("legacy_ordinal", JInt (Z.of_nat (jr_ordinal row))); ("legacy_line", JStr (jr_line row));
  ("legacy_sha256", JStr (jr_sha256 row)); ("legacy_type", JStr (jr_row_type row));
  ("legacy_status", JStr (jr_status row)); ("present", JBool true)].
(* src: fleet_kernel/m5/dispatch_approval_migration.py _sync_fodl_audit_rows@55-60 *)
Definition audit_payload (row : LegacyFodlAuditRow) : json := JObj [
  ("source_key", JStr (fr_source_key row)); ("fodl_id", opt_str (fr_fodl_id row));
  ("legacy_ordinal", JInt (Z.of_nat (fr_ordinal row))); ("legacy_line", JStr (fr_line row));
  ("legacy_sha256", JStr (fr_sha256 row)); ("is_emit", JBool (bool_decide (is_Some (fr_fodl_id row))));
  ("present", JBool true)].
Definition removed_payload (source_key : string) : json := JObj [("source_key", JStr source_key); ("present", JBool false)].

(* src: fleet_kernel/m5/dispatch_approval_migration.py _sync_dispatch_rows@27-31 *)
Definition dispatch_changed (previous : option dispatch_binding) (row : LegacyJsonlRow) : bool :=
  match previous with
  | None => true
  | Some p => negb (db_sha256 p =? jr_sha256 row)%string || negb (db_ordinal p =? Z.of_nat (jr_ordinal row))
              || negb (db_present p)
  end.

(** The refusals of a row that changed what it may not. *)
(* src: fleet_kernel/m5/dispatch_approval_migration.py _sync_dispatch_rows@15-26 *)
Definition dispatch_allowed (previous : option dispatch_binding) (row : LegacyJsonlRow) : res unit :=
  match previous with
  | None => Ok tt
  | Some p =>
      raise_if existsb (String.eqb (db_status p)) TERMINAL_DISPATCH_STATUSES && negb (jr_status row =? db_status p)%string
        with MigrationError, ("terminal dispatch " +:+ repr (jr_identity row) +:+ " changed status") ;;
      raise_if negb (db_type p =? jr_row_type row)%string
        with MigrationError, ("dispatch " +:+ repr (jr_identity row) +:+ " changed between Run and Approval types") ;;
      Ok tt
  end.

(** The approval or the run a row stands for: their ids, and the tables. *)
(* src: fleet_kernel/m5/dispatch_approval_migration.py _sync_dispatch_rows@42-70 *)
Definition dispatch_target (s : shadow) (tenant : string) (row : LegacyJsonlRow) (objective : uuid) (opened now : Z)
    : res (shadow * option uuid * option uuid) :=
  if (jr_row_type row =? "fodl")%string then
    let approval_id := id_ [tenant; "dispatch"; jr_source_key row; "approval"] in
    let! st := upsert_pending_approval (sh_store s) approval_id tenant objective "legacy-dispatch" opened
                 ("Legacy status " +:+ jr_status row +:+ "; no founder decision inferred from dispatch prose.") in
    Ok (set_store s st, None, Some approval_id)
  else
    let run_id := id_ [tenant; "dispatch"; jr_source_key row; "run"] in
    let! state := run_state (jr_status row) in
    let! s := upsert_run s run_id tenant objective state (py_str (get (jr_value row) "owner")) (jr_source_key row)
                (if (jr_status row =? "pending")%string then None else Some opened)
                (if existsb (String.eqb (jr_status row)) TERMINAL_DISPATCH_STATUSES || (jr_status row =? "blocked")%string
                 then Some now else None) in
    Ok (s, Some run_id, None).

(** One row; [existing] is the table as the call found it. *)
(* src: fleet_kernel/m5/dispatch_approval_migration.py _sync_dispatch_rows@13-99 *)
Definition sync_dispatch_row (existing : gmap (string * string) dispatch_binding) (tenant cycle_key : string) (now : Z)
    (s : shadow) (row : LegacyJsonlRow) : res (shadow * Z) :=
  let previous := existing !! (tenant, jr_source_key row) in
  let! _ := dispatch_allowed previous row in
  let changed := dispatch_changed previous row in
  let! opened := dispatch_opened (jr_value row) None in
  let! deadline := aware_ (get (jr_value row) "deadline_utc") "dispatch deadline" in
  let! _ := encode_str (jr_source_key row) in
  let objective_id := id_ [tenant; "dispatch"; jr_source_key row; "objective"] in
  let! s := upsert_objective s objective_id tenant (py_str (get (jr_value row) "subject"))
              (py_str (get (jr_value row) "owner")) (objective_state (jr_status row)) (instant opened) (instant deadline) now in
  let! (s, run_id, approval_id) := dispatch_target s tenant row objective_id (instant opened) now in
  let! _ := text_params [jr_source_key row; jr_identity row; jr_line row] in
  let s := set_dispatch s (<[(tenant, jr_source_key row) :=
             DispatchBinding (jr_identity row) objective_id run_id approval_id (Z.of_nat (jr_ordinal row)) (jr_line row)
               (jr_sha256 row) (jr_row_type row) (jr_status row) true now]> (sh_dispatch s)) in
  if changed then
    let! key := event_key "dispatch-state" [jr_source_key row; cycle_key; jr_sha256 row] in
    let! st := append_event (sh_store s) tenant "dispatch.state" (dispatch_payload row) key (Some objective_id) run_id in
    Ok (set_store s st, 1)
  else Ok (s, 0).

(** A row of the table that is no longer in the file. *)
(* src: fleet_kernel/m5/dispatch_approval_migration.py _sync_dispatch_rows@100-125 *)
Definition remove_dispatch (tenant cycle_key : string) (now : Z) (s : shadow) (source_key : string)
    (previous : dispatch_binding) : res shadow :=
  let s := set_dispatch s (alter (fun b => DispatchBinding (db_identity b) (db_objective b) (db_run b) (db_approval b)
             (db_ordinal b) (db_line b) (db_sha256 b) (db_type b) (db_status b) false now) (tenant, source_key) (sh_dispatch s)) in
  let s := set_objectives s (alter (fun o => if (or_tenant o =? tenant)%string
             then ObjectiveRow (or_tenant o) (or_title o) "stale" (or_owner o) (or_created o) now (or_deadline o) else o)
             (db_objective previous) (sh_objectives s)) in
  let s := match db_run previous with
           | Some run => set_runs s (alter (fun r =>
               if (rn_tenant r =? tenant)%string && existsb (String.eqb (rn_state r)) ["scheduled"; "running"]
               then RunRow (rn_tenant r) (rn_objective r) "cancelled" (rn_worker r) (rn_started r)
                      (match rn_ended r with Some e => Some e | None => Some now end) (rn_key r) else r)
               run (sh_runs s))
           | None => s
           end in
  let! key := event_key "dispatch-removed" [source_key; cycle_key] in
  let! st := append_event (sh_store s) tenant "dispatch.removed" (removed_payload source_key) key
               (Some (db_objective previous)) (db_run previous) in
  Ok (set_store s st).

(* src: fleet_kernel/m5/dispatch_approval_migration.py _sync_fodl_audit_rows@15-19 *)
Definition audit_changed (previous : option audit_binding) (row : LegacyFodlAuditRow) : bool :=
  match previous with
  | None => true
  | Some p => negb (ab_sha256 p =? fr_sha256 row)%string || negb (ab_ordinal p =? Z.of_nat (fr_ordinal row))
              || negb (ab_present p)
  end.

(** The objective and the pending approval of an emission. *)
(* src: fleet_kernel/m5/dispatch_approval_migration.py _sync_fodl_audit_rows@21-37 *)
Definition audit_target (s : shadow) (tenant : string) (row : LegacyFodlAuditRow) (now : Z)
    : res (shadow * option uuid * option uuid) :=
  match fr_fodl_id row with
  | None => Ok (s, None, None)
  | Some fodl_id =>
      let! requested_at := aware_ (get (fr_value row) "ts") "FODL emit ts" in
      let! _ := encode_str (fr_source_key row) in
      let objective_id := id_ [tenant; "fodl-audit"; fr_source_key row; "objective"] in
      let approval_id := id_ [tenant; "fodl-audit"; fr_source_key row; "approval"] in
      let! s := upsert_objective s objective_id tenant fodl_id "Founder" "blocked" (instant requested_at)
                  (instant requested_at) now in
      let! st := upsert_pending_approval (sh_store s) approval_id tenant objective_id
                   (py_str (get (fr_value row) "originating_agent")) (instant requested_at)
                   "Structured legacy FODL emission; awaiting a typed founder decision." in
      Ok (set_store s st, Some objective_id, Some approval_id)
  end.

(* src: fleet_kernel/m5/dispatch_approval_migration.py _sync_fodl_audit_rows@13-63 *)
Definition sync_audit_row (existing : gmap (string * string) audit_binding) (tenant cycle_key : string) (now : Z)
    (s : shadow) (row : LegacyFodlAuditRow) : res (shadow * Z) :=
  let changed := audit_changed (existing !! (tenant, fr_source_key row)) row in
  let! (s, objective_id, approval_id) := audit_target s tenant row now in
  let! _ := text_params [fr_source_key row; fr_line row] in
  let s := set_audit s (<[(tenant, fr_source_key row) :=
             AuditBinding (fr_fodl_id row) objective_id approval_id (Z.of_nat (fr_ordinal row)) (fr_line row)
               (fr_sha256 row) (bool_decide (is_Some (fr_fodl_id row))) true now]> (sh_audit s)) in
  if changed then
    let! key := event_key "fodl-audit-state" [fr_source_key row; cycle_key; fr_sha256 row] in
    let! st := append_event (sh_store s) tenant "fodl.audit.state" (audit_payload row) key objective_id None in
    Ok (set_store s st, 1)
  else Ok (s, 0).

(* src: fleet_kernel/m5/dispatch_approval_migration.py _sync_fodl_audit_rows@64-78 *)
Definition remove_audit (tenant cycle_key : string) (now : Z) (s : shadow) (source_key : string)
    (previous : audit_binding) : res shadow :=
  let s := set_audit s (alter (fun b => AuditBinding (ab_fodl_id b) (ab_objective b) (ab_approval b) (ab_ordinal b)
             (ab_line b) (ab_sha256 b) (ab_is_emit b) false now) (tenant, source_key) (sh_audit s)) in
  let! key := event_key "fodl-audit-removed" [source_key; cycle_key] in
  let! st := append_event (sh_store s) tenant "fodl.audit.removed" (removed_payload source_key) key
               (ab_objective previous) None in
  Ok (set_store s st).

(** ** The loops *)

Fixpoint each_row {R} (f : shadow -> R -> res (shadow * Z)) (rows : list R) (s : shadow) (changed : Z) : res (shadow * Z) :=
  match rows with
  | [] => Ok (s, changed)
  | r :: rest => let! (s, n) := f s r in each_row f rest s (changed + n)
  end.
(** [for source_key, previous in existing.items()], those still there skipped. *)
Fixpoint each_removed {B} (remove : shadow -> string -> B -> res shadow) (present : B -> bool) (current : list string)
    (existing : list (string * B)) (s : shadow) (changed : Z) : res (shadow * Z) :=
  match existing with
  | [] => Ok (s, changed)
  | (source_key, previous) :: rest =>
      if existsb (String.eqb source_key) current || negb (present previous)
      then each_removed remove present current rest s changed
      else let! s := remove s source_key previous in each_removed remove present current rest s (changed + 1)
  end.

(** The rows of one tenant, in the server's order. *)
Definition tenant_rows {B} (tenant : string) (table : gmap (string * string) B) : list (string * B) :=
  map (fun kv => (kv.1.2, kv.2)) (List.filter (fun kv => (kv.1.1 =? tenant)%string) (map_to_list table)).

(* src: fleet_kernel/m5/dispatch_approval_migration.py _sync_dispatch_rows *)
Definition sync_dispatch_rows (s : shadow) (tenant cycle_key : string) (rows : list LegacyJsonlRow) (now : Z)
    : res (shadow * Z) :=
  let existing := sh_dispatch s in
  let! (s, changed) := each_row (sync_dispatch_row existing tenant cycle_key now) rows s 0 in
  each_removed (remove_dispatch tenant cycle_key now) db_present (map jr_source_key rows) (tenant_rows tenant existing)
    s changed.

(* src: fleet_kernel/m5/dispatch_approval_migration.py _sync_fodl_audit_rows *)
Definition sync_fodl_audit_rows (s : shadow) (tenant cycle_key : string) (rows : list LegacyFodlAuditRow) (now : Z)
    : res (shadow * Z) :=
  let existing := sh_audit s in
  let! (s, changed) := each_row (sync_audit_row existing tenant cycle_key now) rows s 0 in
  each_removed (remove_audit tenant cycle_key now) ab_present (map fr_source_key rows) (tenant_rows tenant existing)
    s changed.

(** ** Rendering *)

(** [ORDER BY legacy_ordinal, source_key]; rows of one file have different
    ordinals, so the collation of the keys does not matter. *)
Definition line_leb (a b : Z * string * string) : bool :=
  (a.1.1 <? b.1.1) || (a.1.1 =? b.1.1) && key_leb (chars a.1.2) (chars b.1.2).
Definition dispatch_lines (tenant : string) (s : shadow) : list string :=
  map snd (order_by line_leb (map (fun kv => (db_ordinal kv.2, kv.1, db_line kv.2))
    (List.filter (fun kv => db_present kv.2) (tenant_rows tenant (sh_dispatch s))))).
Definition audit_lines (tenant : string) (s : shadow) : list string :=
  map snd (order_by line_leb (map (fun kv => (ab_ordinal kv.2, kv.1, ab_line kv.2))
    (List.filter (fun kv => ab_present kv.2) (tenant_rows tenant (sh_audit s))))).
Definition document_bytes (tenant : string) (s : shadow) : bytes :=
  match sh_documents s !! tenant with Some d => chars (dc_bytes d) | None => [] end.

(* src: fleet_kernel/m5/dispatch_approval_migration.py render_kernel_surfaces *)
Definition render_kernel_surfaces (s : shadow) (tenant : string) : bytes * bytes * bytes :=
  (render (dispatch_lines tenant s), render (audit_lines tenant s), document_bytes tenant s).

(** ** A cycle *)

(** The document, when its digest changed. *)
(* src: fleet_kernel/m5/dispatch_approval_migration.py sync_legacy_surfaces@51-71 *)
Definition sync_document (s : shadow) (tenant cycle_key : string) (data : bytes) (now : Z) : res (shadow * Z) :=
  let current_sha := digest (of_chars data) in
  let same := match sh_documents s !! tenant with
              | Some d => (dc_sha256 d =? current_sha)%string | None => false end in
  if same then Ok (s, 0) else
  let s := set_documents s (<[tenant := DocumentRow (of_chars data) current_sha now]> (sh_documents s)) in
  let! key := event_key "fodl-document" [cycle_key; current_sha] in
  let! st := append_event (sh_store s) tenant "fodl.document"
               (JObj [("legacy_b64", JStr (of_chars (b64encode data))); ("legacy_sha256", JStr current_sha)]) key None None in
  Ok (set_store s st, 1).

Definition snapshot_of (s : shadow) (tenant cycle_key : string) : option SnapshotResult :=
  fst <$> List.find (fun r => (sr_tenant_id r.1 =? tenant)%string && (sr_cycle_key r.1 =? cycle_key)%string) (sh_snapshots s).

Definition snapshot_constraints : list (constraint (SnapshotResult * Z)) := [
  ("m5_surface_snapshots_pkey", on (fun r => Some (sr_snapshot_id r.1)));
  ("m5_surface_snapshots_tenant_id_cycle_key_key", on (fun r => Some (sr_tenant_id r.1, sr_cycle_key r.1)))].

Record surfaces := Surfaces { sf_dispatch : bytes; sf_audit : bytes; sf_current : bytes }.

(* src: fleet_kernel/m5/dispatch_approval_migration.py sync_legacy_surfaces@84-94 *)
Definition differences (s : shadow) (tenant : string) (d : surfaces) : list string :=
  let '(dispatch, audit, _) := render_kernel_surfaces s tenant in
  (if bool_decide (dispatch = sf_dispatch d) then [] else ["dispatch_byte_mismatch"])
  ++ (if bool_decide (audit = sf_audit d) then [] else ["fodl_audit_byte_mismatch"])
  ++ match sh_documents s !! tenant with
     | Some doc => if bool_decide (chars (dc_bytes doc) = sf_current d) then [] else ["fodl_current_byte_mismatch"]
     | None => ["fodl_current_byte_mismatch"]
     end.

(** The transaction of a cycle that was not run before. *)
(* src: fleet_kernel/m5/dispatch_approval_migration.py sync_legacy_surfaces@45-118 *)
Definition run_cycle (s : shadow) (tenant cycle_key : string) (d : surfaces) (dispatch : list LegacyJsonlRow)
    (audit : list LegacyFodlAuditRow) (now : Z) : res (SnapshotResult * shadow) :=
  let! (s, n) := sync_dispatch_rows s tenant cycle_key dispatch now in
  let! (s, m) := sync_fodl_audit_rows s tenant cycle_key audit now in
  let! (s, k) := sync_document s tenant cycle_key (sf_current d) now in
  raise_if negb (bool_decide (differences s tenant d = []))
    with MigrationError, ("M5 parity divergence; shadow transaction rolled back: "
                          +:+ PyStr.join ", " (differences s tenant d)) ;;
  let '(dispatch_render, audit_render, _) := render_kernel_surfaces s tenant in
  let snapshot := Snapshot (id_ [tenant; cycle_key; "snapshot"]) tenant cycle_key
    (digest (of_chars (sf_dispatch d))) (digest (of_chars dispatch_render))
    (digest (of_chars (sf_audit d))) (digest (of_chars audit_render)) (digest (of_chars (sf_current d)))
    (List.length dispatch) (List.length audit) (n + m + k) "clean" [] in
  let! rows := insert_row snapshot_constraints (snapshot, now) (sh_snapshots s) in
  Ok (snapshot, set_snapshots s rows).

(* src: fleet_kernel/m5/dispatch_approval_migration.py sync_legacy_surfaces@29-43 *)
Definition replay_cycle (prior : SnapshotResult) (d : surfaces) : res SnapshotResult :=
  require (sr_dispatch_sha256 prior =? digest (of_chars (sf_dispatch d)))%string
          && (sr_fodl_audit_sha256 prior =? digest (of_chars (sf_audit d)))%string
          && (sr_fodl_current_sha256 prior =? digest (of_chars (sf_current d)))%string
    else MigrationError, "cycle_key replay carries different legacy surface bytes" ;;
  Ok prior.

(* src: fleet_kernel/m5/dispatch_approval_migration.py sync_legacy_surfaces *)
Definition sync_legacy_surfaces (s : shadow) (tenant cycle_key : string) (d : surfaces) (now : datetime)
    (compared_at : option datetime) : res SnapshotResult * shadow :=
  match
    require nonblank_u tenant && nonblank_u cycle_key else MigrationError, "tenant_id and cycle_key are required" ;;
    let! dispatch := parse_dispatch_bytes (sf_dispatch d) in
    let! audit := parse_fodl_audit_bytes (sf_audit d) in
    require decodable (sf_current d) else MigrationError, "FODL current markdown is not UTF-8" ;;
    let time := default now compared_at in
    require aware time else MigrationError, "compared_at must be timezone-aware" ;;
    let! _ := text_params [tenant; cycle_key] in
    match snapshot_of s tenant cycle_key with
    | Some prior => let! r := replay_cycle prior d in Ok (r, s)
    | None => run_cycle s tenant cycle_key d dispatch audit (instant time)
    end
  with
  | Ok (r, s') => (Ok r, s')
  | Err e => (Err e, s)
  end.

(** ** Replay *)

Definition M5_EVENT_TYPES : list string := [
  "dispatch.state"; "dispatch.removed"; "fodl.audit.state"; "fodl.audit.removed"; "fodl.document"].

(* src: fleet_kernel/m5/dispatch_approval_migration.py replay_legacy_from_events@22-32 *)
Definition replay_document (payload : dict) : res bytes :=
  require same_keys payload ["legacy_b64"; "legacy_sha256"] else MigrationError, "FODL document replay schema is invalid" ;;
  match get payload "legacy_b64" with
  | JStr s =>
      match b64decode (chars s) with
      | None => refuse "FODL document replay bytes are invalid"
      | Some raw =>
          require py_eq (JStr (digest (of_chars raw))) (get payload "legacy_sha256")
            else MigrationError, "FODL document replay digest is invalid" ;;
          Ok raw
      end
  | _ => refuse "FODL document replay bytes are invalid"
  end.

(* src: fleet_kernel/m5/dispatch_approval_migration.py replay_legacy_from_events@34-41 *)
Definition replay_removal (target : replayed) (payload : dict) : res replayed :=
  require same_keys payload ["source_key"; "present"] && match get payload "present" with JBool false => true | _ => false end
    else MigrationError, "M5 removal replay schema is invalid" ;;
  match get payload "source_key" with
  | JStr k =>
      match target !! k with
      | Some _ => Ok (base.delete k target)
      | None => refuse "M5 removal replay lacks active state"
      end
  | _ => refuse "M5 removal replay lacks active state"
  end.

(* src: fleet_kernel/m5/dispatch_approval_migration.py replay_legacy_from_events@42-64 *)
Definition replay_state (event_type : string) (target : replayed) (payload : dict) : res replayed :=
  let required := ["source_key"; "legacy_ordinal"; "legacy_line"; "legacy_sha256"; "present"]
    ++ (if (event_type =? "dispatch.state")%string then ["dispatch_identity"; "legacy_type"; "legacy_status"]
        else ["fodl_id"; "is_emit"]) in
  require same_keys payload required && match get payload "present" with JBool true => true | _ => false end
    else MigrationError, "M5 state replay schema is invalid" ;;
  match get payload "source_key", get payload "legacy_line", get payload "legacy_ordinal" with
  | JStr k, JStr line, JInt ordinal =>
      let! encoded := encode_str line in
      require truthy k && (0 <=? ordinal) && py_eq (JStr (digest encoded)) (get payload "legacy_sha256")
        else MigrationError, "M5 replay line identity is invalid" ;;
      Ok (<[k := (ordinal, line)]> target)
  | _, _, _ => refuse "M5 replay line identity is invalid"
  end.

(** The three accumulators of the loop. *)
Record replay := Replay { rp_dispatch : replayed; rp_audit : replayed; rp_document : bytes }.

(* src: fleet_kernel/m5/dispatch_approval_migration.py replay_legacy_from_events@16-64 *)
Definition replay_event (r : replay) (e : event) : res replay :=
  match ev_payload e with
  | JObj payload =>
      if (ev_type e =? "fodl.document")%string then
        let! raw := replay_document payload in Ok (Replay (rp_dispatch r) (rp_audit r) raw)
      else
        let dispatch := startswith (ev_type e) "dispatch." in
        let target := if dispatch then rp_dispatch r else rp_audit r in
        let! target := if existsb (String.eqb (ev_type e)) ["dispatch.removed"; "fodl.audit.removed"]
                       then replay_removal target payload else replay_state (ev_type e) target payload in
        Ok (if dispatch then Replay target (rp_audit r) (rp_document r) else Replay (rp_dispatch r) target (rp_document r))
  | _ => refuse "M5 replay payload is not an object"
  end.

Fixpoint replay_events (r : replay) (l : list event) : res replay :=
  match l with [] => Ok r | e :: rest => let! r := replay_event r e in replay_events r rest end.

(** Unique and contiguous: [sorted] by ordinal gives 0, 1, .... *)
(* src: fleet_kernel/m5/dispatch_approval_migration.py replay_legacy_from_events@65-69 *)
Definition rendered (state : replayed) : res bytes :=
  let rows := order_by (fun a b => a.1 <=? b.1) (map snd (map_to_list state)) in
  require bool_decide (map fst rows = map Z.of_nat (seq 0 (List.length rows)))
    else MigrationError, "M5 replay ordinals are not unique and contiguous" ;;
  Ok (render (map snd rows)).

Definition m5_events (s : store) (tenant : string) : list event :=
  order_by (fun a b => ev_seq a <=? ev_seq b)
    (List.filter (fun e => existsb (String.eqb (ev_type e)) M5_EVENT_TYPES) (stream s tenant)).

(* src: fleet_kernel/m5/dispatch_approval_migration.py replay_legacy_from_events *)
Definition replay_legacy_from_events (s : store) (tenant : string) : res (bytes * bytes * bytes) :=
  let! r := replay_events (Replay ∅ ∅ []) (m5_events s tenant) in
  let! dispatch := rendered (rp_dispatch r) in
  let! audit := rendered (rp_audit r) in
  Ok (dispatch, audit, rp_document r).

(** ** The parity gate *)

Definition clean (r : SnapshotResult) : bool :=
  (sr_verdict r =? "clean")%string && (sr_dispatch_sha256 r =? sr_dispatch_render_sha256 r)%string
  && (sr_fodl_audit_sha256 r =? sr_fodl_audit_render_sha256 r)%string.

Fixpoint consecutive (l : list SnapshotResult) : Z :=
  match l with r :: rest => if clean r then 1 + consecutive rest else 0 | [] => 0 end.

Record gate := Gate { g_ready : bool; g_required : Z; g_consecutive : Z; g_latest : string }.

(** [ORDER BY compared_at DESC, cycle_key DESC]. *)
Definition newest_leb (a b : SnapshotResult * Z) : bool :=
  (b.2 <? a.2) || (a.2 =? b.2) && key_leb (chars (sr_cycle_key b.1)) (chars (sr_cycle_key a.1)).

(* src: fleet_kernel/m5/dispatch_approval_migration.py parity_gate_status *)
Definition parity_gate_status (s : shadow) (tenant : string) (required_cycles : Z) : res gate :=
  raise_if required_cycles <? 1 with ValueError, "required_cycles must be positive" ;;
  let rows := take (Z.to_nat required_cycles) (map fst (order_by newest_leb
    (List.filter (fun r => (sr_tenant_id r.1 =? tenant)%string) (sh_snapshots s)))) in
  let n := consecutive rows in
  Ok (Gate (required_cycles <=? n) required_cycles n (match rows with r :: _ => sr_cycle_key r | [] => "" end)).
End sync.

(** An id is a digest: nothing below looks inside. *)
#[global] Opaque id_.

(** ** A sync decides nothing *)

(** What a statement of the sync may do to the shared tables. *)
Record quiet (s s' : store) : Prop := {
  q_decided id a : st_approvals s !! id = Some a -> ap_decision a <> "pending" -> st_approvals s' !! id = Some a;
  q_pending id a : st_approvals s' !! id = Some a -> ap_decision a <> "pending" -> st_approvals s !! id = Some a;
  q_outbox : exists new, st_outbox s' = st_outbox s ++ new
    /\ Forall (fun o => Approvals.approval_key (ob_key o) = false) new;
  q_keys : unique (fun o => Some (ob_tenant o, ob_key o)) (st_outbox s)
    -> unique (fun o => Some (ob_tenant o, ob_key o)) (st_outbox s');
  q_stream : stream_wf s -> stream_wf s';
}.
#[export] Instance quiet_refl : Reflexive quiet.
Proof. split; try done. exists []. by rewrite app_nil_r. Qed.
#[export] Instance quiet_trans : Transitive quiet.
Proof.
  intros a b c [d1 p1 (n1 & o1 & f1) k1 s1] [d2 p2 (n2 & o2 & f2) k2 s2]. split; eauto.
  exists (n1 ++ n2). rewrite app_assoc, <- o1. split; [done|]. by apply Forall_app.
Qed.

Section quiet.
  Context `{Jsonb} `{Digest} `{IsoTime} `{JsonLimits}.

Lemma text_params_ok l u x : text_params l = Ok u -> x ∈ l -> encode_str x = Ok x.
Proof.
  unfold text_params. rewrite rbind_ok. intros (ys & E & _). clear u. revert ys E.
  induction l as [|y l IH]; intros ys E Hx; [by apply elem_of_nil in Hx|]. simpl in E.
  apply rbind_ok in E as (z & Ez & E). apply rbind_ok in E as (zs & Ezs & _).
  apply elem_of_cons in Hx as [->|Hx]; [|by eapply IH].
  unfold encode_str in *. by destruct (decodable (chars y)).
Qed.

Lemma event_key_quiet kind parts k : event_key kind parts = Ok k -> Approvals.approval_key k = false.
Proof. unfold event_key. rewrite rbind_ok. intros (e & _ & [= <-]). done. Qed.

Lemma append_event_cases s t ty p key o r s' :
  append_event s t ty p key o r = Ok s' ->
  s' = s /\ (exists e, e ∈ st_events s /\ ev_tenant e = t /\ ev_id e = id_ [t; key; "event"] /\ ev_type e = ty)
  \/ exists n s1 q ob, next_sequence s t = Ok (n, s1) /\ jsonb p = Some q
     /\ st_approvals s' = st_approvals s /\ st_heads s' = st_heads s1
     /\ st_events s' = st_events s ++ [Event (id_ [t; key; "event"]) t n ty q o r]
     /\ st_outbox s' = st_outbox s ++ [ob] /\ ob_key ob = key
     /\ (unique (fun o => Some (ob_tenant o, ob_key o)) (st_outbox s)
         -> unique (fun o => Some (ob_tenant o, ob_key o)) (st_outbox s')).
Proof.
  unfold append_event. cbv zeta. generalize (id_ [t; key; "event"]) (id_ [t; key; "outbox"]). intros eid oid.
  destruct (List.find _ _) as [e|] eqn:F; intros E.
  - guards in E. destruct E as [G [= <-]]. left. split; [done|].
    apply List.find_some in F as [Hin [Ht%String.eqb_eq Hi%N.eqb_eq]%andb_true_iff]. exists e.
    split; [by apply list_elem_of_In|]. repeat split; try done. unfold same_event in G. bools in G.
    by destruct G as [[[[-> _] _] _] _].
  - right. apply rbind_ok in E as ([n s1] & En & E). apply rbind_ok in E as (s2 & E2 & E3).
    destruct (next_sequence_ok _ _ _ _ En) as (_ & _ & _ & Ea & Ee & Eo).
    unfold insert_event in E2. apply rbind_ok in E2 as (q & Eq & E2). apply rbind_ok in E2 as (rows & Er & [= <-]).
    unfold insert_outbox in E3. apply rbind_ok in E3 as ([] & _ & E3). apply rbind_ok in E3 as (q' & _ & E3).
    apply rbind_ok in E3 as (out & Eout & [= <-]). simpl in *. unfold to_jsonb in Eq.
    destruct (jsonb p) as [q0|]; [|done]. injection Eq as ->.
    pose proof (insert_row_ok _ _ _ _ Er) as [-> _]. pose proof (insert_row_ok _ _ _ _ Eout) as [Hout _].
    exists n, s1, q. eexists. repeat split; try done; rewrite <- ?Ee, <- ?Eo; try done.
    intros U. eapply unique_insert; [exact Eout| |exact U]. right. left.
Qed.

Lemma append_event_quiet s t ty p key o r s' :
  append_event s t ty p key o r = Ok s' -> Approvals.approval_key key = false -> quiet s s'.
Proof.
  intros [[-> _]|(n & s1 & q & ob & En & _ & Ea & Eh & Ee & Eo & Ek & U)]%append_event_cases Hk; [done|]. split.
  - by rewrite Ea.
  - by rewrite Ea.
  - exists [ob]. split; [done|]. constructor; [by rewrite Ek|done].
  - done.
  - intros W. by apply (stream_wf_append s s1 s' t n (Event (id_ [t; key; "event"]) t n ty q o r)).
Qed.

Lemma upsert_pending_quiet s id t ob rb ra ra' s' :
  upsert_pending_approval s id t ob rb ra ra' = Ok s' -> quiet s s'.
Proof.
  unfold upsert_pending_approval. rewrite rbind_ok. intros ([] & _ & E).
  assert (forall x, (forall a, st_approvals s !! id = Some a -> ap_decision a = "pending") -> ap_decision x = "pending" ->
            quiet s (set_approval s id x)) as Q.
  { intros x Hold Hx. split; simpl; try done.
    - intros i a Ha Hn. rewrite lookup_insert_ne; [done|]. intros <-. by apply Hn, Hold.
    - intros i a. destruct (decide (id = i)) as [<-|Ne].
      + rewrite lookup_insert_eq. by intros [= <-].
      + by rewrite lookup_insert_ne.
    - exists []. by rewrite app_nil_r. }
  destruct (st_approvals s !! id) as [a|] eqn:Ha.
  - guards in E. destruct E as [_ [= <-]]. destruct (String.eqb_spec (ap_decision a) "pending") as [Ep|]; [|done].
    apply Q; [|done]. by intros b [= <-].
  - injection E as <-. by apply Q.
Qed.

Lemma upsert_objective_store s id t ti ow st op de now s' :
  upsert_objective s id t ti ow st op de now = Ok s' ->
  sh_store s' = sh_store s /\ sh_dispatch s' = sh_dispatch s /\ sh_audit s' = sh_audit s
  /\ sh_documents s' = sh_documents s /\ sh_snapshots s' = sh_snapshots s.
Proof.
  unfold upsert_objective. rewrite rbind_ok. intros ([] & _ & [= <-]).
  destruct (sh_objectives s !! id) as [o|]; [|done]. by destruct (or_tenant o =? t)%string.
Qed.

Lemma dispatch_target_store s t row ob op now s' run ap :
  dispatch_target s t row ob op now = Ok (s', run, ap) ->
  quiet (sh_store s) (sh_store s') /\ st_events (sh_store s') = st_events (sh_store s)
  /\ st_heads (sh_store s') = st_heads (sh_store s)
  /\ sh_dispatch s' = sh_dispatch s /\ sh_audit s' = sh_audit s
  /\ sh_documents s' = sh_documents s /\ sh_snapshots s' = sh_snapshots s.
Proof.
  unfold dispatch_target. destruct (jr_row_type row =? "fodl")%string; intros E.
  - apply rbind_ok in E as (st & E & [= <- <- <-]). simpl. split; [by eapply upsert_pending_quiet|].
    unfold upsert_pending_approval in E. apply rbind_ok in E as ([] & _ & E).
    destruct (st_approvals _ !! _) as [a|]; [|by injection E as <-].
    guards in E. destruct E as [_ [= <-]]. by destruct (ap_decision a =? "pending")%string.
  - apply rbind_ok in E as (state & _ & E). apply rbind_ok in E as (s1 & E & [= <- <- <-]).
    unfold upsert_run in E. apply rbind_ok in E as ([] & _ & E). destruct (sh_runs s !! _) as [r|].
    + injection E as <-. by destruct (rn_tenant r =? t)%string.
    + guards in E. by destruct E as [_ [= <-]].
Qed.

Lemma audit_target_store s t row now s' ob ap :
  audit_target s t row now = Ok (s', ob, ap) ->
  quiet (sh_store s) (sh_store s') /\ st_events (sh_store s') = st_events (sh_store s)
  /\ st_heads (sh_store s') = st_heads (sh_store s)
  /\ sh_dispatch s' = sh_dispatch s /\ sh_audit s' = sh_audit s
  /\ sh_documents s' = sh_documents s /\ sh_snapshots s' = sh_snapshots s.
Proof.
  unfold audit_target. destruct (fr_fodl_id row) as [id|]; [|by intros [= <- <- <-]]. intros E.
  apply rbind_ok in E as (at_ & _ & E). apply rbind_ok in E as (sk & _ & E). cbv zeta in E.
  apply rbind_ok in E as (s1 & E1 & E). apply rbind_ok in E as (st & E2 & [= <- <- <-]).
  apply upsert_objective_store in E1 as (E3 & E4 & E5 & E6 & E7). simpl. rewrite E4, E5, E6, E7.
  pose proof (upsert_pending_quiet _ _ _ _ _ _ _ _ E2) as Q. rewrite E3 in Q. split; [done|].
  unfold upsert_pending_approval in E2. apply rbind_ok in E2 as ([] & _ & E2). rewrite E3 in E2.
  destruct (st_approvals _ !! _) as [a|]; [|by injection E2 as <-].
  guards in E2. destruct E2 as [_ [= <-]]. by destruct (ap_decision a =? "pending")%string.
Qed.

(** ** What a row, a removal and a document do *)

(** The tables of the surfaces, and the events of the shared ones, are those
    of before. *)
Definition surfaces_kept (s s' : shadow) : Prop :=
  sh_dispatch s' = sh_dispatch s /\ sh_audit s' = sh_audit s /\ sh_documents s' = sh_documents s
  /\ sh_snapshots s' = sh_snapshots s.
Definition stream_kept (s s' : store) : Prop := st_events s' = st_events s /\ st_heads s' = st_heads s.

(** An event appended, or nothing to append. *)
Definition appended (s s' : store) (t ty : string) (p : json) (changed : bool) (kind : string) (parts : list string) : Prop :=
  if changed then exists key o r, event_key kind parts = Ok key /\ append_event s t ty p key o r = Ok s' else s' = s.

Lemma appended_quiet s s' t ty p b kind parts : appended s s' t ty p b kind parts -> quiet s s'.
Proof.
  unfold appended. destruct b; [|by intros ->]. intros (key & o & r & Ek & E).
  eapply append_event_quiet; [exact E|]. by eapply event_key_quiet.
Qed.

Lemma sync_dispatch_row_ok ex t c now s row s' n :
  sync_dispatch_row ex t c now s row = Ok (s', n) ->
  let changed := dispatch_changed (ex !! (t, jr_source_key row)) row in
  exists s0 b, quiet (sh_store s) s0 /\ stream_kept (sh_store s) s0
    /\ sh_dispatch s' = <[(t, jr_source_key row) := b]> (sh_dispatch s)
    /\ db_ordinal b = Z.of_nat (jr_ordinal row) /\ db_line b = jr_line row /\ db_sha256 b = jr_sha256 row
    /\ db_present b = true /\ encode_str (jr_line row) = Ok (jr_line row)
    /\ sh_audit s' = sh_audit s /\ sh_documents s' = sh_documents s /\ sh_snapshots s' = sh_snapshots s
    /\ appended s0 (sh_store s') t "dispatch.state" (dispatch_payload row) changed "dispatch-state"
         [jr_source_key row; c; jr_sha256 row].
Proof.
  unfold sync_dispatch_row. cbv zeta. intros E. apply rbind_ok in E as ([] & _ & E). apply rbind_ok in E as (op & _ & E).
  apply rbind_ok in E as (dl & _ & E). apply rbind_ok in E as (sk & _ & E). apply rbind_ok in E as (s1 & E1 & E).
  apply rbind_ok in E as ([[s2 run] ap] & E2 & E). apply rbind_ok in E as ([] & Et & E).
  apply (text_params_ok _ _ (jr_line row)) in Et; [|do 2 right; by left].
  apply upsert_objective_store in E1 as (A1 & A2 & A3 & A4 & A5).
  apply dispatch_target_store in E2 as (Q & B1 & B2 & B3 & B4 & B5 & B6).
  rewrite A1 in Q, B1, B2.
  exists (sh_store s2). eexists. split; [exact Q|]. split; [by split|].
  destruct (dispatch_changed _ row).
  - apply rbind_ok in E as (key & Ek & E). apply rbind_ok in E as (st & Es & [= <- <-]). simpl in *.
    rewrite ?B3, ?B4, ?B5, ?B6, ?A2, ?A3, ?A4, ?A5. split; [reflexivity|]. repeat (split; [done|]). by exists key, (Some (id_ [t; "dispatch"; jr_source_key row; "objective"])), run.
  - injection E as <- <-. simpl in *. rewrite ?B3, ?B4, ?B5, ?B6, ?A2, ?A3, ?A4, ?A5. split; [reflexivity|]. done.
Qed.

Lemma sync_audit_row_ok ex t c now s row s' n :
  sync_audit_row ex t c now s row = Ok (s', n) ->
  let changed := audit_changed (ex !! (t, fr_source_key row)) row in
  exists s0 b, quiet (sh_store s) s0 /\ stream_kept (sh_store s) s0
    /\ sh_audit s' = <[(t, fr_source_key row) := b]> (sh_audit s)
    /\ ab_ordinal b = Z.of_nat (fr_ordinal row) /\ ab_line b = fr_line row /\ ab_sha256 b = fr_sha256 row
    /\ ab_present b = true /\ encode_str (fr_line row) = Ok (fr_line row)
    /\ sh_dispatch s' = sh_dispatch s /\ sh_documents s' = sh_documents s /\ sh_snapshots s' = sh_snapshots s
    /\ appended s0 (sh_store s') t "fodl.audit.state" (audit_payload row) changed "fodl-audit-state"
         [fr_source_key row; c; fr_sha256 row].
Proof.
  unfold sync_audit_row. cbv zeta. intros E. apply rbind_ok in E as ([[s2 ob] ap] & E2 & E).
  apply rbind_ok in E as ([] & Et & E). apply (text_params_ok _ _ (fr_line row)) in Et; [|right; by left].
  apply audit_target_store in E2 as (Q & B1 & B2 & B3 & B4 & B5 & B6).
  exists (sh_store s2). eexists. split; [exact Q|]. split; [by split|].
  destruct (audit_changed _ row).
  - apply rbind_ok in E as (key & Ek & E). apply rbind_ok in E as (st & Es & [= <- <-]). simpl in *.
    rewrite ?B3, ?B4, ?B5, ?B6. split; [reflexivity|]. repeat (split; [done|]). by exists key, ob, None.
  - injection E as <- <-. simpl in *. rewrite ?B3, ?B4, ?B5, ?B6. split; [reflexivity|]. done.
Qed.

Lemma remove_dispatch_ok t c now s k p s' :
  remove_dispatch t c now s k p = Ok s' ->
  (exists f, sh_dispatch s' = alter f (t, k) (sh_dispatch s) /\ forall b, db_present (f b) = false /\ db_sha256 (f b) = db_sha256 b
     /\ db_line (f b) = db_line b)
  /\ sh_audit s' = sh_audit s /\ sh_documents s' = sh_documents s /\ sh_snapshots s' = sh_snapshots s
  /\ appended (sh_store s) (sh_store s') t "dispatch.removed" (removed_payload k) true "dispatch-removed" [k; c].
Proof.
  unfold remove_dispatch. cbv zeta. intros E. apply rbind_ok in E as (key & Ek & E).
  apply rbind_ok in E as (st & Es & [= <-]).
  destruct (db_run p); simpl in *; (split; [by eexists|]; repeat (split; [done|]); by eexists key, _, _).
Qed.

Lemma remove_audit_ok t c now s k p s' :
  remove_audit t c now s k p = Ok s' ->
  (exists f, sh_audit s' = alter f (t, k) (sh_audit s) /\ forall b, ab_present (f b) = false /\ ab_sha256 (f b) = ab_sha256 b
     /\ ab_line (f b) = ab_line b)
  /\ sh_dispatch s' = sh_dispatch s /\ sh_documents s' = sh_documents s /\ sh_snapshots s' = sh_snapshots s
  /\ appended (sh_store s) (sh_store s') t "fodl.audit.removed" (removed_payload k) true "fodl-audit-removed" [k; c].
Proof.
  unfold remove_audit. cbv zeta. intros E. apply rbind_ok in E as (key & Ek & E).
  apply rbind_ok in E as (st & Es & [= <-]). simpl in *.
  split; [by eexists|]. repeat (split; [done|]). by eexists key, _, _.
Qed.

Lemma sync_document_ok s t c data now s' n :
  sync_document s t c data now = Ok (s', n) ->
  let changed := match sh_documents s !! t with Some d => negb (dc_sha256 d =? digest (of_chars data))%string | None => true end in
  sh_dispatch s' = sh_dispatch s /\ sh_audit s' = sh_audit s /\ sh_snapshots s' = sh_snapshots s
  /\ sh_documents s' = (if changed then <[t := DocumentRow (of_chars data) (digest (of_chars data)) now]> (sh_documents s)
                        else sh_documents s)
  /\ appended (sh_store s) (sh_store s') t "fodl.document"
       (JObj [("legacy_b64", JStr (of_chars (b64encode data))); ("legacy_sha256", JStr (digest (of_chars data)))])
       changed "fodl-document" [c; digest (of_chars data)].
Proof.
  unfold sync_document. cbv zeta. intros E. destruct (sh_documents s !! t) as [d|] eqn:Ed.
  - destruct (dc_sha256 d =? digest (of_chars data))%string; [by injection E as <- <-|].
    apply rbind_ok in E as (key & Ek & E). apply rbind_ok in E as (st & Es & [= <- <-]). simpl in *.
    repeat (split; [done|]). by eexists key, _, _.
  - apply rbind_ok in E as (key & Ek & E). apply rbind_ok in E as (st & Es & [= <- <-]). simpl in *.
    repeat (split; [done|]). by eexists key, _, _.
Qed.

(** ** Loops, by an invariant *)

Lemma each_row_inv {R} (P : shadow -> Prop) (f : shadow -> R -> res (shadow * Z)) rows s n s' m :
  (forall s r s' k, r ∈ rows -> P s -> f s r = Ok (s', k) -> P s') ->
  P s -> each_row f rows s n = Ok (s', m) -> P s'.
Proof.
  revert s n. induction rows as [|r rows IH]; intros s n Hf Ps E; simpl in E; [by injection E as <- <-|].
  apply rbind_ok in E as ([s1 k] & E1 & E). eapply IH; [|eapply Hf; [by left|exact Ps|exact E1]|exact E].
  intros x y x' k' Hy. apply Hf. by right.
Qed.

Lemma each_removed_inv {B} (P : shadow -> Prop) (remove : shadow -> string -> B -> res shadow) pr cur ex s n s' m :
  (forall s k p s', (k, p) ∈ ex -> P s -> remove s k p = Ok s' -> P s') ->
  P s -> each_removed remove pr cur ex s n = Ok (s', m) -> P s'.
Proof.
  revert s n. induction ex as [|[k p] ex IH]; intros s n Hf Ps E; simpl in E; [by injection E as <- <-|].
  assert (forall x k p x', (k, p) ∈ ex -> P x -> remove x k p = Ok x' -> P x') as Hf'
    by (intros x k' p' x' Hy; apply Hf; by right).
  destruct (existsb _ _ || negb _); [by eapply IH|]. apply rbind_ok in E as (s1 & E1 & E).
  eapply IH; [exact Hf'| |exact E]. eapply Hf; [by left|exact Ps|exact E1].
Qed.

Lemma run_cycle_quiet s t c d dr ar now r s' :
  run_cycle s t c d dr ar now = Ok (r, s') -> quiet (sh_store s) (sh_store s').
Proof.
  unfold run_cycle. intros E. apply rbind_ok in E as ([s1 n] & E1 & E). apply rbind_ok in E as ([s2 m] & E2 & E).
  apply rbind_ok in E as ([s3 k] & E3 & E). guards in E. destruct E as [_ E].
  destruct (render_kernel_surfaces s3 t) as [[dd aa] doc]. apply rbind_ok in E as (rows & _ & [= <- <-]). simpl.
  unfold sync_dispatch_rows in E1. apply rbind_ok in E1 as ([a1 n1] & E1 & E1').
  unfold sync_fodl_audit_rows in E2. apply rbind_ok in E2 as ([a2 n2] & E2 & E2').
  assert (quiet (sh_store s) (sh_store a1)) as Q1.
  { eapply (each_row_inv (fun x => quiet (sh_store s) (sh_store x))); [|done|exact E1]. intros x row x' k' _ Qx Ex.
    apply sync_dispatch_row_ok in Ex as (s0 & b & Q0 & _ & _ & _ & _ & _ & _ & _ & _ & _ & _ & Ap).
    do 2 (etransitivity; [eassumption|]). by eapply appended_quiet. }
  assert (quiet (sh_store s) (sh_store s1)) as Q2.
  { eapply (each_removed_inv (fun x => quiet (sh_store s) (sh_store x))); [|exact Q1|exact E1'].
    intros x k' p x' _ Qx Ex. apply remove_dispatch_ok in Ex as (_ & _ & _ & _ & Ap).
    etransitivity; [exact Qx|]. by eapply appended_quiet. }
  assert (quiet (sh_store s) (sh_store a2)) as Q3.
  { eapply (each_row_inv (fun x => quiet (sh_store s) (sh_store x))); [|exact Q2|exact E2]. intros x row x' k' _ Qx Ex.
    apply sync_audit_row_ok in Ex as (s0 & b & Q0 & _ & _ & _ & _ & _ & _ & _ & _ & _ & _ & Ap).
    do 2 (etransitivity; [eassumption|]). by eapply appended_quiet. }
  assert (quiet (sh_store s) (sh_store s2)) as Q4.
  { eapply (each_removed_inv (fun x => quiet (sh_store s) (sh_store x))); [|exact Q3|exact E2'].
    intros x k' p x' _ Qx Ex. apply remove_audit_ok in Ex as (_ & _ & _ & _ & Ap).
    etransitivity; [exact Qx|]. by eapply appended_quiet. }
  apply sync_document_ok in E3 as (_ & _ & _ & _ & Ap). etransitivity; [exact Q4|]. by eapply appended_quiet.
Qed.

Lemma sync_cases s t c d now at_ r s' :
  sync_legacy_surfaces s t c d now at_ = (r, s') ->
  s' = s \/ exists dr ar time snap, parse_dispatch_bytes (sf_dispatch d) = Ok dr /\ parse_fodl_audit_bytes (sf_audit d) = Ok ar
    /\ snapshot_of s t c = None /\ run_cycle s t c d dr ar time = Ok (snap, s') /\ r = Ok snap.
Proof.
  unfold sync_legacy_surfaces. match goal with |- match ?m with _ => _ end = _ -> _ => destruct m as [[x y]|e] eqn:E end;
    intros [= <- <-]; [|by left].
  guards in E. destruct E as [_ E]. apply rbind_ok in E as (dr & Ed & E). apply rbind_ok in E as (ar & Ea & E).
  guards in E. destruct E as (_ & _ & E). apply rbind_ok in E as ([] & _ & E).
  destruct (snapshot_of s t c) as [p|].
  - apply rbind_ok in E as (r & _ & [= <- <-]). by left.
  - right. by exists dr, ar, (instant (default now at_)), x.
Qed.

(** Legacy prose never decides: whatever the surfaces hold, a sync leaves
    decided approvals as they are and creates or rewrites pending ones only,
    appends to the outbox under keys no approval uses, and keeps the outbox
    index and the order of every tenant's stream; so it is one of the other
    writers that the theorems on approvals allow between any two calls. *)
Theorem sync_is_another_writer s t c d now at_ r s' decisions consumptions mandates :
  sync_legacy_surfaces s t c d now at_ = (r, s') ->
  Approvals.others_write (Approvals.M5 (sh_store s) decisions consumptions mandates)
                         (Approvals.M5 (sh_store s') decisions consumptions mandates).
Proof.
  intros E.
  assert (quiet (sh_store s) (sh_store s')) as [? ? ? ? ?].
  { apply sync_cases in E as [->|(dr & ar & time & snap & _ & _ & _ & E & _)]; [done|]. by eapply run_cycle_quiet. }
  by split.
Qed.
End quiet.

(** ** A demonstration *)

Module ShadowDemo.
#[local] Existing Instance keeping_jsonb.
Import RowsDemo.

Definition noon : datetime := DT 63800000000000000 (Some 0).
Definition empty_shadow : shadow := Shadow (Store ∅ ∅ [] []) ∅ ∅ ∅ ∅ ∅ [].
Definition surfaces1 : surfaces := Surfaces dispatch1 audit1 (chars "FODL current").
Definition cycle1 := sync_legacy_surfaces empty_shadow "t1" "c1" surfaces1 noon None.
Definition shadow1 : shadow := cycle1.2.

(** Both approvals the surfaces imply are pending. *)
Example one_cycle :
  is_ok cycle1.1 = true
  /\ map (fun kv => ap_decision kv.2) (map_to_list (st_approvals (sh_store shadow1))) = ["pending"; "pending"]
  /\ render_kernel_surfaces shadow1 "t1" = (dispatch1, audit1, chars "FODL current").
Proof. vm_compute. repeat split; reflexivity. Qed.

(** An id that spells the key of an occurrence: the surface parses, and no
    cycle of it commits. *)
Definition clash : string :=
  match legacy_identity "task_handoff" (match intent JNull "task_handoff" "pending" "audit" with JObj d => d | _ => [] end) with
  | Ok id => id +:+ "::occurrence:1" | Err _ => "" end.
Definition surfaces_clash : surfaces := Surfaces
  (render (map line_of [intent JNull "task_handoff" "pending" "audit"; intent (JStr clash) "task_handoff" "pending" "audit"])) [] [].
Example unsyncable :
  is_ok (parse_dispatch_bytes (sf_dispatch surfaces_clash)) = true
  /\ (sync_legacy_surfaces empty_shadow "t1" "c1" surfaces_clash noon None).1
     = Err (Exn MigrationError "M5 parity divergence; shadow transaction rolled back: dispatch_byte_mismatch").
Proof. vm_compute. split; reflexivity. Qed.

(** A settled dispatch may not change its status. *)
Definition surfaces_reopen (status : string) : surfaces :=
  Surfaces (render [line_of (intent (JStr "d-1") "task_handoff" status "audit")]) [] [].
Example terminal_is_final :
  let s := (sync_legacy_surfaces empty_shadow "t1" "c1" (surfaces_reopen "closed") noon None).2 in
  sync_legacy_surfaces s "t1" "c2" (surfaces_reopen "pending") noon None
  = (Err (Exn MigrationError "terminal dispatch 'd-1' changed status"), s).
Proof. vm_compute. reflexivity. Qed.
End ShadowDemo.

Import ShadowDemo.

Lemma sync_is_another_writer_witness :
  Approvals.others_write (Approvals.M5 (sh_store empty_shadow) [] [] []) (Approvals.M5 (sh_store shadow1) [] [] []).
Proof.
  exact (@sync_is_another_writer keeping_jsonb _ _ _ empty_shadow "t1" "c1" surfaces1 noon None cycle1.1 shadow1 [] [] []
           (surjective_pairing cycle1)).
Defined.
