(* ===== verification/DispatchReplay.v ===== *)
(** * Replaying the shadow (fleet_kernel/m5/dispatch_approval_migration.py)

    That the events of a tenant are enough: after any history of cycles,
    whatever the other writers of the kernel append in between, replaying the
    events of a tenant gives the very bytes of its surfaces, as do the tables.
    Both surfaces are treated alike, through the [cell]s of their tables. What
    is excluded is a collision of the digests the history computes: of two
    lines, or of the names of two events ([hashed]). *)
From S2P Require Import Prelude PyStr PyTime Json Sha256 PyIO JsonText PyValue PyUuid PyUnicode JsonBytes KernelStore DispatchRows DispatchShadow.
From stdpp Require Import base gmap strings list relations.
From Stdlib Require Import ZArith NArith Lia Sorted Permutation.

Local Open Scope Z_scope.

(** ** Ordering *)

Section order.
  Context {A : Type} (key : A -> Z) (leb : A -> A -> bool).
  Hypothesis leb_key : forall a b, leb a b = (key a <=? key b).

Lemma insert_by_perm x l : Permutation (insert_by leb x l) (x :: l).
Proof.
  induction l as [|y l IH]; simpl; [done|]. destruct (leb x y); [done|]. by rewrite IH, perm_swap.
Qed.
Lemma order_by_permutation l : Permutation (order_by leb l) l.
Proof. induction l as [|x l IH]; simpl; [done|]. by rewrite insert_by_perm, IH. Qed.

Definition ascending (l : list A) : Prop := StronglySorted Z.le (map key l).

Lemma insert_by_ascending x l : ascending l -> ascending (insert_by leb x l).
Proof.
  unfold ascending. induction l as [|y l IH]; intros S; simpl; [by repeat constructor|].
  apply StronglySorted_inv in S as [S F]. rewrite leb_key. destruct (Z.leb_spec (key x) (key y)) as [Hle|Hgt].
  - constructor; [by constructor|]. constructor; [done|]. eapply List.Forall_impl; [|exact F]. simpl. lia.
  - simpl. constructor; [by apply IH|]. apply List.Forall_forall. intros z Hz. apply in_map_iff in Hz as (w & <- & Hw).
    apply (Permutation_in _ (insert_by_perm x l)) in Hw as [<-|Hw]; [lia|].
    rewrite List.Forall_forall in F. apply F, in_map_iff. by exists w.
Qed.
Lemma order_by_ascending l : ascending (order_by leb l).
Proof. induction l as [|x l IH]; simpl; [constructor|by apply insert_by_ascending]. Qed.

Lemma sorted_unique l l' : StronglySorted Z.lt (map key l) -> ascending l' -> Permutation l' l -> l' = l.
Proof.
  revert l'. induction l as [|a l IH]; intros l' S S' P; [by apply Permutation_nil_r in P|].
  destruct l' as [|b l']; [by apply Permutation_nil_cons in P|].
  apply StronglySorted_inv in S as [S F]. apply StronglySorted_inv in S' as [S' F'].
  rewrite List.Forall_forall in F, F'. assert (b = a) as ->.
  { pose proof (Permutation_in b P (or_introl eq_refl)) as [->|Hb]; [done|].
    pose proof (Permutation_in a (Permutation_sym P) (or_introl eq_refl)) as [->|Ha]; [done|].
    specialize (F (key b) (in_map key _ _ Hb)). specialize (F' (key a) (in_map key _ _ Ha)). lia. }
  f_equal. apply IH; [done..|]. by eapply Permutation_cons_inv.
Qed.

Lemma order_by_perm l l' : StronglySorted Z.lt (map key l) -> Permutation l' l -> order_by leb l' = l.
Proof.
  intros S P. apply sorted_unique; [done|apply order_by_ascending|]. by rewrite order_by_permutation.
Qed.
End order.

Lemma sorted_filter {A} (key : A -> Z) (f : A -> bool) l :
  StronglySorted Z.lt (map key l) -> StronglySorted Z.lt (map key (List.filter f l)).
Proof.
  induction l as [|x l IH]; intros S; simpl; [constructor|]. apply StronglySorted_inv in S as [S F].
  destruct (f x); [|by apply IH]. simpl. constructor; [by apply IH|]. rewrite List.Forall_forall in *.
  intros y Hy. apply in_map_iff in Hy as (z & <- & Hz). apply filter_In in Hz as [Hz _]. by apply F, in_map.
Qed.

(** ** Payloads as the server returns them *)

(** The keys of a payload are literals. *)
Ltac keys_distinct := simpl; repeat (apply NoDup_cons; split; [by rewrite ?elem_of_cons, ?elem_of_nil; intuition|]); apply NoDup_nil_2.

Section facts.
  Context `{Jsonb} `{Digest} `{IsoTime} `{JsonLimits}.

(** A payload of the sync, stored: an object with the same entries. *)
Lemma stored_payload kvs q :
  forallb (fun kv => scalar kv.2) kvs = true -> NoDup kvs.*1 -> jsonb (JObj kvs) = Some q ->
  exists d, q = JObj d /\ (forall k, get d k = get kvs k) /\ (forall keys, same_keys d keys = same_keys kvs keys).
Proof.
  intros Hs N E. destruct (jsonb_flat kvs q Hs E) as (d & -> & P). exists d. split; [done|].
  split; intros k; [by apply get_perm|by apply same_keys_perm].
Qed.

Lemma replay_state_ok ty (target : replayed) d k (n : nat) line sha :
  same_keys d (["source_key"; "legacy_ordinal"; "legacy_line"; "legacy_sha256"; "present"]
    ++ (if (ty =? "dispatch.state")%string then ["dispatch_identity"; "legacy_type"; "legacy_status"]
        else ["fodl_id"; "is_emit"])) = true ->
  get d "present" = JBool true -> get d "source_key" = JStr k -> get d "legacy_line" = JStr line ->
  get d "legacy_ordinal" = JInt (Z.of_nat n) -> get d "legacy_sha256" = JStr sha ->
  truthy k = true -> encode_str line = Ok line -> sha = digest line ->
  replay_state ty target d = Ok (<[k := (Z.of_nat n, line)]> target).
Proof.
  intros Hk Hp Hsk Hl Ho Hsha Ht He ->. unfold replay_state. cbv zeta. rewrite Hk, Hp, Hsk, Hl, Ho. cbn [andb].
  rewrite He. cbn [rbind].
  rewrite Hsha, Ht. simpl py_eq. rewrite String.eqb_refl. assert (0 <=? Z.of_nat n = true) as -> by (apply Z.leb_le; lia).
  done.
Qed.

(** ** Cells: both binding tables at once

    [true] is the dispatch surface, [false] the audit. *)
Record cell := Cell { c_ord : Z; c_line : string; c_sha : string; c_present : bool }.

Definition view (b : bool) (s : shadow) (t k : string) : option cell :=
  if b then (fun x => Cell (db_ordinal x) (db_line x) (db_sha256 x) (db_present x)) <$> sh_dispatch s !! (t, k)
  else (fun x => Cell (ab_ordinal x) (ab_line x) (ab_sha256 x) (ab_present x)) <$> sh_audit s !! (t, k).
Definition shown (o : option cell) : option (Z * string) :=
  match o with Some c => if c_present c then Some (c_ord c, c_line c) else None | None => None end.
Definition rp (b : bool) (r : replay) : replayed := if b then rp_dispatch r else rp_audit r.
Definition set_rp (b : bool) (r : replay) (m : replayed) : replay :=
  if b then Replay m (rp_audit r) (rp_document r) else Replay (rp_dispatch r) m (rp_document r).

Definition state_type (b : bool) : string := if b then "dispatch.state" else "fodl.audit.state".
Definition removed_type (b : bool) : string := if b then "dispatch.removed" else "fodl.audit.removed".
Definition state_kind (b : bool) : string := if b then "dispatch-state" else "fodl-audit-state".
Definition removed_kind (b : bool) : string := if b then "dispatch-removed" else "fodl-audit-removed".

Record arow := Arow { a_key : string; a_ord : nat; a_line : string; a_sha : string; a_payload : json }.
Definition dispatch_arow (r : LegacyJsonlRow) : arow :=
  Arow (jr_source_key r) (jr_ordinal r) (jr_line r) (jr_sha256 r) (dispatch_payload r).
Definition audit_arow (r : LegacyFodlAuditRow) : arow :=
  Arow (fr_source_key r) (fr_ordinal r) (fr_line r) (fr_sha256 r) (audit_payload r).

Definition cell_of (r : arow) : cell := Cell (Z.of_nat (a_ord r)) (a_line r) (a_sha r) true.
Definition cell_changed (o : option cell) (r : arow) : bool :=
  match o with
  | None => true
  | Some c => negb (c_sha c =? a_sha r)%string || negb (c_ord c =? Z.of_nat (a_ord r)) || negb (c_present c)
  end.

(** A change of one row of one surface of [t], everything else kept. *)
Record touches (b : bool) (t k : string) (o : option cell) (s s' : shadow) : Prop := {
  to_cell : view b s' t k = o;
  to_view b' t' k' : (b', t', k') <> (b, t, k) -> view b' s' t' k' = view b' s t' k';
  to_documents : sh_documents s' = sh_documents s;
  to_snapshots : sh_snapshots s' = sh_snapshots s;
}.

(** One iteration of either loop; [old] is the cell the call found. *)
Definition row_step (b : bool) (t c : string) (old : option cell) (r : arow) (s s' : shadow) : Prop :=
  touches b t (a_key r) (Some (cell_of r)) s s' /\ encode_str (a_line r) = Ok (a_line r)
  /\ exists s0, quiet (sh_store s) s0 /\ stream_kept (sh_store s) s0
    /\ appended s0 (sh_store s') t (state_type b) (a_payload r) (cell_changed old r) (state_kind b)
         [a_key r; c; a_sha r].
Definition removal_step (b : bool) (t c k : string) (s s' : shadow) : Prop :=
  (exists o, touches b t k o s s' /\ shown o = None
     /\ forall x, o = Some x -> exists y, view b s t k = Some y /\ c_sha x = c_sha y /\ c_line x = c_line y)
  /\ appended (sh_store s) (sh_store s') t (removed_type b) (removed_payload k) true (removed_kind b) [k; c].

Lemma dispatch_row_step ex t c now s row s' n :
  sync_dispatch_row ex t c now s row = Ok (s', n) ->
  row_step true t c ((fun x => Cell (db_ordinal x) (db_line x) (db_sha256 x) (db_present x)) <$> ex !! (t, jr_source_key row))
    (dispatch_arow row) s s'.
Proof.
  intros (s0 & b & Q & K & Ed & E1 & E2 & E3 & E4 & E5 & Ea & Edoc & Es & Ap)%sync_dispatch_row_ok.
  split; [|split; [done|]].
  - split; try done.
    + unfold view. rewrite Ed. simpl. rewrite lookup_insert_eq. simpl. unfold cell_of, dispatch_arow. simpl. by rewrite E1, E2, E3, E4.
    + intros b' t' k' Ne. unfold view. rewrite Ed, Ea. destruct b'; [|done]. rewrite lookup_insert_ne; [done|].
      intros [= <- <-]. by apply Ne.
  - exists s0. split; [done|]. split; [done|]. unfold dispatch_changed in Ap. unfold cell_changed, dispatch_arow. simpl.
    destruct (ex !! (t, jr_source_key row)); exact Ap.
Qed.

Lemma audit_row_step ex t c now s row s' n :
  sync_audit_row ex t c now s row = Ok (s', n) ->
  row_step false t c ((fun x => Cell (ab_ordinal x) (ab_line x) (ab_sha256 x) (ab_present x)) <$> ex !! (t, fr_source_key row))
    (audit_arow row) s s'.
Proof.
  intros (s0 & b & Q & K & Ed & E1 & E2 & E3 & E4 & E5 & Ea & Edoc & Es & Ap)%sync_audit_row_ok.
  split; [|split; [done|]].
  - split; try done.
    + unfold view. rewrite Ed. simpl. rewrite lookup_insert_eq. simpl. unfold cell_of, audit_arow. simpl. by rewrite E1, E2, E3, E4.
    + intros b' t' k' Ne. unfold view. rewrite Ed, Ea. destruct b'; [done|]. rewrite lookup_insert_ne; [done|].
      intros [= <- <-]. by apply Ne.
  - exists s0. split; [done|]. split; [done|]. unfold audit_changed in Ap. unfold cell_changed, audit_arow. simpl.
    destruct (ex !! (t, fr_source_key row)); exact Ap.
Qed.

Lemma dispatch_removal_step t c now s k p s' :
  remove_dispatch t c now s k p = Ok s' -> removal_step true t c k s s'.
Proof.
  intros ((f & Ed & Hf) & Ea & Edoc & Es & Ap)%remove_dispatch_ok. split; [|exact Ap]. eexists. split; [split; try done|].
  - intros b' t' k' Ne. unfold view. rewrite Ed, Ea. destruct b'; [|done]. rewrite lookup_alter_ne; [done|].
    intros [= <- <-]. by apply Ne.
  - unfold view. rewrite Ed, lookup_alter_eq. destruct (sh_dispatch s !! (t, k)) as [x|]; simpl; [|done].
    destruct (Hf x) as (-> & G1 & G2). split; [done|]. intros y [= <-]. simpl. eexists. by split; [|split].
Qed.

Lemma audit_removal_step t c now s k p s' :
  remove_audit t c now s k p = Ok s' -> removal_step false t c k s s'.
Proof.
  intros ((f & Ed & Hf) & Ea & Edoc & Es & Ap)%remove_audit_ok. split; [|exact Ap]. eexists. split; [split; try done|].
  - intros b' t' k' Ne. unfold view. rewrite Ed, Ea. destruct b'; [done|]. rewrite lookup_alter_ne; [done|].
    intros [= <- <-]. by apply Ne.
  - unfold view. rewrite Ed, lookup_alter_eq. destruct (sh_audit s !! (t, k)) as [x|]; simpl; [|done].
    destruct (Hf x) as (-> & G1 & G2). split; [done|]. intros y [= <-]. simpl. eexists. by split; [|split].
Qed.

(** ** The events of the sync *)

Definition is_m5 (e : event) : bool := existsb (String.eqb (ev_type e)) M5_EVENT_TYPES.
Definition log (s : store) (t : string) : list event := List.filter is_m5 (stream s t).

Lemma stream_snoc s s' e :
  st_events s' = st_events s ++ [e] ->
  stream s' (ev_tenant e) = stream s (ev_tenant e) ++ [e]
  /\ forall t, t <> ev_tenant e -> stream s' t = stream s t.
Proof.
  intros E. unfold stream. rewrite E. split; [|intros t Ne]; rewrite List.filter_app; simpl; unfold of_tenant.
  - by rewrite String.eqb_refl.
  - destruct (String.eqb_spec (ev_tenant e) t) as [Et|]; [by destruct Ne|]. by rewrite app_nil_r.
Qed.

(** A row of the surface [b]. *)
Definition proper (b : bool) (r : arow) : Prop :=
  if b then exists x, r = dispatch_arow x else exists y, r = audit_arow y.

Lemma replay_events_app r l e :
  replay_events r (l ++ [e]) = (let! r' := replay_events r l in replay_event r' e).
Proof.
  revert r. induction l as [|x l IH]; intros r; simpl; [by destruct (replay_event r e)|].
  destruct (replay_event r x); simpl; [apply IH|done].
Qed.

(** The cycle in the name of an event. *)
Definition cycle_of (kind : string) (parts : list string) : option string :=
  if (kind =? "fodl-document")%string then head parts else parts !! 1%nat.

(** What replaying one of the sync's events does. *)
Lemma replay_state_event b r e row q :
  ev_type e = state_type b -> ev_payload e = q -> a_sha row = digest (a_line row) -> truthy (a_key row) = true ->
  encode_str (a_line row) = Ok (a_line row) ->
  proper b row -> jsonb (a_payload row) = Some q ->
  replay_event r e = Ok (set_rp b r (<[a_key row := (Z.of_nat (a_ord row), a_line row)]> (rp b r))).
Proof.
  intros Et <- Hs Hk He P Eq. unfold replay_event. rewrite Et.
  destruct b; [destruct P as [x ->]|destruct P as [y ->]]; simpl in *.
  - unfold dispatch_payload in Eq. apply stored_payload in Eq as (d & -> & G & K); [|done|keys_distinct].
    simpl. rewrite (replay_state_ok _ _ d (jr_source_key x) (jr_ordinal x) (jr_line x) (jr_sha256 x)); try done;
      rewrite ?G, ?K; done.
  - unfold audit_payload in Eq. apply stored_payload in Eq as (d & -> & G & K);
      [|simpl; by destruct (fr_fodl_id y)|keys_distinct].
    simpl. rewrite (replay_state_ok _ _ d (fr_source_key y) (fr_ordinal y) (fr_line y) (fr_sha256 y)); try done;
      rewrite ?G, ?K; done.
Qed.

Lemma replay_removed_event b r e k v q :
  ev_type e = removed_type b -> ev_payload e = q -> jsonb (removed_payload k) = Some q -> rp b r !! k = Some v ->
  replay_event r e = Ok (set_rp b r (base.delete k (rp b r))).
Proof.
  intros Et <- Eq Hv.
  unfold removed_payload in Eq. apply stored_payload in Eq as (d & E & G & K); [|done|keys_distinct].
  unfold replay_event. rewrite Et, E. destruct b; simpl in *; unfold replay_removal; rewrite K, !G; simpl; by rewrite Hv.
Qed.

Lemma replay_document_event r e data q :
  ev_type e = "fodl.document" -> ev_payload e = q ->
  jsonb (JObj [("legacy_b64", JStr (of_chars (b64encode data))); ("legacy_sha256", JStr (digest (of_chars data)))]) = Some q ->
  replay_event r e = Ok (Replay (rp_dispatch r) (rp_audit r) data).
Proof.
  intros Et <- Eq.
  apply stored_payload in Eq as (d & E & G & K); [|done|keys_distinct].
  unfold replay_event. rewrite Et, E. simpl. unfold replay_document. rewrite K, !G. simpl.
  rewrite chars_of_chars, b64_roundtrip. simpl. by rewrite String.eqb_refl.
Qed.

(** ** The invariant of a cycle

    [names] and [texts] are what the history hashes: names of events and
    bytes of lines and documents; no two of them collide. *)
  Context (names : string -> string -> list string -> Prop) (texts : string -> Prop).
  Hypothesis names_distinct : forall t k p k' p' key key',
    names t k p -> names t k' p' -> event_key k p = Ok key -> event_key k' p' = Ok key' ->
    id_ [t; key; "event"] = id_ [t; key'; "event"] -> (k, p) = (k', p').
  Hypothesis texts_distinct : forall x y, texts x -> texts y -> digest x = digest y -> x = y.

Definition committed (s : shadow) (t c : string) : Prop := is_Some (snapshot_of s t c).

Definition shows (b : bool) (s : shadow) (t : string) (m : replayed) : Prop := forall k, m !! k = shown (view b s t k).

(** The state [s] of a cycle of [t] that began in [s0] and has appended the
    events named in [dn]. *)
Record mid (t : string) (s0 s : shadow) (dn : list (string * list string)) : Prop := {
  md_wf : stream_wf (sh_store s);
  md_ids e : e ∈ log (sh_store s) t -> exists kind parts key, names t kind parts /\ event_key kind parts = Ok key
    /\ ev_id e = id_ [t; key; "event"]
    /\ ((exists c, cycle_of kind parts = Some c /\ committed s0 t c) \/ (kind, parts) ∈ dn);
  md_replay : exists r, replay_events (Replay ∅ ∅ []) (log (sh_store s) t) = Ok r
    /\ (forall b, shows b s t (rp b r)) /\ rp_document r = document_bytes t s;
  md_cells b k x : view b s t k = Some x -> c_sha x = digest (c_line x) /\ texts (c_line x);
  md_doc d : sh_documents s !! t = Some d -> dc_sha256 d = digest (dc_bytes d) /\ texts (dc_bytes d);
  md_others t' : t' <> t -> stream (sh_store s) t' = stream (sh_store s0) t'
    /\ (forall b k, view b s t' k = view b s0 t' k) /\ sh_documents s !! t' = sh_documents s0 !! t';
  md_snapshots : sh_snapshots s = sh_snapshots s0;
}.

Lemma stream_kept_log s s0 t : stream_kept s s0 -> stream s0 t = stream s t /\ log s0 t = log s t /\ (stream_wf s -> stream_wf s0).
Proof.
  intros [E1 E2]. unfold log, stream. rewrite E1. split; [done|]. split; [done|].
  intros W t'. unfold stream, next_of. rewrite E1, E2. apply W.
Qed.

(** Appending an event whose name is new. *)
Lemma appended_new t s0 s dn st st' ty p kind parts c :
  mid t s0 s dn -> stream_kept (sh_store s) st -> appended st st' t ty p true kind parts ->
  existsb (String.eqb ty) M5_EVENT_TYPES = true -> names t kind parts -> cycle_of kind parts = Some c ->
  ~ committed s0 t c -> (kind, parts) ∉ dn ->
  exists e q key, log st' t = log (sh_store s) t ++ [e] /\ ev_type e = ty /\ ev_payload e = q /\ jsonb p = Some q
    /\ event_key kind parts = Ok key /\ ev_id e = id_ [t; key; "event"]
    /\ (forall t', t' <> t -> stream st' t' = stream (sh_store s) t') /\ stream_wf st'.
Proof.
  intros M K Ap Hty Hn Hc Hnc Hdn. unfold appended in Ap. destruct Ap as (key & o & r & Ek & E).
  destruct (stream_kept_log _ _ t K) as (K1 & K2 & K3).
  apply append_event_cases in E as [[-> (e & He & Et & Ei & Ety)]|(n & s1 & q & ob & En & Eq & Ea & Eh & Ee & _)].
  - exfalso. assert (e ∈ log (sh_store s) t) as Hl.
    { rewrite <- K2. unfold log, stream. apply list_elem_of_In. apply filter_In. split.
      - apply filter_In. split; [by apply list_elem_of_In|]. unfold of_tenant. by rewrite Et, String.eqb_refl.
      - unfold is_m5. by rewrite Ety. }
    destruct (md_ids _ _ _ _ M e Hl) as (kind' & parts' & key' & Hn' & Ek' & Ei' & Hold).
    rewrite Ei in Ei'. pose proof (names_distinct _ _ _ _ _ _ _ Hn Hn' Ek Ek' Ei') as [= <- <-].
    destruct Hold as [(c' & Hc' & Hco)|Hin]; [|done]. rewrite Hc in Hc'. by injection Hc' as <-.
  - set (e := Event (id_ [t; key; "event"]) t n ty q o r) in *. exists e, q, key.
    destruct (stream_snoc st st' e Ee) as [S1 S2]. simpl in S1, S2. rewrite K1 in S1.
    split; [|do 5 (split; [done|]); split].
    + unfold log. rewrite S1, List.filter_app. cbn [List.filter]. by assert (is_m5 e = true) as -> by exact Hty.
    + intros t' Ne. rewrite S2 by done. by destruct (stream_kept_log _ _ t' K).
    + by apply (stream_wf_append st s1 st' t n e); [apply K3, M|..].
Qed.

Lemma shown_insert b s s' t k o m :
  touches b t k o s s' -> shows b s t m ->
  shows b s' t (match shown o with Some v => <[k := v]> m | None => base.delete k m end).
Proof.
  intros T S k'. destruct (decide (k = k')) as [<-|Ne].
  - rewrite (to_cell _ _ _ _ _ _ T). destruct (shown o); [by rewrite lookup_insert_eq|by rewrite lookup_delete_eq].
  - rewrite (to_view _ _ _ _ _ _ T) by (intros [= E]; by apply Ne).
    destruct (shown o); [by rewrite lookup_insert_ne|by rewrite lookup_delete_ne].
Qed.

Lemma shows_other b s s' t k o b' m : touches b t k o s s' -> b' <> b -> shows b' s t m -> shows b' s' t m.
Proof. intros T Ne S k'. rewrite (to_view _ _ _ _ _ _ T); [apply S|]. by intros [= E]. Qed.

Lemma rp_set b r m : rp b (set_rp b r m) = m /\ (forall b', b' <> b -> rp b' (set_rp b r m) = rp b' r)
  /\ rp_document (set_rp b r m) = rp_document r.
Proof. destruct b; split; try done; (split; [intros []|]; done). Qed.

(** The parts of the invariant that a change of one row does not depend on. *)
Lemma mid_touched b t k o s0 s s' dn dn' :
  mid t s0 s dn -> touches b t k o s s' ->
  (forall x, o = Some x -> c_sha x = digest (c_line x) /\ texts (c_line x)) ->
  stream_wf (sh_store s') -> (forall t', t' <> t -> stream (sh_store s') t' = stream (sh_store s) t') ->
  (forall e, e ∈ log (sh_store s') t -> exists kind parts key, names t kind parts /\ event_key kind parts = Ok key
    /\ ev_id e = id_ [t; key; "event"]
    /\ ((exists c, cycle_of kind parts = Some c /\ committed s0 t c) \/ (kind, parts) ∈ dn')) ->
  (exists r, replay_events (Replay ∅ ∅ []) (log (sh_store s') t) = Ok r
    /\ (forall b, shows b s' t (rp b r)) /\ rp_document r = document_bytes t s') ->
  mid t s0 s' dn'.
Proof.
  intros M T Hx W St Ids Rp. split; try done.
  - intros b' k' x E. destruct (decide ((b', k') = (b, k))) as [[= -> ->]|Ne].
    + rewrite (to_cell _ _ _ _ _ _ T) in E. by apply Hx.
    + rewrite (to_view _ _ _ _ _ _ T) in E by (intros [= E1 E2]; apply Ne; by rewrite E1, E2). by eapply (md_cells _ _ _ _ M).
  - rewrite (to_documents _ _ _ _ _ _ T). apply M.
  - intros t' Ne. destruct (md_others _ _ _ _ M t' Ne) as (E1 & E2 & E3). rewrite St by done.
    rewrite (to_documents _ _ _ _ _ _ T). split; [done|]. split; [|done]. intros b' k'.
    rewrite (to_view _ _ _ _ _ _ T); [apply E2|]. intros [= _ E _]. by apply Ne.
  - rewrite (to_snapshots _ _ _ _ _ _ T). apply M.
Qed.

Lemma ids_snoc t s0 s dn st' e kind parts key :
  mid t s0 s dn -> log st' t = log (sh_store s) t ++ [e] -> names t kind parts -> event_key kind parts = Ok key ->
  ev_id e = id_ [t; key; "event"] ->
  forall x, x ∈ log st' t -> exists kind' parts' key, names t kind' parts' /\ event_key kind' parts' = Ok key
    /\ ev_id x = id_ [t; key; "event"]
    /\ ((exists c, cycle_of kind' parts' = Some c /\ committed s0 t c) \/ (kind', parts') ∈ (kind, parts) :: dn).
Proof.
  intros M L Hn Ek Ei x. rewrite L. intros [Hx| ->%list_elem_of_singleton]%elem_of_app.
  - destruct (md_ids _ _ _ _ M x Hx) as (k' & p' & key' & ? & ? & ? & [?|?]); exists k', p', key';
      repeat (split; [done|]); [by left|right; by right].
  - exists kind, parts, key. repeat (split; [done|]). right. by left.
Qed.

Definition row_name (b : bool) (c : string) (r : arow) : string * list string := (state_kind b, [a_key r; c; a_sha r]).
Definition removed_name (b : bool) (c k : string) : string * list string := (removed_kind b, [k; c]).

(** A row as the parsers make it. *)
Record good_row (b : bool) (t c : string) (r : arow) : Prop := {
  gr_proper : proper b r;
  gr_sha : a_sha r = digest (a_line r);
  gr_text : texts (a_line r);
  gr_key : truthy (a_key r) = true;
  gr_name : names t (state_kind b) [a_key r; c; a_sha r];
}.

Lemma row_step_mid b t c row s0 s s' dn :
  mid t s0 s dn -> row_step b t c (view b s t (a_key row)) row s s' -> good_row b t c row -> ~ committed s0 t c ->
  row_name b c row ∉ dn ->
  exists dn', mid t s0 s' dn' /\ forall n, n ∈ dn' -> n ∈ dn \/ n = row_name b c row.
Proof.
  intros M (T & He & st & Q & K & Ap) [Gp Gs Gt Gk Gn] Hc Hdn.
  assert (forall x, Some (cell_of row) = Some x -> c_sha x = digest (c_line x) /\ texts (c_line x)) as Hcell
    by (by intros x [= <-]).
  destruct (md_replay _ _ _ _ M) as (r & Er & Sh & Doc). destruct (cell_changed _ row) eqn:Ch.
  - destruct (appended_new t s0 s dn st (sh_store s') _ _ _ _ c M K Ap) as (e & q & key & L & Ety & Ep & Eq & Ek & Ei & St & W);
      try done; [by destruct b|by destruct b|].
    exists (row_name b c row :: dn). split; [|by intros n [->|Hn]%elem_of_cons; [right|left]].
    eapply mid_touched; [exact M|exact T|exact Hcell|exact W|exact St|by eapply ids_snoc|].
    eexists. rewrite L, replay_events_app, Er. cbn [rbind].
    split; [by eapply replay_state_event|]. destruct (rp_set b r (<[a_key row := (Z.of_nat (a_ord row), a_line row)]> (rp b r))) as (R1 & R2 & R3).
    split.
    + intros b'. destruct (decide (b' = b)) as [->|Ne].
      * rewrite R1. exact (shown_insert _ _ _ _ _ _ _ T (Sh b)).
      * rewrite R2 by done. by eapply shows_other.
    + rewrite R3, Doc. unfold document_bytes. by rewrite (to_documents _ _ _ _ _ _ T).
  - unfold appended in Ap. exists dn. split; [|by left]. destruct (stream_kept_log _ _ t K) as (K1 & K2 & K3).
    eapply mid_touched; [exact M|exact T|exact Hcell| | | |].
    + rewrite Ap. apply K3, M.
    + intros t' _. rewrite Ap. by destruct (stream_kept_log _ _ t' K).
    + intros e. rewrite Ap, K2. apply M.
    + exists r. rewrite Ap, K2. split; [done|]. split.
      * intros b'. destruct (decide (b' = b)) as [->|Ne]; [|by eapply shows_other].
        pose proof (shown_insert _ _ _ _ _ _ _ T (Sh b)) as S. simpl in S. rewrite insert_id in S; [exact S|].
        rewrite (Sh b). destruct (view b s t (a_key row)) as [x|] eqn:V; [|done]. unfold cell_changed in Ch. bools in Ch.
        destruct Ch as [[Ch1 Ch2] Ch3]. destruct (md_cells _ _ _ _ M _ _ _ V) as [D1 D2].
        simpl. rewrite Ch3. apply Z.eqb_eq in Ch2. rewrite Ch2. do 2 f_equal. apply texts_distinct; [done..|]. congruence.
      * rewrite Doc. unfold document_bytes. by rewrite (to_documents _ _ _ _ _ _ T).
Qed.

Lemma removal_step_mid b t c k x s0 s s' dn :
  mid t s0 s dn -> removal_step b t c k s s' -> view b s t k = Some x -> c_present x = true ->
  names t (removed_kind b) [k; c] -> ~ committed s0 t c -> removed_name b c k ∉ dn ->
  mid t s0 s' (removed_name b c k :: dn).
Proof.
  intros M [(o & T & Hs & Ho) Ap] V Hp Hn Hc Hdn. destruct (md_replay _ _ _ _ M) as (r & Er & Sh & Doc).
  destruct (appended_new t s0 s dn (sh_store s) (sh_store s') _ _ _ _ c M (conj eq_refl eq_refl) Ap)
    as (e & q & key & L & Ety & Ep & Eq & Ek & Ei & St & W); try done; [by destruct b|by destruct b|].
  eapply mid_touched; [exact M|exact T| |exact W|exact St|by eapply ids_snoc|].
  { intros y ->. destruct (Ho y eq_refl) as (z & Vz & -> & ->). by apply (md_cells _ _ _ _ M b k). }
  assert (rp b r !! k = Some (c_ord x, c_line x)) as Hr by (rewrite (Sh b), V; simpl; by rewrite Hp).
  eexists. rewrite L, replay_events_app, Er. cbn [rbind]. split; [by eapply replay_removed_event|].
  destruct (rp_set b r (base.delete k (rp b r))) as (R1 & R2 & R3). split.
  - intros b'. destruct (decide (b' = b)) as [->|Ne].
    + rewrite R1. pose proof (shown_insert _ _ _ _ _ _ _ T (Sh b)) as S. by rewrite Hs in S.
    + rewrite R2 by done. by eapply shows_other.
  - rewrite R3, Doc. unfold document_bytes. by rewrite (to_documents _ _ _ _ _ _ T).
Qed.

Lemma document_mid t c data now s0 s s' n dn :
  mid t s0 s dn -> sync_document s t c data now = Ok (s', n) -> texts (of_chars data) ->
  names t "fodl-document" [c; digest (of_chars data)] -> ~ committed s0 t c -> (forall p, ("fodl-document", p) ∉ dn) ->
  exists dn', mid t s0 s' dn' /\ (forall n, n ∈ dn' -> n ∈ dn \/ n = ("fodl-document", [c; digest (of_chars data)]))
    /\ document_bytes t s' = data /\ (forall b k, view b s' t k = view b s t k).
Proof.
  intros M E Ht Hn Hc Hdn. apply sync_document_ok in E as (Ed & Ea & Es & Edoc & Ap). cbv zeta in Edoc, Ap.
  assert (forall b t' k, view b s' t' k = view b s t' k) as V by (intros [] t' k; unfold view; by rewrite ?Ed, ?Ea).
  destruct (md_replay _ _ _ _ M) as (r & Er & Sh & Doc).
  match type of Edoc with _ = if ?x then _ else _ => destruct x eqn:Ch end.
  - destruct (appended_new t s0 s dn (sh_store s) (sh_store s') _ _ _ _ c M (conj eq_refl eq_refl) Ap)
      as (e & q & key & L & Ety & Ep & Eq & Ek & Ei & St & W); try done.
    assert (document_bytes t s' = data) as Db.
    { unfold document_bytes. rewrite Edoc, lookup_insert_eq. simpl. apply chars_of_chars. }
    exists (("fodl-document", [c; digest (of_chars data)]) :: dn). split.
    + split; try done.
      * by eapply ids_snoc.
      * eexists. rewrite L, replay_events_app, Er. cbn [rbind]. split; [by eapply replay_document_event|].
        split; [|done]. intros b k. rewrite V. specialize (Sh b k). by destruct b.
      * intros b k x. rewrite V. apply M.
      * intros d. rewrite Edoc, lookup_insert_eq. by intros [= <-].
      * intros t' Ne. destruct (md_others _ _ _ _ M t' Ne) as (E1 & E2 & E3). rewrite St by done. split; [done|].
        split; [intros b k; by rewrite V|]. by rewrite Edoc, lookup_insert_ne.
      * rewrite Es. apply M.
    + split; [by intros x [->|Hx]%elem_of_cons; [right|left]|done].
  - destruct (sh_documents s !! t) as [d|] eqn:Dd; [|done]. apply negb_false_iff, String.eqb_eq in Ch.
    destruct (md_doc _ _ _ _ M d Dd) as [D1 D2].
    assert (dc_bytes d = of_chars data) as Db by (apply texts_distinct; [done..|congruence]).
    exists dn. split; [|split; [by left|split; [|by intros b k]]].
    + unfold appended in Ap. split; rewrite ?Ap, ?Edoc, ?Es; try apply M.
      * exists r. split; [done|]. split; [intros b k; rewrite V; apply Sh|]. rewrite Doc. unfold document_bytes. by rewrite Edoc.
      * intros b k x. rewrite V. apply M.
      * intros t' Ne. destruct (md_others _ _ _ _ M t' Ne) as (E1 & E2 & E3). split; [done|]. split; [|done].
        intros b k. by rewrite V.
    + unfold document_bytes. rewrite Edoc, Dd, Db. apply chars_of_chars.
Qed.
End facts.
