(* ===== verification/DispatchHistory.v ===== *)
(** * Histories of the shadow (fleet_kernel/m5/dispatch_approval_migration.py)

    The loops of a cycle as sequences of the steps of [DispatchReplay]; that a
    cycle whose surfaces come back has distinct source keys; the invariant of
    a history, and what it gives of the replay and of the parity gate. *)
From S2P Require Import Prelude PyStr PyTime Json Sha256 PyIO JsonText PyValue PyUuid PyUnicode JsonBytes KernelStore DispatchRows DispatchShadow DispatchReplay.
From stdpp Require Import base gmap strings list relations.
From Stdlib Require Import ZArith NArith Lia Sorted Permutation.

Local Open Scope Z_scope.

(** ** The tables of a tenant *)

Lemma tenant_rows_spec {B} (t : string) (m : gmap (string * string) B) (k : string) (x : B) :
  (k, x) ∈ tenant_rows t m <-> m !! (t, k) = Some x.
Proof.
  unfold tenant_rows. rewrite list_elem_of_fmap. split.
  - intros ([[t' k'] y] & [= -> ->] & Hin). apply list_elem_of_In, filter_In in Hin as [Hin E].
    simpl in *. apply String.eqb_eq in E as ->. by apply list_elem_of_In, elem_of_map_to_list in Hin.
  - intros E. exists ((t, k), x). split; [done|]. apply list_elem_of_In, filter_In. simpl.
    split; [by apply list_elem_of_In, elem_of_map_to_list|apply String.eqb_refl].
Qed.

Lemma NoDup_map_filter {A B} (g : A -> B) (f : A -> bool) l : NoDup (map g l) -> NoDup (map g (List.filter f l)).
Proof.
  induction l as [|x l IH]; simpl; [done|]. intros [Hx Hl]%NoDup_cons. destruct (f x); [|by apply IH]. simpl.
  apply NoDup_cons. split; [|by apply IH]. intros Hin. apply Hx. apply list_elem_of_In in Hin.
  apply in_map_iff in Hin as (y & <- & Hy). apply filter_In in Hy as [Hy _]. by apply list_elem_of_In, in_map.
Qed.

Lemma tenant_rows_keys {B} (t : string) (m : gmap (string * string) B) : NoDup (map fst (tenant_rows t m)).
Proof.
  unfold tenant_rows. rewrite map_map. simpl.
  pose proof (NoDup_fst_map_to_list m) as N. pose proof (NoDup_map_filter fst (fun kv => (kv.1.1 =? t)%string) _ N) as N'.
  assert (forall l : list (string * string * B), Forall (fun kv => kv.1.1 = t) l -> NoDup (map fst l) -> NoDup (map (fun kv => kv.1.2) l)) as G.
  { induction l as [|[[a b] x] l IH]; simpl; [intros; constructor|]. intros [Ha F]%Forall_cons [Hx Hl]%NoDup_cons. simpl in *.
    apply NoDup_cons. split; [|by apply IH]. intros Hin. apply Hx. apply list_elem_of_In in Hin. apply in_map_iff in Hin as ([[a' b'] y] & Eb & Hy).
    simpl in *. apply list_elem_of_In, in_map_iff. exists ((a', b'), y). split; [|exact Hy].
    rewrite List.Forall_forall in F. specialize (F _ Hy). simpl in *. rewrite F, Ha, Eb. reflexivity. }
  apply G; [|exact N']. apply List.Forall_forall. intros [[a b] x] Hin. apply filter_In in Hin as [_ E].
  by apply String.eqb_eq in E.
Qed.

(** The rows a surface is rendered from. *)
Definition entries (b : bool) (s : shadow) (t : string) : list (Z * string * string) :=
  if b then map (fun kv => (db_ordinal kv.2, kv.1, db_line kv.2))
              (List.filter (fun kv => db_present kv.2) (tenant_rows t (sh_dispatch s)))
  else map (fun kv => (ab_ordinal kv.2, kv.1, ab_line kv.2))
              (List.filter (fun kv => ab_present kv.2) (tenant_rows t (sh_audit s))).
Definition lines_of (b : bool) (s : shadow) (t : string) : list string := map snd (order_by line_leb (entries b s t)).

Lemma entries_spec b s (t : string) (o : Z) (k l : string) : (o, k, l) ∈ entries b s t <-> shown (view b s t k) = Some (o, l).
Proof.
  unfold entries, view. destruct b; rewrite list_elem_of_fmap; (split;
   [intros ([k' x] & [= -> -> ->] & Hin); apply list_elem_of_In, filter_In in Hin as [Hin E]; simpl in *;
    apply list_elem_of_In, tenant_rows_spec in Hin; rewrite Hin; simpl; by rewrite E|]).
  - destruct (sh_dispatch s !! (t, k)) as [x|] eqn:E; simpl; [|done]. destruct (db_present x) eqn:P; [|done].
    intros [= <- <-]. exists (k, x). split; [done|]. apply list_elem_of_In, filter_In. split; [|done].
    by apply list_elem_of_In, tenant_rows_spec.
  - destruct (sh_audit s !! (t, k)) as [x|] eqn:E; simpl; [|done]. destruct (ab_present x) eqn:P; [|done].
    intros [= <- <-]. exists (k, x). split; [done|]. apply list_elem_of_In, filter_In. split; [|done].
    by apply list_elem_of_In, tenant_rows_spec.
Qed.

Lemma entries_keys b s t : NoDup (map (fun e => e.1.2) (entries b s t)).
Proof.
  unfold entries. destruct b; rewrite map_map; apply NoDup_map_filter, tenant_rows_keys.
Qed.

(** ** Numbered surfaces *)

(** The rows [rs] (key and line) are what [b] shows of [t], numbered from 0. *)
Definition numbered (b : bool) (s : shadow) (t : string) (rs : list (string * string)) : Prop :=
  NoDup rs.*1 /\ forall k o l, shown (view b s t k) = Some (o, l) <-> exists i, o = Z.of_nat i /\ rs !! i = Some (k, l).

(** [enumerate(rs)]. *)
Definition enumerated {A} (rs : list A) : list (Z * A) := imap (fun i x => (Z.of_nat i, x)) rs.

Lemma enumerated_elem {A} (rs : list A) o x : (o, x) ∈ enumerated rs <-> exists i, o = Z.of_nat i /\ rs !! i = Some x.
Proof. unfold enumerated. rewrite elem_of_lookup_imap. split; [intros (i & y & [= -> ->] & E)|intros (i & -> & E)]; by eauto. Qed.

Lemma imap_fst {A} (f : nat -> A -> Z * A) (rs : list A) : (forall i x, (f i x).1 = Z.of_nat i) ->
  forall n, map fst (imap (fun i => f (n + i)%nat) rs) = map Z.of_nat (seq n (List.length rs)).
Proof.
  intros Hf. induction rs as [|x rs IH]; intros n; simpl; [done|]. rewrite Hf, Nat.add_0_r. f_equal.
  rewrite <- IH. f_equal. apply imap_ext. intros i y _. simpl. f_equal. lia.
Qed.
Lemma enumerated_fst {A} (rs : list A) : map fst (enumerated rs) = map Z.of_nat (seq 0 (List.length rs)).
Proof. exact (imap_fst (fun i x => (Z.of_nat i, x)) rs (fun _ _ => eq_refl) 0). Qed.
Lemma enumerated_snd {A} (rs : list A) : map snd (enumerated rs) = rs.
Proof. unfold enumerated. rewrite fmap_imap. simpl. induction rs as [|x rs IH] using rev_ind; [done|]. rewrite imap_app. simpl. f_equal. exact IH. Qed.

Lemma seq_sorted n m : StronglySorted Z.lt (map Z.of_nat (seq n m)).
Proof.
  revert n. induction m as [|m IH]; intros n; simpl; [constructor|]. constructor; [done|].
  apply List.Forall_forall. intros z Hz. apply in_map_iff in Hz as (i & <- & Hi). apply in_seq in Hi. lia.
Qed.

Lemma ordinals_distinct n m : NoDup (map Z.of_nat (seq n m)).
Proof. apply NoDup_fmap_2; [intros i j; lia|apply NoDup_seq]. Qed.

Lemma order_by_ext {A} (key : A -> Z) (leb leb' : A -> A -> bool) l :
  NoDup (map key l) -> (forall a b, key a <> key b -> leb a b = leb' a b) -> order_by leb l = order_by leb' l.
Proof.
  intros N E. induction l as [|x l IH]; simpl; [done|]. apply NoDup_cons in N as [Hx N]. rewrite IH by done.
  assert (forall m, (forall y, In y m -> In y l) -> insert_by leb x m = insert_by leb' x m) as G.
  { induction m as [|y m IHm]; intros Hm; simpl; [done|]. rewrite E, IHm; [done|by intros z Hz; apply Hm; right|].
    intros Ek. apply Hx. rewrite Ek. apply list_elem_of_In, in_map, Hm. by left. }
  apply G. intros y. apply Permutation_in, order_by_permutation.
Qed.

(** Numbered rows come back in their order, from the table ... *)
Lemma numbered_lines b s t rs : numbered b s t rs -> lines_of b s t = rs.*2.
Proof.
  intros [N E]. unfold lines_of. set (L := map (fun p : Z * (string * string) => (p.1, p.2.1, p.2.2)) (enumerated rs)).
  assert (map (fun e => e.1.1) L = map Z.of_nat (seq 0 (List.length rs))) as K.
  { unfold L. rewrite map_map. apply enumerated_fst. }
  assert (Permutation (entries b s t) L) as P.
  { apply list.NoDup_Permutation.
    - apply (NoDup_fmap_1 (fun e => e.1.2)), entries_keys.
    - apply (NoDup_fmap_1 (fun e => e.1.1)). change (NoDup (map (fun e => e.1.1) L)). rewrite K. apply ordinals_distinct.
    - intros [[o k] l]. rewrite entries_spec, E. unfold L. rewrite list_elem_of_fmap. split.
      + intros (i & -> & Hi). exists (Z.of_nat i, (k, l)). split; [done|]. apply enumerated_elem. by exists i.
      + intros ([o' [k' l']] & [= -> -> ->] & (i & Hi)%enumerated_elem). by exists i. }
  rewrite (order_by_ext (fun e => e.1.1) line_leb (fun a b => a.1.1 <=? b.1.1)).
  - rewrite (order_by_perm (fun e => e.1.1) _ (fun _ _ => eq_refl) L) by (by rewrite ?K; try apply seq_sorted).
    unfold L. rewrite map_map. simpl. rewrite <- (map_map snd snd). by rewrite enumerated_snd.
  - rewrite (Permutation_map _ P), K. apply ordinals_distinct.
  - intros x y Ne. unfold line_leb. destruct (Z.ltb_spec x.1.1 y.1.1), (Z.eqb_spec x.1.1 y.1.1), (Z.leb_spec x.1.1 y.1.1); simpl; try done; lia.
Qed.

(** ... and from the events. *)
Lemma numbered_rendered b s t rs (m : replayed) :
  numbered b s t rs -> (forall k, m !! k = shown (view b s t k)) -> rendered m = Ok (render rs.*2).
Proof.
  intros [N E] Hm. set (L := map (fun p : Z * (string * string) => (p.1, p.2.2)) (enumerated rs)).
  assert (map fst L = map Z.of_nat (seq 0 (List.length rs))) as K by (unfold L; rewrite map_map; apply enumerated_fst).
  assert (Permutation (map snd (map_to_list m)) L) as P.
  { trans (map snd (map (fun p : Z * (string * string) => (p.2.1, (p.1, p.2.2))) (enumerated rs))); [|by rewrite map_map].
    apply Permutation_map, list.NoDup_Permutation.
    - apply NoDup_map_to_list.
    - apply (NoDup_fmap_1 fst). change (NoDup (map fst (map (fun p : Z * (string * string) => (p.2.1, (p.1, p.2.2))) (enumerated rs)))).
      rewrite map_map. simpl. rewrite <- (map_map snd fst), enumerated_snd. exact N.
    - intros [k [o l]]. rewrite elem_of_map_to_list, Hm, E, list_elem_of_fmap. split.
      + intros (i & -> & Hi). exists (Z.of_nat i, (k, l)). split; [done|]. apply enumerated_elem. by exists i.
      + intros ([o' [k' l']] & [= -> -> ->] & (i & Hi)%enumerated_elem). by exists i. }
  unfold rendered. cbv zeta. rewrite (order_by_perm fst _ (fun _ _ => eq_refl) L) by (by rewrite ?K; try apply seq_sorted).
  assert (List.length L = List.length rs) as El by (apply (f_equal (@List.length _)) in K; by rewrite !length_map, length_seq in K).
  rewrite El, bool_decide_eq_true_2 by exact K. do 2 f_equal. unfold L. rewrite map_map. simpl.
  rewrite <- (map_map snd snd). by rewrite enumerated_snd.
Qed.

(** ** The loops of a cycle *)

Section cycles.
  Context `{Jsonb} `{Digest} `{IsoTime} `{JsonLimits}.

Inductive Rows (b : bool) (t c : string) (base : shadow) : list arow -> shadow -> shadow -> Prop :=
  | Rows_nil s : Rows b t c base [] s s
  | Rows_cons r rs s s1 s2 :
      row_step b t c (view b base t (a_key r)) r s s1 -> Rows b t c base rs s1 s2 -> Rows b t c base (r :: rs) s s2.
Inductive Removals (b : bool) (t c : string) : list string -> shadow -> shadow -> Prop :=
  | Removals_nil s : Removals b t c [] s s
  | Removals_cons k ks s s1 s2 :
      removal_step b t c k s s1 -> Removals b t c ks s1 s2 -> Removals b t c (k :: ks) s s2.

Lemma each_row_Rows {R} (f : shadow -> R -> res (shadow * Z)) (g : R -> arow) b t c base rows s n s' m :
  (forall x r x' k, f x r = Ok (x', k) -> row_step b t c (view b base t (a_key (g r))) (g r) x x') ->
  each_row f rows s n = Ok (s', m) -> Rows b t c base (map g rows) s s'.
Proof.
  intros Hf. revert s n. induction rows as [|r rows IH]; intros s n E; simpl in E; [injection E as <- <-; constructor|].
  apply rbind_ok in E as ([s1 k] & E1 & E). econstructor; [by eapply Hf|by eapply IH].
Qed.

(** The keys the second loop visits. *)
Definition gone {B} (present : B -> bool) (current : list string) (existing : list (string * B)) : list string :=
  map fst (List.filter (fun kv => negb (existsb (String.eqb kv.1) current || negb (present kv.2))) existing).

Lemma each_removed_Removals {B} (f : shadow -> string -> B -> res shadow) b t c pr cur ex s n s' m :
  (forall x k p x', f x k p = Ok x' -> removal_step b t c k x x') ->
  each_removed f pr cur ex s n = Ok (s', m) -> Removals b t c (gone pr cur ex) s s'.
Proof.
  intros Hf. revert s n. induction ex as [|[k p] ex IH]; intros s n E; simpl in E; [injection E as <- <-; constructor|].
  unfold gone. cbn [List.filter fst snd]. destruct (existsb _ _ || negb _); [by eapply IH|].
  apply rbind_ok in E as (s1 & E1 & E). econstructor; [by eapply Hf|by eapply IH].
Qed.

(** What either loop leaves alone. *)
Record outside (b : bool) (t : string) (ks : list string) (s s' : shadow) : Prop := {
  ou_view b' t' k : ~ (b' = b /\ t' = t /\ k ∈ ks) -> view b' s' t' k = view b' s t' k;
  ou_documents : sh_documents s' = sh_documents s;
  ou_snapshots : sh_snapshots s' = sh_snapshots s;
}.

Lemma outside_cons b t k ks o s s1 s2 : touches b t k o s s1 -> outside b t ks s1 s2 -> outside b t (k :: ks) s s2.
Proof.
  intros [T1 T2 T3 T4] [O1 O2 O3]. split; [|congruence..]. intros b' t' k' Ne. rewrite O1.
  - apply T2. intros [= -> -> ->]. apply Ne. repeat split. by left.
  - intros (-> & -> & Hk). apply Ne. repeat split. by right.
Qed.

Lemma Rows_outside b t c base rs s s' :
  Rows b t c base rs s s' -> outside b t (map a_key rs) s s'
  /\ forall k, k ∈ map a_key rs -> exists r, r ∈ rs /\ a_key r = k /\ view b s' t k = Some (cell_of r).
Proof.
  induction 1 as [s|r rs s s1 s2 [T [_ _]] _ [O V]]; [split; [by split|by intros k ?%elem_of_nil]|].
  split; [by eapply outside_cons|]. intros k Hk. destruct (decide (k ∈ map a_key rs)) as [Hin|Hn].
  - destruct (V k Hin) as (x & Hx & ? & ?). exists x. split; [by right|done].
  - apply elem_of_cons in Hk as [->|Hk]; [|done]. exists r. split; [by left|]. split; [done|].
    rewrite (ou_view _ _ _ _ _ O) by (by intros (_ & _ & ?)). by apply T.
Qed.

Lemma Removals_outside b t c ks s s' :
  Removals b t c ks s s' -> outside b t ks s s' /\ forall k, k ∈ ks -> shown (view b s' t k) = None.
Proof.
  induction 1 as [s|k ks s s1 s2 [(o & T & Hs & _) _] _ [O V]]; [split; [by split|by intros k ?%elem_of_nil]|].
  split; [by eapply outside_cons|]. intros k' Hk. destruct (decide (k' ∈ ks)) as [Hin|Hn]; [by apply V|].
  apply elem_of_cons in Hk as [->|Hk]; [|done]. rewrite (ou_view _ _ _ _ _ O) by (by intros (_ & _ & ?)).
  by rewrite (to_cell _ _ _ _ _ _ T).
Qed.

(** One surface brought up to its file: both loops. *)
Record surface_shows (b : bool) (t : string) (rs : list arow) (s : shadow) : Prop := {
  sd_rows k : k ∈ map a_key rs -> exists r, r ∈ rs /\ a_key r = k /\ view b s t k = Some (cell_of r);
  sd_gone k : k ∉ map a_key rs -> shown (view b s t k) = None;
}.
Record surface_done (b : bool) (t : string) (rs : list arow) (s s' : shadow) : Prop := {
  sd_outside b' t' k : (b', t') <> (b, t) -> view b' s' t' k = view b' s t' k;
  sd_documents : sh_documents s' = sh_documents s;
  sd_snapshots : sh_snapshots s' = sh_snapshots s;
  sd_shows : surface_shows b t rs s';
}.
Lemma surface_shows_view b t rs s s' :
  surface_shows b t rs s -> (forall k, view b s' t k = view b s t k) -> surface_shows b t rs s'.
Proof. intros [R G] V. split; intros k; rewrite V; auto. Qed.

Lemma surface_done_intro b t c rs ks s s1 s' :
  Rows b t c s rs s s1 -> Removals b t c ks s1 s' ->
  (forall k, k ∈ ks <-> k ∉ map a_key rs /\ is_Some (shown (view b s t k))) -> surface_done b t rs s s'.
Proof.
  intros [O1 V1]%Rows_outside [O2 V2]%Removals_outside Hks. split.
  - intros b' t' k Ne. rewrite (ou_view _ _ _ _ _ O2), (ou_view _ _ _ _ _ O1); [done|..]; intros (-> & -> & _); by apply Ne.
  - by rewrite (ou_documents _ _ _ _ _ O2), (ou_documents _ _ _ _ _ O1).
  - by rewrite (ou_snapshots _ _ _ _ _ O2), (ou_snapshots _ _ _ _ _ O1).
  - split; intros k Hk; [rewrite (ou_view _ _ _ _ _ O2); [by apply V1|by intros (_ & _ & [? _]%Hks)]|].
    destruct (decide (k ∈ ks)) as [Hin|Hn]; [by apply V2|].
    rewrite (ou_view _ _ _ _ _ O2) by (by intros (_ & _ & ?)). rewrite (ou_view _ _ _ _ _ O1) by (by intros (_ & _ & ?)).
    destruct (shown (view b s t k)) eqn:E; [|done]. exfalso. apply Hn, Hks. by rewrite E.
Qed.

Lemma gone_spec {B} (pr : B -> bool) cur (ex : list (string * B)) k :
  k ∈ gone pr cur ex <-> k ∉ cur /\ exists p, (k, p) ∈ ex /\ pr p = true.
Proof.
  unfold gone. rewrite list_elem_of_In, in_map_iff. split.
  - intros ([k' p] & <- & [Hin Hf]%filter_In). simpl in *. apply negb_true_iff, orb_false_iff in Hf as [Hc Hp].
    apply negb_false_iff in Hp. split; [|by exists p; split; [apply list_elem_of_In|]].
    intros Hk%existsb_eqb. congruence.
  - intros (Hk & p & Hin & Hp). exists (k, p). split; [done|]. apply filter_In. split; [by apply list_elem_of_In|]. simpl.
    rewrite Hp, orb_false_r. apply negb_true_iff. destruct (existsb (String.eqb k) cur) eqn:E; [|done].
    by apply existsb_eqb in E.
Qed.

(** The two loops of each surface, as steps. *)
Lemma dispatch_loops s t c rows now s' n :
  sync_dispatch_rows s t c rows now = Ok (s', n) ->
  let ks := gone db_present (map jr_source_key rows) (tenant_rows t (sh_dispatch s)) in
  exists s1, Rows true t c s (map dispatch_arow rows) s s1 /\ Removals true t c ks s1 s'
    /\ forall k, k ∈ ks <-> k ∉ map a_key (map dispatch_arow rows) /\ is_Some (shown (view true s t k)).
Proof.
  unfold sync_dispatch_rows. intros ([s1 m] & E1 & E2)%rbind_ok. exists s1. split; [|split].
  - eapply each_row_Rows; [|exact E1]. intros x r x' k Ex. by eapply dispatch_row_step.
  - eapply each_removed_Removals; [|exact E2]. intros x k p x' Ex. by eapply dispatch_removal_step.
  - intros k. rewrite gone_spec, map_map. apply and_iff_compat_l. unfold view. split.
    + intros (p & Hp%tenant_rows_spec & E). rewrite Hp. simpl. rewrite E. by eexists.
    + destruct (sh_dispatch s !! (t, k)) as [p|] eqn:E; simpl; [|by intros []]. destruct (db_present p) eqn:P; [|by intros []].
      intros _. exists p. split; [by apply tenant_rows_spec|done].
Qed.
Lemma audit_loops s t c rows now s' n :
  sync_fodl_audit_rows s t c rows now = Ok (s', n) ->
  let ks := gone ab_present (map fr_source_key rows) (tenant_rows t (sh_audit s)) in
  exists s1, Rows false t c s (map audit_arow rows) s s1 /\ Removals false t c ks s1 s'
    /\ forall k, k ∈ ks <-> k ∉ map a_key (map audit_arow rows) /\ is_Some (shown (view false s t k)).
Proof.
  unfold sync_fodl_audit_rows. intros ([s1 m] & E1 & E2)%rbind_ok. exists s1. split; [|split].
  - eapply each_row_Rows; [|exact E1]. intros x r x' k Ex. by eapply audit_row_step.
  - eapply each_removed_Removals; [|exact E2]. intros x k p x' Ex. by eapply audit_removal_step.
  - intros k. rewrite gone_spec, map_map. apply and_iff_compat_l. unfold view. split.
    + intros (p & Hp%tenant_rows_spec & E). rewrite Hp. simpl. rewrite E. by eexists.
    + destruct (sh_audit s !! (t, k)) as [p|] eqn:E; simpl; [|by intros []]. destruct (ab_present p) eqn:P; [|by intros []].
      intros _. exists p. split; [by apply tenant_rows_spec|done].
Qed.
End cycles.

(** ** A surface that comes back

    The source keys of two rows may agree (an explicit id can spell the key
    of an occurrence); the later row then replaces the earlier one, a line is
    missing, and the cycle fails. *)
Section distinct.
  Context (b : bool) (t : string) (rs : list arow) (s' : shadow).
  Hypothesis shows_ : surface_shows b t rs s'.

Lemma entries_rows o k l : (o, k, l) ∈ entries b s' t -> exists r, r ∈ rs /\ a_key r = k /\ a_line r = l /\ o = Z.of_nat (a_ord r).
Proof.
  intros E%entries_spec. destruct (decide (k ∈ map a_key rs)) as [Hk|Hk].
  - destruct (sd_rows _ _ _ _ shows_ k Hk) as (r & Hr & Ek & V). rewrite V in E. simpl in E. injection E as <- <-. by exists r.
  - by rewrite (sd_gone _ _ _ _ shows_ k Hk) in E.
Qed.

Lemma keys_distinct_of_render :
  Forall one_line (map a_line rs) -> render (lines_of b s' t) = render (map a_line rs) -> NoDup (map a_key rs).
Proof.
  intros F E. assert (Forall one_line (lines_of b s' t)) as F'.
  { unfold lines_of. apply List.Forall_forall. intros l Hl. apply in_map_iff in Hl as ([[o k] l'] & <- & Hl).
    apply (Permutation_in _ (order_by_permutation _ _)), list_elem_of_In, entries_rows in Hl as (r & Hr & _ & <- & _).
    rewrite List.Forall_forall in F. simpl. by apply F, in_map, list_elem_of_In. }
  pose proof (render_inj _ _ F' F E) as El. apply (f_equal (@List.length _)) in El.
  unfold lines_of in El. rewrite !length_map, (Permutation_length (order_by_permutation _ _)) in El.
  assert (map (fun e => e.1.2) (entries b s' t) ≡ₚ map a_key rs) as P.
  { apply submseteq_length_Permutation; [|by rewrite !length_map, El].
    apply NoDup_submseteq; [apply entries_keys|]. intros k ([[o k'] l] & -> & He)%list_elem_of_fmap.
    apply entries_rows in He as (r & Hr & <- & _). simpl. by apply list_elem_of_fmap_2. }
  rewrite <- P. apply entries_keys.
Qed.

Lemma numbered_rows :
  NoDup (map a_key rs) -> map a_ord rs = seq 0 (List.length rs) -> numbered b s' t (map (fun r => (a_key r, a_line r)) rs).
Proof.
  intros N O. split; [by rewrite <- list_fmap_compose|].
  assert (forall i r, rs !! i = Some r -> a_ord r = i) as Hord.
  { intros i r Hi. pose proof (f_equal (fun l => l !! i) O) as Ei. simpl in Ei. rewrite list_lookup_fmap, Hi in Ei. simpl in Ei.
    rewrite lookup_seq_lt in Ei by (by eapply lookup_lt_Some). by injection Ei as ->. }
  intros k o l. split.
  - intros E%entries_spec%entries_rows. destruct E as (r & Hr & <- & <- & ->).
    apply list_elem_of_lookup in Hr as (i & Hi). exists i. by rewrite list_lookup_fmap, Hi, (Hord i r Hi).
  - intros (i & -> & Hi). rewrite list_lookup_fmap in Hi. apply fmap_Some in Hi as (r & Hi & [= -> ->]).
    destruct (sd_rows _ _ _ _ shows_ (a_key r)) as (r' & Hr' & Ek & V).
    { apply list_elem_of_fmap_2. by eapply list_elem_of_lookup_2. }
    assert (r' = r) as ->; [|by rewrite V; simpl; rewrite (Hord i r Hi)].
    apply list_elem_of_lookup in Hr' as (j & Hj).
    assert (j = i) as ->; [|congruence]. eapply NoDup_lookup; [exact N|..]; rewrite list_lookup_fmap.
    + by rewrite Hj.
    + by rewrite Hi, Ek.
Qed.
End distinct.

(** ** The invariant, through the loops *)

Section history.
  Context `{Jsonb} `{Digest} `{IsoTime} `{JsonLimits}.
  Context (names : string -> string -> list string -> Prop) (texts : string -> Prop).
  Hypothesis names_distinct : forall t k p k' p' key key',
    names t k p -> names t k' p' -> event_key k p = Ok key -> event_key k' p' = Ok key' ->
    id_ [t; key; "event"] = id_ [t; key'; "event"] -> (k, p) = (k', p').
  Hypothesis texts_distinct : forall x y, texts x -> texts y -> digest x = digest y -> x = y.
  #[local] Notation mid := (mid names texts).

Lemma Rows_mid b t c base rs s0 s s' dn :
  Rows b t c base rs s s' -> mid t s0 s dn -> ~ committed s0 t c -> NoDup (map a_key rs) ->
  Forall (good_row names texts b t c) rs -> (forall k, k ∈ map a_key rs -> view b s t k = view b base t k) ->
  (forall r, r ∈ rs -> row_name b c r ∉ dn) ->
  exists dn', mid t s0 s' dn' /\ forall n, n ∈ dn' -> n ∈ dn \/ exists r, r ∈ rs /\ n = row_name b c r.
Proof.
  intros R. revert dn. induction R as [s|r rs s s1 s2 St R IH]; intros dn M Hc N G V Hdn; [exists dn; split; [done|by left]|].
  cbn [map] in N. apply NoDup_cons in N as [Nr N]. apply Forall_cons in G as [Gr G].
  rewrite <- (V (a_key r)) in St by left.
  destruct (row_step_mid names texts names_distinct texts_distinct b t c r s0 s s1 dn M St Gr Hc (Hdn r (list_elem_of_here _ _)))
    as (dn1 & M1 & D1).
  assert (forall x, x ∈ rs -> a_key x <> a_key r) as Nk by (intros x Hx Ek; apply Nr; rewrite <- Ek; by apply list_elem_of_fmap_2).
  destruct (IH dn1 M1 Hc N G) as (dn2 & M2 & D2).
  - intros k Hk. destruct St as [T _]. rewrite (to_view _ _ _ _ _ _ T); [apply V; by right|].
    intros [= ->]. apply list_elem_of_fmap in Hk as (x & Ek & Hx). by eapply Nk.
  - intros x Hx [Hin|E]%D1; [by apply (Hdn x); [right|]|]. unfold row_name in E. injection E as Ek. by eapply Nk.
  - exists dn2. split; [done|]. intros n [[Hn| ->]%D1|(x & Hx & ->)]%D2; [by left|right; exists r; split; [left|done]|].
    right. exists x. split; [by right|done].
Qed.

Lemma Removals_mid b t c ks s0 s s' dn :
  Removals b t c ks s s' -> mid t s0 s dn -> ~ committed s0 t c -> NoDup ks ->
  (forall k, k ∈ ks -> is_Some (shown (view b s t k)) /\ names t (removed_kind b) [k; c] /\ removed_name b c k ∉ dn) ->
  exists dn', mid t s0 s' dn' /\ forall n, n ∈ dn' -> n ∈ dn \/ exists k, k ∈ ks /\ n = removed_name b c k.
Proof.
  intros R. revert dn. induction R as [s|k ks s s1 s2 St R IH]; intros dn M Hc N Hk; [exists dn; split; [done|by left]|].
  apply NoDup_cons in N as [Nk N]. destruct (Hk k (list_elem_of_here _ _)) as ([v Hv] & Hn & Hd).
  destruct (view b s t k) as [x|] eqn:V; [|done]. simpl in Hv. destruct (c_present x) eqn:P; [|done].
  pose proof (removal_step_mid names texts names_distinct b t c k x s0 s s1 dn M St V P Hn Hc Hd) as M1.
  destruct (IH _ M1 Hc N) as (dn2 & M2 & D2).
  - intros k' Hk'. assert (k' <> k) as Ne by (intros ->; by apply Nk). destruct (Hk k') as (Hs & Hn' & Hd'); [by right|].
    destruct St as [(o & T & _) _]. rewrite (to_view _ _ _ _ _ _ T) by (intros [= E]; by apply Ne).
    split; [done|]. split; [done|]. intros [E|Hin]%elem_of_cons; [|done]. unfold removed_name in E. injection E as E. by apply Ne.
  - exists dn2. split; [done|]. intros n [[->|Hn']%elem_of_cons|(x' & Hx & ->)]%D2; [|by left|].
    + right. exists k. split; [left|done].
    + right. exists x'. split; [by right|done].
Qed.

(** The events a surface of the cycle may append. *)
Definition own_name (b : bool) (c : string) (n : string * list string) : Prop :=
  (n.1 = state_kind b \/ n.1 = removed_kind b) /\ cycle_of n.1 n.2 = Some c.
Lemma own_row b c r : own_name b c (row_name b c r).
Proof. split; [by left|by destruct b]. Qed.
Lemma own_removed b c k : own_name b c (removed_name b c k).
Proof. split; [by right|by destruct b]. Qed.
Lemma own_exclusive c c' n : own_name true c n -> own_name false c' n -> False.
Proof. intros [[E|E] _] [[E'|E'] _]; by rewrite E in E'. Qed.

Lemma surface_mid b t c rs ks s0 s s1 s' dn :
  Rows b t c s rs s s1 -> Removals b t c ks s1 s' ->
  (forall k, k ∈ ks <-> k ∉ map a_key rs /\ is_Some (shown (view b s t k))) -> NoDup ks ->
  mid t s0 s dn -> ~ committed s0 t c -> NoDup (map a_key rs) -> Forall (good_row names texts b t c) rs ->
  (forall k, is_Some (shown (view b s t k)) -> names t (removed_kind b) [k; c]) ->
  (forall n, n ∈ dn -> ~ own_name b c n) ->
  exists dn', mid t s0 s' dn' /\ forall n, n ∈ dn' -> n ∈ dn \/ own_name b c n.
Proof.
  intros R1 R2 Hks Nks M Hc N G Hn Hdn.
  destruct (Rows_mid b t c s rs s0 s s1 dn R1 M Hc N G) as (d1 & M1 & D1); [done| |].
  { intros r _ Hin. by apply (Hdn _ Hin), own_row. }
  apply Rows_outside in R1 as [O1 _].
  destruct (Removals_mid b t c ks s0 s1 s' d1 R2 M1 Hc Nks) as (d2 & M2 & D2).
  - intros k Hk. apply Hks in Hk as [Nk Hs]. rewrite (ou_view _ _ _ _ _ O1) by (by intros (_ & _ & ?)).
    split; [done|]. split; [by apply Hn|]. intros [Hin|(r & _ & E)]%D1; [by apply (Hdn _ Hin), own_removed|].
    unfold removed_name, row_name in E. by destruct b.
  - exists d2. split; [done|]. intros n [[Hin|(r & _ & ->)]%D1|(k & _ & ->)]%D2; [by left|right; apply own_row|right; apply own_removed].
Qed.

(** ** Between cycles *)

(** The state when no cycle runs. *)
Definition settled (s : shadow) : Prop := forall t, mid t s s [] /\ forall b, exists rs, numbered b s t rs.

(** What a step may do to a tenant whose surfaces it does not touch. *)
Record spared (t : string) (s s' : shadow) : Prop := {
  sp_log : log (sh_store s') t = log (sh_store s) t;
  sp_view b k : view b s' t k = view b s t k;
  sp_document : sh_documents s' !! t = sh_documents s !! t;
  sp_committed c : committed s t c -> committed s' t c;
}.

Lemma mid_spared t s s' : mid t s s [] -> stream_wf (sh_store s') -> spared t s s' -> mid t s' s' [].
Proof.
  intros [_ Ids Rp Ce Do _ _] W [L V D C]. split; [done| | | | |done|done].
  - intros e. rewrite L. intros (k & p & key & ? & ? & ? & [(c & ? & ?)|?%elem_of_nil])%Ids; [|done].
    exists k, p, key. repeat (split; [done|]). left. exists c. auto.
  - rewrite L. destruct Rp as (r & Er & Sh & Hd). exists r. split; [done|]. split.
    + intros b k. rewrite V. apply Sh.
    + rewrite Hd. unfold document_bytes. by rewrite D.
  - intros b k x. rewrite V. apply Ce.
  - intros d. rewrite D. apply Do.
Qed.

Lemma numbered_spared b t s s' rs : numbered b s t rs -> (forall k, view b s' t k = view b s t k) -> numbered b s' t rs.
Proof. intros [N E] V. split; [done|]. intros k. rewrite V. apply E. Qed.

Lemma settled_replay s t : settled s -> exists r,
  replay_events (Replay ∅ ∅ []) (log (sh_store s) t) = Ok r
  /\ rendered (rp_dispatch r) = Ok (render (dispatch_lines t s))
  /\ rendered (rp_audit r) = Ok (render (audit_lines t s)) /\ rp_document r = document_bytes t s.
Proof.
  intros S. destruct (S t) as [M N]. destruct (md_replay _ _ _ _ _ _ M) as (r & Er & Sh & Do). exists r. split; [done|].
  destruct (N true) as (rs & Nt), (N false) as (rs' & Nf). pose proof (numbered_lines _ _ _ _ Nt) as Lt.
  pose proof (numbered_lines _ _ _ _ Nf) as Lf. unfold lines_of in Lt, Lf. simpl in Lt, Lf.
  unfold dispatch_lines, audit_lines. rewrite Lt, Lf.
  split; [exact (numbered_rendered _ _ _ _ _ Nt (Sh true))|]. split; [exact (numbered_rendered _ _ _ _ _ Nf (Sh false))|done].
Qed.

Lemma m5_events_log s t : stream_wf s -> m5_events s t = log s t.
Proof.
  intros W. destruct (W t) as (_ & S & _). unfold m5_events. apply (order_by_perm ev_seq); [done| |done].
  by apply sorted_filter.
Qed.

(** What a cycle hashes is covered by [names] and [texts]. *)
Definition covers (s : shadow) (t c : string) (d : surfaces) : Prop :=
  (forall rows r, parse_dispatch_bytes (sf_dispatch d) = Ok rows -> r ∈ rows ->
     texts (jr_line r) /\ names t "dispatch-state" [jr_source_key r; c; jr_sha256 r])
  /\ (forall rows r, parse_fodl_audit_bytes (sf_audit d) = Ok rows -> r ∈ rows ->
     texts (fr_line r) /\ names t "fodl-audit-state" [fr_source_key r; c; fr_sha256 r])
  /\ texts (of_chars (sf_current d)) /\ names t "fodl-document" [c; digest (of_chars (sf_current d))]
  /\ forall b k, is_Some (shown (view b s t k)) -> names t (removed_kind b) [k; c].

(** The parts of a cycle that was not run before. *)
Lemma run_cycle_parts s t c d dr ar now snap s' :
  run_cycle s t c d dr ar now = Ok (snap, s') ->
  exists s1 n s2 m s3 k, sync_dispatch_rows s t c dr now = Ok (s1, n) /\ sync_fodl_audit_rows s1 t c ar now = Ok (s2, m)
    /\ sync_document s2 t c (sf_current d) now = Ok (s3, k)
    /\ render_kernel_surfaces s3 t = (sf_dispatch d, sf_audit d, sf_current d)
    /\ s' = set_snapshots s3 (sh_snapshots s3 ++ [(snap, now)])
    /\ sr_tenant_id snap = t /\ sr_cycle_key snap = c /\ clean snap = true
    /\ insert_row snapshot_constraints (snap, now) (sh_snapshots s3) = Ok (sh_snapshots s3 ++ [(snap, now)]).
Proof.
  unfold run_cycle. intros E. apply rbind_ok in E as ([s1 n] & E1 & E). apply rbind_ok in E as ([s2 m] & E2 & E).
  apply rbind_ok in E as ([s3 k] & E3 & E). guards in E. destruct E as [D E]. apply negb_false_iff, bool_decide_eq_true in D.
  exists s1, n, s2, m, s3, k. repeat (split; [done|]).
  unfold differences in D. unfold render_kernel_surfaces in *. cbv beta iota in D.
  apply app_eq_nil in D as [D1 D]. apply app_eq_nil in D as [D2 D3].
  destruct (bool_decide_reflect (render (dispatch_lines t s3) = sf_dispatch d)) as [R1|]; [|done].
  destruct (bool_decide_reflect (render (audit_lines t s3) = sf_audit d)) as [R2|]; [|done].
  assert (document_bytes t s3 = sf_current d) as R3.
  { unfold document_bytes. destruct (sh_documents s3 !! t) as [doc|]; [|done]. by destruct (bool_decide_reflect (chars (dc_bytes doc) = sf_current d)). }
  rewrite R1, R2, R3. split; [done|]. rewrite R1, R2 in E. apply rbind_ok in E as (rows & Ei & [= <- <-]).
  pose proof (insert_row_ok _ _ _ _ Ei) as [Er _]. rewrite Er in *. repeat (split; [done|]). split; [|exact Ei].
  unfold clean. simpl. by rewrite !String.eqb_refl.
Qed.

Lemma snapshot_of_snoc s s3 snap now t c :
  sh_snapshots s3 = sh_snapshots s -> committed s t c -> committed (set_snapshots s3 (sh_snapshots s3 ++ [(snap, now)])) t c.
Proof.
  unfold committed, snapshot_of. intros ->. simpl. rewrite find_app. by destruct (List.find _ (sh_snapshots s)) as [x|]; [|intros []].
Qed.

(** The new snapshot commits the names the cycle used. *)
Lemma mid_commit t s s3 dn rows c :
  mid t s s3 dn -> (forall n, n ∈ dn -> cycle_of n.1 n.2 = Some c) ->
  committed (set_snapshots s3 rows) t c -> (forall c', committed s t c' -> committed (set_snapshots s3 rows) t c') ->
  mid t (set_snapshots s3 rows) (set_snapshots s3 rows) [].
Proof.
  intros [W Ids Rp Ce Do _ _] Hdn Hc Hold. split; try done.
  intros e (k & p & key & ? & ? & ? & [(c' & ? & ?)|Hin])%Ids; exists k, p, key; repeat (split; [done|]); left.
  - exists c'. auto.
  - exists c. split; [exact (Hdn _ Hin)|done].
Qed.

(** The two surfaces of a cycle, their rows as the loops see them. *)
Lemma dispatch_good t c d s dr : covers s t c d -> parse_dispatch_bytes (sf_dispatch d) = Ok dr ->
  Forall (good_row names texts true t c) (map dispatch_arow dr).
Proof.
  intros (C & _) E. pose proof (parsed_dispatch _ _ E) as (_ & _ & _ & F). apply Forall_fmap, Forall_forall. intros r Hr.
  destruct (C _ _ E Hr) as [Ht Hn]. rewrite Forall_forall in F. destruct (F _ Hr) as [Hs Hk]. split; try done. by exists r.
Qed.
Lemma audit_good t c d s ar : covers s t c d -> parse_fodl_audit_bytes (sf_audit d) = Ok ar ->
  Forall (good_row names texts false t c) (map audit_arow ar).
Proof.
  intros (_ & C & _) E. pose proof (parsed_audit _ _ E) as (_ & _ & _ & F). apply Forall_fmap, Forall_forall. intros r Hr.
  destruct (C _ _ E Hr) as [Ht Hn]. rewrite Forall_forall in F. destruct (F _ Hr) as [Hs Hk]. split; try done. by exists r.
Qed.

(** A surface that is rendered as it was parsed has distinct keys, and is numbered. *)
Lemma surface_numbered b t rs s data :
  surface_shows b t rs s -> render (lines_of b s t) = data -> render (map a_line rs) = data ->
  Forall one_line (map a_line rs) -> map a_ord rs = seq 0 (List.length rs) ->
  NoDup (map a_key rs) /\ numbered b s t (map (fun r => (a_key r, a_line r)) rs).
Proof.
  intros S E E' F O. assert (NoDup (map a_key rs)) as N by (eapply keys_distinct_of_render; [done..|congruence]).
  split; [done|by apply numbered_rows].
Qed.

Lemma cycle_settled s t c d dr ar now snap s' :
  settled s -> covers s t c d -> ~ committed s t c ->
  parse_dispatch_bytes (sf_dispatch d) = Ok dr -> parse_fodl_audit_bytes (sf_audit d) = Ok ar ->
  run_cycle s t c d dr ar now = Ok (snap, s') -> settled s'.
Proof.
  intros S C Hc Ed Ea (s1 & n & s2 & m & s3 & k & E1 & E2 & E3 & R & -> & Et & Ec & _)%run_cycle_parts.
  apply dispatch_loops in E1 as (a1 & R1 & R1' & K1). apply audit_loops in E2 as (a2 & R2 & R2' & K2).
  pose proof (surface_done_intro _ _ _ _ _ _ _ _ R1 R1' K1) as D1.
  pose proof (surface_done_intro _ _ _ _ _ _ _ _ R2 R2' K2) as D2.
  pose proof (dispatch_good _ _ _ _ _ C Ed) as G1. pose proof (audit_good _ _ _ _ _ C Ea) as G2.
  destruct (parsed_dispatch _ _ Ed) as (P1 & O1 & L1 & _), (parsed_audit _ _ Ea) as (P2 & O2 & L2 & _).
  destruct C as (_ & _ & Ct & Cn & Cr).
  assert (forall b k, view b s3 t k = view b s2 t k) as V3.
  { apply sync_document_ok in E3 as (F1 & F2 & _). intros b k'. unfold view. by rewrite F1, F2. }
  assert (forall k, view true s2 t k = view true s1 t k) as V2 by (intros k'; by apply (sd_outside _ _ _ _ _ D2)).
  assert (forall k, view false s1 t k = view false s t k) as V1 by (intros k'; by apply (sd_outside _ _ _ _ _ D1)).
  injection R as Rd Ra Rc.
  destruct (surface_numbered true t (map dispatch_arow dr) s3 (sf_dispatch d)) as [N1 Num1]; [|done|rewrite map_map; done..| |].
  { apply (surface_shows_view _ _ _ s1); [apply D1|]. intros k'. by rewrite V3, V2. }
  { by rewrite map_map, length_map. }
  destruct (surface_numbered false t (map audit_arow ar) s3 (sf_audit d)) as [N2 Num2]; [|done|rewrite map_map; done..| |].
  { apply (surface_shows_view _ _ _ s2); [apply D2|]. intros k'. by rewrite V3. }
  { by rewrite map_map, length_map. }
  destruct (S t) as [M _].
  destruct (surface_mid true t c _ _ s s a1 s1 [] R1 R1' K1) as (d1 & M1 & X1);
    [apply NoDup_map_filter, tenant_rows_keys|done..|apply Cr|by intros ? ?%elem_of_nil|].
  destruct (surface_mid false t c _ _ s s1 a2 s2 d1 R2 R2' K2) as (d2 & M2 & X2);
    [apply NoDup_map_filter, tenant_rows_keys|done..|intros k'; rewrite V1; apply Cr| |].
  { intros x [Hx%elem_of_nil|Hx]%X1; [done|]. exact (own_exclusive _ _ _ Hx). }
  destruct (document_mid names texts names_distinct texts_distinct t c (sf_current d) now s s2 s3 k d2 M2 E3 Ct Cn Hc) as (d3 & M3 & X3 & _).
  { intros p [[Hx%elem_of_nil|[[|] _]]%X1|[[|] _]]%X2; done. }
  set (rows := sh_snapshots s3 ++ [(snap, now)]).
  assert (forall t' c', committed s t' c' -> committed (set_snapshots s3 rows) t' c') as Hold
    by (intros t' c'; apply snapshot_of_snoc, (md_snapshots _ _ _ _ _ _ M3)).
  intros t'. destruct (decide (t' = t)) as [->|Ne].
  - split; [|intros []; eexists; [exact Num1|exact Num2]].
    apply (mid_commit t s s3 d3 rows c M3); [| |apply Hold].
    + intros x [[[Hx%elem_of_nil|[_ Hx]]%X1|[_ Hx]]%X2| ->]%X3; done.
    + unfold committed, snapshot_of, rows. simpl. rewrite find_app. destruct (List.find _ (sh_snapshots s3)); [by eexists|].
      simpl. rewrite Et, Ec, !String.eqb_refl. by eexists.
  - destruct (md_others _ _ _ _ _ _ M3 t' Ne) as (St & V & Doc). destruct (S t') as [M' N'].
    split; [|intros b; destruct (N' b) as [rs Nr]; exists rs; eapply numbered_spared; [exact Nr|exact (V b)]].
    apply (mid_spared t' s); [done|apply M3|]. split; [|exact V|done|by apply Hold]. unfold log. simpl. by rewrite St.
Qed.
End history.

(** ** Histories *)

Section histories.
  Context `{Jsonb} `{Digest} `{IsoTime} `{JsonLimits}.

(** The other writers of the kernel: the surfaces' tables are not theirs, nor
    are the events of the shadow, and they number their events like everyone. *)
Record others (s s' : shadow) : Prop := {
  ot_dispatch : sh_dispatch s' = sh_dispatch s;
  ot_audit : sh_audit s' = sh_audit s;
  ot_documents : sh_documents s' = sh_documents s;
  ot_snapshots : sh_snapshots s' = sh_snapshots s;
  ot_events : exists new, st_events (sh_store s') = st_events (sh_store s) ++ new /\ Forall (fun e => is_m5 e = false) new;
  ot_stream : stream_wf (sh_store s) -> stream_wf (sh_store s');
}.

(** [ok] says which cycles a history may run. *)
Inductive step (ok : shadow -> string -> string -> surfaces -> Prop) : shadow -> shadow -> Prop :=
  | step_sync s t c d now at_ r s' : ok s t c d -> sync_legacy_surfaces s t c d now at_ = (r, s') -> step ok s s'
  | step_others s s' : others s s' -> step ok s s'.

(** The migration has just created its tables. *)
Record fresh (s : shadow) : Prop := {
  fr_stream : stream_wf (sh_store s);
  fr_events : Forall (fun e => is_m5 e = false) (st_events (sh_store s));
  fr_dispatch : sh_dispatch s = ∅;
  fr_audit : sh_audit s = ∅;
  fr_documents : sh_documents s = ∅;
  fr_snapshots : sh_snapshots s = [];
}.
Definition reachable ok (s : shadow) : Prop := exists s0, fresh s0 /\ rtc (step ok) s0 s.

Lemma reachable_inv ok (P : shadow -> Prop) :
  (forall s, fresh s -> P s) -> (forall s s', P s -> step ok s s' -> P s') -> forall s, reachable ok s -> P s.
Proof.
  intros F S s (s0 & Hf & R). apply F in Hf. induction R as [|x y z Hs _ IH]; [done|]. apply IH. by eapply S.
Qed.

Lemma no_m5 l t : Forall (fun e => is_m5 e = false) l -> List.filter is_m5 (List.filter (of_tenant t) l) = [].
Proof.
  induction 1 as [|e l He _ IH]; simpl; [done|]. destruct (of_tenant t e); simpl; [by rewrite He|done].
Qed.

Section replays.
  Context (names : string -> string -> list string -> Prop) (texts : string -> Prop).
  Hypothesis names_distinct : forall t k p k' p' key key',
    names t k p -> names t k' p' -> event_key k p = Ok key -> event_key k' p' = Ok key' ->
    id_ [t; key; "event"] = id_ [t; key'; "event"] -> (k, p) = (k', p').
  Hypothesis texts_distinct : forall x y, texts x -> texts y -> digest x = digest y -> x = y.

Lemma settled_fresh s : fresh s -> settled names texts s.
Proof.
  intros [W E D A Do Sn] t. assert (log (sh_store s) t = []) as L by apply (no_m5 _ _ E).
  assert (forall b k, view b s t k = None) as V by (intros [] k; unfold view; by rewrite ?D, ?A, lookup_empty).
  split.
  - split; try done.
    + intros e. rewrite L. by intros ?%elem_of_nil.
    + exists (Replay ∅ ∅ []). rewrite L. split; [done|]. split.
      * intros b k. rewrite V. destruct b; apply lookup_empty.
      * unfold document_bytes. by rewrite Do, lookup_empty.
    + intros b k x. by rewrite V.
    + intros d. by rewrite Do, lookup_empty.
  - intros b. exists []. split; [constructor|]. intros k o l. rewrite V. split; [done|]. by intros (i & _ & ?).
Qed.

Lemma settled_step s s' : settled names texts s -> step (covers names texts) s s' -> settled names texts s'.
Proof.
  intros S St. destruct St as [s t c d now at_ r s' C E|s s' [D A Do Sn (new & Ee & En) W]].
  - apply sync_cases in E as [->|(dr & ar & time & snap & Ed & Ea & Hc & E & _)]; [done|].
    eapply (cycle_settled names texts names_distinct texts_distinct); try done. unfold committed. by rewrite Hc; intros [].
  - assert (forall b t k, view b s' t k = view b s t k) as V by (intros [] t k; unfold view; by rewrite ?D, ?A).
    intros t. destruct (S t) as [M N]. split.
    + apply (mid_spared names texts t s); [done|apply W, M|]. split; [|by intros b k; rewrite V|by rewrite Do|].
      * unfold log, stream. rewrite Ee, !List.filter_app. by rewrite (no_m5 new), app_nil_r.
      * intros c. unfold committed, snapshot_of. by rewrite Sn.
    + intros b. destruct (N b) as [rs Nr]. exists rs. eapply numbered_spared; [exact Nr|]. intros k. by rewrite V.
Qed.

Lemma settled_reachable s : reachable (covers names texts) s -> settled names texts s.
Proof. revert s. apply reachable_inv; [exact settled_fresh|exact settled_step]. Qed.

Lemma settled_replays s t : settled names texts s -> replay_legacy_from_events (sh_store s) t = Ok (render_kernel_surfaces s t).
Proof.
  intros S. destruct (settled_replay _ _ s t S) as (r & Er & E1 & E2 & E3). destruct (S t) as [M _].
  unfold replay_legacy_from_events. rewrite m5_events_log by apply M. rewrite Er. cbn [rbind]. rewrite E1. cbn [rbind].
  rewrite E2. cbn [rbind]. by rewrite E3.
Qed.
End replays.

(** C24: The events are enough: after any history of cycles, of any tenants,
    successful or not, with the other writers of the kernel appending in
    between, replaying a tenant's events gives what its tables render; and
    right after a cycle that ran, both are the bytes of the three legacy
    files. The hypotheses say that the ids of the events and the digests of the
    lines that the history computes do not collide. *)
Theorem replay_is_the_surface (names : string -> string -> list string -> Prop) (texts : string -> Prop) s :
  (forall t k p k' p' key key', names t k p -> names t k' p' -> event_key k p = Ok key -> event_key k' p' = Ok key' ->
     id_ [t; key; "event"] = id_ [t; key'; "event"] -> (k, p) = (k', p')) ->
  (forall x y, texts x -> texts y -> digest x = digest y -> x = y) ->
  reachable (covers names texts) s ->
  (forall t, replay_legacy_from_events (sh_store s) t = Ok (render_kernel_surfaces s t))
  /\ (forall t c d now at_ snap s', covers names texts s t c d -> snapshot_of s t c = None ->
        sync_legacy_surfaces s t c d now at_ = (Ok snap, s') ->
        replay_legacy_from_events (sh_store s') t = Ok (sf_dispatch d, sf_audit d, sf_current d)).
Proof.
  intros Dn Dt R. pose proof (settled_reachable names texts Dn Dt s R) as S.
  split; [intros t; by apply (settled_replays names texts)|]. intros t c d now at_ snap s' C Hc E.
  pose proof (settled_step names texts Dn Dt s s' S (step_sync _ _ _ _ _ _ _ _ _ C E)) as S'.
  rewrite (settled_replays names texts s' t S'). f_equal.
  unfold sync_legacy_surfaces in E. rewrite Hc in E.
  match type of E with match ?m with _ => _ end = _ => destruct m as [[x y]|e] eqn:Er end; [|done]. injection E as -> ->.
  guards in Er. destruct Er as [_ Er]. apply rbind_ok in Er as (dr & _ & Er). apply rbind_ok in Er as (ar & _ & Er).
  guards in Er. destruct Er as (_ & _ & Er). apply rbind_ok in Er as ([] & _ & Er).
  apply run_cycle_parts in Er as (s1 & n & s2 & m & s3 & k & _ & _ & _ & R3 & -> & _). exact R3.
Qed.

(** ** The gate *)

(** The snapshots of a tenant. *)
Definition cycles (s : shadow) (t : string) : list (SnapshotResult * Z) :=
  List.filter (fun r => (sr_tenant_id r.1 =? t)%string) (sh_snapshots s).

Lemma consecutive_clean l : Forall (fun r => clean r = true) l -> consecutive l = Z.of_nat (List.length l).
Proof. induction 1 as [|r l Hr _ IH]; [done|]. cbn [consecutive List.length]. rewrite Hr, IH. lia. Qed.

Lemma snapshot_of_spec s t c : snapshot_of s t c = None <-> c ∉ map (fun r => sr_cycle_key r.1) (cycles s t).
Proof.
  unfold snapshot_of, cycles. induction (sh_snapshots s) as [|r l IH]; simpl; [split; [by intros _ ?%elem_of_nil|done]|].
  destruct (sr_tenant_id r.1 =? t)%string eqn:Et; simpl; [|done].
  destruct (String.eqb_spec (sr_cycle_key r.1) c) as [Ec|Ec]; simpl.
  - split; [done|]. intros []. rewrite <- Ec. left.
  - rewrite IH, not_elem_of_cons. split; [by intros; split|by intros [_ ?]].
Qed.

Lemma sync_cycles s t c d now at_ r s' :
  sync_legacy_surfaces s t c d now at_ = (r, s') ->
  (s' = s /\ (snapshot_of s t c = None -> exists e, r = Err e))
  \/ exists snap time, r = Ok snap /\ clean snap = true /\ sr_tenant_id snap = t /\ sr_cycle_key snap = c
       /\ snapshot_of s t c = None /\ sh_snapshots s' = sh_snapshots s ++ [(snap, time)].
Proof.
  intros E. pose proof E as E'. apply sync_cases in E' as [->|(dr & ar & time & snap & _ & _ & Hc & Ec & ->)].
  - left. split; [done|]. intros Hc. unfold sync_legacy_surfaces in E. rewrite Hc in E.
    match type of E with match ?m with _ => _ end = _ => destruct m as [[x y]|e] eqn:Er end; [|injection E as <-; by eexists].
    exfalso. injection E as <- ->. guards in Er. destruct Er as [_ Er]. apply rbind_ok in Er as (dr & _ & Er).
    apply rbind_ok in Er as (ar & _ & Er). guards in Er. destruct Er as (_ & _ & Er). apply rbind_ok in Er as ([] & _ & Er).
    apply run_cycle_parts in Er as (s1 & n & s2 & m & s3 & k & E1 & E2 & E3 & _ & Es & _).
    apply dispatch_loops in E1 as (a1 & R1 & R1' & K1). apply audit_loops in E2 as (a2 & R2 & R2' & K2).
    pose proof (sd_snapshots _ _ _ _ _ (surface_done_intro _ _ _ _ _ _ _ _ R1 R1' K1)) as S1.
    pose proof (sd_snapshots _ _ _ _ _ (surface_done_intro _ _ _ _ _ _ _ _ R2 R2' K2)) as S2.
    apply sync_document_ok in E3 as (_ & _ & S3 & _). apply (f_equal sh_snapshots) in Es. simpl in Es.
    rewrite S3, S2, S1 in Es. apply (f_equal (@List.length _)) in Es. rewrite length_app in Es. simpl in Es. lia.
  - right. apply run_cycle_parts in Ec as (s1 & n & s2 & m & s3 & k & E1 & E2 & E3 & _ & -> & Et & Ek & Cl & _).
    apply dispatch_loops in E1 as (a1 & R1 & R1' & K1). apply audit_loops in E2 as (a2 & R2 & R2' & K2).
    pose proof (sd_snapshots _ _ _ _ _ (surface_done_intro _ _ _ _ _ _ _ _ R1 R1' K1)) as S1.
    pose proof (sd_snapshots _ _ _ _ _ (surface_done_intro _ _ _ _ _ _ _ _ R2 R2' K2)) as S2.
    apply sync_document_ok in E3 as (_ & _ & S3 & _). exists snap, time. repeat (split; [done|]). simpl. by rewrite S3, S2, S1.
Qed.

(** What the snapshots are after any history. *)
Definition counted (s : shadow) : Prop :=
  Forall (fun r => clean r.1 = true) (sh_snapshots s)
  /\ forall t, NoDup (map (fun r => sr_cycle_key r.1) (cycles s t)).

Lemma counted_reachable ok s : reachable ok s -> counted s.
Proof.
  revert s. apply reachable_inv.
  - intros s F. unfold counted, cycles. rewrite (fr_snapshots _ F). split; [constructor|intros; constructor].
  - intros s s' [F N] St. unfold counted in *. destruct St as [s t c d now at_ r s' _ E|s s' O].
    + apply sync_cycles in E as [[-> _]|(snap & time & _ & Cl & Et & Ec & Hc & Es)]; [done|]. unfold cycles in *. rewrite Es.
      split; [by apply Forall_app; split; [done|repeat constructor]|]. intros t'. rewrite List.filter_app. simpl.
      destruct (sr_tenant_id snap =? t')%string eqn:Et'; simpl; [|rewrite app_nil_r; apply N].
      apply String.eqb_eq in Et'. subst t'. rewrite map_app. apply NoDup_app. split; [apply N|]. split; [|apply NoDup_singleton].
      intros k Hk ->%list_elem_of_singleton. simpl in Hk. rewrite Et, Ec in Hk. by apply (snapshot_of_spec s t c).
    + unfold cycles. by rewrite (ot_snapshots _ _ O).
Qed.

(** The gate counts the tenant's committed cycles: after any history it is
    ready exactly when at least the required number of cycles under distinct
    keys have committed. Each cycle that runs adds one for its tenant; a
    replayed one adds none, and one that fails leaves the tables as they
    were, so it neither counts nor breaks the row of clean cycles. *)
Theorem gate_counts_cycles ok s t required :
  reachable ok s ->
  (required < 1 -> parity_gate_status s t required = Err (Exn ValueError "required_cycles must be positive"))
  /\ (1 <= required -> parity_gate_status s t required
        = Ok (Gate (required <=? Z.of_nat (List.length (cycles s t))) required
                (Z.min required (Z.of_nat (List.length (cycles s t))))
                (match order_by newest_leb (cycles s t) with r :: _ => sr_cycle_key r.1 | [] => "" end)))
  /\ NoDup (map (fun r => sr_cycle_key r.1) (cycles s t))
  /\ forall t' c d now at_ r s', sync_legacy_surfaces s t' c d now at_ = (r, s') ->
       List.length (cycles s' t) = (List.length (cycles s t)
         + match r, snapshot_of s t' c with Ok _, None => if (t' =? t)%string then 1 else 0 | _, _ => 0 end)%nat
       /\ (forall e, r = Err e -> s' = s).
Proof.
  intros [F N]%counted_reachable. split; [|split; [|split; [apply N|]]]; unfold parity_gate_status.
  - intros Hr. by destruct (Z.ltb_spec required 1) as [|]; [|lia].
  - intros Hr. fold (cycles s t). destruct (Z.ltb_spec required 1) as [|_]; [lia|]. cbv zeta.
    set (rows := take (Z.to_nat required) (map fst (order_by newest_leb (cycles s t)))).
    assert (consecutive rows = Z.min required (Z.of_nat (List.length (cycles s t)))) as C.
    { unfold rows. rewrite consecutive_clean.
      - rewrite length_take, length_map, (Permutation_length (order_by_permutation _ _)). lia.
      - apply Forall_take. apply List.Forall_forall. intros x Hx. apply in_map_iff in Hx as (y & <- & Hy).
        apply (Permutation_in _ (order_by_permutation _ _)), filter_In in Hy as [Hy _].
        rewrite List.Forall_forall in F. by apply (F y). }
    rewrite C. do 2 f_equal.
    + apply eq_true_iff_eq. rewrite !Z.leb_le. lia.
    + unfold rows. destruct (order_by newest_leb (cycles s t)) as [|r l]; [by destruct (Z.to_nat required)|].
      assert (Z.to_nat required = S (Z.to_nat (required - 1))) as -> by lia. done.
  - intros t' c d now at_ r s' E. apply sync_cycles in E as [[-> Hn]|(snap & time & -> & _ & Et & _ & Hc & Es)].
    + split; [|done]. destruct r as [x|e]; [|lia]. destruct (snapshot_of s t' c); [lia|]. by destruct (Hn eq_refl).
    + split; [|done]. unfold cycles. rewrite Es, Hc, List.filter_app, length_app. simpl. rewrite Et.
      by destruct (t' =? t)%string.
Qed.
End histories.

(** ** A demonstration *)

(** The names and the texts of one cycle, as lists. *)
Section listed.
  Context `{Jsonb} `{Digest} `{IsoTime} `{JsonLimits}.

Definition name : Type := string * string * list string.
Definition hashed_names (s : shadow) (t c : string) (d : surfaces) : list name :=
  match parse_dispatch_bytes (sf_dispatch d) with
  | Ok rows => map (fun r => (t, "dispatch-state", [jr_source_key r; c; jr_sha256 r])) rows | Err _ => [] end
  ++ match parse_fodl_audit_bytes (sf_audit d) with
     | Ok rows => map (fun r => (t, "fodl-audit-state", [fr_source_key r; c; fr_sha256 r])) rows | Err _ => [] end
  ++ (t, "fodl-document", [c; digest (of_chars (sf_current d))])
  :: map (fun e => (t, "dispatch-removed", [e.1.2; c])) (entries true s t)
  ++ map (fun e => (t, "fodl-audit-removed", [e.1.2; c])) (entries false s t).
Definition hashed_texts (d : surfaces) : list string :=
  match parse_dispatch_bytes (sf_dispatch d) with Ok rows => map jr_line rows | Err _ => [] end
  ++ match parse_fodl_audit_bytes (sf_audit d) with Ok rows => map fr_line rows | Err _ => [] end
  ++ [of_chars (sf_current d)].

Lemma covers_listed (nl : list name) (tl : list string) s t c d :
  hashed_names s t c d ⊆ nl -> hashed_texts d ⊆ tl -> covers (fun t k p => (t, k, p) ∈ nl) (fun x => x ∈ tl) s t c d.
Proof.
  intros Hn Ht. unfold hashed_names, hashed_texts in *. split; [|split; [|split; [|split]]].
  - intros rows r E Hr. rewrite E in Hn, Ht. split; [apply Ht|apply Hn]; apply elem_of_app; left.
    + by apply list_elem_of_fmap_2.
    + apply list_elem_of_fmap. by exists r.
  - intros rows r E Hr. rewrite E in Hn, Ht. split; [apply Ht|apply Hn]; apply elem_of_app; right; apply elem_of_app; left.
    + by apply list_elem_of_fmap_2.
    + apply list_elem_of_fmap. by exists r.
  - apply Ht. rewrite !elem_of_app. do 2 right. by left.
  - apply Hn. rewrite !elem_of_app. do 2 right. by left.
  - intros b k [[o l] E]. apply entries_spec in E. apply Hn. rewrite !elem_of_app. do 2 right. right. apply elem_of_app.
    destruct b; [left|right]; apply list_elem_of_fmap; by exists (o, k, l).
Qed.

Definition name_id (n : name) : option (string * uuid) :=
  match event_key n.1.2 n.2 with Ok key => Some (n.1.1, id_ [n.1.1; key; "event"]) | Err _ => None end.

(** No two of the elements that differ have one image; each image is computed once. *)
Fixpoint apart {A B} `{EqDecision A} `{EqDecision B} (l : list (A * B)) : bool :=
  match l with
  | [] => true
  | x :: r => forallb (fun y => negb (bool_decide (x.2 = y.2)) || bool_decide (x.1 = y.1)) r && apart r
  end.
Definition distinct_images {A B} `{EqDecision A} `{EqDecision B} (f : A -> B) (l : list A) : bool :=
  apart (map (fun x => (x, f x)) l).

Lemma distinct_images_ok {A B} `{EqDecision A} `{EqDecision B} (f : A -> B) l x y :
  distinct_images f l = true -> x ∈ l -> y ∈ l -> f x = f y -> x = y.
Proof.
  unfold distinct_images. induction l as [|z l IH]; intros E Hx Hy Ef; [by apply elem_of_nil in Hx|].
  cbn [map apart fst snd] in E. apply andb_true_iff in E as [E1 E2]. rewrite forallb_forall in E1.
  assert (forall w, w ∈ l -> f z = f w -> z = w) as G.
  { intros w Hw Efw. apply list_elem_of_In in Hw. specialize (E1 (w, f w) (in_map (fun x => (x, f x)) _ _ Hw)).
    cbn [fst snd] in E1. rewrite bool_decide_eq_true_2 in E1 by done. by apply bool_decide_eq_true in E1. }
  apply elem_of_cons in Hx as [->|Hx], Hy as [->|Hy]; [done|by apply G|symmetry; by apply G|by apply IH].
Qed.

Definition ids_distinct : list name -> bool := distinct_images name_id.
Definition digests_distinct : list string -> bool := distinct_images digest.

Lemma ids_distinct_ok nl : ids_distinct nl = true -> forall t k p k' p' key key',
  (t, k, p) ∈ nl -> (t, k', p') ∈ nl -> event_key k p = Ok key -> event_key k' p' = Ok key' ->
  id_ [t; key; "event"] = id_ [t; key'; "event"] -> (k, p) = (k', p').
Proof.
  intros E t k p k' p' key key' Hn Hm E1 E2 Ei.
  assert ((t, k, p) = (t, k', p')) as [= <- <-]; [|done]. apply (distinct_images_ok name_id nl); try done.
  unfold name_id. cbn [fst snd]. rewrite E1, E2. cbn [fst snd]. by rewrite Ei.
Qed.
Lemma digests_distinct_ok tl : digests_distinct tl = true -> forall x y, x ∈ tl -> y ∈ tl -> digest x = digest y -> x = y.
Proof. intros E x y. by apply distinct_images_ok. Qed.
End listed.

Module HistoryDemo.
#[local] Existing Instance keeping_jsonb.
Import RowsDemo ShadowDemo.

(** The second cycle drops the first intent and the note, and changes the
    document; in between another writer appends an event. *)
Definition after_other : event := Event 5%N "t1" 7 "approval.decided" JNull None None.
Definition append_other (s : shadow) : shadow :=
  set_store s (Store (st_approvals (sh_store s)) {["t1" := (8, Some 1)]} (st_events (sh_store s) ++ [after_other])
    (st_outbox (sh_store s))).
Definition between : shadow := append_other shadow1.
Definition surfaces2 : surfaces := Surfaces
  (render (map line_of [intent (JStr "d-9") "fodl" "pending" "pricing"; intent JNull "task_handoff" "pending" "audit"]))
  (render [line_of (emission "FODL-1")]) (chars "FODL current, revised").
Definition cycle2 := sync_legacy_surfaces between "t1" "c2" surfaces2 noon None.

Definition nl : list name := hashed_names empty_shadow "t1" "c1" surfaces1 ++ hashed_names between "t1" "c2" surfaces2.
Definition tl : list string := hashed_texts surfaces1 ++ hashed_texts surfaces2.

Example both_ran :
  match cycle2 with
  | (Ok r, s) => sr_changed_rows r = 5 /\ List.length (st_events (sh_store s)) = 12%nat
                 /\ map ev_seq (stream (sh_store s) "t1") = map Z.of_nat (seq 1 12)
  | _ => False
  end.
Proof. vm_compute. repeat split; reflexivity. Qed.
Lemma names_ok : ids_distinct nl = true.
Proof. vm_compute. reflexivity. Qed.
Lemma texts_ok_ : digests_distinct tl = true.
Proof. vm_compute. reflexivity. Qed.

Definition listed_covers := covers (fun t k p => (t, k, p) ∈ nl) (fun x => x ∈ tl).

Lemma covers1 : listed_covers empty_shadow "t1" "c1" surfaces1.
Proof. apply covers_listed; intros x Hx; unfold nl, tl; apply elem_of_app; by left. Qed.
Lemma covers2 : listed_covers between "t1" "c2" surfaces2.
Proof. apply covers_listed; intros x Hx; unfold nl, tl; apply elem_of_app; by right. Qed.

Lemma fresh_empty : fresh empty_shadow.
Proof. split; try done. intros t. split; [by vm_compute|]. split; constructor. Qed.

Lemma append_other_others s s1 :
  next_sequence (sh_store s) "t1" = Ok (7, s1) -> st_heads s1 = {["t1" := (8, Some 1)]} -> others s (append_other s).
Proof.
  intros E Eh. split; try reflexivity.
  - exists [after_other]. split; [reflexivity|]. by repeat constructor.
  - intros W. exact (stream_wf_append _ s1 (sh_store (append_other s)) "t1" 7 after_other W E eq_refl eq_refl (eq_sym Eh) eq_refl).
Qed.
Lemma other_writer : others shadow1 between.
Proof.
  assert (match next_sequence (sh_store shadow1) "t1" with
          | Ok (n, s1) => bool_decide (n = 7 /\ st_heads s1 = {["t1" := (8, Some 1)]}) | Err _ => false end = true) as C
    by (vm_compute; reflexivity).
  destruct (next_sequence (sh_store shadow1) "t1") as [[n s1]|e] eqn:E; [|discriminate].
  apply bool_decide_eq_true in C as [-> Eh]. exact (append_other_others _ _ E Eh).
Qed.

Lemma between_reachable : reachable listed_covers between.
Proof.
  exists empty_shadow. split; [exact fresh_empty|].
  eapply rtc_l; [exact (step_sync _ _ _ _ _ _ _ _ _ covers1 (surjective_pairing cycle1))|].
  eapply rtc_l; [exact (step_others _ _ _ other_writer)|]. apply rtc_refl.
Qed.

Lemma cycle2_ran : exists snap, cycle2 = (Ok snap, cycle2.2).
Proof.
  assert (is_ok cycle2.1 = true) as E by (vm_compute; reflexivity).
  destruct cycle2 as [[snap|e] s]; [by exists snap|done].
Qed.
Lemma cycle2_new : snapshot_of between "t1" "c2" = None.
Proof. vm_compute. reflexivity. Qed.
End HistoryDemo.

Import ShadowDemo HistoryDemo.

Lemma replay_is_the_surface_witness :
  replay_legacy_from_events (sh_store between) "t1" = Ok (@render_kernel_surfaces between "t1")
  /\ replay_legacy_from_events (sh_store cycle2.2) "t1" = Ok (sf_dispatch surfaces2, sf_audit surfaces2, sf_current surfaces2).
Proof.
  destruct (@replay_is_the_surface keeping_jsonb _ _ _ _ _ between (ids_distinct_ok nl names_ok) (digests_distinct_ok tl texts_ok_)
              between_reachable) as [A B].
  destruct cycle2_ran as [snap E].
  exact (conj (A "t1") (B "t1" "c2" surfaces2 noon None snap cycle2.2 covers2 cycle2_new E)).
Defined.

Lemma gate_counts_cycles_witness :
  List.length (cycles cycle2.2 "t1") = (List.length (cycles between "t1") + 1)%nat
  /\ exists latest, parity_gate_status between "t1" 2
       = Ok (Gate (2 <=? Z.of_nat (List.length (cycles between "t1"))) 2
               (Z.min 2 (Z.of_nat (List.length (cycles between "t1")))) latest).
Proof.
  destruct (@gate_counts_cycles keeping_jsonb _ _ _ listed_covers between "t1" 2 between_reachable) as (_ & A & _ & B).
  destruct cycle2_ran as [snap E]. pose proof (proj1 (B _ _ _ _ _ _ _ E)) as C. rewrite cycle2_new in C.
  split.
  - exact C.
  - eexists. apply A. lia.
Defined.
