(* ===== verification/Lease.v ===== *)
(** * Leases and fencing tokens (fleet_kernel/m2/lease.py)

    The table [kernel_leases] is a map keyed by its unique constraint
    (tenant_id, resource_key); [kernel_fencing_seq] is a counter. Every
    function of the file is one SQL statement, modelled as a state-passing
    definition that takes the statement's [now()] (microseconds) as an
    argument: clocks of different transactions need not agree. [acquire] has
    two halves, because the sequence is advanced when the VALUES row is built
    and the row lock is taken after: [nextval], then [upsert]. The step
    relation interleaves the halves of any number of claimants with renewals,
    releases and fenced writes. *)
From S2P Require Import Prelude PyStr.
From stdpp Require Import base gmap strings list relations.
From Stdlib Require Import ZArith Lia Sorted.

Local Open Scope Z_scope.

(* src: fleet_kernel/m2/lease.py LeaseHandle *)
Record LeaseHandle := Handle
  { tenant_id : string; resource_key : string; owner_token : string; fencing_token : Z }.

#[export] Instance LeaseHandle_eq_dec : EqDecision LeaseHandle.
Proof. solve_decision. Defined.

(** A row of [kernel_leases]; the key columns are the map's key. *)
Record lease_row := LeaseRow
  { lr_owner : string; lr_token : Z; lr_acquired : Z; lr_expires : Z }.

#[export] Instance lease_row_eq_dec : EqDecision lease_row.
Proof. solve_decision. Defined.

(** [seq] is the last value the sequence handed out. *)
Record leases := Leases { rows : gmap (string * string) lease_row; seq : Z }.

Definition nextval (db : leases) : Z * leases :=
  (seq db + 1, Leases (rows db) (seq db + 1)).

(** The INSERT ... ON CONFLICT of [acquire], given the value [drawn] its
    VALUES row holds. The conflict branch draws again, under the row lock. *)
(* src: fleet_kernel/m2/lease.py acquire@1-20 *)
Definition upsert (db : leases) (now : Z) (tenant res owner : string) (ttl drawn : Z)
    : option Z * leases :=
  match rows db !! (tenant, res) with
  | None =>
      (Some drawn,
       Leases (<[(tenant, res) := LeaseRow owner drawn now (now + ttl)]> (rows db)) (seq db))
  | Some row =>
      if lr_expires row <? now then
        let '(tok, db') := nextval db in
        (Some tok,
         Leases (<[(tenant, res) := LeaseRow owner tok now (now + ttl)]> (rows db')) (seq db'))
      else (None, db)
  end.

(* src: fleet_kernel/m2/lease.py acquire@21-23 *)
Definition grant (tenant res owner : string) (row : option Z) : Prelude.res LeaseHandle :=
  match row with
  | None => Err (Exn LeaseNotAcquired
      (repr res +:+ " (tenant " +:+ repr tenant +:+ ") is held by another live owner"))
  | Some tok => Ok (Handle tenant res owner tok)
  end.

(* src: fleet_kernel/m2/lease.py acquire *)
Definition acquire (db : leases) (now : Z) (tenant res owner : string) (ttl : Z)
    : Prelude.res LeaseHandle * leases :=
  let '(drawn, db1) := nextval db in
  let '(row, db2) := upsert db1 now tenant res owner ttl drawn in
  (grant tenant res owner row, db2).

Definition key (h : LeaseHandle) : string * string := (tenant_id h, resource_key h).
(** The WHERE clause shared by [renew] and [release]. *)
(* src: fleet_kernel/m2/lease.py release@2-6 *)
Definition holds (h : LeaseHandle) (row : lease_row) : bool :=
  (String.eqb (lr_owner row) (owner_token h) && (lr_token row =? fencing_token h)).

(* src: fleet_kernel/m2/lease.py renew *)
Definition renew (db : leases) (now : Z) (h : LeaseHandle) (ttl : Z)
    : Prelude.res LeaseHandle * leases :=
  match rows db !! key h with
  | Some row =>
      if holds h row && (now <? lr_expires row) then
        (Ok h, Leases (<[key h := LeaseRow (lr_owner row) (lr_token row) (lr_acquired row)
                          (now + ttl)]> (rows db)) (seq db))
      else (Err (Exn LeaseLost
        (repr (resource_key h) +:+ " no longer held by " +:+ repr (owner_token h))), db)
  | None => (Err (Exn LeaseLost
        (repr (resource_key h) +:+ " no longer held by " +:+ repr (owner_token h))), db)
  end.

(* src: fleet_kernel/m2/lease.py release *)
Definition release (db : leases) (h : LeaseHandle) : leases :=
  match rows db !! key h with
  | Some row => if holds h row then Leases (base.delete (key h) (rows db)) (seq db) else db
  | None => db
  end.

(* src: fleet_kernel/m2/lease.py current_holder *)
Definition current_holder (db : leases) (tenant res : string) : option (string * Z * Z) :=
  match rows db !! (tenant, res) with
  | Some row => Some (lr_owner row, lr_token row, lr_expires row)
  | None => None
  end.

(** ** Fenced resources

    A row of a fenced table: the value of its id column, the columns
    [set_sql] assigns and [last_fencing_token]. The id column need not be
    unique. *)
Record fenced (I A : Type) := Fenced { fr_id : I; fr_val : A; fr_last : Z }.
Arguments Fenced {I A}. Arguments fr_id {I A}. Arguments fr_val {I A}. Arguments fr_last {I A}.

Section fenced.
  Context {I A : Type} `{EqDecision I}.

(** The WHERE clause, and the rows an UPDATE leaves. *)
(* src: fleet_kernel/m2/lease.py fenced_write@11-14 *)
Definition admits (id : I) (token : Z) (r : fenced I A) : bool :=
  bool_decide (fr_id r = id) && (fr_last r <? token).
(* src: fleet_kernel/m2/lease.py fenced_write *)
Definition fenced_write (tab : list (fenced I A)) (id : I) (token : Z) (set : A -> A)
    : bool * list (fenced I A) :=
  let hit := List.filter (admits id token) tab in
  ((0 <? Z.of_nat (List.length hit)),
   map (fun r => if admits id token r then Fenced (fr_id r) (set (fr_val r)) token else r) tab).

(** ** Interleavings

    [s_pend] holds the claimants between the two halves of [acquire],
    [s_granted] every handle [acquire] has returned. Renewals, releases and
    writes take any handle or token, held or not. *)
Record pending := Pending
  { p_tenant : string; p_res : string; p_owner : string; p_ttl : Z; p_drawn : Z }.
Record sys := Sys
  { s_db : leases; s_tab : list (fenced I A); s_pend : list pending;
    s_granted : list LeaseHandle }.

Inductive op :=
  | ODraw (tenant res owner : string) (ttl : Z)
  | OUpsert (p : pending)
  | ORenew (h : LeaseHandle) (ttl : Z)
  | ORelease (h : LeaseHandle)
  | OWrite (id : I) (token : Z) (set : A -> A).

Inductive step (now : Z) : op -> sys -> sys -> Prop :=
  | step_draw s t r o ttl tok db :
      nextval (s_db s) = (tok, db) ->
      step now (ODraw t r o ttl) s
        (Sys db (s_tab s) (Pending t r o ttl tok :: s_pend s) (s_granted s))
  | step_granted s p before after tok db :
      s_pend s = before ++ p :: after ->
      upsert (s_db s) now (p_tenant p) (p_res p) (p_owner p) (p_ttl p) (p_drawn p)
        = (Some tok, db) ->
      step now (OUpsert p) s
        (Sys db (s_tab s) (before ++ after)
           (Handle (p_tenant p) (p_res p) (p_owner p) tok :: s_granted s))
  | step_refused s p before after db :
      s_pend s = before ++ p :: after ->
      upsert (s_db s) now (p_tenant p) (p_res p) (p_owner p) (p_ttl p) (p_drawn p)
        = (None, db) ->
      step now (OUpsert p) s (Sys db (s_tab s) (before ++ after) (s_granted s))
  | step_renew s h ttl x db :
      renew (s_db s) now h ttl = (x, db) ->
      step now (ORenew h ttl) s (Sys db (s_tab s) (s_pend s) (s_granted s))
  | step_release s h :
      step now (ORelease h) s
        (Sys (release (s_db s) h) (s_tab s) (s_pend s) (s_granted s))
  | step_write s id tok set b tab :
      fenced_write (s_tab s) id tok set = (b, tab) ->
      step now (OWrite id tok set) s (Sys (s_db s) tab (s_pend s) (s_granted s)).

Definition any_step (s s' : sys) : Prop := exists now o, step now o s s'.
Definition init (tab : list (fenced I A)) : sys := Sys (Leases ∅ 0) tab [] [].
Definition reachable (s : sys) : Prop := exists tab, rtc any_step (init tab) s.
End fenced.
Arguments sys I A : clear implicits.
Arguments op I A : clear implicits.

(** ** Lemmas *)

Section facts.
  Context {I A : Type} `{EqDecision I}.
  Implicit Types (s : sys I A) (h : LeaseHandle) (db : leases) (tab : list (fenced I A)) (set : A -> A).

Lemma upsert_spec db now t r o ttl d x db' :
  upsert db now t r o ttl d = (x, db') ->
  match x with
  | Some tok =>
      rows db' = <[(t, r) := LeaseRow o tok now (now + ttl)]> (rows db) /\
      (rows db !! (t, r) = None /\ tok = d /\ seq db' = seq db \/
       exists row, rows db !! (t, r) = Some row /\ lr_expires row < now /\
                   tok = seq db + 1 /\ seq db' = tok)
  | None => db' = db /\ exists row, rows db !! (t, r) = Some row /\ now <= lr_expires row
  end.
Proof.
  unfold upsert. destruct (rows db !! (t, r)) as [row|] eqn:E.
  - destruct (lr_expires row <? now) eqn:L; simpl; intros [= <- <-]; simpl.
    + apply Z.ltb_lt in L. split; [done|]. right. by exists row.
    + apply Z.ltb_ge in L. split; [done|]. by exists row.
  - intros [= <- <-]. split; [done|]. by left.
Qed.

(** What renewing or releasing does to the row of another key, or of a key it
    does not hold. *)
Lemma renew_rows db now h ttl x db' k :
  renew db now h ttl = (x, db') ->
  seq db' = seq db /\
  (rows db' !! k = rows db !! k \/
   exists row, key h = k /\ rows db !! k = Some row /\ holds h row = true /\
     now < lr_expires row /\
     rows db' !! k = Some (LeaseRow (lr_owner row) (lr_token row) (lr_acquired row) (now + ttl))).
Proof.
  unfold renew. destruct (rows db !! key h) as [row|] eqn:E.
  - destruct (holds h row) eqn:H; simpl; [destruct (now <? lr_expires row) eqn:L|];
      intros [= <- <-]; simpl; try by eauto.
    split; [done|]. destruct (decide (key h = k)) as [<-|N].
    + right. exists row. rewrite lookup_insert_eq. apply Z.ltb_lt in L. auto.
    + left. by rewrite lookup_insert_ne.
  - intros [= <- <-]. eauto.
Qed.

Lemma release_rows db h k :
  seq (release db h) = seq db /\
  (rows (release db h) !! k = rows db !! k \/
   exists row, key h = k /\ rows db !! k = Some row /\ holds h row = true /\
     rows (release db h) !! k = None).
Proof.
  unfold release. destruct (rows db !! key h) as [row|] eqn:E; [|by eauto].
  destruct (holds h row) eqn:H; simpl; [|by eauto]. split; [done|].
  destruct (decide (key h = k)) as [<-|N].
  - right. exists row. rewrite lookup_delete_eq. auto.
  - left. by rewrite lookup_delete_ne.
Qed.

(** *** Fenced tables only move forward *)

Definition row_le (r r' : fenced I A) : Prop := fr_id r = fr_id r' /\ fr_last r <= fr_last r'.
Definition tab_le : list (fenced I A) -> list (fenced I A) -> Prop := Forall2 row_le.

#[export] Instance row_le_preorder : PreOrder row_le.
Proof.
  split; [by split|]. intros x y z [E ?] [E' ?]. split; [by rewrite E|lia].
Qed.

Lemma fenced_write_le tab id tok set : tab_le tab (fenced_write tab id tok set).2.
Proof.
  simpl. induction tab as [|r tab IH]; simpl; constructor; [|done].
  destruct (admits id tok r) eqn:E; [|reflexivity]. unfold admits in E. bools in E.
  destruct E as [E L]. apply Z.ltb_lt in L. split; simpl; [done|lia].
Qed.

(** Whether it was accepted or not, a write leaves no row below its token. *)
Lemma fenced_write_floor tab id tok set :
  Forall (fun r => fr_id r = id -> tok <= fr_last r) (fenced_write tab id tok set).2.
Proof.
  simpl. apply Forall_fmap, Forall_forall. intros r _ Hid. unfold compose in *.
  destruct (admits id tok r) eqn:E; simpl in *; [lia|].
  unfold admits in E. bools in E. apply Z.ltb_ge, E, Hid.
Qed.

Lemma floor_le (P : I) tok tab tab' :
  tab_le tab tab' -> Forall (fun r => fr_id r = P -> tok <= fr_last r) tab ->
  Forall (fun r => fr_id r = P -> tok <= fr_last r) tab'.
Proof.
  intros H. induction H as [|r r' tab tab' [Hid Hle] _ IH]; intros F; [constructor|].
  inversion_clear F as [|? ? F1 F2]. constructor; [|auto].
  rewrite <- Hid. intros E. specialize (F1 E). lia.
Qed.

Lemma refused_below tab (id : I) tok set :
  Forall (fun r => fr_id r = id -> tok <= fr_last r) tab ->
  fenced_write tab id tok set = (false, tab).
Proof.
  intros F.
  assert (Hn : forall r, r ∈ tab -> admits id tok r = false).
  { intros r Hr. rewrite Forall_forall in F. unfold admits. bools. intros E.
    apply Z.ltb_ge, F, E. done. }
  unfold fenced_write. f_equal.
  - replace (List.filter (admits id tok) tab) with (@nil (fenced I A)); [done|]. symmetry.
    clear F. induction tab as [|r tab IH]; [done|]. simpl. rewrite Hn by constructor.
    apply IH. intros x Hx. apply Hn. by constructor.
  - clear F. induction tab as [|r tab IH]; [done|]. simpl. rewrite Hn by constructor.
    f_equal. apply IH. intros x Hx. apply Hn. by constructor.
Qed.

Lemma step_tab_le now o s s' : step now o s s' -> tab_le (s_tab s) (s_tab s').
Proof.
  intros H. inversion H; subst; simpl; try reflexivity.
  match goal with E : fenced_write _ _ _ _ = _ |- _ => apply (f_equal snd) in E; simpl in E; subst end.
  apply fenced_write_le.
Qed.

Lemma steps_tab_le s s' : rtc any_step s s' -> tab_le (s_tab s) (s_tab s').
Proof.
  induction 1 as [|s s1 s' (now & o & H) _ IH]; [reflexivity|].
  etrans; [by eapply step_tab_le|done].
Qed.

(** *** The invariant of the interleaving *)

Definition tokens s : list Z := map fencing_token (s_granted s) ++ map p_drawn (s_pend s).
Definition handle_of (k : string * string) (row : lease_row) : LeaseHandle :=
  Handle k.1 k.2 (lr_owner row) (lr_token row).

Record inv s : Prop := {
  inv_unique : NoDup (tokens s);
  inv_drawn : Forall (fun t => t <= seq (s_db s)) (tokens s);
  inv_rows k row : rows (s_db s) !! k = Some row -> handle_of k row ∈ s_granted s;
}.

Lemma inv_init tab : inv (init tab).
Proof. split; simpl; [constructor|constructor|]. intros k row. by rewrite lookup_empty. Qed.

Lemma fresh_token s : inv s -> seq (s_db s) + 1 ∉ tokens s.
Proof.
  intros [_ F _] Hin. rewrite Forall_forall in F. specialize (F _ Hin). lia.
Qed.

Lemma drawn_weaken n m l :
  n <= m -> Forall (fun t => t <= n) l -> Forall (fun t => t <= m) l.
Proof. intros L F. eapply Forall_impl; [done|]. simpl. lia. Qed.

(** Dropping the pending draw [p]; handing out its own token or a fresh one. *)
Lemma tokens_split s p before after :
  s_pend s = before ++ p :: after ->
  tokens s ≡ₚ p_drawn p :: (map fencing_token (s_granted s) ++ map p_drawn (before ++ after)).
Proof.
  intros E. unfold tokens. rewrite E, !map_app. simpl. by rewrite <- !Permutation_middle.
Qed.

Lemma holds_spec h row k :
  key h = k -> holds h row = true -> h = handle_of k row.
Proof.
  intros <-. unfold holds. bools. intros [E L]. apply Z.eqb_eq in L. destruct h; simpl in *.
  unfold handle_of. simpl. by rewrite E, L.
Qed.

Lemma inv_db s db :
  inv s -> seq db = seq (s_db s) ->
  (forall k row, rows db !! k = Some row -> handle_of k row ∈ s_granted s) ->
  forall tab, inv (Sys db tab (s_pend s) (s_granted s)).
Proof. intros [U D R] Hs Hr tab. split; simpl; [done| |done]. unfold tokens in *. simpl. by rewrite Hs. Qed.

Lemma inv_step now o s s' : step now o s s' -> inv s -> inv s'.
Proof.
  intros H Hinv. pose proof (fresh_token s Hinv) as Hfresh. pose proof Hinv as [U D R].
  destruct H as [s t r ow ttl tok db E|s p bef aft tok db Hp E|s p bef aft db Hp E
    |s h ttl x db E|s h|s id tok set b tab E].
  - injection E as <- <-. split; unfold tokens in *; simpl; [| |done];
      rewrite <- Permutation_middle; constructor; [done..|simpl; lia|].
    eapply drawn_weaken; [|done]. lia.
  - apply upsert_spec in E as [Er E]. pose proof (tokens_split s p bef aft Hp) as HP.
    rewrite HP in U, D, Hfresh. inversion_clear U as [|? ? U1 U2]. inversion_clear D as [|? ? D1 D2].
    assert (Hnew : tok ∉ map fencing_token (s_granted s) ++ map p_drawn (bef ++ aft) /\
                   tok <= seq db /\ seq (s_db s) <= seq db).
    { destruct E as [(_ & -> & ->)|(row & _ & _ & -> & ->)]; [by repeat split|].
      repeat split; [|lia..]. intros Hin. apply Hfresh. by constructor. }
    destruct Hnew as (N1 & N2 & N3). split; unfold tokens; simpl.
    + by constructor.
    + constructor; [done|]. by eapply drawn_weaken.
    + intros k row. rewrite Er. destruct (decide ((p_tenant p, p_res p) = k)) as [<-|Nk].
      * rewrite lookup_insert_eq. intros [= <-]. constructor.
      * rewrite lookup_insert_ne by done. intros Hk. constructor. by apply R.
  - apply upsert_spec in E as [-> _]. pose proof (tokens_split s p bef aft Hp) as HP.
    rewrite HP in U, D. inversion_clear U. inversion_clear D. by split.
  - apply inv_db; [done| |].
    + by eapply (renew_rows _ _ _ _ _ _ (key h)).
    + intros k row Hk. destruct (renew_rows _ _ _ _ _ _ k E) as [_ [Eq|(r0 & _ & H0 & _ & _ & Eq)]].
      * apply R. by rewrite <- Eq.
      * rewrite Eq in Hk. injection Hk as <-. by apply (R k r0).
  - apply inv_db; [done|by eapply (release_rows _ _ (key h))|].
    intros k row Hk. destruct (release_rows (s_db s) h k) as [_ [Eq|(r0 & _ & _ & _ & Eq)]].
    + apply R. by rewrite <- Eq.
    + by rewrite Eq in Hk.
  - by apply inv_db.
Qed.

Lemma inv_steps s s' : rtc any_step s s' -> inv s -> inv s'.
Proof. induction 1 as [|s s1 s' (now & o & H) _ IH]; eauto using inv_step. Qed.

Lemma inv_reachable s : reachable s -> inv s.
Proof. intros [tab H]. eapply inv_steps; [done|]. apply inv_init. Qed.
End facts.

(** ** Properties *)

Section properties.
  Context {I A : Type} `{EqDecision I}.
  Implicit Types (s : sys I A) (h : LeaseHandle) (set : A -> A).

(** A lease is taken only when nobody holds it or the holder's time is
    over, and then it carries a fencing token above every token in the table;
    a refused [acquire] raises [LeaseNotAcquired], changes no row, and there is
    a live row to blame. *)
Theorem acquire_takes_only_free_leases db now t r o ttl :
  (forall k row, rows db !! k = Some row -> lr_token row <= seq db) ->
  match acquire db now t r o ttl with
  | (Ok h, db') =>
      (forall row, rows db !! (t, r) = Some row -> lr_expires row < now) /\
      h = Handle t r o (fencing_token h) /\
      current_holder db' t r = Some (o, fencing_token h, now + ttl) /\
      (forall k row, rows db !! k = Some row -> lr_token row < fencing_token h) /\
      (forall k, k <> (t, r) -> rows db' !! k = rows db !! k)
  | (Err e, db') =>
      exn_class e = LeaseNotAcquired /\ rows db' = rows db /\
      exists row, rows db !! (t, r) = Some row /\ now <= lr_expires row
  end.
Proof.
  intros Hok. unfold acquire. simpl.
  destruct (upsert _ now t r o ttl _) as [[tok|] db'] eqn:E; apply upsert_spec in E; simpl in *.
  - destruct E as [Er E]. unfold current_holder. rewrite Er, lookup_insert_eq.
    repeat split; simpl.
    + intros row Hrow. destruct E as [(N & _)|(r0 & E0 & L & _)]; congruence.
    + intros k row Hk. specialize (Hok _ _ Hk).
      destruct E as [(_ & -> & _)|(_ & _ & _ & -> & _)]; lia.
    + intros k Hk. by rewrite lookup_insert_ne.
  - by destruct E as [-> E].
Qed.

(** While a lease is live it belongs to its holder: whatever the other
    claimants do, the row keeps its owner and token, its expiry moves only by
    the holder's own renewal, and it disappears only by the holder's own
    release. *)
Theorem live_lease_is_exclusive now o s s' k row :
  step now o s s' -> rows (s_db s) !! k = Some row -> now <= lr_expires row ->
  match rows (s_db s') !! k with
  | Some row' =>
      lr_owner row' = lr_owner row /\ lr_token row' = lr_token row /\
      lr_acquired row' = lr_acquired row /\
      (lr_expires row' = lr_expires row \/ exists ttl, o = ORenew (handle_of k row) ttl)
  | None => o = ORelease (handle_of k row)
  end.
Proof.
  intros H Hk Hlive. destruct H as [s t r ow ttl tok db E|s p bef aft tok db Hp E|s p bef aft db Hp E
    |s h ttl x db E|s h|s id tok set b tab E]; simpl.
  - injection E as _ <-. simpl. rewrite Hk. auto.
  - apply upsert_spec in E as [-> E]. rewrite lookup_insert_ne; [rewrite Hk; auto|].
    intros <-. destruct E as [(N & _)|(r0 & E0 & L & _)]; [congruence|].
    assert (r0 = row) as -> by congruence. lia.
  - apply upsert_spec in E as [-> _]. rewrite Hk. auto.
  - destruct (renew_rows _ _ _ _ _ _ k E) as [_ [->|(r0 & Eh & H0 & Hh & _ & ->)]];
      [rewrite Hk; auto|].
    assert (r0 = row) as -> by congruence. simpl. apply (holds_spec h row k Eh) in Hh as ->.
    repeat split. right. by exists ttl.
  - destruct (release_rows (s_db s) h k) as [_ [->|(r0 & Eh & H0 & Hh & ->)]]; [rewrite Hk; auto|].
    assert (r0 = row) as -> by congruence. by apply (holds_spec h row k Eh) in Hh as ->.
  - rewrite Hk. auto.
Qed.

(** In every interleaving a fencing token identifies its grant: no two
    handles ever returned share one, and each row of the table is a handle
    that was returned. *)
Theorem tokens_identify_grants s :
  reachable s ->
  (forall h h', h ∈ s_granted s -> h' ∈ s_granted s ->
     fencing_token h = fencing_token h' -> h = h') /\
  (forall k row, rows (s_db s) !! k = Some row -> handle_of k row ∈ s_granted s) /\
  (forall h, h ∈ s_granted s -> fencing_token h <= seq (s_db s)).
Proof.
  intros [U D R]%inv_reachable. unfold tokens in *. apply NoDup_app in U as (U & _ & _).
  split; [|split; [exact R|]].
  - clear -U. induction (s_granted s) as [|g l IH]; intros h h' Hh Hh' E; [by inversion Hh|].
    inversion_clear U as [|? ? N U'].
    inversion Hh as [|? ? ? Hh0]; inversion Hh' as [|? ? ? Hh0']; subst; auto; exfalso; apply N.
    + rewrite E. by apply (list_elem_of_fmap_2 fencing_token).
    + rewrite <- E. by apply (list_elem_of_fmap_2 fencing_token).
  - intros h Hh. rewrite Forall_forall in D. apply D, elem_of_app. left.
    by apply (list_elem_of_fmap_2 fencing_token).
Qed.

(** C15: A displaced writer is fenced: once a lease has been taken over and the
    new holder has written to a fenced resource, every later write to it under
    the old row's token is refused and changes nothing, whatever happened in
    between. *)
Theorem displaced_writer_is_fenced s0 s1 s2 s3 s4 p k row h' n1 n3 id set set' :
  reachable s0 -> rows (s_db s0) !! k = Some row -> (p_tenant p, p_res p) = k ->
  step n1 (OUpsert p) s0 s1 -> s_granted s1 = h' :: s_granted s0 ->
  rtc any_step s1 s2 ->
  step n3 (OWrite id (fencing_token h') set) s2 s3 ->
  rtc any_step s3 s4 ->
  fenced_write (s_tab s4) id (lr_token row) set' = (false, s_tab s4).
Proof.
  intros Hreach Hk Ek Hsteal Hg _ Hw Hlater. apply refused_below.
  eapply Forall_impl with (P := fun r => fr_id r = id -> fencing_token h' <= fr_last r).
  - eapply floor_le; [by apply steps_tab_le|]. inversion Hw; subst. simpl.
    match goal with E : fenced_write _ _ _ _ = _ |- _ => apply (f_equal snd) in E; simpl in E; subst end.
    apply fenced_write_floor.
  - intros r Hr Hid. specialize (Hr Hid). simpl in Hr.
    enough (lr_token row <= fencing_token h') by lia.
    destruct (inv_reachable s0 Hreach) as [_ D R].
    assert (Ht : lr_token row <= seq (s_db s0)).
    { rewrite Forall_forall in D. apply D. unfold tokens. apply elem_of_app. left.
      apply (list_elem_of_fmap_2' fencing_token _ (handle_of k row)); [by apply R|done]. }
    inversion Hsteal; subst; simpl in Hg.
    + match goal with E : upsert _ _ _ _ _ _ _ = _ |- _ => apply upsert_spec in E as [_ E];
        destruct E as [(N & _)|(r0 & _ & _ & Et & _)] end; [congruence|].
      injection Hg as <-. simpl. lia.
    + exfalso. apply (f_equal length) in Hg. simpl in Hg. lia.
Qed.
End properties.

(** ** A run *)

Module LeaseDemo.

Definition table : list (fenced string Z) := [Fenced "acct" 0 0].
Definition claim (who : string) (tok : Z) : pending := Pending "t" "payroll" who 10 tok.
Definition handle (who : string) (tok : Z) : LeaseHandle := Handle "t" "payroll" who tok.
Definition row_of (who : string) (tok at_ : Z) : lease_row := LeaseRow who tok at_ (at_ + 10).

(** Both claimants draw; [a] takes the lease at 0 and [b] at 100. *)
Definition held_by_a : sys string Z :=
  Sys (Leases {[("t", "payroll") := row_of "a" 1 0]} 2) table [claim "b" 2] [handle "a" 1].
Definition held_by_b : sys string Z :=
  Sys (Leases {[("t", "payroll") := row_of "b" 3 100]} 3) table [] [handle "b" 3; handle "a" 1].
Definition written_by_b : sys string Z :=
  Sys (Leases {[("t", "payroll") := row_of "b" 3 100]} 3) [Fenced "acct" 7 3] []
      [handle "b" 3; handle "a" 1].

(** A granted claim, with the state it leads to written out. *)
Lemma granted_to now before p after tok db (s s' : sys string Z) :
  s_pend s = before ++ p :: after ->
  upsert (s_db s) now (p_tenant p) (p_res p) (p_owner p) (p_ttl p) (p_drawn p) = (Some tok, db) ->
  s' = Sys db (s_tab s) (before ++ after)
         (Handle (p_tenant p) (p_res p) (p_owner p) tok :: s_granted s) ->
  step now (OUpsert p) s s'.
Proof. intros Hp E ->. by eapply step_granted. Qed.

Lemma a_acquires : reachable held_by_a.
Proof.
  exists table.
  eapply rtc_l; [exists 0, (ODraw "t" "payroll" "a" 10); by econstructor|].
  eapply rtc_l; [exists 0, (ODraw "t" "payroll" "b" 10); by econstructor|].
  eapply rtc_l; [|reflexivity]. exists 0, (OUpsert (claim "a" 1)).
  eapply (granted_to _ [claim "b" 2] _ []); reflexivity.
Qed.

Lemma b_steals : step 100 (OUpsert (claim "b" 2)) held_by_a held_by_b.
Proof. eapply (granted_to _ [] _ []); reflexivity. Qed.

Lemma b_writes : step 101 (OWrite "acct" 3 (fun _ => 7)) held_by_b written_by_b.
Proof. eapply step_write. reflexivity. Qed.

(** Drawing early and inserting late: [a] draws 1, [b] draws 2, takes the free
    lease, writes and releases it; then [a] inserts with the token 1 it drew.
    [a] now holds the live lease and every write of its is refused. *)
Definition late : sys string Z :=
  Sys (Leases {[("t", "payroll") := row_of "a" 1 5]} 2) [Fenced "acct" 7 2] []
      [handle "a" 1; handle "b" 2].

Lemma late_insert_is_fenced_out :
  reachable late /\ current_holder (s_db late) "t" "payroll" = Some ("a", 1, 15) /\
  fenced_write (s_tab late) "acct" 1 (fun _ => 8) = (false, s_tab late).
Proof.
  split; [|split; reflexivity]. exists table.
  eapply rtc_l; [exists 0, (ODraw "t" "payroll" "a" 10); by econstructor|].
  eapply rtc_l; [exists 0, (ODraw "t" "payroll" "b" 10); by econstructor|].
  eapply rtc_l; [exists 0, (OUpsert (claim "b" 2));
                 eapply (granted_to _ [] _ [claim "a" 1]); reflexivity|].
  eapply rtc_l; [exists 1, (OWrite "acct" 2 (fun _ => 7)); eapply step_write; reflexivity|].
  eapply rtc_l; [exists 2, (ORelease (handle "b" 2)); eapply step_release|].
  eapply rtc_l; [|reflexivity]. exists 5, (OUpsert (claim "a" 1)).
  eapply (granted_to _ [] _ []); reflexivity.
Qed.

End LeaseDemo.

Lemma acquire_takes_only_free_leases_witness :
  exists db', acquire (s_db LeaseDemo.held_by_a) 100 "t" "payroll" "c" 10
                = (Ok (LeaseDemo.handle "c" 4), db') /\
    lr_expires (LeaseDemo.row_of "a" 1 0) < 100.
Proof.
  eexists. split; [reflexivity|].
  refine (proj1 (acquire_takes_only_free_leases (s_db LeaseDemo.held_by_a) 100 "t" "payroll" "c" 10 _)
            _ _); [|reflexivity].
  intros k row Hk.
  change (({[("t", "payroll") := LeaseDemo.row_of "a" 1 0]} : gmap (string * string) lease_row) !! k
            = Some row) in Hk.
  apply lookup_singleton_Some in Hk as [<- <-]. simpl. lia.
Defined.

Lemma live_lease_is_exclusive_witness :
  let k := ("t", "payroll") in let o := OUpsert (LeaseDemo.claim "b" 2) in
  exists s', step 5 o LeaseDemo.held_by_a s' /\
    match rows (s_db s') !! k with
    | Some row' =>
        lr_owner row' = "a" /\ lr_token row' = 1 /\ lr_acquired row' = 0 /\
        (lr_expires row' = 10 \/ exists ttl, o = ORenew (LeaseDemo.handle "a" 1) ttl)
    | None => o = ORelease (LeaseDemo.handle "a" 1)
    end.
Proof.
  intros k o. exists (Sys (s_db LeaseDemo.held_by_a) LeaseDemo.table [] (s_granted LeaseDemo.held_by_a)).
  assert (H : step 5 o LeaseDemo.held_by_a
    (Sys (s_db LeaseDemo.held_by_a) LeaseDemo.table [] (s_granted LeaseDemo.held_by_a)))
    by exact (step_refused 5 LeaseDemo.held_by_a (LeaseDemo.claim "b" 2) [] [] _ eq_refl eq_refl).
  split; [exact H|].
  refine (live_lease_is_exclusive 5 o _ _ k (LeaseDemo.row_of "a" 1 0) H eq_refl _). simpl. lia.
Defined.

Lemma tokens_identify_grants_witness :
  fencing_token (LeaseDemo.handle "a" 1) <= seq (s_db LeaseDemo.held_by_a).
Proof.
  refine (proj2 (proj2 (tokens_identify_grants LeaseDemo.held_by_a LeaseDemo.a_acquires)) _ _). left.
Defined.

Lemma displaced_writer_is_fenced_witness :
  fenced_write (s_tab LeaseDemo.written_by_b) "acct" 1 (fun _ => 8)
    = (false, s_tab LeaseDemo.written_by_b).
Proof.
  refine (displaced_writer_is_fenced LeaseDemo.held_by_a LeaseDemo.held_by_b LeaseDemo.held_by_b
    LeaseDemo.written_by_b LeaseDemo.written_by_b (LeaseDemo.claim "b" 2) ("t", "payroll")
    (LeaseDemo.row_of "a" 1 0) (LeaseDemo.handle "b" 3) 100 101 "acct" (fun _ => 7) (fun _ => 8)
    LeaseDemo.a_acquires eq_refl eq_refl LeaseDemo.b_steals eq_refl _ LeaseDemo.b_writes _);
    reflexivity.
Defined.
