(* ===== verification/DurableInbox.v ===== *)
(** * The durable inbox (mcp_servers/channel_relay/durable_inbox.py)

    A queue file is only appended to; each consumer keeps a cursor file (how
    many complete lines it has processed, and a content anchor of the last
    one), and the consumers of a role share a high-water mark. Files are the
    bytes of a store keyed by directory and name. What a write leaves on disk
    is an argument of the operations ([writer]), because the code swallows
    write errors; so are the verdict of [on_event] and the answers of
    [os.kill] and [unlink]. *)
From S2P Require Import Prelude PyStr PyFloat Json PyIO JsonText PyValue.
From stdpp Require Import base gmap strings list.
From Stdlib Require Import ZArith QArith NArith Lia.

Local Open Scope Z_scope.

(** ** Files *)

Record file := File { f_bytes : bytes; f_mtime : Q }.
Notation path := (string * string)%type.
Notation store := (gmap path file).

(** [Path.write_text]: the file it leaves, [None] when it could not be opened
    (a failing write may leave any bytes). *)
Definition writer : Type := path -> bytes -> option file.
Definition write_text (w : writer) (p : path) (t : text) (fs : store) : store :=
  match w p (utf8_encode t) with
  | Some f => <[p := f]> fs
  | None => fs
  end.
(** The writer of a healthy disk at time [now]. *)
Definition disk (now : Q) : writer := fun _ b => Some (File b now).

Definition read_file (fs : store) (p : path) : res text :=
  match fs !! p with
  | Some f => read_text (f_bytes f)
  | None => Err (Exn OSError "No such file or directory")
  end.

(** ** Cursors *)

(* src: mcp_servers/channel_relay/durable_inbox.py Cursor *)
Record Cursor := MkCursor { line : Z; pid : Z; role : string; anchor : string }.
(* src: mcp_servers/channel_relay/durable_inbox.py DrainResult *)
Record DrainResult := Drained { processed : Z; held : bool }.

Definition or_default {A} (m : res A) (d : A) : A := match m with Ok a => a | Err _ => d end.

(** [int(d[k]) if isinstance(d.get(k), int) else 0] (a bool is an int), and
    the same for strings. *)
Definition int_field (d : list (string * json)) (k : string) : Z :=
  match dict_get k d with
  | Some (JInt z) => z
  | Some (JBool b) => if b then 1 else 0
  | _ => 0
  end.
Definition str_field (d : list (string * json)) (k : string) : string :=
  match dict_get k d with Some (JStr s) => s | _ => "" end.

Definition as_dict (j : json) : res (list (string * json)) :=
  match j with
  | JObj d => Ok d
  | _ => Err (Exn AttributeError "object has no attribute 'get'")
  end.

Section inbox.
  Context `{JsonLimits}.

(* src: mcp_servers/channel_relay/durable_inbox.py load_cursor *)
Definition load_cursor (fs : store) (cursor_file : path) : Cursor :=
  or_default
    (let! raw := read_file fs cursor_file in
     let! parsed := loads raw in
     let! d := as_dict parsed in
     Ok (MkCursor (int_field d "line") (int_field d "pid") (str_field d "role") (str_field d "anchor")))
    (MkCursor 0 0 "" "").

Definition cursor_json (line pid : Z) (role anchor : string) : json :=
  JObj [("line", JInt line); ("pid", JInt pid); ("role", JStr role); ("anchor", JStr anchor)].

(* src: mcp_servers/channel_relay/durable_inbox.py save_cursor *)
Definition save_cursor (w : writer) (cursor_file : path) (line pid : Z) (role anchor : string)
    (fs : store) : store :=
  write_text w cursor_file (show true (cursor_json line pid role anchor)) fs.

(* src: mcp_servers/channel_relay/durable_inbox.py _complete_lines *)
Definition complete_lines_ (fs : store) (inbox_file : path) : res (list text) :=
  match fs !! inbox_file with
  | None => Ok []
  | Some f => let! raw := read_text (f_bytes f) in Ok (complete_lines raw)
  end.

(* src: mcp_servers/channel_relay/durable_inbox.py _anchor *)
Definition anchor_ (line : text) : string := of_chars (take 16 (sha1_hex (utf8_encode line))).
#[local] Arguments anchor_ : simpl never.

(* src: mcp_servers/channel_relay/durable_inbox.py read_from_cursor *)
Definition read_from_cursor (fs : store) (inbox_file : path) (cursor_line : Z)
    : res (list text * Z) :=
  let! all_lines := complete_lines_ fs inbox_file in
  Ok (slice_from cursor_line all_lines, Z.of_nat (List.length all_lines)).

(** ** The role's high-water mark *)

(* src: mcp_servers/channel_relay/durable_inbox.py role_checkpoint_file *)
Definition role_checkpoint_file (shared_dir role : string) : path :=
  (shared_dir, "cursor_" +:+ role +:+ "_role.json").

(* src: mcp_servers/channel_relay/durable_inbox.py load_role_checkpoint *)
Definition load_role_checkpoint (fs : store) (file : path) : Z :=
  or_default
    (let! raw := read_file fs file in
     let! parsed := loads raw in
     let! d := as_dict parsed in
     Ok (int_field d "line")) 0.

(* src: mcp_servers/channel_relay/durable_inbox.py save_role_checkpoint *)
Definition save_role_checkpoint (w : writer) (file : path) (line : Z) (force : bool) (fs : store)
    : store :=
  if force || (load_role_checkpoint fs file <? line)
  then write_text w file (show true (JObj [("line", JInt line)])) fs
  else fs.

(** ** Draining *)

(** [d.get(k) or default]. *)
Definition get_or (d : list (string * json)) (k : string) (default : json) : json :=
  py_or (dict_get k d) default.

(** The three arguments of [on_event]. *)
Record event := Event { event_type : json; content : json; meta : json }.
(* src: mcp_servers/channel_relay/durable_inbox.py drain_queue@90-94 *)
Definition event_of (d : list (string * json)) : event :=
  Event (get_or d "event_type" (JStr "slack_message")) (get_or d "content" (JStr ""))
        (get_or d "meta" (JObj [])).

Section handler.
  (** The handler: its state, and whether it returned rather than raised. *)
  Context {S : Type} (on_event : S -> event -> bool * S).

(** The loop over the new lines. A [JSONDecodeError] is caught, another
    exception of [json.loads] is not. *)
(* src: mcp_servers/channel_relay/durable_inbox.py drain_queue@75-98 *)
Fixpoint deliver (new_lines : list text) (done : Z) (s : S) : res (Z * bool) * S :=
  match new_lines with
  | [] => (Ok (done, false), s)
  | l :: rest =>
      match loads l with
      | Err e =>
          if is_subclass (exn_class e) JSONDecodeError then deliver rest (done + 1) s else (Err e, s)
      | Ok (JObj d) =>
          let '(ok, s') := on_event s (event_of d) in
          if ok then deliver rest (done + 1) s' else (Ok (done, true), s')
      | Ok _ => deliver rest (done + 1) s
      end
  end.

(** [all_lines[n - 1]] when [0 < n <= total]. *)
Definition line_before (all_lines : list text) (n : Z) : option text :=
  if 0 <? n then all_lines !! Z.to_nat (n - 1) else None.
Definition anchor_at (all_lines : list text) (n : Z) : string :=
  match line_before all_lines n with Some l => anchor_ l | None => "" end.

(* src: mcp_servers/channel_relay/durable_inbox.py drain_queue@54-58 *)
Definition desync (own : option Cursor) (start_line : Z) (all_lines : list text) : bool :=
  (Z.of_nat (List.length all_lines) <? start_line) ||
  match own with
  | Some c =>
      truthy (anchor c) && (0 <? start_line) &&
      match line_before all_lines start_line with
      | None => true
      | Some prev => negb (String.eqb (anchor_ prev) (anchor c))
      end
  | None => false
  end.

(* src: mcp_servers/channel_relay/durable_inbox.py drain_queue *)
Definition drain_queue (w : writer) (inbox_file cursor_file : path) (my_pid : Z) (my_role : string)
    (fs : store) (s : S) : res DrainResult * store * S :=
  let role_cp := role_checkpoint_file cursor_file.1 my_role in
  let own := match fs !! cursor_file with
             | Some _ => Some (load_cursor fs cursor_file)
             | None => None
             end in
  let start0 := match own with
                | Some c => line c
                | None => match fs !! role_cp with
                          | Some _ => load_role_checkpoint fs role_cp
                          | None => 0
                          end
                end in
  match complete_lines_ fs inbox_file with
  | Err e => (Err e, fs, s)
  | Ok all_lines =>
      let out := desync own start0 all_lines in
      let start := if out then 0 else start0 in
      let fs1 := if out then save_role_checkpoint w role_cp 0 true fs else fs in
      match slice_from start all_lines with
      | [] =>
          let fs2 := save_cursor w cursor_file start my_pid my_role (anchor_at all_lines start) fs1 in
          (Ok (Drained 0 false), save_role_checkpoint w role_cp start false fs2, s)
      | new_lines =>
          match deliver new_lines 0 s with
          | (Err e, s') => (Err e, fs1, s')
          | (Ok (n, h), s') =>
              let new_line := start + n in
              let fs2 := save_cursor w cursor_file new_line my_pid my_role
                           (anchor_at all_lines new_line) fs1 in
              (Ok (Drained n h), save_role_checkpoint w role_cp new_line false fs2, s')
          end
      end
  end.
End handler.
End inbox.

(** ** File names *)

Definition lower_az (c : Ascii.ascii) : bool := within 97 122 c.
Definition sid_char (c : Ascii.ascii) : bool := lower_az c || within 48 57 c.

Fixpoint span_while (f : Ascii.ascii -> bool) (l : text) : text * text :=
  match l with
  | c :: r => if f c then let '(a, b) := span_while f r in (c :: a, b) else ([], l)
  | [] => ([], [])
  end.
(** [$]: the end, or the end but for one line feed. *)
Definition at_dollar (l : text) : bool :=
  match l with [] => true | [c] => Ascii.eqb c lf | _ => false end.

(* src: mcp_servers/channel_relay/durable_inbox.py cursor_filename *)
Definition cursor_filename (role : string) (pid : Z) (kind : string) : res string :=
  let '(letters, rest) := span_while lower_az (chars kind) in
  require match letters with [] => false | _ => at_dollar rest end
    else ValueError, "cursor kind must be lowercase letters only, got: " +:+ repr kind;;
  Ok ("cursor_" +:+ role +:+ "_" +:+ kind +:+ "_" +:+ str_Z pid +:+ ".json").

(* src: mcp_servers/channel_relay/durable_inbox.py session_cursor_filename *)
Definition session_cursor_filename (role session_id : string) : string :=
  let sid := str_or (of_chars (List.filter sid_char (chars (lower session_id)))) "unknown" in
  "cursor_" +:+ role +:+ "_session_" +:+ sid +:+ ".json".

(** ** Cleaning up *)

(** What [os.kill(pid, 0)] does. *)
Inductive probe := Alive | NoProcess | NotPermitted | OtherFailure.

(** The pid in [cursor_{role}_{kind}_{pid}.json] or [cursor_{role}_{pid}.json]. *)
Definition pid_suffix (l : text) : option Z :=
  match digits_span l with
  | ([], _) => None
  | (ds, rest) =>
      match keyword (chars ".json") rest with
      | Some r => if at_dollar r then Some (digits_value ds) else None
      | None => None
      end
  end.
(* src: mcp_servers/channel_relay/durable_inbox.py cleanup_dead_cursors@9-20 *)
Definition cursor_pid (role name : string) : option Z :=
  match keyword (chars ("cursor_" +:+ role +:+ "_")) (chars name) with
  | None => None
  | Some r =>
      let modern := match span_while lower_az r with
                    | ([], _) => None
                    | (_, r') => match keyword (chars "_") r' with
                                 | Some r'' => pid_suffix r''
                                 | None => None
                                 end
                    end in
      match modern with Some p => Some p | None => pid_suffix r end
  end.

Section cleanup.
  Context (kill : Z -> probe) (unlink_ok : path -> bool).

(** [names] is what [iterdir] yields; an exception other than the two caught
    ones ends the loop. *)
(* src: mcp_servers/channel_relay/durable_inbox.py cleanup_dead_cursors *)
Fixpoint cleanup_dead_cursors (shared_dir role : string) (my_pid : Z) (names : list string)
    (removed : Z) (fs : store) : Z * store :=
  match names with
  | [] => (removed, fs)
  | name :: rest =>
      let f := (shared_dir, name) in
      let continue := cleanup_dead_cursors shared_dir role my_pid rest in
      match fs !! f, cursor_pid role name with
      | Some _, Some p =>
          if p =? my_pid then continue removed fs
          else match kill p with
               | Alive | NotPermitted => continue removed fs
               | OtherFailure => (removed, fs)
               | NoProcess =>
                   if unlink_ok f then continue (removed + 1) (base.delete f fs)
                   else continue removed fs
               end
      | _, _ => continue removed fs
      end
  end.

(* src: mcp_servers/channel_relay/durable_inbox.py cleanup_stale_session_cursors@13-13 *)
Definition session_name (role name : string) : bool :=
  match keyword (chars ("cursor_" +:+ role +:+ "_session_")) (chars name) with
  | None => false
  | Some r =>
      match span_while sid_char r with
      | ([], _) => false
      | (_, r') => match keyword (chars ".json") r' with Some r'' => at_dollar r'' | None => false end
      end
  end.

(* src: mcp_servers/channel_relay/durable_inbox.py cleanup_stale_session_cursors *)
Fixpoint cleanup_stale_session_cursors (shared_dir role : string) (max_age_seconds now : Q)
    (names : list string) (removed : Z) (fs : store) : Z * store :=
  match names with
  | [] => (removed, fs)
  | name :: rest =>
      let f := (shared_dir, name) in
      let continue := cleanup_stale_session_cursors shared_dir role max_age_seconds now rest in
      match fs !! f with
      | Some file =>
          if session_name role name && Qltb max_age_seconds (fl (now - f_mtime file)) && unlink_ok f
          then continue (removed + 1) (base.delete f fs)
          else continue removed fs
      | None => continue removed fs
      end
  end.
End cleanup.

(** ** One consumer over time *)

Section consumer.
  Context `{JsonLimits} (inbox_file cursor_file : path) (my_pid : Z) (my_role : string).
Definition role_cp : path := role_checkpoint_file cursor_file.1 my_role.
  Context (Hic : inbox_file <> cursor_file) (Hir : inbox_file <> role_cp)
    (Hcr : cursor_file <> role_cp) (Hpid : Z.abs my_pid < 2 ^ 63).

Definition inbox_bytes (fs : store) : bytes :=
  match fs !! inbox_file with Some f => f_bytes f | None => [] end.
Definition append (b : bytes) (fs : store) : store :=
  <[inbox_file := File (inbox_bytes fs ++ b) 0%Q]> fs.

(** A handler that logs what it accepts; [accept] may look at the log. *)
Definition recording (accept : list event -> event -> bool) (log : list event) (e : event)
    : bool * list event :=
  if accept log e then (true, log ++ [e]) else (false, log).

Inductive act :=
  | Append (b : bytes)
  | Drain (accept : list event -> event -> bool) (now : Q).
Definition perform (a : act) (w : store * list event) : store * list event :=
  let '(fs, log) := w in
  match a with
  | Append b => (append b fs, log)
  | Drain accept now =>
      let '(_, fs', log') := drain_queue (recording accept) (disk now) inbox_file cursor_file
                               my_pid my_role fs log in (fs', log')
  end.
Definition perform_all (acts : list act) (w : store * list event) : store * list event :=
  fold_left (fun w a => perform a w) acts w.

(** The event on a line, and the lines the reader can pass: those on which
    [json.loads] returns or raises [JSONDecodeError]. *)
Definition line_event (l : text) : option event :=
  match loads l with Ok (JObj d) => Some (event_of d) | _ => None end.
Definition tame (l : text) : bool :=
  match loads l with Ok _ => true | Err e => is_subclass (exn_class e) JSONDecodeError end.
Definition events (ls : list text) : list event := omap line_event ls.

(** How many lines the reader can pass before the first it cannot. *)
Fixpoint passable (ls : list text) : nat :=
  match ls with l :: r => if tame l then S (passable r) else 0%nat | [] => 0%nat end.

Lemma passable_le ls : (passable ls <= List.length ls)%nat.
Proof. induction ls as [|l r IH]; simpl; [done|]. destruct (tame l); lia. Qed.
Lemma passable_all ls : passable ls = List.length ls <-> Forall (fun l => tame l = true) ls.
Proof.
  induction ls as [|l r IH]; [by split|]. simpl. rewrite Forall_cons. destruct (tame l); [|by split; [|intros [? _]]].
  rewrite <- IH. split; [intros [= ?]; done|by intros [_ ->]].
Qed.
(** What cannot be passed is never passed. *)
Lemma passable_app ls k : passable (ls ++ k) = if decide (passable ls = List.length ls) then (passable ls + passable k)%nat else passable ls.
Proof.
  induction ls as [|l r IH]; simpl; [done|]. destruct (tame l); simpl; [|done]. rewrite IH.
  destruct (decide (passable r = _)), (decide (S (passable r) = _)); lia.
Qed.
Lemma passable_drop n ls : (n <= passable ls)%nat -> passable (drop n ls) = (passable ls - n)%nat.
Proof.
  revert n. induction ls as [|l r IH]; intros [|n]; simpl; try done; [lia|]. destruct (tame l); [|lia]. intros L. apply IH. lia.
Qed.

Lemma events_app a b : events (a ++ b) = events a ++ events b.
Proof. apply omap_app. Qed.
Lemma events_take n m ls : events (take (n + m) ls) = events (take n ls) ++ events (take m (drop n ls)).
Proof. rewrite <- events_app. f_equal. rewrite <- (take_take_drop ls n m). done. Qed.

(** A run over the lines: it ends with the lines, at an event that is not
    accepted, or at a line that cannot be passed. *)
Lemma deliver_spec accept ls k s :
  exists n, (n <= passable ls)%nat /\
    ((exists h, deliver (recording accept) ls k s = (Ok (k + Z.of_nat n, h), s ++ events (take n ls)) /\
      ((forall lg e, accept lg e = true) -> n = List.length ls /\ h = false)) \/
     ((exists e, deliver (recording accept) ls k s = (Err e, s ++ events (take n ls))) /\
      n = passable ls /\ (n < List.length ls)%nat)).
Proof.
  revert k s. induction ls as [|l ls IH]; intros k s; simpl.
  { exists 0%nat. split; [done|]. left. exists false. by rewrite Z.add_0_r, app_nil_r. }
  assert (Next : tame l = true -> forall s', s' = s ++ events [l] -> exists n, (n <= S (passable ls))%nat /\
    ((exists h, deliver (recording accept) ls (k + 1) s' = (Ok (k + Z.of_nat n, h), s ++ events (take n (l :: ls))) /\
      ((forall lg e, accept lg e = true) -> n = S (List.length ls) /\ h = false)) \/
     ((exists e, deliver (recording accept) ls (k + 1) s' = (Err e, s ++ events (take n (l :: ls)))) /\
      n = S (passable ls) /\ (n < S (List.length ls))%nat))).
  { intros Hl s' ->. destruct (IH (k + 1) (s ++ events [l])) as (n & Hn & D). exists (S n).
    assert ((s ++ events [l]) ++ events (take n ls) = s ++ events (take (S n) (l :: ls))) as E.
    { rewrite <- app_assoc. unfold events. simpl. by destruct (line_event l). }
    rewrite E in D. replace (k + Z.of_nat (S n)) with (k + 1 + Z.of_nat n) by lia. split; [lia|].
    destruct D as [(h & D & A)|(D & -> & L)]; [left|right; split; [done|]; lia].
    exists h. split; [done|]. intros H1. destruct (A H1). split; [lia|done]. }
  destruct (tame l) eqn:Hl; unfold tame in Hl.
  - specialize (Next eq_refl). destruct (loads l) as [j|e] eqn:E.
    + assert (Ev : events [l] = match j with JObj d => [event_of d] | _ => [] end)
        by (unfold events, line_event; simpl; rewrite E; by destruct j).
      destruct j; try (apply Next; by rewrite Ev, app_nil_r).
      assert (recording accept s (event_of kvs) = if accept s (event_of kvs) then (true, s ++ [event_of kvs]) else (false, s)) as Er by done.
      rewrite !Er. destruct (accept s (event_of kvs)) eqn:Ea.
      * destruct (Next (s ++ [event_of kvs]) ltac:(by rewrite Ev)) as (n & Hn & D). exists n. split; [done|].
        exact D.
      * exists 0%nat. split; [lia|]. left. exists true. split; [|intros A; by rewrite A in Ea].
        by rewrite Z.add_0_r, take_0, app_nil_r.
    + rewrite Hl. apply Next. unfold events, line_event. simpl. by rewrite E, app_nil_r.
  - exists 0%nat. split; [done|]. right. destruct (loads l) as [j|e] eqn:E; [done|]. rewrite Hl.
    split; [exists e; by rewrite take_0, app_nil_r|]. split; [done|lia].
Qed.

(** *** Saved positions read back *)

Lemma read_file_insert (fs : store) p f : read_file (<[p := f]> fs) p = read_text (f_bytes f).
Proof. unfold read_file. by rewrite lookup_insert_eq. Qed.

Lemma load_saved_cursor now n pid role anchor fs :
  Z.abs n < 2 ^ 63 -> Z.abs pid < 2 ^ 63 ->
  load_cursor (save_cursor (disk now) cursor_file n pid role anchor fs) cursor_file
  = MkCursor n pid role anchor.
Proof.
  intros Hn Hp. unfold load_cursor, save_cursor, write_text, disk.
  assert (P : plain (cursor_json n pid role anchor) = true).
  { apply plain_int in Hn, Hp. unfold cursor_json. cbn [plain forallb snd] in *. by rewrite Hn, Hp. }
  rewrite read_file_insert. cbn [f_bytes]. rewrite read_written by by apply show_graphic.
  cbn [rbind]. rewrite loads_show; [done|done|]. apply max_depth_pos.
Qed.

Lemma write_text_other w p t fs q : q <> p -> write_text w p t fs !! q = fs !! q.
Proof. intros N. unfold write_text. destruct (w _ _); [|done]. by rewrite lookup_insert_ne. Qed.

Lemma save_checkpoint_other w p n force fs q :
  q <> p -> save_role_checkpoint w p n force fs !! q = fs !! q.
Proof.
  intros N. unfold save_role_checkpoint. destruct (_ || _); [|done]. by apply write_text_other.
Qed.

Lemma load_cursor_ext fs fs' p : fs !! p = fs' !! p -> load_cursor fs p = load_cursor fs' p.
Proof. intros E. unfold load_cursor, read_file. by rewrite E. Qed.
(** Both exits of [drain_queue] save the cursor, then the checkpoint. *)
Lemma saved_position now n anchor fs :
  Z.abs n < 2 ^ 63 ->
  let fs' := save_role_checkpoint (disk now) role_cp n false
               (save_cursor (disk now) cursor_file n my_pid my_role anchor fs) in
  is_Some (fs' !! cursor_file) /\ load_cursor fs' cursor_file = MkCursor n my_pid my_role anchor /\
  fs' !! inbox_file = fs !! inbox_file.
Proof.
  intros Hn fs'.
  assert (E : fs' !! cursor_file
              = save_cursor (disk now) cursor_file n my_pid my_role anchor fs !! cursor_file)
    by (by apply save_checkpoint_other).
  split; [|split].
  - rewrite E. unfold save_cursor, write_text, disk. rewrite lookup_insert_eq. by eexists.
  - rewrite (load_cursor_ext _ _ _ E). by apply load_saved_cursor.
  - unfold fs'. rewrite save_checkpoint_other by done. unfold save_cursor.
    by rewrite write_text_other.
Qed.

(** The consumer has processed the first [n] of the lines [ls] it saw. *)
Definition position (fs : store) (ls : list text) (n : nat) : Prop :=
  (n = 0%nat /\ fs !! cursor_file = None /\ fs !! role_cp = None) \/
  (is_Some (fs !! cursor_file) /\
   load_cursor fs cursor_file = MkCursor (Z.of_nat n) my_pid my_role (anchor_at ls (Z.of_nat n))).

Lemma line_before_prefix ls ls' n :
  ls `prefix_of` ls' -> (n <= List.length ls)%nat ->
  line_before ls' (Z.of_nat n) = line_before ls (Z.of_nat n).
Proof.
  intros [k ->] Hn. unfold line_before. destruct (0 <? Z.of_nat n) eqn:E; [|done].
  apply Z.ltb_lt in E. apply lookup_app_l. lia.
Qed.

Lemma no_desync ls ls' n pid role :
  ls `prefix_of` ls' -> (n <= List.length ls)%nat ->
  desync (Some (MkCursor (Z.of_nat n) pid role (anchor_at ls (Z.of_nat n)))) (Z.of_nat n) ls' = false.
Proof.
  intros P Hn. pose proof (prefix_length _ _ P) as L. unfold desync.
  cbn [anchor].
  apply orb_false_iff. split; [apply Z.ltb_ge; lia|].
  rewrite (line_before_prefix _ _ _ P Hn). unfold anchor_at.
  destruct (line_before ls (Z.of_nat n)) as [l|]; [|done].
  rewrite String.eqb_refl. apply andb_false_r.
Qed.

Lemma slice_from_nat {A} n (l : list A) : slice_from (Z.of_nat n) l = drop n l.
Proof.
  unfold slice_from. destruct (Z.of_nat n <? 0) eqn:E; [apply Z.ltb_lt in E; lia|].
  by rewrite Nat2Z.id.
Qed.

(** One drain from line [n]: the events of the lines from there on, up to [m] of
    them, and the position after them saved; or, at a line that cannot be passed,
    an error, and the position stays. *)
Lemma drain_spec accept now fs log ls ls' n :
  position fs ls n -> ls `prefix_of` ls' -> (n <= List.length ls)%nat -> (n <= passable ls')%nat ->
  complete_lines_ fs inbox_file = Ok ls' -> Z.of_nat (List.length ls') < 2 ^ 63 ->
  exists m r fs', (n + m <= passable ls')%nat /\
    drain_queue (recording accept) (disk now) inbox_file cursor_file my_pid my_role fs log
    = (r, fs', log ++ events (take m (drop n ls'))) /\
    fs' !! inbox_file = fs !! inbox_file /\
    (position fs' ls' (n + m) \/ position fs' ls' n /\ (passable ls' < List.length ls')%nat) /\
    ((forall lg e, accept lg e = true) -> (n + m)%nat = passable ls').
Proof.
  intros Hpos P Hn Hnp El Hbig. pose proof (prefix_length _ _ P) as L. pose proof (passable_le ls') as Lp.
  unfold drain_queue. fold role_cp. rewrite El.
  set (own := match fs !! cursor_file with Some _ => _ | None => _ end).
  set (start0 := match own with Some c => line c | None => _ end).
  assert (start0 = Z.of_nat n /\ desync own start0 ls' = false) as Es.
  { unfold start0, own. destruct Hpos as [(-> & -> & ->)|[[f ->] ->]]; simpl.
    - split; [done|]. unfold desync. apply orb_false_iff. split; [apply Z.ltb_ge; lia|done].
    - split; [done|]. by apply no_desync. }
  destruct Es as [Es ->]. rewrite Es, slice_from_nat.
  destruct (drop n ls') as [|x new_lines] eqn:Ed.
  - assert (Hlen : List.length ls' = n).
    { apply (f_equal (@List.length _)) in Ed. rewrite length_drop in Ed. simpl in Ed. lia. }
    edestruct (saved_position now (Z.of_nat n) (anchor_at ls' (Z.of_nat n)) fs) as (S1 & S2 & S3);
      [lia|].
    eexists 0%nat, _, _. rewrite take_0, Nat.add_0_r. unfold events. simpl. rewrite app_nil_r.
    split; [lia|]. split; [reflexivity|]. split; [done|]. split; [left; right; by split|]. intros _. lia.
  - destruct (deliver_spec accept (x :: new_lines) 0 log) as (m & Hm & D).
    assert (passable (x :: new_lines) = passable ls' - n)%nat as Ep by (rewrite <- Ed; by apply passable_drop).
    assert (List.length (x :: new_lines) = List.length ls' - n)%nat as Elen by (rewrite <- Ed; apply length_drop).
    rewrite Ep in Hm, D. rewrite Elen in D. destruct D as [(h & -> & A)|([e ->] & -> & Lm)].
    + replace (Z.of_nat n + (0 + Z.of_nat m)) with (Z.of_nat (n + m)) by lia.
      edestruct (saved_position now (Z.of_nat (n + m)) (anchor_at ls' (Z.of_nat (n + m))) fs)
        as (S1 & S2 & S3); [lia|].
      eexists m, _, _. split; [lia|]. split; [reflexivity|]. split; [done|]. split; [left; right; by split|].
      intros H1. destruct (A H1). lia.
    + eexists (passable ls' - n)%nat, _, _. split; [lia|]. split; [reflexivity|]. split; [done|]. split; [|lia].
      right. split; [|lia]. destruct Hpos as [Hpos|[Hf Hc]]; [by left|right]. split; [done|]. rewrite Hc.
      unfold anchor_at. by rewrite (line_before_prefix _ _ _ P Hn).
Qed.
(** Draining touches the cursor and the checkpoint only. *)
Lemma drain_other {S} (on_event : S -> event -> bool * S) w fs s q :
  q <> cursor_file -> q <> role_cp ->
  (drain_queue on_event w inbox_file cursor_file my_pid my_role fs s).1.2 !! q = fs !! q.
Proof using Type.
  intros Nc Nr. unfold drain_queue. fold role_cp.
  set (own := match fs !! cursor_file with Some _ => _ | None => _ end).
  set (start0 := match own with Some c => line c | None => _ end).
  destruct (complete_lines_ fs inbox_file) as [ls|]; [|done].
  set (fs1 := if desync own start0 ls then save_role_checkpoint _ _ _ _ _ else _).
  assert (E1 : fs1 !! q = fs !! q)
    by (unfold fs1; destruct (desync _ _ _); [by apply save_checkpoint_other|done]).
  assert (Es : forall n a,
    save_role_checkpoint w role_cp n false (save_cursor w cursor_file n my_pid my_role a fs1) !! q
    = fs !! q).
  { intros n a. rewrite save_checkpoint_other by done. unfold save_cursor.
    by rewrite write_text_other. }
  destruct (slice_from _ ls) as [|x r]; [apply Es|].
  destruct (deliver on_event (x :: r) 0 s) as [[[n h]|e] s']; [apply Es|exact E1].
Qed.

Lemma complete_lines_bytes fs :
  complete_lines_ fs inbox_file
  = let! t := read_text (inbox_bytes fs) in Ok (complete_lines t).
Proof using Type. unfold complete_lines_, inbox_bytes. by destruct (fs !! inbox_file). Qed.

Lemma perform_prefix a w : inbox_bytes w.1 `prefix_of` inbox_bytes (perform a w).1.
Proof using Hic Hir.
  destruct w as [fs log], a as [b|accept now]; simpl.
  - unfold append, inbox_bytes at 2. rewrite lookup_insert_eq. by eexists.
  - pose proof (drain_other (recording accept) (disk now) fs log inbox_file Hic Hir) as E.
    destruct (drain_queue _ _ _ _ _ _ _ _) as [[r fs'] log']. simpl in *.
    unfold inbox_bytes. by rewrite E.
Qed.

Lemma perform_all_prefix acts w : inbox_bytes w.1 `prefix_of` inbox_bytes (perform_all acts w).1.
Proof using Hic Hir.
  revert w. induction acts as [|a acts IH]; intros w; [done|].
  etransitivity; [apply perform_prefix|apply IH].
Qed.

(** However the bytes were cut, a reader finds fewer lines than a cursor holds. *)
Definition countable_lines (b : bytes) : Prop :=
  forall a t, a `prefix_of` b -> read_text a = Ok t -> Z.of_nat (List.length (complete_lines t)) < 2 ^ 63.

(** The log against the lines seen so far, of which [n] were passed. *)
Record logged (ls : list text) (n : nat) (log : list event) : Prop := {
  lg_passed : (n <= passable ls)%nat;
  lg_once : events (take n ls) `sublist_of` log;
  lg_seen : forall e, e ∈ log -> e ∈ events (take (passable ls) ls);
  lg_all : passable ls = List.length ls -> log = events (take n ls);
}.
Definition caught_up_to (ls : list text) (n : nat) (w : store * list event) : Prop :=
  (exists a t, a `prefix_of` inbox_bytes w.1 /\ read_text a = Ok t /\ ls = complete_lines t) /\
  position w.1 ls n /\ logged ls n w.2.

Lemma passable_prefix ls ls' : ls `prefix_of` ls' ->
  (passable ls <= passable ls')%nat /\ (passable ls' = List.length ls' -> passable ls = List.length ls).
Proof.
  intros [k ->]. rewrite passable_app, length_app. pose proof (passable_le ls). pose proof (passable_le k). case_decide; lia.
Qed.
Lemma take_passable ls k m : (m <= passable ls)%nat -> take m (ls ++ k) = take m ls.
Proof. intros L. pose proof (passable_le ls). apply take_app_le. lia. Qed.
Lemma events_mono ls n m e : (n <= m)%nat -> e ∈ events (take n ls) -> e ∈ events (take m ls).
Proof. intros L He. replace m with (n + (m - n))%nat by lia. rewrite events_take, elem_of_app. by left. Qed.

(** The same log against more lines. *)
Lemma logged_prefix ls ls' n log : ls `prefix_of` ls' -> logged ls n log -> logged ls' n log.
Proof.
  intros P [H1 H2 H3 H4]. destruct (passable_prefix _ _ P) as [L E]. destruct P as [k ->].
  split; [lia|by rewrite take_passable| |by intros A; rewrite take_passable; auto].
  intros e He%H3. apply (events_mono _ (passable ls)); [done|]. by rewrite take_passable.
Qed.
(** The log after a run over [m] more lines. *)
Lemma logged_run ls n m log : logged ls n log -> (n + m <= passable ls)%nat ->
  let log' := log ++ events (take m (drop n ls)) in
  logged ls (n + m) log' /\ ((passable ls < List.length ls)%nat -> logged ls n log').
Proof.
  intros [H1 H2 H3 H4] L. assert (forall e, e ∈ log ++ events (take m (drop n ls)) -> e ∈ events (take (passable ls) ls)) as S.
  { intros e [He|He]%elem_of_app; [by apply H3|]. apply (events_mono _ (n + m)); [done|]. rewrite events_take, elem_of_app. by right. }
  split; [split|split]; try done.
  - rewrite events_take. by apply sublist_app.
  - intros A. rewrite events_take. by rewrite (H4 A).
  - by apply sublist_inserts_r.
  - lia.
Qed.

Lemma drain_step accept now fs log ls n t :
  caught_up_to ls n (fs, log) -> countable_lines (inbox_bytes fs) -> read_text (inbox_bytes fs) = Ok t ->
  exists m, caught_up_to (complete_lines t) m (perform (Drain accept now) (fs, log)) /\
    ((forall lg e, accept lg e = true) ->
      events (take (passable (complete_lines t)) (complete_lines t)) `sublist_of` (perform (Drain accept now) (fs, log)).2 /\
      (passable (complete_lines t) = List.length (complete_lines t) -> m = List.length (complete_lines t))).
Proof.
  intros ((a & ta & Pa & Ea & ->) & Hpos & Hlog) Hr Et. simpl in Pa, Hpos, Hlog.
  pose proof (Hr _ _ (reflexivity _) Et) as Hbig.
  assert (P : complete_lines ta `prefix_of` complete_lines t).
  { destruct Pa as [b Pb]. rewrite Pb in Et. by eapply read_text_append. }
  assert (El : complete_lines_ fs inbox_file = Ok (complete_lines t))
    by (by rewrite complete_lines_bytes, Et).
  pose proof (lg_passed _ _ _ Hlog) as Hn. pose proof (passable_le (complete_lines ta)) as Lp.
  destruct (passable_prefix _ _ P) as [Lpp _]. pose proof (logged_prefix _ _ _ _ P Hlog) as Hlog'.
  destruct (drain_spec accept now fs log _ _ n Hpos P ltac:(lia) ltac:(lia) El Hbig)
    as (m & r & fs' & Hm & E & Hin & Hpos' & Hall).
  destruct (logged_run _ _ _ _ Hlog' Hm) as [R1 R2]. simpl. rewrite E. simpl.
  assert (Hb : exists a t', a `prefix_of` inbox_bytes fs' /\ read_text a = Ok t' /\ complete_lines t = complete_lines t').
  { exists (inbox_bytes fs), t. unfold inbox_bytes. by rewrite Hin. }
  assert (Hs : (forall lg e, accept lg e = true) ->
    events (take (passable (complete_lines t)) (complete_lines t)) `sublist_of` log ++ events (take m (drop n (complete_lines t)))).
  { intros A. rewrite <- (Hall A). apply (lg_once _ _ _ R1). }
  destruct Hpos' as [Hpos'|[Hpos' Lt]].
  - exists (n + m)%nat. split; [split; [done|split; [done|exact R1]]|]. intros A. split; [by apply Hs|]. specialize (Hall A). lia.
  - exists n. split; [split; [done|split; [done|by apply R2]]|]. intros A. split; [by apply Hs|lia].
Qed.

Lemma perform_caught_up a w ls n :
  caught_up_to ls n w -> countable_lines (inbox_bytes w.1) ->
  exists ls' n', caught_up_to ls' n' (perform a w).
Proof.
  destruct w as [fs log]. intros Hc Hr. destruct a as [b|accept now].
  - exists ls, n. destruct Hc as ((a & t & Pa & Ea & ->) & Hpos & Hlog). simpl in *.
    split; [exists a, t|split; [|done]].
    + split; [|done]. etransitivity; [exact Pa|]. exact (perform_prefix (Append b) (fs, log)).
    + unfold position, append in *. simpl. rewrite !lookup_insert_ne by done.
      erewrite load_cursor_ext; [exact Hpos|]. by rewrite lookup_insert_ne.
  - destruct (read_text (inbox_bytes fs)) as [t|e] eqn:Et.
    + destruct (drain_step accept now fs log ls n t Hc Hr Et) as (m & Hm & _). by eexists _, _.
    + exists ls, n. simpl. unfold drain_queue. rewrite complete_lines_bytes, Et. exact Hc.
Qed.

Lemma countable_prefix b b' : b `prefix_of` b' -> countable_lines b' -> countable_lines b.
Proof using Type. intros P Hr a t Pa Et. eapply Hr; [|done]. by etransitivity. Qed.

Lemma perform_all_caught_up acts w ls n :
  caught_up_to ls n w -> countable_lines (inbox_bytes (perform_all acts w).1) ->
  exists ls' n', caught_up_to ls' n' (perform_all acts w).
Proof.
  revert w ls n. induction acts as [|a acts IH]; intros w ls n Hc Hr; [by exists ls, n|].
  simpl in *. destruct (perform_caught_up a w ls n Hc) as (ls1 & n1 & H1).
  - eapply countable_prefix; [|exact Hr]. etransitivity; [apply perform_prefix|apply perform_all_prefix].
  - by eapply IH.
Qed.

Lemma caught_up_initially fs :
  fs !! cursor_file = None -> fs !! role_cp = None -> caught_up_to [] 0 (fs, []).
Proof using Type.
  intros Ec Er. split; [|split; [by left|split]]; try done.
  exists [], []. split; [apply prefix_nil|done].
Qed.

Lemma countable_final b t :
  read_text b = Ok t -> Z.of_nat (List.length (complete_lines t)) < 2 ^ 63 -> countable_lines b.
Proof using Type.
  clear Hic Hir Hcr Hpid. intros Et Hb a ta [k ->] Ea. pose proof (read_text_append a k ta t Ea Et) as P.
  pose proof (prefix_length _ _ P). lia.
Qed.

(** ** Properties *)

(** C25: Exactly once and in order: whatever is appended to the queue of a role
    (whole lines or pieces of them), however often a consumer that starts with
    neither a cursor nor a checkpoint of the role drains it, and whichever events
    its handler (which returns) rejects on the way, when its cursor and checkpoint
    can be written, the queue is UTF-8 and each of its complete lines is one
    [json.loads] can decode or refuse with [JSONDecodeError], the events accepted are those of the first [n] complete
    lines, each once, in queue order. With a line on which it raises anything
    else (a number of more than 4300 digits, too deep a nesting) the events
    accepted still are, in order and at least once, those of the first [n] lines,
    none is from that line or beyond, and [n] is the position saved. *)
Theorem deliveries_are_exactly_once acts fs t :
  fs !! cursor_file = None -> fs !! role_cp = None ->
  let w := perform_all acts (fs, []) in
  read_text (inbox_bytes w.1) = Ok t ->
  let ls := complete_lines t in
  Z.of_nat (List.length ls) < 2 ^ 63 ->
  exists n, (n <= passable ls)%nat /\
    (n = 0%nat /\ w.1 !! cursor_file = None \/ line (load_cursor w.1 cursor_file) = Z.of_nat n) /\
    events (take n ls) `sublist_of` w.2 /\ (forall e, e ∈ w.2 -> e ∈ events (take (passable ls) ls)) /\
    (Forall (fun l => tame l = true) ls -> w.2 = events (take n ls)).
Proof.
  intros Ec Er w Et ls Hb. pose proof (countable_final _ t Et Hb) as Hr.
  destruct (perform_all_caught_up acts (fs, []) [] 0 (caught_up_initially fs Ec Er) Hr)
    as (ls0 & n & (a & ta & [k Ek] & Ea & ->) & Hpos & Hlog).
  fold w in Ek, Hpos, Hlog. rewrite Ek in Et. pose proof (read_text_append a k ta t Ea Et) as P.
  destruct (logged_prefix _ _ _ _ P Hlog) as [H1 H2 H3 H4]. exists n. split; [done|]. split; [|split; [done|split; [done|]]].
  - destruct Hpos as [(-> & ? & _)|[_ E]]; [by left|right]. by rewrite E.
  - intros A%passable_all. by apply H4.
Qed.

(** C26: Nothing is lost: after any such history, one drain whose handler accepts
    every event leaves the consumer with all the events of the queue, none twice,
    when every complete line is one [json.loads] can decode or refuse with
    [JSONDecodeError]; and otherwise with all the events before the first line
    that is not, and none from there on, however often it drains. *)
Theorem draining_delivers_everything acts fs t now :
  fs !! cursor_file = None -> fs !! role_cp = None ->
  let w := perform_all acts (fs, []) in
  read_text (inbox_bytes w.1) = Ok t ->
  let ls := complete_lines t in
  Z.of_nat (List.length ls) < 2 ^ 63 ->
  let log := (perform (Drain (fun _ _ => true) now) w).2 in
  (Forall (fun l => tame l = true) ls -> log = events ls) /\
  events (take (passable ls) ls) `sublist_of` log /\ (forall e, e ∈ log -> e ∈ events (take (passable ls) ls)).
Proof.
  intros Ec Er w Et ls Hb. pose proof (countable_final _ t Et Hb) as Hr.
  destruct (perform_all_caught_up acts (fs, []) [] 0 (caught_up_initially fs Ec Er) Hr)
    as (ls0 & n & Hc). fold w in Hc. destruct w as [fs1 log1].
  destruct (drain_step (fun _ _ => true) now fs1 log1 ls0 n t Hc Hr Et) as (m & (_ & _ & Hm) & Hall).
  destruct (Hall ltac:(done)) as [Hs Hl]. split; [|split; [exact Hs|exact (lg_seen _ _ _ Hm)]].
  intros A%passable_all. rewrite (lg_all _ _ _ Hm A), (Hl A). by rewrite firstn_all.
Qed.

(** C27: A queue that was truncated or rewritten under the cursor is delivered
    again from its first line: when the saved position lies beyond the queue,
    or the line before it is not the one the anchor was taken from, a drain whose
    handler accepts every event hands it every event of the queue and saves its
    end as the new position (every complete line being one [json.loads] can
    decode or refuse with [JSONDecodeError]). *)
Theorem diverged_queue_is_redelivered fs log ls now :
  is_Some (fs !! cursor_file) ->
  complete_lines_ fs inbox_file = Ok ls ->
  let c := load_cursor fs cursor_file in
  Z.of_nat (List.length ls) < line c \/
  anchor c <> "" /\ 0 < line c /\
    (forall l, line_before ls (line c) = Some l -> anchor_ l <> anchor c) ->
  Forall (fun l => tame l = true) ls -> Z.of_nat (List.length ls) < 2 ^ 63 ->
  exists fs', drain_queue (recording (fun _ _ => true)) (disk now) inbox_file cursor_file my_pid my_role fs log
              = (Ok (Drained (Z.of_nat (List.length ls)) false), fs', log ++ events ls) /\
    load_cursor fs' cursor_file
      = MkCursor (Z.of_nat (List.length ls)) my_pid my_role (anchor_at ls (Z.of_nat (List.length ls))).
Proof.
  intros [f Hf] El c Hd Ht Hb.
  assert (Hout : desync (Some c) (line c) ls = true).
  { unfold desync. apply orb_true_iff. destruct Hd as [L|(Ha & L & Hl)].
    - left. by apply Z.ltb_lt.
    - right. apply Z.ltb_lt in L as ->. destruct (truthy (anchor c)) eqn:T;
        [|by apply truthy_nil in T]. cbn [andb]. destruct (line_before ls (line c)) as [l|] eqn:E; [|done].
      apply negb_true_iff, String.eqb_neq. by apply Hl. }
  unfold drain_queue. fold role_cp. rewrite Hf, El. fold c. rewrite Hout.
  change (slice_from 0 ls) with (slice_from (Z.of_nat 0) ls). rewrite slice_from_nat, drop_0.
  set (fs1 := save_role_checkpoint _ _ _ true fs).
  destruct ls as [|x r] eqn:E.
  - eexists. split; [by rewrite app_nil_r|].
    by destruct (saved_position now 0 (anchor_at [] 0) fs1) as (_ & S2 & _).
  - rewrite <- E in *. apply passable_all in Ht.
    destruct (deliver_spec (fun _ _ => true) ls 0 log) as (m & _ & [(h & Ed & Ha)|(_ & -> & L)]); [|lia].
    destruct (Ha ltac:(done)) as [-> ->]. rewrite Ed, !Z.add_0_l, firstn_all.
    eexists. split; [done|].
    by destruct (saved_position now (Z.of_nat (List.length ls))
      (anchor_at ls (Z.of_nat (List.length ls))) fs1) as (_ & S2 & _); [lia|].
Qed.
End consumer.

Section cleaning.
  Context (kill : Z -> probe) (unlink_ok : path -> bool).

Lemma keyword_app k r : keyword k (k ++ r) = Some r.
Proof using Type. induction k as [|c k IH]; simpl; [done|]. by rewrite Ascii.eqb_refl. Qed.

(** The role's checkpoint is not taken for a consumer's cursor. *)
Lemma checkpoint_is_no_cursor role : cursor_pid role ("cursor_" +:+ role +:+ "_role.json") = None.
Proof using Type.
  unfold cursor_pid.
  replace ("cursor_" +:+ role +:+ "_role.json")
    with (("cursor_" +:+ role +:+ "_") +:+ "role.json").
  - rewrite (chars_app _ "role.json"), keyword_app. reflexivity.
  - apply chars_inj. by rewrite !chars_app, <- !app_assoc.
Qed.

(** Cleaning up removes only what it may: a file that is gone afterwards
    was a cursor of this role, named by a pid that is neither the caller's nor
    that of a running process; every other file, the role's checkpoint
    included, is untouched. *)
Theorem cleanup_spares_the_living shared_dir role my_pid names fs :
  let fs' := (cleanup_dead_cursors kill unlink_ok shared_dir role my_pid names 0 fs).2 in
  (forall q, fs' !! q = fs !! q \/
     fs' !! q = None /\ exists p, q.1 = shared_dir /\ q.2 ∈ names /\
       cursor_pid role q.2 = Some p /\ p <> my_pid /\ kill p = NoProcess) /\
  fs' !! role_checkpoint_file shared_dir role = fs !! role_checkpoint_file shared_dir role.
Proof.
  cbv zeta. generalize 0 as removed. intros removed.
  assert (Main : forall q,
    let fs' := (cleanup_dead_cursors kill unlink_ok shared_dir role my_pid names removed fs).2 in
    fs' !! q = fs !! q \/
    fs' !! q = None /\ exists p, q.1 = shared_dir /\ q.2 ∈ names /\
      cursor_pid role q.2 = Some p /\ p <> my_pid /\ kill p = NoProcess).
  { intros q. revert removed fs. induction names as [|name rest IH]; intros removed fs; simpl; [by left|].
    assert (Later : forall r fs1, fs1 !! q = fs !! q \/ fs1 !! q = None /\
        (exists p, q = (shared_dir, name) /\ cursor_pid role name = Some p /\ p <> my_pid /\
           kill p = NoProcess) ->
      let fs' := (cleanup_dead_cursors kill unlink_ok shared_dir role my_pid rest r fs1).2 in
      fs' !! q = fs !! q \/ fs' !! q = None /\ exists p, q.1 = shared_dir /\ q.2 ∈ name :: rest /\
        cursor_pid role q.2 = Some p /\ p <> my_pid /\ kill p = NoProcess).
    { intros r fs1 H1. cbv zeta in *. destruct (IH r fs1) as [->|(-> & p & E1 & E2 & E3)].
      - destruct H1 as [->|(-> & p & -> & E & N & K)]; [by left|right].
        split; [done|]. exists p. split; [done|]. split; [by left|]. done.
      - right. split; [done|]. exists p. split; [done|]. split; [by right|]. done. }
    destruct (fs !! (shared_dir, name)) as [f|]; [|apply Later; by left].
    destruct (cursor_pid role name) as [p|] eqn:Ep; [|apply Later; by left].
    destruct (Z.eqb_spec p my_pid); [apply Later; by left|].
    destruct (kill p) eqn:Ek; try (apply Later; by left); [|by left].
    destruct (unlink_ok _); [|apply Later; by left]. apply Later.
    destruct (decide (q = (shared_dir, name))) as [->|N]; [|left; by rewrite lookup_delete_ne].
    right. rewrite lookup_delete_eq. split; [done|]. by exists p. }
  split; [exact Main|]. destruct (Main (role_checkpoint_file shared_dir role)) as [|(_ & p & _ & _ & E & _)];
    [done|]. simpl in E. by rewrite checkpoint_is_no_cursor in E.
Qed.
End cleaning.

(** ** Runs *)

Module InboxDemo.

Definition inbox : path := ("shared", "queue_ccto.jsonl").
Definition cursor : path := ("shared", "cursor_ccto_hook_7.json").
Definition line_of (s : string) : text := show true (JObj [("content", JStr s)]) ++ [lf].
Definition ev (s : string) : event := Event (JStr "slack_message") (JStr s) (JObj []).
Definition yes : list event -> event -> bool := fun _ _ => true.
(** Rejects an event until one has been accepted before it. *)
Definition second_only : list event -> event -> bool := fun log _ => negb (bool_decide (log = [])).
Definition empty_store : store := ∅.

Notation acts_of l := (perform_all inbox cursor 7 "ccto" l (empty_store, [])).

(** A torn append, a rejected event, a retry. *)
Definition history : list act :=
  [Append (line_of "a" ++ take 5 (line_of "b")); Drain yes 1; Append (drop 5 (line_of "b"));
   Drain (fun _ _ => false) 2; Append (line_of "c")].
Definition queue : text := line_of "a" ++ line_of "b" ++ line_of "c".

Lemma history_text : read_text (inbox_bytes inbox (acts_of history).1) = Ok queue.
Proof. vm_compute. reflexivity. Qed.

Lemma queue_tame : Forall (fun l => tame l = true) (complete_lines queue).
Proof. apply Forall_fold_right. vm_compute. repeat split. Qed.

Lemma history_log : (acts_of history).2 = [ev "a"].
Proof. vm_compute. reflexivity. Qed.

(** A line the reader cannot pass: an integer of 4301 digits makes
    [json.loads] raise a [ValueError] that is no [JSONDecodeError]. The drain
    ends without saving its position, so the events before the line are
    delivered again at every drain and the ones after it never. *)
Definition poison : bytes := repeat (chr 49) 4301 ++ [lf].

Lemma poison_line_redelivers :
  (acts_of [Append (line_of "a" ++ poison ++ line_of "b"); Drain yes 1; Drain yes 2; Drain yes 3]).2
  = [ev "a"; ev "a"; ev "a"].
Proof. vm_compute. reflexivity. Qed.

(** An append torn inside a multi-byte character makes the whole queue
    unreadable, the complete lines before it included. *)
Lemma torn_character_blocks_complete_lines :
  complete_lines_ (append inbox (line_of "a" ++ [chr 195]) empty_store) inbox
  = Err (Exn UnicodeDecodeError "'utf-8' codec can't decode bytes").
Proof. vm_compute. reflexivity. Qed.

(** The anchor guards a consumer's own cursor only: a fresh consumer seeded
    from the role's checkpoint skips the first line of a rewritten queue. *)
Definition rewritten : store :=
  {[inbox := File (line_of "new1" ++ line_of "new2") 0%Q;
    role_checkpoint_file "shared" "ccto" := File (utf8_encode (show true (JObj [("line", JInt 1)]))) 0%Q]}.
Lemma fresh_consumer_skips_rewritten_line :
  (perform inbox cursor 7 "ccto" (Drain yes 1) (rewritten, [])).2 = [ev "new2"].
Proof. vm_compute. reflexivity. Qed.

(** A session id made of digits only passes for a pid. *)
Lemma digit_session_is_taken_for_a_pid :
  session_cursor_filename "ccto" "12-34" = "cursor_ccto_session_1234.json" /\
  cursor_pid "ccto" "cursor_ccto_session_1234.json" = Some 1234.
Proof. split; reflexivity. Qed.

(** A consumer at line 1 whose queue was rewritten. *)
Definition moved : store :=
  save_cursor (disk 0) cursor 1 7 "ccto" (anchor_ (show true (JObj [("content", JStr "a")])))
    (append inbox (line_of "x" ++ line_of "y") empty_store).

Definition moved_lines : list text := complete_lines (line_of "x" ++ line_of "y").
Lemma moved_reads : complete_lines_ moved inbox = Ok moved_lines.
Proof. vm_compute. reflexivity. Qed.
Lemma moved_diverged :
  let c := load_cursor moved cursor in
  anchor c <> "" /\ 0 < line c /\
    (forall l, line_before moved_lines (line c) = Some l -> anchor_ l <> anchor c).
Proof.
  cbv zeta. replace (load_cursor moved cursor) with (MkCursor 1 7 "ccto" "b6a3b4209633a4fc")
    by (vm_compute; reflexivity).
  split; [done|]. split; [done|]. intros l E. vm_compute in E. injection E as <-. vm_compute. discriminate.
Qed.
Lemma moved_tame : Forall (fun l => tame l = true) moved_lines.
Proof. apply Forall_fold_right. vm_compute. repeat split. Qed.

End InboxDemo.

Lemma deliveries_are_exactly_once_witness :
  exists n, (n <= 3)%nat /\
    [InboxDemo.ev "a"] = events (take n (complete_lines InboxDemo.queue)).
Proof.
  rewrite <- InboxDemo.history_log.
  destruct (deliveries_are_exactly_once InboxDemo.inbox InboxDemo.cursor 7 "ccto" ltac:(done) ltac:(done) ltac:(done) ltac:(done)
    InboxDemo.history InboxDemo.empty_store InboxDemo.queue eq_refl eq_refl InboxDemo.history_text ltac:(done))
    as (n & Hn & _ & _ & _ & E).
  exists n. split; [exact Hn|exact (E InboxDemo.queue_tame)].
Defined.

Lemma draining_delivers_everything_witness :
  (perform_all InboxDemo.inbox InboxDemo.cursor 7 "ccto"
     (InboxDemo.history ++ [Drain InboxDemo.yes 9%Q]) (InboxDemo.empty_store, [])).2
  = [InboxDemo.ev "a"; InboxDemo.ev "b"; InboxDemo.ev "c"].
Proof.
  unfold perform_all. rewrite fold_left_app.
  refine (eq_trans (proj1 (draining_delivers_everything InboxDemo.inbox InboxDemo.cursor 7 "ccto" _ _ _ _
    InboxDemo.history InboxDemo.empty_store InboxDemo.queue 9%Q eq_refl eq_refl InboxDemo.history_text
    _) InboxDemo.queue_tame) _); done.
Defined.

Lemma diverged_queue_is_redelivered_witness :
  exists fs', drain_queue (recording InboxDemo.yes) (disk 1) InboxDemo.inbox InboxDemo.cursor 7 "ccto"
                InboxDemo.moved []
    = (Ok (Drained 2 false), fs', [InboxDemo.ev "x"; InboxDemo.ev "y"]).
Proof.
  destruct (diverged_queue_is_redelivered InboxDemo.inbox InboxDemo.cursor 7 "ccto"
    ltac:(done) ltac:(done) ltac:(done) ltac:(done) InboxDemo.moved [] InboxDemo.moved_lines 1%Q
    ltac:(by eexists) InboxDemo.moved_reads (or_intror InboxDemo.moved_diverged) InboxDemo.moved_tame
    ltac:(done)) as (fs' & E & _).
  exists fs'. exact E.
Defined.
