(* ===== verification/HandoffLedger.v ===== *)
(** * The handoff obligation ledger (scripts/handoff_ledger.py)

    The ledger is a JSONL file rewritten as a whole under a lock; requests to
    open rows arrive in a second, append-only file with a cursor of its own.
    Operations are state-passing functions on those files: an exception keeps
    the changes made before it. Rows are decoded JSON objects in key order,
    not a fixed record, because the file may hold anything. The kernel mirror
    ([fleet_kernel.m4], psycopg) is the class [KernelPlane]. *)
From S2P Require Import Prelude PyStr PyFloat PyTime Json PyIO JsonText PyValue.
From stdpp Require Import base gmap strings list.
From Stdlib Require Import ZArith QArith NArith Lia DecimalString.

Local Open Scope Z_scope.

Notation dict := (list (string * json)).

(** ** Constants and predicates *)

(* src: scripts/handoff_ledger.py SWEEP_INTERVAL_SECONDS *)
Definition SWEEP_INTERVAL_SECONDS : Z := 180.
(* src: scripts/handoff_ledger.py DEADLINE_DEFAULT_SECONDS *)
Definition DEADLINE_DEFAULT_SECONDS : Z := 2 * 60 * 60.
(* src: scripts/handoff_ledger.py DEADLINE_MIN_SECONDS *)
Definition DEADLINE_MIN_SECONDS : Z := 2 * SWEEP_INTERVAL_SECONDS.
(* src: scripts/handoff_ledger.py DEADLINE_MAX_SECONDS *)
Definition DEADLINE_MAX_SECONDS : Z := 4 * 60 * 60.
(* src: scripts/handoff_ledger.py STATUSES *)
Definition STATUSES : list string := ["open"; "closed"; "escalated"].
(* src: scripts/handoff_ledger.py CANARY_PREFIX *)
Definition CANARY_PREFIX : string := "__canary__".
(* src: scripts/handoff_ledger.py PLACEHOLDER_ARTIFACT *)
Definition PLACEHOLDER_ARTIFACT : string := "handoff acknowledged + drained".
(* src: scripts/handoff_ledger.py KNOWN_OWNER_ROLES *)
Definition KNOWN_OWNER_ROLES : list string :=
  ["ccto"; "ccpo"; "ccro"; "ccfo"; "ccmo"; "cclo"; "ccgo"; "ccco"; "ccde"; "cos"; "scribe"; "utility"].
(* src: scripts/handoff_ledger.py REQUIRED_FIELDS *)
Definition REQUIRED_FIELDS : list string :=
  ["handoff_id"; "from_agent"; "owner_agent"; "action"; "expected_artifact"; "opened_ts_utc";
   "deadline_utc"; "status"; "closed_ts_utc"; "evidence_ptr"; "note"].
(* src: scripts/handoff_ledger.py NON_EMPTY_FIELDS *)
Definition NON_EMPTY_FIELDS : list string :=
  ["handoff_id"; "from_agent"; "owner_agent"; "action"; "expected_artifact"; "opened_ts_utc";
   "deadline_utc"; "status"].
(* src: scripts/handoff_ledger.py _EPHEMERAL_PREFIXES *)
Definition EPHEMERAL_PREFIXES : list string := ["/tmp"; "/private/tmp"; "/var/folders"].

Definition in_list (x : string) (l : list string) : bool := existsb (String.eqb x) l.

(** [s.rpartition("-")], [None] when there is no dash. *)
Fixpoint rsplit_dash (l : text) : option (text * text) :=
  match l with
  | [] => None
  | c :: r =>
      match rsplit_dash r with
      | Some (b, t) => Some (c :: b, t)
      | None => if (code c =? 45)%N then Some ([], r) else None
      end
  end.

(* src: scripts/handoff_ledger.py is_known_owner *)
Definition is_known_owner (owner : string) : bool :=
  let o := lower (strip owner) in
  if negb (truthy o) then false
  else if in_list o KNOWN_OWNER_ROLES then true
  else match rsplit_dash (chars o) with
       | Some (base, tail) => in_list (of_chars base) KNOWN_OWNER_ROLES && isdigit (of_chars tail)
       | None => false
       end.

(* src: scripts/handoff_ledger.py _require *)
Definition require_ (cond : bool) (msg : string) : res unit :=
  if cond then Ok tt else Err (Exn LedgerError msg).

(** [entry[field]]. *)
Definition item (d : dict) (k : string) : res json :=
  match dict_get k d with Some v => Ok v | None => Err (Exn KeyError (repr k)) end.
(** [row.get(k)] of a decoded row, which need not be a dict. *)
Definition row_get (row : json) (k : string) : res (option json) :=
  match row with
  | JObj d => Ok (dict_get k d)
  | _ => Err (Exn AttributeError "object has no attribute 'get'")
  end.
Definition eq_str (v : option json) (s : string) : bool :=
  match v with Some (JStr t) => String.eqb t s | _ => false end.

(** [FOUNDER_IDENTITIES], from the value of CC_SUITE_FOUNDER_IDENTITIES. *)
(* src: scripts/handoff_ledger.py FOUNDER_IDENTITIES *)
Definition FOUNDER_IDENTITIES (env : string) : list string :=
  "founder" :: map (fun v => lower (strip v))
                 (List.filter (fun v => truthy (strip v)) (split_on (chr 44) env)).

(* src: scripts/handoff_ledger.py is_canary *)
Definition is_canary (entry : dict) : bool :=
  startswith (match dict_get "handoff_id" entry with Some v => py_str v | None => "" end) CANARY_PREFIX.

(** On a row; a bare owner string goes through the same comparison. *)
(* src: scripts/handoff_ledger.py is_founder_owned *)
Definition is_founder_owned (founders : string) (row : json) : res bool :=
  let! owner := match row with
                | JObj d => match dict_get "owner_agent" d with
                            | Some (JStr s) => Ok s
                            | None => Ok ""
                            | Some _ => Err (Exn AttributeError "object has no attribute 'strip'")
                            end
                | v => Ok (if py_bool v then py_str v else "")
                end in
  Ok (in_list (lower (strip owner)) (FOUNDER_IDENTITIES founders)).

(** ** Deadlines *)

(** [min(14400, x)], then [max(360, _)]: Python keeps the first argument when
    the comparison is false, as it is with a nan. *)
(* src: scripts/handoff_ledger.py clamp_deadline_seconds *)
Definition clamp_deadline_seconds (seconds : pyfloat) : Q :=
  let capped := match seconds with
                | Fin q => if Qltb q (inject_Z DEADLINE_MAX_SECONDS) then Some q
                           else Some (inject_Z DEADLINE_MAX_SECONDS)
                | NonFin NegInf => None
                | NonFin _ => Some (inject_Z DEADLINE_MAX_SECONDS)
                end in
  match capped with
  | Some q => if Qltb (inject_Z DEADLINE_MIN_SECONDS) q then q else inject_Z DEADLINE_MIN_SECONDS
  | None => inject_Z DEADLINE_MIN_SECONDS
  end.

(** [raw.replace("Z", "+00:00")]. *)
Definition replace_Z (s : string) : string :=
  of_chars (flat_map (fun c => if (code c =? 90)%N then chars "+00:00" else [c]) (chars s)).

Section ledger.
  Context `{IsoTime, JsonLimits}.

(* src: scripts/handoff_ledger.py _parse_ts *)
Definition parse_ts (raw : string) : res datetime :=
  match fromisoformat (replace_Z raw) with
  | Some d => Ok (match dt_off d with Some _ => d | None => DT (dt_wall d) (Some 0) end)
  | None => Err (Exn ValueError ("Invalid isoformat string: " +:+ repr raw))
  end.

(* src: scripts/handoff_ledger.py _iso *)
Definition iso (d : datetime) : res string := let! u := dt_to_utc d in Ok (isoformat u).

(** ** Validation *)

Fixpoint check_fields (f : string -> res unit) (fields : list string) : res unit :=
  match fields with
  | [] => Ok tt
  | k :: r => let! _ := f k in check_fields f r
  end.

(* src: scripts/handoff_ledger.py validate_entry@6-7 *)
Definition field_present (entry : dict) (field : string) : res unit :=
  require_ (bool_decide (is_Some (dict_get field entry)))
    ("handoff entry missing required field " +:+ repr field).
(* src: scripts/handoff_ledger.py validate_entry@8-11 *)
Definition field_nonempty (entry : dict) (field : string) : res unit :=
  let! v := item entry field in
  require_ (match v with JStr s => truthy (strip s) | _ => false end)
    ("field " +:+ repr field +:+ " must be a non-empty string").

(** A field known to hold a string. *)
Definition str_item (entry : dict) (k : string) : res string :=
  let! v := item entry k in Ok (py_str v).

(* src: scripts/handoff_ledger.py validate_entry@24-30 *)
Definition clamp_deadline (entry : dict) : res dict :=
  let! opened_raw := str_item entry "opened_ts_utc" in
  let! opened := parse_ts opened_raw in
  let! deadline_raw := str_item entry "deadline_utc" in
  let! deadline := parse_ts deadline_raw in
  let delta := instant deadline - instant opened in
  let! _ := require_ (0 <? delta) "deadline_utc must be after opened_ts_utc" in
  let clamped := clamp_deadline_seconds (Fin (truediv delta 1000000)) in
  let! due := dt_plus opened (seconds_us clamped) in
  let! due_iso := iso due in
  Ok (dict_put "deadline_utc" (JStr due_iso) entry).

(* src: scripts/handoff_ledger.py validate_entry *)
Definition validate_entry (entry : json) : res dict :=
  match entry with
  | JObj d =>
      let! _ := check_fields (field_present d) REQUIRED_FIELDS in
      let! _ := check_fields (field_nonempty d) NON_EMPTY_FIELDS in
      let! status := str_item d "status" in
      let! _ := require_ (in_list status STATUSES)
        ("unknown status " +:+ repr status +:+ " " +:+ emdash
           +:+ " one of ['closed', 'escalated', 'open']") in
      let ptr := py_str (py_or (dict_get "evidence_ptr" d) (JStr "")) in
      let! _ := (if truthy (strip ptr)
                 then require_ (negb (existsb (startswith ptr) EPHEMERAL_PREFIXES))
                   ("evidence_ptr " +:+ repr ptr +:+ " is in an ephemeral path " +:+ emdash
                      +:+ " point at a committed dir or commit hash (surviving-evidence rule).")
                 else Ok tt) in
      let! d' := clamp_deadline d in
      let closed := py_or (dict_get "closed_ts_utc" d') (JStr "") in
      if truthy (strip (py_str closed)) then
        let! raw := item d' "closed_ts_utc" in
        match parse_ts (py_str raw) with
        | Ok _ => Ok d'
        | Err e =>
            if is_subclass (exn_class e) ValueError
            then Err (Exn LedgerError ("closed_ts_utc not ISO-8601: " +:+ py_repr raw +:+ " ("
                        +:+ exn_msg e +:+ ")"))
            else Err e
        end
      else Ok d'
  | _ => Err (Exn LedgerError "handoff entry must be a dict")
  end.

(* src: scripts/handoff_ledger.py new_handoff *)
Definition new_handoff (handoff_id from_agent owner_agent action expected_artifact opened_ts_utc : string)
    (deadline_seconds : pyfloat) (note : string) : res dict :=
  let! opened := parse_ts opened_ts_utc in
  let! deadline := dt_plus opened (seconds_us (clamp_deadline_seconds deadline_seconds)) in
  let! due := iso deadline in
  validate_entry (JObj [
    ("handoff_id", JStr handoff_id); ("from_agent", JStr from_agent);
    ("owner_agent", JStr owner_agent); ("action", JStr action);
    ("expected_artifact", JStr expected_artifact); ("opened_ts_utc", JStr opened_ts_utc);
    ("deadline_utc", JStr due); ("status", JStr "open"); ("closed_ts_utc", JStr "");
    ("evidence_ptr", JStr ""); ("note", JStr note)]).

(** ** The files *)

(** Decoding the lines of the ledger; corrupt lines are dropped. *)
(* src: scripts/handoff_ledger.py _read_all@4-11 *)
Fixpoint decode_rows (lines : list text) : res (list json) :=
  match lines with
  | [] => Ok []
  | l :: rest =>
      match chars (strip (of_chars l)) with
      | [] => decode_rows rest
      | s => match loads s with
             | Ok v => let! vs := decode_rows rest in Ok (v :: vs)
             | Err e =>
                 if is_subclass (exn_class e) JSONDecodeError then decode_rows rest else Err e
             end
      end
  end.
(* src: scripts/handoff_ledger.py _read_all *)
Definition read_all (file : option bytes) : res (list json) :=
  match file with
  | None => Ok []
  | Some b => let! t := read_text b in decode_rows (splitlines t)
  end.

(** What [_atomic_write_all] puts in place. *)
(* src: scripts/handoff_ledger.py _atomic_write_all@6-8 *)
Definition render (rows : list json) : bytes :=
  utf8_encode (flat_map (fun r => show false r ++ [lf]) rows).

End ledger.

(** ** The kernel mirror

    What the ledger uses of [fleet_kernel.m4] and psycopg: parsing the
    connection string, mirroring the file (the verdict of the parity check)
    and reading the mirrored rows back. [plane] is the mirror's own state. *)
Class KernelPlane := {
  plane : Type;
  conninfo : Type;
  conninfo_to_dict : string -> res conninfo;
  sync_authoritative_file : conninfo -> string -> option bytes -> plane -> res string * plane;
  read_verified_kernel_rows : conninfo -> string -> option bytes -> plane -> res (list json);
}.

Section operations.
  Context `{IsoTime, JsonLimits, KernelPlane}.
  (** [os.environ], whether the path is the canonical ledger's, and what goes
      wrong on the n-th attempt to write the ledger. *)
  Context (environ : gmap string string) (canonical : bool) (fault : nat -> option exn).

Record files := Files
  { ledger : option bytes; requests : option bytes; req_cursor : option bytes;
    writes : nat; mirror : plane }.

(** Exceptions keep the state. *)
Definition op (A : Type) : Type := files -> res A * files.
Definition ret {A} (a : A) : op A := fun st => (Ok a, st).
Definition raise {A} (e : exn) : op A := fun st => (Err e, st).
Definition bind {A B} (m : op A) (k : A -> op B) : op B :=
  fun st => match m st with (Ok a, st') => k a st' | (Err e, st') => (Err e, st') end.
Definition lift {A} (r : res A) : op A := fun st => (r, st).
Notation "'let*' x ':=' m 'in' k" := (bind m (fun x => k))
  (at level 10, x pattern, m at level 100, k at level 200).

Definition getenv (k default : string) : string := strip (from_option (fun v => v) default (environ !! k)).

Definition config : Type := option (conninfo * string).
(* src: scripts/handoff_ledger.py _kernel_pointer_config *)
Definition kernel_pointer_config : res config :=
  let mode := lower (getenv "FLEET_KERNEL_HANDOFF_READ_MODE" "legacy") in
  let! _ := require_ (in_list mode ["legacy"; "kernel"])
    "FLEET_KERNEL_HANDOFF_READ_MODE must be legacy or kernel" in
  if String.eqb mode "legacy" || negb canonical then Ok None
  else
    let! _ := require_ (negb (truthy (getenv "MISE_TENANT" "")))
      "kernel handoff reads are tenant-zero only before Phase 7" in
    let database_url := getenv "FLEET_KERNEL_DATABASE_URL" "" in
    let tenant_id := getenv "FLEET_KERNEL_TENANT_ID" "" in
    let! _ := require_ (truthy database_url && truthy tenant_id)
      "kernel handoff reads require database URL and tenant ID" in
    match conninfo_to_dict database_url with
    | Ok c => Ok (Some (c, tenant_id))
    | Err e => Err (Exn LedgerError
        ("kernel handoff database configuration is invalid: " +:+ exn_msg e))
    end.

(* src: scripts/handoff_ledger.py _mirror_kernel_after_legacy_write *)
Definition mirror_kernel_after_legacy_write (cfg : config) : op unit :=
  fun st =>
    match cfg with
    | None => (Ok tt, st)
    | Some (c, tenant) =>
        let '(r, m) := sync_authoritative_file c tenant (ledger st) (mirror st) in
        let st' := Files (ledger st) (requests st) (req_cursor st) (writes st) m in
        let failed msg := Err (Exn LedgerError
          ("legacy handoff write is committed but synchronous kernel mirror failed: " +:+ msg)) in
        match r with
        | Ok verdict =>
            if String.eqb verdict "clean" then (Ok tt, st')
            else (failed "kernel mirror parity diverged", st')
        | Err e => (failed (exn_msg e), st')
        end
    end.

(* src: scripts/handoff_ledger.py _read_control_rows *)
Definition read_control_rows : op (list json) :=
  fun st =>
    match kernel_pointer_config with
    | Err e => (Err e, st)
    | Ok None => (read_all (ledger st), st)
    | Ok (Some (c, tenant)) =>
        match read_verified_kernel_rows c tenant (ledger st) (mirror st) with
        | Ok rows => (Ok rows, st)
        | Err e =>
            if is_subclass (exn_class e) LedgerError then (Err e, st)
            else (Err (Exn LedgerError ("kernel handoff read refused: " +:+ exn_msg e)), st)
        end
    end.

(** The new file replaces the old one, or nothing changes. *)
(* src: scripts/handoff_ledger.py _atomic_write_all *)
Definition atomic_write_all (rows : list json) : op unit :=
  fun st =>
    let st' l := Files l (requests st) (req_cursor st) (S (writes st)) (mirror st) in
    match fault (writes st) with
    | Some e => (Err e, st' (ledger st))
    | None => (Ok tt, st' (Some (render rows)))
    end.
Definition read_rows : op (list json) := fun st => (read_all (ledger st), st).

(** [any(r.get("handoff_id") == id for r in rows)]. *)
Fixpoint has_id (id : string) (rows : list json) : res bool :=
  match rows with
  | [] => Ok false
  | r :: rest => let! v := row_get r "handoff_id" in if eq_str v id then Ok true else has_id id rest
  end.

(* src: scripts/handoff_ledger.py append_handoff *)
Definition append_handoff (entry : json) : op dict :=
  let* d := lift (validate_entry entry) in
  let* cfg := lift kernel_pointer_config in
  let* id := lift (str_item d "handoff_id") in
  let* rows := read_rows in
  let* duplicate := lift (has_id id rows) in
  let* _ := (if duplicate then ret tt else atomic_write_all (rows ++ [JObj d])) in
  let* _ := mirror_kernel_after_legacy_write cfg in
  let* _ := lift (require_ (negb duplicate)
    ("handoff_id " +:+ repr id +:+ " already exists " +:+ emdash +:+ " open is at-most-once")) in
  ret d.

(** The checks of the send contract and the row they lead to. *)
(* src: scripts/handoff_ledger.py open_from_send@30-47 *)
Definition send_entry (send_id from_agent owner_agent action opened_ts_utc expected_artifact : string)
    (deadline_seconds : pyfloat) : res dict :=
  let art := strip expected_artifact in
  let! _ := require_ (truthy art && negb (String.eqb (lower art) PLACEHOLDER_ARTIFACT))
    ("undeclared obligation for send " +:+ repr send_id +:+ ": a stall-tracked handoff row requires a sender-DECLARED expected_artifact (engine-hygiene #7 " +:+ emdash +:+ " a bare task_handoff send is a message, not a deadline-bound obligation; declare meta.expected_artifact [+ optional meta.deadline_seconds] on the send)") in
  let! _ := require_ (is_known_owner owner_agent)
    ("unknown owner_agent " +:+ repr owner_agent +:+ " for send " +:+ repr send_id +:+ ": stall-tracked rows must be owned by a known role or exec ID (engine-hygiene #3 owner-attribution validation at row-open)") in
  new_handoff ("send-" +:+ send_id) from_agent owner_agent action art opened_ts_utc deadline_seconds "".

(** [append_handoff], an "already exists" answer turned into [None]. *)
(* src: scripts/handoff_ledger.py open_from_send@48-53 *)
Definition append_once (entry : dict) : op (option dict) :=
  fun st =>
    match append_handoff (JObj entry) st with
    | (Ok d, st') => (Ok (Some d), st')
    | (Err e, st') =>
        if is_subclass (exn_class e) LedgerError && contains "already exists" (exn_msg e)
        then (Ok None, st') else (Err e, st')
    end.

(* src: scripts/handoff_ledger.py open_from_send *)
Definition open_from_send (send_id from_agent owner_agent action opened_ts_utc expected_artifact : string)
    (deadline_seconds : pyfloat) : op (option dict) :=
  let* entry := lift (send_entry send_id from_agent owner_agent action opened_ts_utc expected_artifact
                        deadline_seconds) in
  append_once entry.

(** ** Status transitions *)

(* src: scripts/handoff_ledger.py cas_status@21-36 *)
Definition cas_row (expect to : string) (now_utc note : string) (r : dict) : dict :=
  let r1 := dict_put "status" (JStr to) r in
  let stamped := truthy now_utc &&
    (String.eqb expect "open" && in_list to ["closed"; "escalated"]
     || String.eqb expect "escalated" && String.eqb to "closed") in
  let r2 := if stamped then dict_put "closed_ts_utc" (JStr now_utc) r1 else r1 in
  if truthy note then dict_put "note" (JStr note) r2 else r2.

(** The loop: the first row that matches is updated; [None] when none does. *)
(* src: scripts/handoff_ledger.py cas_status@17-38 *)
Fixpoint cas_rows (id expect to now_utc note : string) (rows : list json) : res (option (list json)) :=
  match rows with
  | [] => Ok None
  | r :: rest =>
      let! rid := row_get r "handoff_id" in
      let! st := row_get r "status" in
      if eq_str rid id && eq_str st expect then
        match r with
        | JObj d => Ok (Some (JObj (cas_row expect to now_utc note d) :: rest))
        | _ => Ok None
        end
      else
        let! rest' := cas_rows id expect to now_utc note rest in
        Ok (option_map (cons r) rest')
  end.

(** [now_utc] and [note] are empty when not given. *)
(* src: scripts/handoff_ledger.py cas_status *)
Definition cas_status (handoff_id expect to now_utc note : string) : op bool :=
  let* _ := lift (require_ (in_list to STATUSES)
    ("target status " +:+ repr to +:+ " not one of ['closed', 'escalated', 'open']")) in
  let* cfg := lift kernel_pointer_config in
  let* rows := read_rows in
  let* updated := lift (cas_rows handoff_id expect to now_utc note rows) in
  let* _ := (match updated with Some rows' => atomic_write_all rows' | None => ret tt end) in
  let* _ := mirror_kernel_after_legacy_write cfg in
  ret (match updated with Some _ => true | None => false end).

(** [[r for r in rows if keep(r)]]. *)
Fixpoint rfilter (keep : json -> res bool) (rows : list json) : res (list json) :=
  match rows with
  | [] => Ok []
  | r :: rest =>
      let! b := keep r in
      let! rs := rfilter keep rest in
      Ok (if b then r :: rs else rs)
  end.
Definition field_is (k s : string) (r : json) : res bool := let! v := row_get r k in Ok (eq_str v s).

(* src: scripts/handoff_ledger.py remove_handoff *)
Definition remove_handoff (handoff_id : string) : op bool :=
  let* cfg := lift kernel_pointer_config in
  let* rows := read_rows in
  let* kept := lift (rfilter (fun r => let! b := field_is "handoff_id" handoff_id r in Ok (negb b)) rows) in
  let changed := negb (List.length kept =? List.length rows)%nat in
  let* _ := (if changed then atomic_write_all kept else ret tt) in
  let* _ := mirror_kernel_after_legacy_write cfg in
  ret changed.

(** ** Queries *)

(* src: scripts/handoff_ledger.py read_handoff *)
Definition read_handoff (handoff_id : string) : op (option json) :=
  let* rows := read_control_rows in
  let fix first rows :=
    match rows with
    | [] => Ok None
    | r :: rest => let! b := field_is "handoff_id" handoff_id r in if b then Ok (Some r) else first rest
    end in
  lift (first rows).

Definition overdue (now : datetime) (r : json) : res bool :=
  match r with
  | JObj d => let! raw := str_item d "deadline_utc" in
              let! due := parse_ts raw in Ok (instant due <? instant now)
  | _ => Err (Exn TypeError "row indices must be strings")
  end.
Definition not_founder (founders : string) (r : json) : res bool :=
  let! b := is_founder_owned founders r in Ok (negb b).

(* src: scripts/handoff_ledger.py query_open *)
Definition query_open (founders : string) (now_utc : option string) (past_deadline_only : bool)
    : op (list json) :=
  let* control := read_control_rows in
  let* rows := lift (rfilter (field_is "status" "open") control) in
  if past_deadline_only then
    lift (match now_utc with
          | None => Err (Exn LedgerError "past_deadline_only needs now_utc")
          | Some raw =>
              let! now := parse_ts raw in
              let! late := rfilter (overdue now) rows in
              rfilter (not_founder founders) late
          end)
  else ret rows.

(* src: scripts/handoff_ledger.py query_escalated *)
Definition query_escalated (founders : string) : op (list json) :=
  let* rows := read_rows in
  lift (rfilter (fun r => let! b := field_is "status" "escalated" r in
                          if b then not_founder founders r else Ok false) rows).

(** ** Draining open requests *)

(* src: scripts/handoff_ledger.py _request_lines *)
Definition request_lines (b : bytes) : res (list text) :=
  let! raw := read_text b in Ok (complete_lines raw).

(* src: scripts/handoff_ledger.py _request_anchor *)
Definition request_anchor (line : text) : string := of_chars (take 16 (sha1_hex (utf8_encode line))).
#[local] Arguments request_anchor : simpl never.

(* src: scripts/handoff_ledger.py _load_request_cursor *)
Definition load_request_cursor (file : option bytes) : Z * string :=
  let attempt :=
    match file with
    | None => Err (Exn OSError "No such file or directory")
    | Some b =>
        let! raw := read_text b in
        let! data := loads raw in
        let! line := row_get data "line" in
        let! anchor := row_get data "anchor" in
        let! n := py_int (from_option (fun v => v) (JInt 0) line) in
        Ok (n, py_str (py_or anchor (JStr "")))
    end in
  match attempt with Ok c => c | Err _ => (0, "") end.

(** [disk] is what the write leaves, [None] when it fails before touching the
    file. *)
(* src: scripts/handoff_ledger.py _save_request_cursor *)
Definition save_request_cursor (disk : bytes -> option bytes) (line : Z) (anchor : string) : op unit :=
  fun st =>
    let b := utf8_encode (show true (JObj [("line", JInt line); ("anchor", JStr anchor)])) in
    (Ok tt, match disk b with
            | Some b' => Files (ledger st) (requests st) (Some b') (writes st) (mirror st)
            | None => st
            end).

Definition line_at (lines : list text) (n : Z) : option text :=
  if 0 <? n then lines !! Z.to_nat (n - 1) else None.

(** [float(v or 7200)], the default on [TypeError] and [ValueError]. *)
(* src: scripts/handoff_ledger.py drain_open_requests@57-60 *)
Definition request_deadline (req : dict) : res pyfloat :=
  match py_float (py_or (dict_get "deadline_seconds" req) (JInt DEADLINE_DEFAULT_SECONDS)) with
  | Ok f => Ok f
  | Err e =>
      if is_subclass (exn_class e) TypeError || is_subclass (exn_class e) ValueError
      then Ok (Fin (inject_Z DEADLINE_DEFAULT_SECONDS)) else Err e
  end.

Definition text_or (req : dict) (k default : string) : string := py_str (py_or (dict_get k req) (JStr default)).

(** One request that parsed: opened, refused, or held for a retry. *)
Inductive request_outcome := Advance (new : bool) | Hold | Crash (e : exn).
(* src: scripts/handoff_ledger.py drain_open_requests@44-84 *)
Definition handle_request (line : text) : files -> request_outcome * files :=
  fun st =>
    match loads line with
    | Err e => if is_subclass (exn_class e) JSONDecodeError then (Advance false, st) else (Crash e, st)
    | Ok (JObj req) =>
        if py_bool (py_or (dict_get "send_id" req) JNull) && py_bool (py_or (dict_get "opened_ts_utc" req) JNull)
        then
          match request_deadline req with
          | Err e => (Crash e, st)
          | Ok dl =>
              match open_from_send (text_or req "send_id" "") (text_or req "from_agent" "unknown")
                      (text_or req "owner_agent" "unknown") (text_or req "action" "task handoff")
                      (text_or req "opened_ts_utc" "") (text_or req "expected_artifact" "") dl st with
              | (Ok row, st') => (Advance (match row with Some _ => true | None => false end), st')
              | (Err e, st') =>
                  if is_subclass (exn_class e) LedgerError || is_subclass (exn_class e) ValueError
                  then (Advance false, st') else (Hold, st')
              end
          end
        else (Advance false, st)
    | Ok _ => (Advance false, st)
    end.

(* src: scripts/handoff_ledger.py drain_open_requests@41-84 *)
Fixpoint drain_loop (lines : list text) (opened processed : Z) : op (Z * Z) :=
  fun st =>
    match lines with
    | [] => (Ok (opened, processed), st)
    | l :: rest =>
        match handle_request l st with
        | (Advance new, st') => drain_loop rest (if new then opened + 1 else opened) (processed + 1) st'
        | (Hold, st') => (Ok (opened, processed), st')
        | (Crash e, st') => (Err e, st')
        end
    end.

(* src: scripts/handoff_ledger.py drain_open_requests *)
Definition drain_open_requests (disk : bytes -> option bytes) : op Z :=
  fun st =>
    match requests st with
    | None => (Ok 0, st)
    | Some b =>
        match request_lines b with
        | Err e => (Err e, st)
        | Ok lines =>
            let total := Z.of_nat (List.length lines) in
            let '(start0, anchor) := load_request_cursor (req_cursor st) in
            let desync :=
              (total <? start0) ||
              truthy anchor && (0 <? start0) &&
              match line_at lines start0 with
              | None => true
              | Some prev => negb (String.eqb (request_anchor prev) anchor)
              end in
            let start := if desync then 0 else start0 in
            match drain_loop (slice_from start lines) 0 0 st with
            | (Err e, st') => (Err e, st')
            | (Ok (opened, processed), st') =>
                let new_line := start + processed in
                let new_anchor := match line_at lines new_line with
                                  | Some l => request_anchor l
                                  | None => ""
                                  end in
                let '(_, st'') := save_request_cursor disk new_line new_anchor st' in
                (Ok opened, st'')
            end
        end
    end.
End operations.
