(* ===== verification/HandoffProofs.v ===== *)
(** * The handoff ledger: properties

    The file round trip, the refinement of the row operations by the file
    operations, and what follows for ids, transitions, deadlines and the
    draining of requests ([HandoffLedger] is the model). *)
From S2P Require Import Prelude PyStr PyFloat PyTime Json PyIO JsonText PyValue HandoffLedger.
From stdpp Require Import base gmap strings list.
From Stdlib Require Import ZArith QArith NArith Lia DecimalString.

Local Open Scope Z_scope.

(** ** Writing the ledger and reading it back

    [str.splitlines] also breaks lines at U+0085, which [json.dumps] leaves as
    it is under [ensure_ascii=False]: only rows without it survive. *)

Definition no_nel (t : text) : bool := forallb (fun c => negb (code c =? 133)%N) t.
Fixpoint clean (j : json) : bool :=
  match j with
  | JStr s => no_nel (chars s)
  | JArr l => forallb clean l
  | JObj d => forallb (fun kv => no_nel (chars kv.1) && clean kv.2) d
  | _ => true
  end.

Section rows.
  Context `{JsonLimits}.

Definition portable (r : json) : bool :=
  match r with
  | JObj _ => plain r && (nesting r <=? max_depth)%nat && clean r
  | _ => false
  end.

Lemma no_nel_app s t : no_nel (s ++ t) = no_nel s && no_nel t.
Proof using Type. apply forallb_app. Qed.

Lemma escape_no_nel c : negb (code c =? 133)%N = true -> no_nel (json_escape false c) = true.
Proof using Type. destruct c as [[] [] [] [] [] [] [] []]; done. Qed.

Lemma show_str_no_nel s : no_nel (chars s) = true -> no_nel (show_str false s) = true.
Proof using Type.
  unfold show_str. intros Hs. change (no_nel (flat_map (json_escape false) (chars s) ++ [quote2]) = true).
  rewrite no_nel_app. apply andb_true_iff. split; [|done].
  induction (chars s) as [|c l IH]; [done|]. simpl in Hs. apply andb_true_iff in Hs as [Hc Hl].
  simpl. rewrite no_nel_app, escape_no_nel, IH; done.
Qed.

Lemma digits_no_nel l : forallb (within 48 57) l = true -> no_nel l = true.
Proof using Type.
  unfold no_nel. rewrite !forallb_forall. intros Hd c Hc. specialize (Hd c Hc). unfold within in Hd.
  apply andb_true_iff in Hd as [_ L%N.leb_le]. apply negb_true_iff, N.eqb_neq. lia.
Qed.

Lemma separated_no_nel l : Forall (fun t => no_nel t = true) l -> no_nel (separated true l) = true.
Proof using Type.
  intros [|x r Hx Hr]; [done|]. cbn [separated]. rewrite no_nel_app, Hx.
  induction Hr as [|y r Hy _ IH]; [done|]. simpl in *. by rewrite no_nel_app, Hy.
Qed.

Lemma show_no_nel j : plain j = true -> clean j = true -> no_nel (show false j) = true.
Proof using Type.
  induction j as [|b|z|q|x|s|l IH|kvs IH] using json_rect_all; intros Hp Hc; simpl in Hp; try done.
  - by destruct b.
  - simpl. unfold str_Z, NilEmpty.string_of_int.
    destruct (Z.to_int z); [|simpl]; apply digits_no_nel, uint_digits.
  - by apply show_str_no_nel.
  - change (no_nel (separated true (map (show false) l) ++ [chr 93]) = true). rewrite no_nel_app.
    apply andb_true_iff. split; [|done]. apply separated_no_nel, Forall_fmap.
    simpl in Hc. rewrite forallb_forall in Hp, Hc. rewrite Forall_forall in *. intros y Hy.
    apply list_elem_of_In in Hy as Hin. apply IH; auto.
  - apply andb_true_iff in Hp as [_ Hp].
    change (no_nel (separated true (map (member true false) kvs) ++ [chr 125]) = true). rewrite no_nel_app.
    apply andb_true_iff. split; [|done]. apply separated_no_nel, Forall_fmap.
    simpl in Hc. rewrite forallb_forall in Hp, Hc. rewrite Forall_forall in *. intros y Hy.
    apply list_elem_of_In in Hy as Hin. specialize (Hc _ Hin). apply andb_true_iff in Hc as [Hk Hv].
    change (no_nel (member true false y) = true). unfold member.
    rewrite no_nel_app, show_str_no_nel by done. change (no_nel (show false y.2) = true).
    apply IH; auto.
Qed.

(** A text of one line, between two visible characters. *)
Definition one_line (t : text) : Prop := forallb (fun c => negb (linebreak c)) t = true.

Lemma splitlines_go_line cur t rest :
  one_line t -> splitlines_go cur (t ++ lf :: rest) = (rev cur ++ t) :: splitlines_go [] rest.
Proof using Type.
  revert cur. induction t as [|c t IH]; intros cur Ht.
  - simpl. destruct rest; by rewrite app_nil_r.
  - apply andb_true_iff in Ht as [Hc%negb_true_iff Ht]. simpl. rewrite Hc, IH by done.
    simpl. by rewrite <- app_assoc.
Qed.

Lemma splitlines_lines ls :
  Forall one_line ls -> splitlines (flat_map (fun t => t ++ [lf]) ls) = ls.
Proof using Type.
  unfold splitlines. induction 1 as [|t ls Ht _ IH]; [done|]. cbn [flat_map].
  rewrite <- app_assoc. cbn [app]. rewrite splitlines_go_line by done. simpl. by rewrite IH.
Qed.

Lemma strip_visible c t d :
  isspace c = false -> isspace d = false -> chars (strip (of_chars (c :: t ++ [d]))) = c :: t ++ [d].
Proof using Type.
  intros Hc Hd. unfold strip. rewrite !chars_of_chars. unfold rstrip_l. simpl lstrip_l. rewrite Hc.
  change (c :: t ++ [d]) with ((c :: t) ++ [d]). rewrite rev_app_distr.
  change (rev [d] ++ rev (c :: t)) with (d :: rev (c :: t)). cbn [lstrip_l]. rewrite Hd.
  change (rev (d :: rev (c :: t))) with (rev (rev (c :: t)) ++ [d]). by rewrite rev_involutive.
Qed.

Lemma row_line r : portable r = true ->
  one_line (show false r) /\ no_cr (show false r) = true /\
  chars (strip (of_chars (show false r))) = show false r /\ show false r <> [].
Proof using Type.
  destruct r as [| | | | | | |d]; try done. intros [[Hp Hn]%andb_true_iff Hc]%andb_true_iff.
  pose proof (show_graphic true false _ Hp) as Hg. pose proof (show_no_nel _ Hp Hc) as Hl.
  split; [|split; [by apply graphic_no_cr|split; [|done]]].
  - unfold one_line, no_nel in *. rewrite forallb_forall in *. intros c Hin. specialize (Hg c Hin).
    specialize (Hl c Hin). unfold graphic, linebreak in *. apply N.leb_le in Hg.
    apply negb_true_iff in Hl. rewrite Hl. apply negb_true_iff. bools.
    repeat split; intros ?; apply N.leb_gt; lia.
  - apply (strip_visible (chr 123) _ (chr 125)); reflexivity.
Qed.

Lemma decode_shown rows :
  Forall (fun r => portable r = true) rows -> decode_rows (map (show false) rows) = Ok rows.
Proof using Type.
  induction 1 as [|r rows Hr _ IH]; [done|]. simpl.
  destruct (row_line r Hr) as (_ & _ & -> & Hne). destruct (show false r) eqn:E; [done|]. rewrite <- E.
  destruct r as [| | | | | | |d]; try done. apply andb_true_iff in Hr as [[Hp Hn]%andb_true_iff _].
  rewrite loads_show by (done || by apply Nat.leb_le). simpl. by rewrite IH.
Qed.

(** What the writer puts in place, the reader returns. *)
Lemma read_render rows :
  Forall (fun r => portable r = true) rows -> read_all (Some (render rows)) = Ok rows.
Proof using Type.
  intros HF. unfold read_all, render.
  replace (flat_map (fun r => show false r ++ [lf]) rows)
    with (flat_map (fun t => t ++ [lf]) (map (show false) rows))
    by (clear; induction rows; simpl; congruence).
  rewrite read_written_no_cr.
  - cbn [rbind]. rewrite splitlines_lines; [by apply decode_shown|].
    apply Forall_fmap. eapply Forall_impl; [exact HF|]. intros r Hr. by apply row_line.
  - unfold no_cr. induction HF as [|r rows Hr _ IH]; [done|]. simpl. rewrite !forallb_app, IH.
    destruct (row_line r Hr) as (_ & Hcr & _). unfold no_cr in Hcr. by rewrite Hcr.
Qed.
End rows.

(** ** Rows by id *)

Definition is_id (id : string) (r : json) : bool :=
  match r with JObj d => eq_str (dict_get "handoff_id" d) id | _ => false end.
Definition has_status (s : string) (r : json) : bool :=
  match r with JObj d => eq_str (dict_get "status" d) s | _ => false end.
Definition count (id : string) (rows : list json) : nat := List.length (List.filter (is_id id) rows).
Definition unique_ids (rows : list json) : Prop := forall id, (count id rows <= 1)%nat.

Section row_lemmas.
  Context `{JsonLimits}.

Lemma row_get_obj r k v : row_get r k = Ok v -> exists d, r = JObj d /\ v = dict_get k d.
Proof using Type. destruct r; try done. intros [= <-]. eauto. Qed.

Lemma has_id_spec id rows b : has_id id rows = Ok b -> b = false -> count id rows = 0%nat.
Proof using Type.
  unfold count. revert b. induction rows as [|r rows IH]; intros b; simpl; [done|].
  destruct (row_get r "handoff_id") as [v|] eqn:E; [|done]. simpl.
  apply row_get_obj in E as (d & -> & ->). simpl.
  destruct (eq_str (dict_get "handoff_id" d) id); [by intros [= <-]|]. apply IH.
Qed.

Lemma has_id_true id rows : has_id id rows = Ok true -> (1 <= count id rows)%nat.
Proof using Type.
  unfold count. induction rows as [|r rows IH]; simpl; [done|].
  destruct (row_get r "handoff_id") as [v|] eqn:E; [|done]. simpl.
  apply row_get_obj in E as (d & -> & ->). simpl.
  destruct (eq_str (dict_get "handoff_id" d) id); [simpl; lia|]. apply IH.
Qed.

Lemma count_id_app id l k : count id (l ++ k) = (count id l + count id k)%nat.
Proof using Type. unfold count. by rewrite List.filter_app, length_app. Qed.

Lemma eq_str_put k v d k' s :
  k <> k' -> eq_str (dict_get k' (dict_put k v d)) s = eq_str (dict_get k' d) s.
Proof using Type.
  intros N. rewrite dict_get_put. destruct (String.eqb_spec k' k); [congruence|done].
Qed.

Lemma cas_row_id expect to now note d id :
  is_id id (JObj (cas_row expect to now note d)) = is_id id (JObj d).
Proof using Type.
  unfold cas_row, is_id. destruct (truthy note), (truthy now && _); rewrite ?eq_str_put by done; done.
Qed.

Lemma cas_row_status expect to now note d s :
  has_status s (JObj (cas_row expect to now note d)) = String.eqb to s.
Proof using Type.
  unfold cas_row, has_status. destruct (truthy note), (truthy now && _);
    rewrite ?(eq_str_put "note"), ?(eq_str_put "closed_ts_utc") by done;
    rewrite dict_get_put; reflexivity.
Qed.

(** A transition rewrites one row: the first with that id and status. *)
Lemma cas_rows_spec id expect to now note rows rows' :
  cas_rows id expect to now note rows = Ok (Some rows') ->
  exists l d r, rows = l ++ JObj d :: r /\
    rows' = l ++ JObj (cas_row expect to now note d) :: r /\
    is_id id (JObj d) = true /\ has_status expect (JObj d) = true.
Proof using Type.
  revert rows'. induction rows as [|x rows IH]; intros rows'; [done|]. cbn [cas_rows].
  destruct (row_get x "handoff_id") as [i|] eqn:Ei; [|done].
  destruct (row_get x "status") as [s|] eqn:Es; [|done]. cbn [rbind].
  apply row_get_obj in Ei as (d & -> & ->), Es as (d' & [= <-] & ->).
  destruct (eq_str (dict_get "handoff_id" d) id && eq_str (dict_get "status" d) expect) eqn:E.
  - intros [= <-]. apply andb_true_iff in E. by exists [], d, rows.
  - destruct (cas_rows id expect to now note rows) as [[rows1|]|] eqn:C; try done.
    intros [= <-]. destruct (IH rows1 eq_refl) as (l & d1 & r & -> & -> & H1). by exists (JObj d :: l), d1, r.
Qed.

Lemma cas_rows_none id expect to now note rows r :
  cas_rows id expect to now note rows = Ok None -> r ∈ rows -> is_id id r = true ->
  has_status expect r = false.
Proof using Type.
  induction rows as [|x rows IH]; [by inversion 2|]. cbn [cas_rows].
  destruct (row_get x "handoff_id") as [i|] eqn:Ei; [|done].
  destruct (row_get x "status") as [s|] eqn:Es; [|done]. cbn [rbind].
  apply row_get_obj in Ei as (d & -> & ->), Es as (d' & [= <-] & ->).
  destruct (eq_str (dict_get "handoff_id" d) id && eq_str (dict_get "status" d) expect) eqn:E; [done|].
  destruct (cas_rows id expect to now note rows) as [[rows1|]|] eqn:C; try done.
  intros _ [->|Hr]%elem_of_cons Hid; [|by apply IH]. simpl in Hid. rewrite Hid in E. exact E.
Qed.

Lemma rfilter_spec keep rows rows' :
  rfilter keep rows = Ok rows' ->
  rows' = List.filter (fun r => match keep r with Ok b => b | Err _ => false end) rows.
Proof using Type.
  revert rows'. induction rows as [|r rows IH]; intros rows'; simpl; [by intros [= <-]|].
  destruct (keep r) as [b|]; [|done]. simpl.
  destruct (rfilter keep rows) as [rs|]; [|done]. simpl. intros [= <-].
  by rewrite (IH rs eq_refl).
Qed.

(** *** Rows stay portable *)

Lemma dict_put_keys k (v : json) d : NoDup d.*1 -> NoDup (dict_put k v d).*1.
Proof using Type.
  intros Hn. destruct (decide (k ∈ d.*1)) as [Hin|Hin].
  - enough ((dict_put k v d).*1 = d.*1) as -> by done. clear Hn.
    induction d as [|[k1 v1] d IH]; [by inversion Hin|]. simpl in *.
    destruct (String.eqb_spec k k1) as [->|N]; [done|]. simpl. f_equal. apply IH.
    by apply elem_of_cons in Hin as [->|].
  - rewrite dict_put_fresh, fmap_app by done. apply NoDup_app. split; [done|]. split.
    + intros x Hx [->|[]%elem_of_nil]%elem_of_cons. done.
    + apply NoDup_singleton.
Qed.

Lemma forallb_put (f : string * json -> bool) k v d :
  (forall k', f (k', v) = f (k, v)) -> f (k, v) = true -> forallb f d = true ->
  forallb f (dict_put k v d) = true.
Proof using Type.
  intros Hk Hv. induction d as [|[k1 v1] d IH]; simpl; [by rewrite Hv|].
  intros [H1 H2]%andb_true_iff. destruct (String.eqb k k1); simpl.
  - by rewrite Hk, Hv, H2.
  - by rewrite H1, IH.
Qed.

Lemma nesting_put k v d :
  nesting v = 0%nat ->
  (max_list (map (fun kv => nesting kv.2) (dict_put k v d)) <=
   max_list (map (fun kv => nesting kv.2) d))%nat.
Proof using Type.
  intros Hv. induction d as [|[k1 v1] d IH]; simpl; [by rewrite Hv|].
  destruct (String.eqb k k1); simpl; lia.
Qed.

Lemma portable_put k s d :
  no_nel (chars k) = true -> no_nel (chars s) = true -> portable (JObj d) = true ->
  portable (JObj (dict_put k (JStr s) d)) = true.
Proof using Type.
  intros Hk Hs [[Hp Hn%Nat.leb_le]%andb_true_iff Hc]%andb_true_iff. simpl in Hp, Hn, Hc.
  apply andb_true_iff in Hp as [Hu Hp]. apply bool_decide_eq_true in Hu.
  unfold portable. cbn [plain nesting clean]. rewrite !andb_true_iff. repeat split.
  - by apply bool_decide_eq_true, dict_put_keys.
  - by apply forallb_put.
  - apply Nat.leb_le. pose proof (nesting_put k (JStr s) d eq_refl). lia.
  - clear Hu Hp Hn. induction d as [|[k1 v1] d IH]; simpl in *; [by rewrite Hk, Hs|].
    apply andb_true_iff in Hc as [H1 H2]. destruct (String.eqb k k1); simpl.
    + apply andb_true_iff in H1 as [-> _]. by rewrite Hs, H2.
    + by rewrite H1, IH.
Qed.

Lemma portable_cas_row expect to now note d :
  no_nel (chars to) = true -> no_nel (chars now) = true -> no_nel (chars note) = true ->
  portable (JObj d) = true -> portable (JObj (cas_row expect to now note d)) = true.
Proof using Type.
  intros Ht Hn Ho Hd. unfold cas_row.
  destruct (truthy note), (truthy now && _); repeat (apply portable_put; [done|done|]); done.
Qed.
End row_lemmas.

(** ** The operations on files and on rows *)

Section refinement.
  Context `{IsoTime, JsonLimits, KernelPlane}.
  Context (environ : gmap string string) (canonical : bool) (fault : nat -> option exn).

(** The calls that change the ledger. *)
Inductive call :=
  | CAppend (entry : json)
  | CSend (send_id from_agent owner_agent action opened_ts_utc expected_artifact : string)
      (deadline_seconds : pyfloat)
  | CCas (handoff_id expect to now_utc note : string)
  | CRemove (handoff_id : string).

(** Running one on the files; the answer is whether it changed a row. *)
Definition exec (c : call) : op bool :=
  match c with
  | CAppend e => bind (append_handoff environ canonical fault e) (fun _ => ret true)
  | CSend i f o a t x dl =>
      bind (open_from_send environ canonical fault i f o a t x dl)
        (fun r => ret (match r with Some _ => true | None => false end))
  | CCas i e t n o => cas_status environ canonical fault i e t n o
  | CRemove i => remove_handoff environ canonical fault i
  end.

(** What it does to a list of rows; [None] when it leaves them alone. *)
Definition append_rows (entry : json) (rows : list json) : option (list json) :=
  match validate_entry entry with
  | Ok d => match has_id (match dict_get "handoff_id" d with Some v => py_str v | None => "" end) rows with
            | Ok false => Some (rows ++ [JObj d])
            | _ => None
            end
  | Err _ => None
  end.
Definition spec (c : call) (rows : list json) : option (list json) :=
  match c with
  | CAppend e => append_rows e rows
  | CSend i f o a t x dl =>
      match send_entry i f o a t x dl with Ok d => append_rows (JObj d) rows | Err _ => None end
  | CCas i e t n o =>
      if in_list t STATUSES
      then match cas_rows i e t n o rows with Ok r => r | Err _ => None end else None
  | CRemove i =>
      let kept := List.filter (fun r => negb (is_id i r)) rows in
      match rfilter (field_is "handoff_id" i) rows with
      | Ok _ => if (List.length kept =? List.length rows)%nat then None else Some kept
      | Err _ => None
      end
  end.

(** The rows a call writes survive the file. *)
Definition entry_portable (entry : json) : Prop :=
  forall d, validate_entry entry = Ok d -> portable (JObj d) = true.
Definition call_portable (c : call) : Prop :=
  match c with
  | CAppend e => entry_portable e
  | CSend i f o a t x dl => forall d, send_entry i f o a t x dl = Ok d -> entry_portable (JObj d)
  | CCas i e t n o => no_nel (chars t) && no_nel (chars n) && no_nel (chars o) = true
  | CRemove i => True
  end.

Definition represents (st : files) (rows : list json) : Prop :=
  read_all (ledger st) = Ok rows /\ Forall (fun r => portable r = true) rows.

(** Writing, then mirroring: the two ways an operation ends. *)
Lemma mirror_ledger cfg st : ledger (mirror_kernel_after_legacy_write cfg st).2 = ledger st.
Proof using Type.
  unfold mirror_kernel_after_legacy_write. destruct cfg as [[c t]|]; [|done].
  destruct (sync_authoritative_file _ _ _ _) as [[v|e] m]; [|done]. by destruct (String.eqb _ _).
Qed.

(** An operation that decides on [updated], writes it when there is one and
    mirrors: the tail every changing operation shares. *)
Definition commit (cfg : config) (updated : option (list json)) : op unit :=
  bind (match updated with Some rows => atomic_write_all fault rows | None => ret tt end)
       (fun _ => mirror_kernel_after_legacy_write cfg).

(** The ledger file of [st'] against that of [st], whose rows are [rows]: the
    same bytes, or those of [rows'], which are what [next] says. *)
Definition left_or_wrote (next : option (list json)) (st st' : files) (rows rows' : list json) : Prop :=
  rows' = rows /\ ledger st' = ledger st \/ next = Some rows' /\ ledger st' = Some (render rows').

Lemma commit_spec cfg updated st rows :
  exists rows', left_or_wrote updated st (commit cfg updated st).2 rows rows' /\
    ((commit cfg updated st).1 = Ok tt -> is_Some updated -> updated = Some rows' /\ ledger (commit cfg updated st).2 = Some (render rows')) /\
    (cfg = None -> (commit cfg updated st).1 = Ok tt \/
       (rows' = rows /\ ledger (commit cfg updated st).2 = ledger st) /\ exists e, fault (writes st) = Some e).
Proof using Type.
  unfold left_or_wrote, commit, bind. destruct updated as [rows1|]; simpl.
  - unfold atomic_write_all. destruct (fault (writes st)) as [e|] eqn:F; simpl.
    + exists rows. split; [by left|]. split; [done|]. right. by eauto.
    + exists rows1. rewrite !mirror_ledger. split; [by right|]. split; [by split|]. intros ->. by left.
  - exists rows. rewrite !mirror_ledger. split; [by left|]. split; [by intros _ [? ?]|]. intros ->. by left.
Qed.

(** The four operations in that shape. *)
Lemma append_shape entry st rows d :
  read_all (ledger st) = Ok rows -> validate_entry entry = Ok d ->
  forall cfg id dup, kernel_pointer_config environ canonical = Ok cfg ->
  str_item d "handoff_id" = Ok id -> has_id id rows = Ok dup ->
  append_handoff environ canonical fault entry st =
    (let '(r, st') := commit cfg (if dup then None else Some (rows ++ [JObj d])) st in
     (let! _ := r in
      let! _ := require_ (negb dup)
        ("handoff_id " +:+ repr id +:+ " already exists " +:+ emdash +:+ " open is at-most-once") in
      Ok d, st')).
Proof using Type.
  intros Hr Hv cfg id dup Hc Hi Hd.
  unfold append_handoff, bind, lift, read_rows, commit, bind, ret. rewrite Hv, Hc, Hi, Hr, Hd.
  destruct dup.
  - destruct (mirror_kernel_after_legacy_write cfg st) as [[[]|e] st']; done.
  - destruct (atomic_write_all fault (rows ++ [JObj d]) st) as [[[]|e] st']; [|done].
    destruct (mirror_kernel_after_legacy_write cfg st') as [[[]|e] st'']; done.
Qed.
(** [m], run on files that hold [rows], leaves their bytes or writes what
    [next] says; it answers [true] only in the second case, and does reach it
    when nothing outside fails. *)
Definition legacy : Prop := kernel_pointer_config environ canonical = Ok None.
Definition healthy : Prop := legacy /\ forall n, fault n = None.
Definition implements (m : op bool) (next : option (list json)) (st : files) (rows : list json) : Prop :=
  exists rows', left_or_wrote next st (m st).2 rows rows' /\
    ((m st).1 = Ok true -> next = Some rows' /\ ledger (m st).2 = Some (render rows')) /\
    (legacy -> (m st).1 <> Ok true -> rows' = rows /\ ledger (m st).2 = ledger st) /\
    (healthy -> is_Some next -> (m st).1 = Ok true).

(** Stopping before the first write. *)
Lemma implements_stop m next st rows x :
  m st = (x, st) -> x <> Ok true -> (healthy -> next = None) ->
  implements m next st rows.
Proof using Type.
  intros E Hx Hn. exists rows. rewrite E. split; [by left|]. split; [done|].
  split; [done|]. intros Hh [r Hs]. by rewrite (Hn Hh) in Hs.
Qed.

(** Committing [next], then answering [f] of the outcome. *)
Lemma implements_commit m next st rows cfg (f : res unit -> res bool) :
  kernel_pointer_config environ canonical = Ok cfg ->
  m st = (let '(r, st') := commit cfg next st in (f r, st')) ->
  (forall r, f r = Ok true -> r = Ok tt /\ is_Some next) ->
  (is_Some next -> f (Ok tt) = Ok true) ->
  implements m next st rows.
Proof using Type.
  intros Hc E Hf Ht. destruct (commit_spec cfg next st rows) as (rows' & W & T & O).
  exists rows'. rewrite E. destruct (commit cfg next st) as [r st'] eqn:Ec. simpl in *.
  split; [done|]. split; [|split].
  - intros F. apply Hf in F as [-> Hs]. by apply T.
  - intros L F. assert (cfg = None) as Hn by (unfold legacy in L; congruence).
    destruct (O Hn) as [->|[? _]]; [|done]. destruct W as [?|[Hs _]]; [done|].
    destruct F. apply Ht. by eexists.
  - intros [L Hh] Hs. assert (cfg = None) as Hn by (unfold legacy in L; congruence).
    destruct (O Hn) as [->|[_ [e Hfe]]]; [by apply Ht|by rewrite Hh in Hfe].
Qed.

(** *** The four operations *)

Lemma check_fields_ok f fields k : check_fields f fields = Ok tt -> k ∈ fields -> f k = Ok tt.
Proof using Type.
  induction fields as [|x fields IH]; [by inversion 2|]. simpl.
  destruct (f x) as [[]|] eqn:E; [|done]. simpl. intros Hc [->|Hk]%elem_of_cons; auto.
Qed.

(** A validated entry has a string id; validation rewrites its deadline only. *)
Lemma validate_inv entry d :
  validate_entry entry = Ok d ->
  exists d0, entry = JObj d0 /\ clamp_deadline d0 = Ok d /\
    (forall k, k ∈ NON_EMPTY_FIELDS -> exists s, dict_get k d0 = Some (JStr s) /\ truthy (strip s) = true) /\
    exists s, dict_get "status" d0 = Some (JStr s) /\ in_list s STATUSES = true.
Proof using Type.
  destruct entry as [| | | | | | |d0]; try done. unfold validate_entry. rewrite rbind_ok.
  intros ([] & _ & Hv). apply rbind_ok in Hv as ([] & Hne & Hv).
  assert (Hs : forall k, k ∈ NON_EMPTY_FIELDS ->
    exists s, dict_get k d0 = Some (JStr s) /\ truthy (strip s) = true).
  { intros k Hk. pose proof (check_fields_ok _ _ k Hne Hk) as Hk'. unfold field_nonempty, item in Hk'.
    destruct (dict_get k d0) as [v|]; [|done]. simpl in Hk'. unfold require_ in Hk'.
    destruct v; try done. destruct (truthy (strip s)) eqn:T; [|done]. by eauto. }
  apply rbind_ok in Hv as (st & Hst & Hv). apply rbind_ok in Hv as ([] & Hin & Hv).
  apply rbind_ok in Hv as ([] & _ & Hv). apply rbind_ok in Hv as (d' & Hc & Hv).
  exists d0. split; [done|]. split; [|split; [done|]].
  - rewrite Hc. destruct (truthy _); [|done]. apply rbind_ok in Hv as (raw & _ & Hv).
    destruct (parse_ts _) as [|e]; [done|]. by destruct (is_subclass _ _).
  - destruct (Hs "status") as (s & E & _); [by apply existsb_eqb|]. exists s. split; [done|].
    unfold str_item, item in Hst. rewrite E in Hst. injection Hst as <-. cbn [py_str] in Hin.
    unfold require_ in Hin. by destruct (in_list s STATUSES).
Qed.

Lemma clamp_deadline_put d0 d : clamp_deadline d0 = Ok d -> exists due, d = dict_put "deadline_utc" (JStr due) d0.
Proof using Type.
  unfold clamp_deadline. intros E. do 5 apply rbind_ok in E as (? & _ & E).
  cbv zeta in E. do 2 apply rbind_ok in E as (? & _ & E). injection E as <-. by eexists.
Qed.

Lemma validated_id entry d :
  validate_entry entry = Ok d -> exists id, dict_get "handoff_id" d = Some (JStr id).
Proof using Type.
  intros Hv. destruct (validate_inv _ _ Hv) as (d0 & _ & Hc & Hf & _).
  destruct (clamp_deadline_put _ _ Hc) as [due ->].
  destruct (Hf "handoff_id") as (s & E & _); [by apply existsb_eqb|]. exists s.
  by rewrite dict_get_put.
Qed.

Lemma append_implements entry st rows :
  read_all (ledger st) = Ok rows ->
  implements (bind (append_handoff environ canonical fault entry) (fun _ => ret true))
    (append_rows entry rows) st rows.
Proof using Type.
  intros Hr. unfold append_rows. destruct (validate_entry entry) as [d|e] eqn:Hv.
  2: { apply (implements_stop _ _ _ _ (Err e)); [|done|done].
       unfold append_handoff, bind, lift. by rewrite Hv. }
  destruct (validated_id _ _ Hv) as [id Hid]. rewrite Hid. simpl py_str.
  assert (Hi : str_item d "handoff_id" = Ok id) by (unfold str_item, item; by rewrite Hid).
  destruct (kernel_pointer_config environ canonical) as [cfg|e] eqn:Hc.
  2: { apply (implements_stop _ _ _ _ (Err e)); [|done|].
       - unfold append_handoff, bind, lift. by rewrite Hv, Hc.
       - intros [L _]. unfold legacy in L. congruence. }
  destruct (has_id id rows) as [dup|e] eqn:Hd.
  2: { apply (implements_stop _ _ _ _ (Err e)); [|done|done].
       unfold append_handoff, bind, lift, read_rows. by rewrite Hv, Hc, Hi, Hr, Hd. }
  pose proof (append_shape entry st rows d Hr Hv cfg id dup Hc Hi Hd) as E.
  apply (implements_commit _ _ _ _ cfg (fun r => let! _ := r in
    let! _ := require_ (negb dup)
      ("handoff_id " +:+ repr id +:+ " already exists " +:+ emdash +:+ " open is at-most-once") in
    Ok true)); [done| | |].
  - unfold bind. rewrite E. destruct dup; destruct (commit _ _ st) as [[[]|e] st']; done.
  - intros [[]|e] F; [|done]. destruct dup; [done|]. split; [done|by eexists].
  - intros [r Hs]. by destruct dup.
Qed.

Lemma send_implements i f o a t x dl st rows :
  read_all (ledger st) = Ok rows ->
  implements (exec (CSend i f o a t x dl)) (spec (CSend i f o a t x dl) rows) st rows.
Proof using Type.
  intros Hr. unfold exec, spec, open_from_send.
  destruct (send_entry i f o a t x dl) as [d0|e] eqn:Es.
  2: { apply (implements_stop _ _ _ _ (Err e)); done. }
  pose proof (append_implements (JObj d0) st rows Hr) as (rows' & W & T & L & O).
  exists rows'. unfold bind, lift, append_once, ret in *.
  destruct (append_handoff environ canonical fault (JObj d0) st) as [[d|e] st']; [done|].
  simpl in *. destruct (_ && _); (split; [done|]; split; [done|]; split; [intros Hl _; by apply L|];
    intros Hh Hs; specialize (O Hh Hs); done).
Qed.

Lemma cas_implements i e t n o st rows :
  read_all (ledger st) = Ok rows ->
  implements (exec (CCas i e t n o)) (spec (CCas i e t n o) rows) st rows.
Proof using Type.
  intros Hr. unfold exec, spec. destruct (in_list t STATUSES) eqn:Hin.
  2: { eapply implements_stop;
       [unfold cas_status, bind, lift; rewrite Hin; reflexivity|done|done]. }
  destruct (kernel_pointer_config environ canonical) as [cfg|ex] eqn:Hc.
  2: { eapply (implements_stop _ _ _ _ (Err ex)); [|done|].
       - unfold cas_status, bind, lift. by rewrite Hin, Hc.
       - intros [L _]. unfold legacy in L. congruence. }
  destruct (cas_rows i e t n o rows) as [upd|ex] eqn:Hu.
  2: { eapply (implements_stop _ _ _ _ (Err ex)); [|done|done].
       unfold cas_status, bind, lift, read_rows. by rewrite Hin, Hc, Hr, Hu. }
  apply (implements_commit _ _ _ _ cfg (fun r => let! _ := r in
    Ok (match upd with Some _ => true | None => false end))); [done| | |].
  - unfold cas_status, commit, bind, lift, read_rows, ret. rewrite Hin, Hc, Hr, Hu. simpl.
    destruct upd as [u|].
    + destruct (atomic_write_all fault u st) as [[[]|ex] st']; [|done].
      by destruct (mirror_kernel_after_legacy_write cfg st') as [[[]|ex] st''].
    + by destruct (mirror_kernel_after_legacy_write cfg st) as [[[]|ex] st''].
  - intros [[]|ex] F; [|done]. destruct upd; [|done]. split; [done|by eexists].
  - intros [r Hs]. by destruct upd.
Qed.

Lemma rfilter_ext keep keep' rows :
  (forall r, keep r = keep' r) -> rfilter keep rows = rfilter keep' rows.
Proof using Type. intros E. induction rows as [|r rows IH]; simpl; [done|]. by rewrite E, IH. Qed.

Lemma rfilter_neg keep rows :
  rfilter (fun r => let! b := keep r in Ok (negb b)) rows
  = let! _ := rfilter keep rows in
    Ok (List.filter (fun r => match keep r with Ok b => negb b | Err _ => false end) rows).
Proof using Type.
  induction rows as [|r rows IH]; simpl; [done|]. destruct (keep r) as [b|]; simpl; [|done].
  rewrite IH. destruct (rfilter keep rows) as [rs|]; simpl; [|done]. by destruct b.
Qed.

Lemma filter_negb_id i rows rs :
  rfilter (field_is "handoff_id" i) rows = Ok rs ->
  List.filter (fun r => match field_is "handoff_id" i r with Ok b => negb b | Err _ => false end) rows
  = List.filter (fun r => negb (is_id i r)) rows.
Proof using Type.
  revert rs. induction rows as [|r rows IH]; intros rs; simpl; [done|]. unfold field_is at 1 2.
  destruct (row_get r "handoff_id") as [v|] eqn:E; [|done]. simpl.
  apply row_get_obj in E as (d & -> & ->). simpl.
  destruct (rfilter _ rows) as [rs'|]; [|done]. intros _. by rewrite (IH rs' eq_refl).
Qed.

Lemma remove_implements i st rows :
  read_all (ledger st) = Ok rows -> implements (exec (CRemove i)) (spec (CRemove i) rows) st rows.
Proof using Type.
  intros Hr. unfold exec, spec.
  destruct (kernel_pointer_config environ canonical) as [cfg|ex] eqn:Hc.
  2: { eapply (implements_stop _ _ _ _ (Err ex)); [|done|].
       - unfold remove_handoff, bind, lift. by rewrite Hc.
       - intros [L _]. unfold legacy in L. congruence. }
  destruct (rfilter (field_is "handoff_id" i) rows) as [rs|ex] eqn:Hf.
  2: { eapply (implements_stop _ _ _ _ (Err ex)); [|done|done].
       unfold remove_handoff, bind, lift, read_rows. by rewrite Hc, Hr, rfilter_neg, Hf. }
  set (kept := List.filter (fun r => negb (is_id i r)) rows).
  set (same := (List.length kept =? List.length rows)%nat).
  apply (implements_commit _ _ _ _ cfg (fun r => let! _ := r in Ok (negb same)));
    [done| | |].
  - unfold remove_handoff, commit, bind, lift, read_rows, ret.
    rewrite Hc, Hr, rfilter_neg, Hf. cbn [rbind]. rewrite (filter_negb_id _ _ _ Hf).
    fold kept. fold same. destruct same; simpl.
    + by destruct (mirror_kernel_after_legacy_write cfg st) as [[[]|ex] st''].
    + destruct (atomic_write_all fault kept st) as [[[]|ex] st']; [|done].
      by destruct (mirror_kernel_after_legacy_write cfg st') as [[[]|ex] st''].
  - intros [[]|ex] F; [|done]. destruct same; [done|]. split; [done|by eexists].
  - intros [r Hs]. by destruct same.
Qed.

Lemma exec_implements c st rows :
  read_all (ledger st) = Ok rows -> implements (exec c) (spec c rows) st rows.
Proof using Type.
  intros Hr. destruct c.
  - by apply append_implements.
  - by apply send_implements.
  - by apply cas_implements.
  - by apply remove_implements.
Qed.

(** What the operations make of portable rows is portable. *)
Lemma spec_portable c rows rows' :
  Forall (fun r => portable r = true) rows -> call_portable c -> spec c rows = Some rows' ->
  Forall (fun r => portable r = true) rows'.
Proof using Type.
  intros Hr Hp. assert (forall e, entry_portable e -> append_rows e rows = Some rows' -> Forall (fun r => portable r = true) rows') as App.
  { intros e He. unfold append_rows. destruct (validate_entry e) as [d|] eqn:Hv; [|done].
    destruct (has_id _ rows) as [[]|]; try done. intros [= <-]. apply Forall_app. split; [done|].
    apply Forall_singleton. by apply He. }
  destruct c as [e|i f o a t x dl|i e t n o|i]; cbn [spec call_portable] in *.
  - by apply App.
  - destruct (send_entry i f o a t x dl) as [d|]; [|done]. apply App, Hp. done.
  - apply andb_true_iff in Hp as [[Hp1 Hp2]%andb_true_iff Hp3]. destruct (in_list t STATUSES) eqn:Hin; [|done].
    destruct (cas_rows i e t n o rows) as [upd|] eqn:Hu; [|done]. intros ->.
    destruct (cas_rows_spec _ _ _ _ _ _ _ Hu) as (l & d & r & -> & -> & _).
    apply Forall_app in Hr as [Hl Hr]. inversion_clear Hr. apply Forall_app. split; [done|].
    constructor; [|done]. by apply portable_cas_row.
  - destruct (rfilter _ rows); [|done]. destruct (_ =? _)%nat; [done|]. intros [= <-].
    rewrite Forall_forall in *. intros r Hin. apply Hr. apply list_elem_of_In in Hin.
    apply filter_In in Hin as [Hin _]. by apply list_elem_of_In.
Qed.

(** Of portable rows, the file is read back. *)
Lemma exec_represents c st rows :
  represents st rows -> call_portable c ->
  exists rows', represents (exec c st).2 rows' /\ (rows' = rows \/ spec c rows = Some rows') /\
    ((exec c st).1 = Ok true -> spec c rows = Some rows') /\
    (legacy -> (exec c st).1 <> Ok true -> rows' = rows) /\
    (healthy -> is_Some (spec c rows) -> (exec c st).1 = Ok true).
Proof using Type.
  intros [Hr Hp] Hc. destruct (exec_implements c st rows Hr) as (rows' & W & T & L & O). exists rows'.
  split; [|split; [|split; [by intros E; apply T|split; [by intros Hl N; apply L|done]]]].
  - destruct W as [[-> E]|[Hs E]]; unfold represents; rewrite E; [done|].
    pose proof (spec_portable _ _ _ Hp Hc Hs). split; [by apply read_render|done].
  - destruct W as [[-> _]|[Hs _]]; auto.
Qed.

(** *** Ids stay unique, a closed row stays closed *)

Lemma append_rows_inv entry rows rows' :
  append_rows entry rows = Some rows' ->
  exists d id, rows' = rows ++ [JObj d] /\ dict_get "handoff_id" d = Some (JStr id) /\
    count id rows = 0%nat.
Proof using Type.
  unfold append_rows. destruct (validate_entry entry) as [d|] eqn:Hv; [|done].
  destruct (validated_id _ _ Hv) as [id Hid]. rewrite Hid. simpl py_str.
  destruct (has_id id rows) as [[]|] eqn:Hd; try done. intros [= <-].
  exists d, id. split; [done|]. split; [done|]. by apply has_id_spec in Hd.
Qed.

(** The row a call adds, the row it rewrites, or the rows it removes. *)
Lemma spec_cases c rows rows' :
  spec c rows = Some rows' ->
  (exists d id, rows' = rows ++ [JObj d] /\ dict_get "handoff_id" d = Some (JStr id) /\
     count id rows = 0%nat /\ forall i e t n o, c <> CCas i e t n o) \/
  (exists i e t n o l d r, c = CCas i e t n o /\ rows = l ++ JObj d :: r /\
     rows' = l ++ JObj (cas_row e t n o d) :: r /\ is_id i (JObj d) = true /\
     has_status e (JObj d) = true) \/
  (exists i, c = CRemove i /\ rows' = List.filter (fun r => negb (is_id i r)) rows).
Proof using Type.
  destruct c as [e|i f o a t x dl|i e t n o|i]; cbn [spec].
  - intros E. left. apply append_rows_inv in E as (d & id & ? & ? & ?). by exists d, id.
  - destruct (send_entry _ _ _ _ _ _ _) as [d0|]; [|done]. intros E. left.
    apply append_rows_inv in E as (d & id & ? & ? & ?). by exists d, id.
  - destruct (in_list t STATUSES); [|done].
    destruct (cas_rows i e t n o rows) as [[r1|]|] eqn:C; try done. intros [= <-].
    apply cas_rows_spec in C as (l & d & r & ? & ? & ? & ?). right. left.
    by exists i, e, t, n, o, l, d, r.
  - destruct (rfilter _ rows) as [rs|]; [|done]. destruct (_ =? _)%nat; [done|].
    intros [= <-]. right. right. by exists i.
Qed.

Lemma count_cons id r rows : count id (r :: rows) = ((if is_id id r then 1 else 0) + count id rows)%nat.
Proof using Type. unfold count. simpl. by destruct (is_id id r). Qed.

Lemma spec_unique c rows rows' : spec c rows = Some rows' -> unique_ids rows -> unique_ids rows'.
Proof using Type.
  intros Hs Hu id. specialize (Hu id).
  destruct (spec_cases _ _ _ Hs) as [(d & i & -> & Hd & Hz & _)|[(i&e&t&n&o&l&d&r & -> & -> & -> & _)|(i & -> & ->)]].
  - rewrite count_id_app, count_cons. unfold count at 2. simpl. rewrite Hd. simpl.
    destruct (String.eqb_spec i id) as [->|]; lia.
  - rewrite count_id_app, count_cons, cas_row_id in *. exact Hu.
  - etransitivity; [|exact Hu]. unfold count. clear.
    induction rows as [|r rows IH]; simpl; [lia|].
    destruct (is_id i r), (is_id id r) eqn:E; simpl; rewrite ?E; simpl; lia.
Qed.

Definition settled_id (id : string) (rows : list json) : Prop :=
  count id rows = 1%nat /\ forall r, r ∈ rows -> is_id id r = true -> has_status "open" r = false.

(** A call that may reopen or drop the row of [id]. *)
Definition keeps (id : string) (c : call) : Prop :=
  match c with
  | CRemove i => i <> id
  | CCas i _ t _ _ => i = id -> t <> "open"
  | _ => True
  end.

Lemma is_id_inj i id r : is_id i r = true -> is_id id r = true -> i = id.
Proof using Type.
  destruct r; try done. simpl. destruct (dict_get "handoff_id" kvs) as [[]|]; try done. simpl.
  by intros ->%String.eqb_eq ->%String.eqb_eq.
Qed.

Lemma spec_settled id c rows rows' :
  spec c rows = Some rows' -> keeps id c -> settled_id id rows -> settled_id id rows'.
Proof using Type.
  intros Hs Hk [Hc Hst].
  destruct (spec_cases _ _ _ Hs) as [(d & i & -> & Hd & Hz & _)|[(i&e&t&n&o&l&d&r & -> & -> & -> & Hi & _)|(i & -> & ->)]].
  - assert (N : i <> id) by (intros ->; lia).
    assert (F : is_id id (JObj d) = false).
    { simpl. rewrite Hd. simpl. by apply String.eqb_neq. }
    split.
    + rewrite count_id_app, count_cons, F. unfold count at 2. simpl. lia.
    + intros r [Hr|Hr]%elem_of_app Hid; [by apply Hst|].
      apply list_elem_of_singleton in Hr as ->. by rewrite F in Hid.
  - simpl in Hk. split.
    + rewrite count_id_app, count_cons, cas_row_id in *. exact Hc.
    + intros x [Hx|[->|Hx]%elem_of_cons]%elem_of_app Hid.
      * apply Hst; [|done]. apply elem_of_app. by left.
      * rewrite cas_row_id in Hid. rewrite cas_row_status. apply String.eqb_neq.
        apply Hk. by eapply is_id_inj.
      * apply Hst; [|done]. apply elem_of_app. right. by right.
  - simpl in Hk. split.
    + rewrite <- Hc. unfold count. clear -Hk.
      induction rows as [|r rows IH]; simpl; [done|].
      destruct (is_id i r) eqn:E1; destruct (is_id id r) eqn:E2; simpl; rewrite ?E2; simpl; try lia.
      by destruct (Hk (is_id_inj _ _ _ E1 E2)).
    + intros r Hr. apply Hst. apply list_elem_of_In, filter_In in Hr as [Hr _]. by apply list_elem_of_In.
Qed.

Lemma win_settles id t n o rows rows' :
  spec (CCas id "open" t n o) rows = Some rows' -> t <> "open" -> unique_ids rows ->
  settled_id id rows'.
Proof using Type.
  intros Hs Ht Hu. destruct (spec_cases _ _ _ Hs)
    as [(d & i & _ & _ & _ & Hno)|[(i&e&t'&n'&o'&l&d&r & [= <- <- <- <- <-] & -> & -> & Hi & _)|(i & ? & _)]];
    [| |done].
  - by destruct (Hno id "open" t n o).
  - pose proof (Hu id) as H1. rewrite count_id_app, count_cons, Hi in H1.
    assert (Hno : forall x, x ∈ l \/ x ∈ r -> is_id id x = false).
    { intros x Hx. destruct (is_id id x) eqn:E; [|done]. exfalso.
      assert (Hpos : forall k, x ∈ k -> (1 <= count id k)%nat).
      { intros k (k1 & k2 & ->)%list_elem_of_split. rewrite count_id_app, count_cons, E. lia. }
      destruct Hx as [Hx|Hx]; apply Hpos in Hx; lia. }
    split.
    + rewrite count_id_app, count_cons, cas_row_id, Hi. lia.
    + intros x [Hx|[->|Hx]%elem_of_cons]%elem_of_app Hid.
      * by rewrite Hno in Hid by (by left).
      * rewrite cas_row_status. by apply String.eqb_neq.
      * by rewrite Hno in Hid by (by right).
Qed.

(** Winning transitions out of [open] for [id] along a sequence of calls. *)
Definition takes (id : string) (c : call) : bool :=
  match c with CCas i e _ _ _ => String.eqb i id && String.eqb e "open" | _ => false end.
Fixpoint wins (id : string) (cs : list call) (st : files) : nat :=
  match cs with
  | [] => 0
  | c :: rest =>
      let '(x, st') := exec c st in
      ((if takes id c then match x with Ok true => 1 | _ => 0 end else 0) + wins id rest st')%nat
  end.

Lemma settled_no_wins id cs st rows :
  represents st rows -> settled_id id rows ->
  Forall call_portable cs -> Forall (keeps id) cs -> wins id cs st = 0%nat.
Proof using Type.
  intros Hr Hs Hp Hk. revert st rows Hr Hs.
  induction Hp as [|c cs Hc Hp IH]; intros st rows Hr Hs; [done|]. inversion_clear Hk as [|? ? K Hk'].
  destruct (exec_represents c st rows Hr Hc) as (rows' & W & D & T & _). simpl.
  destruct (exec c st) as [x st'] eqn:E. simpl in *.
  assert (Hs' : settled_id id rows').
  { destruct D as [->|D]; [done|]. by eapply spec_settled. }
  rewrite (IH Hk' st' rows' W Hs'). destruct (takes id c) eqn:Et; [|lia].
  destruct c as [| |i e t n o|]; try done. simpl in Et.
  apply andb_true_iff in Et as [->%String.eqb_eq ->%String.eqb_eq].
  destruct x as [[]|]; [|lia..]. exfalso. specialize (T eq_refl).
  destruct (spec_cases _ _ _ T) as [(d & i & _ & _ & _ & N)|[(i&e&t'&n'&o'&l&d&r & [= <- <- <- <- <-] & E1 & _ & Hi & Ho)|(i & N & _)]];
    [by destruct (N id "open" t n o)| |done].
  destruct Hs as [_ Hs]. rewrite (Hs (JObj d)) in Ho; [done| |done].
  rewrite E1. apply elem_of_app. right. left.
Qed.


(** C29: A handoff leaves [open] at most once: along any sequence of calls
    that never reopens or removes the row, whatever write or mirror failures
    occur, at most one transition out of [open] is answered [true]. The rows of
    the ledger, with ids of their own, and those the calls write are portable (as
    in the refinement above). *)
Theorem escalation_is_at_most_once id cs st rows :
  represents st rows -> unique_ids rows ->
  Forall call_portable cs -> Forall (keeps id) cs -> (wins id cs st <= 1)%nat.
Proof.
  intros Hr Hu Hp Hk. revert st rows Hr Hu.
  induction Hp as [|c cs Hc Hp IH]; intros st rows Hr Hu; [simpl; lia|].
  inversion_clear Hk as [|? ? K Hk'].
  destruct (exec_represents c st rows Hr Hc) as (rows' & W & D & T & _). simpl.
  destruct (exec c st) as [x st'] eqn:E. simpl in *.
  assert (Hu' : unique_ids rows').
  { destruct D as [->|D]; [done|]. by eapply spec_unique. }
  destruct (takes id c) eqn:Et; [|by eapply IH].
  destruct x as [[]|]; try (by eapply IH).
  destruct c as [| |i e t n o|]; try done. simpl in Et.
  apply andb_true_iff in Et as [->%String.eqb_eq ->%String.eqb_eq]. specialize (T eq_refl).
  rewrite (settled_no_wins id cs st' rows'); [lia|done| |done|done].
  eapply win_settles; [done| |done]. by apply K.
Qed.

(** Every row of the ledger has an id of its own: no sequence of calls
    creates a second row with an id that is there, failures included. *)
Theorem ids_stay_unique cs st rows :
  represents st rows -> unique_ids rows -> Forall call_portable cs ->
  exists rows', represents (fold_left (fun s c => (exec c s).2) cs st) rows' /\ unique_ids rows'.
Proof.
  intros Hr Hu Hp. revert st rows Hr Hu.
  induction Hp as [|c cs Hc Hp IH]; intros st rows Hr Hu; [by exists rows|]. simpl.
  destruct (exec_represents c st rows Hr Hc) as (rows' & W & D & _).
  apply (IH _ rows' W). destruct D as [->|D]; [done|]. by eapply spec_unique.
Qed.

(** *** Deadlines *)

Lemma clamp_range x :
  (inject_Z DEADLINE_MIN_SECONDS <= clamp_deadline_seconds x)%Q /\
  (clamp_deadline_seconds x <= inject_Z DEADLINE_MAX_SECONDS)%Q.
Proof using Type.
  unfold clamp_deadline_seconds.
  assert (L : (inject_Z DEADLINE_MIN_SECONDS <= inject_Z DEADLINE_MAX_SECONDS)%Q) by done.
  destruct x as [q|[]]; try (split; apply Qle_bool_iff; reflexivity).
  destruct (Qltb q (inject_Z DEADLINE_MAX_SECONDS)) eqn:E1.
  - apply Qltb_lt in E1. destruct (Qltb (inject_Z DEADLINE_MIN_SECONDS) q) eqn:E2.
    + apply Qltb_lt in E2. by split; apply Qlt_le_weak.
    + split; [apply Qle_refl|done].
  - split; apply Qle_bool_iff; reflexivity.
Qed.

(** At least the minimum and at most the maximum lifetime after it was opened. *)
Definition due_in_bounds (opened due : datetime) : Prop :=
  DEADLINE_MIN_SECONDS * 1000000 <= instant due - instant opened <= DEADLINE_MAX_SECONDS * 1000000.

(** C30: A validated row is due between six minutes and four hours after it was
    opened, to the microsecond, whatever deadline was asked for; validation
    changes nothing else of it. *)
Theorem deadline_is_clamped entry d :
  validate_entry entry = Ok d ->
  exists d0 opened due, entry = JObj d0 /\
    parse_ts (from_option py_str "" (dict_get "opened_ts_utc" d0)) = Ok opened /\
    dict_get "deadline_utc" d = Some (JStr (isoformat (to_utc due))) /\
    due_in_bounds opened due /\
    forall k, k <> "deadline_utc" -> dict_get k d = dict_get k d0.
Proof.
  intros (d0 & -> & Hc & _)%validate_inv. unfold clamp_deadline, str_item, item in Hc.
  exists d0. destruct (dict_get "opened_ts_utc" d0) as [v|]; [|done]. cbn [rbind] in Hc.
  destruct (parse_ts (py_str v)) as [opened|] eqn:Eo; [|done]. cbn [rbind] in Hc.
  destruct (dict_get "deadline_utc" d0) as [w|]; [|done]. cbn [rbind] in Hc.
  destruct (parse_ts (py_str w)) as [deadline|]; [|done]. cbn [rbind] in Hc. cbv zeta in Hc.
  apply rbind_ok in Hc as ([] & _ & Hc). apply rbind_ok in Hc as (due & Hdue & Hc).
  unfold iso in Hc. apply rbind_ok in Hc as (txt & Ht & [= <-]). apply rbind_ok in Ht as (u & Hu & [= <-]).
  unfold dt_to_utc in Hu. destruct (in_range (instant due)); [|done]. injection Hu as <-.
  exists opened, due. split; [done|]. split; [done|]. split; [by rewrite dict_get_put|]. split.
  - unfold dt_plus in Hdue. destruct (in_range _); [|done]. injection Hdue as <-.
    assert (Ei : forall d us, instant (dt_add d us) = instant d + us)
      by (intros [wl [o|]] us; unfold instant; simpl; lia).
    unfold due_in_bounds. rewrite Ei. destruct (clamp_range (Fin (truediv (instant deadline - instant opened) 1000000))) as [R1 R2].
    pose proof (seconds_us_bounds _ DEADLINE_MIN_SECONDS DEADLINE_MAX_SECONDS ltac:(done) R1 R2). lia.
  - intros k Hk. rewrite dict_get_put. by destruct (String.eqb_spec k "deadline_utc").
Qed.

(** *** Draining *)

Lemma substring_middle a b c :
  String.substring (String.length a) (String.length b) (a +:+ b +:+ c) = b.
Proof using Type.
  assert (Hb : forall b c, String.substring 0 (String.length b) (String.append b c) = b).
  { clear. intros b c. induction b as [|y b IH]; simpl; [by destruct c|]. by rewrite IH. }
  induction a as [|x a IH]; [exact (Hb b c)|exact IH].
Qed.

Lemma contains_middle pat a b : pat <> "" -> contains pat (a +:+ pat +:+ b) = true.
Proof using Type.
  intros Hp. unfold contains. destruct (String.index 0 pat (a +:+ pat +:+ b)) eqn:E; [done|].
  exfalso. apply (String.index_correct3 0 (String.length a)) in E; [|done|lia].
  by rewrite substring_middle in E.
Qed.

(** The row a request asks for. *)
Definition request_entry (line : text) : option dict :=
  match loads line with
  | Ok (JObj req) =>
      if py_bool (py_or (dict_get "send_id" req) JNull) && py_bool (py_or (dict_get "opened_ts_utc" req) JNull)
      then
        match request_deadline req with
        | Ok dl =>
            match send_entry (text_or req "send_id" "") (text_or req "from_agent" "unknown")
                    (text_or req "owner_agent" "unknown") (text_or req "action" "task handoff")
                    (text_or req "opened_ts_utc" "") (text_or req "expected_artifact" "") dl with
            | Ok d => match validate_entry (JObj d) with Ok d' => Some d' | Err _ => None end
            | Err _ => None
            end
        | Err _ => None
        end
      else None
  | _ => None
  end.
Definition handle : text -> files -> request_outcome * files := handle_request environ canonical fault.
Definition row_id (d : dict) : string := match dict_get "handoff_id" d with Some v => py_str v | None => "" end.

(** A request that asks for no row is answered without touching the files; one
    that does asks [append_handoff] for it. *)
Lemma handle_no_entry line :
  request_entry line = None -> exists o, forall st, handle line st = (o, st) /\ o <> Advance true.
Proof using Type.
  unfold request_entry, handle, handle_request. intros E.
  destruct (loads line) as [j|e].
  2: { destruct (is_subclass _ _); eexists; intros st; by split. }
  destruct j as [| | | | | | |req]; try (eexists; intros st; by split).
  destruct (_ && _); [|eexists; intros st; by split].
  destruct (request_deadline req) as [dl|e]; [|eexists; intros st; by split].
  unfold open_from_send, bind, lift. destruct (send_entry _ _ _ _ _ _ dl) as [d|e] eqn:Es.
  2: { destruct (_ || _); eexists; intros st; by split. }
  destruct (validate_entry (JObj d)) as [|e] eqn:Ev; [done|].
  unfold append_once, append_handoff, bind, lift. rewrite Ev.
  destruct (is_subclass _ LedgerError && _); [eexists; intros st; by split|].
  destruct (_ || _); eexists; intros st; by split.
Qed.

Lemma handle_entry line d :
  request_entry line = Some d ->
  exists entry, validate_entry entry = Ok d /\ forall st,
    handle line st =
      match append_handoff environ canonical fault entry st with
      | (Ok _, st') => (Advance true, st')
      | (Err e, st') =>
          if is_subclass (exn_class e) LedgerError && contains "already exists" (exn_msg e)
          then (Advance false, st')
          else if is_subclass (exn_class e) LedgerError || is_subclass (exn_class e) ValueError
          then (Advance false, st') else (Hold, st')
      end.
Proof using Type.
  unfold request_entry, handle, handle_request. intros E.
  destruct (loads line) as [j|e]; [|done]. destruct j as [| | | | | | |req]; try done.
  destruct (_ && _); [|done]. destruct (request_deadline req) as [dl|e]; [|done].
  unfold open_from_send, bind, lift. destruct (send_entry _ _ _ _ _ _ dl) as [d0|e] eqn:Es; [|done].
  destruct (validate_entry (JObj d0)) as [d1|e] eqn:Ev; [|done]. injection E as ->.
  exists (JObj d0). split; [done|]. intros st. unfold append_once.
  destruct (append_handoff _ _ _ _ st) as [[x|e] st']; [done|]. by destruct (_ && _).
Qed.

Lemma has_id_portable id rows :
  Forall (fun r => portable r = true) rows -> exists b, has_id id rows = Ok b.
Proof using Type.
  induction 1 as [|r rows Hr _ [b IH]]; simpl; [by eexists|].
  destruct r as [| | | | | | |d]; try done. simpl. destruct (eq_str _ id); [by eexists|]. by exists b.
Qed.

Lemma count_pos_has_id id rows :
  Forall (fun r => portable r = true) rows -> (1 <= count id rows)%nat -> has_id id rows = Ok true.
Proof using Type.
  intros HF Hc. destruct (has_id_portable id rows HF) as [[] E]; [done|].
  apply has_id_spec in E; [lia|done].
Qed.

(** A row that is there is not opened again: the request is passed over and
    the files are left alone. *)
Lemma handle_duplicate line d st rows :
  legacy -> represents st rows -> request_entry line = Some d ->
  (1 <= count (row_id d) rows)%nat -> handle line st = (Advance false, st).
Proof using Type.
  intros L [Hr Hp] E Hc. destruct (handle_entry line d E) as (entry & Hv & Hh). rewrite Hh.
  destruct (validated_id _ _ Hv) as [id Hid]. unfold row_id in Hc. rewrite Hid in Hc. simpl in Hc.
  assert (Hi : str_item d "handoff_id" = Ok id) by (unfold str_item, item; by rewrite Hid).
  rewrite (append_shape entry st rows d Hr Hv None id true L Hi (count_pos_has_id id rows Hp Hc)).
  unfold commit, bind, ret. cbn [mirror_kernel_after_legacy_write rbind require_ negb].
  cbn [exn_class exn_msg]. change (is_subclass LedgerError LedgerError) with true. cbn [andb].
  assert (Hm : contains "already exists"
    ("handoff_id " +:+ repr id +:+ " already exists " +:+ emdash +:+ " open is at-most-once") = true).
  { replace ("handoff_id " +:+ repr id +:+ " already exists " +:+ emdash +:+ " open is at-most-once")
      with (("handoff_id " +:+ repr id +:+ " ") +:+ "already exists" +:+
            (" " +:+ emdash +:+ " open is at-most-once")); [by apply contains_middle|].
    apply chars_inj. rewrite !chars_app, <- !app_assoc. reflexivity. }
  by rewrite Hm.
Qed.

(** Write failures that the drain retries: not of a class it skips on. *)
Definition transient (e : exn) : Prop :=
  is_subclass (exn_class e) LedgerError || is_subclass (exn_class e) ValueError = false.

Lemma handle_advance line b st st' rows :
  legacy -> (forall n e, fault n = Some e -> transient e) ->
  represents st rows -> (forall d, request_entry line = Some d -> portable (JObj d) = true) ->
  handle line st = (Advance b, st') ->
  exists rows', represents st' rows' /\ rows `prefix_of` rows' /\
    forall d, request_entry line = Some d -> (1 <= count (row_id d) rows')%nat.
Proof using Type.
  intros L Hf Hr Hp E. destruct (request_entry line) as [d|] eqn:Ee.
  2: { destruct (handle_no_entry line Ee) as [o Ho]. destruct (Ho st) as [Eo _].
       rewrite Eo in E. injection E as _ <-. by exists rows. }
  destruct (handle_entry line d Ee) as (entry & Hv & Hh). specialize (Hp d eq_refl).
  destruct (validated_id _ _ Hv) as [id Hid].
  assert (Hi : str_item d "handoff_id" = Ok id) by (unfold str_item, item; by rewrite Hid).
  assert (Hrow : row_id d = id) by (unfold row_id; by rewrite Hid).
  destruct (has_id_portable id rows (proj2 Hr)) as [dup Hd].
  rewrite Hh, (append_shape entry st rows d (proj1 Hr) Hv None id dup L Hi Hd) in E.
  unfold commit, bind, ret in E. destruct dup.
  - exists rows. assert (st' = st) as ->.
    { cbn [mirror_kernel_after_legacy_write rbind require_ negb] in E.
      destruct (_ && _) in E; [by injection E as _ <-|]. by destruct (_ || _) in E; injection E as _ <-. }
    split; [done|]. split; [done|]. intros d' [= <-]. rewrite Hrow. by apply has_id_true.
  - unfold atomic_write_all in E. destruct (fault (writes st)) as [e|] eqn:F.
    + specialize (Hf _ _ F). unfold transient in Hf. cbn [rbind] in E. rewrite Hf in E.
      apply orb_false_iff in Hf as [Hf _]. by rewrite Hf in E.
    + cbn [mirror_kernel_after_legacy_write rbind require_ negb] in E. injection E as _ <-.
      exists (rows ++ [JObj d]). split; [split|split].
      * apply read_render, Forall_app. split; [apply Hr|]. by apply Forall_singleton.
      * apply Forall_app. split; [apply Hr|]. by apply Forall_singleton.
      * by eexists.
      * intros d' [= <-]. rewrite count_id_app, count_cons, Hrow. simpl. rewrite Hid. simpl.
        rewrite String.eqb_refl. lia.
Qed.

Lemma count_prefix id rows rows' : rows `prefix_of` rows' -> (count id rows <= count id rows')%nat.
Proof using Type. intros [k ->]. rewrite count_id_app. lia. Qed.

(** Once past a request, always past it. *)
Definition passed (line : text) (rows : list json) : Prop :=
  (forall d, request_entry line = Some d -> (1 <= count (row_id d) rows)%nat) /\
  (request_entry line = None -> forall st, handle line st = (Advance false, st)).

Lemma passed_prefix line rows rows' : rows `prefix_of` rows' -> passed line rows -> passed line rows'.
Proof using Type.
  intros P [Hp1 Hp2]. split; [|done]. intros d E. specialize (Hp1 d E).
  pose proof (count_prefix (row_id d) rows rows' P). lia.
Qed.

Lemma handle_passed line st rows :
  legacy -> represents st rows -> passed line rows -> handle line st = (Advance false, st).
Proof using Type.
  intros L Hr [Hp1 Hp2]. destruct (request_entry line) as [d|] eqn:E; [|by apply Hp2].
  eapply handle_duplicate; try done. by apply Hp1.
Qed.

(** Whatever the outcome, rows are only added. *)
Lemma handle_state line st rows :
  represents st rows -> (forall d, request_entry line = Some d -> portable (JObj d) = true) ->
  exists rows', represents (handle line st).2 rows' /\ rows `prefix_of` rows'.
Proof using Type.
  intros Hr Hp. destruct (request_entry line) as [d|] eqn:E.
  2: { destruct (handle_no_entry line E) as [o Ho]. destruct (Ho st) as [-> _]. by exists rows. }
  destruct (handle_entry line d E) as (entry & Hv & Hh).
  destruct (exec_represents (CAppend entry) st rows Hr) as (rows' & W & D & _).
  { intros d' Hd'. rewrite Hv in Hd'. injection Hd' as <-. by apply Hp. }
  exists rows'. rewrite Hh. unfold exec, bind, ret in W. cbn [spec] in D.
  destruct (append_handoff environ canonical fault entry st) as [[x|e] st']; simpl in W.
  - split; [done|]. destruct D as [->|D]; [done|].
    apply append_rows_inv in D as (d1 & id & -> & _). by eexists.
  - split; [by destruct (_ && _); [|destruct (_ || _)]|]. destruct D as [->|D]; [done|].
    apply append_rows_inv in D as (d1 & id & -> & _). by eexists.
Qed.

Lemma drain_loop_spec ls opened done_ st st' o p rows :
  legacy -> (forall n e, fault n = Some e -> transient e) -> represents st rows ->
  (forall l d, l ∈ ls -> request_entry l = Some d -> portable (JObj d) = true) ->
  drain_loop environ canonical fault ls opened done_ st = (Ok (o, p), st') ->
  exists k rows', (k <= List.length ls)%nat /\ p = done_ + Z.of_nat k /\ represents st' rows' /\
    rows `prefix_of` rows' /\ forall l, l ∈ take k ls -> passed l rows'.
Proof using Type.
  intros L Hf Hr Hp. revert opened done_ st rows Hr. induction ls as [|l ls IH]; intros opened done_ st rows Hr E.
  - injection E as <- <- <-. exists 0%nat, rows. split; [done|]. split; [lia|]. split; [done|].
    split; [done|]. by intros l ?%elem_of_nil.
  - cbn [drain_loop] in E. change (handle_request environ canonical fault l st) with (handle l st) in E.
    destruct (handle l st) as [[new| |e] st1] eqn:Eh; [| |done].
    + destruct (handle_advance l new st st1 rows L Hf Hr) as (rows1 & W & P & Hc); [|done|].
      { intros d. apply Hp. left. }
      destruct (IH ltac:(intros l' d Hl'; apply Hp; by right) _ _ _ _ W E)
        as (k & rows' & Hk & -> & W' & P' & Hall).
      exists (S k), rows'. split; [simpl; lia|]. split; [lia|]. split; [done|].
      split; [by etransitivity|]. intros l' [->|Hl']%elem_of_cons; [|by apply Hall].
      eapply passed_prefix; [exact P'|]. split; [done|]. intros En.
      destruct (handle_no_entry l En) as [oc Ho]. intros st2. destruct (Ho st2) as [-> Hno].
      destruct (Ho st) as [Es _]. rewrite Eh in Es. injection Es as <- _. by destruct new.
    + injection E as <- <- <-.
      destruct (handle_state l st rows Hr) as (rows1 & W & P); [intros d; apply Hp; left|].
      rewrite Eh in W. simpl in W.
      exists 0%nat, rows1. split; [apply Nat.le_0_l|]. split; [lia|].
      split; [done|]. split; [done|]. by intros l' ?%elem_of_nil.
Qed.

Lemma drain_loop_passed ls opened done_ st rows :
  legacy -> represents st rows -> (forall l, l ∈ ls -> passed l rows) ->
  drain_loop environ canonical fault ls opened done_ st
  = (Ok (opened, done_ + Z.of_nat (List.length ls)), st).
Proof using Type.
  intros L Hr Hp. revert done_. induction ls as [|l ls IH]; intros done_; [by rewrite Z.add_0_r|].
  cbn [drain_loop]. change (handle_request environ canonical fault l st) with (handle l st).
  rewrite (handle_passed l st rows L Hr) by (apply Hp; left).
  rewrite IH by (intros l' Hl'; apply Hp; by right). 
  replace (done_ + 1 + Z.of_nat (List.length ls)) with (done_ + Z.of_nat (List.length (l :: ls)));
    [done|]. cbn [List.length]. lia.
Qed.

(** Draining is idempotent: once the drain has got past requests, draining
    them again from any later ledger - a cursor lost, a log rewritten - opens
    nothing and leaves the files alone; and every request it got past that
    asks for a row has its row. *)
Theorem redraining_opens_nothing ls st st1 o n rows :
  legacy -> (forall k e, fault k = Some e -> transient e) ->
  represents st rows ->
  (forall l d, l ∈ ls -> request_entry l = Some d -> portable (JObj d) = true) ->
  drain_loop environ canonical fault ls 0 0 st = (Ok (o, n), st1) ->
  exists rows1, represents st1 rows1 /\
    (forall l d, l ∈ take (Z.to_nat n) ls -> request_entry l = Some d ->
       (1 <= count (row_id d) rows1)%nat) /\
    forall st2 rows2, represents st2 rows2 -> rows1 `prefix_of` rows2 ->
      drain_loop environ canonical fault (take (Z.to_nat n) ls) 0 0 st2 = (Ok (0, n), st2).
Proof.
  intros L Hf Hr Hp E. destruct (drain_loop_spec ls 0 0 st st1 o n rows L Hf Hr Hp E)
    as (k & rows1 & Hk & -> & W & P & Hall). rewrite Z.add_0_l, Nat2Z.id.
  exists rows1. split; [done|]. split.
  - intros l d Hl Ed. by apply (Hall l Hl).
  - intros st2 rows2 W2 P2. rewrite (drain_loop_passed _ 0 0 st2 rows2 L W2).
    + rewrite length_take, Nat.min_l by done. done.
    + intros l Hl. eapply passed_prefix; [exact P2|by apply Hall].
Qed.
End refinement.

(** ** Runs *)

Module LedgerDemo.

(** No kernel plane configured: the legacy path. *)
#[export] Instance no_plane : KernelPlane := {|
  plane := unit; conninfo := unit;
  conninfo_to_dict _ := Err (Exn ValueError "no psycopg");
  sync_authoritative_file _ _ _ p := (Ok "clean", p);
  read_verified_kernel_rows _ _ _ _ := Ok [];
|}.
Definition env : gmap string string := ∅.
Definition no_fault (n : nat) : option exn := None.
Definition empty : files := Files None None None 0 tt.

Definition row (id note : string) (asked : Z) : json := JObj [
  ("handoff_id", JStr id); ("from_agent", JStr "cos"); ("owner_agent", JStr "ccto");
  ("action", JStr "review"); ("expected_artifact", JStr "verdict");
  ("opened_ts_utc", JStr "2026-07-01T00:00:00+00:00");
  ("deadline_utc", JStr (if asked =? 1 then "2026-07-01T00:00:01Z" else "2026-07-01T02:00:00Z"));
  ("status", JStr "open"); ("closed_ts_utc", JStr ""); ("evidence_ptr", JStr "");
  ("note", JStr note)].

Definition validated (d : dict) : bool :=
  match validate_entry (JObj d) with Ok d' => portable (JObj d') | Err _ => false end.

(** One second asked for, six minutes given. *)
Lemma clamped_run :
  option_map (dict_get "deadline_utc")
    (match validate_entry (row "h1" "" 1) with Ok d => Some d | Err _ => None end)
  = Some (Some (JStr "2026-07-01T00:06:00+00:00")).
Proof. vm_compute. reflexivity. Qed.

Definition h1 : dict := Eval vm_compute in
  match validate_entry (row "h1" "" 1) with Ok d => d | Err _ => [] end.
Lemma h1_valid : validate_entry (row "h1" "" 1) = Ok h1.
Proof. vm_compute. reflexivity. Qed.

Definition filed : files := (append_handoff env false no_fault (row "h1" "" 1) empty).2.

Lemma filed_represents : represents filed [JObj h1].
Proof. split; [vm_compute; reflexivity|]. constructor; [vm_compute; reflexivity|constructor]. Qed.

Lemma empty_represents : represents empty [].
Proof. by split. Qed.

Lemma filed_unique : unique_ids [JObj h1].
Proof.
  intros id. rewrite count_cons. change (count id []) with 0%nat. destruct (is_id id (JObj h1)); lia.
Qed.

Lemma h1_portable : entry_portable (row "h1" "" 1).
Proof. intros d Hd. rewrite h1_valid in Hd. apply Ok_inj in Hd as <-. vm_compute. reflexivity. Qed.

(** Two sweeps past the deadline, then the close. *)
Definition calls : list call :=
  [CCas "h1" "open" "escalated" "2026-07-01T03:00:00Z" "";
   CCas "h1" "open" "escalated" "2026-07-01T03:03:00Z" "";
   CCas "h1" "open" "closed" "2026-07-01T04:00:00Z" "";
   CCas "h1" "escalated" "closed" "2026-07-01T04:00:00Z" "done"].
Lemma calls_portable : Forall call_portable calls.
Proof. repeat constructor. Qed.
Lemma calls_keep : Forall (keeps "h1") calls.
Proof. repeat constructor; done. Qed.
Lemma calls_win_once : wins env false no_fault "h1" calls filed = 1%nat.
Proof. vm_compute. reflexivity. Qed.

(** *** What the code does not survive *)

(** A note with U+0085 splits its row in two corrupt lines: the row is written
    and answered as opened, and is not there for the next reader; opening it
    again succeeds. *)
Definition nel : string := of_chars [chr 133].
Lemma nel_row_is_lost :
  let '(r, st) := append_handoff env false no_fault (row "h2" ("a" +:+ nel +:+ "b") 2) empty in
  is_ok r = true /\ read_all (ledger st) = Ok [] /\
  is_ok (append_handoff env false no_fault (row "h2" "" 2) st).1 = true.
Proof. vm_compute. auto. Qed.

Definition request (ts : string) : text := show true (JObj [
  ("send_id", JStr "s1"); ("owner_agent", JStr "ccto"); ("opened_ts_utc", JStr ts);
  ("expected_artifact", JStr "report")]).

(** A request stamped in the last hours of year 9999 overflows the deadline;
    [OverflowError] is no [ValueError], so the cursor is held there for good. *)
Lemma overflowing_request_holds_the_drain :
  forall st, handle env false no_fault (request "9999-12-31T23:59:59+00:00") st = (Hold, st).
Proof. intros st. vm_compute. reflexivity. Qed.

(** A misconfigured kernel pointer is a [LedgerError]: the drain takes it for
    bad data and skips the request instead of holding it. *)
Definition bad_env : gmap string string := {["FLEET_KERNEL_HANDOFF_READ_MODE" := "kernal"]}.
Lemma config_error_skips_the_request :
  handle bad_env false no_fault (request "2026-07-01T00:00:00+00:00") empty = (Advance false, empty).
Proof. vm_compute. reflexivity. Qed.

(** A ledger line that is JSON but no object stops every change. *)
Lemma foreign_line_blocks_the_ledger :
  let st := Files (Some (chars "5" ++ [lf])) None None 0 tt in
  append_handoff env false no_fault (row "h1" "" 1) st
  = (Err (Exn AttributeError "object has no attribute 'get'"), st).
Proof. vm_compute. reflexivity. Qed.

(** Two requests, the second a repeat. *)
Definition requests_ : list text :=
  [request "2026-07-01T00:00:00+00:00"; request "2026-07-01T00:00:00+00:00"; chars "{"].
Definition drained : files := (drain_loop env false no_fault requests_ 0 0 empty).2.
Lemma drain_run : drain_loop env false no_fault requests_ 0 0 empty = (Ok (1, 3), drained).
Proof. vm_compute. reflexivity. Qed.
Lemma requests_portable l d :
  l ∈ requests_ -> request_entry l = Some d -> portable (JObj d) = true.
Proof.
  intros Hl. assert (H : forallb (fun l => match request_entry l with
    | Some d => portable (JObj d) | None => true end) requests_ = true) by (vm_compute; reflexivity).
  rewrite forallb_forall in H. specialize (H l). rewrite <- list_elem_of_In in H. specialize (H Hl).
  intros E. by rewrite E in H.
Qed.

End LedgerDemo.
Export (hints) LedgerDemo.


Lemma escalation_is_at_most_once_witness :
  (wins LedgerDemo.env false LedgerDemo.no_fault "h1" LedgerDemo.calls LedgerDemo.filed <= 1)%nat.
Proof.
  exact (escalation_is_at_most_once LedgerDemo.env false LedgerDemo.no_fault "h1" LedgerDemo.calls
    LedgerDemo.filed _ LedgerDemo.filed_represents LedgerDemo.filed_unique LedgerDemo.calls_portable
    LedgerDemo.calls_keep).
Defined.

Lemma ids_stay_unique_witness :
  exists rows', represents (fold_left (fun s c => (exec LedgerDemo.env false LedgerDemo.no_fault c s).2)
    [CAppend (LedgerDemo.row "h1" "" 1)] LedgerDemo.filed) rows' /\ unique_ids rows'.
Proof.
  exact (ids_stay_unique LedgerDemo.env false LedgerDemo.no_fault [CAppend (LedgerDemo.row "h1" "" 1)]
    LedgerDemo.filed _ LedgerDemo.filed_represents LedgerDemo.filed_unique
    ltac:(constructor; [exact LedgerDemo.h1_portable|constructor])).
Defined.

Lemma deadline_is_clamped_witness :
  exists due, dict_get "deadline_utc" LedgerDemo.h1 = Some (JStr (isoformat (to_utc due))).
Proof.
  destruct (deadline_is_clamped _ _ LedgerDemo.h1_valid) as (_ & _ & due & _ & _ & E & _).
  by exists due.
Defined.

Lemma redraining_opens_nothing_witness :
  exists rows1, represents LedgerDemo.drained rows1 /\
    drain_loop LedgerDemo.env false LedgerDemo.no_fault LedgerDemo.requests_ 0 0 LedgerDemo.drained
    = (Ok (0, 3), LedgerDemo.drained).
Proof.
  destruct (redraining_opens_nothing LedgerDemo.env false LedgerDemo.no_fault LedgerDemo.requests_
    LedgerDemo.empty LedgerDemo.drained 1 3 [] eq_refl ltac:(done) LedgerDemo.empty_represents
    LedgerDemo.requests_portable LedgerDemo.drain_run) as (rows1 & W & _ & Again).
  exists rows1. split; [exact W|]. exact (Again LedgerDemo.drained rows1 W (reflexivity rows1)).
Defined.
